(* ===== verification/_CoqProject ===== *)
-Q . S2P
Prelude.v
Bitmap.v
Intr.v
DList.v
ListHeap.v
Paging.v
Thread.v
Sync.v
Mutex.v
Stacks.v
Screen.v
Console.v
Irq.v
Timer.v
CString.v
Stdio.v
Print.v
Ioqueue.v
Keyboard.v
Pages.v
UserPages.v
FsTypes.v
Blocks.v
Inode.v
FileOps.v
FileWrite.v
FileTail.v
Path.v
Dir.v
Fs.v
PathSearch.v
OpenClose.v
Create.v
FileCalls.v
Format.v
Main.v
Heap.v
Threads.v
Ide.v
Tss.v
Shell.v
Syscall.v
Process.v
Boot.v
Fork.v
