(* ===== verification/Prelude.v ===== *)
(** * A verification of zhuOS

    zhuOS is a small teaching kernel for a 32-bit PC, in C: page and heap
    allocators, threads with a round-robin scheduler, semaphores and locks, a
    keyboard and an IDE driver, a Unix-like file system, and user processes with
    fork. This library models the routines of src/ as executable functions of an
    explicit state and proves what they do, where they go wrong included. This
    first file describes the whole, and holds what the components share.

    ** How the code is modelled

    A routine is a function of the monad [M S A] below, over the state [S] of its
    component. Its outcome is [Ok] (it returns), [Panic] (an ASSERT fails, or
    PANIC: the kernel stops), [Fault] (it touches memory that the model does not
    own, or that is not mapped) or [NoFuel] (it does not come to an end within
    the rounds allowed, or waits for input that never comes). [zoom] runs a
    routine of one component on its part of a larger state. Integers are of type
    Z, with [u8], [u16], [u32], [s8] and [s16] at the places where the code
    stores or converts them. [wp m Q s] says that [m] run in [s] returns, and
    that [Q] holds of its result and the state it leaves; so every statement
    with [wp] or [= Ok] is one of total correctness.

    Loops of unknown length are [loop fuel body]. The fuel is always a bound
    taken from the code or the state: a bitmap's length plus two (bitmap_scan
    looks at one bit past its end), the number of nodes in memory for a list,
    the size of memory for a string, 32 digits for itoa, 30001 for busy_wait, 21
    entries for a sector of a directory, 12 slots per channel for the partitions.
    The theorems show that it is enough where the code terminates;
    [Dir.drop_indirect_block_diverges] shows that no fuel is enough where it does
    not.

    ** The files

    Memory and data structures:
    - [Bitmap]: lib/kernel/bitmap.c. The first run of free bits, and the read one
      bit past the map.
    - [DList], [ListHeap]: lib/kernel/list.c. The linked nodes are an address
      map; [dlist] abstracts a list to the sequence of its elements, [dheap] a
      memory with several disjoint lists. The clients use only [dheap].
    - [CString], [Stdio], [Print]: lib/string.c, lib/stdio.c (printf last) and
      lib/kernel/stdio-kernel.c, on byte memory.
    - [Paging]: the self-referencing page directory (kernel/memory.c, PDE_IDX to
      addr_v2p).
    - [Pages]: the pools of pages and the page tables (kernel/memory.c).
      [pages_ok] is their invariant: a page in use is mapped to a frame in use,
      and no two pages to the same one. [UserPages]: one page for a process
      (get_a_page), and what malloc_page does for a process that asks twice.
    - [Heap]: sys_malloc and sys_free, against the interface [PageSource] with
      the laws [PageSourceOk]; the instance at the end of the file shows that
      [Pages] provides it for kernel pages.

    Processor, threads and processes:
    - [Intr]: kernel/interrupt.c. The interrupt flag, the gates, the handlers.
      intr_entry_table is a list of 0x30 words, and the words that memory has
      behind it, which idt_desc_init reads, are another.
    - [Irq]: the interrupt controllers and the counter (pic_init, frequency_set),
      and the handler of exceptions.
    - [Tss]: userprog/tss.c. The segments of user code and the TSS.
    - [Thread]: thread/thread.c, thread/switch.S and the clock interrupt of
      device/timer.c. A routine that gives up the processor leaves the rest of
      its work on the stack of its thread, a list of [frame]s; [sched_inv] is the
      invariant of the ready list and the thread states.
    - [Sync], [Ioqueue], [Keyboard]: thread/sync.c, device/ioqueue.c and
      device/keyboard.c on top of it. A call that can wait is cut at the places
      where another thread can run.
    - [Mutex]: threads that share a lock, as a step relation with the clock
      interrupting anywhere; the invariant of its reachable states.
    - [Stacks]: what a routine leaves on the stacks of the threads.
    - [Screen], [Console]: lib/kernel/print.S as the characters it shows, and
      device/console.c as steps of the threads of [Mutex]. Who owns the console
      is not part of the state but of its invariant.
    - [Timer]: sleeping (device/timer.c) among the threads of [Mutex].
    - [Process], [Fork]: userprog/process.c and userprog/fork.c, over the states
      of [Pages], [Thread] and (fork) the file system. The window of the page
      tables shows the address space in use; [activate] exchanges it.
    - [Shell]: the table of system calls (userprog/syscall-init.c), its
      dispatch (kernel/kernel.S) and shell/shell.c. [Syscall]: the stubs of user
      programs (lib/user/syscall.c).
    - [Boot]: init_all (kernel/init.c) over one state of all it sets up.

    Disk and file system:
    - [Ide]: device/ide.c, from the ports up, against the interface [AtaDev] of a
      disk with the laws [AtaDevOk], the protocol of READ SECTOR(S) and WRITE
      SECTOR(S) word by word and with an interrupt for each sector; [sim_dev] has
      two instances. What is proved of ide_read and ide_write is what
      [FsTypes.ide_read] and [FsTypes.ide_write] assume, for one sector on every
      device, and for several on one that is [prompt].
    - [FsTypes]: the structures, their layout on disk, and the state [fsys].
    - [Blocks], [Inode], [FileOps], [Dir]: fs/file.c, fs/inode.c and fs/dir.c.
    - [FileWrite]: what a file system and a file on disk are ([part_ok], [fs_at],
      [file_on]), and file_write against them, every branch of its allocation.
      They want the block bitmap in memory to be that of the disk, which mounting
      does not leave. [FileTail]: file_write within the last block, whatever the
      bitmap. [FileCalls]: the calls on descriptors put together.
    - [Path], [Fs]: path names and the sys_ routines of fs/fs.c.
    - [PathSearch]: where a path leads by the directories on disk ([walks], an
      inductive relation), and search_file against it. [OpenClose]: sys_open and
      sys_close of files that exist. [Create]: file_create, and sys_open of a
      file that does not exist yet.
    - [Format]: partition_format, mount_partition and filesys_init.
    - [Main]: main of kernel/main.c, from the states that filesys_init leaves.
      [Threads]: the threads and programs of kernel/main.c, over the heap.

    ** What is shown

    - Allocators: bitmap_scan finds the first run that fits, and panics on a full
      map; for the kernel, malloc_page maps fresh frames to fresh pages and
      mfree_page undoes it; sys_malloc hands out cleared memory apart from all
      memory in use and sys_free takes back exactly that; the kernel threads of
      main.c leave the memory in use as it was. The pools that mem_pool_init lays
      out are disjoint.
    - Data structures against sequences: lists, ring buffers, strings, formats.
    - Start-up: from what the loader leaves, init_all gets to its intr_enable in
      a state with the invariants of the scheduler, the pages, the heap and the
      console that the other theorems start from.
    - Scheduling: schedule keeps [sched_inv] and goes round; a key wakes the
      thread that waits for it. Under preemption a lock lets one thread in at a
      time, and none of the assertions of the scheduler, the semaphores and the
      locks can fail. Messages on the console are whole. A thread that sleeps
      wakes after the time asked for, also when the counter wraps.
    - Address spaces: a new page directory shares the kernel's part and has no
      user page; fork gives the child a copy of every page in frames of its own
      and leaves the parent's address space as it was; user segments have
      privilege 3, gates privilege 0 but for the system call.
    - Files: what a read returns, what allocation, release, opening and closing
      do in memory and on disk, which entries a directory search finds, and
      that on-disk structures survive being written and read back. A write adds
      the bytes of the buffer behind the file in blocks that were free, leaves
      every file that shares no block with it as it was, and what it adds is
      read back through the descriptor. A path leads sys_open where the
      directories on disk say; a file that it creates is on disk and found by
      its path. After mounting, main says that there is no file, or adds its
      line within the last block of the file and leaves nothing open, or panics
      on a file without a block.
    - Driver: a transfer of one sector, and on a prompt device of any length,
      split in commands of at most 256 sectors, moves exactly the sectors asked
      for; on another device the sectors behind the first are junk.
    - Defects: a theorem for the behaviour of the code in each of the cases
      where it does not do what it is meant to (the second page of a user
      process, the gates made of what lies behind intr_entry_table, a disk that
      is slower than the driver, directories that cannot be read, the block bitmap that mounting
      loses, a directory block that is never freed, the shell's echo and its
      buffer, and others).

    ** Not modelled

    - boot/ (16-bit assembly before the kernel), and cr0 to cr3 as hardware.
      ide_init and filesys_init are modelled over states of their own, not
      joined to that of [Boot].
    - Where characters appear on the screen, and messages that routines print
      besides what they do.
    - Inside [Pages], [Heap] and [Ide] locks are seen from a caller that has the
      processor: how often it holds them, not who waits. [Sync] has the waiting.
    - What main does when its line needs another block behind the first.
    - The swap of pgdir around the allocations of the file system selects a
      memory pool; the file system takes the addresses it gets as an input. *)

From Stdlib Require Import ZArith Lia.
From stdpp Require Import base numbers list gmap option.

#[global] Open Scope Z_scope.

(** ** Results of kernel code

    [Ok a] is a normal return. [Panic] is a failed [ASSERT] or a [PANIC]
    (kernel/debug.h): [panic_spin] masks interrupts and loops, so nothing that
    follows it runs. [Fault] is an access to memory the model does not own
    (past the end of an array, through a null or dangling pointer). [NoFuel]
    is a loop that used up the iterations it was given. *)

Inductive res (A : Type) : Type :=
  | Ok (a : A)
  | Panic
  | Fault
  | NoFuel.
Arguments Ok {A} a.
Arguments Panic {A}.
Arguments Fault {A}.
Arguments NoFuel {A}.

(** A kernel routine that works on the state [S] and returns an [A]. *)
Definition M (S A : Type) : Type := S -> res (A * S).

Definition ret {S A} (a : A) : M S A := fun s => Ok (a, s).

Definition bind {S A B} (m : M S A) (k : A -> M S B) : M S B := fun s =>
  match m s with
  | Ok (a, s') => k a s'
  | Panic => Panic
  | Fault => Fault
  | NoFuel => NoFuel
  end.

Definition get {S} : M S S := fun s => Ok (s, s).
Definition gets {S A} (f : S -> A) : M S A := fun s => Ok (f s, s).
Definition put {S} (s' : S) : M S unit := fun _ => Ok (tt, s').
Definition modify {S} (f : S -> S) : M S unit := fun s => Ok (tt, f s).
Definition panic {S A} : M S A := fun _ => Panic.
Definition fault {S A} : M S A := fun _ => Fault.
Definition nofuel {S A} : M S A := fun _ => NoFuel.

(** ASSERT(b) with NDEBUG undefined, as the Makefile builds the kernel. *)
Definition ASSERT {S} (b : bool) : M S unit := if b then ret tt else panic.

(** A memory access that exists or faults. *)
Definition of_option {S A} (o : option A) : M S A :=
  match o with Some a => ret a | None => fault end.

(** An access within bounds, or a fault. *)
Definition valid {S} (b : bool) : M S unit := if b then ret tt else fault.

Declare Scope os_scope.
Delimit Scope os_scope with os.
#[global] Open Scope os_scope.

Notation "'do' x <- m ; k" := (bind m (fun x => k))
  (at level 10, x name, m at level 99, k at level 200) : os_scope.
Notation "'do' ' p <- m ; k" := (bind m (fun p => k))
  (at level 10, p pattern, m at level 99, k at level 200) : os_scope.
Notation "m ;; k" := (bind m (fun _ => k))
  (at level 100, k at level 200, right associativity) : os_scope.

(** Run a routine of a part [T] of a larger state [S]. *)
Definition zoom {S T A} (g : S -> T) (p : T -> S -> S) (m : M T A) : M S A := fun s =>
  match m (g s) with
  | Ok (a, t) => Ok (a, p t s)
  | Panic => Panic
  | Fault => Fault
  | NoFuel => NoFuel
  end.

(** A loop whose body carries its local variables: [inl x] goes round again
    with the new locals, [inr y] leaves the loop with the result [y]. *)
Fixpoint loop {S X Y} (fuel : nat) (body : X -> M S (X + Y)) (x : X) : M S Y :=
  match fuel with
  | O => nofuel
  | Datatypes.S fuel' =>
      do r <- body x;
      match r with
      | inl x' => loop fuel' body x'
      | inr y => ret y
      end
  end.

(** [for (i = 0; i < n; i++) body(i)] *)
Fixpoint for_range {S} (i : Z) (n : nat) (body : Z -> M S unit) : M S unit :=
  match n with
  | O => ret tt
  | Datatypes.S n' => body i ;; for_range (i + 1) n' body
  end.

(** ** Machine integers *)

Definition u8 (z : Z) : Z := z mod 2 ^ 8.
Definition u16 (z : Z) : Z := z mod 2 ^ 16.
Definition u32 (z : Z) : Z := z mod 2 ^ 32.
Definition s8 (z : Z) : Z := (z + 2 ^ 7) mod 2 ^ 8 - 2 ^ 7.
Definition s16 (z : Z) : Z := (z + 2 ^ 15) mod 2 ^ 16 - 2 ^ 15.
Definition s32 (z : Z) : Z := (z + 2 ^ 31) mod 2 ^ 32 - 2 ^ 31.

(** C truth of an integer. *)
Definition truthy (z : Z) : bool := negb (z =? 0).

Definition DIV_ROUND_UP (x step : Z) : Z := u32 (x + step - 1) / step.

(** ** Total-correctness weakest preconditions

    [wp m Q s]: run from [s], the routine [m] returns, without a panic, a
    fault or running out of fuel, and its result and final state satisfy [Q]. *)

Definition wp {S A} (m : M S A) (Q : A -> S -> Prop) (s : S) : Prop :=
  match m s with
  | Ok (a, s') => Q a s'
  | _ => False
  end.

Section wp_rules.
Context {S T A B : Type}.
Implicit Types (s : S) (Q : A -> S -> Prop).

Lemma wp_ret (a : A) Q s : wp (ret a) Q s = Q a s.
Proof. reflexivity. Qed.

Lemma wp_bind (m : M S B) (k : B -> M S A) Q s :
  wp (bind m k) Q s = wp m (fun b s' => wp (k b) Q s') s.
Proof. unfold wp, bind. destruct (m s) as [[b s']| | |]; reflexivity. Qed.

Lemma wp_get (Q : S -> S -> Prop) s : wp get Q s = Q s s.
Proof. reflexivity. Qed.

Lemma wp_gets (f : S -> A) Q s : wp (gets f) Q s = Q (f s) s.
Proof. reflexivity. Qed.

Lemma wp_put s' (Q : unit -> S -> Prop) s : wp (put s') Q s = Q tt s'.
Proof. reflexivity. Qed.

Lemma wp_modify (f : S -> S) (Q : unit -> S -> Prop) s : wp (modify f) Q s = Q tt (f s).
Proof. reflexivity. Qed.

Lemma wp_ASSERT b (Q : unit -> S -> Prop) s : wp (ASSERT b) Q s <-> b = true /\ Q tt s.
Proof. unfold wp. destruct b; cbn; intuition congruence. Qed.

Lemma wp_of_option (o : option A) Q s :
  wp (of_option o) Q s <-> exists a, o = Some a /\ Q a s.
Proof.
  unfold wp. destruct o as [a|]; cbn; [|by split; [|intros (?&?&?)]].
  split; [eauto | intros (?&[= <-]&?); done].
Qed.

Lemma wp_valid b (Q : unit -> S -> Prop) s : wp (valid b) Q s <-> b = true /\ Q tt s.
Proof. unfold wp. destruct b; cbn; intuition congruence. Qed.

Lemma wp_zoom (g : S -> T) (p : T -> S -> S) (m : M T A) Q s :
  wp (zoom g p m) Q s = wp m (fun a t => Q a (p t s)) (g s).
Proof. unfold wp, zoom. destruct (m (g s)) as [[a t]| | |]; reflexivity. Qed.

Lemma wp_mono (m : M S A) (P Q : A -> S -> Prop) s :
  wp m P s -> (forall a s', P a s' -> Q a s') -> wp m Q s.
Proof. unfold wp. destruct (m s) as [[a s']| | |]; auto. Qed.

Lemma wp_Ok (m : M S A) Q s : wp m Q s <-> exists a s', m s = Ok (a, s') /\ Q a s'.
Proof.
  unfold wp. destruct (m s) as [[a s']| | |]; split; try easy;
    try (intros (?&?&[=]&?)); subst; eauto.
Qed.
End wp_rules.

(** One round of a loop. *)
Lemma loop_S {S X Y} n (body : X -> M S (X + Y)) x :
  loop (Datatypes.S n) body x = (do r <- body x; match r with inl x' => loop n body x' | inr y => ret y end).
Proof. done. Qed.

(** The rule of total correctness for loops: an invariant [I], a measure
    that every round decreases, and fuel above the measure. *)
Lemma wp_loop {S X A} (I : X -> S -> Prop) (meas : X -> S -> nat)
    (fuel : nat) (body : X -> M S (X + A)) (Q : A -> S -> Prop) x s :
  (forall x s, I x s ->
     wp (body x) (fun r s' =>
       match r with
       | inl x' => I x' s' /\ (meas x' s' < meas x s)%nat
       | inr y => Q y s'
       end) s) ->
  I x s -> (meas x s < fuel)%nat -> wp (loop fuel body x) Q s.
Proof.
  intros Hbody. revert x s. induction fuel as [|fuel IH]; intros x s HI Hm; [lia|].
  cbn [loop]. rewrite wp_bind.
  apply (wp_mono _ _ _ _ (Hbody x s HI)).
  intros [x'|y] s'; [|by rewrite wp_ret].
  intros [HI' Hlt]. apply IH; [done|lia].
Qed.

(** A loop that consumes a list and leaves the state alone: the locals are a
    function [f] of the part still to be visited. *)
Lemma wp_loop_list {S X A E} (I : list E -> list E -> Prop) (s : S) (f : list E -> X)
    (pre0 suf0 : list E) (fuel : nat) (body : X -> M S (X + A)) (Q : A -> S -> Prop) :
  (forall pre suf, I pre suf ->
     wp (body (f suf)) (fun r s' => s' = s /\
       match r with
       | inl x' => exists e suf', suf = e :: suf' /\ x' = f suf' /\ I (pre ++ [e]) suf'
       | inr y => Q y s'
       end) s) ->
  I pre0 suf0 -> (length suf0 < fuel)%nat -> wp (loop fuel body (f suf0)) Q s.
Proof.
  intros Hbody. revert pre0 suf0. induction fuel as [|fuel IH]; intros pre suf HI Hlt; [lia|].
  cbn [loop]. rewrite wp_bind. eapply wp_mono; [by apply (Hbody pre suf)|].
  intros [x'|y] s'; cbn.
  - intros (-> & e & suf' & -> & -> & HI'). eapply IH; [exact HI'|]. cbn in Hlt. lia.
  - intros [-> HQ]. done.
Qed.

(** A loop that works off a list [l] of items, one per round, with an
    invariant on the items left, the locals and the state. *)
Lemma wp_loop_along {S X A E} (I : list E -> X -> S -> Prop) (fuel : nat)
    (body : X -> M S (X + A)) (Q : A -> S -> Prop) (l : list E) x s :
  (forall e l' x s, I (e :: l') x s ->
     wp (body x) (fun r s' => match r with inl x' => I l' x' s' | inr y => Q y s' end) s) ->
  (forall x s, I [] x s ->
     wp (body x) (fun r s' => match r with inl _ => False | inr y => Q y s' end) s) ->
  I l x s -> (length l < fuel)%nat -> wp (loop fuel body x) Q s.
Proof.
  intros Hstep Hend. revert l x s. induction fuel as [|fuel IH]; intros l x s HI Hlt; [lia|].
  cbn [loop]. rewrite wp_bind. destruct l as [|e l'].
  - eapply wp_mono; [by apply Hend|]. by intros [x'|y] s'.
  - eapply wp_mono; [by apply (Hstep e l')|]. intros [x'|y] s' H; [|done].
    cbn in Hlt. apply (IH l'); [done|lia].
Qed.

(** Running a routine whose outcome is known. *)
Lemma bind_Ok {S A B} (m : M S A) (k : A -> M S B) s a s' :
  m s = Ok (a, s') -> bind m k s = k a s'.
Proof. intros H. unfold bind. by rewrite H. Qed.
Lemma bind_Fault {S A B} (m : M S A) (k : A -> M S B) s : m s = Fault -> bind m k s = Fault.
Proof. intros H. unfold bind. by rewrite H. Qed.
Lemma bind_Panic {S A B} (m : M S A) (k : A -> M S B) s : m s = Panic -> bind m k s = Panic.
Proof. intros H. unfold bind. by rewrite H. Qed.
Lemma bind_NoFuel {S A B} (m : M S A) (k : A -> M S B) s : m s = NoFuel -> bind m k s = NoFuel.
Proof. intros H. unfold bind. by rewrite H. Qed.

(** An outcome read off a weakest precondition. *)
Lemma wp_eq {S A} (m : M S A) s a s' : wp m (fun x t => x = a /\ t = s') s -> m s = Ok (a, s').
Proof. intros H. apply wp_Ok in H as (x & t & H & -> & ->). exact H. Qed.

(** A loop that goes round [n] times and then makes a bad access. *)
Lemma loop_Fault {S X A} (I : nat -> X -> S -> Prop) (body : X -> M S (X + A)) n fuel x s :
  (forall n x s, I (Datatypes.S n) x s -> exists x' s', body x s = Ok (inl x', s') /\ I n x' s') ->
  (forall x s, I O x s -> body x s = Fault) ->
  I n x s -> (n < fuel)%nat -> loop fuel body x s = Fault.
Proof.
  intros Hstep Hend. revert n x s. induction fuel as [|fuel IH]; intros n x s HI Hlt; [lia|].
  cbn [loop]. destruct n as [|n].
  - apply bind_Fault. by apply Hend.
  - destruct (Hstep n x s HI) as (x' & s' & Hb & HI'). rewrite (bind_Ok _ _ _ _ _ Hb).
    apply (IH n); [done|lia].
Qed.

(** A loop that never ends: no number of rounds is enough. *)
Lemma loop_diverges {S X A} (I : X -> S -> Prop) (body : X -> M S (X + A)) fuel x s :
  (forall x s, I x s -> exists x' s', body x s = Ok (inl x', s') /\ I x' s') ->
  I x s -> loop fuel body x s = NoFuel.
Proof.
  intros Hstep. revert x s. induction fuel as [|fuel IH]; intros x s HI; [done|].
  cbn [loop]. destruct (Hstep x s HI) as (x' & s' & Hb & HI'). rewrite (bind_Ok _ _ _ _ _ Hb). by apply IH.
Qed.

(** A counted loop: the invariant is indexed by the counter. *)
Lemma wp_for_range {S} (I : Z -> S -> Prop) (body : Z -> M S unit) (n : nat) i s
    (Q' : unit -> S -> Prop) :
  (forall j s, i <= j < i + Z.of_nat n -> I j s -> wp (body j) (fun _ => I (j + 1)) s) ->
  I i s -> (forall s, I (i + Z.of_nat n) s -> Q' tt s) ->
  wp (for_range i n body) Q' s.
Proof.
  revert i s. induction n as [|n IH]; intros i s Hbody HI HQ; cbn [for_range].
  { rewrite <- (Z.add_0_r i) in HI. apply HQ. exact HI. }
  rewrite wp_bind. eapply wp_mono; [apply Hbody; [lia|done]|].
  intros [] s' HI'. apply IH; [intros; apply Hbody; [lia|done] | done |].
  intros s'' Hs''. apply HQ. by replace (i + Z.of_nat (Datatypes.S n))
    with (i + 1 + Z.of_nat n) by lia.
Qed.

(** A routine that runs on a memory of its own, of which only the result is
    kept. *)
Definition run_on {S T A} (t : T) (m : M T A) : M S A := fun s =>
  match m t with
  | Ok (a, _) => Ok (a, s)
  | Panic => Panic
  | Fault => Fault
  | NoFuel => NoFuel
  end.

Lemma wp_run_on {S T A} (t : T) (m : M T A) (Q : A -> S -> Prop) s :
  wp m (fun a _ => Q a s) t -> wp (run_on t m) Q s.
Proof. unfold wp, run_on. by destruct (m t) as [[a t']| | |]. Qed.

(** A counted loop that makes a bad access in the round of [j]. *)
Lemma for_range_Fault {S} (I : Z -> S -> Prop) (body : Z -> M S unit) (n : nat) i j s :
  (forall k s, i <= k < j -> I k s -> exists s', body k s = Ok (tt, s') /\ I (k + 1) s') ->
  (forall s, I j s -> body j s = Fault) ->
  i <= j < i + Z.of_nat n -> I i s -> for_range i n body s = Fault.
Proof.
  intros Hstep Hend. revert i s Hstep. induction n as [|n IH]; intros i s Hstep Hj HI; [lia|].
  cbn [for_range]. destruct (decide (i = j)) as [->|Hne].
  - apply bind_Fault. by apply Hend.
  - destruct (Hstep i s ltac:(lia) HI) as (s' & Hb & HI'). rewrite (bind_Ok _ _ _ _ _ Hb).
    apply IH; [|lia|done]. intros k s1 Hk. apply Hstep. lia.
Qed.

Create HintDb os.
Create Rewrite HintDb wp.
#[export] Hint Rewrite @wp_ret @wp_bind @wp_get @wp_gets @wp_put @wp_modify @wp_zoom : wp.

(** One step of symbolic execution: discharge the administrative binds and
    stop at an assertion, an access, a loop or a call. *)
Ltac wp_simp := autorewrite with wp; cbn beta iota.
Ltac wp_assert := wp_simp; apply wp_ASSERT; split; [try lia | wp_simp].
Ltac wp_load H := wp_simp; apply wp_of_option; eexists; split; [exact H | wp_simp].

(** A routine that is known to return. *)
Ltac wp_ok H := apply wp_Ok in H as (? & ? & ? & ?).

(** ** Machine-integer lemmas *)

Lemma u8_small z : 0 <= z < 256 -> u8 z = z.
Proof. intros. unfold u8. apply Z.mod_small. lia. Qed.
Lemma u16_small z : 0 <= z < 65536 -> u16 z = z.
Proof. intros. unfold u16. apply Z.mod_small. lia. Qed.
Lemma u32_small z : 0 <= z < 4294967296 -> u32 z = z.
Proof. intros. unfold u32. apply Z.mod_small. lia. Qed.
Lemma s32_small z : -2147483648 <= z < 2147483648 -> s32 z = z.
Proof. intros. unfold s32. rewrite Z.mod_small; lia. Qed.
Lemma u8_bound z : 0 <= u8 z < 256.
Proof. apply Z.mod_pos_bound. lia. Qed.
Lemma u16_bound z : 0 <= u16 z < 65536.
Proof. apply Z.mod_pos_bound. lia. Qed.
Lemma u32_bound z : 0 <= u32 z < 4294967296.
Proof. apply Z.mod_pos_bound. lia. Qed.

#[export] Hint Resolve u8_bound u16_bound u32_bound : os.

Lemma truthy_true z : truthy z = true <-> z <> 0.
Proof. unfold truthy. destruct (Z.eqb_spec z 0); naive_solver. Qed.
Lemma truthy_false z : truthy z = false <-> z = 0.
Proof. unfold truthy. destruct (Z.eqb_spec z 0); naive_solver. Qed.

(** Turn the boolean tests of a goal into propositions. *)
Ltac zbool :=
  repeat match goal with
  | H : (_ && _) = true |- _ => apply andb_true_iff in H as [? ?]
  | H : (_ && _) = false |- _ => apply andb_false_iff in H
  | H : (_ =? _) = true |- _ => apply Z.eqb_eq in H
  | H : (_ =? _) = false |- _ => apply Z.eqb_neq in H
  | H : (_ <? _) = true |- _ => apply Z.ltb_lt in H
  | H : (_ <? _) = false |- _ => apply Z.ltb_ge in H
  | H : (_ <=? _) = true |- _ => apply Z.leb_le in H
  | H : (_ <=? _) = false |- _ => apply Z.leb_gt in H
  | H : truthy _ = true |- _ => apply truthy_true in H
  | H : truthy _ = false |- _ => apply truthy_false in H
  end.
(** [lia] on goals with division and remainder by constants. *)
Ltac dlia := Z.to_euclidean_division_equations; lia.

(** Tuples of integer expressions. *)
Ltac tuple_lia :=
  repeat match goal with |- (_, _) = (_, _) => apply f_equal2 end; try reflexivity; lia.

(** ** Bits *)

(** Testing one bit with a mask, the way the code writes it. *)
Lemma land_shiftl_1 b k : 0 <= k -> Z.land b (Z.shiftl 1 k) = if Z.testbit b k then 2 ^ k else 0.
Proof.
  intros Hk. apply Z.bits_inj'. intros n Hn.
  rewrite Z.land_spec, Z.shiftl_1_l, Z.pow2_bits_eqb by lia.
  destruct (Z.eqb_spec k n) as [->|Hne].
  - rewrite andb_true_r. destruct (Z.testbit b n).
    + by rewrite Z.pow2_bits_true.
    + by rewrite Z.bits_0.
  - rewrite andb_false_r. destruct (Z.testbit b k).
    + by rewrite Z.pow2_bits_false.
    + by rewrite Z.bits_0.
Qed.

Lemma truthy_mask b k : 0 <= k -> truthy (Z.land b (Z.shiftl 1 k)) = Z.testbit b k.
Proof.
  intros Hk. rewrite land_shiftl_1 by done. destruct (Z.testbit b k); [|done].
  unfold truthy. destruct (Z.eqb_spec (2 ^ k) 0); [|done]. lia.
Qed.

Lemma byte_all_ones b :
  0 <= b < 256 -> (forall k, 0 <= k < 8 -> Z.testbit b k = true) -> b = 255.
Proof.
  intros Hb Hk. apply Z.bits_inj'. intros n Hn. change 255 with (Z.ones 8).
  rewrite Z.testbit_ones_nonneg by lia. destruct (Z.ltb_spec n 8).
  - by apply Hk.
  - replace b with (b mod 2 ^ 8) by (apply Z.mod_small; lia).
    apply Z.mod_pow2_bits_high; lia.
Qed.

Lemma testbit_u8 b k : 0 <= k -> Z.testbit (u8 b) k = (k <? 8) && Z.testbit b k.
Proof.
  intros Hk. unfold u8. destruct (Z.ltb_spec k 8).
  - by apply Z.mod_pow2_bits_low.
  - apply Z.mod_pow2_bits_high; lia.
Qed.

(** A list with more elements than another has one that the other lacks. *)
Lemma fresh_elem (l1 l2 : list Z) :
  NoDup l1 -> (length l2 < length l1)%nat -> exists x, x ∈ l1 /\ x ∉ l2.
Proof.
  intros Hnd Hlt. destruct (decide (Forall (fun x => x ∈ l2) l1)) as [Hall|Hn].
  - exfalso. assert (Hs : l1 ⊆+ l2).
    { apply NoDup_submseteq; [done|]. intros x Hx. rewrite list.Forall_forall in Hall. by apply Hall. }
    apply submseteq_length in Hs. lia.
  - apply not_Forall_Exists in Hn; [|apply _]. apply list.Exists_exists in Hn as (x & Hx & Hn). by exists x.
Qed.
