(* ===== verification/Bitmap.v ===== *)
(** * Bitmaps (lib/kernel/bitmap.c, bitmap.h)

    The bitmap every allocator of the kernel is built on: physical page
    pools, virtual address pools, inode and block bitmaps. The state of the
    component is one [bitmap]: its length in bytes, and the memory its [bits]
    pointer designates. [bits] may be longer than [btmp_bytes_len], since the
    code does read past the end of the map; only an access past the memory
    itself is a [Fault]. *)

From Stdlib Require Import ZArith Lia.
From stdpp Require Import base numbers list option.
From S2P Require Import Prelude.

Local Open Scope Z_scope.

Definition BITMAP_MASK : Z := 1.

(** struct bitmap *)
Record bitmap := Bitmap { btmp_bytes_len : Z; bits : list Z }.

#[export] Instance bitmap_eq_dec : EqDecision bitmap.
Proof. solve_decision. Defined.

(** [btmp->bits[idx]] as a value, and the assignment to it. *)
Definition bits_get (idx : Z) : M bitmap Z :=
  do b <- get;
  of_option (bits b !! Z.to_nat idx).

Definition bits_set (idx v : Z) : M bitmap unit :=
  do b <- get;
  of_option (bits b !! Z.to_nat idx) ;;
  put (Bitmap (btmp_bytes_len b) (<[Z.to_nat idx := u8 v]> (bits b))).

(** bitmap_init: memset(btmp->bits, 0, btmp->btmp_bytes_len) *)
Definition bitmap_init : M bitmap unit :=
  do b <- get;
  let n := Z.to_nat (btmp_bytes_len b) in
  if (n <=? length (bits b))%nat
  then put (Bitmap (btmp_bytes_len b) (replicate n 0 ++ drop n (bits b)))
  else fault.

(** bitmap_scan_test: the byte masked with the bit, which is not always 1. *)
Definition bitmap_scan_test (bit_idx : Z) : M bitmap Z :=
  let byte_idx := bit_idx / 8 in
  let bit_odd := bit_idx mod 8 in
  do v <- bits_get byte_idx;
  ret (Z.land v (Z.shiftl BITMAP_MASK bit_odd)).

(** The first loop of bitmap_scan: skip the full bytes. *)
Definition scan_byte (idx_byte : Z) : M bitmap (Z + Z) :=
  do v <- bits_get idx_byte;
  do len <- gets btmp_bytes_len;
  if (255 =? v) && (idx_byte <? len)
  then ret (inl (u32 (idx_byte + 1)))
  else ret (inr idx_byte).

(** The second loop: the first free bit of that byte. *)
Definition scan_bit (idx_byte idx_bit : Z) : M bitmap (Z + Z) :=
  do v <- bits_get idx_byte;
  if truthy (Z.land (u8 (Z.shiftl BITMAP_MASK idx_bit)) v)
  then ret (inl (idx_bit + 1))
  else ret (inr idx_bit).

(** The third loop: count free bits until [cnt] of them are consecutive. The
    locals are [bit_left], [next_bit] and [count]. *)
Definition scan_run (cnt : Z) (x : Z * Z * Z) : M bitmap ((Z * Z * Z) + Z) :=
  let '(bit_left, next_bit, count) := x in
  if bit_left =? 0 then ret (inr (-1))
  else
    let bit_left := bit_left - 1 in
    do t <- bitmap_scan_test next_bit;
    let count := if negb (truthy t) then u32 (count + 1) else 0 in
    if count =? cnt
    then ret (inr (s32 (u32 (next_bit - cnt + 1))))
    else ret (inl (bit_left, u32 (next_bit + 1), count)).

Definition bitmap_scan (cnt : Z) : M bitmap Z :=
  do len <- gets btmp_bytes_len;
  do idx_byte <- loop (S (S (Z.to_nat len))) scan_byte 0;
  ASSERT (idx_byte <? len) ;;
  if idx_byte =? len then ret (-1)
  else
    do idx_bit <- loop 10 (scan_bit idx_byte) 0;
    let bit_idx_start := s32 (u32 (idx_byte * 8 + idx_bit)) in
    if cnt =? 1 then ret bit_idx_start
    else
      let bit_left := u32 (len * 8 - bit_idx_start) in
      let next_bit := u32 (bit_idx_start + 1) in
      loop (S (S (Z.to_nat bit_left))) (scan_run cnt) (bit_left, next_bit, 1).

(** bitmap_set: [value] is an int8_t that must be 0 or 1. *)
Definition bitmap_set (bit_idx value : Z) : M bitmap unit :=
  ASSERT ((value =? 0) || (value =? 1)) ;;
  let byte_idx := bit_idx / 8 in
  let bit_odd := bit_idx mod 8 in
  do v <- bits_get byte_idx;
  if truthy value
  then bits_set byte_idx (Z.lor v (Z.shiftl BITMAP_MASK bit_odd))
  else bits_set byte_idx (Z.land v (Z.lnot (Z.shiftl BITMAP_MASK bit_odd))).

(** ** Abstract view: a bitmap is a function from bit numbers to booleans *)

Definition bit_used (b : bitmap) (i : Z) : bool :=
  match bits b !! Z.to_nat (i / 8) with
  | Some v => Z.testbit v (i mod 8)
  | None => false
  end.

(** [n] consecutive free bits from [i]. *)
Definition free_run (b : bitmap) (i n : Z) : Prop :=
  forall k, i <= k < i + n -> bit_used b k = false.

(** Well-formedness: bytes are bytes, the length fits the index types, and
    the memory extends at least one byte past the map (the code reads it). *)
Record bitmap_wf (b : bitmap) : Prop := {
  wf_len : 0 <= btmp_bytes_len b < 2 ^ 28;
  wf_mem : btmp_bytes_len b < Z.of_nat (length (bits b));
  wf_bytes : Forall (fun v => 0 <= v < 256) (bits b)
}.

(** ** Reading and writing one byte *)

Lemma bits_byte b i :
  bitmap_wf b -> 0 <= i < Z.of_nat (length (bits b)) ->
  exists v, bits b !! Z.to_nat i = Some v /\ 0 <= v < 256.
Proof.
  intros Hwf Hi. destruct (lookup_lt_is_Some_2 (bits b) (Z.to_nat i)) as [v Hv]; [lia|].
  exists v. split; [done|]. exact (proj1 (Forall_lookup _ _) (wf_bytes b Hwf) _ _ Hv).
Qed.

Lemma wp_bits_get i (Q : Z -> bitmap -> Prop) b v :
  bits b !! Z.to_nat i = Some v -> Q v b -> wp (bits_get i) Q b.
Proof. intros Hv HQ. unfold bits_get. wp_simp. wp_load Hv. done. Qed.

Lemma wp_bits_set i w (Q : unit -> bitmap -> Prop) b :
  0 <= i < Z.of_nat (length (bits b)) ->
  Q tt (Bitmap (btmp_bytes_len b) (<[Z.to_nat i := u8 w]> (bits b))) ->
  wp (bits_set i w) Q b.
Proof.
  intros Hi HQ. destruct (lookup_lt_is_Some_2 (bits b) (Z.to_nat i)) as [v Hv]; [lia|].
  unfold bits_set. wp_simp. wp_load Hv. done.
Qed.

Lemma bit_used_byte b i v :
  0 <= i -> bits b !! Z.to_nat (i / 8) = Some v -> bit_used b i = Z.testbit v (i mod 8).
Proof. intros Hi Hv. unfold bit_used. by rewrite Hv. Qed.

Lemma wp_bitmap_scan_test i (Q : Z -> bitmap -> Prop) b :
  bitmap_wf b -> 0 <= i < 8 * Z.of_nat (length (bits b)) ->
  (forall t, truthy t = bit_used b i -> Q t b) -> wp (bitmap_scan_test i) Q b.
Proof.
  intros Hwf Hi HQ. destruct (bits_byte b (i / 8) Hwf) as (v & Hv & Hb).
  { split; [apply Z.div_pos; lia | apply Z.div_lt_upper_bound; lia]. }
  unfold bitmap_scan_test. wp_simp. eapply wp_bits_get; [exact Hv|]. wp_simp.
  apply HQ. rewrite (bit_used_byte b i v) by (done || lia). apply truthy_mask.
  apply Z.mod_pos_bound. lia.
Qed.

(** ** bitmap_set *)

(** Two distinct bit numbers of the same byte are distinct inside it. *)
Lemma bit_index_ne i j : i <> j -> i / 8 = j / 8 -> i mod 8 <> j mod 8.
Proof.
  intros Hne Hd Hm. apply Hne. rewrite (Z.div_mod i 8), (Z.div_mod j 8) by lia. lia.
Qed.

(** The byte that bitmap_set writes. *)
Definition set_bit_in (v value k : Z) : Z :=
  if truthy value then Z.lor v (Z.shiftl BITMAP_MASK k)
  else Z.land v (Z.lnot (Z.shiftl BITMAP_MASK k)).

Lemma set_bit_in_testbit v value k n :
  0 <= k < 8 -> 0 <= n < 8 ->
  Z.testbit (u8 (set_bit_in v value k)) n = if n =? k then truthy value else Z.testbit v n.
Proof.
  intros Hk Hn. rewrite testbit_u8 by lia. rewrite (proj2 (Z.ltb_lt n 8)) by lia. cbn [andb].
  unfold set_bit_in, BITMAP_MASK. rewrite Z.shiftl_1_l.
  destruct (truthy value);
    [rewrite Z.lor_spec | rewrite Z.land_spec, Z.lnot_spec by lia];
    rewrite Z.pow2_bits_eqb by lia; rewrite (Z.eqb_sym k n);
    destruct (n =? k), (Z.testbit v n); reflexivity.
Qed.

Lemma bitmap_set_run b i value (Q : unit -> bitmap -> Prop) :
  bitmap_wf b -> 0 <= i < 8 * Z.of_nat (length (bits b)) -> value = 0 \/ value = 1 ->
  (forall b', bitmap_wf b' -> btmp_bytes_len b' = btmp_bytes_len b ->
     length (bits b') = length (bits b) ->
     (forall j, 0 <= j -> bit_used b' j = if j =? i then truthy value else bit_used b j) ->
     Q tt b') ->
  wp (bitmap_set i value) Q b.
Proof.
  intros Hwf Hi Hv HQ.
  assert (Hidx : 0 <= i / 8 < Z.of_nat (length (bits b))).
  { split; [apply Z.div_pos; lia | apply Z.div_lt_upper_bound; lia]. }
  destruct (bits_byte b (i / 8) Hwf Hidx) as (v & Hget & Hb).
  assert (Hm : 0 <= i mod 8 < 8) by (apply Z.mod_pos_bound; lia).
  unfold bitmap_set. wp_simp. apply wp_ASSERT. split.
  { destruct Hv as [-> | ->]; reflexivity. }
  wp_simp. eapply wp_bits_get; [exact Hget|].
  set (b' := Bitmap (btmp_bytes_len b)
    (<[Z.to_nat (i / 8) := u8 (set_bit_in v value (i mod 8))]> (bits b))).
  assert (Hb' : Q tt b'); cycle 1.
  { unfold b', set_bit_in in Hb'.
    destruct (truthy value); apply wp_bits_set; assumption. }
  apply HQ; unfold b'; cbn.
  - split; cbn; [apply Hwf | rewrite length_insert; apply Hwf |].
    apply Forall_insert; [apply Hwf | apply u8_bound].
  - done.
  - apply length_insert.
  - intros j Hj. unfold bit_used. cbn.
    destruct (decide (i / 8 = j / 8)) as [Heq|Hne].
    + rewrite <- Heq, list_lookup_insert_eq by lia.
      rewrite set_bit_in_testbit by (lia || (apply Z.mod_pos_bound; lia)).
      destruct (Z.eqb_spec j i) as [->|Hji]; [by rewrite Z.eqb_refl|].
      rewrite Hget. destruct (Z.eqb_spec (j mod 8) (i mod 8)) as [Hm'|]; [|done].
      exfalso. by apply (bit_index_ne i j).
    + rewrite list_lookup_insert_ne.
      2: { pose proof (Z.div_pos j 8). lia. }
      destruct (Z.eqb_spec j i) as [->|]; done.
Qed.

(** ** bitmap_scan *)

(** The first loop stops at the first byte of the map that is not full, or at
    the end of the map. *)
Lemma scan_byte_loop b (Q : Z -> bitmap -> Prop) :
  bitmap_wf b ->
  (forall r, 0 <= r <= btmp_bytes_len b ->
     (forall i, 0 <= i < r -> bits b !! Z.to_nat i = Some 255) ->
     (r < btmp_bytes_len b -> bits b !! Z.to_nat r <> Some 255) -> Q r b) ->
  wp (loop (S (S (Z.to_nat (btmp_bytes_len b)))) scan_byte 0) Q b.
Proof.
  intros Hwf HQ. pose proof (wf_len b Hwf). pose proof (wf_mem b Hwf).
  apply (wp_loop
    (fun x s => s = b /\ 0 <= x <= btmp_bytes_len b /\
       forall i, 0 <= i < x -> bits b !! Z.to_nat i = Some 255)
    (fun x _ => Z.to_nat (btmp_bytes_len b + 1 - x))); [|by repeat split; try lia|lia].
  intros x s (-> & Hx & Hfull). destruct (bits_byte b x Hwf) as (v & Hv & Hb); [lia|].
  unfold scan_byte. wp_simp. eapply wp_bits_get; [exact Hv|]. wp_simp.
  destruct ((255 =? v) && (x <? btmp_bytes_len b)) eqn:E; wp_simp.
  - zbool. subst v. rewrite u32_small by lia. repeat split; try lia.
    intros i Hi. destruct (decide (i = x)) as [->|]; [done|]. apply Hfull. lia.
  - apply HQ; [lia|done|]. intros Hlt Hv'. rewrite Hv in Hv'. simplify_eq.
    rewrite (proj2 (Z.ltb_lt _ _) Hlt) in E. done.
Qed.

(** The second loop finds the lowest zero bit of a byte that has one. *)
Lemma scan_bit_loop b idx v (Q : Z -> bitmap -> Prop) :
  bits b !! Z.to_nat idx = Some v -> 0 <= v < 256 -> v <> 255 ->
  (forall k, 0 <= k < 8 -> Z.testbit v k = false ->
     (forall i, 0 <= i < k -> Z.testbit v i = true) -> Q k b) ->
  wp (loop 10 (scan_bit idx) 0) Q b.
Proof.
  intros Hv Hb Hne HQ.
  apply (wp_loop
    (fun x s => s = b /\ 0 <= x <= 8 /\ forall i, 0 <= i < x -> Z.testbit v i = true)
    (fun x _ => Z.to_nat (9 - x))); [|by repeat split; try lia|lia].
  intros x s (-> & Hx & Hones).
  assert (Hx8 : x < 8).
  { destruct (decide (x = 8)) as [->|]; [|lia].
    exfalso. apply Hne. by apply byte_all_ones. }
  unfold scan_bit. wp_simp. eapply wp_bits_get; [exact Hv|]. wp_simp.
  unfold BITMAP_MASK. rewrite u8_small.
  2: { rewrite Z.shiftl_1_l. pose proof (Z.pow_lt_mono_r 2 x 8). lia. }
  rewrite Z.land_comm, truthy_mask by lia.
  destruct (Z.testbit v x) eqn:E; wp_simp.
  - repeat split; try lia. intros i Hi. destruct (decide (i = x)) as [->|]; [done|].
    apply Hones. lia.
  - apply HQ; [lia|done..].
Qed.

(** The bit found by the first two loops is the first free bit of the map. *)
Lemma first_free b idx k v :
  bits b !! Z.to_nat idx = Some v -> 0 <= idx -> 0 <= k < 8 -> Z.testbit v k = false ->
  (forall i, 0 <= i < idx -> bits b !! Z.to_nat i = Some 255) ->
  (forall i, 0 <= i < k -> Z.testbit v i = true) ->
  bit_used b (idx * 8 + k) = false /\ forall i, 0 <= i < idx * 8 + k -> bit_used b i = true.
Proof.
  intros Hv Hidx Hk Hfree Hfull Hones. split.
  - unfold bit_used. replace ((idx * 8 + k) / 8) with idx by
      (apply (Z.div_unique _ _ _ k); lia).
    rewrite Hv. by replace ((idx * 8 + k) mod 8) with k by
      (apply (Z.mod_unique _ _ idx); lia).
  - intros i Hi. unfold bit_used.
    assert (Hm : 0 <= i mod 8 < 8) by (apply Z.mod_pos_bound; lia).
    destruct (decide (i / 8 = idx)) as [Heq|Hne].
    + rewrite Heq, Hv. apply Hones. dlia.
    + rewrite Hfull by dlia.
      change 255 with (Z.ones 8). apply Z.ones_spec_low. lia.
Qed.

Lemma free_run_snoc b i n :
  0 <= n -> free_run b i n -> bit_used b (i + n) = false -> free_run b i (n + 1).
Proof.
  intros Hn Hrun Hbit k Hk. destruct (decide (k = i + n)) as [->|]; [done|].
  apply Hrun. lia.
Qed.

Lemma free_run_blocked b i n k :
  i <= k < i + n -> bit_used b k = true -> ~ free_run b i n.
Proof. intros Hk Hu Hrun. by rewrite (Hrun k Hk) in Hu. Qed.

(** What the third loop has established when it is about to test [next]: the
    last [count] bits are free, the bit before them is used, and no run of
    [cnt] free bits ends before [next]. *)
Definition run_inv (b : bitmap) (cnt start : Z) (x : Z * Z * Z) : Prop :=
  let '(lft, next, count) := x in
  lft = 8 * btmp_bytes_len b + 1 - next /\ start < next /\
  next <= 8 * btmp_bytes_len b + 1 /\
  0 <= count < cnt /\ count <= next - start /\ free_run b (next - count) count /\
  (forall i, 0 <= i -> i + cnt <= next -> ~ free_run b i cnt).

(** If the run cannot be extended to the left, no earlier run exists. *)
Definition left_blocked (b : bitmap) (x : Z * Z * Z) : Prop :=
  let '(_, next, count) := x in
  next - count = 0 \/ (0 < next - count /\ bit_used b (next - count - 1) = true).

Lemma run_inv_step_free b cnt start lft next count :
  run_inv b cnt start (lft, next, count) -> left_blocked b (lft, next, count) ->
  0 < lft -> bit_used b next = false -> count + 1 <> cnt ->
  run_inv b cnt start (lft - 1, next + 1, count + 1) /\
  left_blocked b (lft - 1, next + 1, count + 1).
Proof.
  unfold run_inv, left_blocked. intros (?&?&?&?&?&Hrun&Hno) Hbl Hl Hbit Hc.
  replace (next + 1 - (count + 1)) with (next - count) by lia.
  split; [|done]. repeat split; try lia.
  - apply free_run_snoc; [lia|done|]. by replace (next - count + count) with next by lia.
  - intros i Hi Hle. destruct (decide (i + cnt <= next)) as [|Hgt]; [by apply Hno|].
    destruct Hbl as [|[? Hu]]; [lia|].
    apply (free_run_blocked _ _ _ (next - count - 1)); [lia|done].
Qed.

Lemma run_inv_step_used b cnt start lft next count :
  run_inv b cnt start (lft, next, count) -> 0 < cnt -> 0 <= start ->
  0 < lft -> bit_used b next = true ->
  run_inv b cnt start (lft - 1, next + 1, 0) /\ left_blocked b (lft - 1, next + 1, 0).
Proof.
  unfold run_inv, left_blocked. intros (?&?&?&?&?&Hrun&Hno) Hcnt Hs Hl Hbit. split.
  - repeat split; try lia.
    + intros k Hk. lia.
    + intros i Hi Hle. destruct (decide (i + cnt <= next)) as [|Hgt]; [by apply Hno|].
      apply (free_run_blocked _ _ _ next); [lia|done].
  - right. replace (next + 1 - 0 - 1) with next by lia. split; [lia|done].
Qed.

(** The result of a scan: the first run of [cnt] free bits, where the bit one
    past the end of the map counts as part of it when [cnt > 1]; or -1. *)
Definition scan_post (b : bitmap) (cnt r : Z) : Prop :=
  let bound := 8 * btmp_bytes_len b + 1 in
  (r = -1 /\ forall i, 0 <= i -> i + cnt <= bound -> ~ free_run b i cnt) \/
  (0 <= r < 8 * btmp_bytes_len b /\ r + cnt <= bound /\ free_run b r cnt /\
   forall i, 0 <= i < r -> ~ free_run b i cnt).

Lemma scan_run_loop b cnt start (Q : Z -> bitmap -> Prop) :
  bitmap_wf b -> 1 < cnt < 2 ^ 31 -> 0 <= start < 8 * btmp_bytes_len b ->
  bit_used b start = false -> (forall i, 0 <= i < start -> bit_used b i = true) ->
  (forall r, scan_post b cnt r -> Q r b) ->
  wp (loop (S (S (Z.to_nat (8 * btmp_bytes_len b - start)))) (scan_run cnt)
        (8 * btmp_bytes_len b - start, start + 1, 1)) Q b.
Proof.
  intros Hwf Hcnt Hs Hfree Hfull HQ. pose proof (wf_len b Hwf). pose proof (wf_mem b Hwf).
  apply (wp_loop
    (fun x s => s = b /\ run_inv b cnt start x /\ left_blocked b x)
    (fun x _ => Z.to_nat (x.1.1))).
  2: { split; [done|]. split; [unfold run_inv; repeat split; try lia|].
       - intros k Hk. by replace k with start by lia.
       - intros i Hi Hle. apply (free_run_blocked _ _ _ i); [lia|]. apply Hfull. lia.
       - unfold left_blocked. destruct (decide (start = 0)) as [->|]; [by left|].
         right. split; [lia|]. apply Hfull. lia. }
  2: { cbn. lia. }
  intros [[lft next] count] s (-> & Hinv & Hbl). unfold scan_run.
  pose proof Hinv as (?&?&?&?&?&Hrun&Hno).
  destruct (Z.eqb_spec lft 0) as [Hl0|Hl0]; wp_simp.
  { apply HQ. left. split; [done|]. intros i Hi Hle. apply Hno; lia. }
  apply wp_bitmap_scan_test; [done|lia|]. intros t Ht. rewrite Ht.
  destruct (bit_used b next) eqn:Hbit; cbn [negb].
  - rewrite (proj2 (Z.eqb_neq 0 cnt)) by lia. wp_simp. rewrite u32_small by lia.
    split; [|cbn; lia]. split; [done|]. by apply (run_inv_step_used _ _ _ _ _ count); try lia.
  - rewrite u32_small by lia. destruct (Z.eqb_spec (count + 1) cnt) as [Hc|Hc]; wp_simp.
    + rewrite u32_small, s32_small by lia. apply HQ. right.
      replace (next - cnt + 1) with (next - count) by lia. repeat split; try lia.
      * subst cnt. apply free_run_snoc; [lia|done|].
        by replace (next - count + count) with next by lia.
      * intros i Hi. apply Hno; lia.
    + rewrite u32_small by lia. split; [|cbn; lia]. split; [done|].
      apply run_inv_step_free; auto; lia.
Qed.

(** The map has a free bit exactly when some byte of it is not full. *)
Lemma free_bit_byte b i :
  bitmap_wf b -> 0 <= i < 8 * btmp_bytes_len b -> bit_used b i = false ->
  bits b !! Z.to_nat (i / 8) <> Some 255.
Proof.
  intros Hwf Hi Hfree Hv. rewrite (bit_used_byte b i 255) in Hfree by (done || lia).
  change 255 with (Z.ones 8) in Hfree.
  rewrite Z.ones_spec_low in Hfree by (apply Z.mod_pos_bound; lia). done.
Qed.

Lemma bitmap_scan_run b cnt i0 (Q : Z -> bitmap -> Prop) :
  bitmap_wf b -> 0 < cnt < 2 ^ 31 -> 0 <= i0 < 8 * btmp_bytes_len b ->
  bit_used b i0 = false ->
  (forall r, scan_post b cnt r -> Q r b) -> wp (bitmap_scan cnt) Q b.
Proof.
  intros Hwf Hcnt Hi0 Hfree0 HQ. pose proof (wf_len b Hwf). pose proof (wf_mem b Hwf).
  unfold bitmap_scan. wp_simp. apply scan_byte_loop; [done|].
  intros idx Hidx Hfull Hstop. wp_simp.
  assert (Hlt : idx < btmp_bytes_len b).
  { destruct (decide (idx < btmp_bytes_len b)) as [|Hge]; [done|].
    exfalso. apply (free_bit_byte b i0 Hwf Hi0 Hfree0). apply Hfull.
    split; [apply Z.div_pos; lia | apply Z.div_lt_upper_bound; lia]. }
  apply wp_ASSERT. split; [lia|].
  destruct (Z.eqb_spec idx (btmp_bytes_len b)) as [|_]; [lia|]. wp_simp.
  destruct (bits_byte b idx Hwf) as (v & Hv & Hb); [lia|].
  eapply scan_bit_loop; [exact Hv|exact Hb| |].
  { intros ->. by apply Hstop. }
  intros k Hk Hkfree Hkones. wp_simp.
  destruct (first_free b idx k v) as [Hff Hall]; [done|lia|lia|done..|].
  rewrite !u32_small, !s32_small by lia.
  destruct (Z.eqb_spec cnt 1) as [->|Hne]; wp_simp.
  - apply HQ. right. repeat split; try lia.
    + intros j Hj. by replace j with (idx * 8 + k) by lia.
    + intros i Hi. apply (free_run_blocked _ _ _ i); [lia|]. by apply Hall.
  - rewrite !u32_small by lia.
    replace (btmp_bytes_len b * 8 - (idx * 8 + k))
      with (8 * btmp_bytes_len b - (idx * 8 + k)) by lia.
    apply scan_run_loop; try done; lia.
Qed.

(** ** The component's properties *)

(** Every bit of the map is used; no [cnt] free bits lie in a row inside it. *)
Definition map_full (b : bitmap) : Prop :=
  forall i, 0 <= i < 8 * btmp_bytes_len b -> bit_used b i = true.

Definition no_run_inside (b : bitmap) (cnt : Z) : Prop :=
  forall i, 0 <= i -> i + cnt <= 8 * btmp_bytes_len b -> ~ free_run b i cnt.

(** In a full map every byte is 255, and the ASSERT placed before the test for
    the end of the map fails: -1 is not what the caller gets. *)
Lemma full_bytes b i :
  bitmap_wf b -> map_full b -> 0 <= i < btmp_bytes_len b -> bits b !! Z.to_nat i = Some 255.
Proof.
  intros Hwf Hfull Hi. pose proof (wf_mem b Hwf).
  destruct (bits_byte b i Hwf) as (v & Hv & Hb); [lia|]. rewrite Hv. f_equal.
  apply byte_all_ones; [done|]. intros k Hk.
  specialize (Hfull (8 * i + k) ltac:(lia)). unfold bit_used in Hfull.
  replace ((8 * i + k) / 8) with i in Hfull by (apply (Z.div_unique _ _ _ k); lia).
  replace ((8 * i + k) mod 8) with k in Hfull by (apply (Z.mod_unique _ _ i); lia).
  by rewrite Hv in Hfull.
Qed.

Lemma bitmap_scan_full_panics b cnt :
  bitmap_wf b -> map_full b -> bitmap_scan cnt b = Panic.
Proof.
  intros Hwf Hfull. unfold bitmap_scan. unfold bind at 1, gets.
  assert (H : wp (loop (S (S (Z.to_nat (btmp_bytes_len b)))) scan_byte 0)
    (fun r s => r = btmp_bytes_len b /\ s = b) b).
  { apply scan_byte_loop; [done|]. intros r Hr _ Hstop. split; [|done].
    destruct (decide (r < btmp_bytes_len b)) as [Hlt|]; [|lia].
    exfalso. apply (Hstop Hlt). apply full_bytes; [done..|lia]. }
  wp_ok H. destruct H0 as [-> ->]. unfold bind at 1. rewrite H. unfold bind.
  by rewrite Z.ltb_irrefl.
Qed.

(** A map with a free bit: the scan returns, and leaves the map as it is. *)
Lemma scan_some b cnt i0 :
  bitmap_wf b -> 0 < cnt < 2 ^ 31 -> 0 <= i0 < 8 * btmp_bytes_len b ->
  bit_used b i0 = false ->
  exists r, bitmap_scan cnt b = Ok (r, b) /\ scan_post b cnt r.
Proof.
  intros Hwf Hcnt Hi0 Hfree.
  assert (H : wp (bitmap_scan cnt) (fun r s => s = b /\ scan_post b cnt r) b).
  { by apply (bitmap_scan_run b cnt i0). }
  wp_ok H. destruct H0 as [-> ?]. eauto.
Qed.

(** When a run lies inside the map, the answer is the first one. *)
Lemma scan_post_inside b cnt r' r :
  scan_post b cnt r' -> 0 <= r -> r + cnt <= 8 * btmp_bytes_len b -> free_run b r cnt ->
  (forall i, 0 <= i < r -> ~ free_run b i cnt) -> r' = r.
Proof.
  intros [[-> Hno]|(Hr' & Hend' & Hrun' & Hfirst')] Hr Hend Hrun Hfirst.
  - exfalso. apply (Hno r); [lia..|done].
  - destruct (Z.lt_trichotomy r' r) as [Hlt|[->|Hlt]]; [|done|].
    + exfalso. by apply (Hfirst r'); [lia|].
    + exfalso. by apply (Hfirst' r); [lia|].
Qed.

Lemma not_full_free b :
  ~ map_full b -> exists i, 0 <= i < 8 * btmp_bytes_len b /\ bit_used b i = false.
Proof.
  intros Hnf.
  destruct (decide (Forall (fun i => bit_used b i = true) (seqZ 0 (8 * btmp_bytes_len b))))
    as [Hall|Hnot].
  - exfalso. apply Hnf. intros i Hi. apply (proj1 (list.Forall_forall _ _) Hall).
    apply elem_of_seqZ. lia.
  - apply not_Forall_Exists in Hnot; [|apply _]. apply list.Exists_exists in Hnot.
    destruct Hnot as (i & Hi & Hb). apply elem_of_seqZ in Hi. exists i. split; [lia|].
    by apply not_true_is_false.
Qed.

(** [C1] What bitmap_scan answers to a request of [cnt >= 1] bits, in every
    case, always leaving the map as it was. If [cnt] free bits in a row lie
    inside the map, the answer is the first place where they do. In a full
    map there is no answer: the ASSERT fails, where the function's comment
    promises -1. In a map that has free bits, but no [cnt] in a row, the answer
    is -1, unless the last [cnt - 1] bits of the map and the bit just past its
    end are free: then it is the place of that run, which ends outside the map. *)
Theorem bitmap_scan_first_fit b cnt :
  bitmap_wf b -> 0 < cnt < 2 ^ 31 ->
  let end_ := 8 * btmp_bytes_len b in
  (forall r, 0 <= r -> r + cnt <= end_ -> free_run b r cnt ->
     (forall i, 0 <= i < r -> ~ free_run b i cnt) -> bitmap_scan cnt b = Ok (r, b)) /\
  (map_full b -> bitmap_scan cnt b = Panic) /\
  (~ map_full b -> no_run_inside b cnt ->
     (free_run b (end_ + 1 - cnt) cnt -> cnt <= end_ + 1 ->
        bitmap_scan cnt b = Ok (end_ + 1 - cnt, b)) /\
     (~ free_run b (end_ + 1 - cnt) cnt \/ end_ + 1 < cnt ->
        bitmap_scan cnt b = Ok (-1, b))).
Proof.
  intros Hwf Hcnt end_. split; [|split; [by apply bitmap_scan_full_panics|]].
  - intros r Hr Hend Hrun Hfirst.
    destruct (scan_some b cnt r Hwf Hcnt) as (r' & -> & Hp); [unfold end_ in *; lia|apply Hrun; lia|].
    by rewrite (scan_post_inside b cnt r' r).
  - intros Hnf Hno. destruct (not_full_free b Hnf) as (i0 & Hi0 & Hfree).
    destruct (scan_some b cnt i0 Hwf Hcnt Hi0 Hfree) as (r & -> & Hp).
    assert (Hc : cnt <> 1) by (intros ->; apply (Hno i0); [lia..|];
      intros k Hk; by replace k with i0 by lia).
    destruct Hp as [[-> Hnone]|(Hr & Hend & Hrun & _)].
    + split; [|done]. intros Hf Hle. exfalso. apply (Hnone (end_ + 1 - cnt)); unfold end_ in *; [lia..|done].
    + assert (r = end_ + 1 - cnt) as ->.
      { destruct (decide (r + cnt <= end_)) as [|]; [exfalso; apply (Hno r); (done || lia)|unfold end_ in *; lia]. }
      split; [done|]. intros [Hnf'|Hlt]; [done|unfold end_ in *; lia].
Qed.

Ltac small_wf := split; cbn; [lia|lia|repeat constructor; lia].

(** One map for each case: a run inside, a full map, a run that ends in the bit
    past the map, and that bit used. *)
Lemma bitmap_scan_first_fit_witness :
  bitmap_scan 3 (Bitmap 2 [29; 0; 0]) = Ok (5, Bitmap 2 [29; 0; 0]) /\
  bitmap_scan 1 (Bitmap 2 [255; 255; 0]) = Panic /\
  bitmap_scan 2 (Bitmap 1 [127; 0]) = Ok (7, Bitmap 1 [127; 0]) /\
  bitmap_scan 2 (Bitmap 1 [127; 1]) = Ok (-1, Bitmap 1 [127; 1]).
Proof.
  split; [|split; [|split]].
  - apply (bitmap_scan_first_fit (Bitmap 2 [29; 0; 0]) 3); [by small_wf|lia|lia|cbn; lia| |].
    + intros k Hk. assert (k = 5 \/ k = 6 \/ k = 7) as [->|[->| ->]] by lia; reflexivity.
    + intros i Hi Hf. assert (i = 0 \/ i = 1 \/ i = 2 \/ i = 3 \/ i = 4) as Hc by lia.
      assert (H2 := Hf 2). assert (H4 := Hf 4). assert (H0 := Hf 0). cbn in *.
      destruct Hc as [->|[->|[->|[->| ->]]]];
        (discriminate (H2 ltac:(lia)) || discriminate (H4 ltac:(lia)) || discriminate (H0 ltac:(lia))).
  - apply (bitmap_scan_first_fit (Bitmap 2 [255; 255; 0]) 1); [by small_wf|lia|].
    intros i Hi. cbn in Hi.
    assert (He : forallb (fun i => bit_used (Bitmap 2 [255; 255; 0]) i) (seqZ 0 16) = true)
      by reflexivity.
    rewrite List.forallb_forall in He. apply He, list_elem_of_In, elem_of_seqZ. lia.
  - apply (bitmap_scan_first_fit (Bitmap 1 [127; 0]) 2); [by small_wf|lia| | | |cbn; lia].
    + intros Hf. discriminate (Hf 7 ltac:(cbn; lia)).
    + intros i Hi Hle Hf. cbn in Hle.
      assert (i = 0 \/ i = 1 \/ i = 2 \/ i = 3 \/ i = 4 \/ i = 5 \/ i = 6) as Hc by lia.
      destruct Hc as [->|[->|[->|[->|[->|[->| ->]]]]]]; discriminate (Hf _ ltac:(split; [reflexivity|lia])).
    + intros k Hk. cbn in Hk. assert (k = 7 \/ k = 8) as [->| ->] by lia; reflexivity.
  - apply (bitmap_scan_first_fit (Bitmap 1 [127; 1]) 2); [by small_wf|lia| | |left].
    + intros Hf. discriminate (Hf 7 ltac:(cbn; lia)).
    + intros i Hi Hle Hf. cbn in Hle.
      assert (i = 0 \/ i = 1 \/ i = 2 \/ i = 3 \/ i = 4 \/ i = 5 \/ i = 6) as Hc by lia.
      destruct Hc as [->|[->|[->|[->|[->|[->| ->]]]]]]; discriminate (Hf _ ltac:(split; [reflexivity|lia])).
    + intros Hf. discriminate (Hf 8 ltac:(cbn; lia)).
Defined.

(** A scan for several bits can return a run that ends past the map: the
    third loop looks at as many bits as are left counting the first one again,
    so it also tests the bit just past the last byte. *)
Theorem bitmap_scan_overruns :
  exists b cnt r, bitmap_wf b /\ bitmap_scan cnt b = Ok (r, b) /\
    8 * btmp_bytes_len b < r + cnt.
Proof.
  exists (Bitmap 1 [127; 0]), 2, 7. split; [|split; [by vm_compute|cbn; lia]].
  split; cbn; [lia|lia|repeat constructor; lia].
Qed.

(** bitmap_set writes the bit it is given and no other, in a map that
    stays well formed and keeps its length. *)
Theorem bitmap_set_exact b i value :
  bitmap_wf b -> 0 <= i < 8 * Z.of_nat (length (bits b)) -> value = 0 \/ value = 1 ->
  exists b', bitmap_set i value b = Ok (tt, b') /\ bitmap_wf b' /\
    btmp_bytes_len b' = btmp_bytes_len b /\
    forall j, 0 <= j -> bit_used b' j = if j =? i then truthy value else bit_used b j.
Proof.
  intros Hwf Hi Hv.
  assert (H : wp (bitmap_set i value) (fun _ b' => bitmap_wf b' /\
    btmp_bytes_len b' = btmp_bytes_len b /\
    forall j, 0 <= j -> bit_used b' j = if j =? i then truthy value else bit_used b j) b).
  { by apply bitmap_set_run. }
  wp_ok H. destruct x. eauto.
Qed.

Lemma bitmap_set_exact_witness :
  exists b', bitmap_set 9 1 (Bitmap 2 [0; 0; 0]) = Ok (tt, b') /\ bitmap_wf b' /\
    btmp_bytes_len b' = 2 /\
    forall j, 0 <= j -> bit_used b' j = if j =? 9 then truthy 1 else bit_used (Bitmap 2 [0; 0; 0]) j.
Proof.
  apply (bitmap_set_exact (Bitmap 2 [0; 0; 0]) 9 1); cbn; [|lia|by right].
  split; cbn; [lia|lia|repeat constructor; lia].
Defined.
