(* ===== verification/Intr.v ===== *)
(** * Interrupt control (kernel/interrupt.c, interrupt.h, global.h)

    The interrupt flag of EFLAGS and the four routines that read, raise, lower
    and restore it; the interrupt descriptor table and the table of handlers.
    The state is a [cpu]. The names of the exceptions and the 8259A are in
    [Irq], the [lidt] instruction in [Boot]. *)

From Stdlib Require Import ZArith Lia.
From stdpp Require Import base numbers list option.
From S2P Require Import Prelude.

Local Open Scope Z_scope.

(** ** Selectors and attributes (kernel/global.h) *)

Definition RPL0 : Z := 0.
Definition RPL3 : Z := 3.
Definition TI_GDT : Z := 0.
Definition SELECTOR_K_CODE : Z := Z.shiftl 1 3 + Z.shiftl TI_GDT 2 + RPL0.
Definition SELECTOR_K_DATA : Z := Z.shiftl 2 3 + Z.shiftl TI_GDT 2 + RPL0.
Definition SELECTOR_U_CODE : Z := Z.shiftl 5 3 + Z.shiftl TI_GDT 2 + RPL3.
Definition SELECTOR_U_DATA : Z := Z.shiftl 6 3 + Z.shiftl TI_GDT 2 + RPL3.
Definition IDT_DESC_P : Z := 1.
Definition IDT_DESC_32_TYPE : Z := 14.
Definition IDT_DESC_ATTR_DPL0 : Z := Z.shiftl IDT_DESC_P 7 + Z.shiftl 0 5 + IDT_DESC_32_TYPE.
Definition IDT_DESC_ATTR_DPL3 : Z := Z.shiftl IDT_DESC_P 7 + Z.shiftl 3 5 + IDT_DESC_32_TYPE.

Definition EFLAGS_IF : Z := 0x200.
Definition IDT_DESC_CNT : Z := 0x81.

(** enum intr_status *)
Inductive intr_status := INTR_OFF | INTR_ON.

#[export] Instance intr_status_eq_dec : EqDecision intr_status.
Proof. solve_decision. Defined.

(** struct gate_desc *)
Record gate_desc := GateDesc {
  func_offset_low_word : Z;
  selector : Z;
  dcount : Z;
  attribute : Z;
  func_offset_high_word : Z
}.

Record cpu := Cpu {
  eflags : Z;
  idt : list gate_desc;
  idt_table : list Z
}.

Definition set_eflags (e : Z) (c : cpu) : cpu := Cpu e (idt c) (idt_table c).

(** The instructions sti and cli. *)
Definition sti : M cpu unit := modify (fun c => set_eflags (Z.lor (eflags c) EFLAGS_IF) c).
Definition cli : M cpu unit := modify (fun c => set_eflags (Z.ldiff (eflags c) EFLAGS_IF) c).

Definition intr_get_status : M cpu intr_status :=
  do e <- gets eflags;
  ret (if truthy (Z.land EFLAGS_IF e) then INTR_ON else INTR_OFF).

Definition intr_enable : M cpu intr_status :=
  do st <- intr_get_status;
  match st with
  | INTR_ON => ret INTR_ON
  | INTR_OFF => sti ;; ret INTR_OFF
  end.

Definition intr_disable : M cpu intr_status :=
  do st <- intr_get_status;
  match st with
  | INTR_ON => cli ;; ret INTR_ON
  | INTR_OFF => ret INTR_OFF
  end.

Definition intr_set_status (status : intr_status) : M cpu intr_status :=
  match status with INTR_ON => intr_enable | INTR_OFF => intr_disable end.

(** register_handler: [vector_no] is a uint8_t, the table has 0x81 entries. *)
Definition register_handler (vector_no function : Z) : M cpu unit :=
  do c <- get;
  of_option (idt_table c !! Z.to_nat (u8 vector_no)) ;;
  put (Cpu (eflags c) (idt c) (<[Z.to_nat (u8 vector_no) := function]> (idt_table c))).

Definition make_idt_desc (attr function : Z) : gate_desc := {|
  func_offset_low_word := u16 (Z.land (u32 function) 0x0000FFFF);
  selector := SELECTOR_K_CODE;
  dcount := 0;
  attribute := u8 attr;
  func_offset_high_word := u16 (Z.shiftr (Z.land (u32 function) 0xFFFF0000) 16)
|}.

Section idt_init.
(** intr_entry_table as kernel/kernel.S assembles it, which is 0x30 entry points,
    and the words of memory that follow it; the address of the routine for the
    system call and of the generic handler. *)
Context (intr_entry_table behind : list Z) (syscall_handler general_intr_handler : Z).

(** [intr_entry_table[i]]: a read of memory, which the C code does not stop at
    the end of the table. *)
Definition ld_entry (i : Z) : M cpu Z := of_option ((intr_entry_table ++ behind) !! Z.to_nat i).

Definition idt_store (i : Z) (g : gate_desc) : M cpu unit :=
  do c <- get;
  of_option (idt c !! Z.to_nat i) ;;
  put (Cpu (eflags c) (<[Z.to_nat i := g]> (idt c)) (idt_table c)).

Definition idt_desc_init : M cpu unit :=
  let lastindex := IDT_DESC_CNT - 1 in
  for_range 0 (Z.to_nat IDT_DESC_CNT) (fun i =>
    do entry <- ld_entry i;
    idt_store i (make_idt_desc IDT_DESC_ATTR_DPL0 entry)) ;;
  idt_store lastindex (make_idt_desc IDT_DESC_ATTR_DPL3 syscall_handler).

(** exception_init fills the handler table (the names are not modelled). *)
Definition exception_init : M cpu unit :=
  for_range 0 (Z.to_nat IDT_DESC_CNT) (fun i => register_handler i general_intr_handler).
End idt_init.

(** ** Interrupt-flag lemmas *)

Definition if_on (c : cpu) : bool := Z.testbit (eflags c) 9.

Lemma intr_get_status_run c (Q : intr_status -> cpu -> Prop) :
  Q (if if_on c then INTR_ON else INTR_OFF) c -> wp intr_get_status Q c.
Proof.
  intros HQ. unfold intr_get_status. wp_simp. unfold EFLAGS_IF.
  change 0x200 with (Z.shiftl 1 9). rewrite Z.land_comm, truthy_mask by lia. exact HQ.
Qed.

Lemma if_on_sti c : if_on (set_eflags (Z.lor (eflags c) EFLAGS_IF) c) = true.
Proof. unfold if_on, EFLAGS_IF. cbn [eflags set_eflags]. rewrite Z.lor_spec. apply orb_true_r. Qed.

Lemma if_on_cli c : if_on (set_eflags (Z.ldiff (eflags c) EFLAGS_IF) c) = false.
Proof. unfold if_on, EFLAGS_IF. cbn [eflags set_eflags]. rewrite Z.ldiff_spec. apply andb_false_r. Qed.

(** Lowering a raised flag and raising it again gives the same EFLAGS. *)
Lemma cli_sti c :
  if_on c = true ->
  set_eflags (Z.lor (Z.ldiff (eflags c) EFLAGS_IF) EFLAGS_IF) c = c.
Proof.
  intros Hon. destruct c as [e i t]. unfold set_eflags, if_on in *. cbn [eflags idt idt_table] in *. f_equal.
  apply Z.bits_inj'. intros n Hn. unfold EFLAGS_IF.
  rewrite Z.lor_spec, Z.ldiff_spec. change 0x200 with (2 ^ 9).
  rewrite Z.pow2_bits_eqb by lia. destruct (Z.eqb_spec 9 n) as [<-|].
  - rewrite Hon. done.
  - destruct (Z.testbit e n); done.
Qed.

Definition status_of (c : cpu) : intr_status := if if_on c then INTR_ON else INTR_OFF.

(** The state that intr_disable leaves. *)
Definition disabled (c : cpu) : cpu :=
  if if_on c then set_eflags (Z.ldiff (eflags c) EFLAGS_IF) c else c.

Lemma if_on_disabled c : if_on (disabled c) = false.
Proof. unfold disabled. destruct (if_on c) eqn:E; [apply if_on_cli | done]. Qed.

Lemma intr_disable_eq c : intr_disable c = Ok (status_of c, disabled c).
Proof.
  assert (H : wp intr_disable (fun st c' => st = status_of c /\ c' = disabled c) c).
  { unfold intr_disable. rewrite wp_bind. apply intr_get_status_run.
    unfold status_of, disabled. by destruct (if_on c); wp_simp. }
  wp_ok H. destruct H0 as [-> ->]. done.
Qed.

(** intr_set_status(old) undoes the intr_disable that returned old. *)
Lemma intr_restore c : intr_set_status (status_of c) (disabled c) = Ok (INTR_OFF, c).
Proof.
  unfold status_of. destruct (if_on c) eqn:E; cbn [intr_set_status].
  - assert (H : wp intr_enable (fun st c' => st = INTR_OFF /\ c' = c) (disabled c)).
    { unfold intr_enable. rewrite wp_bind. apply intr_get_status_run.
      rewrite if_on_disabled. unfold sti. wp_simp. split; [done|].
      unfold disabled. rewrite E. exact (cli_sti c E). }
    wp_ok H. destruct H0 as [-> ->]. done.
  - rewrite intr_disable_eq. unfold status_of. rewrite if_on_disabled.
    unfold disabled at 1. rewrite if_on_disabled. unfold disabled. by rewrite E.
Qed.

Lemma disabled_idem c : if_on c = false -> disabled c = c.
Proof. intros E. unfold disabled. by rewrite E. Qed.

(** ** The descriptor table *)

(** The handler address a gate designates. *)
Definition gate_offset (g : gate_desc) : Z :=
  Z.lor (func_offset_low_word g) (Z.shiftl (func_offset_high_word g) 16).

Definition gate_dpl (g : gate_desc) : Z := Z.land (Z.shiftr (attribute g) 5) 3.
Definition gate_present (g : gate_desc) : bool := Z.testbit (attribute g) 7.

Lemma make_idt_desc_offset attr f : 0 <= f < 2 ^ 32 -> gate_offset (make_idt_desc attr f) = f.
Proof.
  intros Hf. unfold gate_offset, make_idt_desc. cbn [func_offset_low_word func_offset_high_word].
  rewrite (u32_small f) by lia. apply Z.bits_inj'. intros n Hn.
  change 0x0000FFFF with (Z.ones 16). change 0xFFFF0000 with (Z.shiftl (Z.ones 16) 16).
  unfold u16. rewrite <- !Z.land_ones by lia.
  rewrite Z.lor_spec, Z.shiftl_spec, !Z.land_spec by lia.
  rewrite Z.testbit_ones_nonneg by lia. destruct (Z.ltb_spec n 16) as [Hlt|Hge].
  - rewrite (Z.testbit_neg_r _ (n - 16)) by lia. by rewrite !andb_true_r, orb_false_r.
  - rewrite !andb_false_r. cbn [orb].
    rewrite Z.shiftr_spec, Z.land_spec, Z.shiftl_spec by lia.
    replace (n - 16 + 16 - 16) with (n - 16) by lia. replace (n - 16 + 16) with n by lia.
    rewrite Z.testbit_ones_nonneg by lia. destruct (Z.ltb_spec (n - 16) 16).
    + by rewrite !andb_true_r.
    + rewrite !andb_false_r. symmetry. apply Z.bits_above_log2; [lia|].
      assert (Hl : Z.log2 f < 32) by (destruct (decide (f = 0)) as [->|]; [done|apply Z.log2_lt_pow2; lia]).
      lia.
Qed.

Lemma idt_store_run i g c (Q : unit -> cpu -> Prop) :
  0 <= i < Z.of_nat (length (idt c)) ->
  Q tt (Cpu (eflags c) (<[Z.to_nat i := g]> (idt c)) (idt_table c)) ->
  wp (idt_store i g) Q c.
Proof.
  intros Hi HQ. destruct (lookup_lt_is_Some_2 (idt c) (Z.to_nat i)) as [x Hx]; [lia|].
  unfold idt_store. wp_simp. wp_load Hx. done.
Qed.

(** The number of entry points that kernel/kernel.S assembles. *)
Definition entries : Z := 0x30.

(** The gates that idt_desc_init makes: one for each word that it reads. *)
Definition gates_made (table behind : list Z) (syscall : Z) (l : list gate_desc) : Prop :=
  length l = Z.to_nat IDT_DESC_CNT /\
  forall j, 0 <= j < IDT_DESC_CNT -> exists w, (table ++ behind) !! Z.to_nat j = Some w /\ l !! Z.to_nat j =
    Some (if j =? 0x80 then make_idt_desc IDT_DESC_ATTR_DPL3 syscall else make_idt_desc IDT_DESC_ATTR_DPL0 w).

(** The table as assembled, and enough words of memory behind it. *)
Definition words_behind (table behind : list Z) : Prop :=
  Z.of_nat (length table) = entries /\ IDT_DESC_CNT - entries <= Z.of_nat (length behind).

Section gates.
Context (table behind : list Z) (syscall : Z) (c : cpu) (Hidt : length (idt c) = Z.to_nat IDT_DESC_CNT).

(** The state before the round of [i]. *)
Definition gates_upto (i : Z) (s : cpu) : Prop :=
  eflags s = eflags c /\ idt_table s = idt_table c /\ length (idt s) = Z.to_nat IDT_DESC_CNT /\
  forall j, 0 <= j < i -> exists w, (table ++ behind) !! Z.to_nat j = Some w /\
    idt s !! Z.to_nat j = Some (make_idt_desc IDT_DESC_ATTR_DPL0 w).

Lemma gate_round i s w (Q : unit -> cpu -> Prop) :
  0 <= i < IDT_DESC_CNT -> (table ++ behind) !! Z.to_nat i = Some w -> gates_upto i s ->
  (forall s', gates_upto (i + 1) s' -> Q tt s') ->
  wp (do entry <- ld_entry table behind i; idt_store i (make_idt_desc IDT_DESC_ATTR_DPL0 entry)) Q s.
Proof using.
  intros Hi Hw (He & Ht & Hl & Hs) HQ. clear Hidt. unfold ld_entry. wp_load Hw. unfold IDT_DESC_CNT in *.
  apply idt_store_run; [lia|]. apply HQ. unfold gates_upto. cbn. rewrite length_insert.
  repeat split; [done..|]. intros j Hj. destruct (decide (j = i)) as [->|].
  - exists w. split; [done|]. apply list_lookup_insert_eq. lia.
  - rewrite list_lookup_insert_ne by lia. apply Hs. lia.
Qed.

Lemma idt_desc_init_run (Q : unit -> cpu -> Prop) :
  words_behind table behind ->
  (forall l, gates_made table behind syscall l -> Q tt (Cpu (eflags c) l (idt_table c))) ->
  wp (idt_desc_init table behind syscall) Q c.
Proof using Hidt.
  intros [Hlt Hlb] HQ. unfold entries in Hlt, Hlb. unfold idt_desc_init. rewrite wp_bind.
  assert (Hword : forall j, 0 <= j < IDT_DESC_CNT -> exists w, (table ++ behind) !! Z.to_nat j = Some w).
  { intros j Hj. apply lookup_lt_is_Some_2. rewrite length_app. unfold IDT_DESC_CNT, entries in *. lia. }
  apply (wp_for_range gates_upto).
  - intros i s Hi HI. unfold IDT_DESC_CNT in *. destruct (Hword i ltac:(lia)) as [w Hw].
    apply (gate_round i s w); [unfold IDT_DESC_CNT; lia|done|done|auto].
  - repeat split; [done|]. intros j Hj. lia.
  - intros s (He & Ht & Hl & Hs). unfold IDT_DESC_CNT in *. apply idt_store_run; [lia|]. rewrite He, Ht. apply HQ.
    split; [by rewrite length_insert|]. intros j Hj. destruct (Hword j Hj) as [w Hw]. exists w. split; [done|].
    unfold IDT_DESC_CNT in *. destruct (Z.eqb_spec j 128) as [->|].
    + apply list_lookup_insert_eq. lia.
    + rewrite list_lookup_insert_ne by lia. destruct (Hs j) as (w' & Hw' & ->); [lia|]. congruence.
Qed.

(** With fewer words of memory behind the table the loop reads what is not
    there: it goes through 0x81 entries of a table that has 0x30. *)
Lemma idt_desc_init_reads_past :
  Z.of_nat (length table) = entries -> Z.of_nat (length behind) < IDT_DESC_CNT - entries ->
  idt_desc_init table behind syscall c = Fault.
Proof using Hidt.
  intros Hlt Hlb. unfold entries, IDT_DESC_CNT in *. unfold idt_desc_init. apply bind_Fault.
  apply (for_range_Fault gates_upto _ _ _ (0x30 + Z.of_nat (length behind))).
  - intros k s Hk HI. destruct (lookup_lt_is_Some_2 (table ++ behind) (Z.to_nat k)) as [w Hw]; [rewrite length_app; lia|].
    match goal with |- exists s', ?m s = _ /\ _ => assert (H : wp m (fun _ s' => gates_upto (k + 1) s') s) end.
    { apply (gate_round k s w); [unfold IDT_DESC_CNT; lia|done|done|auto]. }
    apply wp_Ok in H as ([] & s' & E & H). by exists s'.
  - intros s _. apply bind_Fault. unfold ld_entry, of_option. rewrite lookup_ge_None_2; [done|]. rewrite length_app. lia.
  - unfold IDT_DESC_CNT. lia.
  - repeat split; [done|]. intros j Hj. lia.
Qed.
End gates.

(** Every vector is handled by the general handler at first. *)
Lemma exception_init_run general c (Q : unit -> cpu -> Prop) :
  length (idt_table c) = Z.to_nat IDT_DESC_CNT ->
  Q tt (Cpu (eflags c) (idt c) (replicate (Z.to_nat IDT_DESC_CNT) general)) -> wp (exception_init general) Q c.
Proof.
  intros Hlen HQ. unfold exception_init.
  apply (wp_for_range (fun i s => eflags s = eflags c /\ idt s = idt c /\ length (idt_table s) = Z.to_nat IDT_DESC_CNT /\
    forall j, 0 <= j < i -> idt_table s !! Z.to_nat j = Some general)).
  - intros i s Hi (He & Hd & Hl & Hs). unfold IDT_DESC_CNT in *. unfold register_handler. rewrite u8_small by lia.
    destruct (lookup_lt_is_Some_2 (idt_table s) (Z.to_nat i)) as [x Hx]; [lia|]. wp_simp. wp_load Hx. cbn.
    rewrite length_insert. repeat split; [done..|]. intros j Hj. destruct (decide (j = i)) as [->|].
    + apply list_lookup_insert_eq. lia.
    + rewrite list_lookup_insert_ne by lia. apply Hs. lia.
  - repeat split; [done|]. intros j Hj. lia.
  - intros [e d t] (He & Hd & Hl & Hs). cbn in *. subst e d. assert (t = replicate (Z.to_nat IDT_DESC_CNT) general) as ->; [|done].
    apply list_eq. intros j. destruct (decide (j < Z.to_nat IDT_DESC_CNT)%nat) as [Hj|Hj].
    + rewrite lookup_replicate_2 by done. rewrite <- (Nat2Z.id j). apply Hs. unfold IDT_DESC_CNT in *. lia.
    + rewrite !lookup_ge_None_2; [done|by rewrite length_replicate; lia|lia].
Qed.

(** [C36] What idt_desc_init makes of the table of 0x30 entry points that
    kernel.S assembles and of the words of memory behind it. Every vector below
    0x30 gets a present gate of the kernel code segment to its own entry point,
    which ring-3 code cannot raise; 0x80 gets one to the routine of the system
    call, which ring-3 code can raise. The vectors 0x30 to 0x7f have no entry
    point: the loop reads on behind the table, and they get present gates to
    whatever words lie there; and if memory ended before the 0x51 words that it
    reads there, the loop would fault. *)
Theorem idt_desc_init_gates table behind syscall c :
  length (idt c) = Z.to_nat IDT_DESC_CNT -> Z.of_nat (length table) = 0x30 ->
  Forall (fun w => 0 <= w < 2 ^ 32) (table ++ behind) -> 0 <= syscall < 2 ^ 32 ->
  (Z.of_nat (length behind) < 0x51 -> idt_desc_init table behind syscall c = Fault) /\
  (0x51 <= Z.of_nat (length behind) -> exists c', idt_desc_init table behind syscall c = Ok (tt, c') /\
    forall i, 0 <= i < IDT_DESC_CNT -> exists g, idt c' !! Z.to_nat i = Some g /\
      gate_present g = true /\ selector g = SELECTOR_K_CODE /\ (gate_dpl g = 3 <-> i = 0x80) /\
      if i <? 0x30 then table !! Z.to_nat i = Some (gate_offset g)
      else if i <? 0x80 then behind !! Z.to_nat (i - 0x30) = Some (gate_offset g)
      else gate_offset g = syscall).
Proof.
  intros Hlen Hlt Hw Hsys. split.
  { intros Hlb. apply idt_desc_init_reads_past; [done|done|unfold IDT_DESC_CNT, entries; lia]. }
  intros Hlb. assert (H : wp (idt_desc_init table behind syscall) (fun _ c' => gates_made table behind syscall (idt c')) c).
  { apply idt_desc_init_run; [done|split; [done|unfold IDT_DESC_CNT, entries; lia]|done]. }
  wp_ok H. destruct H0 as [_ Hg]. destruct x. exists x0. split; [done|].
  intros i Hi. destruct (Hg i Hi) as (w & Hwi & ->). eexists. split; [done|].
  assert (Hwr : 0 <= w < 2 ^ 32) by exact (proj1 (Forall_lookup _ _) Hw _ _ Hwi).
  unfold IDT_DESC_CNT in Hi. destruct (Z.eqb_spec i 0x80) as [->|Hne].
  - split; [done|]. split; [done|]. split; [vm_compute; intuition congruence|]. cbn. by apply make_idt_desc_offset.
  - split; [done|]. split; [done|]. split; [vm_compute; intuition congruence|]. rewrite make_idt_desc_offset by done.
    destruct (Z.ltb_spec i 0x30) as [Hl|Hl].
    + by rewrite lookup_app_l in Hwi by lia.
    + rewrite (proj2 (Z.ltb_lt i 0x80)) by lia. rewrite lookup_app_r in Hwi by lia. rewrite <- Hwi. f_equal. lia.
Qed.

(** Entry points 16 bytes apart, and the bytes "unknown" behind the table. *)
Definition demo_entries : list Z := (fun i => 0xc0001500 + 16 * i) <$> seqZ 0 0x30.
Definition demo_behind : list Z := replicate 0x51 0x6e6b6e75.

Lemma idt_desc_init_gates_witness :
  exists c', idt_desc_init demo_entries demo_behind 0xc0002000
      (Cpu 0 (replicate (Z.to_nat IDT_DESC_CNT) (GateDesc 0 0 0 0 0)) []) = Ok (tt, c') /\
    forall i, 0 <= i < IDT_DESC_CNT -> exists g, idt c' !! Z.to_nat i = Some g /\
      gate_present g = true /\ selector g = SELECTOR_K_CODE /\ (gate_dpl g = 3 <-> i = 0x80) /\
      if i <? 0x30 then demo_entries !! Z.to_nat i = Some (gate_offset g)
      else if i <? 0x80 then demo_behind !! Z.to_nat (i - 0x30) = Some (gate_offset g)
      else gate_offset g = 0xc0002000.
Proof.
  apply (idt_desc_init_gates demo_entries demo_behind); [reflexivity|reflexivity| |lia|vm_compute; congruence].
  apply (bool_decide_unpack _). vm_compute. exact I.
Defined.
