(* ===== verification/DList.v ===== *)
(** * Kernel lists (lib/kernel/list.c, list.h)

    The intrusive doubly linked lists that hold the ready queue, the list of
    all tasks, the waiters of semaphores, the free blocks of the allocator and
    the open inodes. The memory is a map from the address of a [list_elem] to
    its two links; a list is the address of its [struct list], whose head node
    is at offset 0 and whose tail node is at offset 8. Interrupts are masked
    around the updates, as in the code. The abstraction of a list is the
    sequence of the addresses of its elements ([dlist]). *)

From Stdlib Require Import ZArith Lia.
From stdpp Require Import base numbers list gmap option.
From S2P Require Import Prelude Intr.

Local Open Scope Z_scope.

Definition NULL : Z := 0.

(** struct list_elem *)
Record list_elem := Elem { prev : Z; next : Z }.

#[export] Instance list_elem_eq_dec : EqDecision list_elem.
Proof. solve_decision. Defined.

Record lmem := LMem { lm_cpu : cpu; lm_nodes : gmap Z list_elem }.

Definition set_cpu (c : cpu) (s : lmem) : lmem := LMem c (lm_nodes s).
Definition set_nodes (h : gmap Z list_elem) (s : lmem) : lmem := LMem (lm_cpu s) h.

Definition l_intr_disable : M lmem intr_status := zoom lm_cpu set_cpu intr_disable.
Definition l_intr_set_status (st : intr_status) : M lmem intr_status :=
  zoom lm_cpu set_cpu (intr_set_status st).

(** &plist->head and &plist->tail *)
Definition head_of (plist : Z) : Z := plist.
Definition tail_of (plist : Z) : Z := plist + 8.

(** [p->prev], [p->next] and the assignments to them. *)
Definition ld_elem (p : Z) : M lmem list_elem := do s <- get; of_option (lm_nodes s !! p).
Definition ld_prev (p : Z) : M lmem Z := do e <- ld_elem p; ret (prev e).
Definition ld_next (p : Z) : M lmem Z := do e <- ld_elem p; ret (next e).
Definition st_elem (p : Z) (e : list_elem) : M lmem unit :=
  modify (fun s => set_nodes (<[p := e]> (lm_nodes s)) s).
Definition st_prev (p v : Z) : M lmem unit := do e <- ld_elem p; st_elem p (Elem v (next e)).
Definition st_next (p v : Z) : M lmem unit := do e <- ld_elem p; st_elem p (Elem (prev e) v).

Definition list_init (plist : Z) : M lmem unit :=
  st_elem (head_of plist) (Elem NULL (tail_of plist)) ;;
  st_elem (tail_of plist) (Elem (head_of plist) NULL).

Definition list_insert_before (before elem : Z) : M lmem unit :=
  do old_status <- l_intr_disable;
  do bp <- ld_prev before;
  st_next bp elem ;;
  do bp' <- ld_prev before;
  st_prev elem bp' ;;
  st_next elem before ;;
  st_prev before elem ;;
  l_intr_set_status old_status ;;
  ret tt.

Definition list_push (plist elem : Z) : M lmem unit :=
  do first <- ld_next (head_of plist);
  list_insert_before first elem.

Definition list_append (plist elem : Z) : M lmem unit :=
  list_insert_before (tail_of plist) elem.

Definition list_remove (pelem : Z) : M lmem unit :=
  do old_status <- l_intr_disable;
  do e <- ld_elem pelem;
  st_next (prev e) (next e) ;;
  do e' <- ld_elem pelem;
  st_prev (next e') (prev e') ;;
  l_intr_set_status old_status ;;
  ret tt.

Definition list_pop (plist : Z) : M lmem Z :=
  do elem <- ld_next (head_of plist);
  list_remove elem ;;
  ret elem.

Definition list_empty (plist : Z) : M lmem bool :=
  do first <- ld_next (head_of plist);
  ret (if first =? tail_of plist then true else false).

(** Walking a list visits each node of the memory at most once. *)
Definition walk_fuel : M lmem nat := gets (fun s => S (size (lm_nodes s))).

Definition elem_find (plist obj_elem : Z) : M lmem bool :=
  do first <- ld_next (head_of plist);
  do fuel <- walk_fuel;
  loop fuel (fun elem =>
    if elem =? tail_of plist then ret (inr false)
    else if elem =? obj_elem then ret (inr true)
    else do n <- ld_next elem; ret (inl n)) first.

Definition list_len (plist : Z) : M lmem Z :=
  do first <- ld_next (head_of plist);
  do fuel <- walk_fuel;
  loop fuel (fun x : Z * Z =>
    let '(elem, length) := x in
    if elem =? tail_of plist then ret (inr length)
    else do n <- ld_next elem; ret (inl (n, u32 (length + 1)))) (first, 0).

(** list_traversal with its callback, which may work on a larger state. *)
Definition list_traversal {S} (g : S -> lmem) (p : lmem -> S -> S)
    (plist : Z) (func : Z -> M S bool) : M S Z :=
  do elem <- zoom g p (ld_next (head_of plist));
  do empty <- zoom g p (list_empty plist);
  if empty then ret NULL
  else
    do fuel <- zoom g p walk_fuel;
    loop fuel (fun elem =>
      if elem =? tail_of plist then ret (inr NULL)
      else
        do hit <- func elem;
        if hit then ret (inr elem)
        else do n <- zoom g p (ld_next elem); ret (inl n)) elem.

(** ** The abstraction *)

(** [seg h p l n]: the nodes [l] are linked in order, the first one back to
    [p] and the last one on to [n]. *)
Fixpoint seg (h : gmap Z list_elem) (p : Z) (l : list Z) (n : Z) : Prop :=
  match l with
  | [] => True
  | x :: l' => h !! x = Some (Elem p (hd n l')) /\ seg h x l' n
  end.

(** The nodes of the list at [plist] with elements [xs], sentinels included. *)
Definition cells (plist : Z) (xs : list Z) : list Z :=
  head_of plist :: xs ++ [tail_of plist].

(** The list at [plist] holds the elements [xs], in order. *)
Definition dlist (h : gmap Z list_elem) (plist : Z) (xs : list Z) : Prop :=
  seg h NULL (cells plist xs) NULL /\ NoDup (cells plist xs) /\ NULL ∉ cells plist xs.

(** What an operation on one list leaves alone: every node it does not name,
    and the set of the nodes that exist. *)
Definition frame (h h' : gmap Z list_elem) (touched : list Z) : Prop :=
  (forall x, x ∉ touched -> h' !! x = h !! x) /\
  (forall x, is_Some (h' !! x) <-> is_Some (h !! x)).

(** ** Segments *)

Lemma seg_app h p l1 a l2 n :
  seg h p (l1 ++ a :: l2) n <->
  seg h p l1 a /\ h !! a = Some (Elem (List.last l1 p) (hd n l2)) /\ seg h a l2 n.
Proof.
  revert p. induction l1 as [|x l1 IH]; intros p; cbn [app seg].
  { cbn. intuition. }
  rewrite (IH x).
  assert (Hh : hd n (l1 ++ a :: l2) = hd a l1) by (by destruct l1). rewrite Hh.
  replace (List.last (x :: l1) p) with (List.last l1 x); [intuition|].
  clear. revert x. induction l1 as [|y l1 IH]; intros x; [done|].
  cbn [List.last] in *. destruct l1; [done|]. by rewrite IH.
Qed.

Lemma seg_ext h h' p l n :
  (forall x, x ∈ l -> h' !! x = h !! x) -> seg h p l n -> seg h' p l n.
Proof.
  revert p. induction l as [|x l IH]; intros p Hx; cbn [seg]; [done|]. intros [H1 H2].
  split; [rewrite Hx; [done|set_solver]|]. apply IH; [|done]. intros y Hy. apply Hx. set_solver.
Qed.

Lemma seg_lookup_some h p l n x : seg h p l n -> x ∈ l -> is_Some (h !! x).
Proof.
  revert p. induction l as [|y l IH]; intros p; [set_solver|]. cbn [seg]. intros [H1 H2] Hx.
  apply elem_of_cons in Hx as [->|Hx]; [by eexists|]. by apply (IH y).
Qed.

(** Inserting [e] between the neighbours [a] and [b]. *)
Lemma seg_insert h p l1 a b l2 n e nb pa :
  seg h p (l1 ++ a :: b :: l2) n -> NoDup (l1 ++ a :: b :: l2) -> e ∉ l1 ++ a :: b :: l2 ->
  h !! a = Some (Elem pa b) -> h !! b = Some (Elem a nb) ->
  seg (<[b := Elem e nb]> (<[e := Elem a b]> (<[a := Elem pa e]> h))) p
    (l1 ++ a :: e :: b :: l2) n.
Proof.
  intros Hseg Hnd He Ha Hb. apply seg_app in Hseg as (Hl1 & Ha' & Hbl). cbn in Ha'.
  rewrite Ha in Ha'. injection Ha' as ->. destruct Hbl as [Hb' Hl2].
  rewrite Hb in Hb'. injection Hb' as ->.
  apply list.NoDup_app in Hnd as (_ & Hd1 & Hnd2).
  apply list.NoDup_cons in Hnd2 as [Hab Hnd2]. apply list.NoDup_cons in Hnd2 as [Hbl2 _].
  assert (a <> b) by set_solver. assert (e <> a /\ e <> b) as [??] by set_solver.
  apply seg_app. split; [|split].
  - apply (seg_ext h).
    + intros x Hx. assert (x <> a /\ x <> b) by (split; intros ->; apply (Hd1 _ Hx); set_solver).
      assert (x <> e) by set_solver. by rewrite !lookup_insert_ne by naive_solver.
    + exact Hl1.
  - rewrite !lookup_insert_ne by congruence. by rewrite lookup_insert_eq.
  - cbn [seg hd]. rewrite lookup_insert_ne, lookup_insert_eq by naive_solver.
    rewrite lookup_insert_eq. split; [done|]. split; [done|].
    apply (seg_ext h); [|done]. intros x Hx.
    rewrite !lookup_insert_ne by set_solver. done.
Qed.

(** Unlinking [e] from between [a] and [b]. *)
Lemma seg_remove h p l1 a e b l2 n pa nb :
  seg h p (l1 ++ a :: e :: b :: l2) n -> NoDup (l1 ++ a :: e :: b :: l2) ->
  h !! a = Some (Elem pa e) -> h !! b = Some (Elem e nb) ->
  seg (<[b := Elem a nb]> (<[a := Elem pa b]> h)) p (l1 ++ a :: b :: l2) n.
Proof.
  intros Hseg Hnd Ha Hb. apply seg_app in Hseg as (Hl1 & Ha' & Hel). cbn in Ha'.
  rewrite Ha in Ha'. injection Ha' as ->. destruct Hel as [He [Hb' Hl2]].
  rewrite Hb in Hb'. injection Hb' as ->.
  apply list.NoDup_app in Hnd as (_ & Hd1 & Hnd2).
  apply list.NoDup_cons in Hnd2 as [Hab Hnd2]. apply list.NoDup_cons in Hnd2 as [Heb Hnd2].
  apply list.NoDup_cons in Hnd2 as [Hbl2 _]. assert (a <> b) by set_solver.
  apply seg_app. split; [|split].
  - apply (seg_ext h); [|exact Hl1]. intros x Hx.
    assert (x <> a /\ x <> b) as [??] by (split; intros ->; apply (Hd1 _ Hx); set_solver).
    by rewrite !lookup_insert_ne by naive_solver.
  - rewrite lookup_insert_ne by naive_solver. by rewrite lookup_insert_eq.
  - cbn [seg hd]. rewrite lookup_insert_eq. split; [done|].
    apply (seg_ext h); [|done]. intros x Hx.
    rewrite !lookup_insert_ne by set_solver. done.
Qed.

(** ** Lists *)

Lemma dlist_nodup h L xs : dlist h L xs -> NoDup (cells L xs).
Proof. by intros (_&?&_). Qed.

Lemma dlist_not_null h L xs : dlist h L xs -> NULL ∉ cells L xs.
Proof. by intros (_&_&?). Qed.

Lemma dlist_nodup_elems h L xs : dlist h L xs -> NoDup xs.
Proof.
  intros H%dlist_nodup. unfold cells in H. apply list.NoDup_cons in H as [_ H].
  by apply list.NoDup_app in H as (?&_&_).
Qed.

Lemma dlist_sentinel_notin h L xs : dlist h L xs -> head_of L ∉ xs /\ tail_of L ∉ xs.
Proof.
  intros H%dlist_nodup. unfold cells in H. apply list.NoDup_cons in H as [H1 H2].
  apply list.NoDup_app in H2 as (_&H2&_). split; [set_solver|].
  intros Hin. apply (H2 _ Hin). set_solver.
Qed.

Lemma dlist_frame h h' L xs touched :
  frame h h' touched -> (forall x, x ∈ cells L xs -> x ∉ touched) ->
  dlist h L xs -> dlist h' L xs.
Proof.
  intros [Hf _] Hd (Hseg & Hnd & Hnull). split; [|done].
  apply (seg_ext h); [|done]. intros x Hx. by apply Hf, Hd.
Qed.

Lemma dlist_elem_ne h L xs x : dlist h L xs -> x ∈ xs -> x <> tail_of L.
Proof. intros Hd Hx ->. by apply dlist_sentinel_notin in Hd as [_ ?]. Qed.

Lemma dlist_cell_some h L xs x : dlist h L xs -> x ∈ cells L xs -> is_Some (h !! x).
Proof. intros (Hseg&_) Hx. by apply (seg_lookup_some h NULL (cells L xs) NULL). Qed.

(** The links of the element in the middle of a list. *)
Lemma dlist_lookup h L xs1 x xs2 :
  dlist h L (xs1 ++ x :: xs2) ->
  h !! x = Some (Elem (List.last xs1 (head_of L)) (hd (tail_of L) xs2)).
Proof.
  intros (Hseg&_). unfold cells in Hseg. rewrite <- app_assoc in Hseg.
  replace (head_of L :: xs1 ++ (x :: xs2) ++ [tail_of L])
    with ((head_of L :: xs1) ++ x :: (xs2 ++ [tail_of L])) in Hseg by done.
  apply seg_app in Hseg as (_ & -> & _). f_equal. f_equal.
  - clear. revert L. induction xs1 as [|y ys IH]; [done|]. intros L. cbn in *.
    destruct ys; [done|]. apply (IH L).
  - by destruct xs2.
Qed.

Lemma dlist_head h L xs : dlist h L xs -> h !! head_of L = Some (Elem NULL (hd (tail_of L) xs)).
Proof. intros ([H _]&_). rewrite H. do 2 f_equal. by destruct xs. Qed.

Lemma dlist_tail h L xs :
  dlist h L xs -> h !! tail_of L = Some (Elem (List.last xs (head_of L)) NULL).
Proof.
  intros (Hseg&_). unfold cells in Hseg.
  change (head_of L :: xs ++ [tail_of L]) with ((head_of L :: xs) ++ [tail_of L]) in Hseg.
  apply seg_app in Hseg as (_ & -> & _). do 2 f_equal.
  clear. revert L. induction xs as [|y ys IH]; [done|]. intros L. cbn in *.
  destruct ys; [done|]. apply (IH L).
Qed.

Lemma size_fuel (h : gmap Z list_elem) (l : list Z) :
  NoDup l -> (forall x, x ∈ l -> is_Some (h !! x)) -> (length l <= size h)%nat.
Proof.
  intros Hnd Hin. rewrite <- size_dom.
  rewrite <- (size_list_to_set (C := gset Z) l Hnd).
  apply subseteq_size. intros x Hx. apply elem_of_dom. apply Hin. set_solver.
Qed.

Lemma dlist_fuel h L xs : dlist h L xs -> (length xs < size h)%nat.
Proof.
  intros Hd. pose proof (size_fuel h (cells L xs) (dlist_nodup _ _ _ Hd)) as Hs.
  unfold cells in Hs. cbn in Hs. rewrite length_app in Hs. cbn in Hs.
  enough (length xs + 1 < size h)%nat by lia. apply Hs.
  intros x Hx. by apply (dlist_cell_some h L xs).
Qed.

(** ** Running the operations *)

Lemma wp_intr_disable (Q : intr_status -> lmem -> Prop) s :
  wp l_intr_disable Q s = Q (status_of (lm_cpu s)) (set_cpu (disabled (lm_cpu s)) s).
Proof. unfold l_intr_disable. rewrite wp_zoom. unfold wp. by rewrite intr_disable_eq. Qed.

Lemma wp_intr_restore c h (Q : intr_status -> lmem -> Prop) :
  wp (l_intr_set_status (status_of c)) Q (LMem (disabled c) h) = Q INTR_OFF (LMem c h).
Proof. unfold l_intr_set_status. rewrite wp_zoom. unfold wp. cbn. by rewrite intr_restore. Qed.

Lemma wp_ld_elem p e (Q : list_elem -> lmem -> Prop) s :
  lm_nodes s !! p = Some e -> Q e s -> wp (ld_elem p) Q s.
Proof. intros He HQ. unfold ld_elem. wp_simp. wp_load He. done. Qed.

Lemma wp_ld_next p e (Q : Z -> lmem -> Prop) s :
  lm_nodes s !! p = Some e -> Q (next e) s -> wp (ld_next p) Q s.
Proof. intros He HQ. unfold ld_next. wp_simp. by eapply wp_ld_elem. Qed.

Lemma wp_ld_prev p e (Q : Z -> lmem -> Prop) s :
  lm_nodes s !! p = Some e -> Q (prev e) s -> wp (ld_prev p) Q s.
Proof. intros He HQ. unfold ld_prev. wp_simp. by eapply wp_ld_elem. Qed.

Lemma wp_st_next p v e (Q : unit -> lmem -> Prop) s :
  lm_nodes s !! p = Some e -> Q tt (set_nodes (<[p := Elem (prev e) v]> (lm_nodes s)) s) ->
  wp (st_next p v) Q s.
Proof. intros He HQ. unfold st_next, st_elem. wp_simp. eapply wp_ld_elem; [done|]. by wp_simp. Qed.

Lemma wp_st_prev p v e (Q : unit -> lmem -> Prop) s :
  lm_nodes s !! p = Some e -> Q tt (set_nodes (<[p := Elem v (next e)]> (lm_nodes s)) s) ->
  wp (st_prev p v) Q s.
Proof. intros He HQ. unfold st_prev, st_elem. wp_simp. eapply wp_ld_elem; [done|]. by wp_simp. Qed.

Lemma list_insert_before_run s b e a pa nb (Q : unit -> lmem -> Prop) :
  lm_nodes s !! a = Some (Elem pa b) -> lm_nodes s !! b = Some (Elem a nb) ->
  is_Some (lm_nodes s !! e) -> a <> b -> e <> a -> e <> b ->
  Q tt (set_nodes (<[b := Elem e nb]> (<[e := Elem a b]> (<[a := Elem pa e]> (lm_nodes s)))) s) ->
  wp (list_insert_before b e) Q s.
Proof.
  intros Ha Hb [ee He] Hab Hea Heb HQ. destruct s as [c h]. cbn in *.
  unfold list_insert_before. wp_simp. rewrite wp_intr_disable. cbn. wp_simp.
  eapply wp_ld_prev; [exact Hb|]. cbn. wp_simp.
  eapply wp_st_next; [exact Ha|]. cbn. wp_simp.
  eapply wp_ld_prev; [cbn; rewrite lookup_insert_ne by done; exact Hb|]. cbn. wp_simp.
  eapply wp_st_prev; [cbn; rewrite lookup_insert_ne by done; exact He|]. cbn. wp_simp.
  eapply wp_st_next; [cbn; apply lookup_insert_eq|]. cbn. wp_simp.
  eapply wp_st_prev; [cbn; rewrite !lookup_insert_ne by done; exact Hb|]. cbn. wp_simp.
  unfold set_nodes. cbn. rewrite wp_intr_restore. wp_simp.
  rewrite insert_insert_eq. exact HQ.
Qed.

Lemma list_remove_run s e a pa b nb (Q : unit -> lmem -> Prop) :
  lm_nodes s !! e = Some (Elem a b) ->
  lm_nodes s !! a = Some (Elem pa e) -> lm_nodes s !! b = Some (Elem e nb) ->
  a <> b -> e <> a -> e <> b ->
  Q tt (set_nodes (<[b := Elem a nb]> (<[a := Elem pa b]> (lm_nodes s))) s) ->
  wp (list_remove e) Q s.
Proof.
  intros He Ha Hb Hab Hea Heb HQ. destruct s as [c h]. cbn in *.
  unfold list_remove. wp_simp. rewrite wp_intr_disable. cbn. wp_simp.
  eapply wp_ld_elem; [exact He|]. wp_simp.
  eapply wp_st_next; [exact Ha|]. cbn. wp_simp.
  eapply wp_ld_elem; [cbn; rewrite lookup_insert_ne by done; exact He|]. wp_simp.
  eapply wp_st_prev; [cbn; rewrite lookup_insert_ne by done; exact Hb|]. cbn. wp_simp.
  unfold set_nodes. cbn. rewrite wp_intr_restore. wp_simp. exact HQ.
Qed.

Lemma frame_insert h p e touched :
  is_Some (h !! p) -> p ∈ touched -> frame h (<[p := e]> h) touched.
Proof.
  intros Hp Hin. split; intros x.
  - intros Hx. apply lookup_insert_ne. by intros ->.
  - destruct (decide (x = p)) as [->|Hne].
    + rewrite lookup_insert_eq. by split.
    + by rewrite lookup_insert_ne by done.
Qed.

Lemma frame_trans h1 h2 h3 t : frame h1 h2 t -> frame h2 h3 t -> frame h1 h3 t.
Proof.
  intros [H1 D1] [H2 D2]. split; intros x; [intros Hx; rewrite H2, H1; done|].
  by rewrite D2, D1.
Qed.

Lemma frame_refl h t : frame h h t.
Proof. done. Qed.

(** A write chain of nodes that exist. *)
Ltac frame_chain :=
  repeat (eapply frame_trans; [|apply frame_insert]);
  try apply frame_refl; rewrite ?lookup_insert_is_Some; eauto; try set_solver.

(** Insertion anywhere in a list. *)
Lemma dlist_insert_run s L xs1 xs2 e (Q : unit -> lmem -> Prop) :
  dlist (lm_nodes s) L (xs1 ++ xs2) -> e ∉ cells L (xs1 ++ xs2) -> e <> NULL ->
  is_Some (lm_nodes s !! e) ->
  (forall h', dlist h' L (xs1 ++ e :: xs2) ->
     frame (lm_nodes s) h' (e :: cells L (xs1 ++ xs2)) -> Q tt (set_nodes h' s)) ->
  wp (list_insert_before (hd (tail_of L) xs2) e) Q s.
Proof.
  intros Hd He Hnull Hsome HQ. pose proof Hd as (Hseg & Hnd & Hn).
  assert (Hc : exists l1 a l2, cells L (xs1 ++ xs2) = l1 ++ a :: hd (tail_of L) xs2 :: l2 /\
    cells L (xs1 ++ e :: xs2) = l1 ++ a :: e :: hd (tail_of L) xs2 :: l2).
  { assert (exists l2, xs2 ++ [tail_of L] = hd (tail_of L) xs2 :: l2) as [l2 Hl2]
      by (destruct xs2; cbn; eauto).
    destruct xs1 as [|y ys] using rev_ind.
    - exists [], (head_of L), l2. unfold cells. cbn. by rewrite Hl2.
    - exists (head_of L :: ys), y, l2. unfold cells.
      rewrite <- !app_assoc. cbn. by rewrite Hl2. }
  destruct Hc as (l1 & a & l2 & Hc & Hc'). set (b := hd (tail_of L) xs2) in *.
  rewrite Hc in Hseg, Hnd. pose proof Hseg as Hseg2.
  apply seg_app in Hseg2 as (_ & Ha & Hbl). cbn in Ha. destruct Hbl as [Hb _].
  assert (Hab : a <> b).
  { apply list.NoDup_app in Hnd as (_&_&Hnd). apply list.NoDup_cons in Hnd as [? _]. set_solver. }
  rewrite Hc in He. eapply list_insert_before_run; [exact Ha|exact Hb|done|set_solver..|].
  apply HQ.
  - split; [rewrite Hc'; by eapply seg_insert|]. rewrite Hc'. split.
    + replace (l1 ++ a :: e :: b :: l2) with ((l1 ++ [a]) ++ e :: b :: l2)
        by (by rewrite <- app_assoc).
      rewrite <- Permutation_middle.
      replace (l1 ++ a :: b :: l2) with ((l1 ++ [a]) ++ b :: l2) in Hnd, He
        by (by rewrite <- app_assoc).
      by apply list.NoDup_cons.
    + rewrite Hc in Hn. set_solver.
  - rewrite Hc. frame_chain.
Qed.

Lemma dlist_append_run s L xs e (Q : unit -> lmem -> Prop) :
  dlist (lm_nodes s) L xs -> e ∉ cells L xs -> e <> NULL -> is_Some (lm_nodes s !! e) ->
  (forall h', dlist h' L (xs ++ [e]) -> frame (lm_nodes s) h' (e :: cells L xs) ->
     Q tt (set_nodes h' s)) ->
  wp (list_append L e) Q s.
Proof.
  intros Hd He Hn Hs HQ. unfold list_append.
  apply (dlist_insert_run s L xs [] e); rewrite ?app_nil_r; auto.
Qed.

Lemma dlist_push_run s L xs e (Q : unit -> lmem -> Prop) :
  dlist (lm_nodes s) L xs -> e ∉ cells L xs -> e <> NULL -> is_Some (lm_nodes s !! e) ->
  (forall h', dlist h' L (e :: xs) -> frame (lm_nodes s) h' (e :: cells L xs) ->
     Q tt (set_nodes h' s)) ->
  wp (list_push L e) Q s.
Proof.
  intros Hd He Hn Hs HQ. unfold list_push. wp_simp.
  eapply wp_ld_next; [by apply dlist_head|]. cbn.
  by apply (dlist_insert_run s L [] xs e).
Qed.

Lemma dlist_remove_run s L xs1 e xs2 (Q : unit -> lmem -> Prop) :
  dlist (lm_nodes s) L (xs1 ++ e :: xs2) ->
  (forall h', dlist h' L (xs1 ++ xs2) -> frame (lm_nodes s) h' (cells L (xs1 ++ e :: xs2)) ->
     h' !! e = lm_nodes s !! e -> Q tt (set_nodes h' s)) ->
  wp (list_remove e) Q s.
Proof.
  intros Hd HQ. pose proof Hd as (Hseg & Hnd & Hn).
  assert (Hc : exists l1 a b l2, cells L (xs1 ++ e :: xs2) = l1 ++ a :: e :: b :: l2 /\
    cells L (xs1 ++ xs2) = l1 ++ a :: b :: l2).
  { assert (exists b l2, xs2 ++ [tail_of L] = b :: l2) as (b & l2 & Hl2)
      by (destruct xs2; cbn; eauto).
    destruct xs1 as [|y ys] using rev_ind.
    - exists [], (head_of L), b, l2. unfold cells. cbn. by rewrite Hl2.
    - exists (head_of L :: ys), y, b, l2. unfold cells.
      rewrite <- !app_assoc. cbn. by rewrite Hl2. }
  destruct Hc as (l1 & a & b & l2 & Hc & Hc'). rewrite Hc in Hseg, Hnd, Hn.
  pose proof Hseg as Hseg2. apply seg_app in Hseg2 as (_ & Ha & Hel). cbn in Ha.
  destruct Hel as [He [Hb _]]. cbn in He.
  assert (Hnd' : NoDup (a :: e :: b :: l2)) by (by apply list.NoDup_app in Hnd as (_&_&?)).
  apply list.NoDup_cons in Hnd' as [Ha1 Hnd']. apply list.NoDup_cons in Hnd' as [He1 _].
  assert (a <> b /\ e <> a /\ e <> b) as (?&?&?) by set_solver.
  eapply list_remove_run; [exact He|exact Ha|exact Hb|done..|]. apply HQ.
  - split; [rewrite Hc'; by eapply seg_remove|]. rewrite Hc'. split.
    + replace (l1 ++ a :: e :: b :: l2) with ((l1 ++ [a]) ++ e :: b :: l2) in Hnd
        by (by rewrite <- app_assoc).
      rewrite <- Permutation_middle in Hnd. apply list.NoDup_cons in Hnd as [_ Hnd].
      by rewrite <- app_assoc in Hnd.
    + set_solver.
  - rewrite Hc. frame_chain.
  - by rewrite !lookup_insert_ne by done.
Qed.

Lemma dlist_pop_run s L x xs (Q : Z -> lmem -> Prop) :
  dlist (lm_nodes s) L (x :: xs) ->
  (forall h', dlist h' L xs -> frame (lm_nodes s) h' (cells L (x :: xs)) ->
     Q x (set_nodes h' s)) ->
  wp (list_pop L) Q s.
Proof.
  intros Hd HQ. unfold list_pop. wp_simp.
  eapply wp_ld_next; [by apply dlist_head|]. cbn. wp_simp.
  apply (dlist_remove_run s L [] x xs); [done|]. intros h' H1 H2 _. wp_simp. auto.
Qed.

Lemma dlist_empty_run s L xs (Q : bool -> lmem -> Prop) :
  dlist (lm_nodes s) L xs -> Q (bool_decide (xs = [])) s -> wp (list_empty L) Q s.
Proof.
  intros Hd HQ. unfold list_empty. wp_simp. eapply wp_ld_next; [by apply dlist_head|].
  cbn. wp_simp. destruct xs as [|x xs]; cbn.
  - by rewrite Z.eqb_refl.
  - destruct (Z.eqb_spec x (tail_of L)) as [->|]; [|done].
    apply dlist_sentinel_notin in Hd. set_solver.
Qed.

Lemma dlist_init_run s L (Q : unit -> lmem -> Prop) :
  L <> NULL -> L + 8 <> NULL ->
  (forall h', dlist h' L [] ->
     (forall x, x <> head_of L -> x <> tail_of L -> h' !! x = lm_nodes s !! x) ->
     Q tt (set_nodes h' s)) ->
  wp (list_init L) Q s.
Proof.
  intros HL HL8 HQ. unfold list_init, st_elem. wp_simp. cbn. apply HQ.
  - assert (Hne : head_of L <> tail_of L) by (unfold head_of, tail_of; lia).
    unfold dlist, cells. cbn. split; [|split].
    + rewrite lookup_insert_ne, lookup_insert_eq by done. by rewrite lookup_insert_eq.
    + repeat constructor; set_solver.
    + unfold head_of, tail_of. set_solver.
  - intros x Hh Ht. by rewrite !lookup_insert_ne by done.
Qed.

Lemma dlist_find_run s L xs obj (Q : bool -> lmem -> Prop) :
  dlist (lm_nodes s) L xs -> Q (bool_decide (obj ∈ xs)) s -> wp (elem_find L obj) Q s.
Proof.
  intros Hd HQ. unfold elem_find. wp_simp. eapply wp_ld_next; [by apply dlist_head|].
  cbn [next]. unfold walk_fuel. wp_simp. pose proof (dlist_fuel _ _ _ Hd) as Hfuel.
  apply (wp_loop_list (fun pre suf => xs = pre ++ suf /\ obj ∉ pre) s
    (hd (tail_of L)) [] xs); [|by split; [|set_solver]|lia].
  intros pre suf [Hxs Hpre]. destruct suf as [|x suf]; cbn [hd].
  - rewrite Z.eqb_refl. wp_simp. rewrite app_nil_r in Hxs. subst pre.
    by rewrite bool_decide_eq_false_2 in HQ.
  - assert (Hx : x <> tail_of L) by (by apply (dlist_elem_ne _ _ _ _ Hd); set_solver).
    rewrite (proj2 (Z.eqb_neq _ _) Hx). destruct (Z.eqb_spec x obj) as [->|Hne]; wp_simp.
    + rewrite bool_decide_eq_true_2 in HQ; [done|]. set_solver.
    + subst xs. eapply wp_ld_next; [by eapply dlist_lookup|]. cbn. wp_simp.
      split; [done|]. exists x, suf. rewrite <- app_assoc. set_solver.
Qed.

Lemma dlist_len_run s L xs (Q : Z -> lmem -> Prop) :
  dlist (lm_nodes s) L xs -> Q (u32 (Z.of_nat (length xs))) s -> wp (list_len L) Q s.
Proof.
  intros Hd HQ. unfold list_len. wp_simp. eapply wp_ld_next; [by apply dlist_head|].
  cbn [next]. unfold walk_fuel. wp_simp. pose proof (dlist_fuel _ _ _ Hd) as Hfuel.
  change 0 with (u32 (Z.of_nat 0)). replace 0%nat with (length xs - length xs)%nat by lia.
  apply (wp_loop_list (fun pre suf => xs = pre ++ suf) s
    (fun suf => (hd (tail_of L) suf, u32 (Z.of_nat (length xs - length suf)))) [] xs);
    [|done|lia].
  intros pre suf Hxs. destruct suf as [|x suf]; cbn [hd].
  - rewrite Z.eqb_refl. wp_simp. split; [done|]. by rewrite Nat.sub_0_r.
  - assert (Hx : x <> tail_of L) by (by apply (dlist_elem_ne _ _ _ _ Hd); set_solver).
    rewrite (proj2 (Z.eqb_neq _ _) Hx). wp_simp. subst xs.
    eapply wp_ld_next; [by eapply dlist_lookup|]. cbn. wp_simp.
    split; [done|]. exists x, suf. split; [done|]. rewrite <- app_assoc.
    split; [|done]. f_equal. rewrite length_app. cbn [length].
    unfold u32. rewrite Zplus_mod_idemp_l. f_equal. lia.
Qed.

(** list_traversal returns the first element the callback accepts; here the
    callback only reads the state. *)
Lemma dlist_traversal_run {S} (g : S -> lmem) p (s : S) L xs func (f : Z -> bool)
    (Q : Z -> S -> Prop) :
  dlist (lm_nodes (g s)) L xs -> p (g s) s = s -> (forall x, func x s = Ok (f x, s)) ->
  Q (default NULL (List.find f xs)) s -> wp (list_traversal g p L func) Q s.
Proof.
  intros Hd Hp Hf HQ. unfold list_traversal. wp_simp.
  eapply wp_ld_next; [by apply dlist_head|]. cbn [next]. rewrite Hp. wp_simp.
  eapply dlist_empty_run; [exact Hd|]. rewrite Hp.
  destruct (decide (xs = [])) as [->|Hne].
  { rewrite bool_decide_eq_true_2 by done. by wp_simp. }
  rewrite bool_decide_eq_false_2 by done. unfold walk_fuel. wp_simp. rewrite Hp.
  pose proof (dlist_fuel _ _ _ Hd) as Hfuel.
  apply (wp_loop_list (fun pre suf => xs = pre ++ suf /\ List.find f xs = List.find f suf) s
    (hd (tail_of L)) [] xs); [|done|lia].
  intros pre suf [Hxs Hfind]. rewrite Hfind in HQ. destruct suf as [|x suf]; cbn [hd].
  - rewrite Z.eqb_refl. by wp_simp.
  - assert (Hx : x <> tail_of L) by (by apply (dlist_elem_ne _ _ _ _ Hd); set_solver).
    rewrite (proj2 (Z.eqb_neq _ _) Hx). wp_simp. unfold wp at 1. rewrite Hf.
    cbn [List.find] in HQ, Hfind. destruct (f x); wp_simp; [done|]. subst xs.
    eapply wp_ld_next; [by eapply dlist_lookup|]. cbn. rewrite Hp. wp_simp.
    split; [done|]. exists x, suf. rewrite <- app_assoc. done.
Qed.

(** ** The queue interface and its refinement

    Clients use a list through seven operations. Their specification is on
    sequences; a program of operations that the specification allows runs on
    the pointers without a fault and gives the same answers. *)

Inductive qop :=
  | QAppend (e : Z) | QPush (e : Z) | QPop | QRemove (e : Z)
  | QEmpty | QFind (e : Z) | QLen.

Inductive qres := RUnit | RElem (e : Z) | RBool (b : bool) | RLen (n : Z).

(** One operation on a sequence; [None] where its precondition fails. *)
Definition q_spec (op : qop) (xs : list Z) : option (qres * list Z) :=
  match op with
  | QAppend e => if decide (e ∈ xs) then None else Some (RUnit, xs ++ [e])
  | QPush e => if decide (e ∈ xs) then None else Some (RUnit, e :: xs)
  | QPop => match xs with [] => None | x :: xs' => Some (RElem x, xs') end
  | QRemove e => if decide (e ∈ xs) then Some (RUnit, filter (fun x => x <> e) xs) else None
  | QEmpty => Some (RBool (bool_decide (xs = [])), xs)
  | QFind e => Some (RBool (bool_decide (e ∈ xs)), xs)
  | QLen => Some (RLen (u32 (Z.of_nat (length xs))), xs)
  end.

(** The same operation on the list at [L]. *)
Definition q_impl (L : Z) (op : qop) : M lmem qres :=
  match op with
  | QAppend e => list_append L e ;; ret RUnit
  | QPush e => list_push L e ;; ret RUnit
  | QPop => do e <- list_pop L; ret (RElem e)
  | QRemove e => list_remove e ;; ret RUnit
  | QEmpty => do b <- list_empty L; ret (RBool b)
  | QFind e => do b <- elem_find L e; ret (RBool b)
  | QLen => do n <- list_len L; ret (RLen n)
  end.

Fixpoint q_spec_run (ops : list qop) (xs : list Z) : option (list qres * list Z) :=
  match ops with
  | [] => Some ([], xs)
  | op :: ops' =>
      match q_spec op xs with
      | None => None
      | Some (r, xs') =>
          match q_spec_run ops' xs' with
          | None => None
          | Some (rs, ys) => Some (r :: rs, ys)
          end
      end
  end.

Fixpoint q_impl_run (L : Z) (ops : list qop) : M lmem (list qres) :=
  match ops with
  | [] => ret []
  | op :: ops' => do r <- q_impl L op; do rs <- q_impl_run L ops'; ret (r :: rs)
  end.

(** The nodes an operation names. *)
Definition q_elem (op : qop) : list Z :=
  match op with QAppend e | QPush e => [e] | _ => [] end.

(** Nodes that may be linked into the list at [L]. *)
Definition linkable (h : gmap Z list_elem) (L e : Z) : Prop :=
  is_Some (h !! e) /\ e <> NULL /\ e <> head_of L /\ e <> tail_of L.

Lemma not_in_cells L xs e :
  e <> head_of L -> e <> tail_of L -> e ∉ xs -> e ∉ cells L xs.
Proof. unfold cells. set_solver. Qed.

Lemma filter_remove (xs1 xs2 : list Z) e :
  NoDup (xs1 ++ e :: xs2) -> filter (fun x => x <> e) (xs1 ++ e :: xs2) = xs1 ++ xs2.
Proof.
  intros Hnd. apply list.NoDup_app in Hnd as (_ & H1 & H2).
  apply list.NoDup_cons in H2 as [H2 _].
  assert (Hid : forall l : list Z, e ∉ l -> filter (fun x => x <> e) l = l).
  { induction l as [|y l IH]; intros Hl; [done|]. rewrite list.filter_cons.
    rewrite decide_True by set_solver. rewrite IH; [done|set_solver]. }
  rewrite list.filter_app, list.filter_cons, decide_False by naive_solver.
  rewrite !Hid; [done|set_solver|]. intros Hin. apply (H1 e Hin). set_solver.
Qed.

(** One operation, as a step of a simulation. *)
Lemma q_impl_refines L op xs r ys s (Q : qres -> lmem -> Prop) :
  dlist (lm_nodes s) L xs -> q_spec op xs = Some (r, ys) ->
  Forall (linkable (lm_nodes s) L) (q_elem op) ->
  (forall h', dlist h' L ys -> frame (lm_nodes s) h' (q_elem op ++ cells L xs) ->
     Q r (set_nodes h' s)) ->
  wp (q_impl L op) Q s.
Proof.
  intros Hd Hspec Hlink HQ.
  assert (Hset : set_nodes (lm_nodes s) s = s) by (by destruct s).
  destruct op as [e|e| |e| |e|]; cbn in *.
  - case_decide; [done|]. simplify_eq. apply Forall_singleton in Hlink as (?&?&?&?).
    wp_simp. apply (dlist_append_run s L xs e); auto using not_in_cells.
  - case_decide; [done|]. simplify_eq. apply Forall_singleton in Hlink as (?&?&?&?).
    wp_simp. apply (dlist_push_run s L xs e); auto using not_in_cells.
  - destruct xs as [|x xs']; [done|]. injection Hspec as <- <-. wp_simp.
    apply (dlist_pop_run s L x xs'); [done|]. intros h' H1 H2. wp_simp. auto.
  - case_decide as He; [|done]. simplify_eq. wp_simp.
    apply list_elem_of_split in He as (xs1 & xs2 & ->).
    rewrite filter_remove in HQ by (by eapply dlist_nodup_elems).
    apply (dlist_remove_run s L xs1 e xs2); [done|]. intros h' H1 H2 _. wp_simp. auto.
  - simplify_eq. wp_simp. eapply dlist_empty_run; [done|]. wp_simp.
    rewrite <- Hset. by apply HQ.
  - simplify_eq. wp_simp. eapply dlist_find_run; [done|]. wp_simp.
    rewrite <- Hset. by apply HQ.
  - simplify_eq. wp_simp. eapply dlist_len_run; [done|]. wp_simp.
    rewrite <- Hset. by apply HQ.
Qed.

Lemma linkable_frame h h' L e t : frame h h' t -> linkable h L e -> linkable h' L e.
Proof. intros [_ Hd] [H1 H2]. split; [by apply Hd|done]. Qed.

(** [C2] The pointer lists refine sequences: a program of append, push, pop,
    remove, emptiness, search and length operations that is meaningful on a
    sequence runs on the linked nodes without a fault or a panic, returns the
    results of the sequence, ends with the nodes linked as the resulting
    sequence and with EFLAGS unchanged. *)
Theorem list_refines_queue L ops xs rs ys s :
  dlist (lm_nodes s) L xs ->
  Forall (fun op => Forall (linkable (lm_nodes s) L) (q_elem op)) ops ->
  q_spec_run ops xs = Some (rs, ys) ->
  exists h', q_impl_run L ops s = Ok (rs, set_nodes h' s) /\ dlist h' L ys.
Proof.
  revert xs rs s. induction ops as [|op ops IH]; intros xs rs s Hd Hlink Hspec; cbn in *.
  { simplify_eq. exists (lm_nodes s). split; [|done]. by destruct s. }
  destruct (q_spec op xs) as [[r zs]|] eqn:E1; [|done].
  destruct (q_spec_run ops zs) as [[rs' ys']|] eqn:E2; [|done]. simplify_eq.
  pose proof (Forall_inv Hlink) as Hop. pose proof (Forall_inv_tail Hlink) as Hops.
  assert (H : wp (q_impl L op) (fun r' s' => r' = r /\ exists h', s' = set_nodes h' s /\
    dlist h' L zs /\ frame (lm_nodes s) h' (q_elem op ++ cells L xs)) s).
  { eapply q_impl_refines; eauto 10. }
  wp_ok H. destruct H0 as (-> & h' & -> & Hd' & Hf).
  unfold bind at 1. rewrite H.
  destruct (IH zs rs' (set_nodes h' s)) as (h'' & Hrun & Hd''); cbn; [done| |done|].
  { eapply list.Forall_impl; [exact Hops|]. intros op' Hop'. eapply list.Forall_impl; [exact Hop'|].
    intros e He. by eapply linkable_frame. }
  exists h''. split; [|done]. unfold bind. by rewrite Hrun.
Qed.

Definition demo_mem : lmem :=
  LMem (Cpu 0x202 [] []) (<[100 := Elem 0 108]> (<[108 := Elem 100 0]>
    (<[200 := Elem 0 0]> (<[300 := Elem 0 0]> ∅)))).

Lemma list_refines_queue_witness :
  exists h', q_impl_run 100 [QAppend 200; QPush 300; QFind 200; QPop; QLen] demo_mem =
      Ok ([RUnit; RUnit; RBool true; RElem 300; RLen 1], set_nodes h' demo_mem) /\
    dlist h' 100 [200].
Proof.
  apply (list_refines_queue 100 _ []).
  - split; [by vm_compute|]. split; [repeat constructor|]; unfold cells; set_solver.
  - repeat constructor; try (by eexists); try done.
  - reflexivity.
Defined.

(** Popping an empty list follows the null [next] of the tail node: the
    operation has no guard, and callers must check [list_empty] first. *)
Theorem list_pop_empty_faults L s :
  dlist (lm_nodes s) L [] -> lm_nodes s !! NULL = None -> list_pop L s = Fault.
Proof.
  intros Hd Hnull. destruct s as [c h]. pose proof (dlist_head _ _ _ Hd) as Hh.
  pose proof (dlist_tail _ _ _ Hd) as Ht. cbn in *.
  assert (Hne : head_of L <> tail_of L) by (unfold head_of, tail_of; lia).
  assert (Hn : head_of L <> NULL /\ tail_of L <> NULL) by
    (apply dlist_not_null in Hd; unfold cells in Hd; set_solver).
  unfold list_pop, list_remove, ld_next, st_next, st_prev, st_elem, ld_elem, l_intr_disable,
    zoom, bind, get, of_option, modify. cbn -[intr_disable]. rewrite Hh. cbn -[intr_disable].
  rewrite intr_disable_eq. cbn. rewrite Ht. cbn. rewrite Hh. cbn.
  rewrite lookup_insert_ne by done. rewrite Ht. cbn.
  rewrite lookup_insert_ne by naive_solver. by rewrite Hnull.
Qed.

Lemma list_pop_empty_faults_witness : list_pop 100 demo_mem = Fault.
Proof.
  apply (list_pop_empty_faults 100 demo_mem); [|reflexivity].
  split; [by vm_compute|]. split; [repeat constructor|]; unfold cells; set_solver.
Defined.
