(* ===== verification/ListHeap.v ===== *)
(** * Several lists in one memory

    The kernel keeps many lists whose nodes live in the same memory: the ready
    queue, the list of all tasks, one list of waiters per semaphore. [dheap]
    says that a map from list addresses to sequences describes the memory, the
    lists being pairwise disjoint; each operation of [DList] then updates one
    entry of the map. This is what the clients of the lists are proved against. *)

From Stdlib Require Import ZArith Lia.
From stdpp Require Import base numbers list gmap option.
From S2P Require Import Prelude Intr DList.

Local Open Scope Z_scope.

(** The node [e] is linked into no list. *)
Definition unlinked (ls : gmap Z (list Z)) (e : Z) : Prop :=
  forall L xs, ls !! L = Some xs -> e ∉ cells L xs.

Record dheap (h : gmap Z list_elem) (ls : gmap Z (list Z)) : Prop := {
  dheap_list : forall L xs, ls !! L = Some xs -> dlist h L xs;
  dheap_disj : forall L1 xs1 L2 xs2, ls !! L1 = Some xs1 -> ls !! L2 = Some xs2 -> L1 <> L2 ->
    forall x, x ∈ cells L1 xs1 -> x ∉ cells L2 xs2
}.

(** Nodes are never created or destroyed by the operations on lists. *)
Definition same_nodes (h h' : gmap Z list_elem) : Prop :=
  forall x, is_Some (h' !! x) <-> is_Some (h !! x).

Lemma same_nodes_refl h : same_nodes h h.
Proof. done. Qed.

Lemma same_nodes_trans h1 h2 h3 : same_nodes h1 h2 -> same_nodes h2 h3 -> same_nodes h1 h3.
Proof. intros H1 H2 x. by rewrite (H2 x), (H1 x). Qed.

#[export] Hint Resolve same_nodes_refl : os.

Section update.
Context (h h' : gmap Z list_elem) (ls : gmap Z (list Z)) (L : Z) (xs ys : list Z).
Context (Hh : dheap h ls) (HL : ls !! L = Some xs) (Hd' : dlist h' L ys).

(** Replacing one list: the others are framed. [new] are the nodes that were
    not in the list before. *)
Lemma dheap_update (new : list Z) :
  frame h h' (new ++ cells L xs) -> (forall e, e ∈ new -> unlinked ls e) ->
  (forall x, x ∈ cells L ys -> x ∈ new ++ cells L xs) ->
  dheap h' (<[L := ys]> ls).
Proof.
  intros Hf Hnew Hys.
  assert (Hother : forall L2 xs2 x, ls !! L2 = Some xs2 -> L2 <> L ->
    x ∈ new ++ cells L xs -> x ∉ cells L2 xs2).
  { intros L2 xs2 x H2 Hne Hx. apply elem_of_app in Hx as [Hx|Hx].
    - by apply (Hnew x Hx L2).
    - by eapply (dheap_disj h ls Hh L xs L2 xs2). }
  split.
  - intros L2 xs2. destruct (decide (L = L2)) as [<-|Hne].
    + rewrite lookup_insert_eq. by intros [= <-].
    + rewrite lookup_insert_ne by done. intros H2.
      apply (dlist_frame h h' L2 xs2 _ Hf); [|by apply (dheap_list h ls Hh)].
      intros x Hx Hin. by apply (Hother L2 xs2 x H2).
  - intros L1 xs1 L2 xs2.
    destruct (decide (L = L1)) as [<-|Hne1], (decide (L = L2)) as [<-|Hne2];
      rewrite ?lookup_insert_eq, ?lookup_insert_ne by done.
    + done.
    + intros [= <-] H2 _ x Hx. apply (Hother L2 xs2); auto.
    + intros H1 [= <-] _ x Hx Hx'. by eapply (Hother L1 xs1 x); auto.
    + apply (dheap_disj h ls Hh).
Qed.
End update.

Section ops.
Context (s : lmem) (ls : gmap Z (list Z)) (L : Z) (xs : list Z).
Context (Hh : dheap (lm_nodes s) ls) (HL : ls !! L = Some xs).

(** The effect of an operation that turns the list [L] into [ys]. *)
Definition heap_post (ys : list Z) (Q : lmem -> Prop) : Prop :=
  forall h', dheap h' (<[L := ys]> ls) -> same_nodes (lm_nodes s) h' -> Q (set_nodes h' s).

Lemma heap_append_run e (Q : unit -> lmem -> Prop) :
  unlinked ls e -> e <> NULL -> is_Some (lm_nodes s !! e) ->
  heap_post (xs ++ [e]) (Q tt) -> wp (list_append L e) Q s.
Proof.
  intros Hu Hn Hs HQ. apply (dlist_append_run s L xs e); auto.
  - by apply (dheap_list _ _ Hh).
  - intros h' Hd' Hf. apply HQ; [|exact (proj2 Hf)].
    apply (dheap_update (lm_nodes s) h' ls L xs (xs ++ [e]) Hh HL Hd' [e]); [done| |].
    + by intros x ->%list_elem_of_singleton.
    + intros x. unfold cells. set_solver.
Qed.

Lemma heap_push_run e (Q : unit -> lmem -> Prop) :
  unlinked ls e -> e <> NULL -> is_Some (lm_nodes s !! e) ->
  heap_post (e :: xs) (Q tt) -> wp (list_push L e) Q s.
Proof.
  intros Hu Hn Hs HQ. apply (dlist_push_run s L xs e); auto.
  - by apply (dheap_list _ _ Hh).
  - intros h' Hd' Hf. apply HQ; [|exact (proj2 Hf)].
    apply (dheap_update (lm_nodes s) h' ls L xs (e :: xs) Hh HL Hd' [e]); [done| |].
    + by intros x ->%list_elem_of_singleton.
    + intros x. unfold cells. set_solver.
Qed.

Lemma heap_pop_run x ys (Q : Z -> lmem -> Prop) :
  xs = x :: ys -> heap_post ys (Q x) -> wp (list_pop L) Q s.
Proof.
  intros -> HQ. apply (dlist_pop_run s L x ys); [by apply (dheap_list _ _ Hh)|].
  intros h' Hd' Hf. apply HQ; [|exact (proj2 Hf)].
  apply (dheap_update (lm_nodes s) h' ls L (x :: ys) ys Hh HL Hd' []); [done|set_solver|].
  intros z. unfold cells. set_solver.
Qed.

Lemma heap_remove_run xs1 e xs2 (Q : unit -> lmem -> Prop) :
  xs = xs1 ++ e :: xs2 -> heap_post (xs1 ++ xs2) (Q tt) -> wp (list_remove e) Q s.
Proof.
  intros -> HQ. apply (dlist_remove_run s L xs1 e xs2); [by apply (dheap_list _ _ Hh)|].
  intros h' Hd' Hf _. apply HQ; [|exact (proj2 Hf)].
  apply (dheap_update (lm_nodes s) h' ls L (xs1 ++ e :: xs2) (xs1 ++ xs2) Hh HL Hd' []);
    [done|set_solver|].
  intros z. unfold cells. set_solver.
Qed.

Lemma heap_empty_run (Q : bool -> lmem -> Prop) :
  Q (bool_decide (xs = [])) s -> wp (list_empty L) Q s.
Proof. apply dlist_empty_run. by apply (dheap_list _ _ Hh). Qed.

Lemma heap_find_run e (Q : bool -> lmem -> Prop) :
  Q (bool_decide (e ∈ xs)) s -> wp (elem_find L e) Q s.
Proof. apply dlist_find_run. by apply (dheap_list _ _ Hh). Qed.

(** A popped node is in no list any more. *)
Lemma unlinked_after_pop x ys : xs = x :: ys -> unlinked (<[L := ys]> ls) x.
Proof.
  intros ->. pose proof (dheap_list _ _ Hh L (x :: ys) HL) as Hd.
  intros L2 zs. destruct (decide (L = L2)) as [<-|Hne].
  - rewrite lookup_insert_eq. intros [= <-].
    pose proof (dlist_nodup_elems _ _ _ Hd) as Hnd. apply list.NoDup_cons in Hnd as [Hx _].
    apply dlist_sentinel_notin in Hd as [Hh1 Ht1]. apply not_in_cells; set_solver.
  - rewrite lookup_insert_ne by done. intros H2.
    apply (dheap_disj _ _ Hh L (x :: ys) L2 zs HL H2 Hne). unfold cells. set_solver.
Qed.

(** An element of another list stays linked nowhere else. *)
Lemma unlinked_insert e ys :
  unlinked ls e -> e ∉ cells L ys -> unlinked (<[L := ys]> ls) e.
Proof.
  intros Hu He L2 zs. destruct (decide (L = L2)) as [<-|Hne].
  - rewrite lookup_insert_eq. by intros [= <-].
  - rewrite lookup_insert_ne by done. apply Hu.
Qed.
End ops.

(** Writing a node that is linked nowhere. *)
Lemma dheap_write h ls e x : dheap h ls -> unlinked ls e -> dheap (<[e := x]> h) ls.
Proof.
  intros [Hl Hd] Hu. split; [|done]. intros L xs HL. destruct (Hl L xs HL) as (Hs & Hn). split; [|done].
  apply (seg_ext h); [|done]. intros y Hy. rewrite lookup_insert_ne; [done|]. intros ->. by apply (Hu L xs HL).
Qed.

(** A new list, at an address that no other list uses. *)
Lemma heap_init_run s ls L (Q : unit -> lmem -> Prop) :
  dheap (lm_nodes s) ls -> L <> NULL -> L + 8 <> NULL ->
  (forall e, e ∈ cells L [] -> unlinked (delete L ls) e) ->
  (forall h', dheap h' (<[L := []]> ls) -> (forall x, x ∉ cells L [] -> h' !! x = lm_nodes s !! x) -> Q tt (set_nodes h' s)) ->
  wp (list_init L) Q s.
Proof.
  intros [Hl Hd] HL HL8 Hu HQ. apply dlist_init_run; [done|done|]. intros h' Hd' Hf.
  assert (Hf' : forall x, x ∉ cells L [] -> h' !! x = lm_nodes s !! x) by (intros x Hx; apply Hf; intros ->; apply Hx; set_solver).
  assert (Hother : forall L2 xs2 x, ls !! L2 = Some xs2 -> L <> L2 -> x ∈ cells L [] -> x ∉ cells L2 xs2).
  { intros L2 xs2 x H2 Hne Hx. apply (Hu x Hx L2 xs2). by rewrite lookup_delete_ne. }
  apply HQ; [|done]. split.
  - intros L2 xs2. destruct (decide (L = L2)) as [<-|Hne].
    + rewrite lookup_insert_eq. by intros [= <-].
    + rewrite lookup_insert_ne by done. intros H2. destruct (Hl L2 xs2 H2) as (Hs & Hn). split; [|done].
      apply (seg_ext (lm_nodes s)); [|done]. intros x Hx. apply Hf'. intros Hc. by apply (Hother L2 xs2 x).
  - intros L1 xs1 L2 xs2. destruct (decide (L = L1)) as [<-|H1], (decide (L = L2)) as [<-|H2];
      rewrite ?lookup_insert_eq, ?lookup_insert_ne by done.
    + done.
    + intros [= <-] HL2 _ x Hx. by apply (Hother L2 xs2).
    + intros HL1 [= <-] _ x Hx Hx'. by apply (Hother L1 xs1 x).
    + apply Hd.
Qed.

(** Nothing is linked where there are no lists. *)
Lemma unlinked_empty e : unlinked ∅ e.
Proof. intros L xs HL. by rewrite lookup_empty in HL. Qed.
