(* ===== verification/Paging.v ===== *)
(** * Page-table addressing (kernel/memory.c: PDE_IDX to addr_v2p)

    The last entry of the page directory points to the directory itself, so
    the tables can be read and written at linear addresses. The state is the
    memory of the page-table window: a map from the linear address of an entry
    to its 32-bit value; an address that is not in the map is not mapped, and
    touching it is a page fault ([Fault]). *)

From Stdlib Require Import ZArith Lia.
From stdpp Require Import base numbers list gmap option.
From S2P Require Import Prelude.

Local Open Scope Z_scope.

Definition PG_SIZE : Z := 4096.
Definition PG_P_1 : Z := 1.
Definition PG_RW_W : Z := 2.
Definition PG_US_U : Z := 4.

Abbreviation ptab := (gmap Z Z).

Definition PDE_IDX (addr : Z) : Z := Z.shiftr (Z.land addr 0xffc00000) 22.
Definition PTE_IDX (addr : Z) : Z := Z.shiftr (Z.land addr 0x003ff000) 12.

Definition pte_ptr (vaddr : Z) : Z :=
  u32 (0xffc00000 + Z.shiftr (Z.land vaddr 0xffc00000) 10 + PTE_IDX vaddr * 4).

Definition pde_ptr (vaddr : Z) : Z := u32 (0xfffff000 + PDE_IDX vaddr * 4).

(** [*p] and [*p = v] for an entry of the page tables. *)
Definition ld_pte (p : Z) : M ptab Z := do t <- get; of_option (t !! p).
Definition st_pte (p v : Z) : M ptab unit :=
  do t <- get; of_option (t !! p) ;; put (<[p := u32 v]> t).

(** The physical address a virtual address is mapped to. *)
Definition addr_v2p (vaddr : Z) : M ptab Z :=
  do e <- ld_pte (pte_ptr vaddr);
  ret (u32 (Z.land e 0xfffff000 + Z.land vaddr 0x00000fff)).

(** ** Arithmetic of the window *)

Lemma shiftr_land_high a k m : 0 <= k -> 0 <= m -> 0 <= a < 2 ^ (k + m) ->
  Z.shiftr (Z.land a (Z.shiftl (Z.ones m) k)) k = a / 2 ^ k.
Proof.
  intros Hk Hm Ha. rewrite <- Z.shiftr_div_pow2 by done.
  rewrite Z.shiftr_land, Z.shiftr_shiftl_l, Z.sub_diag, Z.shiftl_0_r by done.
  rewrite Z.land_ones by done. apply Z.mod_small.
  rewrite Z.shiftr_div_pow2 by done. split; [apply Z.div_pos; lia|].
  apply Z.div_lt_upper_bound; [lia|]. rewrite <- Z.pow_add_r by lia. lia.
Qed.

Lemma PDE_IDX_div v : 0 <= v < 2 ^ 32 -> PDE_IDX v = v / 2 ^ 22.
Proof.
  intros Hv. unfold PDE_IDX. change 0xffc00000 with (Z.shiftl (Z.ones 10) 22).
  apply shiftr_land_high; lia.
Qed.

Lemma PTE_IDX_div v : 0 <= v < 2 ^ 32 -> PTE_IDX v = v / 2 ^ 12 mod 2 ^ 10.
Proof.
  intros Hv. unfold PTE_IDX. change 0x003ff000 with (Z.shiftl (Z.ones 10) 12).
  rewrite Z.shiftr_land, Z.shiftr_shiftl_l, Z.sub_diag, Z.shiftl_0_r by lia.
  rewrite Z.land_ones, Z.shiftr_div_pow2 by lia. done.
Qed.

(** The entry of page number [v / 4096], counted from the start of the window. *)
Lemma pte_ptr_linear v : 0 <= v < 2 ^ 32 -> pte_ptr v = 0xffc00000 + 4 * (v / 2 ^ 12).
Proof.
  intros Hv. unfold pte_ptr. rewrite PTE_IDX_div by done.
  assert (Hs : Z.shiftr (Z.land v 0xffc00000) 10 = (v / 2 ^ 22) * 2 ^ 12).
  { rewrite <- (PDE_IDX_div v Hv). unfold PDE_IDX.
    rewrite <- Z.shiftl_mul_pow2 by lia.
    apply Z.bits_inj'. intros n Hn. rewrite Z.shiftr_spec, Z.shiftl_spec by lia.
    destruct (Z.ltb_spec n 12) as [Hlt|Hge].
    - rewrite (Z.testbit_neg_r _ (n - 12)) by lia. rewrite Z.land_spec.
      change 0xffc00000 with (Z.shiftl (Z.ones 10) 22).
      rewrite Z.shiftl_spec_low by lia. apply andb_false_r.
    - rewrite Z.shiftr_spec by lia. f_equal. lia. }
  rewrite Hs. change (2 ^ 22) with (2 ^ 12 * 2 ^ 10). rewrite <- Z.div_div by lia.
  rewrite u32_small; dlia.
Qed.

Lemma pte_ptr_bound v : 0 <= v < 2 ^ 32 -> 0xffc00000 <= pte_ptr v < 2 ^ 32.
Proof. intros Hv. rewrite pte_ptr_linear by done. dlia. Qed.

Lemma pte_ptr_inj v w :
  0 <= v < 2 ^ 32 -> 0 <= w < 2 ^ 32 -> pte_ptr v = pte_ptr w <-> v / 2 ^ 12 = w / 2 ^ 12.
Proof. intros Hv Hw. rewrite !pte_ptr_linear by done. lia. Qed.

(** The two access functions agree on the recursive mapping: the directory
    entry of an address is the table entry of its table entry, and two
    addresses share a table entry exactly when they are on the same page. *)
Theorem pde_is_pte_of_pte v w :
  0 <= v < 2 ^ 32 -> 0 <= w < 2 ^ 32 ->
  pde_ptr v = pte_ptr (pte_ptr v) /\
  (pte_ptr v = pte_ptr w <-> v / PG_SIZE = w / PG_SIZE).
Proof.
  intros Hv Hw. split; [|by apply pte_ptr_inj].
  rewrite (pte_ptr_linear (pte_ptr v)) by (pose proof (pte_ptr_bound v Hv); lia).
  rewrite (pte_ptr_linear v) by done. unfold pde_ptr. rewrite PDE_IDX_div by done.
  rewrite u32_small; dlia.
Qed.

Lemma pde_is_pte_of_pte_witness :
  pde_ptr 0xc0100abc = pte_ptr (pte_ptr 0xc0100abc) /\
  (pte_ptr 0xc0100abc = pte_ptr 0x08048000 <-> 0xc0100abc / PG_SIZE = 0x08048000 / PG_SIZE).
Proof. apply pde_is_pte_of_pte; lia. Defined.

Lemma wp_ld_pte p v (t : ptab) (Q : Z -> ptab -> Prop) :
  t !! p = Some v -> Q v t -> wp (ld_pte p) Q t.
Proof. intros Hv HQ. unfold ld_pte. wp_simp. wp_load Hv. done. Qed.

Lemma wp_st_pte p v (t : ptab) (Q : unit -> ptab -> Prop) :
  is_Some (t !! p) -> Q tt (<[p := u32 v]> t) -> wp (st_pte p v) Q t.
Proof. intros [w Hw] HQ. unfold st_pte. wp_simp. wp_load Hw. done. Qed.

Lemma wp_addr_v2p v e (t : ptab) (Q : Z -> ptab -> Prop) :
  t !! pte_ptr v = Some e -> Q (u32 (Z.land e 0xfffff000 + Z.land v 0xfff)) t ->
  wp (addr_v2p v) Q t.
Proof. intros He HQ. unfold addr_v2p. wp_simp. eapply wp_ld_pte; [done|]. by wp_simp. Qed.
