(* ===== verification/Thread.v ===== *)
(** * Threads and the scheduler (thread/thread.c, thread.h, device/timer.c)

    The state of the kernel as the scheduler sees it, and the routines that
    move a thread between running, ready and blocked. A PCB is the record at
    the start of the page that also holds the thread's kernel stack; the
    running thread is the one whose page the stack pointer is in.

    A routine that calls [schedule] is suspended at [switch_to], and what it
    still has to do is on the stack of its thread. The model keeps that rest as
    a list of [frame]s per thread: [schedule] ends with the switch, and
    [resume] runs the top frame of the thread that is running. *)

From Stdlib Require Import ZArith Lia.
From stdpp Require Import base numbers list gmap option.
From S2P Require Import Prelude Intr DList ListHeap Paging.

Local Open Scope Z_scope.

(** enum task_status *)
Inductive task_status :=
  | TASK_RUNNING | TASK_READY | TASK_BLOCKED | TASK_WAITING | TASK_HANGING | TASK_DIED.

#[export] Instance task_status_eq_dec : EqDecision task_status.
Proof. solve_decision. Defined.

Definition MAX_FILES_OPEN_PER_PROC : Z := 8.
Definition STACK_MAGIC : Z := 0x19870916.

(** struct task_struct. The two list nodes are in the list memory, at the
    addresses [general_tag] and [all_list_tag] of the PCB. *)
Record task_struct := Task {
  self_kstack : Z;
  status : task_status;
  pid : Z;
  priority : Z;
  name : list Z;
  ticks : Z;
  elapsed_ticks : Z;
  pgdir : Z;
  stack_magic : Z;
  fd_table : list Z;
  cwd_inode_nr : Z;
  parent_pid : Z
}.

(** &t->general_tag and &t->all_list_tag, and elem2entry for the first. *)
Definition general_tag (t : Z) : Z := t + 32.
Definition all_list_tag (t : Z) : Z := t + 40.
Definition tag2task (tag : Z) : Z := u32 (tag - 32).

(** What a suspended routine still has to do. *)
Inductive frame_t :=
  | F_thread_block (old : intr_status)       (* after schedule() in thread_block *)
  | F_thread_yield (old : intr_status)       (* after schedule() in thread_yield *)
  | F_iret (e : Z)                           (* intr_exit: restore EFLAGS *)
  | F_kernel_thread                          (* first run: kernel_thread *)
  | F_idle                                   (* after thread_block in idle *)
  | F_hlt                                    (* the hlt of idle, until an interrupt *)
  | F_sema_down (psema : Z) (old : intr_status)  (* the loop of sema_down *)
  | F_lock_acquire (plock : Z)               (* after sema_down in lock_acquire *)
  | F_sema_up (psema : Z)                    (* the sema_up of lock_release *)
  | F_sleep (start n : Z).                   (* the loop of ticks_to_sleep *)

(** holder and holder_repeat_nr of a struct lock. *)
Record lock_fields := LockF { holder : Z; holder_repeat_nr : Z }.

Record kstate := KState {
  k_mem : lmem;                        (* EFLAGS, list nodes *)
  k_ptab : ptab;                       (* the page-table window *)
  k_esp : Z;                           (* stack pointer *)
  k_cr3 : Z;                           (* page directory base *)
  k_esp0 : Z;                          (* tss.esp0 *)
  k_tasks : gmap Z task_struct;        (* PCBs by address *)
  k_frames : gmap Z (list frame_t);    (* suspended routines by thread *)
  k_semas : gmap Z Z;                  (* psema->value *)
  k_locks : gmap Z lock_fields;        (* locks by address *)
  k_ready : Z;                         (* &thread_ready_list *)
  k_all : Z;                           (* &thread_all_list *)
  k_idle : Z;                          (* idle_thread *)
  k_main : Z;                          (* main_thread *)
  k_ticks : Z                          (* ticks of device/timer.c *)
}.

Definition set_mem (m : lmem) (s : kstate) : kstate :=
  KState m (k_ptab s) (k_esp s) (k_cr3 s) (k_esp0 s) (k_tasks s) (k_frames s) (k_semas s)
    (k_locks s) (k_ready s) (k_all s) (k_idle s) (k_main s) (k_ticks s).
Definition set_ptab (p : ptab) (s : kstate) : kstate :=
  KState (k_mem s) p (k_esp s) (k_cr3 s) (k_esp0 s) (k_tasks s) (k_frames s) (k_semas s)
    (k_locks s) (k_ready s) (k_all s) (k_idle s) (k_main s) (k_ticks s).
Definition set_esp (e : Z) (s : kstate) : kstate :=
  KState (k_mem s) (k_ptab s) e (k_cr3 s) (k_esp0 s) (k_tasks s) (k_frames s) (k_semas s)
    (k_locks s) (k_ready s) (k_all s) (k_idle s) (k_main s) (k_ticks s).
Definition set_cr3 (c : Z) (s : kstate) : kstate :=
  KState (k_mem s) (k_ptab s) (k_esp s) c (k_esp0 s) (k_tasks s) (k_frames s) (k_semas s)
    (k_locks s) (k_ready s) (k_all s) (k_idle s) (k_main s) (k_ticks s).
Definition set_esp0 (e : Z) (s : kstate) : kstate :=
  KState (k_mem s) (k_ptab s) (k_esp s) (k_cr3 s) e (k_tasks s) (k_frames s) (k_semas s)
    (k_locks s) (k_ready s) (k_all s) (k_idle s) (k_main s) (k_ticks s).
Definition set_tasks (t : gmap Z task_struct) (s : kstate) : kstate :=
  KState (k_mem s) (k_ptab s) (k_esp s) (k_cr3 s) (k_esp0 s) t (k_frames s) (k_semas s)
    (k_locks s) (k_ready s) (k_all s) (k_idle s) (k_main s) (k_ticks s).
Definition set_frames (f : gmap Z (list frame_t)) (s : kstate) : kstate :=
  KState (k_mem s) (k_ptab s) (k_esp s) (k_cr3 s) (k_esp0 s) (k_tasks s) f (k_semas s)
    (k_locks s) (k_ready s) (k_all s) (k_idle s) (k_main s) (k_ticks s).
Definition set_semas (v : gmap Z Z) (s : kstate) : kstate :=
  KState (k_mem s) (k_ptab s) (k_esp s) (k_cr3 s) (k_esp0 s) (k_tasks s) (k_frames s) v
    (k_locks s) (k_ready s) (k_all s) (k_idle s) (k_main s) (k_ticks s).
Definition set_locks (l : gmap Z lock_fields) (s : kstate) : kstate :=
  KState (k_mem s) (k_ptab s) (k_esp s) (k_cr3 s) (k_esp0 s) (k_tasks s) (k_frames s) (k_semas s)
    l (k_ready s) (k_all s) (k_idle s) (k_main s) (k_ticks s).
Definition set_idle (t : Z) (s : kstate) : kstate :=
  KState (k_mem s) (k_ptab s) (k_esp s) (k_cr3 s) (k_esp0 s) (k_tasks s) (k_frames s) (k_semas s)
    (k_locks s) (k_ready s) (k_all s) t (k_main s) (k_ticks s).
Definition set_main (t : Z) (s : kstate) : kstate :=
  KState (k_mem s) (k_ptab s) (k_esp s) (k_cr3 s) (k_esp0 s) (k_tasks s) (k_frames s) (k_semas s)
    (k_locks s) (k_ready s) (k_all s) (k_idle s) t (k_ticks s).
Definition set_ticks (n : Z) (s : kstate) : kstate :=
  KState (k_mem s) (k_ptab s) (k_esp s) (k_cr3 s) (k_esp0 s) (k_tasks s) (k_frames s) (k_semas s)
    (k_locks s) (k_ready s) (k_all s) (k_idle s) (k_main s) n.

(** Routines of the lists, the interrupt flag and the page tables, run on their
    part of the state. *)
Definition k_list {A} (m : M lmem A) : M kstate A := zoom k_mem set_mem m.
Definition k_pt {A} (m : M ptab A) : M kstate A := zoom k_ptab set_ptab m.
Definition k_intr_disable : M kstate intr_status := k_list l_intr_disable.
Definition k_intr_set_status (st : intr_status) : M kstate intr_status :=
  k_list (l_intr_set_status st).
Definition k_intr_get_status : M kstate intr_status :=
  k_list (zoom lm_cpu set_cpu intr_get_status).

Definition running_thread : M kstate Z := gets (fun s => Z.land (k_esp s) 0xfffff000).

(** The fields of the PCB at [t]. *)
Definition ld_task (t : Z) : M kstate task_struct := do s <- get; of_option (k_tasks s !! t).
Definition upd_task (t : Z) (f : task_struct -> task_struct) : M kstate unit :=
  do ts <- ld_task t;
  modify (fun s => set_tasks (<[t := f ts]> (k_tasks s)) s).

Definition set_status (st : task_status) (t : task_struct) : task_struct :=
  Task (self_kstack t) st (pid t) (priority t) (name t) (ticks t) (elapsed_ticks t) (pgdir t)
    (stack_magic t) (fd_table t) (cwd_inode_nr t) (parent_pid t).
Definition set_kstack (k : Z) (t : task_struct) : task_struct :=
  Task k (status t) (pid t) (priority t) (name t) (ticks t) (elapsed_ticks t) (pgdir t)
    (stack_magic t) (fd_table t) (cwd_inode_nr t) (parent_pid t).
Definition set_task_ticks (n : Z) (t : task_struct) : task_struct :=
  Task (self_kstack t) (status t) (pid t) (priority t) (name t) n (elapsed_ticks t) (pgdir t)
    (stack_magic t) (fd_table t) (cwd_inode_nr t) (parent_pid t).
Definition set_elapsed (n : Z) (t : task_struct) : task_struct :=
  Task (self_kstack t) (status t) (pid t) (priority t) (name t) (ticks t) n (pgdir t)
    (stack_magic t) (fd_table t) (cwd_inode_nr t) (parent_pid t).

(** Frames of a thread. *)
Definition frames_of (s : kstate) (t : Z) : list frame_t := default [] (k_frames s !! t).
Definition push_frame (t : Z) (f : frame_t) : M kstate unit :=
  modify (fun s => set_frames (<[t := f :: frames_of s t]> (k_frames s)) s).

(** switch_to (thread/switch.S): the call pushes two arguments and the return
    address, the routine pushes four registers, 28 bytes below the stack
    pointer of schedule; the same 28 bytes come off the stack of [nxt]. *)
Definition switch_to (cur nxt : Z) : M kstate unit :=
  do esp <- gets k_esp;
  upd_task cur (set_kstack (u32 (esp - 28))) ;;
  do n <- ld_task nxt;
  modify (set_esp (u32 (self_kstack n + 28))).

Definition page_dir_activate (p_thread : Z) : M kstate unit :=
  do t <- ld_task p_thread;
  do pagedir_phy_addr <-
    (if negb (pgdir t =? NULL) then k_pt (addr_v2p (pgdir t)) else ret 0x100000);
  modify (set_cr3 pagedir_phy_addr).

Definition update_tss_esp (pthread : Z) : M kstate unit :=
  modify (set_esp0 (u32 (pthread + PG_SIZE))).

Definition process_activate (p_thread : Z) : M kstate unit :=
  ASSERT (negb (p_thread =? NULL)) ;;
  page_dir_activate p_thread ;;
  do t <- ld_task p_thread;
  if truthy (pgdir t) then update_tss_esp p_thread else ret tt.

Definition blocked_status (st : task_status) : bool :=
  match st with TASK_BLOCKED | TASK_WAITING | TASK_HANGING => true | _ => false end.

Definition thread_unblock (pthread : Z) : M kstate unit :=
  do old_status <- k_intr_disable;
  do t <- ld_task pthread;
  ASSERT (blocked_status (status t)) ;;
  (if decide (status t <> TASK_READY)
   then
     do ready <- gets k_ready;
     do f <- k_list (elem_find ready (general_tag pthread));
     ASSERT (negb f) ;;
     do f2 <- k_list (elem_find ready (general_tag pthread));
     (if f2 then panic else ret tt) ;;
     k_list (list_push ready (general_tag pthread)) ;;
     upd_task pthread (set_status TASK_READY)
   else ret tt) ;;
  k_intr_set_status old_status ;;
  ret tt.

(** The second half of schedule: the head of the ready list is made running. *)
Definition dispatch (cur : Z) : M kstate unit :=
  do ready <- gets k_ready;
  do e2 <- k_list (list_empty ready);
  ASSERT (negb e2) ;;
  do thread_tag <- k_list (list_pop ready);
  let nxt := tag2task thread_tag in
  upd_task nxt (set_status TASK_RUNNING) ;;
  process_activate nxt ;;
  switch_to cur nxt.

(** schedule, up to and including the switch. *)
Definition schedule : M kstate unit :=
  do st <- k_intr_get_status;
  ASSERT (bool_decide (st = INTR_OFF)) ;;
  do cur <- running_thread;
  do ready <- gets k_ready;
  do t <- ld_task cur;
  (if decide (status t = TASK_RUNNING)
   then
     do f <- k_list (elem_find ready (general_tag cur));
     ASSERT (negb f) ;;
     k_list (list_append ready (general_tag cur)) ;;
     upd_task cur (fun t => set_task_ticks (priority t) t) ;;
     upd_task cur (set_status TASK_READY)
   else ret tt) ;;
  do e <- k_list (list_empty ready);
  (if e then do idle <- gets k_idle; thread_unblock idle else ret tt) ;;
  dispatch cur.

Definition thread_block (stat : task_status) : M kstate unit :=
  ASSERT (blocked_status stat) ;;
  do old_status <- k_intr_disable;
  do cur_thread <- running_thread;
  upd_task cur_thread (set_status stat) ;;
  push_frame cur_thread (F_thread_block old_status) ;;
  schedule.

Definition thread_yield : M kstate unit :=
  do cur <- running_thread;
  do old_status <- k_intr_disable;
  do ready <- gets k_ready;
  do f <- k_list (elem_find ready (general_tag cur));
  ASSERT (negb f) ;;
  k_list (list_append ready (general_tag cur)) ;;
  upd_task cur (set_status TASK_READY) ;;
  push_frame cur (F_thread_yield old_status) ;;
  schedule.

(** One round of the loop of idle, up to its first suspension. *)
Definition idle : M kstate unit :=
  do cur <- running_thread;
  push_frame cur F_idle ;;
  thread_block TASK_BLOCKED.

Definition intr_timer_handler : M kstate unit :=
  do cur_thread <- running_thread;
  do t <- ld_task cur_thread;
  ASSERT (stack_magic t =? STACK_MAGIC) ;;
  upd_task cur_thread (fun t => set_elapsed (u32 (elapsed_ticks t + 1)) t) ;;
  modify (fun s => set_ticks (u32 (k_ticks s + 1)) s) ;;
  do t' <- ld_task cur_thread;
  if ticks t' =? 0 then schedule
  else upd_task cur_thread (fun t => set_task_ticks (u8 (ticks t - 1)) t).

(** The clock interrupt: the processor saves EFLAGS and masks interrupts, the
    handler runs, and intr_exit restores EFLAGS. *)
Definition timer_interrupt : M kstate unit :=
  do e <- gets (fun s => eflags (lm_cpu (k_mem s)));
  do cur <- running_thread;
  push_frame cur (F_iret e) ;;
  k_list (zoom lm_cpu set_cpu cli) ;;
  intr_timer_handler.

(** The loop of ticks_to_sleep, up to the first time that it gives up the
    processor, and mtime_sleep (device/timer.c). *)
Definition sleep_loop (start_tick sleep_ticks : Z) : M kstate unit :=
  do now <- gets k_ticks;
  if u32 (now - start_tick) <? sleep_ticks then
    do cur <- running_thread;
    push_frame cur (F_sleep start_tick sleep_ticks) ;;
    thread_yield
  else ret tt.

Definition ticks_to_sleep (sleep_ticks : Z) : M kstate unit :=
  do start_tick <- gets k_ticks;
  sleep_loop start_tick sleep_ticks.

Definition mil_seconds_per_intr : Z := 10.

Definition mtime_sleep (m_seconds : Z) : M kstate unit :=
  let sleep_ticks := DIV_ROUND_UP m_seconds mil_seconds_per_intr in
  ASSERT (0 <? sleep_ticks) ;;
  ticks_to_sleep sleep_ticks.

(** The list nodes of a PCB that has been cleared. *)
Definition clear_nodes (t : Z) : M kstate unit :=
  k_list (modify (fun m => set_nodes (<[all_list_tag t := Elem NULL NULL]>
    (<[general_tag t := Elem NULL NULL]> (lm_nodes m))) m)).

(** init_thread: [the_pid] is what allocate_pid returned. A name that does not
    fit the 16 bytes would be copied over the fields behind it. *)
Definition init_thread (pthread : Z) (nm : list Z) (prio the_pid : Z) : M kstate unit :=
  do s <- get;
  clear_nodes pthread ;;
  (if (length nm <? 16)%nat then ret tt else fault) ;;
  let st := if pthread =? k_main s then TASK_RUNNING else TASK_READY in
  modify (fun s => set_tasks (<[pthread :=
    Task (u32 (pthread + PG_SIZE)) st (s16 the_pid) (u8 prio)
      (nm ++ replicate (16 - length nm) 0) (u8 prio) 0 NULL STACK_MAGIC
      ([0; 1; 2] ++ replicate (Z.to_nat MAX_FILES_OPEN_PER_PROC - 3) (-1)) 0 (-1)]>
    (k_tasks s)) s).

(** thread_create: self_kstack is a uint32_t*, so each subtraction moves it by
    four times the size of the structure. *)
Definition thread_create (pthread : Z) : M kstate unit :=
  upd_task pthread (fun t => set_kstack (u32 (self_kstack t - 4 * 76)) t) ;;
  upd_task pthread (fun t => set_kstack (u32 (self_kstack t - 4 * 32)) t) ;;
  modify (fun s => set_frames (<[pthread := [F_kernel_thread]]> (k_frames s)) s).

(** thread_start, for a page [thread] that get_kernel_pages returned. *)
Definition thread_start (thread : Z) (nm : list Z) (prio the_pid : Z) : M kstate unit :=
  init_thread thread nm prio the_pid ;;
  thread_create thread ;;
  do s <- get;
  do f <- k_list (elem_find (k_ready s) (general_tag thread));
  ASSERT (negb f) ;;
  k_list (list_append (k_ready s) (general_tag thread)) ;;
  do f2 <- k_list (elem_find (k_all s) (all_list_tag thread));
  ASSERT (negb f2) ;;
  k_list (list_append (k_all s) (all_list_tag thread)).

(** ** What the scheduler relies on and keeps *)

Definition tags (rd : list Z) : list Z := general_tag <$> rd.

(** A PCB: a page of its own whose list node exists, a saved stack pointer
    inside the page (unless it is the running thread [c]), and a page
    directory that is mapped. *)
Record task_ok (h : gmap Z list_elem) (p : ptab) (c t : Z) (ts : task_struct) : Prop := {
  ok_page : Z.land t 0xfffff000 = t;
  ok_addr : 4096 <= t < 2 ^ 32;
  ok_node : is_Some (h !! general_tag t);
  ok_kstack : t = c \/
    t <= self_kstack ts + 28 < 2 ^ 32 /\ Z.land (self_kstack ts + 28) 0xfffff000 = t;
  ok_pgdir : pgdir ts = NULL \/ is_Some (p !! pte_ptr (pgdir ts))
}.

(** The address of the running thread, and IF. *)
Definition cur_of (s : kstate) : Z := Z.land (k_esp s) 0xfffff000.
Definition k_if (s : kstate) : bool := if_on (lm_cpu (k_mem s)).

(** The lists in memory are [ls], and the ready list holds the threads [rd],
    which are exactly those with status TASK_READY. *)
Record sched_inv (s : kstate) (ls : gmap Z (list Z)) (rd : list Z) : Prop := {
  si_heap : dheap (lm_nodes (k_mem s)) ls;
  si_ready : ls !! k_ready s = Some (tags rd);
  si_task : forall t ts, k_tasks s !! t = Some ts ->
    task_ok (lm_nodes (k_mem s)) (k_ptab s) (cur_of s) t ts;
  si_rd : forall t, t ∈ rd <-> exists ts, k_tasks s !! t = Some ts /\ status ts = TASK_READY
}.

Global Instance general_tag_inj : Inj (=) (=) general_tag.
Proof. intros a b. unfold general_tag. lia. Qed.

Lemma tags_elem t rd : general_tag t ∈ tags rd <-> t ∈ rd.
Proof. unfold tags. apply list_elem_of_fmap_inj. apply _. Qed.

Lemma tags_app a b : tags (a ++ b) = tags a ++ tags b.
Proof. apply fmap_app. Qed.

Lemma task_ok_page_end t : Z.land t 0xfffff000 = t -> 4096 <= t < 2 ^ 32 -> t + 4096 <= 2 ^ 32.
Proof.
  intros Hl Ht. change 0xfffff000 with (Z.shiftl (Z.ones 20) 12) in Hl.
  assert (Hm : Z.land t (Z.ones 12) = 0).
  { rewrite <- Hl, <- Z.land_assoc. replace (Z.land _ (Z.ones 12)) with 0 by done. apply Z.land_0_r. }
  rewrite Z.land_ones in Hm by lia. apply Z.mod_divide in Hm as [q ->]; [|lia]. lia.
Qed.

Lemma tag2task_general_tag t h p c ts : task_ok h p c t ts -> tag2task (general_tag t) = t.
Proof.
  intros Ht. pose proof (ok_addr _ _ _ _ _ Ht). unfold tag2task, general_tag.
  rewrite u32_small by lia. lia.
Qed.

Lemma general_tag_not_null h p c t ts : task_ok h p c t ts -> general_tag t <> NULL.
Proof. intros Ht. pose proof (ok_addr _ _ _ _ _ Ht). unfold general_tag, NULL. lia. Qed.

Lemma task_ok_nodes h h' p c t ts : same_nodes h h' -> task_ok h p c t ts -> task_ok h' p c t ts.
Proof. intros Hs []. split; try done. by apply Hs. Qed.

(** One step of the scheduler changes one PCB and one list. *)
Lemma sched_inv_update s s' ls rd rd' t ts' :
  sched_inv s ls rd ->
  dheap (lm_nodes (k_mem s')) (<[k_ready s := tags rd']> ls) ->
  same_nodes (lm_nodes (k_mem s)) (lm_nodes (k_mem s')) ->
  k_tasks s' = <[t := ts']> (k_tasks s) -> k_ptab s' = k_ptab s -> k_ready s' = k_ready s ->
  k_esp s' = k_esp s ->
  task_ok (lm_nodes (k_mem s)) (k_ptab s) (cur_of s) t ts' ->
  (t ∈ rd' <-> status ts' = TASK_READY) -> (forall u, u <> t -> u ∈ rd' <-> u ∈ rd) ->
  sched_inv s' (<[k_ready s := tags rd']> ls) rd'.
Proof.
  intros Hi Hh Hs Ht Hp Hr He Hok Hst Hrd. assert (Hcur : cur_of s' = cur_of s) by (unfold cur_of; by rewrite He).
  split.
  - done.
  - rewrite Hr. apply lookup_insert_eq.
  - intros u us. rewrite Ht, Hp, Hcur. destruct (decide (t = u)) as [<-|Hne].
    + rewrite lookup_insert_eq. intros [= <-]. by eapply task_ok_nodes.
    + rewrite lookup_insert_ne by done. intros Hu. eapply task_ok_nodes; [done|]. by apply (si_task s ls rd).
  - intros u. rewrite Ht. destruct (decide (t = u)) as [<-|Hne].
    + rewrite lookup_insert_eq, Hst. naive_solver.
    + rewrite lookup_insert_ne by done. rewrite Hrd by done. by apply (si_rd s ls).
Qed.

Lemma wp_ld_task t ts (Q : task_struct -> kstate -> Prop) s :
  k_tasks s !! t = Some ts -> Q ts s -> wp (ld_task t) Q s.
Proof. intros Hts HQ. unfold ld_task. wp_simp. wp_load Hts. done. Qed.

Lemma wp_upd_task t f ts (Q : unit -> kstate -> Prop) s :
  k_tasks s !! t = Some ts -> Q tt (set_tasks (<[t := f ts]> (k_tasks s)) s) ->
  wp (upd_task t f) Q s.
Proof. intros Hts HQ. unfold upd_task. wp_simp. eapply wp_ld_task; [done|]. wp_simp. done. Qed.

Lemma wp_k_list {A} (m : M lmem A) (Q : A -> kstate -> Prop) s :
  wp (k_list m) Q s = wp m (fun a l => Q a (set_mem l s)) (k_mem s).
Proof. unfold k_list. by rewrite wp_zoom. Qed.

Lemma wp_k_pt {A} (m : M ptab A) (Q : A -> kstate -> Prop) s :
  wp (k_pt m) Q s = wp m (fun a l => Q a (set_ptab l s)) (k_ptab s).
Proof. unfold k_pt. by rewrite wp_zoom. Qed.

Lemma wp_running (Q : Z -> kstate -> Prop) s : wp running_thread Q s = Q (cur_of s) s.
Proof. reflexivity. Qed.

Lemma set_mem_id s : set_mem (k_mem s) s = s.
Proof. by destruct s. Qed.
Lemma set_ptab_id s : set_ptab (k_ptab s) s = s.
Proof. by destruct s. Qed.

Lemma wp_k_intr_disable (Q : intr_status -> kstate -> Prop) s :
  wp k_intr_disable Q s =
  Q (status_of (lm_cpu (k_mem s))) (set_mem (set_cpu (disabled (lm_cpu (k_mem s))) (k_mem s)) s).
Proof. unfold k_intr_disable. by rewrite wp_k_list, wp_intr_disable. Qed.

Lemma wp_k_intr_restore c (Q : intr_status -> kstate -> Prop) s :
  lm_cpu (k_mem s) = disabled c ->
  wp (k_intr_set_status (status_of c)) Q s = Q INTR_OFF (set_mem (set_cpu c (k_mem s)) s).
Proof.
  intros Hc. unfold k_intr_set_status. rewrite wp_k_list.
  destruct (k_mem s) as [c' h]. cbn in Hc. subst c'. by rewrite wp_intr_restore.
Qed.

(** A status that thread_unblock accepts is not TASK_READY. *)
Lemma blocked_not_ready st : blocked_status st = true -> st <> TASK_READY.
Proof. by destruct st. Qed.

(** The state after the thread [t] has become ready, with the list nodes [h]. *)
Definition readied (t : Z) (ts : task_struct) (h : gmap Z list_elem) (s : kstate) : kstate :=
  set_tasks (<[t := set_status TASK_READY ts]> (k_tasks s)) (set_mem (set_nodes h (k_mem s)) s).

Lemma readied_inv s ls rd rd' t ts ts0 h :
  sched_inv s ls rd -> k_tasks s !! t = Some ts0 ->
  self_kstack ts = self_kstack ts0 -> pgdir ts = pgdir ts0 ->
  dheap h (<[k_ready s := tags rd']> ls) -> same_nodes (lm_nodes (k_mem s)) h ->
  (forall u, u ∈ rd' <-> u = t \/ u ∈ rd) ->
  sched_inv (readied t ts h s) (<[k_ready s := tags rd']> ls) rd'.
Proof.
  intros Hi Hts Hk Hp Hh Hs Hrd.
  apply (sched_inv_update s _ ls rd rd' t (set_status TASK_READY ts)); try done.
  - destruct (si_task s ls rd Hi t ts0 Hts) as []. by split; cbn; rewrite ?Hk, ?Hp.
  - split; [done|]. intros _. apply Hrd. by left.
  - intros u Hu. rewrite Hrd. naive_solver.
Qed.

Lemma thread_unblock_run s ls rd t ts (Q : unit -> kstate -> Prop) :
  sched_inv s ls rd -> k_tasks s !! t = Some ts ->
  blocked_status (status ts) = true -> unlinked ls (general_tag t) ->
  (forall h, same_nodes (lm_nodes (k_mem s)) h ->
     sched_inv (readied t ts h s) (<[k_ready s := tags (t :: rd)]> ls) (t :: rd) ->
     Q tt (readied t ts h s)) ->
  wp (thread_unblock t) Q s.
Proof.
  intros Hi Hts Hb Hu HQ. unfold thread_unblock.
  pose proof (si_task s ls rd Hi t ts Hts) as Hok.
  assert (Hnin : general_tag t ∉ tags rd).
  { intros Hin. apply (Hu (k_ready s) (tags rd)); [by apply si_ready|].
    unfold cells. set_solver. }
  wp_simp. rewrite wp_k_intr_disable. wp_simp. eapply wp_ld_task; [exact Hts|].
  wp_simp. apply wp_ASSERT. split; [done|]. wp_simp.
  rewrite decide_True by by apply blocked_not_ready.
  wp_simp. rewrite wp_k_list.
  eapply (heap_find_run _ ls); [by apply Hi|by apply Hi|]. rewrite bool_decide_false by done.
  wp_assert. rewrite wp_k_list.
  eapply (heap_find_run _ ls); [by apply Hi|by apply Hi|]. rewrite bool_decide_false by done.
  wp_simp. rewrite wp_k_list.
  eapply (heap_push_run _ ls); [by apply Hi|by apply Hi|done|by eapply general_tag_not_null|apply Hok|].
  intros h Hh Hs. eapply wp_upd_task; [exact Hts|]. wp_simp.
  rewrite (wp_k_intr_restore (lm_cpu (k_mem s))) by done. wp_simp.
  apply (HQ h Hs). eapply readied_inv; [done|done|done|done|exact Hh|done|].
  intros u. set_solver.
Qed.

(** The page directory base that process_activate loads for a PCB. *)
Definition pdbr_of (p : ptab) (ts : task_struct) : Z :=
  if pgdir ts =? NULL then 0x100000
  else u32 (Z.land (default 0 (p !! pte_ptr (pgdir ts))) 0xfffff000 + Z.land (pgdir ts) 0xfff).

(** The whole state after the switch to [nxt], whose PCB was [tn]. *)
Definition after_switch (s : kstate) (h : gmap Z list_elem) (tasks : gmap Z task_struct)
    (nxt : Z) (tn : task_struct) : kstate :=
  KState (LMem (lm_cpu (k_mem s)) h) (k_ptab s) (u32 (self_kstack tn + 28)) (pdbr_of (k_ptab s) tn)
    (if pgdir tn =? NULL then k_esp0 s else u32 (nxt + PG_SIZE)) tasks
    (k_frames s) (k_semas s) (k_locks s) (k_ready s) (k_all s) (k_idle s) (k_main s) (k_ticks s).

Lemma process_activate_run t ts (Q : unit -> kstate -> Prop) s :
  k_tasks s !! t = Some ts -> t <> NULL ->
  (pgdir ts = NULL \/ is_Some (k_ptab s !! pte_ptr (pgdir ts))) ->
  Q tt (set_esp0 (if pgdir ts =? NULL then k_esp0 s else u32 (t + PG_SIZE))
         (set_cr3 (pdbr_of (k_ptab s) ts) s)) ->
  wp (process_activate t) Q s.
Proof.
  intros Hts Hn Hp HQ. unfold process_activate, page_dir_activate, update_tss_esp. wp_simp.
  apply wp_ASSERT. split; [by apply negb_true_iff, Z.eqb_neq|]. wp_simp.
  eapply wp_ld_task; [exact Hts|]. wp_simp. unfold pdbr_of in HQ. unfold truthy.
  change (pgdir ts =? 0) with (pgdir ts =? NULL).
  destruct (Z.eqb_spec (pgdir ts) NULL) as [E|E]; cbn [negb].
  - wp_simp. eapply wp_ld_task; [exact Hts|]. rewrite E. change (NULL =? NULL) with true. cbn [negb].
    wp_simp. by destruct s.
  - destruct Hp as [?|[e He]]; [done|]. wp_simp. rewrite wp_k_pt.
    eapply wp_addr_v2p; [exact He|]. wp_simp. rewrite set_ptab_id.
    eapply wp_ld_task; [exact Hts|]. apply Z.eqb_neq in E. change NULL with 0 in E.
    rewrite E. cbn [negb]. wp_simp.
    rewrite He in HQ. exact HQ.
Qed.

Lemma insert_is_alter {A} (f : A -> A) (m : gmap Z A) t x :
  m !! t = Some x -> <[t := f x]> m = alter f t m.
Proof.
  intros Hx. apply map_eq. intros u. destruct (decide (t = u)) as [<-|Hne].
  - by rewrite lookup_insert_eq, lookup_alter_eq, Hx.
  - by rewrite lookup_insert_ne, lookup_alter_ne.
Qed.

(** The PCBs after the switch from [cur] to [nxt]. *)
Definition switched (s : kstate) (cur nxt : Z) : gmap Z task_struct :=
  alter (set_kstack (u32 (k_esp s - 28))) cur (alter (set_status TASK_RUNNING) nxt (k_tasks s)).

Lemma dispatch_run s ls cur nxt rd tc tn (Q : unit -> kstate -> Prop) :
  sched_inv s ls (nxt :: rd) -> k_tasks s !! cur = Some tc -> k_tasks s !! nxt = Some tn ->
  (forall h tasks, dheap h (<[k_ready s := tags rd]> ls) -> same_nodes (lm_nodes (k_mem s)) h ->
     tasks = switched s cur nxt ->
     Q tt (after_switch s h tasks nxt
             (if decide (nxt = cur) then set_kstack (u32 (k_esp s - 28)) tn else tn))) ->
  wp (dispatch cur) Q s.
Proof.
  intros Hi Hc Hn HQ. unfold dispatch, switch_to.
  pose proof (si_task s ls _ Hi nxt tn Hn) as Hok.
  wp_simp. rewrite wp_k_list. eapply (heap_empty_run _ ls); [by apply Hi|by apply Hi|].
  rewrite bool_decide_false by done. wp_assert. rewrite wp_k_list.
  eapply (heap_pop_run _ ls); [by apply Hi|by apply Hi|reflexivity|].
  intros h Hh Hs. fold (tags rd) in Hh. rewrite (tag2task_general_tag nxt _ _ _ _ Hok). wp_simp.
  eapply wp_upd_task; [exact Hn|]. wp_simp. rewrite (insert_is_alter _ _ _ _ Hn).
  eapply (process_activate_run nxt (set_status TASK_RUNNING tn)).
  { cbn. rewrite lookup_alter_eq, Hn. done. }
  { pose proof (ok_addr _ _ _ _ _ Hok). unfold NULL. lia. }
  { apply Hok. }
  wp_simp. pose proof (HQ h _ Hh Hs eq_refl) as HQ'. clear HQ. cbn in HQ' |- *.
  destruct (decide (nxt = cur)) as [->|Hne].
  - rewrite Hc in Hn. injection Hn as <-.
    eapply wp_upd_task; [cbn; by rewrite lookup_alter_eq, Hc|]. wp_simp. cbn.
    rewrite (insert_is_alter _ _ _ _) by (by rewrite lookup_alter_eq, Hc).
    eapply wp_ld_task; [cbn; rewrite !lookup_alter_eq, Hc; reflexivity|]. wp_simp. exact HQ'.
  - eapply wp_upd_task; [cbn; by rewrite lookup_alter_ne, Hc|]. wp_simp. cbn.
    rewrite (insert_is_alter _ _ _ _) by (by rewrite lookup_alter_ne, Hc).
    eapply wp_ld_task.
    { cbn. rewrite lookup_alter_ne by done. rewrite lookup_alter_eq, Hn. reflexivity. }
    wp_simp. exact HQ'.
Qed.

Lemma page_of_esp e : 0 <= e < 2 ^ 32 -> Z.land e 0xfffff000 <= e.
Proof.
  intros He. rewrite <- (Z2N.id e) by lia. change 0xfffff000 with (Z.of_N 0xfffff000).
  rewrite <- N2Z.inj_land. apply N2Z.inj_le, N.land_le_l.
Qed.

Section switched.
Context (s : kstate) (ls : gmap Z (list Z)) (nxt : Z) (rd : list Z) (tc : task_struct).
Context (Hi : sched_inv s ls (nxt :: rd)) (He : 0 <= k_esp s < 2 ^ 32).
Context (Hc : k_tasks s !! cur_of s = Some tc).

Lemma saved_esp : u32 (k_esp s - 28) + 28 = k_esp s /\ cur_of s <= k_esp s.
Proof using Hi He Hc.
  pose proof (page_of_esp _ He) as Hp. fold (cur_of s) in Hp.
  pose proof (ok_addr _ _ _ _ _ (si_task s ls _ Hi _ tc Hc)). rewrite u32_small; lia.
Qed.

Lemma switched_lookup u us :
  switched s (cur_of s) nxt !! u = Some us -> exists us0, k_tasks s !! u = Some us0 /\
    pgdir us = pgdir us0 /\
    self_kstack us = (if decide (u = cur_of s) then u32 (k_esp s - 28) else self_kstack us0) /\
    status us = (if decide (u = nxt) then TASK_RUNNING else status us0).
Proof using.
  clear Hi He Hc ls rd tc. unfold switched. intros Hu. rewrite !lookup_alter in Hu.
  destruct (k_tasks s !! u) as [us0|] eqn:Eu;
    repeat case_decide; subst; rewrite ?Eu in Hu; cbn in Hu; try discriminate Hu;
    exists us0; injection Hu as <-; repeat split; cbn; congruence.
Qed.

Lemma switched_some u : is_Some (k_tasks s !! u) -> is_Some (switched s (cur_of s) nxt !! u).
Proof using. clear Hi He Hc. intros H. unfold switched. by rewrite !lookup_alter_is_Some. Qed.

Lemma switched_task_ok h c u us :
  same_nodes (lm_nodes (k_mem s)) h -> switched s (cur_of s) nxt !! u = Some us ->
  task_ok h (k_ptab s) c u us.
Proof using Hi He Hc.
  intros Hs Hu. apply switched_lookup in Hu as (us0 & Hu & Hp & Hk & _).
  destruct saved_esp as [Hesp Hle].
  destruct (si_task s ls _ Hi u us0 Hu). split; rewrite ?Hp; [done|done|by apply Hs| |done].
  right. rewrite Hk. destruct (decide (u = cur_of s)) as [->|Hne]; [|by destruct ok_kstack0].
  rewrite Hesp. split; [lia|reflexivity].
Qed.

Lemma nxt_not_ready : nxt ∉ rd.
Proof using Hi.
  pose proof (dheap_list _ _ (si_heap s ls _ Hi) _ _ (si_ready s ls _ Hi)) as Hd.
  apply dlist_nodup_elems in Hd. apply list.NoDup_cons in Hd as [Hd _].
  by rewrite tags_elem in Hd.
Qed.

Lemma switched_ready u :
  u ∈ rd <-> exists us, switched s (cur_of s) nxt !! u = Some us /\ status us = TASK_READY.
Proof using Hi.
  clear He Hc tc. pose proof (si_rd s ls _ Hi u) as Hrd. pose proof nxt_not_ready as Hn. split.
  - intros Hin. assert (Hin' : u ∈ nxt :: rd) by set_solver.
    apply Hrd in Hin' as (us0 & Hu0 & Hr). destruct (switched_some u) as [us Hu]; [by eexists|].
    exists us. split; [done|]. apply switched_lookup in Hu as (us1 & Hu1 & _ & _ & ->).
    rewrite decide_False by (intros ->; done). congruence.
  - intros (us & Hu & Hr). apply switched_lookup in Hu as (us0 & Hu0 & _ & _ & Hst).
    destruct (decide (u = nxt)) as [->|Hne]; [congruence|].
    assert (Hin : u ∈ nxt :: rd) by (apply Hrd; exists us0; split; congruence). set_solver.
Qed.

(** The switch keeps the invariant: the stack pointer it saves is in the page
    of the thread it leaves. *)
Lemma dispatch_inv tn h tn' :
  k_tasks s !! nxt = Some tn ->
  dheap h (<[k_ready s := tags rd]> ls) -> same_nodes (lm_nodes (k_mem s)) h ->
  self_kstack tn' = (if decide (nxt = cur_of s) then u32 (k_esp s - 28) else self_kstack tn) ->
  let s' := after_switch s h (switched s (cur_of s) nxt) nxt tn' in
  sched_inv s' (<[k_ready s := tags rd]> ls) rd /\ cur_of s' = nxt.
Proof using Hi He Hc.
  intros Hn Hh Hs Hk s'. split; [split|].
  - exact Hh.
  - apply lookup_insert_eq.
  - intros u us. by apply switched_task_ok.
  - apply switched_ready.
  - unfold cur_of. cbn. rewrite Hk. destruct saved_esp as [Hesp _].
    destruct (si_task s ls _ Hi nxt tn Hn) as [_ Ha _ Hkn _].
    destruct (decide (nxt = cur_of s)) as [E|Hne].
    + by rewrite Hesp, u32_small by lia.
    + destruct Hkn as [?|[Hr Hl]]; [done|]. rewrite u32_small; [done|lia].
Qed.
End switched.

(** *** The policy of schedule *)

(** The thread that leaves the processor goes to the end of the ready list
    when it was running and nowhere otherwise; the head of the list is next,
    and the idle thread when there is none. *)
Definition requeued (s : kstate) (rd : list Z) (tc : task_struct) : list Z :=
  rd ++ (if decide (status tc = TASK_RUNNING) then [cur_of s] else []).

Definition next_thread (s : kstate) (rd : list Z) (tc : task_struct) : Z * list Z :=
  match requeued s rd tc with
  | n :: rd' => (n, rd')
  | [] => (k_idle s, [])
  end.

(** What schedule does to the PCB [ts] of the thread [u]. *)
Definition scheduled_task (s : kstate) (nxt u : Z) (ts : task_struct) : task_struct :=
  let ts1 := if decide (u = cur_of s /\ status ts = TASK_RUNNING)
             then set_status TASK_READY (set_task_ticks (priority ts) ts) else ts in
  let ts2 := if decide (u = nxt) then set_status TASK_RUNNING ts1 else ts1 in
  if decide (u = cur_of s) then set_kstack (u32 (k_esp s - 28)) ts2 else ts2.

(** The state schedule may be called in: IF is off and the running thread has
    a PCB; if it goes back to the ready list it is in no other list; and if
    nobody is ready the idle thread is blocked, outside every list. *)
Record can_schedule (s : kstate) (ls : gmap Z (list Z)) (rd : list Z) (tc : task_struct) : Prop := {
  cs_inv : sched_inv s ls rd;
  cs_if : k_if s = false;
  cs_esp : 0 <= k_esp s < 2 ^ 32;
  cs_cur : k_tasks s !! cur_of s = Some tc;
  cs_run : status tc = TASK_RUNNING -> unlinked ls (general_tag (cur_of s));
  cs_idle : requeued s rd tc = [] -> exists ti, k_tasks s !! k_idle s = Some ti /\
    blocked_status (status ti) = true /\ unlinked ls (general_tag (k_idle s))
}.

(** The outcome: [nxt] runs, [rd'] is ready, every PCB is as described, and
    outside the PCBs and the list nodes only ESP, CR3 and tss.esp0 have changed. *)
Record scheduled (s s' : kstate) (ls : gmap Z (list Z)) (nxt : Z) (rd' : list Z) : Prop := {
  sd_inv : sched_inv s' (<[k_ready s := tags rd']> ls) rd';
  sd_cur : cur_of s' = nxt;
  sd_tasks : forall u, k_tasks s' !! u = scheduled_task s nxt u <$> k_tasks s !! u;
  sd_rest : exists h tn, k_tasks s !! nxt = Some tn /\ same_nodes (lm_nodes (k_mem s)) h /\
    s' = after_switch s h (k_tasks s') nxt (scheduled_task s nxt nxt tn)
}.

Lemma wp_k_status s (Q : intr_status -> kstate -> Prop) :
  Q (if k_if s then INTR_ON else INTR_OFF) s -> wp k_intr_get_status Q s.
Proof.
  intros HQ. unfold k_intr_get_status. rewrite wp_k_list, wp_zoom.
  apply intr_get_status_run. destruct s as [[c h]]. exact HQ.
Qed.

Lemma after_switch_ext s h tasks nxt tn tn' :
  self_kstack tn = self_kstack tn' -> pgdir tn = pgdir tn' ->
  after_switch s h tasks nxt tn = after_switch s h tasks nxt tn'.
Proof. intros Hk Hp. unfold after_switch, pdbr_of. by rewrite Hk, Hp. Qed.

(** The switch, from a state [s1] in which only list nodes and PCBs differ
    from the state [s] that schedule was called in. *)
Lemma schedule_finish s s1 T1 h1 f ls nxt rd' tc (Q : unit -> kstate -> Prop) :
  0 <= k_esp s < 2 ^ 32 -> k_tasks s !! cur_of s = Some tc ->
  s1 = set_tasks T1 (set_mem (LMem (lm_cpu (k_mem s)) h1) s) ->
  same_nodes (lm_nodes (k_mem s)) h1 ->
  (forall u, T1 !! u = f u <$> k_tasks s !! u) ->
  (forall u ts, self_kstack (f u ts) = self_kstack ts /\ pgdir (f u ts) = pgdir ts) ->
  (forall u ts, k_tasks s !! u = Some ts ->
     scheduled_task s nxt u ts =
       (if decide (u = cur_of s) then set_kstack (u32 (k_esp s - 28)) else id)
         ((if decide (u = nxt) then set_status TASK_RUNNING else id) (f u ts))) ->
  sched_inv s1 (<[k_ready s := tags (nxt :: rd')]> ls) (nxt :: rd') ->
  (forall s', scheduled s s' ls nxt rd' -> Q tt s') -> wp (dispatch (cur_of s)) Q s1.
Proof.
  intros He Hc -> Hs1 HT Hf Hst Hi HQ.
  assert (Hn1 : nxt ∈ nxt :: rd') by set_solver.
  apply (si_rd _ _ _ Hi) in Hn1 as (tn1 & Hn1 & _).
  cbn in Hn1. rewrite HT in Hn1. apply fmap_Some in Hn1 as (tn & Hn & ->).
  set (s1 := set_tasks _ _) in *.
  assert (Hn1 : k_tasks s1 !! nxt = Some (f nxt tn)) by (cbn; by rewrite HT, Hn).
  assert (Hc1 : k_tasks s1 !! cur_of s = Some (f (cur_of s) tc)) by (cbn; by rewrite HT, Hc).
  apply (dispatch_run s1 _ (cur_of s) nxt rd' _ _ Q Hi Hc1 Hn1).
  intros h tasks Hh Hs Ht.
  pose proof (dispatch_inv s1 _ nxt rd' _ Hi He Hc1 (f nxt tn) h
    (scheduled_task s nxt nxt tn) Hn1 Hh Hs) as [Hi' Hc'].
  { change (cur_of s1) with (cur_of s). rewrite (Hst _ _ Hn). destruct (decide (nxt = nxt)) as [_|]; [|done]. cbn.
    pose proof (Hf nxt tn) as []. by destruct (decide (nxt = cur_of s)). }
  change (cur_of s1) with (cur_of s) in *. rewrite <- Ht in Hi', Hc'.
  cbn [s1 k_ready set_tasks set_mem] in Hi'. rewrite insert_insert_eq in Hi'.
  rewrite (after_switch_ext _ _ _ _ _ (scheduled_task s nxt nxt tn)).
  2,3: rewrite (Hst _ _ Hn); destruct (decide (nxt = nxt)) as [_|]; [|done];
    pose proof (Hf nxt tn) as []; by destruct (decide (nxt = cur_of s)).
  apply HQ. split; [exact Hi' | exact Hc' | |].
  - intros u. change (tasks !! u = scheduled_task s nxt u <$> k_tasks s !! u). rewrite Ht.
    unfold switched. rewrite !lookup_alter. change (k_tasks s1) with T1. rewrite !HT.
    change (k_esp s1) with (k_esp s). destruct (k_tasks s !! u) as [ts|] eqn:E; cbn -[s1].
    + rewrite (Hst _ _ E). repeat case_decide; subst; rewrite ?Hn, ?Hc, ?E; cbn; congruence.
    + repeat case_decide; subst; rewrite ?E; try done; congruence.
  - exists h, tn. split; [exact Hn|]. split; [exact (same_nodes_trans _ _ _ Hs1 Hs)|]. reflexivity.
Qed.

(** First stage: the running thread goes to the end of the ready list. *)
Definition requeue_task (s : kstate) (u : Z) (ts : task_struct) : task_struct :=
  if decide (u = cur_of s /\ status ts = TASK_RUNNING)
  then set_status TASK_READY (set_task_ticks (priority ts) ts) else ts.

Lemma requeue_inv s ls rd tc h :
  can_schedule s ls rd tc -> status tc = TASK_RUNNING ->
  dheap h (<[k_ready s := tags rd ++ [general_tag (cur_of s)]]> ls) ->
  same_nodes (lm_nodes (k_mem s)) h ->
  let ts' := set_task_ticks (priority tc) tc in
  sched_inv (readied (cur_of s) ts' h s)
    (<[k_ready s := tags (rd ++ [cur_of s])]> ls) (rd ++ [cur_of s]).
Proof.
  intros Hcs Hr Hh Hs ts'. eapply readied_inv; [by apply Hcs|by apply Hcs|done|done| |done|].
  - by rewrite tags_app.
  - intros u. set_solver.
Qed.

Lemma requeue_tasks s tc u :
  k_tasks s !! cur_of s = Some tc -> status tc = TASK_RUNNING ->
  <[cur_of s := set_status TASK_READY (set_task_ticks (priority tc) tc)]> (k_tasks s) !! u =
  requeue_task s u <$> k_tasks s !! u.
Proof.
  intros Hc Hr. unfold requeue_task. destruct (decide (cur_of s = u)) as [<-|Hne].
  - rewrite lookup_insert_eq, Hc. cbn. rewrite decide_True by done. done.
  - rewrite lookup_insert_ne by done. destruct (k_tasks s !! u); [|done]. cbn.
    rewrite decide_False by naive_solver. done.
Qed.

Lemma scheduled_task_requeue s nxt u ts :
  scheduled_task s nxt u ts =
    (if decide (u = cur_of s) then set_kstack (u32 (k_esp s - 28)) else id)
      ((if decide (u = nxt) then set_status TASK_RUNNING else id) (requeue_task s u ts)).
Proof.
  unfold scheduled_task, requeue_task.
  by destruct (decide (u = cur_of s)), (decide (u = nxt)).
Qed.

Lemma requeue_task_same s u ts :
  self_kstack (requeue_task s u ts) = self_kstack ts /\ pgdir (requeue_task s u ts) = pgdir ts.
Proof. unfold requeue_task. by destruct (decide _). Qed.

Lemma requeue_tasks_not s tc u ts :
  k_tasks s !! cur_of s = Some tc -> status tc <> TASK_RUNNING ->
  k_tasks s !! u = Some ts -> requeue_task s u ts = ts.
Proof. intros Hc Hr Hu. unfold requeue_task. rewrite decide_False by naive_solver. done. Qed.

Lemma schedule_run s ls rd tc (Q : unit -> kstate -> Prop) :
  can_schedule s ls rd tc ->
  (forall s', scheduled s s' ls (next_thread s rd tc).1 (next_thread s rd tc).2 -> Q tt s') ->
  wp schedule Q s.
Proof.
  intros Hcs HQ. pose proof Hcs as [Hi Hif He Hc Hrun Hidle]. unfold schedule. rewrite wp_bind.
  apply wp_k_status. rewrite Hif. wp_assert; [done|]. rewrite wp_running. wp_simp.
  eapply wp_ld_task; [exact Hc|]. unfold next_thread, requeued in *.
  pose proof (si_task s ls rd Hi _ _ Hc) as Hok.
  destruct (decide (status tc = TASK_RUNNING)) as [Hr|Hr].
  - pose proof (Hrun Hr) as Hu.
    assert (Hnin : general_tag (cur_of s) ∉ tags rd).
    { intros Hin. apply (Hu (k_ready s) (tags rd)); [by apply si_ready|]. unfold cells. set_solver. }
    wp_simp. rewrite wp_k_list. eapply (heap_find_run _ ls); [by apply Hi|by apply Hi|].
    rewrite bool_decide_false by done. wp_assert. rewrite wp_k_list.
    eapply (heap_append_run _ ls);
      [by apply Hi|by apply Hi|done|by eapply general_tag_not_null|by apply Hok|].
    intros h Hh Hs. wp_simp. eapply wp_upd_task; [exact Hc|]. wp_simp.
    eapply wp_upd_task; [cbn; apply lookup_insert_eq|]. wp_simp. cbn. rewrite insert_insert_eq.
    pose proof (requeue_inv s ls rd tc h Hcs Hr Hh Hs) as Hi1.
    rewrite wp_k_list. eapply (heap_empty_run _ _); [apply Hi1|apply Hi1|].
    rewrite bool_decide_false by (unfold tags; by destruct rd). wp_simp.
    destruct (rd ++ [cur_of s]) as [|n rd'] eqn:E; [by destruct rd|].
    eapply (schedule_finish s _ _ h (requeue_task s) ls n rd' tc);
      [done|done|reflexivity|done| | | |exact Hi1|exact HQ].
    + intros u. by apply requeue_tasks.
    + apply requeue_task_same.
    + intros u ts _. apply scheduled_task_requeue.
  - wp_simp. rewrite wp_k_list. eapply (heap_empty_run _ ls); [by apply Hi|by apply Hi|].
    rewrite set_mem_id. rewrite app_nil_r in HQ, Hidle. destruct rd as [|n rd'].
    + (* nobody is ready: the idle thread is woken *)
      destruct (Hidle eq_refl) as (ti & Hti & Hb & Hu). rewrite bool_decide_true by done.
      wp_simp. eapply (thread_unblock_run s ls [] (k_idle s)); [done|done|done|done|].
      intros h Hs Hi1.
      eapply (schedule_finish s _ _ h
        (fun u ts => if decide (u = k_idle s) then set_status TASK_READY ts else ts)
        ls (k_idle s) [] tc); [done|done|reflexivity|done| | | |exact Hi1|exact HQ].
      * intros u. destruct (decide (k_idle s = u)) as [<-|Hne].
        -- rewrite lookup_insert_eq, Hti. cbn. by rewrite decide_True.
        -- rewrite lookup_insert_ne by done. destruct (k_tasks s !! u); [|done]. cbn.
           by rewrite decide_False.
      * intros u ts. by destruct (decide _).
      * intros u ts Hts. rewrite scheduled_task_requeue, (requeue_tasks_not s tc u ts) by done.
        by destruct (decide (u = k_idle s)).
    + rewrite bool_decide_false by done. wp_simp.
      eapply (schedule_finish s s (k_tasks s) (lm_nodes (k_mem s)) (requeue_task s) ls n rd' tc);
        [done|done|by destruct s as [[]]|done| | | | |exact HQ].
      * intros u. destruct (k_tasks s !! u) as [ts|] eqn:E; [|done]. cbn.
        by rewrite (requeue_tasks_not s tc u ts).
      * apply requeue_task_same.
      * intros u ts _. apply scheduled_task_requeue.
      * pose proof (si_ready s ls _ Hi) as Hr'. rewrite insert_id by done. done.
Qed.

(** [C3] Round robin. With interrupts masked and the lists and PCBs in order,
    schedule runs without a panic or a fault; the thread that leaves goes to the
    end of the ready list with a fresh time slice if it was running; the head of
    the list (the idle thread if nobody is ready) becomes the running thread,
    on its own stack, page directory and tss.esp0; nothing else changes, and
    the lists and the states of the threads still agree. *)
Theorem schedule_round_robin s ls rd tc :
  can_schedule s ls rd tc ->
  let '(nxt, rd') := next_thread s rd tc in
  exists s', schedule s = Ok (tt, s') /\ scheduled s s' ls nxt rd'.
Proof.
  intros Hcs. assert (H : wp schedule (fun _ s' =>
    scheduled s s' ls (next_thread s rd tc).1 (next_thread s rd tc).2) s).
  { apply (schedule_run s ls rd tc); [done|]. auto. }
  destruct (next_thread s rd tc) as [nxt rd']. wp_ok H. destruct x. by eexists.
Qed.

(** Three threads: the one at 0xc009e000 runs, the one at 0xc0101000 is ready,
    the one at 0xc0102000 is blocked. *)
Definition demo_pcb (kstack : Z) (st : task_status) : task_struct :=
  Task kstack st 1 31 [] 0 0 NULL STACK_MAGIC [] 0 (-1).
Definition demo_lists : gmap Z (list Z) := {[ 0xc0008000 := tags [0xc0101000] ]}.
Definition demo_kstate : kstate :=
  KState
    (LMem (Cpu 0x2 [] [])
      (list_to_map [ (0xc0008000, Elem NULL 0xc0101020); (0xc0008008, Elem 0xc0101020 NULL);
                     (0xc0101020, Elem 0xc0008000 0xc0008008); (0xc009e020, Elem 0 0);
                     (0xc0102020, Elem 0 0) ]))
    ∅ 0xc009eff0 0x100000 0
    (list_to_map [ (0xc009e000, demo_pcb 0xc009f000 TASK_RUNNING);
                   (0xc0101000, demo_pcb 0xc0101fb4 TASK_READY);
                   (0xc0102000, demo_pcb 0xc0102fb4 TASK_BLOCKED) ])
    ∅ ∅ ∅ 0xc0008000 0xc0008010 0xc0200000 0xc009e000 0.

Lemma demo_dheap : dheap (lm_nodes (k_mem demo_kstate)) demo_lists.
Proof.
  split.
  - intros L xs H. unfold demo_lists in H. apply lookup_singleton_Some in H as [<- <-].
    split; [|split].
    + vm_compute. by repeat split.
    + apply (bool_decide_unpack _). vm_compute. done.
    + apply (bool_decide_unpack _). vm_compute. done.
  - unfold demo_lists. intros L1 xs1 L2 xs2 H1 H2 Hne.
    apply lookup_singleton_Some in H1 as [<- _]. by apply lookup_singleton_Some in H2 as [<- _].
Qed.

Lemma demo_tasks (P : Z -> task_struct -> Prop) :
  P 0xc009e000 (demo_pcb 0xc009f000 TASK_RUNNING) ->
  P 0xc0101000 (demo_pcb 0xc0101fb4 TASK_READY) ->
  P 0xc0102000 (demo_pcb 0xc0102fb4 TASK_BLOCKED) ->
  forall t ts, k_tasks demo_kstate !! t = Some ts -> P t ts.
Proof.
  intros H1 H2 H3 t ts H. apply elem_of_list_to_map_2 in H.
  apply elem_of_cons in H as [[= -> ->]|H]; [done|].
  apply elem_of_cons in H as [[= -> ->]|H]; [done|].
  apply elem_of_cons in H as [[= -> ->]|H]; [done|]. set_solver.
Qed.

Lemma demo_can_schedule :
  can_schedule demo_kstate demo_lists [0xc0101000] (demo_pcb 0xc009f000 TASK_RUNNING).
Proof.
  split; [split|..]; try done.
  - exact demo_dheap.
  - apply demo_tasks; split; try (by left); try (eexists; reflexivity); try reflexivity; cbn; try lia.
    all: right; split; [lia|reflexivity].
  - intros t. rewrite list_elem_of_singleton. split.
    + intros ->. eexists. split; reflexivity.
    + intros (ts & Hts & Hs). revert Hts Hs.
      apply (demo_tasks (fun t ts => status ts = TASK_READY -> t = 0xc0101000)); done.
  - unfold demo_lists. intros _ L xs H. apply lookup_singleton_Some in H as [<- <-].
    apply (bool_decide_unpack _). vm_compute. done.
Qed.

Lemma schedule_round_robin_witness :
  exists s', schedule demo_kstate = Ok (tt, s') /\
    scheduled demo_kstate s' demo_lists 0xc0101000 [0xc009e000].
Proof.
  exact (schedule_round_robin demo_kstate demo_lists [0xc0101000]
           (demo_pcb 0xc009f000 TASK_RUNNING) demo_can_schedule).
Defined.
