(* ===== verification/Sync.v ===== *)
(** * Semaphores and locks (thread/sync.c)

    A [struct lock] at [plock] is its holder (offset 0), its semaphore (offset
    4) and the repeat count (offset 24); a [struct semaphore] at [psema] is its
    value and, at offset 4, the list of its waiters. A call that blocks is cut
    at [switch_to]: the rest is the frame it leaves behind. A call boundary at
    which interrupts may be on is a boundary between two steps as well, so that
    a clock interrupt can fall there. *)

From Stdlib Require Import ZArith Lia.
From stdpp Require Import base numbers list gmap option.
From S2P Require Import Prelude Intr DList ListHeap Paging Thread.

Local Open Scope Z_scope.

(** &plock->semaphore and &psema->waiters *)
Definition semaphore_of (plock : Z) : Z := plock + 4.
Definition waiters_of (psema : Z) : Z := psema + 4.

Definition ld_sema (psema : Z) : M kstate Z := do s <- get; of_option (k_semas s !! psema).
Definition st_sema (psema v : Z) : M kstate unit :=
  modify (fun s => set_semas (<[psema := u8 v]> (k_semas s)) s).
Definition ld_lock (plock : Z) : M kstate lock_fields := do s <- get; of_option (k_locks s !! plock).
Definition st_lock (plock : Z) (l : lock_fields) : M kstate unit :=
  modify (fun s => set_locks (<[plock := l]> (k_locks s)) s).

Definition sema_init (psema value : Z) : M kstate unit :=
  st_sema psema value ;;
  k_list (list_init (waiters_of psema)).

Definition lock_init (plock : Z) : M kstate unit :=
  st_lock plock (LockF NULL 0) ;;
  sema_init (semaphore_of plock) 1.

(** The loop of sema_down and what follows it, entered with interrupts masked. *)
Definition sema_down_loop (psema : Z) (old_status : intr_status) : M kstate unit :=
  do v <- ld_sema psema;
  if v =? 0 then
    do cur <- running_thread;
    do f <- k_list (elem_find (waiters_of psema) (general_tag cur));
    ASSERT (negb f) ;;
    do f2 <- k_list (elem_find (waiters_of psema) (general_tag cur));
    (if f2 then panic else ret tt) ;;
    k_list (list_append (waiters_of psema) (general_tag cur)) ;;
    push_frame cur (F_sema_down psema old_status) ;;
    thread_block TASK_BLOCKED
  else
    st_sema psema (v - 1) ;;
    do v' <- ld_sema psema;
    ASSERT (v' =? 0) ;;
    k_intr_set_status old_status ;;
    ret tt.

Definition sema_down (psema : Z) : M kstate unit :=
  do old_status <- k_intr_disable;
  sema_down_loop psema old_status.

Definition sema_up (psema : Z) : M kstate unit :=
  do old_status <- k_intr_disable;
  do v <- ld_sema psema;
  ASSERT (v =? 0) ;;
  do e <- k_list (list_empty (waiters_of psema));
  (if negb e then
     do tag <- k_list (list_pop (waiters_of psema));
     thread_unblock (tag2task tag)
   else ret tt) ;;
  do v <- ld_sema psema;
  st_sema psema (v + 1) ;;
  do v' <- ld_sema psema;
  ASSERT (v' =? 1) ;;
  k_intr_set_status old_status ;;
  ret tt.

(** The rest of lock_acquire, when sema_down has returned. *)
Definition lock_acquired (plock : Z) : M kstate unit :=
  do cur <- running_thread;
  do l <- ld_lock plock;
  st_lock plock (LockF cur (holder_repeat_nr l)) ;;
  ASSERT (holder_repeat_nr l =? 0) ;;
  st_lock plock (LockF cur 1).

Definition lock_acquire (plock : Z) : M kstate unit :=
  do cur <- running_thread;
  do l <- ld_lock plock;
  if negb (holder l =? cur) then
    push_frame cur (F_lock_acquire plock) ;;
    sema_down (semaphore_of plock)
  else st_lock plock (LockF (holder l) (u32 (holder_repeat_nr l + 1))).

(** lock_release, up to the call of sema_up. *)
Definition lock_release (plock : Z) : M kstate unit :=
  do cur <- running_thread;
  do l <- ld_lock plock;
  ASSERT (holder l =? cur) ;;
  if 1 <? holder_repeat_nr l then
    st_lock plock (LockF (holder l) (u32 (holder_repeat_nr l - 1)))
  else
    ASSERT (holder_repeat_nr l =? 1) ;;
    st_lock plock (LockF NULL 0) ;;
    push_frame cur (F_sema_up (semaphore_of plock)).

Definition k_set_eflags (e : Z) : M kstate unit :=
  k_list (zoom lm_cpu set_cpu (modify (set_eflags e))).

(** [sti; hlt]: the processor stops with interrupts on; the next round of idle
    comes when it goes on. *)
Definition idle_round : M kstate unit :=
  do cur <- running_thread;
  k_list (zoom lm_cpu set_cpu sti) ;;
  push_frame cur F_hlt.

(** The running thread goes on with what is on top of its stack. *)
Definition resume : M kstate unit :=
  do cur <- running_thread;
  do s <- get;
  match frames_of s cur with
  | [] => fault
  | f :: rest =>
      modify (set_frames (<[cur := rest]> (k_frames s))) ;;
      match f with
      | F_thread_block old | F_thread_yield old => k_intr_set_status old ;; ret tt
      | F_iret e => k_set_eflags e
      | F_kernel_thread => k_list (zoom lm_cpu set_cpu intr_enable) ;; ret tt
      | F_idle => idle_round
      | F_hlt => idle
      | F_sema_down psema old => sema_down_loop psema old
      | F_lock_acquire plock => lock_acquired plock
      | F_sema_up psema => sema_up psema
      | F_sleep start n => sleep_loop start n
      end
  end.

(** A call from code that is not cut: what [m] leaves on the stack of the caller
    is run, as long as the caller has the processor. *)
Definition k_call (m : M kstate unit) : M kstate unit :=
  do cur <- running_thread;
  do n <- gets (fun s => length (frames_of s cur));
  m ;;
  loop 8 (fun _ : unit =>
    do cur' <- running_thread;
    do k <- gets (fun s => length (frames_of s cur'));
    if (cur' =? cur) && (n <? k)%nat then resume ;; ret (inl tt) else ret (inr tt)) tt.
