(* ===== verification/Mutex.v ===== *)
(** * What a lock guarantees (thread/sync.c under the scheduler)

    Threads that take and give back one lock, with the clock interrupting them
    wherever interrupts are on. A step is one [action] of the running thread; a
    call that blocks goes on in later steps, so the steps of different threads
    interleave at every point where the code can be preempted. A lock of the
    mind, [owner], is moved by the returns of lock_acquire and the calls of
    lock_release: the theorem says that the implementation never lets a second
    thread in, and that no action panics or faults. *)

From Stdlib Require Import ZArith Lia.
From stdpp Require Import base numbers list gmap option relations.
From S2P Require Import Prelude Intr DList ListHeap Paging Thread Sync.

Local Open Scope Z_scope.

Section mutex.
(** The lock, with its semaphore and the list of waiters. *)
Context (plock : Z).
Local Notation psema := (semaphore_of plock).
Local Notation W := (waiters_of (semaphore_of plock)).

(** ** The steps *)

Inductive action :=
  | Tick          (* the clock interrupts *)
  | Continue      (* a suspended routine goes on *)
  | Idle          (* the idle thread enters its loop *)
  | Acquire | Release | Yield
  | Sleep (sleep_ticks : Z).   (* ticks_to_sleep *)

Definition act_run (a : action) : M kstate unit :=
  match a with
  | Tick => timer_interrupt
  | Continue => resume
  | Idle => idle
  | Acquire => lock_acquire plock
  | Release => lock_release plock
  | Yield => thread_yield
  | Sleep n => ticks_to_sleep n
  end.

(** Which thread is between its lock_acquire and its lock_release, and how deep. *)
Definition owner : Type := option (Z * Z).

Inductive event := Got | Gave.

(** Taking and giving back as an atomic lock allows it. *)
Definition monitor (t : Z) (e : event) (o : owner) : option owner :=
  match e, o with
  | Got, None => Some (Some (t, 1))
  | Got, Some (u, n) => if u =? t then Some (Some (t, n + 1)) else None
  | Gave, None => None
  | Gave, Some (u, n) => if u =? t then Some (if n =? 1 then None else Some (t, n - 1)) else None
  end.

(** lock_acquire has returned when nothing of it is left on the stack of the
    thread that called it; lock_release counts from its call. *)
Definition event_of (s : kstate) (a : action) (s' : kstate) : option event :=
  match a with
  | Acquire => match frames_of s' (cur_of s) with [] => Some Got | _ => None end
  | Release => Some Gave
  | Continue => match frames_of s (cur_of s) with F_lock_acquire _ :: _ => Some Got | _ => None end
  | _ => None
  end.

Definition observe (t : Z) (e : option event) (o : owner) : option owner :=
  match e with Some e => monitor t e o | None => Some o end.

(** What the running thread may do. A thread gives back only what it has, and
    does not take the lock so often that the counter wraps. *)
Definition enabled (s : kstate) (o : owner) (a : action) : Prop :=
  match a with
  | Tick => k_if s = true
  | Continue => frames_of s (cur_of s) <> []
  | Idle => frames_of s (cur_of s) = [] /\ cur_of s = k_idle s
  | Acquire => frames_of s (cur_of s) = [] /\ cur_of s <> k_idle s /\
      forall n, o = Some (cur_of s, n) -> n < 2 ^ 32 - 1
  | Release => frames_of s (cur_of s) = [] /\ cur_of s <> k_idle s /\ exists n, o = Some (cur_of s, n)
  | Yield | Sleep _ => frames_of s (cur_of s) = [] /\ cur_of s <> k_idle s
  end.

Inductive step : kstate * owner -> kstate * owner -> Prop :=
  | step_act s o a s' o' : enabled s o a -> act_run a s = Ok (tt, s') ->
      observe (cur_of s) (event_of s a s') o = Some o' -> step (s, o) (s', o').

(** ** The invariant *)

(** What a thread is doing with the lock, from the routines on its stack. *)
Inductive role := Calm | Waiting | Acquiring | Releasing.

(** An interrupt can fall when this is on the stack. *)
Definition open_frames (l : list frame_t) : bool :=
  match l with [] | F_lock_acquire _ :: _ | F_sema_up _ :: _ | F_idle :: _ | F_hlt :: _ | F_sleep _ _ :: _ => true | _ => false end.

Definition base_role (l : list frame_t) : option role :=
  match l with
  | [] | [F_kernel_thread] | [F_thread_yield _] | [F_sleep _ _] | [F_thread_yield _; F_sleep _ _] => Some Calm
  | [F_lock_acquire p] => if p =? plock then Some Acquiring else None
  | [F_sema_up p] => if p =? psema then Some Releasing else None
  | [F_sema_down p _; F_lock_acquire q] | [F_thread_block INTR_OFF; F_sema_down p _; F_lock_acquire q] =>
      if (p =? psema) && (q =? plock) then Some Waiting else None
  | _ => None
  end.
Definition role_of (l : list frame_t) : option role :=
  match l with
  | F_iret _ :: l' => if open_frames l' then base_role l' else None
  | _ => base_role l
  end.

Definition idle_base (l : list frame_t) : bool :=
  match l with [] | [F_kernel_thread] | [F_thread_block _; F_idle] | [F_idle] | [F_hlt] => true | _ => false end.
Definition idle_frames (l : list frame_t) : bool :=
  match l with F_iret _ :: l' => open_frames l' && idle_base l' | _ => idle_base l end.

Definition user (s : kstate) (t : Z) : Prop := is_Some (k_tasks s !! t) /\ t <> k_idle s.
Definition has_role (s : kstate) (t : Z) (r : role) : Prop := role_of (frames_of s t) = Some r.
Definition quiet (s : kstate) (t : Z) : Prop := has_role s t Calm \/ has_role s t Waiting.

(** The fields of the lock, the owner and the roles agree: at most one thread
    has the semaphore, and the owner is that thread unless it is on its way in
    or out. *)
Inductive lock_ok (s : kstate) : owner -> Prop :=
  | LK_free : k_semas s !! psema = Some 1 -> k_locks s !! plock = Some (LockF NULL 0) ->
      (forall t, user s t -> quiet s t) -> lock_ok s None
  | LK_moving t r : k_semas s !! psema = Some 0 -> k_locks s !! plock = Some (LockF NULL 0) ->
      user s t -> has_role s t r -> r = Acquiring \/ r = Releasing ->
      (forall u, user s u -> u <> t -> quiet s u) -> lock_ok s None
  | LK_held t n : k_semas s !! psema = Some 0 -> k_locks s !! plock = Some (LockF t n) -> 1 <= n < 2 ^ 32 ->
      user s t -> has_role s t Calm -> (forall u, user s u -> u <> t -> quiet s u) -> lock_ok s (Some (t, n)).

(** The statuses go with the lists: one thread runs, the blocked ones wait for
    the lock, but for the idle thread. *)
Definition status_ok (s : kstate) (ws : list Z) (t : Z) (ts : task_struct) : Prop :=
  stack_magic ts = STACK_MAGIC /\
  match status ts with
  | TASK_RUNNING => t = cur_of s
  | TASK_READY => True
  | TASK_BLOCKED => t ∈ ws \/ t = k_idle s
  | _ => False
  end.

Record sys_inv (s : kstate) (ls : gmap Z (list Z)) (rd ws : list Z) : Prop := {
  sy_sched : sched_inv s ls rd;
  sy_waiters : ls !! W = Some (tags ws);
  sy_apart : W <> k_ready s;
  sy_sent : forall t, is_Some (k_tasks s !! t) ->
    general_tag t ∉ cells (k_ready s) [] /\ general_tag t ∉ cells W [];
  sy_other : forall t L xs, is_Some (k_tasks s !! t) -> ls !! L = Some xs -> L <> k_ready s -> L <> W ->
    general_tag t ∉ cells L xs;
  sy_esp : 0 <= k_esp s < 2 ^ 32;
  sy_status : forall t ts, k_tasks s !! t = Some ts -> status_ok s ws t ts;
  sy_ws : forall t, t ∈ ws -> t <> k_idle s /\ exists ts, k_tasks s !! t = Some ts /\ status ts = TASK_BLOCKED;
  sy_idle : is_Some (k_tasks s !! k_idle s);
  sy_cur : is_Some (k_tasks s !! cur_of s)
}.

(** The running thread has status TASK_RUNNING. *)
Definition cur_runs (s : kstate) : Prop := forall ts, k_tasks s !! cur_of s = Some ts -> status ts = TASK_RUNNING.

(** At the boundary of a step; interrupts are on only where one can be taken. *)
Record good (s : kstate) (o : owner) : Prop := {
  gd_sys : exists ls rd ws, sys_inv s ls rd ws;
  gd_run : cur_runs s;
  gd_iframes : idle_frames (frames_of s (k_idle s)) = true;
  gd_lock : lock_ok s o;
  gd_if : k_if s = true -> open_frames (frames_of s (cur_of s)) = true
}.

(** ** Changes that the invariant survives *)

Lemma task_ok_ext h p c t ts ts' :
  self_kstack ts' = self_kstack ts -> pgdir ts' = pgdir ts -> task_ok h p c t ts -> task_ok h p c t ts'.
Proof using. intros E1 E2 []. by split; rewrite ?E1, ?E2. Qed.

Lemma sys_tag s ls rd ws t : sys_inv s ls rd ws -> is_Some (k_tasks s !! t) ->
  general_tag t <> NULL /\ is_Some (lm_nodes (k_mem s) !! general_tag t).
Proof using.
  intros Hs [ts Ht]. pose proof (si_task _ _ _ (sy_sched _ _ _ _ Hs) _ _ Ht) as Hok.
  split; [by eapply general_tag_not_null|apply Hok].
Qed.

Lemma sys_unlinked s ls rd ws t : sys_inv s ls rd ws -> is_Some (k_tasks s !! t) -> t ∉ rd -> t ∉ ws ->
  unlinked ls (general_tag t).
Proof using.
  intros Hs Ht Hr Hw L xs HL. destruct (sy_sent _ _ _ _ Hs t Ht) as [S1 S2].
  assert (Hc : forall a l, general_tag t ∉ cells a [] -> t ∉ l -> general_tag t ∉ cells a (tags l)).
  { intros a l H1 H2. unfold cells in *. rewrite <- (tags_elem t l) in H2. set_solver. }
  destruct (decide (L = k_ready s)) as [->|H1].
  - rewrite (si_ready _ _ _ (sy_sched _ _ _ _ Hs)) in HL. injection HL as <-. by apply Hc.
  - destruct (decide (L = W)) as [->|H2]; [|by apply (sy_other _ _ _ _ Hs)].
    rewrite (sy_waiters _ _ _ _ Hs) in HL. injection HL as <-. by apply Hc.
Qed.

(** A step that changes one PCB and the lists. *)
Lemma sys_step s s' ls ls' rd rd' ws ws' t ts ts' :
  sys_inv s ls rd ws -> k_tasks s !! t = Some ts ->
  k_tasks s' = <[t := ts']> (k_tasks s) -> k_ptab s' = k_ptab s -> k_ready s' = k_ready s ->
  k_esp s' = k_esp s -> k_idle s' = k_idle s ->
  self_kstack ts' = self_kstack ts -> pgdir ts' = pgdir ts -> status_ok s ws' t ts' ->
  dheap (lm_nodes (k_mem s')) ls' -> same_nodes (lm_nodes (k_mem s)) (lm_nodes (k_mem s')) ->
  ls' !! k_ready s = Some (tags rd') -> ls' !! W = Some (tags ws') ->
  (forall L, L <> k_ready s -> L <> W -> ls' !! L = ls !! L) ->
  (t ∈ rd' <-> status ts' = TASK_READY) -> (forall u, u <> t -> u ∈ rd' <-> u ∈ rd) ->
  (t ∈ ws' -> t <> k_idle s /\ status ts' = TASK_BLOCKED) -> (forall u, u <> t -> u ∈ ws' <-> u ∈ ws) ->
  sys_inv s' ls' rd' ws'.
Proof using.
  intros Hs Hts ET EP ER EE EI Ek Ep Hok Hd Hn Lr Lw Lo Hr Hr' Hw Hw'. pose proof (sy_sched _ _ _ _ Hs) as Hsch.
  assert (EC : cur_of s' = cur_of s) by (unfold cur_of; by rewrite EE).
  assert (Hdom : forall u, is_Some (k_tasks s' !! u) <-> is_Some (k_tasks s !! u)).
  { intros u. rewrite ET, lookup_insert_is_Some'. split; [|by right]. intros [<-|?]; [by eexists|done]. }
  split.
  - split; [done|by rewrite ER| |].
    + intros u us. rewrite ET, EP, EC. intros Hu. eapply task_ok_nodes; [exact Hn|].
      destruct (decide (t = u)) as [<-|Hne].
      * rewrite lookup_insert_eq in Hu. injection Hu as <-. eapply task_ok_ext; [done|done|]. by apply (si_task _ _ _ Hsch).
      * rewrite lookup_insert_ne in Hu by done. by apply (si_task _ _ _ Hsch).
    + intros u. rewrite ET. destruct (decide (t = u)) as [<-|Hne].
      * rewrite lookup_insert_eq, Hr. naive_solver.
      * rewrite lookup_insert_ne by done. rewrite Hr' by done. apply (si_rd _ _ _ Hsch).
  - done.
  - rewrite ER. apply (sy_apart _ _ _ _ Hs).
  - intros u Hu. rewrite ER. apply (sy_sent _ _ _ _ Hs), Hdom, Hu.
  - intros u L xs Hu HL H1 H2. rewrite ER in H1. rewrite Lo in HL by done. apply Hdom in Hu. by apply (sy_other _ _ _ _ Hs).
  - rewrite EE. apply (sy_esp _ _ _ _ Hs).
  - intros u us. rewrite ET. unfold status_ok. rewrite EC, EI. destruct (decide (t = u)) as [<-|Hne].
    + rewrite lookup_insert_eq. by intros [= <-].
    + rewrite lookup_insert_ne by done. intros Hu. pose proof (sy_status _ _ _ _ Hs u us Hu) as [? ?]. split; [done|].
      destruct (status us); try done. by rewrite Hw'.
  - intros u. rewrite ET, EI. destruct (decide (t = u)) as [<-|Hne].
    + rewrite lookup_insert_eq. naive_solver.
    + rewrite lookup_insert_ne, Hw' by done. apply (sy_ws _ _ _ _ Hs).
  - rewrite EI. apply Hdom, (sy_idle _ _ _ _ Hs).
  - rewrite EC. apply Hdom, (sy_cur _ _ _ _ Hs).
Qed.

(** What the lock and the roles do not see. *)
Record same_locks (s s' : kstate) : Prop := {
  sl_semas : k_semas s' = k_semas s;
  sl_locks : k_locks s' = k_locks s;
  sl_idle : k_idle s' = k_idle s;
  sl_dom : forall u, is_Some (k_tasks s' !! u) <-> is_Some (k_tasks s !! u)
}.

Lemma same_locks_user s s' u : same_locks s s' -> user s' u <-> user s u.
Proof using. intros [_ _ Hi Hd]. unfold user. by rewrite Hi, Hd. Qed.

Lemma lock_ok_roles s s' o :
  same_locks s s' -> (forall u, user s u -> role_of (frames_of s' u) = role_of (frames_of s u)) ->
  lock_ok s o -> lock_ok s' o.
Proof using.
  intros Hl Hr. pose proof (fun u => same_locks_user s s' u Hl) as Hu.
  assert (Hq : forall u, user s u -> quiet s u -> quiet s' u) by (intros u Hu'; unfold quiet, has_role; by rewrite Hr).
  destruct Hl as [E1 E2 _ _]. intros [Es El Q|t r Es El Ut Rt Hor Q|t n Es El Hn Ut Rt Q].
  - apply LK_free; rewrite ?E1, ?E2; try done. intros u ?%Hu. auto.
  - apply (LK_moving s' t r); rewrite ?E1, ?E2; try done; [by apply Hu|unfold has_role; by rewrite Hr|].
    intros u ?%Hu Hne. auto.
  - apply LK_held; rewrite ?E1, ?E2; try done; [by apply Hu|unfold has_role; by rewrite Hr|].
    intros u ?%Hu Hne. auto.
Qed.

(** ** schedule *)

Lemma sys_can_schedule s ls rd ws : sys_inv s ls rd ws -> k_if s = false ->
  exists tc, k_tasks s !! cur_of s = Some tc /\ can_schedule s ls rd tc.
Proof using.
  intros Hs Hif. pose proof (sy_sched _ _ _ _ Hs) as Hsch. destruct (sy_cur _ _ _ _ Hs) as [tc Hc]. exists tc. split; [done|].
  assert (Hnr : forall t ts, k_tasks s !! t = Some ts -> status ts <> TASK_READY -> t ∉ rd).
  { intros t ts Ht Hn Hin. apply (si_rd _ _ _ Hsch) in Hin as (ts' & Ht' & ?). congruence. }
  split; [done|done|apply (sy_esp _ _ _ _ Hs)|done| |].
  - intros Hr. apply (sys_unlinked s ls rd ws); [done|by eexists|apply (Hnr _ tc Hc); congruence|].
    intros Hin. apply (sy_ws _ _ _ _ Hs) in Hin as (_ & ts' & Ht' & ?). congruence.
  - intros Hq. unfold requeued in Hq. apply app_eq_nil in Hq as [-> Hq].
    destruct (sy_idle _ _ _ _ Hs) as [ti Hi]. exists ti. split; [done|].
    destruct (sy_status _ _ _ _ Hs _ _ Hi) as [_ Hst].
    assert (Hb : status ti = TASK_BLOCKED).
    { destruct (status ti) eqn:E; try done.
      - rewrite Hst, Hc in Hi. injection Hi as <-. by rewrite decide_True in Hq.
      - assert (Hin : k_idle s ∈ []) by (apply (si_rd _ _ _ Hsch); by exists ti). by apply not_elem_of_nil in Hin. }
    rewrite Hb. split; [done|]. apply (sys_unlinked s ls [] ws); [done|by eexists|apply not_elem_of_nil|].
    intros Hin. by apply (sy_ws _ _ _ _ Hs) in Hin as [? _].
Qed.

(** The thread that runs next is not one that waits for the lock. *)
Lemma next_not_waiting s ls rd ws tc t :
  sys_inv s ls rd ws -> k_tasks s !! cur_of s = Some tc -> t ∈ ws -> t <> (next_thread s rd tc).1.
Proof using.
  intros Hs Hc Hw. destruct (sy_ws _ _ _ _ Hs t Hw) as (Hni & ts & Ht & Hb). unfold next_thread.
  destruct (requeued s rd tc) as [|n l] eqn:E; cbn; [done|]. intros <-.
  assert (Hin : t ∈ requeued s rd tc) by (rewrite E; by left). unfold requeued in Hin. apply elem_of_app in Hin as [Hin|Hin].
  - apply (si_rd _ _ _ (sy_sched _ _ _ _ Hs)) in Hin as (ts' & Ht' & ?). congruence.
  - destruct (decide _) as [Hr|]; [|by apply not_elem_of_nil in Hin]. apply list_elem_of_singleton in Hin as ->. congruence.
Qed.

(** schedule keeps the lists and statuses in order, and touches neither the
    lock nor what is on the stacks. *)
Lemma schedule_sys s ls rd ws (Q : unit -> kstate -> Prop) :
  sys_inv s ls rd ws -> k_if s = false ->
  (forall s' ls' rd', sys_inv s' ls' rd' ws -> cur_runs s' -> k_if s' = false -> same_locks s s' ->
     k_frames s' = k_frames s -> Q tt s') ->
  wp schedule Q s.
Proof using.
  intros Hs Hif HQ. destruct (sys_can_schedule s ls rd ws Hs Hif) as (tc & Hc & Hcs).
  apply (schedule_run s ls rd tc); [done|]. intros s'. set (nxt := (next_thread s rd tc).1). set (rd' := (next_thread s rd tc).2).
  intros [Hi' Hcur HT (h & tn & Htn & Hh & Hst)].
  assert (Hmag : forall u us, k_tasks s' !! u = Some us -> exists us0, k_tasks s !! u = Some us0 /\ stack_magic us = stack_magic us0 /\
    status us = if decide (u = nxt) then TASK_RUNNING else if decide (u = cur_of s /\ status us0 = TASK_RUNNING) then TASK_READY else status us0).
  { intros u us. rewrite HT. intros (us0 & Hu0 & ->)%fmap_Some. exists us0. split; [done|]. unfold scheduled_task.
    by destruct (decide (u = cur_of s /\ status us0 = TASK_RUNNING)), (decide (u = nxt)), (decide (u = cur_of s)). }
  assert (Hdom : forall u, is_Some (k_tasks s' !! u) <-> is_Some (k_tasks s !! u)) by (intros u; by rewrite HT, fmap_is_Some).
  assert (Hesp : 0 <= k_esp s' < 2 ^ 32) by (rewrite Hst; apply u32_bound).
  assert (Hrest : k_ready s' = k_ready s /\ k_idle s' = k_idle s /\ k_semas s' = k_semas s /\ k_locks s' = k_locks s /\
    k_frames s' = k_frames s /\ k_if s' = k_if s) by (rewrite Hst; by repeat split).
  clear Hst. destruct Hrest as (ER & EI & ES & EL & EF & Eif).
  apply (HQ s' (<[k_ready s := tags rd']> ls) rd'); [| |congruence|done|done].
  - split.
    + done.
    + rewrite lookup_insert_ne by (intros E; by apply (sy_apart _ _ _ _ Hs)). apply (sy_waiters _ _ _ _ Hs).
    + rewrite ER. apply (sy_apart _ _ _ _ Hs).
    + intros u Hu. rewrite ER. apply (sy_sent _ _ _ _ Hs), Hdom, Hu.
    + intros u L xs Hu HL H1 H2. rewrite ER in H1. rewrite lookup_insert_ne in HL by congruence.
      apply (sy_other _ _ _ _ Hs u L xs); [by apply Hdom|done..].
    + done.
    + intros u us Hu. destruct (Hmag u us Hu) as (us0 & Hu0 & Em & Est). destruct (sy_status _ _ _ _ Hs u us0 Hu0) as [Hm Hst].
      split; [congruence|]. rewrite Est, EI, Hcur. destruct (decide (u = nxt)); [done|].
      destruct (decide _) as [[_ ?]|Hn]; [done|]. destruct (status us0); try done. naive_solver.
    + intros u Hu. rewrite EI. destruct (sy_ws _ _ _ _ Hs u Hu) as (Hni & us0 & Hu0 & Hb). split; [done|].
      destruct (proj2 (Hdom u)) as [us Hu']; [by eexists|]. exists us. split; [done|].
      destruct (Hmag u us Hu') as (us1 & Hu1 & _ & ->). assert (us1 = us0) as -> by congruence.
      rewrite decide_False by (by eapply next_not_waiting). rewrite decide_False by (intros [_ ?]; congruence). done.
    + rewrite EI. apply Hdom, (sy_idle _ _ _ _ Hs).
    + rewrite Hcur. apply Hdom. by eexists.
  - intros us. rewrite Hcur. intros Hu. destruct (Hmag nxt us Hu) as (us0 & _ & _ & ->). by rewrite decide_True.
Qed.

(** A change of neither the lists, nor the PCBs, nor the stack pointer. *)
Record same_sys (s s' : kstate) : Prop := {
  ss_nodes : lm_nodes (k_mem s') = lm_nodes (k_mem s);
  ss_tasks : k_tasks s' = k_tasks s;
  ss_ptab : k_ptab s' = k_ptab s;
  ss_esp : k_esp s' = k_esp s;
  ss_ready : k_ready s' = k_ready s;
  ss_idle : k_idle s' = k_idle s
}.

Lemma same_sys_cur s s' : same_sys s s' -> cur_of s' = cur_of s.
Proof using. intros [_ _ _ E _ _]. unfold cur_of. by rewrite E. Qed.

Lemma same_sys_inv s s' ls rd ws : same_sys s s' -> sys_inv s ls rd ws -> sys_inv s' ls rd ws.
Proof using.
  intros [En Et Ep Ee Er Ei] [[? ? Htask ?] ? ? ? ? ? ? ? ? ?]. unfold status_ok, cur_of in *.
  split; [split|..]; unfold status_ok, cur_of; rewrite ?En, ?Et, ?Ep, ?Ee, ?Er, ?Ei; done.
Qed.

Lemma same_sys_runs s s' : same_sys s s' -> cur_runs s -> cur_runs s'.
Proof using. intros Hs Hr ts. rewrite (same_sys_cur s s' Hs), (ss_tasks _ _ Hs). apply Hr. Qed.

Lemma frames_of_set s t l u : frames_of (set_frames (<[t := l]> (k_frames s)) s) u = if decide (u = t) then l else frames_of s u.
Proof using.
  unfold frames_of. cbn. destruct (decide (u = t)) as [->|Hne]; [by rewrite lookup_insert_eq|by rewrite lookup_insert_ne].
Qed.

Lemma k_intr_set_status_run st s (Q : intr_status -> kstate -> Prop) :
  (forall r c, if_on c = bool_decide (st = INTR_ON) -> Q r (set_mem (set_cpu c (k_mem s)) s)) ->
  wp (k_intr_set_status st) Q s.
Proof using.
  intros HQ. unfold k_intr_set_status, l_intr_set_status. rewrite wp_k_list, wp_zoom. set (c0 := lm_cpu (k_mem s)) in *.
  destruct st; cbn [intr_set_status].
  - unfold wp. rewrite intr_disable_eq. apply HQ. rewrite if_on_disabled. done.
  - unfold intr_enable. rewrite wp_bind. apply intr_get_status_run. destruct (if_on c0) eqn:E; wp_simp.
    + apply HQ. by rewrite E.
    + unfold sti. wp_simp. apply HQ. unfold if_on. cbn [eflags set_eflags]. rewrite Z.lor_spec. by rewrite orb_true_r.
Qed.

(** The end of a step that gives up the processor. *)
Lemma schedule_good s o ls rd ws (Q : unit -> kstate -> Prop) :
  sys_inv s ls rd ws -> k_if s = false -> idle_frames (frames_of s (k_idle s)) = true -> lock_ok s o ->
  (forall s', good s' o -> k_frames s' = k_frames s -> Q tt s') -> wp schedule Q s.
Proof using.
  intros Hs Hif Hi Hl HQ. eapply schedule_sys; [done|done|]. intros s' ls' rd' Hs' Hr Hif' Hsl Hf. apply HQ; [|done].
  split; [by eauto|done| | |by rewrite Hif'].
  - unfold frames_of. by rewrite Hf, (sl_idle _ _ Hsl).
  - apply (lock_ok_roles s s'); [done| |done]. intros u _. unfold frames_of. by rewrite Hf.
Qed.

Lemma lock_ok_user_role s o t : lock_ok s o -> user s t -> exists r, has_role s t r.
Proof using.
  assert (Hq : quiet s t -> exists r, has_role s t r) by (intros [|]; eauto).
  intros [_ _ Q|u r _ _ _ Hr _ Q|u n _ _ _ _ Hr Q] Ht; [auto|..]; destruct (decide (t = u)) as [->|Hne]; eauto.
Qed.

(** A thread that is neither the owner nor on its way in or out may change
    between being calm and waiting. *)
Lemma lock_ok_quiet s s' o t :
  same_locks s s' -> (forall u, u <> t -> frames_of s' u = frames_of s u) -> (forall n, o <> Some (t, n)) ->
  quiet s t -> quiet s' t -> lock_ok s o -> lock_ok s' o.
Proof using.
  intros Hl Hf Ho Hq Hq' Hok. pose proof (fun u => same_locks_user s s' u Hl) as Hu.
  assert (Ha : forall u, (user s u -> quiet s u) -> user s' u -> quiet s' u).
  { intros u H1 H2%Hu. destruct (decide (u = t)) as [->|Hne]; [done|]. unfold quiet, has_role. rewrite Hf by done. by apply H1. }
  destruct Hl as [E1 E2 _ _]. destruct Hok as [Es El Q|v r Es El Uv Rv Hor Q|v n Es El Hn Uv Rv Q].
  - apply LK_free; rewrite ?E1, ?E2; try done. intros u. apply Ha, Q.
  - assert (v <> t) by (intros ->; destruct Hq as [Hq|Hq], Hor as [->| ->]; unfold has_role in *; congruence).
    apply (LK_moving s' v r); rewrite ?E1, ?E2; try done; [by apply Hu|unfold has_role; by rewrite Hf|].
    intros u Hu' Hne. apply (Ha u); [|done]. auto.
  - assert (v <> t) by (intros ->; by apply (Ho n)).
    apply LK_held; rewrite ?E1, ?E2; try done; [by apply Hu|unfold has_role; by rewrite Hf|].
    intros u Hu' Hne. apply (Ha u); [|done]. auto.
Qed.

(** ** Going to sleep *)

(** The state in which thread_block calls schedule. *)
Definition asleep (s : kstate) (tc : task_struct) : kstate :=
  set_frames (<[cur_of s := F_thread_block (status_of (lm_cpu (k_mem s))) :: frames_of s (cur_of s)]> (k_frames s))
    (set_tasks (<[cur_of s := set_status TASK_BLOCKED tc]> (k_tasks s))
      (set_mem (set_cpu (disabled (lm_cpu (k_mem s))) (k_mem s)) s)).

Lemma thread_block_run s tc (Q : unit -> kstate -> Prop) :
  k_tasks s !! cur_of s = Some tc -> wp schedule Q (asleep s tc) -> wp (thread_block TASK_BLOCKED) Q s.
Proof using.
  intros Hc HQ. unfold thread_block. wp_assert; [done|]. rewrite wp_k_intr_disable. wp_simp. rewrite wp_running. wp_simp.
  eapply wp_upd_task; [exact Hc|]. unfold push_frame. wp_simp. exact HQ.
Qed.

(** The running thread is in no list. *)
Lemma runner_free s ls rd ws : sys_inv s ls rd ws -> cur_runs s -> cur_of s ∉ rd /\ cur_of s ∉ ws.
Proof using.
  intros Hs Hr. destruct (sy_cur _ _ _ _ Hs) as [tc Hc]. pose proof (Hr tc Hc) as Hst. split; intros Hin.
  - apply (si_rd _ _ _ (sy_sched _ _ _ _ Hs)) in Hin as (ts & Hts & ?). congruence.
  - apply (sy_ws _ _ _ _ Hs) in Hin as (_ & ts & Hts & ?). congruence.
Qed.

(** The idle thread blocks itself. *)
Lemma idle_good s o ls rd ws (Q : unit -> kstate -> Prop) :
  sys_inv s ls rd ws -> cur_runs s -> cur_of s = k_idle s -> frames_of s (cur_of s) = [] -> lock_ok s o ->
  (forall s', good s' o -> Q tt s') -> wp idle Q s.
Proof using.
  intros Hs Hr Hi Hf Hl HQ. unfold idle. wp_simp. rewrite wp_running. unfold push_frame. wp_simp. rewrite Hf.
  destruct (sy_cur _ _ _ _ Hs) as [tc Hc]. set (s1 := set_frames _ s).
  apply (thread_block_run s1 tc); [exact Hc|]. change (cur_of s1) with (cur_of s) in *.
  destruct (runner_free _ _ _ _ Hs Hr) as [Hnr Hnw].
  assert (Hdom : forall u, is_Some (<[cur_of s := set_status TASK_BLOCKED tc]> (k_tasks s) !! u) <-> is_Some (k_tasks s !! u)).
  { intros u. rewrite lookup_insert_is_Some'. split; [|by right]. intros [<-|?]; [by eexists|done]. }
  assert (Hfr : forall u, frames_of (asleep s1 tc) u = if decide (u = cur_of s) then
      [F_thread_block (status_of (lm_cpu (k_mem s))); F_idle] else frames_of s u).
  { intros u. unfold asleep. change (cur_of s1) with (cur_of s). unfold frames_of. cbn. rewrite lookup_insert_eq.
    destruct (decide (u = cur_of s)) as [->|Hne]; [by rewrite lookup_insert_eq|by rewrite !lookup_insert_ne]. }
  eapply (schedule_good (asleep s1 tc) o ls rd ws); [|apply if_on_disabled| | |intros s' Hg _; by apply HQ].
  - destruct (sy_status _ _ _ _ Hs _ _ Hc) as [Hm _].
    eapply (sys_step s _ ls ls rd rd ws ws (cur_of s) tc); try done.
    + split; [done|]. cbn. by right.
    + apply (sy_sched _ _ _ _ Hs).
    + apply (sy_sched _ _ _ _ Hs).
    + apply (sy_waiters _ _ _ _ Hs).
  - rewrite Hfr. change (k_idle (asleep s1 tc)) with (k_idle s). rewrite decide_True by done. done.
  - apply (lock_ok_roles s); [by split| |done]. intros u [_ Hne]. rewrite Hfr. by rewrite decide_False by congruence.
Qed.

(** What is known when sema_down is entered with the frame of lock_acquire on
    the stack: [s] is the state in which the invariant held. *)
Record entering (s s1 : kstate) (o : owner) : Prop := {
  en_lock : lock_ok s o;
  en_same : same_locks s s1;
  en_other : forall u, u <> cur_of s1 -> frames_of s1 u = frames_of s u;
  en_frames : frames_of s1 (cur_of s1) = [F_lock_acquire plock];
  en_user : user s (cur_of s1);
  en_quiet : quiet s (cur_of s1);
  en_owner : forall n, o <> Some (cur_of s1, n);
  en_idle : idle_frames (frames_of s (k_idle s)) = true;
  en_run : cur_runs s1;
  en_if : k_if s1 = false
}.

Lemma entering_idle s s1 o : entering s s1 o -> k_idle s1 <> cur_of s1 /\ idle_frames (frames_of s1 (k_idle s1)) = true.
Proof using.
  intros He. assert (Hni : k_idle s1 <> cur_of s1) by (rewrite (sl_idle _ _ (en_same _ _ _ He)); apply not_eq_sym, He).
  split; [done|]. rewrite (en_other _ _ _ He) by done. rewrite (sl_idle _ _ (en_same _ _ _ He)). apply He.
Qed.

Lemma dom_insert_same s t ts u : is_Some (k_tasks s !! t) ->
  is_Some (<[t := ts]> (k_tasks s) !! u) <-> is_Some (k_tasks s !! u).
Proof using. intros Ht. rewrite lookup_insert_is_Some'. split; [|by right]. by intros [<-|?]. Qed.

(** The semaphore is taken: the thread joins the waiters and sleeps. *)
Lemma sleep_good s s1 o old ls rd ws tc h (Q : unit -> kstate -> Prop) :
  entering s s1 o -> sys_inv s1 ls rd ws -> k_tasks s1 !! cur_of s1 = Some tc ->
  dheap h (<[W := tags ws ++ [general_tag (cur_of s1)]]> ls) -> same_nodes (lm_nodes (k_mem s1)) h ->
  (forall s', good s' o -> frames_of s' (cur_of s1) <> [] -> Q tt s') ->
  wp (push_frame (cur_of s1) (F_sema_down psema old) ;; thread_block TASK_BLOCKED) Q (set_mem (set_nodes h (k_mem s1)) s1).
Proof using.
  intros He Hs Hc Hh Hsn HQ. destruct (entering_idle _ _ _ He) as [Hni Hid].
  destruct (runner_free _ _ _ _ Hs (en_run _ _ _ He)) as [Hnr Hnw].
  unfold push_frame. wp_simp. set (s2 := set_frames _ _). apply (thread_block_run s2 tc); [exact Hc|].
  assert (Hfr : forall u, frames_of (asleep s2 tc) u = if decide (u = cur_of s1) then
      [F_thread_block INTR_OFF; F_sema_down psema old; F_lock_acquire plock] else frames_of s1 u).
  { intros u. unfold asleep. change (cur_of s2) with (cur_of s1). unfold frames_of at 1. cbn.
    destruct (decide (u = cur_of s1)) as [->|Hne]; [|by rewrite !lookup_insert_ne].
    rewrite lookup_insert_eq. cbn. unfold frames_of at 1. cbn. rewrite lookup_insert_eq. cbn. rewrite <- (en_frames _ _ _ He).
    unfold status_of. change (if_on _) with (k_if s1). by rewrite (en_if _ _ _ He). }
  destruct (sy_status _ _ _ _ Hs _ _ Hc) as [Hm _].
  eapply (schedule_good (asleep s2 tc) o (<[W := tags (ws ++ [cur_of s1])]> ls) rd (ws ++ [cur_of s1])).
  - eapply (sys_step s1 _ ls _ rd rd ws _ (cur_of s1) tc); try done.
    + split; [done|]. cbn. left. set_solver.
    + by rewrite tags_app.
    + rewrite lookup_insert_ne by apply (sy_apart _ _ _ _ Hs). apply (sy_sched _ _ _ _ Hs).
    + apply lookup_insert_eq.
    + intros L _ Hne. by rewrite lookup_insert_ne.
    + intros u Hne. set_solver.
  - apply if_on_disabled.
  - rewrite Hfr. change (k_idle (asleep s2 tc)) with (k_idle s1). by rewrite decide_False.
  - destruct He as [Hl [? ? ? Hd] Hf _ _ Hq Ho _ _ _]. apply (lock_ok_quiet s _ o (cur_of s1)); try done.
    + split; [done|done|done|]. intros u. rewrite <- Hd. apply (dom_insert_same s1). by eexists.
    + intros u Hne. rewrite Hfr, decide_False by done. by apply Hf.
    + right. unfold has_role. rewrite Hfr, decide_True by done. cbn. by rewrite !Z.eqb_refl.
  - intros s' Hg Hk. apply HQ; [done|]. unfold frames_of. rewrite Hk. fold (frames_of (asleep s2 tc) (cur_of s1)).
    by rewrite Hfr, decide_True.
Qed.

(** The semaphore is free: the thread takes it. *)
Lemma take_good s s1 o ls rd ws c (Q : unit -> kstate -> Prop) :
  entering s s1 o -> sys_inv s1 ls rd ws -> o = None -> k_locks s !! plock = Some (LockF NULL 0) ->
  (forall u, user s u -> quiet s u) ->
  (forall s', good s' o -> frames_of s' (cur_of s1) <> [] -> Q tt s') ->
  Q tt (set_mem (set_cpu c (k_mem s1)) (set_semas (<[psema := 0]> (k_semas s1)) s1)).
Proof using.
  intros He Hs -> El Hqu HQ. destruct (entering_idle _ _ _ He) as [Hni Hid]. destruct He as [_ Hsl Hf Hfc Hu _ _ _ Hr _].
  set (s2 := set_mem _ _). assert (Hss : same_sys s1 s2) by by split.
  assert (Hfr : forall u, frames_of s2 u = frames_of s1 u) by done.
  apply HQ; [|by rewrite Hfr, Hfc]. split.
  - exists ls, rd, ws. by apply (same_sys_inv s1).
  - by apply (same_sys_runs s1).
  - done.
  - assert (Hus : forall u, user s2 u <-> user s u) by (intros u; rewrite <- (same_locks_user s s1 u Hsl); done).
    apply (LK_moving s2 (cur_of s1) Acquiring); [apply lookup_insert_eq| |by apply Hus| |by left|].
    + change (k_locks s2) with (k_locks s1). by rewrite (sl_locks _ _ Hsl).
    + unfold has_role. rewrite Hfr, Hfc. cbn. by rewrite Z.eqb_refl.
    + intros u Hu' Hne. unfold quiet, has_role. rewrite Hfr, Hf by done. by apply Hqu, Hus.
  - intros _. change (cur_of s2) with (cur_of s1). by rewrite Hfr, Hfc.
Qed.

(** sema_down, entered with its frame on the stack. *)
Lemma sema_down_good s s1 o old ls rd ws (Q : unit -> kstate -> Prop) :
  entering s s1 o -> sys_inv s1 ls rd ws ->
  (forall s', good s' o -> frames_of s' (cur_of s1) <> [] -> Q tt s') -> wp (sema_down_loop psema old) Q s1.
Proof using.
  intros He Hs HQ. unfold sema_down_loop, ld_sema. pose proof (en_lock _ _ _ He) as Hl. pose proof (en_same _ _ _ He) as Hsl.
  destruct (sy_cur _ _ _ _ Hs) as [tc Hc]. destruct (runner_free _ _ _ _ Hs (en_run _ _ _ He)) as [Hnr Hnw].
  destruct (k_semas s !! psema) as [v|] eqn:Ev; [|by destruct Hl; congruence]. rewrite wp_bind.
  wp_load (eq_trans (f_equal (fun m : gmap Z Z => m !! psema) (sl_semas _ _ Hsl)) Ev).
  destruct (Z.eqb_spec v 0) as [->|Hv].
  - wp_simp. rewrite wp_running. wp_simp. rewrite wp_k_list. pose proof (sy_sched _ _ _ _ Hs) as Hsch.
    eapply (heap_find_run _ ls); [by apply Hsch|by apply Hs|]. rewrite bool_decide_false by by rewrite tags_elem.
    wp_assert. rewrite set_mem_id, wp_k_list.
    eapply (heap_find_run _ ls); [by apply Hsch|by apply Hs|]. rewrite bool_decide_false by by rewrite tags_elem.
    rewrite set_mem_id. wp_simp. rewrite wp_k_list. destruct (sys_tag _ _ _ _ _ Hs (ex_intro _ _ Hc)) as [Hn0 Hn1].
    eapply (heap_append_run _ ls); [by apply Hsch|by apply Hs|by eapply sys_unlinked|done|done|].
    intros h Hh Hsn. pose proof (sleep_good s s1 o old ls rd ws tc h Q He Hs Hc Hh Hsn HQ) as Hsleep.
    rewrite wp_bind in Hsleep. wp_simp. exact Hsleep.
  - assert (Hfree : v = 1 /\ o = None /\ k_locks s !! plock = Some (LockF NULL 0) /\ forall u, user s u -> quiet s u).
    { destruct Hl as [E1 E2 E3|? ? E1|? ? E1]; [|congruence..]. split; [congruence|done]. }
    destruct Hfree as (-> & Ho & El & Hqu). unfold st_sema. wp_simp.
    wp_load (lookup_insert_eq (k_semas s1) psema (u8 0)). wp_assert; [done|]. apply k_intr_set_status_run.
    intros r c _. wp_simp. exact (take_good s s1 o ls rd ws c Q He Hs Ho El Hqu HQ).
Qed.

(** ** The other routines *)

Lemma same_sys_locks s s' : same_sys s s' -> k_semas s' = k_semas s -> k_locks s' = k_locks s -> same_locks s s'.
Proof using. intros [_ Et _ _ _ Ei] E1 E2. split; try done. intros u. by rewrite Et. Qed.

(** A step that stays on the processor and changes only the frames of the
    running thread, the flags and the lock. *)
Lemma good_stay s s' o o' l :
  good s o -> same_sys s s' -> frames_of s' (cur_of s) = l ->
  (forall u, u <> cur_of s -> frames_of s' u = frames_of s u) ->
  (cur_of s = k_idle s -> idle_frames l = true) -> (k_if s' = true -> open_frames l = true) -> lock_ok s' o' -> good s' o'.
Proof using.
  intros [(ls & rd & ws & Hs) Hr Hi Hl Hif] Hss Hf Hf' Hidle Hopen Hl'. split.
  - exists ls, rd, ws. by apply (same_sys_inv s).
  - by apply (same_sys_runs s).
  - rewrite (ss_idle _ _ Hss). destruct (decide (k_idle s = cur_of s)) as [E|Hne]; [|by rewrite Hf'].
    rewrite E, Hf. by apply Hidle.
  - done.
  - intros Hif'. rewrite (same_sys_cur s s'), Hf by done. by apply Hopen.
Qed.

(** The same, when the role of the thread stays the same as well. *)
Lemma good_stay_role s s' o l :
  good s o -> same_sys s s' -> k_semas s' = k_semas s -> k_locks s' = k_locks s -> frames_of s' (cur_of s) = l ->
  (forall u, u <> cur_of s -> frames_of s' u = frames_of s u) ->
  (cur_of s = k_idle s -> idle_frames l = true) -> (k_if s' = true -> open_frames l = true) ->
  (cur_of s <> k_idle s -> role_of l = role_of (frames_of s (cur_of s))) -> good s' o.
Proof using.
  intros Hg Hss E1 E2 Hf Hf' Hi Ho Hr. apply (good_stay s s' o o l); try done.
  apply (lock_ok_roles s); [by apply same_sys_locks| |apply (gd_lock _ _ Hg)]. intros u [_ Hu].
  destruct (decide (u = cur_of s)) as [->|Hne]; [|by rewrite Hf']. rewrite Hf. auto.
Qed.

(** The invariant about the running thread. *)
Lemma good_user s o : good s o -> cur_of s <> k_idle s -> user s (cur_of s).
Proof using. intros [(ls & rd & ws & Hs) _ _ _ _] Hne. split; [apply (sy_cur _ _ _ _ Hs)|done]. Qed.

Lemma good_null s o : good s o -> cur_of s <> NULL.
Proof using.
  intros [(ls & rd & ws & Hs) _ _ _ _]. destruct (sy_cur _ _ _ _ Hs) as [tc Hc].
  pose proof (ok_addr _ _ _ _ _ (si_task _ _ _ (sy_sched _ _ _ _ Hs) _ _ Hc)). unfold NULL. lia.
Qed.

(** A thread on its way in or out is the only one that is not quiet. *)
Lemma lock_ok_moving s o t r :
  lock_ok s o -> user s t -> has_role s t r -> r = Acquiring \/ r = Releasing ->
  o = None /\ k_semas s !! psema = Some 0 /\ k_locks s !! plock = Some (LockF NULL 0) /\
  (forall u, user s u -> u <> t -> quiet s u).
Proof using.
  intros Hl Hu Hr Hor. assert (Hnq : ~ quiet s t) by (intros [X|X]; unfold has_role in *; destruct Hor as [->| ->]; congruence).
  destruct Hl as [_ _ Hq|v r' Es El Uv Rv _ Hq|v n Es El Hn Uv Rv Hq].
  - by destruct (Hnq (Hq _ Hu)).
  - destruct (decide (t = v)) as [<-|Hne]; [done|by destruct (Hnq (Hq _ Hu Hne))].
  - destruct (decide (t = v)) as [<-|Hne]; [by destruct Hnq; left|by destruct (Hnq (Hq _ Hu Hne))].
Qed.

(** lock_acquire goes on after sema_down. *)
Lemma acquired_good s o p (Q : unit -> kstate -> Prop) :
  good s o -> cur_of s <> k_idle s -> frames_of s (cur_of s) = [F_lock_acquire p] ->
  (forall s', monitor (cur_of s) Got o = Some (Some (cur_of s, 1)) -> good s' (Some (cur_of s, 1)) -> Q tt s') ->
  wp (lock_acquired p) Q (set_frames (<[cur_of s := []]> (k_frames s)) s).
Proof using.
  intros Hg Hni Hf HQ. pose proof (good_user s o Hg Hni) as Hu. pose proof (gd_lock _ _ Hg) as Hl.
  destruct (lock_ok_user_role s o _ Hl Hu) as [r0 Hr0]. unfold has_role in Hr0. rewrite Hf in Hr0. cbn in Hr0.
  destruct (Z.eqb_spec p plock) as [->|]; [|done].
  destruct (lock_ok_moving s o _ Acquiring Hl Hu) as (-> & Es & El & Hq); [unfold has_role; rewrite Hf; cbn; by rewrite Z.eqb_refl|by left|].
  unfold lock_acquired, ld_lock, st_lock. wp_simp. rewrite wp_running.
  set (s1 := set_frames _ s). change (cur_of s1) with (cur_of s). wp_simp. wp_load El. wp_assert; [done|].
  set (s2 := set_locks _ _). apply HQ; [done|].
  assert (Hfr : forall u, frames_of s2 u = if decide (u = cur_of s) then [] else frames_of s u) by (intros u; apply (frames_of_set s)).
  apply (good_stay s s2 None _ []); try done; [by rewrite Hfr, decide_True|by intros u Hne; rewrite Hfr, decide_False|].
  assert (Hus : forall u, user s2 u <-> user s u) by done.
  apply LK_held; [done|apply lookup_insert_eq|lia|done|unfold has_role; by rewrite Hfr, decide_True|].
  intros u Hu' Hne. unfold quiet, has_role. rewrite Hfr, decide_False by done. by apply Hq.
Qed.

Lemma sched_inv_lists s s' ls ls' rd :
  sched_inv s ls rd -> dheap (lm_nodes (k_mem s')) ls' -> same_nodes (lm_nodes (k_mem s)) (lm_nodes (k_mem s')) ->
  ls' !! k_ready s = Some (tags rd) -> k_tasks s' = k_tasks s -> k_ptab s' = k_ptab s -> k_ready s' = k_ready s ->
  k_esp s' = k_esp s -> sched_inv s' ls' rd.
Proof using.
  intros [_ _ Ht Hrd] Hd Hn Hr ET EP ER EE. unfold cur_of in Ht.
  split; unfold cur_of; rewrite ?ET, ?EP, ?ER, ?EE; [done|done| |done].
  intros t ts Hts. eapply task_ok_nodes; [done|]. by apply Ht.
Qed.

(** The second half of sema_up, when the waiter has been woken. *)
Lemma sema_up_end s o s3 cpu ls rd ws (Q : unit -> kstate -> Prop) :
  good s o -> user s (cur_of s) -> cur_of s <> k_idle s -> has_role s (cur_of s) Releasing -> sys_inv s3 ls rd ws -> cur_runs s3 ->
  same_locks s s3 -> k_frames s3 = <[cur_of s := []]> (k_frames s) -> cur_of s3 = cur_of s -> lm_cpu (k_mem s3) = disabled cpu ->
  (forall s', good s' o -> Q tt s') ->
  wp (do v <- ld_sema psema; st_sema psema (v + 1) ;; do v' <- ld_sema psema;
      ASSERT (v' =? 1) ;; k_intr_set_status (status_of cpu) ;; ret tt) Q s3.
Proof using.
  intros Hg Hu Hni Hrole Hs3 Hr3 Hsl Ef Ecur Ec HQ.
  destruct (lock_ok_moving s o _ Releasing (gd_lock _ _ Hg) Hu) as (-> & Es & El & Hq); [done|by right|].
  pose proof (fun u => same_locks_user s s3 u Hsl) as Hus. destruct Hsl as [E1 E2 E4 Hd]. unfold ld_sema, st_sema. wp_simp.
  wp_load (eq_trans (f_equal (fun m : gmap Z Z => m !! psema) E1) Es).
  wp_load (lookup_insert_eq (k_semas s3) psema (u8 (0 + 1))). wp_assert; [done|]. rewrite (wp_k_intr_restore cpu) by done. wp_simp.
  set (s4 := set_mem _ _). assert (Hss : same_sys s3 s4) by by split.
  assert (Hfr : forall u, frames_of s4 u = if decide (u = cur_of s) then [] else frames_of s u).
  { intros u. rewrite <- frames_of_set. unfold frames_of. cbn. by rewrite Ef. }
  apply HQ. split.
  - exists ls, rd, ws. by apply (same_sys_inv s3).
  - by apply (same_sys_runs s3).
  - rewrite Hfr. change (k_idle s4) with (k_idle s3). rewrite E4, decide_False by congruence. apply (gd_iframes _ _ Hg).
  - apply LK_free; [apply lookup_insert_eq|by change (k_locks s4) with (k_locks s3); rewrite E2|].
    intros u Hu4. unfold quiet, has_role. rewrite Hfr. destruct (decide (u = cur_of s)); [by left|]. apply Hq; [|done]. by apply Hus.
  - intros _. rewrite Hfr. change (cur_of s4) with (cur_of s3). by rewrite Ecur, decide_True.
Qed.

(** The first waiter is taken off its list and made ready. *)
Lemma sys_woken s s1 s6 ls rd w ws tw h :
  sys_inv s ls rd (w :: ws) -> cur_runs s -> k_tasks s !! w = Some tw -> same_sys s s1 ->
  same_nodes (lm_nodes (k_mem s)) h -> s6 = readied w tw h s1 ->
  dheap h (<[k_ready s := tags (w :: rd)]> (<[W := tags ws]> ls)) ->
  sys_inv s6 (<[k_ready s := tags (w :: rd)]> (<[W := tags ws]> ls)) (w :: rd) ws /\ cur_runs s6.
Proof using.
  intros Hs Hr Htw Hss Hsn -> Hh. pose proof (sy_sched _ _ _ _ Hs) as Hsch. pose proof (sy_apart _ _ _ _ Hs) as Hap.
  destruct (runner_free _ _ _ _ Hs Hr) as [_ Hnw]. assert (Hwc : w <> cur_of s) by (intros ->; apply Hnw; by left).
  destruct (sy_status _ _ _ _ Hs _ _ Htw) as [Hm _]. pose proof (same_sys_cur _ _ Hss) as Hcur. destruct Hss as [En Et Ep Ee Er Ei].
  pose proof (dlist_nodup_elems _ _ _ (dheap_list _ _ (si_heap _ _ _ Hsch) _ _ (sy_waiters _ _ _ _ Hs))) as Hnd.
  apply list.NoDup_cons in Hnd as [Hnin _]. fold (tags ws) in Hnin. rewrite tags_elem in Hnin. split.
  - eapply (sys_step s _ ls _ rd _ (w :: ws) _ w tw (set_status TASK_READY tw)); try done.
    + cbn. by rewrite Et.
    + apply lookup_insert_eq.
    + by rewrite lookup_insert_ne, lookup_insert_eq.
    + intros L H1 H2. by rewrite !lookup_insert_ne.
    + split; [done|]. intros _. by left.
    + intros u Hne. set_solver.
    + intros u Hne. set_solver.
  - intros ts. change (cur_of (readied w tw h s1)) with (cur_of s1). cbn. rewrite Hcur, Et, lookup_insert_ne by done. apply Hr.
Qed.

(** sema_up: the first waiter becomes ready, and the semaphore is free. *)
Lemma sema_up_good s o p (Q : unit -> kstate -> Prop) :
  good s o -> cur_of s <> k_idle s -> frames_of s (cur_of s) = [F_sema_up p] ->
  (forall s', good s' o -> Q tt s') -> wp (sema_up p) Q (set_frames (<[cur_of s := []]> (k_frames s)) s).
Proof using.
  intros Hg Hni Hf HQ. pose proof (good_user s o Hg Hni) as Hu. pose proof Hg as [(ls & rd & ws & Hs) Hr Hi Hl Hif].
  destruct (lock_ok_user_role s o _ Hl Hu) as [r0 Hr0]. unfold has_role in Hr0. rewrite Hf in Hr0. cbn in Hr0.
  destruct (Z.eqb_spec p psema) as [->|]; [|done].
  assert (Hrole : has_role s (cur_of s) Releasing) by (unfold has_role; rewrite Hf; cbn; by rewrite Z.eqb_refl).
  destruct (lock_ok_moving s o _ Releasing Hl Hu) as (_ & Es & _ & _); [done|by right|].
  unfold sema_up. rewrite wp_bind, wp_k_intr_disable. unfold ld_sema at 1. wp_simp. wp_load Es. wp_assert.
  set (s1 := set_frames _ s). set (cpu := lm_cpu (k_mem s1)). set (s2 := set_mem (set_cpu _ _) s1). rewrite wp_k_list.
  pose proof (sy_sched _ _ _ _ Hs) as Hsch. pose proof (sy_apart _ _ _ _ Hs) as Hap. assert (Hss : same_sys s s2) by by split.
  eapply (heap_empty_run _ ls); [by apply Hsch|by apply Hs|]. rewrite set_mem_id. destruct ws as [|w ws'].
  - rewrite bool_decide_true by done. wp_simp.
    pose proof (sema_up_end s o s2 cpu ls rd [] Q Hg Hu Hni Hrole (same_sys_inv _ _ _ _ _ Hss Hs) (same_sys_runs _ _ Hss Hr)) as Hend.
    cbn [negb]. rewrite wp_ret. by apply Hend.
  - rewrite bool_decide_false by done. cbn [negb]. wp_simp. rewrite wp_k_list.
    eapply (heap_pop_run _ ls); [by apply Hsch|by apply Hs|reflexivity|]. intros h Hh Hsn. fold (tags ws') in Hh.
    destruct (sy_ws _ _ _ _ Hs w ltac:(by left)) as (Hwi & tw & Htw & Hwb).
    rewrite (tag2task_general_tag w _ _ _ _ (si_task _ _ _ Hsch _ _ Htw)). set (s5 := set_mem _ s2).
    eapply (thread_unblock_run s5 (<[W := tags ws']> ls) rd w tw); [|done|by rewrite Hwb| |].
    2: { apply (unlinked_after_pop (k_mem s) ls W (tags (w :: ws'))); [by apply Hsch|by apply Hs|done]. }
    { apply (sched_inv_lists s _ ls); try done. rewrite lookup_insert_ne by done. apply Hsch. }
    intros h2 Hsn2 Hsch2. pose proof (same_nodes_trans _ _ _ Hsn Hsn2) as Hsn3.
    destruct (sys_woken s s2 (readied w tw h2 s2) ls rd w ws' tw h2) as [Hs6 Hr6]; try done; [exact (si_heap _ _ _ Hsch2)|].
    pose proof (sema_up_end s o (readied w tw h2 s2) cpu _ _ _ Q Hg Hu Hni Hrole Hs6 Hr6) as Hend.
    apply Hend; try done. split; try done. intros u. apply (dom_insert_same s). by eexists.
Qed.

(** The parts of resume that only set the interrupt flag. *)
Lemma flag_good s o rest (m : M kstate unit) (Q : unit -> kstate -> Prop) :
  good s o -> (forall s1 Q1, (forall c, Q1 tt (set_mem (set_cpu c (k_mem s1)) s1)) -> wp m Q1 s1) ->
  (cur_of s = k_idle s -> idle_frames rest = true) -> open_frames rest = true ->
  (cur_of s <> k_idle s -> role_of rest = role_of (frames_of s (cur_of s))) ->
  (forall s', good s' o -> Q tt s') -> wp m Q (set_frames (<[cur_of s := rest]> (k_frames s)) s).
Proof using.
  intros Hg Hm Hi Ho Hr HQ. apply Hm. intros c. apply HQ. set (s1 := set_frames _ s).
  assert (Hfr : forall u, frames_of (set_mem (set_cpu c (k_mem s1)) s1) u = if decide (u = cur_of s) then rest else frames_of s u)
    by (intros u; apply (frames_of_set s)).
  apply (good_stay_role s _ o rest); try done; [by rewrite Hfr, decide_True|by intros u Hne; rewrite Hfr, decide_False].
Qed.

Lemma k_set_eflags_run e s (Q : unit -> kstate -> Prop) :
  (forall c, Q tt (set_mem (set_cpu c (k_mem s)) s)) -> wp (k_set_eflags e) Q s.
Proof using. intros HQ. unfold k_set_eflags. rewrite wp_k_list. wp_simp. apply HQ. Qed.

Lemma k_enable_run s (Q : unit -> kstate -> Prop) :
  (forall c, Q tt (set_mem (set_cpu c (k_mem s)) s)) ->
  wp (k_list (zoom lm_cpu set_cpu intr_enable) ;; ret tt) Q s.
Proof using.
  intros HQ. wp_simp. rewrite wp_k_list, wp_zoom. unfold intr_enable. rewrite wp_bind. apply intr_get_status_run.
  destruct (if_on _); unfold sti; wp_simp; apply HQ.
Qed.

Lemma k_set_status_run st s (Q : unit -> kstate -> Prop) :
  (forall c, Q tt (set_mem (set_cpu c (k_mem s)) s)) -> wp (k_intr_set_status st ;; ret tt) Q s.
Proof using. intros HQ. wp_simp. apply k_intr_set_status_run. intros r c _. wp_simp. apply HQ. Qed.

Definition obeys (s : kstate) (o : owner) (a : action) (s' : kstate) : Prop :=
  exists o', observe (cur_of s) (event_of s a s') o = Some o' /\ good s' o'.

Lemma idle_round_run s (Q : unit -> kstate -> Prop) :
  (forall c, Q tt (set_mem (set_cpu c (k_mem s)) (set_frames (<[cur_of s := F_hlt :: frames_of s (cur_of s)]> (k_frames s)) s))) ->
  wp idle_round Q s.
Proof using. intros HQ. unfold idle_round, push_frame, sti. wp_simp. rewrite wp_running, wp_bind, wp_k_list. wp_simp. apply HQ. Qed.

(** A suspended routine of the idle thread goes on. *)
Lemma resume_idle_good s o : good s o -> cur_of s = k_idle s -> frames_of s (cur_of s) <> [] ->
  wp resume (fun _ s' => obeys s o Continue s') s.
Proof using.
  intros Hg Hi Hne. pose proof (gd_iframes _ _ Hg) as Hsh. rewrite <- Hi in Hsh. unfold resume. wp_simp. rewrite wp_running. wp_simp.
  destruct (frames_of s (cur_of s)) as [|f rest] eqn:Ef; [done|]. wp_simp.
  assert (Hev : forall s', match f with F_lock_acquire _ => False | _ => True end -> good s' o -> obeys s o Continue s').
  { intros s' Hf Hg'. exists o. split; [|done]. unfold event_of. rewrite Ef. by destruct f. }
  assert (Hflag : forall m, (forall s1 Q1, (forall c, Q1 tt (set_mem (set_cpu c (k_mem s1)) s1)) -> wp m Q1 s1) ->
    idle_frames rest = true -> open_frames rest = true -> match f with F_lock_acquire _ => False | _ => True end ->
    wp m (fun _ s' => obeys s o Continue s') (set_frames (<[cur_of s := rest]> (k_frames s)) s)).
  { intros m Hm H1 H2 H3. apply (flag_good s o rest m); try done. intros s' Hg'. by apply Hev. }
  cbn in Hsh. destruct f; try (destruct rest; discriminate Hsh).
  - (* thread_block has returned *) destruct rest as [|[] []]; try discriminate Hsh. apply Hflag; try done. apply k_set_status_run.
  - (* the end of an interrupt *) apply andb_true_iff in Hsh as [H1 H2]. apply Hflag; try done; [apply k_set_eflags_run|].
    by destruct rest as [|[] ]; try discriminate H1.
  - destruct rest; [|discriminate Hsh]. apply Hflag; try done. apply k_enable_run.
  - (* sti; hlt *) destruct rest; [|discriminate Hsh]. apply idle_round_run. intros c. apply Hev; [done|].
    set (s1 := set_frames _ s). change (cur_of s1) with (cur_of s).
    assert (Hfr : forall u, frames_of (set_mem (set_cpu c (k_mem s1)) (set_frames (<[cur_of s := F_hlt :: frames_of s1 (cur_of s)]>
      (k_frames s1)) s1)) u = if decide (u = cur_of s) then [F_hlt] else frames_of s u).
    { intros u. etransitivity; [apply (frames_of_set s1)|]. destruct (decide (u = cur_of s)).
      - unfold s1. by rewrite frames_of_set, decide_True.
      - unfold s1. by rewrite frames_of_set, decide_False. }
    apply (good_stay_role s _ o [F_hlt]); try done; [by rewrite Hfr, decide_True|by intros u Hu; rewrite Hfr, decide_False].
  - destruct rest; [|discriminate Hsh]. destruct Hg as [(ls & rd & ws & Hs) Hr _ Hl Hif].
    assert (Hfr : forall u, frames_of (set_frames (<[cur_of s:=[]]> (k_frames s)) s) u = if decide (u = cur_of s) then [] else frames_of s u)
      by (intros u; apply frames_of_set).
    apply (idle_good _ o ls rd ws); try done.
    + by apply (same_sys_inv s).
    + change (frames_of (set_frames (<[cur_of s:=[]]> (k_frames s)) s) (cur_of s) = []). by rewrite Hfr, decide_True.
    + apply (lock_ok_roles s); [by apply same_sys_locks| |done]. intros u [_ Hu]. by rewrite Hfr, decide_False by congruence.
    + intros s' Hg'. by apply Hev.
Qed.

(** ** Giving up the processor *)

Lemma yield_run s o ls rd ws l (Q : unit -> kstate -> Prop) :
  sys_inv s ls rd ws -> cur_runs s -> cur_of s <> k_idle s -> idle_frames (frames_of s (k_idle s)) = true -> lock_ok s o ->
  frames_of s (cur_of s) = l -> (forall st, role_of (F_thread_yield st :: l) = role_of l) ->
  (forall s' st, good s' o -> frames_of s' (cur_of s) = F_thread_yield st :: l -> Q tt s') -> wp thread_yield Q s.
Proof using.
  intros Hs Hrun Hi Hid Hl Hf Hrole HQ. pose proof (sy_sched _ _ _ _ Hs) as Hsch.
  destruct (sy_cur _ _ _ _ Hs) as [tc Hc]. destruct (runner_free _ _ _ _ Hs Hrun) as [Hnr Hnw].
  destruct (sys_tag _ _ _ _ _ Hs (ex_intro _ _ Hc)) as [Hn0 Hn1]. pose proof (sy_apart _ _ _ _ Hs) as Hap.
  unfold thread_yield. wp_simp. rewrite wp_running. wp_simp. rewrite wp_k_intr_disable. wp_simp. rewrite wp_k_list.
  eapply (heap_find_run _ ls); [by apply Hsch|by apply Hsch|]. rewrite bool_decide_false by by rewrite tags_elem.
  wp_assert. rewrite wp_k_list.
  eapply (heap_append_run _ ls); [by apply Hsch|by apply Hsch|by eapply sys_unlinked|done|done|].
  intros h Hh Hsn. wp_simp. eapply wp_upd_task; [exact Hc|]. unfold push_frame. wp_simp. set (s1 := set_frames _ _).
  assert (Hfr : forall u, frames_of s1 u = if decide (u = cur_of s) then F_thread_yield (status_of (lm_cpu (k_mem s))) :: l else frames_of s u).
  { intros u. unfold frames_of at 1. cbn. destruct (decide (u = cur_of s)) as [->|Hne]; [|by rewrite lookup_insert_ne].
    rewrite lookup_insert_eq. cbn. f_equal. exact Hf. }
  eapply (schedule_good s1 o (<[k_ready s := tags (rd ++ [cur_of s])]> ls) (rd ++ [cur_of s]) ws).
  - destruct (sy_status _ _ _ _ Hs _ _ Hc) as [Hm _].
    eapply (sys_step s s1 ls _ rd _ ws ws (cur_of s) tc); try done.
    + by rewrite tags_app.
    + apply lookup_insert_eq.
    + rewrite lookup_insert_ne by (by apply not_eq_sym). by apply Hs.
    + intros L H1 _. by rewrite lookup_insert_ne.
    + split; [done|]. intros _. set_solver.
    + intros u Hne. set_solver.
  - apply if_on_disabled.
  - rewrite Hfr. change (k_idle s1) with (k_idle s). by rewrite decide_False by congruence.
  - apply (lock_ok_roles s); [|intros u _|done].
    + split; try done. intros u. cbn. rewrite lookup_insert_is_Some'. split; [|by right]. intros [<-|?]; [by eexists|done].
    + rewrite Hfr. destruct (decide (u = cur_of s)) as [->|]; [by rewrite Hf|done].
  - intros s' Hg' Hk. eapply HQ; [done|]. unfold frames_of. rewrite Hk. fold (frames_of s1 (cur_of s)). by rewrite Hfr, decide_True.
Qed.

(** A thread that sleeps gives up the processor until the time has come. *)
Lemma sleep_loop_good s o start n (Q : unit -> kstate -> Prop) :
  good s o -> frames_of s (cur_of s) = [] -> cur_of s <> k_idle s ->
  (forall s', good s' o ->
     (if u32 (k_ticks s - start) <? n then exists st, frames_of s' (cur_of s) = [F_thread_yield st; F_sleep start n] else s' = s) -> Q tt s') ->
  wp (sleep_loop start n) Q s.
Proof using.
  intros Hg Hf Hi HQ. unfold sleep_loop. wp_simp. destruct (_ <? n); [|wp_simp; by apply HQ].
  rewrite wp_bind, wp_running. unfold push_frame. wp_simp. set (s1 := set_frames _ s).
  assert (Hfr : forall u, frames_of s1 u = if decide (u = cur_of s) then [F_sleep start n] else frames_of s u).
  { intros u. etransitivity; [apply frames_of_set|]. by rewrite Hf. }
  destruct Hg as [(ls & rd & ws & Hs) Hrun Hid Hl Hif].
  apply (yield_run s1 o ls rd ws [F_sleep start n]); try done.
  - by apply (same_sys_inv s).
  - change (k_idle s1) with (k_idle s). rewrite Hfr. by rewrite decide_False by congruence.
  - apply (lock_ok_roles s); [by apply same_sys_locks| |done]. intros u _. rewrite Hfr.
    destruct (decide (u = cur_of s)) as [->|]; [by rewrite Hf|done].
  - change (frames_of s1 (cur_of s) = [F_sleep start n]). by rewrite Hfr, decide_True.
  - intros s' st Hg' Hf'. apply HQ; [done|]. by exists st.
Qed.

(** The loop of ticks_to_sleep goes on. *)
Lemma resume_sleep_good s o start n (Q : unit -> kstate -> Prop) :
  good s o -> frames_of s (cur_of s) = [F_sleep start n] -> cur_of s <> k_idle s ->
  (forall s', good s' o ->
     (if u32 (k_ticks s - start) <? n then exists st, frames_of s' (cur_of s) = [F_thread_yield st; F_sleep start n]
      else s' = set_frames (<[cur_of s := []]> (k_frames s)) s) -> Q tt s') -> wp resume Q s.
Proof using.
  intros Hg Ef Hi HQ. unfold resume. wp_simp. rewrite wp_running. wp_simp. rewrite Ef. wp_simp. set (s1 := set_frames _ s).
  assert (Hfr : forall u, frames_of s1 u = if decide (u = cur_of s) then [] else frames_of s u) by (intros u; apply frames_of_set).
  apply (sleep_loop_good s1 o); [|change (frames_of s1 (cur_of s) = []); by rewrite Hfr, decide_True|done|exact HQ].
  apply (good_stay_role s s1 o []); try done; [by rewrite Hfr, decide_True|intros u Hne'; by rewrite Hfr, decide_False|by rewrite Ef].
Qed.

(** A suspended routine of another thread goes on. *)
Lemma resume_user_good s o : good s o -> cur_of s <> k_idle s -> frames_of s (cur_of s) <> [] ->
  wp resume (fun _ s' => obeys s o Continue s') s.
Proof using.
  intros Hg Hi Hne. pose proof (good_user s o Hg Hi) as Hu. pose proof (gd_lock _ _ Hg) as Hl.
  destruct (lock_ok_user_role s o _ Hl Hu) as [r Hr]. unfold has_role in Hr.
  destruct (frames_of s (cur_of s)) as [|f rest] eqn:Ef; [done|].
  assert (Hns : (exists start n, f = F_sleep start n) \/ match f with F_sleep _ _ => False | _ => True end) by (destruct f; eauto).
  destruct Hns as [(start & n & ->)|Hns].
  { destruct rest; [|discriminate Hr]. apply (resume_sleep_good s o start n); try done. intros s' Hg' _. exists o. split; [|done]. cbn. by rewrite Ef. }
  unfold resume. wp_simp. rewrite wp_running. wp_simp. rewrite Ef. wp_simp.
  assert (Hev : forall s', match f with F_lock_acquire _ => False | _ => True end -> good s' o -> obeys s o Continue s').
  { intros s' Hf Hg'. exists o. split; [|done]. unfold event_of. rewrite Ef. by destruct f. }
  assert (Hflag : forall m, (forall s1 Q1, (forall c, Q1 tt (set_mem (set_cpu c (k_mem s1)) s1)) -> wp m Q1 s1) ->
    open_frames rest = true -> role_of rest = role_of (f :: rest) -> match f with F_lock_acquire _ => False | _ => True end ->
    wp m (fun _ s' => obeys s o Continue s') (set_frames (<[cur_of s := rest]> (k_frames s)) s)).
  { intros m Hm H1 H2 H3. apply (flag_good s o rest m); try done; [by rewrite Ef|]. intros s' Hg'. by apply Hev. }
  destruct f as [old|old|e| | | |p old|q0|p|start n].
  - (* thread_block has returned in sema_down *)
    destruct old; [|discriminate Hr]. destruct rest as [|[| | | | | |p old'| | |] [|[| | | | | | |q| |] []]]; try discriminate Hr.
    wp_simp. apply k_intr_set_status_run. intros r' c Hc. wp_simp. apply Hev; [done|]. set (s1 := set_mem _ _).
    assert (Hfr : forall u, frames_of s1 u = if decide (u = cur_of s) then [F_sema_down p old'; F_lock_acquire q] else frames_of s u)
      by (intros u; apply (frames_of_set s)).
    apply (good_stay_role s _ o [F_sema_down p old'; F_lock_acquire q]); try done.
    + by rewrite Hfr, decide_True.
    + intros u Hne'. by rewrite Hfr, decide_False.
    + change (k_if s1) with (if_on c). by rewrite Hc.
    + by rewrite Ef.
  - destruct rest as [|[] []]; try discriminate Hr; (apply Hflag; try done; apply k_set_status_run).
  - (* the end of an interrupt *) cbn in Hr. destruct (open_frames rest) eqn:Ho; [|discriminate Hr]. apply Hflag; try done; [apply k_set_eflags_run|].
    cbn. rewrite Ho. by destruct rest as [|[] ].
  - destruct rest; [|discriminate Hr]. apply Hflag; try done. apply k_enable_run.
  - discriminate Hr.
  - discriminate Hr.
  - (* the loop of sema_down *)
    destruct rest as [|[| | | | | | |q| |] []]; try discriminate Hr. cbn in Hr.
    destruct (Z.eqb_spec p psema) as [->|], (Z.eqb_spec q plock) as [->|]; try discriminate Hr.
    assert (Hw : has_role s (cur_of s) Waiting) by (unfold has_role; rewrite Ef; cbn; by rewrite !Z.eqb_refl).
    destruct Hg as [(ls & rd & ws & Hs) Hrun Hid _ Hif].
    assert (Hfr : forall u, frames_of (set_frames (<[cur_of s:=[F_lock_acquire plock]]> (k_frames s)) s) u =
      if decide (u = cur_of s) then [F_lock_acquire plock] else frames_of s u) by (intros u; apply frames_of_set).
    apply (sema_down_good s _ o old ls rd ws); [split; try done| |].
    + intros u Hne'. by rewrite Hfr, decide_False.
    + change (frames_of (set_frames (<[cur_of s:=[F_lock_acquire plock]]> (k_frames s)) s) (cur_of s) = [F_lock_acquire plock]).
      by rewrite Hfr, decide_True.
    + by right.
    + intros n ->. inversion Hl as [| |? ? ? ? ? ? Hc]. unfold has_role in *.
      change (cur_of (set_frames _ s)) with (cur_of s) in *. congruence.
    + change (k_if s = false). destruct (k_if s) eqn:E; [|done]. specialize (Hif eq_refl). by rewrite Ef in Hif.
    + by apply (same_sys_inv s).
    + intros s' Hg' _. by apply Hev.
  - destruct rest; [|discriminate Hr]. eapply acquired_good; [done|done|done|]. intros s' Hm Hg'. exists (Some (cur_of s, 1)).
    split; [|done]. unfold event_of. by rewrite Ef.
  - destruct rest; [|discriminate Hr]. eapply sema_up_good; [done|done|done|]. intros s' Hg'. by apply Hev.
  - done.
Qed.

Lemma acquire_good s o : good s o -> enabled s o Acquire ->
  wp (lock_acquire plock) (fun _ s' => obeys s o Acquire s') s.
Proof using.
  intros Hg (Hf & Hi & Hmax). pose proof (good_user s o Hg Hi) as Hu. pose proof (gd_lock _ _ Hg) as Hl.
  unfold lock_acquire, ld_lock. wp_simp. rewrite wp_running. wp_simp.
  assert (Hlf : exists lf, k_locks s !! plock = Some lf /\ ((exists n, o = Some (cur_of s, n) /\ lf = LockF (cur_of s) n /\ 1 <= n < 2 ^ 32) \/
    (holder lf <> cur_of s /\ forall n, o <> Some (cur_of s, n)))).
  { pose proof (good_null s o Hg) as Hn. destruct Hl as [_ El _|? ? _ El _ _ _ _|t n _ El Hn' _ _ _]; eexists; (split; [exact El|]).
    1, 2: right; split; [by apply not_eq_sym|done].
    destruct (decide (t = cur_of s)) as [->|Hne]; [left; by exists n|right; cbn; split; [done|congruence]]. }
  destruct Hlf as (lf & El & Hcase). wp_load El. destruct Hcase as [(n & -> & -> & Hn)|[Hh Ho]].
  - (* once more *) cbn [holder]. rewrite Z.eqb_refl. cbn [negb]. unfold st_lock. wp_simp. specialize (Hmax n eq_refl).
    set (s1 := set_locks _ s). exists (Some (cur_of s, n + 1)).
    assert (Hfr : forall u, frames_of s1 u = frames_of s u) by done. split.
    { unfold event_of. rewrite Hfr, Hf. cbn. by rewrite Z.eqb_refl. }
    apply (good_stay s s1 _ _ [] Hg); try done.
    inversion Hl as [| |? ? Es _ _ _ Hr Hq]; subst.
    apply LK_held; [done|cbn; rewrite lookup_insert_eq|lia|done|done|done]. by rewrite u32_small by lia.
  - apply Z.eqb_neq in Hh. rewrite Hh. cbn [negb]. unfold push_frame, sema_down. wp_simp. rewrite wp_k_intr_disable, Hf. set (s1 := set_mem _ _).
    destruct Hg as [(ls & rd & ws & Hs) Hrun Hid _ Hif].
    assert (Hfr : forall u, frames_of s1 u = if decide (u = cur_of s) then [F_lock_acquire plock] else frames_of s u)
      by (intros u; apply (frames_of_set s)).
    assert (Hc : cur_of s1 = cur_of s) by done.
    apply (sema_down_good s s1 o _ ls rd ws); [split; rewrite ?Hc; try done| |].
    + intros u Hne. by rewrite Hfr, decide_False.
    + by rewrite Hfr, decide_True.
    + left. unfold has_role. by rewrite Hf.
    + apply if_on_disabled.
    + by apply (same_sys_inv s).
    + intros s' Hg' Hfs. rewrite Hc in Hfs. exists o. split; [|done]. unfold event_of. by destruct (frames_of s' (cur_of s)).
Qed.

Lemma release_good s o : good s o -> enabled s o Release ->
  wp (lock_release plock) (fun _ s' => obeys s o Release s') s.
Proof using.
  intros Hg (Hf & Hi & n & ->). pose proof (good_user s _ Hg Hi) as Hu. pose proof (gd_lock _ _ Hg) as Hl.
  inversion Hl as [| |? ? Es El Hn _ Hr Hq]; subst. unfold lock_release, ld_lock, st_lock. wp_simp. rewrite wp_running. wp_simp. wp_load El.
  cbn [holder holder_repeat_nr]. wp_assert. destruct (Z.ltb_spec 1 n) as [Hn1|Hn1].
  - wp_simp. set (s1 := set_locks _ s). exists (Some (cur_of s, n - 1)). split.
    { cbn. rewrite Z.eqb_refl. by rewrite (proj2 (Z.eqb_neq n 1)) by lia. }
    apply (good_stay s s1 _ _ [] Hg); try done.
    apply LK_held; [done|cbn; rewrite lookup_insert_eq|lia|done|done|done]. by rewrite u32_small by lia.
  - assert (n = 1) as -> by lia. wp_assert. unfold push_frame. wp_simp. set (s1 := set_frames _ _). exists None. split.
    { cbn. by rewrite Z.eqb_refl. }
    assert (Hfr : forall u, frames_of s1 u = if decide (u = cur_of s) then [F_sema_up psema] else frames_of s u).
    { intros u. etransitivity; [apply (frames_of_set (set_locks (<[plock:={| holder := NULL; holder_repeat_nr := 0 |}]> (k_locks s)) s))|].
      destruct (decide (u = cur_of s)); [|done]. unfold frames_of in *. cbn. by rewrite Hf. }
    apply (good_stay s s1 _ _ [F_sema_up psema] Hg); try done; [by rewrite Hfr, decide_True|intros u Hne; by rewrite Hfr, decide_False|].
    apply (LK_moving s1 (cur_of s) Releasing); [done|cbn; apply lookup_insert_eq|done| |by right|].
    + unfold has_role. rewrite Hfr, decide_True by done. cbn. by rewrite Z.eqb_refl.
    + intros u Hu' Hne. unfold quiet, has_role. rewrite Hfr, decide_False by done. by apply Hq.
Qed.

(** The state inside the clock handler: the interrupted routine is under the
    frame of the interrupt, and only counters of the PCB have changed. *)
Lemma interrupted_good s o ls rd ws tc e ts s2 :
  good s o -> sys_inv s ls rd ws -> k_tasks s !! cur_of s = Some tc -> open_frames (frames_of s (cur_of s)) = true ->
  (forall u, frames_of s2 u = if decide (u = cur_of s) then F_iret e :: frames_of s (cur_of s) else frames_of s u) ->
  k_tasks s2 = <[cur_of s := ts]> (k_tasks s) -> self_kstack ts = self_kstack tc -> pgdir ts = pgdir tc ->
  stack_magic ts = stack_magic tc -> status ts = status tc -> lm_nodes (k_mem s2) = lm_nodes (k_mem s) -> k_ptab s2 = k_ptab s ->
  k_ready s2 = k_ready s -> k_esp s2 = k_esp s -> k_idle s2 = k_idle s -> k_semas s2 = k_semas s -> k_locks s2 = k_locks s ->
  sys_inv s2 ls rd ws /\ idle_frames (frames_of s2 (k_idle s2)) = true /\ lock_ok s2 o /\ cur_runs s2.
Proof using.
  intros [_ Hrun Hid Hl _] Hs Hc Hif Hfr E1 E2 E3 E4 E5 F1 F2 F3 F4 F5 F6 F7. pose proof (sy_sched _ _ _ _ Hs) as Hsch.
  destruct (sy_status _ _ _ _ Hs _ _ Hc) as [Hm Hst]. split; [|split; [|split]].
  - eapply (sys_step s s2 ls ls rd rd ws ws (cur_of s) tc); try done; try by apply Hs.
    + split; [congruence|]. by rewrite E5.
    + rewrite F1. apply Hsch.
    + by rewrite F1.
    + rewrite E5. rewrite (si_rd _ _ _ Hsch). naive_solver.
    + rewrite E5. intros Hw. destruct (sy_ws _ _ _ _ Hs _ Hw) as (H1 & ts' & H2 & H3). split; congruence.
  - rewrite Hfr, F5. destruct (decide (k_idle s = cur_of s)) as [E|]; [|done].
    rewrite E in Hid. cbn. rewrite Hif. destruct (frames_of s (cur_of s)) as [|[] ]; try discriminate Hif; exact Hid.
  - apply (lock_ok_roles s); [|intros u _|done].
    + split; [done|done|done|]. intros u. rewrite E1. apply dom_insert_same. by eexists.
    + rewrite Hfr. destruct (decide (u = cur_of s)) as [->|]; [|done]. cbn. rewrite Hif.
      by destruct (frames_of s (cur_of s)) as [|[] ].
  - intros ts'. assert (Ec : cur_of s2 = cur_of s) by (unfold cur_of; by rewrite F4). rewrite Ec, E1, lookup_insert_eq. intros [= <-].
    rewrite E5. by apply Hrun.
Qed.

(** The clock interrupt falls only where it may, and what it leaves on the
    stack hides nothing. *)
Lemma tick_good s o : good s o -> enabled s o Tick ->
  wp timer_interrupt (fun _ s' => obeys s o Tick s') s.
Proof using.
  intros Hg Hon. pose proof Hg as [(ls & rd & ws & Hs) Hrun Hid Hl Hif]. specialize (Hif Hon).
  destruct (sy_cur _ _ _ _ Hs) as [tc Hc]. destruct (sy_status _ _ _ _ Hs _ _ Hc) as [Hm _].
  unfold timer_interrupt. wp_simp. rewrite wp_running. unfold push_frame, cli. wp_simp. rewrite wp_k_list. wp_simp.
  unfold intr_timer_handler. wp_simp. rewrite wp_running. set (e := eflags _). wp_simp.
  eapply wp_ld_task; [exact Hc|]. rewrite Hm. wp_assert. eapply wp_upd_task; [exact Hc|]. wp_simp.
  eapply wp_ld_task; [apply lookup_insert_eq|]. set (tc1 := set_elapsed _ tc). cbn [ticks]. set (s1 := set_ticks _ _).
  change (cur_of _) with (cur_of s).
  assert (Hfr1 : forall u, frames_of s1 u = if decide (u = cur_of s) then F_iret e :: frames_of s (cur_of s) else frames_of s u)
    by (intros u; apply (frames_of_set s)).
  assert (Hif0 : k_if s1 = false) by (apply if_on_cli). destruct (ticks tc1 =? 0).
  - destruct (interrupted_good s o ls rd ws tc e tc1 s1 Hg Hs Hc Hif Hfr1) as (H1 & H2 & H3 & H4); try done.
    eapply (schedule_good s1 o ls rd ws); [done..|]. intros s' Hg' _. by exists o.
  - eapply wp_upd_task; [apply lookup_insert_eq|]. set (s2 := set_tasks _ s1).
    destruct (interrupted_good s o ls rd ws tc e (set_task_ticks (u8 (ticks tc1 - 1)) tc1) s2 Hg Hs Hc Hif Hfr1) as (H1 & H2 & H3 & H4);
      try done; [apply insert_insert_eq|].
    exists o. split; [done|]. split; [by exists ls, rd, ws|done|done|done|]. change (k_if s2) with (k_if s1). congruence.
Qed.

Lemma action_good s o a : good s o -> enabled s o a -> wp (act_run a) (fun _ s' => obeys s o a s') s.
Proof using.
  intros Hg He. destruct a; cbn [act_run].
  - by apply tick_good.
  - destruct (decide (cur_of s = k_idle s)); [by apply resume_idle_good|by apply resume_user_good].
  - destruct He as [Hf Hi]. pose proof Hg as [(ls & rd & ws & Hs) Hr _ Hl _]. apply (idle_good s o ls rd ws); try done.
    intros s' Hg'. by exists o.
  - by apply acquire_good.
  - by apply release_good.
  - destruct He as [Hf Hi]. pose proof Hg as [(ls & rd & ws & Hs) Hr Hid Hl _]. apply (yield_run s o ls rd ws []); try done.
    intros s' st Hg' _. by exists o.
  - destruct He as [Hf Hi]. unfold ticks_to_sleep. wp_simp. apply (sleep_loop_good s o); try done. intros s' Hg' _. by exists o.
Qed.

Lemma steps_good x y : rtc step x y -> good x.1 x.2 -> good y.1 y.2.
Proof using.
  induction 1 as [|x y z Hstep _ IH]; [done|]. intros Hg. apply IH. clear IH. destruct Hstep as [s o a s' o' He Hrun Hobs].
  pose proof (action_good s o a Hg He) as Hw. unfold wp in Hw. rewrite Hrun in Hw. destruct Hw as (o1 & E & Hg'). cbn. congruence.
Qed.

(** A system that can start: the lists and the PCBs are in order, the lock is
    free, and nobody is in any of its routines. *)
Record fresh (s : kstate) : Prop := {
  fr_sys : exists ls rd ws, sys_inv s ls rd ws;
  fr_run : cur_runs s;
  fr_calm : forall t, is_Some (k_tasks s !! t) -> frames_of s t = [] \/ frames_of s t = [F_kernel_thread];
  fr_cur : frames_of s (cur_of s) = [];
  fr_lock : k_locks s !! plock = Some (LockF NULL 0) /\ k_semas s !! psema = Some 1
}.

Lemma fresh_good s : fresh s -> good s None.
Proof using.
  intros [(ls & rd & ws & Hs) Hr Hc Hcur [El Es]]. split; [by exists ls, rd, ws|done| | |by rewrite Hcur].
  - by destruct (Hc (k_idle s) (sy_idle _ _ _ _ Hs)) as [-> | ->].
  - apply LK_free; [done|done|]. intros t [Ht _]. left. unfold has_role. by destruct (Hc t Ht) as [-> | ->].
Qed.

(** [C4] Mutual exclusion. Whatever the threads do with the lock and wherever
    the clock interrupts them, every action that is possible returns: no ASSERT
    of the scheduler, the semaphore or the lock fails and nothing faults; and
    lock_acquire returns to a thread only when no other thread has the lock. *)
Theorem lock_mutual_exclusion s0 s o a :
  fresh s0 -> rtc step (s0, None) (s, o) -> enabled s o a ->
  exists s' o', act_run a s = Ok (tt, s') /\ observe (cur_of s) (event_of s a s') o = Some o' /\ step (s, o) (s', o').
Proof using.
  intros Hf Hst He. pose proof (steps_good _ _ Hst (fresh_good s0 Hf)) as Hg. pose proof (action_good s o a Hg He) as Hw.
  apply wp_Ok in Hw as ([] & s' & Hrun & o' & Hobs & _). exists s', o'. split; [done|]. split; [done|]. by eapply step_act.
Qed.

End mutex.

(** ** A run *)

#[export] Instance enabled_dec s o a : Decision (enabled s o a).
Proof.
  assert (Hn : Decision (frames_of s (cur_of s) = [])) by (destruct (frames_of s (cur_of s)); [by left|by right]).
  destruct a; cbn [enabled].
  - apply _.
  - destruct Hn; [right|left]; naive_solver.
  - apply _.
  - apply and_dec; [done|]. apply and_dec; [apply _|]. destruct o as [[t n]|]; [|by left].
    destruct (decide (t = cur_of s)) as [->|Hne]; [|left; congruence].
    destruct (decide (n < 2 ^ 32 - 1)) as [Hlt|Hge]; [left; intros m [= <-]; done|right; intros Hm; by apply Hge, Hm].
  - apply and_dec; [done|]. apply and_dec; [apply _|]. destruct o as [[t n]|]; [|by right; intros [n Hn']].
    destruct (decide (t = cur_of s)) as [->|Hne]; [left; by exists n|right; intros [m Hm]; congruence].
  - apply _.
  - apply _.
Defined.

(** A sequence of actions, each of which is possible. *)
Fixpoint exec (plock : Z) (acts : list action) (s : kstate) (o : owner) : option (kstate * owner) :=
  match acts with
  | [] => Some (s, o)
  | a :: acts' =>
      if decide (enabled s o a) then
        match act_run plock a s with
        | Ok (_, s') =>
            match observe (cur_of s) (event_of s a s') o with
            | Some o' => exec plock acts' s' o'
            | None => None
            end
        | _ => None
        end
      else None
  end.

Lemma exec_steps plock acts s o y : exec plock acts s o = Some y -> rtc (step plock) (s, o) y.
Proof.
  revert s o. induction acts as [|a acts IH]; intros s o Hx; cbn [exec] in Hx; [by injection Hx as <-|].
  destruct (decide (enabled s o a)) as [He|]; [|done]. destruct (act_run plock a s) as [[[] s']| | |] eqn:E; try done.
  destruct (observe _ _ o) as [o'|] eqn:Eo; [|done]. apply rtc_l with (s', o'); [by eapply step_act|by apply IH].
Qed.

(** Three threads: one runs, one has not started, one is the idle thread; the
    lock is at 0xc0009000. *)
Definition mutex_lists : gmap Z (list Z) :=
  {[ 0xc0008000 := tags [0xc0101000; 0xc0102000]; 0xc0009008 := tags [] ]}.
Definition mutex_kstate : kstate :=
  KState
    (LMem (Cpu 0x202 [] [])
      (list_to_map [ (0xc0008000, Elem NULL 0xc0101020); (0xc0008008, Elem 0xc0102020 NULL);
                     (0xc0101020, Elem 0xc0008000 0xc0102020); (0xc0102020, Elem 0xc0101020 0xc0008008);
                     (0xc0009008, Elem NULL 0xc0009010); (0xc0009010, Elem 0xc0009008 NULL); (0xc009e020, Elem 0 0) ]))
    ∅ 0xc009eff0 0x100000 0
    (list_to_map [ (0xc009e000, demo_pcb 0xc009f000 TASK_RUNNING);
                   (0xc0101000, demo_pcb 0xc0101e50 TASK_READY);
                   (0xc0102000, demo_pcb 0xc0102e50 TASK_READY) ])
    (list_to_map [ (0xc0101000, [F_kernel_thread]); (0xc0102000, [F_kernel_thread]) ])
    {[ 0xc0009004 := 1 ]} {[ 0xc0009000 := LockF NULL 0 ]} 0xc0008000 0xc0008010 0xc0102000 0xc009e000 0.

(** The running thread takes the lock and is interrupted; the other starts, asks
    for the lock and goes to sleep; the idle thread starts and blocks; the first
    goes on, gives the lock back and is interrupted before it raises the
    semaphore. *)
Definition mutex_acts : list action :=
  [Acquire; Continue; Tick; Continue; Acquire; Continue; Idle; Continue; Release; Tick; Continue].

Definition mutex_after : option (kstate * owner) := exec 0xc0009000 mutex_acts mutex_kstate None.

Lemma mutex_tasks (P : Z -> task_struct -> Prop) :
  P 0xc009e000 (demo_pcb 0xc009f000 TASK_RUNNING) ->
  P 0xc0101000 (demo_pcb 0xc0101e50 TASK_READY) ->
  P 0xc0102000 (demo_pcb 0xc0102e50 TASK_READY) ->
  forall t ts, k_tasks mutex_kstate !! t = Some ts -> P t ts.
Proof.
  intros P1 P2 P3 t ts Ht. apply elem_of_list_to_map_2 in Ht.
  apply elem_of_cons in Ht as [[= -> ->]|Ht]; [done|].
  apply elem_of_cons in Ht as [[= -> ->]|Ht]; [done|].
  apply elem_of_cons in Ht as [[= -> ->]|Ht]; [done|]. set_solver.
Qed.

Lemma mutex_lists_cases L xs : mutex_lists !! L = Some xs ->
  (L = 0xc0008000 /\ xs = tags [0xc0101000; 0xc0102000]) \/ (L = 0xc0009008 /\ xs = tags []).
Proof.
  intros HL. unfold mutex_lists in HL. apply lookup_insert_Some in HL as [[<- <-]|[_ HL]]; [by left|].
  apply lookup_singleton_Some in HL as [<- <-]. by right.
Qed.

Lemma mutex_dheap : dheap (lm_nodes (k_mem mutex_kstate)) mutex_lists.
Proof.
  split.
  - intros L xs [[-> ->]|[-> ->]]%mutex_lists_cases; (split; [vm_compute; by repeat split|]);
      split; apply (bool_decide_unpack _); vm_compute; done.
  - assert (Hd : forall x, x ∈ cells 0xc0008000 (tags [0xc0101000; 0xc0102000]) -> x ∉ cells 0xc0009008 (tags []))
      by (cbn; set_solver).
    intros L1 xs1 L2 xs2 [[-> ->]|[-> ->]]%mutex_lists_cases [[-> ->]|[-> ->]]%mutex_lists_cases Hne x H1 H2; [done| | |done].
    + by apply (Hd x).
    + by apply (Hd x).
Qed.

Lemma mutex_fresh : fresh 0xc0009000 mutex_kstate.
Proof.
  split.
  - exists mutex_lists, [0xc0101000; 0xc0102000], []. split; try done.
    + split; [exact mutex_dheap|done| |].
      * apply mutex_tasks; split; try (by left); try (eexists; reflexivity); try reflexivity; cbn; try lia.
        all: right; split; [lia|reflexivity].
      * intros t. split.
        -- intros [->|[->|[]%elem_of_nil]%elem_of_cons]%elem_of_cons; eexists; split; reflexivity.
        -- intros (ts & Hts & Hs). revert Hts Hs.
           apply (mutex_tasks (fun t ts => status ts = TASK_READY -> t ∈ [0xc0101000; 0xc0102000])); [done|set_solver..].
    + intros t [ts Hts]. revert t ts Hts.
      apply (mutex_tasks (fun t _ => general_tag t ∉ cells 0xc0008000 [] /\ general_tag t ∉ cells 0xc0009008 [])); split;
        apply (bool_decide_unpack _); vm_compute; done.
    + by intros t L xs Ht [[-> ->]|[-> ->]]%mutex_lists_cases.
    + apply mutex_tasks; by split.
    + intros t []%elem_of_nil.
  - intros ts Hts. vm_compute in Hts. by injection Hts as <-.
  - intros t [ts Hts]. revert t ts Hts.
    apply (mutex_tasks (fun t _ => frames_of mutex_kstate t = [] \/ frames_of mutex_kstate t = [F_kernel_thread]));
      [by left|by right|by right].
  - done.
  - done.
Qed.

Lemma lock_mutual_exclusion_witness :
  match mutex_after with
  | Some (s, o) => o = None /\ enabled s o Continue /\ exists s' o', act_run 0xc0009000 Continue s = Ok (tt, s') /\
      observe (cur_of s) (event_of s Continue s') o = Some o' /\ step 0xc0009000 (s, o) (s', o')
  | None => False
  end.
Proof.
  destruct mutex_after as [[s o]|] eqn:E; [|by vm_compute in E].
  assert (Ho : forall y, mutex_after = Some y -> y.2 = None /\ frames_of y.1 (cur_of y.1) <> []).
  { intros y Hy. vm_compute in Hy. injection Hy as <-. split; [done|]. vm_compute. congruence. }
  destruct (Ho _ E) as [H1 H2]. cbn in H1, H2. subst o. split; [done|]. split; [exact H2|].
  apply (lock_mutual_exclusion 0xc0009000 mutex_kstate s None Continue mutex_fresh (exec_steps _ _ _ _ _ E) H2).
Defined.
