(* ===== verification/Stacks.v ===== *)
(** * What the routines leave on the stacks (thread/thread.c, thread/sync.c)

    A routine that runs for the thread [c] leaves the stacks of the other
    threads alone, and what it adds to the stack of [c] before it gives up the
    processor. [calm] says so of a routine, and that it is not one that enters
    or leaves lock_acquire; [still] says moreover that [c] keeps the processor.
    Both are closed under the ways in which routines are put together. *)

From Stdlib Require Import ZArith Lia.
From stdpp Require Import base numbers list gmap option.
From S2P Require Import Prelude Intr DList ListHeap Paging Thread Sync.

Local Open Scope Z_scope.

(** The calls of lock_acquire on a stack. *)
Definition is_acquire (f : frame_t) : nat := match f with F_lock_acquire _ => 1%nat | _ => 0%nat end.
Definition acquires (l : list frame_t) : nat := sum_list_with is_acquire l.

Definition stacks_rel (c : Z) (s s' : kstate) : Prop :=
  (forall u, u <> c -> frames_of s' u = frames_of s u) /\ acquires (frames_of s' c) = acquires (frames_of s c).

(** The routine does not touch the stacks; nor the stack pointer. *)
Definition same_stacks {A} (m : M kstate A) : Prop :=
  forall s a s', m s = Ok (a, s') -> k_frames s' = k_frames s.
Definition same_cpu {A} (m : M kstate A) : Prop :=
  forall s a s', m s = Ok (a, s') -> k_frames s' = k_frames s /\ k_esp s' = k_esp s.

Definition calm {A} (c : Z) (m : M kstate A) : Prop :=
  forall s a s', cur_of s = c -> m s = Ok (a, s') -> stacks_rel c s s'.
Definition still {A} (c : Z) (m : M kstate A) : Prop :=
  forall s a s', cur_of s = c -> m s = Ok (a, s') -> stacks_rel c s s' /\ cur_of s' = c.

Lemma stacks_rel_same c s s' : k_frames s' = k_frames s -> stacks_rel c s s'.
Proof. intros E. unfold stacks_rel, frames_of. by rewrite E. Qed.

Lemma stacks_rel_trans c s1 s2 s3 : stacks_rel c s1 s2 -> stacks_rel c s2 s3 -> stacks_rel c s1 s3.
Proof. intros [A1 A2] [B1 B2]. split; [|congruence]. intros u Hu. by rewrite B1, A1. Qed.

Lemma bind_inv {S A B} (m : M S A) (k : A -> M S B) s b s' :
  bind m k s = Ok (b, s') -> exists a s1, m s = Ok (a, s1) /\ k a s1 = Ok (b, s').
Proof. unfold bind. destruct (m s) as [[a s1]| | |]; [|done..]. intros H. by exists a, s1. Qed.

(** ** Closure *)

Lemma same_stacks_bind {A B} (m : M kstate A) (k : A -> M kstate B) :
  same_stacks m -> (forall a, same_stacks (k a)) -> same_stacks (bind m k).
Proof. intros Hm Hk s b s' (a & s1 & H1 & H2)%bind_inv. by rewrite (Hk a _ _ _ H2), (Hm _ _ _ H1). Qed.

Lemma same_cpu_bind {A B} (m : M kstate A) (k : A -> M kstate B) :
  same_cpu m -> (forall a, same_cpu (k a)) -> same_cpu (bind m k).
Proof.
  intros Hm Hk s b s' (a & s1 & H1 & H2)%bind_inv. destruct (Hk a _ _ _ H2) as [-> ->]. by destruct (Hm _ _ _ H1) as [-> ->].
Qed.

Lemma same_cpu_stacks {A} (m : M kstate A) : same_cpu m -> same_stacks m.
Proof. intros Hm s a s' H. by destruct (Hm s a s' H). Qed.

Lemma same_stacks_calm {A} c (m : M kstate A) : same_stacks m -> calm c m.
Proof. intros Hm s a s' _ H. by eapply stacks_rel_same, Hm. Qed.

Lemma same_cpu_still {A} c (m : M kstate A) : same_cpu m -> still c m.
Proof.
  intros Hm s a s' Hc H. destruct (Hm s a s' H) as [E1 E2]. split; [by apply stacks_rel_same|].
  unfold cur_of in *. by rewrite E2.
Qed.

Lemma still_calm {A} c (m : M kstate A) : still c m -> calm c m.
Proof. intros Hm s a s' Hc H. by destruct (Hm s a s' Hc H). Qed.

Lemma calm_bind {A B} c (m : M kstate A) (k : A -> M kstate B) :
  still c m -> (forall a, calm c (k a)) -> calm c (bind m k).
Proof.
  intros Hm Hk s b s' Hc (a & s1 & H1 & H2)%bind_inv. destruct (Hm _ _ _ Hc H1) as [R Hc1].
  eapply stacks_rel_trans; [exact R|]. by eapply Hk.
Qed.

Lemma still_bind {A B} c (m : M kstate A) (k : A -> M kstate B) :
  still c m -> (forall a, still c (k a)) -> still c (bind m k).
Proof.
  intros Hm Hk s b s' Hc (a & s1 & H1 & H2)%bind_inv. destruct (Hm _ _ _ Hc H1) as [R Hc1].
  destruct (Hk a _ _ _ Hc1 H2) as [R' Hc2]. split; [by eapply stacks_rel_trans|done].
Qed.

(** The thread that runs is [c]. *)
Lemma calm_running {B} c (k : Z -> M kstate B) : calm c (k c) -> calm c (bind running_thread k).
Proof. intros Hk s b s' Hc H. apply (Hk s b s' Hc). unfold cur_of in Hc. by subst c. Qed.
Lemma still_running {B} c (k : Z -> M kstate B) : still c (k c) -> still c (bind running_thread k).
Proof. intros Hk s b s' Hc H. apply (Hk s b s' Hc). unfold cur_of in Hc. by subst c. Qed.

Lemma push_frame_stacks c f s s' : push_frame c f s = Ok (tt, s') ->
  (forall u, frames_of s' u = if decide (u = c) then f :: frames_of s c else frames_of s u) /\ cur_of s' = cur_of s.
Proof.
  intros [= <-]. split; [|done]. intros u. unfold frames_of at 1. cbn.
  destruct (decide (u = c)) as [->|]; [by rewrite lookup_insert_eq|by rewrite lookup_insert_ne].
Qed.

Lemma still_push c f : is_acquire f = 0%nat -> still c (push_frame c f).
Proof.
  intros Hf s [] s' Hc H. destruct (push_frame_stacks c f s s' H) as [E Ec]. split; [|congruence]. split.
  - intros u Hu. by rewrite E, decide_False.
  - rewrite E, decide_True by done. unfold acquires. cbn. by rewrite Hf.
Qed.

(** ** The steps of the routines *)

Lemma same_cpu_ret {A} (a : A) : same_cpu (ret a).
Proof. by intros s b s' [= <- <-]. Qed.
Lemma same_cpu_get : same_cpu get.
Proof. by intros s b s' [= <- <-]. Qed.
Lemma same_cpu_gets {A} (f : kstate -> A) : same_cpu (gets f).
Proof. by intros s b s' [= <- <-]. Qed.
Lemma same_cpu_panic {A} : same_cpu (panic : M kstate A).
Proof. by intros s b s'. Qed.
Lemma same_cpu_fault {A} : same_cpu (fault : M kstate A).
Proof. by intros s b s'. Qed.
Lemma same_cpu_ASSERT b : same_cpu (ASSERT b).
Proof. destruct b; [apply same_cpu_ret|apply same_cpu_panic]. Qed.
Lemma same_cpu_of_option {A} (o : option A) : same_cpu (of_option o).
Proof. destruct o; [apply same_cpu_ret|apply same_cpu_fault]. Qed.
Lemma same_cpu_k_list {A} (m : M lmem A) : same_cpu (k_list m).
Proof. intros s a s'. unfold k_list, zoom. destruct (m _) as [[b t]| | |]; [|done..]. by intros [= _ <-]. Qed.
Lemma same_cpu_k_pt {A} (m : M ptab A) : same_cpu (k_pt m).
Proof. intros s a s'. unfold k_pt, zoom. destruct (m _) as [[b t]| | |]; [|done..]. by intros [= _ <-]. Qed.
Lemma same_cpu_modify (f : kstate -> kstate) :
  (forall s, k_frames (f s) = k_frames s /\ k_esp (f s) = k_esp s) -> same_cpu (modify f).
Proof. intros Hf s a s' [= _ <-]. apply Hf. Qed.
Lemma same_cpu_running : same_cpu running_thread.
Proof. apply same_cpu_gets. Qed.

Create HintDb stacks.
#[export] Hint Resolve same_cpu_ret same_cpu_get same_cpu_gets same_cpu_panic same_cpu_fault same_cpu_ASSERT same_cpu_of_option
  same_cpu_k_list same_cpu_k_pt same_cpu_running : stacks.
#[export] Hint Extern 1 (same_cpu (modify _)) => (apply same_cpu_modify; intros []; split; reflexivity) : stacks.

(** Going through the body of a routine. *)
Ltac by_cases_stacks :=
  match goal with
  | |- context [if ?b then _ else _] => destruct b
  | |- context [match ?x with _ => _ end] => destruct x
  end.
Ltac go_stacks :=
  repeat first
    [ progress intros
    | solve [eauto with stacks]
    | apply calm_running | apply still_running
    | apply calm_bind | apply still_bind | apply same_cpu_bind | apply same_stacks_bind
    | by_cases_stacks ].

Lemma same_cpu_ld_task t : same_cpu (ld_task t).
Proof. unfold ld_task. go_stacks. Qed.
#[export] Hint Resolve same_cpu_ld_task : stacks.
Lemma same_cpu_upd_task t f : same_cpu (upd_task t f).
Proof. unfold upd_task. go_stacks. Qed.
Lemma same_cpu_ld_sema p : same_cpu (ld_sema p).
Proof. unfold ld_sema. go_stacks. Qed.
Lemma same_cpu_st_sema p v : same_cpu (st_sema p v).
Proof. unfold st_sema. go_stacks. Qed.
Lemma same_cpu_ld_lock p : same_cpu (ld_lock p).
Proof. unfold ld_lock. go_stacks. Qed.
Lemma same_cpu_st_lock p v : same_cpu (st_lock p v).
Proof. unfold st_lock. go_stacks. Qed.
#[export] Hint Resolve same_cpu_upd_task same_cpu_ld_sema same_cpu_st_sema same_cpu_ld_lock same_cpu_st_lock : stacks.

Lemma same_cpu_thread_unblock t : same_cpu (thread_unblock t).
Proof. unfold thread_unblock, k_intr_disable, k_intr_set_status. go_stacks. Qed.
Lemma same_cpu_process_activate t : same_cpu (process_activate t).
Proof. unfold process_activate, page_dir_activate, update_tss_esp. go_stacks. Qed.
#[export] Hint Resolve same_cpu_thread_unblock same_cpu_process_activate : stacks.

#[export] Hint Resolve same_cpu_stacks | 5 : stacks.
#[export] Hint Resolve same_stacks_calm same_cpu_still | 6 : stacks.

Lemma same_stacks_schedule : same_stacks schedule.
Proof.
  unfold schedule, dispatch, switch_to, k_intr_get_status. go_stacks.
  by intros ? ? ? [= _ <-].
Qed.
#[export] Hint Resolve same_stacks_schedule still_push : stacks.
#[export] Hint Resolve still_calm | 7 : stacks.

(** ** The routines that give up the processor *)

Lemma calm_thread_block c st : calm c (thread_block st).
Proof. unfold thread_block, k_intr_disable. go_stacks. Qed.
Lemma calm_thread_yield c : calm c thread_yield.
Proof. unfold thread_yield, k_intr_disable. go_stacks. Qed.
#[export] Hint Resolve calm_thread_block calm_thread_yield : stacks.

Lemma same_cpu_k_disable : same_cpu k_intr_disable.
Proof. unfold k_intr_disable. go_stacks. Qed.
Lemma same_cpu_k_set_status st : same_cpu (k_intr_set_status st).
Proof. unfold k_intr_set_status. go_stacks. Qed.
Lemma same_cpu_k_set_eflags e : same_cpu (k_set_eflags e).
Proof. unfold k_set_eflags. go_stacks. Qed.
#[export] Hint Resolve same_cpu_k_disable same_cpu_k_set_status same_cpu_k_set_eflags : stacks.

Lemma calm_sema_down_loop c p old : calm c (sema_down_loop p old).
Proof. unfold sema_down_loop. go_stacks. Qed.
#[export] Hint Resolve calm_sema_down_loop : stacks.
Lemma calm_sema_down c p : calm c (sema_down p).
Proof. unfold sema_down. go_stacks. Qed.
Lemma calm_sema_up c p : calm c (sema_up p).
Proof. unfold sema_up. go_stacks. Qed.
Lemma calm_lock_acquired c p : calm c (lock_acquired p).
Proof. unfold lock_acquired. go_stacks. Qed.
Lemma calm_lock_release c p : calm c (lock_release p).
Proof. unfold lock_release. go_stacks. Qed.
Lemma calm_sleep_loop c start n : calm c (sleep_loop start n).
Proof. unfold sleep_loop. go_stacks. Qed.
#[export] Hint Resolve calm_sema_down calm_sema_up calm_lock_acquired calm_lock_release calm_sleep_loop : stacks.
Lemma calm_ticks_to_sleep c n : calm c (ticks_to_sleep n).
Proof. unfold ticks_to_sleep. go_stacks. Qed.
Lemma calm_idle c : calm c idle.
Proof. unfold idle. go_stacks. Qed.
#[export] Hint Resolve calm_idle : stacks.
Lemma calm_idle_round c : calm c idle_round.
Proof. unfold idle_round. go_stacks. Qed.
Lemma calm_timer_interrupt c : calm c timer_interrupt.
Proof. unfold timer_interrupt, intr_timer_handler. go_stacks. Qed.
#[export] Hint Resolve calm_ticks_to_sleep calm_idle_round calm_timer_interrupt : stacks.

(** What [resume] runs when [f] is on top. *)
Definition resume_frame (f : frame_t) : M kstate unit :=
  match f with
  | F_thread_block old | F_thread_yield old => k_intr_set_status old ;; ret tt
  | F_iret e => k_set_eflags e
  | F_kernel_thread => k_list (zoom lm_cpu set_cpu intr_enable) ;; ret tt
  | F_idle => idle_round
  | F_hlt => idle
  | F_sema_down psema old => sema_down_loop psema old
  | F_lock_acquire plock => lock_acquired plock
  | F_sema_up psema => sema_up psema
  | F_sleep start n => sleep_loop start n
  end.

Lemma calm_resume_frame c f : calm c (resume_frame f).
Proof. unfold resume_frame. go_stacks. Qed.

(** lock_acquire returns at once, or is on the stack of its caller. *)
Lemma lock_acquire_stacks p s s' : frames_of s (cur_of s) = [] -> lock_acquire p s = Ok (tt, s') ->
  (forall u, u <> cur_of s -> frames_of s' u = frames_of s u) /\
  acquires (frames_of s' (cur_of s)) = match frames_of s' (cur_of s) with [] => 0%nat | _ => 1%nat end.
Proof.
  intros Hf H. unfold lock_acquire in H. apply bind_inv in H as (c & s1 & Hc & H). injection Hc as <- <-.
  apply bind_inv in H as (l & s2 & Hl & H). assert (s2 = s) as ->.
  { apply bind_inv in Hl as (s0 & s3 & [= <- <-] & Hl). destruct (k_locks s !! p); [|done]. by injection Hl as _ <-. }
  fold (cur_of s) in *. destruct (negb _).
  - apply bind_inv in H as ([] & s1 & Hp & H). destruct (push_frame_stacks _ _ _ _ Hp) as [E Ec].
    destruct (calm_sema_down (cur_of s) _ s1 tt s' Ec H) as [R1 R2]. split.
    + intros u Hu. by rewrite R1, E, decide_False.
    + rewrite E, decide_True, Hf in R2 by done. cbn in R2. by destruct (frames_of s' (cur_of s)).
  - injection H as <-. split; [done|]. change (acquires (frames_of s (cur_of s)) = match frames_of s (cur_of s) with [] => 0%nat | _ => 1%nat end).
    by rewrite Hf.
Qed.

(** A suspended call of lock_acquire ends when it is resumed as such. *)
Lemma resume_stacks s s' : resume s = Ok (tt, s') ->
  (forall u, u <> cur_of s -> frames_of s' u = frames_of s u) /\
  exists f rest, frames_of s (cur_of s) = f :: rest /\ acquires (frames_of s' (cur_of s)) = acquires rest.
Proof.
  intros H. unfold resume in H. apply bind_inv in H as (c & s1 & [= <- <-] & H). fold (cur_of s) in *.
  apply bind_inv in H as (s0 & s1 & [= <- <-] & H). destruct (frames_of s (cur_of s)) as [|f rest] eqn:Ef; [done|].
  apply bind_inv in H as ([] & s1 & [= <-] & H).
  destruct (calm_resume_frame (cur_of s) f (set_frames (<[cur_of s := rest]> (k_frames s)) s) tt s' eq_refl H) as [R1 R2].
  split; [|exists f, rest; split; [done|]].
  - intros u Hu. rewrite R1 by done. unfold frames_of. cbn. by rewrite lookup_insert_ne.
  - rewrite R2. unfold frames_of. cbn. by rewrite lookup_insert_eq.
Qed.

Lemma resume_run f rest s (Q : unit -> kstate -> Prop) : frames_of s (cur_of s) = f :: rest ->
  wp (resume_frame f) Q (set_frames (<[cur_of s := rest]> (k_frames s)) s) -> wp resume Q s.
Proof. intros Hf HQ. unfold resume. wp_simp. rewrite wp_running. wp_simp. rewrite Hf. wp_simp. exact HQ. Qed.
