(* ===== verification/Screen.v ===== *)
(** * Characters on the screen (lib/kernel/print.S)

    The characters that put_str and put_int hand to put_char, one by one. Where
    put_char shows them, and the scrolling, is not modelled. *)

From Stdlib Require Import ZArith Lia.
From stdpp Require Import base numbers list.
From S2P Require Import Prelude.

Local Open Scope Z_scope.

(** put_str: the characters up to the first zero. *)
Fixpoint put_str_chars (str : list Z) : list Z :=
  match str with
  | [] => []
  | c :: str' => if c =? 0 then [] else c :: put_str_chars str'
  end.

(** put_int: the eight digits, without the zeros in front, or one zero. *)
Definition hex_char (d : Z) : Z := if 9 <? d then d - 10 + 65 else d + 48.
Definition put_int_buffer (num : Z) : list Z :=
  (fun i => hex_char (Z.land (Z.shiftr (u32 num) (4 * (7 - i))) 0x0000000F)) <$> seqZ 0 8.
Fixpoint skip_prefix_0 (l : list Z) : list Z :=
  match l with
  | [] => [48]
  | c :: l' => if c =? 48 then skip_prefix_0 l' else l
  end.
Definition put_int_chars (num : Z) : list Z := skip_prefix_0 (put_int_buffer num).

(** Reading hexadecimal digits, for the specification of put_int. *)
Definition hex_value (c : Z) : Z := if c <? 65 then c - 48 else c - 65 + 10.
Definition read_hex (l : list Z) : Z := foldl (fun a c => 16 * a + hex_value c) 0 l.

Lemma hex_value_char d : 0 <= d < 16 -> hex_value (hex_char d) = d.
Proof. intros Hd. unfold hex_char, hex_value. destruct (Z.ltb_spec 9 d); case_match; zbool; lia. Qed.

Lemma nibble v k : 0 <= k -> Z.land (Z.shiftr v (4 * k)) 0x0000000F = v / 16 ^ k mod 16.
Proof.
  intros Hk. change 0x0000000F with (Z.ones 4). rewrite Z.land_ones, Z.shiftr_div_pow2 by lia.
  rewrite Z.pow_mul_r by lia. done.
Qed.

Lemma skip_prefix_0_reads l : l <> [] -> read_hex (skip_prefix_0 l) = read_hex l.
Proof.
  induction l as [|c l IH]; [done|]. intros _. cbn [skip_prefix_0]. destruct (Z.eqb_spec c 48) as [->|]; [|done].
  destruct l as [|d l]; [done|]. by rewrite IH.
Qed.

(** put_int shows the number, and no zero in front of it. *)
Lemma put_int_reads num : read_hex (put_int_chars num) = u32 num /\ (forall c, put_int_chars num = 48 :: c -> c = []).
Proof.
  split.
  - unfold put_int_chars. rewrite skip_prefix_0_reads by done. unfold put_int_buffer. pose proof (u32_bound num) as Hb.
    revert Hb. generalize (u32 num). intros v Hv.
    assert (E : (fun i => hex_char (Z.land (Z.shiftr v (4 * (7 - i))) 0x0000000F)) <$> seqZ 0 8 =
      (fun i => hex_char (v / 16 ^ (7 - i) mod 16)) <$> seqZ 0 8).
    { apply list_fmap_ext. intros k i Hi. apply lookup_seqZ in Hi as [-> Hk]. rewrite nibble by lia. done. }
    rewrite E. unfold read_hex. change (seqZ 0 8) with [0; 1; 2; 3; 4; 5; 6; 7]. cbn [fmap list_fmap foldl].
    rewrite !hex_value_char by (apply Z.mod_pos_bound; lia). cbn [Z.sub Z.opp Z.add Z.pos_sub Z.pow Z.pow_pos Pos.iter Z.mul Pos.mul Pos.add].
    dlia.
  - intros c Hc. unfold put_int_chars in Hc. induction (put_int_buffer num) as [|d l IH]; cbn in Hc; [by injection Hc|].
    destruct (Z.eqb_spec d 48); [by apply IH|]. by injection Hc.
Qed.
