(* ===== verification/Console.v ===== *)
(** * The console (device/console.c, lib/kernel/print.S)

    console_put_str, console_put_char and console_put_int put characters on the
    screen one by one while they hold the console's lock. The threads that call
    them are those of [Mutex]: a clock interrupt can fall between any two
    characters. The screen is the sequence of the characters that put_char was
    given; where they are shown is not modelled. *)

From Stdlib Require Import ZArith Lia.
From stdpp Require Import base numbers list gmap option relations.
From S2P Require Import Prelude Intr DList ListHeap Paging Thread Sync Mutex Stacks Screen.

Local Open Scope Z_scope.

(** ** The calls *)

Inductive console_call :=
  | console_put_str (str : list Z)
  | console_put_char (char_asci : Z)
  | console_put_int (num : Z).

(** sys_putchar (fs/fs.c) *)
Definition sys_putchar (char_asci : Z) : console_call := console_put_char char_asci.

Definition text (c : console_call) : list Z :=
  match c with
  | console_put_str str => put_str_chars str
  | console_put_char char_asci => [u8 char_asci]
  | console_put_int num => put_int_chars num
  end.

Section console.
Context (console_lock : Z).

Definition console_init : M kstate unit := lock_init console_lock.
Definition console_acquire : M kstate unit := lock_acquire console_lock.
Definition console_release : M kstate unit := lock_release console_lock.

(** ** Calls of the threads, step by step *)

(** Where a thread is: in no call, before its lock_acquire has returned, or
    printing, with what it has printed and what is left. *)
Inductive place := Outside | Wants (c : console_call) | Prints (c : console_call) (printed rest : list Z).

Record cstate := CState {
  c_k : kstate;
  c_places : gmap Z place;
  c_screen : list Z;
  c_done : list (Z * console_call)        (* the calls that have printed everything *)
}.

Definition place_of (st : cstate) (t : Z) : place := default Outside (c_places st !! t).
Definition c_cur (st : cstate) : Z := cur_of (c_k st).

(** The lock has been got by a thread that wants it for the call [c]. *)
Definition entered (e : option event) (c : console_call) : place :=
  match e with Some Got => Prints c [] (text c) | _ => Wants c end.

(** What can happen next, apart from the calls: nothing is asked of the lock. A
    thread yields or sleeps only between two calls. *)
Definition may (st : cstate) (a : action) : Prop :=
  match a with
  | Tick => k_if (c_k st) = true
  | Continue => frames_of (c_k st) (c_cur st) <> []
  | Idle => frames_of (c_k st) (c_cur st) = [] /\ c_cur st = k_idle (c_k st)
  | Yield | Sleep _ => frames_of (c_k st) (c_cur st) = [] /\ c_cur st <> k_idle (c_k st) /\ place_of st (c_cur st) = Outside
  | Acquire | Release => False
  end.

(** The running thread is a program of its own, and can call. *)
Definition can_call (st : cstate) : Prop :=
  frames_of (c_k st) (c_cur st) = [] /\ c_cur st <> k_idle (c_k st) /\ place_of st (c_cur st) = Outside.

(** One step of the kernel, or of the thread that runs inside one of the calls:
    the routine runs, and the thread goes on to print when nothing of its
    lock_acquire is left on its stack. Whether that happens is up to the routine. *)
Inductive cstep : cstate -> cstate -> Prop :=
  | C_kernel st a s' : may st a -> act_run console_lock a (c_k st) = Ok (tt, s') ->
      cstep st (CState s'
        (match place_of st (c_cur st) with
         | Wants c => <[c_cur st := entered (event_of (c_k st) a s') c]> (c_places st)
         | _ => c_places st
         end) (c_screen st) (c_done st))
  | C_call st c s' : can_call st -> console_acquire (c_k st) = Ok (tt, s') ->
      cstep st (CState s' (<[c_cur st := entered (event_of (c_k st) Acquire s') c]> (c_places st)) (c_screen st) (c_done st))
  | C_put_char st c printed x rest : frames_of (c_k st) (c_cur st) = [] -> place_of st (c_cur st) = Prints c printed (x :: rest) ->
      cstep st (CState (c_k st) (<[c_cur st := Prints c (printed ++ [x]) rest]> (c_places st)) (c_screen st ++ [x]) (c_done st))
  | C_return st c printed s' : frames_of (c_k st) (c_cur st) = [] -> place_of st (c_cur st) = Prints c printed [] ->
      console_release (c_k st) = Ok (tt, s') ->
      cstep st (CState s' (<[c_cur st := Outside]> (c_places st)) (c_screen st) (c_done st ++ [(c_cur st, c)])).

(** ** The invariant *)

(** The lock of the mind that [Mutex] reasons with: who has it. It is not part of
    the state, no step looks at it, and the invariant says that there is one. *)

(** What the thread that has the lock has printed of its message. *)
Definition half (st : cstate) (o : owner) : list Z :=
  match o with
  | Some (t, _) => match place_of st t with Prints _ p _ => p | _ => [] end
  | None => []
  end.

Record console_inv (st : cstate) (o : owner) : Prop := {
  ci_good : good console_lock (c_k st) o;
  ci_acq : forall t, acquires (frames_of (c_k st) t) = match place_of st t with Wants _ => 1%nat | _ => 0%nat end;
  ci_prints : forall t c p r, place_of st t = Prints c p r -> o = Some (t, 1) /\ text c = p ++ r;
  ci_own : forall t n, o = Some (t, n) -> exists c p r, place_of st t = Prints c p r;
  ci_screen : c_screen st = concat (text ∘ snd <$> c_done st) ++ half st o
}.

Lemma place_of_insert st s' t pl sc d u :
  place_of (CState s' (<[t := pl]> (c_places st)) sc d) u = if decide (u = t) then pl else place_of st u.
Proof using. unfold place_of. cbn. destruct (decide (u = t)) as [->|]; [by rewrite lookup_insert_eq|by rewrite lookup_insert_ne]. Qed.

(** What an action leaves on the stacks. *)
Lemma action_stacks s o a s' : enabled s o a -> act_run console_lock a s = Ok (tt, s') ->
  (forall u, u <> cur_of s -> frames_of s' u = frames_of s u) /\
  match a with
  | Acquire => acquires (frames_of s' (cur_of s)) = match event_of s a s' with Some Got => 0%nat | _ => 1%nat end
  | Continue => (acquires (frames_of s' (cur_of s)) + match event_of s a s' with Some Got => 1 | _ => 0 end)%nat = acquires (frames_of s (cur_of s))
  | _ => acquires (frames_of s' (cur_of s)) = acquires (frames_of s (cur_of s))
  end.
Proof using.
  intros He H. destruct a; cbn [act_run enabled] in *.
  - exact (calm_timer_interrupt _ _ _ _ eq_refl H).
  - destruct (resume_stacks s s' H) as (R1 & f & rest & Ef & R2). split; [done|]. unfold event_of. rewrite Ef, R2.
    unfold acquires. destruct f; cbn; lia.
  - exact (calm_idle _ _ _ _ eq_refl H).
  - destruct He as [Hf _]. destruct (lock_acquire_stacks _ s s' Hf H) as [R1 R2]. split; [done|]. rewrite R2. unfold event_of.
    by destruct (frames_of s' (cur_of s)).
  - exact (calm_lock_release _ _ _ _ _ eq_refl H).
  - exact (calm_thread_yield _ _ _ _ eq_refl H).
  - exact (calm_ticks_to_sleep _ _ _ _ _ eq_refl H).
Qed.

(** Nobody prints, unless it is the thread that has the lock. *)
Lemma not_printing st o t : console_inv st o -> (forall n, o <> Some (t, n)) -> forall c p r, place_of st t <> Prints c p r.
Proof using. intros Hi Hn c p r Hp. by apply (ci_prints _ _ Hi) in Hp as [Hp%Hn _]. Qed.

(** A step of the lock that is no concern of the printing threads. *)
Lemma kernel_inv st o s' o' pl :
  console_inv st o -> good console_lock s' o' ->
  (forall u, u <> c_cur st -> frames_of s' u = frames_of (c_k st) u) ->
  acquires (frames_of s' (c_cur st)) = match pl with Wants _ => 1%nat | _ => 0%nat end ->
  (forall c p r, place_of st (c_cur st) <> Prints c p r) ->
  match pl with
  | Prints c p r => o' = Some (c_cur st, 1) /\ p = [] /\ r = text c /\ o = None
  | _ => o' = o
  end ->
  console_inv (CState s' (<[c_cur st := pl]> (c_places st)) (c_screen st) (c_done st)) o'.
Proof using.
  intros Hi Hg Hf Ha Hnp Ho. assert (Hnone : forall c p r, pl = Prints c p r -> forall u c' p' r', place_of st u <> Prints c' p' r').
  { intros c p r -> u c' p' r'. destruct Ho as (_ & _ & _ & Ho). eapply not_printing; [done|]. intros n. by rewrite Ho. }
  split.
  - done.
  - intros t. rewrite place_of_insert. cbn. destruct (decide (t = c_cur st)) as [->|Hne]; [done|]. rewrite Hf by done. apply (ci_acq _ _ Hi).
  - intros t c p r. rewrite place_of_insert. destruct (decide (t = c_cur st)) as [->|Hne]; cbn.
    + intros ->. by destruct Ho as (-> & -> & -> & _).
    + intros Hp. destruct pl; [rewrite Ho; by apply (ci_prints _ _ Hi)..|]. by destruct (Hnone _ _ _ eq_refl _ _ _ _ Hp).
  - intros t n. cbn. rewrite place_of_insert. destruct (decide (t = c_cur st)) as [->|Hne].
    + destruct pl; [intros E; rewrite Ho in E; apply (ci_own _ _ Hi) in E as (c' & p & r & E); by destruct (Hnp c' p r)..|by eauto].
    + destruct pl; [rewrite Ho; by apply (ci_own _ _ Hi)..|]. destruct Ho as (-> & _). by intros [= <- _].
  - cbn [c_screen c_done]. rewrite (ci_screen _ _ Hi). f_equal. unfold half.
    destruct pl as [|c|c p r].
    + rewrite Ho. destruct o as [[t n]|]; [|done]. rewrite place_of_insert.
      destruct (decide (t = c_cur st)) as [->|]; [|done]. destruct (ci_own _ _ Hi _ _ eq_refl) as (c & p & r & E). by destruct (Hnp c p r).
    + rewrite Ho. destruct o as [[t n]|]; [|done]. rewrite place_of_insert.
      destruct (decide (t = c_cur st)) as [->|]; [|done]. destruct (ci_own _ _ Hi _ _ eq_refl) as (c' & p & r & E). by destruct (Hnp c' p r).
    + destruct Ho as (-> & -> & -> & ->). by rewrite place_of_insert, decide_True.
Qed.

Lemma kernel_same st o s' :
  console_inv st o -> good console_lock s' o ->
  (forall u, u <> c_cur st -> frames_of s' u = frames_of (c_k st) u) ->
  acquires (frames_of s' (c_cur st)) = acquires (frames_of (c_k st) (c_cur st)) ->
  console_inv (CState s' (c_places st) (c_screen st) (c_done st)) o.
Proof using.
  intros [H1 H2 H3 H4 H5] Hg Hf Ha. split; [done| |done..]. intros t. change (place_of (CState _ _ _ _) t) with (place_of st t). cbn.
  destruct (decide (t = c_cur st)) as [->|Hne]; [rewrite Ha|rewrite Hf by done]; apply H2.
Qed.

(** Every action that is possible runs, keeps the lock's invariant, and gives and
    takes the lock as an atomic lock would. *)
Lemma action_runs st o a : console_inv st o -> enabled (c_k st) o a ->
  exists s' o', act_run console_lock a (c_k st) = Ok (tt, s') /\ observe (c_cur st) (event_of (c_k st) a s') o = Some o' /\
    good console_lock s' o'.
Proof using.
  intros Hi He. pose proof (action_good console_lock _ _ a (ci_good _ _ Hi) He) as Hw. apply wp_Ok in Hw as ([] & s' & Hr & o' & Ho & Hg).
  by exists s', o'.
Qed.

Lemma action_ran st o a s' : console_inv st o -> enabled (c_k st) o a -> act_run console_lock a (c_k st) = Ok (tt, s') ->
  exists o', observe (c_cur st) (event_of (c_k st) a s') o = Some o' /\ good console_lock s' o'.
Proof using. intros Hi He Hr. destruct (action_runs st o a Hi He) as (s1 & o1 & E1 & E2 & Hg). exists o1. split; congruence. Qed.

(** What a step may do is what the theorems about the lock ask for: a thread that
    calls does not have the lock, one that returns has it once. *)
Lemma may_enabled st o a : may st a -> enabled (c_k st) o a.
Proof using. unfold c_cur. destruct a; cbn; [done..|naive_solver|naive_solver]. Qed.

Lemma call_enabled st o : console_inv st o -> can_call st -> enabled (c_k st) o Acquire.
Proof using.
  intros Hi (Hf & Hn & Hp). split; [done|]. split; [done|]. intros n Ho. apply (ci_own _ _ Hi) in Ho as (c & p & r & Ho).
  change (place_of st (c_cur st) = Prints c p r) in Ho. congruence.
Qed.

Lemma return_enabled st o c p r : console_inv st o -> place_of st (c_cur st) = Prints c p r ->
  frames_of (c_k st) (c_cur st) = [] -> enabled (c_k st) o Release.
Proof using.
  intros Hi Hp Hfr. destruct (ci_prints _ _ Hi _ _ _ _ Hp) as [Eo _]. split; [done|]. split; [|by eexists].
  pose proof (gd_lock _ _ _ (ci_good _ _ Hi)) as Hl. rewrite Eo in Hl. inversion Hl as [| |t n _ _ _ [_ Hu]]. done.
Qed.

(** A thread that is not printing gets the lock only when nobody has it. *)
Lemma got_free st o o' : console_inv st o -> (forall c p r, place_of st (c_cur st) <> Prints c p r) ->
  observe (c_cur st) (Some Got) o = Some o' -> o' = Some (c_cur st, 1) /\ o = None.
Proof using.
  intros Hi Hnp. destruct o as [[u n]|] eqn:E; cbn; [|by intros [= <-]].
  destruct (Z.eqb_spec u (c_cur st)) as [->|]; [|done]. destruct (ci_own _ _ Hi _ _ eq_refl) as (c & p & r & E'). by destruct (Hnp c p r).
Qed.

(** The place of a thread that wants the lock, after a step. *)
Lemma entered_inv st o e c s' o' :
  console_inv st o -> good console_lock s' o' -> observe (c_cur st) e o = Some o' -> e <> Some Gave ->
  (forall u, u <> c_cur st -> frames_of s' u = frames_of (c_k st) u) ->
  acquires (frames_of s' (c_cur st)) = match e with Some Got => 0%nat | _ => 1%nat end ->
  (forall c p r, place_of st (c_cur st) <> Prints c p r) ->
  console_inv (CState s' (<[c_cur st := entered e c]> (c_places st)) (c_screen st) (c_done st)) o'.
Proof using.
  intros Hi Hg Ho He Hf Ha Hnp. apply (kernel_inv st o); try done.
  - rewrite Ha. by destruct e as [[]|].
  - destruct e as [[]|]; [|done|cbn in *; congruence]. cbn. by destruct (got_free st o o' Hi Hnp Ho) as [-> ->].
Qed.

(** The kinds of steps, one by one. *)
Lemma kernel_step_inv st o a s' : console_inv st o -> may st a -> act_run console_lock a (c_k st) = Ok (tt, s') ->
  exists o', console_inv (CState s'
    (match place_of st (c_cur st) with
     | Wants c => <[c_cur st := entered (event_of (c_k st) a s') c]> (c_places st)
     | _ => c_places st
     end) (c_screen st) (c_done st)) o'.
Proof using.
  intros Hi Hm Hr. pose proof (may_enabled st o a Hm) as He. destruct (action_ran st o a s' Hi He Hr) as (o' & Ho & Hg). exists o'.
  destruct (action_stacks _ _ _ _ He Hr) as [R1 R2]. fold (c_cur st) in *.
  pose proof (ci_acq _ _ Hi (c_cur st)) as Hac.
  assert (Hev : match event_of (c_k st) a s' with Some Got => a = Continue | Some Gave => False | None => True end)
    by (destruct a; try done; cbn [event_of]; try done; by destruct (frames_of (c_k st) _) as [|[] ]).
  assert (R2' : (acquires (frames_of s' (c_cur st)) + match event_of (c_k st) a s' with Some Got => 1 | _ => 0 end)%nat =
    acquires (frames_of (c_k st) (c_cur st))) by (destruct a; cbn [event_of may] in *; try done; lia).
  destruct (place_of st (c_cur st)) as [|c|c p r] eqn:Ep.
  - destruct (event_of (c_k st) a s') as [[]|]; [lia|done|]. injection Ho as <-. apply kernel_same; try done. lia.
  - apply (entered_inv st o); try done; [by destruct (event_of _ _ _) as [[]|]| |congruence]. destruct (event_of _ _ _) as [[]|]; lia.
  - destruct (event_of (c_k st) a s') as [[]|]; [lia|done|]. injection Ho as <-. apply kernel_same; try done. lia.
Qed.

Lemma call_step_inv st o c s' : console_inv st o -> can_call st -> console_acquire (c_k st) = Ok (tt, s') ->
  exists o', console_inv (CState s' (<[c_cur st := entered (event_of (c_k st) Acquire s') c]> (c_places st)) (c_screen st) (c_done st)) o'.
Proof using.
  intros Hi Hc Hr. pose proof (call_enabled st o Hi Hc) as He. destruct Hc as (_ & _ & Hp).
  destruct (action_ran st o Acquire s' Hi He Hr) as (o' & Ho & Hg). exists o'. destruct (action_stacks _ _ Acquire _ He Hr) as [R1 R2].
  apply (entered_inv st o); try done; [|congruence]. cbn. by destruct (frames_of s' _).
Qed.

Lemma put_char_inv st o c p x r : console_inv st o -> place_of st (c_cur st) = Prints c p (x :: r) ->
  console_inv (CState (c_k st) (<[c_cur st := Prints c (p ++ [x]) r]> (c_places st)) (c_screen st ++ [x]) (c_done st)) o.
Proof using.
  intros Hi Hp. destruct (ci_prints _ _ Hi _ _ _ _ Hp) as [Eo Et]. split; cbn [c_k c_screen c_done].
  - apply (ci_good _ _ Hi).
  - intros t. rewrite place_of_insert. pose proof (ci_acq _ _ Hi t) as H. destruct (decide (t = c_cur st)) as [->|]; [|done]. by rewrite Hp in H.
  - intros t c' p' r'. rewrite place_of_insert. destruct (decide (t = c_cur st)) as [->|]; [|apply (ci_prints _ _ Hi)].
    intros [= <- <- <-]. split; [done|]. by rewrite <- app_assoc.
  - intros t n Ht. rewrite place_of_insert. destruct (decide (t = c_cur st)); [by eauto|by apply (ci_own _ _ Hi t n)].
  - rewrite (ci_screen _ _ Hi). unfold half. rewrite Eo, Hp, place_of_insert, decide_True by done. by rewrite <- app_assoc.
Qed.

Lemma return_step_inv st o c p s' : console_inv st o -> frames_of (c_k st) (c_cur st) = [] -> place_of st (c_cur st) = Prints c p [] ->
  console_release (c_k st) = Ok (tt, s') ->
  exists o', console_inv (CState s' (<[c_cur st := Outside]> (c_places st)) (c_screen st) (c_done st ++ [(c_cur st, c)])) o'.
Proof using.
  intros Hi Hfr Hp Hr. pose proof (return_enabled st o c p [] Hi Hp Hfr) as He. destruct (ci_prints _ _ Hi _ _ _ _ Hp) as [Eo Et]. rewrite app_nil_r in Et.
  destruct (action_ran st o Release s' Hi He Hr) as (o' & Ho & Hg). exists o'. destruct (action_stacks _ _ Release _ He Hr) as [R1 R2]. fold (c_cur st) in *.
  rewrite Eo in Ho. cbn in Ho. rewrite Z.eqb_refl in Ho. injection Ho as <-. pose proof (ci_acq _ _ Hi (c_cur st)) as Hac. rewrite Hp in Hac.
  assert (Hno : forall u c' p' r', u <> c_cur st -> place_of st u <> Prints c' p' r').
  { intros u c' p' r' Hu Hpu. apply (ci_prints _ _ Hi) in Hpu as [Hpu _]. congruence. }
  split; cbn [c_k c_screen c_done].
  - done.
  - intros t. rewrite place_of_insert. destruct (decide (t = c_cur st)) as [->|Hne]; [by rewrite R2|rewrite R1 by done; apply (ci_acq _ _ Hi)].
  - intros t c' p' r'. rewrite place_of_insert. destruct (decide (t = c_cur st)); [done|]. intros Hpt. by destruct (Hno t c' p' r').
  - done.
  - rewrite (ci_screen _ _ Hi), fmap_app, concat_app. unfold half. rewrite Eo, Hp. cbn. by rewrite Et, !app_nil_r.
Qed.

Lemma cstep_inv st o st' : console_inv st o -> cstep st st' -> exists o', console_inv st' o'.
Proof using.
  intros Hi Hs. destruct Hs as [st a s' Hm Hr|st c s' Hc Hr|st c p x r Hf Hp|st c p s' Hf Hp Hr].
  - by eapply kernel_step_inv.
  - by eapply call_step_inv.
  - exists o. by apply put_char_inv.
  - by eapply return_step_inv.
Qed.

(** Before the first call. *)
Definition console_start (s : kstate) : cstate := CState s ∅ [] [].

Lemma console_start_inv s : fresh console_lock s -> (forall t, acquires (frames_of s t) = 0%nat) -> console_inv (console_start s) None.
Proof using.
  intros Hf Ha. assert (Hp : forall t, place_of (console_start s) t = Outside) by (intros t; unfold place_of; cbn; by rewrite lookup_empty).
  split; [by apply fresh_good|intros t; by rewrite Hp, Ha|intros t c p r; by rewrite Hp|done|done].
Qed.

(** [C6] Messages on the console are whole. However the threads that print are
    interrupted and switched, the screen shows the messages of the calls that
    are finished, in the order in which they finished, and behind them the
    beginning of at most one message more, of the one thread that prints. No
    step of the system asks who has the lock: that two threads never print at
    the same time is what the waiting in lock_acquire achieves. And nothing
    panics: a thread that has printed everything can return, a thread between
    two calls can make the next, and whatever the kernel may do next returns. *)
Theorem console_messages_whole s0 st :
  fresh console_lock s0 -> (forall t, acquires (frames_of s0 t) = 0%nat) -> rtc cstep (console_start s0) st ->
  (exists begun, c_screen st = concat (text ∘ snd <$> c_done st) ++ begun /\
     (begun = [] \/ exists t c rest, place_of st t = Prints c begun rest /\ text c = begun ++ rest)) /\
  (forall t u c p r c' p' r', place_of st t = Prints c p r -> place_of st u = Prints c' p' r' -> t = u) /\
  (forall c p, place_of st (c_cur st) = Prints c p [] -> frames_of (c_k st) (c_cur st) = [] ->
     exists st', cstep st st' /\ c_done st' = c_done st ++ [(c_cur st, c)] /\ c_screen st' = c_screen st) /\
  (can_call st -> exists s', console_acquire (c_k st) = Ok (tt, s')) /\
  (forall a, may st a -> exists s', act_run console_lock a (c_k st) = Ok (tt, s')).
Proof using.
  intros Hf Ha Hst. assert (Hi : exists o, console_inv st o).
  { pose proof (console_start_inv s0 Hf Ha) as Hi. clear Hf Ha. revert Hi. generalize (None : owner).
    induction Hst as [x|x y z Hs _ IH]; intros o Hi; [by exists o|]. destruct (cstep_inv x o y Hi Hs) as [o' Hi']. by apply (IH o'). }
  destruct Hi as [o Hi]. split; [|split; [|split; [|split]]].
  - exists (half st o). split; [apply (ci_screen _ _ Hi)|]. unfold half. destruct o as [[t n]|]; [|by left].
    destruct (ci_own _ _ Hi t n eq_refl) as (c & p & r & Hp). rewrite Hp. right. exists t, c, r. split; [done|]. by apply (ci_prints _ _ Hi t).
  - intros t u c p r c' p' r' Ht Hu. apply (ci_prints _ _ Hi) in Ht as [Ht _], Hu as [Hu _]. congruence.
  - intros c p Hp Hfr. destruct (action_runs st o Release Hi (return_enabled st o c p [] Hi Hp Hfr)) as (s' & o' & Hr & _).
    eexists. split; [by eapply C_return|by split].
  - intros Hc. destruct (action_runs st o Acquire Hi (call_enabled st o Hi Hc)) as (s' & o' & Hr & _). by exists s'.
  - intros a Hm. destruct (action_runs st o a Hi (may_enabled st o a Hm)) as (s' & o' & Hr & _). by exists s'.
Qed.
End console.

(** ** A run *)

Inductive cact := Kernel (a : action) | Call (c : console_call) | Char | Return.

#[export] Instance is_outside_decision p : Decision (p = Outside).
Proof. destruct p; [left; reflexivity|right; discriminate..]. Defined.
#[export] Instance can_call_decision st : Decision (can_call st).
Proof. unfold can_call. apply _. Defined.
#[export] Instance may_decision st a : Decision (may st a).
Proof. destruct a; cbn; apply _. Defined.

(** What a routine leaves, if it returns. *)
Definition ran (m : M kstate unit) (s : kstate) : option kstate :=
  match m s with Ok (_, s') => Some s' | _ => None end.

Definition cexec1 (lock : Z) (x : cact) (st : cstate) : option cstate :=
  match x with
  | Kernel a =>
      if decide (may st a) then
        s' ← ran (act_run lock a) (c_k st);
        Some (CState s' (match place_of st (c_cur st) with
                         | Wants c => <[c_cur st := entered (event_of (c_k st) a s') c]> (c_places st)
                         | _ => c_places st
                         end) (c_screen st) (c_done st))
      else None
  | Call c =>
      if decide (can_call st) then
        s' ← ran (console_acquire lock) (c_k st);
        Some (CState s' (<[c_cur st := entered (event_of (c_k st) Acquire s') c]> (c_places st)) (c_screen st) (c_done st))
      else None
  | Char =>
      match frames_of (c_k st) (c_cur st), place_of st (c_cur st) with
      | [], Prints c p (y :: r) =>
          Some (CState (c_k st) (<[c_cur st := Prints c (p ++ [y]) r]> (c_places st)) (c_screen st ++ [y]) (c_done st))
      | _, _ => None
      end
  | Return =>
      match frames_of (c_k st) (c_cur st), place_of st (c_cur st) with
      | [], Prints c p [] =>
          s' ← ran (console_release lock) (c_k st);
          Some (CState s' (<[c_cur st := Outside]> (c_places st)) (c_screen st) (c_done st ++ [(c_cur st, c)]))
      | _, _ => None
      end
  end.

Definition cexec (lock : Z) (xs : list cact) (st : cstate) : option cstate :=
  foldl (fun o x => o ≫= cexec1 lock x) (Some st) xs.

Lemma ran_Ok m s s' : ran m s = Some s' -> m s = Ok (tt, s').
Proof. unfold ran. destruct (m s) as [[[] s1]| | |]; by intros [= <-]. Qed.

Lemma cexec1_step lock x st st' : cexec1 lock x st = Some st' -> cstep lock st st'.
Proof.
  destruct x as [a|c| |]; unfold cexec1.
  - destruct (decide (may st a)) as [Hm|]; [|done]. intros (s' & Hr%ran_Ok & [= <-])%bind_Some. by apply (C_kernel lock st a s').
  - destruct (decide (can_call st)) as [Hc|]; [|done]. intros (s' & Hr%ran_Ok & [= <-])%bind_Some. by apply C_call.
  - destruct (frames_of _ _) eqn:Ef; [|done]. destruct (place_of st (c_cur st)) as [| |c p [|y r]] eqn:Ep; try done. intros [= <-].
    by apply C_put_char.
  - destruct (frames_of _ _) eqn:Ef; [|done]. destruct (place_of st (c_cur st)) as [| |c p [|y r]] eqn:Ep; try done.
    intros (s' & Hr%ran_Ok & [= <-])%bind_Some. by eapply C_return.
Qed.

Lemma cexec_steps lock xs st st' : cexec lock xs st = Some st' -> rtc (cstep lock) st st'.
Proof.
  unfold cexec. revert st. induction xs as [|x xs IH]; intros st; cbn; [by intros [= <-]|].
  destruct (cexec1 lock x st) as [st1|] eqn:E.
  - intros H. eapply rtc_l; [by eapply cexec1_step|by apply IH].
  - assert (Hn : foldl (fun o x => o ≫= cexec1 lock x) None xs = None) by (clear; induction xs; done). by rewrite Hn.
Qed.

(** The first thread prints the first letter of "ab" and is interrupted; the
    second one wants to print "F0" and has to wait; the first one goes on, and
    when it has returned, the second one prints. *)
Definition console_acts : list cact :=
  [Call (console_put_str [97; 98; 0]); Kernel Continue; Char; Kernel Tick; Kernel Continue;
   Call (console_put_int 0xF0); Kernel Continue; Kernel Idle; Kernel Continue; Char;
   Return; Kernel Continue; Kernel Yield; Kernel Continue; Kernel Continue; Kernel Continue; Char].

Definition console_after : option cstate := cexec 0xc0009000 console_acts (console_start mutex_kstate).

Lemma console_messages_whole_witness :
  match console_after with
  | Some st => c_screen st = [97; 98; 70] /\
      (exists begun, c_screen st = concat (text ∘ snd <$> c_done st) ++ begun /\
        (begun = [] \/ exists t c rest, place_of st t = Prints c begun rest /\ text c = begun ++ rest)) /\
      (forall t u c p r c' p' r', place_of st t = Prints c p r -> place_of st u = Prints c' p' r' -> t = u) /\
      (forall c p, place_of st (c_cur st) = Prints c p [] -> frames_of (c_k st) (c_cur st) = [] ->
        exists st', cstep 0xc0009000 st st' /\ c_done st' = c_done st ++ [(c_cur st, c)] /\ c_screen st' = c_screen st) /\
      (can_call st -> exists s', console_acquire 0xc0009000 (c_k st) = Ok (tt, s')) /\
      (forall a, may st a -> exists s', act_run 0xc0009000 a (c_k st) = Ok (tt, s'))
  | None => False
  end.
Proof.
  destruct console_after as [st|] eqn:E; [|by vm_compute in E].
  assert (Hs : option_map c_screen console_after = Some [97; 98; 70]) by (vm_compute; reflexivity).
  rewrite E in Hs. injection Hs as Hs. split; [exact Hs|].
  apply (console_messages_whole 0xc0009000 mutex_kstate st mutex_fresh); [|exact (cexec_steps _ _ _ _ E)].
  intros t. unfold frames_of. destruct (k_frames mutex_kstate !! t) as [l|] eqn:El; [|reflexivity].
  apply elem_of_list_to_map_2 in El. apply elem_of_cons in El as [[= -> ->]|El]; [reflexivity|].
  apply elem_of_cons in El as [[= -> ->]|El]; [reflexivity|]. destruct (not_elem_of_nil _ El).
Defined.
