(* ===== verification/Irq.v ===== *)
(** * Interrupt lines and the general handler (kernel/interrupt.c, device/timer.c)

    pic_init programs the two interrupt controllers (8259A) and frequency_set
    the counter behind the clock (8253), through their ports. The chips are what
    their data sheets say of the few commands that are used: a controller takes
    the four initialisation words in order, and after them its data port is the
    mask of its lines; the counter takes the low byte of its start value and
    then the high one. Every line that is left open raises the vector that its
    driver registers a handler for. *)

From Stdlib Require Import ZArith Lia String Ascii.
From stdpp Require Import base numbers list option.
From S2P Require Import Prelude Intr Screen.

Local Open Scope Z_scope.

(** ** The chips *)

(** One 8259A: the first vector, the mask, and which initialisation word the
    data port waits for (0: none). *)
Record pic := Pic { pic_base : Z; pic_mask : Z; pic_word : Z }.

Definition pic_ctrl (v : Z) (p : pic) : pic :=
  if Z.testbit v 4 then Pic (pic_base p) 0 2 else p.
Definition pic_data (v : Z) (p : pic) : pic :=
  if pic_word p =? 0 then Pic (pic_base p) v 0
  else if pic_word p =? 2 then Pic (Z.land v 0xf8) (pic_mask p) 3
  else if pic_word p =? 3 then Pic (pic_base p) (pic_mask p) 4
  else Pic (pic_base p) (pic_mask p) 0.

(** Counter 0 of the 8253: its mode, the low byte when only that has been
    written, and the start value. *)
Record pit := Pit { pit_mode : Z; pit_low : option Z; pit_start : Z }.

Definition pit_ctrl (v : Z) (p : pit) : pit :=
  if (Z.shiftr v 6 =? 0) && (Z.land (Z.shiftr v 4) 3 =? 3) then Pit (Z.land (Z.shiftr v 1) 7) None (pit_start p) else p.
Definition pit_data (v : Z) (p : pit) : pit :=
  match pit_low p with
  | None => Pit (pit_mode p) (Some v) (pit_start p)
  | Some l => Pit (pit_mode p) None (l + 256 * v)
  end.

Record chips := Chips { master : pic; slave : pic; counter0 : pit }.

(** ** The programs *)

Definition PIC_M_CTRL : Z := 0x20.
Definition PIC_M_DATA : Z := 0x21.
Definition PIC_S_CTRL : Z := 0xa0.
Definition PIC_S_DATA : Z := 0xa1.
Definition IRQ0_FREQUENCY : Z := 100.
Definition INPUT_FREQUENCY : Z := 1193180.
Definition COUNTER0_VALUE : Z := INPUT_FREQUENCY / IRQ0_FREQUENCY.
Definition CONTRER0_PORT : Z := 0x40.
Definition COUNTER0_NO : Z := 0.
Definition COUNTER_MODE : Z := 2.
Definition READ_WRITE_LATCH : Z := 3.
Definition PIT_CONTROL_PORT : Z := 0x43.

Definition outb (port data : Z) : M chips unit :=
  let v := u8 data in
  modify (fun c =>
    if port =? PIC_M_CTRL then Chips (pic_ctrl v (master c)) (slave c) (counter0 c)
    else if port =? PIC_M_DATA then Chips (pic_data v (master c)) (slave c) (counter0 c)
    else if port =? PIC_S_CTRL then Chips (master c) (pic_ctrl v (slave c)) (counter0 c)
    else if port =? PIC_S_DATA then Chips (master c) (pic_data v (slave c)) (counter0 c)
    else if port =? PIT_CONTROL_PORT then Chips (master c) (slave c) (pit_ctrl v (counter0 c))
    else if port =? CONTRER0_PORT then Chips (master c) (slave c) (pit_data v (counter0 c))
    else c).

Definition pic_init : M chips unit :=
  outb PIC_M_CTRL 0x11 ;;
  outb PIC_M_DATA 0x20 ;;
  outb PIC_M_DATA 0x04 ;;
  outb PIC_M_DATA 0x01 ;;
  outb PIC_S_CTRL 0x11 ;;
  outb PIC_S_DATA 0x28 ;;
  outb PIC_S_DATA 0x02 ;;
  outb PIC_S_DATA 0x01 ;;
  outb PIC_M_DATA 0xf8 ;;
  outb PIC_S_DATA 0xbf.

Definition frequency_set (counter_port counter_no rwl counter_mode counter_value : Z) : M chips unit :=
  outb PIT_CONTROL_PORT (u8 (Z.lor (Z.lor (Z.shiftl counter_no 6) (Z.shiftl rwl 4)) (Z.shiftl counter_mode 1))) ;;
  outb counter_port (u8 counter_value) ;;
  outb counter_port (u8 (Z.shiftr counter_value 8)).

(** timer_init, but for the handler. *)
Definition timer_frequency : M chips unit :=
  frequency_set CONTRER0_PORT COUNTER0_NO READ_WRITE_LATCH COUNTER_MODE (u16 COUNTER0_VALUE).

(** ** What comes of it *)

(** The vector that a line raises, if it is open; the slave's lines come
    through line 2 of the master. *)
Definition vector_of (c : chips) (irq : Z) : option Z :=
  if irq <? 8 then
    if Z.testbit (pic_mask (master c)) irq then None else Some (pic_base (master c) + irq)
  else if Z.testbit (pic_mask (master c)) 2 || Z.testbit (pic_mask (slave c)) (irq - 8) then None
  else Some (pic_base (slave c) + (irq - 8)).

(** ** The general handler *)

Definition chars (s : string) : list Z := (fun c => Z.of_N (N_of_ascii c)) <$> list_ascii_of_string s.

(** The names that exception_init sets. *)
Definition set_names (names : list (Z * string)) (t : list (list Z)) : list (list Z) :=
  foldl (fun t '(i, n) => <[Z.to_nat i := chars n]> t) t names.
Definition exception_names : list (list Z) :=
  set_names [(0, "#DE Divide Error"); (1, "#DE Debug Exception"); (2, "NMI Interrupt");
    (3, "#BP Breakpoint Exception"); (4, "#OF Overflow Exception"); (5, "#BR BOUND Range Exceeded Exception");
    (6, "#UD Invalid Opcode Exception"); (7, "#NM Device Not Available Exception"); (8, "#DF Double Fault Exception");
    (9, "Coprocessor Segment Overrun"); (10, "#TS Invalid TSS Exception"); (11, "#NP Segment Not Present");
    (12, "#SS Stack Fault Exception"); (13, "#GP General Protection Exception"); (14, "#PF Page-Fault Exception");
    (16, "#MF x87 FPU Floating-Point Error"); (17, "#AC Alignment Check Exception"); (18, "#MC Machine-Check Exception");
    (19, "#XF SIMD Floating-Point Exception")]%string
    (replicate (Z.to_nat IDT_DESC_CNT) (chars "unknown")).

(** What is done to the screen. *)
Inductive screen_op := Set_cursor (pos : Z) | Put (c : Z).
(** while(1): the handler does not return. *)
Inductive ending := Returns | Hangs.

Definition set_cursor (pos : Z) : M (list screen_op) unit := modify (fun l => l ++ [Set_cursor pos]).
Definition put_char (c : Z) : M (list screen_op) unit := modify (fun l => l ++ [Put c]).
Definition put_str (s : list Z) : M (list screen_op) unit := modify (fun l => l ++ (Put <$> put_str_chars s)).
Definition put_int (n : Z) : M (list screen_op) unit := modify (fun l => l ++ (Put <$> put_int_chars n)).

Definition newline (s : string) : list Z := 10 :: chars s.

(** [cr2] is the register with the address of a page fault. *)
Definition general_intr_handler (intr_name : list (list Z)) (cr2 vec_nr : Z) : M (list screen_op) ending :=
  if (vec_nr =? 0x27) || (vec_nr =? 0x2f) then ret Returns
  else
    set_cursor 0 ;;
    for_range 0 320 (fun _ => put_char 32) ;;
    set_cursor 0 ;;
    put_str (chars "!!!!!!!!!!        excetion messqage begin        !!!!!!!!!!") ;;
    set_cursor 88 ;;
    do name <- of_option (intr_name !! Z.to_nat vec_nr);
    put_str name ;;
    (if vec_nr =? 14 then
       put_str (newline " page fault addr is ") ;;
       put_int cr2
     else ret tt) ;;
    put_str (newline " !!!!!!!!!!        excetion message end        !!!!!!!!!!!") ;;
    ret Hangs.

(** ** Properties *)

(** The state that the chips are in after the programs, whatever they were. *)
Lemma pic_init_run c (Q : unit -> chips -> Prop) :
  Q tt (Chips (Pic 0x20 0xf8 0) (Pic 0x28 0xbf 0) (counter0 c)) -> wp pic_init Q c.
Proof. destruct c as [[b1 m1 w1] [b2 m2 w2] [md lo st]]. intros HQ. exact HQ. Qed.
Lemma timer_frequency_run c (Q : unit -> chips -> Prop) :
  Q tt (Chips (master c) (slave c) (Pit 2 None 11931)) -> wp timer_frequency Q c.
Proof. destruct c as [[b1 m1 w1] [b2 m2 w2] [md lo st]]. intros HQ. exact HQ. Qed.

(** Which lines are open then. *)
Lemma lines_open pt irq : 0 <= irq < 16 ->
  vector_of (Chips (Pic 0x20 0xf8 0) (Pic 0x28 0xbf 0) pt) irq = if decide (irq ∈ [0; 1; 2; 14]) then Some (0x20 + irq) else None.
Proof.
  intros Hi. assert (H : Forall (fun irq => vector_of (Chips (Pic 0x20 0xf8 0) (Pic 0x28 0xbf 0) (Pit 0 None 0)) irq =
    if decide (irq ∈ [0; 1; 2; 14]) then Some (0x20 + irq) else None) (seqZ 0 16)) by (apply (bool_decide_unpack _); vm_compute; exact I).
  rewrite list.Forall_forall in H. apply H. apply elem_of_seqZ. lia.
Qed.

(** After pic_init and timer_init the lines of the clock, the keyboard, the
    slave and the first IDE channel are open and all others closed; an open
    line [irq] raises the vector [0x20 + irq]; and the clock ticks 100 times a
    second, to within one part in ten thousand. *)
Theorem irq_lines c :
  exists c', (pic_init ;; timer_frequency) c = Ok (tt, c') /\
    (forall irq, 0 <= irq < 16 -> vector_of c' irq = if decide (irq ∈ [0; 1; 2; 14]) then Some (0x20 + irq) else None) /\
    pit_mode (counter0 c') = 2 /\ pit_start (counter0 c') * IRQ0_FREQUENCY <= INPUT_FREQUENCY /\
    INPUT_FREQUENCY * 10000 <= pit_start (counter0 c') * IRQ0_FREQUENCY * 10001.
Proof.
  eexists. split.
  - apply wp_eq. rewrite wp_bind. apply pic_init_run, timer_frequency_run. split; [done|]. reflexivity.
  - split; [intros irq Hi; by apply lines_open|]. cbn [counter0]. by vm_compute.
Qed.
