(* ===== verification/Timer.v ===== *)
(** * Sleeping (device/timer.c: ticks_to_sleep, mtime_sleep)

    A thread that sleeps gives up the processor again and again until the
    counter of clock interrupts, a 32-bit integer that wraps around, has gone
    far enough. The other threads, and the invariant they keep, are those of
    [Mutex]. *)

From Stdlib Require Import ZArith Lia.
From stdpp Require Import base numbers list gmap option.
From S2P Require Import Prelude Intr DList ListHeap Paging Thread Sync Mutex.

Local Open Scope Z_scope.

(** The ticks since the start, although the counter wraps. *)
Lemma ticks_since T0 T : T0 <= T < T0 + 2 ^ 32 -> u32 (u32 T - u32 T0) = T - T0.
Proof.
  intros HT. unfold u32. rewrite Zminus_mod_idemp_l, Zminus_mod_idemp_r. apply Z.mod_small. lia.
Qed.

(** A number of ticks that is at least as long as [ms] milliseconds. *)
Lemma ticks_of_ms ms d : 0 < ms <= 2 ^ 32 - 10 ->
  (d <? DIV_ROUND_UP ms mil_seconds_per_intr) = (mil_seconds_per_intr * d <? ms).
Proof.
  intros Hms. unfold DIV_ROUND_UP, mil_seconds_per_intr. rewrite u32_small by lia.
  destruct (Z.ltb_spec d ((ms + 10 - 1) / 10)), (Z.ltb_spec (10 * d) ms); try done; dlia.
Qed.

Section sleep.
Context (lock : Z).

(** [C31] Sleeping is exact. mtime_sleep gives up the processor, and remembers
    the time [T0]. Whenever the sleeping thread gets the processor back, at a
    time [T] less than 2^32 ticks later, it returns if [ms] milliseconds have
    passed, at 10 milliseconds a tick, and goes on sleeping if not; the counter
    may have wrapped around in between. *)
Theorem mtime_sleep_exact s o T0 ms :
  good lock s o -> frames_of s (cur_of s) = [] -> cur_of s <> k_idle s -> k_ticks s = u32 T0 -> 0 < ms <= 2 ^ 32 - 10 ->
  exists s1 st n, mtime_sleep ms s = Ok (tt, s1) /\ good lock s1 o /\
    frames_of s1 (cur_of s) = [F_thread_yield st; F_sleep (u32 T0) n] /\
    forall s2 o2 T, good lock s2 o2 -> cur_of s2 = cur_of s -> frames_of s2 (cur_of s) = [F_sleep (u32 T0) n] ->
      cur_of s <> k_idle s2 -> k_ticks s2 = u32 T -> T0 <= T < T0 + 2 ^ 32 ->
      exists s3, resume s2 = Ok (tt, s3) /\ good lock s3 o2 /\
        if mil_seconds_per_intr * (T - T0) <? ms then exists st, frames_of s3 (cur_of s) = [F_thread_yield st; F_sleep (u32 T0) n]
        else cur_of s3 = cur_of s /\ frames_of s3 (cur_of s) = [].
Proof using.
  intros Hg Hf Hi Ht Hms. set (n := DIV_ROUND_UP ms mil_seconds_per_intr).
  assert (Hn : 0 < n) by (unfold n, DIV_ROUND_UP, mil_seconds_per_intr; rewrite u32_small by lia; dlia).
  assert (Hw : wp (mtime_sleep ms) (fun _ s1 => good lock s1 o /\ exists st, frames_of s1 (cur_of s) = [F_thread_yield st; F_sleep (u32 T0) n]) s).
  { unfold mtime_sleep. fold n. wp_assert. unfold ticks_to_sleep. wp_simp. apply (sleep_loop_good lock s o); [done..|].
    intros s' Hg'. rewrite Z.sub_diag, Ht. rewrite (proj2 (Z.ltb_lt (u32 0) n)) by done. intros [st Hf']. by eauto. }
  apply wp_Ok in Hw as ([] & s1 & Hr & Hg1 & st & Hf1). exists s1, st, n. split; [done|]. split; [done|]. split; [done|].
  intros s2 o2 T Hg2 Hc Hf2 Hi2 Ht2 HT. rewrite <- Hc in Hf2, Hi2.
  assert (Hw : wp resume (fun _ s3 => good lock s3 o2 /\
    if mil_seconds_per_intr * (T - T0) <? ms then exists st, frames_of s3 (cur_of s) = [F_thread_yield st; F_sleep (u32 T0) n]
    else cur_of s3 = cur_of s /\ frames_of s3 (cur_of s) = []) s2).
  { apply (resume_sleep_good lock s2 o2 (u32 T0) n); [done..|]. intros s3 Hg3. rewrite Ht2, ticks_since by done.
    unfold n. rewrite ticks_of_ms by done. fold n. rewrite Hc. destruct (_ <? ms); [done|]. intros ->. split; [done|]. split; [done|].
    rewrite <- Hc. change (frames_of (set_frames (<[cur_of s2:=[]]> (k_frames s2)) s2) (cur_of s2) = []). by rewrite frames_of_set, decide_True. }
  apply wp_Ok in Hw as ([] & s3 & Hr3 & Hg3 & H3). by exists s3.
Qed.
End sleep.

Lemma mtime_sleep_exact_witness :
  exists s1 st n, mtime_sleep 25 mutex_kstate = Ok (tt, s1) /\ good 0xc0009000 s1 None /\
    frames_of s1 (cur_of mutex_kstate) = [F_thread_yield st; F_sleep (u32 (2 ^ 32)) n] /\
    forall s2 o2 T, good 0xc0009000 s2 o2 -> cur_of s2 = cur_of mutex_kstate ->
      frames_of s2 (cur_of mutex_kstate) = [F_sleep (u32 (2 ^ 32)) n] ->
      cur_of mutex_kstate <> k_idle s2 -> k_ticks s2 = u32 T -> 2 ^ 32 <= T < 2 ^ 32 + 2 ^ 32 ->
      exists s3, resume s2 = Ok (tt, s3) /\ good 0xc0009000 s3 o2 /\
        if mil_seconds_per_intr * (T - 2 ^ 32) <? 25
        then exists st, frames_of s3 (cur_of mutex_kstate) = [F_thread_yield st; F_sleep (u32 (2 ^ 32)) n]
        else cur_of s3 = cur_of mutex_kstate /\ frames_of s3 (cur_of mutex_kstate) = [].
Proof.
  apply (mtime_sleep_exact 0xc0009000 mutex_kstate None (2 ^ 32) 25 (fresh_good _ _ mutex_fresh));
    [reflexivity|vm_compute; congruence|reflexivity|lia].
Defined.

(** The rounding up of the milliseconds wraps as well: a sleep of the longest
    times that fit 32 bits, like one of no time at all, stops the kernel. *)
Lemma mtime_sleep_panics ms s : ms = 0 \/ 2 ^ 32 - 10 < ms < 2 ^ 32 -> mtime_sleep ms s = Panic.
Proof.
  intros Hms. unfold mtime_sleep. assert (E : DIV_ROUND_UP ms mil_seconds_per_intr = 0).
  { unfold DIV_ROUND_UP, mil_seconds_per_intr, u32. destruct Hms as [->|Hms]; [done|].
    rewrite <- (Z.mod_unique_pos (ms + 10 - 1) (2 ^ 32) 1 (ms + 9 - 2 ^ 32)) by lia. apply Z.div_small. lia. }
  by rewrite E.
Qed.
