(* ===== verification/CString.v ===== *)
(** * C strings and memory blocks (lib/string.c)

    Memory is a map from addresses to bytes (0..255); an address outside the
    map faults. [char] is signed, as gcc makes it on x86: the comparisons read
    the bytes through [s8]. A loop that walks memory touches a new address in
    every round, so the size of the memory bounds the number of rounds. *)

From Stdlib Require Import ZArith Lia.
From stdpp Require Import base numbers list gmap option.
From S2P Require Import Prelude DList.

Local Open Scope Z_scope.

Abbreviation bmem := (gmap Z Z).

Definition ld8 (p : Z) : M bmem Z := do m <- get; of_option (m !! p).
Definition st8 (p v : Z) : M bmem unit :=
  do m <- get; of_option (m !! p) ;; put (<[p := u8 v]> m).
(** [*p] for a [char *p]. *)
Definition ldc (p : Z) : M bmem Z := do b <- ld8 p; ret (s8 b).

Definition mem_fuel : M bmem nat := gets (fun m => S (S (size m))).

Definition memset (dst_ value size : Z) : M bmem unit :=
  ASSERT (negb (dst_ =? NULL)) ;;
  loop (S (Z.to_nat size)) (fun x : Z * Z =>
    let '(dst, n) := x in
    if 0 <? n then st8 dst value ;; ret (inl (dst + 1, n - 1)) else ret (inr tt)) (dst_, size).

Definition memcpy (dst_ src_ size : Z) : M bmem unit :=
  ASSERT (negb (dst_ =? NULL) && negb (src_ =? NULL)) ;;
  loop (S (Z.to_nat size)) (fun x : Z * Z * Z =>
    let '(dst, src, n) := x in
    if 0 <? n then do b <- ld8 src; st8 dst b ;; ret (inl (dst + 1, src + 1, n - 1))
    else ret (inr tt)) (dst_, src_, size).

Definition memcmp (a_ b_ size : Z) : M bmem Z :=
  ASSERT (negb (a_ =? NULL) || negb (b_ =? NULL)) ;;
  loop (S (Z.to_nat size)) (fun x : Z * Z * Z =>
    let '(a, b, n) := x in
    if 0 <? n then
      do ca <- ldc a; do cb <- ldc b;
      if negb (ca =? cb) then ret (inr (if cb <? ca then 1 else -1))
      else ret (inl (a + 1, b + 1, n - 1))
    else ret (inr 0)) (a_, b_, size).

(** [*dst++ = *src++], until the byte copied is zero. *)
Definition copy_step (x : Z * Z) : M bmem (Z * Z + unit) :=
  let '(dst, src) := x in
  do b <- ld8 src; st8 dst b ;;
  if b =? 0 then ret (inr tt) else ret (inl (dst + 1, src + 1)).

Definition strcpy (dst_ src_ : Z) : M bmem Z :=
  ASSERT (negb (dst_ =? NULL) && negb (src_ =? NULL)) ;;
  do fuel <- mem_fuel;
  loop fuel copy_step (dst_, src_) ;;
  ret dst_.

Definition strlen (str : Z) : M bmem Z :=
  ASSERT (negb (str =? NULL)) ;;
  do fuel <- mem_fuel;
  do p <- loop fuel (fun p =>
    do b <- ld8 p;
    if b =? 0 then ret (inr (p + 1)) else ret (inl (p + 1))) str;
  ret (u32 (p - str - 1)).

Definition strcmp (a_ b_ : Z) : M bmem Z :=
  ASSERT (negb (a_ =? NULL) && negb (b_ =? NULL)) ;;
  do fuel <- mem_fuel;
  do ' (a, b) <- loop fuel (fun x : Z * Z =>
    let '(a, b) := x in
    do ca <- ldc a;
    if ca =? 0 then ret (inr (a, b))
    else do cb <- ldc b; if ca =? cb then ret (inl (a + 1, b + 1)) else ret (inr (a, b)))
    (a_, b_);
  do ca <- ldc a; do cb <- ldc b;
  ret (if ca <? cb then -1 else if cb <? ca then 1 else 0).

(** [ch] is a uint8_t, so it is compared as a non-negative int with a signed
    char. *)
Definition strchr (str_ ch : Z) : M bmem Z :=
  ASSERT (negb (str_ =? NULL)) ;;
  do fuel <- mem_fuel;
  loop fuel (fun str =>
    do c <- ldc str;
    if c =? 0 then ret (inr NULL)
    else if c =? ch then ret (inr str) else ret (inl (str + 1))) str_.

Definition strrchr (str_ ch : Z) : M bmem Z :=
  ASSERT (negb (str_ =? NULL)) ;;
  do fuel <- mem_fuel;
  loop fuel (fun x : Z * Z =>
    let '(str, last_char) := x in
    do c <- ldc str;
    if c =? 0 then ret (inr last_char)
    else ret (inl (str + 1, if c =? ch then str else last_char))) (str_, NULL).

Definition strcat (dst_ src_ : Z) : M bmem Z :=
  ASSERT (negb (dst_ =? NULL) && negb (src_ =? NULL)) ;;
  do fuel <- mem_fuel;
  do str <- loop fuel (fun str =>
    do b <- ld8 str;
    if b =? 0 then ret (inr (str + 1)) else ret (inl (str + 1))) dst_;
  let str := str - 1 in
  loop fuel copy_step (str, src_) ;;
  ret dst_.

Definition strchrs (str ch : Z) : M bmem Z :=
  ASSERT (negb (str =? NULL)) ;;
  do fuel <- mem_fuel;
  loop fuel (fun x : Z * Z =>
    let '(p, ch_cnt) := x in
    do c <- ldc p;
    if c =? 0 then ret (inr ch_cnt)
    else ret (inl (p + 1, if c =? ch then u32 (ch_cnt + 1) else ch_cnt))) (str, 0).

(** ** What memory holds *)

(** The bytes [l] lie at [p]. *)
Fixpoint bytes_at (m : bmem) (p : Z) (l : list Z) : Prop :=
  match l with [] => True | b :: l' => m !! p = Some b /\ bytes_at m (p + 1) l' end.

(** The string [l] lies at [p], with its terminator. *)
Definition is_byte (b : Z) : Prop := 0 <= b < 256.
Definition cstr (m : bmem) (p : Z) (l : list Z) : Prop :=
  bytes_at m p (l ++ [0]) /\ Forall (fun b => 0 < b < 256) l.

(** [n] addresses from [p] on exist. *)
Definition mapped (m : bmem) (p : Z) (n : nat) : Prop :=
  forall i, 0 <= i < Z.of_nat n -> is_Some (m !! (p + i)).

(** The memory [m] with the bytes [l] written at [p]. *)
Fixpoint write_bytes (m : bmem) (p : Z) (l : list Z) : bmem :=
  match l with [] => m | b :: l' => write_bytes (<[p := b]> m) (p + 1) l' end.

Definition disjoint_ranges (p : Z) (n : nat) (q : Z) (k : nat) : Prop :=
  p + Z.of_nat n <= q \/ q + Z.of_nat k <= p.

Lemma bytes_at_app m p l1 l2 :
  bytes_at m p (l1 ++ l2) <-> bytes_at m p l1 /\ bytes_at m (p + Z.of_nat (length l1)) l2.
Proof.
  revert p. induction l1 as [|b l1 IH]; intros p; cbn [app bytes_at length].
  - rewrite Z.add_0_r. tauto.
  - rewrite IH. replace (p + 1 + Z.of_nat (length l1)) with (p + Z.of_nat (S (length l1))) by lia.
    tauto.
Qed.

Lemma bytes_at_lookup m p l i b : bytes_at m p l -> l !! i = Some b -> m !! (p + Z.of_nat i) = Some b.
Proof.
  revert p i. induction l as [|c l IH]; intros p [|i]; cbn; try done.
  - intros [Hc _] [= ->]. by rewrite Z.add_0_r.
  - intros [_ Hl] Hi. replace (p + Z.of_nat (S i)) with (p + 1 + Z.of_nat i) by lia. by apply IH.
Qed.

Lemma bytes_at_intro m p l :
  (forall i b, l !! i = Some b -> m !! (p + Z.of_nat i) = Some b) -> bytes_at m p l.
Proof.
  revert p. induction l as [|c l IH]; intros p H; cbn; [done|]. split.
  - rewrite <- (Z.add_0_r p). by apply (H 0%nat).
  - apply IH. intros i b Hi. replace (p + 1 + Z.of_nat i) with (p + Z.of_nat (S i)) by lia.
    by apply H.
Qed.

Lemma bytes_at_frame m m' p l :
  (forall q, p <= q < p + Z.of_nat (length l) -> m' !! q = m !! q) ->
  bytes_at m p l -> bytes_at m' p l.
Proof.
  intros Hq H. apply bytes_at_intro. intros i b Hi. rewrite Hq.
  - by eapply bytes_at_lookup.
  - apply lookup_lt_Some in Hi. lia.
Qed.

Lemma write_bytes_out m p l q :
  q < p \/ p + Z.of_nat (length l) <= q -> write_bytes m p l !! q = m !! q.
Proof.
  revert m p. induction l as [|b l IH]; intros m p Hq; cbn; [done|].
  cbn in Hq. rewrite IH by lia. apply lookup_insert_ne. lia.
Qed.

Lemma write_bytes_at m p l : bytes_at (write_bytes m p l) p l.
Proof.
  revert m p. induction l as [|b l IH]; intros m p; cbn; [done|]. split; [|apply IH].
  rewrite write_bytes_out by lia. apply lookup_insert_eq.
Qed.

Lemma write_bytes_app m p l1 l2 :
  write_bytes m p (l1 ++ l2) = write_bytes (write_bytes m p l1) (p + Z.of_nat (length l1)) l2.
Proof.
  revert m p. induction l1 as [|b l1 IH]; intros m p; cbn; [by rewrite Z.add_0_r|].
  rewrite IH. f_equal. lia.
Qed.

Lemma write_bytes_snoc m p l b :
  write_bytes m p (l ++ [b]) = <[p + Z.of_nat (length l) := b]> (write_bytes m p l).
Proof. by rewrite write_bytes_app. Qed.

Lemma mapped_write m p l q n : mapped m q n -> mapped (write_bytes m p l) q n.
Proof.
  revert m p. induction l as [|b l IH]; intros m p H; cbn; [done|]. apply IH.
  intros i Hi. destruct (decide (p = q + i)) as [->|Hne].
  - rewrite lookup_insert_eq. by eexists.
  - rewrite lookup_insert_ne by done. by apply H.
Qed.

(** Rounds that touch new addresses are bounded by the size of the memory. *)
Lemma mapped_size m p n : mapped m p n -> (n <= size m)%nat.
Proof.
  intros H. rewrite <- size_dom.
  set (l := (fun i => p + Z.of_nat i) <$> seq 0 n).
  assert (Hnd : NoDup l) by (apply NoDup_fmap; [intros a b; lia | apply NoDup_seq]).
  replace n with (length l) by (unfold l; by rewrite length_fmap, length_seq).
  rewrite <- (size_list_to_set (C := gset Z) l Hnd). apply subseteq_size.
  intros x Hx. apply elem_of_list_to_set in Hx. apply list_elem_of_fmap in Hx as (i & -> & Hi).
  apply elem_of_seq in Hi. apply elem_of_dom. apply H. lia.
Qed.

Lemma bytes_at_mapped m p l : bytes_at m p l -> mapped m p (length l).
Proof.
  intros H i Hi. destruct (lookup_lt_is_Some_2 l (Z.to_nat i)) as [b Hb]; [lia|].
  exists b. rewrite <- (bytes_at_lookup m p l (Z.to_nat i) b H Hb). f_equal. lia.
Qed.

Lemma cstr_size m p l : cstr m p l -> (length l < size m)%nat.
Proof.
  intros [H _]. apply bytes_at_mapped, mapped_size in H. rewrite length_app in H. cbn in H. lia.
Qed.

Lemma wp_ld8 p b (Q : Z -> bmem -> Prop) m : m !! p = Some b -> Q b m -> wp (ld8 p) Q m.
Proof. intros H HQ. unfold ld8. wp_simp. wp_load H. done. Qed.

Lemma wp_ldc p b (Q : Z -> bmem -> Prop) m : m !! p = Some b -> Q (s8 b) m -> wp (ldc p) Q m.
Proof. intros H HQ. unfold ldc. wp_simp. by eapply wp_ld8. Qed.

Lemma wp_st8 p v (Q : unit -> bmem -> Prop) m :
  is_Some (m !! p) -> Q tt (<[p := u8 v]> m) -> wp (st8 p v) Q m.
Proof. intros [b H] HQ. unfold st8. wp_simp. wp_load H. done. Qed.

Lemma s8_inj a b : 0 <= a < 256 -> 0 <= b < 256 -> s8 a = s8 b -> a = b.
Proof. unfold s8. intros. dlia. Qed.
Lemma s8_zero a : 0 <= a < 256 -> s8 a = 0 <-> a = 0.
Proof. unfold s8. intros. dlia. Qed.
Lemma s8_ascii a : 0 <= a < 128 -> s8 a = a.
Proof. unfold s8. intros. dlia. Qed.

Lemma Forall_elem {A} (P : A -> Prop) l x : Forall P l -> x ∈ l -> P x.
Proof. rewrite list.Forall_forall. auto. Qed.

(** ** Memory blocks *)

Lemma memset_run m p v n (Q : unit -> bmem -> Prop) :
  p <> NULL -> 0 <= n -> mapped m p (Z.to_nat n) -> 0 <= v < 256 ->
  Q tt (write_bytes m p (replicate (Z.to_nat n) v)) -> wp (memset p v n) Q m.
Proof.
  intros Hp Hn Hm Hv HQ. unfold memset. wp_simp. apply wp_ASSERT.
  split; [by apply negb_true_iff, Z.eqb_neq|].
  apply (wp_loop_along (fun (l : list Z) (x : Z * Z) m' =>
    exists k : nat, x = (p + Z.of_nat k, n - Z.of_nat k) /\ (k + length l = Z.to_nat n)%nat /\
      m' = write_bytes m p (replicate k v)) _ _ _ (replicate (Z.to_nat n) 0)).
  - intros e l' x m' (k & -> & Hk & ->). cbn in Hk.
    destruct (Z.ltb_spec 0 (n - Z.of_nat k)); [|lia]. wp_simp. apply wp_st8.
    + apply mapped_write with (n := Z.to_nat n); [done|lia].
    + wp_simp. exists (S k). split; [tuple_lia|]. split; [lia|].
      rewrite (u8_small v), replicate_S_end, write_bytes_snoc, length_replicate by done. done.
  - intros x m' (k & -> & Hk & ->). cbn in Hk.
    destruct (Z.ltb_spec 0 (n - Z.of_nat k)); [lia|]. wp_simp.
    by replace k with (Z.to_nat n) by lia.
  - exists 0%nat. rewrite length_replicate. split; [tuple_lia|]. done.
  - rewrite length_replicate. lia.
Qed.

(** memcpy of bytes that lie apart from their destination. *)
Lemma memcpy_run m dst src l (Q : unit -> bmem -> Prop) :
  dst <> NULL -> src <> NULL -> bytes_at m src l -> Forall is_byte l ->
  mapped m dst (length l) -> disjoint_ranges dst (length l) src (length l) ->
  Q tt (write_bytes m dst l) -> wp (memcpy dst src (Z.of_nat (length l))) Q m.
Proof.
  intros Hd Hs Hl Hb Hm Hdis HQ. unfold memcpy. wp_simp. apply wp_ASSERT. split.
  { apply andb_true_iff. by split; apply negb_true_iff, Z.eqb_neq. }
  apply (wp_loop_along (fun (r : list Z) (x : Z * Z * Z) m' =>
    exists pre, l = pre ++ r /\
      x = (dst + Z.of_nat (length pre), src + Z.of_nat (length pre), Z.of_nat (length r)) /\
      m' = write_bytes m dst pre) _ _ _ l).
  - intros e r x m' (pre & E & -> & ->). cbn [length].
    assert (He : is_byte e) by (apply (Forall_elem _ l _ Hb); rewrite E; set_solver).
    destruct (Z.ltb_spec 0 (Z.of_nat (S (length r)))); [|lia]. wp_simp.
    assert (Hlen : (length pre < length l)%nat) by (rewrite E, length_app; cbn; lia).
    eapply wp_ld8.
    { rewrite write_bytes_out by (unfold disjoint_ranges in Hdis; lia).
      apply (bytes_at_lookup m src l); [done|]. rewrite E. apply list_lookup_middle. done. }
    wp_simp. apply wp_st8; [apply mapped_write with (n := length l); [done|lia]|].
    wp_simp. exists (pre ++ [e]). rewrite <- app_assoc, length_app, u8_small by done. cbn.
    split; [done|]. split; [tuple_lia|]. by rewrite write_bytes_snoc.
  - intros x m' (pre & E & -> & ->). rewrite app_nil_r in E. subst pre. by wp_simp.
  - exists []. cbn. split; [done|]. split; [tuple_lia | done].
  - lia.
Qed.

(** The comparison memcmp makes, on sequences of bytes. *)
Fixpoint bytes_cmp (a b : list Z) : Z :=
  match a, b with
  | x :: a', y :: b' =>
      if x =? y then bytes_cmp a' b' else if s8 y <? s8 x then 1 else -1
  | _, _ => 0
  end.

Lemma bytes_cmp_eq a b : length a = length b -> bytes_cmp a b = 0 <-> a = b.
Proof.
  revert b. induction a as [|x a IH]; intros [|y b] Hl; try done.
  cbn. destruct (Z.eqb_spec x y) as [->|Hne].
  - rewrite IH by (cbn in Hl; lia). naive_solver.
  - destruct (s8 y <? s8 x); naive_solver.
Qed.

Lemma bytes_cmp_app p a b : bytes_cmp (p ++ a) (p ++ b) = bytes_cmp a b.
Proof. induction p as [|x p IH]; [done|]. cbn. by rewrite Z.eqb_refl. Qed.

Lemma memcmp_run m p q a b (Q : Z -> bmem -> Prop) :
  p <> NULL -> bytes_at m p a -> bytes_at m q b -> length a = length b ->
  Forall is_byte a -> Forall is_byte b ->
  Q (bytes_cmp a b) m -> wp (memcmp p q (Z.of_nat (length a))) Q m.
Proof.
  intros Hp Ha Hb Hl Fa Fb HQ. unfold memcmp. wp_simp. apply wp_ASSERT. split.
  { apply orb_true_iff. left. by apply negb_true_iff, Z.eqb_neq. }
  apply (wp_loop_along (fun (r : list Z) (x : Z * Z * Z) m' => m' = m /\
    exists pre r', a = pre ++ r /\ b = pre ++ r' /\
      x = (p + Z.of_nat (length pre), q + Z.of_nat (length pre), Z.of_nat (length r)))
    _ _ _ a).
  - intros e r x m' (-> & pre & r' & Ea & Eb & ->). cbn [length].
    destruct (Z.ltb_spec 0 (Z.of_nat (S (length r)))); [|lia].
    destruct r' as [|e' r'].
    { rewrite Ea, Eb, !length_app in Hl. cbn in Hl. lia. }
    assert (He : is_byte e) by (apply (Forall_elem _ a _ Fa); rewrite Ea; set_solver).
    assert (He' : is_byte e') by (apply (Forall_elem _ b _ Fb); rewrite Eb; set_solver).
    wp_simp. eapply wp_ldc.
    { apply (bytes_at_lookup m p a); [done|]. rewrite Ea. by apply list_lookup_middle. }
    wp_simp. eapply wp_ldc.
    { apply (bytes_at_lookup m q b); [done|]. rewrite Eb. by apply list_lookup_middle. }
    rewrite Ea, Eb, bytes_cmp_app in HQ. cbn [bytes_cmp] in HQ.
    destruct (Z.eqb_spec (s8 e) (s8 e')) as [Hse|Hse]; cbn [negb]; wp_simp.
    + apply s8_inj in Hse; [|done|done]. subst e'. split; [done|].
      exists (pre ++ [e]), r'. rewrite <- !app_assoc, length_app. cbn.
      split; [done|]. split; [done|]. tuple_lia.
    + rewrite (proj2 (Z.eqb_neq e e')) in HQ by (intros ->; done). exact HQ.
  - intros x m' (-> & pre & r' & Ea & Eb & ->). rewrite app_nil_r in Ea. subst pre. wp_simp.
    rewrite Eb, length_app in Hl. assert (r' = []) as -> by (destruct r'; [done|cbn in Hl; lia]).
    rewrite app_nil_r in Eb. subst b. by rewrite (proj2 (bytes_cmp_eq a a eq_refl) eq_refl) in HQ.
  - split; [done|]. exists [], b. cbn. split; [done|]. split; [done|]. tuple_lia.
  - lia.
Qed.

(** ** Strings *)

(** Walking over the string [l] at [p]: [at_char] is the state of a loop that
    has the suffix [r] in front of it. *)
Definition at_char (m : bmem) (p : Z) (l r : list Z) (pos : Z) : Prop :=
  exists pre, l = pre ++ r /\ pos = p + Z.of_nat (length pre).

Lemma at_char_start m p l : at_char m p l l p.
Proof. exists []. cbn. split; [done|lia]. Qed.

Lemma at_char_next m p l e r pos : at_char m p l (e :: r) pos -> at_char m p l r (pos + 1).
Proof.
  intros (pre & -> & ->). exists (pre ++ [e]). rewrite <- app_assoc, length_app. cbn.
  split; [done|lia].
Qed.

Lemma at_char_load m p l r pos :
  cstr m p l -> at_char m p l r pos -> m !! pos = Some (hd 0 r).
Proof.
  intros [H _] (pre & -> & ->). apply (bytes_at_lookup m p ((pre ++ r) ++ [0])); [done|].
  rewrite <- app_assoc. replace (r ++ [0]) with (hd 0 r :: tl (r ++ [0])) by (by destruct r).
  by apply list_lookup_middle.
Qed.

Lemma cstr_byte m p l e : cstr m p l -> e ∈ l -> 0 < e < 256.
Proof. intros [_ H] He. exact (Forall_elem _ _ _ H He). Qed.

Lemma at_char_byte m p l e r pos : cstr m p l -> at_char m p l (e :: r) pos -> 0 < e < 256.
Proof. intros H (pre & -> & _). apply (cstr_byte m p _ e H). set_solver. Qed.

Lemma cstr_frame m m' p l :
  (forall q, p <= q <= p + Z.of_nat (length l) -> m' !! q = m !! q) -> cstr m p l -> cstr m' p l.
Proof.
  intros H [Hl Hb]. split; [|done]. eapply bytes_at_frame; [|exact Hl].
  intros q Hq. rewrite length_app in Hq. cbn in Hq. apply H. lia.
Qed.

(** The rounds of a loop over a string: [body] keeps [I] as long as it meets
    characters and leaves at the terminator at the latest. *)
Lemma wp_cstr_walk {X A} m p l (pos : X -> Z) (I : list Z -> X -> Prop)
    (body : X -> M bmem (X + A)) (Q : A -> bmem -> Prop) x fuel :
  cstr m p l -> at_char m p l l (pos x) -> I l x -> (length l < fuel)%nat ->
  (forall e r x, at_char m p l (e :: r) (pos x) -> I (e :: r) x ->
     wp (body x) (fun res m' => match res with
       | inl x' => m' = m /\ pos x' = pos x + 1 /\ I r x' | inr y => Q y m' end) m) ->
  (forall x, at_char m p l [] (pos x) -> I [] x ->
     wp (body x) (fun res m' => match res with inl _ => False | inr y => Q y m' end) m) ->
  wp (loop fuel body x) Q m.
Proof.
  intros Hc Hat HI Hf Hstep Hend.
  apply (wp_loop_along (fun r x m' => m' = m /\ at_char m p l r (pos x) /\ I r x) _ _ _ l).
  - intros e r x' m' (-> & Ha & HI'). eapply wp_mono; [by apply (Hstep e r)|].
    intros [x''|y] m'; [|done]. intros (-> & -> & HI''). split; [done|].
    split; [by eapply at_char_next|done].
  - intros x' m' (-> & Ha & HI'). by apply Hend.
  - done.
  - done.
Qed.

Ltac cstr_char Hc Ha := first
  [eapply wp_ld8; [exact (at_char_load _ _ _ _ _ Hc Ha)|]
  |eapply wp_ldc; [exact (at_char_load _ _ _ _ _ Hc Ha)|]]; cbn [hd].

Ltac cstr_end Hc Ha :=
  cstr_char Hc Ha; change (s8 0) with 0; change (0 =? 0) with true; cbn beta iota; wp_simp.

Lemma strlen_run m p l (Q : Z -> bmem -> Prop) :
  p <> NULL -> cstr m p l -> Q (u32 (Z.of_nat (length l))) m -> wp (strlen p) Q m.
Proof.
  intros Hp Hc HQ. unfold strlen, mem_fuel. wp_simp. apply wp_ASSERT.
  split; [by apply negb_true_iff, Z.eqb_neq|]. wp_simp.
  pose proof (cstr_size m p l Hc).
  apply (wp_cstr_walk m p l id (fun _ _ => True)); [done|apply at_char_start|done|lia|..].
  - intros e r x Ha _. wp_simp. cstr_char Hc Ha. pose proof (at_char_byte _ _ _ _ _ _ Hc Ha).
    rewrite (proj2 (Z.eqb_neq e 0)) by lia. by wp_simp.
  - intros x Ha _. wp_simp. cstr_end Hc Ha. destruct Ha as (pre & E & Hx).
    rewrite app_nil_r in E. subst pre. unfold id in Hx. subst x.
    replace (p + Z.of_nat (length l) + 1 - p - 1) with (Z.of_nat (length l)) by lia. exact HQ.
Qed.

Lemma s8_neq e ch : 0 < e < 256 -> 0 <= ch < 128 -> (s8 e =? ch) = (e =? ch).
Proof. intros. unfold s8. destruct (Z.eqb_spec e ch); [subst; apply Z.eqb_eq; dlia | apply Z.eqb_neq; dlia]. Qed.

(** The index of the first and of the last [c] in [l]. *)
Fixpoint first_index (c : Z) (l : list Z) : option Z :=
  match l with
  | [] => None
  | x :: l' => if x =? c then Some 0 else Z.succ <$> first_index c l'
  end.
Fixpoint last_index (c : Z) (l : list Z) : option Z :=
  match l with
  | [] => None
  | x :: l' =>
      match last_index c l' with
      | Some i => Some (i + 1)
      | None => if x =? c then Some 0 else None
      end
  end.

(** [p + i] for the index [i], and the null pointer without one. *)
Definition ptr_to (p : Z) (i : option Z) : Z := default NULL ((fun i => p + i) <$> i).

Lemma strchr_run m p l ch (Q : Z -> bmem -> Prop) :
  p <> NULL -> cstr m p l -> 0 < ch < 128 -> Q (ptr_to p (first_index ch l)) m ->
  wp (strchr p ch) Q m.
Proof.
  intros Hp Hc Hch HQ. unfold strchr, mem_fuel. wp_simp. apply wp_ASSERT.
  split; [by apply negb_true_iff, Z.eqb_neq|]. wp_simp. pose proof (cstr_size m p l Hc).
  apply (wp_cstr_walk m p l id (fun r pos =>
    ptr_to p (first_index ch l) = ptr_to pos (first_index ch r)));
    [done|apply at_char_start|done|lia|..].
  - intros e r x Ha HI. wp_simp. cstr_char Hc Ha. pose proof (at_char_byte _ _ _ _ _ _ Hc Ha) as He.
    rewrite (proj2 (Z.eqb_neq (s8 e) 0)) by (rewrite s8_zero; lia). rewrite s8_neq by lia.
    cbn [first_index] in HI. destruct (e =? ch); wp_simp.
    + rewrite HI in HQ. unfold ptr_to in HQ. cbn in HQ. by rewrite Z.add_0_r in HQ.
    + split; [done|]. split; [done|]. rewrite HI. unfold ptr_to, id.
      destruct (first_index ch r); cbn; [lia|done].
  - intros x Ha HI. wp_simp. cstr_end Hc Ha. rewrite HI in HQ. done.
Qed.

Lemma strrchr_run m p l ch (Q : Z -> bmem -> Prop) :
  p <> NULL -> cstr m p l -> 0 < ch < 128 -> Q (ptr_to p (last_index ch l)) m ->
  wp (strrchr p ch) Q m.
Proof.
  intros Hp Hc Hch HQ. unfold strrchr, mem_fuel. wp_simp. apply wp_ASSERT.
  split; [by apply negb_true_iff, Z.eqb_neq|]. wp_simp. pose proof (cstr_size m p l Hc).
  apply (wp_cstr_walk m p l fst (fun r x =>
    ptr_to p (last_index ch l) =
    match last_index ch r with Some i => x.1 + i | None => x.2 end));
    [done|apply at_char_start| |lia|..].
  - unfold ptr_to. by destruct (last_index ch l).
  - intros e r [x lc] Ha HI. wp_simp. cbn [fst snd] in *. cstr_char Hc Ha.
    pose proof (at_char_byte _ _ _ _ _ _ Hc Ha) as He.
    rewrite (proj2 (Z.eqb_neq (s8 e) 0)) by (rewrite s8_zero; lia). rewrite s8_neq by lia.
    wp_simp. split; [done|]. split; [done|]. cbn [last_index fst snd] in *. rewrite HI.
    destruct (last_index ch r); [lia|]. destruct (e =? ch); lia.
  - intros [x lc] Ha HI. wp_simp. cbn [fst snd] in *. cstr_end Hc Ha.
    cbn in HI. by rewrite HI in HQ.
Qed.

Lemma strchrs_run m p l ch (Q : Z -> bmem -> Prop) :
  p <> NULL -> cstr m p l -> 0 < ch < 128 ->
  Q (u32 (Z.of_nat (length (filter (fun e => e = ch) l)))) m -> wp (strchrs p ch) Q m.
Proof.
  intros Hp Hc Hch HQ. unfold strchrs, mem_fuel. wp_simp. apply wp_ASSERT.
  split; [by apply negb_true_iff, Z.eqb_neq|]. wp_simp. pose proof (cstr_size m p l Hc).
  set (cnt r := Z.of_nat (length (filter (fun e => e = ch) r))).
  change (Q (u32 (cnt l)) m) in HQ.
  apply (wp_cstr_walk m p l fst (fun r x => u32 (cnt l) = u32 (x.2 + cnt r) /\ u32 x.2 = x.2));
    [done|apply at_char_start|done|lia|..].
  - intros e r [x c] Ha [HI Hu]. wp_simp. cbn [fst snd] in *. cstr_char Hc Ha.
    pose proof (at_char_byte _ _ _ _ _ _ Hc Ha) as He.
    rewrite (proj2 (Z.eqb_neq (s8 e) 0)) by (rewrite s8_zero; lia). rewrite s8_neq by lia.
    wp_simp. split; [done|]. split; [done|]. cbn [fst snd]. rewrite HI.
    unfold cnt. rewrite list.filter_cons. destruct (Z.eqb_spec e ch).
    + rewrite decide_True by done. cbn [length]. unfold u32 in *. split; dlia.
    + rewrite decide_False by done. done.
  - intros [x c] Ha [HI Hu]. wp_simp. cbn [fst snd] in *. cstr_end Hc Ha.
    rewrite HI in HQ. change (cnt []) with 0 in HQ. by rewrite Z.add_0_r, Hu in HQ.
Qed.

(** The string with its terminator is copied to an area apart from it. *)
Lemma copy_loop_run m dst src l fuel (Q : unit -> bmem -> Prop) :
  cstr m src l -> mapped m dst (S (length l)) ->
  disjoint_ranges dst (S (length l)) src (S (length l)) -> (length l < fuel)%nat ->
  Q tt (write_bytes m dst (l ++ [0])) -> wp (loop fuel copy_step (dst, src)) Q m.
Proof.
  intros Hc Hm Hd Hf HQ.
  apply (wp_loop_along (fun (r : list Z) (x : Z * Z) m' => exists pre, l = pre ++ r /\
      x = (dst + Z.of_nat (length pre), src + Z.of_nat (length pre)) /\
      m' = write_bytes m dst pre) _ _ _ l); [| | |done].
  - intros e r x m' (pre & E & -> & ->). cbn [copy_step]. wp_simp.
    assert (Ha : at_char m src l (e :: r) (src + Z.of_nat (length pre))) by (by exists pre).
    assert (Hlen : length l = (length pre + S (length r))%nat) by (by rewrite E, length_app).
    pose proof (at_char_byte _ _ _ _ _ _ Hc Ha) as He. eapply wp_ld8.
    { rewrite write_bytes_out by (unfold disjoint_ranges in Hd; lia).
      exact (at_char_load _ _ _ _ _ Hc Ha). }
    wp_simp. apply wp_st8; [apply mapped_write with (n := S (length l)); [done|lia]|].
    cbn [hd]. rewrite (proj2 (Z.eqb_neq e 0)) by lia. wp_simp. exists (pre ++ [e]).
    rewrite <- app_assoc, length_app, u8_small by lia. cbn [length app].
    split; [done|]. split; [tuple_lia|]. by rewrite write_bytes_snoc.
  - intros x m' (pre & E & -> & ->). rewrite app_nil_r in E. subst pre. cbn [copy_step]. wp_simp.
    assert (Ha : at_char m src l [] (src + Z.of_nat (length l))).
    { exists l. by rewrite app_nil_r. }
    eapply wp_ld8.
    { rewrite write_bytes_out by (unfold disjoint_ranges in Hd; lia).
      exact (at_char_load _ _ _ _ _ Hc Ha). }
    wp_simp. apply wp_st8; [apply mapped_write with (n := S (length l)); [done|lia]|].
    change (0 =? 0) with true. cbn iota. wp_simp. by rewrite write_bytes_snoc in HQ.
  - exists []. cbn. split; [done|]. split; [tuple_lia|done].
Qed.

Lemma write_bytes_size m p l : mapped m p (length l) -> size (write_bytes m p l) = size m.
Proof.
  revert m p. induction l as [|b l IH]; intros m p H; cbn; [done|]. rewrite IH.
  - apply map_size_insert_Some. rewrite <- (Z.add_0_r p). apply H. cbn. lia.
  - intros i Hi. replace (p + 1 + i) with (p + (i + 1)) by lia.
    destruct (H (i + 1)) as [v Hv]; [cbn; lia|]. rewrite lookup_insert_ne by lia. by exists v.
Qed.

Lemma strcpy_run m dst src l (Q : Z -> bmem -> Prop) :
  dst <> NULL -> src <> NULL -> cstr m src l -> mapped m dst (S (length l)) ->
  disjoint_ranges dst (S (length l)) src (S (length l)) ->
  Q dst (write_bytes m dst (l ++ [0])) -> wp (strcpy dst src) Q m.
Proof.
  intros Hd Hs Hc Hm Hdis HQ. unfold strcpy, mem_fuel. wp_simp. apply wp_ASSERT.
  split; [apply andb_true_iff; by split; apply negb_true_iff, Z.eqb_neq|]. wp_simp.
  pose proof (cstr_size m src l Hc). apply (copy_loop_run m dst src l); try done; lia.
Qed.

Lemma strcat_run m dst src l1 l2 (Q : Z -> bmem -> Prop) :
  dst <> NULL -> src <> NULL -> cstr m dst l1 -> cstr m src l2 ->
  mapped m (dst + Z.of_nat (length l1)) (S (length l2)) ->
  disjoint_ranges (dst + Z.of_nat (length l1)) (S (length l2)) src (S (length l2)) ->
  Q dst (write_bytes m (dst + Z.of_nat (length l1)) (l2 ++ [0])) -> wp (strcat dst src) Q m.
Proof.
  intros Hd Hs H1 H2 Hm Hdis HQ. unfold strcat, mem_fuel. wp_simp. apply wp_ASSERT.
  split; [apply andb_true_iff; by split; apply negb_true_iff, Z.eqb_neq|]. wp_simp.
  pose proof (cstr_size m dst l1 H1). pose proof (cstr_size m src l2 H2).
  apply (wp_cstr_walk m dst l1 id (fun _ _ => True)); [done|apply at_char_start|done|lia|..].
  - intros e r x Ha _. wp_simp. cstr_char H1 Ha. pose proof (at_char_byte _ _ _ _ _ _ H1 Ha).
    rewrite (proj2 (Z.eqb_neq e 0)) by lia. by wp_simp.
  - intros x Ha _. wp_simp. cstr_end H1 Ha. destruct Ha as (pre & E & Hx).
    rewrite app_nil_r in E. subst pre. unfold id in Hx. subst x.
    replace (dst + Z.of_nat (length l1) + 1 - 1) with (dst + Z.of_nat (length l1)) by lia.
    apply (copy_loop_run m _ src l2); try done; lia.
Qed.

(** The order strcmp compares strings by: the first difference decides, as
    signed chars, the end of a string being a zero. *)
Fixpoint str_cmp (a b : list Z) : Z :=
  match a, b with
  | [], [] => 0
  | x :: a', y :: b' => if x =? y then str_cmp a' b' else if s8 x <? s8 y then -1 else 1
  | [], y :: _ => if 0 <? s8 y then -1 else 1
  | x :: _, [] => if s8 x <? 0 then -1 else 1
  end.

Lemma str_cmp_app p a b : str_cmp (p ++ a) (p ++ b) = str_cmp a b.
Proof. induction p as [|x p IH]; [done|]. cbn. by rewrite Z.eqb_refl. Qed.

Lemma str_cmp_eq a b : str_cmp a b = 0 <-> a = b.
Proof.
  revert b. induction a as [|x a IH]; intros [|y b]; cbn.
  - done.
  - destruct (0 <? s8 y); naive_solver.
  - destruct (s8 x <? 0); naive_solver.
  - destruct (Z.eqb_spec x y) as [->|Hne]; [rewrite IH; naive_solver|].
    destruct (s8 x <? s8 y); naive_solver.
Qed.

(** What strcmp computes from the two characters it stops at. *)
Lemma str_cmp_stop a b :
  Forall (fun c => 0 < c < 256) a -> Forall (fun c => 0 < c < 256) b ->
  a = [] \/ hd 0 a <> hd 0 b ->
  (if s8 (hd 0 a) <? s8 (hd 0 b) then -1 else if s8 (hd 0 b) <? s8 (hd 0 a) then 1 else 0)
  = str_cmp a b.
Proof.
  intros Ha Hb Hor. destruct a as [|x a], b as [|y b]; cbn.
  - done.
  - apply Forall_inv in Hb. pose proof (s8_zero y). change (s8 0) with 0.
    destruct (Z.ltb_spec 0 (s8 y)); [done|]. destruct (Z.ltb_spec (s8 y) 0); [done|lia].
  - apply Forall_inv in Ha. pose proof (s8_zero x). change (s8 0) with 0.
    destruct (Z.ltb_spec (s8 x) 0); [done|]. destruct (Z.ltb_spec 0 (s8 x)); [done|lia].
  - apply Forall_inv in Ha, Hb. destruct Hor as [?|Hne]; [done|]. cbn in Hne.
    rewrite (proj2 (Z.eqb_neq x y)) by done. destruct (Z.ltb_spec (s8 x) (s8 y)); [done|].
    destruct (Z.ltb_spec (s8 y) (s8 x)); [done|]. exfalso. apply Hne, s8_inj; lia.
Qed.

Lemma strcmp_run m p q a b (Q : Z -> bmem -> Prop) :
  p <> NULL -> q <> NULL -> cstr m p a -> cstr m q b -> Q (str_cmp a b) m -> wp (strcmp p q) Q m.
Proof.
  intros Hp Hq Ha Hb HQ. unfold strcmp, mem_fuel. wp_simp. apply wp_ASSERT.
  split; [apply andb_true_iff; by split; apply negb_true_iff, Z.eqb_neq|]. wp_simp.
  pose proof (cstr_size m p a Ha).
  set (J := fun (r : list Z) (x : Z * Z) =>
    exists pre r', a = pre ++ r /\ b = pre ++ r' /\ at_char m q b r' x.2).
  assert (Hstop : forall r r' pre x, a = pre ++ r -> b = pre ++ r' ->
    at_char m p a r x.1 -> at_char m q b r' x.2 -> r = [] \/ hd 0 r <> hd 0 r' ->
    wp (let '(a0, b0) := x in do ca <- ldc a0; do cb <- ldc b0;
        ret (if ca <? cb then -1 else if cb <? ca then 1 else 0)) Q m).
  { intros r r' pre [x y] E1 E2 A1 A2 Hor. cbn [fst snd] in *. wp_simp.
    eapply wp_ldc; [exact (at_char_load _ _ _ _ _ Ha A1)|]. wp_simp.
    eapply wp_ldc; [exact (at_char_load _ _ _ _ _ Hb A2)|]. wp_simp.
    destruct Ha as [_ Fa], Hb as [_ Fb]. rewrite E1 in Fa. rewrite E2 in Fb.
    apply list.Forall_app in Fa as [_ Fa]. apply list.Forall_app in Fb as [_ Fb].
    rewrite str_cmp_stop by done.
    rewrite E1, E2, str_cmp_app in HQ. exact HQ. }
  apply (wp_cstr_walk m p a fst J); [done|apply at_char_start| |lia|..].
  - exists [], b. split; [done|]. split; [done|]. apply at_char_start.
  - intros e r [x y] Hx (pre & r' & E1 & E2 & Hy). wp_simp. cbn [fst snd] in *.
    cstr_char Ha Hx. pose proof (at_char_byte _ _ _ _ _ _ Ha Hx) as He.
    rewrite (proj2 (Z.eqb_neq (s8 e) 0)) by (rewrite s8_zero; lia). wp_simp.
    eapply wp_ldc; [exact (at_char_load _ _ _ _ _ Hb Hy)|].
    assert (Hr' : 0 <= hd 0 r' < 256).
    { destruct r' as [|c r']; cbn; [lia|]. pose proof (at_char_byte _ _ _ _ _ _ Hb Hy). lia. }
    destruct (Z.eqb_spec (s8 e) (s8 (hd 0 r'))) as [Hse|Hse]; wp_simp.
    + apply s8_inj in Hse; [|lia|lia]. destruct r' as [|c r']; cbn in Hse; [lia|]. subst c.
      split; [done|]. split; [done|]. exists (pre ++ [e]), r'. rewrite <- !app_assoc.
      split; [done|]. split; [done|]. by eapply at_char_next.
    + rewrite <- wp_bind. apply (Hstop (e :: r) r' pre (x, y)); try done. right. cbn. intros ->. done.
  - intros [x y] Hx (pre & r' & E1 & E2 & Hy). wp_simp. cbn [fst snd] in *. cstr_end Ha Hx.
    rewrite <- wp_bind. apply (Hstop [] r' pre (x, y)); try done. by left.
Qed.

(** ** The properties *)

Lemma cstr_write m p l : Forall (fun c => 0 < c < 256) l -> cstr (write_bytes m p (l ++ [0])) p l.
Proof. intros H. split; [apply write_bytes_at|done]. Qed.

(** strcat puts the concatenation of the two strings at the destination
    and leaves the source and every byte outside the destination as they were. *)
Theorem strcat_concat m dst src l1 l2 :
  dst <> NULL -> src <> NULL -> cstr m dst l1 -> cstr m src l2 ->
  mapped m dst (S (length (l1 ++ l2))) ->
  disjoint_ranges dst (S (length (l1 ++ l2))) src (S (length l2)) ->
  exists m', strcat dst src m = Ok (dst, m') /\ cstr m' dst (l1 ++ l2) /\ cstr m' src l2 /\
    forall q, q < dst \/ dst + Z.of_nat (length (l1 ++ l2)) < q -> m' !! q = m !! q.
Proof.
  intros Hd Hs H1 H2 Hm Hdis. rewrite length_app in *.
  set (m' := write_bytes m (dst + Z.of_nat (length l1)) (l2 ++ [0])).
  assert (Hout : forall q, q < dst + Z.of_nat (length l1) \/
    dst + Z.of_nat (length l1) + Z.of_nat (length l2) < q -> m' !! q = m !! q).
  { intros q Hq. apply write_bytes_out. rewrite length_app. cbn. lia. }
  assert (H : wp (strcat dst src) (fun r s => r = dst /\ s = m') m).
  { apply (strcat_run m dst src l1 l2); try done.
    - intros i Hi. rewrite <- Z.add_assoc. apply Hm. lia.
    - unfold disjoint_ranges in *. lia. }
  wp_ok H. destruct H0 as [-> ->]. exists m'. split; [done|]. split; [|split].
  - destruct H1 as [H1 F1], H2 as [H2 F2]. split; [|by apply list.Forall_app].
    rewrite <- app_assoc. apply bytes_at_app. split; [|apply write_bytes_at].
    apply bytes_at_app in H1 as [H1 _]. eapply bytes_at_frame; [|exact H1].
    intros q Hq. apply Hout. lia.
  - apply (cstr_frame m); [|done]. intros q Hq. apply Hout. unfold disjoint_ranges in Hdis. lia.
  - intros q Hq. apply Hout. lia.
Qed.

Definition demo_bytes : bmem := list_to_map (imap (fun i b => (100 + Z.of_nat i, b))
  [47; 0; 0; 0; 98; 105; 0; 233; 47; 0]).

Lemma strcat_concat_witness :
  exists m', strcat 100 104 demo_bytes = Ok (100, m') /\
    cstr m' 100 ([47] ++ [98; 105]) /\ cstr m' 104 [98; 105] /\
    forall q, q < 100 \/ 100 + Z.of_nat (length ([47] ++ [98; 105])) < q ->
      m' !! q = demo_bytes !! q.
Proof.
  apply strcat_concat; try done.
  - split; [repeat split; reflexivity | repeat constructor; lia].
  - split; [repeat split; reflexivity | repeat constructor; lia].
  - intros i Hi. cbn in Hi. assert (Hc : i = 0 \/ i = 1 \/ i = 2 \/ i = 3) by lia.
    destruct Hc as [->|[->|[->| ->]]]; eexists; reflexivity.
  - left. cbn. lia.
Defined.

(** strcmp orders strings: it returns -1, 0 or 1 as [str_cmp] says, in
    particular 0 exactly for equal strings, and touches nothing. *)
Theorem strcmp_orders m p q a b :
  p <> NULL -> q <> NULL -> cstr m p a -> cstr m q b ->
  exists r, strcmp p q m = Ok (r, m) /\ r = str_cmp a b /\ (r = 0 <-> a = b).
Proof.
  intros Hp Hq Ha Hb.
  assert (H : wp (strcmp p q) (fun r s => r = str_cmp a b /\ s = m) m).
  { by apply (strcmp_run m p q a b). }
  wp_ok H. destruct H0 as [-> ->]. eexists. split; [done|]. split; [done|]. apply str_cmp_eq.
Qed.

Lemma strcmp_orders_witness :
  exists r, strcmp 104 107 demo_bytes = Ok (r, demo_bytes) /\
    r = str_cmp [98; 105] [233; 47] /\ (r = 0 <-> [98; 105] = [233; 47]).
Proof.
  apply strcmp_orders; try done; (split; [repeat split; reflexivity | repeat constructor; lia]).
Defined.

(** A character above 127 is never found: strchr compares a signed char
    with an unsigned one, so it returns the null pointer even for a string that
    holds the character. *)
Theorem strchr_high_never_found m p l ch :
  p <> NULL -> cstr m p l -> 128 <= ch < 256 -> strchr p ch m = Ok (NULL, m).
Proof.
  intros Hp Hc Hch. assert (H : wp (strchr p ch) (fun r s => r = NULL /\ s = m) m).
  { unfold strchr, mem_fuel. wp_simp. apply wp_ASSERT.
    split; [by apply negb_true_iff, Z.eqb_neq|]. wp_simp. pose proof (cstr_size m p l Hc).
    apply (wp_cstr_walk m p l id (fun _ _ => True)); [done|apply at_char_start|done|lia|..].
    - intros e r x Ha _. wp_simp. cstr_char Hc Ha. pose proof (at_char_byte _ _ _ _ _ _ Hc Ha).
      assert (Hs : s8 e < 128) by (unfold s8; dlia).
      rewrite (proj2 (Z.eqb_neq (s8 e) 0)) by (rewrite s8_zero; lia).
      rewrite (proj2 (Z.eqb_neq (s8 e) ch)) by lia. by wp_simp.
    - intros x Ha _. wp_simp. by cstr_end Hc Ha. }
  wp_ok H. by destruct H0 as [-> ->].
Qed.

Lemma strchr_high_never_found_witness : strchr 107 233 demo_bytes = Ok (NULL, demo_bytes).
Proof.
  apply (strchr_high_never_found demo_bytes 107 [233; 47] 233); [done| |lia].
  split; [repeat split; reflexivity | repeat constructor; lia].
Defined.

(** memcpy copies the bytes of an area to an area apart from it, and
    memcmp then finds the two areas equal. *)
Theorem memcpy_memcmp m dst src l :
  dst <> NULL -> src <> NULL -> bytes_at m src l -> Forall is_byte l ->
  mapped m dst (length l) -> disjoint_ranges dst (length l) src (length l) ->
  exists m', memcpy dst src (Z.of_nat (length l)) m = Ok (tt, m') /\
    memcmp dst src (Z.of_nat (length l)) m' = Ok (0, m') /\
    forall q, q < dst \/ dst + Z.of_nat (length l) <= q -> m' !! q = m !! q.
Proof.
  intros Hd Hs Hl Hb Hm Hdis. set (m' := write_bytes m dst l).
  assert (H : wp (memcpy dst src (Z.of_nat (length l))) (fun _ s => s = m') m)
    by by apply (memcpy_run m dst src l).
  assert (H2 : wp (memcmp dst src (Z.of_nat (length l))) (fun r s => r = 0 /\ s = m') m').
  { apply (memcmp_run m' dst src l l); try done.
    - apply write_bytes_at.
    - eapply bytes_at_frame; [|exact Hl]. intros q Hq. apply write_bytes_out.
      unfold disjoint_ranges in Hdis. lia.
    - split; [|done]. by apply bytes_cmp_eq. }
  apply wp_Ok in H as ([] & s1 & E1 & ->). apply wp_Ok in H2 as (r & s2 & E2 & -> & ->).
  exists m'. split; [exact E1|]. split; [exact E2|]. intros q Hq. by apply write_bytes_out.
Qed.

Lemma memcpy_memcmp_witness :
  exists m', memcpy 100 104 3 demo_bytes = Ok (tt, m') /\ memcmp 100 104 3 m' = Ok (0, m') /\
    forall q, q < 100 \/ 100 + 3 <= q -> m' !! q = demo_bytes !! q.
Proof.
  apply (memcpy_memcmp demo_bytes 100 104 [98; 105; 0]); [done|done|..].
  - repeat split; reflexivity.
  - repeat constructor; done.
  - intros i Hi. cbn in Hi. assert (Hc : i = 0 \/ i = 1 \/ i = 2) by lia.
    destruct Hc as [->|[->| ->]]; eexists; reflexivity.
  - left. cbn. lia.
Defined.
