(* ===== verification/Stdio.v ===== *)
(** * Formatted output (lib/stdio.c)

    itoa and vsprintf over the byte memory of [CString]. A va_list is the list
    of the 32-bit words that are left; reading past its end faults. The
    reference is [render], which gives the text for a format and its arguments
    without a memory, and [of_digits], which reads a number back. *)

From Stdlib Require Import ZArith Lia.
From stdpp Require Import base numbers list gmap option.
From S2P Require Import Prelude DList CString.

Local Open Scope Z_scope.

(** A uint32_t has at most 32 digits in any base from 2 on. *)
Definition ITOA_FUEL : nat := 32.

(** itoa returns the advanced buffer pointer, which the code keeps in place. *)
Fixpoint itoa_fuel (fuel : nat) (value buf_ptr base : Z) : M bmem Z :=
  match fuel with
  | O => nofuel
  | S fuel' =>
      if base =? 0 then fault else
      let m := value mod base in
      let i := value / base in
      do buf_ptr <- (if truthy i then itoa_fuel fuel' i buf_ptr base else ret buf_ptr);
      (if m <? 10 then st8 buf_ptr (m + 48) else st8 buf_ptr (m - 10 + 65)) ;;
      ret (buf_ptr + 1)
  end.
Definition itoa (value buf_ptr base : Z) : M bmem Z := itoa_fuel ITOA_FUEL value buf_ptr base.

(** va_arg: the next word and the rest. *)
Definition va_arg (ap : list Z) : M bmem (Z * list Z) :=
  match ap with a :: ap' => ret (a, ap') | [] => fault end.

(** One round of the loop of vsprintf; the locals are buf_ptr, index_ptr,
    index_char and ap. *)
Definition vsprintf_step (x : Z * Z * Z * list Z) : M bmem (Z * Z * Z * list Z + unit) :=
  let '(buf_ptr, index_ptr, index_char, ap) := x in
  if index_char =? 0 then ret (inr tt)
  else if negb (index_char =? 37) then
    st8 buf_ptr index_char ;;
    do c <- ldc (index_ptr + 1);
    ret (inl (buf_ptr + 1, index_ptr + 1, c, ap))
  else
    let index_ptr := index_ptr + 1 in
    do index_char <- ldc index_ptr;
    if index_char =? 120 then
      do ' (arg_int, ap) <- va_arg ap;
      do buf_ptr <- itoa (u32 arg_int) buf_ptr 16;
      do c <- ldc (index_ptr + 1);
      ret (inl (buf_ptr, index_ptr + 1, c, ap))
    else if index_char =? 115 then
      do ' (arg_str, ap) <- va_arg ap;
      strcpy buf_ptr arg_str ;;
      do n <- strlen arg_str;
      do c <- ldc (index_ptr + 1);
      ret (inl (buf_ptr + n, index_ptr + 1, c, ap))
    else if index_char =? 99 then
      do ' (arg, ap) <- va_arg ap;
      st8 buf_ptr arg ;;
      do c <- ldc (index_ptr + 1);
      ret (inl (buf_ptr + 1, index_ptr + 1, c, ap))
    else if index_char =? 100 then
      do ' (arg, ap) <- va_arg ap;
      let arg_int := s32 arg in
      do ' (buf_ptr, arg_int) <-
        (if arg_int <? 0 then st8 buf_ptr 45 ;; ret (buf_ptr + 1, s32 (0 - arg_int))
         else ret (buf_ptr, arg_int));
      do buf_ptr <- itoa (u32 arg_int) buf_ptr 10;
      do c <- ldc (index_ptr + 1);
      ret (inl (buf_ptr, index_ptr + 1, c, ap))
    else ret (inl (buf_ptr, index_ptr, index_char, ap)).

Definition vsprintf (str format : Z) (ap : list Z) : M bmem Z :=
  do index_char <- ldc format;
  do fuel <- mem_fuel;
  loop fuel vsprintf_step (str, format, index_char, ap) ;;
  strlen str.

Definition sprintf (buf format : Z) (args : list Z) : M bmem Z := vsprintf buf format args.

(** ** Digits *)

Definition digit_char (d : Z) : Z := if d <? 10 then d + 48 else d - 10 + 65.

Fixpoint to_digits (fuel : nat) (base value : Z) : list Z :=
  match fuel with
  | O => []
  | S fuel' =>
      (if truthy (value / base) then to_digits fuel' base (value / base) else [])
        ++ [digit_char (value mod base)]
  end.
Definition digits (base value : Z) : list Z := to_digits ITOA_FUEL base value.

(** Reading a numeral back, most significant digit first. *)
Definition char_digit (c : Z) : Z := if c <? 58 then c - 48 else c - 65 + 10.
Definition of_digits (base : Z) (l : list Z) : Z := foldl (fun v c => v * base + char_digit c) 0 l.

Lemma char_digit_char d : 0 <= d < 36 -> char_digit (digit_char d) = d.
Proof.
  intros Hd. unfold char_digit, digit_char.
  destruct (Z.ltb_spec d 10); [destruct (Z.ltb_spec (d + 48) 58); lia|].
  destruct (Z.ltb_spec (d - 10 + 65) 58); lia.
Qed.

Lemma digit_char_byte d : 0 <= d < 36 -> 48 <= digit_char d < 91.
Proof. intros Hd. unfold digit_char. destruct (Z.ltb_spec d 10); lia. Qed.

Lemma of_digits_snoc base l c : of_digits base (l ++ [c]) = of_digits base l * base + char_digit c.
Proof. unfold of_digits. by rewrite foldl_app. Qed.

Lemma to_digits_length base fuel v : (length (to_digits fuel base v) <= fuel)%nat.
Proof.
  revert v. induction fuel as [|fuel IH]; intros v; cbn [to_digits]; [done|].
  rewrite length_app. cbn. destruct (truthy _); cbn; [pose proof (IH (v / base)); lia|lia].
Qed.

Section digits.
Context (base : Z) (Hb : 2 <= base <= 36).

Lemma to_digits_value fuel v :
  0 <= v < 2 ^ Z.of_nat fuel -> (0 < fuel)%nat -> of_digits base (to_digits fuel base v) = v.
Proof using Hb.
  revert v. induction fuel as [|fuel IH]; intros v Hv Hf; [lia|]. cbn [to_digits].
  rewrite of_digits_snoc, char_digit_char by (pose proof (Z.mod_pos_bound v base); lia).
  pose proof (Z.div_mod v base). destruct (truthy (v / base)) eqn:E; zbool.
  - rewrite IH; [lia| |].
    + split; [apply Z.div_pos; lia|]. apply Z.div_lt_upper_bound; [lia|].
      replace (Z.of_nat (S fuel)) with (1 + Z.of_nat fuel) in Hv by lia.
      rewrite Z.pow_add_r in Hv by lia. nia.
    + destruct fuel; [|lia]. exfalso. apply E. apply Z.div_small. cbn in Hv. lia.
  - cbn. lia.
Qed.

Lemma to_digits_chars fuel v : 0 <= v -> Forall (fun c => 0 < c < 256) (to_digits fuel base v).
Proof using Hb.
  revert v. induction fuel as [|fuel IH]; intros v Hv; [constructor|]. cbn [to_digits].
  apply list.Forall_app. split.
  - destruct (truthy _); [|constructor]. apply IH. apply Z.div_pos; lia.
  - repeat constructor; pose proof (digit_char_byte (v mod base));
      pose proof (Z.mod_pos_bound v base); lia.
Qed.

(** No leading zero, except in the numeral of zero. *)
Lemma to_digits_head fuel v :
  0 < v -> hd 48 (to_digits (S fuel) base v) <> 48 \/ v >= 2 ^ Z.of_nat (S fuel).
Proof using Hb.
  revert v. induction fuel as [|fuel IH]; intros v Hv; cbn [to_digits].
  - destruct (truthy (v / base)) eqn:E; zbool.
    + right. cbn. destruct (Z.lt_ge_cases v base); [|lia]. by rewrite Z.div_small in E by lia.
    + left. cbn. apply Z.div_small_iff in E; [|lia]. rewrite Z.mod_small by lia.
      unfold digit_char. destruct (Z.ltb_spec v 10); lia.
  - destruct (truthy (v / base)) eqn:E; zbool.
    + assert (Hd : 0 < v / base) by (pose proof (Z.div_pos v base); lia).
      destruct (IH (v / base) Hd) as [H|H].
      * left. cbn [to_digits] in H.
        set (t := (if truthy (v / base / base) then _ else _) ++ _) in *. by destruct t.
      * right. replace (Z.of_nat (S (S fuel))) with (1 + Z.of_nat (S fuel)) by lia.
        rewrite Z.pow_add_r by lia. pose proof (Z.mul_div_le v base). nia.
    + left. cbn. apply Z.div_small_iff in E; [|lia]. rewrite Z.mod_small by lia.
      unfold digit_char. destruct (Z.ltb_spec v 10); lia.
Qed.

Lemma itoa_fuel_run fuel v p m (Q : Z -> bmem -> Prop) :
  0 <= v < 2 ^ Z.of_nat fuel -> (0 < fuel)%nat -> mapped m p (length (to_digits fuel base v)) ->
  Q (p + Z.of_nat (length (to_digits fuel base v))) (write_bytes m p (to_digits fuel base v)) ->
  wp (itoa_fuel fuel v p base) Q m.
Proof using Hb.
  revert v p m Q. induction fuel as [|fuel IH]; intros v p m Q Hv Hf Hm HQ; [lia|].
  cbn [itoa_fuel to_digits] in *. rewrite (proj2 (Z.eqb_neq base 0)) by lia.
  pose proof (Z.mod_pos_bound v base ltac:(lia)) as Hmod. rewrite length_app in *. cbn [length] in *.
  assert (Hlast : forall l m1, mapped m p (length l + 1) -> m1 = write_bytes m p l ->
    Q (p + Z.of_nat (length l + 1)) (write_bytes m p (l ++ [digit_char (v mod base)])) ->
    wp (if v mod base <? 10 then st8 (p + Z.of_nat (length l)) (v mod base + 48)
        else st8 (p + Z.of_nat (length l)) (v mod base - 10 + 65))
      (fun _ s' => wp (ret (p + Z.of_nat (length l) + 1)) Q s') m1).
  { intros l m1 Hml -> HQ'. rewrite write_bytes_snoc in HQ'. pose proof (digit_char_byte (v mod base)).
    unfold digit_char in *.
    replace (p + Z.of_nat (length l) + 1) with (p + Z.of_nat (length l + 1)) by lia.
    destruct (v mod base <? 10); apply wp_st8;
      try (apply mapped_write with (n := (length l + 1)%nat); [done|lia]);
      wp_simp; rewrite u8_small by lia; done. }
  destruct (truthy (v / base)) eqn:E; wp_simp.
  - zbool. apply IH.
    + split; [apply Z.div_pos; lia|]. apply Z.div_lt_upper_bound; [lia|].
      replace (Z.of_nat (S fuel)) with (1 + Z.of_nat fuel) in Hv by lia.
      rewrite Z.pow_add_r in Hv by lia. nia.
    + destruct fuel; [|lia]. exfalso. apply E. apply Z.div_small. cbn in Hv. lia.
    + intros i Hi. apply Hm. lia.
    + wp_simp. by apply Hlast.
  - specialize (Hlast [] m). cbn [length] in Hlast. rewrite Z.add_0_r in Hlast. by apply Hlast.
Qed.
End digits.

Lemma itoa_run base v p m (Q : Z -> bmem -> Prop) :
  2 <= base <= 36 -> 0 <= v < 2 ^ 32 -> mapped m p (length (digits base v)) ->
  Q (p + Z.of_nat (length (digits base v))) (write_bytes m p (digits base v)) ->
  wp (itoa v p base) Q m.
Proof. intros Hb Hv Hm HQ. apply itoa_fuel_run; [done|exact Hv|unfold ITOA_FUEL; lia|done|done]. Qed.

(** ** The text of a format *)

(** An argument: a word, or a pointer [p] to the string [l]. *)
Inductive fmt_arg := FInt (w : Z) | FStr (p : Z) (l : list Z).

Definition arg_word (a : fmt_arg) : Z := match a with FInt w => w | FStr p _ => p end.

Definition signed_digits (w : Z) : list Z :=
  if s32 w <? 0 then 45 :: digits 10 (- s32 w) else digits 10 (s32 w).

(** The text for the format [f]; [None] when the arguments do not fit it. An
    unknown conversion loses its percent sign. *)
Fixpoint render (f : list Z) (args : list fmt_arg) : option (list Z) :=
  match f with
  | [] => Some []
  | c :: f1 =>
      if negb (c =? 37) then cons c <$> render f1 args
      else match f1 with
      | [] => Some []
      | k :: f2 =>
          if k =? 120 then
            match args with
            | FInt w :: args' => app (digits 16 (u32 w)) <$> render f2 args'
            | _ => None
            end
          else if k =? 115 then
            match args with FStr _ l :: args' => app l <$> render f2 args' | _ => None end
          else if k =? 99 then
            match args with FInt w :: args' => cons (u8 w) <$> render f2 args' | _ => None end
          else if k =? 100 then
            match args with
            | FInt w :: args' => app (signed_digits w) <$> render f2 args'
            | _ => None
            end
          else render f1 args
      end
  end.

Lemma write_bytes_nul m p l :
  m !! (p + Z.of_nat (length l)) = Some 0 -> write_bytes m p (l ++ [0]) = write_bytes m p l.
Proof. intros H. rewrite write_bytes_snoc. apply insert_id. rewrite write_bytes_out by lia. done. Qed.

Lemma u8_s8 c : 0 <= c < 256 -> u8 (s8 c) = c.
Proof. unfold u8, s8. intros. dlia. Qed.

Lemma neg_arg w : s32 w < 0 -> u32 (s32 (0 - s32 w)) = - s32 w /\ 0 <= - s32 w < 2 ^ 32.
Proof. unfold u32, s32. intros. split; dlia. Qed.

Lemma pos_arg w : 0 <= s32 w -> u32 (s32 w) = s32 w /\ 0 <= s32 w < 2 ^ 32.
Proof. unfold u32, s32. intros. split; dlia. Qed.

Section vsprintf.
Context (m : bmem) (str format : Z) (F OUT : list Z).
Context (Hfmt : cstr m format F).
Context (Hzero : forall i, 0 <= i <= Z.of_nat (length OUT) -> m !! (str + i) = Some 0).
Context (Hdis : disjoint_ranges str (S (length OUT)) format (S (length F))).
Context (Hlen : Z.of_nat (length OUT) < 2 ^ 31).

(** A string argument lies apart from the buffer. *)
Definition arg_ok (a : fmt_arg) : Prop :=
  match a with
  | FInt _ => True
  | FStr p l => p <> NULL /\ cstr m p l /\ disjoint_ranges str (S (length OUT)) p (S (length l))
  end.

(** The memory when [dn] of the text has been written. *)
Definition wrote (dn rest : list Z) (s : bmem) : Prop := OUT = dn ++ rest /\ s = write_bytes m str dn.

Lemma wrote_frame dn rest s q n : wrote dn rest s ->
  disjoint_ranges str (S (length OUT)) q n ->
  forall x, q <= x < q + Z.of_nat n -> s !! x = m !! x.
Proof.
  intros [-> ->] Hd x Hx. apply write_bytes_out. unfold disjoint_ranges in Hd.
  rewrite length_app in Hd. lia.
Qed.

Lemma wrote_more dn l rest s : wrote dn (l ++ rest) s ->
  mapped s (str + Z.of_nat (length dn)) (length l) /\
  s !! (str + Z.of_nat (length dn) + Z.of_nat (length l)) = Some 0 /\
  wrote (dn ++ l) rest (write_bytes s (str + Z.of_nat (length dn)) l).
Proof.
  intros [E ->]. assert (Hl : length OUT = (length dn + length l + length rest)%nat)
    by (rewrite E, !length_app; lia). split; [|split].
  - apply mapped_write. intros i Hi. rewrite <- Z.add_assoc, Hzero by lia. by eexists.
  - rewrite write_bytes_out by lia. rewrite <- Z.add_assoc. apply Hzero. lia.
  - split; [by rewrite <- app_assoc|]. by rewrite write_bytes_app.
Qed.

(** Writing one byte. *)
Lemma wrote_byte dn c rest s v (Q : unit -> bmem -> Prop) :
  wrote dn (c :: rest) s -> u8 v = c ->
  (forall s', wrote (dn ++ [c]) rest s' -> Q tt s') ->
  wp (st8 (str + Z.of_nat (length dn)) v) Q s.
Proof.
  intros Hw Hv HQ. destruct (wrote_more dn [c] rest s Hw) as (Hm & _ & Hw').
  apply wp_st8; [|rewrite Hv; by apply HQ]. rewrite <- (Z.add_0_r (str + _)). apply Hm. cbn. lia.
Qed.

Lemma wrote_itoa dn base v rest s (Q : Z -> bmem -> Prop) :
  2 <= base <= 36 -> 0 <= v < 2 ^ 32 -> wrote dn (digits base v ++ rest) s ->
  (forall s', wrote (dn ++ digits base v) rest s' ->
     Q (str + Z.of_nat (length (dn ++ digits base v))) s') ->
  wp (itoa v (str + Z.of_nat (length dn)) base) Q s.
Proof.
  intros Hb Hv Hw HQ. destruct (wrote_more dn _ rest s Hw) as (Hm & _ & Hw').
  apply itoa_run; [done|done|done|]. rewrite length_app in HQ.
  replace (str + Z.of_nat (length dn) + Z.of_nat (length (digits base v)))
    with (str + Z.of_nat (length dn + length (digits base v))) by lia. by apply HQ.
Qed.

Lemma wrote_strcpy dn p l rest s (Q : unit -> bmem -> Prop) :
  0 < str -> arg_ok (FStr p l) -> wrote dn (l ++ rest) s ->
  (forall s', wrote (dn ++ l) rest s' -> Q tt s') ->
  wp (strcpy (str + Z.of_nat (length dn)) p) (fun _ s' => Q tt s') s.
Proof.
  intros Hs (Hp & Hc & Hd) Hw HQ. destruct (wrote_more dn l rest s Hw) as (Hm & Hz & Hw').
  assert (Hl : length OUT = (length dn + length l + length rest)%nat)
    by (destruct Hw as [-> _]; rewrite !length_app; lia).
  apply (strcpy_run s _ p l); [unfold NULL; lia|done| | | |].
  - apply (cstr_frame m); [|done]. intros q Hq. apply (wrote_frame dn (l ++ rest) s p (S (length l)));
      [done|done|lia].
  - intros i Hi. destruct (decide (i = Z.of_nat (length l))) as [->|]; [by eexists|].
    apply Hm. lia.
  - unfold disjoint_ranges in *. lia.
  - rewrite write_bytes_nul by done. by apply HQ.
Qed.

Lemma wrote_ldc dn rest s f idx (Q : Z -> bmem -> Prop) :
  wrote dn rest s -> at_char m format F f idx -> Q (s8 (hd 0 f)) s -> wp (ldc idx) Q s.
Proof.
  intros Hw Ha HQ. pose proof (at_char_load _ _ _ _ _ Hfmt Ha) as Hl.
  eapply wp_ldc; [|exact HQ]. rewrite <- Hl.
  apply (wrote_frame dn rest s format (S (length F)) Hw Hdis).
  destruct Ha as (pre & -> & ->). rewrite length_app. lia.
Qed.

Definition vinv (x : Z * Z * Z * list Z) (s : bmem) : Prop :=
  let '(buf_ptr, index_ptr, index_char, ap) := x in
  exists f args dn rest, at_char m format F f index_ptr /\ index_char = s8 (hd 0 f) /\
    ap = arg_word <$> args /\ Forall arg_ok args /\ render f args = Some rest /\
    buf_ptr = str + Z.of_nat (length dn) /\ wrote dn rest s.

Definition vmeas (x : Z * Z * Z * list Z) : nat :=
  let '(_, index_ptr, _, _) := x in Z.to_nat (format + Z.of_nat (length F) - index_ptr).

Definition vpost (x : Z * Z * Z * list Z) (r : Z * Z * Z * list Z + unit) (s : bmem) : Prop :=
  match r with
  | inl x' => vinv x' s /\ (vmeas x' < vmeas x)%nat
  | inr _ => wrote OUT [] s
  end.

(** The end of a round: the character behind a conversion is fetched. *)
Lemma round_end b0 c0 ap0 idx0 k f idx args dn rest s :
  at_char m format F (k :: f) idx -> idx0 <= idx ->
  Forall arg_ok args -> render f args = Some rest -> wrote dn rest s ->
  wp (do c <- ldc (idx + 1);
      ret (inl (str + Z.of_nat (length dn), idx + 1, c, arg_word <$> args)))
    (vpost (b0, idx0, c0, ap0)) s.
Proof.
  intros Ha Hi Hargs Hr Hw. wp_simp. pose proof (at_char_next _ _ _ _ _ _ Ha) as Ha'.
  eapply wrote_ldc; [exact Hw|exact Ha'|]. wp_simp. split.
  - by exists f, args, dn, rest.
  - cbn. destruct Ha as (pre & E & ->). rewrite E, length_app. cbn. lia.
Qed.

Context (Hstr : 0 < str).

Lemma vsprintf_conv_round b0 c0 ap0 k f2 idx args dn rest s :
  at_char m format F (37 :: k :: f2) idx -> Forall arg_ok args ->
  render (37 :: k :: f2) args = Some rest -> wrote dn rest s ->
  wp (vsprintf_step (str + Z.of_nat (length dn), idx, 37, arg_word <$> args))
    (vpost (b0, idx, c0, ap0)) s.
Proof.
  intros Ha Hargs Hr Hw. cbn [render] in Hr. rewrite (Z.eqb_refl 37) in Hr. cbn [negb] in Hr.
  unfold vsprintf_step. change (37 =? 0) with false. rewrite (Z.eqb_refl 37). cbn beta iota delta [negb].
  pose proof (at_char_next _ _ _ _ _ _ Ha) as Ha1. rewrite wp_bind.
  eapply wrote_ldc; [exact Hw|exact Ha1|]. cbn [hd].
  assert (Hk : 0 < k < 256) by by eapply at_char_byte.
  assert (Hks : forall z, 0 <= z < 128 -> (s8 k =? z) = (k =? z)) by (intros; by apply s8_neq).
  rewrite !Hks by lia.
  destruct (k =? 120); [|destruct (k =? 115); [|destruct (k =? 99); [|destruct (k =? 100)]]].
  - destruct args as [|[w|] args]; try done. apply fmap_Some in Hr as (rest' & Hr & ->).
    apply Forall_inv_tail in Hargs. cbn [fmap list_fmap arg_word va_arg]. wp_simp.
    apply (wrote_itoa dn 16 (u32 w) rest'); [lia|apply u32_bound|done|]. intros s' Hw'.
    eapply round_end; [exact Ha1|lia|done|done|done].
  - destruct args as [|[|p l] args]; try done. apply fmap_Some in Hr as (rest' & Hr & ->).
    pose proof (Forall_inv Hargs) as Hok. apply Forall_inv_tail in Hargs.
    cbn [fmap list_fmap arg_word va_arg]. wp_simp.
    eapply wp_mono; [apply (wrote_strcpy dn p l rest' s
      (fun _ s' => wrote (dn ++ l) rest' s')); [done|done|done|done]|].
    intros ? s' Hw'. cbn beta. destruct Hok as (Hp & Hc & Hd). wp_simp.
    apply (strlen_run s' p l); [done| |].
    { apply (cstr_frame m); [|done]. intros q Hq.
      apply (wrote_frame (dn ++ l) rest' s' p (S (length l))); [done|done|lia]. }
    assert (Hl : Z.of_nat (length l) <= Z.of_nat (length OUT))
      by (destruct Hw' as [-> _]; rewrite !length_app; lia).
    rewrite u32_small by lia.
    replace (str + Z.of_nat (length dn) + Z.of_nat (length l))
      with (str + Z.of_nat (length (dn ++ l))) by (rewrite length_app; lia).
    eapply round_end; [exact Ha1|lia|done|done|done].
  - destruct args as [|[w|] args]; try done. apply fmap_Some in Hr as (rest' & Hr & ->).
    apply Forall_inv_tail in Hargs. cbn [fmap list_fmap arg_word va_arg]. wp_simp.
    eapply wrote_byte; [done|done|]. intros s' Hw'.
    replace (str + Z.of_nat (length dn) + 1)
      with (str + Z.of_nat (length (dn ++ [u8 w]))) by (rewrite length_app; cbn; lia).
    eapply round_end; [exact Ha1|lia|done|done|done].
  - destruct args as [|[w|] args]; try done. apply fmap_Some in Hr as (rest' & Hr & ->).
    apply Forall_inv_tail in Hargs. cbn [fmap list_fmap arg_word va_arg]. wp_simp.
    unfold signed_digits in Hw. destruct (Z.ltb_spec (s32 w) 0) as [Hn|Hn]; wp_simp.
    + destruct (neg_arg w Hn) as [Hu Hb]. rewrite <- app_comm_cons in Hw.
      eapply wrote_byte; [done|reflexivity|]. intros s1 Hw1. wp_simp. rewrite Hu.
      replace (str + Z.of_nat (length dn) + 1)
        with (str + Z.of_nat (length (dn ++ [45]))) by (rewrite length_app; cbn; lia).
      apply (wrote_itoa (dn ++ [45]) 10 (- s32 w) rest'); [lia|done|done|]. intros s' Hw'.
      eapply round_end; [exact Ha1|lia|done|done|done].
    + destruct (pos_arg w Hn) as [Hu Hb]. rewrite Hu.
      apply (wrote_itoa dn 10 (s32 w) rest'); [lia|done|done|]. intros s' Hw'.
      eapply round_end; [exact Ha1|lia|done|done|done].
  - wp_simp. split.
    + by exists (k :: f2), args, dn, rest.
    + cbn. destruct Ha as (pre & E & ->). rewrite E, length_app. cbn. lia.
Qed.

Lemma vsprintf_round x s : vinv x s -> wp (vsprintf_step x) (vpost x) s.
Proof.
  destruct x as [[[buf idx] c] ap]. intros (f & args & dn & rest & Ha & -> & -> & Hargs & Hr & -> & Hw).
  destruct f as [|k f].
  { injection Hr as <-. cbn. change (s8 0 =? 0) with true. cbn iota. wp_simp.
    destruct Hw as [E ->]. rewrite app_nil_r in E. subst dn. by split; [rewrite app_nil_r|]. }
  pose proof (at_char_byte _ _ _ _ _ _ Hfmt Ha) as Hk. cbn [hd].
  destruct (Z.eqb_spec k 37) as [->|Hne].
  - change (s8 37) with 37. destruct f as [|k2 f2]; [|by eapply vsprintf_conv_round].
    injection Hr as <-. cbn. change (37 =? 0) with false. cbn iota. wp_simp.
    pose proof (at_char_next _ _ _ _ _ _ Ha) as Ha1. eapply wrote_ldc; [exact Hw|exact Ha1|].
    change (s8 (hd 0 [])) with 0. wp_simp. split.
    + by exists [], args, dn, [].
    + cbn. destruct Ha as (pre & E & ->). rewrite E, length_app. cbn. lia.
  - cbn [render] in Hr. rewrite (proj2 (Z.eqb_neq k 37) Hne) in Hr. cbn [negb] in Hr.
    apply fmap_Some in Hr as (rest' & Hr & ->). unfold vsprintf_step.
    rewrite (proj2 (Z.eqb_neq (s8 k) 0)) by (rewrite s8_zero; lia).
    rewrite s8_neq, (proj2 (Z.eqb_neq k 37)) by (done || lia). cbn [negb]. rewrite wp_bind.
    eapply wrote_byte; [done|by apply u8_s8; lia|]. intros s' Hw'.
    replace (str + Z.of_nat (length dn) + 1)
      with (str + Z.of_nat (length (dn ++ [k]))) by (rewrite length_app; cbn; lia).
    eapply round_end; [exact Ha|lia|done|done|done].
Qed.

Lemma vsprintf_run args (Q : Z -> bmem -> Prop) :
  Forall arg_ok args -> render F args = Some OUT -> Forall (fun c => 0 < c < 256) OUT ->
  Q (Z.of_nat (length OUT)) (write_bytes m str OUT) ->
  wp (vsprintf str format (arg_word <$> args)) Q m.
Proof.
  intros Hargs Hr Hout HQ. unfold vsprintf, mem_fuel. wp_simp.
  assert (Hw : wrote [] OUT m) by done.
  eapply wrote_ldc; [exact Hw|apply at_char_start|]. wp_simp.
  pose proof (cstr_size m format F Hfmt).
  apply (wp_loop vinv (fun x _ => vmeas x)).
  - intros x s Hx. eapply wp_mono; [by apply vsprintf_round|]. intros [x'|[]] s' Hp; [exact Hp|].
    destruct Hp as [_ ->]. apply (strlen_run _ str OUT); [unfold NULL; lia| |].
    + split; [|done]. rewrite <- write_bytes_nul.
      * apply write_bytes_at.
      * apply Hzero. lia.
    + rewrite u32_small by lia. done.
  - exists F, args, [], OUT. split; [apply at_char_start|]. cbn. repeat split; try done. lia.
  - cbn. lia.
Qed.
End vsprintf.

(** ** The properties *)

(** itoa writes the canonical numeral: reading the digits back gives the
    value, there is no leading zero, and nothing behind the digits is touched. *)
Theorem itoa_roundtrip m p base v :
  2 <= base <= 36 -> 0 <= v < 2 ^ 32 -> mapped m p 32 ->
  exists l m', itoa v p base m = Ok (p + Z.of_nat (length l), m') /\
    bytes_at m' p l /\ of_digits base l = v /\ (0 < v -> hd 48 l <> 48) /\
    forall q, q < p \/ p + Z.of_nat (length l) <= q -> m' !! q = m !! q.
Proof.
  intros Hb Hv Hm. pose proof (to_digits_length base ITOA_FUEL v) as Hl.
  exists (digits base v), (write_bytes m p (digits base v)).
  assert (H : wp (itoa v p base) (fun r s => r = p + Z.of_nat (length (digits base v)) /\
    s = write_bytes m p (digits base v)) m).
  { apply itoa_run; [done|done| |done]. intros i Hi. apply Hm. unfold digits, ITOA_FUEL in *. lia. }
  apply wp_Ok in H as (r & s & E & -> & ->). split; [exact E|]. split; [apply write_bytes_at|].
  split; [apply to_digits_value; [done|exact Hv|unfold ITOA_FUEL; lia]|]. split.
  - intros Hp. destruct (to_digits_head base Hb 31 v Hp) as [H|H]; [exact H|].
    change (Z.of_nat 32) with 32 in H. lia.
  - intros q Hq. by apply write_bytes_out.
Qed.

Definition demo_buf : bmem := list_to_map (imap (fun i b => (1000 + Z.of_nat i, b)) (replicate 40 0)).

Lemma itoa_roundtrip_witness :
  exists l m', itoa 3735928559 1000 16 demo_buf = Ok (1000 + Z.of_nat (length l), m') /\
    bytes_at m' 1000 l /\ of_digits 16 l = 3735928559 /\ (0 < 3735928559 -> hd 48 l <> 48) /\
    forall q, q < 1000 \/ 1000 + Z.of_nat (length l) <= q -> m' !! q = demo_buf !! q.
Proof.
  apply (itoa_roundtrip demo_buf 1000 16 3735928559); [lia|lia|].
  intros i Hi. exists 0. unfold demo_buf. apply elem_of_list_to_map_1.
  - apply (bool_decide_unpack _). vm_compute. done.
  - apply elem_of_lookup_imap. exists (Z.to_nat i), 0. split; [f_equal; lia|].
    apply lookup_replicate_2. lia.
Defined.

(** [C29] vsprintf into a zeroed buffer apart from the format and the string
    arguments writes exactly the text that the format describes, terminated,
    and returns its length; no other byte changes. *)
Theorem vsprintf_renders m str format F args out :
  0 < str -> cstr m format F -> render F args = Some out ->
  Forall (fun c => 0 < c < 256) out -> Z.of_nat (length out) < 2 ^ 31 ->
  (forall i, 0 <= i <= Z.of_nat (length out) -> m !! (str + i) = Some 0) ->
  disjoint_ranges str (S (length out)) format (S (length F)) ->
  Forall (arg_ok m str out) args ->
  exists m', vsprintf str format (arg_word <$> args) m = Ok (Z.of_nat (length out), m') /\
    cstr m' str out /\
    forall q, q < str \/ str + Z.of_nat (length out) <= q -> m' !! q = m !! q.
Proof.
  intros Hs Hf Hr Ho Hl Hz Hd Ha. exists (write_bytes m str out).
  assert (H : wp (vsprintf str format (arg_word <$> args))
    (fun r s => r = Z.of_nat (length out) /\ s = write_bytes m str out) m).
  { by apply (vsprintf_run m str format F out). }
  apply wp_Ok in H as (r & s & E & -> & ->). split; [exact E|]. split.
  - split; [|done]. rewrite <- write_bytes_nul; [apply write_bytes_at|]. apply Hz. lia.
  - intros q Hq. by apply write_bytes_out.
Qed.

(** "%d:%s!" at 2000, "ok" at 3000, and a zeroed buffer at 1000. *)
Definition demo_fmt : list Z := [37; 100; 58; 37; 115; 33].
Definition demo_mem : bmem :=
  write_bytes (write_bytes (write_bytes ∅ 1000 (replicate 7 0)) 2000 (demo_fmt ++ [0])) 3000 [111; 107; 0].

Lemma vsprintf_renders_witness :
  exists m', vsprintf 1000 2000 [0xffffffff; 3000] demo_mem = Ok (6, m') /\
    cstr m' 1000 [45; 49; 58; 111; 107; 33] /\
    forall q, q < 1000 \/ 1000 + 6 <= q -> m' !! q = demo_mem !! q.
Proof.
  apply (vsprintf_renders demo_mem 1000 2000 demo_fmt [FInt 0xffffffff; FStr 3000 [111; 107]]
    [45; 49; 58; 111; 107; 33]); try done.
  - split; [vm_compute; repeat split | repeat constructor; done].
  - repeat constructor; done.
  - intros i Hi. cbn in Hi. rewrite <- (Z2Nat.id i) by lia.
    assert (Hn : (Z.to_nat i < 7)%nat) by lia. revert Hn. generalize (Z.to_nat i).
    intros n Hn. do 7 (destruct n as [|n]; [reflexivity|]). lia.
  - left. cbn. lia.
  - constructor; [done|]. constructor; [|constructor]. cbn. split; [done|]. split.
    + split; [vm_compute; repeat split | repeat constructor; done].
    + left. cbn. lia.
Defined.
