(* ===== verification/Print.v ===== *)
(** * printf and printk (lib/stdio.c, lib/kernel/stdio-kernel.c)

    Both make the text in a buffer of 1024 bytes on the stack and hand it on:
    printf to the system call write, printk to console_put_str. The buffer is
    at an address of the byte memory of [CString]; what takes the text is a
    parameter, so that what is shown is what it is handed. *)

From Stdlib Require Import ZArith Lia.
From stdpp Require Import base numbers list gmap option.
From S2P Require Import Prelude DList CString Stdio.

Local Open Scope Z_scope.

Definition buf_size : Z := 1024.

Section print.
(** The address of buf, write and console_put_str. *)
Context (buf : Z) (write : Z -> Z -> Z -> M bmem Z) (console_put_str : Z -> M bmem unit).

(** char buf[1024] = {0} and vsprintf(buf, format, args). *)
Definition format_buf (format : Z) (args : list Z) : M bmem unit :=
  memset buf 0 buf_size ;;
  vsprintf buf format args ;;
  ret tt.

Definition printf (format : Z) (args : list Z) : M bmem Z :=
  format_buf format args ;;
  do n <- strlen buf;
  write 1 buf n.

Definition printk (format : Z) (args : list Z) : M bmem unit :=
  format_buf format args ;;
  console_put_str buf.

(** The format and the strings are not in the buffer. *)
Definition out_of_buf (p : Z) (l : list Z) : Prop := disjoint_ranges buf (Z.to_nat buf_size) p (S (length l)).
Definition print_arg (m : bmem) (a : fmt_arg) : Prop :=
  match a with FInt _ => True | FStr p l => p <> NULL /\ cstr m p l /\ out_of_buf p l end.

(** What the buffer holds: the text, and zeros to its end. *)
Definition printed (m : bmem) (out : list Z) : bmem := write_bytes (write_bytes m buf (replicate (Z.to_nat buf_size) 0)) buf out.

Lemma cstr_cleared m p l : cstr m p l -> out_of_buf p l -> cstr (write_bytes m buf (replicate (Z.to_nat buf_size) 0)) p l.
Proof using.
  intros Hc Hd. eapply cstr_frame; [|exact Hc]. intros q Hq. apply write_bytes_out. rewrite length_replicate.
  unfold out_of_buf, disjoint_ranges, buf_size in Hd. unfold buf_size in *. lia.
Qed.

Lemma cleared_zero m i : 0 <= i < buf_size -> write_bytes m buf (replicate (Z.to_nat buf_size) 0) !! (buf + i) = Some 0.
Proof using.
  intros Hi. rewrite <- (Z2Nat.id i) by lia. eapply bytes_at_lookup; [apply write_bytes_at|]. apply lookup_replicate_2. lia.
Qed.

Context (m : bmem) (format : Z) (F : list Z) (args : list fmt_arg) (out : list Z).
Context (Hb : 0 < buf) (Hm : mapped m buf (Z.to_nat buf_size)).
Context (Hf : cstr m format F) (Hfd : out_of_buf format F) (Ha : Forall (print_arg m) args).
Context (Hr : render F args = Some out) (Ho : Forall (fun c => 0 < c < 256) out) (Hl : Z.of_nat (length out) < buf_size).

Lemma printed_cstr : cstr (printed m out) buf out.
Proof using Hl Ho.
  split; [|done]. unfold printed. rewrite <- write_bytes_nul; [apply write_bytes_at|]. apply cleared_zero. lia.
Qed.

Lemma format_buf_run (Q : unit -> bmem -> Prop) : Q tt (printed m out) -> wp (format_buf format (arg_word <$> args)) Q m.
Proof using Hb Hm Hf Hfd Ha Hr Ho Hl.
  intros HQ. unfold format_buf. rewrite wp_bind. apply memset_run; [unfold NULL; lia|done|done|lia|].
  rewrite wp_bind. apply (vsprintf_run _ buf format F out); try done.
  - by apply cstr_cleared.
  - intros i Hi. apply cleared_zero. lia.
  - unfold out_of_buf, disjoint_ranges, buf_size in *. lia.
  - unfold buf_size in Hl. lia.
  - eapply list.Forall_impl; [exact Ha|]. intros [w|p l]; [done|]. intros (H1 & H2 & H3). split; [done|]. split; [by apply cstr_cleared|].
    unfold out_of_buf, disjoint_ranges, buf_size in *. lia.
Qed.

(** A text shorter than the buffer is handed on whole: printf calls write
    once, for descriptor 1, with exactly the text that its format and arguments
    describe, and printk calls console_put_str with it; apart from the buffer
    the memory is as it was. *)
Theorem print_hands_text :
  exists m', cstr m' buf out /\ (forall q, q < buf \/ buf + buf_size <= q -> m' !! q = m !! q) /\
    printf format (arg_word <$> args) m = write 1 buf (Z.of_nat (length out)) m' /\
    printk format (arg_word <$> args) m = console_put_str buf m'.
Proof using Hb Hm Hf Hfd Ha Hr Ho Hl.
  exists (printed m out). split; [apply printed_cstr|].
  assert (E : format_buf format (arg_word <$> args) m = Ok (tt, printed m out)) by (apply wp_eq, format_buf_run; done).
  split; [|split].
  - intros q Hq. unfold printed. rewrite !write_bytes_out; [done| |lia]. rewrite length_replicate. unfold buf_size in *. lia.
  - unfold printf. rewrite (bind_Ok _ _ _ _ _ E).
    assert (Es : strlen buf (printed m out) = Ok (Z.of_nat (length out), printed m out)).
    { apply wp_eq. apply (strlen_run _ buf out); [unfold NULL; lia|apply printed_cstr|]. split; [|done]. apply u32_small. unfold buf_size in Hl. lia. }
    by rewrite (bind_Ok _ _ _ _ _ Es).
  - unfold printk. by rewrite (bind_Ok _ _ _ _ _ E).
Qed.
End print.

(** ** The text alone

    What reaches the screen, for a caller whose own state has no byte memory:
    the same routines run on a memory with the buffer of the stack, as it is
    left by earlier calls, and the format. [print_hands_text] shows that the text
    does not depend on where the two are. *)

Definition buf_at : Z := 0x1000.
Definition format_at : Z := 0x2000.
Definition print_memory (format : list Z) : bmem :=
  write_bytes (write_bytes ∅ buf_at (replicate (Z.to_nat buf_size) 0xcc)) format_at (format ++ [0]).

Fixpoint ld_bytes (p : Z) (n : nat) : M bmem (list Z) :=
  match n with
  | O => ret []
  | S n' => do c <- ld8 p; do cs <- ld_bytes (p + 1) n'; ret (c :: cs)
  end.

Definition print_text (args : list Z) : M bmem (list Z) :=
  format_buf buf_at format_at args ;;
  do n <- strlen buf_at;
  ld_bytes buf_at (Z.to_nat n).

Lemma ld_bytes_run p l m (Q : list Z -> bmem -> Prop) : bytes_at m p l -> Q l m -> wp (ld_bytes p (length l)) Q m.
Proof.
  revert p Q. induction l as [|c l IH]; intros p Q Hb HQ; cbn [ld_bytes length]; [done|]. destruct Hb as [Hc Hb].
  rewrite wp_bind. eapply wp_ld8; [exact Hc|]. rewrite wp_bind. apply IH; [done|]. by wp_simp.
Qed.

(** The text of a format with integers. *)
Lemma print_text_run F args out {S} (s : S) (Q : list Z -> S -> Prop) :
  Forall (fun c => 0 < c < 256) F -> render F (FInt <$> args) = Some out ->
  Forall (fun c => 0 < c < 256) out -> Z.of_nat (length out) < buf_size ->
  Z.of_nat (length F) < 0x1000 -> Q out s -> wp (run_on (print_memory F) (print_text args)) Q s.
Proof.
  intros HF Hr Ho Hl HlF HQ. apply wp_run_on. unfold print_text. rewrite wp_bind.
  replace args with (arg_word <$> (FInt <$> args)) by (rewrite <- list_fmap_compose; apply list_fmap_id).
  eapply (format_buf_run buf_at (print_memory F) format_at F (FInt <$> args) out); try done.
  - unfold print_memory. apply mapped_write. apply (bytes_at_mapped _ buf_at (replicate 1024 0xcc)), write_bytes_at.
  - unfold print_memory. by apply cstr_write.
  - left. unfold buf_at, format_at, buf_size. lia.
  - apply Forall_fmap, list.Forall_forall. done.
  - assert (Hc : cstr (printed buf_at (print_memory F) out) buf_at out) by (by eapply (printed_cstr _ _ out)).
    rewrite wp_bind. eapply (strlen_run _ buf_at out); [done|exact Hc|]. unfold buf_size in Hl.
    rewrite u32_small, Nat2Z.id by lia. apply ld_bytes_run; [|exact HQ]. destruct Hc as [Hc _]. by apply bytes_at_app in Hc as [Hc _].
Qed.

(** "%d:%s!" and "ok" behind a buffer at 1000; write keeps what it is given. *)
Definition print_mem : bmem :=
  write_bytes (write_bytes (write_bytes ∅ 1000 (replicate 1024 255)) 3000 (demo_fmt ++ [0])) 4000 [111; 107; 0].

Lemma print_hands_text_witness :
  exists m', cstr m' 1000 [45; 49; 58; 111; 107; 33] /\ (forall q, q < 1000 \/ 1000 + buf_size <= q -> m' !! q = print_mem !! q) /\
    printf 1000 (fun fd p n => ret (fd + n)) 3000 [0xffffffff; 4000] print_mem = ret (1 + 6) m' /\
    printk 1000 (fun p => ret tt) 3000 [0xffffffff; 4000] print_mem = ret tt m'.
Proof.
  apply (print_hands_text 1000 (fun fd p n => ret (fd + n)) (fun p => ret tt) print_mem 3000 demo_fmt
    [FInt 0xffffffff; FStr 4000 [111; 107]] [45; 49; 58; 111; 107; 33]).
  - lia.
  - unfold print_mem. do 2 apply mapped_write. apply (bytes_at_mapped _ 1000 (replicate 1024 255)), write_bytes_at.
  - split; [vm_compute; repeat split | repeat constructor; done].
  - left. vm_compute. congruence.
  - constructor; [done|]. constructor; [|constructor]. split; [done|]. split.
    + split; [vm_compute; repeat split | repeat constructor; done].
    + left. vm_compute. congruence.
  - reflexivity.
  - repeat constructor; done.
  - cbn. unfold buf_size. lia.
Defined.
