(* ===== verification/Ioqueue.v ===== *)
(** * Ring buffers between interrupt handlers and threads (device/ioqueue.c)

    An ioqueue holds at most 63 characters between [tail] (read) and [head]
    (written), and at most one waiting producer and one waiting consumer. A
    call that waits is cut where the thread leaves the processor: the [outcome]
    says which call it is in, and the definition with the matching name is what
    runs when that call has returned. The abstraction of a queue is the
    sequence of its characters ([contents]). *)

From Stdlib Require Import ZArith Lia.
From stdpp Require Import base numbers list gmap option.
From S2P Require Import Prelude Intr DList ListHeap Paging Thread Sync.

Local Open Scope Z_scope.

Definition bufsize : Z := 64.

(** struct ioqueue, for the queue whose lock is at address [q_lock]. *)
Record ioqueue := Ioq {
  q_lock : Z;
  producer : Z;
  consumer : Z;
  buf : list Z;
  head : Z;
  tail : Z
}.

Record istate := IState { i_k : kstate; i_q : ioqueue }.
Definition set_k (k : kstate) (s : istate) : istate := IState k (i_q s).
Definition set_q (q : ioqueue) (s : istate) : istate := IState (i_k s) q.
Definition on_k {A} (m : M kstate A) : M istate A := zoom i_k set_k m.

Definition set_producer (v : Z) (q : ioqueue) : ioqueue :=
  Ioq (q_lock q) v (consumer q) (buf q) (head q) (tail q).
Definition set_consumer (v : Z) (q : ioqueue) : ioqueue :=
  Ioq (q_lock q) (producer q) v (buf q) (head q) (tail q).
Definition upd_q (f : ioqueue -> ioqueue) : M istate unit :=
  modify (fun s => set_q (f (i_q s)) s).

Definition ioqueue_init : M istate unit :=
  do s <- get;
  on_k (lock_init (q_lock (i_q s))) ;;
  upd_q (fun q => Ioq (q_lock q) NULL NULL (buf q) 0 0).

(** [(pos + 1) % bufsize]; the remainder of C truncates towards zero. *)
Definition next_pos (pos : Z) : Z := Z.rem (s32 (pos + 1)) bufsize.

Definition assert_intr_off : M istate unit :=
  do st <- on_k k_intr_get_status; ASSERT (bool_decide (st = INTR_OFF)).

Definition ioq_full : M istate bool :=
  assert_intr_off ;;
  do q <- gets i_q; ret (next_pos (head q) =? tail q).

Definition ioq_empty : M istate bool :=
  assert_intr_off ;;
  do q <- gets i_q; ret (head q =? tail q).

(** One of the two waiter fields. *)
Inductive side := Producer | Consumer.
Definition waiter (w : side) (q : ioqueue) : Z :=
  match w with Producer => producer q | Consumer => consumer q end.
Definition set_waiter (w : side) (v : Z) (q : ioqueue) : ioqueue :=
  match w with Producer => set_producer v q | Consumer => set_consumer v q end.

Definition ioq_wait (w : side) : M istate unit :=
  do q <- gets i_q;
  ASSERT (waiter w q =? NULL) ;;
  do cur <- on_k running_thread;
  upd_q (set_waiter w cur) ;;
  on_k (thread_block TASK_BLOCKED).

Definition wakeup (w : side) : M istate unit :=
  do q <- gets i_q;
  ASSERT (negb (waiter w q =? NULL)) ;;
  on_k (thread_unblock (waiter w q)) ;;
  upd_q (set_waiter w NULL).

(** [buf[i]] and [buf[i] = v]: the array is one of [char]. *)
Definition ld_buf (i : Z) : M istate Z :=
  do q <- gets i_q;
  if i <? 0 then fault else of_option (buf q !! Z.to_nat i).
Definition st_buf (i v : Z) : M istate unit :=
  ld_buf i ;;
  upd_q (fun q => Ioq (q_lock q) (producer q) (consumer q) (<[Z.to_nat i := s8 v]> (buf q))
    (head q) (tail q)).

(** Where a call is: returned with a value, or inside lock_acquire, the
    thread_block of ioq_wait, or lock_release. *)
Inductive outcome (A : Type) := Returned (a : A) | InAcquire | InWait | InRelease.
Arguments Returned {A} a.
Arguments InAcquire {A}.
Arguments InWait {A}.
Arguments InRelease {A}.

(** The condition of the loop and, when it ends, the transfer. *)
Definition ioq_getchar_loop : M istate (outcome Z) :=
  do e <- ioq_empty;
  if e then
    do q <- gets i_q;
    on_k (lock_acquire (q_lock q)) ;;
    ret InAcquire
  else
    do q <- gets i_q;
    do byte <- ld_buf (tail q);
    upd_q (fun q => Ioq (q_lock q) (producer q) (consumer q) (buf q) (head q) (next_pos (tail q))) ;;
    do q <- gets i_q;
    (if negb (producer q =? NULL) then wakeup Producer else ret tt) ;;
    ret (Returned byte).

Definition ioq_getchar : M istate (outcome Z) := assert_intr_off ;; ioq_getchar_loop.
Definition ioq_getchar_acquired : M istate (outcome Z) := ioq_wait Consumer ;; ret InWait.
Definition ioq_getchar_woken : M istate (outcome Z) :=
  do q <- gets i_q; on_k (lock_release (q_lock q)) ;; ret InRelease.
Definition ioq_getchar_released : M istate (outcome Z) := ioq_getchar_loop.

Definition ioq_putchar_loop (byte : Z) : M istate (outcome unit) :=
  do f <- ioq_full;
  if f then
    do q <- gets i_q;
    on_k (lock_acquire (q_lock q)) ;;
    ret InAcquire
  else
    do q <- gets i_q;
    st_buf (head q) byte ;;
    upd_q (fun q => Ioq (q_lock q) (producer q) (consumer q) (buf q) (next_pos (head q)) (tail q)) ;;
    do q <- gets i_q;
    (if negb (consumer q =? NULL) then wakeup Consumer else ret tt) ;;
    ret (Returned tt).

Definition ioq_putchar (byte : Z) : M istate (outcome unit) :=
  assert_intr_off ;; ioq_putchar_loop byte.
Definition ioq_putchar_acquired : M istate (outcome unit) := ioq_wait Producer ;; ret InWait.
Definition ioq_putchar_woken : M istate (outcome unit) :=
  do q <- gets i_q; on_k (lock_release (q_lock q)) ;; ret InRelease.
Definition ioq_putchar_released (byte : Z) : M istate (outcome unit) := ioq_putchar_loop byte.

(** ** The abstraction *)

Definition q_len (q : ioqueue) : Z := (head q - tail q) mod bufsize.

(** The characters of the queue, oldest first. *)
Definition slot (q : ioqueue) (i : Z) : Z := default 0 (buf q !! Z.to_nat i).
Definition contents (q : ioqueue) : list Z :=
  (fun i => slot q ((tail q + Z.of_nat i) mod bufsize)) <$> seq 0 (Z.to_nat (q_len q)).

Record ioq_wf (q : ioqueue) : Prop := {
  wf_buf : length (buf q) = Z.to_nat bufsize;
  wf_head : 0 <= head q < bufsize;
  wf_tail : 0 <= tail q < bufsize
}.

Lemma next_pos_mod p : 0 <= p < bufsize -> next_pos p = (p + 1) mod bufsize.
Proof.
  unfold bufsize. intros Hp. unfold next_pos. rewrite s32_small by lia.
  apply Z.rem_mod_nonneg; unfold bufsize; lia.
Qed.

Lemma q_len_bound q : 0 <= q_len q < bufsize.
Proof. apply Z.mod_pos_bound. reflexivity. Qed.

Lemma contents_length q : Z.of_nat (length (contents q)) = q_len q.
Proof.
  unfold contents. rewrite length_fmap, length_seq. pose proof (q_len_bound q). lia.
Qed.

Lemma full_iff q : ioq_wf q -> (next_pos (head q) =? tail q) = bool_decide (q_len q = bufsize - 1).
Proof.
  intros [_ Hh Ht]. rewrite next_pos_mod by done. unfold q_len, bufsize in *.
  case_bool_decide; [apply Z.eqb_eq | apply Z.eqb_neq]; dlia.
Qed.

Lemma empty_iff q : ioq_wf q -> (head q =? tail q) = bool_decide (contents q = []).
Proof.
  intros [_ Hh Ht]. pose proof (contents_length q) as Hl. unfold q_len, bufsize in *.
  destruct (Z.eqb_spec (head q) (tail q)) as [E|E].
  - symmetry. apply bool_decide_true. destruct (contents q); [done|]. cbn [length] in Hl.
    rewrite E, Z.sub_diag, Z.mod_0_l in Hl by lia. lia.
  - symmetry. apply bool_decide_false. intros E0. rewrite E0 in Hl. cbn [length] in Hl. dlia.
Qed.

(** Taking the oldest character. *)
Definition taken (q : ioqueue) : ioqueue :=
  Ioq (q_lock q) (producer q) (consumer q) (buf q) (head q) (next_pos (tail q)).
(** Adding a character. *)
Definition added (b : Z) (q : ioqueue) : ioqueue :=
  Ioq (q_lock q) (producer q) (consumer q) (<[Z.to_nat (head q) := s8 b]> (buf q))
    (next_pos (head q)) (tail q).

Lemma taken_wf q : ioq_wf q -> ioq_wf (taken q).
Proof.
  intros [Hb Hh Ht]. split; [done|done|]. cbn. rewrite next_pos_mod by done.
  apply Z.mod_pos_bound. reflexivity.
Qed.

Lemma added_wf b q : ioq_wf q -> ioq_wf (added b q).
Proof.
  intros [Hb Hh Ht]. split; [by cbn; rewrite length_insert| |done]. cbn.
  rewrite next_pos_mod by done. apply Z.mod_pos_bound. reflexivity.
Qed.

Lemma taken_contents q c l :
  ioq_wf q -> contents q = c :: l -> slot q (tail q) = c /\ contents (taken q) = l.
Proof.
  intros Hwf E. pose proof (contents_length q) as Hl. rewrite E in Hl. cbn [length] in Hl.
  destruct Hwf as [Hb Hh Ht]. unfold contents in E.
  destruct (Z.to_nat (q_len q)) as [|n] eqn:En; [done|].
  cbn [seq fmap list_fmap] in E. injection E as Ec El. split.
  - rewrite <- Ec. f_equal. unfold bufsize in *. rewrite Z.add_0_r, Z.mod_small by lia. done.
  - rewrite <- El. unfold contents.
    assert (Hq : Z.to_nat (q_len (taken q)) = n).
    { unfold q_len in *. cbn [head tail taken]. rewrite next_pos_mod by done. unfold bufsize in *. dlia. }
    rewrite Hq, <- fmap_S_seq, <- list_fmap_compose. apply list_fmap_ext. intros i x _. cbn.
    change (slot (taken q)) with (slot q). f_equal. rewrite next_pos_mod by done.
    unfold bufsize. dlia.
Qed.

Lemma added_contents b q :
  ioq_wf q -> q_len q <> bufsize - 1 -> contents (added b q) = contents q ++ [s8 b].
Proof.
  intros [Hb Hh Ht] Hn. pose proof (q_len_bound q) as Hq. unfold contents.
  assert (Hl : Z.to_nat (q_len (added b q)) = S (Z.to_nat (q_len q))).
  { unfold q_len in *. cbn [head tail added]. rewrite next_pos_mod by done. unfold bufsize in *. dlia. }
  rewrite Hl, seq_S, fmap_app. cbn [fmap list_fmap]. f_equal.
  - apply list_fmap_ext. intros i x Hx. apply lookup_seq in Hx as [-> Hi]. unfold slot. f_equal.
    cbn [buf tail added]. apply list_lookup_insert_ne. unfold q_len, bufsize in *. dlia.
  - f_equal. unfold slot. cbn [buf tail added]. replace ((tail q + Z.of_nat (0 + Z.to_nat (q_len q))) mod bufsize)
      with (head q) by (unfold q_len, bufsize in *; dlia).
    rewrite list_lookup_insert_eq; [done|]. rewrite Hb. unfold bufsize in *. lia.
Qed.

(** ** Calls that do not have to wait *)

Lemma wp_on_k {A} (m : M kstate A) (Q : A -> istate -> Prop) s :
  wp (on_k m) Q s = wp m (fun a k => Q a (set_k k s)) (i_k s).
Proof. unfold on_k. by rewrite wp_zoom. Qed.

Lemma set_k_id s : set_k (i_k s) s = s.
Proof. by destruct s. Qed.

Lemma assert_intr_off_run (Q : unit -> istate -> Prop) s :
  k_if (i_k s) = false -> Q tt s -> wp assert_intr_off Q s.
Proof.
  intros Hif HQ. unfold assert_intr_off. wp_simp. rewrite wp_on_k. apply wp_k_status.
  rewrite Hif, set_k_id. apply wp_ASSERT. split; [by apply bool_decide_true|done].
Qed.

Lemma ioq_full_run (Q : bool -> istate -> Prop) s :
  k_if (i_k s) = false -> ioq_wf (i_q s) ->
  Q (bool_decide (q_len (i_q s) = bufsize - 1)) s -> wp ioq_full Q s.
Proof.
  intros Hif Hwf HQ. unfold ioq_full. wp_simp. apply assert_intr_off_run; [done|]. wp_simp.
  by rewrite full_iff.
Qed.

Lemma ioq_empty_run (Q : bool -> istate -> Prop) s :
  k_if (i_k s) = false -> ioq_wf (i_q s) ->
  Q (bool_decide (contents (i_q s) = [])) s -> wp ioq_empty Q s.
Proof.
  intros Hif Hwf HQ. unfold ioq_empty. wp_simp. apply assert_intr_off_run; [done|]. wp_simp.
  by rewrite empty_iff.
Qed.

Lemma ld_buf_run i (Q : Z -> istate -> Prop) s :
  ioq_wf (i_q s) -> 0 <= i < bufsize -> Q (slot (i_q s) i) s -> wp (ld_buf i) Q s.
Proof.
  intros Hwf Hi HQ. unfold ld_buf. wp_simp. destruct (Z.ltb_spec i 0); [lia|].
  destruct (lookup_lt_is_Some_2 (buf (i_q s)) (Z.to_nat i)) as [v Hv].
  { rewrite (wf_buf _ Hwf). lia. }
  wp_load Hv. unfold slot in HQ. by rewrite Hv in HQ.
Qed.

(** The transfer, and the wake-up that follows it. *)
Lemma ioq_getchar_run c l (Q : outcome Z -> istate -> Prop) s :
  k_if (i_k s) = false -> ioq_wf (i_q s) -> contents (i_q s) = c :: l ->
  wp (if negb (producer (i_q s) =? NULL) then wakeup Producer else ret tt)
    (fun _ => Q (Returned c)) (set_q (taken (i_q s)) s) ->
  wp ioq_getchar Q s.
Proof.
  intros Hif Hwf Hc HQ. unfold ioq_getchar, ioq_getchar_loop. wp_simp.
  apply assert_intr_off_run; [done|]. wp_simp. apply ioq_empty_run; [done|done|].
  rewrite bool_decide_false by (by rewrite Hc). wp_simp.
  apply ld_buf_run; [done|apply Hwf|]. unfold upd_q. wp_simp.
  destruct (taken_contents _ _ _ Hwf Hc) as [-> _].
  eapply wp_mono; [exact HQ|]. intros [] s' HQ'. by wp_simp.
Qed.

Lemma ioq_putchar_run b (Q : outcome unit -> istate -> Prop) s :
  k_if (i_k s) = false -> ioq_wf (i_q s) -> q_len (i_q s) <> bufsize - 1 ->
  wp (if negb (consumer (i_q s) =? NULL) then wakeup Consumer else ret tt)
    (fun _ => Q (Returned tt)) (set_q (added b (i_q s)) s) ->
  wp (ioq_putchar b) Q s.
Proof.
  intros Hif Hwf Hc HQ. unfold ioq_putchar, ioq_putchar_loop. wp_simp.
  apply assert_intr_off_run; [done|]. wp_simp. apply ioq_full_run; [done|done|].
  rewrite bool_decide_false by done. unfold st_buf. wp_simp.
  apply ld_buf_run; [done|apply Hwf|]. unfold upd_q. wp_simp.
  eapply wp_mono; [exact HQ|]. intros [] s' HQ'. by wp_simp.
Qed.

(** ** Programs of queue operations *)

Inductive ioq_op := Put (b : Z) | Get.

(** A bounded queue of [char]s; [None] when the operation would have to wait. *)
Definition fifo_spec (op : ioq_op) (l : list Z) : option (option Z * list Z) :=
  match op with
  | Put b => if decide (Z.of_nat (length l) = bufsize - 1) then None else Some (None, l ++ [s8 b])
  | Get => match l with [] => None | c :: l' => Some (Some c, l') end
  end.

Definition fifo_impl (op : ioq_op) : M istate (option Z) :=
  match op with
  | Put b => do r <- ioq_putchar b; match r with Returned _ => ret None | _ => fault end
  | Get => do r <- ioq_getchar; match r with Returned c => ret (Some c) | _ => fault end
  end.

Fixpoint fifo_spec_run (ops : list ioq_op) (l : list Z) : option (list (option Z) * list Z) :=
  match ops with
  | [] => Some ([], l)
  | op :: ops' =>
      match fifo_spec op l with
      | Some (r, l') => (fun p => (r :: p.1, p.2)) <$> fifo_spec_run ops' l'
      | None => None
      end
  end.

Fixpoint fifo_impl_run (ops : list ioq_op) : M istate (list (option Z)) :=
  match ops with
  | [] => ret []
  | op :: ops' => do r <- fifo_impl op; do rs <- fifo_impl_run ops'; ret (r :: rs)
  end.

(** Nobody waits on the queue. *)
Definition no_waiters (q : ioqueue) : Prop := producer q = NULL /\ consumer q = NULL.

Lemma fifo_impl_step op r l' k q (Q : option Z -> istate -> Prop) :
  k_if k = false -> ioq_wf q -> no_waiters q -> fifo_spec op (contents q) = Some (r, l') ->
  (forall q', ioq_wf q' -> no_waiters q' -> contents q' = l' -> Q r (IState k q')) ->
  wp (fifo_impl op) Q (IState k q).
Proof.
  intros Hif Hwf [Hp Hc] Hs HQ. destruct op as [b|]; cbn [fifo_impl fifo_spec] in *; wp_simp.
  - destruct (decide _) as [|Hn]; [done|]. injection Hs as <- <-. rewrite contents_length in Hn.
    apply ioq_putchar_run; [done|done|done|]. cbn [i_q]. rewrite Hc. cbn. wp_simp.
    apply HQ; [by apply added_wf|done|by apply added_contents].
  - destruct (contents q) as [|c l] eqn:E; [done|]. injection Hs as <- <-.
    apply (ioq_getchar_run c l); [done|done|done|]. cbn [i_q]. rewrite Hp. cbn. wp_simp.
    apply HQ; [by apply taken_wf|done|by eapply taken_contents].
Qed.

(** [C24] With interrupts masked and nobody waiting, any program of reads and
    writes that does not have to wait behaves as a first-in first-out queue of
    at most 63 characters, and changes nothing but the queue. *)
Theorem ioq_refines_fifo ops rs l k q :
  k_if k = false -> ioq_wf q -> no_waiters q ->
  fifo_spec_run ops (contents q) = Some (rs, l) ->
  exists q', fifo_impl_run ops (IState k q) = Ok (rs, IState k q') /\ contents q' = l /\ ioq_wf q'.
Proof.
  intros Hif Hwf Hn Hs.
  assert (H : wp (fifo_impl_run ops) (fun rs' s' => rs' = rs /\ i_k s' = k /\
    contents (i_q s') = l /\ ioq_wf (i_q s')) (IState k q)).
  { revert q rs Hwf Hn Hs. induction ops as [|op ops IH]; intros q rs Hwf Hn Hs; cbn in *.
    - injection Hs as <- <-. wp_simp. done.
    - destruct (fifo_spec op (contents q)) as [[r l']|] eqn:E; [|done].
      apply fmap_Some in Hs as ([rs' l''] & Hs & [= -> ->]). wp_simp.
      eapply fifo_impl_step; [done|done|done|exact E|]. intros q' Hwf' Hn' <-. wp_simp.
      eapply wp_mono; [by eapply IH|]. intros rs2 s' (-> & ?). wp_simp. done. }
  apply wp_Ok in H as (rs' & [k' q'] & E & -> & Hk & Hc & Hw). cbn in *. subst k'. by exists q'.
Qed.

Definition demo_queue : ioqueue := Ioq 0xc0009000 NULL NULL (replicate 64 0) 63 62.

Lemma ioq_refines_fifo_witness :
  exists q', fifo_impl_run [Put 104; Get; Put 105; Get; Get] (IState demo_kstate demo_queue) =
      Ok ([None; Some 0; None; Some 104; Some 105], IState demo_kstate q') /\
    contents q' = [] /\ ioq_wf q'.
Proof.
  apply ioq_refines_fifo; try reflexivity.
  - split; [reflexivity | cbn; unfold bufsize; lia | cbn; unfold bufsize; lia].
  - done.
Defined.

(** [C32] A character put into a queue with a waiting consumer is appended, and
    the consumer becomes ready: it is taken off the queue's waiter field and
    put at the head of the ready list, so it is the next thread to run. *)
Theorem ioq_putchar_wakes_consumer b k q ls rd t ts :
  k_if k = false -> ioq_wf q -> q_len q <> bufsize - 1 -> consumer q = t -> t <> NULL ->
  sched_inv k ls rd -> k_tasks k !! t = Some ts -> blocked_status (status ts) = true ->
  unlinked ls (general_tag t) ->
  exists k' q', ioq_putchar b (IState k q) = Ok (Returned tt, IState k' q') /\
    contents q' = contents q ++ [s8 b] /\ consumer q' = NULL /\
    sched_inv k' (<[k_ready k := tags (t :: rd)]> ls) (t :: rd).
Proof.
  intros Hif Hwf Hl Hc Ht Hi Hts Hb Hu.
  assert (H : wp (ioq_putchar b) (fun r s' => r = Returned tt /\
    contents (i_q s') = contents q ++ [s8 b] /\ consumer (i_q s') = NULL /\
    sched_inv (i_k s') (<[k_ready k := tags (t :: rd)]> ls) (t :: rd)) (IState k q)).
  { apply ioq_putchar_run; [done|done|done|]. cbn [i_q]. rewrite Hc.
    rewrite (proj2 (Z.eqb_neq t NULL)) by done. cbn [negb]. unfold wakeup. wp_simp.
    apply wp_ASSERT. split; [cbn; rewrite Hc; by apply negb_true_iff, Z.eqb_neq|].
    wp_simp. rewrite wp_on_k. cbn [waiter set_q i_q i_k added consumer]. rewrite Hc.
    eapply thread_unblock_run; [exact Hi|exact Hts|done|done|]. intros h Hs Hi'.
    unfold upd_q. wp_simp. split; [done|]. split; [|done].
    cbn [set_k set_q i_q set_waiter set_consumer]. by rewrite <- added_contents. }
  apply wp_Ok in H as (r & [k' q'] & E & -> & H). by exists k', q'.
Qed.

Lemma ioq_putchar_wakes_consumer_witness :
  exists k' q', ioq_putchar 104 (IState demo_kstate (set_consumer 0xc0102000 demo_queue)) =
      Ok (Returned tt, IState k' q') /\
    contents q' = contents (set_consumer 0xc0102000 demo_queue) ++ [104] /\ consumer q' = NULL /\
    sched_inv k' (<[0xc0008000 := tags [0xc0102000; 0xc0101000]]> demo_lists)
      [0xc0102000; 0xc0101000].
Proof.
  apply (ioq_putchar_wakes_consumer 104 demo_kstate (set_consumer 0xc0102000 demo_queue)
    demo_lists [0xc0101000] 0xc0102000 (demo_pcb 0xc0102fb4 TASK_BLOCKED)); try done.
  - apply demo_can_schedule.
  - intros L xs H. unfold demo_lists in H. apply lookup_singleton_Some in H as [<- <-].
    apply (bool_decide_unpack _). vm_compute. done.
Defined.
