(* ===== verification/Keyboard.v ===== *)
(** * The keyboard driver (device/keyboard.c)

    The interrupt handler turns scan codes into characters, keeps track of the
    modifier keys, shows each character on the screen and puts it into the
    keyboard's ioqueue. The scan code that [inb] reads is an argument of the
    handler; the characters sent to the screen are a sequence in the state. *)

From Stdlib Require Import ZArith Lia.
From stdpp Require Import base numbers list gmap option.
From S2P Require Import Prelude Intr DList ListHeap Paging Thread Sync Ioqueue.

Local Open Scope Z_scope.

Definition alt_r_make : Z := 0xe038.
Definition ctrl_r_make : Z := 0xe01d.
Definition shift_l_make : Z := 0x2a.
Definition shift_r_make : Z := 0x36.
Definition alt_l_make : Z := 0x38.
Definition ctrl_l_make : Z := 0x1d.
Definition caps_lock_make : Z := 0x3a.

(** For each make code the character without and with shift. *)
Definition keymap : list (Z * Z) :=
  [
   (0, 0); (27, 27); (49, 33); (50, 64); (51, 35); (52, 36);
   (53, 37); (54, 94); (55, 38); (56, 42); (57, 40); (48, 41);
   (45, 95); (61, 43); (8, 8); (9, 9); (113, 81); (119, 87);
   (101, 69); (114, 82); (116, 84); (121, 89); (117, 85); (105, 73);
   (111, 79); (112, 80); (91, 123); (93, 125); (13, 13); (0, 0);
   (97, 65); (115, 83); (100, 68); (102, 70); (103, 71); (104, 72);
   (106, 74); (107, 75); (108, 76); (59, 58); (39, 34); (96, 126);
   (0, 0); (92, 124); (122, 90); (120, 88); (99, 67); (118, 86);
   (98, 66); (110, 78); (109, 77); (44, 60); (46, 62); (47, 63);
   (0, 0); (42, 42); (0, 0); (32, 32); (0, 0)
  ].

Record kbd := Kbd {
  ctrl_status : bool;
  shift_status : bool;
  alt_status : bool;
  caps_lock_status : bool;
  ext_scancode : bool;
  screen : list Z;
  k_i : istate
}.

Definition set_ctrl (b : bool) (s : kbd) : kbd :=
  Kbd b (shift_status s) (alt_status s) (caps_lock_status s) (ext_scancode s) (screen s) (k_i s).
Definition set_shift (b : bool) (s : kbd) : kbd :=
  Kbd (ctrl_status s) b (alt_status s) (caps_lock_status s) (ext_scancode s) (screen s) (k_i s).
Definition set_alt (b : bool) (s : kbd) : kbd :=
  Kbd (ctrl_status s) (shift_status s) b (caps_lock_status s) (ext_scancode s) (screen s) (k_i s).
Definition set_caps (b : bool) (s : kbd) : kbd :=
  Kbd (ctrl_status s) (shift_status s) (alt_status s) b (ext_scancode s) (screen s) (k_i s).
Definition set_ext (b : bool) (s : kbd) : kbd :=
  Kbd (ctrl_status s) (shift_status s) (alt_status s) (caps_lock_status s) b (screen s) (k_i s).
Definition set_screen (l : list Z) (s : kbd) : kbd :=
  Kbd (ctrl_status s) (shift_status s) (alt_status s) (caps_lock_status s) (ext_scancode s) l (k_i s).
Definition set_i (i : istate) (s : kbd) : kbd :=
  Kbd (ctrl_status s) (shift_status s) (alt_status s) (caps_lock_status s) (ext_scancode s)
    (screen s) i.

Definition on_i {A} (m : M istate A) : M kbd A := zoom k_i set_i m.
Definition put_char (c : Z) : M kbd unit := modify (fun s => set_screen (screen s ++ [c]) s).

Definition put_str (l : list Z) : M kbd unit := modify (fun s => set_screen (screen s ++ l) s).
(** The message for other keys. *)
Definition unknown_key : list Z := [117; 110; 107; 110; 111; 119; 110; 32; 107; 101; 121; 10].

(** [keymap[index][shift]] *)
Definition keymap_at (index : Z) (shift : bool) : M kbd Z :=
  do p <- of_option (keymap !! Z.to_nat index);
  ret (if shift then snd p else fst p).

(** The keys whose second character needs shift, whatever caps lock is. *)
Definition two_char_key (scancode : Z) : bool :=
  (scancode <? 0x0e) || (scancode =? 0x29) || (scancode =? 0x1a) || (scancode =? 0x1b) ||
  (scancode =? 0x2b) || (scancode =? 0x27) || (scancode =? 0x28) || (scancode =? 0x33) ||
  (scancode =? 0x34) || (scancode =? 0x35).

(** The part of the handler for the make codes it knows. *)
Definition kbd_make (scancode : Z) (shift_down_last caps_lock_last : bool) : M kbd unit :=
  let shift :=
    if two_char_key scancode then (if shift_down_last then true else false)
    else if shift_down_last && caps_lock_last then false
    else if shift_down_last || caps_lock_last then true else false in
  let scancode := Z.land scancode 0x00ff in
  do cur_char <- keymap_at (u8 scancode) shift;
  if truthy cur_char then
    do full <- on_i ioq_full;
    if negb full then
      put_char cur_char ;;
      on_i (ioq_putchar cur_char) ;;
      ret tt
    else ret tt
  else if (scancode =? ctrl_l_make) || (scancode =? ctrl_r_make) then modify (set_ctrl true)
  else if (scancode =? shift_l_make) || (scancode =? shift_r_make) then modify (set_shift true)
  else if (scancode =? alt_l_make) || (scancode =? alt_r_make) then modify (set_alt true)
  else if scancode =? caps_lock_make then modify (fun s => set_caps (negb (caps_lock_status s)) s)
  else ret tt.

Definition intr_keyboard_handler (inb : Z) : M kbd unit :=
  do s <- get;
  let shift_down_last := shift_status s in
  let caps_lock_last := caps_lock_status s in
  let scancode := u16 inb in
  if scancode =? 0xe0 then modify (set_ext true)
  else
    do scancode <- (if ext_scancode s
                    then modify (set_ext false) ;; ret (u16 (Z.lor 0xe000 scancode))
                    else ret scancode);
    let break_code := truthy (Z.land scancode 0x0080) in
    if break_code then
      let make_code := Z.land scancode 0xff7f in
      if (make_code =? ctrl_l_make) || (make_code =? ctrl_r_make) then modify (set_ctrl false)
      else if (make_code =? shift_l_make) || (make_code =? shift_r_make) then modify (set_shift false)
      else if (make_code =? alt_l_make) || (make_code =? alt_r_make) then modify (set_alt false)
      else ret tt
    else if ((0x00 <? scancode) && (scancode <? 0x3b)) || (scancode =? alt_r_make) ||
            (scancode =? ctrl_r_make) then
      kbd_make scancode shift_down_last caps_lock_last
    else put_str unknown_key.

(** ** What a key does *)

(** Which column of the keymap a key selects. *)
Definition shifted (scancode : Z) (shift caps : bool) : bool :=
  if two_char_key scancode then shift else xorb shift caps.

(** The state in which the handler runs: interrupts masked, the queue in
    order, and a waiting consumer, if any, blocked outside every list. *)
Record kbd_ok (s : kbd) (ls : gmap Z (list Z)) (rd : list Z) : Prop := {
  ko_if : k_if (i_k (k_i s)) = false;
  ko_q : ioq_wf (i_q (k_i s));
  ko_sched : sched_inv (i_k (k_i s)) ls rd;
  ko_consumer : consumer (i_q (k_i s)) = NULL \/ exists ts,
    k_tasks (i_k (k_i s)) !! consumer (i_q (k_i s)) = Some ts /\
    blocked_status (status ts) = true /\ unlinked ls (general_tag (consumer (i_q (k_i s))))
}.

Lemma wp_on_i {A} (m : M istate A) (Q : A -> kbd -> Prop) s :
  wp (on_i m) Q s = wp m (fun a i => Q a (set_i i s)) (k_i s).
Proof. unfold on_i. by rewrite wp_zoom. Qed.

(** The queue has received the characters [l] and nothing was lost. *)
Definition queued (l : list Z) (s s' : kbd) : Prop :=
  contents (i_q (k_i s')) = contents (i_q (k_i s)) ++ l /\ ioq_wf (i_q (k_i s')) /\
  k_if (i_k (k_i s')) = false.

Lemma queued_nil s s' : k_i s' = k_i s -> ioq_wf (i_q (k_i s)) -> k_if (i_k (k_i s)) = false ->
  queued [] s s'.
Proof. intros E Hw Hi. unfold queued. rewrite E, app_nil_r. done. Qed.

(** The flags of the modifier keys. *)
Definition flags (s : kbd) : bool * bool * bool * bool * bool :=
  (ctrl_status s, shift_status s, alt_status s, caps_lock_status s, ext_scancode s).

(** The characters of the keymap are [char]s: storing one does not change it. *)
Lemma keymap_chars i a b : keymap !! i = Some (a, b) -> s8 a = a /\ s8 b = b.
Proof.
  assert (H : forallb (fun p => (s8 p.1 =? p.1) && (s8 p.2 =? p.2)) keymap = true) by (vm_compute; done).
  intros Hi. rewrite forallb_forall in H.
  assert (Hin : List.In (a, b) keymap) by (apply list_elem_of_In; by eapply list_elem_of_lookup_2).
  apply H in Hin. cbn in Hin. apply andb_true_iff in Hin as [? ?]. by zbool.
Qed.

Lemma putchar_ok c s ls rd (Q : outcome unit -> istate -> Prop) :
  kbd_ok s ls rd -> s8 c = c -> q_len (i_q (k_i s)) <> bufsize - 1 ->
  (forall k' q', contents q' = contents (i_q (k_i s)) ++ [c] -> ioq_wf q' -> k_if k' = false ->
     Q (Returned tt) (IState k' q')) ->
  wp (ioq_putchar c) Q (k_i s).
Proof.
  intros [Hif Hwf Hs Hc] Hch Hl HQ. destruct s as [? ? ? ? ? ? [k q]]. cbn [k_i i_k i_q] in *.
  apply ioq_putchar_run; [done|done|done|]. cbn [i_q]. destruct Hc as [Hc|(ts & Hts & Hb & Hu)].
  - rewrite Hc. cbn. wp_simp. apply HQ; [by rewrite <- Hch at 2; apply added_contents|by apply added_wf|done].
  - pose proof (ok_addr _ _ _ _ _ (si_task _ _ _ Hs _ _ Hts)) as Ha.
    rewrite (proj2 (Z.eqb_neq (consumer q) NULL)) by (unfold NULL; lia). cbn [negb].
    unfold wakeup. wp_simp. apply wp_ASSERT. cbn [waiter added consumer set_q i_q i_k].
    split; [apply negb_true_iff, Z.eqb_neq; unfold NULL; lia|]. wp_simp. rewrite wp_on_k.
    eapply thread_unblock_run; [exact Hs|exact Hts|done|done|]. intros h Hn Hi'.
    unfold upd_q. wp_simp. apply HQ.
    + cbn. change (contents (added c q) = contents q ++ [c]). rewrite <- Hch at 2.
      by apply added_contents.
    + destruct (added_wf c q Hwf). by split.
    + exact Hif.
Qed.

(** A known make code: a key with a character queues and shows it unless the
    queue is full; a modifier key only changes a flag. *)
Lemma kbd_make_run sc sh cp a b s ls rd (Q : unit -> kbd -> Prop) :
  kbd_ok s ls rd -> keymap !! Z.to_nat (u8 (Z.land sc 0xff)) = Some (a, b) ->
  let c := if shifted sc sh cp then b else a in
  (forall s', (c <> 0 -> q_len (i_q (k_i s)) <> bufsize - 1 -> queued [c] s s' /\
                 screen s' = screen s ++ [c] /\ flags s' = flags s) ->
     ((c = 0 \/ q_len (i_q (k_i s)) = bufsize - 1) -> queued [] s s' /\ screen s' = screen s) ->
     Q tt s') ->
  wp (kbd_make sc sh cp) Q s.
Proof.
  intros Hok Hk c HQ. pose proof Hok as [Hif Hwf _ _]. unfold kbd_make, keymap_at. wp_simp.
  apply wp_of_option. exists (a, b). split; [exact Hk|]. wp_simp.
  assert (Hc : (if (if two_char_key sc then if sh then true else false
                    else if sh && cp then false else if sh || cp then true else false)
                then snd (a, b) else fst (a, b)) = c).
  { unfold c, shifted. destruct (two_char_key sc), sh, cp; reflexivity. }
  rewrite Hc. destruct (truthy c) eqn:E; zbool.
  - wp_simp. rewrite wp_on_i. apply ioq_full_run; [done|done|].
    case_bool_decide as Hf; cbn [negb]; wp_simp.
    + apply HQ; [done|]. intros _. split; [|done]. apply queued_nil; by destruct s.
    + unfold put_char. wp_simp. rewrite wp_on_i. eapply (putchar_ok c _ ls rd); [by destruct Hok| |done|].
      { destruct (keymap_chars _ _ _ Hk). unfold c. by destruct (shifted _ _ _). }
      intros k' q' Hq Hw Hi. wp_simp. apply HQ; [|intros [?|?]; done].
      intros _ _. split; [|done]. done.
  - assert (Hfin : forall s', k_i s' = k_i s -> screen s' = screen s -> Q tt s').
    { intros s' E1 E2. apply HQ; [done|]. intros _. split; [by apply queued_nil|done]. }
    repeat (match goal with |- context [if ?b then _ else _] => destruct b end); wp_simp;
      by apply Hfin.
Qed.

(** Every make code the handler looks up is in the keymap. *)
Lemma keymap_in_range sc :
  (0 < sc < 0x3b) \/ sc = alt_r_make \/ sc = ctrl_r_make ->
  exists a b, keymap !! Z.to_nat (u8 (Z.land sc 0xff)) = Some (a, b).
Proof.
  intros Hsc. assert (Hi : 0 <= u8 (Z.land sc 0xff) < 0x3b).
  { destruct Hsc as [Hsc|[->| ->]]; [|by vm_compute..].
    change 0xff with (Z.ones 8). rewrite Z.land_ones, (Z.mod_small sc), u8_small by lia. lia. }
  destruct (lookup_lt_is_Some_2 keymap (Z.to_nat (u8 (Z.land sc 0xff)))) as [[a b] H].
  { change (length keymap) with 59%nat. lia. }
  by exists a, b.
Qed.

(** [C30] For every byte the controller can send, in every state of the modifier
    keys, the handler returns: it never reads outside the keymap and never
    waits on its queue, and it queues at most one character, which is not
    zero. *)
Theorem keyboard_handler_total s ls rd code :
  kbd_ok s ls rd -> 0 <= code < 256 ->
  exists s' l, intr_keyboard_handler code s = Ok (tt, s') /\ queued l s s' /\
    (l = [] \/ exists c, l = [c] /\ c <> 0).
Proof.
  intros Hok Hcode. assert (H : wp (intr_keyboard_handler code) (fun _ s' =>
    exists l, queued l s s' /\ (l = [] \/ exists c, l = [c] /\ c <> 0)) s).
  { pose proof Hok as [Hif Hwf _ _].
    assert (Hfin : forall s', k_i s' = k_i s ->
      exists l, queued l s s' /\ (l = [] \/ exists c, l = [c] /\ c <> 0)).
    { intros s' E. exists []. split; [by apply queued_nil|by left]. }
    unfold intr_keyboard_handler. wp_simp. destruct (u16 code =? 0xe0); wp_simp; [by apply Hfin|].
    assert (Hbody : forall sc s1, k_i s1 = k_i s -> wp
      (if truthy (Z.land sc 128) then
        if (Z.land sc 65407 =? ctrl_l_make) || (Z.land sc 65407 =? ctrl_r_make)
        then modify (set_ctrl false)
        else if (Z.land sc 65407 =? shift_l_make) || (Z.land sc 65407 =? shift_r_make)
        then modify (set_shift false)
        else if (Z.land sc 65407 =? alt_l_make) || (Z.land sc 65407 =? alt_r_make)
        then modify (set_alt false) else ret tt
       else if (0 <? sc) && (sc <? 59) || (sc =? alt_r_make) || (sc =? ctrl_r_make)
       then kbd_make sc (shift_status s) (caps_lock_status s) else put_str unknown_key)
      (fun _ s' => exists l, queued l s s' /\ (l = [] \/ exists c, l = [c] /\ c <> 0)) s1).
    { intros sc s1 E. destruct (truthy (Z.land sc 128)).
      - repeat (match goal with |- context [if ?b then _ else _] => destruct b end);
          wp_simp; by apply Hfin.
      - destruct ((0 <? sc) && (sc <? 59) || (sc =? alt_r_make) || (sc =? ctrl_r_make)) eqn:Eb.
        + destruct (keymap_in_range sc) as (a & b & Hk).
          { apply orb_true_iff in Eb as [Eb|Eb]; [apply orb_true_iff in Eb as [Eb|Eb]|]; zbool; auto. }
          assert (Hok1 : kbd_ok s1 ls rd) by (destruct Hok; split; by rewrite E).
          apply (kbd_make_run sc _ _ a b s1 ls rd _ Hok1 Hk). intros s' H1 H2.
          set (c := if shifted sc (shift_status s) (caps_lock_status s) then b else a) in *.
          unfold queued in *. rewrite E in *.
          destruct (decide (c = 0)) as [Hc|Hc]; [|destruct (decide (q_len (i_q (k_i s)) = bufsize - 1))].
          * exists []. split; [apply H2; by left|by left].
          * exists []. split; [apply H2; by right|by left].
          * exists [c]. split; [by apply H1|]. right. by exists c.
        + unfold put_str. wp_simp. by apply Hfin. }
    destruct (ext_scancode s); wp_simp; by apply Hbody. }
  apply wp_Ok in H as ([] & s' & E & l & Hq & Hl). by exists s', l.
Qed.

Definition demo_kbd : kbd :=
  Kbd false true false false true [] (IState demo_kstate (set_consumer 0xc0102000 demo_queue)).

Lemma demo_kbd_ok : kbd_ok demo_kbd demo_lists [0xc0101000].
Proof.
  split; [done | split; cbn; unfold bufsize; done || lia | apply demo_can_schedule |].
  right. exists (demo_pcb 0xc0102fb4 TASK_BLOCKED). split; [done|]. split; [done|].
  intros L xs H. unfold demo_lists in H. apply lookup_singleton_Some in H as [<- <-].
  apply (bool_decide_unpack _). vm_compute. done.
Qed.

Lemma keyboard_handler_total_witness :
  exists s' l, intr_keyboard_handler 0x1e demo_kbd = Ok (tt, s') /\ queued l demo_kbd s' /\
    (l = [] \/ exists c, l = [c] /\ c <> 0).
Proof. apply (keyboard_handler_total demo_kbd demo_lists [0xc0101000]); [exact demo_kbd_ok|lia]. Defined.

(** The letter keys, by scan code. *)
Definition letter_keys : list (Z * Z) :=
  [(16, 113); (17, 119); (18, 101); (19, 114); (20, 116); (21, 121); (22, 117); (23, 105);
   (24, 111); (25, 112); (30, 97); (31, 115); (32, 100); (33, 102); (34, 103); (35, 104);
   (36, 106); (37, 107); (38, 108); (44, 122); (45, 120); (46, 99); (47, 118); (48, 98);
   (49, 110); (50, 109)].

Definition letter_ok (p : Z * Z) : bool :=
  let '(sc, c) := p in
  (u16 sc =? sc) && negb (sc =? 0xe0) && negb (truthy (Z.land sc 128)) && (0 <? sc) &&
  (sc <? 59) && negb (two_char_key sc) && (97 <=? c) && (c <=? 122) &&
  bool_decide (keymap !! Z.to_nat (u8 (Z.land sc 0xff)) = Some (c, c - 32)).

Lemma letters_ok p : p ∈ letter_keys -> letter_ok p = true.
Proof.
  intros Hp. assert (H : forallb letter_ok letter_keys = true) by (vm_compute; done).
  rewrite forallb_forall in H. apply H. by apply list_elem_of_In.
Qed.

(** Letters. With room in the queue, pressing the key of a letter queues
    and shows exactly one character: the capital letter if exactly one of shift
    and caps lock is on, the small one otherwise; no modifier changes. *)
Theorem keyboard_letters s ls rd sc c :
  kbd_ok s ls rd -> ext_scancode s = false -> q_len (i_q (k_i s)) <> bufsize - 1 ->
  (sc, c) ∈ letter_keys ->
  exists s', intr_keyboard_handler sc s = Ok (tt, s') /\ flags s' = flags s /\
    let typed := if xorb (shift_status s) (caps_lock_status s) then c - 32 else c in
    queued [typed] s s' /\ screen s' = screen s ++ [typed].
Proof.
  intros Hok Hext Hq Hin. apply letters_ok in Hin. unfold letter_ok in Hin.
  repeat (apply andb_true_iff in Hin as [Hin ?]). apply bool_decide_eq_true in H.
  apply negb_true_iff in H2, H5, H6. zbool.
  set (typed := if xorb (shift_status s) (caps_lock_status s) then c - 32 else c).
  assert (Hw : wp (intr_keyboard_handler sc) (fun _ s' => flags s' = flags s /\
    queued [typed] s s' /\ screen s' = screen s ++ [typed]) s).
  { unfold intr_keyboard_handler. wp_simp. rewrite Hin, (proj2 (Z.eqb_neq sc 0xe0)) by done.
    rewrite Hext. wp_simp. rewrite (proj2 (truthy_false _) H5).
    rewrite (proj2 (Z.ltb_lt 0 sc)), (proj2 (Z.ltb_lt sc 59)) by done. cbn [andb orb].
    apply (kbd_make_run sc _ _ c (c - 32) s ls rd _ Hok H). unfold shifted. rewrite H2. fold typed.
    intros s' H7 _. destruct H7 as (? & ? & ?); [|done|done].
    unfold typed. destruct (xorb _ _); lia. }
  apply wp_Ok in Hw as ([] & s' & E & ? & ? & ?). by exists s'.
Qed.

Lemma keyboard_letters_witness :
  exists s', intr_keyboard_handler 30 (set_ext false demo_kbd) = Ok (tt, s') /\
    flags s' = flags (set_ext false demo_kbd) /\
    queued [65] (set_ext false demo_kbd) s' /\ screen s' = [65].
Proof.
  apply (keyboard_letters (set_ext false demo_kbd) demo_lists [0xc0101000] 30 97).
  - destruct demo_kbd_ok. by split.
  - done.
  - done.
  - unfold letter_keys. set_solver.
Defined.
