(* ===== verification/Pages.v ===== *)
(** * Page allocation (kernel/memory.c: pools, page tables, malloc_page, mfree_page)

    The state holds the two pools of physical pages, the kernel's virtual
    addresses, the virtual addresses and the page directory of the running
    thread, the page tables as [Paging] has them, and the bytes of the
    physical pages. The locks are seen from the caller, which has the
    processor: what is kept is how often it holds each. *)

From Stdlib Require Import ZArith Lia.
From stdpp Require Import base numbers list gmap option.
From S2P Require Import Prelude Bitmap DList Paging.

Local Open Scope Z_scope.

Definition MEM_BITMAP_BASE : Z := 0xc009a000.
Definition K_HEAP_START : Z := 0xc0100000.

(** struct pool; [bits_at] is the address of the bits. *)
Record pool := Pool {
  pool_bitmap : bitmap;
  bits_at : Z;
  phy_addr_start : Z;
  pool_size : Z;
  pool_lock : Z
}.

(** struct virtual_addr *)
Record virtual_addr := VAddr { vaddr_bitmap : bitmap; vaddr_start : Z }.

Inductive pool_flags := PF_KERNEL | PF_USER.

#[export] Instance pool_flags_eq_dec : EqDecision pool_flags.
Proof. solve_decision. Defined.

Record pmem := PMem {
  kernel_pool : pool;
  user_pool : pool;
  kernel_vaddr : virtual_addr;
  user_vaddr : virtual_addr;       (* running_thread()->userprog_vaddr *)
  cur_pgdir : Z;                   (* running_thread()->pgdir *)
  page_tab : ptab;
  page_data : gmap Z (list Z)      (* the bytes of each physical page *)
}.

Definition set_kernel_pool (p : pool) (s : pmem) : pmem :=
  PMem p (user_pool s) (kernel_vaddr s) (user_vaddr s) (cur_pgdir s) (page_tab s) (page_data s).
Definition set_user_pool (p : pool) (s : pmem) : pmem :=
  PMem (kernel_pool s) p (kernel_vaddr s) (user_vaddr s) (cur_pgdir s) (page_tab s) (page_data s).
Definition set_kernel_vaddr (v : virtual_addr) (s : pmem) : pmem :=
  PMem (kernel_pool s) (user_pool s) v (user_vaddr s) (cur_pgdir s) (page_tab s) (page_data s).
Definition set_user_vaddr (v : virtual_addr) (s : pmem) : pmem :=
  PMem (kernel_pool s) (user_pool s) (kernel_vaddr s) v (cur_pgdir s) (page_tab s) (page_data s).
Definition set_page_tab (t : ptab) (s : pmem) : pmem :=
  PMem (kernel_pool s) (user_pool s) (kernel_vaddr s) (user_vaddr s) (cur_pgdir s) t (page_data s).
Definition set_page_data (d : gmap Z (list Z)) (s : pmem) : pmem :=
  PMem (kernel_pool s) (user_pool s) (kernel_vaddr s) (user_vaddr s) (cur_pgdir s) (page_tab s) d.

Definition pool_of (pf : pool_flags) (s : pmem) : pool :=
  match pf with PF_KERNEL => kernel_pool s | PF_USER => user_pool s end.
Definition set_pool (pf : pool_flags) (p : pool) (s : pmem) : pmem :=
  match pf with PF_KERNEL => set_kernel_pool p s | PF_USER => set_user_pool p s end.
Definition vaddr_of (pf : pool_flags) (s : pmem) : virtual_addr :=
  match pf with PF_KERNEL => kernel_vaddr s | PF_USER => user_vaddr s end.
Definition set_vaddr (pf : pool_flags) (v : virtual_addr) (s : pmem) : pmem :=
  match pf with PF_KERNEL => set_kernel_vaddr v s | PF_USER => set_user_vaddr v s end.

(** Operations on the bitmap of a pool, on that of a range of virtual
    addresses, and on the page tables. *)
Definition set_pool_bitmap (b : bitmap) (p : pool) : pool :=
  Pool b (bits_at p) (phy_addr_start p) (pool_size p) (pool_lock p).
Definition on_pool {A} (pf : pool_flags) (m : M bitmap A) : M pmem A :=
  zoom (fun s => pool_bitmap (pool_of pf s))
    (fun b s => set_pool pf (set_pool_bitmap b (pool_of pf s)) s) m.
Definition on_vaddr {A} (pf : pool_flags) (m : M bitmap A) : M pmem A :=
  zoom (fun s => vaddr_bitmap (vaddr_of pf s))
    (fun b s => set_vaddr pf (VAddr b (vaddr_start (vaddr_of pf s))) s) m.
Definition on_tab {A} (m : M ptab A) : M pmem A := zoom page_tab set_page_tab m.

(** lock_acquire and lock_release of a pool's lock. *)
Definition pool_acquire (pf : pool_flags) : M pmem unit :=
  modify (fun s => let p := pool_of pf s in
    set_pool pf (Pool (pool_bitmap p) (bits_at p) (phy_addr_start p) (pool_size p) (pool_lock p + 1)) s).
Definition pool_release (pf : pool_flags) : M pmem unit :=
  do s <- get;
  let p := pool_of pf s in
  ASSERT (0 <? pool_lock p) ;;
  put (set_pool pf (Pool (pool_bitmap p) (bits_at p) (phy_addr_start p) (pool_size p) (pool_lock p - 1)) s).

(** [while (cnt < pg_cnt) bitmap_set(map, bit_idx_start + cnt++, value)] *)
Definition set_bits (start : Z) (n : nat) (value : Z) : M bitmap unit :=
  for_range 0 n (fun cnt => bitmap_set (u32 (start + cnt)) value).

(** vaddr_get. The user branch adds one page to the bit number where the
    kernel branch multiplies by the page size. *)
Definition vaddr_get (pf : pool_flags) (pg_cnt : Z) : M pmem Z :=
  match pf with
  | PF_KERNEL =>
      do bit_idx_start <- on_vaddr PF_KERNEL (bitmap_scan pg_cnt);
      if bit_idx_start =? -1 then ret NULL
      else
        on_vaddr PF_KERNEL (set_bits bit_idx_start (Z.to_nat pg_cnt) 1) ;;
        do s <- get;
        ret (u32 (vaddr_start (kernel_vaddr s) + bit_idx_start * PG_SIZE))
  | PF_USER =>
      do bit_idx_start <- on_vaddr PF_USER (bitmap_scan pg_cnt);
      if bit_idx_start =? -1 then ret NULL
      else
        on_vaddr PF_USER (set_bits bit_idx_start (Z.to_nat pg_cnt) 1) ;;
        do s <- get;
        let v := u32 (vaddr_start (user_vaddr s) + bit_idx_start + PG_SIZE) in
        ASSERT (v <? 0xc0000000 - PG_SIZE) ;;
        ret v
  end.

Definition palloc (pf : pool_flags) : M pmem Z :=
  do bit_idx <- on_pool pf (bitmap_scan 1);
  if bit_idx =? -1 then ret NULL
  else
    on_pool pf (bitmap_set bit_idx 1) ;;
    do s <- get;
    ret (u32 (bit_idx * PG_SIZE + phy_addr_start (pool_of pf s))).

(** memset(base, 0, PG_SIZE) for a page of the page-table window that has just
    been given a frame: all its entries become accessible, and zero. *)
Definition clear_table (base : Z) : M ptab unit :=
  for_range 0 1024 (fun i => modify (fun t => <[base + 4 * i := 0]> t)).

Definition pte_flags (page_phyaddr : Z) : Z :=
  Z.lor (Z.lor (Z.lor page_phyaddr PG_US_U) PG_RW_W) PG_P_1.

Definition page_table_add (vaddr page_phyaddr : Z) : M pmem unit :=
  let pde := pde_ptr vaddr in
  let pte := pte_ptr vaddr in
  do d <- on_tab (ld_pte pde);
  if truthy (Z.land d 1) then
    do e <- on_tab (ld_pte pte);
    ASSERT (negb (truthy (Z.land e 1))) ;;
    if negb (truthy (Z.land e 1)) then on_tab (st_pte pte (pte_flags page_phyaddr)) else panic
  else
    do pde_phyaddr <- palloc PF_KERNEL;
    on_tab (st_pte pde (pte_flags pde_phyaddr)) ;;
    on_tab (clear_table (Z.land pte 0xfffff000)) ;;
    do e <- on_tab (ld_pte pte);
    ASSERT (negb (truthy (Z.land e 1))) ;;
    on_tab (st_pte pte (pte_flags page_phyaddr)).

(** malloc_page; a failure in the middle keeps what was allocated before. *)
Definition malloc_page (pf : pool_flags) (pg_cnt : Z) : M pmem Z :=
  ASSERT ((0 <? pg_cnt) && (pg_cnt <? 3840)) ;;
  do vaddr_start <- vaddr_get pf pg_cnt;
  if vaddr_start =? NULL then ret NULL
  else
    loop (S (Z.to_nat pg_cnt)) (fun x : Z * Z =>
      let '(vaddr, cnt) := x in
      if 0 <? cnt then
        do page_phyaddr <- palloc pf;
        if page_phyaddr =? NULL then ret (inr NULL)
        else
          page_table_add vaddr page_phyaddr ;;
          ret (inl (u32 (vaddr + PG_SIZE), cnt - 1))
      else ret (inr vaddr_start)) (vaddr_start, pg_cnt).

(** memset(vaddr, 0, pg_cnt * PG_SIZE), page by page through the page tables. *)
Definition zero_page (vaddr : Z) : M pmem unit :=
  do e <- on_tab (ld_pte (pte_ptr vaddr));
  (if truthy (Z.land e 1) then ret tt else fault) ;;
  modify (fun s => set_page_data
    (<[Z.land e 0xfffff000 := replicate (Z.to_nat PG_SIZE) 0]> (page_data s)) s).
Definition zero_pages (vaddr pg_cnt : Z) : M pmem unit :=
  for_range 0 (Z.to_nat pg_cnt) (fun i => zero_page (u32 (vaddr + i * PG_SIZE))).

Definition get_kernel_pages (pg_cnt : Z) : M pmem Z :=
  do vaddr <- malloc_page PF_KERNEL pg_cnt;
  (if negb (vaddr =? NULL) then zero_pages vaddr pg_cnt else ret tt) ;;
  ret vaddr.

(** memset panics on the null pointer that a failed malloc_page returns. *)
Definition get_user_pages (pg_cnt : Z) : M pmem Z :=
  pool_acquire PF_USER ;;
  do vaddr <- malloc_page PF_USER pg_cnt;
  ASSERT (negb (vaddr =? NULL)) ;;
  zero_pages vaddr pg_cnt ;;
  pool_release PF_USER ;;
  ret vaddr.

Definition get_a_page (pf : pool_flags) (vaddr : Z) : M pmem Z :=
  pool_acquire pf ;;
  do s <- get;
  (if negb (cur_pgdir s =? NULL) && bool_decide (pf = PF_USER) then
     let bit_idx := u32 (vaddr - vaddr_start (user_vaddr s)) / PG_SIZE in
     ASSERT (0 <? bit_idx) ;;
     on_vaddr PF_USER (bitmap_set bit_idx 1)
   else if (cur_pgdir s =? NULL) && bool_decide (pf = PF_KERNEL) then
     let bit_idx := u32 (vaddr - vaddr_start (kernel_vaddr s)) / PG_SIZE in
     ASSERT (0 <? bit_idx) ;;
     on_vaddr PF_KERNEL (bitmap_set bit_idx 1)
   else panic) ;;
  do page_phyaddr <- palloc pf;
  if page_phyaddr =? NULL then ret NULL
  else
    page_table_add vaddr page_phyaddr ;;
    pool_release pf ;;
    ret vaddr.

Definition get_a_page_without_opvaddrbitmap (pf : pool_flags) (vaddr : Z) : M pmem Z :=
  pool_acquire pf ;;
  do page_phyaddr <- palloc pf;
  if page_phyaddr =? NULL then pool_release pf ;; ret NULL
  else
    page_table_add vaddr page_phyaddr ;;
    pool_release pf ;;
    ret vaddr.

(** ** Giving pages back *)

Definition pfree (pg_phy_addr : Z) : M pmem unit :=
  do s <- get;
  if phy_addr_start (user_pool s) <=? pg_phy_addr then
    on_pool PF_USER (bitmap_set (u32 (pg_phy_addr - phy_addr_start (user_pool s)) / PG_SIZE) 0)
  else
    on_pool PF_KERNEL (bitmap_set (u32 (pg_phy_addr - phy_addr_start (kernel_pool s)) / PG_SIZE) 0).

Definition page_table_pte_remove (vaddr : Z) : M pmem unit :=
  do e <- on_tab (ld_pte (pte_ptr vaddr));
  on_tab (st_pte (pte_ptr vaddr) (Z.land e (Z.lnot PG_P_1))).

Definition vaddr_remove (pf : pool_flags) (vaddr pg_cnt : Z) : M pmem unit :=
  do s <- get;
  let bit_idx_start := u32 (vaddr - vaddr_start (vaddr_of pf s)) / PG_SIZE in
  on_vaddr pf (set_bits bit_idx_start (Z.to_nat pg_cnt) 0).

(** One round of the loops of mfree_page: the two branches differ in the range
    that the physical address must be in. *)
Definition mfree_one (user : bool) (vaddr : Z) : M pmem unit :=
  do pg_phy_addr <- on_tab (addr_v2p vaddr);
  do s <- get;
  ASSERT ((pg_phy_addr mod PG_SIZE =? 0) &&
    (if user then phy_addr_start (user_pool s) <=? pg_phy_addr
     else (phy_addr_start (kernel_pool s) <=? pg_phy_addr) &&
          (pg_phy_addr <? phy_addr_start (user_pool s)))) ;;
  pfree pg_phy_addr ;;
  page_table_pte_remove vaddr.

Definition mfree_page (pf : pool_flags) (vaddr pg_cnt : Z) : M pmem unit :=
  ASSERT ((1 <=? pg_cnt) && (vaddr mod PG_SIZE =? 0)) ;;
  do pg_phy_addr <- on_tab (addr_v2p vaddr);
  ASSERT ((pg_phy_addr mod PG_SIZE =? 0) && (0x102000 <=? pg_phy_addr)) ;;
  do s <- get;
  for_range 0 (Z.to_nat pg_cnt)
    (fun page_cnt => mfree_one (phy_addr_start (user_pool s) <=? pg_phy_addr)
                       (u32 (vaddr + page_cnt * PG_SIZE))) ;;
  vaddr_remove pf vaddr pg_cnt.

(** ** The pools at start-up *)

(** mem_pool_init: [area] are the bytes from MEM_BITMAP_BASE on. The page
    counts are kept in 16 bits. *)
Definition mem_pool_init (all_mem : Z) (area : list Z) : M pmem unit :=
  let page_table_size := PG_SIZE * 256 in
  let used_mem := u32 (page_table_size + 0x100000) in
  let free_mem := u32 (all_mem - used_mem) in
  let all_free_pages := u16 (free_mem / PG_SIZE) in
  let kernel_free_pages := u16 (all_free_pages / 2) in
  let user_free_pages := u16 (all_free_pages - kernel_free_pages) in
  let kbm_length := kernel_free_pages / 8 in
  let ubm_length := user_free_pages / 8 in
  let kp_start := used_mem in
  let up_start := u32 (kp_start + kernel_free_pages * PG_SIZE) in
  modify (set_kernel_pool (Pool (Bitmap kbm_length area) MEM_BITMAP_BASE kp_start
    (kernel_free_pages * PG_SIZE) 0)) ;;
  modify (set_user_pool (Pool (Bitmap ubm_length (drop (Z.to_nat kbm_length) area))
    (MEM_BITMAP_BASE + kbm_length) up_start (user_free_pages * PG_SIZE) 0)) ;;
  on_pool PF_KERNEL bitmap_init ;;
  on_pool PF_USER bitmap_init ;;
  modify (set_kernel_vaddr (VAddr
    (Bitmap kbm_length (drop (Z.to_nat (kbm_length + ubm_length)) area)) K_HEAP_START)) ;;
  on_vaddr PF_KERNEL bitmap_init.

(** ** Running the parts *)

Lemma pool_of_set pf p s : pool_of pf (set_pool pf p s) = p.
Proof. by destruct pf. Qed.

Lemma wp_on_tab {A} (m : M ptab A) (Q : A -> pmem -> Prop) s :
  wp (on_tab m) Q s = wp m (fun a t => Q a (set_page_tab t s)) (page_tab s).
Proof. unfold on_tab. by rewrite wp_zoom. Qed.

Lemma set_page_tab_id s : set_page_tab (page_tab s) s = s.
Proof. by destruct s. Qed.

Lemma present_bit e : truthy (Z.land e 1) = Z.testbit e 0.
Proof. exact (truthy_mask e 0 ltac:(lia)). Qed.

(** The state with another bitmap in a pool, or for the virtual addresses. *)
Definition with_pool (pf : pool_flags) (b : bitmap) (s : pmem) : pmem :=
  set_pool pf (set_pool_bitmap b (pool_of pf s)) s.
Definition with_vaddr (pf : pool_flags) (b : bitmap) (s : pmem) : pmem :=
  set_vaddr pf (VAddr b (vaddr_start (vaddr_of pf s))) s.

Lemma wp_on_pool {A} pf (m : M bitmap A) (Q : A -> pmem -> Prop) s :
  wp (on_pool pf m) Q s =
  wp m (fun a b => Q a (with_pool pf b s)) (pool_bitmap (pool_of pf s)).
Proof. unfold on_pool. by rewrite wp_zoom. Qed.

Lemma wp_on_vaddr {A} pf (m : M bitmap A) (Q : A -> pmem -> Prop) s :
  wp (on_vaddr pf m) Q s =
  wp m (fun a b => Q a (with_vaddr pf b s)) (vaddr_bitmap (vaddr_of pf s)).
Proof. unfold on_vaddr. by rewrite wp_zoom. Qed.

Lemma with_pool_id pf s : with_pool pf (pool_bitmap (pool_of pf s)) s = s.
Proof. destruct s as [[] [] ? ? ? ? ?], pf; reflexivity. Qed.
Lemma with_vaddr_id pf s : with_vaddr pf (vaddr_bitmap (vaddr_of pf s)) s = s.
Proof. destruct s as [? ? [] [] ? ? ?], pf; reflexivity. Qed.

(** [b'] is [b] with the bits [l] set to [v]. *)
Record bits_upd (b b' : bitmap) (l : Z -> bool) (v : bool) : Prop := {
  bu_wf : bitmap_wf b';
  bu_len : btmp_bytes_len b' = btmp_bytes_len b;
  bu_mem : length (bits b') = length (bits b);
  bu_bits : forall j, 0 <= j -> bit_used b' j = if l j then v else bit_used b j
}.

Lemma set_bits_run b start n v (Q : unit -> bitmap -> Prop) :
  bitmap_wf b -> 0 <= start -> start + Z.of_nat n <= 8 * Z.of_nat (length (bits b)) ->
  start + Z.of_nat n < 2 ^ 32 -> v = 0 \/ v = 1 ->
  (forall b', bits_upd b b' (fun j => (start <=? j) && (j <? start + Z.of_nat n)) (truthy v) ->
     Q tt b') ->
  wp (set_bits start n v) Q b.
Proof.
  intros Hwf Hs Hn Hlt Hv HQ. unfold set_bits.
  apply (wp_for_range (fun i b' =>
    bits_upd b b' (fun j => (start <=? j) && (j <? start + i)) (truthy v))).
  - intros i b1 Hi [W L Me B]. apply bitmap_set_run; [done|rewrite u32_small by lia; lia|done|].
    intros b2 W2 L2 M2 B2. split; [done|congruence|congruence|]. intros j Hj.
    rewrite B2, B by done. rewrite (u32_small (start + i)) by lia.
    destruct (Z.eqb_spec j (start + i)) as [->|Hne].
    + rewrite (proj2 (Z.leb_le _ _)), (proj2 (Z.ltb_lt _ _)) by lia. done.
    + replace (j <? start + (i + 1)) with (j <? start + i); [done|].
      destruct (Z.ltb_spec j (start + i)), (Z.ltb_spec j (start + (i + 1))); (done || lia).
  - split; [done|done|done|]. intros j Hj.
    destruct (Z.leb_spec start j), (Z.ltb_spec j (start + 0)); try done; lia.
  - intros b' Hb'. apply HQ. by rewrite Z.add_0_l in Hb'.
Qed.

(** palloc takes the first free page of a pool that has one. *)
Lemma palloc_run pf s i0 (Q : Z -> pmem -> Prop) :
  let p := pool_of pf s in
  let b := pool_bitmap p in
  bitmap_wf b -> 0 <= i0 < 8 * btmp_bytes_len b -> bit_used b i0 = false ->
  (forall i b', 0 <= i < 8 * btmp_bytes_len b -> bit_used b i = false ->
     bits_upd b b' (fun j => j =? i) true ->
     Q (u32 (i * PG_SIZE + phy_addr_start p)) (with_pool pf b' s)) ->
  wp (palloc pf) Q s.
Proof.
  intros p b Hwf Hi0 Hf HQ. unfold palloc. wp_simp. rewrite wp_on_pool.
  pose proof (wf_len _ Hwf). pose proof (wf_mem _ Hwf).
  apply (bitmap_scan_run b 1 i0); [done|lia|done|done|].
  intros r [[-> Hno]|(Hr & _ & Hfree & _)].
  - exfalso. apply (Hno i0); [lia|lia|]. intros k Hk. by replace k with i0 by lia.
  - unfold b, p. rewrite with_pool_id. fold p b.
    rewrite (proj2 (Z.eqb_neq r (-1))) by lia. wp_simp. rewrite wp_on_pool. fold p b.
    apply bitmap_set_run; [done|lia|by right|]. intros b' W L Me B. wp_simp.
    replace (phy_addr_start (pool_of pf (with_pool pf b' s))) with (phy_addr_start p)
      by (unfold with_pool; rewrite pool_of_set; done).
    apply HQ; [done|apply Hfree; lia|]. by split.
Qed.

(** A fresh mapping in an existing page table. *)
Lemma page_table_add_run v f d e s (Q : unit -> pmem -> Prop) :
  page_tab s !! pde_ptr v = Some d -> Z.testbit d 0 = true ->
  page_tab s !! pte_ptr v = Some e -> Z.testbit e 0 = false ->
  Q tt (set_page_tab (<[pte_ptr v := u32 (pte_flags f)]> (page_tab s)) s) ->
  wp (page_table_add v f) Q s.
Proof.
  intros Hd Pd He Pe HQ. unfold page_table_add. wp_simp. rewrite wp_on_tab.
  eapply wp_ld_pte; [exact Hd|]. rewrite present_bit, Pd, set_page_tab_id. wp_simp.
  rewrite wp_on_tab. eapply wp_ld_pte; [exact He|]. rewrite present_bit, Pe, set_page_tab_id. cbn [negb].
  wp_assert. rewrite wp_on_tab. apply wp_st_pte; [by eexists|]. exact HQ.
Qed.

(** The entry for the frame at [f]. *)
Lemma pte_flags_add f : 0 <= f -> f mod PG_SIZE = 0 -> pte_flags f = f + 7.
Proof.
  intros Hf Hm. unfold pte_flags, PG_US_U, PG_RW_W, PG_P_1. rewrite <- !Z.lor_assoc.
  change (Z.lor 4 (Z.lor 2 1)) with 7. pose proof (Z.add_lor_land f 7) as H.
  assert (Hl : Z.land f 7 = 0).
  { change 7 with (Z.ones 3). rewrite Z.land_ones by lia. unfold PG_SIZE in Hm. dlia. }
  lia.
Qed.

Lemma page_mask e : 0 <= e < 2 ^ 32 -> Z.land e 0xfffff000 = e - e mod PG_SIZE.
Proof.
  intros He. change 0xfffff000 with (Z.ldiff (Z.ones 32) (Z.ones 12)).
  assert (H : Z.land e (Z.ldiff (Z.ones 32) (Z.ones 12)) = Z.ldiff e (Z.ones 12)).
  { apply Z.bits_inj'. intros n Hn. rewrite Z.land_spec, !Z.ldiff_spec.
    rewrite (Z.testbit_ones_nonneg 32) by lia. destruct (Z.ltb_spec n 32); [done|].
    rewrite (Z.bits_above_log2 e n); [done|lia|].
    destruct (decide (e = 0)) as [->|]; [cbn; lia|]. assert (Z.log2 e < 32) by (apply Z.log2_lt_pow2; lia). lia. }
  rewrite H, Z.ldiff_ones_r, Z.shiftl_mul_pow2, Z.shiftr_div_pow2 by lia.
  unfold PG_SIZE. dlia.
Qed.

Lemma pte_flags_frame f : 0 <= f < 2 ^ 32 -> f mod PG_SIZE = 0 ->
  let e := u32 (pte_flags f) in
  0 <= e < 2 ^ 32 /\ Z.testbit e 0 = true /\ Z.land e 0xfffff000 = f.
Proof.
  intros Hf Hm e. assert (He : e = f + 7).
  { unfold e. rewrite pte_flags_add by (done || lia). apply u32_small. unfold PG_SIZE in Hm. dlia. }
  assert (Hb : 0 <= e < 2 ^ 32) by apply u32_bound. split; [done|]. split.
  - rewrite Z.bit0_odd, He. apply Z.odd_spec. exists ((f + 6) / 2). unfold PG_SIZE in Hm. dlia.
  - rewrite page_mask by done. rewrite He. unfold PG_SIZE in *. dlia.
Qed.

(** ** The kernel's pages: invariant *)

Definition kbits (s : pmem) : bitmap := pool_bitmap (kernel_pool s).
Definition vbits (s : pmem) : bitmap := vaddr_bitmap (kernel_vaddr s).
Definition vlen (s : pmem) : Z := 8 * btmp_bytes_len (vbits s).
Definition klen (s : pmem) : Z := 8 * btmp_bytes_len (kbits s).
Definition vpage (s : pmem) (i : Z) : Z := vaddr_start (kernel_vaddr s) + i * PG_SIZE.
Definition kframe (s : pmem) (f : Z) : Z := phy_addr_start (kernel_pool s) + f * PG_SIZE.

(** The virtual bitmap, the page tables and the bitmap of physical pages agree:
    a page of the heap is mapped exactly if its bit is set, every mapped page
    has a frame of the kernel pool whose bit is set, and no two pages share a
    frame. *)
Record pages_ok (s : pmem) : Prop := {
  po_kbits : bitmap_wf (kbits s);
  po_vbits : bitmap_wf (vbits s);
  po_phys : phy_addr_start (kernel_pool s) mod PG_SIZE = 0 /\
    0x102000 <= phy_addr_start (kernel_pool s) /\
    kframe s (klen s) <= phy_addr_start (user_pool s) < 2 ^ 32;
  po_virt : vaddr_start (kernel_vaddr s) mod PG_SIZE = 0 /\ 0 < vaddr_start (kernel_vaddr s) /\
    vpage s (vlen s) <= 0xffc00000;
  po_pde : forall i, 0 <= i < vlen s ->
    exists d, page_tab s !! pde_ptr (vpage s i) = Some d /\ Z.testbit d 0 = true;
  po_pte : forall i, 0 <= i < vlen s -> exists e, page_tab s !! pte_ptr (vpage s i) = Some e /\
    0 <= e < 2 ^ 32 /\ Z.testbit e 0 = bit_used (vbits s) i /\
    (bit_used (vbits s) i = true -> exists f, 0 <= f < klen s /\ bit_used (kbits s) f = true /\
       Z.land e 0xfffff000 = kframe s f);
  po_inj : forall i j e1 e2, 0 <= i < vlen s -> 0 <= j < vlen s ->
    bit_used (vbits s) i = true -> bit_used (vbits s) j = true ->
    page_tab s !! pte_ptr (vpage s i) = Some e1 -> page_tab s !! pte_ptr (vpage s j) = Some e2 ->
    Z.land e1 0xfffff000 = Z.land e2 0xfffff000 -> i = j
}.

Lemma vpage_range s i : pages_ok s -> 0 <= i < vlen s ->
  0 < vpage s i /\ vpage s i + PG_SIZE <= 0xffc00000 /\ vpage s i mod PG_SIZE = 0.
Proof.
  intros Hok Hi. destruct (po_virt s Hok) as (Hm & Hp & Hv). unfold vpage, PG_SIZE in *.
  split; [lia|]. split; [lia|]. by rewrite Z.mod_add by lia.
Qed.

Lemma vpage_pte_inj s i j : pages_ok s -> 0 <= i < vlen s -> 0 <= j < vlen s ->
  pte_ptr (vpage s i) = pte_ptr (vpage s j) -> i = j.
Proof.
  intros Hok Hi Hj E. pose proof (vpage_range s i Hok Hi) as (? & ? & ?).
  pose proof (vpage_range s j Hok Hj) as (? & ? & ?). unfold PG_SIZE in *.
  apply pte_ptr_inj in E; [|lia|lia]. unfold vpage, PG_SIZE in *. dlia.
Qed.

(** A directory entry is not the entry of a heap page. *)
Lemma vpage_pde_ne s i j : pages_ok s -> 0 <= i < vlen s -> 0 <= j < vlen s ->
  pde_ptr (vpage s i) <> pte_ptr (vpage s j).
Proof.
  intros Hok Hi Hj E. pose proof (vpage_range s i Hok Hi) as (? & ? & ?).
  pose proof (vpage_range s j Hok Hj) as (? & ? & ?). unfold PG_SIZE in *.
  rewrite pte_ptr_linear in E by lia. unfold pde_ptr in E. rewrite PDE_IDX_div in E by lia.
  rewrite u32_small in E by dlia. dlia.
Qed.

(** [s] is [s0] after the virtual pages [r .. r + n) have been reserved and the
    first ones of them have been mapped to the frames [fs]. *)
Record mapping (s0 : pmem) (r : Z) (n : nat) (vb : bitmap) (fs : list Z) (s : pmem) : Prop := {
  ma_state : s = set_page_tab (page_tab s) (with_pool PF_KERNEL (kbits s) (with_vaddr PF_KERNEL vb s0));
  ma_kbits : bits_upd (kbits s0) (kbits s) (fun j => bool_decide (j ∈ fs)) true;
  ma_nodup : NoDup fs;
  ma_free : forall f, f ∈ fs -> 0 <= f < klen s0 /\ bit_used (kbits s0) f = false;
  ma_new : forall k f, fs !! k = Some f ->
    page_tab s !! pte_ptr (vpage s0 (r + Z.of_nat k)) = Some (u32 (pte_flags (kframe s0 f)));
  ma_old : forall p, (forall k, (k < length fs)%nat -> p <> pte_ptr (vpage s0 (r + Z.of_nat k))) ->
    page_tab s !! p = page_tab s0 !! p
}.

Lemma kframe_range s0 (Hok : pages_ok s0) f :
  0 <= f < klen s0 -> 0x102000 <= kframe s0 f < 2 ^ 32 /\ kframe s0 f mod PG_SIZE = 0.
Proof.
  intros Hf. destruct (po_phys s0 Hok) as (Hm & Hs & Hu). unfold kframe, PG_SIZE in *.
  split; [lia|]. rewrite Z.mod_add; lia.
Qed.

(** ** Allocation *)

(** The page [i] of the heap is mapped to the frame [f]. *)
Definition maps_to (s : pmem) (i f : Z) : Prop :=
  0 <= f < klen s /\ bit_used (kbits s) f = true /\ exists e,
    page_tab s !! pte_ptr (vpage s i) = Some e /\ 0 <= e < 2 ^ 32 /\ Z.land e 0xfffff000 = kframe s f.


Section malloc.
Context (s0 : pmem) (Hok : pages_ok s0).
Context (r : Z) (n : nat) (Hr : 0 <= r /\ r + Z.of_nat n <= vlen s0).
Context (Hrun : forall i, r <= i < r + Z.of_nat n -> bit_used (vbits s0) i = false).
Context (vb : bitmap) (free : list Z).
Context (Hvb : bits_upd (vbits s0) vb (fun j => (r <=? j) && (j <? r + Z.of_nat n)) true).
Context (Hfree : NoDup free /\ length free = n /\
  forall f, f ∈ free -> 0 <= f < klen s0 /\ bit_used (kbits s0) f = false).

Lemma mapping_start : mapping s0 r n vb [] (with_vaddr PF_KERNEL vb s0).
Proof.
  split.
  - by destruct s0 as [[] ? [] ? ? ? ?].
  - destruct (po_kbits s0 Hok). by split.
  - constructor.
  - set_solver.
  - done.
  - done.
Qed.

Lemma mapping_fields fs s : mapping s0 r n vb fs s ->
  klen s = klen s0 /\ phy_addr_start (kernel_pool s) = phy_addr_start (kernel_pool s0) /\
  kernel_vaddr s = VAddr vb (vaddr_start (kernel_vaddr s0)) /\ user_pool s = user_pool s0.
Proof.
  intros [Hs [_ Hl _ _] _ _ _ _]. unfold klen. rewrite Hl. rewrite Hs. done.
Qed.

(** One round: a frame is taken and mapped behind the others. *)
Lemma mapping_step fs s (Q : unit -> pmem -> Prop) :
  mapping s0 r n vb fs s -> (length fs < n)%nat ->
  (forall f s', mapping s0 r n vb (fs ++ [f]) s' -> Q tt s') ->
  wp (palloc PF_KERNEL) (fun page_phyaddr s1 => page_phyaddr <> NULL /\
    wp (page_table_add (vpage s0 (r + Z.of_nat (length fs))) page_phyaddr) Q s1) s.
Proof.
  intros Hmap Hlt HQ. destruct Hfree as (Hnd & Hlen & Hfr).
  destruct (mapping_fields fs s Hmap) as (Hkl & Hks & Hkv & Hup).
  destruct Hmap as [Hs [W L Me B] Hfnd Hffr Hnew Hold].
  destruct (fresh_elem free fs Hnd) as (f0 & Hf0 & Hf0n); [lia|].
  destruct (Hfr f0 Hf0) as [Hf0r Hf0f].
  apply (palloc_run PF_KERNEL s f0).
  { exact W. }
  { cbn. unfold klen in Hkl, Hf0r. unfold kbits in *. lia. }
  { change (bit_used (kbits s) f0 = false). rewrite B by lia. by rewrite bool_decide_false. }
  intros f b' Hf Hff [W' L' M' B']. cbn [pool_of] in *. fold (kbits s) in *.
  assert (Hfk : 0 <= f < klen s0) by (unfold klen in *; lia).
  rewrite B in Hff by lia. case_bool_decide as Hfin; [done|].
  destruct (kframe_range s0 Hok f Hfk) as [Hrng Hmod].
  replace (u32 (f * PG_SIZE + phy_addr_start (kernel_pool s))) with (kframe s0 f)
    by (rewrite Hks, u32_small; unfold kframe, PG_SIZE in *; lia).
  split; [unfold NULL; lia|].
  set (i := r + Z.of_nat (length fs)). assert (Hi : 0 <= i < vlen s0) by (unfold i; lia).
  destruct (po_pde s0 Hok i Hi) as (d & Hd & Pd). destruct (po_pte s0 Hok i Hi) as (e & He & _ & Pe & _).
  rewrite Hrun in Pe by (unfold i; lia).
  assert (Htab : page_tab (with_pool PF_KERNEL b' s) = page_tab s) by done.
  eapply (page_table_add_run _ _ d e).
  - rewrite Htab, Hold; [exact Hd|]. intros k Hk. apply vpage_pde_ne; [done|done|lia].
  - done.
  - rewrite Htab, Hold; [exact He|]. intros k Hk E. apply vpage_pte_inj in E; [|done|done|lia].
    unfold i in E. lia.
  - done.
  - rewrite Htab. apply (HQ f). split; cbn [page_tab set_page_tab].
    + rewrite Hs. by destruct s0 as [[] ? [] ? ? ? ?].
    + split; [exact W'|by rewrite <- L|by rewrite <- Me|]. intros j Hj.
      change (bit_used b' j = if bool_decide (j ∈ fs ++ [f]) then true else bit_used (kbits s0) j).
      rewrite B', B by done. destruct (Z.eqb_spec j f) as [->|Hne].
      * rewrite bool_decide_true; [done|]. by rewrite elem_of_app, list_elem_of_singleton; right.
      * replace (bool_decide (j ∈ fs ++ [f])) with (bool_decide (j ∈ fs)); [done|].
        apply bool_decide_ext. rewrite elem_of_app, list_elem_of_singleton. tauto.
    + apply list.NoDup_app. split; [done|]. split; [|apply NoDup_singleton].
      by intros x Hx ->%list_elem_of_singleton.
    + intros g Hg. apply elem_of_app in Hg as [Hg|Hg%list_elem_of_singleton]; [by apply Hffr|].
      subst g. split; [done|]. done.
    + intros k g Hg. destruct (decide (k = length fs)) as [->|Hne].
      * rewrite list_lookup_middle in Hg by done. injection Hg as <-. by rewrite lookup_insert_eq.
      * assert (Hk : (k < length fs)%nat).
        { apply lookup_lt_Some in Hg. rewrite length_app in Hg. cbn in Hg. lia. }
        rewrite lookup_app_l in Hg by done. rewrite lookup_insert_ne; [by apply Hnew|].
        intros E. apply vpage_pte_inj in E; [unfold i in E; lia|done|done|lia].
    + intros p Hp. rewrite length_app in Hp. cbn in Hp. rewrite lookup_insert_ne.
      * apply Hold. intros k Hk. apply Hp. lia.
      * intros <-. by apply (Hp (length fs)); [lia|].
Qed.

(** The pages of the run and their frames, when all of them are mapped. *)
Lemma mapping_run_entry fs s i :
  mapping s0 r n vb fs s -> length fs = n -> r <= i < r + Z.of_nat n ->
  exists f e, fs !! Z.to_nat (i - r) = Some f /\ page_tab s !! pte_ptr (vpage s0 i) = Some e /\
    0 <= e < 2 ^ 32 /\ Z.testbit e 0 = true /\ Z.land e 0xfffff000 = kframe s0 f.
Proof.
  intros Hmap Hn Hi. destruct (lookup_lt_is_Some_2 fs (Z.to_nat (i - r))) as [f Hf]; [lia|].
  exists f, (u32 (pte_flags (kframe s0 f))). split; [done|].
  pose proof (ma_new _ _ _ _ _ _ Hmap _ _ Hf) as He.
  replace (r + Z.of_nat (Z.to_nat (i - r))) with i in He by lia. split; [done|].
  assert (Hfk : 0 <= f < klen s0).
  { apply (ma_free _ _ _ _ _ _ Hmap). by eapply list_elem_of_lookup_2. }
  destruct (kframe_range s0 Hok f Hfk) as [Hrng Hmod]. apply pte_flags_frame; [lia|done].
Qed.

Lemma mapping_other_entry fs s i :
  mapping s0 r n vb fs s -> length fs = n -> 0 <= i < vlen s0 -> ~ (r <= i < r + Z.of_nat n) ->
  page_tab s !! pte_ptr (vpage s0 i) = page_tab s0 !! pte_ptr (vpage s0 i) /\
  bit_used vb i = bit_used (vbits s0) i.
Proof.
  intros Hmap Hn Hi Hout. split.
  - apply (ma_old _ _ _ _ _ _ Hmap). intros k Hk E.
    apply vpage_pte_inj in E; [lia|done|done|lia].
  - rewrite (bu_bits _ _ _ _ Hvb) by lia.
    destruct (Z.leb_spec r i), (Z.ltb_spec i (r + Z.of_nat n)); try done. lia.
Qed.

Lemma run_bit_used i : r <= i < r + Z.of_nat n -> bit_used vb i = true.
Proof.
  intros Hi. rewrite (bu_bits _ _ _ _ Hvb) by lia.
  rewrite (proj2 (Z.leb_le _ _)), (proj2 (Z.ltb_lt _ _)) by lia. done.
Qed.

Lemma mapping_complete fs s : mapping s0 r n vb fs s -> length fs = n -> pages_ok s.
Proof.
  intros Hmap Hn. destruct (mapping_fields fs s Hmap) as (Hkl & Hks & Hkv & Hup).
  pose proof (ma_kbits _ _ _ _ _ _ Hmap) as [W L Me B].
  assert (Hvb' : vbits s = vb) by (unfold vbits; by rewrite Hkv).
  assert (Hvl : vlen s = vlen s0) by (unfold vlen; by rewrite Hvb', (bu_len _ _ _ _ Hvb)).
  assert (Hvp : forall i, vpage s i = vpage s0 i) by (intros i; unfold vpage; by rewrite Hkv).
  assert (Hkf : forall f, kframe s f = kframe s0 f) by (intros f; unfold kframe; by rewrite Hks).
  assert (Hin : forall i, r <= i < r + Z.of_nat n \/ ~ (r <= i < r + Z.of_nat n)) by (intros; lia).
  split; rewrite ?Hvb', ?Hvl, ?Hkl, ?Hvp, ?Hkf, ?Hks, ?Hup, ?Hkv.
  - exact W.
  - apply Hvb.
  - apply (po_phys s0 Hok).
  - apply (po_virt s0 Hok).
  - intros i Hi. rewrite Hvp. destruct (po_pde s0 Hok i Hi) as (d & Hd & Pd). exists d. split; [|done].
    rewrite (ma_old _ _ _ _ _ _ Hmap); [done|]. intros k Hk. apply vpage_pde_ne; [done|done|lia].
  - intros i Hi. rewrite Hvp. destruct (Hin i) as [Hir|Hir].
    + destruct (mapping_run_entry fs s i Hmap Hn Hir) as (f & e & Hf & He & Hb & Pe & Hfr).
      exists e. rewrite run_bit_used by done. split; [done|]. split; [done|]. split; [done|].
      intros _. exists f. rewrite Hkf. apply list_elem_of_lookup_2 in Hf.
      destruct (ma_free _ _ _ _ _ _ Hmap f Hf) as [Hfb _]. split; [done|]. split; [|done].
      rewrite B by lia. by rewrite bool_decide_true.
    + destruct (mapping_other_entry fs s i Hmap Hn Hi Hir) as [-> ->].
      destruct (po_pte s0 Hok i Hi) as (e & He & Hb & Pe & Hfr). exists e. split; [done|].
      split; [done|]. split; [done|]. intros Hu. destruct (Hfr Hu) as (f & Hf & Huf & Hef).
      exists f. rewrite Hkf. split; [done|]. split; [|done]. rewrite B by lia. rewrite Huf.
      by case_bool_decide.
  - assert (Hmix : forall i j e1 e2, r <= i < r + Z.of_nat n -> 0 <= j < vlen s0 ->
      ~ (r <= j < r + Z.of_nat n) -> bit_used vb j = true ->
      page_tab s !! pte_ptr (vpage s0 i) = Some e1 -> page_tab s !! pte_ptr (vpage s0 j) = Some e2 ->
      Z.land e1 0xfffff000 <> Z.land e2 0xfffff000).
    { intros i j e1 e2 Hir Hj Hjr Hu H1 H2 E.
      destruct (mapping_run_entry fs s i Hmap Hn Hir) as (f & e & Hf & He & _ & _ & Hfr).
      destruct (mapping_other_entry fs s j Hmap Hn Hj Hjr) as [Ej Bj]. rewrite Ej in H2. rewrite Bj in Hu.
      destruct (po_pte s0 Hok j Hj) as (e' & He' & _ & _ & Hfr'). destruct (Hfr' Hu) as (f' & Hf' & Huf & Hef).
      apply list_elem_of_lookup_2 in Hf. destruct (ma_free _ _ _ _ _ _ Hmap f Hf) as [_ Hff].
      assert (f = f') as -> by (unfold kframe, PG_SIZE in *; congruence || (simplify_eq; lia)). congruence. }
    intros i j e1 e2 Hi Hj Hui Huj. rewrite !Hvp. intros H1 H2 E.
    destruct (Hin i) as [Hir|Hir], (Hin j) as [Hjr|Hjr].
    + destruct (mapping_run_entry fs s i Hmap Hn Hir) as (f & e & Hf & He & _ & _ & Hfr).
      destruct (mapping_run_entry fs s j Hmap Hn Hjr) as (f' & e' & Hf' & He' & _ & _ & Hfr').
      assert (f = f') as <- by (unfold kframe, PG_SIZE in *; simplify_eq; lia).
      pose proof (NoDup_lookup _ _ _ _ (ma_nodup _ _ _ _ _ _ Hmap) Hf Hf'). lia.
    + exfalso. by eapply (Hmix i j e1 e2).
    + exfalso. by eapply (Hmix j i e2 e1).
    + destruct (mapping_other_entry fs s i Hmap Hn Hi Hir) as [E1 B1].
      destruct (mapping_other_entry fs s j Hmap Hn Hj Hjr) as [E2 B2].
      rewrite E1 in H1. rewrite E2 in H2. rewrite B1 in Hui. rewrite B2 in Huj.
      by apply (po_inj s0 Hok i j e1 e2).
Qed.

Lemma mapping_maps_to fs s k f :
  mapping s0 r n vb fs s -> length fs = n -> fs !! k = Some f -> maps_to s (r + Z.of_nat k) f.
Proof.
  intros Hmap Hn Hf. destruct (mapping_fields fs s Hmap) as (Hkl & Hks & Hkv & Hup).
  assert (Hk : (k < n)%nat) by (apply lookup_lt_Some in Hf; lia).
  destruct (mapping_run_entry fs s (r + Z.of_nat k) Hmap Hn ltac:(lia)) as (f' & e & Hf' & He & Hb & _ & Hfr).
  replace (Z.to_nat (r + Z.of_nat k - r)) with k in Hf' by lia. rewrite Hf in Hf'. injection Hf' as <-.
  pose proof (list_elem_of_lookup_2 _ _ _ Hf) as Hin.
  destruct (ma_free _ _ _ _ _ _ Hmap f Hin) as [Hfk _].
  split; [by rewrite Hkl|]. split.
  - rewrite (bu_bits _ _ _ _ (ma_kbits _ _ _ _ _ _ Hmap)) by lia. by rewrite bool_decide_true.
  - exists e. unfold vpage, kframe. rewrite Hkv, Hks. done.
Qed.
End malloc.

(** What malloc_page needs: a run of free virtual pages and enough frames. *)
Record can_malloc (s : pmem) (n : nat) (i0 : Z) (free : list Z) : Prop := {
  cm_n : 0 < Z.of_nat n < 3840;
  cm_run : 0 <= i0 /\ i0 + Z.of_nat n <= vlen s /\ free_run (vbits s) i0 (Z.of_nat n);
  cm_free : NoDup free /\ length free = n /\
    forall f, f ∈ free -> 0 <= f < klen s /\ bit_used (kbits s) f = false
}.

(** The first run of [n] free virtual pages. *)
Definition first_run (s : pmem) (n : nat) (r : Z) : Prop :=
  0 <= r /\ r + Z.of_nat n <= vlen s /\ free_run (vbits s) r (Z.of_nat n) /\
  forall i, 0 <= i < r -> ~ free_run (vbits s) i (Z.of_nat n).

Definition reserved (s : pmem) (r : Z) (n : nat) (vb : bitmap) : Prop :=
  bits_upd (vbits s) vb (fun j => (r <=? j) && (j <? r + Z.of_nat n)) true.

Lemma vaddr_get_kernel_run s n i0 free (Q : Z -> pmem -> Prop) :
  pages_ok s -> can_malloc s n i0 free ->
  (forall r vb, first_run s n r -> reserved s r n vb -> Q (vpage s r) (with_vaddr PF_KERNEL vb s)) ->
  wp (vaddr_get PF_KERNEL (Z.of_nat n)) Q s.
Proof.
  intros Hok [Hn (Hi0 & Hi1 & Hfr) Hfree] HQ. unfold vaddr_get. wp_simp. rewrite wp_on_vaddr.
  pose proof (po_vbits s Hok) as Hwf. pose proof (wf_len _ Hwf) as Hl. pose proof (wf_mem _ Hwf) as Hm.
  unfold vlen in Hi1. cbn [vaddr_of]. fold (vbits s).
  apply (bitmap_scan_run (vbits s) (Z.of_nat n) i0); [done|lia|lia|apply Hfr; lia|].
  intros r [[_ Hno]|(Hr & _ & Hrun & Hfirst)].
  { exfalso. apply (Hno i0); [lia|lia|exact Hfr]. }
  assert (Hri : r <= i0).
  { destruct (Z.le_gt_cases r i0); [done|]. exfalso. apply (Hfirst i0); [lia|exact Hfr]. }
  change (with_vaddr PF_KERNEL (vbits s) s) with (with_vaddr PF_KERNEL (vaddr_bitmap (vaddr_of PF_KERNEL s)) s).
  rewrite with_vaddr_id. rewrite (proj2 (Z.eqb_neq r (-1))) by lia. wp_simp. rewrite wp_on_vaddr.
  rewrite Nat2Z.id. cbn [vaddr_of]. fold (vbits s).
  apply set_bits_run; [done|lia|lia|lia|by right|]. intros vb Hvb. wp_simp.
  assert (Hfr' : first_run s n r) by (unfold first_run, vlen; repeat split; [lia|lia|done|done]).
  pose proof (HQ r vb Hfr' Hvb) as HQ'. unfold vpage in HQ'.
  change (vaddr_start (kernel_vaddr (with_vaddr PF_KERNEL vb s))) with (vaddr_start (kernel_vaddr s)).
  rewrite u32_small; [exact HQ'|]. destruct (po_virt s Hok) as (_ & ? & Hv).
  unfold vpage, vlen, PG_SIZE in *. lia.
Qed.

Lemma malloc_kernel_run s n i0 free (Q : Z -> pmem -> Prop) :
  pages_ok s -> can_malloc s n i0 free ->
  (forall r vb fs s', first_run s n r -> reserved s r n vb -> mapping s r n vb fs s' ->
     length fs = n -> Q (vpage s r) s') ->
  wp (malloc_page PF_KERNEL (Z.of_nat n)) Q s.
Proof.
  intros Hok Hcm HQ. pose proof Hcm as [Hn _ Hfree]. unfold malloc_page. wp_simp. apply wp_ASSERT.
  split; [rewrite (proj2 (Z.ltb_lt _ _)), (proj2 (Z.ltb_lt (Z.of_nat n) 3840)) by lia; done|].
  wp_simp. apply (vaddr_get_kernel_run s n i0 free); [done|done|]. intros r vb Hfr Hvb.
  pose proof Hfr as (Hr0 & Hr1 & Hrun & _).
  assert (Hrng : forall k, 0 <= k < Z.of_nat n -> 0 <= r + k < vlen s) by (intros; lia).
  pose proof (vpage_range s r Hok ltac:(lia)) as (Hv0 & _ & _).
  rewrite (proj2 (Z.eqb_neq _ NULL)) by (unfold NULL; lia).
  apply (wp_loop_along (fun (l : list Z) (x : Z * Z) s' => exists fs, mapping s r n vb fs s' /\
      (length fs + length l)%nat = n /\
      x = (u32 (vpage s (r + Z.of_nat (length fs))), Z.of_nat (length l)))
    _ _ _ (replicate n 0)).
  - intros e l x s' (fs & Hm & Hl & ->). cbn [length] in *.
    rewrite (proj2 (Z.ltb_lt 0 _)) by lia. rewrite wp_bind.
    pose proof (vpage_range s _ Hok (Hrng (Z.of_nat (length fs)) ltac:(lia))) as (Hp1 & Hp2 & _).
    unfold PG_SIZE in Hp2. rewrite (u32_small (vpage _ _)) by lia.
    eapply wp_mono; [apply (mapping_step s Hok r n ltac:(lia) Hrun vb free Hvb Hfree fs s'
      (fun _ s2 => exists f, mapping s r n vb (fs ++ [f]) s2)); [done|lia|by eauto]|].
    intros a s1 [Ha Hadd]. cbn beta. rewrite (proj2 (Z.eqb_neq a NULL)) by done.
    rewrite wp_bind. eapply wp_mono; [exact Hadd|]. intros [] s2 [f Hf]. wp_simp.
    exists (fs ++ [f]). split; [done|]. rewrite length_app. cbn [length]. split; [lia|].
    f_equal; [|lia]. f_equal. unfold vpage. lia.
  - intros x s' (fs & Hm & Hl & ->). cbn [length] in *. rewrite (proj2 (Z.ltb_ge 0 _)) by lia. wp_simp.
    apply (HQ r vb fs); [done|done|done|lia].
  - exists []. rewrite length_replicate. split; [by eapply (mapping_start s)|]. split; [done|].
    cbn [length]. rewrite Z.add_0_r, u32_small; [done|].
    pose proof (vpage_range s r Hok ltac:(lia)) as (? & ? & _). unfold PG_SIZE in *. lia.
  - rewrite length_replicate. lia.
Qed.

(** ** Giving pages back *)

Lemma list_choice (P : nat -> Z -> Prop) n :
  (forall k, (k < n)%nat -> exists f, P k f) ->
  exists l : list Z, length l = n /\ forall k f, l !! k = Some f -> P k f.
Proof.
  induction n as [|n IH]; intros H.
  - exists []. split; [done|]. intros k f Hk. by rewrite lookup_nil in Hk.
  - destruct IH as (l & Hl & HP); [intros k Hk; apply H; lia|]. destruct (H n) as [f Hf]; [lia|].
    exists (l ++ [f]). rewrite length_app. cbn. split; [lia|]. intros k g Hg.
    destruct (decide (k = n)) as [->|Hne].
    + rewrite list_lookup_middle in Hg by done. by injection Hg as <-.
    + apply HP. rewrite lookup_app_l in Hg; [done|]. apply lookup_lt_Some in Hg.
      rewrite length_app in Hg. cbn in Hg. lia.
Qed.

(** [s] is [s0] after the first pages of the run have lost their frames [fs]. *)
Record unmapping (s0 : pmem) (r : Z) (fs : list Z) (s : pmem) : Prop := {
  un_state : s = set_page_tab (page_tab s) (with_pool PF_KERNEL (kbits s) s0);
  un_kbits : bits_upd (kbits s0) (kbits s) (fun j => bool_decide (j ∈ fs)) false;
  un_gone : forall k e, (k < length fs)%nat ->
    page_tab s0 !! pte_ptr (vpage s0 (r + Z.of_nat k)) = Some e ->
    page_tab s !! pte_ptr (vpage s0 (r + Z.of_nat k)) = Some (u32 (Z.land e (Z.lnot PG_P_1)));
  un_old : forall p, (forall k, (k < length fs)%nat -> p <> pte_ptr (vpage s0 (r + Z.of_nat k))) ->
    page_tab s !! p = page_tab s0 !! p
}.

Lemma page_offset v : v mod PG_SIZE = 0 -> Z.land v 0xfff = 0.
Proof.
  intros H. change 0xfff with (Z.ones 12). rewrite Z.land_ones by lia. exact H.
Qed.

Section mfree.
Context (s0 : pmem) (Hok : pages_ok s0).
Context (r : Z) (F : list Z) (Hr : 0 <= r /\ r + Z.of_nat (length F) <= vlen s0).
Context (HF : forall k f, F !! k = Some f -> maps_to s0 (r + Z.of_nat k) f).

Lemma mfree_addr k f s (Q : Z -> ptab -> Prop) :
  F !! k = Some f ->
  page_tab s !! pte_ptr (vpage s0 (r + Z.of_nat k)) = page_tab s0 !! pte_ptr (vpage s0 (r + Z.of_nat k)) ->
  Q (kframe s0 f) (page_tab s) -> wp (addr_v2p (vpage s0 (r + Z.of_nat k))) Q (page_tab s).
Proof.
  intros Hf Htab HQ. destruct (HF k f Hf) as (Hfk & _ & e & He & Hb & Hfr).
  assert (Hk : (k < length F)%nat) by by eapply lookup_lt_Some.
  eapply wp_addr_v2p; [by rewrite Htab|].
  rewrite page_offset by (apply vpage_range; [done|lia]).
  destruct (kframe_range s0 Hok f Hfk) as [Hrng _]. rewrite Hfr, Z.add_0_r, u32_small by lia. done.
Qed.

Lemma unmapping_step k f s (Q : unit -> pmem -> Prop) :
  unmapping s0 r (take k F) s -> F !! k = Some f ->
  (forall s', unmapping s0 r (take (S k) F) s' -> Q tt s') ->
  wp (mfree_one false (vpage s0 (r + Z.of_nat k))) Q s.
Proof.
  intros [Hs [W L Me B] Hgone Hold] Hf HQ.
  assert (Hk : (k < length F)%nat) by by eapply lookup_lt_Some.
  destruct (HF k f Hf) as (Hfk & _ & e & He & Hb & Hfr).
  destruct (kframe_range s0 Hok f Hfk) as [Hrng Hmod]. destruct (po_phys s0 Hok) as (Hpm & Hps & Hpu).
  set (v := vpage s0 (r + Z.of_nat k)) in *.
  assert (Hlen : length (take k F) = k) by (rewrite length_take; lia).
  assert (Htab : page_tab s !! pte_ptr v = page_tab s0 !! pte_ptr v).
  { apply Hold. rewrite Hlen. intros k' Hk' E. apply vpage_pte_inj in E; [lia|done|lia|lia]. }
  assert (Hkp : phy_addr_start (kernel_pool s) = phy_addr_start (kernel_pool s0)) by (by rewrite Hs).
  assert (Hup : phy_addr_start (user_pool s) = phy_addr_start (user_pool s0)) by (by rewrite Hs).
  assert (Hlt : kframe s0 f < phy_addr_start (user_pool s0)) by (unfold kframe, PG_SIZE in *; lia).
  unfold mfree_one, pfree, page_table_pte_remove. wp_simp. rewrite wp_on_tab.
  apply (mfree_addr k f s); [done|exact Htab|]. rewrite set_page_tab_id. wp_simp.
  rewrite Hkp, Hup. apply wp_ASSERT. split.
  { rewrite Hmod, (proj2 (Z.leb_le _ _)), (proj2 (Z.ltb_lt _ _)) by (unfold kframe, PG_SIZE in *; lia).
    done. }
  wp_simp. rewrite Hup, (proj2 (Z.leb_gt _ _)) by lia. rewrite Hkp, wp_on_pool.
  cbn [pool_of]. fold (kbits s).
  assert (Hbit : u32 (kframe s0 f - phy_addr_start (kernel_pool s0)) / PG_SIZE = f).
  { rewrite u32_small by (unfold kframe, PG_SIZE in *; lia). unfold kframe, PG_SIZE. dlia. }
  rewrite Hbit. apply bitmap_set_run; [done| |by left|].
  { pose proof (wf_mem _ (po_kbits s0 Hok)). unfold klen in Hfk. rewrite Me. lia. }
  intros b' W' L' M' B'. wp_simp. rewrite wp_on_tab.
  change (page_tab (with_pool PF_KERNEL b' s)) with (page_tab s).
  eapply wp_ld_pte; [rewrite Htab; exact He|]. wp_simp. rewrite wp_on_tab.
  apply wp_st_pte; [cbn; rewrite Htab; by eexists|].
  apply HQ. split; cbn [page_tab set_page_tab].
  - rewrite Hs. by destruct s0 as [[] ? [] ? ? ? ?].
  - split; [exact W'|by rewrite <- L|by rewrite <- Me|]. intros j Hj.
    change (bit_used b' j = if bool_decide (j ∈ take (S k) F) then false else bit_used (kbits s0) j).
    rewrite B', B by done. rewrite (take_S_r _ _ _ Hf). destruct (Z.eqb_spec j f) as [->|Hne].
    + rewrite (bool_decide_true (f ∈ _)); [done|]. rewrite elem_of_app, list_elem_of_singleton. by right.
    + replace (bool_decide (j ∈ take k F ++ [f])) with (bool_decide (j ∈ take k F)); [done|].
      apply bool_decide_ext. rewrite elem_of_app, list_elem_of_singleton. tauto.
  - rewrite length_take. intros k' e' Hk' He'. destruct (decide (k' = k)) as [->|Hne].
    + fold v in He' |- *. rewrite lookup_insert_eq. rewrite He in He'. by injection He' as <-.
    + rewrite lookup_insert_ne.
      * apply Hgone; [rewrite Hlen; lia|done].
      * intros E. apply vpage_pte_inj in E; [lia|done|lia|lia].
  - rewrite length_take. intros p Hp. rewrite lookup_insert_ne.
    + apply Hold. rewrite Hlen. intros k' Hk'. apply Hp. lia.
    + intros <-. by apply (Hp k); [lia|].
Qed.
End mfree.

(** [s] is [s0] after the run has been given back, frames and addresses. *)
Record released (s0 : pmem) (r : Z) (F : list Z) (s : pmem) : Prop := {
  re_un : exists s1 vb, unmapping s0 r F s1 /\ s = with_vaddr PF_KERNEL vb s1 /\
    bits_upd (vbits s0) vb (fun j => (r <=? j) && (j <? r + Z.of_nat (length F))) false;
  re_ok : pages_ok s
}.

Section release.
Context (s0 : pmem) (Hok : pages_ok s0).
Context (r : Z) (F : list Z) (Hr : 0 <= r /\ r + Z.of_nat (length F) <= vlen s0).
Context (HF : forall k f, F !! k = Some f -> maps_to s0 (r + Z.of_nat k) f).
Context (Hused : forall i, r <= i < r + Z.of_nat (length F) -> bit_used (vbits s0) i = true).
Context (s1 : pmem) (vb : bitmap) (Hun : unmapping s0 r F s1).
Context (Hvb : bits_upd (vbits s0) vb (fun j => (r <=? j) && (j <? r + Z.of_nat (length F))) false).

Lemma released_inside i : r <= i < r + Z.of_nat (length F) -> exists e,
  page_tab s1 !! pte_ptr (vpage s0 i) = Some e /\ 0 <= e < 2 ^ 32 /\ Z.testbit e 0 = false /\
  bit_used vb i = false.
Proof.
  intros Hi. destruct (lookup_lt_is_Some_2 F (Z.to_nat (i - r))) as [f Hf]; [lia|].
  destruct (HF _ _ Hf) as (_ & _ & e & He & _).
  assert (Hk : r + Z.of_nat (Z.to_nat (i - r)) = i) by lia. rewrite Hk in He.
  exists (u32 (Z.land e (Z.lnot PG_P_1))). split; [|split; [apply u32_bound|split]].
  - pose proof (un_gone _ _ _ _ Hun (Z.to_nat (i - r)) e) as H. rewrite Hk in H. apply H; [lia|done].
  - unfold u32. rewrite Z.mod_pow2_bits_low by lia. rewrite Z.land_spec. apply andb_false_r.
  - rewrite (bu_bits _ _ _ _ Hvb) by lia.
    rewrite (proj2 (Z.leb_le _ _)), (proj2 (Z.ltb_lt _ _)) by lia. done.
Qed.

Lemma released_outside i : 0 <= i < vlen s0 -> ~ (r <= i < r + Z.of_nat (length F)) ->
  page_tab s1 !! pte_ptr (vpage s0 i) = page_tab s0 !! pte_ptr (vpage s0 i) /\
  bit_used vb i = bit_used (vbits s0) i.
Proof.
  intros Hi Hout. split.
  - apply (un_old _ _ _ _ Hun). intros k Hk E. apply vpage_pte_inj in E; [lia|done|done|lia].
  - rewrite (bu_bits _ _ _ _ Hvb) by lia.
    destruct (Z.leb_spec r i), (Z.ltb_spec i (r + Z.of_nat (length F))); try done. lia.
Qed.

(** A page outside the run keeps a frame that was not given back. *)
Lemma released_frame i e f : 0 <= i < vlen s0 -> ~ (r <= i < r + Z.of_nat (length F)) ->
  bit_used (vbits s0) i = true -> page_tab s0 !! pte_ptr (vpage s0 i) = Some e ->
  Z.land e 0xfffff000 = kframe s0 f -> f ∉ F.
Proof.
  intros Hi Hout Hu He Hf Hin. apply list_elem_of_lookup in Hin as [k Hk].
  destruct (HF _ _ Hk) as (_ & _ & e' & He' & _ & Hf').
  assert (Hkl : (k < length F)%nat) by by eapply lookup_lt_Some.
  assert (i = r + Z.of_nat k); [|lia].
  apply (po_inj s0 Hok i (r + Z.of_nat k) e e'); try done; [lia|apply Hused; lia|congruence].
Qed.

Lemma released_ok : pages_ok (with_vaddr PF_KERNEL vb s1).
Proof.
  pose proof (un_kbits _ _ _ _ Hun) as [W L Me B]. pose proof (un_state _ _ _ _ Hun) as Hs.
  set (s := with_vaddr PF_KERNEL vb s1).
  assert (Hkl : klen s = klen s0) by (unfold klen; change (kbits s) with (kbits s1); by rewrite L).
  assert (Hks : phy_addr_start (kernel_pool s) = phy_addr_start (kernel_pool s0)) by (unfold s; by rewrite Hs).
  assert (Hup : user_pool s = user_pool s0) by (unfold s; by rewrite Hs).
  assert (Hkv : kernel_vaddr s = VAddr vb (vaddr_start (kernel_vaddr s0))) by (unfold s; by rewrite Hs).
  assert (Hvl : vlen s = vlen s0) by (unfold vlen, vbits at 1; rewrite Hkv; cbn; by rewrite (bu_len _ _ _ _ Hvb)).
  assert (Hvp : forall i, vpage s i = vpage s0 i) by (intros i; unfold vpage; by rewrite Hkv).
  assert (Hkf : forall f, kframe s f = kframe s0 f) by (intros f; unfold kframe; by rewrite Hks).
  assert (Hin : forall i, r <= i < r + Z.of_nat (length F) \/ ~ (r <= i < r + Z.of_nat (length F))) by (intros; lia).
  change (vbits s) with vb in *. change (kbits s) with (kbits s1) in *.
  split; change (vbits s) with vb; change (kbits s) with (kbits s1);
    change (page_tab s) with (page_tab s1); rewrite ?Hvl, ?Hkl, ?Hvp, ?Hkf, ?Hks, ?Hup, ?Hkv.
  - exact W.
  - apply Hvb.
  - apply (po_phys s0 Hok).
  - apply (po_virt s0 Hok).
  - intros i Hi. rewrite Hvp. destruct (po_pde s0 Hok i Hi) as (d & Hd & Pd). exists d. split; [|done].
    rewrite (un_old _ _ _ _ Hun); [done|]. intros k Hk. apply vpage_pde_ne; [done|done|lia].
  - intros i Hi. rewrite Hvp. destruct (Hin i) as [Hir|Hir].
    + destruct (released_inside i Hir) as (e & He & Hb & Pe & Hu). exists e. rewrite Hu, Pe.
      split; [done|]. split; [done|]. split; [done|]. done.
    + destruct (released_outside i Hi Hir) as [-> ->].
      destruct (po_pte s0 Hok i Hi) as (e & He & Hb & Pe & Hfr). exists e. split; [done|].
      split; [done|]. split; [done|]. intros Hu. destruct (Hfr Hu) as (f & Hf & Huf & Hef).
      exists f. rewrite Hkf. split; [done|]. split; [|done]. rewrite B by lia.
      rewrite bool_decide_false by by eapply (released_frame i e f). done.
  - intros i j e1 e2 Hi Hj Hui Huj. rewrite !Hvp. intros H1 H2 E.
    assert (Hout : forall i, 0 <= i < vlen s0 -> bit_used vb i = true -> ~ (r <= i < r + Z.of_nat (length F))).
    { intros i' _ Hu Hir. destruct (released_inside i' Hir) as (? & _ & _ & _ & ?). congruence. }
    destruct (released_outside i Hi (Hout i Hi Hui)) as [E1 B1].
    destruct (released_outside j Hj (Hout j Hj Huj)) as [E2 B2].
    rewrite E1 in H1. rewrite E2 in H2. rewrite B1 in Hui. rewrite B2 in Huj.
    by apply (po_inj s0 Hok i j e1 e2).
Qed.
End release.

Lemma mfree_kernel_run s0 r F (Q : unit -> pmem -> Prop) :
  pages_ok s0 -> (0 < length F)%nat -> 0 <= r /\ r + Z.of_nat (length F) <= vlen s0 ->
  (forall k f, F !! k = Some f -> maps_to s0 (r + Z.of_nat k) f) ->
  (forall i, r <= i < r + Z.of_nat (length F) -> bit_used (vbits s0) i = true) ->
  (forall s, released s0 r F s -> Q tt s) ->
  wp (mfree_page PF_KERNEL (vpage s0 r) (Z.of_nat (length F))) Q s0.
Proof.
  intros Hok Hn Hr HF Hused HQ. unfold mfree_page. wp_simp.
  pose proof (vpage_range s0 r Hok ltac:(lia)) as (Hv0 & Hv1 & Hvm). unfold PG_SIZE in Hv1.
  apply wp_ASSERT. split; [rewrite Hvm, (proj2 (Z.leb_le _ _)) by lia; done|]. wp_simp.
  destruct (lookup_lt_is_Some_2 F 0) as [f0 Hf0]; [lia|].
  destruct (HF 0%nat f0 Hf0) as (Hfk & _). destruct (kframe_range s0 Hok f0 Hfk) as [Hrng Hmod].
  rewrite wp_on_tab. pose proof (mfree_addr s0 Hok r F Hr HF 0 f0 s0) as Hadd.
  change (Z.of_nat 0) with 0 in Hadd. rewrite Z.add_0_r in Hadd. apply Hadd; [done|done|].
  rewrite set_page_tab_id. wp_simp. apply wp_ASSERT.
  split; [rewrite Hmod, (proj2 (Z.leb_le _ _)) by lia; done|]. wp_simp.
  destruct (po_phys s0 Hok) as (Hpm & Hps & Hpu).
  rewrite (proj2 (Z.leb_gt (phy_addr_start (user_pool s0)) _)) by (unfold kframe, PG_SIZE in *; lia).
  rewrite Nat2Z.id.
  apply (wp_for_range (fun i s => unmapping s0 r (take (Z.to_nat i) F) s)).
  - intros i s Hi Hu. destruct (lookup_lt_is_Some_2 F (Z.to_nat i)) as [f Hf]; [lia|].
    replace (u32 (vpage s0 r + i * PG_SIZE)) with (vpage s0 (r + Z.of_nat (Z.to_nat i))).
    + apply (unmapping_step s0 Hok r F Hr HF (Z.to_nat i) f s); [done|done|].
      intros s' Hs'. by replace (Z.to_nat (i + 1)) with (S (Z.to_nat i)) by lia.
    + pose proof (vpage_range s0 (r + Z.of_nat (Z.to_nat i)) Hok ltac:(lia)) as (? & ? & _).
      rewrite u32_small; unfold vpage, PG_SIZE in *; lia.
  - split.
    + by destruct s0 as [[] ? [] ? ? ? ?].
    + destruct (po_kbits s0 Hok). by split.
    + intros k e Hk. rewrite length_take in Hk. lia.
    + done.
  - intros s1 Hun. rewrite Z.add_0_l, Nat2Z.id, firstn_all in Hun. unfold vaddr_remove. wp_simp.
    rewrite wp_on_vaddr. cbn [vaddr_of].
    assert (Hkv : kernel_vaddr s1 = kernel_vaddr s0) by (by rewrite (un_state _ _ _ _ Hun)).
    rewrite Hkv. fold (vbits s0).
    assert (Hbit : u32 (vpage s0 r - vaddr_start (kernel_vaddr s0)) / PG_SIZE = r).
    { rewrite u32_small; unfold vpage, PG_SIZE in *; [dlia|].
      destruct (po_virt s0 Hok) as (_ & ? & _). lia. }
    rewrite Hbit, Nat2Z.id. pose proof (wf_len _ (po_vbits s0 Hok)). pose proof (wf_mem _ (po_vbits s0 Hok)).
    unfold vlen in Hr. apply set_bits_run; [apply Hok|lia|lia|lia|by left|]. intros vb Hvb.
    apply HQ. split; [exists s1, vb; done|].
    by apply (released_ok s0 Hok r F Hr HF Hused s1 vb Hun Hvb).
Qed.

(** ** The properties *)

(** [C7] malloc_page for the kernel. With [n] consecutive free virtual pages and
    [n] free frames it returns the first such run of pages, maps them to [n]
    distinct frames that were free, marks exactly those pages and frames as
    used, changes no other page-table entry and leaves the user pool alone; the
    bitmaps and the page tables still agree and no two pages share a frame. *)
Theorem malloc_page_maps s n i0 free :
  pages_ok s -> can_malloc s n i0 free ->
  exists r fs s', malloc_page PF_KERNEL (Z.of_nat n) s = Ok (vpage s r, s') /\
    first_run s n r /\ pages_ok s' /\ user_pool s' = user_pool s /\
    NoDup fs /\ length fs = n /\
    (forall f, f ∈ fs -> bit_used (kbits s) f = false) /\
    (forall k f, fs !! k = Some f -> maps_to s' (r + Z.of_nat k) f) /\
    (forall j, 0 <= j -> bit_used (vbits s') j =
       if (r <=? j) && (j <? r + Z.of_nat n) then true else bit_used (vbits s) j) /\
    (forall j, 0 <= j -> bit_used (kbits s') j =
       if bool_decide (j ∈ fs) then true else bit_used (kbits s) j) /\
    (forall p, (forall k, (k < n)%nat -> p <> pte_ptr (vpage s (r + Z.of_nat k))) ->
       page_tab s' !! p = page_tab s !! p).
Proof.
  intros Hok Hcm.
  assert (H : wp (malloc_page PF_KERNEL (Z.of_nat n)) (fun v s' => exists r vb fs,
    v = vpage s r /\ first_run s n r /\ reserved s r n vb /\ mapping s r n vb fs s' /\
    length fs = n) s).
  { apply (malloc_kernel_run s n i0 free); [done|done|]. intros r vb fs s' ????.
    by exists r, vb, fs. }
  apply wp_Ok in H as (v & s' & E & r & vb & fs & -> & Hfr & Hvb & Hm & Hl).
  pose proof Hfr as (Hr0 & Hr1 & Hrun & _). pose proof Hcm as [Hn _ Hfree].
  exists r, fs, s'. split; [exact E|]. split; [done|].
  split; [exact (mapping_complete s Hok r n (conj Hr0 Hr1) Hrun vb free Hvb Hfree fs s' Hm Hl)|].
  split; [by rewrite (ma_state _ _ _ _ _ _ Hm)|]. split; [apply Hm|]. split; [done|].
  split; [intros f Hf; by apply (ma_free _ _ _ _ _ _ Hm)|]. split; [|split; [|split]].
  - intros k f Hk. exact (mapping_maps_to s Hok r n vb free Hfree fs s' k f Hm Hl Hk).
  - intros j Hj. assert (Hv : vbits s' = vb) by (unfold vbits; by rewrite (ma_state _ _ _ _ _ _ Hm)).
    rewrite Hv. by apply Hvb.
  - apply (ma_kbits _ _ _ _ _ _ Hm).
  - intros p Hp. apply (ma_old _ _ _ _ _ _ Hm). by rewrite Hl.
Qed.

(** [C23] What malloc_page takes from the kernel's pages, mfree_page gives back:
    after both with PF_KERNEL, every bit of the bitmap of the kernel's virtual
    pages and of the bitmap of its frames is what it was, and the invariant
    holds. (With PF_USER there is no such theorem: malloc_page does not return
    the address of a page, see [user_malloc_second_panics] in [UserPages].) *)
Theorem malloc_mfree_roundtrip s n i0 free :
  pages_ok s -> can_malloc s n i0 free ->
  exists v s1 s2, malloc_page PF_KERNEL (Z.of_nat n) s = Ok (v, s1) /\
    mfree_page PF_KERNEL v (Z.of_nat n) s1 = Ok (tt, s2) /\ pages_ok s2 /\
    (forall j, 0 <= j -> bit_used (vbits s2) j = bit_used (vbits s) j) /\
    (forall j, 0 <= j -> bit_used (kbits s2) j = bit_used (kbits s) j).
Proof.
  intros Hok Hcm. pose proof Hcm as [Hn _ Hfree].
  assert (H : wp (malloc_page PF_KERNEL (Z.of_nat n)) (fun v s1 =>
    wp (mfree_page PF_KERNEL v (Z.of_nat n)) (fun _ s2 => pages_ok s2 /\
      (forall j, 0 <= j -> bit_used (vbits s2) j = bit_used (vbits s) j) /\
      (forall j, 0 <= j -> bit_used (kbits s2) j = bit_used (kbits s) j)) s1) s).
  { apply (malloc_kernel_run s n i0 free); [done|done|]. intros r vb fs s1 Hfr Hvb Hm Hl.
    pose proof Hfr as (Hr0 & Hr1 & Hrun & _).
    pose proof (mapping_complete s Hok r n (conj Hr0 Hr1) Hrun vb free Hvb Hfree fs s1 Hm Hl) as Hok1.
    destruct (mapping_fields s r n vb fs s1 Hm) as (_ & _ & Hkv & _).
    assert (Hv1 : vbits s1 = vb) by (unfold vbits; by rewrite Hkv).
    replace (vpage s r) with (vpage s1 r) by (unfold vpage; by rewrite Hkv).
    rewrite <- Hl. apply mfree_kernel_run; [done|lia| | | |].
    - rewrite Hl. unfold vlen. rewrite Hv1, (bu_len _ _ _ _ Hvb). done.
    - intros k f Hk. exact (mapping_maps_to s Hok r n vb free Hfree fs s1 k f Hm Hl Hk).
    - intros i Hi. rewrite Hv1. eapply (run_bit_used s r n); eauto; lia.
    - intros s2 [(s3 & vb2 & Hun & -> & Hvb2) Hok2]. split; [done|]. split.
      + intros j Hj. change (vbits (with_vaddr PF_KERNEL vb2 s3)) with vb2.
        rewrite (bu_bits _ _ _ _ Hvb2), Hv1, (bu_bits _ _ _ _ Hvb), Hl by done.
        destruct (Z.leb_spec r j), (Z.ltb_spec j (r + Z.of_nat n)); cbn [andb]; try done.
        symmetry. apply Hrun. lia.
      + intros j Hj. change (kbits (with_vaddr PF_KERNEL vb2 s3)) with (kbits s3).
        rewrite (bu_bits _ _ _ _ (un_kbits _ _ _ _ Hun)) by done.
        rewrite (bu_bits _ _ _ _ (ma_kbits _ _ _ _ _ _ Hm)) by done.
        case_bool_decide as Hin; [|done]. symmetry. by apply (ma_free _ _ _ _ _ _ Hm). }
  apply wp_Ok in H as (v & s1 & E1 & H). apply wp_Ok in H as ([] & s2 & E2 & H).
  by exists v, s1, s2.
Qed.

(** Eight virtual pages and eight frames; page 0 is mapped to frame 0. *)
Definition demo_tab : ptab :=
  <[pde_ptr 0xc0100000 := 0x102007]>
    (<[pte_ptr 0xc0100000 := 0x200007]>
      (list_to_map ((fun i => (pte_ptr (0xc0100000 + i * PG_SIZE), 0)) <$> [1; 2; 3; 4; 5; 6; 7]))).
Definition demo_pmem : pmem :=
  PMem (Pool (Bitmap 1 [1; 0]) MEM_BITMAP_BASE 0x200000 0x8000 0)
    (Pool (Bitmap 1 [0; 0]) (MEM_BITMAP_BASE + 1) 0x208000 0x8000 0)
    (VAddr (Bitmap 1 [1; 0]) 0xc0100000) (VAddr (Bitmap 1 [0; 0]) 0x8048000) 0 demo_tab ∅.

Lemma below_8 i : 0 <= i < 8 -> i ∈ [0; 1; 2; 3; 4; 5; 6; 7].
Proof.
  intros Hi. rewrite !elem_of_cons. lia.
Qed.

Lemma demo_pages_ok : pages_ok demo_pmem.
Proof.
  assert (Hall : forall (P : Z -> Prop) i, vlen demo_pmem = 8 -> Forall P [0; 1; 2; 3; 4; 5; 6; 7] ->
    0 <= i < vlen demo_pmem -> P i).
  { intros P i -> H Hi. rewrite list.Forall_forall in H. apply H. by apply below_8. }
  split.
  - split; cbn; [lia|lia|repeat constructor; done].
  - split; cbn; [lia|lia|repeat constructor; done].
  - vm_compute. repeat split; done.
  - vm_compute. repeat split; done.
  - intros i. apply (Hall (fun i => exists d, page_tab demo_pmem !! pde_ptr (vpage demo_pmem i) = Some d /\
      Z.testbit d 0 = true) i); [done|].
    repeat apply Forall_cons_2; try apply Forall_nil_2; (exists 0x102007; vm_compute; repeat split).
  - intros i. revert i. intros i Hi. revert Hi. apply (Hall (fun i => exists e,
      page_tab demo_pmem !! pte_ptr (vpage demo_pmem i) = Some e /\
      0 <= e < 2 ^ 32 /\ Z.testbit e 0 = bit_used (vbits demo_pmem) i /\
      (bit_used (vbits demo_pmem) i = true -> exists f, 0 <= f < klen demo_pmem /\
         bit_used (kbits demo_pmem) f = true /\ Z.land e 0xfffff000 = kframe demo_pmem f)) i); [done|].
    apply Forall_cons_2.
    { exists 0x200007. split; [vm_compute; done|]. split; [lia|]. split; [vm_compute; done|]. intros _.
      exists 0. vm_compute. repeat split; done. }
    repeat apply Forall_cons_2; try apply Forall_nil_2;
      (exists 0; split; [vm_compute; done|]; split; [lia|]; split; [vm_compute; done|];
       intros E; exfalso; vm_compute in E; discriminate E).
  - assert (H0 : forall i, 0 <= i < vlen demo_pmem -> bit_used (vbits demo_pmem) i = true -> i = 0).
    { intros i. apply (Hall (fun i => bit_used (vbits demo_pmem) i = true -> i = 0) i); [done|].
      repeat apply Forall_cons_2; try apply Forall_nil_2;
        intros E; first [reflexivity | exfalso; vm_compute in E; discriminate E]. }
    intros i j e1 e2 Hi Hj Hu1 Hu2 _ _ _. rewrite (H0 i Hi Hu1). by rewrite (H0 j Hj Hu2).
Qed.

Lemma demo_can_malloc : can_malloc demo_pmem 2 1 [3; 5].
Proof.
  split; [lia| |].
  - split; [lia|]. split; [vm_compute; done|]. intros k Hk.
    assert (Hc : k = 1 \/ k = 2) by lia. by destruct Hc as [->| ->].
  - split; [apply (bool_decide_unpack _); vm_compute; done|]. split; [done|].
    intros f Hf. apply elem_of_cons in Hf as [->|Hf]; [by vm_compute|].
    apply list_elem_of_singleton in Hf as ->. by vm_compute.
Qed.

Lemma malloc_page_maps_witness :
  exists r fs s', malloc_page PF_KERNEL 2 demo_pmem = Ok (vpage demo_pmem r, s') /\
    first_run demo_pmem 2 r /\ pages_ok s' /\ user_pool s' = user_pool demo_pmem /\
    NoDup fs /\ length fs = 2%nat /\
    (forall f, f ∈ fs -> bit_used (kbits demo_pmem) f = false) /\
    (forall k f, fs !! k = Some f -> maps_to s' (r + Z.of_nat k) f) /\
    (forall j, 0 <= j -> bit_used (vbits s') j =
       if (r <=? j) && (j <? r + 2) then true else bit_used (vbits demo_pmem) j) /\
    (forall j, 0 <= j -> bit_used (kbits s') j =
       if bool_decide (j ∈ fs) then true else bit_used (kbits demo_pmem) j) /\
    (forall p, (forall k, (k < 2)%nat -> p <> pte_ptr (vpage demo_pmem (r + Z.of_nat k))) ->
       page_tab s' !! p = page_tab demo_pmem !! p).
Proof. exact (malloc_page_maps demo_pmem 2 1 [3; 5] demo_pages_ok demo_can_malloc). Defined.

Lemma malloc_mfree_roundtrip_witness :
  exists v s1 s2, malloc_page PF_KERNEL 2 demo_pmem = Ok (v, s1) /\
    mfree_page PF_KERNEL v 2 s1 = Ok (tt, s2) /\ pages_ok s2 /\
    (forall j, 0 <= j -> bit_used (vbits s2) j = bit_used (vbits demo_pmem) j) /\
    (forall j, 0 <= j -> bit_used (kbits s2) j = bit_used (kbits demo_pmem) j).
Proof. exact (malloc_mfree_roundtrip demo_pmem 2 1 [3; 5] demo_pages_ok demo_can_malloc). Defined.

(** ** The pools at start-up *)

Lemma bitmap_init_run b (Q : unit -> bitmap -> Prop) :
  0 <= btmp_bytes_len b -> (Z.to_nat (btmp_bytes_len b) <= length (bits b))%nat ->
  Q tt (Bitmap (btmp_bytes_len b) (replicate (Z.to_nat (btmp_bytes_len b)) 0 ++
          drop (Z.to_nat (btmp_bytes_len b)) (bits b))) ->
  wp bitmap_init Q b.
Proof.
  intros H0 Hl HQ. unfold bitmap_init. wp_simp. rewrite (proj2 (Nat.leb_le _ _)) by done. wp_simp. done.
Qed.

Lemma zeroed_free (n : nat) (rest : list Z) i : 0 <= i < 8 * Z.of_nat n ->
  bit_used (Bitmap (Z.of_nat n) (replicate n 0 ++ rest)) i = false.
Proof.
  intros Hi. unfold bit_used. cbn [bits].
  assert (Hb : (Z.to_nat (i / 8) < n)%nat) by dlia.
  rewrite lookup_app_l by (by rewrite length_replicate). rewrite lookup_replicate_2 by done.
  apply Z.bits_0.
Qed.

(** The number of page frames that mem_pool_init gives to each pool. *)
Definition all_free_pages (all_mem : Z) : Z := u16 (u32 (all_mem - 0x200000) / PG_SIZE).

Lemma mem_pool_init_run all_mem area s (Q : unit -> pmem -> Prop) :
  let pages := all_free_pages all_mem in
  let kpages := pages / 2 in
  let kbm := Z.to_nat (kpages / 8) in
  let ubm := Z.to_nat ((pages - kpages) / 8) in
  (2 * kbm + ubm <= length area)%nat ->
  Q tt (PMem
     (Pool (Bitmap (Z.of_nat kbm) (replicate kbm 0 ++ drop kbm area)) MEM_BITMAP_BASE 0x200000 (kpages * PG_SIZE) 0)
     (Pool (Bitmap (Z.of_nat ubm) (replicate ubm 0 ++ drop ubm (drop kbm area))) (MEM_BITMAP_BASE + Z.of_nat kbm)
        (u32 (0x200000 + kpages * PG_SIZE)) ((pages - kpages) * PG_SIZE) 0)
     (VAddr (Bitmap (Z.of_nat kbm) (replicate kbm 0 ++ drop kbm (drop (kbm + ubm) area))) K_HEAP_START)
     (user_vaddr s) (cur_pgdir s) (page_tab s) (page_data s)) ->
  wp (mem_pool_init all_mem area) Q s.
Proof.
  intros pages kpages kbm ubm Hlen HQ. unfold mem_pool_init.
  change (u32 (PG_SIZE * 256 + 0x100000)) with 0x200000. fold (all_free_pages all_mem). fold pages.
  assert (Hp : 0 <= pages < 65536) by apply u16_bound.
  assert (Hk : 0 <= kpages <= pages) by (unfold kpages; dlia).
  assert (Hku : u16 (pages / 2) = kpages) by (apply u16_small; fold kpages; lia). rewrite Hku.
  rewrite (u16_small (pages - kpages)) by lia.
  assert (Hkb : Z.of_nat kbm = kpages / 8) by (unfold kbm; dlia).
  assert (Hub : Z.of_nat ubm = (pages - kpages) / 8) by (unfold ubm; dlia).
  rewrite <- Hkb, <- Hub. wp_simp. rewrite wp_on_pool. apply bitmap_init_run; cbn; [lia|lia|]. wp_simp.
  rewrite wp_on_pool. apply bitmap_init_run; cbn; [lia|rewrite length_drop; lia|]. wp_simp.
  rewrite wp_on_vaddr. apply bitmap_init_run; cbn; [lia|rewrite length_drop; lia|].
  rewrite <- Nat2Z.inj_add, !Nat2Z.id. apply HQ.
Qed.

(** [C33] With between 2 MB and 2 MB plus 65535 pages of memory, mem_pool_init
    splits what lies above 2 MB into two adjacent pools that stay inside the
    memory; every page that a bitmap can hand out lies in its pool and is free
    at first; and the three bitmaps follow each other and end before the PCB of
    the main thread at 0xc009e000. *)
Theorem mem_pool_init_partition all_mem area s :
  0x200000 <= all_mem <= 0x200000 + 65535 * PG_SIZE -> 16384 <= Z.of_nat (length area) ->
  exists s', mem_pool_init all_mem area s = Ok (tt, s') /\
    let kp := kernel_pool s' in let up := user_pool s' in let kv := kernel_vaddr s' in
    phy_addr_start kp = 0x200000 /\ phy_addr_start kp + pool_size kp = phy_addr_start up /\
    phy_addr_start up + pool_size up <= all_mem /\
    8 * btmp_bytes_len (pool_bitmap kp) * PG_SIZE <= pool_size kp /\
    8 * btmp_bytes_len (pool_bitmap up) * PG_SIZE <= pool_size up /\
    (forall i, 0 <= i < 8 * btmp_bytes_len (pool_bitmap kp) -> bit_used (pool_bitmap kp) i = false) /\
    (forall i, 0 <= i < 8 * btmp_bytes_len (pool_bitmap up) -> bit_used (pool_bitmap up) i = false) /\
    (forall i, 0 <= i < 8 * btmp_bytes_len (vaddr_bitmap kv) -> bit_used (vaddr_bitmap kv) i = false) /\
    bits_at up = bits_at kp + btmp_bytes_len (pool_bitmap kp) /\
    bits_at up + btmp_bytes_len (pool_bitmap up) + btmp_bytes_len (vaddr_bitmap kv) <= 0xc009e000.
Proof.
  intros Hm Ha. assert (Hall : all_free_pages all_mem = (all_mem - 0x200000) / PG_SIZE).
  { unfold all_free_pages, PG_SIZE in *. rewrite u32_small by lia. apply u16_small. dlia. }
  match goal with |- exists s', _ = _ /\ @?P s' =>
    assert (H : wp (mem_pool_init all_mem area) (fun _ s' => P s') s) end.
  { assert (Hp : 0 <= (all_mem - 0x200000) / PG_SIZE <= 65535 /\
      (all_mem - 0x200000) / PG_SIZE * PG_SIZE <= all_mem - 0x200000) by (unfold PG_SIZE in *; dlia).
    apply mem_pool_init_run; rewrite Hall; revert Hp; generalize ((all_mem - 0x200000) / PG_SIZE);
      intros pages [Hp Hpm]; unfold PG_SIZE, MEM_BITMAP_BASE in *; [clear -Hp Ha; dlia|].
    cbn [kernel_pool user_pool kernel_vaddr pool_bitmap bits_at phy_addr_start pool_size vaddr_bitmap btmp_bytes_len].
    rewrite u32_small by dlia. repeat split; try dlia; intros i Hi; by apply zeroed_free. }
  apply wp_Ok in H as ([] & s' & E & H). by exists s'.
Qed.

(** The pages of the kernel's heap as the loader leaves them: their tables are
    there, and nothing is mapped in them yet. *)
Definition heap_window (t : ptab) : Prop :=
  forall v, K_HEAP_START <= v < K_HEAP_START + 32768 * PG_SIZE -> v mod PG_SIZE = 0 ->
    (exists d, t !! pde_ptr v = Some d /\ Z.testbit d 0 = true) /\
    (exists e, t !! pte_ptr v = Some e /\ 0 <= e < 2 ^ 32 /\ Z.testbit e 0 = false).

(** mem_pool_init makes an allocator in order, with a page to give. *)
Lemma mem_pool_init_pages_ok all_mem area s (Q : unit -> pmem -> Prop) :
  0x200000 + 16 * PG_SIZE <= all_mem <= 0x200000 + 65535 * PG_SIZE -> 16384 <= Z.of_nat (length area) ->
  Forall (fun v => 0 <= v < 256) area -> heap_window (page_tab s) ->
  (forall s', pages_ok s' -> vaddr_start (kernel_vaddr s') = K_HEAP_START -> 8 <= vlen s' <= 32768 -> 8 <= klen s' ->
     (forall i, 0 <= i < vlen s' -> bit_used (vbits s') i = false) ->
     (forall i, 0 <= i < klen s' -> bit_used (kbits s') i = false) ->
     user_vaddr s' = user_vaddr s -> cur_pgdir s' = cur_pgdir s -> page_tab s' = page_tab s -> Q tt s') ->
  wp (mem_pool_init all_mem area) Q s.
Proof.
  intros Hm Ha Hb Hw HQ. assert (Hall : all_free_pages all_mem = (all_mem - 0x200000) / PG_SIZE).
  { unfold all_free_pages, PG_SIZE in *. rewrite u32_small by lia. apply u16_small. dlia. }
  apply mem_pool_init_run; rewrite Hall; assert (Hp : 16 <= (all_mem - 0x200000) / PG_SIZE <= 65535) by (unfold PG_SIZE in *; dlia);
    revert Hp; generalize ((all_mem - 0x200000) / PG_SIZE); intros pages Hp; [unfold PG_SIZE; dlia|].
  set (kbm := Z.to_nat (pages / 2 / 8)). set (ubm := Z.to_nat ((pages - pages / 2) / 8)).
  assert (Hkbm : 1 <= Z.of_nat kbm <= 4095 /\ 8 * Z.of_nat kbm <= pages / 2) by (unfold kbm; dlia).
  assert (Hubm : 1 <= Z.of_nat ubm <= 4096) by (unfold ubm; dlia).
  assert (Hfree : forall n l i, 0 <= i < 8 * Z.of_nat n -> bit_used (Bitmap (Z.of_nat n) (replicate n 0 ++ l)) i = false)
    by (intros; by apply zeroed_free).
  assert (Hbm : forall l, (0 < length l)%nat -> Forall (fun v => 0 <= v < 256) l -> bitmap_wf (Bitmap (Z.of_nat kbm) (replicate kbm 0 ++ l))).
  { intros l Hl Hlb. split; cbn; [lia|rewrite length_app, length_replicate; lia|]. apply list.Forall_app. split; [apply Forall_replicate; lia|done]. }
  match goal with |- Q tt ?st => set (s' := st) end.
  assert (Hvl : vlen s' = 8 * Z.of_nat kbm) by done. assert (Hkl : klen s' = 8 * Z.of_nat kbm) by done.
  assert (Hvp : forall i, vpage s' i = K_HEAP_START + i * PG_SIZE) by done.
  assert (Hpg : forall i, 0 <= i < vlen s' -> K_HEAP_START <= vpage s' i < K_HEAP_START + 32768 * PG_SIZE /\ vpage s' i mod PG_SIZE = 0).
  { intros i Hi. rewrite Hvp. split; [unfold PG_SIZE; lia|]. rewrite Z_mod_plus_full. done. }
  apply HQ; try done; try (rewrite ?Hvl, ?Hkl; lia); [|intros i Hi; apply Hfree; exact Hi|intros i Hi; apply Hfree; exact Hi].
  split.
  - apply Hbm; [rewrite length_drop; lia|by apply Forall_drop].
  - apply Hbm; [rewrite !length_drop; lia|by apply Forall_drop, Forall_drop].
  - unfold kframe. rewrite Hkl. cbn. unfold PG_SIZE in *. rewrite u32_small by dlia. split; [done|dlia].
  - rewrite Hvp, Hvl. cbn. unfold K_HEAP_START, PG_SIZE. split; [done|]. lia.
  - intros i Hi. destruct (Hpg i Hi) as [H1 H2]. by apply (Hw _ H1 H2).
  - intros i Hi. destruct (Hpg i Hi) as [H1 H2]. destruct (Hw _ H1 H2) as [_ (e & He & Hr & Hn)]. exists e.
    assert (Hu : bit_used (vbits s') i = false) by (apply Hfree; exact Hi). rewrite Hu. by split; [exact He|].
  - intros i j e1 e2 Hi _ Hu. assert (Hu' : bit_used (vbits s') i = false) by (apply Hfree; exact Hi). congruence.
Qed.

Lemma mem_pool_init_partition_witness :
  exists s', mem_pool_init 0x2000000 (replicate (Z.to_nat 16384) 255) demo_pmem = Ok (tt, s') /\
    let kp := kernel_pool s' in let up := user_pool s' in let kv := kernel_vaddr s' in
    phy_addr_start kp = 0x200000 /\ phy_addr_start kp + pool_size kp = phy_addr_start up /\
    phy_addr_start up + pool_size up <= 0x2000000 /\
    8 * btmp_bytes_len (pool_bitmap kp) * PG_SIZE <= pool_size kp /\
    8 * btmp_bytes_len (pool_bitmap up) * PG_SIZE <= pool_size up /\
    (forall i, 0 <= i < 8 * btmp_bytes_len (pool_bitmap kp) -> bit_used (pool_bitmap kp) i = false) /\
    (forall i, 0 <= i < 8 * btmp_bytes_len (pool_bitmap up) -> bit_used (pool_bitmap up) i = false) /\
    (forall i, 0 <= i < 8 * btmp_bytes_len (vaddr_bitmap kv) -> bit_used (vaddr_bitmap kv) i = false) /\
    bits_at up = bits_at kp + btmp_bytes_len (pool_bitmap kp) /\
    bits_at up + btmp_bytes_len (pool_bitmap up) + btmp_bytes_len (vaddr_bitmap kv) <= 0xc009e000.
Proof.
  apply mem_pool_init_partition; [unfold PG_SIZE; lia|]. rewrite length_replicate. lia.
Defined.

(** The page count is kept in a uint16_t: with the 512 MB that the bitmap
    area is laid out for, the two pools together hold 254 MB. *)
Theorem mem_pool_init_truncates area s :
  16384 <= Z.of_nat (length area) ->
  exists s', mem_pool_init 0x20000000 area s = Ok (tt, s') /\
    pool_size (kernel_pool s') + pool_size (user_pool s') = 254 * 0x100000.
Proof.
  intros Ha. assert (H : wp (mem_pool_init 0x20000000 area) (fun _ s' =>
    pool_size (kernel_pool s') + pool_size (user_pool s') = 254 * 0x100000) s).
  { apply mem_pool_init_run.
    - change (all_free_pages 0x20000000) with 65024. change (65024 / 2) with 32512.
      change (32512 / 8) with 4064. change ((65024 - 32512) / 8) with 4064. lia.
    - reflexivity. }
  apply wp_Ok in H as ([] & s' & E & H). by exists s'.
Qed.

Lemma mem_pool_init_truncates_witness :
  exists s', mem_pool_init 0x20000000 (replicate (Z.to_nat 16384) 0) demo_pmem = Ok (tt, s') /\
    pool_size (kernel_pool s') + pool_size (user_pool s') = 254 * 0x100000.
Proof. apply mem_pool_init_truncates. rewrite length_replicate. lia. Defined.
