(* ===== verification/UserPages.v ===== *)
(** * User pages (kernel/memory.c: the PF_USER branches)

    Pages of a user process, whose table may have to be made first: what
    page_table_add and get_a_page_without_opvaddrbitmap do to the pools and to
    the page tables. [vaddr_get] and [malloc_page] are in [Pages]; here is what
    their user branch does, which is not what the kernel's does. *)

From Stdlib Require Import ZArith Lia.
From stdpp Require Import base numbers list gmap option.
From S2P Require Import Prelude Bitmap DList Paging Pages.

Local Open Scope Z_scope.

(** ** Installing one page *)

Definition ubits (s : pmem) : bitmap := pool_bitmap (user_pool s).
Definition ulen (s : pmem) : Z := 8 * btmp_bytes_len (ubits s).
Definition uframe (s : pmem) (k : Z) : Z := phy_addr_start (user_pool s) + k * PG_SIZE.

(** The 4 MB that a page belongs to, and the entries of its table. *)
Definition dir_of (v : Z) : Z := v / 2 ^ 22.
Definition in_table (d q : Z) : bool := (0xffc00000 + 4096 * d <=? q) && (q <? 0xffc00000 + 4096 * (d + 1)) && (q mod 4 =? 0).

(** The window [t'] is [t] with the frame at [f] for the page [v], and, if there
    was no table for it, a cleared table in the frame at [g]. *)
Definition tab_added (t t' : ptab) (v f : Z) (g : option Z) : Prop := forall q,
  t' !! q = if q =? pte_ptr v then Some (f + 7)
            else match g with
                 | None => t !! q
                 | Some g => if in_table (dir_of v) q then Some 0 else if q =? pde_ptr v then Some (g + 7) else t !! q
                 end.

Lemma pde_ptr_linear v : 0 <= v < 2 ^ 32 -> pde_ptr v = 0xfffff000 + 4 * dir_of v.
Proof. intros Hv. unfold pde_ptr, dir_of. rewrite PDE_IDX_div by done. rewrite u32_small; dlia. Qed.

Lemma in_table_pte v w : 0 <= v < 2 ^ 32 -> 0 <= w < 2 ^ 32 -> in_table (dir_of v) (pte_ptr w) = (dir_of w =? dir_of v).
Proof.
  intros Hv Hw. unfold in_table, dir_of. rewrite (pte_ptr_linear w Hw).
  destruct (Z.eqb_spec (w / 2 ^ 22) (v / 2 ^ 22)).
  - rewrite !andb_true_iff, Z.leb_le, Z.ltb_lt, Z.eqb_eq. dlia.
  - rewrite !andb_false_iff, Z.leb_gt, Z.ltb_ge. dlia.
Qed.

Lemma clear_table_run d (t : ptab) (Q : unit -> ptab -> Prop) :
  0 <= d < 1024 -> (forall t', (forall q, t' !! q = if in_table d q then Some 0 else t !! q) -> Q tt t') ->
  wp (clear_table (0xffc00000 + 4096 * d)) Q t.
Proof.
  intros Hd HQ. unfold clear_table.
  apply (wp_for_range (fun i t' => forall q, t' !! q =
    if (0xffc00000 + 4096 * d <=? q) && (q <? 0xffc00000 + 4096 * d + 4 * i) && (q mod 4 =? 0) then Some 0 else t !! q)).
  - intros i t1 Hi Ht1. wp_simp. intros q. destruct (decide (0xffc00000 + 4096 * d + 4 * i = q)) as [<-|Hne].
    + rewrite lookup_insert_eq.
      assert (E : (0xffc00000 + 4096 * d <=? 0xffc00000 + 4096 * d + 4 * i) && (0xffc00000 + 4096 * d + 4 * i <? 0xffc00000 + 4096 * d + 4 * (i + 1)) &&
        ((0xffc00000 + 4096 * d + 4 * i) mod 4 =? 0) = true) by (rewrite !andb_true_iff, Z.leb_le, Z.ltb_lt, Z.eqb_eq; dlia).
      by rewrite E.
    + rewrite lookup_insert_ne, Ht1 by done. f_equal.
      destruct (Z.leb_spec (0xffc00000 + 4096 * d) q), (Z.eqb_spec (q mod 4) 0), (Z.ltb_spec q (0xffc00000 + 4096 * d + 4 * i)),
        (Z.ltb_spec q (0xffc00000 + 4096 * d + 4 * (i + 1))); cbn; try done; dlia.
  - intros q. destruct (Z.leb_spec (0xffc00000 + 4096 * d) q), (Z.ltb_spec q (0xffc00000 + 4096 * d + 4 * 0)); cbn; done || lia.
  - intros t' Ht'. apply HQ. intros q. rewrite Ht'. unfold in_table.
    by replace (0xffc00000 + 4096 * d + 4 * (0 + Z.of_nat 1024)) with (0xffc00000 + 4096 * (d + 1)) by lia.
Qed.

Lemma pte_table v : 0 <= v < 2 ^ 32 -> Z.land (pte_ptr v) 0xfffff000 = 0xffc00000 + 4096 * dir_of v.
Proof.
  intros Hv. pose proof (pte_ptr_bound v Hv). rewrite page_mask by lia. rewrite pte_ptr_linear by done.
  unfold dir_of, PG_SIZE. dlia.
Qed.

(** The mapping of a page that is not mapped. *)
Lemma page_table_add_user m v f d j (Q : unit -> pmem -> Prop) :
  0 <= v < 2 ^ 32 -> 0 <= f < 2 ^ 32 -> f mod PG_SIZE = 0 ->
  page_tab m !! pde_ptr v = Some d ->
  (Z.testbit d 0 = true -> exists e, page_tab m !! pte_ptr v = Some e /\ Z.testbit e 0 = false) ->
  (Z.testbit d 0 = false -> bitmap_wf (kbits m) /\ phy_addr_start (kernel_pool m) mod PG_SIZE = 0 /\
     0 <= phy_addr_start (kernel_pool m) /\ kframe m (klen m) <= 2 ^ 32 /\ 0 <= j < klen m /\ bit_used (kbits m) j = false) ->
  (Z.testbit d 0 = true -> forall t, tab_added (page_tab m) t v f None -> Q tt (set_page_tab t m)) ->
  (Z.testbit d 0 = false -> forall g b t, 0 <= g < klen m -> bit_used (kbits m) g = false ->
     bits_upd (kbits m) b (fun i => i =? g) true -> tab_added (page_tab m) t v f (Some (kframe m g)) ->
     Q tt (set_page_tab t (with_pool PF_KERNEL b m))) ->
  wp (page_table_add v f) Q m.
Proof.
  intros Hv Hf Hfm Hd Hpres Habs HQ1 HQ2. assert (Ef : u32 (pte_flags f) = f + 7).
  { rewrite pte_flags_add by (done || lia). apply u32_small. unfold PG_SIZE in Hfm. dlia. }
  destruct (Z.testbit d 0) eqn:Ed.
  - destruct (Hpres eq_refl) as (e & He & Pe). eapply page_table_add_run; [exact Hd|done|exact He|done|].
    apply HQ1; [done|]. intros q. rewrite Ef. destruct (Z.eqb_spec q (pte_ptr v)) as [->|Hne]; [by rewrite lookup_insert_eq|].
    by rewrite lookup_insert_ne.
  - destruct (Habs eq_refl) as (Hwf & Hkm & Hk0 & Hk1 & Hj & Hjf). unfold page_table_add. rewrite wp_bind, wp_on_tab.
    eapply wp_ld_pte; [exact Hd|]. rewrite present_bit, Ed, set_page_tab_id, wp_bind.
    apply (palloc_run PF_KERNEL m j); [done|done|done|]. intros g b Hg Hgf Hb. cbn [pool_of] in *.
    change (0 <= g < klen m) in Hg. assert (Hgr : 0 <= kframe m g /\ kframe m g + PG_SIZE <= 2 ^ 32) by (unfold kframe, PG_SIZE in *; lia).
    replace (u32 (g * PG_SIZE + phy_addr_start (kernel_pool m))) with (kframe m g) by (rewrite u32_small; unfold kframe, PG_SIZE in *; lia).
    assert (Hgm : kframe m g mod PG_SIZE = 0) by (unfold kframe; rewrite Z.mod_add; done).
    assert (Eg : u32 (pte_flags (kframe m g)) = kframe m g + 7).
    { rewrite pte_flags_add by (done || lia). apply u32_small. unfold PG_SIZE in *. dlia. }
    rewrite wp_bind, wp_on_tab. apply wp_st_pte; [by eexists|]. rewrite wp_bind, wp_on_tab, pte_table, Eg by done.
    pose proof (pte_ptr_linear v Hv) as Ept. pose proof (pde_ptr_linear v Hv) as Epd.
    assert (Hdir : 0 <= dir_of v < 1024) by (unfold dir_of; dlia).
    apply clear_table_run; [done|]. intros t Ht. rewrite wp_bind, wp_on_tab. cbn [page_tab set_page_tab] in *.
    assert (Hin : in_table (dir_of v) (pte_ptr v) = true) by (rewrite in_table_pte by done; apply Z.eqb_refl).
    assert (Hz : t !! pte_ptr v = Some 0) by (by rewrite Ht, Hin).
    eapply wp_ld_pte; [exact Hz|]. change (negb (truthy (Z.land 0 1))) with true. wp_assert. rewrite wp_on_tab.
    apply wp_st_pte; [by eexists|]. cbn [page_tab set_page_tab].
    apply (HQ2 eq_refl g b); [done|done|done|]. intros q. rewrite Ef.
    destruct (Z.eqb_spec q (pte_ptr v)) as [->|Hne]; [by rewrite lookup_insert_eq|]. rewrite lookup_insert_ne, Ht by done.
    destruct (in_table (dir_of v) q); [done|]. destruct (Z.eqb_spec q (pde_ptr v)) as [->|Hne2]; [by rewrite lookup_insert_eq|].
    by rewrite lookup_insert_ne.
Qed.

(** What a pool must be like for its frames to be addresses. *)
Record pool_ok (b : bitmap) (start : Z) : Prop := {
  pl_wf : bitmap_wf b;
  pl_aligned : start mod PG_SIZE = 0;
  pl_start : 0 < start;
  pl_end : start + 8 * btmp_bytes_len b * PG_SIZE <= 2 ^ 32
}.

Lemma pool_frame b start k : pool_ok b start -> 0 <= k < 8 * btmp_bytes_len b ->
  0 < start + k * PG_SIZE < 2 ^ 32 /\ (start + k * PG_SIZE) mod PG_SIZE = 0 /\ u32 (k * PG_SIZE + start) = start + k * PG_SIZE.
Proof.
  intros [_ Hm Hs He] Hk. unfold PG_SIZE in *. split; [lia|]. split; [rewrite Z.mod_add; lia|]. rewrite u32_small; lia.
Qed.

(** A page for the running directory at a given address: which frames it gets,
    and what the window is like then. [table] tells if there is a table. *)
Record page_got (m m' : pmem) (v k : Z) (table : bool) (og : option Z) : Prop := {
  pg_k : 0 <= k < ulen m /\ bit_used (ubits m) k = false;
  pg_ubits : bits_upd (ubits m) (ubits m') (fun i => i =? k) true;
  pg_ustart : phy_addr_start (user_pool m') = phy_addr_start (user_pool m);
  pg_kstart : phy_addr_start (kernel_pool m') = phy_addr_start (kernel_pool m);
  pg_kbits : match og with
    | None => table = true /\ kbits m' = kbits m
    | Some g => table = false /\ 0 <= g < klen m /\ bit_used (kbits m) g = false /\ bits_upd (kbits m) (kbits m') (fun i => i =? g) true
    end;
  pg_tab : tab_added (page_tab m) (page_tab m') v (uframe m k) (kframe m <$> og);
  pg_data : page_data m' = page_data m
}.

Lemma get_a_page_run m v d i j (Q : Z -> pmem -> Prop) :
  0 <= v < 2 ^ 32 -> pool_ok (ubits m) (phy_addr_start (user_pool m)) -> 0 <= pool_lock (user_pool m) ->
  0 <= i < ulen m -> bit_used (ubits m) i = false -> page_tab m !! pde_ptr v = Some d ->
  (Z.testbit d 0 = true -> exists e, page_tab m !! pte_ptr v = Some e /\ Z.testbit e 0 = false) ->
  (Z.testbit d 0 = false -> pool_ok (kbits m) (phy_addr_start (kernel_pool m)) /\ 0 <= j < klen m /\ bit_used (kbits m) j = false) ->
  (forall k og m', page_got m m' v k (Z.testbit d 0) og -> pool_lock (user_pool m') = pool_lock (user_pool m) -> Q v m') ->
  wp (get_a_page_without_opvaddrbitmap PF_USER v) Q m.
Proof.
  intros Hv Hup Hlk Hi Hif Hd Hpres Habs HQ. unfold get_a_page_without_opvaddrbitmap, pool_acquire. wp_simp.
  set (m1 := set_pool PF_USER _ m). apply (palloc_run PF_USER m1 i); [apply Hup|done|done|]. intros k b Hk Hkf Hb.
  cbn [pool_of user_pool m1 set_pool set_user_pool phy_addr_start pool_bitmap] in *. change (0 <= k < ulen m) in Hk.
  destruct (pool_frame _ _ _ Hup Hk) as (Hfr & Hfm & ->). fold (uframe m k) in *.
  rewrite (proj2 (Z.eqb_neq (uframe m k) NULL)) by (unfold NULL; lia). rewrite wp_bind. set (m2 := with_pool PF_USER b m1).
  apply (page_table_add_user m2 v (uframe m k) d j); [done|lia|done|exact Hd|exact Hpres| | |].
  - intros Ed. destruct (Habs Ed) as ([W A S E] & Hj). split; [exact W|]. split; [exact A|]. split; [cbn; lia|]. split; [exact E|exact Hj].
  - intros Ed t Ht. unfold pool_release. wp_simp. apply wp_ASSERT. split; [apply Z.ltb_lt; cbn; lia|]. wp_simp.
    rewrite Ed in HQ. apply (HQ k None); [|cbn; lia]. split; try done.
  - intros Ed g b' t Hg Hgf Hb' Ht. unfold pool_release. wp_simp. apply wp_ASSERT. split; [apply Z.ltb_lt; cbn; lia|]. wp_simp.
    rewrite Ed in HQ. apply (HQ k (Some g)); [|cbn; lia]. split; try done.
Qed.

(** ** Asking for user pages with malloc_page *)

Definition uvbits (s : pmem) : bitmap := vaddr_bitmap (user_vaddr s).

(** The first free bit is taken, and the address is that of no page but the
    second: the bit number is added where it is to be multiplied by the size. *)
Lemma vaddr_get_user_run s i0 (Q : Z -> pmem -> Prop) (st := vaddr_start (user_vaddr s)) :
  bitmap_wf (uvbits s) -> 0 <= i0 < 8 * btmp_bytes_len (uvbits s) -> bit_used (uvbits s) i0 = false ->
  i0 < PG_SIZE -> 0 <= st -> st + 2 * PG_SIZE <= 0xc0000000 - PG_SIZE ->
  (forall r vb, 0 <= r <= i0 -> bit_used (uvbits s) r = false -> (forall i, 0 <= i < r -> bit_used (uvbits s) i = true) ->
     bits_upd (uvbits s) vb (fun i => i =? r) true -> Q (st + r + PG_SIZE) (with_vaddr PF_USER vb s)) ->
  wp (vaddr_get PF_USER 1) Q s.
Proof.
  intros Hwf Hi Hf Hi0 Hs0 Hs1 HQ. pose proof (wf_len _ Hwf). pose proof (wf_mem _ Hwf).
  unfold vaddr_get. rewrite wp_bind, wp_on_vaddr. cbn [vaddr_of]. fold (uvbits s).
  apply (bitmap_scan_run (uvbits s) 1 i0); [done|lia|done|done|].
  intros r [[-> Hno]|(Hr & _ & Hfree & Hfirst)].
  { exfalso. apply (Hno i0); [lia|lia|]. intros k Hk. by replace k with i0 by lia. }
  assert (Hri : r <= i0).
  { destruct (decide (r <= i0)) as [|]; [done|]. exfalso. apply (Hfirst i0); [lia|]. intros k Hk. by replace k with i0 by lia. }
  change (with_vaddr PF_USER (uvbits s) s) with (with_vaddr PF_USER (vaddr_bitmap (vaddr_of PF_USER s)) s).
  rewrite with_vaddr_id, (proj2 (Z.eqb_neq r (-1))) by lia. rewrite wp_bind, wp_on_vaddr. cbn [vaddr_of]. fold (uvbits s).
  apply set_bits_run; [done|lia|lia|lia|by right|]. intros vb [W L Me B]. wp_simp.
  cbn [with_vaddr set_vaddr set_user_vaddr user_vaddr vaddr_start vaddr_of]. fold st. unfold PG_SIZE in *.
  rewrite u32_small by lia. apply wp_ASSERT. split; [lia|]. wp_simp. apply HQ; [lia|by apply Hfree; lia| |].
  - intros i Hlt. destruct (bit_used (uvbits s) i) eqn:E; [done|]. exfalso. apply (Hfirst i Hlt).
    intros k Hk. by replace k with i by lia.
  - split; [done|done|done|]. intros j Hj. rewrite B by done.
    replace ((r <=? j) && (j <? r + Z.of_nat (Z.to_nat 1))) with (j =? r); [done|].
    destruct (Z.eqb_spec j r), (Z.leb_spec r j), (Z.ltb_spec j (r + Z.of_nat (Z.to_nat 1))); done || lia.
Qed.

(** A page that is mapped already. *)
Lemma page_table_add_repeat v f d e s :
  page_tab s !! pde_ptr v = Some d -> Z.testbit d 0 = true ->
  page_tab s !! pte_ptr v = Some e -> Z.testbit e 0 = true -> page_table_add v f s = Panic.
Proof.
  intros Hd Pd He Pe. unfold page_table_add.
  assert (Hld : forall p x, page_tab s !! p = Some x -> on_tab (ld_pte p) s = Ok (x, s)).
  { intros p x Hx. assert (H : wp (on_tab (ld_pte p)) (fun a s' => a = x /\ s' = s) s).
    { rewrite wp_on_tab. eapply wp_ld_pte; [exact Hx|]. by rewrite set_page_tab_id. }
    by wp_ok H; destruct H0 as [-> ->]. }
  rewrite (bind_Ok _ _ _ _ _ (Hld _ _ Hd)), present_bit, Pd.
  rewrite (bind_Ok _ _ _ _ _ (Hld _ _ He)), present_bit, Pe. reflexivity.
Qed.

(** The entries of the page [v]: either there is a table and nothing is mapped,
    or there is none and the kernel pool has a frame for one. *)
Definition unmapped (s : pmem) (v : Z) : Prop :=
  exists d, page_tab s !! pde_ptr v = Some d /\
    if Z.testbit d 0 then exists e, page_tab s !! pte_ptr v = Some e /\ Z.testbit e 0 = false
    else pool_ok (kbits s) (phy_addr_start (kernel_pool s)) /\ exists j, 0 <= j < klen s /\ bit_used (kbits s) j = false.

Definition mapped (t : ptab) (v : Z) : Prop :=
  exists d e, t !! pde_ptr v = Some d /\ Z.testbit d 0 = true /\ t !! pte_ptr v = Some e /\ Z.testbit e 0 = true.

Lemma frame_flags_bit f : f mod PG_SIZE = 0 -> Z.testbit (f + 7) 0 = true.
Proof. intros Hm. rewrite Z.bit0_odd. apply Z.odd_spec. exists ((f + 6) / 2). unfold PG_SIZE in Hm. dlia. Qed.

(** After page_table_add the page is mapped, and no bit of the user's changes. *)
Lemma page_table_add_maps s v f (Q : unit -> pmem -> Prop) :
  0 <= v < 0xc0000000 -> 0 <= f < 2 ^ 32 -> f mod PG_SIZE = 0 -> unmapped s v ->
  (forall s', mapped (page_tab s') v -> user_pool s' = user_pool s -> user_vaddr s' = user_vaddr s -> Q tt s') ->
  wp (page_table_add v f) Q s.
Proof.
  intros Hv Hf Hfm (d & Hd & Hc) HQ.
  assert (Hne : pde_ptr v <> pte_ptr v) by (rewrite pde_ptr_linear, pte_ptr_linear by lia; unfold dir_of; dlia).
  assert (Hout : in_table (dir_of v) (pde_ptr v) = false).
  { rewrite pde_ptr_linear by lia. unfold in_table, dir_of. rewrite !andb_false_iff, Z.leb_gt, Z.ltb_ge. dlia. }
  assert (Hpte : forall g t, tab_added (page_tab s) t v f g -> t !! pte_ptr v = Some (f + 7)).
  { intros g t Ht. by rewrite (Ht (pte_ptr v)), Z.eqb_refl. }
  destruct (Z.testbit d 0) eqn:Ed.
  - destruct Hc as (e & He & Pe).
    apply (page_table_add_user s v f d 0); [lia|done|done|exact Hd|by exists e|by rewrite Ed| |by rewrite Ed].
    intros _ t Ht. apply HQ; [|done|done]. exists d, (f + 7). cbn [page_tab set_page_tab].
    rewrite (Hpte _ _ Ht), (Ht (pde_ptr v)), (proj2 (Z.eqb_neq _ _) Hne). by rewrite frame_flags_bit.
  - destruct Hc as ([W A S E] & j & Hj & Hjf).
    apply (page_table_add_user s v f d j); [lia|done|done|exact Hd|by rewrite Ed| |by rewrite Ed|].
    { intros _. split; [exact W|]. split; [exact A|]. split; [lia|]. by split. }
    intros _ g b t Hg _ _ Ht. apply HQ; [|done|done]. exists (kframe s g + 7), (f + 7). cbn [page_tab set_page_tab].
    rewrite (Hpte _ _ Ht), (Ht (pde_ptr v)), (proj2 (Z.eqb_neq _ _) Hne), Hout, Z.eqb_refl.
    rewrite !frame_flags_bit; [done|done|]. unfold kframe. by rewrite Z.mod_add.
Qed.

(** Two addresses of one page have the same entries. *)
Lemma same_page v w : 0 <= v < 2 ^ 32 -> 0 <= w < 2 ^ 32 -> v / 2 ^ 12 = w / 2 ^ 12 ->
  pde_ptr v = pde_ptr w /\ pte_ptr v = pte_ptr w.
Proof. intros Hv Hw E. rewrite !pde_ptr_linear, !pte_ptr_linear by done. unfold dir_of. split; dlia. Qed.

Lemma unmapped_same_page s v w : 0 <= v < 2 ^ 32 -> 0 <= w < 2 ^ 32 -> v / 2 ^ 12 = w / 2 ^ 12 ->
  unmapped s v -> unmapped s w.
Proof. intros Hv Hw E. destruct (same_page v w Hv Hw E) as [E1 E2]. unfold unmapped. by rewrite E1, E2. Qed.

Lemma mapped_same_page t v w : 0 <= v < 2 ^ 32 -> 0 <= w < 2 ^ 32 -> v / 2 ^ 12 = w / 2 ^ 12 ->
  mapped t v -> mapped t w.
Proof. intros Hv Hw E. destruct (same_page v w Hv Hw E) as [E1 E2]. unfold mapped. by rewrite E1, E2. Qed.

(** What is asked of a process whose next page is at [st + r + PG_SIZE]. *)
Record user_ready (s : pmem) (i0 f : Z) : Prop := {
  ur_vbits : bitmap_wf (uvbits s);
  ur_pool : pool_ok (ubits s) (phy_addr_start (user_pool s));
  ur_start : 0 <= vaddr_start (user_vaddr s) /\ vaddr_start (user_vaddr s) mod PG_SIZE = 0 /\
    vaddr_start (user_vaddr s) + 2 * PG_SIZE <= 0xc0000000 - PG_SIZE;
  ur_bit : 0 <= i0 < 8 * btmp_bytes_len (uvbits s) /\ i0 < PG_SIZE /\ bit_used (uvbits s) i0 = false;
  ur_frame : 0 <= f < ulen s /\ bit_used (ubits s) f = false
}.

Lemma palloc_user_run s f (Q : Z -> pmem -> Prop) :
  pool_ok (ubits s) (phy_addr_start (user_pool s)) -> 0 <= f < ulen s -> bit_used (ubits s) f = false ->
  (forall k b, bits_upd (ubits s) b (fun j => j =? k) true ->
     0 < uframe s k < 2 ^ 32 -> uframe s k mod PG_SIZE = 0 -> Q (uframe s k) (with_pool PF_USER b s)) ->
  wp (palloc PF_USER) Q s.
Proof.
  intros Hp Hf Hff HQ. apply (palloc_run PF_USER s f); [apply Hp|done|done|]. intros k b Hk Hkf Hb.
  cbn [pool_of] in *. change (0 <= k < ulen s) in Hk. destruct (pool_frame _ _ _ Hp Hk) as (H1 & H2 & ->).
  by apply HQ.
Qed.

(** The first page: at the second page of the user's range, [r] bytes in. *)
Lemma malloc_user_first s r i0 f (Q : Z -> pmem -> Prop) (st := vaddr_start (user_vaddr s)) :
  user_ready s i0 f -> unmapped s (st + PG_SIZE) ->
  bit_used (uvbits s) r = false -> (forall i, 0 <= i < r -> bit_used (uvbits s) i = true) -> 0 <= r ->
  (forall s' vb ub k, mapped (page_tab s') (st + PG_SIZE) -> user_vaddr s' = VAddr vb st ->
     bits_upd (uvbits s) vb (fun i => i =? r) true -> bits_upd (ubits s) ub (fun i => i =? k) true ->
     user_pool s' = set_pool_bitmap ub (user_pool s) -> Q (st + r + PG_SIZE) s') ->
  wp (malloc_page PF_USER 1) Q s.
Proof.
  intros [Hvb Hp (Hs0 & Hsm & Hs1) (Hi & Hi1 & Hif) (Hf & Hff)] Hun Hr Hrf Hr0 HQ. unfold malloc_page.
  rewrite wp_bind. apply wp_ASSERT. split; [done|]. rewrite wp_bind.
  apply (vaddr_get_user_run s i0); [done|done|done|done|done|done|]. intros r' vb Hr' Hr'f Hr'm Hvb'. fold st.
  assert (r' = r) as ->.
  { destruct (Z.lt_trichotomy r r') as [H|[H|H]]; [|done|].
    - by rewrite Hr'm in Hr by lia.
    - by rewrite Hrf in Hr'f by lia. }
  fold st in Hs0, Hsm, Hs1. unfold PG_SIZE in Hs1, Hi1, Hsm.
  rewrite (proj2 (Z.eqb_neq _ NULL)) by (unfold NULL, PG_SIZE; lia).
  cbn [loop Z.to_nat]. rewrite wp_bind. cbn [Z.ltb Z.compare]. rewrite wp_bind.
  apply (palloc_user_run _ f); [done|done|done|]. intros k b Hb Hk Hkm.
  rewrite (proj2 (Z.eqb_neq _ NULL)) by (unfold NULL; lia). rewrite wp_bind.
  apply page_table_add_maps; [unfold PG_SIZE; lia|lia|done| |].
  { apply (unmapped_same_page _ (st + PG_SIZE)); [unfold PG_SIZE; lia..|unfold PG_SIZE; dlia|exact Hun]. }
  intros s' Hm Hup Huv. wp_simp. cbn. wp_simp. apply (HQ s' vb b k); try done.
  apply (mapped_same_page _ (st + r + PG_SIZE)); [unfold PG_SIZE; lia..|unfold PG_SIZE; dlia|exact Hm].
Qed.

(** A second page of the same process: the entry is there already. *)
Lemma malloc_user_again s i0 f :
  user_ready s i0 f -> mapped (page_tab s) (vaddr_start (user_vaddr s) + PG_SIZE) ->
  malloc_page PF_USER 1 s = Panic.
Proof.
  intros [Hvb Hp (Hs0 & Hsm & Hs1) (Hi & Hi1 & Hif) (Hf & Hff)] Hm. set (st := vaddr_start (user_vaddr s)) in *.
  assert (H1 : wp (vaddr_get PF_USER 1) (fun v s1 => exists r vb, 0 <= r <= i0 /\ v = st + r + PG_SIZE /\
    s1 = with_vaddr PF_USER vb s) s).
  { apply (vaddr_get_user_run s i0); try done. intros r vb Hr _ _ _. by exists r, vb. }
  apply wp_Ok in H1 as (v & s1 & Hv & r & vb & Hr & -> & ->).
  assert (H2 : wp (palloc PF_USER) (fun f' s2 => f' <> NULL /\ page_tab s2 = page_tab s) (with_vaddr PF_USER vb s)).
  { apply (palloc_user_run _ f); [done|done|done|]. intros k b _ Hk _. split; [unfold NULL; lia|done]. }
  apply wp_Ok in H2 as (f' & s2 & Hpa & Hn & Ht). unfold malloc_page.
  rewrite (bind_Ok _ _ _ _ _ eq_refl), (bind_Ok _ _ _ _ _ Hv).
  unfold PG_SIZE in Hs1, Hi1, Hsm. rewrite (proj2 (Z.eqb_neq _ NULL)) by (unfold NULL, PG_SIZE; lia).
  cbn [loop Z.to_nat]. apply bind_Panic. cbn [Z.ltb Z.compare]. rewrite (bind_Ok _ _ _ _ _ Hpa).
  rewrite (proj2 (Z.eqb_neq _ NULL)) by done. apply bind_Panic.
  apply (mapped_same_page _ _ (st + r + PG_SIZE)) in Hm;
    [|unfold PG_SIZE; lia..|unfold PG_SIZE; dlia].
  destruct Hm as (d & e & Hd & Pd & He & Pe). apply (page_table_add_repeat _ _ d e); rewrite ?Ht; done.
Qed.

(** [C39] The user branch of vaddr_get adds the size of a page to the bit number
    where it should multiply. For every process with a page-aligned range, two
    free bits [r < r2] among the first 4096 of its bitmap and two free frames,
    and with nothing mapped at its second page, malloc_page gives as its first
    page the address [PG_SIZE + r] in the range, which is not the address of page
    [r]; then the second request panics, since its address has the same
    page-table entry, although a bit and a frame are free. *)
Theorem user_malloc_second_panics s r r2 f f2 (st := vaddr_start (user_vaddr s)) :
  user_ready s r f -> user_ready s r2 f2 -> r < r2 -> f <> f2 ->
  (forall i, 0 <= i < r -> bit_used (uvbits s) i = true) -> unmapped s (st + PG_SIZE) ->
  exists s1, malloc_page PF_USER 1 s = Ok (st + r + PG_SIZE, s1) /\
    st + r + PG_SIZE <> st + r * PG_SIZE /\
    bit_used (uvbits s1) r2 = false /\ (exists f', 0 <= f' < ulen s1 /\ bit_used (ubits s1) f' = false) /\
    malloc_page PF_USER 1 s1 = Panic.
Proof.
  intros H1 H2 Hr Hf Hfirst Hun. pose proof H1 as [_ _ _ (Hi & _ & Hif) (Hfr & Hff)].
  pose proof H2 as [Hvb Hp Hs (Hj & Hj1 & Hjf) (Hgr & Hgf)].
  assert (H : wp (malloc_page PF_USER 1) (fun v s1 => v = st + r + PG_SIZE /\
    bit_used (uvbits s1) r2 = false /\ exists f', user_ready s1 r2 f' /\ mapped (page_tab s1) (vaddr_start (user_vaddr s1) + PG_SIZE)) s).
  { apply (malloc_user_first s r r f); [done..|lia|]. fold st. intros s' vb ub k Hm Huv Hb Hub Hup. split; [done|].
    assert (Hbit : bit_used (uvbits s') r2 = false).
    { unfold uvbits. rewrite Huv. cbn. rewrite (bu_bits _ _ _ _ Hb), (proj2 (Z.eqb_neq r2 r)) by lia. exact Hjf. }
    split; [done|]. exists (if k =? f then f2 else f). rewrite Huv. cbn [vaddr_start]. split; [|done].
    assert (Hul : ulen s' = ulen s) by (unfold ulen, ubits; rewrite Hup; cbn; by rewrite (bu_len _ _ _ _ Hub)).
    split.
    - unfold uvbits. rewrite Huv. apply Hb.
    - unfold ubits. rewrite Hup. cbn. destruct Hp as [W A S E]. split; [apply Hub|done|done|].
      by rewrite (bu_len _ _ _ _ Hub).
    - by rewrite Huv.
    - unfold uvbits in Hbit |- *. rewrite Huv in Hbit |- *. cbn in *. rewrite (bu_len _ _ _ _ Hb). done.
    - unfold ubits in *. rewrite Hul, Hup. cbn.
      destruct (Z.eqb_spec k f) as [->|Hk]; (split; [done|]); rewrite (bu_bits _ _ _ _ Hub) by lia;
        rewrite (proj2 (Z.eqb_neq _ _)) by congruence; done. }
  wp_ok H. destruct H0 as (-> & Hb & f' & Hrd & Hm). eexists. split; [exact H|].
  split; [unfold PG_SIZE; lia|]. split; [done|]. split; [exists f'; apply Hrd|]. by eapply malloc_user_again.
Qed.

(** Eight user pages, all in one page table, the first of them taken. *)
Definition demo_user : pmem :=
  PMem (Pool (Bitmap 1 [0; 0]) MEM_BITMAP_BASE 0x200000 0x8000 0)
    (Pool (Bitmap 1 [0; 0]) (MEM_BITMAP_BASE + 1) 0x208000 0x8000 0)
    (VAddr (Bitmap 1 [0; 0]) 0xc0100000) (VAddr (Bitmap 1 [1; 0]) 0x8048000) 0xc0300000
    (<[pde_ptr 0x8048000 := 0x102007]>
      (list_to_map ((fun i => (pte_ptr (0x8048000 + i * PG_SIZE), 0)) <$> [0; 1; 2; 3; 4; 5; 6; 7])))
    ∅.

Lemma demo_user_ready i f : (i, f) ∈ [(1, 0); (2, 1)] -> user_ready demo_user i f.
Proof.
  intros Hin. assert ((i, f) = (1, 0) \/ (i, f) = (2, 1)) as [[= -> ->]|[= -> ->]] by set_solver;
    (split; [split; cbn; [lia|lia|repeat constructor; lia]|
       split; [split; cbn; [lia|lia|repeat constructor; lia]|reflexivity|cbn; lia|cbn; unfold PG_SIZE; lia]|
       cbn; unfold PG_SIZE; repeat split; lia|cbn; unfold PG_SIZE; repeat split; lia|cbn; repeat split; lia]).
Qed.

Lemma user_malloc_second_panics_witness :
  exists s1, malloc_page PF_USER 1 demo_user = Ok (0x8049001, s1) /\
    0x8048000 + 1 + PG_SIZE <> 0x8048000 + 1 * PG_SIZE /\
    bit_used (uvbits s1) 2 = false /\ (exists f', 0 <= f' < ulen s1 /\ bit_used (ubits s1) f' = false) /\
    malloc_page PF_USER 1 s1 = Panic.
Proof.
  apply (user_malloc_second_panics demo_user 1 2 0 1); [apply demo_user_ready; set_solver..|lia|lia| |].
  - intros i Hi. by replace i with 0 by lia.
  - exists 0x102007. split; [by vm_compute|]. exists 0. split; by vm_compute.
Defined.
