(* ===== verification/FsTypes.v ===== *)
(** * The data of the file system (fs/inode.h, dir.h, super_block.h, fs.h, file.h, device/ide.h)

    The structures the file system keeps in memory and on disk, with the byte
    layout gcc gives them on i386: [enc_*] is what a memcpy from a structure to
    a sector buffer copies, [dec_*] what a memcpy back finds. The disk is a map
    from sector numbers to 512 bytes; a buffer is its list of bytes. The
    outcome of sys_malloc is an input: [heap] holds the addresses that the next
    calls return, NULL among them; the memory it returns is zeroed. *)

From Stdlib Require Import ZArith Lia.
From stdpp Require Import base numbers list gmap option.
From S2P Require Import Prelude Bitmap Intr DList.

Local Open Scope Z_scope.

Definition MAX_FILES_PER_PART : Z := 4096.
Definition BITS_PER_SECTOR : Z := 4096.
Definition SECTOR_SIZE : Z := 512.
Definition BLOCK_SIZE : Z := SECTOR_SIZE.
Definition MAX_FILE_NAME_LEN : Z := 16.
Definition MAX_FILE_OPEN : Z := 32.
Definition MAX_FILES_OPEN_PER_PROC : Z := 8.

(** enum file_types, oflags, whence, std_fd, bitmap_type *)
Definition FT_UNKNOWN : Z := 0.
Definition FT_REGULAR : Z := 1.
Definition FT_DIRECTORY : Z := 2.
Definition O_RDONLY : Z := 0.
Definition O_WRONLY : Z := 1.
Definition O_RDWR : Z := 2.
Definition O_CREAT : Z := 4.
Definition SEEK_SET : Z := 1.
Definition SEEK_CUR : Z := 2.
Definition SEEK_END : Z := 3.
Definition stdin_no : Z := 0.
Definition stdout_no : Z := 1.
Definition stderr_no : Z := 2.
Inductive bitmap_type := INODE_BITMAP | BLOCK_BITMAP.

(** struct inode; [inode_tag] is the position in the list of open inodes. *)
Record inode := Inode {
  i_no : Z;
  i_size : Z;
  i_open_cnts : Z;
  write_deny : Z;
  i_sectors : list Z
}.

(** struct dir_entry *)
Record dir_entry := DirEntry { filename : list Z; de_i_no : Z; f_type : Z }.

(** struct super_block, without its padding *)
Record super_block := Super {
  magic : Z;
  sb_sec_cnt : Z;
  inode_cnt : Z;
  part_lba_base : Z;
  block_bitmap_lba : Z;
  block_bitmap_sects : Z;
  inode_bitmap_lba : Z;
  inode_bitmap_sects : Z;
  inode_table_lba : Z;
  inode_table_sects : Z;
  data_start_lba : Z;
  root_inode_no : Z;
  dir_entry_size : Z
}.

(** struct partition, without its name and disk *)
Record partition := Part {
  start_lba : Z;
  sec_cnt : Z;
  sb : super_block;
  block_bitmap : bitmap;
  inode_bitmap : bitmap;
  open_inodes : list Z        (* addresses of inodes, head first *)
}.

(** struct file *)
Record file := File { fd_pos : Z; fd_flag : Z; fd_inode : Z }.

#[export] Instance inode_eq_dec : EqDecision inode.
Proof. solve_decision. Defined.
#[export] Instance dir_entry_eq_dec : EqDecision dir_entry.
Proof. solve_decision. Defined.
#[export] Instance file_eq_dec : EqDecision file.
Proof. solve_decision. Defined.

(** ** Layout *)

(** A uint32_t in memory, least significant byte first, and back. *)
Definition le32 (v : Z) : list Z :=
  [v mod 256; v / 2 ^ 8 mod 256; v / 2 ^ 16 mod 256; v / 2 ^ 24 mod 256].
Definition of_le32 (l : list Z) : Z :=
  match l with
  | [a; b; c; d] => a + b * 2 ^ 8 + c * 2 ^ 16 + d * 2 ^ 24
  | _ => 0
  end.
(** The uint32_t at offset [off] of a buffer. *)
Definition rd32 (l : list Z) (off : nat) : Z := of_le32 (take 4 (drop off l)).
(** An array of [n] of them. *)
Fixpoint rd32s (l : list Z) (off n : nat) : list Z :=
  match n with O => [] | S n' => rd32 l off :: rd32s l (off + 4) n' end.

(** The bytes of an array of uint32_t. *)
Fixpoint words (l : list Z) : list Z :=
  match l with [] => [] | w :: l' => le32 w ++ words l' end.

Definition sizeof_inode : Z := 76.
Definition enc_inode (i : inode) : list Z :=
  le32 (i_no i) ++ le32 (i_size i) ++ le32 (i_open_cnts i) ++ le32 (write_deny i) ++
  words (i_sectors i) ++ replicate 8 0.
Definition dec_inode (l : list Z) : inode :=
  Inode (rd32 l 0) (rd32 l 4) (rd32 l 8) (rd32 l 12) (rd32s l 16 13).

Definition sizeof_dir_entry : Z := 24.
Definition enc_dir_entry (e : dir_entry) : list Z :=
  filename e ++ le32 (de_i_no e) ++ le32 (f_type e).
Definition dec_dir_entry (l : list Z) : dir_entry :=
  DirEntry (take 16 l) (rd32 l 16) (rd32 l 20).

(** The structure and its padding, which holds [pad]. *)
Definition enc_super (s : super_block) (pad : list Z) : list Z :=
  le32 (magic s) ++ le32 (sb_sec_cnt s) ++ le32 (inode_cnt s) ++ le32 (part_lba_base s) ++
  le32 (block_bitmap_lba s) ++ le32 (block_bitmap_sects s) ++ le32 (inode_bitmap_lba s) ++
  le32 (inode_bitmap_sects s) ++ le32 (inode_table_lba s) ++ le32 (inode_table_sects s) ++
  le32 (data_start_lba s) ++ le32 (root_inode_no s) ++ le32 (dir_entry_size s) ++ pad.
Definition dec_super (l : list Z) : super_block :=
  Super (rd32 l 0) (rd32 l 4) (rd32 l 8) (rd32 l 12) (rd32 l 16) (rd32 l 20) (rd32 l 24)
    (rd32 l 28) (rd32 l 32) (rd32 l 36) (rd32 l 40) (rd32 l 44) (rd32 l 48).

(** ** The state *)

(** struct dir, without dir_buf. *)
Record dir := Dir { dir_inode : Z; dir_pos : Z }.

(** &root_dir: a static object, at an address sys_malloc never returns. *)
Definition root_dir : Z := -1.

Record fsys := Fsys {
  disk : gmap Z (list Z);          (* sectors *)
  cur_part : partition;
  inodes : gmap Z inode;           (* inodes in memory, by address *)
  dirs : gmap Z dir;               (* open directories, by address *)
  file_table : list file;
  fd_table : list Z;               (* of the running thread *)
  cwd_inode_nr : Z;                (* of the running thread *)
  processor : cpu;
  heap : list Z                    (* what sys_malloc will return *)
}.

Definition set_disk (v : gmap Z (list Z)) (s : fsys) : fsys :=
  Fsys v (cur_part s) (inodes s) (dirs s) (file_table s) (fd_table s) (cwd_inode_nr s) (processor s) (heap s).
Definition set_part (v : partition) (s : fsys) : fsys :=
  Fsys (disk s) v (inodes s) (dirs s) (file_table s) (fd_table s) (cwd_inode_nr s) (processor s) (heap s).
Definition set_inodes (v : gmap Z inode) (s : fsys) : fsys :=
  Fsys (disk s) (cur_part s) v (dirs s) (file_table s) (fd_table s) (cwd_inode_nr s) (processor s) (heap s).
Definition set_dirs (v : gmap Z dir) (s : fsys) : fsys :=
  Fsys (disk s) (cur_part s) (inodes s) v (file_table s) (fd_table s) (cwd_inode_nr s) (processor s) (heap s).
Definition set_file_table (v : list file) (s : fsys) : fsys :=
  Fsys (disk s) (cur_part s) (inodes s) (dirs s) v (fd_table s) (cwd_inode_nr s) (processor s) (heap s).
Definition set_fd_table (v : list Z) (s : fsys) : fsys :=
  Fsys (disk s) (cur_part s) (inodes s) (dirs s) (file_table s) v (cwd_inode_nr s) (processor s) (heap s).
Definition set_cwd (v : Z) (s : fsys) : fsys :=
  Fsys (disk s) (cur_part s) (inodes s) (dirs s) (file_table s) (fd_table s) v (processor s) (heap s).
Definition set_processor (v : cpu) (s : fsys) : fsys :=
  Fsys (disk s) (cur_part s) (inodes s) (dirs s) (file_table s) (fd_table s) (cwd_inode_nr s) v (heap s).
Definition set_heap (v : list Z) (s : fsys) : fsys :=
  Fsys (disk s) (cur_part s) (inodes s) (dirs s) (file_table s) (fd_table s) (cwd_inode_nr s) (processor s) v.

Definition set_block_bitmap (b : bitmap) (p : partition) : partition :=
  Part (start_lba p) (sec_cnt p) (sb p) b (inode_bitmap p) (open_inodes p).
Definition set_inode_bitmap (b : bitmap) (p : partition) : partition :=
  Part (start_lba p) (sec_cnt p) (sb p) (block_bitmap p) b (open_inodes p).
Definition set_open_inodes (l : list Z) (p : partition) : partition :=
  Part (start_lba p) (sec_cnt p) (sb p) (block_bitmap p) (inode_bitmap p) l.

(** sys_malloc: an address, or NULL. *)
Definition sys_malloc : M fsys Z :=
  do s <- get;
  match heap s with
  | [] => ret NULL
  | a :: h => put (set_heap h s) ;; ret a
  end.

(** ide_read and ide_write of [n] sectors. A buffer that is too short is read
    past its end. *)
Fixpoint read_sectors (d : gmap Z (list Z)) (lba : Z) (n : nat) : option (list Z) :=
  match n with
  | O => Some []
  | S n' =>
      match d !! lba, read_sectors d (lba + 1) n' with
      | Some b, Some r => Some (b ++ r)
      | _, _ => None
      end
  end.

Fixpoint write_sectors (d : gmap Z (list Z)) (lba : Z) (buf : list Z) (n : nat) :
    option (gmap Z (list Z)) :=
  match n with
  | O => Some d
  | S n' =>
      match d !! lba with
      | Some _ =>
          if (512 <=? length buf)%nat
          then write_sectors (<[lba := take 512 buf]> d) (lba + 1) (drop 512 buf) n'
          else None
      | None => None
      end
  end.

Definition max_lba : Z := 163839.    (* (80*1024*1024/512) - 1 *)

Definition ide_read (lba : Z) (n : nat) : M fsys (list Z) :=
  ASSERT (lba <=? max_lba) ;;
  ASSERT (0 <? n)%nat ;;
  do s <- get;
  of_option (read_sectors (disk s) lba n).
Definition ide_write (lba : Z) (buf : list Z) (n : nat) : M fsys unit :=
  ASSERT (lba <=? max_lba) ;;
  ASSERT (0 <? n)%nat ;;
  do s <- get;
  do d <- of_option (write_sectors (disk s) lba buf n);
  put (set_disk d s).

(** [memcpy(buf + off, src, length src)] within a buffer. *)
Definition splice (buf : list Z) (off : nat) (src : list Z) : list Z :=
  take off buf ++ src ++ drop (off + length src) buf.

(** *p of an open inode, and the assignment. *)
Definition ld_inode (p : Z) : M fsys inode := do s <- get; of_option (inodes s !! p).
Definition st_inode (p : Z) (i : inode) : M fsys unit :=
  do s <- get;
  of_option (inodes s !! p) ;;
  put (set_inodes (<[p := i]> (inodes s)) s).

Definition set_i_size (n : Z) (i : inode) : inode :=
  Inode (i_no i) n (i_open_cnts i) (write_deny i) (i_sectors i).
Definition set_i_open_cnts (n : Z) (i : inode) : inode :=
  Inode (i_no i) (i_size i) n (write_deny i) (i_sectors i).
Definition set_write_deny (n : Z) (i : inode) : inode :=
  Inode (i_no i) (i_size i) (i_open_cnts i) n (i_sectors i).
Definition set_i_sectors (l : list Z) (i : inode) : inode :=
  Inode (i_no i) (i_size i) (i_open_cnts i) (write_deny i) l.

(** The interrupt flag. *)
Definition on_cpu {A} (m : M cpu A) : M fsys A := zoom processor set_processor m.

(** Operations on the two bitmaps of the partition. *)
Definition on_block_bitmap {A} (m : M bitmap A) : M fsys A :=
  zoom (fun s => block_bitmap (cur_part s))
    (fun b s => set_part (set_block_bitmap b (cur_part s)) s) m.
Definition on_inode_bitmap {A} (m : M bitmap A) : M fsys A :=
  zoom (fun s => inode_bitmap (cur_part s))
    (fun b s => set_part (set_inode_bitmap b (cur_part s)) s) m.

(** ** Lemmas on the layout *)

Definition is_u32 (v : Z) : Prop := 0 <= v < 2 ^ 32.

Lemma le32_length v : length (le32 v) = 4%nat.
Proof. reflexivity. Qed.

Lemma of_le32_le32 v : is_u32 v -> of_le32 (le32 v) = v.
Proof. unfold is_u32, of_le32, le32. intros. dlia. Qed.

Lemma words_length ws : length (words ws) = (4 * length ws)%nat.
Proof. induction ws as [|w ws IH]; [done|]. cbn [words length]. rewrite length_app, le32_length, IH. lia. Qed.

Lemma words_app l1 l2 : words (l1 ++ l2) = words l1 ++ words l2.
Proof. induction l1 as [|w l1 IH]; [done|]. cbn [words app]. by rewrite IH, app_assoc. Qed.

(** The word at a word offset of an array, and a run of them. *)
Lemma rd32_word ws rest k w off :
  is_u32 w -> ws !! k = Some w -> off = (4 * k)%nat -> rd32 (words ws ++ rest) off = w.
Proof.
  intros Hw Hk ->. rewrite <- (take_drop_middle ws k w Hk).
  assert (Hlen : length (take k ws) = k).
  { rewrite length_take. apply lookup_lt_Some in Hk. lia. }
  rewrite words_app, <- app_assoc. unfold rd32.
  rewrite drop_app_length' by (rewrite words_length; lia).
  cbn [words]. rewrite <- app_assoc, take_app_length' by done.
  by apply of_le32_le32.
Qed.

Lemma rd32_words ws rest k w off :
  Forall is_u32 ws -> ws !! k = Some w -> off = (4 * k)%nat -> rd32 (words ws ++ rest) off = w.
Proof. intros Hall Hk. apply rd32_word; [by eapply Forall_lookup_1|done]. Qed.

Lemma rd32s_words ws rest k n off :
  Forall is_u32 ws -> (k + n <= length ws)%nat -> off = (4 * k)%nat ->
  rd32s (words ws ++ rest) off n = take n (drop k ws).
Proof.
  intros Hall. revert k off. induction n as [|n IH]; intros k off Hn ->; [done|].
  destruct (lookup_lt_is_Some_2 ws k) as [w Hw]; [lia|].
  cbn [rd32s]. rewrite (rd32_words _ _ k w) by done.
  rewrite (IH (S k)) by lia. rewrite (drop_S ws w k Hw). done.
Qed.

Lemma rd32s_lookup l off n k : (k < n)%nat -> rd32s l off n !! k = Some (rd32 l (off + 4 * k)).
Proof.
  revert off k. induction n as [|n IH]; intros off [|k] Hk; [lia|lia|cbn; by rewrite Nat.add_0_r|].
  cbn [rd32s]. cbn [lookup list_lookup]. change (rd32s l (off + 4) n !! k = Some (rd32 l (off + 4 * S k))). rewrite IH by lia. do 2 f_equal. lia.
Qed.

Lemma rd32s_length l off n : length (rd32s l off n) = n.
Proof. revert off. induction n as [|n IH]; intros off; [done|]. cbn. by rewrite IH. Qed.

(** The fields fit their types. *)
Record inode_wf (i : inode) : Prop := {
  iw_no : is_u32 (i_no i);
  iw_size : is_u32 (i_size i);
  iw_cnt : is_u32 (i_open_cnts i);
  iw_deny : is_u32 (write_deny i);
  iw_len : length (i_sectors i) = 13%nat;
  iw_secs : Forall is_u32 (i_sectors i)
}.

Record dir_entry_wf (e : dir_entry) : Prop := {
  dw_name : length (filename e) = 16%nat;
  dw_no : is_u32 (de_i_no e);
  dw_type : is_u32 (f_type e)
}.

Definition super_words (s : super_block) : list Z :=
  [magic s; sb_sec_cnt s; inode_cnt s; part_lba_base s; block_bitmap_lba s; block_bitmap_sects s;
   inode_bitmap_lba s; inode_bitmap_sects s; inode_table_lba s; inode_table_sects s;
   data_start_lba s; root_inode_no s; dir_entry_size s].

Lemma enc_inode_words i :
  enc_inode i = words ([i_no i; i_size i; i_open_cnts i; write_deny i] ++ i_sectors i) ++ replicate 8 0.
Proof. unfold enc_inode. rewrite words_app. cbn [words]. by rewrite <- !app_assoc. Qed.

Lemma enc_inode_length i : length (i_sectors i) = 13%nat -> length (enc_inode i) = 76%nat.
Proof. intros H. unfold enc_inode. rewrite !length_app, words_length, H. reflexivity. Qed.

Lemma enc_dir_entry_length e : length (filename e) = 16%nat -> length (enc_dir_entry e) = 24%nat.
Proof. intros H. unfold enc_dir_entry. by rewrite !length_app, H. Qed.

Lemma dec_enc_inode i rest : inode_wf i -> dec_inode (enc_inode i ++ rest) = i.
Proof.
  intros [H1 H2 H3 H4 Hl H5]. rewrite enc_inode_words, <- app_assoc. unfold dec_inode.
  set (hd := [i_no i; i_size i; i_open_cnts i; write_deny i]).
  assert (Hall : Forall is_u32 (hd ++ i_sectors i)) by (apply list.Forall_app; split; [unfold hd; repeat (constructor; [done|]); constructor|done]).
  rewrite (rd32_words _ _ 0 (i_no i)) by done.
  rewrite (rd32_words _ _ 1 (i_size i)) by done.
  rewrite (rd32_words _ _ 2 (i_open_cnts i)) by done.
  rewrite (rd32_words _ _ 3 (write_deny i)) by done.
  assert (Hlen : length (hd ++ i_sectors i) = 17%nat) by (rewrite length_app, Hl; done).
  rewrite (rd32s_words (hd ++ i_sectors i) _ 4 13) by (done || (rewrite Hlen; lia)).
  rewrite (drop_app_length' hd) by done. rewrite take_ge by lia. by destruct i.
Qed.

Lemma dec_enc_dir_entry e rest : dir_entry_wf e -> dec_dir_entry (enc_dir_entry e ++ rest) = e.
Proof.
  intros [H1 H2 H3]. unfold dec_dir_entry, enc_dir_entry.
  replace ((filename e ++ le32 (de_i_no e) ++ le32 (f_type e)) ++ rest)
    with (filename e ++ words [de_i_no e; f_type e] ++ rest) by (cbn [words]; by rewrite <- !app_assoc).
  rewrite take_app_length' by done.
  assert (Hs : forall k, rd32 (filename e ++ words [de_i_no e; f_type e] ++ rest) (16 + k)
    = rd32 (words [de_i_no e; f_type e] ++ rest) k).
  { intros k. unfold rd32. rewrite drop_app_ge, H1 by (rewrite H1; lia). by replace (16 + k - 16)%nat with k by lia. }
  rewrite (Hs 0%nat : rd32 _ 16 = _), (Hs 4%nat : rd32 _ 20 = _).
  rewrite (rd32_words _ _ 0 (de_i_no e)) by (try done; repeat (constructor; [done|]); constructor).
  rewrite (rd32_words _ _ 1 (f_type e)) by (try done; repeat (constructor; [done|]); constructor).
  by destruct e.
Qed.

Lemma dec_enc_super s pad : Forall is_u32 (super_words s) -> dec_super (enc_super s pad) = s.
Proof.
  intros Hall. unfold dec_super. replace (enc_super s pad) with (words (super_words s) ++ pad)
    by (unfold enc_super, super_words; cbn [words]; by rewrite <- !app_assoc).
  rewrite (rd32_words _ _ 0 (magic s)), (rd32_words _ _ 1 (sb_sec_cnt s)),
    (rd32_words _ _ 2 (inode_cnt s)), (rd32_words _ _ 3 (part_lba_base s)),
    (rd32_words _ _ 4 (block_bitmap_lba s)), (rd32_words _ _ 5 (block_bitmap_sects s)),
    (rd32_words _ _ 6 (inode_bitmap_lba s)), (rd32_words _ _ 7 (inode_bitmap_sects s)),
    (rd32_words _ _ 8 (inode_table_lba s)), (rd32_words _ _ 9 (inode_table_sects s)),
    (rd32_words _ _ 10 (data_start_lba s)), (rd32_words _ _ 11 (root_inode_no s)),
    (rd32_words _ _ 12 (dir_entry_size s)) by done.
  by destruct s.
Qed.

(** ** Sectors of the disk *)

(** Every sector is 512 bytes. *)
Definition disk_wf (d : gmap Z (list Z)) : Prop := map_Forall (fun _ b => length b = 512%nat) d.

Lemma read_sectors_length d lba n l :
  disk_wf d -> read_sectors d lba n = Some l -> length l = (512 * n)%nat.
Proof.
  intros Hd. revert lba l. induction n as [|n IH]; intros lba l H; cbn in H; [by simplify_eq|].
  destruct (d !! lba) as [b|] eqn:Hb; [|done].
  destruct (read_sectors d (lba + 1) n) as [r|] eqn:Hr; [|done]. simplify_eq.
  rewrite length_app, (IH _ _ Hr), (Hd _ _ Hb). lia.
Qed.

Lemma read_sectors_app d lba n m :
  read_sectors d lba (n + m) =
  match read_sectors d lba n, read_sectors d (lba + Z.of_nat n) m with
  | Some a, Some b => Some (a ++ b)
  | _, _ => None
  end.
Proof.
  revert lba. induction n as [|n IH]; intros lba; cbn [plus read_sectors].
  { rewrite Z.add_0_r. by destruct (read_sectors d lba m). }
  destruct (d !! lba) as [b|]; [|done]. rewrite IH.
  replace (lba + 1 + Z.of_nat n) with (lba + Z.of_nat (S n)) by lia.
  destruct (read_sectors d (lba + 1) n) as [a|]; [|done].
  destruct (read_sectors d (lba + Z.of_nat (S n)) m); [|done]. by rewrite app_assoc.
Qed.

Lemma read_sectors_ext d d' lba n :
  (forall k, lba <= k < lba + Z.of_nat n -> d' !! k = d !! k) ->
  read_sectors d' lba n = read_sectors d lba n.
Proof.
  revert lba. induction n as [|n IH]; intros lba H; cbn; [done|].
  rewrite (H lba) by lia. rewrite IH by (intros; apply H; lia). done.
Qed.

(** Writing whole sectors: they read back, the others are as they were. *)
Lemma write_sectors_spec d lba n old X :
  disk_wf d -> read_sectors d lba n = Some old -> length X = (512 * n)%nat ->
  exists d', write_sectors d lba X n = Some d' /\ read_sectors d' lba n = Some X /\ disk_wf d' /\
    (forall k, ~ (lba <= k < lba + Z.of_nat n) -> d' !! k = d !! k).
Proof.
  intros Hd. revert d lba old X Hd. induction n as [|n IH]; intros d lba old X Hd Hr HX; cbn [read_sectors write_sectors] in *.
  { exists d. destruct X; [done|]. cbn in HX. lia. }
  destruct (d !! lba) as [b|] eqn:Hb; [|done].
  destruct (read_sectors d (lba + 1) n) as [r|] eqn:Hrr; [|done].
  replace (512 <=? length X)%nat with true by (symmetry; apply Nat.leb_le; lia).
  assert (Hd1 : disk_wf (<[lba := take 512 X]> d)).
  { apply map_Forall_insert_2; [rewrite length_take; lia|done]. }
  destruct (IH (<[lba := take 512 X]> d) (lba + 1) r (drop 512 X) Hd1) as (d' & Hw & Hrd & Hd' & Hfr).
  { rewrite (read_sectors_ext d); [done|]. intros k Hk. apply lookup_insert_ne. lia. }
  { rewrite length_drop. lia. }
  exists d'. split; [done|]. split; [|split; [done|]].
  - rewrite (Hfr lba) by lia. rewrite lookup_insert_eq, Hrd. by rewrite take_drop.
  - intros k Hk. rewrite Hfr by lia. apply lookup_insert_ne. lia.
Qed.

Lemma splice_length buf off src :
  (off + length src <= length buf)%nat -> length (splice buf off src) = length buf.
Proof. intros H. unfold splice. rewrite !length_app, length_take, length_drop. lia. Qed.

Lemma splice_middle A B C off src :
  (off + length src <= length B)%nat ->
  splice (A ++ B ++ C) (length A + off) src = A ++ splice B off src ++ C.
Proof.
  intros H. unfold splice. rewrite take_app_add, take_app_le by lia.
  rewrite <- Nat.add_assoc, drop_app_add, drop_app_le by lia. by rewrite <- !app_assoc.
Qed.

(** Read-modify-write of [k] sectors at sector [o] of a region of [n], as the
    code does it, is a splice of the region's bytes. *)
Lemma splice_sectors d base n o k off src T :
  disk_wf d -> read_sectors d base n = Some T -> (o + k <= n)%nat ->
  (off + length src <= 512 * k)%nat ->
  exists B d', read_sectors d (base + Z.of_nat o) k = Some B /\ length B = (512 * k)%nat /\
    write_sectors d (base + Z.of_nat o) (splice B off src) k = Some d' /\ disk_wf d' /\
    read_sectors d' base n = Some (splice T (512 * o + off) src) /\
    (forall j, ~ (base + Z.of_nat o <= j < base + Z.of_nat (o + k)) -> d' !! j = d !! j).
Proof.
  intros Hd HT Hok Hoff. replace n with (o + (k + (n - o - k)))%nat in HT by lia.
  rewrite !read_sectors_app in HT.
  destruct (read_sectors d base o) as [A|] eqn:HA; [|done].
  destruct (read_sectors d (base + Z.of_nat o) k) as [B|] eqn:HB; [|done].
  destruct (read_sectors d (base + Z.of_nat o + Z.of_nat k) (n - o - k)) as [C|] eqn:HC; [|done].
  simplify_eq. pose proof (read_sectors_length _ _ _ _ Hd HA) as HlA.
  pose proof (read_sectors_length _ _ _ _ Hd HB) as HlB.
  destruct (write_sectors_spec d _ k B (splice B off src) Hd HB) as (d' & Hw & Hr & Hd' & Hfr).
  { rewrite splice_length; lia. }
  exists B, d'. split; [done|]. split; [done|]. split; [done|]. split; [done|]. split; [|intros j Hj; apply Hfr; lia].
  replace n with (o + (k + (n - o - k)))%nat by lia. rewrite !read_sectors_app, Hr.
  rewrite !(read_sectors_ext d d') by (intros; apply Hfr; lia). rewrite HA, HC.
  rewrite <- HlA, splice_middle by lia. done.
Qed.

(** Slices of a spliced buffer. *)
Lemma splice_slice_eq buf off src rest :
  (off + length src <= length buf)%nat -> rest = drop (off + length src) buf ->
  drop off (splice buf off src) = src ++ rest.
Proof.
  intros H ->. unfold splice. rewrite drop_app_ge by (rewrite length_take; lia).
  rewrite length_take, drop_app_le by lia. replace (off - off `min` length buf)%nat with 0%nat by lia.
  by rewrite drop_0.
Qed.

Lemma splice_slice_ne buf off src j n :
  (off + length src <= length buf)%nat -> (j + n <= off \/ off + length src <= j)%nat ->
  take n (drop j (splice buf off src)) = take n (drop j buf).
Proof.
  intros H Hj. unfold splice. destruct Hj as [Hj|Hj].
  - rewrite drop_app_le by (rewrite length_take; lia).
    rewrite take_app_le by (rewrite length_drop, length_take; lia).
    rewrite !take_drop_commute, take_take. by replace ((j + n) `min` off)%nat with (j + n)%nat by lia.
  - rewrite (drop_app_ge (take off buf)) by (rewrite length_take; lia).
    rewrite drop_app_ge by (rewrite length_take; lia). rewrite drop_drop, length_take.
    do 2 f_equal. lia.
Qed.

(** ** The component's property *)

(** The three on-disk structures survive the trip through a sector
    buffer: a structure whose fields fit their types is read back as it was
    written, an inode takes 76 bytes and a directory entry 24. *)
Theorem layout_roundtrip i e s rest :
  inode_wf i -> dir_entry_wf e -> Forall is_u32 (super_words s) ->
  dec_inode (enc_inode i ++ rest) = i /\ dec_dir_entry (enc_dir_entry e ++ rest) = e /\
  dec_super (enc_super s rest) = s /\
  Z.of_nat (length (enc_inode i)) = sizeof_inode /\
  Z.of_nat (length (enc_dir_entry e)) = sizeof_dir_entry.
Proof.
  intros Hi He Hs. rewrite dec_enc_inode, dec_enc_dir_entry, dec_enc_super by done.
  by rewrite (enc_inode_length i (iw_len i Hi)), (enc_dir_entry_length e (dw_name e He)).
Qed.

Definition demo_inode : inode := Inode 6 1300 0 0 ([614; 615; 617] ++ replicate 10 0).
Definition demo_entry : dir_entry := DirEntry ([102; 105; 108; 101; 49] ++ replicate 11 0) 6 FT_REGULAR.
Definition demo_super : super_block :=
  Super 0x19590318 20000 4096 2048 2050 5 2055 1 2056 608 2664 0 24.

Lemma demo_inode_wf : inode_wf demo_inode.
Proof.
  split; cbn; try (unfold is_u32; lia).
  repeat (apply Forall_cons_2; [unfold is_u32; lia|]). constructor.
Qed.

Lemma demo_entry_wf : dir_entry_wf demo_entry.
Proof. split; cbn; unfold is_u32, FT_REGULAR; lia. Qed.

Lemma demo_super_wf : Forall is_u32 (super_words demo_super).
Proof.
  unfold super_words, demo_super. cbn [magic sb_sec_cnt inode_cnt part_lba_base block_bitmap_lba
    block_bitmap_sects inode_bitmap_lba inode_bitmap_sects inode_table_lba inode_table_sects
    data_start_lba root_inode_no dir_entry_size].
  repeat (apply Forall_cons_2; [unfold is_u32; lia|]). constructor.
Qed.

Lemma layout_roundtrip_witness :
  dec_inode (enc_inode demo_inode ++ [7]) = demo_inode /\
  dec_dir_entry (enc_dir_entry demo_entry ++ [7]) = demo_entry /\
  dec_super (enc_super demo_super [7]) = demo_super /\
  Z.of_nat (length (enc_inode demo_inode)) = sizeof_inode /\
  Z.of_nat (length (enc_dir_entry demo_entry)) = sizeof_dir_entry.
Proof. exact (layout_roundtrip _ _ _ [7] demo_inode_wf demo_entry_wf demo_super_wf). Defined.
