(* ===== verification/Blocks.v ===== *)
(** * Inode and block allocation (fs/file.c, first part)

    The two bitmaps of the mounted partition: allocation in memory, and the
    write of the changed 512 bytes to disk that follows each change. *)

From Stdlib Require Import ZArith Lia.
From stdpp Require Import base numbers list gmap option.
From S2P Require Import Prelude Bitmap Intr DList FsTypes.

Local Open Scope Z_scope.

(** inode_bitmap_alloc; the message it prints reads the first word of the map. *)
Definition inode_bitmap_alloc : M fsys Z :=
  do p <- gets cur_part;
  valid (4 <=? length (bits (inode_bitmap p)))%nat ;;
  do bit_idx <- on_inode_bitmap (bitmap_scan 1);
  if bit_idx =? -1 then ret (-1)
  else
    on_inode_bitmap (bitmap_set bit_idx 1) ;;
    ret bit_idx.

Definition block_bitmap_alloc : M fsys Z :=
  do bit_idx <- on_block_bitmap (bitmap_scan 1);
  if bit_idx =? -1 then ret (-1)
  else
    on_block_bitmap (bitmap_set bit_idx 1) ;;
    do p <- gets cur_part;
    ret (s32 (u32 (data_start_lba (sb p) + bit_idx))).

(** bitmap_sync: one sector of the map goes to disk. *)
Definition bitmap_sync (bit_idx : Z) (btmp : bitmap_type) : M fsys unit :=
  do p <- gets cur_part;
  let off_sec := bit_idx / 4096 in
  let off_size := u32 (off_sec * BLOCK_SIZE) in
  match btmp with
  | INODE_BITMAP =>
      let sec_lba := u32 (inode_bitmap_lba (sb p) + off_sec) in
      let bitmap_off := drop (Z.to_nat off_size) (bits (inode_bitmap p)) in
      ide_write sec_lba bitmap_off 1
  | BLOCK_BITMAP =>
      let sec_lba := u32 (block_bitmap_lba (sb p) + off_sec) in
      let bitmap_off := drop (Z.to_nat off_size) (bits (block_bitmap p)) in
      ide_write sec_lba bitmap_off 1
  end.

(** ** The map in memory and the map on disk *)

Definition bm (t : bitmap_type) (p : partition) : bitmap :=
  match t with INODE_BITMAP => inode_bitmap p | BLOCK_BITMAP => block_bitmap p end.
Definition bm_lba (t : bitmap_type) (p : partition) : Z :=
  match t with INODE_BITMAP => inode_bitmap_lba (sb p) | BLOCK_BITMAP => block_bitmap_lba (sb p) end.
Definition bm_sects (t : bitmap_type) (p : partition) : nat :=
  Z.to_nat (match t with INODE_BITMAP => inode_bitmap_sects (sb p) | BLOCK_BITMAP => block_bitmap_sects (sb p) end).

(** The map's sectors lie within the disk the driver serves, its memory holds
    them, and it covers every sector it occupies. *)
Record map_wf (t : bitmap_type) (p : partition) : Prop := {
  mw_bitmap : bitmap_wf (bm t p);
  mw_len : btmp_bytes_len (bm t p) = 512 * Z.of_nat (bm_sects t p);
  mw_lba : 0 <= bm_lba t p /\ bm_lba t p + Z.of_nat (bm_sects t p) <= max_lba
}.

(** What the disk holds of the map is what the memory holds. *)
Definition synced (t : bitmap_type) (p : partition) (d : gmap Z (list Z)) : Prop :=
  read_sectors d (bm_lba t p) (bm_sects t p) = Some (take (512 * bm_sects t p) (bits (bm t p))).

(** ** Lemmas *)

Lemma wp_on_block_bitmap {A} (m : M bitmap A) Q s :
  wp (on_block_bitmap m) Q s =
  wp m (fun a b => Q a (set_part (set_block_bitmap b (cur_part s)) s)) (block_bitmap (cur_part s)).
Proof. unfold on_block_bitmap. by rewrite wp_zoom. Qed.

Lemma wp_on_inode_bitmap {A} (m : M bitmap A) Q s :
  wp (on_inode_bitmap m) Q s =
  wp m (fun a b => Q a (set_part (set_inode_bitmap b (cur_part s)) s)) (inode_bitmap (cur_part s)).
Proof. unfold on_inode_bitmap. by rewrite wp_zoom. Qed.

(** Bytes bitmap_set does not touch. *)
Lemma bitmap_set_frame b i v b' k :
  bitmap_set i v b = Ok (tt, b') -> k <> Z.to_nat (i / 8) -> bits b' !! k = bits b !! k.
Proof.
  intros H Hk. assert (Hwp : wp (bitmap_set i v) (fun _ b1 => bits b1 !! k = bits b !! k) b); [|].
  2: { unfold wp in Hwp. by rewrite H in Hwp. }
  assert (Hw : wp (bitmap_set i v) (fun _ _ => True) b) by (unfold wp; by rewrite H).
  unfold bitmap_set, bits_get, bits_set in *. autorewrite with wp in *.
  apply wp_ASSERT in Hw as [Hv Hw]. apply wp_ASSERT. split; [done|].
  autorewrite with wp in *. apply wp_of_option in Hw as (x & Hx & Hw).
  apply wp_of_option. exists x. split; [done|].
  destruct (truthy v); autorewrite with wp in *; apply wp_of_option; exists x;
    (split; [done|]); wp_simp; cbn [bits]; by apply list_lookup_insert_ne.
Qed.

(** The first free bit. *)
Definition first_free_bit (b : bitmap) (i : Z) : Prop :=
  0 <= i < 8 * btmp_bytes_len b /\ bit_used b i = false /\
  forall k, 0 <= k < i -> bit_used b k = true.

(** Allocating the first free bit of a map. *)
Definition alloc_post (b : bitmap) (i : Z) (b' : bitmap) : Prop :=
  first_free_bit b i /\ bitmap_wf b' /\ btmp_bytes_len b' = btmp_bytes_len b /\
  length (bits b') = length (bits b) /\
  (forall j, 0 <= j -> bit_used b' j = if j =? i then true else bit_used b j) /\
  (forall k, k <> Z.to_nat (i / 8) -> bits b' !! k = bits b !! k).

Lemma scan1_first_free b i0 (Q : Z -> bitmap -> Prop) :
  bitmap_wf b -> 0 <= i0 < 8 * btmp_bytes_len b -> bit_used b i0 = false ->
  (forall i, first_free_bit b i -> Q i b) -> wp (bitmap_scan 1) Q b.
Proof.
  intros Hwf Hi0 Hfree HQ. apply (bitmap_scan_run b 1 i0); [done|lia|done|done|].
  assert (Hrun : forall i, bit_used b i = false -> free_run b i 1).
  { intros i Hi k Hk. by replace k with i by lia. }
  intros r [[-> Hno]|(Hr & _ & Hf & Hmin)].
  - exfalso. apply (Hno i0); [lia|lia|by apply Hrun].
  - apply HQ. split; [done|]. split; [apply Hf; lia|]. intros k Hk.
    destruct (bit_used b k) eqn:E; [done|]. exfalso. by apply (Hmin k), Hrun.
Qed.

Lemma set1_alloc b i (Q : unit -> bitmap -> Prop) :
  bitmap_wf b -> first_free_bit b i -> (forall b', alloc_post b i b' -> Q tt b') ->
  wp (bitmap_set i 1) Q b.
Proof.
  intros Hwf Hff HQ. pose proof Hff as (Hi & _). pose proof (wf_mem b Hwf) as Hmem.
  assert (H : wp (bitmap_set i 1) (fun _ b' => bitmap_wf b' /\ btmp_bytes_len b' = btmp_bytes_len b /\
    length (bits b') = length (bits b) /\
    (forall j, 0 <= j -> bit_used b' j = if j =? i then truthy 1 else bit_used b j)) b).
  { apply bitmap_set_run; [done|lia|by right|]. by intros. }
  apply wp_Ok in H as ([] & b' & Heq & Hw & Hl & Hm & Hb). apply wp_Ok. exists tt, b'.
  split; [done|]. apply HQ. do 5 (split; [done|]).
  intros k Hk. by eapply bitmap_set_frame.
Qed.

Lemma block_bitmap_alloc_run s i0 (Q : Z -> fsys -> Prop) :
  let b := block_bitmap (cur_part s) in
  let base := data_start_lba (sb (cur_part s)) in
  bitmap_wf b -> 0 <= i0 < 8 * btmp_bytes_len b -> bit_used b i0 = false ->
  0 <= base -> base + 8 * btmp_bytes_len b < 2 ^ 31 ->
  (forall i b', alloc_post b i b' -> Q (base + i) (set_part (set_block_bitmap b' (cur_part s)) s)) ->
  wp block_bitmap_alloc Q s.
Proof.
  intros b base Hwf Hi0 Hfree Hbase Hmax HQ. unfold block_bitmap_alloc. wp_simp.
  rewrite wp_on_block_bitmap. apply (scan1_first_free _ i0); [done..|]. intros i Hff.
  pose proof Hff as (Hi & _). rewrite (proj2 (Z.eqb_neq i (-1))) by lia. wp_simp.
  rewrite wp_on_block_bitmap. apply set1_alloc; [done..|]. intros b' Hal. wp_simp.
  cbn. change (data_start_lba (sb (cur_part s))) with base. fold b in Hi.
  rewrite u32_small, s32_small by lia. by apply HQ.
Qed.

Lemma inode_bitmap_alloc_run s i0 (Q : Z -> fsys -> Prop) :
  let b := inode_bitmap (cur_part s) in
  bitmap_wf b -> (4 <= length (bits b))%nat -> 0 <= i0 < 8 * btmp_bytes_len b -> bit_used b i0 = false ->
  (forall i b', alloc_post b i b' -> Q i (set_part (set_inode_bitmap b' (cur_part s)) s)) ->
  wp inode_bitmap_alloc Q s.
Proof.
  intros b Hwf H4 Hi0 Hfree HQ. unfold inode_bitmap_alloc. wp_simp.
  apply wp_valid. split; [by apply Nat.leb_le|]. wp_simp.
  rewrite wp_on_inode_bitmap. apply (scan1_first_free _ i0); [done..|]. intros i Hff.
  pose proof Hff as (Hi & _). rewrite (proj2 (Z.eqb_neq i (-1))) by lia. wp_simp.
  rewrite wp_on_inode_bitmap. apply set1_alloc; [done..|]. intros b' Hal. wp_simp. by apply HQ.
Qed.

Lemma bitmap_sync_eq bit_idx t :
  bitmap_sync bit_idx t = (do p <- gets cur_part;
    ide_write (u32 (bm_lba t p + bit_idx / 4096))
      (drop (Z.to_nat (u32 (bit_idx / 4096 * BLOCK_SIZE))) (bits (bm t p))) 1).
Proof. by destruct t. Qed.

Lemma wp_ide_write lba X n s old (Q : unit -> fsys -> Prop) :
  lba <= max_lba -> (0 < n)%nat -> disk_wf (disk s) ->
  read_sectors (disk s) lba n = Some old -> (512 * n <= length X)%nat ->
  (forall d', write_sectors (disk s) lba (take (512 * n) X) n = Some d' -> Q tt (set_disk d' s)) ->
  wp (ide_write lba X n) Q s.
Proof.
  intros Hl Hn Hd Hr HX HQ.
  assert (Htake : forall d m Y, (512 * m <= length Y)%nat ->
    write_sectors d lba Y m = write_sectors d lba (take (512 * m) Y) m).
  { clear. intros d m. revert d lba. induction m as [|m IH]; intros d lba Y HY; cbn [write_sectors]; [done|].
    destruct (d !! lba); [|done].
    rewrite (proj2 (Nat.leb_le 512 (length Y))), (proj2 (Nat.leb_le 512 (length (take _ Y)))) by (rewrite ?length_take; lia).
    rewrite take_take, IH by (rewrite length_drop; lia).
    replace (drop 512 (take (512 * S m) Y)) with (take (512 * m) (drop 512 Y)).
    - by replace (512 `min` (512 * S m))%nat with 512%nat by lia.
    - rewrite take_drop_commute. do 2 f_equal. lia. }
  destruct (write_sectors_spec (disk s) lba n old (take (512 * n) X) Hd Hr) as (d' & Hw & _).
  { rewrite length_take. lia. }
  unfold ide_write. wp_simp. apply wp_ASSERT. split; [by apply Z.leb_le|].
  wp_simp. apply wp_ASSERT. split; [by apply Nat.ltb_lt|]. wp_simp.
  apply wp_of_option. exists d'. split; [by rewrite Htake|]. wp_simp. by apply HQ.
Qed.

(** Reading one more sector out of a region that is all there. *)
Lemma read_sectors_at d base n T o k :
  disk_wf d -> read_sectors d base n = Some T -> (o + k <= n)%nat ->
  read_sectors d (base + Z.of_nat o) k = Some (take (512 * k) (drop (512 * o) T)).
Proof.
  intros Hd HT Hok. replace n with (o + (k + (n - o - k)))%nat in HT by lia.
  rewrite !read_sectors_app in HT.
  destruct (read_sectors d base o) as [A|] eqn:HA; [|done].
  destruct (read_sectors d (base + Z.of_nat o) k) as [B|] eqn:HB; [|done].
  destruct (read_sectors d (base + Z.of_nat o + Z.of_nat k) (n - o - k)) as [C|] eqn:HC; [|done].
  simplify_eq. rewrite <- (read_sectors_length _ _ _ _ Hd HA), drop_app_length.
  by rewrite <- (read_sectors_length _ _ _ _ Hd HB), take_app_length.
Qed.

(** bitmap_sync makes the disk agree with the memory again after a change to
    one of the 4096 bits of its sector. *)
Lemma bitmap_sync_run t s p0 i (Q : unit -> fsys -> Prop) :
  disk_wf (disk s) -> map_wf t (cur_part s) -> synced t p0 (disk s) ->
  bm_lba t p0 = bm_lba t (cur_part s) -> bm_sects t p0 = bm_sects t (cur_part s) ->
  (512 * bm_sects t p0 <= length (bits (bm t p0)))%nat ->
  0 <= i < 8 * btmp_bytes_len (bm t (cur_part s)) ->
  (forall k, k <> Z.to_nat (i / 8) -> bits (bm t (cur_part s)) !! k = bits (bm t p0) !! k) ->
  (forall d', disk_wf d' -> synced t (cur_part s) d' ->
    (forall j, j <> bm_lba t (cur_part s) + i / 4096 -> d' !! j = disk s !! j) ->
    Q tt (set_disk d' s)) ->
  wp (bitmap_sync i t) Q s.
Proof.
  intros Hd [Hwf Hlen Hlba] Hsync Hb1 Hb2 Hmem0 Hi Hfr HQ.
  unfold synced in *. rewrite Hb1, Hb2 in *. clear Hb1 Hb2.
  set (n := bm_sects t (cur_part s)) in *. set (base := bm_lba t (cur_part s)) in *.
  set (B := bits (bm t (cur_part s))) in *. set (B0 := bits (bm t p0)) in *.
  pose proof (wf_mem _ Hwf) as Hmem. pose proof (wf_len _ Hwf) as Hl. fold B in Hmem.
  rewrite Hlen in Hi, Hmem, Hl. set (o := Z.to_nat (i / 4096)).
  assert (Ho : i / 4096 = Z.of_nat o /\ (o + 1 <= n)%nat /\ Z.of_nat o * 4096 <= i < Z.of_nat o * 4096 + 4096).
  { unfold o. rewrite Z2Nat.id by dlia. split; [done|]. dlia. }
  destruct Ho as (Ho & Hon & Hio).
  assert (Hbyte : (512 * o <= Z.to_nat (i / 8) < 512 * o + 512)%nat) by (clearbody o; dlia).
  rewrite bitmap_sync_eq. wp_simp. fold base B. rewrite Ho. unfold BLOCK_SIZE, SECTOR_SIZE, max_lba in *.
  rewrite !u32_small by lia.
  pose proof (read_sectors_at _ _ _ _ o 1 Hd Hsync Hon) as Hold.
  eapply wp_ide_write; [unfold max_lba; lia|lia|done|exact Hold|rewrite length_drop; lia|].
  intros d' Hw. replace (Z.to_nat (Z.of_nat o * 512)) with (512 * o)%nat in Hw by lia.
  destruct (splice_sectors (disk s) base n o 1 0 (take 512 (drop (512 * o) B)) _ Hd Hsync Hon)
    as (B1 & d1 & HB1 & HlB1 & Hw1 & Hd1 & Hr1 & Hfr1).
  { rewrite length_take. lia. }
  assert (Hlt : length (take 512 (drop (512 * o) B)) = 512%nat) by (rewrite length_take, length_drop; lia).
  replace (splice B1 0 (take 512 (drop (512 * o) B))) with (take (512 * 1) (drop (512 * o) B)) in Hw1.
  2: { unfold splice. rewrite Hlt, (drop_ge B1) by lia. by rewrite app_nil_r. }
  rewrite Hw in Hw1. simplify_eq. apply HQ; [done| |intros j Hj; apply Hfr1; lia].
  rewrite Hr1, Nat.add_0_r. f_equal. apply list_eq. intros k.
  unfold splice. rewrite Hlt, lookup_app.
  destruct (decide (k < 512 * o)%nat) as [Hk|Hk].
  - rewrite lookup_take_lt by lia.
    rewrite !lookup_take_lt by lia.
    destruct (B0 !! k) eqn:E; [by rewrite Hfr by lia|].
    apply lookup_ge_None_1 in E. lia.
  - rewrite (lookup_take_ge _ (512 * o)) by lia. rewrite !length_take.
    replace (k - 512 * o `min` (512 * n) `min` length B0)%nat with (k - 512 * o)%nat by lia.
    replace ((512 * o) `min` (((512 * n) `min` length B0)))%nat with (512 * o)%nat by lia.
    rewrite lookup_app. destruct (decide (k < 512 * o + 512)%nat).
    + rewrite lookup_take_lt, lookup_drop by lia. replace (512 * o + (k - 512 * o))%nat with k by lia.
      rewrite lookup_take_lt by lia.
      destruct (lookup_lt_is_Some_2 B k) as [x Hx]; [lia|]. by rewrite Hx.
    + rewrite (lookup_take_ge _ 512) by lia. rewrite Hlt, lookup_drop.
      replace (512 * o + 512 + (k - 512 * o - 512))%nat with k by lia.
      destruct (decide (k < 512 * n)%nat); [|by rewrite !lookup_take_ge by lia].
      rewrite !lookup_take_lt by lia. symmetry. apply Hfr. lia.
Qed.

(** ** The component's property *)

(** Allocating a block and syncing its bit, as every writer of the file
    system does: the sector returned is the first free one of the partition,
    it is now marked used and no other bit changed, the map on disk is again
    the map in memory, and no sector but one of the map's was written. *)
Theorem block_alloc_durable s i0 :
  let p := cur_part s in
  let b := block_bitmap p in
  let base := data_start_lba (sb p) in
  disk_wf (disk s) -> map_wf BLOCK_BITMAP p -> synced BLOCK_BITMAP p (disk s) ->
  0 <= base -> base + 8 * btmp_bytes_len b < 2 ^ 31 ->
  0 <= i0 < 8 * btmp_bytes_len b -> bit_used b i0 = false ->
  exists i b' d',
    (do lba <- block_bitmap_alloc;
     bitmap_sync (u32 (lba - base)) BLOCK_BITMAP ;;
     ret lba) s = Ok (base + i, set_disk d' (set_part (set_block_bitmap b' p) s)) /\
    first_free_bit b i /\
    (forall j, 0 <= j -> bit_used b' j = if j =? i then true else bit_used b j) /\
    synced BLOCK_BITMAP (set_block_bitmap b' p) d' /\
    (forall j, j <> block_bitmap_lba (sb p) + i / 4096 -> d' !! j = disk s !! j).
Proof.
  intros p b base Hd Hmw Hsync Hbase Hmax Hi0 Hfree.
  assert (H : wp (do lba <- block_bitmap_alloc; bitmap_sync (u32 (lba - base)) BLOCK_BITMAP ;; ret lba)
    (fun lba s' => exists i b' d', lba = base + i /\ s' = set_disk d' (set_part (set_block_bitmap b' p) s) /\
      alloc_post b i b' /\ synced BLOCK_BITMAP (set_block_bitmap b' p) d' /\
      (forall j, j <> block_bitmap_lba (sb p) + i / 4096 -> d' !! j = disk s !! j)) s).
  { wp_simp. apply (block_bitmap_alloc_run _ i0); [apply Hmw|done..|]. intros i b' Hal.
    pose proof Hal as ((Hi & _) & Hw & Hl & Hm & _ & Hfr). destruct Hmw as [Hwf Hlen Hlba].
    cbn [bm] in Hlen. fold b in Hlen. pose proof (wf_mem _ Hwf) as Hmem. cbn [bm] in Hmem. fold p b in Hi, Hmem.
    wp_simp. change (data_start_lba (sb (cur_part s))) with base.
    replace (u32 (base + i - base)) with i by (rewrite u32_small; lia).
    apply (bitmap_sync_run _ _ p); try done.
    - split; cbn; [done| by rewrite Hl|done].
    - cbn [bm]. fold b. lia.
    - cbn. rewrite Hl. exact Hi.
    - intros d' Hd' Hs' Hfr'. wp_simp. exists i, b', d'. repeat (split; [done|]). apply Hfr'. }
  wp_ok H. destruct H0 as (i & b' & d' & -> & -> & Hal & Hs & Hfr).
  exists i, b', d'. split; [done|]. split; [apply Hal|]. split; [apply Hal|]. by split.
Qed.

(** A small partition: block bitmap in sector 2, inode bitmap in sector 3,
    inode table in 4..611, data from 612. *)
Definition demo_sb : super_block := Super 0x19590318 700 4096 0 2 1 3 1 4 608 612 0 24.
Definition demo_map (first : Z) : bitmap := Bitmap 512 (first :: replicate 512 0).
(** Blocks 0..3 and 5 are in use, inodes 0, 1 and 6. Inode 6 is [demo_inode],
    its data is in sectors 614, 615 and 617. *)
Definition demo_part : partition := Part 0 700 demo_sb (demo_map 47) (demo_map 67) [].
Definition demo_text (n : nat) : list Z := (fun k => Z.of_nat k mod 251) <$> seq n 512.
(** The root directory: ".", ".." and "file1". *)
Definition demo_root : list Z :=
  enc_dir_entry (DirEntry (46 :: replicate 15 0) 0 FT_DIRECTORY) ++
  enc_dir_entry (DirEntry (46 :: 46 :: replicate 14 0) 0 FT_DIRECTORY) ++
  enc_dir_entry demo_entry ++ replicate 440 0.
Definition demo_root_inode : inode := Inode 0 72 0 0 (612 :: replicate 12 0).
Definition demo_disk : gmap Z (list Z) :=
  <[2 := 47 :: replicate 511 0]> (<[3 := 67 :: replicate 511 0]>
  (<[612 := demo_root]>
  (<[4 := enc_inode demo_root_inode ++ replicate 380 0 ++ take 56 (enc_inode demo_inode)]>
  (<[5 := drop 56 (enc_inode demo_inode) ++ replicate 492 0]>
  (<[614 := demo_text 0]> (<[615 := demo_text 512]> (<[617 := demo_text 1024]>
    (list_to_map ((fun k => (Z.of_nat k, replicate 512 0)) <$> seq 0 700))))))))).
Definition demo_heap : list Z := [0xc0300000; 0xc0300200; 0xc0300600; 0xc0300a00; 0xc0300c00].
Definition demo_fs : fsys :=
  Fsys demo_disk demo_part empty empty [] [] 0 (Cpu EFLAGS_IF [] []) demo_heap.

Lemma demo_map_wf v : 0 <= v < 256 -> bitmap_wf (demo_map v).
Proof.
  intros Hv. split; cbn [demo_map btmp_bytes_len bits length]; rewrite ?length_replicate; [lia|lia|].
  apply Forall_cons_2; [done|]. apply Forall_replicate. lia.
Qed.

Lemma demo_disk_wf : disk_wf demo_disk.
Proof.
  assert (H : bool_decide (disk_wf demo_disk) = true) by (vm_compute; done).
  by apply bool_decide_eq_true in H.
Qed.

Lemma demo_map_ok t : map_wf t demo_part.
Proof. split; [destruct t; by apply demo_map_wf | by destruct t | destruct t; vm_compute; intuition congruence]. Qed.

Lemma demo_synced t : synced t demo_part demo_disk.
Proof. destruct t; vm_compute; reflexivity. Qed.

Lemma block_alloc_durable_witness :
  exists i b' d',
    (do lba <- block_bitmap_alloc;
     bitmap_sync (u32 (lba - 612)) BLOCK_BITMAP ;;
     ret lba) demo_fs = Ok (612 + i, set_disk d' (set_part (set_block_bitmap b' demo_part) demo_fs)) /\
    first_free_bit (demo_map 47) i /\
    (forall j, 0 <= j -> bit_used b' j = if j =? i then true else bit_used (demo_map 47) j) /\
    synced BLOCK_BITMAP (set_block_bitmap b' demo_part) d' /\
    (forall j, j <> 2 + i / 4096 -> d' !! j = demo_disk !! j).
Proof.
  apply (block_alloc_durable demo_fs 4 demo_disk_wf (demo_map_ok BLOCK_BITMAP)
    (demo_synced BLOCK_BITMAP)); vm_compute; intuition congruence.
Defined.
