(* ===== verification/Inode.v ===== *)
(** * Inodes (fs/inode.c)

    The inode table on disk, 4096 slots of 76 bytes laid over consecutive
    sectors, and the cache of open inodes in memory. A caller's [io_buf] is
    given by its size. The swap of pgdir around sys_malloc and sys_free, which
    selects the kernel's memory pool, has no effect on this state. *)

From Stdlib Require Import ZArith Lia.
From stdpp Require Import base numbers list gmap option.
From S2P Require Import Prelude Bitmap Intr DList FsTypes Blocks.

Local Open Scope Z_scope.

(** struct inode_position *)
Record inode_position := InodePos { two_sec : bool; sec_lba : Z; off_size : Z }.

Definition inode_locate (inode_no : Z) : M fsys inode_position :=
  ASSERT (inode_no <? 4096) ;;
  do p <- gets cur_part;
  let inode_table_lba := inode_table_lba (sb p) in
  let inode_size := sizeof_inode in
  let off_size := u32 (inode_no * inode_size) in
  let off_sec := off_size / 512 in
  let off_size_in_sec := off_size mod 512 in
  let left_in_sec := u32 (512 - off_size_in_sec) in
  let two_sec := if left_in_sec <? inode_size then true else false in
  ret (InodePos two_sec (u32 (inode_table_lba + off_sec)) off_size_in_sec).

(** The read-modify-write of an inode's sectors in a buffer of [io_size] bytes. *)
Definition patch_sectors (pos : inode_position) (io_size : Z) (src : list Z) : M fsys unit :=
  if two_sec pos then
    do inode_buf <- ide_read (sec_lba pos) 2;
    valid (1024 <=? io_size) ;;
    ide_write (sec_lba pos) (splice inode_buf (Z.to_nat (off_size pos)) src) 2
  else
    do inode_buf <- ide_read (sec_lba pos) 1;
    valid (512 <=? io_size) ;;
    ide_write (sec_lba pos) (splice inode_buf (Z.to_nat (off_size pos)) src) 1.

(** The copy that goes to disk. *)
Definition pure_inode (i : inode) : inode := set_write_deny 0 (set_i_open_cnts 0 i).

Definition inode_sync (i : inode) (io_size : Z) : M fsys unit :=
  let inode_no := u8 (i_no i) in
  do inode_pos <- inode_locate inode_no;
  do p <- gets cur_part;
  ASSERT (sec_lba inode_pos <=? u32 (start_lba p + sec_cnt p)) ;;
  patch_sectors inode_pos io_size (enc_inode (pure_inode i)).

(** The walk over the cache of open inodes. *)
Fixpoint find_open (l : list Z) (inode_no : Z) : M fsys (option Z) :=
  match l with
  | [] => ret None
  | a :: l' =>
      do inode_found <- ld_inode a;
      if i_no inode_found =? inode_no
      then
        st_inode a (set_i_open_cnts (u32 (i_open_cnts inode_found + 1)) inode_found) ;;
        ret (Some a)
      else find_open l' inode_no
  end.

(** list_push(&part->open_inodes, ..) and list_remove. *)
Definition open_push (a : Z) : M fsys unit :=
  modify (fun s => set_part (set_open_inodes (a :: open_inodes (cur_part s)) (cur_part s)) s).
Definition open_remove (a : Z) : M fsys unit :=
  do l <- gets (fun s => open_inodes (cur_part s));
  valid (bool_decide (a ∈ l)) ;;
  modify (fun s => set_part (set_open_inodes (filter (fun x => x <> a) l) (cur_part s)) s).

(** An inode in the memory sys_malloc returned. *)
Definition new_inode (a : Z) (i : inode) : M fsys unit :=
  valid (negb (a =? NULL)) ;;
  modify (fun s => set_inodes (<[a := i]> (inodes s)) s).

Definition inode_open (inode_no : Z) : M fsys Z :=
  do p <- gets cur_part;
  do found <- find_open (open_inodes p) inode_no;
  match found with
  | Some a => ret a
  | None =>
      do inode_pos <- inode_locate inode_no;
      do a <- sys_malloc;
      do buf <- sys_malloc;
      do inode_buf <- ide_read (sec_lba inode_pos) (if two_sec inode_pos then 2 else 1);
      valid (negb (buf =? NULL)) ;;
      new_inode a (dec_inode (drop (Z.to_nat (off_size inode_pos)) inode_buf)) ;;
      open_push a ;;
      do i <- ld_inode a;
      st_inode a (set_i_open_cnts 1 i) ;;
      ret a
  end.

Definition inode_close (a : Z) : M fsys unit :=
  do old_status <- on_cpu intr_disable;
  do i <- ld_inode a;
  let cnts := u32 (i_open_cnts i - 1) in
  st_inode a (set_i_open_cnts cnts i) ;;
  (if cnts =? 0 then
     open_remove a ;;
     modify (fun s => set_inodes (delete a (inodes s)) s)
   else ret tt) ;;
  on_cpu (intr_set_status old_status) ;;
  ret tt.

Definition inode_delete (inode_no : Z) (io_size : Z) : M fsys unit :=
  ASSERT (inode_no <? 4096) ;;
  do inode_pos <- inode_locate inode_no;
  do p <- gets cur_part;
  ASSERT (sec_lba inode_pos <=? u32 (start_lba p + sec_cnt p)) ;;
  patch_sectors inode_pos io_size (replicate (Z.to_nat sizeof_inode) 0).

(** The block addresses of a file: an array of 140 words, the direct blocks in
    front; and the read of the indirect table to [all_blocks + 12]. *)
Definition direct_blocks (i : inode) : list Z := take 12 (i_sectors i) ++ replicate 128 0.
Definition read_table (all_blocks : list Z) (lba : Z) : M fsys (list Z) :=
  do buf <- ide_read lba 1;
  ret (take 12 all_blocks ++ rd32s buf 0 128).

(** Give the block at sector [lba] back. *)
Definition free_block (lba : Z) : M fsys unit :=
  do p <- gets cur_part;
  let block_bitmap_idx := u32 (lba - data_start_lba (sb p)) in
  ASSERT (0 <? block_bitmap_idx) ;;
  on_block_bitmap (bitmap_set block_bitmap_idx 0) ;;
  bitmap_sync block_bitmap_idx BLOCK_BITMAP.

(** i_sectors[k] *)
Definition sector (i : inode) (k : Z) : M fsys Z := of_option (i_sectors i !! Z.to_nat k).

(** The first half of inode_release: give back the blocks of the file. *)
Definition release_blocks (inode_to_del : inode) : M fsys unit :=
  let all_blocks := direct_blocks inode_to_del in
  do indirect <- sector inode_to_del 12;
  do '(all_blocks, block_cnt) <-
    (if negb (indirect =? 0) then
       do all_blocks <- read_table all_blocks indirect;
       free_block indirect ;;
       ret (all_blocks, 140)
     else ret (all_blocks, 12));
  for_range 0 (Z.to_nat block_cnt) (fun block_idx =>
    do lba <- of_option (all_blocks !! Z.to_nat block_idx);
    if negb (lba =? 0) then free_block lba else ret tt).

Definition inode_release (inode_no : Z) : M fsys unit :=
  do inode_to_del <- inode_open inode_no;
  do i <- ld_inode inode_to_del;
  ASSERT (i_no i =? inode_no) ;;
  release_blocks i ;;
  on_inode_bitmap (bitmap_set inode_no 0) ;;
  bitmap_sync inode_no INODE_BITMAP ;;
  do io_buf <- sys_malloc;
  valid (negb (io_buf =? NULL)) ;;
  inode_delete inode_no 1024 ;;
  inode_close inode_to_del.

Definition inode_init (inode_no : Z) : inode := Inode inode_no 0 0 0 (replicate 13 0).

(** ** The inode table *)

Definition table_sects : nat := 608.

(** The table lies within the partition and the disk, and the disk has it. *)
Record table_wf (p : partition) (d : gmap Z (list Z)) : Prop := {
  tw_disk : disk_wf d;
  tw_lba : 0 <= inode_table_lba (sb p);
  tw_max : inode_table_lba (sb p) + 608 <= max_lba;
  tw_part : inode_table_lba (sb p) + 608 <= u32 (start_lba p + sec_cnt p)
}.

(** The bytes of the table, and of one slot. *)
Definition table (p : partition) (d : gmap Z (list Z)) : option (list Z) :=
  read_sectors d (inode_table_lba (sb p)) table_sects.
Definition slot (T : list Z) (no : Z) : list Z := take 76 (drop (76 * Z.to_nat no) T).
Definition set_slot (T : list Z) (no : Z) (src : list Z) : list Z := splice T (76 * Z.to_nat no) src.

Lemma inode_locate_run no s (Q : inode_position -> fsys -> Prop) :
  0 <= no < 4096 -> 0 <= inode_table_lba (sb (cur_part s)) -> inode_table_lba (sb (cur_part s)) + 608 <= max_lba ->
  (forall o r k, (o + k <= 608)%nat -> (r + 76 <= 512 * k)%nat -> (512 * o + r = 76 * Z.to_nat no)%nat ->
     (k = 1 \/ k = 2)%nat -> (k = 2 -> 436 < r < 512)%nat ->
     Q (InodePos (k =? 2)%nat (inode_table_lba (sb (cur_part s)) + Z.of_nat o) (Z.of_nat r)) s) ->
  wp (inode_locate no) Q s.
Proof.
  intros Hno H0 Hmax HQ. unfold inode_locate, max_lba in *. wp_assert. unfold sizeof_inode.
  rewrite (u32_small (no * 76)) by lia.
  assert (Hr : 0 <= (no * 76) mod 512 < 512) by (apply Z.mod_pos_bound; lia).
  assert (Ho : 0 <= (no * 76) / 512 <= 607) by dlia.
  pose proof (Z.div_mod (no * 76) 512).
  set (o := (no * 76) / 512) in *. set (r := (no * 76) mod 512) in *.
  assert (Hend : r + 76 <= 512 \/ o + 2 <= 608) by lia.
  rewrite !u32_small by lia.
  specialize (HQ (Z.to_nat o) (Z.to_nat r) (if 512 - r <? 76 then 2%nat else 1%nat)).
  rewrite !Z2Nat.id in HQ by lia.
  destruct (Z.ltb_spec (512 - r) 76); apply HQ; lia.
Qed.

(** A buffer of [io_size] bytes takes the sectors of inode [no], of which there
    are two when the slot crosses from one to the next. *)
Definition slot_buffer (no io_size : Z) : Prop :=
  1024 <= io_size \/ (512 <= io_size /\ (76 * no) mod 512 + 76 <= 512).

(** Patching the located sectors is patching the slot. *)
Lemma patch_slot_run s T no src io_size (Q : unit -> fsys -> Prop) :
  table_wf (cur_part s) (disk s) -> table (cur_part s) (disk s) = Some T ->
  0 <= no < 4096 -> length src = 76%nat ->
  slot_buffer no io_size ->
  (forall d', table_wf (cur_part s) d' -> table (cur_part s) d' = Some (set_slot T no src) ->
     (forall j, ~ (inode_table_lba (sb (cur_part s)) <= j < inode_table_lba (sb (cur_part s)) + 608) ->
        d' !! j = disk s !! j) -> Q tt (set_disk d' s)) ->
  wp (do pos <- inode_locate no;
      do p <- gets cur_part;
      ASSERT (sec_lba pos <=? u32 (start_lba p + sec_cnt p)) ;;
      patch_sectors pos io_size src) Q s.
Proof.
  intros [Hd H0 Hmax Hpart] HT Hno Hsrc Hio HQ. wp_simp. apply inode_locate_run; [done..|].
  intros o r k Hok Hrk Hor Hk Hk2. wp_simp. cbn [sec_lba]. wp_assert.
  assert (Hbuf : 512 * Z.of_nat k <= io_size).
  { destruct Hio as [|[? Hr]]; [lia|]. destruct Hk as [-> | ->]; [lia|]. exfalso. dlia. }
  unfold table, table_sects in HT.
  destruct (splice_sectors _ _ _ o k r src T Hd HT Hok) as (B & d' & HB & HlB & Hw & Hd' & HT' & Hfr); [lia|].
  assert (HQ' : Q tt (set_disk d' s)).
  { apply HQ; [by split| |intros j Hj; apply Hfr; lia].
    unfold table, table_sects, set_slot. by rewrite HT', Hor. }
  unfold patch_sectors. cbn [two_sec sec_lba off_size]. rewrite Nat2Z.id.
  unfold ide_read, ide_write.
  destruct Hk as [-> | ->]; cbn [Nat.eqb]; wp_assert; wp_simp; apply wp_ASSERT; (split; [done|]); wp_simp;
    apply wp_of_option; exists B; (split; [done|]); wp_simp; apply wp_valid; (split; [lia|]);
    wp_assert; apply wp_ASSERT; (split; [done|]); wp_simp; apply wp_of_option; exists d';
    (split; [done|]); by wp_simp.
Qed.

(** *** Slots *)

Lemma table_length p d T : disk_wf d -> table p d = Some T -> Z.of_nat (length T) = 311296.
Proof. intros Hd HT. rewrite (read_sectors_length _ _ _ _ Hd HT). unfold table_sects. lia. Qed.

(** A slot lies within the table. *)
Lemma slot_fits (T : list Z) no : Z.of_nat (length T) = 311296 -> 0 <= no < 4096 ->
  (76 * Z.to_nat no + 76 <= length T)%nat.
Proof. intros HT H. lia. Qed.

Lemma set_slot_length T no src :
  Z.of_nat (length T) = 311296 -> 0 <= no < 4096 -> length src = 76%nat ->
  Z.of_nat (length (set_slot T no src)) = 311296.
Proof.
  intros HT Hno Hs. pose proof (slot_fits T no HT Hno). unfold set_slot.
  rewrite splice_length; [done|lia].
Qed.

Lemma slot_set_eq T no src :
  Z.of_nat (length T) = 311296 -> 0 <= no < 4096 -> length src = 76%nat ->
  slot (set_slot T no src) no = src.
Proof.
  intros HT Hno Hs. pose proof (slot_fits T no HT Hno). unfold slot, set_slot.
  rewrite (splice_slice_eq _ _ _ _ ltac:(rewrite Hs; done) eq_refl). by rewrite take_app_length'.
Qed.

Lemma slot_set_ne T no j src :
  Z.of_nat (length T) = 311296 -> 0 <= no < 4096 -> 0 <= j -> j <> no -> length src = 76%nat ->
  slot (set_slot T no src) j = slot T j.
Proof.
  intros HT Hno Hj Hne Hs. pose proof (slot_fits T no HT Hno). unfold slot, set_slot.
  apply splice_slice_ne; lia.
Qed.

Lemma pure_inode_length i : inode_wf i -> length (enc_inode (pure_inode i)) = 76%nat.
Proof. intros Hi. apply enc_inode_length, Hi. Qed.

Lemma inode_sync_run s T i io_size (Q : unit -> fsys -> Prop) :
  table_wf (cur_part s) (disk s) -> table (cur_part s) (disk s) = Some T ->
  inode_wf i -> slot_buffer (u8 (i_no i)) io_size ->
  (forall d', table_wf (cur_part s) d' ->
     table (cur_part s) d' = Some (set_slot T (u8 (i_no i)) (enc_inode (pure_inode i))) ->
     (forall j, ~ (inode_table_lba (sb (cur_part s)) <= j < inode_table_lba (sb (cur_part s)) + 608) ->
        d' !! j = disk s !! j) -> Q tt (set_disk d' s)) ->
  wp (inode_sync i io_size) Q s.
Proof.
  intros Htw HT Hi Hio HQ. unfold inode_sync. apply (patch_slot_run s T); [done..| |by apply pure_inode_length|done|done].
  pose proof (u8_bound (i_no i)). lia.
Qed.

(** *** Reading a slot back *)

Lemma rd32_take l n off : (off + 4 <= n)%nat -> rd32 (take n l) off = rd32 l off.
Proof.
  intros H. unfold rd32. rewrite !take_drop_commute, take_take.
  by replace ((off + 4) `min` n)%nat with (off + 4)%nat by lia.
Qed.

Lemma rd32s_take l n off k : (off + 4 * k <= n)%nat -> rd32s (take n l) off k = rd32s l off k.
Proof.
  revert off. induction k as [|k IH]; intros off H; cbn; [done|].
  rewrite rd32_take, IH by lia. done.
Qed.

Lemma dec_inode_take l n : (68 <= n)%nat -> dec_inode (take n l) = dec_inode l.
Proof. intros H. unfold dec_inode. rewrite !rd32_take, rd32s_take by lia. done. Qed.

(** The cache of open inodes: distinct addresses, each with an inode. *)
Definition cache_ok (s : fsys) : Prop :=
  NoDup (open_inodes (cur_part s)) /\
  forall a, a ∈ open_inodes (cur_part s) -> is_Some (inodes s !! a).

(** No open inode has the number [no]. *)
Definition not_open (no : Z) (s : fsys) : Prop :=
  forall a i, a ∈ open_inodes (cur_part s) -> inodes s !! a = Some i -> i_no i <> no.

Lemma wp_ld_inode a i s (Q : inode -> fsys -> Prop) :
  inodes s !! a = Some i -> Q i s -> wp (ld_inode a) Q s.
Proof. intros Ha HQ. unfold ld_inode. wp_load Ha. done. Qed.

Lemma wp_st_inode a i i0 s (Q : unit -> fsys -> Prop) :
  inodes s !! a = Some i0 -> Q tt (set_inodes (<[a := i]> (inodes s)) s) -> wp (st_inode a i) Q s.
Proof. intros Ha HQ. unfold st_inode. wp_load Ha. done. Qed.

Lemma find_open_none no l s :
  (forall a, a ∈ l -> is_Some (inodes s !! a)) ->
  (forall a i, a ∈ l -> inodes s !! a = Some i -> i_no i <> no) ->
  find_open l no s = Ok (None, s).
Proof.
  intros Hdom Hno. assert (H : wp (find_open l no) (fun r s' => r = None /\ s' = s) s).
  { induction l as [|a l IH]; cbn [find_open]; [done|]. wp_simp.
    destruct (Hdom a) as [i Hi]; [by left|]. eapply wp_ld_inode; [done|].
    rewrite (proj2 (Z.eqb_neq _ _)) by (apply (Hno a); [by left|done]).
    apply IH; [intros; apply Hdom; by right|intros b j Hb; apply Hno; by right]. }
  wp_ok H. by destruct H0 as [-> ->].
Qed.

(** The state after an inode was read from disk to address [a]. *)
Definition opened (a : Z) (i : inode) (h : list Z) (s : fsys) : fsys :=
  set_inodes (<[a := set_i_open_cnts 1 i]> (inodes s))
    (set_heap h (set_part (set_open_inodes (a :: open_inodes (cur_part s)) (cur_part s)) s)).

Lemma inode_open_miss s T no a b h (Q : Z -> fsys -> Prop) :
  table_wf (cur_part s) (disk s) -> table (cur_part s) (disk s) = Some T ->
  0 <= no < 4096 -> cache_ok s -> not_open no s ->
  heap s = a :: b :: h -> a <> NULL -> b <> NULL ->
  Q a (opened a (dec_inode (slot T no)) h s) ->
  wp (inode_open no) Q s.
Proof.
  intros [Hd H0 Hmax Hpart] HT Hno [_ Hdom] Hmiss Hheap Ha Hb HQ.
  unfold inode_open. wp_simp. unfold wp at 1. rewrite find_open_none by done.
  change (wp (do inode_pos <- inode_locate no;
    do a <- sys_malloc; do buf <- sys_malloc;
    do inode_buf <- ide_read (sec_lba inode_pos) (if two_sec inode_pos then 2 else 1);
    valid (negb (buf =? NULL)) ;;
    new_inode a (dec_inode (drop (Z.to_nat (off_size inode_pos)) inode_buf)) ;;
    open_push a ;; do i <- ld_inode a; st_inode a (set_i_open_cnts 1 i) ;; ret a) Q s).
  wp_simp. apply inode_locate_run; [done..|]. intros o r k Hok Hrk Hor Hk _.
  unfold sys_malloc. wp_simp. rewrite Hheap. wp_simp. cbn [heap set_heap]. wp_simp.
  unfold ide_read. cbn [sec_lba two_sec off_size]. wp_assert. wp_simp.
  apply wp_ASSERT. split; [by destruct Hk as [-> | ->]|]. wp_simp. cbn [disk set_heap].
  replace (if (k =? 2)%nat then 2%nat else 1%nat) with k by (by destruct Hk as [-> | ->]).
  pose proof (read_sectors_at _ _ _ _ o k Hd HT Hok) as HB.
  assert (Hslot : take 76 (drop r (take (512 * k) (drop (512 * o) T))) = slot T no).
  { rewrite take_drop_commute, take_take.
    replace ((r + 76) `min` (512 * k))%nat with (r + 76)%nat by lia.
    by rewrite <- take_drop_commute, drop_drop, Hor. }
  set (B := take (512 * k) (drop (512 * o) T)) in *. clearbody B.
  wp_load HB. apply wp_valid.
  split; [by apply negb_true_iff, Z.eqb_neq|]. unfold new_inode. wp_simp. apply wp_valid.
  split; [by apply negb_true_iff, Z.eqb_neq|]. unfold open_push. wp_simp.
  rewrite Nat2Z.id. eapply wp_ld_inode; [apply lookup_insert_eq|]. wp_simp.
  eapply wp_st_inode; [apply lookup_insert_eq|]. wp_simp.
  unfold opened in HQ. cbn. rewrite insert_insert_eq.
  rewrite <- Hslot, dec_inode_take in HQ by lia. exact HQ.
Qed.

(** ** The component's properties *)

(** [C26] inode_sync replaces one slot of the inode table on disk, the one its
    number names after truncation to a byte, by the inode with its open count
    and its write lock cleared. Every other slot, and every sector outside the
    table, is as it was. *)
Theorem inode_sync_one_slot s T i io_size :
  table_wf (cur_part s) (disk s) -> table (cur_part s) (disk s) = Some T ->
  inode_wf i -> 1024 <= io_size ->
  exists d' T', inode_sync i io_size s = Ok (tt, set_disk d' s) /\
    table (cur_part s) d' = Some T' /\
    dec_inode (slot T' (u8 (i_no i))) = set_write_deny 0 (set_i_open_cnts 0 i) /\
    (forall j, 0 <= j < 4096 -> j <> u8 (i_no i) -> slot T' j = slot T j) /\
    (forall j, ~ (inode_table_lba (sb (cur_part s)) <= j < inode_table_lba (sb (cur_part s)) + 608) ->
        d' !! j = disk s !! j).
Proof.
  intros Htw HT Hi Hio. pose proof (table_length _ _ _ (tw_disk _ _ Htw) HT) as HlT.
  pose proof (u8_bound (i_no i)) as Hb.
  assert (H : wp (inode_sync i io_size) (fun _ s' => exists d', s' = set_disk d' s /\
    table (cur_part s) d' = Some (set_slot T (u8 (i_no i)) (enc_inode (pure_inode i))) /\
    (forall j, ~ (inode_table_lba (sb (cur_part s)) <= j < inode_table_lba (sb (cur_part s)) + 608) ->
        d' !! j = disk s !! j)) s).
  { apply (inode_sync_run s T); [done..|by left|]. eauto. }
  wp_ok H. destruct x, H0 as (d' & -> & HT' & Hfr). exists d', (set_slot T (u8 (i_no i)) (enc_inode (pure_inode i))).
  split; [done|]. split; [done|]. split; [|split; [|done]].
  - rewrite slot_set_eq by (done || lia || by apply pure_inode_length).
    rewrite <- (app_nil_r (enc_inode _)). apply dec_enc_inode. destruct Hi. by split.
  - intros j Hj Hne. apply slot_set_ne; [done|lia..|by apply pure_inode_length].
Qed.

(** The number is kept in a uint8_t: an inode numbered 256 or more is
    written over the slot of another inode, and its own slot never changes. *)
Theorem inode_sync_truncates s T i io_size :
  table_wf (cur_part s) (disk s) -> table (cur_part s) (disk s) = Some T ->
  inode_wf i -> 1024 <= io_size -> 256 <= i_no i < 4096 ->
  exists d' T', inode_sync i io_size s = Ok (tt, set_disk d' s) /\
    table (cur_part s) d' = Some T' /\
    slot T' (i_no i) = slot T (i_no i) /\
    exists j, 0 <= j < 256 /\ j <> i_no i /\
      dec_inode (slot T' j) = set_write_deny 0 (set_i_open_cnts 0 i).
Proof.
  intros Htw HT Hi Hio Hno. pose proof (table_length _ _ _ (tw_disk _ _ Htw) HT) as HlT.
  pose proof (u8_bound (i_no i)) as Hb.
  assert (H : wp (inode_sync i io_size) (fun _ s' => exists d', s' = set_disk d' s /\
    table (cur_part s) d' = Some (set_slot T (u8 (i_no i)) (enc_inode (pure_inode i)))) s).
  { apply (inode_sync_run s T); [done..|by left|]. eauto. }
  wp_ok H. destruct x, H0 as (d' & -> & HT'). exists d', (set_slot T (u8 (i_no i)) (enc_inode (pure_inode i))).
  split; [done|]. split; [done|]. split; [apply slot_set_ne; try done; try lia; by apply pure_inode_length|].
  exists (u8 (i_no i)). split; [done|]. split; [lia|].
  rewrite slot_set_eq by (done || lia || by apply pure_inode_length).
  rewrite <- (app_nil_r (enc_inode _)). apply dec_enc_inode. destruct Hi. by split.
Qed.

(** What inode_sync wrote, inode_open reads: for an inode number below 256
    that is not open, the inode found in memory is the one that was synced,
    with an open count of 1 and the write lock clear, at the head of the list
    of open inodes. *)
Theorem inode_sync_open s T i io_size a b h :
  table_wf (cur_part s) (disk s) -> table (cur_part s) (disk s) = Some T ->
  inode_wf i -> 1024 <= io_size -> i_no i < 256 ->
  cache_ok s -> not_open (i_no i) s -> heap s = a :: b :: h -> a <> NULL -> b <> NULL ->
  exists s', (inode_sync i io_size ;; inode_open (i_no i)) s = Ok (a, s') /\
    inodes s' !! a = Some (set_write_deny 0 (set_i_open_cnts 1 i)) /\
    open_inodes (cur_part s') = a :: open_inodes (cur_part s) /\
    (forall x, x <> a -> inodes s' !! x = inodes s !! x).
Proof.
  intros Htw HT Hi Hio Hno Hc Hmiss Hheap Ha Hb.
  pose proof (table_length _ _ _ (tw_disk _ _ Htw) HT) as HlT. destruct (iw_no i Hi) as [H0 _].
  assert (H : wp (inode_sync i io_size ;; inode_open (i_no i)) (fun r s' => r = a /\ exists d',
    s' = opened a (pure_inode i) h (set_disk d' s)) s).
  { wp_simp. apply (inode_sync_run s T); [done..|by left|]. intros d' Htw' HT' _.
    rewrite u8_small in HT' by lia. eapply inode_open_miss; [exact Htw'|exact HT'|lia|done..|].
    split; [done|]. exists d'. rewrite slot_set_eq by (done || lia || by apply pure_inode_length).
    rewrite <- (app_nil_r (enc_inode _)), dec_enc_inode; [done|]. destruct Hi. by split. }
  wp_ok H. destruct H1 as (-> & d' & ->). eexists. split; [done|].
  unfold opened. cbn. split; [by rewrite lookup_insert_eq|]. split; [done|].
  intros x Hx. by apply lookup_insert_ne.
Qed.

(** *** Opening and closing *)

Lemma filter_not_in (a : Z) (l : list Z) : a ∉ l -> filter (fun x => x <> a) l = l.
Proof.
  induction l as [|x l IH]; intros H; [done|]. apply not_elem_of_cons in H as [H1 H2].
  rewrite list.filter_cons_True by (intros ->; done). by rewrite IH.
Qed.

Lemma wp_fs_intr_disable s (Q : intr_status -> fsys -> Prop) :
  Q (status_of (processor s)) (set_processor (disabled (processor s)) s) -> wp (on_cpu intr_disable) Q s.
Proof. intros HQ. unfold wp, on_cpu, zoom. by rewrite intr_disable_eq. Qed.

Lemma wp_fs_intr_restore c s (Q : intr_status -> fsys -> Prop) :
  processor s = disabled c -> Q INTR_OFF (set_processor c s) ->
  wp (on_cpu (intr_set_status (status_of c))) Q s.
Proof. intros Hc HQ. unfold wp, on_cpu, zoom. by rewrite Hc, intr_restore. Qed.

Lemma find_open_hit no l s a i :
  (forall x, x ∈ l -> is_Some (inodes s !! x)) ->
  (forall x j, x ∈ l -> x <> a -> inodes s !! x = Some j -> i_no j <> no) ->
  a ∈ l -> inodes s !! a = Some i -> i_no i = no ->
  find_open l no s = Ok (Some a, set_inodes (<[a := set_i_open_cnts (u32 (i_open_cnts i + 1)) i]> (inodes s)) s).
Proof.
  intros Hdom Huniq Ha Hi Hno.
  assert (H : wp (find_open l no) (fun r s' => r = Some a /\
    s' = set_inodes (<[a := set_i_open_cnts (u32 (i_open_cnts i + 1)) i]> (inodes s)) s) s).
  { induction l as [|x l IH]; cbn [find_open]; [by apply not_elem_of_nil in Ha|]. wp_simp.
    destruct (Hdom x) as [j Hj]; [by left|]. eapply wp_ld_inode; [done|].
    destruct (decide (x = a)) as [->|Hne].
    - rewrite Hj in Hi. simplify_eq. rewrite Z.eqb_refl. wp_simp.
      eapply wp_st_inode; [done|]. by wp_simp.
    - rewrite (proj2 (Z.eqb_neq _ _)) by (apply (Huniq x); [by left|done|done]).
      apply elem_of_cons in Ha as [Ha|Ha]; [by subst|].
      apply IH; [intros; apply Hdom; by right|intros y k Hy; apply Huniq; by right|done]. }
  wp_ok H. by destruct H0 as [-> ->].
Qed.

(** The cache holds one inode per number, each with a count that can grow. *)
Definition cache_wf (s : fsys) : Prop :=
  cache_ok s /\
  (forall a i, a ∈ open_inodes (cur_part s) -> inodes s !! a = Some i -> 1 <= i_open_cnts i < 2 ^ 32 - 1) /\
  (forall a b i j, a ∈ open_inodes (cur_part s) -> b ∈ open_inodes (cur_part s) ->
     inodes s !! a = Some i -> inodes s !! b = Some j -> i_no i = i_no j -> a = b).

(** The two ways inode_open can go. *)
Lemma inode_open_run s T no a b h (Q : Z -> fsys -> Prop) :
  table_wf (cur_part s) (disk s) -> table (cur_part s) (disk s) = Some T ->
  0 <= no < 4096 -> cache_wf s -> heap s = a :: b :: h -> a <> NULL -> b <> NULL ->
  (forall x i, x ∈ open_inodes (cur_part s) -> inodes s !! x = Some i -> i_no i = no ->
     Q x (set_inodes (<[x := set_i_open_cnts (i_open_cnts i + 1) i]> (inodes s)) s)) ->
  (not_open no s -> Q a (opened a (dec_inode (slot T no)) h s)) ->
  wp (inode_open no) Q s.
Proof.
  intros Htw HT Hno (Hok & Hcnt & Huniq) Hheap Ha Hb Hhit Hmiss.
  destruct (decide (Exists (fun x => i_no <$> inodes s !! x = Some no)
    (open_inodes (cur_part s)))) as [Hex|Hnex].
  - apply list.Exists_exists in Hex as (x & Hx & (i & Hi & Hino)%fmap_Some).
    unfold inode_open. wp_simp. unfold wp at 1.
    rewrite (find_open_hit no _ s x i); [|apply Hok| |done..].
    + rewrite u32_small; [by apply Hhit|]. pose proof (Hcnt x i Hx Hi). lia.
    + intros y j Hy Hne Hj Hjno. apply Hne. apply (Huniq y x j i); congruence.
  - assert (Hn : not_open no s).
    { intros x i Hx Hi Hino. apply Hnex, list.Exists_exists. exists x. split; [done|]. rewrite Hi. cbn. by rewrite Hino. }
    by eapply inode_open_miss; [..|apply Hmiss].
Qed.

Lemma inode_close_run s a i (Q : unit -> fsys -> Prop) :
  inodes s !! a = Some i -> 1 <= i_open_cnts i < 2 ^ 32 -> a ∈ open_inodes (cur_part s) ->
  (i_open_cnts i <> 1 -> Q tt (set_inodes (<[a := set_i_open_cnts (i_open_cnts i - 1) i]> (inodes s)) s)) ->
  (i_open_cnts i = 1 ->
     Q tt (set_inodes (delete a (inodes s))
       (set_part (set_open_inodes (filter (fun x => x <> a) (open_inodes (cur_part s))) (cur_part s)) s))) ->
  wp (inode_close a) Q s.
Proof.
  intros Hi Hcnt Ha Hmore Hlast. unfold inode_close. wp_simp. apply wp_fs_intr_disable. wp_simp.
  eapply wp_ld_inode; [exact Hi|]. wp_simp. eapply wp_st_inode; [exact Hi|]. wp_simp.
  rewrite u32_small by lia. destruct (Z.eqb_spec (i_open_cnts i - 1) 0) as [Hz|Hz]; wp_simp.
  - unfold open_remove. wp_simp. apply wp_valid. split; [by apply bool_decide_eq_true|]. wp_simp.
    apply wp_fs_intr_restore; [done|]. wp_simp. specialize (Hlast ltac:(lia)).
    cbn -[filter list_filter] in *. rewrite delete_insert_eq. by destruct s as [? [] ? ? ? ? ? ? ?].
  - apply wp_fs_intr_restore; [done|]. wp_simp. specialize (Hmore ltac:(lia)).
    by destruct s as [? [] ? ? ? ? ? ? ?].
Qed.

(** The list of open inodes after the head is taken out again. *)
Lemma filter_head (a : Z) (l : list Z) : a ∉ l -> filter (fun x => x <> a) (a :: l) = l.
Proof.
  intros Ha. rewrite list.filter_cons_False by (intros Hx; by apply Hx). by apply filter_not_in.
Qed.

Lemma not_cached a s : cache_ok s -> inodes s !! a = None -> a ∉ open_inodes (cur_part s).
Proof. intros [_ Hdom] Hf Hin. destruct (Hdom a Hin). congruence. Qed.

(** inode_close undoes inode_open. Whether the inode was cached or came
    from disk, opening and closing it succeeds and leaves the disk, the inodes
    in memory and their counts, the list of open inodes, the interrupt flag
    and the rest of the state as they were; only memory for the copy and the
    read buffer was taken from the allocator. *)
Theorem inode_open_close s T no a b h :
  table_wf (cur_part s) (disk s) -> table (cur_part s) (disk s) = Some T ->
  0 <= no < 4096 -> cache_wf s -> heap s = a :: b :: h -> a <> NULL -> b <> NULL ->
  inodes s !! a = None ->
  exists h', (do x <- inode_open no; inode_close x) s = Ok (tt, set_heap h' s).
Proof.
  intros Htw HT Hno Hc Hheap Ha Hb Hfresh.
  assert (H : wp (do x <- inode_open no; inode_close x) (fun _ s' => exists h', s' = set_heap h' s) s).
  { wp_simp. apply (inode_open_run s T no a b h); [done..| |].
    - intros x i Hx Hi Hino. pose proof (proj1 (proj2 Hc) x i Hx Hi) as Hcnt.
      eapply inode_close_run; [apply lookup_insert_eq|cbn; lia|done| |cbn; lia].
      intros _. exists (heap s). cbn. rewrite insert_insert_eq. unfold set_i_open_cnts at 1 2. cbn.
      replace (i_open_cnts i + 1 - 1) with (i_open_cnts i) by lia.
      rewrite insert_id; [by destruct s|]. by destruct i.
    - intros _. eapply inode_close_run; [apply lookup_insert_eq|cbn; lia|by left|cbn; lia|].
      intros _. exists h. destruct Hc as [Hok _]. unfold opened. cbn -[filter list_filter].
      rewrite filter_head by by apply not_cached. rewrite delete_insert_id by done.
      by destruct s as [? [] ? ? ? ? ? ? ?]. }
  wp_ok H. destruct x, H0 as [h' ->]. eauto.
Qed.

(** *** Giving blocks back *)

(** The block bitmap, the inode bitmap and the inode table occupy different
    sectors. *)
Record layout_wf (p : partition) : Prop := {
  lw_block : map_wf BLOCK_BITMAP p;
  lw_inode : map_wf INODE_BITMAP p;
  lw_bi : bm_lba BLOCK_BITMAP p + Z.of_nat (bm_sects BLOCK_BITMAP p) <= bm_lba INODE_BITMAP p;
  lw_it : bm_lba INODE_BITMAP p + Z.of_nat (bm_sects INODE_BITMAP p) <= inode_table_lba (sb p);
  lw_data : inode_table_lba (sb p) + 608 <= data_start_lba (sb p);
  lw_max : data_start_lba (sb p) + 8 * btmp_bytes_len (block_bitmap p) < 2 ^ 31
}.

(** The list of open inodes has no part in it. *)
Lemma map_wf_open t l p : map_wf t p -> map_wf t (set_open_inodes l p).
Proof. intros [W1 W2 W3]. destruct t; (split; [exact W1|exact W2|exact W3]). Qed.

Lemma layout_open l p : layout_wf p -> layout_wf (set_open_inodes l p).
Proof. intros []. by split; try apply map_wf_open. Qed.

(** A data block of the partition, other than its first. *)
Definition data_block (p : partition) (lba : Z) : Prop :=
  data_start_lba (sb p) < lba < data_start_lba (sb p) + 8 * btmp_bytes_len (block_bitmap p) /\
  lba <= max_lba.

(** [s] is [s0] after the blocks in [F] were given back: their bits are clear,
    the others as they were, and the disk's map is the memory's. *)
Definition blocks_freed (s0 : fsys) (F : list Z) (s : fsys) : Prop :=
  exists b d, s = set_disk d (set_part (set_block_bitmap b (cur_part s0)) s0) /\
    map_wf BLOCK_BITMAP (set_block_bitmap b (cur_part s0)) /\
    btmp_bytes_len b = btmp_bytes_len (block_bitmap (cur_part s0)) /\
    disk_wf d /\ synced BLOCK_BITMAP (set_block_bitmap b (cur_part s0)) d /\
    (forall j, 0 <= j -> bit_used b j =
       if bool_decide (data_start_lba (sb (cur_part s0)) + j ∈ F) then false
       else bit_used (block_bitmap (cur_part s0)) j) /\
    (forall k, ~ (bm_lba BLOCK_BITMAP (cur_part s0) <= k <
         bm_lba BLOCK_BITMAP (cur_part s0) + Z.of_nat (bm_sects BLOCK_BITMAP (cur_part s0))) ->
       d !! k = disk s0 !! k).

Lemma blocks_freed_nil s :
  layout_wf (cur_part s) -> disk_wf (disk s) -> synced BLOCK_BITMAP (cur_part s) (disk s) ->
  blocks_freed s [] s.
Proof.
  intros Hl Hd Hs. exists (block_bitmap (cur_part s)), (disk s).
  assert (Hp : set_block_bitmap (block_bitmap (cur_part s)) (cur_part s) = cur_part s) by by destruct (cur_part s).
  rewrite Hp. split; [by destruct s|]. split; [apply Hl|]. split; [done|]. split; [done|]. by split.
Qed.

Lemma blocks_freed_ext s0 F F' s :
  (forall x, x ∈ F <-> x ∈ F') -> blocks_freed s0 F s -> blocks_freed s0 F' s.
Proof.
  intros HF (b & d & -> & Hm & Hl & Hd & Hs & Hb & Hfr). exists b, d. do 5 (split; [done|]). split; [|done].
  intros j Hj. rewrite Hb by done. destruct (bool_decide_reflect (data_start_lba (sb (cur_part s0)) + j ∈ F)) as [H|H].
  - by rewrite bool_decide_eq_true_2 by by apply HF.
  - by rewrite bool_decide_eq_false_2 by by rewrite <- HF.
Qed.

Lemma free_block_run s0 F s lba (Q : unit -> fsys -> Prop) :
  layout_wf (cur_part s0) -> data_block (cur_part s0) lba -> blocks_freed s0 F s ->
  (forall s', blocks_freed s0 (lba :: F) s' -> Q tt s') -> wp (free_block lba) Q s.
Proof.
  intros Hlw Hlba (b & d & -> & Hm & Hl & Hd & Hs & Hb & Hfr) HQ.
  unfold data_block in Hlba. pose proof (lw_max _ Hlw) as Hmax. pose proof (lw_data _ Hlw) as Hdat.
  pose proof (lw_it _ Hlw) as Hit. pose proof (mw_lba _ _ (lw_inode _ Hlw)) as Hil.
  pose proof (mw_lba _ _ (lw_block _ Hlw)) as Hbl. unfold max_lba in *.
  set (base := data_start_lba (sb (cur_part s0))) in *.
  pose proof (mw_bitmap _ _ Hm) as Hwf. cbn [bm] in Hwf. cbn in Hwf. pose proof (wf_mem _ Hwf) as Hmem.
  unfold free_block. wp_simp.
  change (data_start_lba (sb (cur_part (set_disk d (set_part (set_block_bitmap b (cur_part s0)) s0))))) with base.
  assert (Hi : exists i, lba = base + i /\ 0 < i < 8 * btmp_bytes_len b) by (exists (lba - base); lia).
  destruct Hi as (i & -> & Hi). replace (u32 (base + i - base)) with i by (rewrite u32_small; lia).
  wp_assert. rewrite wp_on_block_bitmap. cbn [cur_part set_disk set_part block_bitmap set_block_bitmap].
  assert (H : wp (bitmap_set i 0) (fun _ b' => bitmap_wf b' /\ btmp_bytes_len b' = btmp_bytes_len b /\
    length (bits b') = length (bits b) /\
    (forall j, 0 <= j -> bit_used b' j = if j =? i then truthy 0 else bit_used b j)) b).
  { apply bitmap_set_run; [done|lia|by left|]. by intros. }
  apply wp_Ok in H as ([] & b' & Heq & Hw' & Hl' & Hm' & Hb'). apply wp_Ok. exists tt, b'. split; [done|].
  wp_simp.
  assert (Hmw : map_wf BLOCK_BITMAP (set_block_bitmap b' (cur_part s0))).
  { destruct Hm as [? Hlen ?]. split; [done| |done]. cbn in *. by rewrite Hl'. }
  apply (bitmap_sync_run _ _ (set_block_bitmap b (cur_part s0))); try done.
  - pose proof (mw_len _ _ Hm) as Hlen. cbn [bm] in *. cbn in Hlen |- *. lia.
  - cbn. rewrite Hl'. lia.
  - intros k Hk. cbn. by eapply bitmap_set_frame.
  - intros d' Hd' Hs' Hfr'. apply HQ. exists b', d'.
    split; [done|]. split; [done|]. split; [congruence|]. split; [done|]. split; [done|]. split.
    + intros j Hj. rewrite Hb' by done. fold base. destruct (Z.eqb_spec j i) as [->|Hne].
      * by rewrite bool_decide_eq_true_2 by by left.
      * rewrite Hb by done. fold base. destruct (bool_decide_reflect (base + j ∈ F)) as [H|H].
        -- by rewrite bool_decide_eq_true_2 by by right.
        -- rewrite bool_decide_eq_false_2; [done|]. intros [?|?]%elem_of_cons; [lia|done].
    + intros k Hk. rewrite Hfr'; [by apply Hfr|]. cbn. intros ->. apply Hk.
      assert (0 <= i / 4096 < Z.of_nat (bm_sects BLOCK_BITMAP (cur_part s0))); [|cbn; lia].
      pose proof (mw_len _ _ Hmw) as Hlen. cbn [bm block_bitmap set_block_bitmap] in Hlen.
      change (bm_sects BLOCK_BITMAP (set_block_bitmap b' (cur_part s0)))
        with (bm_sects BLOCK_BITMAP (cur_part s0)) in Hlen. dlia.
Qed.

(** The loop that gives back every block in use. *)
Lemma free_blocks_run s0 F s all n (Q : unit -> fsys -> Prop) :
  layout_wf (cur_part s0) -> (n <= length all)%nat ->
  Forall (fun lba => lba = 0 \/ data_block (cur_part s0) lba) (take n all) ->
  blocks_freed s0 F s ->
  (forall s', blocks_freed s0 (filter (fun x => x <> 0) (take n all) ++ F) s' -> Q tt s') ->
  wp (for_range 0 n (fun block_idx =>
    do lba <- of_option (all !! Z.to_nat block_idx);
    if negb (lba =? 0) then free_block lba else ret tt)) Q s.
Proof.
  intros Hlw Hn Hall HF HQ.
  apply (wp_for_range (fun k s' => blocks_freed s0 (filter (fun x => x <> 0) (take (Z.to_nat k) all) ++ F) s')).
  - intros k s' Hk Hs'. destruct (lookup_lt_is_Some_2 all (Z.to_nat k)) as [x Hx]; [lia|].
    wp_load Hx. replace (Z.to_nat (k + 1)) with (S (Z.to_nat k)) by lia.
    rewrite (take_S_r _ _ _ Hx), list.filter_app.
    destruct (Z.eqb_spec x 0) as [->|Hne]; cbn [negb].
    + wp_simp. rewrite list.filter_cons_False by (intros H; by apply H). by rewrite app_nil_r.
    + rewrite list.filter_cons_True by done.
      apply (free_block_run s0 (filter (fun x => x <> 0) (take (Z.to_nat k) all) ++ F)); [done| |done|].
      * assert (Hx' : take n all !! Z.to_nat k = Some x) by (by rewrite lookup_take_lt by lia).
        by destruct (Forall_lookup_1 _ _ _ _ Hall Hx').
      * intros s'' Hs''. eapply blocks_freed_ext; [|exact Hs'']. intros y.
        rewrite !elem_of_cons, !elem_of_app, list_elem_of_singleton. tauto.
  - by rewrite take_0.
  - intros s' Hs'. rewrite Z.add_0_l, Nat2Z.id in Hs'. by apply HQ.
Qed.

(** The block addresses of the inode [i], its indirect table included when it
    has one: what the disk [d] says. *)
Definition file_blocks (d : gmap Z (list Z)) (i : inode) : option (list Z) :=
  match i_sectors i !! 12%nat with
  | None => None
  | Some t =>
      if t =? 0 then Some (take 12 (i_sectors i))
      else match d !! t with
           | Some buf => Some (take 12 (i_sectors i) ++ rd32s buf 0 128 ++ [t])
           | None => None
           end
  end.

(** [s] after inode_release: [b1] and [b2] are the bitmaps. *)
Definition released (s : fsys) (b1 b2 : bitmap) (d : gmap Z (list Z)) (h : list Z) : fsys :=
  set_heap h (set_disk d (set_part (set_inode_bitmap b2 (set_block_bitmap b1 (cur_part s))) s)).

Lemma ide_read_run lba n s B (Q : list Z -> fsys -> Prop) :
  lba <= max_lba -> (0 < n)%nat -> read_sectors (disk s) lba n = Some B -> Q B s ->
  wp (ide_read lba n) Q s.
Proof.
  intros Hl Hn HB HQ. unfold ide_read. wp_simp. apply wp_ASSERT. split; [by apply Z.leb_le|].
  wp_simp. apply wp_ASSERT. split; [by apply Nat.ltb_lt|]. wp_load HB. done.
Qed.

Lemma read_one d lba b : d !! lba = Some b -> read_sectors d lba 1 = Some b.
Proof. intros H. cbn. rewrite H. by rewrite app_nil_r. Qed.

Lemma release_blocks_run s i F (Q : unit -> fsys -> Prop) :
  layout_wf (cur_part s) -> disk_wf (disk s) -> synced BLOCK_BITMAP (cur_part s) (disk s) ->
  length (i_sectors i) = 13%nat -> file_blocks (disk s) i = Some F ->
  Forall (fun lba => lba = 0 \/ data_block (cur_part s) lba) F ->
  (forall s', blocks_freed s (filter (fun x => x <> 0) F) s' -> Q tt s') ->
  wp (release_blocks i) Q s.
Proof.
  intros Hlw Hd Hs Hlen HF Hall HQ. unfold release_blocks, sector, file_blocks in *.
  destruct (i_sectors i !! 12%nat) as [t|] eqn:Ht; [|done]. wp_load Ht.
  pose proof (blocks_freed_nil s Hlw Hd Hs) as H0. unfold direct_blocks.
  destruct (Z.eqb_spec t 0) as [->|Hne]; cbn [negb]; wp_simp.
  - simplify_eq. assert (Htk : take 12 (take 12 (i_sectors i) ++ replicate 128 0) = take 12 (i_sectors i)).
    { rewrite take_app_le by (rewrite length_take; lia). by rewrite take_take. }
    apply (free_blocks_run s []); [done| | |done|].
    + rewrite length_app, length_replicate. lia.
    + by rewrite (Htk : take (Z.to_nat 12) _ = _).
    + intros s' Hs'. rewrite (Htk : take (Z.to_nat 12) _ = _), app_nil_r in Hs'. by apply HQ.
  - destruct (disk s !! t) as [buf|] eqn:Hbuf; [|done]. simplify_eq.
    apply list.Forall_app in Hall as [Hall1 [Hall2 Hall3]%list.Forall_app].
    assert (Hdb : data_block (cur_part s) t).
    { pose proof (proj1 (list.Forall_singleton _ _) Hall3) as Ht0. cbn beta in Ht0. tauto. }
    assert (Htk : take 12 (take 12 (i_sectors i) ++ replicate 128 0) = take 12 (i_sectors i)).
    { rewrite take_app_le by (rewrite length_take; lia). by rewrite take_take. }
    unfold read_table. wp_simp. eapply ide_read_run; [apply Hdb|lia|by apply read_one|].
    wp_simp. rewrite Htk. apply (free_block_run s []); [done|done|done|]. intros s1 Hs1. wp_simp.
    set (all := take 12 (i_sectors i) ++ rd32s buf 0 128).
    assert (Hla : length all = 140%nat).
    { unfold all. rewrite length_app, length_take, rd32s_length. lia. }
    apply (free_blocks_run s [t]); [done|lia| |done|].
    + rewrite take_ge by lia. by apply list.Forall_app.
    + intros s2 Hs2. apply HQ. eapply blocks_freed_ext; [|exact Hs2]. intros x.
      rewrite take_ge by lia. rewrite app_assoc. fold all. rewrite (list.filter_app _ all).
      rewrite list.filter_cons_True by done. done.
Qed.

Lemma inode_delete_run s T no (Q : unit -> fsys -> Prop) :
  table_wf (cur_part s) (disk s) -> table (cur_part s) (disk s) = Some T -> 0 <= no < 4096 ->
  (forall d', table_wf (cur_part s) d' -> table (cur_part s) d' = Some (set_slot T no (replicate 76 0)) ->
     (forall j, ~ (inode_table_lba (sb (cur_part s)) <= j < inode_table_lba (sb (cur_part s)) + 608) ->
        d' !! j = disk s !! j) -> Q tt (set_disk d' s)) ->
  wp (inode_delete no 1024) Q s.
Proof.
  intros Htw HT Hno HQ. unfold inode_delete. rewrite wp_bind. apply wp_ASSERT. split; [lia|].
  apply (patch_slot_run s T); [done..|by left|done].
Qed.

(** The rest of inode_release: the inode's bit, its slot, the cached copy. *)
Lemma release_inode_run s T no a i c h (Q : unit -> fsys -> Prop) :
  layout_wf (cur_part s) -> table_wf (cur_part s) (disk s) -> table (cur_part s) (disk s) = Some T ->
  synced BLOCK_BITMAP (cur_part s) (disk s) -> synced INODE_BITMAP (cur_part s) (disk s) ->
  0 <= no < 4096 -> no < 8 * btmp_bytes_len (inode_bitmap (cur_part s)) ->
  heap s = c :: h -> c <> NULL ->
  inodes s !! a = Some i -> i_open_cnts i = 1 -> a ∈ open_inodes (cur_part s) ->
  (forall b2 d, (forall j, 0 <= j -> bit_used b2 j = if j =? no then false else bit_used (inode_bitmap (cur_part s)) j) ->
     table (cur_part s) d = Some (set_slot T no (replicate 76 0)) ->
     synced BLOCK_BITMAP (cur_part s) d ->
     synced INODE_BITMAP (set_inode_bitmap b2 (cur_part s)) d ->
     (forall k, ~ (bm_lba INODE_BITMAP (cur_part s) <= k < inode_table_lba (sb (cur_part s)) + 608) -> d !! k = disk s !! k) ->
     Q tt (set_inodes (delete a (inodes s)) (set_heap h (set_disk d
       (set_part (set_open_inodes (filter (fun x => x <> a) (open_inodes (cur_part s)))
          (set_inode_bitmap b2 (cur_part s))) s))))) ->
  wp (on_inode_bitmap (bitmap_set no 0) ;; bitmap_sync no INODE_BITMAP ;;
      do io_buf <- sys_malloc; valid (negb (io_buf =? NULL)) ;;
      inode_delete no 1024 ;; inode_close a) Q s.
Proof.
  intros Hlw Htw HT Hsb Hsi Hno Hno2 Hheap Hc Hi Hcnt Ha HQ.
  pose proof (lw_bi _ Hlw) as Hbi. pose proof (lw_it _ Hlw) as Hit.
  pose proof (lw_inode _ Hlw) as Hmi. pose proof (mw_lba _ _ Hmi) as Hil.
  pose proof (mw_bitmap _ _ Hmi) as Hwf. pose proof (wf_mem _ Hwf) as Hmem. cbn [bm] in Hwf, Hmem.
  wp_simp. rewrite wp_on_inode_bitmap.
  assert (H : wp (bitmap_set no 0) (fun _ b' => bitmap_wf b' /\
    btmp_bytes_len b' = btmp_bytes_len (inode_bitmap (cur_part s)) /\
    length (bits b') = length (bits (inode_bitmap (cur_part s))) /\
    (forall j, 0 <= j -> bit_used b' j = if j =? no then truthy 0 else bit_used (inode_bitmap (cur_part s)) j))
    (inode_bitmap (cur_part s))).
  { apply bitmap_set_run; [done|lia|by left|]. by intros. }
  apply wp_Ok in H as ([] & b2 & Heq & Hw' & Hl' & Hm' & Hb'). apply wp_Ok. exists tt, b2. split; [done|].
  wp_simp.
  assert (Hmw : map_wf INODE_BITMAP (set_inode_bitmap b2 (cur_part s))).
  { destruct Hmi as [? Hlen ?]. split; [done| |done]. cbn in *. by rewrite Hl'. }
  apply (bitmap_sync_run _ _ (cur_part s)); try done; [apply Htw|..].
  { pose proof (mw_len _ _ Hmi) as Hlen. cbn [bm] in *. lia. }
  { cbn. rewrite Hl'. lia. }
  { intros k Hk. cbn. by eapply bitmap_set_frame. }
  intros d1 Hd1 Hs1 Hfr1. wp_simp. cbn in Hfr1.
  assert (Hin : 0 <= no / 4096 < Z.of_nat (bm_sects INODE_BITMAP (cur_part s))).
  { pose proof (mw_len _ _ Hmi) as Hlen. cbn [bm] in Hlen. dlia. }
  assert (Hout : forall k, ~ (bm_lba INODE_BITMAP (cur_part s) <= k <
      bm_lba INODE_BITMAP (cur_part s) + Z.of_nat (bm_sects INODE_BITMAP (cur_part s))) -> d1 !! k = disk s !! k).
  { intros k Hk. apply Hfr1. cbn in *. lia. }
  unfold sys_malloc. wp_simp. cbn [heap set_disk set_part]. rewrite Hheap. wp_simp.
  apply wp_valid. split; [by apply negb_true_iff, Z.eqb_neq|]. wp_simp.
  set (s1 := set_heap h (set_disk d1 (set_part (set_inode_bitmap b2 (cur_part s)) s))).
  assert (Htable : table (cur_part s1) (disk s1) = Some T).
  { rewrite <- HT. apply read_sectors_ext. intros k Hk. apply Hout. cbn in *. unfold table_sects in Hk. lia. }
  apply (inode_delete_run s1 T); [destruct Htw; by split|done|done|].
  intros d2 Htw2 HT2 Hfr2. cbn in Hfr2.
  apply (inode_close_run _ a i); [done|lia|done|lia|]. intros _. cbn -[filter list_filter set_slot].
  apply (HQ b2 d2); [done|done| | |].
  - etransitivity; [|exact Hsb]. apply read_sectors_ext. intros k Hk. rewrite Hfr2, Hout; [done|lia|cbn in *; lia].
  - etransitivity; [|exact Hs1]. apply read_sectors_ext. intros k Hk. apply Hfr2.
    change (bm_lba INODE_BITMAP (cur_part s) <= k < bm_lba INODE_BITMAP (cur_part s) +
      Z.of_nat (bm_sects INODE_BITMAP (cur_part s))) in Hk. lia.
  - intros k Hk. rewrite Hfr2, Hout; [done|lia|lia].
Qed.

(** [C19] inode_release gives back exactly what the file holds. For an inode
    that is not open elsewhere, the bits of all its blocks (the twelve direct
    ones, the indirect ones and the indirect table itself) are clear afterwards
    and no other bit of the block bitmap changed; its own bit is clear in the
    inode bitmap; both maps on disk are the maps in memory; its slot is zeroed
    and the other slots are untouched; the list of open inodes and the inodes
    in memory are as before. *)
Theorem inode_release_frees s T no a b c h F :
  layout_wf (cur_part s) -> table_wf (cur_part s) (disk s) -> table (cur_part s) (disk s) = Some T ->
  synced BLOCK_BITMAP (cur_part s) (disk s) -> synced INODE_BITMAP (cur_part s) (disk s) ->
  0 <= no < 4096 -> no < 8 * btmp_bytes_len (inode_bitmap (cur_part s)) ->
  cache_ok s -> not_open no s -> inodes s !! a = None ->
  heap s = a :: b :: c :: h -> a <> NULL -> b <> NULL -> c <> NULL ->
  i_no (dec_inode (slot T no)) = no ->
  file_blocks (disk s) (dec_inode (slot T no)) = Some F ->
  Forall (fun lba => lba = 0 \/ data_block (cur_part s) lba) F ->
  exists b1 b2 d, inode_release no s = Ok (tt, released s b1 b2 d h) /\
    (forall j, 0 <= j -> bit_used b1 j =
       if bool_decide (data_start_lba (sb (cur_part s)) + j ∈ filter (fun x => x <> 0) F) then false
       else bit_used (block_bitmap (cur_part s)) j) /\
    (forall j, 0 <= j -> bit_used b2 j = if j =? no then false else bit_used (inode_bitmap (cur_part s)) j) /\
    synced BLOCK_BITMAP (cur_part (released s b1 b2 d h)) d /\
    synced INODE_BITMAP (cur_part (released s b1 b2 d h)) d /\
    table (cur_part s) d = Some (set_slot T no (replicate 76 0)) /\
    (forall k, inode_table_lba (sb (cur_part s)) + 608 <= k -> d !! k = disk s !! k).
Proof.
  intros Hlw Htw HT Hsb Hsi Hno Hno2 Hc Hmiss Hfresh Hheap Ha Hb Hcn Hino HF Hall.
  assert (H : wp (inode_release no) (fun _ s' => exists b1 b2 d, s' = released s b1 b2 d h /\
    (forall j, 0 <= j -> bit_used b1 j =
       if bool_decide (data_start_lba (sb (cur_part s)) + j ∈ filter (fun x => x <> 0) F) then false
       else bit_used (block_bitmap (cur_part s)) j) /\
    (forall j, 0 <= j -> bit_used b2 j = if j =? no then false else bit_used (inode_bitmap (cur_part s)) j) /\
    synced BLOCK_BITMAP (cur_part (released s b1 b2 d h)) d /\
    synced INODE_BITMAP (cur_part (released s b1 b2 d h)) d /\
    table (cur_part s) d = Some (set_slot T no (replicate 76 0)) /\
    (forall k, inode_table_lba (sb (cur_part s)) + 608 <= k -> d !! k = disk s !! k)) s); cycle 1.
  { wp_ok H. destruct x, H0 as (b1 & b2 & d & -> & H'). by exists b1, b2, d. }
  unfold inode_release. rewrite wp_bind. eapply inode_open_miss; [done..|].
  set (i := dec_inode (slot T no)) in *. set (s1 := opened a i (c :: h) s).
  rewrite wp_bind. eapply wp_ld_inode; [apply lookup_insert_eq|].
  rewrite wp_bind. apply wp_ASSERT. split; [by apply Z.eqb_eq|]. rewrite wp_bind.
  assert (Hlw1 : layout_wf (cur_part s1)) by (destruct Hlw as [[] [] ? ? ? ?]; split; try done; by split).
  apply (release_blocks_run s1 _ F); [done|apply Htw|done| |done|done|].
  { apply (rd32s_length _ 16 13). }
  intros s2 (b1 & d1 & -> & Hm1 & Hl1 & Hd1 & Hs1 & Hb1 & Hfr1).
  pose proof (lw_bi _ Hlw1) as Hbi. pose proof (lw_it _ Hlw1) as Hit. pose proof (mw_lba _ _ (lw_inode _ Hlw1)) as Hil.
  set (s2 := set_disk d1 (set_part (set_block_bitmap b1 (cur_part s1)) s1)).
  assert (Hlw2 : layout_wf (cur_part s2)).
  { destruct Hlw1 as [_ [? ? ?] ? ? ? Hmx]. split; try done. cbn in *. by rewrite Hl1. }
  assert (Hreg : forall n lba, bm_lba BLOCK_BITMAP (cur_part s1) + Z.of_nat (bm_sects BLOCK_BITMAP (cur_part s1)) <= lba ->
    read_sectors d1 lba n = read_sectors (disk s) lba n).
  { intros n lba Hl. apply read_sectors_ext. intros k Hk. apply (Hfr1 k). lia. }
  apply (release_inode_run s2 T no a (set_i_open_cnts 1 i) c h); try done.
  - destruct Htw. by split.
  - etransitivity; [|exact HT]. apply Hreg. cbn in *. lia.
  - etransitivity; [|exact Hsi]. by apply Hreg.
  - apply lookup_insert_eq.
  - by left.
  - intros b2 d Hb2 HT2 Hsb2 Hsi2 Hfr2. exists b1, b2, d. split.
    { unfold released, s2, s1, opened. cbn -[filter list_filter].
      rewrite filter_head by by apply not_cached. rewrite delete_insert_id by done.
      by destruct s as [? [] ? ? ? ? ? ? ?]. }
    do 5 (split; [done|]).
    intros k Hk. rewrite Hfr2 by (cbn in *; lia). apply (Hfr1 k). cbn in *. lia.
Qed.

(** *** Witnesses, on the demonstration partition *)

Definition demo_table : list Z := default [] (table demo_part demo_disk).

Lemma demo_table_eq : table demo_part demo_disk = Some demo_table.
Proof.
  assert (H : bool_decide (is_Some (table demo_part demo_disk)) = true) by (vm_compute; reflexivity).
  apply bool_decide_eq_true in H as [T HT]. unfold demo_table. by rewrite HT.
Qed.

Lemma demo_table_wf : table_wf demo_part demo_disk.
Proof. split; [exact demo_disk_wf|vm_compute; congruence..]. Qed.

Lemma demo_cache_wf : cache_wf demo_fs.
Proof.
  split; [split; [constructor|]|split]; cbn; intros; exfalso; by eapply not_elem_of_nil.
Qed.

Lemma demo_not_open no : not_open no demo_fs.
Proof. intros a i H. by apply not_elem_of_nil in H. Qed.

Lemma inode_sync_one_slot_witness :
  exists d' T', inode_sync demo_inode 1024 demo_fs = Ok (tt, set_disk d' demo_fs) /\
    table demo_part d' = Some T' /\
    dec_inode (slot T' (u8 6)) = set_write_deny 0 (set_i_open_cnts 0 demo_inode) /\
    (forall j, 0 <= j < 4096 -> j <> u8 6 -> slot T' j = slot demo_table j) /\
    (forall j, ~ (4 <= j < 4 + 608) -> d' !! j = demo_disk !! j).
Proof.
  apply (inode_sync_one_slot demo_fs demo_table demo_inode 1024 demo_table_wf demo_table_eq demo_inode_wf).
  lia.
Defined.

Definition big_inode : inode := Inode 260 0 1 0 (replicate 13 0).
Lemma big_inode_wf : inode_wf big_inode.
Proof.
  split; cbn; try (unfold is_u32; lia). repeat (apply Forall_cons_2; [unfold is_u32; lia|]). constructor.
Qed.

Lemma inode_sync_truncates_witness :
  exists d' T', inode_sync big_inode 1024 demo_fs = Ok (tt, set_disk d' demo_fs) /\
    table demo_part d' = Some T' /\ slot T' 260 = slot demo_table 260 /\
    exists j, 0 <= j < 256 /\ j <> 260 /\
      dec_inode (slot T' j) = set_write_deny 0 (set_i_open_cnts 0 big_inode).
Proof.
  apply (inode_sync_truncates demo_fs demo_table big_inode 1024 demo_table_wf demo_table_eq big_inode_wf);
    cbn; lia.
Defined.

Lemma inode_sync_open_witness :
  exists s', (inode_sync demo_inode 1024 ;; inode_open 6) demo_fs = Ok (0xc0300000, s') /\
    inodes s' !! 0xc0300000 = Some (set_write_deny 0 (set_i_open_cnts 1 demo_inode)) /\
    open_inodes (cur_part s') = [0xc0300000] /\
    (forall x, x <> 0xc0300000 -> inodes s' !! x = inodes demo_fs !! x).
Proof.
  apply (inode_sync_open demo_fs demo_table demo_inode 1024 0xc0300000 0xc0300200 (drop 2 demo_heap)
    demo_table_wf demo_table_eq demo_inode_wf); try done. apply demo_cache_wf.
Defined.

Lemma inode_open_close_witness :
  exists h', (do x <- inode_open 6; inode_close x) demo_fs = Ok (tt, set_heap h' demo_fs).
Proof.
  apply (inode_open_close demo_fs demo_table 6 0xc0300000 0xc0300200 (drop 2 demo_heap)
    demo_table_wf demo_table_eq); try done. apply demo_cache_wf.
Defined.

Lemma demo_layout_wf : layout_wf demo_part.
Proof. split; [apply demo_map_ok..|vm_compute; congruence| vm_compute; congruence|vm_compute; congruence|vm_compute; congruence]. Qed.

Lemma demo_slot6 : dec_inode (slot demo_table 6) = demo_inode.
Proof. vm_compute. reflexivity. Qed.

Lemma inode_release_frees_witness :
  exists b1 b2 d, inode_release 6 demo_fs = Ok (tt, released demo_fs b1 b2 d (drop 3 demo_heap)) /\
    (forall j, 0 <= j -> bit_used b1 j =
       if bool_decide (612 + j ∈ filter (fun x => x <> 0) ([614; 615; 617] ++ replicate 9 0)) then false
       else bit_used (demo_map 47) j) /\
    (forall j, 0 <= j -> bit_used b2 j = if j =? 6 then false else bit_used (demo_map 67) j) /\
    synced BLOCK_BITMAP (cur_part (released demo_fs b1 b2 d (drop 3 demo_heap))) d /\
    synced INODE_BITMAP (cur_part (released demo_fs b1 b2 d (drop 3 demo_heap))) d /\
    table demo_part d = Some (set_slot demo_table 6 (replicate 76 0)) /\
    (forall k, 4 + 608 <= k -> d !! k = demo_disk !! k).
Proof.
  apply (inode_release_frees demo_fs demo_table 6 0xc0300000 0xc0300200 0xc0300600 (drop 3 demo_heap)
    ([614; 615; 617] ++ replicate 9 0) demo_layout_wf demo_table_wf demo_table_eq
    (demo_synced BLOCK_BITMAP) (demo_synced INODE_BITMAP)); rewrite ?demo_slot6; try done.
  - apply demo_cache_wf.
  - repeat (apply Forall_cons_2; [vm_compute; intuition congruence|]). constructor.
Defined.
