(* ===== verification/FileOps.v ===== *)
(** * Open files (fs/file.c, second part)

    The system-wide table of open files, a task's table of descriptors, and
    opening, closing, reading and writing a file. A file is named by its index
    in [file_table]; a buffer of the caller is the list of its bytes. Messages
    are not modelled. file_create, which needs the directory operations, is in
    Dir. *)

From Stdlib Require Import ZArith Lia.
From stdpp Require Import base numbers list gmap option.
From S2P Require Import Prelude Bitmap Intr DList FsTypes Blocks Inode.

Local Open Scope Z_scope.

(** file_table[fd] and the assignment to it. *)
Definition ld_file (fd : Z) : M fsys file :=
  do s <- get; of_option (file_table s !! Z.to_nat fd).
Definition st_file (fd : Z) (f : file) : M fsys unit :=
  do s <- get;
  of_option (file_table s !! Z.to_nat fd) ;;
  put (set_file_table (<[Z.to_nat fd := f]> (file_table s)) s).

(** get_free_slot_in_global: the first three entries are never used. *)
Definition get_free_slot_in_global : M fsys Z :=
  do fd_idx <- loop 30 (fun fd_idx =>
    if fd_idx <? MAX_FILE_OPEN then
      do f <- ld_file fd_idx;
      if fd_inode f =? NULL then ret (inr fd_idx) else ret (inl (fd_idx + 1))
    else ret (inr fd_idx)) 3;
  if fd_idx =? MAX_FILE_OPEN then ret (-1) else ret fd_idx.

Definition pcb_fd_install (global_fd_idx : Z) : M fsys Z :=
  do local_fd_idx <- loop 6 (fun local_fd_idx =>
    if local_fd_idx <? MAX_FILES_OPEN_PER_PROC then
      do s <- get;
      do g <- of_option (fd_table s !! Z.to_nat local_fd_idx);
      if g =? -1 then
        put (set_fd_table (<[Z.to_nat local_fd_idx := global_fd_idx]> (fd_table s)) s) ;;
        ret (inr local_fd_idx)
      else ret (inl (local_fd_idx + 1))
    else ret (inr local_fd_idx)) 3;
  if local_fd_idx =? MAX_FILES_OPEN_PER_PROC then ret (-1) else ret local_fd_idx.

Definition writable (flag : Z) : bool :=
  truthy (Z.land flag O_WRONLY) || truthy (Z.land flag O_RDWR).

Definition file_open (inode_no flag : Z) : M fsys Z :=
  do fd_idx <- get_free_slot_in_global;
  if fd_idx =? -1 then ret (-1)
  else
    do a <- inode_open inode_no;
    st_file fd_idx (File 0 flag a) ;;
    if writable flag then
      do old_status <- on_cpu intr_disable;
      do i <- ld_inode a;
      if write_deny i =? 0 then
        st_inode a (set_write_deny 1 i) ;;
        on_cpu (intr_set_status old_status) ;;
        pcb_fd_install fd_idx
      else
        on_cpu (intr_set_status old_status) ;;
        ret (-1)
    else pcb_fd_install fd_idx.

(** file_close of an element of the table, whose address is not NULL. *)
Definition file_close (fd : Z) : M fsys Z :=
  do f <- ld_file fd;
  do i <- ld_inode (fd_inode f);
  st_inode (fd_inode f) (set_write_deny 0 i) ;;
  inode_close (fd_inode f) ;;
  st_file fd (File (fd_pos f) (fd_flag f) NULL) ;;
  ret 0.

(** ** file_write *)

(** i_sectors[k] = v *)
Definition set_sector (a k v : Z) : M fsys unit :=
  do i <- ld_inode a;
  sector i k ;;
  st_inode a (set_i_sectors (<[Z.to_nat k := v]> (i_sectors i)) i).

(** all_blocks[k] = v *)
Definition set_word (all_blocks : list Z) (k v : Z) : M fsys (list Z) :=
  of_option (all_blocks !! Z.to_nat k) ;;
  ret (<[Z.to_nat k := v]> all_blocks).

(** The index of the block at [lba], and its bit written to disk. *)
Definition sync_block (block_lba : Z) : M fsys unit :=
  do p <- gets cur_part;
  bitmap_sync (u32 (block_lba - data_start_lba (sb p))) BLOCK_BITMAP.

(** The first block of a file that has none; false is the early return. *)
Definition first_block (a : Z) : M fsys bool :=
  do i <- ld_inode a;
  do s0 <- sector i 0;
  if s0 =? 0 then
    do block_lba <- block_bitmap_alloc;
    if block_lba =? -1 then ret false
    else
      set_sector a 0 (u32 block_lba) ;;
      do p <- gets cur_part;
      ASSERT (negb (u32 (block_lba - data_start_lba (sb p)) =? 0)) ;;
      sync_block block_lba ;;
      ret true
  else ret true.

(** One more block for the file: the body of the three allocation loops.
    [direct] blocks go to the inode too. None is the early return. *)
Definition extend (direct : Z -> bool) (a : Z) (x : Z * list Z) : M fsys (option (Z * list Z)) :=
  let '(block_idx, all_blocks) := x in
  do block_lba <- block_bitmap_alloc;
  if block_lba =? -1 then ret None
  else
    do all_blocks <-
      (if direct block_idx then
         do i <- ld_inode a;
         do old <- sector i block_idx;
         ASSERT (old =? 0) ;;
         do all_blocks <- set_word all_blocks block_idx (u32 block_lba);
         set_sector a block_idx (u32 block_lba) ;;
         ret all_blocks
       else set_word all_blocks block_idx (u32 block_lba));
    sync_block block_lba ;;
    ret (Some (block_idx + 1, all_blocks)).

(** The loops themselves: while (block_idx < file_will_use_blocks). *)
Definition extend_to (direct : Z -> bool) (a will_use : Z) (x : Z * list Z) : M fsys (option (list Z)) :=
  loop (S (Z.to_nat (will_use - x.1))) (fun x =>
    if x.1 <? will_use then
      do r <- extend direct a x;
      match r with
      | Some x' => ret (inl x')
      | None => ret (inr None)
      end
    else ret (inr (Some x.2))) x.

(** Collect in [all_blocks] the address of every block the write touches,
    allocating what the file lacks. [used] and [will_use] are
    file_has_used_blocks and file_will_use_blocks. *)
Definition collect_write (a used will_use : Z) : M fsys (option (list Z)) :=
  let all_blocks := replicate 140 0 in
  do i <- ld_inode a;
  if will_use - used =? 0 then
    if will_use <=? 12 then
      do lba <- sector i (used - 1);
      do all_blocks <- set_word all_blocks (used - 1) lba;
      ret (Some all_blocks)
    else
      do t <- sector i 12;
      ASSERT (negb (t =? 0)) ;;
      do all_blocks <- read_table all_blocks t;
      ret (Some all_blocks)
  else if will_use <=? 12 then
    do lba <- sector i (used - 1);
    ASSERT (negb (lba =? 0)) ;;
    do all_blocks <- set_word all_blocks (used - 1) lba;
    extend_to (fun _ => true) a will_use (used, all_blocks)
  else if used <=? 12 then
    do lba <- sector i (used - 1);
    do all_blocks <- set_word all_blocks (used - 1) lba;
    do block_lba <- block_bitmap_alloc;
    if block_lba =? -1 then ret None
    else
      do i <- ld_inode a;
      do t <- sector i 12;
      ASSERT (t =? 0) ;;
      set_sector a 12 (u32 block_lba) ;;
      sync_block block_lba ;;
      do r <- extend_to (fun k => k <? 12) a will_use (used, all_blocks);
      match r with
      | None => ret None
      | Some all_blocks =>
          ide_write (u32 block_lba) (words (drop 12 all_blocks)) 1 ;;
          ret (Some all_blocks)
      end
  else
    do t <- sector i 12;
    ASSERT (negb (t =? 0)) ;;
    do all_blocks <- read_table all_blocks t;
    do r <- extend_to (fun _ => false) a will_use (used, all_blocks);
    match r with
    | None => ret None
    | Some all_blocks =>
        ide_write t (words (drop 12 all_blocks)) 1 ;;
        ret (Some all_blocks)
    end.

(** The loop that writes the data: the locals are [src], [bytes_written],
    [size_left] and [first_write_block]. *)
Definition write_chunk (fd count : Z) (all_blocks : list Z) (x : list Z * Z * Z * bool) :
    M fsys ((list Z * Z * Z * bool) + Z) :=
  let '(src, bytes_written, size_left, first_write_block) := x in
  if bytes_written <? count then
    do f <- ld_file fd;
    do i <- ld_inode (fd_inode f);
    let sec_idx := i_size i / BLOCK_SIZE in
    do sec_lba <- of_option (all_blocks !! Z.to_nat sec_idx);
    let sec_off_bytes := i_size i mod BLOCK_SIZE in
    let sec_left_bytes := BLOCK_SIZE - sec_off_bytes in
    let chunk_size := if size_left <? sec_left_bytes then size_left else sec_left_bytes in
    do io_buf <- (if first_write_block then ide_read sec_lba 1 else ret (replicate 512 0));
    let io_buf := splice io_buf (Z.to_nat sec_off_bytes) (take (Z.to_nat chunk_size) src) in
    ide_write sec_lba io_buf 1 ;;
    st_inode (fd_inode f) (set_i_size (u32 (i_size i + chunk_size)) i) ;;
    st_file fd (File (u32 (fd_pos f + chunk_size)) (fd_flag f) (fd_inode f)) ;;
    ret (inl (drop (Z.to_nat chunk_size) src, bytes_written + chunk_size, size_left - chunk_size, false))
  else ret (inr bytes_written).

Definition file_write (fd : Z) (buf : list Z) (count : Z) : M fsys Z :=
  do f <- ld_file fd;
  let a := fd_inode f in
  do i <- ld_inode a;
  if BLOCK_SIZE * 140 <? u32 (i_size i + count) then ret (-1)
  else
    do io_buf <- sys_malloc;
    if io_buf =? NULL then ret (-1)
    else
      do all_blocks <- sys_malloc;
      if all_blocks =? NULL then ret (-1)
      else
        do ok <- first_block a;
        if negb ok then ret (-1)
        else
          do i <- ld_inode a;
          let file_has_used_blocks := i_size i / BLOCK_SIZE + 1 in
          let file_will_use_blocks := u32 (i_size i + count) / BLOCK_SIZE + 1 in
          ASSERT (file_will_use_blocks <=? 140) ;;
          do r <- collect_write a file_has_used_blocks file_will_use_blocks;
          match r with
          | None => ret (-1)
          | Some all_blocks =>
              do i <- ld_inode a;
              do f <- ld_file fd;
              st_file fd (File (u32 (i_size i - 1)) (fd_flag f) (fd_inode f)) ;;
              do bytes_written <- loop 150 (write_chunk fd count all_blocks) (buf, 0, count, true);
              do i <- ld_inode a;
              inode_sync i 512 ;;
              ret (s32 bytes_written)
          end.

(** ** file_read *)

(** while (block_idx < end) all_blocks[block_idx] = i_sectors[block_idx++] *)
Fixpoint copy_sectors (i : inode) (all_blocks : list Z) (block_idx : Z) (n : nat) : M fsys (list Z) :=
  match n with
  | O => ret all_blocks
  | S n' =>
      do lba <- sector i block_idx;
      do all_blocks <- set_word all_blocks block_idx lba;
      copy_sectors i all_blocks (block_idx + 1) n'
  end.

Definition collect_read (i : inode) (start_idx end_idx : Z) : M fsys (list Z) :=
  let all_blocks := replicate 140 0 in
  if u32 (start_idx - end_idx) =? 0 then
    ASSERT (end_idx =? start_idx) ;;
    if end_idx <? 12 then
      do lba <- sector i end_idx;
      set_word all_blocks end_idx lba
    else
      do t <- sector i 12;
      read_table all_blocks t
  else if end_idx <? 12 then
    copy_sectors i all_blocks start_idx (Z.to_nat (end_idx + 1 - start_idx))
  else if start_idx <? 12 then
    do all_blocks <- copy_sectors i all_blocks start_idx (Z.to_nat (12 - start_idx));
    do t <- sector i 12;
    ASSERT (negb (t =? 0)) ;;
    read_table all_blocks t
  else
    do t <- sector i 12;
    ASSERT (negb (t =? 0)) ;;
    read_table all_blocks t.

(** The loop that reads the data: the locals are what was stored in the
    caller's buffer, [bytes_read] and [size_left]. *)
Definition read_chunk (fd size : Z) (all_blocks : list Z) (x : list Z * Z * Z) :
    M fsys ((list Z * Z * Z) + (Z * list Z)) :=
  let '(dst, bytes_read, size_left) := x in
  if bytes_read <? size then
    do f <- ld_file fd;
    let sec_idx := fd_pos f / BLOCK_SIZE in
    do sec_lba <- of_option (all_blocks !! Z.to_nat sec_idx);
    let sec_off_bytes := fd_pos f mod BLOCK_SIZE in
    let sec_left_bytes := BLOCK_SIZE - sec_off_bytes in
    let chunk_size := if size_left <? sec_left_bytes then size_left else sec_left_bytes in
    do io_buf <- ide_read sec_lba 1;
    let dst := dst ++ take (Z.to_nat chunk_size) (drop (Z.to_nat sec_off_bytes) io_buf) in
    st_file fd (File (u32 (fd_pos f + chunk_size)) (fd_flag f) (fd_inode f)) ;;
    ret (inl (dst, bytes_read + chunk_size, size_left - chunk_size))
  else ret (inr (bytes_read, dst)).

(** The value returned and the bytes stored in the buffer. *)
Definition file_read (fd count : Z) : M fsys (Z * list Z) :=
  do f <- ld_file fd;
  do i <- ld_inode (fd_inode f);
  let '(size, eof) :=
    if i_size i <? u32 (fd_pos f + count)
    then let size := u32 (i_size i - fd_pos f) in (size, size =? 0)
    else (count, false) in
  if eof then ret (-1, [])
  else
    do io_buf <- sys_malloc;
    if io_buf =? NULL then ret (-1, [])
    else
      do all_blocks <- sys_malloc;
      if all_blocks =? NULL then ret (-1, [])
      else
        let block_read_start_idx := fd_pos f / BLOCK_SIZE in
        let block_read_end_idx := u32 (fd_pos f + size) / BLOCK_SIZE in
        ASSERT ((block_read_start_idx <? 139) && (block_read_end_idx <? 139)) ;;
        do all_blocks <- collect_read i block_read_start_idx block_read_end_idx;
        do '(bytes_read, dst) <- loop 150 (read_chunk fd size all_blocks) ([], 0, size);
        ret (s32 bytes_read, dst).

(** ** What a file holds *)

(** The 140 block addresses of an inode, read off the disk. *)
Definition block_map (d : gmap Z (list Z)) (i : inode) : option (list Z) :=
  match i_sectors i !! 12%nat with
  | None => None
  | Some t =>
      if t =? 0 then Some (direct_blocks i)
      else match d !! t with
           | Some buf => Some (take 12 (i_sectors i) ++ rd32s buf 0 128)
           | None => None
           end
  end.

(** Byte [k] of a file with blocks [lbas] is byte [k mod 512] of block
    [k / 512]. *)
Definition holds (d : gmap Z (list Z)) (lbas data : list Z) : Prop :=
  forall k b, data !! k = Some b ->
    exists lba sec, lbas !! (k / 512)%nat = Some lba /\ lba <= max_lba /\ d !! lba = Some sec /\
      length sec = 512%nat /\ sec !! (k mod 512)%nat = Some b.

Lemma wp_ld_file fd f s (Q : file -> fsys -> Prop) :
  file_table s !! Z.to_nat fd = Some f -> Q f s -> wp (ld_file fd) Q s.
Proof. intros Hf HQ. unfold ld_file. wp_load Hf. done. Qed.

Lemma wp_st_file fd f f0 s (Q : unit -> fsys -> Prop) :
  file_table s !! Z.to_nat fd = Some f0 -> Q tt (set_file_table (<[Z.to_nat fd := f]> (file_table s)) s) ->
  wp (st_file fd f) Q s.
Proof. intros Hf HQ. unfold st_file. wp_load Hf. done. Qed.

(** Part of a sector is part of the file. *)
Lemma holds_chunk d lbas data pos n :
  holds d lbas data -> (0 < n)%nat -> (pos mod 512 + n <= 512)%nat -> (pos + n <= length data)%nat ->
  exists lba sec, lbas !! (pos / 512)%nat = Some lba /\ lba <= max_lba /\ d !! lba = Some sec /\
    take n (drop (pos mod 512) sec) = take n (drop pos data).
Proof.
  intros Hh Hn Hoff Hlen.
  destruct (lookup_lt_is_Some_2 data pos) as [b Hb]; [lia|].
  destruct (Hh pos b Hb) as (lba & sec & Hlba & Hmax & Hsec & Hl & _). exists lba, sec.
  do 3 (split; [done|]). apply list_eq. intros j. destruct (decide (j < n)%nat) as [Hj|Hj].
  - rewrite !lookup_take_lt, !lookup_drop by done.
    destruct (lookup_lt_is_Some_2 data (pos + j)) as [c Hc]; [lia|]. rewrite Hc.
    destruct (Hh _ _ Hc) as (lba' & sec' & Hlba' & _ & Hsec' & _ & Hbyte).
    assert (Hq : ((pos + j) / 512 = pos / 512 /\ (pos + j) mod 512 = pos mod 512 + j)%nat).
    { pose proof (Nat.div_mod_eq pos 512). pose proof (Nat.div_mod_eq (pos + j) 512).
      pose proof (Nat.mod_upper_bound pos 512 ltac:(lia)). pose proof (Nat.mod_upper_bound (pos + j) 512 ltac:(lia)). nia. }
    destruct Hq as [Hq Hr]. rewrite Hq in Hlba'. rewrite Hr in Hbyte. by simplify_eq.
  - by rewrite !lookup_take_ge by lia.
Qed.

(** The sectors the model's tables are read from. *)
Lemma sector_run i k v s (Q : Z -> fsys -> Prop) :
  i_sectors i !! Z.to_nat k = Some v -> Q v s -> wp (sector i k) Q s.
Proof. intros Hv HQ. unfold sector. wp_load Hv. done. Qed.

Lemma set_word_run all k v s (Q : list Z -> fsys -> Prop) :
  (Z.to_nat k < length all)%nat -> Q (<[Z.to_nat k := v]> all) s -> wp (set_word all k v) Q s.
Proof.
  intros Hk HQ. destruct (lookup_lt_is_Some_2 all (Z.to_nat k) Hk) as [x Hx].
  unfold set_word. wp_load Hx. done.
Qed.

Lemma read_table_run all t buf s (Q : list Z -> fsys -> Prop) :
  t <= max_lba -> disk s !! t = Some buf -> Q (take 12 all ++ rd32s buf 0 128) s ->
  wp (read_table all t) Q s.
Proof.
  intros Ht Hbuf HQ. unfold read_table. wp_simp.
  eapply ide_read_run; [done|lia|exact (read_one _ _ _ Hbuf)|]. by wp_simp.
Qed.

Lemma copy_sectors_run i n idx all s (Q : list Z -> fsys -> Prop) :
  length (i_sectors i) = 13%nat -> 0 <= idx -> (Z.to_nat idx + n <= 13)%nat -> length all = 140%nat ->
  (forall all', length all' = 140%nat ->
     (forall k, (Z.to_nat idx <= k < Z.to_nat idx + n)%nat -> all' !! k = i_sectors i !! k) -> Q all' s) ->
  wp (copy_sectors i all idx n) Q s.
Proof.
  intros Hl. revert idx all Q.
  assert (Hgen : forall idx all (Q : list Z -> fsys -> Prop), 0 <= idx -> (Z.to_nat idx + n <= 13)%nat -> length all = 140%nat ->
    (forall all', length all' = 140%nat ->
     (forall k, (Z.to_nat idx <= k < Z.to_nat idx + n)%nat -> all' !! k = i_sectors i !! k) ->
     (forall k, (k < Z.to_nat idx)%nat -> all' !! k = all !! k) -> Q all' s) ->
    wp (copy_sectors i all idx n) Q s).
  { induction n as [|n IH]; intros idx all Q H0 Hn Ha HQ; cbn [copy_sectors].
    { wp_simp. apply HQ; [done|lia|done]. }
    destruct (lookup_lt_is_Some_2 (i_sectors i) (Z.to_nat idx)) as [v Hv]; [lia|].
    wp_simp. eapply sector_run; [exact Hv|]. wp_simp. apply set_word_run; [lia|].
    apply IH; [lia|lia|by rewrite length_insert|]. intros all' Hl' Hk Hlow. apply HQ; [done| |].
    - intros k Hk'. destruct (decide (k = Z.to_nat idx)) as [->|]; [|apply Hk; lia].
      rewrite Hlow by lia. rewrite list_lookup_insert_eq by lia. done.
    - intros k Hk'. rewrite Hlow by lia. by rewrite list_lookup_insert_ne by lia. }
  intros idx all Q H0 Hn Ha HQ. apply Hgen; [done..|]. intros. by apply HQ.
Qed.

Lemma block_map_low d i lbas k :
  length (i_sectors i) = 13%nat -> block_map d i = Some lbas -> 0 <= k < 12 ->
  lbas !! Z.to_nat k = i_sectors i !! Z.to_nat k.
Proof.
  intros Hl Hmap Hk. unfold block_map, direct_blocks in Hmap.
  assert (H : forall rest, (take 12 (i_sectors i) ++ rest) !! Z.to_nat k = i_sectors i !! Z.to_nat k).
  { intros rest. rewrite lookup_app_l by (rewrite length_take; lia). apply lookup_take_lt. lia. }
  destruct (i_sectors i !! 12%nat) as [t|]; [|done].
  destruct (t =? 0); [by simplify_eq|]. destruct (d !! t); [by simplify_eq|done].
Qed.

(** The blocks between [start_idx] and [end_idx] are collected. *)
Lemma collect_read_run i lbas start_idx end_idx s (Q : list Z -> fsys -> Prop) :
  length (i_sectors i) = 13%nat -> block_map (disk s) i = Some lbas ->
  0 <= start_idx <= end_idx -> end_idx < 139 ->
  (12 <= end_idx -> exists t, i_sectors i !! 12%nat = Some t /\ t <> 0 /\ t <= max_lba) ->
  (forall all, length all = 140%nat ->
     (forall k, start_idx <= k <= end_idx -> all !! Z.to_nat k = lbas !! Z.to_nat k) -> Q all s) ->
  wp (collect_read i start_idx end_idx) Q s.
Proof.
  intros Hl Hmap Hse Hend Hind HQ. unfold collect_read.
  assert (Hlow : forall k, 0 <= k < 12 -> lbas !! Z.to_nat k = i_sectors i !! Z.to_nat k) by
    (intros; by apply (block_map_low (disk s))).
  assert (Heq : (u32 (start_idx - end_idx) =? 0) = (start_idx =? end_idx)) by
    (unfold u32; destruct (Z.eqb_spec start_idx end_idx); [subst; by rewrite Z.sub_diag|apply Z.eqb_neq; dlia]).
  rewrite Heq. clear Heq.
  assert (Htab : forall all, length all = 140%nat -> 12 <= end_idx ->
    (forall k, start_idx <= k < 12 -> all !! Z.to_nat k = lbas !! Z.to_nat k) ->
    exists t buf, i_sectors i !! 12%nat = Some t /\ t <> 0 /\ t <= max_lba /\ disk s !! t = Some buf /\
      Q (take 12 all ++ rd32s buf 0 128) s).
  { intros all Ha H12 Hk. destruct (Hind H12) as (t & Ht & Hne & Hmax). exists t.
    unfold block_map in Hmap. rewrite Ht in Hmap. destruct (Z.eqb_spec t 0) as [|_]; [done|].
    destruct (disk s !! t) as [buf|] eqn:Hbuf; [|done]. simplify_eq. exists buf.
    do 4 (split; [done|]). apply HQ; [rewrite length_app, length_take, rd32s_length; lia|].
    intros k Hk'. destruct (decide (k < 12)).
    - rewrite <- Hk by lia. by rewrite lookup_app_l, lookup_take_lt by (rewrite ?length_take; lia).
    - by rewrite !lookup_app_r, !length_take, Ha, Hl by (rewrite length_take; lia). }
  assert (Hla : length (replicate 140 0) = 140%nat) by done.
  set (all0 := replicate 140 0) in *. clearbody all0.
  destruct (Z.eqb_spec start_idx end_idx) as [<-|Hne]; [wp_assert|];
    (destruct (Z.ltb_spec end_idx 12) as [He|He] || destruct (Z.ltb_spec start_idx 12) as [He|He]).
  - destruct (lookup_lt_is_Some_2 (i_sectors i) (Z.to_nat start_idx)) as [v Hv]; [lia|].
    wp_simp. eapply sector_run; [exact Hv|]. wp_simp. apply set_word_run; [lia|]. apply HQ; [by rewrite length_insert|].
    intros k Hk. replace k with start_idx by lia. rewrite list_lookup_insert_eq by lia.
    rewrite Hlow by lia. done.
  - destruct (Htab all0 Hla He) as (t & buf & Ht & _ & Hmax & Hbuf & HQt); [lia|].
    wp_simp. eapply sector_run; [exact Ht|]. wp_simp. by eapply read_table_run.
  - apply copy_sectors_run; [done|lia|lia|done|]. intros all' Ha' Hk. apply HQ; [done|].
    intros k Hk'. rewrite Hk by lia. symmetry. apply Hlow. lia.
  - destruct (Z.ltb_spec start_idx 12) as [Hs|Hs]; wp_simp.
    + apply copy_sectors_run; [done|lia|lia|done|]. intros all' Ha' Hk.
      destruct (Htab all' Ha' He) as (t & buf & Ht & Hnz & Hmax & Hbuf & HQt).
      { intros k Hk'. rewrite Hk by lia. symmetry. apply Hlow. lia. }
      wp_simp. eapply sector_run; [exact Ht|]. wp_simp. apply wp_ASSERT.
      split; [by apply negb_true_iff, Z.eqb_neq|]. by eapply read_table_run.
    + destruct (Htab all0 Hla He) as (t & buf & Ht & Hnz & Hmax & Hbuf & HQt); [lia|].
      eapply sector_run; [exact Ht|]. wp_simp. apply wp_ASSERT.
      split; [by apply negb_true_iff, Z.eqb_neq|]. by eapply read_table_run.
Qed.

(** *** The read loop *)

Lemma to_nat_div z : 0 <= z -> (Z.to_nat z / 512)%nat = Z.to_nat (z / 512).
Proof. intros Hz. by rewrite Z2Nat.inj_div by lia. Qed.
Lemma to_nat_mod z : 0 <= z -> (Z.to_nat z mod 512)%nat = Z.to_nat (z mod 512).
Proof. intros Hz. by rewrite Z2Nat.inj_mod by lia. Qed.

(** The state after [n] bytes were read from position [pos]. *)
Definition read_state (s : fsys) (fd : Z) (f : file) (n : Z) : fsys :=
  set_file_table (<[Z.to_nat fd := File (fd_pos f + n) (fd_flag f) (fd_inode f)]> (file_table s)) s.

Lemma read_loop_run s fd f data lbas all size (Q : Z * list Z -> fsys -> Prop) :
  file_table s !! Z.to_nat fd = Some f ->
  holds (disk s) lbas data -> 0 <= fd_pos f -> 0 <= size -> fd_pos f + size <= Z.of_nat (length data) ->
  fd_pos f + size < 139 * 512 ->
  (forall k, fd_pos f / 512 <= k <= (fd_pos f + size) / 512 -> all !! Z.to_nat k = lbas !! Z.to_nat k) ->
  Q (size, take (Z.to_nat size) (drop (Z.to_nat (fd_pos f)) data)) (read_state s fd f size) ->
  wp (loop 150 (read_chunk fd size all) ([], 0, size)) Q (read_state s fd f 0).
Proof.
  intros Hf Hh H0 Hs0 Hsz Hmax Hall HQ.
  assert (Hfd : (Z.to_nat fd < length (file_table s))%nat) by by eapply lookup_lt_Some.
  apply (wp_loop (fun x s' => let '(dst, br, lft) := x in
      0 <= br <= size /\ lft = size - br /\
      dst = take (Z.to_nat br) (drop (Z.to_nat (fd_pos f)) data) /\ s' = read_state s fd f br)
    (fun x _ => let '(dst, br, lft) := x in if br <? size
       then Z.to_nat ((fd_pos f + size + 511) / 512 - (fd_pos f + br) / 512) else 0%nat)).
  2: by (split; [lia|]; split; [lia|]; done).
  2: { destruct (0 <? size); [|lia]. dlia. }
  intros [[dst br] lft] s' (Hbr & -> & -> & ->). unfold read_chunk.
  destruct (Z.ltb_spec br size) as [Hlt|Hge]; wp_simp.
  2: { replace br with size by lia. exact HQ. }
  eapply wp_ld_file; [by apply list_lookup_insert_eq|]. cbn [fd_pos]. wp_simp.
  set (pos := fd_pos f + br) in *. unfold BLOCK_SIZE, SECTOR_SIZE.
  set (chunk := if size - br <? 512 - pos mod 512 then size - br else 512 - pos mod 512).
  assert (Hc : 0 < chunk <= size - br /\ pos mod 512 + chunk <= 512 /\
    (chunk = size - br \/ pos mod 512 + chunk = 512)).
  { unfold chunk. pose proof (Z.mod_pos_bound pos 512 ltac:(lia)). destruct (Z.ltb_spec (size - br) (512 - pos mod 512)); lia. }
  destruct Hc as (Hc & Hoff & Hor). clearbody chunk.
  assert (Hpos : 0 <= pos) by (unfold pos; lia).
  pose proof (to_nat_div pos Hpos) as Hqd. pose proof (to_nat_mod pos Hpos) as Hqm.
  destruct (holds_chunk (disk s) lbas data (Z.to_nat pos) (Z.to_nat chunk) Hh) as (lba & sec & Hlba & Hlm & Hsec & Hchunk).
  { lia. } { rewrite Hqm. pose proof (Z.mod_pos_bound pos 512). lia. } { unfold pos in *. lia. }
  rewrite Hqd in Hlba. rewrite Hqm in Hchunk.
  assert (Hallk : all !! Z.to_nat (pos / 512) = Some lba).
  { rewrite Hall; [done|]. unfold pos. split; apply Z.div_le_mono; lia. }
  wp_load Hallk. eapply ide_read_run; [done|lia|exact (read_one _ _ _ Hsec)|]. wp_simp.
  rewrite Hchunk. eapply wp_st_file; [by apply list_lookup_insert_eq|]. wp_simp.
  split; [split; [lia|split; [lia|split]]|].
  - replace (Z.to_nat (br + chunk)) with (Z.to_nat br + Z.to_nat chunk)%nat by lia.
    rewrite <- take_take_drop, drop_drop.
    by replace (Z.to_nat pos) with (Z.to_nat (fd_pos f) + Z.to_nat br)%nat by (unfold pos; lia).
  - replace (u32 (pos + chunk)) with (fd_pos f + (br + chunk)) by (rewrite u32_small; unfold pos; lia).
    unfold read_state. cbn. by rewrite list_insert_insert_eq.
  - cbn beta iota. destruct (Z.ltb_spec (br + chunk) size) as [Hl|Hl]; unfold pos in *; dlia.
Qed.

Lemma sys_malloc_run s a h (Q : Z -> fsys -> Prop) :
  heap s = a :: h -> Q a (set_heap h s) -> wp sys_malloc Q s.
Proof. intros Hh HQ. unfold sys_malloc. wp_simp. rewrite Hh. by wp_simp. Qed.

Lemma file_read_run s fd f i lbas data count a b h :
  file_table s !! Z.to_nat fd = Some f -> inodes s !! fd_inode f = Some i ->
  length (i_sectors i) = 13%nat -> block_map (disk s) i = Some lbas ->
  holds (disk s) lbas data -> Z.of_nat (length data) = i_size i ->
  0 <= fd_pos f <= i_size i -> 0 < count -> fd_pos f + count < 2 ^ 32 ->
  let size := Z.min count (i_size i - fd_pos f) in
  fd_pos f + size < 139 * 512 ->
  (12 * 512 <= fd_pos f + size -> exists t, i_sectors i !! 12%nat = Some t /\ t <> 0 /\ t <= max_lba) ->
  heap s = a :: b :: h -> a <> NULL -> b <> NULL ->
  wp (file_read fd count) (fun r s' =>
    if size =? 0 then r = (-1, []) /\ s' = s
    else r = (size, take (Z.to_nat size) (drop (Z.to_nat (fd_pos f)) data)) /\
         s' = read_state (set_heap h s) fd f size) s.
Proof.
  intros Hf Hi Hl Hmap Hh Hlen Hpos Hcnt Hmax size Hend Hind Hheap Ha Hb.
  assert (Hsz : 0 <= size) by lia.
  unfold file_read. wp_simp. eapply wp_ld_file; [exact Hf|]. wp_simp. eapply wp_ld_inode; [exact Hi|].
  rewrite (u32_small (fd_pos f + count)) by lia.
  assert (Hsel : (if i_size i <? fd_pos f + count
     then (u32 (i_size i - fd_pos f), u32 (i_size i - fd_pos f) =? 0) else (count, false)) = (size, size =? 0)).
  { unfold size. destruct (Z.ltb_spec (i_size i) (fd_pos f + count)).
    - rewrite u32_small, Z.min_r by lia. done.
    - rewrite Z.min_l by lia. rewrite (proj2 (Z.eqb_neq count 0)) by lia. done. }
  rewrite Hsel. clear Hsel. destruct (Z.eqb_spec size 0) as [->|Hnz]; wp_simp; [done|].
  eapply sys_malloc_run; [exact Hheap|]. rewrite (proj2 (Z.eqb_neq a NULL)) by done. wp_simp.
  eapply sys_malloc_run; [done|]. rewrite (proj2 (Z.eqb_neq b NULL)) by done. wp_simp.
  unfold BLOCK_SIZE, SECTOR_SIZE. rewrite (u32_small (fd_pos f + size)) by lia.
  assert (Hidx : 0 <= fd_pos f / 512 <= (fd_pos f + size) / 512 /\ (fd_pos f + size) / 512 < 139) by dlia.
  apply wp_ASSERT. split; [lia|]. wp_simp.
  apply (collect_read_run i lbas); [done|done|lia|lia|intros; apply Hind; dlia|].
  intros all Hla Hall. wp_simp.
  replace (set_heap h (set_heap (b :: h) s)) with (read_state (set_heap h s) fd f 0).
  2: { unfold read_state. rewrite Z.add_0_r. destruct f. cbn in *. rewrite list_insert_id by done. by destruct s. }
  eapply (read_loop_run (set_heap h s)); [done|exact Hh|lia..|exact Hall|].
  wp_simp. split; [|done]. by rewrite s32_small by lia.
Qed.

(** ** The component's properties *)

(** [C20] file_read of an open file whose blocks hold [data] returns the bytes
    asked for from the current position, cut at the end of the file, with
    their number, and moves the position past them; at the end of the file it
    returns -1 and stores nothing. The disk and every other open file are
    untouched. The read must end before block 139. *)
Theorem file_read_slice s fd f i lbas data count a b h :
  file_table s !! Z.to_nat fd = Some f -> inodes s !! fd_inode f = Some i ->
  length (i_sectors i) = 13%nat -> block_map (disk s) i = Some lbas ->
  holds (disk s) lbas data -> Z.of_nat (length data) = i_size i ->
  0 <= fd_pos f <= i_size i -> 0 < count -> fd_pos f + count < 2 ^ 32 ->
  let size := Z.min count (i_size i - fd_pos f) in
  fd_pos f + size < 139 * 512 ->
  (12 * 512 <= fd_pos f + size -> exists t, i_sectors i !! 12%nat = Some t /\ t <> 0 /\ t <= max_lba) ->
  heap s = a :: b :: h -> a <> NULL -> b <> NULL ->
  file_read fd count s =
    if size =? 0 then Ok ((-1, []), s)
    else Ok ((size, take (Z.to_nat size) (drop (Z.to_nat (fd_pos f)) data)),
             read_state (set_heap h s) fd f size).
Proof.
  intros Hf Hi Hl Hmap Hh Hlen Hpos Hcnt Hmax size Hend Hind Hheap Ha Hb.
  pose proof (file_read_run s fd f i lbas data count a b h Hf Hi Hl Hmap Hh Hlen Hpos Hcnt Hmax Hend Hind Hheap Ha Hb) as H.
  fold size in H. wp_ok H. destruct (size =? 0); destruct H0 as [-> ->]; done.
Qed.

(** [C38] The tail of the longest files cannot be read: file_write lets a file
    grow to 71679 bytes, 140 blocks, but file_read asserts block indices below
    139, so a read that reaches byte 71168 stops the kernel. *)
Theorem file_read_tail_panics s fd f i count a b h :
  file_table s !! Z.to_nat fd = Some f -> inodes s !! fd_inode f = Some i ->
  0 <= fd_pos f -> 139 * 512 <= fd_pos f + count <= i_size i -> i_size i < 140 * 512 ->
  0 < count -> heap s = a :: b :: h -> a <> NULL -> b <> NULL ->
  file_read fd count s = Panic.
Proof.
  intros Hf Hi Hpos Hend Hsz Hcnt Hheap Ha Hb.
  unfold file_read, ld_file, ld_inode, sys_malloc, bind, get, of_option.
  rewrite Hf. cbn [ret]. unfold ret at 1. rewrite Hi. unfold ret at 1.
  rewrite (u32_small (fd_pos f + count)), (proj2 (Z.ltb_ge (i_size i) (fd_pos f + count))) by lia.
  cbn [ret]. rewrite Hheap. unfold put, ret at 1. rewrite (proj2 (Z.eqb_neq a NULL)) by done.
  cbn [heap set_heap]. unfold ret at 1. rewrite (proj2 (Z.eqb_neq b NULL)) by done.
  unfold ASSERT, BLOCK_SIZE, SECTOR_SIZE. rewrite (u32_small (fd_pos f + count)) by lia.
  rewrite (proj2 (Z.ltb_ge ((fd_pos f + count) / 512) 139)) by dlia. by rewrite andb_false_r.
Qed.

(** *** Witnesses: inode 6 of the demonstration partition, open as file 3 *)

(** [holds] as a test. *)
Definition holds_b (d : gmap Z (list Z)) (lbas data : list Z) : bool :=
  forallb (fun k =>
    match data !! k, lbas !! (k / 512)%nat with
    | Some b, Some lba =>
        match d !! lba with
        | Some sec => (lba <=? max_lba) && bool_decide (length sec = 512%nat) && bool_decide (sec !! (k mod 512)%nat = Some b)
        | None => false
        end
    | _, _ => false
    end) (seq 0 (length data)).

Lemma holds_b_holds d lbas data : holds_b d lbas data = true -> holds d lbas data.
Proof.
  unfold holds_b. intros H k b Hb. rewrite forallb_forall in H. specialize (H k).
  rewrite Hb in H. destruct (lbas !! (k / 512)%nat) as [lba|]; [|discriminate H; apply in_seq; apply lookup_lt_Some in Hb; lia].
  destruct (d !! lba) as [sec|] eqn:E; [|discriminate H; apply in_seq; apply lookup_lt_Some in Hb; lia].
  rewrite !andb_true_iff, Z.leb_le, !bool_decide_eq_true in H.
  exists lba, sec. destruct H as [[? ?] ?]; [apply in_seq; apply lookup_lt_Some in Hb; lia|]. done.
Qed.

Definition demo_data : list Z := take 1300 (demo_text 0 ++ demo_text 512 ++ demo_text 1024).
Definition demo_open : fsys :=
  set_file_table (<[3%nat := File 500 0 0xc0290000]> (replicate 32 (File 0 0 0)))
    (set_inodes {[0xc0290000 := set_i_open_cnts 1 demo_inode]} demo_fs).

Lemma file_read_slice_witness :
  file_read 3 700 demo_open =
    Ok ((700, take 700 (drop 500 demo_data)),
        read_state (set_heap (drop 2 demo_heap) demo_open) 3 (File 500 0 0xc0290000) 700).
Proof.
  apply (file_read_slice demo_open 3 (File 500 0 0xc0290000) (set_i_open_cnts 1 demo_inode)
    (direct_blocks demo_inode) demo_data 700 0xc0300000 0xc0300200 (drop 2 demo_heap)); try done.
  - apply holds_b_holds. vm_compute. reflexivity.
Defined.

Definition big_open : fsys :=
  set_file_table (<[3%nat := File 71000 0 0xc0290000]> (replicate 32 (File 0 0 0)))
    (set_inodes {[0xc0290000 := set_i_size 71600 demo_inode]} demo_fs).

Lemma file_read_tail_panics_witness : file_read 3 200 big_open = Panic.
Proof.
  apply (file_read_tail_panics big_open 3 (File 71000 0 0xc0290000) (set_i_size 71600 demo_inode) 200
    0xc0300000 0xc0300200 (drop 2 demo_heap)); try done.
Defined.
