(* ===== verification/FileWrite.v ===== *)
(** * Writing a file (fs/file.c: file_write)

    What file_write, of [FileOps], does to the disk, the block bitmap and the
    inode: the allocation of the blocks that a file lacks, with the table of
    the indirect ones, and the loop that stores the data. *)

From Stdlib Require Import ZArith Lia.
From stdpp Require Import base numbers list gmap option.
From S2P Require Import Prelude Bitmap Intr DList FsTypes Blocks Inode FileOps.

Local Open Scope Z_scope.

(** ** Files on disk *)

(** The first sector that the block bitmap counts. *)
Definition area (p : partition) : Z := data_start_lba (sb p).

Definition in_map (p : partition) (k : Z) : Prop :=
  bm_lba BLOCK_BITMAP p <= k < bm_lba BLOCK_BITMAP p + Z.of_nat (bm_sects BLOCK_BITMAP p).

Definition is_free (p : partition) (x : Z) : Prop :=
  area p <= x < area p + 8 * btmp_bytes_len (block_bitmap p) /\ bit_used (block_bitmap p) (x - area p) = false.
Definition in_use (p : partition) (x : Z) : Prop := data_block p x /\ bit_used (block_bitmap p) (x - area p) = true.

(** The blocks [lbas] of a file, in order, as the inode and its table give
    them; each of them is [own]ed. *)
Record blocks_on (own : Z -> Prop) (d : gmap Z (list Z)) (i : inode) (lbas : list Z) : Prop := {
  bo_sectors : length (i_sectors i) = 13%nat;
  bo_max : (length lbas <= 140)%nat;
  bo_direct : forall k, (k < 12)%nat -> i_sectors i !! k = Some (default 0 (lbas !! k));
  bo_table : (length lbas <= 12)%nat -> i_sectors i !! 12%nat = Some 0;
  bo_indirect : (12 < length lbas)%nat -> exists t buf, i_sectors i !! 12%nat = Some t /\ own t /\ t ∉ lbas /\
    d !! t = Some buf /\ forall k x, lbas !! (12 + k)%nat = Some x -> rd32 buf (4 * k) = x;
  bo_blocks : forall x, x ∈ lbas -> own x /\ is_Some (d !! x);
  bo_nodup : NoDup lbas
}.

(** A file of the bytes [data]: it has a block for every byte and for the next
    one to be written, but for a file that was never written. *)
Record file_on (p : partition) (d : gmap Z (list Z)) (i : inode) (lbas data : list Z) : Prop := {
  fo_blocks : blocks_on (in_use p) d i lbas;
  fo_size : i_size i = Z.of_nat (length data);
  fo_count : (lbas = [] /\ data = []) \/ length lbas = S (length data / 512);
  fo_holds : holds d lbas data
}.

(** The partition that is mounted, with its bitmap on disk. *)
Record part_ok (s : fsys) : Prop := {
  po_layout : layout_wf (cur_part s);
  po_disk : disk_wf (disk s);
  po_synced : synced BLOCK_BITMAP (cur_part s) (disk s);
  po_free : forall x, is_free (cur_part s) x -> data_block (cur_part s) x /\ is_Some (disk s !! x)
}.

(** ** The state while a file is written *)

(** The state [s0] with another inode at [a], block bitmap, disk and table of
    open files. *)
Definition fs_at (s0 : fsys) (a : Z) (i : inode) (b : bitmap) (d : gmap Z (list Z)) (ft : list file) : fsys :=
  Fsys d (set_block_bitmap b (cur_part s0)) (<[a := i]> (inodes s0)) (dirs s0) ft (fd_table s0)
    (cwd_inode_nr s0) (processor s0) (heap s0).

(** The blocks [F] have been taken and the data blocks [W] have been written. *)
Record taken (s0 : fsys) (F W : list Z) (b : bitmap) (d : gmap Z (list Z)) : Prop := {
  tk_len : btmp_bytes_len b = btmp_bytes_len (block_bitmap (cur_part s0));
  tk_map : map_wf BLOCK_BITMAP (set_block_bitmap b (cur_part s0));
  tk_disk : disk_wf d;
  tk_sync : synced BLOCK_BITMAP (set_block_bitmap b (cur_part s0)) d;
  tk_bits : forall j, 0 <= j -> bit_used b j =
    bool_decide (area (cur_part s0) + j ∈ F) || bit_used (block_bitmap (cur_part s0)) j;
  tk_frame : forall k, ~ in_map (cur_part s0) k -> k ∉ W -> d !! k = disk s0 !! k;
  tk_sectors : forall k, ~ in_map (cur_part s0) k -> is_Some (disk s0 !! k) -> is_Some (d !! k);
  tk_nodup : NoDup F;
  tk_free : forall x, x ∈ F -> is_free (cur_part s0) x
}.

(** [x] has been taken in memory and the bitmap on disk does not show it yet. *)
Record pending (s0 : fsys) (F W : list Z) (b : bitmap) (d : gmap Z (list Z)) (x : Z) (b' : bitmap) : Prop := {
  pd_taken : taken s0 F W b d;
  pd_free : is_free (cur_part s0) x;
  pd_new : x ∉ F;
  pd_alloc : alloc_post b (x - area (cur_part s0)) b'
}.

(** The blocks that a file may have then. *)
Definition owned (s0 : fsys) (F : list Z) (x : Z) : Prop :=
  data_block (cur_part s0) x /\ (x ∈ F \/ bit_used (block_bitmap (cur_part s0)) (x - area (cur_part s0)) = true).

(** ** Taking blocks *)

Lemma taken_start s0 : part_ok s0 -> taken s0 [] [] (block_bitmap (cur_part s0)) (disk s0).
Proof.
  intros Hpart. destruct Hpart as [Hl Hd Hs Hf]. assert (E : set_block_bitmap (block_bitmap (cur_part s0)) (cur_part s0) = cur_part s0) by by destruct (cur_part s0).
  split; rewrite ?E; try done.
  - apply Hl.
  - apply NoDup_nil_2.
  - intros x []%not_elem_of_nil.
Qed.

Lemma data_not_map s0 x : part_ok s0 -> area (cur_part s0) <= x -> ~ in_map (cur_part s0) x.
Proof.
  intros [Hl _ _ _]. destruct Hl as [Hb Hi Hbi Hit Hdat _]. unfold in_map, area. pose proof (mw_lba _ _ Hi). lia.
Qed.

Lemma area_bounds s0 : part_ok s0 -> 0 <= area (cur_part s0) /\ area (cur_part s0) + 8 * btmp_bytes_len (block_bitmap (cur_part s0)) < 2 ^ 31.
Proof.
  intros [Hl _ _ _]. destruct Hl as [Hb Hi Hbi Hit Hdat Hm]. unfold area. pose proof (mw_lba _ _ Hi). lia.
Qed.

(** The direct blocks in an inode, and the addresses from [lo] on in the array
    that file_write collects. *)
Definition secs_ok (i : inode) (lbas : list Z) : Prop :=
  length (i_sectors i) = 13%nat /\ forall k, (k < 12)%nat -> i_sectors i !! k = Some (default 0 (lbas !! k)).
Definition all_ok (all : list Z) (lo : nat) (lbas : list Z) : Prop :=
  length all = 140%nat /\ forall k, (lo <= k < length lbas)%nat -> all !! k = lbas !! k.

Lemma all_ok_snoc all lo lbas x : all_ok all lo lbas -> (length lbas < 140)%nat -> all_ok (<[length lbas := x]> all) lo (lbas ++ [x]).
Proof.
  intros [Hl Ha] Hlt. split; [by rewrite length_insert|]. intros k Hk. rewrite length_app in Hk. cbn in Hk.
  destruct (decide (k = length lbas)) as [->|Hne].
  - by rewrite list_lookup_insert_eq, list_lookup_middle by lia.
  - rewrite list_lookup_insert_ne, lookup_app_l by lia. apply Ha. lia.
Qed.

Lemma secs_ok_snoc i lbas x : secs_ok i lbas -> secs_ok (if (length lbas <? 12)%nat then set_i_sectors (<[length lbas := x]> (i_sectors i)) i else i) (lbas ++ [x]).
Proof.
  intros [Hl Hs]. destruct (Nat.ltb_spec (length lbas) 12) as [Hlt|Hge].
  - split; [cbn; by rewrite length_insert|]. intros k Hk. cbn. destruct (decide (k = length lbas)) as [->|Hne].
    + by rewrite list_lookup_insert_eq, list_lookup_middle by lia.
    + rewrite list_lookup_insert_ne, Hs by lia. f_equal. destruct (decide (k < length lbas)%nat).
      * by rewrite lookup_app_l by done.
      * rewrite (lookup_ge_None_2 lbas), (lookup_ge_None_2 (lbas ++ [x])); [done|rewrite length_app; cbn; lia|lia].
  - split; [done|]. intros k Hk. rewrite Hs by done. by rewrite lookup_app_l by lia.
Qed.

(** The inode in memory, in these states. *)
Lemma ld_inode_at s0 a i b d ft (Q : inode -> fsys -> Prop) : Q i (fs_at s0 a i b d ft) -> wp (ld_inode a) Q (fs_at s0 a i b d ft).
Proof. intros HQ. eapply wp_ld_inode; [by apply lookup_insert_eq|done]. Qed.

Lemma st_inode_at s0 a i i' b d ft (Q : unit -> fsys -> Prop) : Q tt (fs_at s0 a i' b d ft) -> wp (st_inode a i') Q (fs_at s0 a i b d ft).
Proof.
  intros HQ. eapply wp_st_inode; [by apply lookup_insert_eq|]. unfold set_inodes. cbn. rewrite insert_insert_eq. exact HQ.
Qed.

Lemma set_sector_at s0 a i b d ft k v old (Q : unit -> fsys -> Prop) : i_sectors i !! Z.to_nat k = Some old ->
  Q tt (fs_at s0 a (set_i_sectors (<[Z.to_nat k := v]> (i_sectors i)) i) b d ft) -> wp (set_sector a k v) Q (fs_at s0 a i b d ft).
Proof.
  intros Hk HQ. unfold set_sector. wp_simp. apply ld_inode_at. wp_simp. eapply sector_run; [exact Hk|]. by apply st_inode_at.
Qed.

(** A data sector is written. *)
Lemma taken_write s0 F W b d x buf : part_ok s0 -> taken s0 F W b d -> area (cur_part s0) <= x -> length buf = 512%nat ->
  taken s0 F (x :: W) b (<[x := buf]> d).
Proof.
  intros Hpart [T1 T2 T3 T4 T5 T6 T7 T8 T9] Hx Hl. pose proof (data_not_map s0 x Hpart Hx) as Hn. split; try done.
  - by apply map_Forall_insert_2.
  - unfold synced in *. rewrite <- T4. apply read_sectors_ext. intros k Hk. apply lookup_insert_ne. intros <-. apply Hn, Hk.
  - intros k Hk1 Hk2. apply not_elem_of_cons in Hk2 as [Hne Hk2]. rewrite lookup_insert_ne by done. by apply T6.
  - intros k Hk1 Hk2. destruct (decide (x = k)) as [<-|Hne]; [rewrite lookup_insert_eq; by eexists|].
    rewrite lookup_insert_ne by done. by apply T7.
Qed.

Lemma write_run s0 a i F W b d ft x buf (Q : unit -> fsys -> Prop) :
  part_ok s0 -> taken s0 F W b d -> area (cur_part s0) <= x -> x <= max_lba -> is_Some (d !! x) -> length buf = 512%nat ->
  (taken s0 F (x :: W) b (<[x := buf]> d) -> Q tt (fs_at s0 a i b (<[x := buf]> d) ft)) -> wp (ide_write x buf 1) Q (fs_at s0 a i b d ft).
Proof.
  intros Hpart Ht Hx Hmax [old Hold] Hl HQ. unfold ide_write. wp_assert. apply wp_ASSERT. split; [done|]. wp_simp.
  apply wp_of_option. exists (<[x := buf]> d). split.
  - cbn [write_sectors disk fs_at]. rewrite Hold, Hl. cbn [Nat.leb]. by rewrite take_ge by lia.
  - wp_simp. apply HQ. by apply taken_write.
Qed.

(** Sectors that nobody has written. *)
Lemma kept s0 F W b d x : part_ok s0 -> taken s0 F W b d -> area (cur_part s0) <= x -> x ∉ W -> d !! x = disk s0 !! x.
Proof. intros Hpart Ht Hx Hn. apply (tk_frame _ _ _ _ _ Ht); [by apply data_not_map|done]. Qed.

Lemma owned_mono s0 F F' x : owned s0 F x -> owned s0 (F ++ F') x.
Proof. intros [Hd [Hf|Hu]]; (split; [done|]); [left; apply elem_of_app; by left|by right]. Qed.

Lemma owned_new s0 F W b d x : part_ok s0 -> taken s0 F W b d -> x ∈ F -> owned s0 F x /\ is_Some (d !! x).
Proof.
  intros Hpart Ht Hx. destruct (po_free _ Hpart x (tk_free _ _ _ _ _ Ht x Hx)) as [Hd Hs]. split; [by split; [|left]|].
  apply (tk_sectors _ _ _ _ _ Ht); [|done]. apply data_not_map; [done|]. destruct Hd as [Hd _]. unfold area. lia.
Qed.

(** A block of the file is not one that is taken later. *)
Lemma owned_fresh s0 F F' W b d x : taken s0 (F ++ F') W b d -> owned s0 F x -> x ∉ F'.
Proof.
  intros Ht [_ [Hf|Hu]] Hin.
  - pose proof (tk_nodup _ _ _ _ _ Ht) as (_ & Hdis & _)%list.NoDup_app. by apply (Hdis x).
  - destruct (tk_free _ _ _ _ _ Ht x) as [_ Hfree]; [apply elem_of_app; by right|]. congruence.
Qed.

Lemma grown_blocks s0 F F' W' b b' d d' i i' lbas new : part_ok s0 -> taken s0 F [] b d -> blocks_on (owned s0 F) d i lbas ->
  taken s0 (F ++ F') W' b' d' -> NoDup new -> (forall x, x ∈ new -> x ∈ F') -> secs_ok i' (lbas ++ new) -> (length (lbas ++ new) <= 140)%nat ->
  ((length (lbas ++ new) <= 12)%nat -> i_sectors i' !! 12%nat = Some 0) ->
  ((12 < length (lbas ++ new))%nat -> exists t buf, i_sectors i' !! 12%nat = Some t /\ owned s0 (F ++ F') t /\ t ∉ lbas ++ new /\
    d' !! t = Some buf /\ forall k x, (lbas ++ new) !! (12 + k)%nat = Some x -> rd32 buf (4 * k) = x) ->
  blocks_on (owned s0 (F ++ F')) d' i' (lbas ++ new).
Proof.
  intros Hpart Ht Hb Ht' Hnd Hsub [Hs1 Hs2] Hmax Htab Hind. destruct Hb as [B1 B2 B3 B4 B5 B6 B7]. split; try done.
  - intros x [Hx|Hx]%elem_of_app.
    + destruct (B6 x Hx) as [Ho Hsome]. split; [by apply owned_mono|]. pose proof (proj1 (proj1 Ho)) as Hr.
      assert (Ha : area (cur_part s0) <= x) by (unfold area; lia).
      apply (tk_sectors _ _ _ _ _ Ht'); [by apply data_not_map|]. rewrite (kept s0 F [] b d x) in Hsome; [done..|]. apply not_elem_of_nil.
    + apply (owned_new _ _ W' b' d'); [done|done|]. apply elem_of_app. right. by apply Hsub.
  - apply list.NoDup_app. split; [done|]. split; [|done]. intros x Hx Hn. apply (owned_fresh _ _ _ _ _ _ x Ht'); [by apply B6|by apply Hsub].
Qed.

Section write.
Context (s0 : fsys) (a : Z) (fr : list Z) (Hpart : part_ok s0).
Context (Hfr : NoDup fr) (Hfree : forall x, x ∈ fr -> is_free (cur_part s0) x).

Lemma alloc_run i F W b d ft (Q : Z -> fsys -> Prop) :
  taken s0 F W b d -> (length F < length fr)%nat ->
  (forall x b', pending s0 F W b d x b' -> Q x (fs_at s0 a i b' d ft)) -> wp block_bitmap_alloc Q (fs_at s0 a i b d ft).
Proof using Hpart Hfr Hfree.
  intros Ht Hlen HQ. destruct (fresh_elem fr F Hfr Hlen) as (x & Hx & Hnew). destruct (Hfree x Hx) as [Hxr Hxf].
  destruct (area_bounds _ Hpart) as [Ha Hmax]. unfold area in Ha, Hmax.
  pose proof (tk_len _ _ _ _ _ Ht) as Hl.
  apply (block_bitmap_alloc_run _ (x - area (cur_part s0))); cbn [cur_part fs_at block_bitmap sb set_block_bitmap].
  - apply (mw_bitmap _ _ (tk_map _ _ _ _ _ Ht)).
  - rewrite Hl. lia.
  - rewrite (tk_bits _ _ _ _ _ Ht) by lia. rewrite bool_decide_false; [done|]. by replace (_ + (x - _)) with x by lia.
  - done.
  - rewrite Hl. done.
  - intros j b' Hal. apply HQ. pose proof Hal as ((Hj & Hjf & _) & _). cbn [cur_part fs_at block_bitmap set_block_bitmap] in Hj, Hjf.
    rewrite (tk_bits _ _ _ _ _ Ht) in Hjf by lia. apply orb_false_iff in Hjf as [Hjn Hjf]. apply bool_decide_eq_false in Hjn. rewrite Hl in Hj.
    fold (area (cur_part s0)). split; [done| |done|].
    + split; [lia|]. by replace (_ + j - _) with j by lia.
    + by replace (_ + j - _) with j by lia.
Qed.

Lemma sync_run i F W b d ft x b' (Q : unit -> fsys -> Prop) :
  pending s0 F W b d x b' -> (forall d', taken s0 (F ++ [x]) W b' d' -> Q tt (fs_at s0 a i b' d' ft)) ->
  wp (sync_block x) Q (fs_at s0 a i b' d ft).
Proof using Hpart.
  intros [Ht [Hxr Hxf] Hxn ((Hi & _) & Hw & Hl & Hm & Hb & Hk)] HQ. destruct Ht as [T1 T2 T3 T4 T5 T6 T7 T8 T9].
  destruct (area_bounds _ Hpart) as [Ha Hmax]. pose proof (mw_len _ _ T2) as Hlen. cbn [bm block_bitmap set_block_bitmap] in Hlen.
  assert (Hmap' : map_wf BLOCK_BITMAP (set_block_bitmap b' (cur_part s0))).
  { destruct T2 as [_ M2 M3]. split; [done| |done]. cbn in *. by rewrite Hl. }
  unfold area in *. unfold sync_block. wp_simp.
  rewrite (u32_small (x - data_start_lba (sb (cur_part (fs_at s0 a i b' d ft))))) by (cbn; lia).
  pose proof (wf_mem _ (mw_bitmap _ _ T2)) as Hmem. cbn [bm block_bitmap set_block_bitmap] in Hmem.
  apply (bitmap_sync_run _ _ (set_block_bitmap b (cur_part s0))); try done.
  - change ((512 * bm_sects BLOCK_BITMAP (set_block_bitmap b (cur_part s0)) <= length (bits b))%nat). lia.
  - cbn. rewrite Hl. lia.
  - intros d' Hd' Hs' Hfr'. apply HQ. cbn [disk cur_part fs_at] in *.
    assert (Hreg : forall k, ~ in_map (cur_part s0) k -> d' !! k = d !! k).
    { intros k Hk'. apply Hfr'. intros ->. apply Hk'.
      change (in_map (cur_part s0) (bm_lba BLOCK_BITMAP (cur_part s0) + (x - data_start_lba (sb (cur_part s0))) / 4096)). unfold in_map.
      change (bm_sects BLOCK_BITMAP (set_block_bitmap b (cur_part s0))) with (bm_sects BLOCK_BITMAP (cur_part s0)) in Hlen.
      assert (0 <= (x - data_start_lba (sb (cur_part s0))) / 4096 < Z.of_nat (bm_sects BLOCK_BITMAP (cur_part s0))) by
        (split; [apply Z.div_pos; lia|apply Z.div_lt_upper_bound; lia]). lia. }
    split; try done.
    + congruence.
    + intros j Hj. rewrite Hb, T5 by done. unfold area. destruct (Z.eqb_spec j (x - data_start_lba (sb (cur_part s0)))) as [->|Hne].
      * rewrite bool_decide_true; [done|]. apply elem_of_app. right. apply list_elem_of_singleton. lia.
      * rewrite (bool_decide_ext (_ ∈ F ++ [x]) (data_start_lba (sb (cur_part s0)) + j ∈ F)); [done|].
        rewrite elem_of_app, list_elem_of_singleton. split; [intros [|]; [done|lia]|by left].
    + intros k Hk1 Hk2. rewrite Hreg by done. by apply T6.
    + intros k Hk1 Hk2. rewrite Hreg by done. by apply T7.
    + apply list.NoDup_app. split; [done|]. split; [|apply NoDup_singleton]. intros y Hy ->%list_elem_of_singleton. done.
    + intros y [Hy| ->%list_elem_of_singleton]%elem_of_app; [by apply T9|]. split; [unfold area; lia|done].
Qed.

(** One block more. *)
Lemma extend_run i F W b d ft direct lbas all lo (Q : option (Z * list Z) -> fsys -> Prop) :
  taken s0 F W b d -> (length F < length fr)%nat -> (length lbas < 140)%nat -> secs_ok i lbas -> all_ok all lo lbas ->
  direct (Z.of_nat (length lbas)) = (length lbas <? 12)%nat ->
  (forall x b' d', taken s0 (F ++ [x]) W b' d' ->
     Q (Some (Z.of_nat (length lbas) + 1, <[length lbas := x]> all))
       (fs_at s0 a (if (length lbas <? 12)%nat then set_i_sectors (<[length lbas := x]> (i_sectors i)) i else i) b' d' ft)) ->
  wp (extend direct a (Z.of_nat (length lbas), all)) Q (fs_at s0 a i b d ft).
Proof using Hpart Hfr Hfree.
  intros Ht Hlen Hlt [Hsl Hs] [Hal Ha] Hdir HQ. unfold extend. wp_simp. apply (alloc_run _ F W); [done|done|]. intros x b' Hpd.
  pose proof (area_bounds _ Hpart) as [Ha0 Hmax]. destruct (pd_free _ _ _ _ _ _ _ Hpd) as [Hxr _].
  rewrite (proj2 (Z.eqb_neq x (-1))) by lia. rewrite (u32_small x) by lia. wp_simp. rewrite Hdir.
  destruct (Nat.ltb_spec (length lbas) 12) as [Hlt12|Hge].
  - wp_simp. apply ld_inode_at. wp_simp. specialize (Hs (length lbas) Hlt12). rewrite (lookup_ge_None_2 lbas) in Hs by done.
    eapply sector_run; [by rewrite Nat2Z.id|]. cbn [default]. wp_simp. apply wp_ASSERT. split; [done|]. wp_simp.
    apply set_word_run; [rewrite Nat2Z.id; lia|]. wp_simp. eapply set_sector_at; [by rewrite Nat2Z.id|]. wp_simp. rewrite Nat2Z.id.
    eapply sync_run; [exact Hpd|]. intros d' Ht'. wp_simp. by apply HQ.
  - wp_simp. apply set_word_run; [rewrite Nat2Z.id; lia|]. wp_simp. rewrite Nat2Z.id.
    eapply sync_run; [exact Hpd|]. intros d' Ht'. wp_simp. by apply HQ.
Qed.

(** An inode that differs from [i] in its direct blocks. *)
Definition same_but_direct (i i' : inode) : Prop :=
  i' = set_i_sectors (i_sectors i') i /\ i_sectors i' !! 12%nat = i_sectors i !! 12%nat.

(** The state of the loop that takes blocks, [new] of them so far. *)
Definition extended (i : inode) (F W lbas : list Z) (lo : nat) (ft : list file) (new all : list Z) (s : fsys) : Prop :=
  exists i' b' d', s = fs_at s0 a i' b' d' ft /\ taken s0 (F ++ new) W b' d' /\ secs_ok i' (lbas ++ new) /\
    all_ok all lo (lbas ++ new) /\ same_but_direct i i'.

Lemma extended_next i F W lbas lo ft new all s direct (Q : option (Z * list Z) -> fsys -> Prop) :
  extended i F W lbas lo ft new all s -> (length F + length new < length fr)%nat -> (length lbas + length new < 140)%nat ->
  direct (Z.of_nat (length lbas + length new)) = (length lbas + length new <? 12)%nat ->
  (forall x all' s', extended i F W lbas lo ft (new ++ [x]) all' s' ->
     Q (Some (Z.of_nat (length lbas + length new) + 1, all')) s') ->
  wp (extend direct a (Z.of_nat (length lbas + length new), all)) Q s.
Proof using Hpart Hfr Hfree.
  intros (i' & b' & d' & -> & Ht & Hs & Ha & Hi1 & Hi2) Hfl Hlt Hdir HQ. rewrite <- length_app in *.
  apply (extend_run _ (F ++ new) W _ _ _ _ _ _ lo); [done..|].
  intros x b'' d'' Ht''. apply (HQ x). exists (if (length (lbas ++ new) <? 12)%nat then set_i_sectors (<[length (lbas ++ new) := x]> (i_sectors i')) i' else i'), b'', d''.
  split; [done|]. rewrite !(app_assoc _ new). split; [done|]. split; [by apply secs_ok_snoc|]. split; [by apply all_ok_snoc|].
  destruct (Nat.ltb_spec (length (lbas ++ new)) 12); [|by split]. split; [by rewrite Hi1|]. cbn. by rewrite list_lookup_insert_ne by lia.
Qed.

Lemma extend_to_run i F W b d ft direct lbas all lo (will : nat) (Q : option (list Z) -> fsys -> Prop) :
  taken s0 F W b d -> (length F + (will - length lbas) <= length fr)%nat -> (length lbas <= will <= 140)%nat ->
  secs_ok i lbas -> all_ok all lo lbas ->
  (forall k, (length lbas <= k < will)%nat -> direct (Z.of_nat k) = (k <? 12)%nat) ->
  (forall new all' s', (length lbas + length new = will)%nat -> extended i F W lbas lo ft new all' s' -> Q (Some all') s') ->
  wp (extend_to direct a (Z.of_nat will) (Z.of_nat (length lbas), all)) Q (fs_at s0 a i b d ft).
Proof using Hpart Hfr Hfree.
  intros Ht Hfl Hw Hs Ha Hdir HQ. unfold extend_to.
  apply (wp_loop (fun x s => exists new, x.1 = Z.of_nat (length lbas + length new) /\ (length lbas + length new <= will)%nat /\
      extended i F W lbas lo ft new x.2 s) (fun x _ => Z.to_nat (Z.of_nat will - x.1))).
  - intros [idx al] s (new & Hidx & Hle & He). cbn [fst snd] in *. subst idx.
    destruct (Z.ltb_spec (Z.of_nat (length lbas + length new)) (Z.of_nat will)) as [Hlt|Hge].
    + rewrite wp_bind. eapply extended_next; [exact He|lia|lia|apply Hdir; lia|]. intros x all' s' He'. wp_simp.
      split; [|cbn; lia]. exists (new ++ [x]). rewrite length_app. cbn. split; [lia|]. split; [lia|done].
    + wp_simp. apply (HQ new); [lia|done].
  - exists []. cbn [fst snd length]. rewrite Nat.add_0_r. split; [done|]. split; [lia|]. exists i, b, d. rewrite !app_nil_r.
    do 4 (split; [done|]). split; [by destruct i|done].
  - cbn [fst]. lia.
Qed.

(** ** The blocks that a write needs *)

(** file_write goes on with blocks for the whole of the file: [new] more, and a
    table when they need one. *)
Record collected (i : inode) (F lbas : list Z) (will : nat) (ft : list file) (new all : list Z) (s : fsys) : Prop := Collected {
  cl_len : (length lbas + length new = will)%nat;
  cl_all : all_ok all (pred (length lbas)) (lbas ++ new) \/ all_ok all 12 (lbas ++ new) /\ (12 < length lbas)%nat;
  cl_state : exists i' F' W' b' d', s = fs_at s0 a i' b' d' ft /\ taken s0 (F ++ F') W' b' d' /\
    blocks_on (owned s0 (F ++ F')) d' i' (lbas ++ new) /\ i' = set_i_sectors (i_sectors i') i /\
    (forall x, x ∈ new -> x ∈ F') /\ (forall x, x ∈ W' -> owned s0 (F ++ F') x /\ (x ∈ F' \/ i_sectors i !! 12%nat = Some x))
}.

Lemma all_ok_one lbas x : (0 < length lbas <= 140)%nat -> lbas !! pred (length lbas) = Some x -> all_ok (<[pred (length lbas) := x]> (replicate 140 0)) (pred (length lbas)) lbas.
Proof using.
  intros Hl Hx. split; [by rewrite length_insert|]. intros k Hk. replace k with (pred (length lbas)) by lia.
  rewrite list_lookup_insert_eq by (rewrite length_replicate; lia). done.
Qed.

Lemma all_ok_table all buf lbas : length all = 140%nat -> (length lbas <= 140)%nat ->
  (forall k x, lbas !! (12 + k)%nat = Some x -> rd32 buf (4 * k) = x) -> all_ok (take 12 all ++ rd32s buf 0 128) 12 lbas.
Proof using.
  intros Hl Hm Hb. split; [rewrite length_app, length_take, rd32s_length; lia|]. intros k Hk.
  rewrite lookup_app_r by (rewrite length_take; lia). rewrite length_take, rd32s_lookup by lia.
  destruct (lookup_lt_is_Some_2 lbas k) as [x Hx]; [lia|]. rewrite Hx. f_equal. apply Hb. rewrite <- Hx. f_equal. lia.
Qed.

(** The table written from the array. *)
Lemma table_words all lo lbas : all_ok all lo lbas -> (lo <= 12)%nat -> (forall x, x ∈ lbas -> is_u32 x) ->
  forall k x, lbas !! (12 + k)%nat = Some x -> rd32 (words (drop 12 all)) (4 * k) = x.
Proof using.
  intros [Hl Ha] Hlo Hu k x Hx. rewrite <- (app_nil_r (words _)). apply (rd32_word _ _ k); [|rewrite lookup_drop, Ha; [done|]|done].
  - apply Hu. by eapply list_elem_of_lookup_2.
  - apply lookup_lt_Some in Hx. lia.
Qed.

Lemma owned_bounds F x : owned s0 F x -> is_u32 x /\ 0 < x <= max_lba /\ area (cur_part s0) <= x.
Proof using Hpart. intros [[Hx Hm] _]. destruct (area_bounds _ Hpart). unfold area, is_u32 in *. lia. Qed.

Lemma owned_nonzero F x : owned s0 F x -> negb (x =? 0) = true.
Proof using Hpart. intros Ho. destruct (owned_bounds F x Ho). apply negb_true_iff, Z.eqb_neq. lia. Qed.

(** The cases of [collect_write]: nothing is missing, *)
Lemma collect_none_run i F b d ft lbas (Q : option (list Z) -> fsys -> Prop) :
  taken s0 F [] b d -> blocks_on (owned s0 F) d i lbas -> lbas <> [] ->
  (forall all s', collected i F lbas (length lbas) ft [] all s' -> Q (Some all) s') ->
  wp (collect_write a (Z.of_nat (length lbas)) (Z.of_nat (length lbas))) Q (fs_at s0 a i b d ft).
Proof using Hpart.
  intros Ht Hb Hne HQ. pose proof Hb as [B1 B2 B3 B4 B5 B6 B7]. assert (Hl : (0 < length lbas)%nat) by (destruct lbas; [done|cbn; lia]).
  assert (Hst : exists i' F' W' b' d', fs_at s0 a i b d ft = fs_at s0 a i' b' d' ft /\ taken s0 (F ++ F') W' b' d' /\
    blocks_on (owned s0 (F ++ F')) d' i' (lbas ++ []) /\ i' = set_i_sectors (i_sectors i') i /\
    (forall x, x ∈ [] -> x ∈ F') /\ (forall x, x ∈ W' -> owned s0 (F ++ F') x /\ (x ∈ F' \/ i_sectors i !! 12%nat = Some x))).
  { exists i, [], [], b, d. rewrite !app_nil_r. do 3 (split; [done|]). split; [by destruct i|]. split; [done|]. intros x []%not_elem_of_nil. }
  unfold collect_write. wp_simp. apply ld_inode_at. wp_simp. rewrite (proj2 (Z.eqb_eq _ _)) by lia.
  destruct (Z.leb_spec (Z.of_nat (length lbas)) 12) as [Hle|Hgt].
  - wp_simp. replace (Z.of_nat (length lbas) - 1) with (Z.of_nat (pred (length lbas))) by lia.
    destruct (lookup_lt_is_Some_2 lbas (pred (length lbas))) as [x Hx]; [lia|].
    eapply sector_run; [rewrite Nat2Z.id, B3 by lia; by rewrite Hx|]. cbn [default]. wp_simp.
    apply set_word_run; [rewrite Nat2Z.id, length_replicate; lia|]. wp_simp. rewrite Nat2Z.id.
    apply HQ. split; [cbn; lia| |done]. left. rewrite app_nil_r. apply all_ok_one; [lia|done].
  - destruct B5 as (t & buf & Htab & Hot & Hnt & Hbuf & Hrd); [lia|]. wp_simp. eapply sector_run; [exact Htab|]. wp_simp.
    apply wp_ASSERT. split; [by eapply owned_nonzero|]. wp_simp. eapply read_table_run; [by eapply owned_bounds|exact Hbuf|].
    wp_simp. apply HQ. split; [cbn; lia| |done]. right. rewrite app_nil_r. split; [|lia]. by apply all_ok_table.
Qed.

Lemma direct_collected i F b d ft lbas (will : nat) new all s : taken s0 F [] b d -> blocks_on (owned s0 F) d i lbas ->
  (length lbas + length new = will)%nat -> (will <= 12)%nat -> extended i F [] lbas (pred (length lbas)) ft new all s -> collected i F lbas will ft new all s.
Proof using Hpart.
  intros Ht Hb Hl Hw (i' & b' & d' & -> & Ht' & Hs & Ha & Hi1 & Hi2). split; [lia|by left|]. exists i', new, [], b', d'.
  split; [done|]. split; [done|]. split; [|split; [done|split; [done|intros x []%not_elem_of_nil]]].
  eapply grown_blocks; [done|exact Ht|exact Hb|exact Ht'| |done|done|rewrite length_app; lia| |].
  - by pose proof (tk_nodup _ _ _ _ _ Ht') as (_ & _ & Hn)%list.NoDup_app.
  - intros _. rewrite Hi2. apply (bo_table _ _ _ _ Hb). lia.
  - rewrite length_app. lia.
Qed.

(** all the blocks are direct ones, *)
Lemma collect_direct_run i F b d ft lbas (will : nat) (Q : option (list Z) -> fsys -> Prop) :
  taken s0 F [] b d -> blocks_on (owned s0 F) d i lbas -> lbas <> [] -> (length lbas < will <= 12)%nat ->
  (length F + (will - length lbas) <= length fr)%nat ->
  (forall new all s', collected i F lbas will ft new all s' -> Q (Some all) s') ->
  wp (collect_write a (Z.of_nat (length lbas)) (Z.of_nat will)) Q (fs_at s0 a i b d ft).
Proof using Hpart Hfr Hfree.
  intros Ht Hb Hne Hw Hfl HQ. assert (Hl : (0 < length lbas)%nat) by (destruct lbas; [done|cbn; lia]).
  unfold collect_write. wp_simp. apply ld_inode_at. wp_simp. rewrite (proj2 (Z.eqb_neq _ _)) by lia. rewrite (proj2 (Z.leb_le _ _)) by lia.
  wp_simp. replace (Z.of_nat (length lbas) - 1) with (Z.of_nat (pred (length lbas))) by lia.
  destruct (lookup_lt_is_Some_2 lbas (pred (length lbas))) as [x Hx]; [lia|].
  eapply sector_run; [rewrite Nat2Z.id, (bo_direct _ _ _ _ Hb) by lia; by rewrite Hx|]. cbn [default]. wp_simp.
  apply wp_ASSERT. split; [eapply owned_nonzero, (bo_blocks _ _ _ _ Hb); by eapply list_elem_of_lookup_2|]. wp_simp.
  apply set_word_run; [rewrite Nat2Z.id, length_replicate; lia|]. wp_simp. rewrite Nat2Z.id.
  eapply (extend_to_run i F [] b d ft _ lbas _ (pred (length lbas)) will); [done|lia|lia|split; apply Hb|by apply all_ok_one; [lia|]| |].
  - intros k Hk. symmetry. apply Nat.ltb_lt. lia.
  - intros new all' s' Hlen He. apply (HQ new). eapply direct_collected; [exact Ht|exact Hb|lia|lia|exact He].
Qed.

(** When the table [t] is written the blocks are the file's. *)
Lemma table_run i i1 F G b d t lbas lo (will : nat) new all s ft (Q : unit -> fsys -> Prop) :
  taken s0 F [] b d -> blocks_on (owned s0 F) d i lbas -> extended i1 (F ++ G) [] lbas lo ft new all s ->
  i1 = set_i_sectors (i_sectors i1) i -> i_sectors i1 !! 12%nat = Some t -> owned s0 (F ++ G) t -> t ∉ lbas -> is_Some (disk s0 !! t) ->
  (t ∈ G \/ i_sectors i !! 12%nat = Some t) -> (lo = pred (length lbas) /\ lo <= 12 \/ lo = 12 /\ 12 < length lbas)%nat -> (length lbas + length new = will)%nat -> (12 < will <= 140)%nat ->
  (forall s', collected i F lbas will ft new all s' -> Q tt s') -> wp (ide_write t (words (drop 12 all)) 1) Q s.
Proof using Hpart.
  intros Ht Hb (i' & b' & d' & -> & Ht' & Hs & Ha & Hi1 & Hi2) He H12 Hot Hnt Hst Hold Hlo Hlen Hw HQ.
  destruct (owned_bounds _ _ Hot) as (_ & Htb & Hta). pose proof (owned_fresh _ _ _ _ _ _ _ Ht' Hot) as Hfresh.
  assert (Hn : t ∉ lbas ++ new) by (rewrite elem_of_app; tauto).
  eapply (write_run _ _ _ ((F ++ G) ++ new) []); [done|done|done|lia|apply (tk_sectors _ _ _ _ _ Ht'); [by apply data_not_map|done]| |].
  { rewrite words_length, length_drop. destruct Ha. lia. }
  intros Ht2. apply HQ. split; [done|destruct Hlo as [[-> _]|[-> ?]]; [by left|by right]|].
  exists i', (G ++ new), [t], b', (<[t := words (drop 12 all)]> d'). split; [done|]. rewrite app_assoc. split; [done|].
  assert (Hown : forall x, x ∈ lbas ++ new -> is_u32 x).
  { intros x [Hx|Hx]%elem_of_app; [eapply owned_bounds; by apply (bo_blocks _ _ _ _ Hb)|].
    eapply owned_bounds, (owned_new _ _ _ _ _ x Hpart Ht'). apply elem_of_app. by right. }
  split; [|split; [by rewrite Hi1, He|split; [intros x Hx; apply elem_of_app; by right|]]].
  2: { intros x ->%list_elem_of_singleton. split; [by apply owned_mono|]. rewrite elem_of_app. tauto. }
  rewrite <- app_assoc. eapply grown_blocks; [done|exact Ht|exact Hb|rewrite app_assoc; exact Ht2| | |done|rewrite length_app; lia|rewrite length_app; lia|].
  - by pose proof (tk_nodup _ _ _ _ _ Ht') as (_ & _ & Hnd)%list.NoDup_app.
  - intros x Hx. apply elem_of_app. by right.
  - intros _. exists t, (words (drop 12 all)). rewrite lookup_insert_eq, app_assoc. split; [by rewrite Hi2|]. split; [by apply owned_mono|].
    split; [done|]. split; [done|]. eapply table_words; [exact Ha|destruct Hlo; lia|done].
Qed.

(** the table is there, *)
Lemma collect_indirect_run i F b d ft lbas (will : nat) (Q : option (list Z) -> fsys -> Prop) :
  taken s0 F [] b d -> blocks_on (owned s0 F) d i lbas -> (12 < length lbas < will)%nat -> (will <= 140)%nat ->
  (length F + (will - length lbas) <= length fr)%nat ->
  (forall new all s', collected i F lbas will ft new all s' -> Q (Some all) s') ->
  wp (collect_write a (Z.of_nat (length lbas)) (Z.of_nat will)) Q (fs_at s0 a i b d ft).
Proof using Hpart Hfr Hfree.
  intros Ht Hb Hw Hm Hfl HQ. destruct (bo_indirect _ _ _ _ Hb) as (t & buf & Htab & Hot & Hnt & Hbuf & Hrd); [lia|].
  unfold collect_write. wp_simp. apply ld_inode_at. wp_simp. rewrite (proj2 (Z.eqb_neq _ _)) by lia. rewrite (proj2 (Z.leb_gt (Z.of_nat will) 12)) by lia.
  rewrite (proj2 (Z.leb_gt _ 12)) by lia. wp_simp. eapply sector_run; [exact Htab|]. wp_simp. apply wp_ASSERT. split; [by eapply owned_nonzero|].
  wp_simp. eapply read_table_run; [by eapply owned_bounds|exact Hbuf|]. wp_simp.
  eapply (extend_to_run i F [] b d ft _ lbas _ 12 will); [done|lia|lia|split; apply Hb|by apply all_ok_table; [|lia|]| |].
  - intros k Hk. symmetry. apply Nat.ltb_ge. lia.
  - intros new all' s' Hlen He. wp_simp. eapply (table_run i i F [] b d t lbas 12 will new); rewrite ?app_nil_r; [exact Ht|exact Hb|exact He|by destruct i|done|done|done| |by right|by right; lia|done|lia|].
    + rewrite <- (kept s0 F [] b d t); [by eexists|done|done|by eapply owned_bounds|apply not_elem_of_nil].
    + intros s'' Hc. wp_simp. by apply (HQ new).
Qed.

(** and the table has to be made. *)
Lemma collect_table_run i F b d ft lbas (will : nat) (Q : option (list Z) -> fsys -> Prop) :
  taken s0 F [] b d -> blocks_on (owned s0 F) d i lbas -> lbas <> [] -> (length lbas <= 12 < will)%nat -> (will <= 140)%nat ->
  (length F + (will - length lbas) < length fr)%nat ->
  (forall new all s', collected i F lbas will ft new all s' -> Q (Some all) s') ->
  wp (collect_write a (Z.of_nat (length lbas)) (Z.of_nat will)) Q (fs_at s0 a i b d ft).
Proof using Hpart Hfr Hfree.
  intros Ht Hb Hne Hw Hm Hfl HQ. assert (Hl : (0 < length lbas)%nat) by (destruct lbas; [done|cbn; lia]).
  pose proof (bo_table _ _ _ _ Hb (proj1 Hw)) as H12. pose proof (bo_sectors _ _ _ _ Hb) as Hsl.
  unfold collect_write. wp_simp. apply ld_inode_at. wp_simp. rewrite (proj2 (Z.eqb_neq _ _)) by lia. rewrite (proj2 (Z.leb_gt (Z.of_nat will) 12)) by lia.
  rewrite (proj2 (Z.leb_le _ 12)) by lia. wp_simp. replace (Z.of_nat (length lbas) - 1) with (Z.of_nat (pred (length lbas))) by lia.
  destruct (lookup_lt_is_Some_2 lbas (pred (length lbas))) as [x Hx]; [lia|].
  eapply sector_run; [rewrite Nat2Z.id, (bo_direct _ _ _ _ Hb) by lia; by rewrite Hx|]. cbn [default]. wp_simp.
  apply set_word_run; [rewrite Nat2Z.id, length_replicate; lia|]. wp_simp. rewrite Nat2Z.id.
  apply (alloc_run _ F []); [done|lia|]. intros t b' Hpd. pose proof (area_bounds _ Hpart) as [Ha0 Hmax]. destruct (pd_free _ _ _ _ _ _ _ Hpd) as [Htr _].
  rewrite (proj2 (Z.eqb_neq t (-1))), (u32_small t) by lia. wp_simp. apply ld_inode_at. wp_simp. eapply sector_run; [exact H12|]. wp_simp.
  apply wp_ASSERT. split; [done|]. wp_simp. eapply set_sector_at; [exact H12|]. wp_simp. eapply sync_run; [exact Hpd|]. intros d' Ht'. wp_simp.
  assert (Hot : owned s0 (F ++ [t]) t) by (eapply owned_new; [done|exact Ht'|]; apply elem_of_app; right; by apply list_elem_of_singleton).
  set (i1 := set_i_sectors _ i). assert (Hi1 : i_sectors i1 !! 12%nat = Some t) by (apply list_lookup_insert_eq; lia).
  eapply (extend_to_run i1 (F ++ [t]) [] b' d' ft _ lbas _ (pred (length lbas)) will); [done|rewrite length_app; cbn; lia|lia| |by apply all_ok_one; [lia|]| |].
  - split; [cbn; by rewrite length_insert|]. intros k Hk. cbn. rewrite list_lookup_insert_ne by lia. by apply Hb.
  - intros k Hk. destruct (Nat.ltb_spec k 12); [apply Z.ltb_lt|apply Z.ltb_ge]; lia.
  - intros new all' s' Hlen He. wp_simp. eapply (table_run i i1 F [t] b d t lbas _ will new); [exact Ht|exact Hb|exact He|done|done|done| | |left; by apply list_elem_of_singleton|left; lia|done|lia|].
    + intros Hin. destruct (bo_blocks _ _ _ _ Hb t Hin) as [Ho _]. apply (owned_fresh _ _ _ _ _ _ _ Ht' Ho). by apply list_elem_of_singleton.
    + apply (po_free _ Hpart). apply (pd_free _ _ _ _ _ _ _ Hpd).
    + intros s'' Hc. wp_simp. by apply (HQ new).
Qed.

(** The blocks that a file with [n] of them lacks to have [will], and a table. *)
Definition lacking (n will : nat) : nat := will - n + (if (n <=? 12)%nat && (12 <? will)%nat then 1 else 0).

Lemma collect_write_run i F b d ft lbas (will : nat) (Q : option (list Z) -> fsys -> Prop) :
  taken s0 F [] b d -> blocks_on (owned s0 F) d i lbas -> lbas <> [] -> (length lbas <= will <= 140)%nat ->
  (length F + lacking (length lbas) will <= length fr)%nat ->
  (forall new all s', collected i F lbas will ft new all s' -> Q (Some all) s') ->
  wp (collect_write a (Z.of_nat (length lbas)) (Z.of_nat will)) Q (fs_at s0 a i b d ft).
Proof using Hpart Hfr Hfree.
  intros Ht Hb Hne Hw Hfl HQ. unfold lacking in Hfl. destruct (decide (length lbas = will)) as [<-|Hlt].
  { eapply collect_none_run; [exact Ht|exact Hb|done|]. apply HQ. }
  destruct (Nat.leb_spec (length lbas) 12), (Nat.ltb_spec 12 will); cbn [andb] in Hfl; [|..|lia].
  - eapply collect_table_run; [exact Ht|exact Hb|done|lia|lia|lia|done].
  - eapply collect_direct_run; [exact Ht|exact Hb|done|lia|lia|done].
  - eapply collect_indirect_run; [exact Ht|exact Hb|lia|lia|lia|done].
Qed.

(** The first block of a file, [F] if it had none. *)
Definition started (i : inode) (lbas : list Z) (ft : list file) (i1 : inode) (F lbas1 : list Z) (b : bitmap) (d : gmap Z (list Z)) : Prop :=
  taken s0 F [] b d /\ blocks_on (owned s0 F) d i1 lbas1 /\ lbas1 = lbas ++ F /\ lbas1 <> [] /\ i1 = set_i_sectors (i_sectors i1) i /\
  i_sectors i1 !! 12%nat = i_sectors i !! 12%nat /\ (length lbas1 = Nat.max 1 (length lbas))%nat.

Lemma first_block_run i b d ft lbas (Q : bool -> fsys -> Prop) :
  taken s0 [] [] b d -> blocks_on (owned s0 []) d i lbas -> (lbas = [] -> (0 < length fr)%nat) ->
  (forall i1 F lbas1 b1 d1, started i lbas ft i1 F lbas1 b1 d1 -> Q true (fs_at s0 a i1 b1 d1 ft)) ->
  wp (first_block a) Q (fs_at s0 a i b d ft).
Proof using Hpart Hfr Hfree.
  intros Ht Hb Hlen HQ. pose proof Hb as [B1 B2 B3 B4 B5 B6 B7]. pose proof (area_bounds _ Hpart) as [Ha0 Hmax].
  unfold first_block. wp_simp. apply ld_inode_at. wp_simp. eapply sector_run; [apply (B3 0%nat); lia|]. destruct lbas as [|x lbas].
  - change (default 0 ([] !! 0%nat) =? 0) with true. cbn iota. wp_simp. apply (alloc_run _ [] []); [done|by apply Hlen|]. intros x b' Hpd. destruct (pd_free _ _ _ _ _ _ _ Hpd) as [Hxr _].
    rewrite (proj2 (Z.eqb_neq x (-1))), (u32_small x) by lia. wp_simp. eapply set_sector_at; [apply (B3 0%nat); lia|]. wp_simp.
    destruct (po_free _ Hpart x (pd_free _ _ _ _ _ _ _ Hpd)) as [[[Hx1 Hx2] _] _]. unfold area in *. cbn [fs_at cur_part sb set_block_bitmap].
    apply wp_ASSERT. split; [apply negb_true_iff, Z.eqb_neq; cbn; rewrite u32_small; lia|]. wp_simp.
    eapply sync_run; [exact Hpd|]. intros d' Ht'. wp_simp. apply (HQ _ [x] [x]). set (i1 := set_i_sectors _ i).
    assert (Hs1 : secs_ok i1 [x]) by (apply (secs_ok_snoc i [] x); by split).
    split; [done|]. split; [|split; [done|split; [done|split; [by destruct i|split; [by apply list_lookup_insert_ne|done]]]]].
    eapply (grown_blocks s0 [] [x] [] b b' d d' i i1 [] [x]); [done|done|done|exact Ht'|apply NoDup_singleton|done|exact Hs1|cbn; lia| |cbn; lia].
    intros _. cbn. rewrite list_lookup_insert_ne by lia. apply B4. cbn. lia.
  - assert (Hx : owned s0 [] x) by (apply B6; apply elem_of_cons; by left). destruct (owned_bounds _ _ Hx) as (_ & Hr & _).
    change (default 0 ((x :: lbas) !! 0%nat)) with x. rewrite (proj2 (Z.eqb_neq x 0)) by lia. wp_simp. apply (HQ i [] (x :: lbas)).
    unfold started. rewrite app_nil_r. do 4 (split; [done|]). split; [by destruct i|]. split; [done|]. cbn. lia.
Qed.
End write.

(** ** The data *)

Lemma splice_lookup_before buf off src k : (off <= length buf)%nat -> (k < off)%nat -> splice buf off src !! k = buf !! k.
Proof. intros Hl Hk. unfold splice. rewrite lookup_app_l by (rewrite length_take; lia). by apply lookup_take_lt. Qed.

Lemma splice_lookup_at buf off src j : (off <= length buf)%nat -> (j < length src)%nat -> splice buf off src !! (off + j)%nat = src !! j.
Proof.
  intros Hl Hj. unfold splice. rewrite lookup_app_r by (rewrite length_take; lia). rewrite length_take, lookup_app_l by lia. f_equal. lia.
Qed.

(** A chunk that follows the bytes of a file, written to the block at its end. *)
Lemma holds_write d lbas data io c lba (off := (length data mod 512)%nat) :
  holds d lbas data -> NoDup lbas -> lbas !! (length data / 512)%nat = Some lba -> lba <= max_lba -> length io = 512%nat ->
  (off = 0%nat \/ d !! lba = Some io) -> (off + length c <= 512)%nat -> holds (<[lba := splice io off c]> d) lbas (data ++ c).
Proof.
  intros Hh Hnd Hq Hmax Hio Hoff Hlen k x Hx. pose proof (Nat.div_mod_eq (length data) 512) as Hdm. fold off in Hdm.
  pose proof (Nat.mod_upper_bound (length data) 512 ltac:(lia)) as Hub. fold off in Hub.
  pose proof (Nat.div_mod_eq k 512) as Hkm. pose proof (Nat.mod_upper_bound k 512 ltac:(lia)) as Hku. destruct (decide (k < length data)%nat) as [Hk|Hk].
  - rewrite lookup_app_l in Hx by done. destruct (Hh k x Hx) as (lba' & sec & Hl' & Hm' & Hs' & Hsl & Hb').
    destruct (decide (lba = lba')) as [<-|Hne].
    + pose proof (NoDup_lookup _ _ _ _ Hnd Hq Hl') as E. assert (Hlt : (k mod 512 < off)%nat) by lia.
      destruct Hoff as [|Hoff]; [lia|]. assert (sec = io) as -> by congruence. exists lba, (splice io off c). rewrite lookup_insert_eq.
      do 3 (split; [done|]). split; [rewrite splice_length; lia|]. by rewrite splice_lookup_before by lia.
    + exists lba', sec. by rewrite lookup_insert_ne.
  - rewrite lookup_app_r in Hx by lia. pose proof (lookup_lt_Some _ _ _ Hx) as Hj.
    assert (E : (k / 512 = length data / 512 /\ k mod 512 = off + (k - length data))%nat) by nia.
    destruct E as [E1 E2]. exists lba, (splice io off c). rewrite lookup_insert_eq, E1, E2. do 3 (split; [done|]).
    split; [rewrite splice_length; lia|]. by rewrite splice_lookup_at by lia.
Qed.

Lemma u32_add_l x y : u32 (u32 x + y) = u32 (x + y).
Proof. unfold u32. by rewrite Z.add_mod_idemp_l by lia. Qed.

Section store.
Context (s0 : fsys) (a fd flag : Z) (i : inode) (lbas all data buf F W0 : list Z) (b : bitmap) (d0 : gmap Z (list Z)) (ft : list file).
Context (Hpart : part_ok s0) (Hsize : i_size i = Z.of_nat (length data)) (Hfd : (Z.to_nat fd < length ft)%nat).
Context (Hall : forall k, (length data / 512 <= k < length lbas)%nat -> all !! k = lbas !! k).
Context (Hown : forall x, x ∈ lbas -> owned s0 F x /\ is_Some (disk s0 !! x)) (Hnd : NoDup lbas).
Context (Hlen : length lbas = S ((length data + length buf) / 512)) (Hmax : (length data + length buf < 140 * 512)%nat).

(** The state after [n] bytes. *)
Definition stored (n : nat) (s : fsys) : Prop := exists d W,
  s = fs_at s0 a (set_i_size (Z.of_nat (length data + n)) i) b d
        (<[Z.to_nat fd := File (u32 (i_size i - 1 + Z.of_nat n)) flag a]> ft) /\
  taken s0 F W b d /\ (forall x, x ∈ W -> x ∈ W0 \/ x ∈ lbas) /\ (forall k, k ∉ lbas -> d !! k = d0 !! k) /\ holds d lbas (data ++ take n buf).

(** The new bytes go into the sector image [io], which goes to the disk. *)
Lemma store_io_run n chunk d W lba io (Q : (list Z * Z * Z * bool) + Z -> fsys -> Prop) (pos := (length data + n)%nat) :
  taken s0 F W b d -> (forall x, x ∈ W -> x ∈ W0 \/ x ∈ lbas) -> (forall k, k ∉ lbas -> d !! k = d0 !! k) -> holds d lbas (data ++ take n buf) ->
  lbas !! (pos / 512)%nat = Some lba -> (n + chunk <= length buf)%nat -> (pos mod 512 + chunk <= 512)%nat ->
  length io = 512%nat -> ((pos mod 512)%nat = 0%nat \/ d !! lba = Some io) ->
  (forall s', stored (n + chunk) s' -> Q (inl (drop (n + chunk) buf, Z.of_nat (n + chunk), Z.of_nat (length buf - (n + chunk)), false)) s') ->
  wp (ide_write lba (splice io (pos mod 512)%nat (take chunk (drop n buf))) 1 ;;
      st_inode a (set_i_size (u32 (Z.of_nat pos + Z.of_nat chunk)) (set_i_size (Z.of_nat pos) i)) ;;
      st_file fd (File (u32 (u32 (i_size i - 1 + Z.of_nat n) + Z.of_nat chunk)) flag a) ;;
      ret (inl (drop chunk (drop n buf), Z.of_nat n + Z.of_nat chunk, Z.of_nat (length buf - n) - Z.of_nat chunk, false))) Q
    (fs_at s0 a (set_i_size (Z.of_nat pos) i) b d (<[Z.to_nat fd := File (u32 (i_size i - 1 + Z.of_nat n)) flag a]> ft)).
Proof using Hpart Hfd Hown Hnd Hlen Hmax.
  intros Ht HW Hk Hh Hlba Hc Hcp Hio Hor HQ. destruct (Hown lba (list_elem_of_lookup_2 _ _ _ Hlba)) as [Hol Hsome].
  destruct (owned_bounds _ Hpart _ _ Hol) as (_ & Hlm & Hla). apply (tk_sectors _ _ _ _ _ Ht) in Hsome; [|by apply data_not_map].
  set (c := take chunk (drop n buf)). assert (Hcl : length c = chunk) by (unfold c; rewrite length_take, length_drop; lia).
  wp_simp. eapply (write_run _ _ _ F W); [done|done|done|lia|done|rewrite splice_length; lia|]. intros Ht'. wp_simp.
  apply st_inode_at. wp_simp. eapply wp_st_file; [by apply list_lookup_insert_eq|]. wp_simp.
  replace (drop chunk (drop n buf)) with (drop (n + chunk) buf) by (by rewrite drop_drop).
  replace (Z.of_nat n + Z.of_nat chunk) with (Z.of_nat (n + chunk)) by lia.
  replace (Z.of_nat (length buf - n) - Z.of_nat chunk) with (Z.of_nat (length buf - (n + chunk))) by lia.
  apply HQ. exists (<[lba := splice io (pos mod 512)%nat c]> d), (lba :: W). split; [|split; [done|split; [|split]]].
  - unfold fs_at, set_file_table. cbn. rewrite list_insert_insert_eq, u32_add_l, (u32_small (Z.of_nat pos + Z.of_nat chunk)) by (unfold pos; lia).
    replace (i_size i - 1 + Z.of_nat n + Z.of_nat chunk) with (i_size i - 1 + Z.of_nat (n + chunk)) by lia.
    by replace (Z.of_nat pos + Z.of_nat chunk) with (Z.of_nat (length data + (n + chunk))) by (unfold pos; lia).
  - intros x [->|Hx]%elem_of_cons; [right; by eapply list_elem_of_lookup_2|by apply HW].
  - intros k Hkn. rewrite lookup_insert_ne; [by apply Hk|]. intros <-. by apply Hkn, (list_elem_of_lookup_2 _ _ _ Hlba).
  - rewrite <- take_take_drop, app_assoc. fold c. assert (Hp : length (data ++ take n buf) = pos) by (rewrite length_app, length_take; unfold pos; lia).
    pose proof (holds_write d lbas (data ++ take n buf) io c lba) as Hw. cbv zeta in Hw. rewrite Hp in Hw. apply Hw; try done; lia.
Qed.

Lemma store_chunk_run n s (Q : (list Z * Z * Z * bool) + Z -> fsys -> Prop) (chunk := Nat.min (length buf - n) (512 - (length data + n) mod 512)) :
  (n < length buf)%nat -> (n = 0 \/ (length data + n) mod 512 = 0)%nat -> stored n s ->
  (forall s', stored (n + chunk) s' -> Q (inl (drop (n + chunk) buf, Z.of_nat (n + chunk), Z.of_nat (length buf - (n + chunk)), false)) s') ->
  wp (write_chunk fd (Z.of_nat (length buf)) all (drop n buf, Z.of_nat n, Z.of_nat (length buf - n), (n =? 0)%nat)) Q s.
Proof using Hpart Hfd Hall Hown Hnd Hlen Hmax.
  intros Hn Hal (d & W & -> & Ht & HW & Hk & Hh) HQ. unfold write_chunk. rewrite (proj2 (Z.ltb_lt _ _)) by lia. wp_simp.
  eapply wp_ld_file; [by apply list_lookup_insert_eq|]. cbn [fd_inode]. wp_simp. apply ld_inode_at. cbn [i_size set_i_size]. wp_simp.
  unfold BLOCK_SIZE, SECTOR_SIZE. set (pos := (length data + n)%nat) in *.
  replace (Z.of_nat pos / 512) with (Z.of_nat (pos / 512)) by (by rewrite Nat2Z.inj_div). replace (Z.of_nat pos mod 512) with (Z.of_nat (pos mod 512)) by (by rewrite Nat2Z.inj_mod).
  pose proof (Nat.mod_upper_bound pos 512 ltac:(lia)) as Hub.
  assert (Hq : (length data / 512 <= pos / 512 < length lbas)%nat).
  { rewrite Hlen. unfold pos. split; [apply Nat.Div0.div_le_mono; lia|apply Nat.lt_succ_r, Nat.Div0.div_le_mono; lia]. }
  destruct (lookup_lt_is_Some_2 lbas (pos / 512)) as [lba Hlba]; [lia|]. destruct (Hown lba (list_elem_of_lookup_2 _ _ _ Hlba)) as [Hol Hsome].
  destruct (owned_bounds _ Hpart _ _ Hol) as (_ & Hlm & Hla). apply (tk_sectors _ _ _ _ _ Ht) in Hsome as [sec Hsec]; [|by apply data_not_map].
  pose proof (tk_disk _ _ _ _ _ Ht _ _ Hsec) as Hsl. cbn beta in Hsl.
  apply wp_of_option. exists lba. rewrite Nat2Z.id. split; [by rewrite Hall|]. wp_simp.
  replace (if Z.of_nat (length buf - n) <? 512 - Z.of_nat (pos mod 512) then Z.of_nat (length buf - n) else 512 - Z.of_nat (pos mod 512))
    with (Z.of_nat chunk) by (unfold chunk; destruct (Z.ltb_spec (Z.of_nat (length buf - n)) (512 - Z.of_nat (pos mod 512))); lia).
  rewrite !Nat2Z.id. assert (Hc : (n + chunk <= length buf)%nat /\ (pos mod 512 + chunk <= 512)%nat) by (unfold chunk; lia). destruct Hc as [Hc1 Hc2].
  destruct (Nat.eqb_spec n 0) as [Hz|Hz].
  - wp_simp. eapply ide_read_run; [lia|lia|by apply read_one|].
    eapply (store_io_run n chunk d W lba sec); [done|done|done|done|done|exact Hc1|exact Hc2|done|by right|done].
  - rewrite wp_ret. eapply (store_io_run n chunk d W lba (replicate 512 0)); [done|done|done|done|done|exact Hc1|exact Hc2|by rewrite length_replicate|left; by destruct Hal|done].
Qed.

(** The loop; at most 141 sectors are written. *)
Lemma store_run s (Q : Z -> fsys -> Prop) : stored 0 s -> (forall s', stored (length buf) s' -> Q (Z.of_nat (length buf)) s') ->
  wp (loop 150 (write_chunk fd (Z.of_nat (length buf)) all) (buf, 0, Z.of_nat (length buf), true)) Q s.
Proof using Hpart Hfd Hall Hown Hnd Hlen Hmax.
  intros Hs HQ.
  apply (wp_loop (fun x s => exists n, (n <= length buf)%nat /\ (n = 0 \/ n = length buf \/ (length data + n) mod 512 = 0)%nat /\
      x = (drop n buf, Z.of_nat n, Z.of_nat (length buf - n), (n =? 0)%nat) /\ stored n s)
    (fun x _ => let '(_, n, _, _) := x in if n <? Z.of_nat (length buf)
       then S ((length data + length buf) / 512 - (length data + Z.to_nat n) / 512) else 0%nat)).
  - intros x s' (n & Hn & Hal & -> & Hst). destruct (decide (n = length buf)) as [->|Hne].
    + unfold write_chunk. rewrite Z.ltb_irrefl. wp_simp. by apply HQ.
    + apply store_chunk_run; [lia|tauto|done|]. intros s'' Hst'.
      set (chunk := Nat.min (length buf - n) (512 - (length data + n) mod 512)) in *.
      pose proof (Nat.mod_upper_bound (length data + n) 512 ltac:(lia)) as Hub. assert (Hc : (0 < chunk <= length buf - n)%nat) by (unfold chunk; lia).
      split.
      * exists (n + chunk)%nat. split; [lia|]. split; [|split; [|done]].
        -- right. destruct (decide (n + chunk = length buf)%nat) as [|Hne']; [by left|right].
           assert (E : (chunk = 512 - (length data + n) mod 512)%nat) by (unfold chunk; lia).
           clearbody chunk. subst chunk. pose proof (Nat.div_mod_eq (length data + n) 512).
           replace (length data + (n + (512 - (length data + n) mod 512)))%nat with (S ((length data + n) / 512) * 512)%nat by lia. by rewrite Nat.Div0.mod_mul.
        -- destruct (Nat.eqb_spec (n + chunk) 0); [lia|done].
      * rewrite !(proj2 (Z.ltb_lt (Z.of_nat n) _)) by lia. rewrite !Nat2Z.id. destruct (Z.ltb_spec (Z.of_nat (n + chunk)) (Z.of_nat (length buf))) as [Hlt|Hge]; [|lia].
        assert (E : (chunk = 512 - (length data + n) mod 512)%nat) by (unfold chunk; lia).
        assert (Hd : ((length data + (n + chunk)) / 512 = S ((length data + n) / 512))%nat).
        { clearbody chunk. subst chunk. pose proof (Nat.div_mod_eq (length data + n) 512).
          replace (length data + (n + (512 - (length data + n) mod 512)))%nat with (S ((length data + n) / 512) * 512)%nat by lia. by rewrite Nat.div_mul. }
        assert (Hm : ((length data + (n + chunk)) / 512 <= (length data + length buf) / 512)%nat) by (apply Nat.Div0.div_le_mono; lia). lia.
  - exists 0%nat. split; [lia|]. split; [by left|]. rewrite drop_0, Nat.sub_0_r. done.
  - destruct (0 <? Z.of_nat (length buf)); [|lia].
    assert (((length data + length buf) / 512 < 140)%nat) by (apply Nat.Div0.div_lt_upper_bound; lia). lia.
Qed.
End store.

(** ** The whole of file_write *)

(** The blocks of a file, its table included. *)
Definition block_of (i : inode) (lbas : list Z) (x : Z) : Prop :=
  x ∈ lbas \/ ((12 < length lbas)%nat /\ i_sectors i !! 12%nat = Some x).

Definition in_inode_table (p : partition) (k : Z) : Prop := inode_table_lba (sb p) <= k < inode_table_lba (sb p) + 608.

(** [s'] is [s] with [buf] at the end of the file that is open at [fd]: the
    blocks [F] have been taken, [new] for data. The bytes of the inode table
    were [T]; [h] is left of the heap. *)
Record written (s : fsys) (fd : Z) (f : file) (i i' : inode) (lbas new F data buf T h : list Z) (s' : fsys) : Prop := {
  wr_inode : inodes s' = <[fd_inode f := i']> (inodes s) /\ i_no i' = i_no i /\ i_open_cnts i' = i_open_cnts i /\ write_deny i' = write_deny i;
  wr_open : file_table s' = <[Z.to_nat fd := File (u32 (i_size i + Z.of_nat (length buf) - 1)) (fd_flag f) (fd_inode f)]> (file_table s);
  wr_file : file_on (cur_part s') (disk s') i' (lbas ++ new) (data ++ buf);
  wr_part : part_ok s';
  wr_taken : forall x, x ∈ F -> is_free (cur_part s) x;
  wr_new : forall x, x ∈ new -> x ∈ F;
  wr_len : btmp_bytes_len (block_bitmap (cur_part s')) = btmp_bytes_len (block_bitmap (cur_part s));
  wr_bits : forall j, 0 <= j -> bit_used (block_bitmap (cur_part s')) j =
    bool_decide (area (cur_part s) + j ∈ F) || bit_used (block_bitmap (cur_part s)) j;
  wr_table : table (cur_part s') (disk s') = Some (set_slot T (i_no i) (enc_inode (pure_inode i')));
  wr_frame : forall k, ~ in_map (cur_part s) k -> ~ in_inode_table (cur_part s) k -> k ∉ F -> ~ block_of i lbas k ->
    disk s' !! k = disk s !! k;
  wr_rest : s' = Fsys (disk s') (set_block_bitmap (block_bitmap (cur_part s')) (cur_part s)) (inodes s') (dirs s) (file_table s')
    (fd_table s) (cwd_inode_nr s) (processor s) h
}.

Lemma data_block_upd p b x : btmp_bytes_len b = btmp_bytes_len (block_bitmap p) -> data_block (set_block_bitmap b p) x <-> data_block p x.
Proof. intros E. unfold data_block. cbn. by rewrite E. Qed.

Lemma owned_in_use s0 F W b d x : part_ok s0 -> taken s0 F W b d -> owned s0 F x <-> in_use (set_block_bitmap b (cur_part s0)) x.
Proof.
  intros Hpart Ht. unfold owned, in_use. rewrite (data_block_upd _ _ _ (tk_len _ _ _ _ _ Ht)). change (area (set_block_bitmap b (cur_part s0))) with (area (cur_part s0)).
  cbn [block_bitmap set_block_bitmap]. split; intros [Hd Ho]; (split; [done|]); pose proof Hd as [Hr _]; unfold area in *.
  - rewrite (tk_bits _ _ _ _ _ Ht) by lia. apply orb_true_iff. destruct Ho as [Hf|Hu]; [left|by right].
    apply bool_decide_eq_true. unfold area. by replace (_ + (x - _)) with x by lia.
  - rewrite (tk_bits _ _ _ _ _ Ht) in Ho by lia. apply orb_true_iff in Ho as [Hf|Hu]; [left|by right].
    apply bool_decide_eq_true in Hf. unfold area in Hf. by replace (_ + (x - _)) with x in Hf by lia.
Qed.

(** Blocks are where they were when nobody has written to the table. *)
Lemma blocks_on_change (own own' : Z -> Prop) d d' i i' lbas : blocks_on own d i lbas -> i_sectors i' = i_sectors i ->
  (forall x, own x -> own' x) -> (forall x, x ∈ lbas -> is_Some (d !! x) -> is_Some (d' !! x)) ->
  (forall t, own t -> t ∉ lbas -> d' !! t = d !! t) -> blocks_on own' d' i' lbas.
Proof.
  intros [B1 B2 B3 B4 B5 B6 B7] Es Ho Hs Ht. split; rewrite ?Es; try done.
  - intros Hl. destruct (B5 Hl) as (t & buf & Htab & Hot & Hn & Hb & Hr). exists t, buf. split; [done|]. split; [by apply Ho|]. split; [done|].
    split; [by rewrite Ht|done].
  - intros x Hx. destruct (B6 x Hx). split; [by apply Ho|by apply Hs].
Qed.

Lemma holds_change d d' lbas data : holds d lbas data -> (forall x, x ∈ lbas -> d' !! x = d !! x) -> holds d' lbas data.
Proof.
  intros Hh Hd k b Hb. destruct (Hh k b Hb) as (lba & sec & H1 & H2 & H3 & H4 & H5). exists lba, sec. rewrite Hd; [done|].
  by eapply list_elem_of_lookup_2.
Qed.

Lemma data_not_table s0 x : part_ok s0 -> area (cur_part s0) <= x -> ~ in_inode_table (cur_part s0) x.
Proof. intros [Hl _ _ _] Hx. pose proof (lw_data _ Hl). unfold in_inode_table, area in *. lia. Qed.

Lemma map_not_table s0 x : part_ok s0 -> in_map (cur_part s0) x -> ~ in_inode_table (cur_part s0) x.
Proof.
  intros [Hl _ _ _] Hx. pose proof (lw_it _ Hl). pose proof (lw_bi _ Hl). unfold in_inode_table, in_map in *. lia.
Qed.

(** The partition is in order when an inode is written at last. *)
Lemma part_after s0 a i F W b d d' ft : part_ok s0 -> taken s0 F W b d -> disk_wf d' ->
  (forall k, ~ in_inode_table (cur_part s0) k -> d' !! k = d !! k) -> part_ok (fs_at s0 a i b d' ft).
Proof.
  intros Hpart Ht Hd Hk. destruct Hpart as [Hl Hd0 Hs Hf] eqn:Ep. clear Ep. pose proof Hl as [L1 L2 L3 L4 L5 L6].
  split; cbn [cur_part disk fs_at]; [|done| |].
  - split; [apply (tk_map _ _ _ _ _ Ht)|by destruct L2|done|done|done|]. cbn. by rewrite (tk_len _ _ _ _ _ Ht).
  - unfold synced. rewrite <- (tk_sync _ _ _ _ _ Ht). apply read_sectors_ext. intros k Hkr. apply Hk.
    apply (map_not_table s0); [done|exact Hkr].
  - intros x [Hx Hxf]. change (area (set_block_bitmap b (cur_part s0))) with (area (cur_part s0)) in *.
    cbn [block_bitmap set_block_bitmap] in *. rewrite (tk_bits _ _ _ _ _ Ht) in Hxf by lia. rewrite (tk_len _ _ _ _ _ Ht) in Hx.
    apply orb_false_iff in Hxf as [_ Hxf]. destruct (Hf x) as [Hdb Hsome]; [by split|]. split; [by apply data_block_upd; [apply Ht|]|].
    rewrite Hk by (apply data_not_table; [done|lia]). apply (tk_sectors _ _ _ _ _ Ht); [apply data_not_map; [done|lia]|done].
Qed.

Lemma table_kept s0 F W b d T : part_ok s0 -> taken s0 F W b d -> (forall x, x ∈ W -> area (cur_part s0) <= x) ->
  table_wf (cur_part s0) (disk s0) -> table (cur_part s0) (disk s0) = Some T ->
  table_wf (set_block_bitmap b (cur_part s0)) d /\ table (set_block_bitmap b (cur_part s0)) d = Some T.
Proof.
  intros Hpart Ht HW [W1 W2 W3 W4] HT. split.
  - split; [apply Ht|done|done|done].
  - rewrite <- HT. apply read_sectors_ext. intros k Hk. change (in_inode_table (cur_part s0) k) in Hk.
    apply (tk_frame _ _ _ _ _ Ht); [intros Hm; by apply (map_not_table s0 k)|]. intros Hin. by apply (data_not_table s0 k Hpart (HW k Hin)).
Qed.

(** The inode that goes to disk fits its types. *)
Lemma blocks_inode_wf s0 F d i i' lbas : part_ok s0 -> blocks_on (owned s0 F) d i' lbas -> inode_wf i -> i' = set_i_sectors (i_sectors i') i -> inode_wf i'.
Proof.
  intros Hpart [B1 B2 B3 B4 B5 B6 B7] [W1 W2 W3 W4 W5 W6] E. assert (Hsec : Forall is_u32 (i_sectors i')).
  { apply list.Forall_lookup_2. intros k x Hx. assert (Hz : is_u32 0) by (unfold is_u32; lia).
    assert (Ho : forall y, owned s0 F y -> is_u32 y) by (intros y Hy; eapply (owned_bounds s0 Hpart); exact Hy).
    destruct (decide (k < 12)%nat) as [Hk|Hk].
    - rewrite B3 in Hx by done. injection Hx as <-. destruct (lbas !! k) eqn:El; [|done]. apply Ho. apply B6. by eapply list_elem_of_lookup_2.
    - pose proof (lookup_lt_Some _ _ _ Hx) as Hlt. assert (k = 12%nat) as -> by lia. destruct (decide (length lbas <= 12)%nat) as [Hl|Hl].
      + rewrite B4 in Hx by done. by injection Hx as <-.
      + destruct B5 as (t & buf & Ht & Hot & _); [lia|]. rewrite Ht in Hx. injection Hx as <-. by apply Ho. }
  rewrite E. by split.
Qed.

(** The last steps, when the data are on disk. *)
Lemma finish_run s0 fd f i i1 lbas new F W b d d1 data buf T (Q : unit -> fsys -> Prop)
    (i2 := set_i_size (Z.of_nat (length data + length buf)) i1)
    (ft := <[Z.to_nat fd := File (u32 (i_size i1 - 1 + Z.of_nat (length buf))) (fd_flag f) (fd_inode f)]> (file_table s0)) :
  part_ok s0 -> table_wf (cur_part s0) (disk s0) -> table (cur_part s0) (disk s0) = Some T ->
  inode_wf i -> i_no i < 256 -> slot_buffer (i_no i) 512 -> i1 = set_i_sectors (i_sectors i1) i ->
  (forall x, x ∈ new -> x ∈ F) -> (forall x, x ∈ W -> area (cur_part s0) <= x /\ (x ∈ F \/ block_of i lbas x)) ->
  blocks_on (owned s0 F) d1 i1 (lbas ++ new) -> (forall k, k ∉ lbas ++ new -> d !! k = d1 !! k) ->
  taken s0 F W b d -> (forall x, x ∈ lbas ++ new -> is_Some (disk s0 !! x)) -> holds d (lbas ++ new) (data ++ buf) ->
  length (lbas ++ new) = S ((length data + length buf) / 512) -> (length data + length buf < 140 * 512)%nat ->
  (forall s', written s0 fd f i i2 lbas new F data buf T (heap s0) s' -> Q tt s') ->
  wp (inode_sync i2 512) Q (fs_at s0 (fd_inode f) i2 b d ft).
Proof.
  intros Hpart Htw HT Hwf Hno Hslot Ei Hnew HW Hb Hd Ht Hsome Hh Hlen Hmax HQ.
  assert (HW1 : forall x, x ∈ W -> area (cur_part s0) <= x) by (intros x Hx; by apply HW).
  destruct (table_kept _ _ _ _ _ _ Hpart Ht HW1 Htw HT) as [Htw' HT']. destruct (iw_no _ Hwf) as [Hno0 _].
  assert (Hb2 : blocks_on (owned s0 F) d i2 (lbas ++ new)).
  { eapply blocks_on_change; [exact Hb|done|done| |by intros t _ Hn; apply Hd].
    intros x Hx _. destruct (bo_blocks _ _ _ _ Hb x Hx) as [Ho _]. destruct (owned_bounds s0 Hpart _ _ Ho) as (_ & _ & Ha).
    apply (tk_sectors _ _ _ _ _ Ht); [by apply data_not_map|by apply Hsome]. }
  assert (Hwf2 : inode_wf i2).
  { pose proof (blocks_inode_wf _ _ _ i i1 _ Hpart Hb Hwf Ei) as [V1 V2 V3 V4 V5 V6]. split; try done. unfold is_u32. cbn. lia. }
  assert (Eno : u8 (i_no i2) = i_no i) by (cbn; rewrite Ei; apply u8_small; lia).
  eapply (inode_sync_run _ T); [exact Htw'|exact HT'|done|by rewrite Eno|]. rewrite Eno. intros d' Htw2 HT2 Hfr. apply HQ.
  assert (Hfr' : forall k, ~ in_inode_table (cur_part s0) k -> d' !! k = d !! k) by exact Hfr.
  assert (Hdat : forall x, owned s0 F x -> d' !! x = d !! x).
  { intros x Ho. destruct (owned_bounds s0 Hpart _ _ Ho) as (_ & _ & Ha). apply Hfr'. by apply data_not_table. }
  split; try done.
  - cbn. by rewrite Ei.
  - cbn. do 3 f_equal. rewrite Ei. cbn. lia.
  - cbn [cur_part disk set_disk fs_at]. split; [|by rewrite (length_app data)|right; by rewrite (length_app data)|].
    + eapply blocks_on_change; [exact Hb2|done|intros x Ho; by eapply owned_in_use|intros x Hx [y Hy]; exists y; rewrite Hdat; [done|by apply (bo_blocks _ _ _ _ Hb)]|].
      intros t Ho _. by apply Hdat.
    + eapply holds_change; [exact Hh|]. intros x Hx. apply Hdat. by apply (bo_blocks _ _ _ _ Hb).
  - apply (part_after s0 (fd_inode f) i2 F W b d d' _ Hpart Ht); [apply Htw2|done].
  - apply (tk_free _ _ _ _ _ Ht).
  - apply (tk_len _ _ _ _ _ Ht).
  - apply (tk_bits _ _ _ _ _ Ht).
  - intros k Hm Hn HF Hbk. cbn. rewrite Hfr' by done. apply (tk_frame _ _ _ _ _ Ht); [done|]. intros Hin. by destruct (HW k Hin) as [_ [|]].
Qed.

(** What the loop that stores the data starts from. *)
Record to_store (s0 : fsys) (i : inode) (lbas data : list Z) (lbas2 F W : list Z) (d : gmap Z (list Z)) (all : list Z) : Prop := {
  ts_all : forall k, (length data / 512 <= k < length lbas2)%nat -> all !! k = lbas2 !! k;
  ts_own : forall x, x ∈ lbas2 -> owned s0 F x /\ is_Some (disk s0 !! x);
  ts_holds : holds d lbas2 data;
  ts_written : forall x, x ∈ W -> x ∉ lbas /\ area (cur_part s0) <= x /\ (x ∈ F \/ block_of i lbas x)
}.

Lemma start_store s0 i i1 lbas lbas1 data F1 b1 d1 will ft new all i2 F2 W2 b2 d2 : part_ok s0 -> file_on (cur_part s0) (disk s0) i lbas data ->
  started s0 i lbas ft i1 F1 lbas1 b1 d1 -> length lbas1 = S (length data / 512) -> (length lbas1 + length new)%nat = will ->
  all_ok all (pred (length lbas1)) (lbas1 ++ new) \/ all_ok all 12 (lbas1 ++ new) /\ (12 < length lbas1)%nat ->
  taken s0 (F1 ++ F2) W2 b2 d2 -> blocks_on (owned s0 (F1 ++ F2)) d2 i2 (lbas1 ++ new) -> (forall x, x ∈ new -> x ∈ F2) ->
  (forall x, x ∈ W2 -> owned s0 (F1 ++ F2) x /\ (x ∈ F2 \/ i_sectors i1 !! 12%nat = Some x)) ->
  to_store s0 i lbas data (lbas1 ++ new) (F1 ++ F2) W2 d2 all.
Proof.
  intros Hpart [Hb Hsize Hcount Hh] (Ht1 & Hb1 & Hl1 & Hne & Ei1 & E12 & Hlen1) Hused Hcl Hall Ht2 Hb2 Hnew HW.
  assert (HWp : forall x, x ∈ W2 -> x ∉ lbas /\ area (cur_part s0) <= x /\ (x ∈ F1 ++ F2 \/ block_of i lbas x)).
  { intros x Hx. destruct (HW x Hx) as [Ho Hor]. destruct (owned_bounds s0 Hpart _ _ Ho) as (_ & Hnz & Ha).
    destruct Hor as [Hf|Ht12].
    - split; [|split; [done|left; apply elem_of_app; by right]]. intros Hin. eapply (owned_fresh s0 F1 F2 _ _ _ x Ht2); [|done].
      apply (bo_blocks _ _ _ _ Hb1). rewrite Hl1. apply elem_of_app. by left.
    - rewrite E12 in Ht12. destruct (decide (length lbas <= 12)%nat) as [Hle|Hgt].
      { rewrite (bo_table _ _ _ _ Hb Hle) in Ht12. injection Ht12 as <-. lia. }
      destruct (bo_indirect _ _ _ _ Hb) as (t & buf & Htab & _ & Hn & _); [lia|]. assert (t = x) as <- by congruence.
      split; [done|]. split; [done|]. right. right. split; [lia|done]. }
  split.
  - intros k Hk. destruct Hall as [[_ Ha]|[[_ Ha] H12]]; apply Ha; lia.
  - intros x Hx. destruct (bo_blocks _ _ _ _ Hb2 x Hx) as [Ho _]. split; [done|]. rewrite Hl1, <- app_assoc, !elem_of_app in Hx.
    destruct Hx as [Hx|Hx]; [by apply (bo_blocks _ _ _ _ Hb)|]. apply (po_free _ Hpart), (tk_free _ _ _ _ _ Ht2), elem_of_app.
    destruct Hx as [Hx|Hx]; [by left|right; by apply Hnew].
  - intros k y Hy. destruct (Hh k y Hy) as (lba & sec & H1 & H2 & H3 & H4 & H5). exists lba, sec. pose proof (list_elem_of_lookup_2 _ _ _ H1) as Hin.
    split; [rewrite Hl1, <- app_assoc; by apply lookup_app_l_Some|]. split; [done|]. split; [|done].
    rewrite (kept _ _ _ _ _ lba Hpart Ht2); [done| |]; [|intros Hx; by destruct (HWp lba Hx) as [Hn _]; apply Hn].
    eapply (owned_bounds s0 Hpart F1). apply (bo_blocks _ _ _ _ Hb1). rewrite Hl1. apply elem_of_app. by left.
  - done.
Qed.

(** What comes after the two allocations. *)
Lemma append_run s0 fd f i lbas data buf T fr (will := S ((length data + length buf) / 512)) (Q : Z -> fsys -> Prop) :
  file_table s0 !! Z.to_nat fd = Some f -> part_ok s0 -> file_on (cur_part s0) (disk s0) i lbas data ->
  (length data + length buf < 140 * 512)%nat -> NoDup fr -> (forall x, x ∈ fr -> is_free (cur_part s0) x) -> (lacking (length lbas) will <= length fr)%nat ->
  table_wf (cur_part s0) (disk s0) -> table (cur_part s0) (disk s0) = Some T -> inode_wf i -> i_no i < 256 -> slot_buffer (i_no i) 512 ->
  (forall i' new F s', written s0 fd f i i' lbas new F data buf T (heap s0) s' -> Q (Z.of_nat (length buf)) s') ->
  wp (do ok <- first_block (fd_inode f);
      if negb ok then ret (-1)
      else
        do i <- ld_inode (fd_inode f);
        let file_has_used_blocks := i_size i / BLOCK_SIZE + 1 in
        let file_will_use_blocks := u32 (i_size i + Z.of_nat (length buf)) / BLOCK_SIZE + 1 in
        ASSERT (file_will_use_blocks <=? 140) ;;
        do r <- collect_write (fd_inode f) file_has_used_blocks file_will_use_blocks;
        match r with
        | None => ret (-1)
        | Some all_blocks =>
            do i <- ld_inode (fd_inode f);
            do f' <- ld_file fd;
            st_file fd (File (u32 (i_size i - 1)) (fd_flag f') (fd_inode f')) ;;
            do bytes_written <- loop 150 (write_chunk fd (Z.of_nat (length buf)) all_blocks) (buf, 0, Z.of_nat (length buf), true);
            do i <- ld_inode (fd_inode f);
            inode_sync i 512 ;;
            ret (s32 bytes_written)
        end) Q (fs_at s0 (fd_inode f) i (block_bitmap (cur_part s0)) (disk s0) (file_table s0)).
Proof.
  intros Hf Hpart [Hb Hsize Hcount Hh] Hmax Hnd Hfree Hroom Htw HT Hwf Hno Hslot HQ.
  assert (Hb0 : blocks_on (owned s0 []) (disk s0) i lbas) by
    (eapply blocks_on_change; [exact Hb|done|intros x [Hx Hu]; split; [done|by right]|done|done]).
  rewrite wp_bind. eapply (first_block_run s0 _ fr Hpart Hnd Hfree); [by apply taken_start|exact Hb0|intros ->; unfold lacking in Hroom; cbn in Hroom; unfold will in Hroom; lia|].
  intros i1 F1 lbas1 b1 d1 (Ht1 & Hb1 & Hl1 & Hne & Ei1 & E12 & Hlen1). cbn [negb]. wp_simp. apply ld_inode_at. wp_simp.
  assert (Hs1 : i_size i1 = Z.of_nat (length data)) by (by rewrite Ei1).
  assert (Hused : length lbas1 = S (length data / 512)) by (rewrite Hlen1; destruct Hcount as [[-> ->]| ->]; cbn; lia).
  rewrite Hs1. unfold BLOCK_SIZE, SECTOR_SIZE. rewrite u32_small by lia.
  replace (Z.of_nat (length data) / 512 + 1) with (Z.of_nat (length lbas1)) by (rewrite Hused, Nat2Z.inj_succ, Nat2Z.inj_div; lia).
  replace ((Z.of_nat (length data) + Z.of_nat (length buf)) / 512 + 1) with (Z.of_nat will) by (unfold will; rewrite Nat2Z.inj_succ, Nat2Z.inj_div, Nat2Z.inj_add; lia).
  assert (Hw : (length lbas1 <= will <= 140)%nat).
  { rewrite Hused. unfold will. split; [apply le_n_S, Nat.Div0.div_le_mono; lia|apply Nat.Div0.div_lt_upper_bound; lia]. }
  apply wp_ASSERT. split; [lia|]. wp_simp.
  eapply (collect_write_run s0 _ fr Hpart Hnd Hfree i1 F1 b1 d1 _ lbas1 will); [done|done|done|done| |].
  { rewrite Hl1, length_app in Hw |- *. rewrite Hl1, length_app in Hlen1. unfold lacking in *.
    destruct (Nat.leb_spec (length lbas) 12), (Nat.leb_spec (length lbas + length F1) 12), (Nat.ltb_spec 12 will); cbn [andb] in *; lia. }
  intros new all s' [Hcl Hall (i2 & F2 & W2 & b2 & d2 & -> & Ht2 & Hb2 & Ei2 & Hnew & HW)]. wp_simp. apply ld_inode_at. wp_simp.
  eapply wp_ld_file; [exact Hf|]. wp_simp. eapply wp_st_file; [exact Hf|]. wp_simp.
  pose proof (start_store s0 i i1 lbas lbas1 data F1 b1 d1 will (file_table s0) new all i2 F2 W2 b2 d2 Hpart) as Hstart.
  destruct Hstart as [T1 T2 T3 T4]; try done.
  assert (Hs2 : i_size i2 = Z.of_nat (length data)) by (by rewrite Ei2). assert (Hlen2 : length (lbas1 ++ new) = will) by (by rewrite length_app).
  eapply (store_run s0 (fd_inode f) fd (fd_flag f) i2 (lbas1 ++ new) all data buf (F1 ++ F2) W2 b2 d2 (file_table s0));
    try done; [by eapply lookup_lt_Some|apply (bo_nodup _ _ _ _ Hb2)| |].
  - exists d2, W2. rewrite Nat.add_0_r, Z.add_0_r, app_nil_r. split; [|split; [done|split; [by left|done]]]. rewrite <- Hs2. by destruct i2.
  - intros s' (d3 & W3 & -> & Ht3 & HW3 & Hd3 & Hh3). rewrite take_ge in Hh3 by done. wp_simp. apply ld_inode_at. wp_simp.
    rewrite Hl1, <- app_assoc in *.
    eapply (finish_run s0 fd f i i2 lbas (F1 ++ new) (F1 ++ F2) W3 b2 d3 d2 data buf T); try done.
    + by rewrite Ei2, Ei1.
    + intros x [Hx|Hx]%elem_of_app; apply elem_of_app; [by left|right; by apply Hnew].
    + intros x Hx. destruct (HW3 x Hx) as [Hx2|Hx2]; [apply T4 in Hx2; tauto|]. split; [eapply (owned_bounds s0 Hpart), T2; done|].
      rewrite !elem_of_app in *. destruct Hx2 as [?|[?|?%Hnew]]; [right; by left|left; by left|left; by right].
    + intros x Hx. by apply T2.
    + intros s' Hwr. wp_simp. rewrite s32_small by lia. by eapply HQ.
Qed.

(** A file that can be appended to: open at [fd], its data on disk, and the
    partition with room for [buf]; the inode is one of the first 256 and does
    not cross from one sector of the table to the next. *)
Record can_append (s : fsys) (fd : Z) (f : file) (i : inode) (lbas data buf T fr : list Z) : Prop := {
  ca_open : file_table s !! Z.to_nat fd = Some f;
  ca_inode : inodes s !! fd_inode f = Some i;
  ca_part : part_ok s;
  ca_file : file_on (cur_part s) (disk s) i lbas data;
  ca_max : (length data + length buf < 140 * 512)%nat;
  ca_room : NoDup fr /\ (lacking (length lbas) (S ((length data + length buf) / 512)) <= length fr)%nat;
  ca_free : forall x, x ∈ fr -> is_free (cur_part s) x;
  ca_table : table_wf (cur_part s) (disk s) /\ table (cur_part s) (disk s) = Some T;
  ca_wf : inode_wf i /\ i_no i < 256 /\ slot_buffer (i_no i) 512
}.

Lemma file_write_run s fd f i lbas data buf T fr ha hb h (Q : Z -> fsys -> Prop) :
  can_append s fd f i lbas data buf T fr -> heap s = ha :: hb :: h -> ha <> NULL -> hb <> NULL ->
  (forall i' new F s', written s fd f i i' lbas new F data buf T h s' -> Q (Z.of_nat (length buf)) s') ->
  wp (file_write fd buf (Z.of_nat (length buf))) Q s.
Proof.
  intros [Hf Hi Hpart Hfile Hmax [Hnd Hroom] Hfree [Htw HT] (Hwf & Hno & Hslot)] Hheap Hha Hhb HQ.
  unfold file_write. wp_simp. eapply wp_ld_file; [exact Hf|]. wp_simp. eapply wp_ld_inode; [exact Hi|]. wp_simp.
  rewrite (fo_size _ _ _ _ _ Hfile), u32_small by lia. unfold BLOCK_SIZE, SECTOR_SIZE. rewrite (proj2 (Z.ltb_ge _ _)) by lia. wp_simp.
  eapply sys_malloc_run; [exact Hheap|]. rewrite (proj2 (Z.eqb_neq ha NULL)) by done. wp_simp.
  eapply sys_malloc_run; [done|]. rewrite (proj2 (Z.eqb_neq hb NULL)) by done.
  assert (Es : set_heap h (set_heap (hb :: h) s) = fs_at (set_heap h s) (fd_inode f) i (block_bitmap (cur_part s)) (disk s) (file_table s)).
  { unfold fs_at, set_heap. cbn. rewrite insert_id by done. by destruct (cur_part s). }
  rewrite Es. eapply (append_run (set_heap h s) fd f i lbas data buf T fr); try done.
  - by destruct Hpart.
  - intros i' new F s' [? ? ? ? ? ? ? ? ? ? ?]. eapply HQ. by split.
Qed.

(** A file that shares no block with the one that was written is as before. *)
Lemma written_others s fd f i i' lbas new F data buf T h s' j lb dt : part_ok s -> written s fd f i i' lbas new F data buf T h s' ->
  file_on (cur_part s) (disk s) j lb dt -> (forall x, block_of j lb x -> ~ block_of i lbas x) -> file_on (cur_part s') (disk s') j lb dt.
Proof.
  intros Hpart Hwr [Hb Hs Hc Hh] Hdis. rewrite (wr_rest _ _ _ _ _ _ _ _ _ _ _ _ _ Hwr). cbn [cur_part disk]. set (b' := block_bitmap (cur_part s')).
  assert (Hd : forall x, in_use (cur_part s) x -> block_of j lb x -> disk s' !! x = disk s !! x).
  { intros x [[Hx Hm] Hu] Hj. assert (Ha : area (cur_part s) <= x) by (unfold area; lia).
    apply (wr_frame _ _ _ _ _ _ _ _ _ _ _ _ _ Hwr); [by apply data_not_map|by apply data_not_table| |by apply Hdis].
    intros HF. destruct (wr_taken _ _ _ _ _ _ _ _ _ _ _ _ _ Hwr x HF) as [_ Hfr]. congruence. }
  pose proof Hb as [B1 B2 B3 B4 B5 B6 B7].
  assert (Hu : forall x, in_use (cur_part s) x -> in_use (set_block_bitmap b' (cur_part s)) x).
  { intros x [Hx Hu]. split; [apply data_block_upd; [apply (wr_len _ _ _ _ _ _ _ _ _ _ _ _ _ Hwr)|done]|].
    change (area (set_block_bitmap b' (cur_part s))) with (area (cur_part s)). cbn [block_bitmap set_block_bitmap]. unfold b'.
    destruct Hx as [Hx _]. rewrite (wr_bits _ _ _ _ _ _ _ _ _ _ _ _ _ Hwr), Hu by (unfold area; lia). apply orb_true_r. }
  split; [|done|done|].
  - split; try done.
    + intros Hl. destruct (B5 Hl) as (t & bf & Ht & Ho & Hn & Hbf & Hr). exists t, bf. split; [done|]. split; [by apply Hu|]. split; [done|].
      split; [|done]. rewrite Hd; [done|done|by right].
    + intros x Hx. destruct (B6 x Hx) as [Ho Hsome]. split; [by apply Hu|]. rewrite Hd; [done|done|by left].
  - eapply holds_change; [exact Hh|]. intros x Hx. apply Hd; [by apply B6|by left].
Qed.

(** ** The component's property *)

(** [C21] file_write puts the bytes of the buffer behind those of the file: it
    returns their number, and then the file, in memory and on disk, has the old
    bytes and the new ones. The blocks that it lacked, with the table of the
    indirect ones, are blocks that were free; they are marked in the bitmap, in
    memory and on disk, and nothing else is written but the inode. Files that
    share no block with this one are as before. The position of the open file
    is at the last byte, not behind it. *)
Theorem file_write_appends s fd f i lbas data buf T fr ha hb h :
  can_append s fd f i lbas data buf T fr -> heap s = ha :: hb :: h -> ha <> NULL -> hb <> NULL ->
  exists i' new F s', file_write fd buf (Z.of_nat (length buf)) s = Ok (Z.of_nat (length buf), s') /\
    written s fd f i i' lbas new F data buf T h s' /\
    (forall j lb dt, file_on (cur_part s) (disk s) j lb dt -> (forall x, block_of j lb x -> ~ block_of i lbas x) ->
       file_on (cur_part s') (disk s') j lb dt).
Proof.
  intros Hca Hheap Ha Hb.
  assert (Hw : wp (file_write fd buf (Z.of_nat (length buf))) (fun r s' => r = Z.of_nat (length buf) /\
    exists i' new F, written s fd f i i' lbas new F data buf T h s') s).
  { eapply file_write_run; [exact Hca|exact Hheap|done|done|]. intros. split; [done|]. by eexists _, _, _. }
  wp_ok Hw. match goal with H : _ /\ _ |- _ => destruct H as (-> & i' & new & F & Hwr) end. eexists i', new, F, _. split; [done|]. split; [done|].
  intros j lb dt. eapply written_others; [apply (ca_part _ _ _ _ _ _ _ _ _ Hca)|exact Hwr].
Qed.

(** *** Witness: 800 bytes more for a file of 1300, in two new blocks *)

Definition append_map : bitmap := Bitmap 512 (47 :: 0 :: replicate 511 255).
Definition append_part : partition := Part 0 700 demo_sb append_map (demo_map 67) [].
Definition append_inode : inode := Inode 5 1300 1 0 ([614; 615; 617] ++ replicate 10 0).
Definition append_fs : fsys :=
  Fsys (<[2 := 47 :: 0 :: replicate 510 255]> demo_disk) append_part {[0xc0290000 := append_inode]} empty
    (<[3%nat := File 0 O_RDWR 0xc0290000]> (replicate 32 (File 0 0 0))) [] 0 (Cpu EFLAGS_IF [] []) demo_heap.
Definition append_table : list Z := default [] (table append_part (disk append_fs)).
Definition append_buf : list Z := take 800 (demo_text 0 ++ demo_text 0).

Lemma append_part_ok : part_ok append_fs.
Proof.
  assert (Hm : bitmap_wf append_map).
  { split; cbn [append_map btmp_bytes_len bits length]; rewrite ?length_replicate; [lia|lia|].
    do 2 (apply Forall_cons_2; [done|]). apply Forall_replicate. lia. }
  split.
  - split; [split; [done|done|vm_compute; intuition congruence]| |vm_compute; congruence|vm_compute; congruence|vm_compute; congruence|vm_compute; congruence].
    pose proof (demo_map_ok INODE_BITMAP) as [? ? ?]. by split.
  - apply map_Forall_insert_2; [by rewrite !length_cons, length_replicate|exact demo_disk_wf].
  - vm_compute. reflexivity.
  - intros x [Hx Hf]. assert (Hall : Forall (fun x => implb (negb (bit_used append_map (x - 612)))
      ((612 <? x) && (x <=? max_lba) && bool_decide (is_Some (disk append_fs !! x))) = true) (seqZ 612 4096)) by (apply (bool_decide_unpack _); vm_compute; exact I).
    rewrite list.Forall_forall in Hall. specialize (Hall x). rewrite elem_of_seqZ in Hall. change (area (cur_part append_fs)) with 612 in *.
    change (block_bitmap (cur_part append_fs)) with append_map in *. change (btmp_bytes_len append_map) with 512 in Hx. rewrite Hf in Hall.
    specialize (Hall ltac:(lia)). cbn [negb implb] in Hall. rewrite !andb_true_iff, Z.ltb_lt, Z.leb_le, bool_decide_eq_true in Hall.
    destruct Hall as [[? ?] ?]. split; [|done]. split; [|done]. change (612 < x < 612 + 8 * 512). lia.
Qed.

Lemma append_file_on : file_on append_part (disk append_fs) append_inode [614; 615; 617] demo_data.
Proof.
  split; [| |by right|apply holds_b_holds; vm_compute; reflexivity].
  - split; [done|cbn; lia|intros k Hk; do 12 (destruct k; [done|]); lia|done|cbn; lia| |apply (bool_decide_unpack _); vm_compute; exact I].
    intros x Hx. rewrite !elem_of_cons in Hx. destruct Hx as [->|[->|[->|[]%not_elem_of_nil]]];
      (split; [split; [split; [vm_compute; split; reflexivity|done]|vm_compute; reflexivity]|eexists; vm_compute; reflexivity]).
  - vm_compute. reflexivity.
Qed.

Lemma append_can : can_append append_fs 3 (File 0 O_RDWR 0xc0290000) append_inode [614; 615; 617] demo_data append_buf append_table [616; 618].
Proof.
  split.
  - reflexivity.
  - reflexivity.
  - exact append_part_ok.
  - exact append_file_on.
  - apply Nat.ltb_lt. vm_compute. reflexivity.
  - split; [apply (bool_decide_unpack _); vm_compute; exact I|]. apply Nat.leb_le. vm_compute. reflexivity.
  - intros x [->|[->|[]%not_elem_of_nil]%elem_of_cons]%elem_of_cons; (split; [vm_compute; split; congruence|vm_compute; reflexivity]).
  - assert (H : bool_decide (is_Some (table append_part (disk append_fs))) = true) by (vm_compute; reflexivity).
    apply bool_decide_eq_true in H as [T HT]. split; [split; [apply append_part_ok|vm_compute; congruence..]|]. unfold append_table. by rewrite HT.
  - split; [|split; [done|right; vm_compute; split; congruence]]. split; try (unfold is_u32; cbn; lia).
    repeat (apply Forall_cons_2; [unfold is_u32; lia|]). constructor.
Qed.

Lemma file_write_appends_witness :
  exists i' new F s', file_write 3 append_buf 800 append_fs = Ok (800, s') /\
    written append_fs 3 (File 0 O_RDWR 0xc0290000) append_inode i' [614; 615; 617] new F demo_data append_buf append_table (drop 2 demo_heap) s' /\
    (forall j lb dt, file_on append_part (disk append_fs) j lb dt -> (forall x, block_of j lb x -> ~ block_of append_inode [614; 615; 617] x) ->
       file_on (cur_part s') (disk s') j lb dt).
Proof.
  apply (file_write_appends append_fs 3 (File 0 O_RDWR 0xc0290000) append_inode [614; 615; 617] demo_data append_buf append_table [616; 618]
    0xc0300000 0xc0300200 (drop 2 demo_heap) append_can); done.
Defined.
