(* ===== verification/FileTail.v ===== *)
(** * Writing within the last block of a file (fs/file.c: file_write)

    When the bytes fit in the last block that a file has, file_write takes no
    block, and what it does has nothing to do with the block bitmap: [FileWrite]
    is about a bitmap in memory that agrees with the disk, which mounting does
    not leave ([Format]); what is here holds of every bitmap. *)

From Stdlib Require Import ZArith Lia.
From stdpp Require Import base numbers list gmap option.
From S2P Require Import Prelude Bitmap Intr DList FsTypes Blocks Inode FileOps FileWrite.

Local Open Scope Z_scope.

(** A sector behind the inode table. *)
Definition data_sector (p : partition) (x : Z) : Prop := inode_table_lba (sb p) + 608 <= x <= max_lba.

(** A file of the bytes [data] with the blocks [lbas], whatever the bitmap says
    of them; it has a block for the next byte. *)
Record file_at (p : partition) (d : gmap Z (list Z)) (i : inode) (lbas data : list Z) : Prop := {
  ft_blocks : blocks_on (data_sector p) d i lbas;
  ft_size : i_size i = Z.of_nat (length data);
  ft_count : length lbas = S (length data / 512);
  ft_holds : holds d lbas data
}.

(** [s'] is [s] with [buf] behind the bytes of the file open at [fd], in the
    block [lba]; the bytes of the inode table were [T], and [h] is left of the
    heap. *)
Record tail_written (s : fsys) (fd : Z) (f : file) (i : inode) (lbas : list Z) (lba : Z) (data buf T h : list Z)
    (i' : inode) (s' : fsys) : Prop := {
  tl_inode : i' = set_i_size (Z.of_nat (length data + length buf)) i;
  tl_file : file_at (cur_part s) (disk s') i' lbas (data ++ buf);
  tl_table : table (cur_part s) (disk s') = Some (set_slot T (i_no i) (enc_inode (pure_inode i')));
  tl_wf : table_wf (cur_part s) (disk s');
  tl_frame : forall x, ~ in_inode_table (cur_part s) x -> x <> lba -> disk s' !! x = disk s !! x;
  tl_rest : s' = Fsys (disk s') (cur_part s) (<[fd_inode f := i']> (inodes s)) (dirs s)
    (<[Z.to_nat fd := File (u32 (i_size i + Z.of_nat (length buf) - 1)) (fd_flag f) (fd_inode f)]> (file_table s))
    (fd_table s) (cwd_inode_nr s) (processor s) h
}.

Lemma write_one_run lba buf s old (Q : unit -> fsys -> Prop) : lba <= max_lba -> disk s !! lba = Some old -> length buf = 512%nat ->
  Q tt (set_disk (<[lba := buf]> (disk s)) s) -> wp (ide_write lba buf 1) Q s.
Proof.
  intros Hmax Hold Hl HQ. unfold ide_write. wp_assert. apply wp_ASSERT. split; [done|]. wp_simp.
  apply wp_of_option. exists (<[lba := buf]> (disk s)). split; [|by wp_simp].
  cbn [write_sectors]. rewrite Hold, Hl. cbn [Nat.leb]. by rewrite take_ge by lia.
Qed.

Section tail.
Context (s : fsys) (fd : Z) (f : file) (i : inode) (lbas : list Z) (lba : Z) (data buf T : list Z).
Context (Hf : file_table s !! Z.to_nat fd = Some f) (Hi : inodes s !! fd_inode f = Some i).
Context (Hat : file_at (cur_part s) (disk s) i lbas data).
Context (Hlba : lbas !! (length data / 512)%nat = Some lba).
Context (Htw : table_wf (cur_part s) (disk s)).

Lemma data_bounds x : data_sector (cur_part s) x -> 0 < x <= max_lba /\ ~ in_inode_table (cur_part s) x.
Proof using Htw. destruct Htw. unfold data_sector, in_inode_table. lia. Qed.

Lemma last_data : data_sector (cur_part s) lba /\ is_Some (disk s !! lba).
Proof using Hat Hlba. eapply (bo_blocks _ _ _ _ (ft_blocks _ _ _ _ _ Hat)), list_elem_of_lookup_2, Hlba. Qed.

Let used := Z.of_nat (length lbas).

(** The addresses it collects, in any state with this inode and disk. *)
Lemma collect_same_run s1 (Q : option (list Z) -> fsys -> Prop) : inodes s1 !! fd_inode f = Some i -> disk s1 = disk s ->
  (forall all, all !! (length data / 512)%nat = Some lba -> Q (Some all) s1) -> wp (collect_write (fd_inode f) used used) Q s1.
Proof using Hat Hlba Htw.
  intros Hi1 Hd1 HQ. destruct Hat as [[B1 B2 B3 B4 B5 B6 B7] _ Hc _]. unfold collect_write. wp_simp. eapply wp_ld_inode; [exact Hi1|].
  wp_simp. rewrite Z.sub_diag. cbn [Z.eqb]. replace (used - 1) with (Z.of_nat (length data / 512)) by (unfold used; lia).
  unfold used. destruct (Z.leb_spec (Z.of_nat (length lbas)) 12) as [Hle|Hgt].
  - wp_simp. eapply sector_run; [rewrite Nat2Z.id, B3 by lia; by rewrite Hlba|]. cbn [default]. wp_simp.
    apply set_word_run; [rewrite Nat2Z.id, length_replicate; lia|]. wp_simp. rewrite Nat2Z.id. apply HQ.
    by rewrite list_lookup_insert_eq by (rewrite length_replicate; lia).
  - destruct B5 as (t & bf & Ht & Hot & _ & Hbf & Hr); [lia|]. destruct (data_bounds t Hot) as [[Ht0 Htm] _].
    wp_simp. eapply sector_run; [exact Ht|]. wp_simp. apply wp_ASSERT. split; [by apply negb_true_iff, Z.eqb_neq; lia|]. wp_simp.
    eapply read_table_run; [exact Htm|by rewrite Hd1|]. wp_simp. apply HQ.
    destruct (all_ok_table (replicate 140 0) bf lbas eq_refl B2 Hr) as [_ Ha]. by rewrite Ha by lia.
Qed.

Context (Hroom : (length data mod 512 + length buf < 512)%nat) (Hbuf : (0 < length buf)%nat).
Let i' := set_i_size (Z.of_nat (length data + length buf)) i.

(** The sector with the bytes in it. *)
Lemma tail_at sec d' : disk s !! lba = Some sec -> length sec = 512%nat ->
  (forall x, ~ in_inode_table (cur_part s) x -> d' !! x = <[lba := splice sec (length data mod 512)%nat buf]> (disk s) !! x) ->
  file_at (cur_part s) d' i' lbas (data ++ buf).
Proof using Hat Hlba Htw Hroom Hbuf.
  intros Hsec Hl Hd'. pose proof last_data as [Hld _]. destruct Hat as [Hb Hs Hc Hh]. pose proof Hb as [B1 B2 B3 B4 B5 B6 B7].
  assert (E : ((length data + length buf) / 512 = length data / 512)%nat).
  { pose proof (Nat.div_mod_eq (length data) 512). symmetry. apply (Nat.div_unique _ _ _ (length data mod 512 + length buf)); lia. }
  split; [| |by rewrite length_app, E|].
  - eapply blocks_on_change; [exact Hb|done|done| |].
    + intros x Hx Hsome. rewrite Hd' by (apply data_bounds, B6, Hx). destruct (decide (x = lba)) as [->|Hne].
      * rewrite lookup_insert_eq. by eexists.
      * by rewrite lookup_insert_ne.
    + intros t Ht Hn. rewrite Hd' by (by apply data_bounds). rewrite lookup_insert_ne; [done|]. intros <-. by apply Hn, (list_elem_of_lookup_2 _ _ _ Hlba).
  - by rewrite length_app.
  - apply (holds_change (<[lba := splice sec (length data mod 512)%nat buf]> (disk s))).
    + apply holds_write; try done; [by apply data_bounds|by right|lia].
    + intros x Hx. by apply Hd', data_bounds, B6.
Qed.

Lemma tail_run ha hb h (Q : Z -> fsys -> Prop) :
  table (cur_part s) (disk s) = Some T -> inode_wf i -> i_no i < 256 -> slot_buffer (i_no i) 512 ->
  heap s = ha :: hb :: h -> ha <> NULL -> hb <> NULL ->
  (forall s', tail_written s fd f i lbas lba data buf T h i' s' -> Q (Z.of_nat (length buf)) s') ->
  wp (file_write fd buf (Z.of_nat (length buf))) Q s.
Proof using All.
  intros HT Hwf Hno Hslot Hheap Hha Hhb HQ. pose proof last_data as [Hld [sec Hsec]]. pose proof (tw_disk _ _ Htw _ _ Hsec) as Hsl. cbn beta in Hsl.
  destruct (data_bounds lba Hld) as [[Hl0 Hlm] Hlt]. pose proof Hat as [[B1 B2 B3 B4 B5 B6 B7] Hs Hc Hh].
  pose proof (Nat.div_mod_eq (length data) 512) as Hdm. pose proof (Nat.mod_upper_bound (length data) 512 ltac:(lia)) as Hub.
  assert (Hn : (length data + length buf < 140 * 512)%nat) by lia.
  unfold file_write. wp_simp. eapply wp_ld_file; [exact Hf|]. wp_simp. eapply wp_ld_inode; [exact Hi|]. wp_simp.
  unfold BLOCK_SIZE, SECTOR_SIZE. rewrite Hs, u32_small by lia. rewrite (proj2 (Z.ltb_ge _ _)) by lia. wp_simp.
  eapply sys_malloc_run; [exact Hheap|]. rewrite (proj2 (Z.eqb_neq ha NULL)) by done. wp_simp.
  eapply sys_malloc_run; [done|]. rewrite (proj2 (Z.eqb_neq hb NULL)) by done. cbn [set_heap]. wp_simp.
  destruct (lookup_lt_is_Some_2 lbas 0) as [x0 Hx0]; [lia|]. destruct (data_bounds x0) as [[Hx00 _] _]; [by eapply B6, list_elem_of_lookup_2|].
  unfold first_block. wp_simp. eapply wp_ld_inode; [exact Hi|]. wp_simp. eapply sector_run; [apply (B3 0%nat); lia|].
  rewrite Hx0. change (default 0 (Some x0)) with x0. rewrite (proj2 (Z.eqb_neq x0 0)) by lia. wp_simp. cbn [negb]. wp_simp. eapply wp_ld_inode; [exact Hi|]. wp_simp.
  rewrite Hs, u32_small by lia.
  assert (E1 : Z.of_nat (length data) / 512 + 1 = used) by (unfold used; rewrite Hc, Nat2Z.inj_succ, Nat2Z.inj_div; lia).
  assert (E2 : (Z.of_nat (length data) + Z.of_nat (length buf)) / 512 + 1 = used).
  { rewrite <- E1. f_equal. rewrite <- Nat2Z.inj_add, <- !(Nat2Z.inj_div _ 512). f_equal. symmetry.
    apply (Nat.div_unique _ _ _ (length data mod 512 + length buf)); lia. }
  rewrite E1, E2. apply wp_ASSERT. split; [unfold used; lia|]. wp_simp. apply collect_same_run; [exact Hi|done|]. intros all Hall. wp_simp.
  eapply wp_ld_inode; [exact Hi|]. wp_simp. eapply wp_ld_file; [exact Hf|]. wp_simp. eapply wp_st_file; [exact Hf|]. wp_simp.
  rewrite (loop_S 149), wp_bind. unfold write_chunk at 1. rewrite (proj2 (Z.ltb_lt 0 _)) by lia. wp_simp.
  eapply wp_ld_file; [apply list_lookup_insert_eq; by eapply lookup_lt_Some|]. cbn [fd_inode]. wp_simp. eapply wp_ld_inode; [exact Hi|]. wp_simp.
  unfold BLOCK_SIZE, SECTOR_SIZE. rewrite Hs.
  replace (Z.of_nat (length data) / 512) with (Z.of_nat (length data / 512)) by (by rewrite Nat2Z.inj_div).
  replace (Z.of_nat (length data) mod 512) with (Z.of_nat (length data mod 512)) by (by rewrite Nat2Z.inj_mod).
  rewrite !Nat2Z.id. wp_load Hall. rewrite (proj2 (Z.ltb_lt (Z.of_nat (length buf)) _)) by lia. wp_simp.
  eapply ide_read_run; [lia|lia|by apply read_one|]. wp_simp. rewrite Nat2Z.id, take_ge by done.
  set (sec' := splice sec (length data mod 512) buf). assert (Hsl' : length sec' = 512%nat) by (unfold sec'; rewrite splice_length; lia).
  apply (write_one_run lba sec' _ sec); [lia|exact Hsec|done|]. wp_simp.
  eapply wp_st_inode; [exact Hi|]. wp_simp.
  eapply wp_st_file; [apply list_lookup_insert_eq; by eapply lookup_lt_Some|]. wp_simp. cbn [fd_pos fd_flag fd_inode].
  rewrite (loop_S 148), wp_bind. unfold write_chunk at 1. rewrite (proj2 (Z.ltb_ge _ _)) by lia. wp_simp.
  eapply wp_ld_inode; [apply lookup_insert_eq|]. wp_simp. rewrite u32_add_l, (u32_small (Z.of_nat (length data) + _)) by lia.
  rewrite s32_small by lia. replace (Z.of_nat (length data) + Z.of_nat (length buf)) with (Z.of_nat (length data + length buf)) by lia. fold i'.
  assert (Hwf' : inode_wf i') by (destruct Hwf; split; try done; unfold is_u32; cbn; lia).
  assert (Eno : u8 (i_no i') = i_no i) by (apply u8_small; destruct (iw_no _ Hwf); change (i_no i') with (i_no i); lia).
  eapply (inode_sync_run _ T); cbn [cur_part disk set_disk set_inodes set_file_table set_heap]; [| |exact Hwf'|by rewrite Eno|].
  - destruct Htw as [W1 W2 W3 W4]. split; try done. by apply map_Forall_insert_2.
  - rewrite <- HT. apply read_sectors_ext. intros x Hx. apply lookup_insert_ne. intros <-. by apply Hlt.
  - rewrite Eno. intros d' Htw' HT' Hfr. apply HQ. split; cbn [disk set_disk]; try done.
    + apply (tail_at sec d' Hsec Hsl). intros x Hx. by apply Hfr.
    + intros x Hx Hne. rewrite Hfr by done. by apply lookup_insert_ne.
    + unfold set_disk, set_file_table, set_inodes, set_heap. cbn.
      rewrite list_insert_insert_eq.
      by replace (Z.of_nat (length data) - 1 + Z.of_nat (length buf)) with (i_size i + Z.of_nat (length buf) - 1) by lia.
Qed.
End tail.
