(* ===== verification/Path.v ===== *)
(** * Path names (fs/fs.c, path_parse and path_depth_cnt)

    The two routines that take a path name apart, on byte memory. The name
    buffer of path_depth_cnt is an address; it has MAX_FILE_NAME_LEN bytes. *)

From Stdlib Require Import ZArith Lia.
From stdpp Require Import base numbers list gmap option.
From S2P Require Import Prelude DList CString FsTypes.

Local Open Scope Z_scope.

Definition slash : Z := 47.

(** The loop that skips the slashes in front: while ( *(++pathname) == '/'). *)
Definition skip_step (pathname : Z) : M bmem (Z + Z) :=
  let pathname := pathname + 1 in
  do c <- ldc pathname;
  if c =? slash then ret (inl pathname) else ret (inr pathname).

(** The loop that copies one component. *)
Definition copy_name (x : Z * Z) : M bmem (Z * Z + Z * Z) :=
  let '(pathname, name_store) := x in
  do c <- ldc pathname;
  if negb (c =? slash) && negb (c =? 0) then
    do b <- ld8 pathname;
    st8 name_store b ;;
    ret (inl (pathname + 1, name_store + 1))
  else ret (inr (pathname, name_store)).

Definition path_parse (pathname name_store : Z) : M bmem Z :=
  do fuel <- mem_fuel;
  do c <- ldc pathname;
  do pathname <- (if c =? slash then loop fuel skip_step pathname else ret pathname);
  do '(pathname, name_store) <- loop fuel copy_name (pathname, name_store);
  do c <- ldc pathname;
  if c =? 0 then ret NULL else ret pathname.

Definition path_depth_cnt (name pathname : Z) : M bmem Z :=
  ASSERT (negb (pathname =? NULL)) ;;
  do p <- path_parse pathname name;
  do fuel <- mem_fuel;
  loop fuel (fun x =>
    let '(p, depth) := x in
    do c <- ldc name;
    if negb (c =? 0) then
      memset name 0 MAX_FILE_NAME_LEN ;;
      do p <- (if negb (p =? NULL) then path_parse p name else ret p);
      ret (inl (p, u32 (depth + 1)))
    else ret (inr depth)) (p, 0).

(** ** Path names as sequences of components *)

Fixpoint drop_slashes (s : list Z) : list Z :=
  match s with c :: s' => if c =? slash then drop_slashes s' else s | [] => [] end.
Fixpoint first_name (s : list Z) : list Z :=
  match s with c :: s' => if c =? slash then [] else c :: first_name s' | [] => [] end.
Fixpoint after_name (s : list Z) : list Z :=
  match s with c :: s' => if c =? slash then s else after_name s' | [] => [] end.

(** The components of a path: the maximal runs of characters without a slash. *)
Fixpoint components_acc (cur s : list Z) : list (list Z) :=
  match s with
  | [] => match cur with [] => [] | _ => [cur] end
  | c :: s' =>
      if c =? slash
      then match cur with [] => components_acc [] s' | _ => cur :: components_acc [] s' end
      else components_acc (cur ++ [c]) s'
  end.
Definition components (s : list Z) : list (list Z) := components_acc [] s.

Lemma components_acc_name cur s :
  components_acc cur s =
  match cur ++ first_name s with
  | [] => components (after_name s)
  | n => n :: components (after_name s)
  end.
Proof.
  revert cur. induction s as [|c s IH]; intros cur; cbn [components_acc first_name after_name].
  { rewrite app_nil_r. by destruct cur. }
  destruct (Z.eqb_spec c slash) as [->|Hc].
  - rewrite app_nil_r. unfold components at 1 2. cbn. by destruct cur.
  - rewrite IH, <- app_assoc. done.
Qed.

Lemma components_slashes s : components (drop_slashes s) = components s.
Proof.
  induction s as [|c s IH]; [done|]. cbn [drop_slashes].
  destruct (Z.eqb_spec c slash) as [->|Hc]; [|done]. rewrite IH. done.
Qed.

(** One turn of the parser: the first component and the rest. *)
Lemma components_parse s :
  components s =
  match first_name (drop_slashes s) with
  | [] => []
  | n => n :: components (after_name (drop_slashes s))
  end.
Proof.
  rewrite <- components_slashes. unfold components at 1. rewrite components_acc_name.
  change ([] ++ ?x) with x. destruct (first_name (drop_slashes s)) eqn:E; [|done].
  destruct (drop_slashes s) as [|c r] eqn:Ed; [done|]. exfalso. cbn in E.
  assert (Hc : c =? slash = false).
  { clear E. revert Ed. induction s as [|x s IH]; [done|]. cbn.
    destruct (x =? slash) eqn:Ex; [done|]. intros [= <- _]. done. }
  by rewrite Hc in E.
Qed.

Lemma name_after s : first_name s ++ after_name s = s.
Proof. induction s as [|c s IH]; [done|]. cbn. destruct (c =? slash); [done|]. cbn. by rewrite IH. Qed.

Lemma drop_slashes_suffix s : exists pre, s = pre ++ drop_slashes s.
Proof.
  induction s as [|c s [pre IH]]; [by exists []|]. cbn. destruct (c =? slash); [|by exists []].
  exists (c :: pre). cbn. by rewrite <- IH.
Qed.

Lemma after_name_short s : (length (after_name (drop_slashes s)) <= length s)%nat.
Proof.
  destruct (drop_slashes_suffix s) as [pre Hpre]. rewrite Hpre at 2.
  rewrite <- (name_after (drop_slashes s)) at 2. rewrite !length_app. lia.
Qed.

Lemma in_first_name b s : b ∈ first_name s -> b ∈ s.
Proof. intros H. rewrite <- (name_after s). apply elem_of_app. by left. Qed.

(** ** The routines *)

Lemma s8_slash b : 0 <= b < 256 -> (s8 b =? slash) = (b =? slash).
Proof.
  intros Hb. unfold slash. destruct (Z.eqb_spec b 47) as [->|Hne]; [done|].
  apply Z.eqb_neq. change 47 with (s8 47). intros E. apply Hne. by apply s8_inj in E.
Qed.

Lemma cstr_suffix m p pre s : cstr m p (pre ++ s) -> cstr m (p + Z.of_nat (length pre)) s.
Proof.
  intros [H Hb]. rewrite <- app_assoc in H. apply bytes_at_app in H as [_ H].
  apply list.Forall_app in Hb as [_ Hb]. by split.
Qed.

Lemma skip_slashes_run m p s fuel (Q : Z -> bmem -> Prop) :
  cstr m p (slash :: s) -> (length s < fuel)%nat ->
  (forall q, cstr m q (drop_slashes s) ->
     q + Z.of_nat (length (drop_slashes s)) = p + 1 + Z.of_nat (length s) -> Q q m) ->
  wp (loop fuel skip_step p) Q m.
Proof.
  revert p fuel. induction s as [|c s IH]; intros p [|fuel] Hc Hf HQ; [cbn in Hf; lia| |cbn in Hf; lia|];
    cbn [loop]; unfold skip_step at 1; wp_simp;
    pose proof (cstr_suffix m p [slash] _ Hc) as Hc'; cbn [length] in Hc'; change (Z.of_nat 1) with 1 in Hc'.
  - eapply wp_ldc; [by destruct Hc' as [[Hb _] _]|]. change (s8 0 =? slash) with false. wp_simp.
    apply HQ; [done|]. cbn. lia.
  - destruct Hc' as [Hl Hb]. pose proof (proj1 Hl) as Hload. cbn in Hload.
    eapply wp_ldc; [exact Hload|]. rewrite s8_slash by (apply list.Forall_cons in Hb; lia).
    cbn [drop_slashes] in HQ. destruct (Z.eqb_spec c slash) as [->|Hne]; wp_simp.
    + apply IH; [by split|cbn in Hf; lia|]. intros q Hq He. apply HQ; [done|]. cbn [length]. lia.
    + apply HQ; [by split|]. cbn [length]. lia.
Qed.

(** The name buffer at [n] lies apart from the string. *)
Lemma copy_name_run m p s n fuel (Q : Z * Z -> bmem -> Prop) :
  cstr m p s -> (length s < fuel)%nat -> mapped m n (length (first_name s)) ->
  disjoint_ranges n (length (first_name s)) p (S (length s)) ->
  Q (p + Z.of_nat (length (first_name s)), n + Z.of_nat (length (first_name s)))
    (write_bytes m n (first_name s)) ->
  wp (loop fuel copy_name (p, n)) Q m.
Proof.
  revert m p n fuel. induction s as [|c s IH]; intros m p n [|fuel] Hc Hf Hm Hd HQ;
    [cbn in Hf; lia| |cbn in Hf; lia|]; cbn [loop]; unfold copy_name at 1; wp_simp.
  - eapply wp_ldc; [apply Hc|]. change (negb (s8 0 =? slash) && negb (s8 0 =? 0)) with false. wp_simp.
    cbn in HQ. by rewrite !Z.add_0_r in HQ.
  - pose proof (proj1 (proj1 Hc)) as Hload. cbn in Hload.
    pose proof (proj2 Hc) as Hb. apply list.Forall_cons in Hb as [Hcb Hb].
    eapply wp_ldc; [exact Hload|]. rewrite s8_slash by lia.
    destruct (Z.eqb_spec (s8 c) 0) as [E|_]; [apply (proj1 (s8_zero c ltac:(lia))) in E; lia|].
    cbn [first_name] in *. destruct (Z.eqb_spec c slash) as [->|Hne]; cbn [andb negb]; wp_simp.
    + cbn in HQ. by rewrite !Z.add_0_r in HQ.
    + eapply wp_ld8; [exact Hload|]. wp_simp. unfold disjoint_ranges in Hd. cbn [length] in *.
      apply wp_st8; [rewrite <- (Z.add_0_r n); apply Hm; lia|]. wp_simp. rewrite u8_small by lia.
      apply IH; [|lia| | |].
      * eapply cstr_frame; [|apply (cstr_suffix m p [c] s Hc)]. intros q Hq. cbn in Hq.
        apply lookup_insert_ne. lia.
      * intros i Hi. destruct (decide (n = n + 1 + i)) as [E|]; [lia|].
        rewrite lookup_insert_ne by done. replace (n + 1 + i) with (n + (1 + i)) by lia. apply Hm. lia.
      * unfold disjoint_ranges. lia.
      * cbn [write_bytes] in HQ.
        by replace (p + 1 + _, n + 1 + _) with (p + Z.of_nat (S (length (first_name s))),
          n + Z.of_nat (S (length (first_name s)))) by tuple_lia.
Qed.

(** path_parse: the first component lands in the buffer, the result points at
    what follows it, or is NULL at the end of the string. *)
Lemma path_parse_run m p s n (Q : Z -> bmem -> Prop) :
  let name := first_name (drop_slashes s) in
  let rest := after_name (drop_slashes s) in
  cstr m p s -> 0 < p -> mapped m n (length name) -> disjoint_ranges n (length name) p (S (length s)) ->
  (forall q, (rest = [] -> q = NULL) -> (rest <> [] -> 0 < q /\ p <= q /\
       q + Z.of_nat (length rest) = p + Z.of_nat (length s) /\ cstr (write_bytes m n name) q rest) ->
     Q q (write_bytes m n name)) ->
  wp (path_parse p n) Q m.
Proof.
  intros name rest Hc Hp Hm Hd HQ. unfold path_parse, mem_fuel. wp_simp.
  pose proof (cstr_size _ _ _ Hc) as Hsz.
  assert (Htail : forall q, cstr m q (drop_slashes s) ->
    q + Z.of_nat (length (drop_slashes s)) = p + Z.of_nat (length s) ->
    wp (do '(pathname, name_store) <- loop (S (S (size m))) copy_name (q, n);
        do c <- ldc pathname; if c =? 0 then ret NULL else ret pathname) Q m).
  { intros q Hq He. pose proof (cstr_size _ _ _ Hq) as Hqs.
    assert (Hpre : (length (drop_slashes s) <= length s)%nat).
    { destruct (drop_slashes_suffix s) as [pre Hpre]. rewrite Hpre at 2. rewrite length_app. lia. }
    wp_simp. eapply copy_name_run; [exact Hq|lia|done| |].
    { unfold disjoint_ranges in *. fold name. lia. }
    cbv beta iota. fold name.
    assert (Hrest : cstr (write_bytes m n name) (q + Z.of_nat (length name)) rest).
    { eapply cstr_frame; [|apply (cstr_suffix m q name rest); unfold name, rest; rewrite name_after; exact Hq].
      intros x Hx. apply write_bytes_out. unfold disjoint_ranges in Hd.
      pose proof (f_equal length (name_after (drop_slashes s))) as Hl. rewrite length_app in Hl.
      fold name rest in Hl. lia. }
    pose proof (f_equal length (name_after (drop_slashes s))) as Hl. rewrite length_app in Hl. fold name rest in Hl.
    wp_simp. destruct rest as [|c r] eqn:Er.
    - eapply wp_ldc; [apply Hrest|]. change (s8 0 =? 0) with true. wp_simp. by apply HQ.
    - pose proof (proj1 (proj1 Hrest)) as Hload. pose proof (proj2 Hrest) as Hb.
      apply list.Forall_cons in Hb as [Hcb _]. eapply wp_ldc; [exact Hload|].
      destruct (Z.eqb_spec (s8 c) 0) as [E|_]; [apply (proj1 (s8_zero c ltac:(lia))) in E; lia|]. wp_simp.
      apply HQ; [done|]. intros _. split; [lia|]. split; [lia|]. split; [lia|done]. }
  destruct s as [|c s'].
  - eapply wp_ldc; [apply Hc|]. change (s8 0 =? slash) with false. wp_simp.
    specialize (Htail p Hc eq_refl). by autorewrite with wp in Htail.
  - pose proof (proj1 (proj1 Hc)) as Hload. pose proof (proj2 Hc) as Hb. apply list.Forall_cons in Hb as [Hcb _].
    eapply wp_ldc; [exact Hload|]. rewrite s8_slash by lia.
    destruct (Z.eqb_spec c slash) as [->|Hne]; wp_simp.
    + apply (skip_slashes_run m p s'); [done|cbn in Hsz; lia|]. intros q Hq He.
      specialize (Htail q). cbn [drop_slashes] in Htail. rewrite Z.eqb_refl in Htail.
      specialize (Htail Hq ltac:(cbn [length]; lia)). exact Htail.
    + specialize (Htail p). cbn [drop_slashes] in Htail. rewrite (proj2 (Z.eqb_neq _ _) Hne) in Htail.
      specialize (Htail Hc eq_refl). by autorewrite with wp in Htail.
Qed.

Lemma components_acc_length cur s :
  (length (components_acc cur s) <= match cur with [] => 0 | _ => 1 end + length s)%nat.
Proof.
  revert cur. induction s as [|c s IH]; intros cur; cbn [components_acc].
  { destruct cur; cbn; lia. }
  destruct (c =? slash).
  - pose proof (IH []) as H. destruct cur; cbn [length] in *; lia.
  - pose proof (IH (cur ++ [c])) as H. destruct cur; cbn in *; lia.
Qed.

Lemma components_length s : (length (components s) <= length s)%nat.
Proof. exact (components_acc_length [] s). Qed.

(** What is left to count when [name] is in the buffer and [rest] follows. *)
Definition todo (name rest : list Z) : nat :=
  match name with [] => 0%nat | _ => S (length (components rest)) end.

Lemma todo_parse s : todo (first_name (drop_slashes s)) (after_name (drop_slashes s)) = length (components s).
Proof. rewrite (components_parse s). by destruct (first_name (drop_slashes s)). Qed.

Definition short (s : list Z) : Prop := Forall (fun c => (length c <= 16)%nat) (components s).

Lemma short_parse s :
  short s -> (length (first_name (drop_slashes s)) <= 16)%nat /\
    (first_name (drop_slashes s) <> [] -> short (after_name (drop_slashes s))).
Proof.
  unfold short. rewrite (components_parse s). destruct (first_name (drop_slashes s)) as [|c n].
  - intros _. split; [cbn; lia|done].
  - intros H. apply list.Forall_cons in H as [H1 H2]. by split.
Qed.

(** The buffer after a component was copied to zeroed memory. *)
Lemma name_head m n name :
  m !! n = Some 0 -> write_bytes m n name !! n = Some (hd 0 name).
Proof.
  intros Hm. destruct name as [|c name]; [done|]. cbn [write_bytes hd].
  rewrite write_bytes_out by lia. apply lookup_insert_eq.
Qed.

Section path_depth.
Context (p n : Z) (s : list Z).
Context (Hp : 0 < p) (Hn : n <> NULL) (Hdis : disjoint_ranges n 16 p (S (length s))).

(** Memory differs from [m0] in the buffer only. *)
Definition only_buffer (m0 m : bmem) : Prop :=
  mapped m n 16 /\ forall q, ~ (n <= q < n + 16) -> m !! q = m0 !! q.

Lemma only_buffer_write m0 m l : only_buffer m0 m -> (length l <= 16)%nat -> only_buffer m0 (write_bytes m n l).
Proof using.
  intros [Hm Hfr] Hl. split; [by apply mapped_write|]. intros q Hq.
  rewrite write_bytes_out by lia. by apply Hfr.
Qed.

(** A position inside the path that is a string in [m0] is one in [m]. *)
Lemma only_buffer_cstr m0 m q r :
  only_buffer m0 m -> p <= q -> q + Z.of_nat (length r) = p + Z.of_nat (length s) ->
  cstr m0 q r -> cstr m q r.
Proof using Hdis.
  intros [_ Hfr] Hq He Hc. eapply cstr_frame; [|exact Hc]. intros x Hx. apply Hfr.
  unfold disjoint_ranges in Hdis. lia.
Qed.

Definition depth_inv (m0 : bmem) (x : Z * Z) (m : bmem) : Prop :=
  exists name rest, only_buffer m0 m /\ m !! n = Some (hd 0 name) /\
    (forall c, c ∈ name -> 0 < c < 256) /\
    (x.1 = NULL /\ rest = [] \/ x.1 <> NULL /\ p <= x.1 /\
       x.1 + Z.of_nat (length rest) = p + Z.of_nat (length s) /\ cstr m0 x.1 rest) /\
    (name <> [] -> short rest) /\ 0 <= x.2 /\
    x.2 + Z.of_nat (todo name rest) = Z.of_nat (length (components s)).

Lemma hd_truthy (name : list Z) : (forall c, c ∈ name -> 0 < c < 256) -> (s8 (hd 0 name) =? 0) = bool_decide (name = []).
Proof using.
  intros H. destruct name as [|c name]; [done|]. cbn [hd]. rewrite bool_decide_eq_false_2 by done.
  apply Z.eqb_neq. intros E. specialize (H c ltac:(by left)). apply (proj1 (s8_zero c ltac:(lia))) in E. lia.
Qed.

(** Parsing from [q] with a zeroed buffer. *)
Lemma parse_step m0 m q r (Q : Z -> bmem -> Prop) :
  only_buffer m0 m -> (m !! n = Some 0 \/ first_name (drop_slashes r) <> []) -> 0 < q -> p <= q ->
  q + Z.of_nat (length r) = p + Z.of_nat (length s) -> cstr m0 q r -> short r ->
  (forall q' m', (forall d, 0 <= d -> d + Z.of_nat (length (components r)) = Z.of_nat (length (components s)) ->
     depth_inv m0 (q', d) m') -> Q q' m') ->
  wp (path_parse q n) Q m.
Proof using Hp Hdis.
  intros Hob Hz Hq Hpq He Hc Hs HQ. destruct (short_parse r Hs) as [Hl Hs'].
  apply path_parse_run with (s := r); [by eapply only_buffer_cstr|done| | |].
  - intros i Hi. apply Hob. lia.
  - unfold disjoint_ranges in *. lia.
  - intros q' Hnil Hrest. apply HQ. intros d Hd Htot.
    exists (first_name (drop_slashes r)), (after_name (drop_slashes r)).
    split; [by apply only_buffer_write|]. split.
    { destruct Hz as [Hz|Hz]; [by apply name_head|].
      destruct (first_name (drop_slashes r)) as [|c nm]; [done|]. cbn [write_bytes hd].
      rewrite write_bytes_out by lia. apply lookup_insert_eq. }
    split.
    { intros c Hcin. apply in_first_name in Hcin. destruct (drop_slashes_suffix r) as [pre Hpre].
      apply (cstr_byte m0 q r c Hc). rewrite Hpre. apply elem_of_app. by right. }
    split; [|split; [done|split; [done|by rewrite todo_parse]]].
    destruct (decide (after_name (drop_slashes r) = [])) as [E|E].
    + left. split; [by apply Hnil|done].
    + right. destruct (Hrest E) as (H1 & H2 & H3 & H4). cbn [fst]. unfold NULL. split; [lia|]. split; [lia|].
      split; [lia|]. eapply cstr_frame; [|exact H4]. intros x Hx. symmetry.
      destruct (only_buffer_write m0 m _ Hob Hl) as [_ Hfr]. apply Hfr. unfold disjoint_ranges in Hdis. lia.
Qed.
End path_depth.

(** path_depth_cnt counts the components of a path, however many slashes
    separate, precede or follow them. It writes nothing but its name buffer.
    A path without a component is counted right only if the buffer, which the
    code does not initialise, happens to start with a zero byte. *)
Theorem path_depth_counts m p n s :
  cstr m p s -> 0 < p -> n <> NULL -> mapped m n 16 -> disjoint_ranges n 16 p (S (length s)) ->
  Z.of_nat (length s) < 2 ^ 32 -> short s -> m !! n = Some 0 \/ components s <> [] ->
  exists m', path_depth_cnt n p m = Ok (Z.of_nat (length (components s)), m') /\
    forall q, ~ (n <= q < n + 16) -> m' !! q = m !! q.
Proof.
  intros Hc Hp Hn Hm Hdis Hlen Hs Hz. pose proof (components_length s) as Hcl.
  assert (H : wp (path_depth_cnt n p) (fun r m' => r = Z.of_nat (length (components s)) /\
    forall q, ~ (n <= q < n + 16) -> m' !! q = m !! q) m); cycle 1.
  { wp_ok H. destruct H0 as [-> H0]. by exists x0. }
  unfold path_depth_cnt. wp_simp. apply wp_ASSERT. split; [apply negb_true_iff, Z.eqb_neq; unfold NULL; lia|].
  wp_simp. apply (parse_step p n s Hp Hdis m _ _ s); try done; try lia.
  { destruct Hz as [Hz|Hz]; [by left|right]. rewrite (components_parse s) in Hz.
    by destruct (first_name (drop_slashes s)). }
  intros q' m1 Hinv. specialize (Hinv 0 ltac:(lia) ltac:(lia)). unfold mem_fuel. wp_simp.
  assert (Hsize : (length s < size m1)%nat).
  { destruct Hinv as (name & rest & Hob & _). apply (cstr_size m1 p). eapply only_buffer_cstr; [exact Hdis|exact Hob|lia|lia|done]. }
  apply (wp_loop (depth_inv p n s m) (fun x _ => Z.to_nat (Z.of_nat (length (components s)) - x.2))); [|exact Hinv|cbn; lia].
  clear q' m1 Hinv Hsize. intros [q d] m1 (name & rest & Hob & Hhd & Hbytes & Hq & Hsh & Hd & Htot). cbn [fst snd] in *.
  eapply wp_mono with (P := fun r m' => match r with
    | inl x' => depth_inv p n s m x' m' /\ x'.2 = d + 1 /\ d < Z.of_nat (length (components s))
    | inr y => y = Z.of_nat (length (components s)) /\ forall x, ~ (n <= x < n + 16) -> m' !! x = m !! x end).
  2: { intros [[q' d']|y] m'; [|done]. cbn. intros (HI & -> & Hlt). split; [done|lia]. }
  wp_simp. eapply wp_ldc; [exact Hhd|]. rewrite (hd_truthy name Hbytes).
  destruct (bool_decide_reflect (name = [])) as [->|Hne]; cbn [negb]; wp_simp.
  { cbn [todo] in Htot. split; [lia|]. apply Hob. }
  assert (Htd : todo name rest = S (length (components rest))) by by destruct name. rewrite Htd in Htot.
  apply memset_run; [done|unfold MAX_FILE_NAME_LEN; lia|apply Hob|lia|].
  set (m2 := write_bytes m1 n (replicate (Z.to_nat MAX_FILE_NAME_LEN) 0)).
  assert (Hob2 : only_buffer n m m2) by (apply only_buffer_write; [done|rewrite length_replicate; done]).
  assert (Hz2 : m2 !! n = Some 0).
  { unfold m2. change (replicate (Z.to_nat MAX_FILE_NAME_LEN) 0) with (0 :: replicate 15 0).
    cbn [write_bytes]. rewrite write_bytes_out by lia. apply lookup_insert_eq. }
  clearbody m2. destruct Hq as [[-> ->]|(Hqn & Hpq & He & Hcr)].
  - rewrite Z.eqb_refl. cbn [negb]. wp_simp. rewrite u32_small by (cbn in Htot; lia).
    split; [|split; [done|lia]]. exists [], []. do 2 (split; [done|]).
    split; [intros c Hcin; by apply not_elem_of_nil in Hcin|]. split; [by left|].
    split; [done|]. cbn in *. lia.
  - rewrite (proj2 (Z.eqb_neq q NULL)) by done. cbn [negb]. wp_simp.
    apply (parse_step p n s Hp Hdis m _ _ rest); try done; [by left|lia|by apply Hsh|].
    intros q' m' Hinv. wp_simp. rewrite u32_small by lia. split; [|split; [done|lia]].
    apply Hinv; lia.
Qed.

(** The path /usr//bin/ at address 1000, the buffer at 2000. *)
Definition demo_path : list Z := [47; 117; 115; 114; 47; 47; 98; 105; 110; 47].
Definition demo_path_mem : bmem := write_bytes (write_bytes empty 1000 (demo_path ++ [0])) 2000 (replicate 16 0).

Lemma demo_path_cstr : cstr demo_path_mem 1000 demo_path.
Proof.
  split; [|repeat (apply Forall_cons_2; [lia|]); constructor].
  eapply bytes_at_frame; [|apply write_bytes_at]. intros q Hq. apply write_bytes_out.
  cbn in Hq. lia.
Qed.

Lemma path_depth_counts_witness :
  exists m', path_depth_cnt 2000 1000 demo_path_mem = Ok (2, m') /\
    forall q, ~ (2000 <= q < 2000 + 16) -> m' !! q = demo_path_mem !! q.
Proof.
  apply (path_depth_counts demo_path_mem 1000 2000 demo_path demo_path_cstr); try done.
  - apply (bytes_at_mapped _ _ (replicate 16 0)), write_bytes_at.
  - cbn. unfold disjoint_ranges. cbn. lia.
  - repeat (apply Forall_cons_2; [cbn; lia|]). constructor.
  - by left.
Defined.
