(* ===== verification/Dir.v ===== *)
(** * Directories (fs/dir.c) and file creation (fs/file.c, file_create)

    A directory is a file of 24-byte entries packed 21 to a sector. A directory
    object is an address in [dirs], the root's is [root_dir]; its dir_buf is
    scratch space that no caller sees. A name is the list of the bytes found in
    memory at its address. An entry on its way to or from a sector is the list
    of its bytes. The sectors of a caller's io_buf past the first are not
    written by these routines. *)

From Stdlib Require Import ZArith Lia.
From stdpp Require Import base numbers list gmap option.
From S2P Require Import Prelude Bitmap Intr DList CString FsTypes Blocks Inode FileOps.

Local Open Scope Z_scope.

Definition ld_dir (d : Z) : M fsys dir := do s <- get; of_option (dirs s !! d).
Definition st_dir (d : Z) (v : dir) : M fsys unit :=
  do s <- get;
  of_option (dirs s !! d) ;;
  put (set_dirs (<[d := v]> (dirs s)) s).

Definition open_root_dir : M fsys unit :=
  do p <- gets cur_part;
  do a <- inode_open (root_inode_no (sb p));
  modify (fun s => set_dirs (<[root_dir := Dir a 0]> (dirs s)) s).

Definition dir_open (inode_no : Z) : M fsys Z :=
  do pdir <- sys_malloc;
  do a <- inode_open inode_no;
  valid (negb (pdir =? NULL)) ;;
  modify (fun s => set_dirs (<[pdir := Dir a 0]> (dirs s)) s) ;;
  ret pdir.

Definition dir_close (d : Z) : M fsys unit :=
  if d =? root_dir then ret tt
  else
    do v <- ld_dir d;
    inode_close (dir_inode v) ;;
    modify (fun s => set_dirs (delete d (dirs s)) s).

(** strcmp of the bytes at two addresses; None runs past the memory given. *)
Fixpoint strcmp_bytes (a b : list Z) : option Z :=
  match a, b with
  | x :: a', y :: b' =>
      if negb (x =? 0) && (x =? y) then strcmp_bytes a' b'
      else Some (if s8 x <? s8 y then -1 else if s8 y <? s8 x then 1 else 0)
  | _, _ => None
  end.

(** The bytes of a buffer from its entry [idx] on, and that entry's fields. *)
Definition entry_bytes (buf : list Z) (idx : Z) : list Z := drop (Z.to_nat (24 * idx)) buf.
Definition entry_f_type (buf : list Z) (idx : Z) : M fsys Z :=
  valid (24 * idx + 24 <=? Z.of_nat (length buf)) ;;
  ret (f_type (dec_dir_entry (entry_bytes buf idx))).
Definition entry_i_no (buf : list Z) (idx : Z) : M fsys Z :=
  valid (24 * idx + 24 <=? Z.of_nat (length buf)) ;;
  ret (de_i_no (dec_dir_entry (entry_bytes buf idx))).
Definition entry_strcmp (buf : list Z) (idx : Z) (name : list Z) : M fsys Z :=
  of_option (strcmp_bytes (entry_bytes buf idx) name).

(** Entries per sector; a size of zero is a divide error. *)
Definition entrys_per_sec : M fsys Z :=
  do p <- gets cur_part;
  valid (negb (dir_entry_size (sb p) =? 0)) ;;
  ret (SECTOR_SIZE / dir_entry_size (sb p)).

(** ** search_dir_entry *)

Definition search_sector (buf name : list Z) (dir_entry_cnt : Z) : M fsys (option Z) :=
  loop (S (Z.to_nat dir_entry_cnt)) (fun dir_entry_idx =>
    if dir_entry_idx <? dir_entry_cnt then
      do c <- entry_strcmp buf dir_entry_idx name;
      if c =? 0 then ret (inr (Some dir_entry_idx)) else ret (inl (dir_entry_idx + 1))
    else ret (inr None)) 0.

(** The bytes copied to [dir_e] when the name is found. *)
Definition search_dir_entry (pdir : Z) (name : list Z) : M fsys (option (list Z)) :=
  do all_blocks <- sys_malloc;
  if all_blocks =? NULL then ret None
  else
    do d <- ld_dir pdir;
    do i <- ld_inode (dir_inode d);
    let all_blocks := direct_blocks i in
    do t <- sector i 12;
    do all_blocks <- (if negb (t =? 0) then read_table all_blocks t else ret all_blocks);
    do bufp <- sys_malloc;
    do p <- gets cur_part;
    do dir_entry_cnt <- entrys_per_sec;
    loop 141 (fun block_idx =>
      if block_idx <? 140 then
        do lba <- of_option (all_blocks !! Z.to_nat block_idx);
        if lba =? 0 then ret (inl (block_idx + 1))
        else
          do buf <- ide_read lba 1;
          valid (negb (bufp =? NULL)) ;;
          do r <- search_sector buf name dir_entry_cnt;
          match r with
          | Some idx => ret (inr (Some (take (Z.to_nat (dir_entry_size (sb p))) (entry_bytes buf idx))))
          | None => ret (inl (block_idx + 1))
          end
      else ret (inr None)) 0.

(** create_dir_entry in an entry that its caller zeroed; [filename] is the
    string without its terminator. *)
Definition create_dir_entry (filename : list Z) (inode_no file_type : Z) : M fsys (list Z) :=
  ASSERT (Z.of_nat (length filename) <=? MAX_FILE_NAME_LEN) ;;
  ret (enc_dir_entry (DirEntry (splice (replicate 16 0) 0 filename) inode_no (u8 file_type))).

(** ** sync_dir_entry *)

(** The new entry in a block of its own, or in the free slot of a sector. *)
Definition put_entry (a lba : Z) (buf : list Z) (idx : Z) (p_de : list Z) : M fsys unit :=
  do p <- gets cur_part;
  let sz := dir_entry_size (sb p) in
  valid (sz <=? Z.of_nat (length p_de)) ;;
  ide_write lba (splice buf (Z.to_nat (24 * idx)) (take (Z.to_nat sz) p_de)) 1 ;;
  do i <- ld_inode a;
  st_inode a (set_i_size (u32 (i_size i + sz)) i).

(** The first unused entry of a sector. *)
Definition free_entry (buf : list Z) (dir_entrys_per_sec : Z) : M fsys (option Z) :=
  loop (S (Z.to_nat dir_entrys_per_sec)) (fun dir_entry_idx =>
    if dir_entry_idx <? dir_entrys_per_sec then
      do ft <- entry_f_type buf dir_entry_idx;
      if ft =? FT_UNKNOWN then ret (inr (Some dir_entry_idx)) else ret (inl (dir_entry_idx + 1))
    else ret (inr None)) 0.

(** A block for index [block_idx], which has none; None is the early return. *)
Definition new_dir_block (a block_idx : Z) (all_blocks : list Z) : M fsys (option (list Z)) :=
  do block_lba <- block_bitmap_alloc;
  if block_lba =? -1 then ret None
  else
    do p <- gets cur_part;
    ASSERT (negb (s32 (u32 (block_lba - data_start_lba (sb p))) =? -1)) ;;
    sync_block block_lba ;;
    if block_idx <? 12 then
      set_sector a block_idx (u32 block_lba) ;;
      do all_blocks <- set_word all_blocks block_idx (u32 block_lba);
      ret (Some all_blocks)
    else if block_idx =? 12 then
      set_sector a 12 (u32 block_lba) ;;
      do block_lba2 <- block_bitmap_alloc;
      if block_lba2 =? -1 then
        on_block_bitmap (bitmap_set (u32 (block_lba - data_start_lba (sb p))) 0) ;;
        set_sector a 12 0 ;;
        ret None
      else
        ASSERT (negb (s32 (u32 (block_lba2 - data_start_lba (sb p))) =? -1)) ;;
        sync_block block_lba2 ;;
        do all_blocks <- set_word all_blocks 12 (u32 block_lba2);
        ide_write (u32 block_lba) (words (drop 12 all_blocks)) 1 ;;
        ret (Some all_blocks)
    else
      do all_blocks <- set_word all_blocks block_idx (u32 block_lba);
      do i <- ld_inode a;
      do t <- sector i 12;
      ide_write t (words (drop 12 all_blocks)) 1 ;;
      ret (Some all_blocks).

Definition sync_block_step (a dir_entrys_per_sec : Z) (p_de all_blocks : list Z) (block_idx : Z) :
    M fsys (Z + bool) :=
  if block_idx <? 140 then
    do lba <- of_option (all_blocks !! Z.to_nat block_idx);
    if lba =? 0 then
      do r <- new_dir_block a block_idx all_blocks;
      match r with
      | None => ret (inr false)
      | Some all_blocks =>
          do lba <- of_option (all_blocks !! Z.to_nat block_idx);
          put_entry a lba (replicate 512 0) 0 p_de ;;
          ret (inr true)
      end
    else
      do buf <- ide_read lba 1;
      do r <- free_entry buf dir_entrys_per_sec;
      match r with
      | Some idx => put_entry a lba buf idx p_de ;; ret (inr true)
      | None => ret (inl (u8 (block_idx + 1)))
      end
  else ret (inr false).

Definition sync_dir_entry (parent_dir : Z) (p_de : list Z) : M fsys bool :=
  do d <- ld_dir parent_dir;
  let a := dir_inode d in
  do i <- ld_inode a;
  do dir_entrys_per_sec <- entrys_per_sec;
  do p <- gets cur_part;
  ASSERT (i_size i mod dir_entry_size (sb p) =? 0) ;;
  loop 141 (sync_block_step a dir_entrys_per_sec p_de (direct_blocks i)) 0.

(** ** delete_dir_entry *)

Definition dot : list Z := [46; 0].
Definition dotdot : list Z := [46; 46; 0].

(** The scan of one sector: is_dir_first_block, dir_entry_cnt and the index of
    dir_entry_found. *)
Definition scan_entries (buf : list Z) (inode_no dir_entrys_per_sec : Z) : M fsys (bool * Z * option Z) :=
  loop (S (Z.to_nat dir_entrys_per_sec)) (fun x =>
    let '(dir_entry_idx, is_dir_first_block, dir_entry_cnt, dir_entry_found) := x in
    if dir_entry_idx <? dir_entrys_per_sec then
      do ft <- entry_f_type buf dir_entry_idx;
      if negb (ft =? FT_UNKNOWN) then
        do c1 <- entry_strcmp buf dir_entry_idx dot;
        if c1 =? 0 then ret (inl (dir_entry_idx + 1, true, dir_entry_cnt, dir_entry_found))
        else
          do c2 <- entry_strcmp buf dir_entry_idx dotdot;
          if negb (c2 =? 0) then
            do no <- entry_i_no buf dir_entry_idx;
            if no =? inode_no then
              ASSERT (bool_decide (dir_entry_found = None)) ;;
              ret (inl (dir_entry_idx + 1, is_dir_first_block, u8 (dir_entry_cnt + 1), Some dir_entry_idx))
            else ret (inl (dir_entry_idx + 1, is_dir_first_block, u8 (dir_entry_cnt + 1), dir_entry_found))
          else ret (inl (dir_entry_idx + 1, is_dir_first_block, dir_entry_cnt, dir_entry_found))
      else ret (inl (dir_entry_idx + 1, is_dir_first_block, dir_entry_cnt, dir_entry_found))
    else ret (inr (is_dir_first_block, dir_entry_cnt, dir_entry_found)))
    (0, false, 0, None).

(** The loop that counts the indirect blocks never advances its index: it is
    given [spin] rounds. *)
Definition count_indirect (spin : nat) (all_blocks : list Z) : M fsys Z :=
  loop spin (fun x =>
    let '(indirect_block_idx, indirect_blocks) := x in
    if indirect_block_idx <? 140 then
      do lba <- of_option (all_blocks !! Z.to_nat indirect_block_idx);
      ret (inl (indirect_block_idx, if negb (lba =? 0) then u32 (indirect_blocks + 1) else indirect_blocks))
    else ret (inr indirect_blocks)) (12, 0).

(** Take the block [block_idx] of the directory, at [lba], away. *)
Definition drop_dir_block (spin : nat) (a block_idx lba : Z) (all_blocks : list Z) : M fsys unit :=
  do p <- gets cur_part;
  let block_bitmap_idx := u32 (lba - data_start_lba (sb p)) in
  on_block_bitmap (bitmap_set block_bitmap_idx 0) ;;
  bitmap_sync block_bitmap_idx BLOCK_BITMAP ;;
  if block_idx <? 12 then set_sector a block_idx 0
  else
    do indirect_blocks <- count_indirect spin all_blocks;
    ASSERT (1 <=? indirect_blocks) ;;
    do all_blocks <- set_word all_blocks block_idx 0;
    do i <- ld_inode a;
    do t <- sector i 12;
    ide_write t (words (drop 12 all_blocks)) 1 ;;
    if 1 <? indirect_blocks then ret tt
    else
      let block_bitmap_idx := u32 (t - data_start_lba (sb p)) in
      on_block_bitmap (bitmap_set block_bitmap_idx 0) ;;
      bitmap_sync block_bitmap_idx BLOCK_BITMAP ;;
      set_sector a 12 0.

Definition delete_dir_entry (spin : nat) (pdir inode_no : Z) : M fsys bool :=
  do d <- ld_dir pdir;
  let a := dir_inode d in
  do i <- ld_inode a;
  let all_blocks := direct_blocks i in
  do t <- sector i 12;
  do all_blocks <- (if negb (t =? 0) then read_table all_blocks t else ret all_blocks);
  do p <- gets cur_part;
  let sz := dir_entry_size (sb p) in
  do dir_entrys_per_sec <- entrys_per_sec;
  loop 141 (fun block_idx =>
    if block_idx <? 140 then
      do lba <- of_option (all_blocks !! Z.to_nat block_idx);
      if lba =? 0 then ret (inl (block_idx + 1))
      else
        do io_buf <- ide_read lba 1;
        do '(is_dir_first_block, dir_entry_cnt, dir_entry_found) <- scan_entries io_buf inode_no dir_entrys_per_sec;
        match dir_entry_found with
        | None => ret (inl (block_idx + 1))
        | Some idx =>
            ASSERT (1 <=? dir_entry_cnt) ;;
            (if (dir_entry_cnt =? 1) && negb is_dir_first_block
             then drop_dir_block spin a block_idx lba all_blocks
             else ide_write lba (splice io_buf (Z.to_nat (24 * idx)) (replicate (Z.to_nat sz) 0)) 1) ;;
            do i <- ld_inode a;
            ASSERT (sz <=? i_size i) ;;
            st_inode a (set_i_size (i_size i - sz) i) ;;
            inode_sync (set_i_size (i_size i - sz) i) 1024 ;;
            ret (inr true)
        end
    else ret (inr false)) 0.

(** ** dir_read *)

(** The scan of one sector: cur_dir_entry_pos and dir->dir_pos. *)
Definition read_entries (buf : list Z) (dir_entry_size dir_entrys_per_sec : Z) (x : Z * Z) : M fsys (Z * Z) :=
  loop (S (Z.to_nat dir_entrys_per_sec)) (fun x =>
    let '(dir_entry_idx, cur_dir_entry_pos, dir_pos) := x in
    if dir_entry_idx <? dir_entrys_per_sec then
      do ft <- entry_f_type buf dir_entry_idx;
      if negb (ft =? 0) then
        if cur_dir_entry_pos <? dir_pos
        then ret (inl (dir_entry_idx + 1, u32 (cur_dir_entry_pos + dir_entry_size), dir_pos))
        else
          ASSERT (cur_dir_entry_pos =? dir_pos) ;;
          ret (inl (dir_entry_idx + 1, cur_dir_entry_pos, u32 (dir_pos + dir_entry_idx)))
      else ret (inl (dir_entry_idx + 1, cur_dir_entry_pos, dir_pos))
    else ret (inr (cur_dir_entry_pos, dir_pos))) (0, x.1, x.2).

(** dir_read, whose only result is NULL. Its outer loop compares the position
    with the address of the inode, which [all_blocks], an array of 140 words on
    the stack, ends before. *)
Definition dir_read (d : Z) : M fsys Z :=
  do v <- ld_dir d;
  do i <- ld_inode (dir_inode v);
  let all_blocks := direct_blocks i in
  do t <- sector i 12;
  do all_blocks <- (if negb (t =? 0) then read_table all_blocks t else ret all_blocks);
  do p <- gets cur_part;
  do dir_entrys_per_sec <- entrys_per_sec;
  loop 200 (fun x =>
    let '(block_idx, cur_dir_entry_pos) := x in
    do v <- ld_dir d;
    if dir_pos v <? dir_inode v then
      if i_size i <=? dir_pos v then ret (inr NULL)
      else
        do lba <- of_option (all_blocks !! Z.to_nat block_idx);
        if lba =? 0 then ret (inl (block_idx + 1, cur_dir_entry_pos))
        else
          do buf <- ide_read lba 1;
          do '(cur_dir_entry_pos, pos) <-
            read_entries buf (dir_entry_size (sb p)) dir_entrys_per_sec (cur_dir_entry_pos, dir_pos v);
          st_dir d (Dir (dir_inode v) pos) ;;
          ret (inl (block_idx + 1, cur_dir_entry_pos))
    else ret (inr NULL)) (0, 0).

Definition dir_is_empty (d : Z) : M fsys bool :=
  do v <- ld_dir d;
  do i <- ld_inode (dir_inode v);
  do p <- gets cur_part;
  ret (i_size i =? dir_entry_size (sb p)).

Definition dir_remove (spin : nat) (parent_dir child_dir : Z) : M fsys Z :=
  do v <- ld_dir child_dir;
  do i <- ld_inode (dir_inode v);
  for_range 1 12 (fun block_idx =>
    do lba <- sector i block_idx;
    ASSERT (lba =? 0)) ;;
  do io_buf <- sys_malloc;
  if io_buf =? NULL then ret (-1)
  else
    do i <- ld_inode (dir_inode v);
    delete_dir_entry spin parent_dir (i_no i) ;;
    do i <- ld_inode (dir_inode v);
    inode_release (i_no i) ;;
    ret 0.

(** ** file_create *)

(** The rollback code from the label of [step] on. *)
Definition rollback (step fd_idx a inode_no : Z) : M fsys Z :=
  (if 3 <=? step then st_file fd_idx (File 0 0 NULL) else ret tt) ;;
  (if 2 <=? step then modify (fun s => set_inodes (delete a (inodes s)) s) else ret tt) ;;
  on_inode_bitmap (bitmap_set inode_no 0) ;;
  ret (-1).

Definition file_create (parent_dir : Z) (filename : list Z) (flag : Z) : M fsys Z :=
  do io_buf <- sys_malloc;
  if io_buf =? NULL then ret (-1)
  else
    do inode_no <- inode_bitmap_alloc;
    if inode_no =? -1 then ret (-1)
    else
      do a <- sys_malloc;
      if a =? NULL then rollback 1 0 0 inode_no
      else
        new_inode a (inode_init inode_no) ;;
        do fd_idx <- get_free_slot_in_global;
        if fd_idx =? -1 then rollback 2 0 a inode_no
        else
          st_file fd_idx (File 0 (u8 flag) a) ;;
          do i <- ld_inode a;
          st_inode a (set_write_deny 0 i) ;;
          do p_de <- create_dir_entry filename inode_no FT_REGULAR;
          do ok <- sync_dir_entry parent_dir p_de;
          if negb ok then rollback 3 fd_idx a inode_no
          else
            do d <- ld_dir parent_dir;
            do pi <- ld_inode (dir_inode d);
            inode_sync pi 1024 ;;
            do i <- ld_inode a;
            inode_sync i 1024 ;;
            bitmap_sync inode_no INODE_BITMAP ;;
            open_push a ;;
            do i <- ld_inode a;
            st_inode a (set_i_open_cnts 1 i) ;;
            pcb_fd_install fd_idx.

(** ** What a directory lists *)

(** The string at an address: its bytes up to the terminator. *)
Fixpoint c_string (l : list Z) : option (list Z) :=
  match l with
  | [] => None
  | c :: l' => if c =? 0 then Some [] else option_map (cons c) (c_string l')
  end.

(** strcmp is 0 exactly on equal strings. *)
Lemma strcmp_bytes_eq a b x y :
  Forall is_byte a -> Forall is_byte b -> c_string a = Some x -> c_string b = Some y ->
  exists c, strcmp_bytes a b = Some c /\ (c = 0 <-> x = y).
Proof.
  revert b x y. induction a as [|p a IH]; intros b x y Ha Hb Hx Hy; [done|].
  destruct b as [|q b]; [done|]. apply list.Forall_cons in Ha as [Hp Ha]. apply list.Forall_cons in Hb as [Hq Hb].
  cbn [strcmp_bytes c_string] in *.
  assert (Hs : s8 p = s8 q <-> p = q) by (split; [by apply s8_inj|congruence]).
  destruct (Z.eqb_spec p q) as [<-|Hne].
  - destruct (Z.eqb_spec p 0) as [->|Hp0]; cbn [negb andb].
    + rewrite Z.ltb_irrefl. simplify_eq. by exists 0.
    + destruct (c_string a) as [x'|] eqn:Ex; [|done]. destruct (c_string b) as [y'|] eqn:Ey; [|done].
      cbn in Hx, Hy. simplify_eq. destruct (IH b x' y' Ha Hb eq_refl Ey) as (c & Hc & Heq).
      exists c. split; [done|]. rewrite Heq. split; [by intros ->|by intros [= ->]].
  - rewrite andb_false_r. eexists. split; [reflexivity|].
    assert (Hxy : x <> y).
    { destruct (Z.eqb_spec p 0), (Z.eqb_spec q 0); [lia|..];
        destruct (c_string a), (c_string b); cbn in *; simplify_eq; congruence. }
    split; [|done]. destruct (Z.ltb_spec (s8 p) (s8 q)); [done|].
    destruct (Z.ltb_spec (s8 q) (s8 p)); [done|]. intros _. exfalso. apply Hne, Hs. lia.
Qed.

(** The entries of a sector, each with the bytes that follow it, and those of
    the blocks [lbas]. *)
Definition sector_entries (buf : list Z) (cnt : Z) : list (list Z) := entry_bytes buf <$> seqZ 0 cnt.
Fixpoint listing (d : gmap Z (list Z)) (lbas : list Z) (cnt : Z) : option (list (list Z)) :=
  match lbas with
  | [] => Some []
  | lba :: lbas' =>
      if lba =? 0 then listing d lbas' cnt
      else match d !! lba, listing d lbas' cnt with
           | Some buf, Some l => Some (sector_entries buf cnt ++ l)
           | _, _ => None
           end
  end.

(** The first of them with this name. *)
Fixpoint first_named (name : list Z) (l : list (list Z)) : option (list Z) :=
  match l with
  | [] => None
  | e :: l' => if bool_decide (c_string e = Some name) then Some e else first_named name l'
  end.

Lemma first_named_app name l1 l2 :
  first_named name (l1 ++ l2) = match first_named name l1 with Some e => Some e | None => first_named name l2 end.
Proof. induction l1 as [|e l1 IH]; [done|]. cbn. by destruct (bool_decide _). Qed.

(** Entries that are strings of bytes. *)
Definition named (e : list Z) : Prop := Forall is_byte e /\ is_Some (c_string e).

Lemma search_sector_run buf name cnt s (Q : option Z -> fsys -> Prop) :
  0 <= cnt -> Forall named (sector_entries buf cnt) -> Forall is_byte (name ++ [0]) ->
  c_string (name ++ [0]) = Some name ->
  (forall r, entry_bytes buf <$> r = first_named name (sector_entries buf cnt) -> Q r s) ->
  wp (search_sector buf (name ++ [0]) cnt) Q s.
Proof.
  intros Hc Hn Hb Hname HQ. unfold search_sector.
  apply (wp_loop_along (fun (l : list Z) k s' => s' = s /\ 0 <= k /\ l = seqZ k (cnt - k) /\ k <= cnt /\
    first_named name (sector_entries buf k) = None) _ _ _ (seqZ 0 cnt)).
  - intros e l k s' (-> & Hk & Hl & Hkc & Hno). assert (Hlt : k < cnt).
    { destruct (decide (k < cnt)); [done|]. rewrite seqZ_nil in Hl by lia. done. }
    rewrite seqZ_cons in Hl by lia. simplify_eq. rewrite (proj2 (Z.ltb_lt k cnt)) by done.
    assert (Hin : named (entry_bytes buf k)).
    { rewrite list.Forall_forall in Hn. apply Hn. apply list_elem_of_fmap. exists k. split; [done|].
      apply elem_of_seqZ. lia. }
    destruct Hin as [Hby [x Hx]]. destruct (strcmp_bytes_eq _ _ _ _ Hby Hb Hx Hname) as (c & Hcmp & Hceq).
    assert (Hsplit : forall rest, sector_entries buf k ++ entry_bytes buf k :: rest =
      sector_entries buf k ++ [entry_bytes buf k] ++ rest) by done.
    unfold entry_strcmp. wp_load Hcmp. destruct (Z.eqb_spec c 0) as [->|Hc0]; wp_simp.
    + apply HQ. cbn. unfold sector_entries. replace cnt with (k + (cnt - k)) by lia.
      rewrite seqZ_app, fmap_app, first_named_app by lia. unfold sector_entries in Hno. rewrite Hno.
      rewrite Z.add_0_l, seqZ_cons, fmap_cons by lia. cbn [first_named option_map]. rewrite bool_decide_eq_true_2; [done|]. rewrite Hx.
      by rewrite (proj1 Hceq eq_refl).
    + split; [done|]. split; [lia|]. split; [f_equal; lia|]. split; [lia|].
      unfold sector_entries. rewrite seqZ_app, fmap_app, first_named_app by lia. unfold sector_entries in Hno.
      rewrite Hno, Z.add_0_l, seqZ_cons, fmap_cons by lia. cbn [first_named]. rewrite bool_decide_eq_false_2; [done|]. rewrite Hx. intros [= ->]. by apply Hc0, Hceq.
  - intros k s' (-> & Hk & Hl & Hkc & Hno). assert (Heq : k = cnt).
    { destruct (decide (k < cnt)); [|lia]. rewrite seqZ_cons in Hl by lia. done. }
    subst k. rewrite Z.ltb_irrefl. wp_simp. apply HQ. by rewrite Hno.
  - split; [done|]. split; [lia|]. split; [f_equal; lia|]. split; [done|]. done.
  - rewrite length_seqZ. lia.
Qed.

(** Collecting the block addresses of a directory. *)
Lemma load_blocks_run {A} i lbas s (k : list Z -> M fsys A) (Q : A -> fsys -> Prop) :
  length (i_sectors i) = 13%nat -> block_map (disk s) i = Some lbas ->
  (forall t, i_sectors i !! 12%nat = Some t -> t <= max_lba) ->
  (length lbas = 140%nat -> wp (k lbas) Q s) ->
  wp (do t <- sector i 12;
      do all_blocks <- (if negb (t =? 0) then read_table (direct_blocks i) t else ret (direct_blocks i));
      k all_blocks) Q s.
Proof.
  intros Hl Hmap Hmax HQ. unfold block_map in Hmap. destruct (i_sectors i !! 12%nat) as [t|] eqn:Ht; [|done].
  wp_simp. eapply sector_run; [exact Ht|]. wp_simp.
  assert (Hld : length (direct_blocks i) = 140%nat).
  { unfold direct_blocks. rewrite length_app, length_take, length_replicate. lia. }
  destruct (Z.eqb_spec t 0) as [->|Hne]; cbn [negb].
  - simplify_eq. wp_simp. by apply HQ.
  - destruct (disk s !! t) as [buf|] eqn:Hbuf; [|done]. simplify_eq.
    eapply read_table_run; [by apply Hmax|exact Hbuf|].
    replace (take 12 (direct_blocks i)) with (take 12 (i_sectors i)).
    + apply HQ. rewrite length_app, length_take, rd32s_length. lia.
    + unfold direct_blocks. rewrite take_app_le, take_take by (rewrite length_take; lia). done.
Qed.

Lemma wp_ld_dir p v s (Q : dir -> fsys -> Prop) : dirs s !! p = Some v -> Q v s -> wp (ld_dir p) Q s.
Proof. intros Hv HQ. unfold ld_dir. wp_load Hv. done. Qed.

Lemma entrys_per_sec_run s (Q : Z -> fsys -> Prop) :
  dir_entry_size (sb (cur_part s)) = 24 -> Q 21 s -> wp entrys_per_sec Q s.
Proof.
  intros Hsz HQ. unfold entrys_per_sec. wp_simp. rewrite Hsz. apply wp_valid. split; [done|].
  wp_simp. exact HQ.
Qed.

(** A directory whose blocks and entries can be read. *)
Record dir_ok (s : fsys) (pdir : Z) (i : inode) (lbas : list Z) : Prop := {
  do_dir : exists v, dirs s !! pdir = Some v /\ inodes s !! dir_inode v = Some i;
  do_len : length (i_sectors i) = 13%nat;
  do_map : block_map (disk s) i = Some lbas;
  do_tab : forall t, i_sectors i !! 12%nat = Some t -> t <= max_lba;
  do_blocks : Forall (fun lba => lba <= max_lba) lbas;
  do_size : dir_entry_size (sb (cur_part s)) = 24
}.

Lemma listing_cons d lba lbas cnt es :
  lba <> 0 -> listing d (lba :: lbas) cnt = Some es ->
  exists buf es', d !! lba = Some buf /\ listing d lbas cnt = Some es' /\ es = sector_entries buf cnt ++ es'.
Proof.
  intros Hne H. cbn in H. rewrite (proj2 (Z.eqb_neq lba 0)) in H by done.
  destruct (d !! lba) as [buf|]; [|done]. destruct (listing d lbas cnt) as [es'|]; [|done].
  simplify_eq. eauto.
Qed.

Lemma search_dir_entry_run s pdir name i lbas es a b h (Q : option (list Z) -> fsys -> Prop) :
  dir_ok s pdir i lbas -> listing (disk s) lbas 21 = Some es -> Forall named es ->
  Forall (fun c => 0 < c < 256) name -> heap s = a :: b :: h -> a <> NULL -> b <> NULL ->
  Q (take 24 <$> first_named name es) (set_heap h s) -> wp (search_dir_entry pdir (name ++ [0])) Q s.
Proof.
  intros [(v & Hv & Hi) Hl Hmap Htab Hmax Hsz] Hes Hnamed Hname Hheap Ha Hb HQ.
  assert (Hnb : Forall is_byte (name ++ [0])).
  { apply list.Forall_app. split; [|by repeat constructor]. eapply list.Forall_impl; [exact Hname|]. unfold is_byte. cbn. lia. }
  assert (Hns : c_string (name ++ [0]) = Some name).
  { clear Hnb HQ. induction Hname as [|c n Hc _ IH]; [done|]. cbn. rewrite (proj2 (Z.eqb_neq c 0)) by lia. by rewrite IH. }
  assert (H : wp (search_dir_entry pdir (name ++ [0])) (fun r s' =>
    r = take 24 <$> first_named name es /\ s' = set_heap h s) s).
  2: { eapply wp_mono; [exact H|]. by intros r s' [-> ->]. }
  unfold search_dir_entry. rewrite wp_bind. eapply sys_malloc_run; [exact Hheap|].
  rewrite (proj2 (Z.eqb_neq a NULL)) by done. rewrite wp_bind. eapply wp_ld_dir; [exact Hv|].
  rewrite wp_bind. eapply wp_ld_inode; [exact Hi|].
  apply (load_blocks_run i lbas); [done|done|done|]. intros Hll.
  rewrite wp_bind. eapply sys_malloc_run; [done|]. wp_simp. apply entrys_per_sec_run; [done|]. cbn [cur_part set_heap].
  apply (wp_loop_along (fun (l : list Z) k s' => s' = set_heap h (set_heap (b :: h) s) /\ 0 <= k /\
    l = drop (Z.to_nat k) lbas /\ exists es', listing (disk s) l 21 = Some es' /\ Forall named es' /\
    first_named name es = first_named name es') _ _ _ lbas).
  - intros lba l k s' (-> & Hk & Hd & es' & Hes' & Hn' & Hfn).
    assert (Hlba : lbas !! Z.to_nat k = Some lba) by by rewrite <- (Nat.add_0_r (Z.to_nat k)), <- lookup_drop, <- Hd.
    assert (Hk140 : k < 140) by (apply lookup_lt_Some in Hlba; lia).
    assert (Hnext : l = drop (Z.to_nat (k + 1)) lbas).
    { replace (Z.to_nat (k + 1)) with (Z.to_nat k + 1)%nat by lia. rewrite <- drop_drop, <- Hd. done. }
    rewrite (proj2 (Z.ltb_lt k 140)) by done. wp_load Hlba.
    destruct (Z.eqb_spec lba 0) as [->|Hne]; wp_simp.
    { split; [done|]. split; [lia|]. split; [done|]. exists es'. by cbn in Hes'. }
    destruct (listing_cons _ _ _ _ _ Hne Hes') as (buf & es2 & Hbuf & Hes2 & ->).
    apply list.Forall_app in Hn' as [Hn1 Hn2].
    eapply ide_read_run; [exact (Forall_lookup_1 _ _ _ _ Hmax Hlba)|lia|exact (read_one _ _ _ Hbuf)|].
    wp_simp. apply wp_valid. split; [by apply negb_true_iff, Z.eqb_neq|]. wp_simp.
    apply search_sector_run; [lia|done|done|done|]. intros r Hr. wp_simp.
    rewrite first_named_app, <- Hr in Hfn. rewrite Hsz. destruct r as [idx|]; wp_simp.
    + rewrite Hfn. done.
    + split; [done|]. split; [lia|]. split; [done|]. by exists es2.
  - intros k s' (-> & Hk & Hd & es' & Hes' & _ & Hfn). cbn in Hes'. simplify_eq.
    assert (Hk140 : ~ k < 140).
    { intros H. destruct (lookup_lt_is_Some_2 lbas (Z.to_nat k)) as [x Hx]; [lia|].
      rewrite (drop_S _ _ _ Hx) in Hd. done. }
    rewrite (proj2 (Z.ltb_ge k 140)) by lia. wp_simp. by rewrite Hfn.
  - split; [done|]. split; [done|]. split; [done|]. by exists es.
  - lia.
Qed.

(** [C25] search_dir_entry finds the first entry of the directory whose string
    is the name, in block order and then in entry order, and hands its 24
    bytes to the caller; it reports failure exactly when no entry has the name.
    Nothing but memory from the allocator is used up. *)
Theorem search_dir_entry_first s pdir name i lbas es a b h :
  dir_ok s pdir i lbas -> listing (disk s) lbas 21 = Some es -> Forall named es ->
  Forall (fun c => 0 < c < 256) name -> heap s = a :: b :: h -> a <> NULL -> b <> NULL ->
  search_dir_entry pdir (name ++ [0]) s = Ok (take 24 <$> first_named name es, set_heap h s).
Proof. intros. apply wp_eq. by eapply search_dir_entry_run. Qed.

(** *** Reading a directory *)

Lemma entry_f_type_run buf k s (Q : Z -> fsys -> Prop) :
  24 * k + 24 <= Z.of_nat (length buf) -> Q (f_type (dec_dir_entry (entry_bytes buf k))) s ->
  wp (entry_f_type buf k) Q s.
Proof. intros Hk HQ. unfold entry_f_type. wp_simp. apply wp_valid. split; [by apply Z.leb_le|]. by wp_simp. Qed.

(** A sector with exactly its first two entries in use. *)
Definition two_entries (buf : list Z) : Prop :=
  length buf = 512%nat /\
  forall k, 0 <= k < 21 -> f_type (dec_dir_entry (entry_bytes buf k)) <> 0 <-> k < 2.

Lemma read_entries_two buf s :
  two_entries buf -> read_entries buf 24 21 (0, 0) s = Ok ((0, 1), s).
Proof.
  intros [Hl Ht]. apply wp_eq. unfold read_entries. cbn [fst snd].
  apply (wp_loop (fun x s' => s' = s /\ 0 <= x.1.1 <= 21 /\ x.1.2 = 0 /\ x.2 = (if x.1.1 <? 2 then 0 else 1))
    (fun x _ => Z.to_nat (21 - x.1.1))); [|by repeat split|cbn; lia].
  intros [[k cur] pos] s' (-> & Hk & Hcur & Hpos). cbn [fst snd] in *. subst cur pos.
  destruct (Z.ltb_spec k 21) as [Hk21|Hk21].
  2: { assert (k = 21) as -> by lia. wp_simp. done. }
  wp_simp. apply entry_f_type_run; [lia|]. specialize (Ht k ltac:(lia)).
  destruct (Z.eqb_spec (f_type (dec_dir_entry (entry_bytes buf k))) 0) as [E|E]; cbn [negb].
  - assert (~ k < 2) by tauto. rewrite !(proj2 (Z.ltb_ge _ 2)) by lia. wp_simp.
    rewrite !(proj2 (Z.ltb_ge _ 2)) by (cbn; lia). cbn. repeat split; lia.
  - assert (Hk2 : k < 2) by tauto. rewrite (proj2 (Z.ltb_lt k 2)) by done.
    rewrite Z.ltb_irrefl. wp_simp. apply wp_ASSERT. split; [done|]. wp_simp.
    assert (k = 0 \/ k = 1) as [-> | ->] by lia; cbn; repeat split; lia.
Qed.

(** dir_read returns no entry. On a directory as mkdir makes it, with the
    two entries "." and ".." in its only block, it does not return at all:
    the position never reaches the address it is compared with, and the scan
    goes on past the end of the array of block addresses. *)
Theorem dir_read_runs_off s d v i lba buf :
  dirs s !! d = Some v -> inodes s !! dir_inode v = Some i -> dir_pos v = 0 ->
  i_size i = 48 -> 48 < dir_inode v ->
  i_sectors i = lba :: replicate 12 0 -> lba <> 0 -> lba <= max_lba ->
  dir_entry_size (sb (cur_part s)) = 24 ->
  disk s !! lba = Some buf -> two_entries buf ->
  dir_read d s = Fault.
Proof.
  intros Hv Hi Hpos Hsz Haddr Hsec Hne Hmax Hes Hbuf Htwo.
  unfold dir_read. rewrite (bind_Ok _ _ s v s) by (apply wp_eq; by eapply wp_ld_dir).
  rewrite (bind_Ok _ _ s i s) by (apply wp_eq; by eapply wp_ld_inode).
  rewrite (bind_Ok _ _ s 0 s) by (apply wp_eq; eapply sector_run; [by rewrite Hsec|done]).
  rewrite Z.eqb_refl. cbn [negb]. rewrite (bind_Ok _ _ s (direct_blocks i) s) by done.
  rewrite (bind_Ok _ _ s (cur_part s) s) by done.
  rewrite (bind_Ok _ _ s 21 s) by (apply wp_eq; by apply entrys_per_sec_run).
  assert (Hall : direct_blocks i = lba :: replicate 139 0) by (unfold direct_blocks; by rewrite Hsec).
  rewrite Hall, Hes.
  assert (Hdv : forall s' v', dirs s' !! d = Some v' -> ld_dir d s' = Ok (v', s')) by
    (intros; apply wp_eq; by eapply wp_ld_dir).
  apply (loop_Fault (fun n x s' => n = Z.to_nat (140 - x.1) /\ 0 <= x.1 <= 140 /\ disk s' = disk s /\
    exists pos, dirs s' !! d = Some (Dir (dir_inode v) pos) /\ pos = (if x.1 =? 0 then 0 else 1) /\ (x.1 = 0 -> x.2 = 0)) _ 140);
    [| | |lia].
  - intros n [k cur] s' (Hn & Hk & Hd & pos & Hdir & -> & Hc). cbn [fst snd] in *.
    rewrite (bind_Ok _ _ s' _ s' (Hdv _ _ Hdir)). cbn [dir_pos dir_inode].
    rewrite (proj2 (Z.ltb_lt _ (dir_inode v))) by (destruct (k =? 0); lia).
    rewrite (proj2 (Z.leb_gt (i_size i) _)) by (destruct (k =? 0); lia).
    destruct (Z.eqb_spec k 0) as [->|Hk0].
    + rewrite (bind_Ok _ _ s' lba s') by done. rewrite (proj2 (Z.eqb_neq lba 0)) by done.
      rewrite (bind_Ok _ _ s' buf s') by (apply wp_eq; eapply ide_read_run; [done|lia|rewrite Hd; exact (read_one _ _ _ Hbuf)|done]).
      rewrite (Hc eq_refl). rewrite (bind_Ok _ _ s' (0, 1) s' (read_entries_two buf s' Htwo)). cbn beta iota.
      eexists (1, 0), _. split.
      { rewrite (bind_Ok _ _ s' tt (set_dirs (<[d := Dir (dir_inode v) 1]> (dirs s')) s')); [done|].
        unfold st_dir. rewrite (bind_Ok _ _ s' s' s') by done. rewrite Hdir. done. }
      cbn. split; [lia|]. split; [lia|]. split; [done|]. exists 1. by rewrite lookup_insert_eq.
    + assert (Hz : (lba :: replicate 139 0) !! Z.to_nat k = Some 0).
      { destruct (Z.to_nat k) as [|k'] eqn:E; [lia|]. apply lookup_replicate_2. lia. }
      rewrite (bind_Ok _ _ s' 0 s') by (by rewrite Hz). cbn [Z.eqb].
      eexists (k + 1, cur), s'. split; [done|]. cbn. split; [lia|]. split; [lia|]. split; [done|].
      exists 1. rewrite (proj2 (Z.eqb_neq (k + 1) 0)) by lia. split; [done|]. split; [done|lia].
  - intros [k cur] s' (Hn & Hk & Hd & pos & Hdir & -> & Hc). cbn [fst snd] in *.
    assert (k = 140) as -> by lia.
    rewrite (bind_Ok _ _ s' _ s' (Hdv _ _ Hdir)). cbn [dir_pos dir_inode].
    rewrite (proj2 (Z.ltb_lt _ (dir_inode v))) by (cbn; lia).
    rewrite (proj2 (Z.leb_gt (i_size i) _)) by (cbn; lia). by apply bind_Fault.
  - cbn. split; [done|]. split; [lia|]. split; [done|]. exists 0. rewrite Hv. destruct v. cbn in *. by subst.
Qed.

(** *** Adding an entry *)

(** A sector with a free entry at [idx] and none before it. *)
Definition first_free_entry (buf : list Z) (idx : Z) : Prop :=
  0 <= idx < 21 /\ f_type (dec_dir_entry (entry_bytes buf idx)) = 0 /\
  forall k, 0 <= k < idx -> f_type (dec_dir_entry (entry_bytes buf k)) <> 0.
Definition full_sector (buf : list Z) : Prop :=
  forall k, 0 <= k < 21 -> f_type (dec_dir_entry (entry_bytes buf k)) <> 0.

Lemma free_entry_run buf r s (Q : option Z -> fsys -> Prop) :
  length buf = 512%nat ->
  match r with Some idx => first_free_entry buf idx | None => full_sector buf end ->
  Q r s -> wp (free_entry buf 21) Q s.
Proof.
  intros Hl Hr HQ. unfold free_entry.
  apply (wp_loop (fun k s' => s' = s /\ 0 <= k <= match r with Some idx => idx | None => 21 end)
    (fun k _ => Z.to_nat (21 - k))).
  - intros k s' (-> & Hk).
    assert (Hk21 : k < 21 -> wp (entry_f_type buf k) (fun ft s' => ft = f_type (dec_dir_entry (entry_bytes buf k)) /\ s' = s) s).
    { intros H. apply entry_f_type_run; [lia|done]. }
    destruct r as [idx|].
    + destruct Hr as (Hidx & Hfree & Hused). rewrite (proj2 (Z.ltb_lt k 21)) by lia. wp_simp.
      eapply wp_mono; [apply Hk21; lia|]. intros ft s' [-> ->]. unfold FT_UNKNOWN.
      destruct (Z.eqb_spec (f_type (dec_dir_entry (entry_bytes buf k))) 0) as [E|E]; wp_simp.
      * assert (k = idx) as ->; [|done]. destruct (decide (k = idx)); [done|]. exfalso. apply (Hused k); [lia|done].
      * split; [|lia]. split; [done|]. assert (k <> idx) by congruence. lia.
    + destruct (Z.ltb_spec k 21) as [Hlt|Hge]; wp_simp.
      * eapply wp_mono; [by apply Hk21|]. intros ft s' [-> ->]. unfold FT_UNKNOWN.
        rewrite (proj2 (Z.eqb_neq _ 0)) by (apply Hr; lia). wp_simp. split; [|lia]. split; [done|lia].
      * done.
  - split; [done|]. destruct r as [idx|]; [destruct Hr as [? _]; lia|lia].
  - lia.
Qed.

(** The directory [a] with one more entry in block [lba]. *)
Definition entry_added (s : fsys) (a lba : Z) (i : inode) (buf : list Z) (idx : Z) (p_de : list Z) : fsys :=
  set_inodes (<[a := set_i_size (u32 (i_size i + 24)) i]> (inodes s))
    (set_disk (<[lba := splice buf (Z.to_nat (24 * idx)) p_de]> (disk s)) s).

Lemma put_entry_run s a lba i buf idx p_de (Q : unit -> fsys -> Prop) :
  dir_entry_size (sb (cur_part s)) = 24 -> length p_de = 24%nat -> length buf = 512%nat ->
  0 <= idx < 21 -> lba <= max_lba -> is_Some (disk s !! lba) -> inodes s !! a = Some i ->
  Q tt (entry_added s a lba i buf idx p_de) -> wp (put_entry a lba buf idx p_de) Q s.
Proof.
  intros Hsz Hde Hl Hidx Hmax [x Hx] Hi HQ. unfold put_entry. wp_simp. rewrite Hsz.
  apply wp_valid. split; [lia|]. wp_simp. unfold ide_write. wp_simp. apply wp_ASSERT.
  split; [by apply Z.leb_le|]. wp_simp. apply wp_ASSERT. split; [done|]. wp_simp.
  rewrite (take_ge p_de) by (rewrite Hde; lia).
  assert (Hsl : length (splice buf (Z.to_nat (24 * idx)) p_de) = 512%nat) by (rewrite splice_length; lia).
  apply wp_of_option. exists (<[lba := splice buf (Z.to_nat (24 * idx)) p_de]> (disk s)). split.
  { cbn [write_sectors]. rewrite Hx, (proj2 (Nat.leb_le 512 (length _))) by lia. by rewrite take_ge by lia. }
  wp_simp. eapply wp_ld_inode; [exact Hi|]. wp_simp. eapply wp_st_inode; [exact Hi|]. exact HQ.
Qed.

(** sync_dir_entry puts the entry where there is room: with [n] blocks in
    front that are full and a block after them whose first free entry is
    [idx], exactly those 24 bytes of that sector change on disk, the
    directory's size grows by one entry, no block is allocated and nothing
    else in the state changes. *)
Theorem sync_dir_entry_reuses s d v i n lba buf idx p_de :
  dirs s !! d = Some v -> inodes s !! dir_inode v = Some i ->
  length (i_sectors i) = 13%nat -> dir_entry_size (sb (cur_part s)) = 24 -> i_size i mod 24 = 0 ->
  disk_wf (disk s) -> Forall (fun lba => lba <= max_lba) (i_sectors i) ->
  0 <= n < 12 ->
  (forall k, 0 <= k < n -> exists l b, i_sectors i !! Z.to_nat k = Some l /\ l <> 0 /\ disk s !! l = Some b /\ full_sector b) ->
  i_sectors i !! Z.to_nat n = Some lba -> lba <> 0 -> disk s !! lba = Some buf -> first_free_entry buf idx ->
  length p_de = 24%nat ->
  sync_dir_entry d p_de s = Ok (true, entry_added s (dir_inode v) lba i buf idx p_de).
Proof.
  intros Hv Hi Hl Hsz Hmod Hd Hmax Hn Hfull Hlba Hne Hbuf Hfree Hde. apply wp_eq.
  unfold sync_dir_entry. rewrite wp_bind. eapply wp_ld_dir; [exact Hv|]. rewrite wp_bind.
  eapply wp_ld_inode; [exact Hi|]. rewrite wp_bind. apply entrys_per_sec_run; [done|].
  wp_simp. rewrite Hsz. apply wp_ASSERT. split; [by rewrite Hmod|].
  assert (Hdb : forall k l, 0 <= k < 12 -> i_sectors i !! Z.to_nat k = Some l -> direct_blocks i !! Z.to_nat k = Some l).
  { intros k l Hk Hx. unfold direct_blocks. rewrite lookup_app_l by (rewrite length_take; lia).
    rewrite lookup_take_lt by lia. done. }
  apply (wp_loop (fun k s' => s' = s /\ 0 <= k <= n) (fun k _ => Z.to_nat (140 - k))); [|by split; [|lia]|lia].
  intros k s' (-> & Hk). unfold sync_block_step. rewrite (proj2 (Z.ltb_lt k 140)) by lia.
  assert (Hrd : forall l b Q, disk s !! l = Some b -> l <= max_lba -> (length b = 512%nat -> Q b s) -> wp (ide_read l 1) Q s).
  { intros l b Q Hb Hl' HQ. eapply ide_read_run; [done|lia|exact (read_one _ _ _ Hb)|]. apply HQ. by apply (Hd l). }
  destruct (decide (k = n)) as [->|Hkn].
  - wp_load (Hdb n lba ltac:(lia) Hlba). rewrite (proj2 (Z.eqb_neq lba 0)) by done. wp_simp.
    eapply Hrd; [exact Hbuf|exact (Forall_lookup_1 _ _ _ _ Hmax Hlba)|]. intros Hb. wp_simp.
    apply (free_entry_run buf (Some idx)); [done|done|]. wp_simp.
    apply (put_entry_run _ _ _ i); try done; [apply Hfree|exact (Forall_lookup_1 _ _ _ _ Hmax Hlba)].
  - destruct (Hfull k ltac:(lia)) as (l & b & Hlk & Hlne & Hbk & Hfb).
    wp_load (Hdb k l ltac:(lia) Hlk). rewrite (proj2 (Z.eqb_neq l 0)) by done. wp_simp.
    eapply Hrd; [exact Hbk|exact (Forall_lookup_1 _ _ _ _ Hmax Hlk)|]. intros Hb. wp_simp.
    apply (free_entry_run b None); [done|done|]. wp_simp. rewrite u8_small by lia.
    split; [split; [done|lia]|lia].
Qed.

(** *** Removing an entry *)

Lemma count_indirect_diverges spin all s : length all = 140%nat -> count_indirect spin all s = NoFuel.
Proof.
  intros Hl. unfold count_indirect.
  apply (loop_diverges (fun x s' => x.1 = 12 /\ s' = s)); [|done].
  intros [k c] s' [Hk ->]. cbn [fst] in Hk. subst k. destruct (lookup_lt_is_Some_2 all (Z.to_nat 12)) as [x Hx]; [rewrite Hl; cbn; lia|].
  eexists (12, _), s. split; [|done]. cbn. rewrite (bind_Ok _ _ s x s); [reflexivity|]. by rewrite Hx.
Qed.

(** [C37] Emptying an indirect block of a directory does not end: once the
    block was given back, the loop that counts the indirect blocks still in
    use runs forever, whatever the number of rounds it is granted. *)
Theorem drop_indirect_block_diverges spin s a block_idx lba all :
  12 <= block_idx -> length all = 140%nat ->
  disk_wf (disk s) -> layout_wf (cur_part s) -> synced BLOCK_BITMAP (cur_part s) (disk s) ->
  data_block (cur_part s) lba ->
  drop_dir_block spin a block_idx lba all s = NoFuel.
Proof.
  intros Hidx Hl Hd Hlw Hs Hlba. unfold drop_dir_block. rewrite (bind_Ok _ _ s (cur_part s) s) by done.
  assert (H : wp (on_block_bitmap (bitmap_set (u32 (lba - data_start_lba (sb (cur_part s)))) 0) ;;
    bitmap_sync (u32 (lba - data_start_lba (sb (cur_part s)))) BLOCK_BITMAP) (fun _ _ => True) s).
  { assert (Hfb : wp (free_block lba) (fun _ _ => True) s).
    { eapply (free_block_run s []); [done|done|by apply blocks_freed_nil|done]. }
    unfold free_block in Hfb. autorewrite with wp in Hfb |- *. cbn beta in Hfb.
    apply wp_ASSERT in Hfb as [_ Hfb]. by autorewrite with wp in Hfb. }
  wp_simp. autorewrite with wp in H.
  apply wp_Ok in H as (x1 & s1 & H1 & H). rewrite (bind_Ok _ _ _ _ _ H1).
  apply wp_Ok in H as (x2 & s2 & H2 & _). rewrite (bind_Ok _ _ _ _ _ H2).
  rewrite (proj2 (Z.ltb_ge block_idx 12)) by lia. apply bind_NoFuel. by apply count_indirect_diverges.
Qed.

(** *** Witnesses: the demonstration partition with its root directory open *)

#[local] Instance is_byte_dec c : Decision (is_byte c).
Proof. unfold is_byte. apply _. Defined.
#[local] Instance named_dec e : Decision (named e).
Proof. unfold named. apply _. Defined.

Definition demo_root_fs : fsys :=
  set_dirs {[root_dir := Dir 0xc0280000 0]}
    (set_inodes {[0xc0280000 := set_i_open_cnts 1 demo_root_inode]}
      (set_part (set_open_inodes [0xc0280000] demo_part) demo_fs)).

Definition file1 : list Z := [102; 105; 108; 101; 49].

Lemma search_dir_entry_first_witness :
  search_dir_entry root_dir (file1 ++ [0]) demo_root_fs =
    Ok (take 24 <$> first_named file1 (sector_entries demo_root 21), set_heap (drop 2 demo_heap) demo_root_fs).
Proof.
  apply (search_dir_entry_first demo_root_fs root_dir file1 (set_i_open_cnts 1 demo_root_inode)
    (direct_blocks demo_root_inode) (sector_entries demo_root 21) 0xc0300000 0xc0300200 (drop 2 demo_heap)); try done.
  - split; try done.
    + by exists (Dir 0xc0280000 0).
    + intros t Ht. vm_compute in Ht. by simplify_eq.
    + refine (bool_decide_unpack _ _). vm_compute. exact I.
  - refine (bool_decide_unpack _ _). vm_compute. exact I.
  - repeat (apply Forall_cons_2; [lia|]). constructor.
Defined.

(** The directory found by that search. *)
Example demo_file1 : first_named file1 (sector_entries demo_root 21) ≫= (fun l => Some (dec_dir_entry l)) = Some demo_entry.
Proof. vm_compute. reflexivity. Qed.

(** A directory as mkdir makes it, its block being sector 615. *)
Definition demo_dots : list Z :=
  enc_dir_entry (DirEntry (46 :: replicate 15 0) 1 FT_DIRECTORY) ++
  enc_dir_entry (DirEntry (46 :: 46 :: replicate 14 0) 0 FT_DIRECTORY) ++ replicate 464 0.
Definition demo_dots_fs : fsys :=
  set_disk (<[615 := demo_dots]> demo_disk)
    (set_dirs {[0xc0290400 := Dir 0xc0290000 0]}
      (set_inodes {[0xc0290000 := Inode 1 48 1 0 (615 :: replicate 12 0)]} demo_fs)).

(** Every entry below [n], as a test. *)
Lemma entries_below (P : Z -> Prop) `{!forall k, Decision (P k)} n :
  forallb (fun k => bool_decide (P k)) (seqZ 0 n) = true -> forall k, 0 <= k < n -> P k.
Proof.
  intros Ht k Hk. rewrite forallb_forall in Ht. specialize (Ht k). rewrite bool_decide_eq_true in Ht. apply Ht.
  apply list_elem_of_In, elem_of_seqZ. lia.
Qed.

Lemma dir_read_runs_off_witness : dir_read 0xc0290400 demo_dots_fs = Fault.
Proof.
  apply (dir_read_runs_off demo_dots_fs 0xc0290400 (Dir 0xc0290000 0)
    (Inode 1 48 1 0 (615 :: replicate 12 0)) 615 demo_dots); try done.
  split; [done|]. apply (entries_below _ 21). vm_compute. reflexivity.
Defined.

Lemma sync_dir_entry_reuses_witness :
  sync_dir_entry root_dir (enc_dir_entry demo_entry) demo_root_fs =
    Ok (true, entry_added demo_root_fs 0xc0280000 612 (set_i_open_cnts 1 demo_root_inode) demo_root 3
      (enc_dir_entry demo_entry)).
Proof.
  apply (sync_dir_entry_reuses demo_root_fs root_dir (Dir 0xc0280000 0) (set_i_open_cnts 1 demo_root_inode) 0
    612 demo_root 3 (enc_dir_entry demo_entry));
    [reflexivity|reflexivity|reflexivity|reflexivity|reflexivity|exact demo_disk_wf| |lia|intros; lia|reflexivity|lia
    |reflexivity| |reflexivity].
  - refine (bool_decide_unpack _ _). vm_compute. exact I.
  - split; [lia|]. split; [reflexivity|]. apply (entries_below _ 3). vm_compute. reflexivity.
Defined.

Lemma drop_indirect_block_diverges_witness :
  drop_dir_block 1000 0xc0280000 12 615 (replicate 140 615) demo_root_fs = NoFuel.
Proof.
  apply (drop_indirect_block_diverges 1000 demo_root_fs 0xc0280000 12 615 (replicate 140 615));
    [lia|reflexivity|exact demo_disk_wf| |exact (demo_synced BLOCK_BITMAP)|split; vm_compute; intuition congruence].
  destruct demo_layout_wf as [[] [] ? ? ? ?]. split; [by split|by split|done..].
Defined.
