(* ===== verification/Fs.v ===== *)
(** * The file system calls (fs/fs.c)

    Path search and the system calls. A string argument is the list of its
    bytes without the terminator; path_parse and path_depth_cnt appear through
    what Path proves of them, [first_name], [after_name] and [components]. What
    a call leaves uninitialised on its stack is a parameter. Messages, and the
    screen of sys_write to stdout and sys_putchar, are not modelled. *)

From Stdlib Require Import ZArith Lia.
From stdpp Require Import base numbers list gmap option.
From S2P Require Import Prelude Bitmap Intr DList FsTypes Blocks Inode FileOps Dir CString Path.

Local Open Scope Z_scope.

Definition MAX_PATH_LEN : Z := 512.

(** struct path_search_record *)
Record path_search_record := SearchRecord {
  searched_path : list Z;
  parent_dir : Z;
  file_type : Z
}.

(** path_parse into a zeroed name buffer of MAX_FILE_NAME_LEN bytes. *)
Definition parse_name (path : list Z) : M fsys (list Z * option (list Z)) :=
  let name := first_name (drop_slashes path) in
  let rest := after_name (drop_slashes path) in
  valid (Z.of_nat (length name) <=? MAX_FILE_NAME_LEN) ;;
  ret (name, match rest with [] => None | _ => Some rest end).

Definition is_root_path (pathname : list Z) : bool :=
  bool_decide (pathname = [slash]) || bool_decide (pathname = [slash; 46]) ||
  bool_decide (pathname = [slash; 46; 46]).

(** One level of search_file: the locals are [name], [sub_path], the record,
    [dir_e], the current directory and [parent_inode_no]. *)
Record search_locals := SearchLocals {
  sl_name : list Z;
  sl_sub_path : option (list Z);
  sl_record : path_search_record;
  sl_dir_e : list Z;
  sl_parent_dir : Z;
  sl_parent_inode_no : Z
}.

Definition search_step (x : search_locals) : M fsys (search_locals + (Z * path_search_record)) :=
  match sl_name x with
  | [] =>
      dir_close (parent_dir (sl_record x)) ;;
      do d <- dir_open (sl_parent_inode_no x);
      ret (inr (s32 (de_i_no (dec_dir_entry (sl_dir_e x))),
                SearchRecord (searched_path (sl_record x)) d FT_DIRECTORY))
  | name =>
      let r := sl_record x in
      ASSERT (Z.of_nat (length (searched_path r)) <? 512) ;;
      valid (Z.of_nat (length name) <? MAX_FILE_NAME_LEN) ;;
      let path := searched_path r ++ [slash] ++ name in
      valid (Z.of_nat (length path) <? MAX_PATH_LEN) ;;
      let r := SearchRecord path (parent_dir r) (file_type r) in
      do found <- search_dir_entry (sl_parent_dir x) (name ++ [0]);
      match found with
      | None => ret (inr (-1, r))
      | Some e =>
          valid (Z.of_nat (length e) <=? sizeof_dir_entry) ;;
          let dir_e := splice (sl_dir_e x) 0 e in
          do '(name, sub_path) <-
            match sl_sub_path x with Some p => parse_name p | None => ret ([], None) end;
          let ft := f_type (dec_dir_entry dir_e) in
          if FT_DIRECTORY =? ft then
            do d <- ld_dir (sl_parent_dir x);
            do i <- ld_inode (dir_inode d);
            dir_close (sl_parent_dir x) ;;
            do nd <- dir_open (de_i_no (dec_dir_entry dir_e));
            ret (inl (SearchLocals name sub_path (SearchRecord path nd (file_type r)) dir_e nd (i_no i)))
          else if FT_REGULAR =? ft then
            ret (inr (s32 (de_i_no (dec_dir_entry dir_e)), SearchRecord path (parent_dir r) FT_REGULAR))
          else ret (inl (SearchLocals name sub_path r dir_e (sl_parent_dir x) (sl_parent_inode_no x)))
      end
  end.

Section calls.
(** The 24 bytes of the uninitialised [dir_e] in search_file. *)
Context (stack : list Z).
(** Rounds granted to the endless loop of delete_dir_entry. *)
Context (spin : nat).

Definition search_file (pathname : list Z) : M fsys (Z * path_search_record) :=
  if is_root_path pathname then ret (0, SearchRecord [] root_dir FT_DIRECTORY)
  else
    let path_len := Z.of_nat (length pathname) in
    ASSERT (bool_decide (pathname !! 0%nat = Some slash) && (1 <? path_len) && (path_len <? MAX_PATH_LEN)) ;;
    do '(name, sub_path) <- parse_name pathname;
    loop (S (S (length pathname))) search_step
      (SearchLocals name sub_path (SearchRecord [] root_dir FT_UNKNOWN) stack root_dir 0).

(** strrchr(path, '/') + 1 *)
Definition last_component (path : list Z) : list Z := default [] (list.last (components path)).

Definition path_depth (path : list Z) : Z := Z.of_nat (length (components path)).

Definition sys_open (pathname : list Z) (flags : Z) : M fsys Z :=
  do c <- of_option (list.last pathname);
  if c =? slash then ret (-1)
  else
    ASSERT (flags <=? 7) ;;
    let pathname_depth := path_depth pathname in
    do '(inode_no, searched_record) <- search_file pathname;
    let found := negb (inode_no =? -1) in
    if file_type searched_record =? FT_DIRECTORY then
      dir_close (parent_dir searched_record) ;;
      ret (-1)
    else
      let path_searched_depth := path_depth (searched_path searched_record) in
      if negb (pathname_depth =? path_searched_depth) then ret (-1)
      else if negb found && negb (truthy (Z.land flags O_CREAT)) then
        dir_close (parent_dir searched_record) ;;
        ret (-1)
      else if found && truthy (Z.land flags O_CREAT) then
        dir_close (parent_dir searched_record) ;;
        ret (-1)
      else if truthy (Z.land flags O_CREAT) then
        do fd <- file_create (parent_dir searched_record) (last_component pathname) flags;
        dir_close (parent_dir searched_record) ;;
        ret fd
      else file_open (u32 inode_no) flags.

Definition fd_local2global (local_fd : Z) : M fsys Z :=
  do s <- get;
  do global_fd <- of_option (fd_table s !! Z.to_nat local_fd);
  ASSERT ((0 <=? global_fd) && (global_fd <? MAX_FILE_OPEN)) ;;
  ret global_fd.

Definition sys_close (fd : Z) : M fsys Z :=
  if 2 <? fd then
    do _fd <- fd_local2global fd;
    do r <- file_close _fd;
    modify (fun s => set_fd_table (<[Z.to_nat fd := -1]> (fd_table s)) s) ;;
    ret r
  else ret (-1).

(** tmp_buf of the stdout branch has 1024 bytes. *)
Definition sys_write (fd : Z) (buf : list Z) (count : Z) : M fsys Z :=
  if fd <? 0 then ret (-1)
  else if fd =? stdout_no then valid (count <=? 1024) ;; ret (s32 count)
  else
    do _fd <- fd_local2global fd;
    do wr_file <- ld_file _fd;
    if writable (fd_flag wr_file) then file_write _fd buf count else ret (-1).

(** [typed]: the characters ioq_getchar(&kbd_buf) returns, in order; without
    enough of them the caller blocks. *)
Definition sys_read (typed : list Z) (fd count : Z) : M fsys (Z * list Z) :=
  if (fd <? 0) || (fd =? stdout_no) || (fd =? stderr_no) then ret (-1, [])
  else if fd =? stdin_no then
    if Z.of_nat (length typed) <? count then nofuel
    else ret (if count =? 0 then -1 else s32 count, take (Z.to_nat count) typed)
  else
    do _fd <- fd_local2global fd;
    file_read _fd count.

Definition sys_lseek (fd offset whence : Z) : M fsys Z :=
  if fd <? 0 then ret (-1)
  else
    ASSERT ((0 <? whence) && (whence <? 4)) ;;
    do _fd <- fd_local2global fd;
    do pf <- ld_file _fd;
    do i <- ld_inode (fd_inode pf);
    let file_size := s32 (i_size i) in
    let new_pos :=
      if whence =? SEEK_SET then offset
      else if whence =? SEEK_CUR then s32 (s32 (fd_pos pf) + offset)
      else s32 (file_size + offset) in
    if (new_pos <? 0) || (s32 (file_size - 1) <? new_pos) then ret (-1)
    else
      st_file _fd (File new_pos (fd_flag pf) (fd_inode pf)) ;;
      ret new_pos.

(** The search of the file table for an open file with this inode number. *)
Definition find_in_file_table (inode_no : Z) : M fsys Z :=
  loop 33 (fun file_idx =>
    if file_idx <? MAX_FILE_OPEN then
      do f <- ld_file file_idx;
      if negb (fd_inode f =? NULL) then
        do i <- ld_inode (fd_inode f);
        if u32 inode_no =? i_no i then ret (inr file_idx) else ret (inl (file_idx + 1))
      else ret (inl (file_idx + 1))
    else ret (inr file_idx)) 0.

Definition sys_unlink (pathname : list Z) : M fsys Z :=
  ASSERT (Z.of_nat (length pathname) <? MAX_PATH_LEN) ;;
  do '(inode_no, searched_record) <- search_file pathname;
  ASSERT (negb (inode_no =? 0)) ;;
  if inode_no =? -1 then
    dir_close (parent_dir searched_record) ;; ret (-1)
  else if file_type searched_record =? FT_DIRECTORY then
    dir_close (parent_dir searched_record) ;; ret (-1)
  else
    do file_idx <- find_in_file_table inode_no;
    if file_idx <? MAX_FILE_OPEN then
      dir_close (parent_dir searched_record) ;; ret (-1)
    else
      ASSERT (file_idx =? MAX_FILE_OPEN) ;;
      do io_buf <- sys_malloc;
      if io_buf =? NULL then
        dir_close (parent_dir searched_record) ;; ret (-1)
      else
        delete_dir_entry spin (parent_dir searched_record) (u32 inode_no) ;;
        inode_release (u32 inode_no) ;;
        dir_close (parent_dir searched_record) ;;
        ret 0.

(** The first two entries of a new directory. *)
Definition dot_entries (self parent : Z) : list Z :=
  enc_dir_entry (DirEntry (splice (replicate 16 0) 0 [46]) self FT_DIRECTORY) ++
  enc_dir_entry (DirEntry (splice (replicate 16 0) 0 [46; 46]) parent FT_DIRECTORY).

Definition mkdir_rollback (step inode_no pdir : Z) : M fsys Z :=
  (if step =? 2 then on_inode_bitmap (bitmap_set inode_no 0) else ret tt) ;;
  dir_close pdir ;;
  ret (-1).

Definition sys_mkdir (pathname : list Z) : M fsys Z :=
  do io_buf <- sys_malloc;
  if io_buf =? NULL then ret (-1)
  else
    do '(inode_no, searched_record) <- search_file pathname;
    let pdir := parent_dir searched_record in
    if negb (inode_no =? -1) then mkdir_rollback 1 0 pdir
    else if negb (path_depth pathname =? path_depth (searched_path searched_record))
    then mkdir_rollback 1 0 pdir
    else
      let dirname := last_component (searched_path searched_record) in
      do inode_no <- inode_bitmap_alloc;
      if inode_no =? -1 then mkdir_rollback 1 0 pdir
      else
        let new_dir_inode := inode_init inode_no in
        do block_lba <- block_bitmap_alloc;
        if block_lba =? -1 then mkdir_rollback 2 inode_no pdir
        else
          let new_dir_inode := set_i_sectors (<[0%nat := u32 block_lba]> (i_sectors new_dir_inode)) new_dir_inode in
          do p <- gets cur_part;
          let block_bitmap_idx := u32 (block_lba - data_start_lba (sb p)) in
          ASSERT (negb (block_bitmap_idx =? 0)) ;;
          bitmap_sync block_bitmap_idx BLOCK_BITMAP ;;
          do d <- ld_dir pdir;
          do pi <- ld_inode (dir_inode d);
          ide_write (u32 block_lba) (splice (replicate 512 0) 0 (dot_entries inode_no (i_no pi))) 1 ;;
          let new_dir_inode := set_i_size (u32 (2 * dir_entry_size (sb p))) new_dir_inode in
          do new_dir_entry <- create_dir_entry dirname inode_no FT_DIRECTORY;
          do ok <- sync_dir_entry pdir new_dir_entry;
          if negb ok then mkdir_rollback 2 inode_no pdir
          else
            do pi <- ld_inode (dir_inode d);
            inode_sync pi 1024 ;;
            inode_sync new_dir_inode 1024 ;;
            bitmap_sync inode_no INODE_BITMAP ;;
            dir_close pdir ;;
            ret 0.

Definition sys_opendir (name : list Z) : M fsys Z :=
  ASSERT (Z.of_nat (length name) <? MAX_PATH_LEN) ;;
  let c0 := default 0 (name !! 0%nat) in
  do c1 <- (if c0 =? slash then ret (default 0 (name !! 1%nat)) else ret 1);
  if (c0 =? slash) && ((c1 =? 0) || (c0 =? 46)) then ret root_dir
  else
    do '(inode_no, searched_record) <- search_file name;
    do r <-
      (if inode_no =? -1 then ret NULL
       else if file_type searched_record =? FT_REGULAR then ret NULL
       else if file_type searched_record =? FT_DIRECTORY then dir_open (u32 inode_no)
       else ret NULL);
    dir_close (parent_dir searched_record) ;;
    ret r.

Definition sys_closedir (d : Z) : M fsys Z :=
  if negb (d =? NULL) then dir_close d ;; ret 0 else ret (-1).

Definition sys_readdir (d : Z) : M fsys Z :=
  ASSERT (negb (d =? NULL)) ;;
  dir_read d.

Definition sys_rewinddir (d : Z) : M fsys unit :=
  do v <- ld_dir d; st_dir d (Dir (dir_inode v) 0).

Definition sys_rmdir (pathname : list Z) : M fsys Z :=
  do '(inode_no, searched_record) <- search_file pathname;
  ASSERT (negb (inode_no =? 0)) ;;
  do retval <-
    (if inode_no =? -1 then ret (-1)
     else if file_type searched_record =? FT_REGULAR then ret (-1)
     else
       do d <- dir_open (u32 inode_no);
       do empty <- dir_is_empty d;
       do retval <-
         (if negb empty then ret (-1)
          else
            do r <- dir_remove spin (parent_dir searched_record) d;
            ret (if r =? 0 then 0 else -1));
       dir_close d ;;
       ret retval);
  dir_close (parent_dir searched_record) ;;
  ret retval.
End calls.

(** ** The working directory *)

Definition get_parent_dir_inode_nr (child_inode_nr : Z) : M fsys Z :=
  do a <- inode_open child_inode_nr;
  do i <- ld_inode a;
  do block_lba <- sector i 0;
  do p <- gets cur_part;
  ASSERT (data_start_lba (sb p) <=? block_lba) ;;
  inode_close a ;;
  do io_buf <- ide_read block_lba 1;
  do no <- entry_i_no io_buf 1;
  do ft <- entry_f_type io_buf 1;
  ASSERT ((no <? 4096) && (ft =? FT_DIRECTORY)) ;;
  ret no.

(** The entry of a sector with this inode number. *)
Definition child_in_sector (buf : list Z) (c_inode_nr dir_entrys_per_sec : Z) : M fsys (option Z) :=
  loop (S (Z.to_nat dir_entrys_per_sec)) (fun dir_e_idx =>
    if dir_e_idx <? dir_entrys_per_sec then
      do no <- entry_i_no buf dir_e_idx;
      if no =? u32 c_inode_nr then ret (inr (Some dir_e_idx)) else ret (inl (dir_e_idx + 1))
    else ret (inr None)) 0.

(** The path with the child's name appended; None is the return of -1. The
    path buffer has MAX_PATH_LEN bytes. *)
Definition get_child_dir_name (p_inode_nr c_inode_nr : Z) (path : list Z) : M fsys (option (list Z)) :=
  do a <- inode_open p_inode_nr;
  do i <- ld_inode a;
  let all_blocks := direct_blocks i in
  do t <- sector i 12;
  do '(all_blocks, block_cnt) <-
    (if negb (t =? 0) then do all_blocks <- read_table all_blocks t; ret (all_blocks, 140)
     else ret (all_blocks, 12));
  inode_close a ;;
  do dir_entrys_per_sec <- entrys_per_sec;
  loop 141 (fun block_idx =>
    if block_idx <? block_cnt then
      do lba <- of_option (all_blocks !! Z.to_nat block_idx);
      if negb (lba =? 0) then
        do io_buf <- ide_read lba 1;
        do r <- child_in_sector io_buf c_inode_nr dir_entrys_per_sec;
        match r with
        | Some idx =>
            do name <- of_option (c_string (entry_bytes io_buf idx));
            let path := path ++ [slash] ++ name in
            valid (Z.of_nat (length path) <? MAX_PATH_LEN) ;;
            ret (inr (Some path))
        | None => ret (inl (block_idx + 1))
        end
      else ret (inl (block_idx + 1))
    else ret (inr None)) 0.

(** The loop that puts the path in order: it takes the part from the first
    slash strchr finds, appends it to [buf], and cuts it off. *)
Fixpoint before_slash (l : list Z) : option (list Z * list Z) :=
  match l with
  | [] => None
  | c :: l' =>
      if c =? slash then Some ([], l)
      else match before_slash l' with Some (a, b) => Some (c :: a, b) | None => None end
  end.
Definition append_reversed (buf full_path_reverse : list Z) : M fsys (list Z) :=
  loop (S (length full_path_reverse)) (fun x =>
    let '(buf, full) := x in
    match before_slash full with
    | Some (head, last_slash) => ret (inl (buf ++ last_slash, head))
    | None => ret (inr buf)
    end) (buf, full_path_reverse).

(** The string stored in the caller's buffer of [size] bytes; None is NULL. *)
Definition sys_getcwd (size : Z) : M fsys (option (list Z)) :=
  do io_buf <- sys_malloc;
  if io_buf =? NULL then ret None
  else
    do child_inode_nr <- gets cwd_inode_nr;
    ASSERT ((0 <=? child_inode_nr) && (child_inode_nr <? 4096)) ;;
    if child_inode_nr =? 0 then ret (Some [slash])
    else
      do r <- loop 513 (fun x =>
        let '(child_inode_nr, full) := x in
        if negb (child_inode_nr =? 0) then
          do parent_inode_nr <- get_parent_dir_inode_nr child_inode_nr;
          do r <- get_child_dir_name parent_inode_nr child_inode_nr full;
          match r with
          | None => ret (inr None)
          | Some full => ret (inl (parent_inode_nr, full))
          end
        else ret (inr (Some full))) (child_inode_nr, []);
      match r with
      | None => ret None
      | Some full_path_reverse =>
          ASSERT (Z.of_nat (length full_path_reverse) <=? size) ;;
          do buf <- append_reversed [] full_path_reverse;
          ret (Some buf)
      end.

Definition sys_chdir (stack path : list Z) : M fsys Z :=
  do '(inode_no, searched_record) <- search_file stack path;
  do r <-
    (if negb (inode_no =? -1) then
       if file_type searched_record =? FT_DIRECTORY
       then modify (set_cwd inode_no) ;; ret 0
       else ret (-1)
     else ret (-1));
  dir_close (parent_dir searched_record) ;;
  ret r.

(** struct stat *)
Record stat := Stat { st_ino : Z; st_size : Z; st_filetype : Z }.

(** The value returned and what was stored in [buf]. *)
Definition sys_stat (stack path : list Z) (buf : stat) : M fsys (Z * stat) :=
  if is_root_path path then
    do d <- ld_dir root_dir;
    do i <- ld_inode (dir_inode d);
    ret (0, Stat 0 (i_size i) FT_DIRECTORY)
  else
    do '(inode_no, searched_record) <- search_file stack path;
    do r <-
      (if negb (inode_no =? -1) then
         do a <- inode_open (u32 inode_no);
         do i <- ld_inode a;
         inode_close a ;;
         ret (0, Stat (u32 inode_no) (i_size i) (file_type searched_record))
       else ret (-1, buf));
    dir_close (parent_dir searched_record) ;;
    ret r.
