(* ===== verification/PathSearch.v ===== *)
(** * Path search (fs/fs.c: search_file, against the directories on disk)

    What a path name leads to is defined on the disk alone: [walks] goes from a
    directory to the next by the first entry that has the name, as an inductive
    relation. search_file follows it, with one directory open at a time; the
    state it leaves is the one it found, but for that directory and for memory
    taken from the allocator. *)

From Stdlib Require Import ZArith Lia.
From stdpp Require Import base numbers list gmap option.
From S2P Require Import Prelude Bitmap Intr DList CString FsTypes Blocks Inode FileOps Dir Path Fs.

Local Open Scope Z_scope.

(** ** Directories on disk *)

Section search.
(** The state before the search, and the bytes of the inode table. *)
Context (s0 : fsys) (T : list Z).

Definition disk_inode (no : Z) : inode := dec_inode (slot T no).

(** [no] is the number of an inode on disk. *)
Definition inode_at (no : Z) : Prop := 0 <= no < 4096 /\ i_no (disk_inode no) = no.

(** The directory [no] lists the entries [es]. *)
Record dir_at (no : Z) (es : list (list Z)) : Prop := {
  da_inode : inode_at no;
  da_table : forall t, i_sectors (disk_inode no) !! 12%nat = Some t -> t <= max_lba;
  da_blocks : exists lbas, block_map (disk s0) (disk_inode no) = Some lbas /\ Forall (fun lba => lba <= max_lba) lbas /\
    listing (disk s0) lbas 21 = Some es;
  da_named : Forall named es
}.

(** Where a search ends: without an entry in the directory [dir]; at the file
    [no] of [dir]; at the directory [no], whose parent is [parent]. *)
Inductive outcome := Missing (dir : Z) | Regular (dir no : Z) | Directory (parent no : Z).

Definition entry_no (e : list Z) : Z := de_i_no (dec_dir_entry e).
Definition entry_type (e : list Z) : Z := f_type (dec_dir_entry e).

(** The names from the directory [no] on; [path] leads there, and the last path
    to where the search ends. *)
Inductive walks : Z -> Z -> list Z -> list (list Z) -> outcome -> list Z -> Prop :=
  | W_end parent no path : walks parent no path [] (Directory parent no) path
  | W_missing parent no path name names es : dir_at no es -> first_named name es = None ->
      walks parent no path (name :: names) (Missing no) (path ++ slash :: name)
  | W_regular parent no path name names es e : dir_at no es -> first_named name es = Some e -> entry_type e = FT_REGULAR ->
      walks parent no path (name :: names) (Regular no (entry_no e)) (path ++ slash :: name)
  | W_enter parent no path name names es e r found : dir_at no es -> first_named name es = Some e -> entry_type e = FT_DIRECTORY ->
      inode_at (entry_no e) -> walks no (entry_no e) (path ++ slash :: name) names r found ->
      walks parent no path (name :: names) r found.

(** What search_file reports. *)
Definition found_no (r : outcome) : Z := match r with Missing _ => -1 | Regular _ no | Directory _ no => s32 no end.
Definition found_type (r : outcome) : Z := match r with Missing _ => FT_UNKNOWN | Regular _ _ => FT_REGULAR | Directory _ _ => FT_DIRECTORY end.
Definition is_dir (r : outcome) : bool := match r with Directory _ _ => true | _ => false end.
Definition found_dir (r : outcome) : Z := match r with Missing dir | Regular dir _ | Directory dir _ => dir end.

(** ** The state during a search *)

(** Addresses that the allocator can return. *)
Definition unused (a : Z) : Prop := a <> NULL /\ inodes s0 !! a = None /\ dirs s0 !! a = None.
Definition fresh (h : list Z) : Prop := NoDup h /\ Forall unused h.

(** The root directory is open, the inodes in memory have the blocks that they
    have on disk, and the allocator gives new memory. *)
Record searchable : Prop := {
  sr_table : table_wf (cur_part s0) (disk s0) /\ table (cur_part s0) (disk s0) = Some T;
  sr_cache : cache_wf s0;
  sr_counts : forall a i, a ∈ open_inodes (cur_part s0) -> inodes s0 !! a = Some i -> i_open_cnts i < 2 ^ 32 - 2;
  sr_fresh : forall a i, a ∈ open_inodes (cur_part s0) -> inodes s0 !! a = Some i -> i_sectors i = i_sectors (disk_inode (i_no i));
  sr_root : exists v i, dirs s0 !! root_dir = Some v /\ dir_inode v ∈ open_inodes (cur_part s0) /\
    inodes s0 !! dir_inode v = Some i /\ i_no i = 0;
  sr_size : dir_entry_size (sb (cur_part s0)) = 24;
  sr_heap : fresh (heap s0)
}.

(** [s0] with the directory [no] open at [d], and [h] left of the heap. *)
Inductive holding (no d : Z) (h : list Z) : fsys -> Prop :=
  | H_root v i : d = root_dir -> dirs s0 !! root_dir = Some v -> dir_inode v ∈ open_inodes (cur_part s0) ->
      inodes s0 !! dir_inode v = Some i -> i_no i = no -> holding no d h (set_heap h s0)
  | H_cached x i : d <> root_dir -> dirs s0 !! d = None -> x ∈ open_inodes (cur_part s0) -> inodes s0 !! x = Some i -> i_no i = no ->
      holding no d h (set_dirs (<[d := Dir x 0]> (dirs s0)) (set_inodes (<[x := set_i_open_cnts (i_open_cnts i + 1) i]> (inodes s0)) (set_heap h s0)))
  | H_read x : d <> root_dir -> dirs s0 !! d = None -> inodes s0 !! x = None -> inode_at no -> not_open no s0 -> x ∉ h ->
      holding no d h (set_dirs (<[d := Dir x 0]> (dirs s0)) (opened x (disk_inode no) h s0)).

Lemma dir_open_run h0 a b c h no (Q : Z -> fsys -> Prop) : searchable -> inode_at no -> h0 = a :: b :: c :: h ->
  unused a -> unused b -> c <> NULL -> b ∉ h ->
  (forall h' s, h' = h \/ h' = b :: c :: h -> holding no a h' s -> Q a s) -> wp (dir_open no) Q (set_heap h0 s0).
Proof using.
  intros [[Htw HT] Hc _ _ (v & _ & Hroot & _) _ _] [Hno Hi] -> (Ha & _ & Had) (Hb & Hbi & _) Hcn Hbh HQ. unfold dir_open. wp_simp.
  eapply sys_malloc_run; [done|]. wp_simp. assert (Har : a <> root_dir) by congruence.
  apply (inode_open_run _ T no b c h); try done.
  - intros x i Hx Hxi Hxn. wp_simp. apply wp_valid. split; [by apply negb_true_iff, Z.eqb_neq|]. wp_simp.
    apply (HQ (b :: c :: h)); [by right|]. by apply (H_cached no a (b :: c :: h) x i).
  - intros Hn. wp_simp. apply wp_valid. split; [by apply negb_true_iff, Z.eqb_neq|]. wp_simp.
    apply (HQ h); [by left|]. by apply (H_read no a h b).
Qed.

Lemma dir_close_run no d h s (Q : unit -> fsys -> Prop) : searchable -> holding no d h s -> Q tt (set_heap h s0) -> wp (dir_close d) Q s.
Proof using.
  intros [_ Hc _ _ _ _ _] Hs HQ. unfold dir_close. destruct Hs as [v i -> _ _ _ _|x i Hd Hfd Hx Hxi Hn|x Hd Hfd Hx Hat Hno].
  - rewrite Z.eqb_refl. by wp_simp.
  - rewrite (proj2 (Z.eqb_neq d root_dir)) by done. pose proof (proj1 (proj2 Hc) x i Hx Hxi) as Hcnt. wp_simp.
    eapply wp_ld_dir; [apply lookup_insert_eq|]. cbn [dir_inode]. wp_simp.
    eapply inode_close_run; [apply lookup_insert_eq|cbn; lia|done| |cbn; lia]. intros _. wp_simp. cbn in *.
    rewrite delete_insert_id, insert_insert_eq by done. unfold set_i_open_cnts at 1 2. cbn. replace (i_open_cnts i + 1 - 1) with (i_open_cnts i) by lia.
    rewrite insert_id by (rewrite Hxi; by destruct i). exact HQ.
  - rewrite (proj2 (Z.eqb_neq d root_dir)) by done. wp_simp.
    eapply wp_ld_dir; [apply lookup_insert_eq|]. cbn [dir_inode]. wp_simp.
    eapply inode_close_run; [apply lookup_insert_eq|cbn; lia|by left|cbn; lia|]. intros _. wp_simp. destruct Hc as [Hok _].
    unfold opened. cbn -[filter list_filter]. rewrite filter_head by by apply not_cached. rewrite !delete_insert_id by done.
    replace (set_open_inodes _ _) with (cur_part s0); [exact HQ|by destruct (cur_part s0)].
Qed.

Lemma holding_heap no d h h' s : holding no d h s -> h' `suffix_of` h -> holding no d h' (set_heap h' s).
Proof using.
  intros [v i| x i|x] [l ->]; [by apply (H_root no d h' v i)|by apply (H_cached no d h' x i)|].
  apply (H_read no d h' x); try done. intros Hx. match goal with H : x ∉ _ |- _ => apply H end. apply elem_of_app. by right.
Qed.

Lemma holding_same no d h s : holding no d h s ->
  heap s = h /\ disk s = disk s0 /\ sb (cur_part s) = sb (cur_part s0) /\ set_heap h s = s.
Proof using. by intros []. Qed.

(** The directory that is open. *)
Lemma holding_dir no d h s : searchable -> holding no d h s ->
  exists v i, dirs s !! d = Some v /\ inodes s !! dir_inode v = Some i /\ i_no i = no /\ i_sectors i = i_sectors (disk_inode no).
Proof using.
  intros [_ _ _ Hf _ _ _] [v i -> Hv Hx Hi Hn|x i _ _ Hx Hi Hn|x _ _ _ [_ Hat] _].
  - exists v, i. split; [done|]. split; [done|]. split; [done|]. subst no. by eapply Hf.
  - eexists _, _. split; [apply lookup_insert_eq|]. split; [apply lookup_insert_eq|]. split; [done|]. subst no. cbn. by eapply Hf.
  - eexists _, _. split; [apply lookup_insert_eq|]. split; [apply lookup_insert_eq|]. by split.
Qed.

Lemma disk_inode_length no : length (i_sectors (disk_inode no)) = 13%nat.
Proof using. apply rd32s_length. Qed.

Lemma block_map_sectors d i j : i_sectors i = i_sectors j -> block_map d i = block_map d j.
Proof using. intros E. unfold block_map, direct_blocks. by rewrite E. Qed.

(** The inodes in memory are still in order. *)
Lemma holding_cache no d h s : searchable -> holding no d h s -> cache_wf s.
Proof using.
  intros Hs Hd. pose proof (sr_cache Hs) as Hc. pose proof Hc as ((Hnd & Hdom) & Hcnt & Huniq). pose proof (sr_counts Hs) as Hmax.
  destruct Hd as [v i _ _ _ _ _|x i _ _ Hx Hi Hn|x _ _ Hx [_ Hat] Hno]; [done| |].
  - split; [split; [done|]|split]; cbn.
    + intros a Ha. destruct (decide (a = x)) as [->|Hne]; [by rewrite lookup_insert_eq|]. rewrite lookup_insert_ne by done. by apply Hdom.
    + intros a j Ha. rewrite lookup_insert_Some. intros [[<- <-]|[_ Hj]]; [|by eapply Hcnt]. cbn. specialize (Hcnt _ _ Hx Hi). specialize (Hmax _ _ Hx Hi). lia.
    + intros a b j k Ha Hb. rewrite !lookup_insert_Some. intros [[<- <-]|[Hna Hj]] [[<- <-]|[Hnb Hk]] E; [done|cbn in E..|]; by eapply Huniq.
  - assert (Hxo : x ∉ open_inodes (cur_part s0)) by (by eapply not_cached; [split|]). split; [split|split]; cbn.
    + by apply list.NoDup_cons.
    + intros a [->|Ha]%elem_of_cons; [by rewrite lookup_insert_eq|]. rewrite lookup_insert_ne by (by intros ->). by apply Hdom.
    + intros a j [->|Ha]%elem_of_cons; [rewrite lookup_insert_eq; intros [= <-]; cbn; lia|]. rewrite lookup_insert_ne by (by intros ->). by apply Hcnt.
    + intros a b j k [->|Ha]%elem_of_cons [->|Hb]%elem_of_cons; rewrite ?lookup_insert_eq, ?lookup_insert_ne by (by intros ->); [done|..].
      * intros [= <-] Hk E. change (i_no (disk_inode no) = i_no k) in E. exfalso. apply (Hno b k Hb Hk). congruence.
      * intros Hj [= <-] E. change (i_no j = i_no (disk_inode no)) in E. exfalso. apply (Hno a j Ha Hj). congruence.
      * by apply Huniq.
Qed.

(** search_dir_entry in it. *)
Lemma search_held no d es name a b h s (Q : option (list Z) -> fsys -> Prop) : searchable -> holding no d (a :: b :: h) s -> dir_at no es ->
  Forall (fun c => 0 < c < 256) name -> a <> NULL -> b <> NULL ->
  (forall s', holding no d h s' -> Q (take 24 <$> first_named name es) s') -> wp (search_dir_entry d (name ++ [0])) Q s.
Proof using.
  intros Hs Hd [Hat Ht (lbas & Hm & Hl & Hes) Hn] Hname Ha Hb HQ. destruct (holding_dir no d _ s Hs Hd) as (v & i & Hv & Hi & _ & Hsec).
  destruct (holding_same no d _ s Hd) as (Hheap & Hdisk & Hsb & _).
  eapply (search_dir_entry_run s d name i lbas es a b h); try done.
  - split.
    + by exists v.
    + rewrite Hsec. apply disk_inode_length.
    + rewrite Hdisk, (block_map_sectors _ i (disk_inode no)); done.
    + by rewrite Hsec.
    + done.
    + rewrite Hsb. apply (sr_size Hs).
  - by rewrite Hdisk.
  - apply HQ. eapply holding_heap; [exact Hd|by exists [a; b]].
Qed.

(** An entry has its 24 bytes. *)
Lemma listing_entries d lbas es e : disk_wf d -> listing d lbas 21 = Some es -> e ∈ es -> (24 <= length e)%nat.
Proof using.
  intros Hd. revert es. induction lbas as [|lba lbas IH]; intros es Hes He.
  { injection Hes as <-. by apply not_elem_of_nil in He. }
  destruct (Z.eqb_spec lba 0) as [->|Hne]; [by apply (IH es)|].
  destruct (listing_cons _ _ _ _ _ Hne Hes) as (buf & l & Hb & Hl & ->). apply elem_of_app in He as [He|He]; [|by apply (IH l)].
  unfold sector_entries in He. apply list_elem_of_fmap in He as (k & -> & Hk). apply elem_of_seqZ in Hk. specialize (Hd _ _ Hb). cbn in Hd.
  unfold entry_bytes. rewrite length_drop, Hd. lia.
Qed.

Lemma first_named_in name es e : first_named name es = Some e -> e ∈ es.
Proof using.
  induction es as [|x es IH]; [done|]. cbn. destruct (bool_decide _); [|by right; apply IH]. intros [= ->]. by left.
Qed.

Lemma dir_at_entry no es name e : searchable -> dir_at no es -> first_named name es = Some e -> length (take 24 e) = 24%nat.
Proof using.
  intros [[Htw _] _ _ _ _ _ _] [_ _ (lbas & _ & _ & Hes) _] He. rewrite length_take.
  pose proof (listing_entries _ _ _ e (tw_disk _ _ Htw) Hes (first_named_in _ _ _ He)). lia.
Qed.

Lemma dec_dir_entry_take e : (24 <= length e)%nat -> dec_dir_entry (take 24 e) = dec_dir_entry e.
Proof using. intros _. unfold dec_dir_entry. rewrite !rd32_take by lia. by rewrite take_take. Qed.

(** ** The names that are left *)

Definition names_of (name : list Z) (sub_path : option (list Z)) : list (list Z) :=
  match name with [] => [] | _ => name :: match sub_path with Some p => components p | None => [] end end.

(** The path that goes through the names. *)
Definition join (names : list (list Z)) : list Z := concat (cons slash <$> names).

Definition good_name (name : list Z) : Prop := (length name < 16)%nat /\ Forall (fun c => 0 < c < 256) name.

Lemma parse_name_run p s (Q : list Z * option (list Z) -> fsys -> Prop) :
  Forall good_name (components p) -> (forall name sub, names_of name sub = components p -> Q (name, sub) s) -> wp (parse_name p) Q s.
Proof using.
  intros Hg HQ. unfold parse_name. rewrite components_parse in Hg.
  assert (Hl : (length (first_name (drop_slashes p)) <= 16)%nat).
  { destruct (first_name (drop_slashes p)); [cbn; lia|]. apply list.Forall_cons in Hg as [[? _] _]. lia. }
  wp_simp. apply wp_valid. split; [unfold MAX_FILE_NAME_LEN; lia|]. wp_simp. apply HQ. rewrite components_parse. unfold names_of.
  destruct (first_name (drop_slashes p)); [done|]. by destruct (after_name (drop_slashes p)).
Qed.

Lemma next_name sub s (Q : list Z * option (list Z) -> fsys -> Prop) (rest := match sub with Some p => components p | None => [] end) :
  Forall good_name rest -> (forall name sub', names_of name sub' = rest -> Q (name, sub') s) ->
  wp (match sub with Some p => parse_name p | None => ret ([], None) end) Q s.
Proof using. intros Hg HQ. destruct sub as [p|]; [by apply parse_name_run|]. wp_simp. by apply HQ. Qed.

(** ** One level *)

(** [h'] is left of [h] after at most [n] allocations. *)
Definition left_of (h : list Z) (n : nat) (h' : list Z) : Prop := h' `suffix_of` h /\ (length h <= length h' + n)%nat.

Lemma left_of_trans h n h' m h'' : left_of h n h' -> left_of h' m h'' -> left_of h (n + m) h''.
Proof using. intros [H1 L1] [H2 L2]. split; [by etrans|lia]. Qed.

Lemma left_of_le h n m h' : left_of h n h' -> (n <= m)%nat -> left_of h m h'.
Proof using. intros [H1 L1] Hn. split; [done|lia]. Qed.

Lemma left_of_fresh h n h' : left_of h n h' -> fresh h -> fresh h'.
Proof using. intros [[k ->] _] [Hn Hu]. apply list.NoDup_app in Hn as (_ & _ & Hn). by apply list.Forall_app in Hu as [_ Hu]. Qed.

Lemma fresh_cons a h : fresh (a :: h) -> unused a /\ a ∉ h /\ fresh h.
Proof using. intros [[Ha Hn]%list.NoDup_cons [Hu Hh]%list.Forall_cons]. done. Qed.

Lemma left_of_drop k h : left_of (k ++ h) (length k) h.
Proof using. split; [by exists k|rewrite length_app; lia]. Qed.

(** dir_close and dir_open of the next. *)
Lemma dir_change_run {A} d no h0 s next n (k : Z -> M fsys A) (Q : A -> fsys -> Prop) : searchable -> holding no d h0 s -> inode_at next ->
  fresh h0 -> (3 <= length h0)%nat -> (3 <= n)%nat ->
  (forall d' h' s', left_of h0 n h' -> d' <> root_dir -> holding next d' h' s' -> wp (k d') Q s') -> wp (dir_close d ;; do nd <- dir_open next; k nd) Q s.
Proof using.
  intros Hs Hd Hn Hh Hl Hn3 HQ. wp_simp. eapply dir_close_run; [exact Hs|exact Hd|].
  destruct h0 as [|a [|b [|c h]]]; [cbn in Hl; lia..|].
  pose proof Hh as Hh'. apply fresh_cons in Hh' as (Ha & _ & Hh'). apply fresh_cons in Hh' as (Hb & Hbn & Hh'). apply fresh_cons in Hh' as ([Hc _] & _).
  apply not_elem_of_cons in Hbn as [_ Hbn]. wp_simp. eapply (dir_open_run _ a b c h next); try done. intros h' s' Hh2 Hd'. apply (HQ a h'); [| |done].
  - destruct Hh2 as [->| ->]; [split; [by exists [a; b; c]|cbn; lia]|split; [by exists [a]|cbn; lia]].
  - destruct (sr_root Hs) as (v & i & Hr & _). destruct Ha as (_ & _ & Ha). congruence.
Qed.

Lemma search_step_run parent no path name rest sub d h0 s es dir_e (Q : search_locals + (Z * path_search_record) -> fsys -> Prop)
    (path' := path ++ slash :: name) :
  searchable -> holding no d h0 s -> dir_at no es -> names_of name sub = name :: rest -> good_name name -> Forall good_name rest ->
  (length path' < 512)%nat -> length dir_e = 24%nat -> fresh h0 -> (5 <= length h0)%nat ->
  (first_named name es = None -> forall h' s', left_of h0 5 h' -> holding no d h' s' -> Q (inr (-1, SearchRecord path' d FT_UNKNOWN)) s') ->
  (forall e h' s', first_named name es = Some e -> entry_type e = FT_REGULAR -> left_of h0 5 h' -> holding no d h' s' ->
     Q (inr (s32 (entry_no e), SearchRecord path' d FT_REGULAR)) s') ->
  (forall e, first_named name es = Some e -> entry_type e = FT_DIRECTORY -> inode_at (entry_no e) /\
     forall name' sub' d' h' s', names_of name' sub' = rest -> left_of h0 5 h' -> holding (entry_no e) d' h' s' ->
       Q (inl (SearchLocals name' sub' (SearchRecord path' d' FT_UNKNOWN) (take 24 e) d' no)) s') ->
  (forall e, first_named name es = Some e -> entry_type e = FT_REGULAR \/ entry_type e = FT_DIRECTORY) ->
  wp (search_step (SearchLocals name sub (SearchRecord path d FT_UNKNOWN) dir_e d parent)) Q s.
Proof using.
  intros Hs Hd Hat Hnm [Hlen Hch] Hrest Hp Hde Hh Hl Hmiss Hreg Hdir Hty. destruct name as [|c0 nm]; [done|].
  destruct h0 as [|a [|b h]]; [cbn in Hl; lia..|]. pose proof Hh as Hh'. apply fresh_cons in Hh' as ([Ha _] & _ & Hh').
  apply fresh_cons in Hh' as ([Hb _] & _ & Hh'). assert (Hpl : (length path' = length path + S (length (c0 :: nm)))%nat) by (unfold path'; by rewrite length_app).
  unfold search_step. cbn [sl_name sl_sub_path sl_record sl_dir_e sl_parent_dir sl_parent_inode_no searched_path parent_dir file_type].
  wp_simp. apply wp_ASSERT. split; [lia|]. wp_simp. apply wp_valid. split; [unfold MAX_FILE_NAME_LEN; lia|]. wp_simp.
  change (path ++ [slash] ++ c0 :: nm) with path'. apply wp_valid. split; [unfold MAX_PATH_LEN; lia|]. wp_simp.
  eapply (search_held no d es); [done|exact Hd|done|done|done|done|]. intros s1 Hd1.
  destruct (first_named (c0 :: nm) es) as [e|] eqn:He; cbn [fmap option_fmap option_map]; wp_simp.
  - pose proof (dir_at_entry no es _ e Hs Hat He) as Hel. apply wp_valid. split; [unfold sizeof_dir_entry; lia|].
    wp_simp. apply next_name; [by injection Hnm as ->|]. intros name' sub' Hn'.
    assert (Esp : splice dir_e 0 (take 24 e) = take 24 e) by (unfold splice; rewrite take_0, Hel, (drop_ge dir_e) by lia; by rewrite app_nil_r).
    rewrite Esp, dec_dir_entry_take by (rewrite length_take in Hel; lia). destruct (Hty e eq_refl) as [Ht|Ht]; pose proof Ht as Ht'; unfold entry_type in Ht'; rewrite Ht'.
    + rewrite (proj2 (Z.eqb_neq FT_DIRECTORY FT_REGULAR)), Z.eqb_refl by done. wp_simp. eapply Hreg; [done|done| |done]. split; [by exists [a; b]|cbn; lia].
    + rewrite Z.eqb_refl. destruct (Hdir e eq_refl Ht) as [Hin HQ]. destruct (holding_dir no d _ s1 Hs Hd1) as (v & i & Hv & Hi & Hino & _).
      wp_simp. eapply wp_ld_dir; [exact Hv|]. wp_simp. eapply wp_ld_inode; [exact Hi|]. rewrite Hino.
      apply (dir_change_run d no h s1 _ 3); [done|done|done|done|cbn in Hl; lia|lia|]. intros d' h' s' Hlo _ Hd'. wp_simp. eapply HQ; [injection Hnm as <-; exact Hn'| |done].
      by apply (left_of_trans _ 2 h 3); [apply (left_of_drop [a; b])|].
  - eapply Hmiss; [done| |done]. split; [by exists [a; b]|cbn; lia].
Qed.

Lemma names_of_nil name sub : names_of name sub = [] -> name = [].
Proof using. by destruct name. Qed.

(** The loop of search_file, from the directory [no] on. *)
Lemma search_loop_run parent no path names r found : searchable -> walks parent no path names r found ->
  forall name sub fuel d h0 s dir_e (Q : Z * path_search_record -> fsys -> Prop),
  holding no d h0 s -> inode_at parent -> inode_at no -> names_of name sub = names -> (length names < fuel)%nat -> Forall good_name names ->
  (length path + length (join names) < 512)%nat -> length dir_e = 24%nat -> (names = [] -> entry_no dir_e = no) ->
  fresh h0 -> (5 * length names + 3 <= length h0)%nat ->
  (forall d' h' s', left_of h0 (5 * length names + 3) h' -> holding (found_dir r) d' h' s' ->
     (is_dir r = false -> (length names <= 1)%nat -> d' = d) -> Q (found_no r, SearchRecord found d' (found_type r)) s') ->
  wp (loop fuel search_step (SearchLocals name sub (SearchRecord path d FT_UNKNOWN) dir_e d parent)) Q s.
Proof using.
  intros Hs Hw. induction Hw as [parent no path|parent no path name names es Hat He|parent no path name names es e Hat He Ht|
    parent no path name names es e r found Hat He Ht Hin Hw IH];
    intros nm sub fuel d h0 s dir_e Q Hd Hpa Hino Hn Hf Hg Hp Hde Hlast Hh Hl HQ; (destruct fuel as [|fuel]; [lia|]); rewrite loop_S, wp_bind.
  { rewrite (names_of_nil _ _ Hn). unfold search_step. cbn [sl_name sl_record sl_parent_inode_no sl_dir_e parent_dir searched_path].
    eapply (dir_change_run d no h0 s parent 3); [done..| ]. intros d' h' s' Hlo _ Hd'. wp_simp. fold (entry_no dir_e). rewrite Hlast by done. by apply (HQ d' h'). }
  all: apply list.Forall_cons in Hg as [Hg1 Hg2]; cbn [length] in *; assert (Hj : length (join (name :: names)) = (S (length name) + length (join names))%nat)
    by (unfold join; cbn; by rewrite length_app); rewrite Hj in Hp.
  all: assert (Hnm : nm = name) by (destruct nm; [done|]; by injection Hn); subst nm.
  all: eapply (search_step_run parent no path name names sub d h0 s es dir_e); try done; try lia; [rewrite length_app; cbn; lia|..]; rewrite He; try done.
  - intros _ h' s' Hlo Hd'. wp_simp. apply (HQ d h'); [|done|done]. by apply (left_of_le _ 5); [|lia].
  - intros e0 h' s' [= <-] _ Hlo Hd'. wp_simp. apply (HQ d h'); [|done|done]. by apply (left_of_le _ 5); [|lia].
  - intros e0 [= <-] Ht2. by rewrite Ht in Ht2.
  - intros e0 [= <-]. by left.
  - intros e0 h' s' [= <-] Ht2. by rewrite Ht in Ht2.
  - intros e0 [= <-] _. split; [done|]. intros name' sub' d' h' s' Hn' Hlo Hd'. pose proof Hlo as [_ Hlen].
    eapply (IH _ _ _ d' h'); try done.
    + lia.
    + rewrite length_app. cbn. lia.
    + by apply (dir_at_entry no es name).
    + intros _. unfold entry_no. rewrite dec_dir_entry_take; [done|]. pose proof (dir_at_entry no es name e Hs Hat He) as Hel. rewrite length_take in Hel. lia.
    + by eapply left_of_fresh.
    + lia.
    + intros d2 h2 s2 Hlo2 Hd2 _. apply (HQ d2 h2); [|done|]; cycle 1.
      { intros Hr H1. destruct names; [|cbn in H1; lia]. by inversion Hw; subst r. }
      apply (left_of_le _ (5 + (5 * length names + 3))); [|lia]. by eapply left_of_trans.
  - intros e0 [= <-]. by right.
Qed.

(** ** The whole search *)

Lemma components_acc_join cur p :
  (length (join (components_acc cur p)) <= 1 + length cur + length p)%nat.
Proof using.
  revert cur. induction p as [|c p IH]; intros cur; cbn [components_acc].
  { destruct cur; unfold join; cbn; [lia|rewrite app_nil_r; lia]. }
  destruct (c =? slash).
  - pose proof (IH []) as H. destruct cur as [|x cur]; [cbn [length] in *; lia|]. unfold join in *. rewrite fmap_cons. cbn [concat]. rewrite length_app. cbn [length] in *. lia.
  - pose proof (IH (cur ++ [c])) as H. rewrite length_app in H. destruct cur; cbn [length app] in *; lia.
Qed.

Lemma join_short p : p !! 0%nat = Some slash -> (length (join (components p)) <= length p)%nat.
Proof using.
  intros Hp. destruct p as [|c p]; [done|]. injection Hp as ->. pose proof (components_acc_join [] p) as H. cbn [length] in *. change (components (slash :: p)) with (components_acc [] p). lia.
Qed.

(** A path that search_file takes apart: absolute, not a name of the root
    itself, with names of at most 15 characters. *)
Record good_path (pathname : list Z) : Prop := {
  gp_slash : pathname !! 0%nat = Some slash;
  gp_len : (1 < length pathname < 512)%nat;
  gp_root : is_root_path pathname = false;
  gp_some : components pathname <> [];
  gp_names : Forall good_name (components pathname)
}.

Lemma search_file_run stack pathname r found (Q : Z * path_search_record -> fsys -> Prop) :
  searchable -> good_path pathname -> walks 0 0 [] (components pathname) r found -> length stack = 24%nat ->
  (5 * length (components pathname) + 3 <= length (heap s0))%nat ->
  (forall d h s', left_of (heap s0) (5 * length (components pathname) + 3) h -> holding (found_dir r) d h s' ->
     (is_dir r = false -> (length (components pathname) <= 1)%nat -> d = root_dir) -> Q (found_no r, SearchRecord found d (found_type r)) s') ->
  wp (search_file stack pathname) Q s0.
Proof using.
  intros Hs [G1 G2 G3 G4 G5] Hw Hst Hl HQ. unfold search_file. rewrite G3. wp_simp. apply wp_ASSERT. split.
  { rewrite bool_decide_eq_true_2 by done. unfold MAX_PATH_LEN. lia. }
  wp_simp. apply parse_name_run; [done|]. intros name sub Hn.
  assert (H0 : inode_at 0) by (destruct (components pathname); [done|]; inversion Hw; by match goal with H : dir_at 0 _ |- _ => destruct H end).
  pose proof (sr_root Hs) as (v & i & Hv & Hx & Hi & Hno).
  assert (Hd : holding 0 root_dir (heap s0) s0).
  { replace s0 with (set_heap (heap s0) s0) at 2 by by destruct s0. by apply (H_root 0 root_dir (heap s0) v i). }
  eapply (search_loop_run 0 0 [] _ r found Hs Hw name sub _ root_dir (heap s0)); try done.
  - pose proof (components_length pathname). lia.
  - pose proof (join_short pathname G1). cbn. lia.
  - apply (sr_heap Hs).
Qed.
End search.

(** [C17] search_file follows the path on disk. Whatever the path name, absolute
    and other than the root's, leads to by the entries of the directories, that
    is what search_file reports: the number of the file or directory found, or
    -1, its kind, and the path as far as the search went. One directory is open
    then, the one that contains what was found; all other inodes, directories
    and files in memory, and the disk, are as they were. *)
Theorem search_file_walks s T stack pathname r found :
  searchable s T -> good_path pathname -> walks s T 0 0 [] (components pathname) r found -> length stack = 24%nat ->
  (5 * length (components pathname) + 3 <= length (heap s))%nat ->
  exists d h s', search_file stack pathname s = Ok (found_no r, SearchRecord found d (found_type r), s') /\
    holding s T (found_dir r) d h s' /\ h `suffix_of` heap s.
Proof.
  intros Hs Hp Hw Hst Hl.
  assert (H : wp (search_file stack pathname) (fun x s' => exists d h, x = (found_no r, SearchRecord found d (found_type r)) /\
    holding s T (found_dir r) d h s' /\ h `suffix_of` heap s) s).
  { eapply search_file_run; [exact Hs|done|exact Hw|done|done|]. intros d h s' [Hh _] Hd _. by exists d, h. }
  apply wp_Ok in H as (x & s' & E & d & h & -> & Hd & Hh). by exists d, h, s'.
Qed.

(** *** Witness: /../file1 on the demonstration partition *)

#[local] Instance is_byte_dec c : Decision (is_byte c).
Proof. unfold is_byte. apply _. Defined.
#[local] Instance named_dec e : Decision (named e).
Proof. unfold named. apply _. Defined.

Definition path_heap : list Z := (fun k => 0xc0300000 + 0x400 * k) <$> seqZ 0 16.
Definition path_fs : fsys :=
  Fsys demo_disk (set_open_inodes [0xc0280000] demo_part) {[0xc0280000 := set_i_open_cnts 1 demo_root_inode]} {[root_dir := Dir 0xc0280000 0]}
    (replicate 32 (File 0 0 0)) [0; 1; 2; -1; -1; -1; -1; -1] 0 (Cpu EFLAGS_IF [] []) path_heap.
Definition path_name : list Z := [slash; 46; 46; slash; 102; 105; 108; 101; 49].

Lemma path_root_inode : disk_inode demo_table 0 = demo_root_inode.
Proof. vm_compute. reflexivity. Qed.

Lemma path_unused a : a ∈ path_heap -> unused path_fs a.
Proof.
  intros Ha. apply list_elem_of_fmap in Ha as (k & -> & Hk). apply elem_of_seqZ in Hk. unfold unused, NULL, path_fs. cbn [inodes dirs].
  rewrite !lookup_singleton_ne by (unfold root_dir; lia). split; [lia|done].
Qed.

Lemma path_searchable : searchable path_fs demo_table.
Proof.
  assert (Hc : forall a i, a ∈ [0xc0280000] -> ({[0xc0280000 := set_i_open_cnts 1 demo_root_inode]} : gmap Z inode) !! a = Some i ->
    i = set_i_open_cnts 1 demo_root_inode).
  { intros a i ->%list_elem_of_singleton. rewrite lookup_singleton_eq. congruence. }
  split.
  - destruct demo_table_wf. split; [by split|exact demo_table_eq].
  - split; [split; [apply NoDup_singleton|]|split].
    + intros a ->%list_elem_of_singleton. by eexists.
    + intros a i Ha Hi. rewrite (Hc a i Ha Hi). cbn. lia.
    + by intros a b i j ->%list_elem_of_singleton ->%list_elem_of_singleton.
  - intros a i Ha Hi. rewrite (Hc a i Ha Hi). cbn. lia.
  - intros a i Ha Hi. rewrite (Hc a i Ha Hi). by rewrite <- path_root_inode.
  - exists (Dir 0xc0280000 0), (set_i_open_cnts 1 demo_root_inode). split; [done|]. split; [by left|]. by split.
  - done.
  - split; [apply (bool_decide_unpack _); vm_compute; exact I|]. apply list.Forall_forall. exact path_unused.
Qed.

Lemma path_root_at : dir_at path_fs demo_table 0 (sector_entries demo_root 21).
Proof.
  split.
  - split; [lia|]. by rewrite path_root_inode.
  - rewrite path_root_inode. intros t [= <-]. done.
  - exists (direct_blocks demo_root_inode). rewrite path_root_inode. split; [done|]. split; [apply (bool_decide_unpack _); vm_compute; exact I|].
    vm_compute. reflexivity.
  - apply (bool_decide_unpack _). vm_compute. exact I.
Qed.

Lemma path_walks : walks path_fs demo_table 0 0 [] (components path_name) (Regular 0 6) path_name.
Proof.
  change (components path_name) with [[46; 46]; [102; 105; 108; 101; 49]].
  set (e := entry_bytes demo_root 1). eapply (W_enter _ _ 0 0 [] [46; 46] _ _ e); [exact path_root_at|vm_compute; reflexivity|vm_compute; reflexivity| |].
  - apply path_root_at.
  - change (Regular 0 6) with (Regular 0 (entry_no (entry_bytes demo_root 2))).
    apply (W_regular _ _ 0 0 [slash; 46; 46] [102; 105; 108; 101; 49] [] _ (entry_bytes demo_root 2) path_root_at); vm_compute; reflexivity.
Qed.

Lemma search_file_walks_witness :
  exists d h s', search_file (replicate 24 0) path_name path_fs = Ok (6, SearchRecord path_name d FT_REGULAR, s') /\
    holding path_fs demo_table 0 d h s' /\ h `suffix_of` path_heap.
Proof.
  apply (search_file_walks path_fs demo_table (replicate 24 0) path_name (Regular 0 6) path_name path_searchable).
  - split; [done|cbn; lia|reflexivity|done|]. repeat constructor; cbn; lia.
  - exact path_walks.
  - reflexivity.
  - apply Nat.leb_le. vm_compute. reflexivity.
Defined.
