(* ===== verification/OpenClose.v ===== *)
(** * Opening and closing a file (fs/fs.c: sys_open, sys_close)

    sys_open of a file that exists and sys_close, through the search of the
    path, the inode cache, the table of open files and the descriptors. *)

From Stdlib Require Import ZArith Lia.
From stdpp Require Import base numbers list gmap option.
From S2P Require Import Prelude Bitmap Intr DList CString FsTypes Blocks Inode FileOps Dir Path Fs PathSearch.

Local Open Scope Z_scope.

(** ** Free places in the two tables *)

(** [k] is the first place of the table of open files that is not in use. *)
Record free_file (s : fsys) (k : Z) : Prop := {
  ff_range : 3 <= k < 32;
  ff_free : exists f, file_table s !! Z.to_nat k = Some f /\ fd_inode f = NULL;
  ff_used : forall j, 3 <= j < k -> exists f, file_table s !! Z.to_nat j = Some f /\ fd_inode f <> NULL
}.

Record free_fd (s : fsys) (l : Z) : Prop := {
  fl_range : 3 <= l < 8;
  fl_free : fd_table s !! Z.to_nat l = Some (-1);
  fl_used : forall j, 3 <= j < l -> exists g, fd_table s !! Z.to_nat j = Some g /\ g <> -1
}.

Lemma free_slot_run s k (Q : Z -> fsys -> Prop) : free_file s k -> Q k s -> wp get_free_slot_in_global Q s.
Proof.
  intros [Hr (f & Hf & Hn) Hu] HQ. unfold get_free_slot_in_global. wp_simp.
  apply (wp_loop (fun x s' => s' = s /\ 3 <= x <= k) (fun x _ => Z.to_nat (k - x))); [|split; [done|lia]|lia].
  intros x s' [-> Hx]. unfold MAX_FILE_OPEN. rewrite (proj2 (Z.ltb_lt x 32)) by lia. wp_simp. destruct (decide (x = k)) as [->|Hne].
  - eapply wp_ld_file; [exact Hf|]. rewrite Hn. cbn [Z.eqb NULL]. wp_simp. rewrite (proj2 (Z.eqb_neq k 32)) by lia. by wp_simp.
  - destruct (Hu x) as (g & Hg & Hgn); [lia|]. eapply wp_ld_file; [exact Hg|]. rewrite (proj2 (Z.eqb_neq _ NULL)) by done. wp_simp.
    split; [split; [done|lia]|lia].
Qed.

Lemma fd_install_run s l k (Q : Z -> fsys -> Prop) :
  free_fd s l -> Q l (set_fd_table (<[Z.to_nat l := k]> (fd_table s)) s) -> wp (pcb_fd_install k) Q s.
Proof.
  intros [Hr Hf Hu] HQ. unfold pcb_fd_install. wp_simp.
  apply (wp_loop (fun x s' => s' = s /\ 3 <= x <= l) (fun x _ => Z.to_nat (l - x))); [|split; [done|lia]|lia].
  intros x s' [-> Hx]. unfold MAX_FILES_OPEN_PER_PROC. rewrite (proj2 (Z.ltb_lt x 8)) by lia. wp_simp. destruct (decide (x = l)) as [->|Hne].
  - wp_load Hf. cbn [Z.eqb Pos.eqb]. wp_simp. rewrite (proj2 (Z.eqb_neq l 8)) by lia. by wp_simp.
  - destruct (Hu x) as (g & Hg & Hgn); [lia|]. wp_load Hg. rewrite (proj2 (Z.eqb_neq _ _)) by done. wp_simp. split; [split; [done|lia]|lia].
Qed.

(** ** file_open *)

(** [s] with the inode [i] at [x] open once more, at the place [k] of the table
    of open files and under the descriptor [l]. *)
Definition as_open (s : fsys) (k l flag x : Z) (i : inode) : fsys :=
  let i' := if writable flag then set_write_deny 1 i else i in
  set_fd_table (<[Z.to_nat l := k]> (fd_table s)) (set_inodes (<[x := i']> (inodes s))
    (set_file_table (<[Z.to_nat k := File 0 flag x]> (file_table s)) s)).

(** What file_open of the inode [no] leaves: the inode was in memory, or it has
    been read from the table [T]. *)
Inductive file_opened (s : fsys) (T : list Z) (no k l flag : Z) (x : Z) : inode -> fsys -> Prop :=
  | O_cached i : x ∈ open_inodes (cur_part s) -> inodes s !! x = Some i -> i_no i = no ->
      file_opened s T no k l flag x (set_i_open_cnts (i_open_cnts i + 1) i) (as_open s k l flag x (set_i_open_cnts (i_open_cnts i + 1) i))
  | O_read b h i : heap s = x :: b :: h -> not_open no s -> i = set_i_open_cnts 1 (dec_inode (slot T no)) ->
      file_opened s T no k l flag x i (as_open (opened x (dec_inode (slot T no)) h s) k l flag x i).


(** From the inode in memory on. *)
Lemma install_run s k l flag x i (Q : Z -> fsys -> Prop) (f : file) : file_table s !! Z.to_nat k = Some f -> free_fd s l ->
  inodes s !! x = Some i -> write_deny i = 0 -> Q l (as_open s k l flag x i) ->
  wp (st_file k (File 0 flag x) ;;
      if writable flag then
        do old_status <- on_cpu intr_disable;
        do i <- ld_inode x;
        if write_deny i =? 0 then
          st_inode x (set_write_deny 1 i) ;;
          on_cpu (intr_set_status old_status) ;;
          pcb_fd_install k
        else
          on_cpu (intr_set_status old_status) ;;
          ret (-1)
      else pcb_fd_install k) Q s.
Proof.
  intros Hf Hl Hx Hd HQ. wp_simp. eapply wp_st_file; [exact Hf|]. unfold as_open in HQ. destruct Hl as [L1 L2 L3].
  destruct (writable flag); wp_simp.
  - apply wp_fs_intr_disable. wp_simp. eapply wp_ld_inode; [exact Hx|]. rewrite Hd, Z.eqb_refl. wp_simp. eapply wp_st_inode; [exact Hx|]. wp_simp.
    apply wp_fs_intr_restore; [done|]. wp_simp. apply (fd_install_run _ l); [by split|]. by destruct s.
  - apply (fd_install_run _ l); [by split|]. rewrite insert_id in HQ by done. by destruct s.
Qed.

Lemma file_open_run s T no k l flag a b h (Q : Z -> fsys -> Prop) :
  table_wf (cur_part s) (disk s) -> table (cur_part s) (disk s) = Some T -> 0 <= no < 4096 -> cache_wf s ->
  heap s = a :: b :: h -> a <> NULL -> b <> NULL -> free_file s k -> free_fd s l ->
  (forall x i, x ∈ open_inodes (cur_part s) -> inodes s !! x = Some i -> i_no i = no -> write_deny i = 0) ->
  (not_open no s -> write_deny (dec_inode (slot T no)) = 0) ->
  (forall x i s', file_opened s T no k l flag x i s' -> Q l s') -> wp (file_open no flag) Q s.
Proof.
  intros Htw HT Hno Hc Hh Ha Hb Hk Hl Hd1 Hd2 HQ. unfold file_open. rewrite wp_bind. eapply free_slot_run; [exact Hk|].
  destruct Hk as [Hk1 (f & Hf & _) _]. rewrite (proj2 (Z.eqb_neq k (-1))) by lia. rewrite wp_bind.
  apply (inode_open_run s T no a b h); try done.
  - intros x i Hx Hi Hin. eapply install_run; [exact Hf|by destruct Hl|apply lookup_insert_eq|exact (Hd1 x i Hx Hi Hin)|].
    apply (HQ x (set_i_open_cnts (i_open_cnts i + 1) i)).
    replace (as_open _ k l flag x _) with (as_open s k l flag x (set_i_open_cnts (i_open_cnts i + 1) i)); [by apply O_cached|].
    unfold as_open. cbn. by rewrite insert_insert_eq.
  - intros Hn. eapply install_run; [exact Hf|by destruct Hl|apply lookup_insert_eq|exact (Hd2 Hn)|]. eapply HQ. by eapply O_read.
Qed.

(** ** sys_open *)

(** Components are not empty and have no slash. *)
Definition is_component (n : list Z) : Prop := n <> [] /\ slash ∉ n.

Lemma components_acc_word cur n q : slash ∉ n -> components_acc cur (n ++ q) = components_acc (cur ++ n) q.
Proof.
  revert cur. induction n as [|c n IH]; intros cur Hn; [by rewrite app_nil_r|]. apply not_elem_of_cons in Hn as [Hc Hn].
  cbn [app components_acc]. rewrite (proj2 (Z.eqb_neq c slash)) by done. rewrite IH by done. by rewrite <- app_assoc.
Qed.

Lemma components_join_acc cur names : Forall is_component names ->
  components_acc cur (join names) = match cur with [] => names | _ => cur :: names end.
Proof.
  intros H. revert cur. induction H as [|n names [Hn Hs] _ IH]; intros cur; [by destruct cur|].
  change (join (n :: names)) with (slash :: n ++ join names). cbn [components_acc]. rewrite Z.eqb_refl.
  assert (E : components_acc [] (n ++ join names) = n :: names).
  { rewrite components_acc_word, IH by done. by destruct n. }
  rewrite E. by destruct cur.
Qed.

Lemma components_join names : Forall is_component names -> components (join names) = names.
Proof. apply components_join_acc. Qed.

Lemma components_are p : Forall is_component (components p).
Proof.
  assert (H : forall cur, slash ∉ cur -> Forall is_component (components_acc cur p)).
  { induction p as [|c p IH]; intros cur Hcur; cbn [components_acc].
    - destruct cur; [constructor|]. by repeat constructor.
    - destruct (Z.eqb_spec c slash) as [->|Hc]; [|apply IH; rewrite elem_of_app, list_elem_of_singleton; intros [|]; congruence].
      assert (Hr : Forall is_component (components_acc [] p)) by (apply IH, not_elem_of_nil). destruct cur; [done|]. by apply list.Forall_cons. }
  apply H, not_elem_of_nil.
Qed.

Lemma path_depth_join p : path_depth (join (components p)) = path_depth p.
Proof. unfold path_depth. rewrite components_join; [done|apply components_are]. Qed.

(** The inode [no], in memory or on disk, is not open for writing. *)
Definition not_denied (s : fsys) (T : list Z) (no : Z) : Prop :=
  (forall x i, x ∈ open_inodes (cur_part s) -> inodes s !! x = Some i -> i_no i = no -> write_deny i = 0) /\
  write_deny (disk_inode T no) = 0.

Lemma holding_not_denied s0 T dir d h s no : not_denied s0 T no -> holding s0 T dir d h s -> not_denied s T no.
Proof.
  intros [H1 H2] Hd. split; [|done]. destruct Hd as [| x i _ _ Hx Hi Hn|x _ _ Hx [_ Hat] _]; [done| |].
  - intros a j. cbn. intros Ha. rewrite lookup_insert_Some. intros [[<- <-]|[_ Hj]]; [|by eapply H1]. cbn. by eapply H1.
  - intros a j Ha. cbn in Ha |- *. rewrite lookup_insert_Some. intros [[<- <-]|[Hne Hj]].
    + intros E. change (i_no (disk_inode T dir) = no) in E. rewrite Hat in E. by subst.
    + apply elem_of_cons in Ha as [->|Ha]; [done|]. by eapply H1.
Qed.

Lemma holding_table s0 T no d h s : searchable s0 T -> holding s0 T no d h s ->
  table_wf (cur_part s) (disk s) /\ table (cur_part s) (disk s) = Some T.
Proof. intros Hs Hd. destruct (sr_table s0 T Hs) as [[] HT]. by destruct Hd; (split; [split|]). Qed.

Lemma holding_tables s0 T no d h s k l : holding s0 T no d h s -> free_file s0 k -> free_fd s0 l -> free_file s k /\ free_fd s l.
Proof. intros Hd [] []. by destruct Hd; (split; split). Qed.

(** The path as far as a search went. *)
Lemma walks_found s0 T parent no path names r found : walks s0 T parent no path names r found ->
  exists k, (k <= length names)%nat /\ found = path ++ join (take k names).
Proof.
  induction 1 as [| | |parent no path name names es e r found _ _ _ _ _ (k & Hk & ->)].
  - exists 0%nat. by rewrite app_nil_r.
  - exists 1%nat. split; [cbn; lia|]. unfold join. cbn. by rewrite take_0, app_nil_r.
  - exists 1%nat. split; [cbn; lia|]. unfold join. cbn. by rewrite take_0, app_nil_r.
  - exists (S k). split; [cbn; lia|]. unfold join. cbn. by rewrite <- app_assoc.
Qed.

(** The path that was searched is as deep as the path asked for exactly when
    all its names have been found or looked for. *)
Lemma found_depth s0 T pathname r found : walks s0 T 0 0 [] (components pathname) r found ->
  (path_depth pathname =? path_depth found) = bool_decide (found = join (components pathname)).
Proof.
  intros Hw. destruct (walks_found _ _ _ _ _ _ _ _ Hw) as (k & Hk & ->). cbn [app].
  assert (Hc : Forall is_component (take k (components pathname))) by apply Forall_take, components_are.
  unfold path_depth at 2. rewrite components_join by done. unfold path_depth. rewrite length_take_le by done.
  destruct (Z.eqb_spec (Z.of_nat (length (components pathname))) (Z.of_nat k)) as [E|Hne].
  - rewrite bool_decide_eq_true_2; [done|]. by rewrite take_ge by lia.
  - rewrite bool_decide_eq_false_2; [done|]. intros E. apply (f_equal components) in E.
    rewrite !components_join in E by (done || apply components_are). apply (f_equal length) in E. rewrite length_take_le in E by done. lia.
Qed.

Section calls.
Context (s0 : fsys) (T stack : list Z).
Context (Hs : searchable s0 T) (Hst : length stack = 24%nat).

(** A file can be opened: there are places in the tables, no one writes the
    file, and its number is that of an inode. *)
Record can_open (no k l : Z) : Prop := {
  co_no : 0 <= no < 4096;
  co_file : free_file s0 k;
  co_fd : free_fd s0 l;
  co_denied : not_denied s0 T no
}.

(** What sys_open leaves, for each end of the search. *)
Definition open_post (names : list (list Z)) (r : outcome) (found : list Z) (k l flags : Z) (fd : Z) (s' : fsys) : Prop :=
  match r with
  | Directory _ _ => fd = -1 /\ exists h, s' = set_heap h s0
  | Missing dir =>
      if decide (found = join names) then fd = -1 /\ exists h, s' = set_heap h s0
      else fd = -1 /\ exists d h, holding s0 T dir d h s'
  | Regular dir no =>
      if decide (found = join names) then fd = l /\ exists d h s1 x i, holding s0 T dir d h s1 /\ left_of (heap s0) (5 * length names + 3) h /\ (length names = 1%nat -> d = root_dir) /\
             file_opened s1 T no k l flags x i s'
      else fd = -1 /\ exists d h, holding s0 T dir d h s'
  end.

(** sys_open without O_CREAT. *)
Lemma sys_open_run pathname flags r found k l (Q : Z -> fsys -> Prop) (n := length (components pathname)) :
  good_path pathname -> list.last pathname <> Some slash -> 0 <= flags <= 7 -> Z.land flags O_CREAT = 0 ->
  walks s0 T 0 0 [] (components pathname) r found -> (forall dir no, r = Regular dir no -> can_open no k l) -> (5 * n + 5 <= length (heap s0))%nat ->
  (forall fd s', open_post (components pathname) r found k l flags fd s' -> Q fd s') -> wp (sys_open stack pathname flags) Q s0.
Proof using Hs Hst.
  intros Hp Hlast Hfl Hcr Hw Hco Hheap HQ. unfold sys_open. wp_simp. destruct (list.last pathname) as [c|] eqn:Hc.
  2: { apply last_None in Hc as ->. pose proof (gp_len _ Hp) as H. cbn in H. lia. }
  apply wp_of_option. exists c. split; [done|]. rewrite (proj2 (Z.eqb_neq c slash)) by congruence. wp_simp. apply wp_ASSERT. split; [lia|]. wp_simp.
  eapply (search_file_run s0 T); [exact Hs|exact Hp|exact Hw|exact Hst|lia|]. intros d h s1 Hlo Hd Hroot. wp_simp.
  cbn [file_type parent_dir searched_path]. destruct (found_type r =? FT_DIRECTORY) eqn:Et.
  { wp_simp. eapply dir_close_run; [exact Hs|exact Hd|]. wp_simp. apply HQ. destruct r; [done..|]. split; [done|by exists h]. }
  rewrite (found_depth s0 T pathname r found Hw). rewrite Hcr. unfold truthy. cbn [negb Z.eqb]. rewrite andb_true_r, andb_false_r.
  unfold open_post in HQ. case_bool_decide as Hfull; cbn [negb].
  2: { wp_simp. apply HQ. destruct r; [| |done]; rewrite decide_False by done; (split; [done|by exists d, h]). }
  destruct r as [dir|dir no|parent no]; [| |done]; cbn [found_no].
  { cbn [negb Z.eqb Pos.eqb]. wp_simp. eapply dir_close_run; [exact Hs|exact Hd|]. wp_simp. apply HQ. rewrite decide_True by done. split; [done|by exists h]. }
  destruct (Hco dir no eq_refl) as [Hno Hk Hl Hden]. rewrite s32_small by lia. rewrite (proj2 (Z.eqb_neq no (-1))) by lia. cbn [negb]. rewrite u32_small by lia.
  destruct (holding_same _ _ _ _ _ _ Hd) as (Hh1 & _). destruct (holding_table _ _ _ _ _ _ Hs Hd) as [Htw HT].
  destruct (holding_tables _ _ _ _ _ _ k l Hd Hk Hl) as [Hk1 Hl1]. destruct (holding_not_denied _ _ _ _ _ _ no Hden Hd) as [Hn1 Hn2].
  pose proof (left_of_fresh _ _ _ _ Hlo (sr_heap _ _ Hs)) as [_ Hun]. pose proof Hlo as [_ Hlen].
  destruct h as [|a [|b h]]; [cbn in Hlen; unfold n in *; lia..|]. apply list.Forall_cons in Hun as [[Ha _] Hun]. apply list.Forall_cons in Hun as [[Hb _] _].
  eapply (file_open_run s1 T no k l flags a b h); try done.
  - by eapply holding_cache.
  - intros x i s' Ho. apply HQ. rewrite decide_True by done. split; [done|]. exists d, (a :: b :: h), s1, x, i.
    split; [done|]. split; [done|]. split; [|done]. intros H1. apply Hroot; [done|lia].
Qed.
End calls.

(** [C15] sys_open without O_CREAT opens what the path leads to on disk. For a
    file whose path exists it returns the first free descriptor, with the file
    at its beginning, open once more and locked if it is to be written. For a
    directory, a name that does not exist, or a path that goes through a name
    that does not exist or a file, it returns -1. In the last case, and when it
    succeeds, the directory where the search ended stays open; otherwise
    nothing in memory changes but what the allocator has left. *)
Theorem sys_open_opens s T stack pathname flags r found k l :
  searchable s T -> length stack = 24%nat -> good_path pathname -> list.last pathname <> Some slash ->
  0 <= flags <= 7 -> Z.land flags O_CREAT = 0 -> walks s T 0 0 [] (components pathname) r found ->
  (forall dir no, r = Regular dir no -> can_open s T no k l) -> (5 * length (components pathname) + 5 <= length (heap s))%nat ->
  exists fd s', sys_open stack pathname flags s = Ok (fd, s') /\ open_post s T (components pathname) r found k l flags fd s'.
Proof.
  intros Hs Hst Hp Hl Hf Hc Hw Hco Hh. assert (H : wp (sys_open stack pathname flags) (open_post s T (components pathname) r found k l flags) s).
  { by eapply sys_open_run. }
  apply wp_Ok in H as (fd & s' & E & H). by exists fd, s'.
Qed.

(** ** sys_close *)

(** [s] after the file [f] at the place [k] under the descriptor [l], with the
    inode [i], has been closed. *)
Definition as_closed (s : fsys) (k l : Z) (f : file) (i : inode) : fsys :=
  let x := fd_inode f in
  set_fd_table (<[Z.to_nat l := -1]> (fd_table s)) (set_file_table (<[Z.to_nat k := File (fd_pos f) (fd_flag f) NULL]> (file_table s))
    (if decide (i_open_cnts i = 1) then
       set_inodes (delete x (inodes s)) (set_part (set_open_inodes (filter (fun y => y <> x) (open_inodes (cur_part s))) (cur_part s)) s)
     else set_inodes (<[x := set_i_open_cnts (i_open_cnts i - 1) (set_write_deny 0 i)]> (inodes s)) s)).

Lemma sys_close_run s k l f i (Q : Z -> fsys -> Prop) :
  2 < l -> fd_table s !! Z.to_nat l = Some k -> 0 <= k < 32 -> file_table s !! Z.to_nat k = Some f -> inodes s !! fd_inode f = Some i ->
  1 <= i_open_cnts i < 2 ^ 32 -> fd_inode f ∈ open_inodes (cur_part s) -> Q 0 (as_closed s k l f i) -> wp (sys_close l) Q s.
Proof.
  intros Hl Hfd Hk Hf Hi Hc Hx HQ. unfold sys_close. rewrite (proj2 (Z.ltb_lt 2 l)) by lia. unfold fd_local2global.
  wp_load Hfd. unfold MAX_FILE_OPEN. wp_assert. unfold file_close. wp_simp. eapply wp_ld_file; [exact Hf|]. wp_simp.
  eapply wp_ld_inode; [exact Hi|]. wp_simp. eapply wp_st_inode; [exact Hi|]. wp_simp. unfold as_closed in HQ.
  eapply inode_close_run; [apply lookup_insert_eq|exact Hc|exact Hx| |]; cbn [i_open_cnts set_write_deny]; intros Hcnt; wp_simp;
    (eapply wp_st_file; [exact Hf|]); wp_simp.
  - rewrite decide_False in HQ by done. cbn. rewrite insert_insert_eq. exact HQ.
  - rewrite decide_True in HQ by done. cbn -[filter list_filter] in *. rewrite delete_insert_eq. exact HQ.
Qed.

(** *** Witness: /../file1, found in the root directory that is opened once more *)

Lemma path_can_open : can_open path_fs demo_table 6 3 3.
Proof.
  split; [lia| | |].
  - split; [lia|by exists (File 0 0 0)|lia].
  - split; [lia|done|lia].
  - split; [|vm_compute; reflexivity]. intros x i ->%list_elem_of_singleton. unfold path_fs. cbn [inodes]. rewrite lookup_singleton_eq. by intros [= <-].
Qed.

Lemma sys_open_opens_witness :
  exists s' d h s1 x i, sys_open (replicate 24 0) path_name O_RDWR path_fs = Ok (3, s') /\ holding path_fs demo_table 0 d h s1 /\
    file_opened s1 demo_table 6 3 3 O_RDWR x i s'.
Proof.
  assert (H : exists fd s', sys_open (replicate 24 0) path_name O_RDWR path_fs = Ok (fd, s') /\
    open_post path_fs demo_table (components path_name) (Regular 0 6) path_name 3 3 O_RDWR fd s').
  { apply (sys_open_opens path_fs demo_table (replicate 24 0) path_name O_RDWR (Regular 0 6) path_name 3 3 path_searchable).
    - reflexivity.
    - split; [done|cbn; lia|reflexivity|done|]. repeat constructor; cbn; lia.
    - done.
    - unfold O_RDWR. lia.
    - reflexivity.
    - exact path_walks.
    - intros d n [= <- <-]. exact path_can_open.
    - apply Nat.leb_le. vm_compute. reflexivity. }
  destruct H as (fd & s' & E & H). unfold open_post in H.
  assert (Ej : path_name = join (components path_name)) by (vm_compute; reflexivity). destruct (decide _) as [_|Hn]; [|by destruct (Hn Ej)].
  destruct H as (-> & d & h & s1 & x & i & Hd & _ & _ & Ho). exists s', d, h, s1, x, i. split; [exact E|]. split; [exact Hd|exact Ho].
Defined.
