(* ===== verification/Create.v ===== *)
(** * Creating a file (fs/file.c: file_create; fs/fs.c: sys_open with O_CREAT)

    A file that sys_open creates is found by its path: the entry, the inode and
    the bit of the inode bitmap are on disk, and every directory on the path
    still lists what it listed before. *)

From Stdlib Require Import ZArith Lia.
From stdpp Require Import base numbers list gmap option.
From S2P Require Import Prelude Bitmap Intr DList CString FsTypes Blocks Inode FileOps Dir Path Fs PathSearch OpenClose.

Local Open Scope Z_scope.

(** ** Entries *)

(** Two entries that agree in their 24 bytes; what follows them in the sector
    may differ. *)
Definition same_entry (e e' : list Z) : Prop := take 24 e = take 24 e'.

(** An entry whose name ends within its field. *)
Definition tight (e : list Z) : Prop := Forall is_byte e /\ is_Some (c_string (take 16 e)).

Lemma c_string_take n l x : c_string (take n l) = Some x -> c_string l = Some x.
Proof.
  revert n x. induction l as [|c l IH]; intros n x; [by rewrite take_nil|]. destruct n as [|n]; [done|]. cbn.
  destruct (c =? 0); [done|]. destruct (c_string (take n l)) as [y|] eqn:E; [|done]. by rewrite (IH _ _ E).
Qed.

Lemma tight_named e : tight e -> named e.
Proof. intros [Hb [x Hx]]. split; [done|]. exists x. by eapply c_string_take. Qed.

Lemma same_entry_16 e e' : same_entry e e' -> take 16 e = take 16 e'.
Proof. intros H. apply (f_equal (take 16)) in H. by rewrite !take_take in H. Qed.

Lemma same_entry_name e e' : same_entry e e' -> tight e -> c_string e' = c_string e.
Proof.
  intros Hs [_ [x Hx]]. rewrite (c_string_take _ _ _ Hx). rewrite (same_entry_16 _ _ Hs) in Hx. by apply (c_string_take 16).
Qed.

Lemma dec_dir_entry_24 e : dec_dir_entry e = dec_dir_entry (take 24 e).
Proof. unfold dec_dir_entry. rewrite !rd32_take by lia. by rewrite take_take. Qed.

Lemma same_entry_type e e' : same_entry e e' -> entry_type e' = entry_type e /\ entry_no e' = entry_no e.
Proof. intros H. unfold entry_type, entry_no. by rewrite (dec_dir_entry_24 e), (dec_dir_entry_24 e'), H. Qed.

Lemma first_named_same n es es' : Forall2 same_entry es es' -> Forall tight es ->
  option_Forall2 same_entry (first_named n es) (first_named n es').
Proof.
  induction 1 as [|e e' es es' He _ IH]; intros Ht; [constructor|]. apply list.Forall_cons in Ht as [Ht Hts]. cbn.
  rewrite (same_entry_name _ _ He Ht). destruct (bool_decide _); [by constructor|by apply IH].
Qed.

Definition entry_used (e : list Z) : Prop := entry_type e <> FT_UNKNOWN.

(** [es'] is [es] with the entry [p] in the place of the first one that is free;
    all others are what they were. *)
Inductive replaced (p : list Z) (es es' : list (list Z)) : Prop :=
  | Replaced A x B A' y B' : es = A ++ x :: B -> es' = A' ++ y :: B' -> Forall2 same_entry A A' -> Forall2 same_entry B B' ->
      Forall entry_used A -> entry_type x = FT_UNKNOWN -> take 24 y = p -> replaced p es es'.

Lemma Forall2_same l : Forall2 same_entry l l.
Proof. by apply Forall_Forall2_diag, list.Forall_forall. Qed.

Lemma replaced_app p L es es' R : Forall entry_used L -> replaced p es es' -> replaced p (L ++ es ++ R) (L ++ es' ++ R).
Proof.
  intros HL [A x B A' y B' -> -> HA HB HU Hx Hy]. apply (Replaced p _ _ (L ++ A) x (B ++ R) (L ++ A') y (B' ++ R)).
  - by rewrite <- !app_assoc.
  - by rewrite <- !app_assoc.
  - by apply Forall2_app, HA; apply Forall2_same.
  - apply Forall2_app; [done|apply Forall2_same].
  - by apply list.Forall_app.
  - done.
  - done.
Qed.

(** A name that no entry had is found at the new one; a name that was found at
    an entry in use still is. *)
Lemma replaced_new p n es es' : replaced p es es' -> Forall tight es -> first_named n es = None -> c_string p = Some n ->
  exists e, first_named n es' = Some e /\ take 24 e = p.
Proof.
  intros [A x B A' y B' -> -> HA _ _ _ Hy] Ht Hn Hp. apply list.Forall_app in Ht as [HtA _]. rewrite first_named_app in Hn |- *.
  pose proof (first_named_same n A A' HA HtA) as H. destruct (first_named n A) as [e|] eqn:E; [done|]. inversion H. subst.
  exists y. split; [|done]. cbn. rewrite bool_decide_eq_true_2; [done|]. by eapply c_string_take.
Qed.

Lemma replaced_old p m n es es' e : replaced p es es' -> Forall tight es -> c_string p = Some m -> n <> m ->
  first_named n es = Some e -> entry_type e <> FT_UNKNOWN -> exists e', first_named n es' = Some e' /\ same_entry e e'.
Proof.
  intros [A x B A' y B' -> -> HA HB _ Hx Hy] Ht Hp Hnm Hn He. apply list.Forall_app in Ht as [HtA HtB]. apply list.Forall_cons in HtB as [_ HtB].
  rewrite first_named_app in Hn |- *. pose proof (first_named_same n A A' HA HtA) as H.
  destruct (first_named n A) as [e0|] eqn:E; inversion H as [? e' Hs|]; subst; [injection Hn as ->; by exists e'|].
  cbn in Hn |- *. rewrite (bool_decide_eq_false_2 (c_string y = Some n)).
  2: { rewrite (c_string_take 24 y m Hp). congruence. }
  case_bool_decide; [by injection Hn as ->|]. pose proof (first_named_same n B B' HB HtB) as H2. rewrite Hn in H2.
  inversion H2 as [? e' Hs|]; subst. by exists e'.
Qed.

(** *** In a sector *)

Lemma entry_spliced buf idx p k : length buf = 512%nat -> length p = 24%nat -> 0 <= idx < 21 -> 0 <= k < 21 ->
  take 24 (entry_bytes (splice buf (Z.to_nat (24 * idx)) p) k) = if decide (k = idx) then p else take 24 (entry_bytes buf k).
Proof.
  intros Hl Hp Hi Hk. unfold entry_bytes. destruct (decide (k = idx)) as [->|Hne].
  - erewrite splice_slice_eq; [|lia|reflexivity]. by rewrite take_app_length'.
  - apply splice_slice_ne; lia.
Qed.

Lemma sector_replaced buf idx p : length buf = 512%nat -> length p = 24%nat -> first_free_entry buf idx ->
  replaced p (sector_entries buf 21) (sector_entries (splice buf (Z.to_nat (24 * idx)) p) 21).
Proof.
  intros Hl Hp (Hi & Hfree & Hlow). unfold sector_entries.
  replace 21 with (idx + (1 + (20 - idx))) by lia. rewrite seqZ_app, (seqZ_app (0 + idx) 1) by lia.
  rewrite !fmap_app, Z.add_0_l. assert (E1 : seqZ idx 1 = [idx]) by (rewrite seqZ_cons, seqZ_nil by lia; done). rewrite E1. cbn [fmap list_fmap app].
  assert (H : forall m n, 0 <= m -> m + n <= 21 -> (idx < m \/ m + n <= idx) ->
    Forall2 same_entry (entry_bytes buf <$> seqZ m n) (entry_bytes (splice buf (Z.to_nat (24 * idx)) p) <$> seqZ m n)).
  { intros m n Hm Hmn Hor. apply Forall2_fmap, Forall_Forall2_diag, list.Forall_forall. intros k Hk%elem_of_seqZ.
    unfold same_entry. rewrite entry_spliced by lia. rewrite decide_False by lia. done. }
  econstructor; [reflexivity|reflexivity|apply H; lia|apply H; lia| |exact Hfree|].
  { apply list.Forall_forall. intros e (k & -> & Hk%elem_of_seqZ)%list_elem_of_fmap. apply Hlow. lia. } rewrite entry_spliced by lia. by rewrite decide_True.
Qed.

Lemma sector_tight buf idx p : length buf = 512%nat -> length p = 24%nat -> 0 <= idx < 21 -> tight p ->
  Forall tight (sector_entries buf 21) -> Forall tight (sector_entries (splice buf (Z.to_nat (24 * idx)) p) 21).
Proof.
  intros Hl Hp Hi [Hpb Hps] Ht. rewrite list.Forall_forall in Ht.
  assert (Hin : forall k, 0 <= k < 21 -> tight (entry_bytes buf k)).
  { intros k Hk. apply Ht. apply list_elem_of_fmap. exists k. split; [done|]. apply elem_of_seqZ. lia. }
  apply list.Forall_forall. intros e (k & -> & Hk%elem_of_seqZ)%list_elem_of_fmap. split.
  - apply Forall_drop. destruct (Hin 0) as [Hb _]; [lia|]. change (Forall is_byte buf) in Hb.
    unfold splice. apply list.Forall_app. split; [by apply Forall_take|]. apply list.Forall_app. split; [done|by apply Forall_drop].
  - pose proof (entry_spliced buf idx p k Hl Hp Hi ltac:(lia)) as E. apply (f_equal (take 16)) in E. rewrite take_take in E.
    change (16 `min` 24)%nat with 16%nat in E. rewrite E. destruct (decide (k = idx)); [done|]. rewrite take_take. apply Hin. lia.
Qed.

(** *** In a directory *)

Lemma listing_app d cnt l1 l2 es : listing d (l1 ++ l2) cnt = Some es ->
  exists es1 es2, listing d l1 cnt = Some es1 /\ listing d l2 cnt = Some es2 /\ es = es1 ++ es2.
Proof.
  revert es. induction l1 as [|lba l1 IH]; intros es H; [by exists [], es|]. cbn [app listing] in *.
  destruct (lba =? 0); [by apply IH|]. destruct (d !! lba) as [b|]; [|done]. destruct (listing d (l1 ++ l2) cnt) as [l|]; [|done].
  destruct (IH l eq_refl) as (es1 & es2 & -> & E2 & ->). injection H as <-. exists (sector_entries b cnt ++ es1), es2.
  split; [done|]. split; [done|]. by rewrite app_assoc.
Qed.

Lemma listing_app_2 d cnt l1 l2 es1 es2 : listing d l1 cnt = Some es1 -> listing d l2 cnt = Some es2 -> listing d (l1 ++ l2) cnt = Some (es1 ++ es2).
Proof.
  revert es1. induction l1 as [|lba l1 IH]; intros es1 H1 H2; cbn [app listing] in *; [by injection H1 as <-|].
  destruct (lba =? 0); [by apply IH|]. destruct (d !! lba) as [b|]; [|done]. destruct (listing d l1 cnt) as [l|]; [|done].
  injection H1 as <-. rewrite (IH l eq_refl H2). by rewrite app_assoc.
Qed.

Lemma listing_same d d' cnt l : (forall x, x ∈ l -> x <> 0 -> d' !! x = d !! x) -> listing d' l cnt = listing d l cnt.
Proof.
  induction l as [|x l IH]; intros H; [done|]. cbn [listing]. rewrite IH by (intros; apply H; [by right|done]).
  destruct (Z.eqb_spec x 0); [done|]. rewrite H; [done|by left|done].
Qed.

Lemma listing_full d lbas es : (forall l, l ∈ lbas -> l <> 0 /\ exists b, d !! l = Some b /\ full_sector b) ->
  listing d lbas 21 = Some es -> Forall entry_used es.
Proof.
  revert es. induction lbas as [|l lbas IH]; intros es Hf Hes; [by injection Hes as <-|].
  destruct (Hf l) as (Hl & b & Hb & Hfb); [by left|]. destruct (listing_cons _ _ _ _ _ Hl Hes) as (b' & es' & Hb' & Hes' & ->).
  rewrite Hb in Hb'. injection Hb' as <-. apply list.Forall_app. split; [|apply (IH es'); [|done]; intros; apply Hf; by right].
  apply list.Forall_forall. intros e (k & -> & Hk%elem_of_seqZ)%list_elem_of_fmap. apply Hfb. lia.
Qed.

Lemma listing_replaced d d' lbas k lba buf idx p es : lbas !! k = Some lba -> lba <> 0 ->
  (forall j, j <> k -> lbas !! j <> Some lba) -> (forall x, x ∈ lbas -> x <> 0 -> x <> lba -> d' !! x = d !! x) ->
  (forall j, (j < k)%nat -> exists l b, lbas !! j = Some l /\ l <> 0 /\ d !! l = Some b /\ full_sector b) ->
  d !! lba = Some buf -> d' !! lba = Some (splice buf (Z.to_nat (24 * idx)) p) ->
  length buf = 512%nat -> length p = 24%nat -> first_free_entry buf idx -> tight p ->
  listing d lbas 21 = Some es -> Forall tight es ->
  exists es', listing d' lbas 21 = Some es' /\ replaced p es es' /\ Forall tight es'.
Proof.
  intros Hk Hne Honce Hd Hfull Hb Hb' Hl Hp Hff Htp Hes Ht. pose proof Hff as (Hi & _). pose proof (lookup_lt_Some _ _ _ Hk) as Hkl.
  rewrite <- (take_drop_middle lbas k lba Hk) in Hes |- *.
  destruct (listing_app _ _ _ _ _ Hes) as (es1 & es2 & E1 & E2 & ->). destruct (listing_cons _ _ _ _ _ Hne E2) as (buf0 & es3 & E3 & E4 & ->).
  rewrite Hb in E3. injection E3 as <-. apply list.Forall_app in Ht as [Ht1 Ht]. apply list.Forall_app in Ht as [Ht2 Ht3].
  assert (Hd1 : forall x, x ∈ take k lbas -> x <> 0 -> d' !! x = d !! x).
  { intros x (j & Hj)%list_elem_of_lookup Hx0. pose proof (lookup_lt_Some _ _ _ Hj) as Hjl. rewrite length_take in Hjl.
    rewrite lookup_take_lt in Hj by lia. apply Hd; [by eapply list_elem_of_lookup_2|done|]. intros ->. by apply (Honce j); [lia|]. }
  assert (Hd3 : forall x, x ∈ drop (S k) lbas -> x <> 0 -> d' !! x = d !! x).
  { intros x (j & Hj)%list_elem_of_lookup Hx0. rewrite lookup_drop in Hj.
    apply Hd; [by eapply list_elem_of_lookup_2|done|]. intros ->. by apply (Honce (S k + j)%nat); [lia|]. }
  exists (es1 ++ sector_entries (splice buf (Z.to_nat (24 * idx)) p) 21 ++ es3). split; [|split].
  - apply listing_app_2; [by rewrite (listing_same d)|]. cbn [listing]. rewrite (proj2 (Z.eqb_neq lba 0)) by done.
    by rewrite Hb', (listing_same d), E4.
  - apply replaced_app; [|by apply sector_replaced]. apply (listing_full d (take k lbas)); [|done].
    intros l (j & Hj)%list_elem_of_lookup. pose proof (lookup_lt_Some _ _ _ Hj) as Hjl. rewrite length_take in Hjl.
    rewrite lookup_take_lt in Hj by lia. destruct (Hfull j) as (l' & b & Hl' & H1 & H2); [lia|]. simplify_eq. eauto.
  - apply list.Forall_app. split; [done|]. apply list.Forall_app. split; [by apply sector_tight|done].
Qed.

(** ** Paths after an entry was added *)

Lemma join_nil names : join names = [] -> names = [].
Proof. by destruct names. Qed.

(** Where a search missed the last name of its path. *)
Lemma walks_missed s T parent no path names dir found name :
  walks s T parent no path names (Missing dir) found -> found = path ++ join names -> list.last names = Some name ->
  exists es, dir_at s T dir es /\ first_named name es = None.
Proof.
  remember (Missing dir) as r eqn:Er. induction 1 as [| parent no path n names es Hd Hn| |parent no path n names es e r found _ _ _ _ Hw IH]; intros Hf Hl; [done| |done|].
  - injection Er as <-. apply app_inv_head in Hf. injection Hf as Hf. rewrite <- (app_nil_r n) in Hf at 1. apply app_inv_head, eq_sym, join_nil in Hf as ->.
    injection Hl as <-. by exists es.
  - destruct names as [|n2 names]; [by inversion Hw; subst|]. apply IH; [done| |done]. rewrite Hf, <- app_assoc. done.
Qed.

Lemma dir_at_eq s T no es es' : dir_at s T no es -> dir_at s T no es' -> es = es'.
Proof. intros [_ _ (l1 & M1 & _ & E1) _] [_ _ (l2 & M2 & _ & E2) _]. rewrite M1 in M2. simplify_eq. congruence. Qed.

Section found.
(** The states before and after, the directory, what it listed, and the new
    entry. *)
Context (s s' : fsys) (T T' : list Z) (dir no : Z) (name p : list Z) (es0 es1 : list (list Z)).
Context (Hnumber : forall n, inode_at T n -> inode_at T' n) (Hother : forall n es, n <> dir -> dir_at s T n es -> dir_at s' T' n es).
Context (Hold : dir_at s T dir es0) (Hnew : dir_at s' T' dir es1) (Hrep : replaced p es0 es1) (Ht : Forall tight es0).
Context (Hp : c_string p = Some name) (Hno : entry_no p = no) (Hty : entry_type p = FT_REGULAR) (Hmiss : first_named name es0 = None).

(** A path that ended at the name leads to the new file. *)
Lemma walks_created parent m path names found :
  walks s T parent m path names (Missing dir) found -> found = path ++ join names -> list.last names = Some name ->
  walks s' T' parent m path names (Regular dir no) found.
Proof using Type*.
  remember (Missing dir) as r eqn:Er. induction 1 as [| parent m path n names es Hd Hn| |parent m path n names es e r found Hd Hn He Hin Hw IH]; intros Hf Hl; [done| |done|].
  - injection Er as ->. apply app_inv_head in Hf. injection Hf as Hf. rewrite <- (app_nil_r n) in Hf at 1. apply app_inv_head, eq_sym, join_nil in Hf as ->.
    injection Hl as ->. destruct (replaced_new p name es0 es1 Hrep Ht Hmiss Hp) as (e & He & E).
    destruct (same_entry_type p e) as [E1 E2]; [unfold same_entry; rewrite E, <- E, take_take; done|].
    rewrite <- Hno, <- E2. eapply W_regular; [exact Hnew|exact He|]. by rewrite E1.
  - assert (Hw' : walks s' T' m (entry_no e) (path ++ slash :: n) names (Regular dir no) found).
    { destruct names as [|n2 names]; [by inversion Hw; subst|]. apply IH; [done| |done]. rewrite Hf, <- app_assoc. done. }
    destruct (decide (m = dir)) as [->|Hne].
    + pose proof (dir_at_eq _ _ _ _ _ Hold Hd) as <-. destruct (replaced_old p name n es0 es1 e Hrep Ht Hp) as (e' & He' & Hs).
      { intros ->. by rewrite Hmiss in Hn. }
      { done. }
      { by rewrite He. }
      destruct (same_entry_type _ _ Hs) as [E1 E2]. rewrite <- E2 in Hw', Hin. eapply W_enter; [exact Hnew|exact He'|by rewrite E1|by apply Hnumber|exact Hw'].
    + eapply W_enter; [by apply Hother|exact Hn|exact He|by apply Hnumber|exact Hw'].
Qed.
End found.

(** ** Directories on a disk that changed *)

(** A sector that belongs to the directory [n]. *)
Definition dir_block (s : fsys) (T : list Z) (n x : Z) : Prop :=
  x <> 0 /\ (i_sectors (disk_inode T n) !! 12%nat = Some x \/ exists lbas, block_map (disk s) (disk_inode T n) = Some lbas /\ x ∈ lbas).

Section other.
Context (s s' : fsys) (T T' : list Z) (n : Z).
Context (Hi : i_no (disk_inode T' n) = i_no (disk_inode T n) /\ i_sectors (disk_inode T' n) = i_sectors (disk_inode T n)).

Lemma block_map_kept : (forall x, i_sectors (disk_inode T n) !! 12%nat = Some x -> x <> 0 -> disk s' !! x = disk s !! x) ->
  block_map (disk s') (disk_inode T' n) = block_map (disk s) (disk_inode T n).
Proof using Hi.
  intros Hd. rewrite (block_map_sectors _ _ (disk_inode T n)) by apply Hi. unfold block_map.
  destruct (i_sectors (disk_inode T n) !! 12%nat) as [t|] eqn:E; [|done]. destruct (Z.eqb_spec t 0); [done|]. by rewrite Hd.
Qed.

Lemma dir_at_kept es : (forall x, dir_block s T n x -> disk s' !! x = disk s !! x) -> dir_at s T n es -> dir_at s' T' n es.
Proof using Hi.
  intros Hd [[Hn Hin] Ht (lbas & Hm & Hl & Hes) Hnd]. split.
  - split; [done|]. by rewrite (proj1 Hi).
  - by rewrite (proj2 Hi).
  - exists lbas. rewrite block_map_kept by (intros x Hx Hx0; apply Hd; split; [done|by left]). split; [done|]. split; [done|].
    rewrite (listing_same (disk s)); [done|]. intros x Hx Hx0. apply Hd. split; [done|]. right. by exists lbas.
  - done.
Qed.
End other.

(** ** The entry of the new file *)

Definition new_entry (name : list Z) (no : Z) : list Z :=
  enc_dir_entry (DirEntry (splice (replicate 16 0) 0 name) no FT_REGULAR).

Lemma padded_name name : good_name name -> splice (replicate 16 0) 0 name = name ++ replicate (16 - length name) 0.
Proof. intros [Hl _]. unfold splice. cbn [take app Nat.add]. by rewrite drop_replicate. Qed.

Lemma new_entry_wf name no : good_name name -> is_u32 no -> dir_entry_wf (DirEntry (splice (replicate 16 0) 0 name) no FT_REGULAR).
Proof.
  intros Hn Hno. split; cbn [filename de_i_no f_type]; [|done|unfold is_u32, FT_REGULAR; lia]. rewrite padded_name by done. destruct Hn as [Hl _].
  rewrite length_app, length_replicate. lia.
Qed.

Lemma new_entry_length name no : good_name name -> is_u32 no -> length (new_entry name no) = 24%nat.
Proof. intros Hn Hno. apply enc_dir_entry_length, (new_entry_wf name no Hn Hno). Qed.

Lemma new_entry_fields name no : good_name name -> is_u32 no -> entry_no (new_entry name no) = no /\ entry_type (new_entry name no) = FT_REGULAR.
Proof.
  intros Hn Hno. unfold entry_no, entry_type. rewrite <- (app_nil_r (new_entry name no)). unfold new_entry. by rewrite dec_enc_dir_entry by by apply new_entry_wf.
Qed.

Lemma c_string_pad name k : Forall (fun c => 0 < c < 256) name -> c_string (name ++ replicate (S k) 0) = Some name.
Proof. induction 1 as [|c name Hc _ IH]; [done|]. cbn [app c_string]. rewrite (proj2 (Z.eqb_neq c 0)) by lia. by rewrite IH. Qed.

Lemma new_entry_16 name no : good_name name -> is_u32 no -> c_string (take 16 (new_entry name no)) = Some name.
Proof.
  intros Hn Hno. pose proof (dw_name _ (new_entry_wf name no Hn Hno)) as Hl. unfold new_entry, enc_dir_entry. rewrite take_app_length' by done. cbn [filename] in *.
  rewrite padded_name by done. destruct Hn as [Hn1 Hn2]. replace (16 - length name)%nat with (S (15 - length name)) by lia. by apply c_string_pad.
Qed.

Lemma new_entry_tight name no : good_name name -> is_u32 no -> tight (new_entry name no).
Proof.
  intros Hn Hno. split; [|rewrite new_entry_16; [by eexists|done|done]]. unfold new_entry, enc_dir_entry. cbn [filename de_i_no f_type].
  rewrite padded_name by done. destruct Hn as [_ Hn]. 
  assert (Hle : forall v, Forall is_byte (le32 v)) by (intros v; unfold le32, is_byte; repeat (apply Forall_cons_2; [apply Z.mod_pos_bound; lia|]); constructor).
  repeat (apply list.Forall_app; split); [|apply Forall_replicate; by unfold is_byte|apply Hle|apply Hle].
  eapply list.Forall_impl; [exact Hn|]. unfold is_byte. cbn. lia.
Qed.

Lemma create_dir_entry_run name no s (Q : list Z -> fsys -> Prop) : good_name name -> Q (new_entry name no) s -> wp (create_dir_entry name no FT_REGULAR) Q s.
Proof. intros [Hl _] HQ. unfold create_dir_entry, MAX_FILE_NAME_LEN. wp_assert. exact HQ. Qed.

(** ** file_create *)

(** [buf], at sector [lba], is the block [n] of the directory with the sectors
    [secs], and its entry [idx] is the first of the directory that is free. *)
Record has_room (d : gmap Z (list Z)) (secs : list Z) (n lba : Z) (buf : list Z) (idx : Z) : Prop := {
  hr_block : 0 <= n < 12 /\ secs !! Z.to_nat n = Some lba;
  hr_sector : d !! lba = Some buf /\ first_free_entry buf idx;
  hr_full : forall k, 0 <= k < n -> exists l b, secs !! Z.to_nat k = Some l /\ l <> 0 /\ d !! l = Some b /\ full_sector b;
  hr_max : Forall (fun x => x <= max_lba) secs
}.

(** The inode of a directory: it is one of the first 256, its size is a number
    of entries. *)
Record dir_inode_ok (i : inode) : Prop := { di_wf : inode_wf i; di_no : i_no i < 256; di_size : i_size i mod 24 = 0 }.

(** The partition can take another inode: [i0] is free. *)
Record inode_room (s : fsys) (i0 : Z) : Prop := {
  ir_layout : layout_wf (cur_part s);
  ir_synced : synced INODE_BITMAP (cur_part s) (disk s);
  ir_free : 0 <= i0 < 256 /\ i0 < 8 * btmp_bytes_len (inode_bitmap (cur_part s)) /\ bit_used (inode_bitmap (cur_part s)) i0 = false;
  ir_entry : dir_entry_size (sb (cur_part s)) = 24
}.

Definition one_more (i : inode) : inode := set_i_size (u32 (i_size i + 24)) i.

(** The state that file_create leaves, with the inode [no] at [a]. *)
Definition after_create (s : fsys) (x : Z) (pi : inode) (a no k l flag : Z) (b : bitmap) (d : gmap Z (list Z)) (h : list Z) : fsys :=
  Fsys d (set_open_inodes (a :: open_inodes (cur_part s)) (set_inode_bitmap b (cur_part s)))
    (<[a := set_i_open_cnts 1 (inode_init no)]> (<[x := one_more pi]> (inodes s))) (dirs s)
    (<[Z.to_nat k := File 0 flag a]> (file_table s)) (<[Z.to_nat l := k]> (fd_table s)) (cwd_inode_nr s) (processor s) h.

(** Its disk. *)
Record created_disk (p : partition) (d0 : gmap Z (list Z)) (T : list Z) (pi : inode) (no lba : Z) (buf : list Z) (idx : Z) (name : list Z) (b : bitmap) (d : gmap Z (list Z)) : Prop := {
  cd_table : table_wf p d /\ table p d = Some (set_slot (set_slot T (i_no pi) (enc_inode (pure_inode (one_more pi)))) no (enc_inode (inode_init no)));
  cd_entry : d !! lba = Some (splice buf (Z.to_nat (24 * idx)) (new_entry name no));
  cd_bitmap : synced INODE_BITMAP (set_inode_bitmap b p) d;
  cd_frame : forall x, data_start_lba (sb p) <= x -> x <> lba -> d !! x = d0 !! x
}.

Lemma table_outside p d d' : table_wf p d -> disk_wf d' -> (forall k, inode_table_lba (sb p) <= k < inode_table_lba (sb p) + 608 -> d' !! k = d !! k) ->
  table_wf p d' /\ table p d' = table p d.
Proof.
  intros [H1 H2 H3 H4] Hd Hk. split; [by split|]. apply read_sectors_ext. intros k Hr. apply Hk. unfold table_sects in Hr. lia.
Qed.

Lemma table_wf_bitmap b p d : table_wf p d <-> table_wf (set_inode_bitmap b p) d.
Proof. split; intros []; by split. Qed.

Lemma synced_kept t p d d' : synced t p d -> (forall k, bm_lba t p <= k < bm_lba t p + Z.of_nat (bm_sects t p) -> d' !! k = d !! k) -> synced t p d'.
Proof. intros H Hk. unfold synced. by rewrite (read_sectors_ext d). Qed.

Lemma inode_init_wf no : is_u32 no -> inode_wf (inode_init no).
Proof. intros H. split; try (unfold is_u32; cbn; lia); [exact H|]. apply Forall_replicate. unfold is_u32. lia. Qed.

Lemma disk_wf_splice d lba buf off src : disk_wf d -> d !! lba = Some buf -> (off + length src <= 512)%nat -> disk_wf (<[lba := splice buf off src]> d).
Proof.
  intros Hd Hb Hl. pose proof (Hd _ _ Hb) as Hbl. cbn in Hbl. apply map_Forall_insert_2; [|done]. rewrite splice_length; lia.
Qed.

Section create.
(** The directory open at [d] has its inode [pi] at [x]. *)
Context (s : fsys) (T : list Z) (d x : Z) (pi : inode) (name : list Z) (n lba : Z) (buf : list Z) (idx i0 k l flag io a : Z) (h : list Z).
Let p := cur_part s.

(** A file with this name can be created in it. *)
Record creatable : Prop := {
  ct_dir : exists v, dirs s !! d = Some v /\ dir_inode v = x;
  ct_inode : inodes s !! x = Some pi /\ dir_inode_ok pi;
  ct_table : table_wf p (disk s) /\ table p (disk s) = Some T;
  ct_room : has_room (disk s) (i_sectors pi) n lba buf idx /\ data_start_lba (sb p) <= lba;
  ct_bit : inode_room s i0;
  ct_name : good_name name;
  ct_places : free_file s k /\ free_fd s l;
  ct_flag : 0 <= flag < 256;
  ct_heap : heap s = io :: a :: h /\ io <> NULL /\ a <> NULL /\ inodes s !! a = None
}.

Section syncs.
Context (Hc : creatable) (no : Z) (b : bitmap) (Hno : 0 <= no < 256) (Hal : alloc_post (inode_bitmap p) no b).
Let de := new_entry name no.
Let d1 := <[lba := splice buf (Z.to_nat (24 * idx)) de]> (disk s).

Lemma no_u32 : is_u32 no.
Proof using Hno. unfold is_u32. lia. Qed.

(** Sectors in front of the data area. *)
Lemma front_kept t : lba <> t -> d1 !! t = disk s !! t.
Proof using. intros. by apply lookup_insert_ne. Qed.

Lemma d1_wf : disk_wf d1.
Proof using Hc Hno.
  destruct (ct_table Hc) as [[Hd _ _ _] _]. destruct (ct_room Hc) as [[_ [Hb (Hi & _)] _ _] _].
  unfold d1, de. apply disk_wf_splice; [done|done|]. rewrite (new_entry_length name no (ct_name Hc) no_u32). lia.
Qed.

Lemma one_more_wf : inode_wf (one_more pi).
Proof using Hc.
  destruct (ct_inode Hc) as [_ [[] _ _]]. pose proof (u32_bound (i_size pi + 24)). by split.
Qed.

(** The three writes that follow the entry. *)
Lemma syncs_run {A} s2 (m : M fsys A) (Q : A -> fsys -> Prop) : cur_part s2 = set_inode_bitmap b p -> disk s2 = d1 -> inodes s2 !! a = Some (inode_init no) ->
  (forall d', created_disk p (disk s) T pi no lba buf idx name b d' -> wp m Q (set_disk d' s2)) ->
  wp (inode_sync (one_more pi) 1024 ;; do i <- ld_inode a; inode_sync i 1024 ;; bitmap_sync no INODE_BITMAP ;; m) Q s2.
Proof using Hc Hno Hal.
  intros Ep Ed Ha HQ. pose proof (ct_table Hc) as [Htw HT]. pose proof (ct_bit Hc) as [[_ Hmi Hbi Hit Hda _] Hsy _ _].
  destruct (ct_inode Hc) as [_ [[] Hp256 _]]. destruct (ct_room Hc) as [_ Hlba]. pose proof (tw_lba _ _ Htw) as Ht0. destruct Hal as ((Hin & _) & Hbw & Hbl & Hbm & _ & Hbf). fold p in Hmi, Hbi, Hit, Hda, Hsy.
  destruct (table_outside p (disk s) d1 Htw d1_wf) as [Htw1 HT1]; [intros t Ht; apply front_kept; lia|].
  rewrite wp_bind. apply (inode_sync_run _ T); rewrite ?Ep, ?Ed; [by apply table_wf_bitmap|by rewrite <- HT|exact one_more_wf|left; lia|]. intros d2 Htw2 HT2 Hf2.
  cbn [i_no one_more set_i_size] in HT2. rewrite u8_small in HT2 by (unfold is_u32 in *; lia).
  rewrite wp_bind. eapply wp_ld_inode; [exact Ha|]. rewrite wp_bind. eapply (inode_sync_run (set_disk d2 s2)); cbn [cur_part disk set_disk]; rewrite ?Ep; [exact Htw2|exact HT2|apply inode_init_wf, no_u32|left; lia|].
  intros d3 Htw3 HT3 Hf3. cbn [i_no inode_init] in HT3. rewrite u8_small in HT3 by lia. cbn [sb set_inode_bitmap] in Hf2, Hf3.
  assert (Hfr : forall t, ~ (inode_table_lba (sb p) <= t < inode_table_lba (sb p) + 608) -> d3 !! t = d1 !! t) by (intros t Ht; by rewrite Hf3, Hf2).
  destruct Hmi as [Hm1 Hm2 Hm3]. pose proof (wf_mem _ Hm1) as Hmem. cbn [bm] in *.
  rewrite wp_bind. eapply (bitmap_sync_run INODE_BITMAP _ p); cbn [cur_part disk set_disk]; rewrite ?Ep; cbn [bm bm_lba bm_sects sb set_inode_bitmap inode_bitmap].
  - apply (tw_disk _ _ Htw3).
  - split; cbn [bm bm_lba bm_sects sb set_inode_bitmap inode_bitmap]; [exact Hbw|by rewrite Hbl|exact Hm3].
  - apply (synced_kept _ _ (disk s)); [exact Hsy|]. intros t Ht. rewrite Hfr by lia. apply front_kept. lia.
  - done.
  - done.
  - lia.
  - rewrite Hbl. exact Hin.
  - exact Hbf.
  - intros d4 Hd4 Hs4 Hf4. apply HQ.
    assert (Hof : no / 4096 < Z.of_nat (bm_sects INODE_BITMAP p)) by (rewrite Hm2 in Hin; cbn [bm_sects] in *; dlia).
    assert (Hof0 : 0 <= no / 4096) by dlia. cbn [bm_lba] in *.
    destruct (table_outside (set_inode_bitmap b p) d3 d4 Htw3 Hd4) as [Htw4 HT4]; [intros t Ht; cbn [sb set_inode_bitmap] in Ht; apply Hf4; lia|]. split.
    + apply table_wf_bitmap in Htw4. split; [done|]. exact (eq_trans HT4 HT3).
    + rewrite Hf4, Hfr by lia. apply lookup_insert_eq.
    + exact Hs4.
    + intros t Ht Hne. rewrite Hf4, Hfr by lia. by apply front_kept.
Qed.
End syncs.

(** The entry is added. *)
Lemma entry_run no s1 (Q : bool -> fsys -> Prop) : creatable -> is_u32 no -> dirs s1 = dirs s -> inodes s1 !! x = Some pi -> disk s1 = disk s ->
  sb (cur_part s1) = sb p ->
  Q true (entry_added s1 x lba pi buf idx (new_entry name no)) -> wp (sync_dir_entry d (new_entry name no)) Q s1.
Proof using.
  intros Hc Hno Edir Hpi Ed Ep HQ. destruct (ct_dir Hc) as (v & Hv & Hx). destruct (ct_inode Hc) as [_ [[] _ Hsz]].
  destruct (ct_room Hc) as [[[Hn1 Hn2] [Hb Hff] Hfull Hmax] Hlba]. pose proof (ct_table Hc) as [Htw _]. pose proof (ct_bit Hc) as [[_ _ _ _ Hda _] _ _ Hes].
  pose proof (tw_lba _ _ Htw). fold p in Hda, Hes.
  apply wp_Ok. exists true, (entry_added s1 x lba pi buf idx (new_entry name no)). split; [|exact HQ]. rewrite <- Hx.
  apply (sync_dir_entry_reuses s1 d v pi n); rewrite ?Edir, ?Ed, ?Ep, ?Hx; try done; [exact (tw_disk _ _ Htw)|lia|].
  by apply new_entry_length, Hno; apply (ct_name Hc).
Qed.

(** file_create, when nothing is missing. *)
Lemma file_create_run (Q : Z -> fsys -> Prop) : creatable ->
  (forall no b dk, 0 <= no < 256 -> alloc_post (inode_bitmap p) no b -> created_disk p (disk s) T pi no lba buf idx name b dk ->
     Q l (after_create s x pi a no k l flag b dk h)) -> wp (file_create d name flag) Q s.
Proof using.
  intros Hc HQ. destruct (ct_heap Hc) as (Hh & Hio & Ha & Hfresh). destruct (ct_bit Hc) as [Hlw _ (Hi0 & Hi1 & Hi2) _]. destruct (ct_places Hc) as [Hk Hl].
  destruct (ct_dir Hc) as (v & Hv & Hvx). destruct (ct_inode Hc) as [Hpi _]. assert (Hax : a <> x) by congruence. pose proof (lw_inode _ Hlw) as [Hm1 Hm2 _].
  pose proof (wf_mem _ Hm1) as Hmem. cbn [bm bm_sects] in *. fold p in Hm1, Hm2, Hmem, Hi1, Hi2. unfold file_create. wp_simp. eapply sys_malloc_run; [exact Hh|].
  rewrite (proj2 (Z.eqb_neq io NULL)) by done. wp_simp.
  apply (inode_bitmap_alloc_run _ i0); cbn [cur_part set_heap]; fold p; [exact Hm1|lia|lia|exact Hi2|]. intros no b Hal. pose proof Hal as ((Hno & _ & Hlow) & _).
  assert (Hno' : 0 <= no < 256).
  { split; [lia|]. destruct (decide (i0 < no)); [|lia]. rewrite Hlow in Hi2 by lia. done. }
  rewrite (proj2 (Z.eqb_neq no (-1))) by lia. wp_simp. eapply sys_malloc_run; [reflexivity|]. rewrite (proj2 (Z.eqb_neq a NULL)) by done.
  unfold new_inode. wp_simp. apply wp_valid. split; [by apply negb_true_iff, Z.eqb_neq|]. wp_simp.
  apply (free_slot_run _ k); [by destruct Hk|]. destruct Hk as [Hk1 (f & Hf & _) _]. rewrite (proj2 (Z.eqb_neq k (-1))) by lia. wp_simp.
  eapply wp_st_file; [exact Hf|]. wp_simp. eapply wp_ld_inode; [apply lookup_insert_eq|]. wp_simp. eapply wp_st_inode; [apply lookup_insert_eq|].
  wp_simp. apply create_dir_entry_run; [apply (ct_name Hc)|]. wp_simp. 
  eapply entry_run; [exact Hc|unfold is_u32; lia|reflexivity|by cbn; rewrite !lookup_insert_ne|reflexivity|reflexivity|]. cbn [negb]. wp_simp.
  eapply wp_ld_dir; [exact Hv|]. rewrite Hvx, wp_bind. eapply wp_ld_inode; [apply lookup_insert_eq|].
  eapply (syncs_run Hc no b Hno' Hal); [reflexivity|reflexivity|by cbn; rewrite lookup_insert_ne, lookup_insert_eq|]. intros dk Hdk.
  unfold open_push. wp_simp. eapply wp_ld_inode; [by cbn; rewrite lookup_insert_ne, lookup_insert_eq|]. wp_simp.
  eapply wp_st_inode; [by cbn; rewrite lookup_insert_ne, lookup_insert_eq|]. wp_simp. apply (fd_install_run _ l); [by destruct Hl|].
  specialize (HQ no b dk Hno' Hal Hdk). unfold after_create in HQ. cbn. rewrite u8_small by apply (ct_flag Hc).
  rewrite insert_insert_eq, (insert_insert_ne _ x a), insert_insert_eq by done.
  exact HQ.
Qed.
End create.

(** ** sys_open with O_CREAT *)

(** The directory [dir] keeps the block [n] at sector [lba] for itself, and the
    blocks of directories are in the data area. An inode that is on disk is in
    use. *)
Record apart (s : fsys) (T : list Z) (dir n lba : Z) : Prop := {
  ap_data : forall m es x, dir_at s T m es -> dir_block s T m x -> data_start_lba (sb (cur_part s)) <= x;
  ap_own : forall m es, m <> dir -> dir_at s T m es -> ~ dir_block s T m lba;
  ap_table : i_sectors (disk_inode T dir) !! 12%nat <> Some lba;
  ap_once : forall lbas j, block_map (disk s) (disk_inode T dir) = Some lbas -> lbas !! j = Some lba -> j = Z.to_nat n;
  ap_used : forall m, inode_at T m -> bit_used (inode_bitmap (cur_part s)) m = true
}.

(** Block addresses, front part. *)
Lemma block_map_direct d i lbas k x : block_map d i = Some lbas -> (k < 12)%nat -> i_sectors i !! k = Some x -> lbas !! k = Some x.
Proof.
  intros Hm Hk Hx. assert (Ht : take 12 (i_sectors i) !! k = Some x) by by rewrite lookup_take_lt.
  unfold block_map, direct_blocks in Hm. destruct (i_sectors i !! 12%nat) as [t|]; [|done].
  destruct (t =? 0); [|destruct (d !! t); [|done]]; injection Hm as <-; by rewrite lookup_app_l by by eapply lookup_lt_Some.
Qed.

Section table.
Context (p : partition) (d : gmap Z (list Z)) (T : list Z) (pi : inode) (dir no : Z).
Context (Htw : table_wf p d) (HT : table p d = Some T) (Hpi : dir_inode_ok pi) (Hdir : i_no pi = dir) (Hno : 0 <= no < 256) (Hne : no <> dir).
Let T' := set_slot (set_slot T (i_no pi) (enc_inode (pure_inode (one_more pi)))) no (enc_inode (inode_init no)).

Lemma dir_range : 0 <= dir < 256.
Proof using Hpi Hdir. clear -Hpi Hdir. destruct Hpi as [[[] _ _ _ _ _] H _]. lia. Qed.

Lemma one_more_length : length (enc_inode (pure_inode (one_more pi))) = 76%nat.
Proof using Hpi. apply enc_inode_length, (iw_len pi), Hpi. Qed.

Lemma new_slot : disk_inode T' no = inode_init no.
Proof using Htw HT Hpi Hdir Hno.
  clear Hne. pose proof dir_range. pose proof (table_length _ _ _ (tw_disk _ _ Htw) HT) as Hl. unfold disk_inode, T'.
  rewrite slot_set_eq; [|apply set_slot_length; [done|lia|apply one_more_length]|lia|reflexivity].
  rewrite <- (app_nil_r (enc_inode _)). apply dec_enc_inode, inode_init_wf. unfold is_u32. lia.
Qed.

Lemma dir_slot : disk_inode T' dir = pure_inode (one_more pi).
Proof using Type*.
  pose proof dir_range. pose proof (table_length _ _ _ (tw_disk _ _ Htw) HT) as Hl. unfold disk_inode, T'.
  rewrite slot_set_ne; [|apply set_slot_length; [done|lia|apply one_more_length]|lia|lia|done|reflexivity].
  rewrite <- Hdir. rewrite slot_set_eq; [|done|lia|apply one_more_length].
  rewrite <- (app_nil_r (enc_inode _)). apply dec_enc_inode. destruct Hpi as [[] _ _]. pose proof (u32_bound (i_size pi + 24)). split; try done; unfold is_u32; cbn; lia.
Qed.

Lemma other_slot m : 0 <= m -> m <> no -> m <> dir -> disk_inode T' m = disk_inode T m.
Proof using Htw HT Hpi Hdir Hno.
  clear Hne. intros Hm Hm1 Hm2. pose proof dir_range. pose proof (table_length _ _ _ (tw_disk _ _ Htw) HT) as Hl. unfold disk_inode, T'.
  rewrite slot_set_ne; [|apply set_slot_length; [done|lia|apply one_more_length]|lia|lia|done|reflexivity].
  rewrite slot_set_ne; [done|done|lia|lia|congruence|apply one_more_length].
Qed.
End table.

Section opened.
(** The state before sys_open, and the one in which the search has left the
    directory [dir] open at [d]. *)
Context (s0 : fsys) (T : list Z) (dir d : Z) (h0 : list Z) (s1 : fsys).
Context (Hs : searchable s0 T) (Hd : holding s0 T dir d h0 s1) (Hfresh : fresh s0 h0).

(** The inode of the directory, on disk and where it is in memory. *)
Definition dir_known : Prop :=
  dir_inode_ok (disk_inode T dir) /\
  forall a i, a ∈ open_inodes (cur_part s0) -> inodes s0 !! a = Some i -> i_no i = dir -> dir_inode_ok i.

Lemma dir_inode_ok_cnts n i : is_u32 n -> dir_inode_ok i -> dir_inode_ok (set_i_open_cnts n i).
Proof using. intros Hn [[] ? ?]. by split. Qed.

Lemma holding_inode : dir_known -> exists v pi, dirs s1 !! d = Some v /\ inodes s1 !! dir_inode v = Some pi /\ dir_inode v ∉ h0 /\
  i_no pi = dir /\ i_sectors pi = i_sectors (disk_inode T dir) /\ dir_inode_ok pi.
Proof using Hs Hd Hfresh.
  intros [Hok1 Hok2]. destruct (holding_dir s0 T dir d h0 s1 Hs Hd) as (v & pi & Hv & Hi & Hn & Hsec). exists v, pi. split; [done|]. split; [done|].
  assert (Hin : forall x, is_Some (inodes s0 !! x) -> x ∉ h0).
  { intros x [i Hx] Hh. destruct Hfresh as [_ Hun]. rewrite list.Forall_forall in Hun. destruct (Hun x Hh) as (_ & Hx' & _). congruence. }
  destruct Hd as [v' i' -> Hv' Hx Hi' Hn'|x i' _ _ Hx Hi' Hn'|x _ _ Hx Hat Hno Hxh].
  - cbn in Hv, Hi. rewrite Hv' in Hv. simplify_eq. split; [apply Hin; by eexists|]. split; [done|]. split; [done|]. by eapply Hok2.
  - cbn in Hv, Hi. rewrite lookup_insert_eq in Hv. injection Hv as <-. cbn in Hi |- *. rewrite lookup_insert_eq in Hi. injection Hi as <-.
    split; [apply Hin; by eexists|]. split; [done|]. split; [done|]. apply dir_inode_ok_cnts; [|by eapply Hok2].
    pose proof (sr_counts s0 T Hs x i' Hx Hi'). pose proof (sr_cache s0 T Hs) as (_ & Hc & _). pose proof (Hc x i' Hx Hi'). unfold is_u32. lia.
  - cbn in Hv, Hi. rewrite lookup_insert_eq in Hv. injection Hv as <-. cbn in Hi |- *. rewrite lookup_insert_eq in Hi. injection Hi as <-.
    split; [done|]. split; [done|]. split; [done|]. apply dir_inode_ok_cnts; [unfold is_u32; lia|done].
Qed.

(** [s3] is [s2] with the directory closed: the file is as open as it was. *)
Record dir_closed (a : Z) (s2 s3 : fsys) : Prop := {
  dc_disk : disk s3 = disk s2;
  dc_part : exists L, cur_part s3 = set_open_inodes L (cur_part s2) /\ a ∈ L;
  dc_inode : inodes s3 !! a = inodes s2 !! a;
  dc_tables : file_table s3 = file_table s2 /\ fd_table s3 = fd_table s2;
  dc_dirs : dirs s3 = dirs s0;
  dc_rest : cwd_inode_nr s3 = cwd_inode_nr s0 /\ processor s3 = processor s0
}.

Lemma close_after_create v pi a no k l flag b dk h (Q : unit -> fsys -> Prop) (s2 := after_create s1 (dir_inode v) pi a no k l flag b dk h) :
  dirs s1 !! d = Some v -> inodes s1 !! dir_inode v = Some pi -> a <> dir_inode v ->
  (forall s3, dir_closed a s2 s3 -> Q tt s3) -> wp (dir_close d) Q s2.
Proof using Hs Hd.
  intros Hv Hpi Ha HQ. unfold dir_close. destruct Hd as [v' i' -> Hv' Hx Hi' Hn'|x i' Hdr Hfd Hx Hi' Hn'|x Hdr Hfd Hx Hat Hno Hxh].
  - rewrite Z.eqb_refl. wp_simp. apply HQ. split; try done. exists (a :: open_inodes (cur_part s0)). split; [done|by left].
  - rewrite (proj2 (Z.eqb_neq d root_dir)) by done. cbn in Hv, Hpi. rewrite lookup_insert_eq in Hv. injection Hv as <-. cbn in Hpi, Ha. rewrite lookup_insert_eq in Hpi. injection Hpi as <-.
    pose proof (sr_counts s0 T Hs x i' Hx Hi'). pose proof (sr_cache s0 T Hs) as (_ & Hc & _). pose proof (Hc x i' Hx Hi').
    wp_simp. eapply wp_ld_dir; [apply lookup_insert_eq|]. cbn [dir_inode]. wp_simp.
    eapply inode_close_run; [cbn; rewrite lookup_insert_ne by done; apply lookup_insert_eq|cbn; lia|by right| |cbn; lia]. intros _. wp_simp.
    apply HQ. split; try done; cbn.
    + exists (a :: open_inodes (cur_part s0)). split; [done|by left].
    + by rewrite lookup_insert_ne.
    + by rewrite delete_insert_id.
  - rewrite (proj2 (Z.eqb_neq d root_dir)) by done. cbn in Hv, Hpi. rewrite lookup_insert_eq in Hv. injection Hv as <-. cbn in Hpi, Ha. rewrite lookup_insert_eq in Hpi. injection Hpi as <-.
    wp_simp. eapply wp_ld_dir; [apply lookup_insert_eq|]. cbn [dir_inode]. wp_simp.
    eapply inode_close_run; [cbn; rewrite lookup_insert_ne by done; apply lookup_insert_eq|cbn; lia|right; by left|cbn; lia|]. intros _. wp_simp.
    apply HQ. split; try done; cbn -[filter list_filter].
    + eexists. split; [reflexivity|]. apply list_elem_of_filter. split; [done|by left].
    + by rewrite lookup_delete_ne.
    + by rewrite delete_insert_id.
Qed.
End opened.

Section result.
Context (s : fsys) (T : list Z) (dir n lba : Z) (buf : list Z) (idx i0 k l : Z) (name : list Z).

(** A file can be created in the directory [dir]: its block [n] has the first
    free entry, there is an inode, a place in the table of open files and a
    descriptor. *)
Record can_create : Prop := {
  cc_known : dir_known s T dir;
  cc_room : has_room (disk s) (i_sectors (disk_inode T dir)) n lba buf idx /\ data_start_lba (sb (cur_part s)) <= lba;
  cc_bit : inode_room s i0;
  cc_apart : apart s T dir n lba;
  cc_tight : forall es, dir_at s T dir es -> Forall tight es;
  cc_places : free_file s k /\ free_fd s l
}.

Context (Htab : table_wf (cur_part s) (disk s) /\ table (cur_part s) (disk s) = Some T) (Hcc : can_create) (Hname : good_name name).
Context (pi : inode) (Hpi : dir_inode_ok pi) (Hdir : i_no pi = dir) (Hsec : i_sectors pi = i_sectors (disk_inode T dir)).
Context (no : Z) (b : bitmap) (Hno : 0 <= no < 256) (Hfree : first_free_bit (inode_bitmap (cur_part s)) no).
Context (s' : fsys) (Hcd : created_disk (cur_part s) (disk s) T pi no lba buf idx name b (disk s')).
Let T' := set_slot (set_slot T (i_no pi) (enc_inode (pure_inode (one_more pi)))) no (enc_inode (inode_init no)).

Lemma used_not_new m : inode_at T m -> m <> no.
Proof using Hcc Hfree. intros Hm ->. pose proof (ap_used _ _ _ _ _ (cc_apart Hcc) no Hm). destruct Hfree as (_ & Hf & _). congruence. Qed.

(** No other inode has changed, and of the directory's only the size. *)
Lemma slots_kept m : inode_at T m -> i_no (disk_inode T' m) = i_no (disk_inode T m) /\ i_sectors (disk_inode T' m) = i_sectors (disk_inode T m).
Proof using All.
  intros Hm. destruct Htab as [Htw HT]. pose proof (used_not_new m Hm) as Hne. unfold T'. destruct (decide (m = dir)) as [->|Hmd].
  - rewrite (dir_slot (cur_part s) (disk s) T pi dir no Htw HT Hpi Hdir Hno) by congruence. destruct Hm as [_ Hm]. split; [change (i_no pi = i_no (disk_inode T dir)); congruence|exact Hsec].
  - rewrite (other_slot (cur_part s) (disk s) T pi dir no Htw HT Hpi Hdir Hno); [done| |done|done]. apply Hm.
Qed.

Lemma numbers_kept m : inode_at T m -> inode_at T' m.
Proof using All. intros Hm. pose proof (slots_kept m Hm) as [H _]. destruct Hm as [Hm1 Hm2]. split; [done|]. by rewrite H. Qed.

Lemma others_listed m es : m <> dir -> dir_at s T m es -> dir_at s' T' m es.
Proof using All.
  intros Hne Hm. apply (dir_at_kept s s' T T' m); [apply slots_kept, Hm| |done]. intros x Hx. apply (cd_frame _ _ _ _ _ _ _ _ _ _ _ Hcd).
  - by eapply (ap_data _ _ _ _ _ (cc_apart Hcc)).
  - intros ->. by eapply (ap_own _ _ _ _ _ (cc_apart Hcc)).
Qed.

Lemma dir_listed es : dir_at s T dir es ->
  exists es', dir_at s' T' dir es' /\ replaced (new_entry name no) es es'.
Proof using All.
  intros Hm. pose proof Hm as [Hin Ht (lbas & Hmap & Hl & Hes) Hnd]. pose proof (slots_kept dir Hin) as Hk. pose proof (cc_apart Hcc) as [A1 _ A3 A4 _].
  destruct (cc_room Hcc) as [[[Hn1 Hn2] [Hb Hff] Hfl _] Hlba]. assert (Hu : is_u32 no) by (unfold is_u32; lia).
  destruct (ir_layout _ _ (cc_bit Hcc)) as [_ _ _ _ Hda _]. destruct Htab as [Htw HT]. pose proof (tw_lba _ _ Htw) as Ht0.
  assert (Hfr : forall x, dir_block s T dir x -> x <> lba -> disk s' !! x = disk s !! x).
  { intros x Hx Hne. apply (cd_frame _ _ _ _ _ _ _ _ _ _ _ Hcd); [by eapply A1|done]. }
  assert (Hmap' : block_map (disk s') (disk_inode T' dir) = Some lbas).
  { rewrite (block_map_kept s s' T T' dir Hk); [done|]. intros x Hx Hx0. apply Hfr; [split; [done|by left]|congruence]. }
  destruct (listing_replaced (disk s) (disk s') lbas (Z.to_nat n) lba buf idx (new_entry name no) es) as (es' & Hes' & Hrep & Ht').
  - eapply block_map_direct; [exact Hmap|lia|exact Hn2].
  - lia.
  - intros j Hj Hx. by apply Hj, (A4 lbas).
  - intros x Hx Hx0 Hne. apply Hfr; [|done]. split; [done|]. right. by exists lbas.
  - intros j Hj. destruct (Hfl (Z.of_nat j)) as (l1 & b1 & Hl1 & H1 & H2); [lia|]. exists l1, b1. split; [|done].
    rewrite Nat2Z.id in Hl1. eapply block_map_direct; [exact Hmap|lia|exact Hl1].
  - exact Hb.
  - apply (cd_entry _ _ _ _ _ _ _ _ _ _ _ Hcd).
  - by apply (tw_disk _ _ Htw lba).
  - by apply new_entry_length.
  - done.
  - by apply new_entry_tight.
  - done.
  - by apply (cc_tight Hcc).
  - exists es'. split; [|done]. split.
    + by apply numbers_kept.
    + by rewrite (proj2 Hk).
    + by exists lbas.
    + eapply list.Forall_impl; [exact Ht'|apply tight_named].
Qed.

(** The path leads to the new file. *)
Lemma file_found names found : walks s T 0 0 [] names (Missing dir) found -> found = join names -> list.last names = Some name ->
  walks s' T' 0 0 [] names (Regular dir no) found.
Proof using All.
  intros Hw Hf Hl. destruct (walks_missed s T 0 0 [] names dir found name Hw Hf Hl) as (es & Hes & Hmiss). destruct (dir_listed es Hes) as (es' & Hes' & Hrep).
  assert (Hu : is_u32 no) by (unfold is_u32; lia). destruct (new_entry_fields name no Hname Hu) as [E1 E2].
  eapply (walks_created s s' T T' dir no name (new_entry name no) es es'); try done.
  - exact numbers_kept.
  - exact others_listed.
  - by apply (cc_tight Hcc).
  - by eapply c_string_take, new_entry_16.
Qed.
End result.

(** What sys_open has made of [s]: the inode [no] is in use and on disk, the
    path leads to it, and it is open; [T'] is the inode table now. In the
    directory only its entry is new: the bytes of [lba] were [buf], whose entry
    [idx] was free. *)
Record file_created (s : fsys) (T : list Z) (dir lba : Z) (buf : list Z) (idx k l flag : Z) (names : list (list Z)) (no : Z) (T' : list Z) (s' : fsys) : Prop := {
  fc_path : walks s' T' 0 0 [] names (Regular dir no) (join names);
  fc_inode : table (cur_part s') (disk s') = Some T' /\ disk_inode T' no = inode_init no;
  fc_bit : first_free_bit (inode_bitmap (cur_part s)) no /\ synced INODE_BITMAP (cur_part s') (disk s') /\
    forall j, 0 <= j -> bit_used (inode_bitmap (cur_part s')) j = if j =? no then true else bit_used (inode_bitmap (cur_part s)) j;
  fc_open : exists a, unused s a /\ inodes s' !! a = Some (set_i_open_cnts 1 (inode_init no)) /\ a ∈ open_inodes (cur_part s') /\
    file_table s' = <[Z.to_nat k := File 0 flag a]> (file_table s) /\ fd_table s' = <[Z.to_nat l := k]> (fd_table s);
  fc_entry : exists name, list.last names = Some name /\
    disk s !! lba = Some buf /\ disk s' !! lba = Some (splice buf (Z.to_nat (24 * idx)) (new_entry name no)) /\
    forall es, dir_at s T dir es -> exists es', dir_at s' T' dir es' /\ replaced (new_entry name no) es es';
  fc_inodes : i_sectors (disk_inode T' dir) = i_sectors (disk_inode T dir) /\
    forall m, 0 <= m -> m <> no -> m <> dir -> disk_inode T' m = disk_inode T m;
  fc_dirs : forall m es, m <> dir -> dir_at s T m es -> dir_at s' T' m es;
  fc_data : forall x, data_start_lba (sb (cur_part s)) <= x -> x <> lba -> disk s' !! x = disk s !! x;
  fc_same : dirs s' = dirs s /\ cwd_inode_nr s' = cwd_inode_nr s /\ processor s' = processor s /\
    block_bitmap (cur_part s') = block_bitmap (cur_part s)
}.

(** The search leaves everything that file_create needs. *)
Lemma creatable_held s T dir n lba buf idx i0 k l name d io a h s1 v pi flag : searchable s T -> holding s T dir d (io :: a :: h) s1 ->
  fresh s (io :: a :: h) -> can_create s T dir n lba buf idx i0 k l -> good_name name -> 0 <= flag < 256 ->
  dirs s1 !! d = Some v -> inodes s1 !! dir_inode v = Some pi -> dir_inode v ∉ io :: a :: h ->
  i_sectors pi = i_sectors (disk_inode T dir) -> dir_inode_ok pi ->
  creatable s1 T d (dir_inode v) pi name n lba buf idx i0 k l flag io a h.
Proof.
  intros Hs Hd Hfr [_ [Hr Hlba] [[L1 L2 L3 L4 L5 L6] Isy Ifr Ien] _ _ [Hk Hl]] Hn Hf Hv Hpi Hx Hsec Hok.
  destruct (holding_same _ _ _ _ _ _ Hd) as (Hh & Edk & Esb & _). destruct (holding_tables _ _ _ _ _ _ k l Hd Hk Hl) as [Hk1 Hl1].
  destruct (fresh_cons _ _ _ Hfr) as ([Hio _] & _ & Hfr2). destruct (fresh_cons _ _ _ Hfr2) as ((Ha & Hai & _) & _ & _).
  split; try done.
  - by exists v.
  - by eapply holding_table.
  - by rewrite Edk, Esb, Hsec.
  - destruct Hd; (split; [first [by split|by apply layout_open]|done|done|done]).
  - split; [done|]. split; [done|]. split; [done|]. destruct Hd as [v' i' -> Hv' _ Hi' _|x i' _ _ Hxo Hi' _|x _ _ Hxi _ _ _]; [done| |];
      cbn in Hv, Hx |- *; rewrite lookup_insert_eq in Hv; injection Hv as <-; cbn in Hx; rewrite lookup_insert_ne; [done| |done|]; intros ->;
      apply Hx; right; by left.
Qed.

Section create_open.
Context (s : fsys) (T stack pathname : list Z) (flags dir n lba : Z) (buf : list Z) (idx i0 k l : Z).
Let names := components pathname.
Context (Hs : searchable s T) (Hst : length stack = 24%nat) (Hp : good_path pathname) (Hlast : list.last pathname <> Some slash).
Context (Hfl : 0 <= flags <= 7) (Hcr : Z.land flags O_CREAT <> 0) (Hw : walks s T 0 0 [] names (Missing dir) (join names)).
Context (Hcc : can_create s T dir n lba buf idx i0 k l) (Hheap : (5 * length names + 5 <= length (heap s))%nat).

Lemma last_name : exists name, list.last names = Some name /\ good_name name /\ last_component pathname = name.
Proof using Hp.
  destruct (list.last names) as [name|] eqn:E.
  - exists name. split; [done|]. split; [|unfold last_component; fold names; by rewrite E].
    apply last_Some_elem_of in E. pose proof (gp_names _ Hp) as Hg. rewrite list.Forall_forall in Hg. by apply Hg.
  - apply last_None in E. by destruct (gp_some _ Hp).
Qed.

(** The state in which the directory has been closed. *)
Lemma created_result d h0 s1 v pi name a no b dk h s3 : holding s T dir d h0 s1 -> list.last names = Some name -> good_name name ->
  dir_inode_ok pi -> i_no pi = dir -> i_sectors pi = i_sectors (disk_inode T dir) -> 0 <= no < 256 -> unused s a ->
  alloc_post (inode_bitmap (cur_part s1)) no b -> created_disk (cur_part s1) (disk s1) T pi no lba buf idx name b dk ->
  dir_closed s a (after_create s1 (dir_inode v) pi a no k l flags b dk h) s3 ->
  exists T', file_created s T dir lba buf idx k l flags names no T' s3.
Proof using Hs Hw Hcc.
  intros Hd Hln Hn Hok Hno Hsec Hn256 Ha Hal Hcd [C1 (L & C2 & C3) C4 [C5 C6] C7 [C8 C9]]. destruct (sr_table s T Hs) as [Htw HT].
  assert (E : inode_bitmap (cur_part s1) = inode_bitmap (cur_part s) /\ block_bitmap (cur_part s1) = block_bitmap (cur_part s) /\
    file_table s1 = file_table s /\ fd_table s1 = fd_table s) by by destruct Hd.
  destruct E as (E1 & E2 & E3 & E4). rewrite E1 in Hal. destruct Hal as (Hff & _ & _ & _ & Hbits & _).
  assert (Hcd' : created_disk (cur_part s) (disk s) T pi no lba buf idx name b (disk s3)).
  { rewrite C1. destruct Hd; [exact Hcd|exact Hcd|]. destruct Hcd as [[[] ?] ? ? ?]. split; [split; [by split|done]|done..]. }
  eexists. split.
  - eapply (file_found s T dir n lba buf idx i0 k l name (conj Htw HT) Hcc Hn pi Hok Hno Hsec no b Hn256 Hff s3 Hcd'); [exact Hw|done|done].
  - rewrite C2. split; [|eapply new_slot; [exact Htw|exact HT|exact Hok|exact Hno|exact Hn256]]. destruct (cd_table _ _ _ _ _ _ _ _ _ _ _ Hcd') as [_ H]. etrans; [|exact H]. by destruct Hd.
  - split; [done|]. rewrite C2. split; [|exact Hbits]. pose proof (cd_bitmap _ _ _ _ _ _ _ _ _ _ _ Hcd') as H. clear -H Hd. by destruct Hd.
  - exists a. rewrite C4, C5, C6, C2. cbn. rewrite lookup_insert_eq, E3, E4. by split.
  - exists name. split; [done|]. split; [apply (cc_room _ _ _ _ _ _ _ _ _ _ Hcc)|]. split; [apply (cd_entry _ _ _ _ _ _ _ _ _ _ _ Hcd')|].
    intros es Hes. by eapply (dir_listed s T dir n lba buf idx i0 k l name (conj Htw HT) Hcc Hn pi Hok Hno Hsec no b Hn256 Hff s3 Hcd').
  - destruct (walks_missed s T 0 0 [] names dir _ name Hw eq_refl Hln) as (es0 & [Hda _ _ _] & _).
    split; [by apply (slots_kept s T dir n lba buf idx i0 k l name (conj Htw HT) Hcc Hn pi Hok Hno Hsec no b Hn256 Hff s3 Hcd' dir)|].
    intros m Hm Hmn Hmd. by apply (other_slot (cur_part s) (disk s) T pi dir no Htw HT Hok Hno Hn256).
  - intros m es Hm. by eapply (others_listed s T dir n lba buf idx i0 k l name (conj Htw HT) Hcc Hn pi Hok Hno Hsec no b Hn256 Hff s3 Hcd').
  - intros x. apply (cd_frame _ _ _ _ _ _ _ _ _ _ _ Hcd').
  - rewrite C2. by split.
Qed.

Lemma sys_open_create_run (Q : Z -> fsys -> Prop) :
  (forall no T' s', 0 <= no < 256 -> file_created s T dir lba buf idx k l flags names no T' s' -> Q l s') -> wp (sys_open stack pathname flags) Q s.
Proof using All.
  intros HQ. destruct last_name as (name & Hln & Hn & Hlc). unfold sys_open. wp_simp. destruct (list.last pathname) as [c|] eqn:Hc.
  2: { apply last_None in Hc. pose proof (gp_len _ Hp) as H. rewrite Hc in H. cbn in H. lia. }
  apply wp_of_option. exists c. split; [done|]. rewrite (proj2 (Z.eqb_neq c slash)) by congruence. wp_simp. apply wp_ASSERT. split; [lia|]. wp_simp.
  eapply (search_file_run s T); [exact Hs|exact Hp|exact Hw|exact Hst|fold names; lia|]. intros d h0 s1 Hlo Hd _. fold names in Hlo. wp_simp.
  cbn [file_type parent_dir searched_path found_type found_no found_dir] in *. rewrite (found_depth s T pathname _ _ Hw). fold names.
  rewrite bool_decide_eq_true_2 by done. unfold truthy. rewrite (proj2 (Z.eqb_neq _ 0) Hcr). cbn [negb andb Z.eqb Pos.eqb]. wp_simp. rewrite Hlc.
  pose proof (left_of_fresh _ _ _ _ Hlo (sr_heap _ _ Hs)) as Hfr. pose proof Hlo as [_ Hlen].
  destruct (holding_inode s T dir d h0 s1 Hs Hd Hfr (cc_known _ _ _ _ _ _ _ _ _ _ Hcc)) as (v & pi & Hv & Hpi & Hx & Hno & Hsec & Hok).
  destruct h0 as [|io [|a h]]; [cbn in Hlen; lia..|]. destruct (fresh_cons _ _ _ Hfr) as (_ & _ & Hfr2). destruct (fresh_cons _ _ _ Hfr2) as (Ha & _).
  change (FT_UNKNOWN =? FT_DIRECTORY) with false. cbn iota. rewrite wp_bind. eapply (file_create_run s1 T d (dir_inode v) pi name n lba buf idx i0 k l flags io a h).
  { eapply (creatable_held s T dir); try done. lia. }
  intros no b dk Hn256 Hal Hcd. wp_simp.
  eapply (close_after_create s T dir d (io :: a :: h) s1 Hs Hd); [exact Hv|exact Hpi| |].
  { intros ->. apply Hx. right. by left. }
  intros s3 Hc3. wp_simp. destruct (created_result d (io :: a :: h) s1 v pi name a no b dk h s3) as [T' H]; try done. by eapply HQ.
Qed.
End create_open.

(** [C16] sys_open with O_CREAT creates a file that can be found. When the path
    leads through existing directories to a name that the last of them does not
    have, sys_open takes the first free inode and the first free entry of that
    directory; on the disk it leaves, the same path leads to the new inode, which
    is empty, the bitmap of inodes is the one in memory, and that inode is open
    under the descriptor returned. That directory lists the new entry in the
    place of its first free one, and else what it listed: no entry in use is
    touched, the sector changes in those 24 bytes, and the directory keeps its
    blocks. Every other directory lists what it listed, every other inode on disk
    is what it was, and no data sector but the one with the entry has changed. *)
Theorem sys_open_creates s T stack pathname flags dir n lba buf idx i0 k l :
  searchable s T -> length stack = 24%nat -> good_path pathname -> list.last pathname <> Some slash ->
  0 <= flags <= 7 -> Z.land flags O_CREAT <> 0 -> walks s T 0 0 [] (components pathname) (Missing dir) (join (components pathname)) ->
  can_create s T dir n lba buf idx i0 k l -> (5 * length (components pathname) + 5 <= length (heap s))%nat ->
  exists no T' s', sys_open stack pathname flags s = Ok (l, s') /\ 0 <= no < 256 /\ file_created s T dir lba buf idx k l flags (components pathname) no T' s'.
Proof.
  intros Hs Hst Hp Hl Hf Hc Hw Hcc Hh.
  assert (H : wp (sys_open stack pathname flags) (fun fd s' => fd = l /\ exists no T', 0 <= no < 256 /\
    file_created s T dir lba buf idx k l flags (components pathname) no T' s') s).
  { eapply (sys_open_create_run s T stack pathname flags dir n lba buf idx i0 k l); try done. intros no T' s' Hno H. split; [done|]. by exists no, T'. }
  apply wp_Ok in H as (fd & s' & E & -> & no & T' & Hno & H). by exists no, T', s'.
Qed.

(** *** Witness: /file2, in the root directory of the demonstration partition *)

#[local] Instance is_byte_dec c : Decision (is_byte c).
Proof. unfold is_byte. apply _. Defined.
#[local] Instance tight_dec e : Decision (tight e).
Proof. unfold tight. apply _. Defined.

Definition file2 : list Z := [slash; 102; 105; 108; 101; 50].

(** The slots behind that of inode 6 are empty. *)
Lemma demo_table_rest : drop 532 demo_table = replicate (Z.to_nat 310764) 0.
Proof. apply (bool_decide_unpack _). vm_compute. exact I. Qed.

Lemma demo_inodes m : inode_at demo_table m -> m = 0 \/ m = 6.
Proof.
  intros [Hm Hi]. destruct (decide (m < 7)) as [Hlt|Hge].
  - assert (H : m = 0 \/ m = 1 \/ m = 2 \/ m = 3 \/ m = 4 \/ m = 5 \/ m = 6) by lia.
    destruct H as [->|[->|[->|[->|[->|[->| ->]]]]]]; [by left|vm_compute in Hi; discriminate..|by right].
  - assert (E : slot demo_table m = replicate 76 0).
    { unfold slot. replace (76 * Z.to_nat m)%nat with (532 + (76 * Z.to_nat m - 532))%nat by lia.
      rewrite <- drop_drop, demo_table_rest, drop_replicate, take_replicate. f_equal. lia. }
    unfold disk_inode in Hi. rewrite E in Hi. vm_compute in Hi. lia.
Qed.

Lemma demo_disk_inode : disk_inode demo_table 6 = demo_inode.
Proof. vm_compute. reflexivity. Qed.

Lemma demo_blocks m x : inode_at demo_table m -> dir_block path_fs demo_table m x -> (m = 0 /\ x = 612) \/ (m = 6 /\ 612 < x).
Proof.
  assert (H : forall i (L : list Z), i_sectors i !! 12%nat = Some 0 -> Forall (fun y => y = 0 \/ y ∈ L) (direct_blocks i) ->
    x <> 0 /\ (i_sectors i !! 12%nat = Some x \/ exists lbas, block_map (disk path_fs) i = Some lbas /\ x ∈ lbas) -> x ∈ L).
  { intros i L H12 Hall [Hx0 [Hx|(lbas & Hm & Hx)]]; [congruence|]. unfold block_map in Hm. rewrite H12 in Hm. injection Hm as <-.
    rewrite list.Forall_forall in Hall. by destruct (Hall x Hx). }
  intros [-> | ->]%demo_inodes Hx; unfold dir_block in Hx; rewrite ?path_root_inode, ?demo_disk_inode in Hx.
  - left. split; [done|]. apply list_elem_of_singleton. apply (H demo_root_inode); [reflexivity| |exact Hx]. apply (bool_decide_unpack _). vm_compute. exact I.
  - right. split; [done|]. assert (Hin : x ∈ [614; 615; 617]).
    { apply (H demo_inode); [reflexivity| |exact Hx]. apply (bool_decide_unpack _). vm_compute. exact I. }
    apply elem_of_cons in Hin as [->|Hin]; [lia|]. apply elem_of_cons in Hin as [->|Hin]; [lia|]. apply list_elem_of_singleton in Hin as ->. lia.
Qed.

Lemma demo_free_entry : first_free_entry demo_root 3.
Proof. split; [lia|]. split; [vm_compute; reflexivity|]. apply (entries_below _ 3). vm_compute. reflexivity. Qed.

Lemma demo_apart : apart path_fs demo_table 0 0 612.
Proof.
  split.
  - intros m es x [Hm _ _ _] Hx. change (data_start_lba (sb (cur_part path_fs))) with 612. destruct (demo_blocks m x Hm Hx) as [[_ ->]|[_ ?]]; lia.
  - intros m es Hne [Hm _ _ _] Hx. destruct (demo_blocks m 612 Hm Hx) as [[? _]|[_ ?]]; lia.
  - rewrite path_root_inode. discriminate.
  - rewrite path_root_inode. intros lbas j [= <-] Hj. destruct j as [|j]; [done|]. exfalso.
    assert (Hin : 612 ∈ replicate 139 0) by exact (list_elem_of_lookup_2 (replicate 139 0) j 612 Hj). by apply elem_of_replicate in Hin as [? _].
  - intros m [-> | ->]%demo_inodes; reflexivity.
Qed.

Lemma demo_can_create : can_create path_fs demo_table 0 0 612 demo_root 3 2 3 3.
Proof.
  assert (Hok : dir_inode_ok demo_root_inode).
  { split; [split; try (unfold is_u32; cbn; lia)|done|done]. apply (bool_decide_unpack (Forall (fun v => 0 <= v < 2 ^ 32) _)). vm_compute. exact I. }
  split.
  - split; [by rewrite path_root_inode|]. intros a i ->%list_elem_of_singleton. unfold path_fs. cbn [inodes]. rewrite lookup_singleton_eq.
    intros [= <-] _. apply dir_inode_ok_cnts; [unfold is_u32; lia|exact Hok].
  - rewrite path_root_inode. split; [|by vm_compute]. split.
    + split; [lia|reflexivity].
    + split; [reflexivity|exact demo_free_entry].
    + lia.
    + apply (bool_decide_unpack _). vm_compute. exact I.
  - split; [apply layout_open, demo_layout_wf|exact (demo_synced INODE_BITMAP)| |reflexivity]. split; [lia|]. split; [by vm_compute|reflexivity].
  - exact demo_apart.
  - intros es Hes. rewrite (dir_at_eq _ _ _ _ _ Hes path_root_at). apply (bool_decide_unpack _). vm_compute. exact I.
  - pose proof path_can_open as [_ Hk Hl _]. by split.
Qed.

(** It gets inode 2, which the bitmap shows free. *)
Lemma sys_open_creates_witness :
  exists no T' s', sys_open (replicate 24 0) file2 6 path_fs = Ok (3, s') /\ 0 <= no < 256 /\
    file_created path_fs demo_table 0 612 demo_root 3 3 3 6 (components file2) no T' s'.
Proof.
  apply (sys_open_creates path_fs demo_table (replicate 24 0) file2 6 0 0 612 demo_root 3 2 3 3 path_searchable).
  - reflexivity.
  - split; [reflexivity|cbn; lia|reflexivity|discriminate|]. repeat constructor; cbn; lia.
  - discriminate.
  - lia.
  - discriminate.
  - apply (W_missing _ _ 0 0 [] (drop 1 file2) [] _ path_root_at). vm_compute. reflexivity.
  - exact demo_can_create.
  - apply Nat.leb_le. vm_compute. reflexivity.
Defined.
