(* ===== verification/FileCalls.v ===== *)
(** * Calls on open files (fs/fs.c: sys_write, sys_lseek, sys_read)

    The calls of [Fs] put together: what is written through a descriptor is
    read back through it. *)

From Stdlib Require Import ZArith Lia.
From stdpp Require Import base numbers list gmap option.
From S2P Require Import Prelude Bitmap Intr DList FsTypes Blocks Inode FileOps FileWrite Fs.

Local Open Scope Z_scope.

(** The block addresses that file_read finds. *)
Lemma blocks_block_map own d i lbas : blocks_on own d i lbas -> ~ own 0 ->
  exists m, block_map d i = Some m /\ forall k x, lbas !! k = Some x -> m !! k = Some x.
Proof.
  intros [B1 B2 B3 B4 B5 B6 B7] Hz. unfold block_map, direct_blocks.
  assert (Hlow : forall rest k x, lbas !! k = Some x -> (k < 12)%nat -> (take 12 (i_sectors i) ++ rest) !! k = Some x).
  { intros rest k x Hx Hk. rewrite lookup_app_l by (rewrite length_take; lia). rewrite lookup_take_lt, B3 by done. by rewrite Hx. }
  destruct (decide (length lbas <= 12)%nat) as [Hl|Hl].
  - rewrite B4 by done. eexists. split; [done|]. intros k x Hx. apply Hlow; [done|]. apply lookup_lt_Some in Hx. lia.
  - destruct B5 as (t & buf & Ht & Hot & _ & Hb & Hr); [lia|]. rewrite Ht. destruct (Z.eqb_spec t 0) as [->|Hne]; [done|].
    rewrite Hb. eexists. split; [done|]. intros k x Hx. destruct (decide (k < 12)%nat); [by apply Hlow|].
    assert (Hk : (k < 140)%nat) by (apply lookup_lt_Some in Hx; lia). rewrite lookup_app_r by (rewrite length_take; lia).
    rewrite length_take, rd32s_lookup by lia. f_equal. apply Hr. rewrite <- Hx. f_equal. lia.
Qed.

Lemma zero_not_in_use s : part_ok s -> ~ in_use (cur_part s) 0.
Proof. intros Hp [[[Hx _] _] _]. destruct (area_bounds _ Hp). unfold area in *. lia. Qed.

(** file_read of a file on disk. *)
Lemma file_on_read s fd f i lbas data count a b h (Q : Z * list Z -> fsys -> Prop)
    (size := Z.min count (Z.of_nat (length data) - fd_pos f)) :
  part_ok s -> file_on (cur_part s) (disk s) i lbas data -> file_table s !! Z.to_nat fd = Some f -> inodes s !! fd_inode f = Some i ->
  0 <= fd_pos f < Z.of_nat (length data) -> 0 < count -> fd_pos f + count < 2 ^ 32 -> fd_pos f + size < 139 * 512 ->
  heap s = a :: b :: h -> a <> NULL -> b <> NULL ->
  Q (size, take (Z.to_nat size) (drop (Z.to_nat (fd_pos f)) data)) (read_state (set_heap h s) fd f size) -> wp (file_read fd count) Q s.
Proof.
  intros Hp [Hb Hs Hc Hh] Hf Hi Hpos Hcnt Hmax Hend Hheap Ha Hbn HQ. assert (Es : Z.min count (i_size i - fd_pos f) = size) by (unfold size; by rewrite Hs).
  destruct (blocks_block_map _ _ _ _ Hb (zero_not_in_use s Hp)) as (m & Hm & Hlk).
  eapply wp_mono; [eapply (file_read_run s fd f i m data count a b h)|]; rewrite ?Es; try done; try lia.
  - apply Hb.
  - intros k y Hy. destruct (Hh k y Hy) as (lba & sec & H1 & H2). exists lba, sec. split; [by apply Hlk|done].
  - intros H12. destruct (bo_indirect _ _ _ _ Hb) as (t & buf & Ht & [[Hx Hm'] _] & _).
    { destruct Hc as [[-> ->]| ->]; [cbn in *; lia|]. apply Nat.lt_succ_r, Nat.div_le_lower_bound; lia. }
    exists t. split; [done|]. destruct (area_bounds _ Hp). unfold area in *. lia.
  - intros r s' Hr. cbv zeta in Hr. rewrite (proj2 (Z.eqb_neq size 0)) in Hr by (unfold size; lia). by destruct Hr as [-> ->].
Qed.

Lemma fd_local2global_run fd g s (Q : Z -> fsys -> Prop) : fd_table s !! Z.to_nat fd = Some g -> 0 <= g < 32 -> Q g s -> wp (fd_local2global fd) Q s.
Proof. intros Hg Hr HQ. unfold fd_local2global. wp_load Hg. unfold MAX_FILE_OPEN. wp_assert. done. Qed.

(** [C22] Bytes written through a descriptor are read back through it: after
    sys_write of [buf] to a file of the bytes [data], sys_lseek to a position in
    the file and sys_read give what [data ++ buf] has there, as long as the
    bytes read end before block 139 of the file. A read that reaches that block,
    the last one a file can have, panics ([file_read_tail_panics] in [FileOps]). *)
Theorem write_seek_read s fd g f i lbas data buf T fr pos count a b c d h
    (size := Z.min count (Z.of_nat (length data + length buf) - pos)) :
  can_append s g f i lbas data buf T fr -> 2 < fd -> fd_table s !! Z.to_nat fd = Some g -> 0 <= g < 32 -> writable (fd_flag f) = true ->
  0 <= pos < Z.of_nat (length data + length buf) -> 0 < count -> pos + count < 2 ^ 32 -> pos + size < 139 * 512 ->
  heap s = a :: b :: c :: d :: h -> a <> NULL -> b <> NULL -> c <> NULL -> d <> NULL ->
  exists s', (do n <- sys_write fd buf (Z.of_nat (length buf));
              do p <- sys_lseek fd pos SEEK_SET;
              do r <- sys_read [] fd count;
              ret (n, p, r)) s =
    Ok (Z.of_nat (length buf), pos, (size, take (Z.to_nat size) (drop (Z.to_nat pos) (data ++ buf))), s').
Proof.
  intros Hca Hfd Hg Hgr Hwr Hpos Hcnt Hmax Hend Hheap Ha Hb Hc Hd. pose proof (ca_max _ _ _ _ _ _ _ _ _ Hca) as Hlen.
  match goal with |- exists s', ?m s = Ok (?r, s') => assert (H : wp m (fun x _ => x = r) s) end; [|wp_ok H; by subst; eexists].
  unfold sys_write. rewrite (proj2 (Z.ltb_ge fd 0)), (proj2 (Z.eqb_neq fd stdout_no)) by (unfold stdout_no; lia).
  wp_simp. eapply fd_local2global_run; [exact Hg|done|]. wp_simp. eapply wp_ld_file; [apply (ca_open _ _ _ _ _ _ _ _ _ Hca)|]. rewrite Hwr.
  eapply file_write_run; [exact Hca|exact Hheap|done|done|]. intros i' new F s' W. destruct W as [[W1 _] W2 W3 W4 _ _ _ _ _ _ W5].
  pose proof (fo_size _ _ _ _ _ W3) as Hsize. rewrite length_app in Hsize.
  assert (Hfd' : fd_table s' !! Z.to_nat fd = Some g) by (by rewrite W5). assert (Hh' : heap s' = c :: d :: h) by (by rewrite W5).
  pose proof (lookup_lt_Some _ _ _ (ca_open _ _ _ _ _ _ _ _ _ Hca)) as Hlt.
  unfold sys_lseek. rewrite (proj2 (Z.ltb_ge fd 0)) by lia. wp_simp. apply wp_ASSERT. split; [done|]. wp_simp.
  eapply fd_local2global_run; [exact Hfd'|done|]. wp_simp. eapply wp_ld_file; [rewrite W2; by apply list_lookup_insert_eq|]. cbn [fd_inode fd_pos fd_flag]. wp_simp.
  eapply wp_ld_inode; [rewrite W1; by apply lookup_insert_eq|]. wp_simp. cbn [Z.eqb SEEK_SET Pos.eqb].
  rewrite !s32_small by (rewrite ?Hsize, ?s32_small; lia). rewrite (proj2 (Z.ltb_ge pos 0)), (proj2 (Z.ltb_ge _ pos)) by lia. cbn [orb]. wp_simp.
  eapply wp_st_file; [rewrite W2; by apply list_lookup_insert_eq|]. wp_simp.
  unfold sys_read. rewrite (proj2 (Z.ltb_ge fd 0)), (proj2 (Z.eqb_neq fd stdout_no)), (proj2 (Z.eqb_neq fd stderr_no)), (proj2 (Z.eqb_neq fd stdin_no)) by
    (unfold stdout_no, stderr_no, stdin_no; lia). cbn [orb]. wp_simp.
  eapply fd_local2global_run; [exact Hfd'|done|]. wp_simp.
  eapply (file_on_read _ g (File pos (fd_flag f) (fd_inode f)) i' (lbas ++ new) (data ++ buf) count c d h); try done.
  - by destruct W4.
  - cbn. rewrite W2. apply list_lookup_insert_eq. by rewrite length_insert.
  - cbn. rewrite W1. by apply lookup_insert_eq.
  - cbn [fd_pos]. rewrite length_app. lia.
  - cbn [fd_pos]. rewrite length_app. exact Hend.
  - cbn [fd_pos]. rewrite length_app. wp_simp. done.
Qed.

(** *** Witness: 100 bytes from byte 1290 on, after 800 have been added *)

Definition calls_fs : fsys := set_fd_table [0; 1; 2; 3; -1; -1; -1; -1] append_fs.

Lemma calls_can : can_append calls_fs 3 (File 0 O_RDWR 0xc0290000) append_inode [614; 615; 617] demo_data append_buf append_table [616; 618].
Proof.
  destruct append_can as [C1 C2 [P1 P2 P3 P4] C4 C5 C6 C7 C8 C9].
  split; [exact C1|exact C2|split; [exact P1|exact P2|exact P3|exact P4]|exact C4|exact C5|exact C6|exact C7|exact C8|exact C9].
Qed.

Lemma write_seek_read_witness :
  exists s', (do n <- sys_write 3 append_buf 800; do p <- sys_lseek 3 1290 SEEK_SET; do r <- sys_read [] 3 100; ret (n, p, r)) calls_fs =
    Ok (800, 1290, (100, take 100 (drop 1290 (demo_data ++ append_buf))), s').
Proof.
  assert (E1 : Z.of_nat (length append_buf) = 800) by (vm_compute; reflexivity).
  assert (E2 : Z.of_nat (length demo_data + length append_buf) = 2100) by (vm_compute; reflexivity).
  pose proof (write_seek_read calls_fs 3 3 (File 0 O_RDWR 0xc0290000) append_inode [614; 615; 617] demo_data append_buf append_table [616; 618]
    1290 100 0xc0300000 0xc0300200 0xc0300600 0xc0300a00 [0xc0300c00] calls_can) as H.
  cbv zeta in H. rewrite E1, E2 in H. apply H; clear H; first [lia|reflexivity|unfold NULL; lia].
Defined.
