(* ===== verification/Format.v ===== *)
(** * Making, finding and mounting a file system (fs/fs.c, partition_format,
    mount_partition, filesys_init)

    The disks are those the driver found, one per channel: its sectors and its
    twelve partition slots. A partition on the list of partitions is the
    number of its channel and its slot. partition_format reads two fields of
    its super block before it assigns them: [stack_ibs] and [stack_its] are
    what the stack holds there, [pad] what it holds in the padding. Messages
    are not modelled. *)

From Stdlib Require Import ZArith Lia.
From stdpp Require Import base numbers list gmap option.
From S2P Require Import Prelude Bitmap Intr DList CString FsTypes Blocks Inode FileOps Dir Fs.

Local Open Scope Z_scope.

(** A slot of prim_parts or logic_parts; [p_name] is its string. *)
Record part_slot := PartSlot { p_name : list Z; p_start_lba : Z; p_sec_cnt : Z }.

(** A disk: its sectors, prim_parts and logic_parts. *)
Record hard_disk := HardDisk {
  hd_sectors : gmap Z (list Z);
  prim_parts : list part_slot;
  logic_parts : list part_slot
}.

Record machine := Machine {
  mfs : fsys;
  disks : list hard_disk;                  (* channels[c].devices[1] *)
  partition_list : list (nat * part_slot)
}.

(** A routine that uses the disk of channel [c]. *)
Definition on_hd {A} (c : nat) (m : M fsys A) : M machine A :=
  do s <- get;
  do hd <- of_option (disks s !! c);
  do '(a, fs') <- zoom (fun s => set_disk (hd_sectors hd) (mfs s)) (fun _ s => s)
                    (do a <- m; do t <- get; ret (a, t));
  put (Machine fs' (<[c := HardDisk (disk fs') (prim_parts hd) (logic_parts hd)]> (disks s)) (partition_list s)) ;;
  ret a.

(** ** partition_format *)

Definition super_magic : Z := 0x19590318.

(** The sizes and the super block, with the number of bits of the block bitmap. *)
Definition format_super (stack_ibs stack_its : Z) (part : part_slot) : super_block * Z :=
  let boot_sector_sects := 1 in
  let super_block_sects := 1 in
  let inode_bitmap_sects := DIV_ROUND_UP MAX_FILES_PER_PART BITS_PER_SECTOR in
  let inode_table_sects := DIV_ROUND_UP (sizeof_inode * MAX_FILES_PER_PART) SECTOR_SIZE in
  let used_sects := u32 (boot_sector_sects + super_block_sects + inode_bitmap_sects + inode_table_sects) in
  let free_sects := u32 (p_sec_cnt part - used_sects) in
  let block_bitmap_sects := DIV_ROUND_UP free_sects BITS_PER_SECTOR in
  let block_bitmap_bit_len := u32 (free_sects - block_bitmap_sects) in
  let block_bitmap_sects := DIV_ROUND_UP block_bitmap_bit_len BITS_PER_SECTOR in
  let block_bitmap_lba := u32 (p_start_lba part + 2) in
  let inode_bitmap_lba := u32 (block_bitmap_lba + stack_ibs) in
  let inode_table_lba := u32 (inode_bitmap_lba + stack_its) in
  (Super super_magic (p_sec_cnt part) MAX_FILES_PER_PART (p_start_lba part)
     block_bitmap_lba block_bitmap_sects inode_bitmap_lba inode_bitmap_sects
     inode_table_lba inode_table_sects (u32 (inode_table_lba + inode_table_sects)) 0 sizeof_dir_entry,
   block_bitmap_bit_len).

(** memset(&buf[off], v, n) *)
Definition fill (buf : list Z) (off v n : Z) : M fsys (list Z) :=
  valid (off + n <=? Z.of_nat (length buf)) ;;
  ret (splice buf (Z.to_nat off) (replicate (Z.to_nat n) v)).

(** buf[k] = f(buf[k]) *)
Definition upd_byte (buf : list Z) (k : Z) (f : Z -> Z) : M fsys (list Z) :=
  do b <- of_option (buf !! Z.to_nat k);
  ret (<[Z.to_nat k := u8 (f b)]> buf).

(** The block bitmap in the buffer. *)
Definition format_block_bitmap (buf : list Z) (block_bitmap_bit_len : Z) : M fsys (list Z) :=
  do buf <- upd_byte buf 0 (fun b => Z.lor b 1);
  let block_bitmap_last_byte := block_bitmap_bit_len / 8 in
  let block_bitmap_last_bit := u8 (block_bitmap_bit_len mod 8) in
  let last_size := u32 (SECTOR_SIZE - block_bitmap_last_byte mod SECTOR_SIZE) in
  do buf <- fill buf block_bitmap_last_byte 255 last_size;
  loop 9 (fun x =>
    let '(bit_idx, buf) := x in
    if bit_idx <=? block_bitmap_last_bit then
      do buf <- upd_byte buf block_bitmap_last_byte (fun b => Z.land b (Z.lnot (Z.shiftl 1 bit_idx)));
      ret (inl (bit_idx + 1, buf))
    else ret (inr buf)) (0, buf).

Definition partition_format (stack_ibs stack_its : Z) (pad : list Z) (part : part_slot) : M fsys unit :=
  let '(sb, block_bitmap_bit_len) := format_super stack_ibs stack_its part in
  ide_write (u32 (p_start_lba part + 1)) (enc_super sb pad) 1 ;;
  let buf_size := if inode_bitmap_sects sb <=? block_bitmap_sects sb then block_bitmap_sects sb else inode_bitmap_sects sb in
  let buf_size := u32 ((if inode_table_sects sb <=? buf_size then buf_size else inode_table_sects sb) * SECTOR_SIZE) in
  do a <- sys_malloc;
  valid (negb (a =? NULL)) ;;
  let buf := replicate (Z.to_nat buf_size) 0 in
  do bits <- format_block_bitmap buf block_bitmap_bit_len;
  ide_write (block_bitmap_lba sb) bits (Z.to_nat (block_bitmap_sects sb)) ;;
  do bits <- upd_byte buf 0 (fun b => Z.lor b 1);
  ide_write (inode_bitmap_lba sb) bits (Z.to_nat (inode_bitmap_sects sb)) ;;
  let i := Inode 0 (u32 (dir_entry_size sb * 2)) 0 0 (data_start_lba sb :: replicate 12 0) in
  ide_write (inode_table_lba sb) (splice buf 0 (enc_inode i)) (Z.to_nat (inode_table_sects sb)) ;;
  ide_write (data_start_lba sb) (splice buf 0 (dot_entries 0 0)) 1.

(** ** mount_partition *)

(** A buffer that must be there. *)
Definition need_malloc : M fsys unit :=
  do a <- sys_malloc;
  if a =? NULL then panic else ret tt.

(** The part of mount_partition after the name matched. [behind] is what
    follows each of the two maps in memory. *)
Definition mount (behind : list Z) (part : part_slot) : M fsys unit :=
  do sb_buf <- sys_malloc;
  need_malloc ;;
  valid (negb (sb_buf =? NULL)) ;;
  do buf <- ide_read (u32 (p_start_lba part + 1)) 1;
  let sb := dec_super buf in
  need_malloc ;;
  let block_bitmap := Bitmap (u32 (block_bitmap_sects sb * SECTOR_SIZE))
                        (replicate (Z.to_nat (u32 (block_bitmap_sects sb * SECTOR_SIZE))) 0 ++ behind) in
  need_malloc ;;
  do bits <- ide_read (block_bitmap_lba sb) (Z.to_nat (inode_bitmap_sects sb));
  let inode_bitmap := Bitmap (u32 (inode_bitmap_sects sb * SECTOR_SIZE)) (bits ++ behind) in
  modify (set_part (Part (p_start_lba part) (p_sec_cnt part) sb block_bitmap inode_bitmap [])).

Definition mount_partition (behind part_name : list Z) (pelem : nat * part_slot) : M machine bool :=
  if bool_decide (p_name pelem.2 = part_name) then
    on_hd pelem.1 (mount behind pelem.2) ;;
    ret true
  else ret false.

(** list_traversal of the partitions. *)
Fixpoint traverse (f : nat * part_slot -> M machine bool) (l : list (nat * part_slot)) : M machine bool :=
  match l with
  | [] => ret false
  | e :: l' => do stop <- f e; if stop then ret true else traverse f l'
  end.

(** ** filesys_init *)

Definition sdb1 : list Z := [115; 100; 98; 49].

(** The partition that [part] points to when part_idx is [part_idx]. *)
Definition part_at (hd : hard_disk) (part_idx : Z) : option part_slot :=
  if part_idx <? 4 then prim_parts hd !! Z.to_nat part_idx else logic_parts hd !! Z.to_nat (part_idx - 4).

(** What happens to one slot. *)
Definition check_part (stack_ibs stack_its : Z) (pad : list Z) (part : part_slot) : M fsys unit :=
  if negb (p_sec_cnt part =? 0) then
    do sb_buf <- ide_read (u32 (p_start_lba part + 1)) 1;
    if magic (dec_super sb_buf) =? super_magic then ret tt
    else partition_format stack_ibs stack_its pad part
  else ret tt.

Definition filesys_init (stack_ibs stack_its : Z) (pad behind : list Z) : M machine unit :=
  do sb_buf <- zoom mfs (fun t s => Machine t (disks s) (partition_list s)) sys_malloc;
  if sb_buf =? NULL then panic
  else
    do s <- get;
    loop (13 * S (length (disks s))) (fun x =>
      let '(channel_no, part_idx) := x in
      do s <- get;
      match disks s !! Z.to_nat channel_no with
      | None => ret (inr tt)                     (* channel_no reached channel_cnt *)
      | Some hd =>
          if part_idx <? 12 then
            do part <- of_option (part_at hd part_idx);
            on_hd (Z.to_nat channel_no) (check_part stack_ibs stack_its pad part) ;;
            ret (inl (channel_no, u8 (part_idx + 1)))
          else ret (inl (channel_no + 1, part_idx))
      end) (0, 0) ;;
    do s <- get;
    do found <- traverse (mount_partition behind sdb1) (partition_list s);
    valid found ;;
    zoom mfs (fun t s => Machine t (disks s) (partition_list s))
      (open_root_dir ;;
       for_range 0 32 (fun fd_idx =>
         do f <- ld_file fd_idx;
         st_file fd_idx (File (fd_pos f) (fd_flag f) NULL))).

(** ** The block bitmap that is written *)

Lemma upd_byte_run buf k f b s (Q : list Z -> fsys -> Prop) :
  buf !! Z.to_nat k = Some b -> Q (<[Z.to_nat k := u8 (f b)]> buf) s -> wp (upd_byte buf k f) Q s.
Proof. intros Hb HQ. unfold upd_byte. wp_load Hb. done. Qed.

Lemma bit_used_insert len buf k v j :
  0 <= k < Z.of_nat (length buf) -> 0 <= j ->
  bit_used (Bitmap len (<[Z.to_nat k := v]> buf)) j =
  if j / 8 =? k then Z.testbit v (j mod 8) else bit_used (Bitmap len buf) j.
Proof.
  intros Hk Hj. unfold bit_used. cbn [bits]. destruct (Z.eqb_spec (j / 8) k) as [->|Hne].
  - by rewrite list_lookup_insert_eq by lia.
  - rewrite list_lookup_insert_ne; [done|]. intros E. apply Hne. dlia.
Qed.

Lemma bit_used_splice len buf off v n j :
  0 <= off -> 0 <= n -> off + n <= Z.of_nat (length buf) -> 0 <= j ->
  bit_used (Bitmap len (splice buf (Z.to_nat off) (replicate (Z.to_nat n) v))) j =
  if (off <=? j / 8) && (j / 8 <? off + n) then Z.testbit v (j mod 8) else bit_used (Bitmap len buf) j.
Proof.
  intros Ho Hn Hl Hj. unfold bit_used, splice. cbn [bits]. rewrite length_replicate.
  assert (Hq : 0 <= j / 8) by (apply Z.div_pos; lia).
  destruct (Z.leb_spec off (j / 8)) as [Hge|Hlt]; cbn [andb].
  - rewrite lookup_app_r by (rewrite length_take; lia). rewrite length_take.
    destruct (Z.ltb_spec (j / 8) (off + n)) as [Hin|Hout].
    + rewrite lookup_app_l by (rewrite length_replicate; lia).
      by rewrite lookup_replicate_2 by lia.
    + rewrite lookup_app_r, lookup_drop by (rewrite length_replicate; lia).
      rewrite length_replicate. by replace (Z.to_nat off + Z.to_nat n +
        (Z.to_nat (j / 8) - Z.to_nat off `min` length buf - Z.to_nat n))%nat with (Z.to_nat (j / 8)) by lia.
  - rewrite lookup_app_l by (rewrite length_take; lia). by rewrite lookup_take_lt by lia.
Qed.

Lemma bit_used_zeros len N j : bit_used (Bitmap len (replicate N 0)) j = false.
Proof.
  unfold bit_used. cbn [bits]. destruct (replicate N 0 !! _) as [v|] eqn:E; [|done].
  apply lookup_replicate_1 in E as [-> _]. apply Z.bits_0.
Qed.

Lemma testbit_255 k : 0 <= k < 8 -> Z.testbit 255 k = true.
Proof. intros Hk. change 255 with (Z.ones 8). rewrite Z.testbit_ones_nonneg by lia. apply Z.ltb_lt. lia. Qed.

(** The buffer after the memset. *)
Lemma format_filled len N n j :
  8 <= n -> 512 * (n / 4096 + 1) <= Z.of_nat N -> 0 <= j < 4096 * (n / 4096 + 1) ->
  bit_used (Bitmap len (splice (<[0%nat := 1]> (replicate N 0)) (Z.to_nat (n / 8))
    (replicate (Z.to_nat (512 - (n / 8) mod 512)) 255))) j = (j =? 0) || (8 * (n / 8) <=? j).
Proof.
  intros Hn HN Hj.
  assert (Hm : 0 <= j mod 8 < 8) by (apply Z.mod_pos_bound; lia).
  rewrite bit_used_splice by (rewrite ?length_insert, ?length_replicate; dlia).
  destruct (Z.leb_spec (8 * (n / 8)) j) as [Hge|Hlt].
  - rewrite (proj2 (Z.leb_le (n / 8) (j / 8))), (proj2 (Z.ltb_lt (j / 8) _)) by dlia. cbn [andb].
    by rewrite testbit_255, orb_true_r by done.
  - rewrite (proj2 (Z.leb_gt (n / 8) (j / 8))) by dlia. cbn [andb]. rewrite orb_false_r.
    change 0%nat with (Z.to_nat 0). rewrite bit_used_insert by (rewrite ?length_replicate; dlia).
    rewrite bit_used_zeros. destruct (Z.eqb_spec (j / 8) 0) as [E|E].
    + assert (Hs : j mod 8 = j) by dlia. rewrite Hs. destruct (Z.eqb_spec j 0) as [->|Hne]; [done|].
      change 1 with (2 ^ 0). apply Z.pow2_bits_false. lia.
    + symmetry. apply Z.eqb_neq. dlia.
Qed.

(** The block bitmap that partition_format writes for [n] blocks: block 0,
    the root directory's, is used, the blocks up to [n] are free and the rest
    of the last sector is marked used. Bit [n] stands for no block of the
    partition and yet is free: the loop that clears the last byte runs one bit
    too far. *)
Theorem format_block_bitmap_bits N n s :
  8 <= n < 2 ^ 32 -> 512 * (n / 4096 + 1) <= Z.of_nat N ->
  exists buf, format_block_bitmap (replicate N 0) n s = Ok (buf, s) /\ length buf = N /\
    forall j, 0 <= j < 4096 * (n / 4096 + 1) ->
      bit_used (Bitmap 0 buf) j = (j =? 0) || (n <? j).
Proof.
  intros Hn HN.
  assert (H : wp (format_block_bitmap (replicate N 0) n) (fun buf s' => s' = s /\ length buf = N /\
    forall j, 0 <= j < 4096 * (n / 4096 + 1) -> bit_used (Bitmap 0 buf) j = (j =? 0) || (n <? j)) s).
  2: { wp_ok H. destruct H0 as (-> & ? & ?). eauto. }
  unfold format_block_bitmap. rewrite wp_bind.
  apply (upd_byte_run _ _ _ 0); [apply lookup_replicate_2; dlia|]. rewrite wp_bind. unfold fill, SECTOR_SIZE.
  assert (Hlb : 0 <= n mod 8 < 8) by (apply Z.mod_pos_bound; lia).
  rewrite (u8_small (n mod 8)), (u32_small (512 - (n / 8) mod 512)) by dlia.
  wp_simp. apply wp_valid. split; [apply Z.leb_le; rewrite length_insert, length_replicate; dlia|]. wp_simp.
  apply (wp_loop (fun x s' => s' = s /\ 0 <= x.1 <= n mod 8 + 1 /\ length x.2 = N /\
    forall j, 0 <= j < 4096 * (n / 4096 + 1) -> bit_used (Bitmap 0 x.2) j = (j =? 0) || (8 * (n / 8) + x.1 <=? j))
    (fun x _ => Z.to_nat (n mod 8 + 1 - x.1))).
  - intros [k buf] s' (-> & Hk & Hl & Hbits). cbn [fst snd] in *.
    destruct (Z.leb_spec k (n mod 8)) as [Hle|Hgt].
    + destruct (lookup_lt_is_Some_2 buf (Z.to_nat (n / 8))) as [v Hv]; [dlia|].
      wp_simp. eapply upd_byte_run; [exact Hv|]. wp_simp. cbn [fst snd].
      split; [|lia]. split; [done|]. split; [lia|]. split; [by rewrite length_insert|]. intros j Hj.
      rewrite bit_used_insert by dlia. change (Z.land v (Z.lnot (Z.shiftl 1 k))) with (set_bit_in v 0 k).
      destruct (Z.eqb_spec (j / 8) (n / 8)) as [E|E].
      * rewrite set_bit_in_testbit by dlia. specialize (Hbits j Hj). unfold bit_used in Hbits. cbn [bits] in Hbits.
        rewrite E, Hv in Hbits. rewrite Hbits. cbn [truthy].
        assert (Hj0 : j <> 0) by (intros ->; dlia). rewrite (proj2 (Z.eqb_neq j 0) Hj0). cbn [orb].
        destruct (Z.eqb_spec (j mod 8) k); [symmetry; apply Z.leb_gt; dlia|].
        destruct (Z.leb_spec (8 * (n / 8) + k) j); symmetry; [apply Z.leb_le|apply Z.leb_gt]; dlia.
      * rewrite Hbits by done. f_equal.
        destruct (Z.leb_spec (8 * (n / 8) + k) j); symmetry; [apply Z.leb_le|apply Z.leb_gt]; dlia.
    + assert (k = n mod 8 + 1) as -> by lia. wp_simp. split; [done|]. split; [done|]. intros j Hj.
      rewrite Hbits by done. f_equal.
      destruct (Z.ltb_spec n j); [apply Z.leb_le|apply Z.leb_gt]; dlia.
  - cbn [fst snd]. split; [done|]. split; [lia|]. split.
    + assert (Hfit : (Z.to_nat (n / 8) + Z.to_nat (512 - (n / 8) mod 512) <= N)%nat) by dlia.
      by rewrite splice_length; rewrite length_insert, !length_replicate.
    + intros j Hj. rewrite Z.add_0_r. apply format_filled; [lia|done|done].
  - cbn [fst]. lia.
Qed.

(** ** Mounting *)

(** The partition in memory that mount_partition makes of a super block and
    what it read for the inode bitmap. *)
Definition mounted (behind : list Z) (part : part_slot) (sb : super_block) (ibits : list Z) : partition :=
  Part (p_start_lba part) (p_sec_cnt part) sb
    (Bitmap (512 * block_bitmap_sects sb) (replicate (Z.to_nat (512 * block_bitmap_sects sb)) 0 ++ behind))
    (Bitmap (512 * inode_bitmap_sects sb) (ibits ++ behind)) [].

(** A super block whose block bitmap and data area the index types can hold. *)
Record super_wf (sb : super_block) : Prop := {
  sw_bb : 0 < block_bitmap_sects sb < 2 ^ 19;
  sw_ib : 0 < inode_bitmap_sects sb < 2 ^ 19;
  sw_lba : 0 <= block_bitmap_lba sb <= max_lba;
  sw_data : 0 <= data_start_lba sb;
  sw_max : data_start_lba sb + 4096 * block_bitmap_sects sb < 2 ^ 31
}.

Lemma need_malloc_run s a h (Q : unit -> fsys -> Prop) :
  heap s = a :: h -> a <> NULL -> Q tt (set_heap h s) -> wp need_malloc Q s.
Proof.
  intros Hh Ha HQ. unfold need_malloc. wp_simp. eapply sys_malloc_run; [exact Hh|].
  by rewrite (proj2 (Z.eqb_neq a NULL)) by done.
Qed.

Lemma mount_run behind part s buf ibits a b c e h :
  0 <= p_start_lba part < max_lba -> disk s !! (p_start_lba part + 1) = Some buf ->
  super_wf (dec_super buf) ->
  read_sectors (disk s) (block_bitmap_lba (dec_super buf)) (Z.to_nat (inode_bitmap_sects (dec_super buf))) = Some ibits ->
  heap s = a :: b :: c :: e :: h -> Forall (fun x => x <> NULL) [a; b; c; e] ->
  mount behind part s = Ok (tt, set_part (mounted behind part (dec_super buf) ibits) (set_heap h s)).
Proof.
  intros Hst Hbuf [Hbb Hib Hlba Hdata Hmax] Hbits Hheap Hnn.
  repeat (apply list.Forall_cons in Hnn as [? Hnn]). unfold max_lba in *.
  apply wp_eq. unfold mount. wp_simp. eapply sys_malloc_run; [exact Hheap|]. wp_simp.
  eapply need_malloc_run; [done|done|]. wp_simp. apply wp_valid. split; [by apply negb_true_iff, Z.eqb_neq|]. wp_simp.
  rewrite u32_small by lia. eapply ide_read_run; [unfold max_lba; lia|lia|apply read_one; exact Hbuf|]. wp_simp.
  eapply need_malloc_run; [done|done|]. wp_simp. eapply need_malloc_run; [done|done|]. wp_simp.
  eapply ide_read_run; [unfold max_lba; lia|lia|exact Hbits|]. wp_simp. split; [done|].
  unfold mounted, SECTOR_SIZE. rewrite !(Z.mul_comm _ 512), !u32_small by lia. done.
Qed.

Lemma mounted_free behind part sb ibits j :
  0 <= j < 4096 * block_bitmap_sects sb -> bit_used (block_bitmap (mounted behind part sb ibits)) j = false.
Proof.
  intros Hj. unfold bit_used. cbn [mounted block_bitmap bits].
  rewrite lookup_app_l by (rewrite length_replicate; dlia).
  rewrite lookup_replicate_2 by dlia. apply Z.bits_0.
Qed.

(** The first block allocated when none is marked used. *)
Lemma first_alloc_zero s :
  let b := block_bitmap (cur_part s) in
  let base := data_start_lba (sb (cur_part s)) in
  bitmap_wf b -> 0 < btmp_bytes_len b -> (forall j, 0 <= j < 8 * btmp_bytes_len b -> bit_used b j = false) ->
  0 <= base -> base + 8 * btmp_bytes_len b < 2 ^ 31 ->
  exists b', block_bitmap_alloc s = Ok (base, set_part (set_block_bitmap b' (cur_part s)) s).
Proof.
  intros b base Hwf Hpos Hfree Hbase Hmax.
  assert (H : wp block_bitmap_alloc (fun lba s' => lba = base /\
    exists b', s' = set_part (set_block_bitmap b' (cur_part s)) s) s).
  2: { wp_ok H. destruct H0 as [-> [b' ->]]. eauto. }
  apply (block_bitmap_alloc_run _ 0); [done|fold b; lia|apply Hfree; lia|done|done|].
  intros i b' ((Hi & _ & Hmin) & _). fold b in Hi. split; [|by exists b'].
  destruct (decide (i = 0)) as [->|]; [unfold base; lia|]. exfalso.
  specialize (Hmin 0 ltac:(lia)). fold b in Hmin. by rewrite Hfree in Hmin by lia.
Qed.

(** The first write to an empty file when no block is marked used. *)
Lemma first_write_panics s fd f i data count x y h :
  file_table s !! Z.to_nat fd = Some f -> inodes s !! fd_inode f = Some i ->
  i_sectors i !! 0%nat = Some 0 -> u32 (i_size i + count) <= 71680 ->
  heap s = x :: y :: h -> x <> NULL -> y <> NULL -> 0 <= data_start_lba (sb (cur_part s)) < 2 ^ 31 ->
  (exists b', block_bitmap_alloc (set_heap h s) =
    Ok (data_start_lba (sb (cur_part s)), set_part (set_block_bitmap b' (cur_part s)) (set_heap h s))) ->
  file_write fd data count s = Panic.
Proof.
  intros Hf Hi Hs0 Hcnt Hheap Hx Hy Hbase [b' Hal]. unfold file_write.
  rewrite (bind_Ok _ _ s f s) by (apply wp_eq; by eapply wp_ld_file).
  rewrite (bind_Ok _ _ s i s) by (apply wp_eq; by eapply wp_ld_inode).
  unfold BLOCK_SIZE, SECTOR_SIZE. rewrite (proj2 (Z.ltb_ge (512 * 140) _)) by lia.
  rewrite (bind_Ok _ _ s x (set_heap (y :: h) s)) by (apply wp_eq; by eapply sys_malloc_run).
  rewrite (proj2 (Z.eqb_neq x NULL)) by done.
  rewrite (bind_Ok _ _ _ y (set_heap h s)) by (apply wp_eq; by eapply sys_malloc_run).
  rewrite (proj2 (Z.eqb_neq y NULL)) by done. apply bind_Panic. unfold first_block.
  rewrite (bind_Ok _ _ _ i (set_heap h s)) by (apply wp_eq; by eapply wp_ld_inode).
  rewrite (bind_Ok _ _ _ 0 (set_heap h s)) by (apply wp_eq; by eapply sector_run).
  rewrite Z.eqb_refl. rewrite (bind_Ok _ _ _ _ _ Hal).
  set (base := data_start_lba (sb (cur_part s))) in *.
  rewrite (proj2 (Z.eqb_neq base (-1))) by lia.
  set (s3 := set_part _ _) in *.
  assert (H : wp (set_sector (fd_inode f) 0 (u32 base)) (fun _ s4 => cur_part s4 = cur_part s3) s3).
  { unfold set_sector. wp_simp. eapply wp_ld_inode; [exact Hi|]. wp_simp.
    eapply sector_run; [exact Hs0|]. wp_simp. by eapply wp_st_inode. }
  wp_ok H. rewrite (bind_Ok _ _ _ _ _ H). rewrite (bind_Ok _ _ _ (cur_part s3) x1) by (by rewrite <- H0).
  apply bind_Panic. unfold s3. cbn. fold base. by rewrite Z.sub_diag.
Qed.

(** [C35] Mounting forgets which blocks are in use. mount_partition reads the
    block bitmap of the disk into the inode bitmap, and no sector into the
    block bitmap, which stays all zero: every block counts as free, the first
    one allocated is block 0, where the root directory is, and the first write
    to an empty file stops the kernel on its assertion that this cannot be. *)
Theorem mount_loses_block_bitmap behind part s buf ibits a b c e h :
  0 <= p_start_lba part < max_lba -> disk s !! (p_start_lba part + 1) = Some buf ->
  super_wf (dec_super buf) ->
  read_sectors (disk s) (block_bitmap_lba (dec_super buf)) (Z.to_nat (inode_bitmap_sects (dec_super buf))) = Some ibits ->
  heap s = a :: b :: c :: e :: h -> Forall (fun x => x <> NULL) [a; b; c; e] ->
  behind <> [] -> Forall (fun v => 0 <= v < 256) behind ->
  exists s1, mount behind part s = Ok (tt, s1) /\
    bits (inode_bitmap (cur_part s1)) = ibits ++ behind /\
    (forall j, 0 <= j < 4096 * block_bitmap_sects (dec_super buf) -> bit_used (block_bitmap (cur_part s1)) j = false) /\
    (forall s2 fd f i data count x y h2,
       cur_part s2 = cur_part s1 -> file_table s2 !! Z.to_nat fd = Some f -> inodes s2 !! fd_inode f = Some i ->
       i_sectors i !! 0%nat = Some 0 -> u32 (i_size i + count) <= 71680 ->
       heap s2 = x :: y :: h2 -> x <> NULL -> y <> NULL ->
       file_write fd data count s2 = Panic).
Proof.
  intros Hst Hbuf Hsw Hbits Hheap Hnn Hbe Hbyte.
  eexists. split; [by apply (mount_run _ _ _ buf ibits a b c e h)|]. split; [done|].
  split; [intros j Hj; by apply mounted_free|].
  intros s2 fd f i data count x y h2 Hp Hf Hi Hs0 Hcnt Hh2 Hx Hy. cbn [cur_part set_part] in Hp.
  assert (Hb : block_bitmap (cur_part s2) = block_bitmap (mounted behind part (dec_super buf) ibits)) by by rewrite Hp.
  destruct Hsw as [Hbb Hib Hlba Hdata Hmax].
  eapply first_write_panics; try done; [rewrite Hp; cbn [mounted sb]; lia|].
  apply (first_alloc_zero (set_heap h2 s2)); cbn [cur_part set_heap]; rewrite ?Hb, ?Hp; cbn [block_bitmap mounted btmp_bytes_len sb];
    [|lia|intros j Hj; apply (mounted_free behind part (dec_super buf) ibits); lia|lia|lia].
  split; cbn [btmp_bytes_len bits].
  - lia.
  - rewrite length_app, length_replicate. destruct behind; [done|]. cbn. lia.
  - apply list.Forall_app. split; [|done]. apply Forall_replicate. lia.
Qed.

(** ** What partition_format leaves on disk *)

Lemma present_read d lba n :
  (forall k, lba <= k < lba + Z.of_nat n -> is_Some (d !! k)) -> is_Some (read_sectors d lba n).
Proof.
  revert lba. induction n as [|n IH]; intros lba H; cbn [read_sectors]; [done|].
  destruct (H lba) as [b ->]; [lia|]. destruct (IH (lba + 1)) as [r ->]; [|done].
  intros k Hk. apply H. lia.
Qed.

(** Writing a region of sectors that are there. *)
Lemma wp_write_region lba X n s (Q : unit -> fsys -> Prop) :
  lba <= max_lba -> (0 < n)%nat -> disk_wf (disk s) ->
  (forall k, lba <= k < lba + Z.of_nat n -> is_Some (disk s !! k)) -> (512 * n <= length X)%nat ->
  (forall d', disk_wf d' -> read_sectors d' lba n = Some (take (512 * n) X) ->
     (forall k, ~ (lba <= k < lba + Z.of_nat n) -> d' !! k = disk s !! k) ->
     (forall k, is_Some (disk s !! k) -> is_Some (d' !! k)) -> Q tt (set_disk d' s)) ->
  wp (ide_write lba X n) Q s.
Proof.
  intros Hl Hn Hd Hp HX HQ. destruct (present_read (disk s) lba n Hp) as [old Hold].
  eapply wp_ide_write; try done. intros d' Hw.
  destruct (write_sectors_spec (disk s) lba n old (take (512 * n) X) Hd Hold) as (d1 & Hw1 & Hr1 & Hd1 & Hfr).
  { rewrite length_take. lia. }
  rewrite Hw in Hw1. simplify_eq. apply HQ; [done..|].
  intros k Hk. destruct (decide (lba <= k < lba + Z.of_nat n)) as [Hin|Hout]; [|by rewrite Hfr].
  clear - Hr1 Hin. revert lba Hr1 Hin. generalize (take (512 * n) X). induction n as [|n IH]; intros X' lba Hr Hin; [lia|].
  cbn [read_sectors] in Hr. destruct (d1 !! lba) as [b|] eqn:E; [|done].
  destruct (read_sectors d1 (lba + 1) n) as [r|] eqn:Er; [|done].
  destruct (decide (k = lba)) as [->|]; [by exists b|]. apply (IH r (lba + 1)); [done|lia].
Qed.

(** A partition on the disk that is large enough for a file system. *)
Record part_fits (part : part_slot) (d : gmap Z (list Z)) : Prop := {
  pf_start : 0 <= p_start_lba part;
  pf_cnt : 700 <= p_sec_cnt part;
  pf_end : p_start_lba part + p_sec_cnt part <= max_lba;
  pf_disk : disk_wf d;
  pf_present : forall k, p_start_lba part <= k < p_start_lba part + p_sec_cnt part -> is_Some (d !! k)
}.

(** The sizes that partition_format computes. *)
Lemma format_super_sizes ibs its part d :
  part_fits part d ->
  exists n bb, let sb := (format_super ibs its part).1 in
    (format_super ibs its part).2 = n /\ block_bitmap_sects sb = bb /\ inode_bitmap_sects sb = 1 /\
    inode_table_sects sb = 608 /\ dir_entry_size sb = 24 /\ block_bitmap_lba sb = p_start_lba part + 2 /\
    80 <= n /\ 4096 * (bb - 1) < n <= 4096 * bb /\ 1 <= bb <= 40 /\
    611 + bb + n <= p_sec_cnt part.
Proof.
  intros [Hs Hc He _ _]. unfold max_lba in He.
  assert (Hf : u32 (p_sec_cnt part - 611) = p_sec_cnt part - 611) by (apply u32_small; lia).
  eexists _, _. unfold format_super. cbn [fst snd block_bitmap_sects inode_bitmap_sects inode_table_sects dir_entry_size block_bitmap_lba].
  change (u32 (1 + 1 + DIV_ROUND_UP MAX_FILES_PER_PART BITS_PER_SECTOR +
    DIV_ROUND_UP (sizeof_inode * MAX_FILES_PER_PART) SECTOR_SIZE)) with 611.
  rewrite Hf. do 5 (split; [reflexivity|]). unfold DIV_ROUND_UP, BITS_PER_SECTOR.
  set (free := p_sec_cnt part - 611) in *. rewrite (u32_small (free + 4096 - 1)) by lia.
  rewrite (u32_small (free - _)) by dlia. rewrite !u32_small by dlia. repeat split; dlia.
Qed.

(** A map whose first bit alone is used. *)
Definition only_first (buf : list Z) : Prop :=
  forall j, 0 <= j < 8 * Z.of_nat (length buf) -> bit_used (Bitmap 0 buf) j = (j =? 0).

(** The root directory's inode, and what partition_format promises of a disk
    [d'] made from [d]: the five parts of the file system, and nothing outside
    the partition touched. *)
Definition root_inode (sb : super_block) : inode := Inode 0 48 0 0 (data_start_lba sb :: replicate 12 0).

Record formatted (sb : super_block) (n : Z) (part : part_slot) (d d' : gmap Z (list Z)) : Prop := {
  fm_super : exists buf, d' !! (p_start_lba part + 1) = Some buf /\ dec_super buf = sb;
  fm_blocks : exists buf, read_sectors d' (block_bitmap_lba sb) (Z.to_nat (block_bitmap_sects sb)) = Some buf /\
    forall j, 0 <= j < 4096 * block_bitmap_sects sb -> bit_used (Bitmap 0 buf) j = (j =? 0) || (n <? j);
  fm_inodes : exists buf, d' !! inode_bitmap_lba sb = Some buf /\ only_first buf;
  fm_table : exists T, read_sectors d' (inode_table_lba sb) 608 = Some T /\ dec_inode T = root_inode sb;
  fm_root : exists buf, d' !! data_start_lba sb = Some buf /\ take 48 buf = dot_entries 0 0 /\
    Forall (fun b => b = 0) (drop 48 buf);
  fm_frame : forall k, ~ (p_start_lba part < k < p_start_lba part + p_sec_cnt part) -> d' !! k = d !! k
}.

Lemma bit_used_take len buf m j : 0 <= j < 8 * Z.of_nat m -> bit_used (Bitmap len (take m buf)) j = bit_used (Bitmap len buf) j.
Proof. intros Hj. unfold bit_used. cbn [bits]. by rewrite lookup_take_lt by dlia. Qed.

Lemma only_first_take N m : (0 < m <= N)%nat -> only_first (take m (<[0%nat := 1]> (replicate N 0))).
Proof.
  intros Hm j Hj. rewrite length_take, length_insert, length_replicate in Hj.
  rewrite bit_used_take by lia. change 0%nat with (Z.to_nat 0).
  rewrite bit_used_insert by (rewrite ?length_replicate; dlia). rewrite bit_used_zeros.
  destruct (Z.eqb_spec (j / 8) 0) as [E|E].
  - assert (Hs : j mod 8 = j) by dlia. rewrite Hs. destruct (Z.eqb_spec j 0) as [->|]; [done|].
    change 1 with (2 ^ 0). apply Z.pow2_bits_false. lia.
  - symmetry. apply Z.eqb_neq. intros ->. by apply E.
Qed.

Lemma one_sector d lba b : read_sectors d lba 1 = Some b -> d !! lba = Some b.
Proof. cbn. destruct (d !! lba) as [x|]; [|done]. rewrite app_nil_r. by intros [= ->]. Qed.

(** A structure at the front of a zeroed buffer of [N] bytes. *)
Lemma splice_front src N m :
  (length src <= m <= N)%nat ->
  take m (splice (replicate N 0) 0 src) = src ++ replicate (m - length src) 0.
Proof.
  intros H. unfold splice. rewrite take_0. cbn [app plus].
  rewrite take_app_ge, drop_replicate, take_replicate by lia. do 2 f_equal. lia.
Qed.

(** The five writes add up to a file system. *)
Lemma formatted_intro sb n part d d' pad bits N :
  let l := p_start_lba part in let bb := block_bitmap_sects sb in
  1 <= bb -> Forall is_u32 (super_words sb) -> length pad = 460%nat -> 512 * 608 <= Z.of_nat N ->
  (forall j, 0 <= j < 4096 * (n / 4096 + 1) -> bit_used (Bitmap 0 bits) j = (j =? 0) || (n <? j)) ->
  4096 * (bb - 1) < n <= 4096 * bb ->
  read_sectors d' (l + 1) 1 = Some (take (512 * 1) (enc_super sb pad)) ->
  read_sectors d' (block_bitmap_lba sb) (Z.to_nat bb) = Some (take (512 * Z.to_nat bb) bits) ->
  read_sectors d' (inode_bitmap_lba sb) 1 = Some (take (512 * 1) (<[0%nat := 1]> (replicate N 0))) ->
  read_sectors d' (inode_table_lba sb) 608 = Some (take (512 * 608) (splice (replicate N 0) 0 (enc_inode (root_inode sb)))) ->
  read_sectors d' (data_start_lba sb) 1 = Some (take (512 * 1) (splice (replicate N 0) 0 (dot_entries 0 0))) ->
  (forall k, ~ (l < k < l + p_sec_cnt part) -> d' !! k = d !! k) ->
  formatted sb n part d d'.
Proof.
  intros l bb Hbb Hu32 Hpad HN Hbits Hn H1 H2 H3 H4 H5 Hfr.
  assert (Hdot : length (dot_entries 0 0) = 48%nat) by reflexivity.
  split; [| | | | |exact Hfr].
  - eexists. split; [by apply one_sector|]. rewrite take_ge; [by apply dec_enc_super|].
    unfold enc_super. rewrite !length_app, !le32_length, Hpad. lia.
  - eexists. split; [exact H2|]. intros j Hj. fold bb in Hj. rewrite bit_used_take by lia. apply Hbits. dlia.
  - eexists. split; [by apply one_sector|]. apply only_first_take. lia.
  - eexists. split; [exact H4|]. rewrite splice_front by (rewrite (enc_inode_length (root_inode sb)) by done; lia).
    apply dec_enc_inode. split; cbn; try (unfold is_u32; lia).
    apply Forall_cons_2; [|repeat (apply Forall_cons_2; [unfold is_u32; lia|]); constructor].
    unfold super_words in Hu32. repeat (apply list.Forall_cons in Hu32 as [? Hu32]). done.
  - eexists. split; [by apply one_sector|]. rewrite splice_front by (rewrite Hdot; lia). split.
    + by rewrite take_app_length'.
    + rewrite drop_app_length' by done. by apply Forall_replicate.
Qed.

(** [C34] partition_format makes an empty file system: provided the stack held
    the right values for the two super-block fields that are read before they
    are assigned, the disk has the super block, a block bitmap in which only
    the root directory's block is used, an inode bitmap in which only inode 0
    is used, the root's inode, and the root directory with its two entries,
    and no sector outside the partition was written. *)
Theorem partition_format_makes ibs pad part s a h :
  let sb := (format_super ibs 1 part).1 in
  part_fits part (disk s) -> ibs = block_bitmap_sects sb -> length pad = 460%nat ->
  Forall is_u32 (super_words sb) -> heap s = a :: h -> a <> NULL ->
  exists d', partition_format ibs 1 pad part s = Ok (tt, set_disk d' (set_heap h s)) /\
    formatted sb (format_super ibs 1 part).2 part (disk s) d'.
Proof.
  intros sb Hfit Hibs Hpad Hu32 Hheap Ha.
  destruct (format_super_sizes ibs 1 part (disk s) Hfit) as (n & bb & Hn & Hbb & Hib & Hit & Hde & Hbl & Hn80 & Hbn & Hb40 & Hend).
  fold sb in Hbb, Hib, Hit, Hde, Hbl.
  assert (Hil : inode_bitmap_lba sb = p_start_lba part + 2 + bb /\ inode_table_lba sb = p_start_lba part + 3 + bb /\
    data_start_lba sb = p_start_lba part + 611 + bb).
  { assert (Hx : inode_bitmap_lba sb = u32 (u32 (p_start_lba part + 2) + ibs) /\
      inode_table_lba sb = u32 (inode_bitmap_lba sb + 1) /\ data_start_lba sb = u32 (inode_table_lba sb + 608)) by done.
    destruct Hx as (-> & -> & ->). destruct Hfit as [? ? ? _ _]. rewrite Hibs, Hbb. unfold max_lba in *.
    rewrite (u32_small (p_start_lba part + 2)) by lia. rewrite (u32_small (p_start_lba part + 2 + bb)) by lia.
    rewrite (u32_small (p_start_lba part + 2 + bb + 1)) by lia. rewrite u32_small by lia. lia. }
  assert (H : wp (partition_format ibs 1 pad part) (fun _ s' => exists d', s' = set_disk d' (set_heap h s) /\
    formatted sb n part (disk s) d') s).
  2: { wp_ok H. destruct H0 as (d' & -> & ?), x. exists d'. by rewrite Hn. }
  unfold partition_format. rewrite (surjective_pairing (format_super ibs 1 part)). fold sb. rewrite Hn.
  destruct Hil as (Hibl & Hitl & Hdl). destruct Hfit as [Hst Hcnt Hpe Hd Hpres]. unfold max_lba in *.
  wp_simp. rewrite (u32_small (p_start_lba part + 1)) by lia.
  apply wp_write_region; [unfold max_lba; lia|lia|done|intros; apply Hpres; lia| |].
  { unfold enc_super. rewrite !length_app, !le32_length, Hpad. lia. }
  intros d1 Hd1 Hr1 Hf1 Hp1. wp_simp. eapply sys_malloc_run; [exact Hheap|]. wp_simp.
  apply wp_valid. split; [by apply negb_true_iff, Z.eqb_neq|]. wp_simp.
  rewrite Hib, Hbb, Hit, (proj2 (Z.leb_le 1 bb)), (proj2 (Z.leb_gt 608 bb)) by lia.
  rewrite (u32_small (608 * SECTOR_SIZE)) by (unfold SECTOR_SIZE; lia).
  assert (HN : Z.of_nat (Z.to_nat (608 * SECTOR_SIZE)) = 512 * 608) by (unfold SECTOR_SIZE; lia).
  set (N := Z.to_nat (608 * SECTOR_SIZE)) in *. clearbody N.
  destruct (format_block_bitmap_bits N n (set_heap h (set_disk d1 s))) as (bits & Hbits & Hlb & Hbu); [lia|dlia|].
  apply wp_Ok. eexists _, _. split; [exact Hbits|]. wp_simp. rewrite Hbl.
  apply wp_write_region; [unfold max_lba; lia|lia|done|intros; apply Hp1, Hpres; lia|lia|].
  intros d2 Hd2 Hr2 Hf2 Hp2. wp_simp. apply (upd_byte_run _ _ _ 0); [apply lookup_replicate_2; lia|]. wp_simp.
  rewrite Hibl. apply wp_write_region; [unfold max_lba; lia|lia|done|intros; apply Hp2, Hp1, Hpres; lia
    |rewrite length_insert, length_replicate; lia|].
  intros d3 Hd3 Hr3 Hf3 Hp3. wp_simp. rewrite Hitl, Hde, Hdl.
  assert (Hli : length (enc_inode (root_inode sb)) = 76%nat) by by apply enc_inode_length.
  change (u32 (24 * 2)) with 48. rewrite <- Hdl. fold (root_inode sb).
  apply wp_write_region; [unfold max_lba; lia|lia|done|intros; apply Hp3, Hp2, Hp1, Hpres; lia
    |rewrite splice_length; rewrite ?length_replicate; lia|].
  intros d4 Hd4 Hr4 Hf4 Hp4. wp_simp. rewrite Hdl.
  assert (Hdot : length (dot_entries 0 0) = 48%nat) by reflexivity.
  apply wp_write_region; [unfold max_lba; lia|lia|done|intros; apply Hp4, Hp3, Hp2, Hp1, Hpres; lia
    |rewrite splice_length; rewrite ?length_replicate, ?Hdot; lia|].
  intros d5 Hd5 Hr5 Hf5 Hp5. exists d5. split; [done|].
  cbn [disk set_disk set_heap] in *.
  eapply (formatted_intro _ _ _ _ _ pad bits N); try done; rewrite ?Hbb, ?Hbl, ?Hibl, ?Hitl, ?Hdl; try lia.
  - rewrite <- Hr1. apply read_sectors_ext. intros k Hk. rewrite Hf5, Hf4, Hf3, Hf2 by lia. done.
  - rewrite <- Hr2. apply read_sectors_ext. intros k Hk. rewrite Hf5, Hf4, Hf3 by lia. done.
  - etransitivity; [|exact Hr3]. apply read_sectors_ext. intros k Hk. rewrite Hf5, Hf4 by lia. done.
  - etransitivity; [|exact Hr4]. apply read_sectors_ext. intros k Hk. rewrite Hf5 by lia. done.
  - exact Hr5.
  - intros k Hk. rewrite Hf5, Hf4, Hf3, Hf2, Hf1 by lia. done.
Qed.

(** *** Witnesses *)

Lemma format_block_bitmap_bits_witness :
  exists buf, format_block_bitmap (replicate 512 0) 100 demo_fs = Ok (buf, demo_fs) /\ length buf = 512%nat /\
    forall j, 0 <= j < 4096 * (100 / 4096 + 1) -> bit_used (Bitmap 0 buf) j = (j =? 0) || (100 <? j).
Proof. apply (format_block_bitmap_bits 512 100 demo_fs); [lia|vm_compute; congruence]. Defined.

Definition demo_slot : part_slot := PartSlot sdb1 0 700.

Lemma demo_fits : part_fits demo_slot demo_disk.
Proof.
  split; [done|done|vm_compute; congruence|exact demo_disk_wf|].
  apply (entries_below _ 700). vm_compute. reflexivity.
Qed.

Lemma partition_format_makes_witness :
  exists d', partition_format 1 1 (replicate 460 0) demo_slot demo_fs =
      Ok (tt, set_disk d' (set_heap (drop 1 demo_heap) demo_fs)) /\
    formatted (format_super 1 1 demo_slot).1 (format_super 1 1 demo_slot).2 demo_slot demo_disk d'.
Proof.
  apply (partition_format_makes 1 (replicate 460 0) demo_slot demo_fs 0xc0300000 (drop 1 demo_heap)).
  - exact demo_fits.
  - reflexivity.
  - reflexivity.
  - refine (bool_decide_unpack _ _). vm_compute. exact I.
  - reflexivity.
  - done.
Defined.

(** The demonstration disk with its super block in place. *)
Definition demo_made : fsys := set_disk (<[1 := enc_super demo_sb (replicate 460 0)]> demo_disk) demo_fs.

Lemma mount_loses_block_bitmap_witness :
  exists s1, mount [0] demo_slot demo_made = Ok (tt, s1) /\
    bits (inode_bitmap (cur_part s1)) = (47 :: replicate 511 0) ++ [0] /\
    (forall j, 0 <= j < 4096 * 1 -> bit_used (block_bitmap (cur_part s1)) j = false) /\
    (forall s2 fd f i data count x y h2,
       cur_part s2 = cur_part s1 -> file_table s2 !! Z.to_nat fd = Some f -> inodes s2 !! fd_inode f = Some i ->
       i_sectors i !! 0%nat = Some 0 -> u32 (i_size i + count) <= 71680 ->
       heap s2 = x :: y :: h2 -> x <> NULL -> y <> NULL ->
       file_write fd data count s2 = Panic).
Proof.
  apply (mount_loses_block_bitmap [0] demo_slot demo_made (enc_super demo_sb (replicate 460 0)) (47 :: replicate 511 0)
    0xc0300000 0xc0300200 0xc0300600 0xc0300a00 (drop 4 demo_heap)); try reflexivity; try done.
  - repeat (apply Forall_cons_2; [done|]). constructor.
  - repeat (apply Forall_cons_2; [lia|]). constructor.
Defined.
