(* ===== verification/Main.v ===== *)
(** * The first thread (kernel/main.c)

    What main does behind init_all: it opens /file1, adds a line to it and
    closes it, and says so on the screen. The state it starts from has the root
    directory open, as filesys_init leaves it; of the block bitmap in memory,
    which mounting leaves all zero ([Format.mount_loses_block_bitmap]), only one
    of the cases below says anything. printf is run: [Print.print_text] formats
    into a buffer in a memory of its own. *)

From Stdlib Require Import ZArith Lia.
From stdpp Require Import base numbers list gmap option.
From S2P Require Import Prelude Bitmap Intr DList CString Stdio Print FsTypes Blocks Inode FileOps FileWrite FileTail Dir Path Fs PathSearch OpenClose Format.

Local Open Scope Z_scope.

(** "/file1", "hello,world\n", "fd:%d\n" and "%d closed now\n" *)
Definition name1 : list Z := [102; 105; 108; 101; 49].
Definition file1 : list Z := slash :: name1.
Definition hello : list Z := [104; 101; 108; 108; 111; 44; 119; 111; 114; 108; 100; 10].
Definition fd_format : list Z := [102; 100; 58; 37; 100; 10].
Definition closed_format : list Z := [37; 100; 32; 99; 108; 111; 115; 101; 100; 32; 110; 111; 119; 10].

(** printf of integers, through vsprintf and write; the result is the text that
    write is given. *)
Definition printf (format args : list Z) : M fsys (list Z) :=
  do text <- run_on (print_memory format) (print_text args);
  do _ <- sys_write 1 text (Z.of_nat (length text));
  ret text.

(** main, from init_all to its endless loop; [stack] is what search_file finds
    in its variable dir_e. *)
Definition main (stack : list Z) : M fsys (list Z) :=
  do fd <- sys_open stack file1 O_RDWR;
  let fd := u32 fd in
  do t1 <- printf fd_format [fd];
  do _ <- sys_write (s32 fd) hello 12;
  do _ <- sys_close (s32 fd);
  do t2 <- printf closed_format [fd];
  ret (t1 ++ t2).

(** ** What is printed *)

(** The two lines, with the descriptor written [n]. *)
Definition said (n : list Z) : list Z := ([102; 100; 58] ++ n ++ [10]) ++ n ++ drop 2 closed_format.

Definition is_text (l : list Z) : bool := forallb (fun c => (0 <? c) && (c <? 256)) l && (length l <? 1024)%nat.

Lemma is_text_spec l : is_text l = true -> Forall (fun c => 0 < c < 256) l /\ (length l < 1024)%nat.
Proof.
  unfold is_text. rewrite andb_true_iff, forallb_forall, Nat.ltb_lt. intros [H Hl]. split; [|done].
  apply list.Forall_forall. intros c Hc. specialize (H c (proj1 (list_elem_of_In _ _) Hc)). lia.
Qed.

Lemma printf_run format args text s (Q : list Z -> fsys -> Prop) :
  render format (FInt <$> args) = Some text -> is_text format = true -> is_text text = true -> Q text s -> wp (printf format args) Q s.
Proof.
  intros Hr [Hf Hlf]%is_text_spec [Ht Hlt]%is_text_spec HQ. unfold printf. rewrite wp_bind.
  apply (print_text_run _ _ text); [done|done|done|unfold buf_size; lia|lia|].
  unfold sys_write. cbn [Z.ltb Z.compare Z.eqb stdout_no Pos.eqb]. wp_simp. apply wp_valid. split; [lia|]. by wp_simp.
Qed.

(** What is said of a descriptor, which is one digit, and of -1. *)
Lemma fd_texts l n : 3 <= l < 8 /\ n = [48 + l] \/ l = -1 /\ n = [45; 49] ->
  render fd_format (FInt <$> [u32 l]) = Some ([102; 100; 58] ++ n ++ [10]) /\ is_text ([102; 100; 58] ++ n ++ [10]) = true /\
  render closed_format (FInt <$> [u32 l]) = Some (n ++ drop 2 closed_format) /\ is_text (n ++ drop 2 closed_format) = true.
Proof.
  intros [[Hl ->]|[-> ->]]; [|done]. assert (H : l = 3 \/ l = 4 \/ l = 5 \/ l = 6 \/ l = 7) by lia. by destruct H as [->|[->|[->|[->| ->]]]].
Qed.

Section main.
Context (s0 : fsys) (T stack : list Z) (k l : Z).

(** The state main finds: the root directory is open, there is memory, and [k]
    and [l] are the first free place of the table of open files and the first
    free descriptor. *)
Record ready : Prop := {
  rd_search : searchable s0 T;
  rd_stack : length stack = 24%nat;
  rd_heap : (12 <= length (heap s0))%nat
}.

(** The path leads to the file [no], which nobody has open. *)
Record there (no : Z) : Prop := {
  th_walks : walks s0 T 0 0 [] [name1] (Regular 0 no) file1;
  th_can : can_open s0 T no k l;
  th_closed : not_open no s0
}.

(** Its bytes are [data], and the line fits in its last block, [lba]; its inode
    is in one sector of the table and has a number of one byte. *)
Record has_room (no : Z) (lbas data : list Z) (lba : Z) : Prop := {
  hr_file : file_at (cur_part s0) (disk s0) (disk_inode T no) lbas data;
  hr_last : lbas !! (length data / 512)%nat = Some lba;
  hr_fits : (length data mod 512 + 12 < 512)%nat;
  hr_inode : inode_wf (disk_inode T no) /\ i_no (disk_inode T no) = no /\ no < 256 /\ slot_buffer no 512
}.

(** No block is marked used, as mounting leaves it. *)
Record none_marked (p : partition) : Prop := {
  nm_wf : bitmap_wf (block_bitmap p);
  nm_len : 0 < btmp_bytes_len (block_bitmap p);
  nm_bits : forall j, 0 <= j < 8 * btmp_bytes_len (block_bitmap p) -> bit_used (block_bitmap p) j = false;
  nm_area : 0 <= data_start_lba (sb p) /\ data_start_lba (sb p) + 8 * btmp_bytes_len (block_bitmap p) < 2 ^ 31
}.

(** ** The run *)

(** The state in which main has opened the file: its inode has been read to
    [x], and [h] is left of the heap. *)
Definition in_main (no x : Z) (h : list Z) : fsys :=
  as_open (opened x (disk_inode T no) h s0) k l O_RDWR x (set_i_open_cnts 1 (disk_inode T no)).

Lemma path1 : good_path file1.
Proof using. split; [done|cbn; lia|done|done|]. repeat constructor; cbn; lia. Qed.

Lemma open_file1 no (Q : Z -> fsys -> Prop) : ready -> there no ->
  (forall x ha hb h, unused s0 x -> ha <> NULL -> hb <> NULL -> Q l (in_main no x (ha :: hb :: h))) ->
  wp (sys_open stack file1 O_RDWR) Q s0.
Proof using.
  intros [Hs Hst Hheap] [Hw Hco Hno] HQ.
  eapply (sys_open_run s0 T stack Hs Hst file1 O_RDWR (Regular 0 no) file1 k l); try done.
  - exact path1.
  - intros d n [= <- <-]. exact Hco.
  - cbn. lia.
  - intros fd s'. cbn [open_post]. rewrite decide_True by done. intros (-> & d & h & s1 & x & i & Hd & [Hsuf Hlen] & Hroot & Ho).
    rewrite (Hroot eq_refl) in Hd. inversion Hd as [v j _ _ _ _ _|? ? Hn|? Hn]; [|done|done]. subst s1. inversion Ho as [j' Hx Hj Hjn|b h' j' Hh _ Hi']; subst i s'.
    { exfalso. by apply (Hno x j'). }
    cbn in Hh. subst h. pose proof (proj2 (sr_heap _ _ Hs)) as Hun. destruct Hsuf as [pre E]. rewrite E in Hun, Hlen.
    apply list.Forall_app in Hun as [_ Hun]. apply list.Forall_cons in Hun as [Hux Hun]. apply list.Forall_cons in Hun as [_ Hun].
    rewrite E in Hheap. rewrite !length_app in *. cbn [length] in *. destruct h' as [|ha [|hb h']]; [cbn in *; lia..|].
    apply list.Forall_cons in Hun as [[Hha _] Hun]. apply list.Forall_cons in Hun as [[Hhb _] _]. by apply HQ.
Qed.

(** A write under the descriptor. *)
Lemma write_fd no x h buf count : can_open s0 T no k l ->
  sys_write l buf count (in_main no x h) = file_write k buf count (in_main no x h).
Proof using.
  intros [_ Hk Hfd _]. pose proof (fl_range _ _ Hfd) as Hl. destruct Hk as [Hkr (f0 & Hf0 & _) _]. set (s1 := in_main no x h).
  assert (Hfdk : fd_table s1 !! Z.to_nat l = Some k) by (cbn; apply list_lookup_insert_eq; eapply lookup_lt_Some, (fl_free _ _ Hfd)).
  assert (Hfk : file_table s1 !! Z.to_nat k = Some (File 0 O_RDWR x)) by (cbn; apply list_lookup_insert_eq; by eapply lookup_lt_Some).
  unfold sys_write. rewrite (proj2 (Z.ltb_ge l 0)), (proj2 (Z.eqb_neq l stdout_no)) by (unfold stdout_no; lia).
  rewrite (bind_Ok _ _ s1 k s1), (bind_Ok _ _ s1 (File 0 O_RDWR x) s1); [done| |].
  - apply wp_eq. by eapply wp_ld_file.
  - apply wp_eq. unfold fd_local2global. wp_load Hfdk. unfold MAX_FILE_OPEN. wp_assert. by wp_simp.
Qed.

(** main from its call of file_write on. *)
Lemma main_writes no : ready -> there no -> exists x ha hb h, unused s0 x /\ ha <> NULL /\ hb <> NULL /\
  main stack s0 = (do _ <- file_write k hello 12; do _ <- sys_close l; do t2 <- printf closed_format [l];
    ret (([102; 100; 58] ++ [48 + l] ++ [10]) ++ t2)) (in_main no x (ha :: hb :: h)).
Proof using.
  intros Hr Ht. pose proof (th_can _ Ht) as Hco. pose proof (fl_range _ _ (co_fd _ _ _ _ _ Hco)) as Hl.
  destruct (fd_texts l [48 + l] ltac:(tauto)) as (R1 & T1 & _ & _).
  assert (H : wp (sys_open stack file1 O_RDWR) (fun fd s' => fd = l /\ exists x ha hb h, unused s0 x /\ ha <> NULL /\ hb <> NULL /\ s' = in_main no x (ha :: hb :: h)) s0).
  { apply (open_file1 no); [done|done|]. intros x ha hb h ? ? ?. split; [done|]. by exists x, ha, hb, h. }
  apply wp_Ok in H as (fd & s' & E & -> & x & ha & hb & h & Hx & Hha & Hhb & ->). exists x, ha, hb, h. do 3 (split; [done|]).
  unfold main. rewrite (bind_Ok _ _ _ _ _ E).
  set (s1 := in_main no x (ha :: hb :: h)). rewrite (bind_Ok _ _ s1 ([102; 100; 58] ++ [48 + l] ++ [10]) s1) by (apply wp_eq; by eapply printf_run).
  rewrite u32_small, s32_small by lia. pose proof (write_fd no x (ha :: hb :: h) hello 12 Hco) as Hw. fold s1 in Hw. unfold bind. by rewrite Hw.
Qed.
(** Without a file at the path. *)
Lemma main_refused r : ready -> walks s0 T 0 0 [] [name1] r file1 -> (forall d no, r <> Regular d no) ->
  exists h, main stack s0 = Ok (said [45; 49], set_heap h s0).
Proof using.
  intros [Hs Hst Hheap] Hw Hr.
  assert (H : wp (main stack) (fun out s' => out = said [45; 49] /\ exists h, s' = set_heap h s0) s0).
  2: { apply wp_Ok in H as (out & s' & E & -> & h & ->). by exists h. }
  unfold main. rewrite wp_bind.
  apply (sys_open_run s0 T stack Hs Hst file1 O_RDWR r file1 0 0).
  - exact path1.
  - done.
  - unfold O_RDWR. lia.
  - done.
  - exact Hw.
  - intros d n E. by destruct (Hr d n).
  - change (components file1) with [name1]. cbn [length]. lia.
  - intros fd s' Hp. change (components file1) with [name1] in Hp. assert (H : fd = -1 /\ exists h, s' = set_heap h s0) by (destruct r as [d|d n|p n]; [by cbn in Hp; rewrite decide_True in Hp|by destruct (Hr d n)|done]).
    destruct H as (-> & h & ->). destruct (fd_texts (-1) [45; 49] ltac:(tauto)) as (R1 & T1 & R2 & T2).
    rewrite wp_bind. eapply printf_run; [exact R1|done|exact T1|]. change (s32 (u32 (-1))) with (-1). unfold sys_write, sys_close. cbn [Z.ltb Z.compare].
    wp_simp. eapply printf_run; [exact R2|done|exact T2|]. wp_simp. split; [done|by exists h].
Qed.

(** What is left when the file is closed: all is as main found it, but for the
    disk, the position in the place [k], which is free again, and the heap. *)
Definition main_left (d : gmap Z (list Z)) (h : list Z) (pos : Z) : fsys :=
  Fsys d (cur_part s0) (inodes s0) (dirs s0) (<[Z.to_nat k := File pos O_RDWR NULL]> (file_table s0))
    (fd_table s0) (cwd_inode_nr s0) (processor s0) h.

(** The line is in the file on disk. Its inode has the new size, the other
    slots of the table are as before, and so is every other sector but the last
    block of the file. *)
Record line_added (no : Z) (lbas data : list Z) (lba : Z) (d : gmap Z (list Z)) : Prop := {
  la_table : exists T', table (cur_part s0) d = Some T' /\
    disk_inode T' no = pure_inode (set_i_size (Z.of_nat (length data + 12)) (disk_inode T no)) /\
    file_at (cur_part s0) d (disk_inode T' no) lbas (data ++ hello) /\
    forall j, 0 <= j < 4096 -> j <> no -> slot T' j = slot T j;
  la_frame : forall x, ~ in_inode_table (cur_part s0) x -> x <> lba -> d !! x = disk s0 !! x
}.

(** sys_close behind file_write. *)
Lemma tail_closed no lbas data lba x h0 h s' (i := set_write_deny 1 (set_i_open_cnts 1 (disk_inode T no)))
    (i' := set_i_size (Z.of_nat (length data + 12)) i) (Q : Z -> fsys -> Prop) :
  ready -> there no -> unused s0 x ->
  tail_written (in_main no x h0) k (File 0 O_RDWR x) i lbas lba data hello T h i' s' ->
  Q 0 (main_left (disk s') h (u32 (i_size i + 11))) -> wp (sys_close l) Q s'.
Proof using.
  intros Hr Ht Hx W HQ. pose proof (th_can _ Ht) as [_ [Hk1 (f0 & Hf0 & _) _] [Hl1 Hl2 _] _].
  rewrite (tl_rest _ _ _ _ _ _ _ _ _ _ _ _ W). clear W. replace (i_size i + Z.of_nat (length hello) - 1) with (i_size i + 11) by (cbn; lia).
  set (pos := u32 (i_size i + 11)) in *. assert (Hc : i_open_cnts i' = 1) by done. clearbody pos i'. clear i.
  assert (Hop : set_open_inodes (filter (fun y => y <> x) (x :: open_inodes (cur_part s0)))
    (set_open_inodes (x :: open_inodes (cur_part s0)) (cur_part s0)) = cur_part s0).
  { rewrite filter_head; [by destruct (cur_part s0)|]. eapply not_cached; [apply (sr_cache _ _ (rd_search Hr))|apply Hx]. }
  eapply (sys_close_run _ k l (File pos O_RDWR x) i'); cbn [fd_table file_table inodes cur_part in_main as_open set_fd_table set_inodes set_file_table opened fd_inode fd_flag].
  - lia.
  - apply list_lookup_insert_eq. by eapply lookup_lt_Some.
  - lia.
  - rewrite list_lookup_insert_eq; [done|]. rewrite length_insert. by eapply lookup_lt_Some.
  - apply lookup_insert_eq.
  - lia.
  - by left.
  - unfold as_closed. rewrite decide_True by done. cbn -[filter list_filter] in HQ |- *.
    rewrite !list_insert_insert_eq, !insert_insert_eq, delete_insert_id, list_insert_id by (done || apply Hx).
    rewrite Hop. exact HQ.
Qed.
(** What file_write has left, seen from the disk. *)
Lemma tail_line no lbas data lba x h0 h s' (i := set_write_deny 1 (set_i_open_cnts 1 (disk_inode T no))) :
  ready -> there no -> has_room no lbas data lba ->
  tail_written (in_main no x h0) k (File 0 O_RDWR x) i lbas lba data hello T h (set_i_size (Z.of_nat (length data + 12)) i) s' ->
  line_added no lbas data lba (disk s').
Proof using.
  intros Hr Ht [_ Hlast Hfits (Hwf & Eno & H256 & Hslot)] [_ [W1 W2 W3 W4] W5 _ W6 _]. pose proof (co_no _ _ _ _ _ (th_can _ Ht)) as Hno.
  destruct (sr_table _ _ (rd_search Hr)) as [Htw HT]. pose proof (table_length _ _ _ (tw_disk _ _ Htw) HT) as HlT.
  set (j := pure_inode (set_i_size (Z.of_nat (length data + 12)) (disk_inode T no))).
  assert (Ej : pure_inode (set_i_size (Z.of_nat (length data + 12)) i) = j) by done. rewrite Ej in W5.
  change (i_no i) with (i_no (disk_inode T no)) in W5. rewrite Eno in W5.
  pose proof (bo_max _ _ _ _ W1) as Hmax. pose proof (lookup_lt_Some _ _ _ Hlast) as Hlt.
  pose proof (Nat.div_mod_eq (length data) 512) as Hdm.
  assert (Hjl : length (enc_inode j) = 76%nat) by apply enc_inode_length, disk_inode_length.
  assert (Hj : disk_inode (set_slot T no (enc_inode j)) no = j).
  { unfold disk_inode. rewrite slot_set_eq by done.
    rewrite <- (app_nil_r (enc_inode j)). apply dec_enc_inode. destruct Hwf. split; try done; unfold is_u32; cbn; lia. }
  split; [|done]. exists (set_slot T no (enc_inode j)). split; [exact W5|]. split; [exact Hj|]. rewrite Hj. split.
  - split; [|exact W2|exact W3|exact W4]. by eapply blocks_on_change.
  - intros n Hn Hne. apply slot_set_ne; [done|done|lia|done|exact Hjl].
Qed.

Lemma main_appended no lbas data lba : ready -> there no -> has_room no lbas data lba ->
  exists d h, main stack s0 = Ok (said [48 + l], main_left d h (u32 (Z.of_nat (length data) + 11))) /\ line_added no lbas data lba d.
Proof using.
  intros Hr Ht Hh. destruct (main_writes no Hr Ht) as (x & ha & hb & h & Hx & Hha & Hhb & ->).
  pose proof (th_can _ Ht) as Hco. pose proof (fl_range _ _ (co_fd _ _ _ _ _ Hco)) as Hl. destruct (fd_texts l [48 + l] ltac:(tauto)) as (_ & _ & R2 & T2).
  rewrite u32_small in R2 by lia. destruct (co_file _ _ _ _ _ Hco) as [_ (f0 & Hf0 & _) _].
  set (s1 := in_main no x (ha :: hb :: h)). set (i := set_write_deny 1 (set_i_open_cnts 1 (disk_inode T no))).
  pose proof Hh as [[B1 B2 B3 B4] Hlast Hfits ([V1 V2 V3 V4 V5 V6] & Eno & H256 & Hslot)]. destruct (sr_table _ _ (rd_search Hr)) as [[T1 T3 T4 T5] HT].
  match goal with |- context [?m s1] => assert (H : wp m (fun out s' => out = said [48 + l] /\ exists d h, s' = main_left d h (u32 (Z.of_nat (length data) + 11)) /\
    line_added no lbas data lba d) s1) end.
  2: { apply wp_Ok in H as (out & s' & E & -> & d & h' & -> & Hla). by exists d, h'. }
  wp_simp. change 12 with (Z.of_nat (length hello)).
  assert (Ei : i_no i = no) by exact Eno.
  apply (tail_run s1 k (File 0 O_RDWR x) i lbas lba data hello T) with (ha := ha) (hb := hb) (h := h).
  - cbn. apply list_lookup_insert_eq. by eapply lookup_lt_Some.
  - cbn. apply lookup_insert_eq.
  - split; [by eapply blocks_on_change|exact B2|exact B3|exact B4].
  - exact Hlast.
  - by split.
  - exact Hfits.
  - cbn. lia.
  - exact HT.
  - split; try done; unfold is_u32; cbn; lia.
  - by rewrite Ei.
  - by rewrite Ei.
  - done.
  - done.
  - done.
  - intros s' W. wp_simp. pose proof (tail_line no lbas data lba x _ h s' Hr Ht Hh W) as Hla.
    eapply (tail_closed no lbas data lba x _ h s'); [done..|]. wp_simp. eapply printf_run; [exact R2|done|exact T2|]. wp_simp.
    split; [done|]. exists (disk s'), h. split; [|done]. by change (i_size _) with (i_size (disk_inode T no)); rewrite B2.
Qed.

Lemma main_stops no : ready -> there no -> none_marked (cur_part s0) ->
  i_sectors (disk_inode T no) !! 0%nat = Some 0 -> 0 <= i_size (disk_inode T no) <= 71668 -> main stack s0 = Panic.
Proof using.
  intros Hr Ht [N1 N2 N3 [N4 N5]] Hsec Hsize. destruct (main_writes no Hr Ht) as (x & ha & hb & h & Hx & Hha & Hhb & ->).
  destruct (co_file _ _ _ _ _ (th_can _ Ht)) as [_ (f0 & Hf0 & _) _].
  apply bind_Panic. eapply (first_write_panics _ k (File 0 O_RDWR x) (set_write_deny 1 (set_i_open_cnts 1 (disk_inode T no))) hello 12 ha hb h); try done.
  - cbn. apply list_lookup_insert_eq. by eapply lookup_lt_Some.
  - cbn. apply lookup_insert_eq.
  - change (i_size _) with (i_size (disk_inode T no)). rewrite u32_small; lia.
  - cbn. lia.
  - by apply (first_alloc_zero (set_heap h (in_main no x (ha :: hb :: h)))).
Qed.

(** [C18] What main does, as it starts from the state that filesys_init leaves.
    When there is no file /file1 it opens nothing and says so, with -1 for the
    descriptor, and changes nothing but what the allocator has left. When the
    file is there and the line fits in its last block, main adds "hello,world"
    and a newline to it and reports the descriptor before and after: on disk the
    size and the bytes of the file are the new ones and no other inode and no
    other sector has changed, and no inode, lock, descriptor or place of the
    table of open files is in use that was not. When the file is empty and no
    block is marked used, as after mounting, main stops at an assertion. *)
Theorem main_runs : ready ->
  (forall r, walks s0 T 0 0 [] [name1] r file1 -> (forall d no, r <> Regular d no) ->
     exists h, main stack s0 = Ok (said [45; 49], set_heap h s0)) /\
  (forall no, there no ->
     (forall lbas data lba, has_room no lbas data lba -> exists d h,
        main stack s0 = Ok (said [48 + l], main_left d h (u32 (Z.of_nat (length data) + 11))) /\ line_added no lbas data lba d) /\
     (none_marked (cur_part s0) -> i_sectors (disk_inode T no) !! 0%nat = Some 0 -> 0 <= i_size (disk_inode T no) <= 71668 ->
        main stack s0 = Panic)).
Proof using.
  intros Hr. split; [intros r; by apply main_refused|]. intros no Ht. split; [intros lbas data lba; by apply main_appended|by apply main_stops].
Qed.
End main.

(** *** Witnesses: states that filesys_init leaves *)

#[local] Instance is_byte_dec c : Decision (is_byte c).
Proof. unfold is_byte. apply _. Defined.
#[local] Instance named_dec e : Decision (named e).
Proof. unfold named. apply _. Defined.

Definition no_part : part_slot := PartSlot [] 0 0.
(** A machine with one disk, [d], which has one partition. *)
Definition main_machine (d : gmap Z (list Z)) : machine :=
  Machine (Fsys ∅ demo_part ∅ ∅ (replicate 32 (File 0 0 7)) [0; 1; 2; -1; -1; -1; -1; -1] 0 (Cpu EFLAGS_IF [] [])
             ((fun k => 0xc0300000 + 0x400 * k) <$> seqZ 0 32))
    [HardDisk d (demo_slot :: replicate 3 no_part) (replicate 8 no_part)] [(0%nat, demo_slot)].
(** What filesys_init makes of it. *)
Definition main_fs (d : gmap Z (list Z)) : fsys :=
  match filesys_init 0 0 (replicate 460 0) [0] (main_machine d) with Ok (_, m) => mfs m | _ => demo_fs end.

Definition main_dots : list Z :=
  enc_dir_entry (DirEntry (46 :: replicate 15 0) 0 FT_DIRECTORY) ++ enc_dir_entry (DirEntry (46 :: 46 :: replicate 14 0) 0 FT_DIRECTORY).
Definition main_entry : list Z := enc_dir_entry (DirEntry (name1 ++ replicate 11 0) 5 FT_REGULAR).
Definition main_disk (root : list Z) (i : inode) : gmap Z (list Z) :=
  <[1 := enc_super demo_sb (replicate 460 0)]> (<[4 := enc_inode demo_root_inode ++ replicate 304 0 ++ enc_inode i ++ replicate 56 0]>
    (<[612 := main_dots ++ root]> demo_disk)).
(** No file; a file of 1300 bytes; an empty file. *)
Definition long_file : inode := Inode 5 1300 0 0 ([614; 615; 617] ++ replicate 10 0).
Definition empty_file : inode := Inode 5 0 0 0 (replicate 13 0).
Definition disk_none : gmap Z (list Z) := main_disk (replicate 464 0) empty_file.
Definition disk_long : gmap Z (list Z) := main_disk (main_entry ++ replicate 440 0) long_file.
Definition disk_empty : gmap Z (list Z) := main_disk (main_entry ++ replicate 440 0) empty_file.
Definition fs_none : fsys := main_fs disk_none.
Definition fs_long : fsys := main_fs disk_long.
Definition fs_empty : fsys := main_fs disk_empty.

(** filesys_init comes to its end on each of the disks. *)
Lemma main_fs_made d : d = disk_none \/ d = disk_long \/ d = disk_empty ->
  exists m, filesys_init 0 0 (replicate 460 0) [0] (main_machine d) = Ok (tt, m) /\ mfs m = main_fs d.
Proof.
  intros Hd. assert (H : match filesys_init 0 0 (replicate 460 0) [0] (main_machine d) with Ok _ => true | _ => false end = true)
    by (destruct Hd as [->|[->| ->]]; vm_compute; reflexivity).
  unfold main_fs. destruct (filesys_init _ _ _ _ _) as [[[] m]| | |]; [by exists m|discriminate..].
Qed.

Definition main_table (s : fsys) : list Z := default [] (table (cur_part s) (disk s)).

(** Where the root directory alone is open a path can be searched. *)
Lemma root_searchable s T x i v : table_wf (cur_part s) (disk s) -> table (cur_part s) (disk s) = Some T ->
  open_inodes (cur_part s) = [x] -> inodes s !! x = Some i -> i_no i = 0 -> i_open_cnts i = 1 -> i_sectors i = i_sectors (disk_inode T 0) ->
  dirs s !! root_dir = Some v -> dir_inode v = x -> dir_entry_size (sb (cur_part s)) = 24 -> fresh s (heap s) -> searchable s T.
Proof.
  intros Htw HT Hop Hi Hn Hc Hsec Hv Hx Hsz Hh.
  assert (Hc1 : forall a j, a ∈ [x] -> inodes s !! a = Some j -> j = i) by (intros a j ->%list_elem_of_singleton; congruence).
  split; unfold cache_wf, cache_ok; rewrite ?Hop.
  - by split.
  - split; [split; [apply NoDup_singleton|intros a ->%list_elem_of_singleton; by exists i]|split].
    + intros a j Ha Hj. rewrite (Hc1 a j Ha Hj). lia.
    + by intros a b j1 j2 ->%list_elem_of_singleton ->%list_elem_of_singleton.
  - intros a j Ha Hj. rewrite (Hc1 a j Ha Hj). lia.
  - intros a j Ha Hj. by rewrite (Hc1 a j Ha Hj), Hn.
  - exists v, i. rewrite Hx. split; [exact Hv|]. split; [by left|]. by split.
  - exact Hsz.
  - exact Hh.
Qed.

#[local] Instance unused_dec s a : Decision (unused s a).
Proof. unfold unused. apply _. Defined.
#[local] Instance fresh_dec s h : Decision (fresh s h).
Proof. unfold fresh. apply _. Defined.
#[local] Instance disk_wf_dec d : Decision (disk_wf d).
Proof. unfold disk_wf. apply _. Defined.

(** A state that main can start from. *)
Definition main_start (s : fsys) : Prop := table (cur_part s) (disk s) = Some (main_table s) /\ ready s (main_table s) (replicate 24 0).

Ltac decided := apply (bool_decide_unpack _); vm_compute; exact I.
Ltac started s :=
  assert (HT : table (cur_part s) (disk s) = Some (main_table s));
  [ assert (H : bool_decide (is_Some (table (cur_part s) (disk s))) = true) by (vm_compute; reflexivity);
    apply bool_decide_eq_true in H as [T HT]; unfold main_table; rewrite HT; reflexivity
  | split; [exact HT|]; split;
    [ apply (root_searchable s _ 0xc0301400 (set_i_open_cnts 1 demo_root_inode) (Dir 0xc0301400 0));
      [split; [decided|vm_compute; congruence..]|exact HT|vm_compute; reflexivity..|decided]
    | reflexivity
    | apply Nat.leb_le; vm_compute; reflexivity ] ].

Lemma start_none : main_start fs_none.
Proof. started fs_none. Qed.
Lemma start_long : main_start fs_long.
Proof. started fs_long. Qed.
Lemma start_empty : main_start fs_empty.
Proof. started fs_empty. Qed.

(** The root directory of each. *)
Lemma main_root_at s es : main_start s -> disk_inode (main_table s) 0 = demo_root_inode ->
  listing (disk s) (direct_blocks demo_root_inode) 21 = Some es -> Forall named es -> dir_at s (main_table s) 0 es.
Proof.
  intros _ Hi Hl Hn. split; [|rewrite Hi; by intros t [= <-]| |done].
  - split; [lia|by rewrite Hi].
  - exists (direct_blocks demo_root_inode). rewrite Hi. split; [reflexivity|]. split; [decided|exact Hl].
Qed.

Definition main_entries (root : list Z) : list (list Z) := sector_entries (main_dots ++ root) 21.

Lemma none_walks : walks fs_none (main_table fs_none) 0 0 [] [name1] (Missing 0) file1.
Proof.
  apply (W_missing _ _ 0 0 [] name1 [] (main_entries (replicate 464 0))); [|vm_compute; reflexivity].
  apply main_root_at; [exact start_none|vm_compute; reflexivity|vm_compute; reflexivity|decided].
Qed.

Lemma is_there s : main_start s -> disk_inode (main_table s) 0 = demo_root_inode ->
  listing (disk s) (direct_blocks demo_root_inode) 21 = Some (main_entries (main_entry ++ replicate 440 0)) ->
  open_inodes (cur_part s) = [0xc0301400] -> inodes s !! 0xc0301400 = Some (set_i_open_cnts 1 demo_root_inode) ->
  file_table s !! 3%nat = Some (File 0 0 0) -> fd_table s = [0; 1; 2; -1; -1; -1; -1; -1] ->
  write_deny (disk_inode (main_table s) 5) = 0 -> there s (main_table s) 3 3 5.
Proof.
  intros Hs Hi Hl Ho Hr Hf Hd Hw.
  assert (Hno : forall a j, a ∈ open_inodes (cur_part s) -> inodes s !! a = Some j -> i_no j <> 5).
  { rewrite Ho. intros a j ->%list_elem_of_singleton. rewrite Hr. by intros [= <-]. }
  split.
  - change (Regular 0 5) with (Regular 0 (entry_no (entry_bytes (main_dots ++ main_entry ++ replicate 440 0) 2))).
    apply (W_regular _ _ 0 0 [] name1 [] (main_entries (main_entry ++ replicate 440 0)) (entry_bytes (main_dots ++ main_entry ++ replicate 440 0) 2)); [|vm_compute; reflexivity..].
    apply main_root_at; [done..|decided].
  - split; [lia| | |].
    + split; [lia|by exists (File 0 0 0)|lia].
    + split; [lia|by rewrite Hd|lia].
    + split; [|exact Hw]. intros x j Hx Hj E. by destruct (Hno x j Hx Hj).
  - intros x j Hx Hj. by apply Hno with x.
Qed.

Lemma long_there : there fs_long (main_table fs_long) 3 3 5.
Proof. apply is_there; [exact start_long|vm_compute; reflexivity..]. Qed.
Lemma empty_there : there fs_empty (main_table fs_empty) 3 3 5.
Proof. apply is_there; [exact start_empty|vm_compute; reflexivity..]. Qed.

Lemma long_room : has_room fs_long (main_table fs_long) 5 [614; 615; 617] demo_data 617.
Proof.
  assert (Hi : disk_inode (main_table fs_long) 5 = long_file) by (vm_compute; reflexivity).
  split; rewrite ?Hi.
  - split; [|vm_compute; reflexivity|reflexivity|apply holds_b_holds; vm_compute; reflexivity].
    split; [done|cbn; lia|intros k Hk; do 12 (destruct k; [done|]); lia|done|cbn; lia| |decided].
    intros x Hx. rewrite !elem_of_cons in Hx.
    destruct Hx as [->|[->|[->|[]%not_elem_of_nil]]]; (split; [vm_compute; split; congruence|decided]).
  - reflexivity.
  - apply Nat.ltb_lt. vm_compute. reflexivity.
  - split; [|split; [done|split; [done|right; vm_compute; split; congruence]]]. split; try (unfold is_u32; cbn; lia).
    repeat (apply Forall_cons_2; [unfold is_u32; lia|]). constructor.
Qed.

(** The partition that mounting makes has no block marked. *)
Lemma mounted_none_marked behind part sb ibits : super_wf sb -> behind <> [] -> Forall (fun v => 0 <= v < 256) behind ->
  none_marked (mounted behind part sb ibits).
Proof.
  intros [Hbb Hib Hlba Hdata Hmax] Hbe Hbyte. split; cbn [block_bitmap mounted btmp_bytes_len FsTypes.sb].
  - split; cbn [btmp_bytes_len bits]; [lia| |apply list.Forall_app; split; [apply Forall_replicate; lia|done]].
    rewrite length_app, length_replicate. destruct behind; [done|]. cbn. lia.
  - lia.
  - intros j Hj. apply (mounted_free behind part sb ibits). lia.
  - lia.
Qed.

Lemma empty_none_marked : none_marked (cur_part fs_empty).
Proof.
  pose proof (mounted_none_marked [0] demo_slot demo_sb []) as [[M1 M2 M3] M4 M5 M6]; [split; cbn; unfold max_lba; lia|done|repeat constructor; lia|].
  assert (Hb : block_bitmap (cur_part fs_empty) = block_bitmap (mounted [0] demo_slot demo_sb [])) by (vm_compute; reflexivity).
  assert (Hsb : FsTypes.sb (cur_part fs_empty) = demo_sb) by (vm_compute; reflexivity).
  split; rewrite ?Hb, ?Hsb; [by split|done|exact M5|exact M6].
Qed.

(** "fd:-1" and "-1 closed now"; "fd:3" and "3 closed now"; and a panic. *)
Lemma main_runs_witness :
  (exists h, main (replicate 24 0) fs_none = Ok ([102; 100; 58; 45; 49; 10] ++ [45; 49] ++ drop 2 closed_format, set_heap h fs_none)) /\
  (exists d h, main (replicate 24 0) fs_long = Ok ([102; 100; 58; 51; 10] ++ [51] ++ drop 2 closed_format, main_left fs_long 3 d h 1311) /\
     line_added fs_long (main_table fs_long) 5 [614; 615; 617] demo_data 617 d) /\
  main (replicate 24 0) fs_empty = Panic.
Proof.
  split; [|split].
  - apply (proj1 (main_runs fs_none (main_table fs_none) (replicate 24 0) 3 3 (proj2 start_none)) (Missing 0) none_walks). intros d no. discriminate.
  - exact (proj1 (proj2 (main_runs fs_long (main_table fs_long) (replicate 24 0) 3 3 (proj2 start_long)) 5 long_there) [614; 615; 617] demo_data 617 long_room).
  - apply (proj2 (proj2 (main_runs fs_empty (main_table fs_empty) (replicate 24 0) 3 3 (proj2 start_empty)) 5 empty_there)).
    + exact empty_none_marked.
    + vm_compute. reflexivity.
    + vm_compute. split; congruence.
Defined.
