(* ===== verification/Heap.v ===== *)
(** * The heap (kernel/memory.c: block_desc_init, sys_malloc, sys_free)

    Memory comes from the page allocator in arenas: a page, or a run of pages
    for a large request, with a header of twelve bytes. A small arena is cut
    into blocks of one of seven sizes; the blocks that are free are on the list
    of their descriptor.

    The heap is written against an interface, [PageSource]: malloc_page and
    mfree_page for the pool of the running task, and the lock of that pool.
    [PageSourceOk] is what the heap relies on; the last part of the file shows
    that the kernel's pages, as [Pages] has them, provide it. The headers are
    kept apart from the bytes of memory, and a list of free blocks is the
    sequence of their addresses, which is what DList proves of the links. *)

From Stdlib Require Import ZArith Lia.
From stdpp Require Import base numbers list gmap option.
From S2P Require Import Prelude Bitmap Intr DList Paging Pages.

Local Open Scope Z_scope.

Definition DESC_CNT : Z := 7.
Definition sizeof_arena : Z := 12.

(** struct mem_block_desc *)
Record mem_block_desc := Desc { block_size : Z; blocks_per_arena : Z; free_list : list Z }.

(** struct arena; the descriptor is its index in the array. *)
Record arena := Arena { a_desc : option Z; a_cnt : Z; a_large : bool }.

(** What sys_malloc and sys_free need of the page allocator: malloc_page,
    mfree_page and the lock, all of the running task's pool, the size of the
    pool, and whether the task is a kernel thread. *)
Class PageSource (P : Type) := {
  ps_malloc : Z -> M P Z;
  ps_mfree : Z -> Z -> M P unit;
  ps_acquire : M P unit;
  ps_release : M P unit;
  ps_size : P -> Z;
  ps_kernel : P -> bool
}.

Record kheap (P : Type) := KHeap {
  src : P;
  bytes : Z -> Z;                   (* memory, by address *)
  arenas : gmap Z arena;            (* the headers, by address *)
  descs : list mem_block_desc;      (* k_block_descs or u_block_desc *)
  hcpu : cpu
}.
Arguments KHeap {P}.
Arguments src {P}.
Arguments bytes {P}.
Arguments arenas {P}.
Arguments descs {P}.
Arguments hcpu {P}.

(** block_desc_init: [n] descriptors from this block size on. *)
Fixpoint desc_array (n : nat) (block_size : Z) : list mem_block_desc :=
  match n with
  | O => []
  | S n' => Desc block_size ((PG_SIZE - sizeof_arena) / block_size) [] :: desc_array n' (u16 (block_size * 2))
  end.
Definition block_desc_init : list mem_block_desc := desc_array (Z.to_nat DESC_CNT) 16.

Definition block2arena (b : Z) : Z := Z.land b 0xfffff000.

Section heap.
Context {P : Type} `{PageSource P}.

Definition on_src {A} (m : M P A) : M (kheap P) A :=
  zoom src (fun p s => KHeap p (bytes s) (arenas s) (descs s) (hcpu s)) m.
Definition on_hcpu {A} (m : M cpu A) : M (kheap P) A :=
  zoom hcpu (fun c s => KHeap (src s) (bytes s) (arenas s) (descs s) c) m.

(** memset(a, 0, n) *)
Definition clear (f : Z -> Z) (a n : Z) : Z -> Z := fun x => if (a <=? x) && (x <? a + n) then 0 else f x.
Definition memset0 (a n : Z) : M (kheap P) unit :=
  modify (fun s => KHeap (src s) (clear (bytes s) a n) (arenas s) (descs s) (hcpu s)).

Definition ld_arena (a : Z) : M (kheap P) arena := do s <- get; of_option (arenas s !! a).
Definition st_arena (a : Z) (v : arena) : M (kheap P) unit :=
  modify (fun s => KHeap (src s) (bytes s) (<[a := v]> (arenas s)) (descs s) (hcpu s)).
(** The pages of an arena are gone, and its header with them. *)
Definition drop_arena (a : Z) : M (kheap P) unit :=
  modify (fun s => KHeap (src s) (bytes s) (delete a (arenas s)) (descs s) (hcpu s)).
Definition ld_desc (d : Z) : M (kheap P) mem_block_desc := do s <- get; of_option (descs s !! Z.to_nat d).
Definition st_free_list (d : Z) (l : list Z) : M (kheap P) unit :=
  do D <- ld_desc d;
  modify (fun s => KHeap (src s) (bytes s) (arenas s)
    (<[Z.to_nat d := Desc (block_size D) (blocks_per_arena D) l]> (descs s)) (hcpu s)).

(** a->desc, which the code follows: it must not be null. *)
Definition desc_of (a : Z) : M (kheap P) Z := do v <- ld_arena a; of_option (a_desc v).

Definition arena2block (a idx : Z) : M (kheap P) Z :=
  do d <- desc_of a;
  do D <- ld_desc d;
  ret (a + sizeof_arena + idx * block_size D).

(** list_append, list_pop and list_remove on a descriptor's free list. *)
Definition free_append (d b : Z) : M (kheap P) unit :=
  do D <- ld_desc d; st_free_list d (free_list D ++ [b]).
Definition free_pop (d : Z) : M (kheap P) Z :=
  do D <- ld_desc d;
  match free_list D with
  | [] => fault
  | b :: l => st_free_list d l ;; ret b
  end.
Definition free_remove (d b : Z) : M (kheap P) unit :=
  do D <- ld_desc d; st_free_list d (filter (fun x => x <> b) (free_list D)).

(** The size class of a request. *)
Definition find_desc (size : Z) : M (kheap P) Z :=
  loop 8 (fun desc_idx =>
    if desc_idx <? DESC_CNT then
      do D <- ld_desc desc_idx;
      if size <=? block_size D then ret (inr desc_idx) else ret (inl (desc_idx + 1))
    else ret (inr desc_idx)) 0.

(** A new arena for the class, its blocks put on the list; false if there is
    no page. *)
Definition new_arena (desc_idx : Z) : M (kheap P) bool :=
  do D <- ld_desc desc_idx;
  do a <- on_src (ps_malloc 1);
  if a =? NULL then ret false
  else
    memset0 a PG_SIZE ;;
    st_arena a (Arena (Some desc_idx) (blocks_per_arena D) false) ;;
    do old_status <- on_hcpu intr_disable;
    for_range 0 (Z.to_nat (blocks_per_arena D)) (fun block_idx =>
      do b <- arena2block a block_idx;
      do d <- desc_of a;
      do D <- ld_desc d;
      ASSERT (negb (bool_decide (b ∈ free_list D))) ;;
      free_append d b) ;;
    on_hcpu (intr_set_status old_status) ;;
    ret true.

(** A block off the list, cleared and counted. *)
Definition take_block (desc_idx size : Z) : M (kheap P) Z :=
  do b <- free_pop desc_idx;
  memset0 b size ;;
  do a <- ld_arena (block2arena b);
  st_arena (block2arena b) (Arena (a_desc a) (u32 (a_cnt a - 1)) (a_large a)) ;;
  ret b.

Definition sys_malloc (size : Z) : M (kheap P) Z :=
  do s <- get;
  if negb ((0 <? size) && (size <? ps_size (src s))) then ret NULL
  else
    on_src ps_acquire ;;
    if 1024 <? size then
      let page_cnt := DIV_ROUND_UP (size + sizeof_arena) PG_SIZE in
      do a <- on_src (ps_malloc page_cnt);
      if negb (a =? NULL) then
        memset0 a (page_cnt * PG_SIZE) ;;
        st_arena a (Arena None page_cnt true) ;;
        on_src ps_release ;;
        ret (a + sizeof_arena)
      else
        on_src ps_release ;;
        ret NULL
    else
      do desc_idx <- find_desc size;
      do D <- ld_desc desc_idx;
      do ok <- (if bool_decide (free_list D = []) then new_arena desc_idx else ret true);
      if negb ok then on_src ps_release ;; ret NULL
      else
        do b <- take_block desc_idx (block_size D);
        on_src ps_release ;;
        ret b.

(** The arena has all its blocks back: they leave the list, the page goes. *)
Definition free_arena (a : Z) : M (kheap P) unit :=
  do d <- desc_of a;
  do D <- ld_desc d;
  for_range 0 (Z.to_nat (blocks_per_arena D)) (fun block_idx =>
    do b <- arena2block a block_idx;
    do D <- ld_desc d;
    ASSERT (bool_decide (b ∈ free_list D)) ;;
    free_remove d b) ;;
  on_src (ps_mfree a 1) ;;
  drop_arena a.

(** A block of a small arena goes back on its list. *)
Definition give_block (a ptr : Z) : M (kheap P) unit :=
  do d <- desc_of a;
  free_append d ptr ;;
  do v <- ld_arena a;
  let cnt := u32 (a_cnt v + 1) in
  st_arena a (Arena (a_desc v) cnt (a_large v)) ;;
  do D <- ld_desc d;
  if cnt =? blocks_per_arena D then free_arena a else ret tt.

Definition sys_free (ptr : Z) : M (kheap P) unit :=
  ASSERT (negb (ptr =? NULL)) ;;
  do s <- get;
  ASSERT (if ps_kernel (src s) then K_HEAP_START <=? ptr else true) ;;
  on_src ps_acquire ;;
  let a := block2arena ptr in
  do v <- ld_arena a;
  (match a_desc v, a_large v with
   | None, true =>
       on_src (ps_mfree a (a_cnt v)) ;;
       drop_arena a
   | _, _ => give_block a ptr
   end) ;;
  on_src ps_release.
End heap.

(** ** What the heap relies on *)

(** The page [x] is one of the [n] pages from [a]. *)
Definition in_run (a n x : Z) : Prop := exists k, 0 <= k < n /\ x = a + k * PG_SIZE.

Class PageSourceOk (P : Type) `{PageSource P} := {
  ps_inv : P -> Prop;
  ps_held : P -> Z -> Prop;         (* pages handed out *)
  ps_room : Z -> P -> Prop;         (* that many pages can be had *)
  ps_locks : P -> Z;
  ps_held_page p a : ps_inv p -> ps_held p a ->
    a mod PG_SIZE = 0 /\ K_HEAP_START <= a /\ a + PG_SIZE < 2 ^ 32;
  ps_acquire_ok p : ps_inv p -> exists p', ps_acquire p = Ok (tt, p') /\ ps_inv p' /\
    (forall x, ps_held p' x <-> ps_held p x) /\ ps_size p' = ps_size p /\ ps_kernel p' = ps_kernel p /\
    (forall n, ps_room n p -> ps_room n p') /\ ps_locks p' = ps_locks p + 1;
  ps_release_ok p : ps_inv p -> 0 < ps_locks p -> exists p', ps_release p = Ok (tt, p') /\ ps_inv p' /\
    (forall x, ps_held p' x <-> ps_held p x) /\ ps_locks p' = ps_locks p - 1 /\
    ps_size p' = ps_size p /\ (forall n, ps_room n p -> ps_room n p');
  ps_room_less p n m : 0 < n -> 0 <= m -> ps_room (n + m) p -> ps_room n p;
  ps_malloc_ok p n : ps_inv p -> 0 < n -> ps_room n p -> exists a p', ps_malloc n p = Ok (a, p') /\ ps_inv p' /\
    a <> NULL /\ (forall x, in_run a n x -> ~ ps_held p x) /\
    (forall x, ps_held p' x <-> ps_held p x \/ in_run a n x) /\ ps_locks p' = ps_locks p /\
    ps_size p' = ps_size p /\ (forall m, 0 < m -> ps_room (n + m) p -> ps_room m p');
  ps_mfree_ok p a n : ps_inv p -> 0 < n -> (forall x, in_run a n x -> ps_held p x) ->
    exists p', ps_mfree a n p = Ok (tt, p') /\ ps_inv p' /\
    (forall x, ps_held p' x <-> ps_held p x /\ ~ in_run a n x) /\ ps_locks p' = ps_locks p
}.

(** ** Blocks *)

Definition bsize (d : Z) : Z := 16 * 2 ^ d.
Definition bper (d : Z) : Z := (PG_SIZE - sizeof_arena) / bsize d.
Definition blk (a d i : Z) : Z := a + sizeof_arena + i * bsize d.

Lemma desc_cases (Q : Z -> Prop) : Q 0 -> Q 1 -> Q 2 -> Q 3 -> Q 4 -> Q 5 -> Q 6 -> forall d, 0 <= d < 7 -> Q d.
Proof.
  intros ??????? d Hd.
  assert (Hc : d = 0 \/ d = 1 \/ d = 2 \/ d = 3 \/ d = 4 \/ d = 5 \/ d = 6) by lia.
  destruct Hc as [->|[->|[->|[->|[->|[->| ->]]]]]]; assumption.
Qed.

(** block_desc_init fills the seven descriptors with these sizes. *)
Lemma block_desc_init_eq :
  block_desc_init = (fun d => Desc (bsize d) (bper d) []) <$> seqZ 0 DESC_CNT.
Proof. vm_compute. reflexivity. Qed.

Lemma bsize_bounds d : 0 <= d < 7 -> 16 <= bsize d <= 1024 /\ 3 <= bper d <= 255.
Proof. revert d. apply desc_cases; vm_compute; intuition congruence. Qed.

Lemma bper_fits d : 0 <= d < 7 -> sizeof_arena + bper d * bsize d <= PG_SIZE.
Proof. revert d. apply desc_cases; vm_compute; congruence. Qed.

Lemma blk_inside a d i : 0 <= d < 7 -> 0 <= i < bper d ->
  a + sizeof_arena <= blk a d i /\ blk a d i + bsize d <= a + PG_SIZE.
Proof.
  intros Hd Hi. pose proof (bsize_bounds d Hd). pose proof (bper_fits d Hd).
  unfold blk, sizeof_arena in *. nia.
Qed.

Lemma blk_inj a d i j : 0 <= d < 7 -> blk a d i = blk a d j -> i = j.
Proof. intros Hd E. pose proof (bsize_bounds d Hd). unfold blk in E. nia. Qed.

(** The page of a block is its arena. *)
Lemma block2arena_in a x : a mod PG_SIZE = 0 -> 0 <= a -> a + PG_SIZE < 2 ^ 32 ->
  a <= x < a + PG_SIZE -> block2arena x = a.
Proof.
  intros Hm Ha Hb Hx. unfold block2arena. rewrite page_mask by lia. unfold PG_SIZE in *. dlia.
Qed.

(** How many blocks of the arena [a] are on the list [l]. *)
Definition free_count (l : list Z) (a d : Z) : Z :=
  Z.of_nat (length (filter (fun i => blk a d i ∈ l) (seqZ 0 (bper d)))).

Lemma filter_length_ext {A} (P Q : A -> Prop) `{!forall x, Decision (P x)} `{!forall x, Decision (Q x)} (l : list A) :
  (forall x, x ∈ l -> P x <-> Q x) -> length (filter P l) = length (filter Q l).
Proof.
  induction l as [|x l IH]; intros Hpq; [done|].
  assert (IHl : length (filter P l) = length (filter Q l)) by (apply IH; intros y Hy; apply Hpq; by right).
  destruct (decide (P x)) as [HP|HP].
  - rewrite !list.filter_cons_True by first [done | apply Hpq; [by left|done]]. cbn. by rewrite IHl.
  - rewrite !list.filter_cons_False; [done| |done]. intros HQ. apply HP, Hpq; [by left|done].
Qed.

(** Two tests that differ on one element. *)
Lemma filter_length_one {A} (P Q : A -> Prop) `{!forall x, Decision (P x)} `{!forall x, Decision (Q x)} (l : list A) e :
  NoDup l -> e ∈ l -> P e -> ~ Q e -> (forall x, x ∈ l -> x <> e -> P x <-> Q x) ->
  length (filter P l) = S (length (filter Q l)).
Proof.
  induction l as [|x l IH]; intros Hnd He HP HQ Hpq; [by apply not_elem_of_nil in He|].
  apply list.NoDup_cons in Hnd as [Hx Hnd]. apply elem_of_cons in He as [<-|He].
  - rewrite list.filter_cons_True, list.filter_cons_False by done. cbn. f_equal. apply filter_length_ext.
    intros y Hy. apply Hpq; [by right|]. by intros ->.
  - assert (Hxe : x <> e) by by intros ->.
    assert (IHl : length (filter P l) = S (length (filter Q l))).
    { apply IH; try done. intros y Hy. apply Hpq. by right. }
    destruct (decide (P x)) as [HPx|HPx].
    + rewrite !list.filter_cons_True by first [done | apply Hpq; [by left|done|done]]. cbn. by rewrite IHl.
    + rewrite !list.filter_cons_False; [done| |done]. intros HQx. apply HPx, Hpq; [by left|done|done].
Qed.

Lemma filter_length_all {A} (P : A -> Prop) `{!forall x, Decision (P x)} (l : list A) :
  (forall x, x ∈ l -> P x) -> length (filter P l) = length l.
Proof.
  induction l as [|x l IH]; intros Hall; [done|]. rewrite list.filter_cons_True by (apply Hall; by left).
  cbn. f_equal. apply IH. intros y Hy. apply Hall. by right.
Qed.

Lemma filter_length_none {A} (P : A -> Prop) `{!forall x, Decision (P x)} (l : list A) :
  (forall x, x ∈ l -> ~ P x) -> length (filter P l) = 0%nat.
Proof.
  induction l as [|x l IH]; intros Hall; [done|]. rewrite list.filter_cons_False by (apply Hall; by left).
  apply IH. intros y Hy. apply Hall. by right.
Qed.

Lemma seqZ_mem n i : i ∈ seqZ 0 n <-> 0 <= i < n.
Proof. rewrite elem_of_seqZ. lia. Qed.

Lemma free_count_bounds l a d : 0 <= d < 7 -> 0 <= free_count l a d <= bper d.
Proof.
  intros Hd. pose proof (bsize_bounds d Hd). unfold free_count.
  pose proof (length_filter (fun i => blk a d i ∈ l) (seqZ 0 (bper d))) as Hl.
  rewrite length_seqZ in Hl. lia.
Qed.

Lemma free_count_ext l l' a d :
  (forall i, 0 <= i < bper d -> blk a d i ∈ l <-> blk a d i ∈ l') -> free_count l a d = free_count l' a d.
Proof. intros H. unfold free_count. f_equal. apply filter_length_ext. intros i Hi. apply H. by apply seqZ_mem. Qed.

(** One block more on the list. *)
Lemma free_count_add l l' a d i : 0 <= d < 7 -> 0 <= i < bper d ->
  blk a d i ∈ l' -> blk a d i ∉ l -> (forall x, x <> blk a d i -> x ∈ l' <-> x ∈ l) ->
  free_count l' a d = free_count l a d + 1.
Proof.
  intros Hd Hi Hin Hout Hx. unfold free_count.
  rewrite (filter_length_one (fun j => blk a d j ∈ l') (fun j => blk a d j ∈ l) (seqZ 0 (bper d)) i); [lia|..].
  - apply NoDup_seqZ.
  - by apply seqZ_mem.
  - done.
  - done.
  - intros j _ Hj. apply Hx. intros E. apply Hj. by apply blk_inj in E.
Qed.

Lemma free_count_full l a d : (forall i, 0 <= i < bper d -> blk a d i ∈ l) -> 0 <= bper d -> free_count l a d = bper d.
Proof.
  intros Hall Hb. unfold free_count. rewrite filter_length_all; [rewrite length_seqZ; lia|].
  intros i Hi. apply Hall. by apply seqZ_mem.
Qed.

(** ** The invariant *)

Section heap_ok.
Context {P : Type} `{HP : PageSourceOk P}.
Implicit Types (s : kheap P).

Definition flist s (d : Z) : list Z :=
  match descs s !! Z.to_nat d with Some D => free_list D | None => [] end.

(** The pages of an arena. *)
Definition apages (v : arena) : Z := match a_desc v with None => a_cnt v | Some _ => 1 end.

(** An arena has its pages, and the count in its header is right. *)
Definition arena_ok s (a : Z) (v : arena) : Prop :=
  (forall x, in_run a (apages v) x -> ps_held (src s) x) /\
  match a_desc v with
  | None => a_large v = true /\ 1 <= a_cnt v
  | Some d => a_large v = false /\ 0 <= d < 7 /\ a_cnt v = free_count (flist s d) a d
  end.

(** The heap is in order: the arenas have pages of their own, their counts are
    right, and the free lists hold distinct blocks of arenas of their class. *)
Record kheap_inv s : Prop := {
  ki_src : ps_inv (src s);
  ki_locks : 0 <= ps_locks (src s);
  ki_descs : forall d, 0 <= d < 7 -> descs s !! Z.to_nat d = Some (Desc (bsize d) (bper d) (flist s d));
  ki_nodup : forall d, 0 <= d < 7 -> NoDup (flist s d);
  ki_arena : forall a v, arenas s !! a = Some v -> arena_ok s a v;
  ki_disj : forall a b v w x, arenas s !! a = Some v -> arenas s !! b = Some w ->
    in_run a (apages v) x -> in_run b (apages w) x -> a = b;
  ki_free : forall d b, 0 <= d < 7 -> b ∈ flist s d ->
    exists a v i, arenas s !! a = Some v /\ a_desc v = Some d /\ 0 <= i < bper d /\ b = blk a d i
}.

(** Between calls no arena is entirely free. *)
Definition no_idle_arena s : Prop :=
  forall a v d, arenas s !! a = Some v -> a_desc v = Some d -> a_cnt v < bper d.

Definition kheap_ok s : Prop := kheap_inv s /\ no_idle_arena s.

(** The memory in use: from the address [p], [n] bytes. *)
Inductive live s : Z -> Z -> Prop :=
  | live_small a v d i : arenas s !! a = Some v -> a_desc v = Some d -> 0 <= i < bper d ->
      blk a d i ∉ flist s d -> live s (blk a d i) (bsize d)
  | live_large a v : arenas s !! a = Some v -> a_desc v = None ->
      live s (a + sizeof_arena) (a_cnt v * PG_SIZE - sizeof_arena).

(** The pages of an arena lie in the kernel's part of the address space. *)
Lemma arena_page s a v : kheap_inv s -> arenas s !! a = Some v ->
  a mod PG_SIZE = 0 /\ K_HEAP_START <= a /\ a + PG_SIZE < 2 ^ 32 /\ 1 <= apages v.
Proof.
  intros Hi Ha. destruct (ki_arena s Hi a v Ha) as [Hheld Hv].
  assert (H1 : 1 <= apages v) by (unfold apages; destruct (a_desc v); [lia|apply Hv]).
  destruct (ps_held_page (src s) a (ki_src s Hi)) as (? & ? & ?); [|done].
  apply Hheld. exists 0. split; [lia|]. lia.
Qed.

(** A byte of an arena lies in one of its pages. *)
Lemma in_arena_page a n x : a mod PG_SIZE = 0 -> a <= x < a + n * PG_SIZE -> in_run a n (x - x mod PG_SIZE).
Proof.
  intros Hm Hx. exists ((x - a) / PG_SIZE). unfold PG_SIZE in *. split; [dlia|]. dlia.
Qed.

(** What is in use lies in its arena, behind the header. *)
Lemma live_inside s p n : kheap_inv s -> live s p n ->
  0 < n /\ exists a v, arenas s !! a = Some v /\ a + sizeof_arena <= p /\ p + n <= a + apages v * PG_SIZE.
Proof.
  intros Hi [a v d i Ha Hd Hib _|a v Ha Hd]; destruct (ki_arena s Hi a v Ha) as [_ Hv]; rewrite Hd in Hv.
  - destruct Hv as (_ & Hd7 & _). pose proof (bsize_bounds d Hd7). pose proof (blk_inside a d i Hd7 Hib).
    split; [lia|]. exists a, v. split; [done|]. unfold apages. rewrite Hd. lia.
  - destruct Hv as [_ Hc]. unfold sizeof_arena, PG_SIZE. split; [lia|]. exists a, v. split; [done|].
    unfold apages. rewrite Hd. lia.
Qed.

(** What is in use within the pages of an arena. *)
Lemma live_in_arena s a v r k : kheap_inv s -> arenas s !! a = Some v -> live s r k ->
  a <= r -> r + k <= a + apages v * PG_SIZE ->
  match a_desc v with
  | None => r = a + sizeof_arena /\ k = a_cnt v * PG_SIZE - sizeof_arena
  | Some d => exists i, 0 <= i < bper d /\ r = blk a d i /\ k = bsize d /\ r ∉ flist s d
  end.
Proof.
  intros Hi Ha Hl Hra Hre. destruct (live_inside s r k Hi Hl) as (Hk & _).
  assert (Hx : forall a' v', arenas s !! a' = Some v' -> in_run a' (apages v') (r - r mod PG_SIZE) -> a' = a /\ v' = v).
  { intros a' v' Ha' Hrun. assert (a' = a) as ->; [|split; congruence].
    apply (ki_disj s Hi a' a v' v _ Ha' Ha Hrun), in_arena_page; [apply (arena_page s a v Hi Ha)|lia]. }
  destruct Hl as [a' v' d i Ha' Hd Hib Hq|a' v' Ha' Hd];
    destruct (ki_arena s Hi a' v' Ha') as [_ Hv]; rewrite Hd in Hv; destruct (arena_page s a' v' Hi Ha') as (Hma' & _).
  - destruct Hv as (_ & Hd7 & _). pose proof (blk_inside a' d i Hd7 Hib). pose proof (bsize_bounds d Hd7).
    destruct (Hx a' v' Ha') as [-> ->]; [|rewrite Hd; eauto].
    apply in_arena_page; [done|]. unfold apages, sizeof_arena in *. rewrite Hd. lia.
  - destruct (Hx a' v' Ha') as [-> ->]; [|by rewrite Hd].
    apply in_arena_page; [done|]. unfold apages, sizeof_arena, PG_SIZE in *. rewrite Hd. lia.
Qed.

(** Two pieces of memory in use are the same or do not overlap. *)
Lemma live_disjoint s p n q m : kheap_inv s -> live s p n -> live s q m ->
  (p = q /\ n = m) \/ p + n <= q \/ q + m <= p.
Proof.
  intros Hi Hp Hq.
  destruct (live_inside s p n Hi Hp) as (Hn & a & v & Ha & Hpa & Hpe).
  destruct (live_inside s q m Hi Hq) as (Hm & b & w & Hb & Hqb & Hqe).
  destruct (arena_page s a v Hi Ha) as (Hma & _). destruct (arena_page s b w Hi Hb) as (Hmb & _).
  destruct (decide (p + n <= q \/ q + m <= p)) as [|Hover]; [by right|left].
  unfold sizeof_arena in *.
  assert (a = b) as <-.
  { apply (ki_disj s Hi a b v w (Z.max p q - Z.max p q mod PG_SIZE) Ha Hb); apply in_arena_page; lia || done. }
  assert (v = w) as <- by congruence.
  pose proof (live_in_arena s a v p n Hi Ha Hp ltac:(lia) Hpe) as H1.
  pose proof (live_in_arena s a v q m Hi Ha Hq ltac:(lia) Hqe) as H2.
  destruct (a_desc v) as [d|] eqn:Hd; [|destruct H1 as [-> ->]; destruct H2 as [-> ->]; done].
  destruct H1 as (i & Hib & -> & -> & _). destruct H2 as (j & Hjb & -> & -> & _). split; [|done].
  f_equal. assert (Hd7 : 0 <= d < 7).
  { destruct (ki_arena s Hi a v Ha) as [_ Hv]. rewrite Hd in Hv. apply Hv. }
  pose proof (bsize_bounds d Hd7). unfold blk in Hover. destruct (decide (i = j)); [done|]. exfalso. apply Hover. nia.
Qed.

(** ** Changes of the state that keep the invariant *)

Definition s_src (p : P) s : kheap P := KHeap p (bytes s) (arenas s) (descs s) (hcpu s).
Definition s_bytes (f : Z -> Z) s : kheap P := KHeap (src s) f (arenas s) (descs s) (hcpu s).
Definition s_arenas (m : gmap Z arena) s : kheap P := KHeap (src s) (bytes s) m (descs s) (hcpu s).
Definition s_list (d : Z) (l : list Z) s : kheap P :=
  KHeap (src s) (bytes s) (arenas s) (<[Z.to_nat d := Desc (bsize d) (bper d) l]> (descs s)) (hcpu s).

Lemma flist_list s d l d' : kheap_inv s -> 0 <= d < 7 -> 0 <= d' < 7 ->
  flist (s_list d l s) d' = if d' =? d then l else flist s d'.
Proof.
  intros Hi Hd Hd'. unfold flist. cbn [descs s_list]. destruct (Z.eqb_spec d' d) as [->|Hne].
  - rewrite list_lookup_insert_eq; [done|]. pose proof (ki_descs s Hi d Hd) as E. by eapply lookup_lt_Some.
  - by rewrite list_lookup_insert_ne by lia.
Qed.

Lemma descs_list s d l d' : kheap_inv s -> 0 <= d < 7 -> 0 <= d' < 7 ->
  descs (s_list d l s) !! Z.to_nat d' = Some (Desc (bsize d') (bper d') (if d' =? d then l else flist s d')).
Proof.
  intros Hi Hd Hd'. cbn [descs s_list]. destruct (Z.eqb_spec d' d) as [->|Hne].
  - rewrite list_lookup_insert_eq; [done|]. pose proof (ki_descs s Hi d Hd) as E. by eapply lookup_lt_Some.
  - rewrite list_lookup_insert_ne by lia. by apply ki_descs.
Qed.

(** The invariant does not look at the bytes, and at the source only through
    the pages it handed out. *)
Lemma inv_bytes f s : kheap_inv s -> kheap_inv (s_bytes f s).
Proof. intros []. by split. Qed.

Lemma inv_src p s : kheap_inv s -> ps_inv p -> 0 <= ps_locks p -> (forall x, ps_held p x <-> ps_held (src s) x) ->
  kheap_inv (s_src p s).
Proof.
  intros [] Hp Hl Hh. split; try done. intros a v Ha. destruct (ki_arena0 a v Ha) as [H1 H2].
  split; [|done]. intros x Hx. cbn. rewrite Hh. by apply H1.
Qed.

Lemma live_bytes f s q m : live (s_bytes f s) q m <-> live s q m.
Proof. split; intros [a v d i|a v]; by econstructor. Qed.
Lemma live_src p s q m : live (s_src p s) q m <-> live s q m.
Proof. split; intros [a v d i|a v]; by econstructor. Qed.

(** Blocks of different arenas differ. *)
Lemma blk_arena s a v b w d i j : kheap_inv s -> arenas s !! a = Some v -> arenas s !! b = Some w ->
  0 <= d < 7 -> 0 <= i < bper d -> 0 <= j < bper d -> blk a d i = blk b d j -> a = b.
Proof.
  intros Hs Ha Hb Hd Hi Hj E.
  destruct (arena_page s a v Hs Ha) as (Hma & Hka & Hea & _). destruct (arena_page s b w Hs Hb) as (Hmb & Hkb & Heb & _).
  pose proof (blk_inside a d i Hd Hi). pose proof (blk_inside b d j Hd Hj). pose proof (bsize_bounds d Hd).
  unfold sizeof_arena, K_HEAP_START in *.
  rewrite <- (block2arena_in a (blk a d i)), <- (block2arena_in b (blk b d j)) by (done || lia). by rewrite E.
Qed.

(** A block of the arena [a]. *)
Definition block_of (a d x : Z) : Prop := exists i, 0 <= i < bper d /\ x = blk a d i.

(** The list of one class and the count of one arena of it change together. *)
Definition relist (a d : Z) (l : list Z) (cnt : Z) s : kheap P :=
  s_arenas (<[a := Arena (Some d) cnt false]> (arenas s)) (s_list d l s).

Section relist.
Context s (Hs : kheap_inv s) (a d : Z) (v : arena) (Ha : arenas s !! a = Some v) (Hd : a_desc v = Some d).
Context (l : list Z) (Hnd : NoDup l) (Hout : forall x, ~ block_of a d x -> x ∈ l <-> x ∈ flist s d).

Lemma relist_class : 0 <= d < 7.
Proof. destruct (ki_arena s Hs a v Ha) as [_ Hv]. rewrite Hd in Hv. apply Hv. Qed.

Lemma relist_flist d' : 0 <= d' < 7 -> flist (relist a d l (free_count l a d) s) d' = if d' =? d then l else flist s d'.
Proof. intros Hd'. apply (flist_list s d l d' Hs relist_class Hd'). Qed.

Lemma relist_inv : kheap_inv (relist a d l (free_count l a d) s).
Proof.
  pose proof relist_class as Hd7. split.
  - apply Hs.
  - apply Hs.
  - intros d' Hd'. rewrite relist_flist by done. by apply (descs_list s).
  - intros d' Hd'. rewrite relist_flist by done. destruct (d' =? d); [done|]. by apply ki_nodup.
  - intros b w Hb. cbn [arenas relist s_arenas] in Hb. destruct (decide (b = a)) as [->|Hne].
    + rewrite lookup_insert_eq in Hb. simplify_eq. split.
      * intros x Hx. apply (proj1 (ki_arena s Hs a v Ha)). unfold apages in *. by rewrite Hd.
      * cbn. split; [done|]. split; [done|]. by rewrite relist_flist, Z.eqb_refl.
    + rewrite lookup_insert_ne in Hb by done. destruct (ki_arena s Hs b w Hb) as [H1 H2]. split; [done|].
      destruct (a_desc w) as [d'|]; [|done]. destruct H2 as (Hw & Hd' & Hc). split; [done|]. split; [done|].
      rewrite Hc, relist_flist by done. destruct (Z.eqb_spec d' d) as [->|]; [|done].
      apply free_count_ext. intros i Hi. symmetry. apply Hout. intros (j & Hj & E).
      apply Hne. by apply (blk_arena s b w a v d i j).
  - intros b c w w' x Hb Hc Hx Hy. cbn [arenas relist s_arenas] in Hb, Hc.
    assert (Hv : forall b w, <[a := Arena (Some d) (free_count l a d) false]> (arenas s) !! b = Some w ->
      exists w', arenas s !! b = Some w' /\ apages w' = apages w).
    { intros b' u E. destruct (decide (b' = a)) as [->|Hne].
      - rewrite lookup_insert_eq in E. simplify_eq. exists v. split; [done|]. unfold apages. by rewrite Hd.
      - rewrite lookup_insert_ne in E by done. eauto. }
    destruct (Hv _ _ Hb) as (w1 & Hb1 & E1). destruct (Hv _ _ Hc) as (w2 & Hc2 & E2). rewrite <- E1 in Hx. rewrite <- E2 in Hy.
    exact (ki_disj s Hs b c w1 w2 x Hb1 Hc2 Hx Hy).
  - intros d' b Hd' Hb. rewrite relist_flist in Hb by done. cbn [arenas relist s_arenas].
    assert (Hlift : forall d', 0 <= d' < 7 -> b ∈ flist s d' ->
      exists a0 v0 i, <[a := Arena (Some d) (free_count l a d) false]> (arenas s) !! a0 = Some v0 /\ a_desc v0 = Some d' /\ 0 <= i < bper d' /\ b = blk a0 d' i).
    { intros d'' Hd'' Hin. destruct (ki_free s Hs d'' b Hd'' Hin) as (a0 & v0 & i & Ha0 & Hd0 & Hi & ->).
      destruct (decide (a0 = a)) as [->|Hne].
      - exists a, (Arena (Some d) (free_count l a d) false), i. rewrite lookup_insert_eq. assert (d'' = d) as -> by congruence. done.
      - exists a0, v0, i. by rewrite lookup_insert_ne. }
    destruct (Z.eqb_spec d' d) as [->|]; [|by apply Hlift].
    destruct (decide (Exists (fun i => b = blk a d i) (seqZ 0 (bper d)))) as [He|Hne].
    + apply list.Exists_exists in He as (i & Hi & ->). apply seqZ_mem in Hi.
      exists a, (Arena (Some d) (free_count l a d) false), i. by rewrite lookup_insert_eq.
    + apply Hlift; [done|]. apply Hout; [|done]. intros (i & Hi & ->). apply Hne, list.Exists_exists.
      exists i. split; [by apply seqZ_mem|done].
Qed.

Lemma relist_live q m :
  live (relist a d l (free_count l a d) s) q m <->
  (live s q m /\ ~ block_of a d q) \/ (block_of a d q /\ m = bsize d /\ q ∉ l).
Proof.
  pose proof relist_class as Hd7. split.
  - intros [b w d' i Hb Hw Hi Hq|b w Hb Hw]; cbn [arenas relist s_arenas] in Hb; (destruct (decide (b = a)) as [->|Hne];
      [rewrite lookup_insert_eq in Hb; injection Hb as <-; cbn in Hw|rewrite lookup_insert_ne in Hb by done]).
    + injection Hw as <-. right. rewrite relist_flist, Z.eqb_refl in Hq by done. split; [by exists i|done].
    + assert (Hd' : 0 <= d' < 7) by (destruct (ki_arena s Hs b w Hb) as [_ H2]; rewrite Hw in H2; apply H2).
      rewrite relist_flist in Hq by done. left. destruct (Z.eqb_spec d' d) as [->|Hdd].
      * assert (Hnb : ~ block_of a d (blk b d i)).
        { intros (j & Hj & E). apply Hne. by apply (blk_arena s b w a v d i j). }
        split; [|done]. apply (live_small s b w d i); try done. intros Hin. by apply Hq, Hout.
      * split; [by apply (live_small s b w d' i)|]. intros (j & Hj & E).
        assert (Hab : b = a); [|done]. destruct (arena_page s b w Hs Hb) as (? & ? & ? & _).
        destruct (arena_page s a v Hs Ha) as (? & ? & ? & _). pose proof (blk_inside b d' i Hd' Hi). pose proof (blk_inside a d j Hd7 Hj).
        pose proof (bsize_bounds d Hd7). pose proof (bsize_bounds d' Hd'). unfold K_HEAP_START, sizeof_arena in *.
        rewrite <- (block2arena_in b (blk b d' i)), <- (block2arena_in a (blk a d j)) by (done || lia). by rewrite E.
    + done.
    + left. split; [by apply (live_large s b w)|]. intros (j & Hj & E).
      destruct (ki_arena s Hs b w Hb) as [_ H2]. rewrite Hw in H2.
      apply Hne. apply (ki_disj s Hs b a w v (blk a d j - blk a d j mod PG_SIZE) Hb Ha); apply in_arena_page;
        [apply (arena_page s b w Hs Hb)| |apply (arena_page s a v Hs Ha)|].
      * rewrite <- E. unfold apages, sizeof_arena, PG_SIZE. rewrite Hw. lia.
      * pose proof (blk_inside a d j Hd7 Hj). pose proof (bsize_bounds d Hd7). unfold apages, sizeof_arena in *. rewrite Hd. lia.
  - intros [[Hq Hnb]|((i & Hi & ->) & -> & Hq)].
    + destruct Hq as [b w d' i Hb Hw Hi Hq|b w Hb Hw]; (destruct (decide (b = a)) as [->|Hne];
        [assert (w = v) as -> by congruence|]).
      * exfalso. apply Hnb. assert (d' = d) as -> by congruence. by exists i.
      * assert (Hd' : 0 <= d' < 7) by (destruct (ki_arena s Hs b w Hb) as [_ H2]; rewrite Hw in H2; apply H2).
        apply (live_small _ b w d' i); [cbn; by rewrite lookup_insert_ne|done|done|].
        rewrite relist_flist by done. destruct (Z.eqb_spec d' d) as [->|]; [|done]. intros Hin. apply Hq. by apply Hout.
      * congruence.
      * apply (live_large _ b w); [cbn; by rewrite lookup_insert_ne|done].
    + apply (live_small _ a (Arena (Some d) (free_count l a d) false) d i); [cbn; by rewrite lookup_insert_eq|done|done|].
      by rewrite relist_flist, Z.eqb_refl.
Qed.
End relist.

(** What is in use in an arena none of whose blocks is free. *)
Definition whole (a : Z) (v : arena) (q m : Z) : Prop :=
  match a_desc v with
  | Some d => block_of a d q /\ m = bsize d
  | None => q = a + sizeof_arena /\ m = a_cnt v * PG_SIZE - sizeof_arena
  end.

(** *** A new arena, all of it in use *)

Section add.
Context s (Hs : kheap_inv s) (a : Z) (v : arena) (p : P).
Context (Hp : ps_inv p) (Hl : 0 <= ps_locks p) (Hn : 1 <= apages v).
Context (Hheld : forall x, ps_held p x <-> ps_held (src s) x \/ in_run a (apages v) x).
Context (Hfresh : forall x, in_run a (apages v) x -> ~ ps_held (src s) x).
Context (Hv : match a_desc v with
  | None => a_large v = true
  | Some d => a_large v = false /\ 0 <= d < 7 /\ a_cnt v = 0 end).

Definition added : kheap P := s_src p (s_arenas (<[a := v]> (arenas s)) s).

Lemma add_page : a mod PG_SIZE = 0 /\ K_HEAP_START <= a /\ a + PG_SIZE < 2 ^ 32.
Proof. apply (ps_held_page p a Hp). apply Hheld. right. exists 0. lia. Qed.

Lemma add_new b w : arenas s !! b = Some w -> b <> a.
Proof.
  intros Hb ->. apply (Hfresh a); [exists 0; lia|]. apply (proj1 (ki_arena s Hs a w Hb)).
  pose proof (arena_page s a w Hs Hb). exists 0. lia.
Qed.

(** Its blocks are on no list. *)
Lemma add_not_free d i : 0 <= d < 7 -> 0 <= i < bper d -> blk a d i ∉ flist s d.
Proof.
  intros Hd Hi Hin. destruct (ki_free s Hs d _ Hd Hin) as (b & w & j & Hb & _ & Hj & E).
  apply (add_new b w Hb). destruct add_page as (? & ? & ?). destruct (arena_page s b w Hs Hb) as (? & ? & ? & _).
  pose proof (blk_inside a d i Hd Hi). pose proof (blk_inside b d j Hd Hj). pose proof (bsize_bounds d Hd).
  unfold K_HEAP_START, sizeof_arena in *.
  rewrite <- (block2arena_in b (blk b d j)), <- (block2arena_in a (blk a d i)) by (done || lia). by rewrite E.
Qed.

Lemma add_inv : kheap_inv added.
Proof.
  split; cbn [added s_src s_arenas src arenas descs].
  - done.
  - done.
  - apply Hs.
  - apply Hs.
  - intros b w Hb. destruct (decide (b = a)) as [->|Hne].
    + rewrite lookup_insert_eq in Hb. injection Hb as <-. split; [intros x Hx; apply Hheld; by right|].
      destruct (a_desc v) as [d|] eqn:Ed.
      * destruct Hv as (? & Hd & Hc). split; [done|]. split; [done|]. rewrite Hc. unfold free_count.
        change (flist added d) with (flist s d). rewrite filter_length_none; [done|].
        intros i Hi. apply seqZ_mem in Hi. by apply add_not_free.
      * split; [done|]. unfold apages in Hn. by rewrite Ed in Hn.
    + rewrite lookup_insert_ne in Hb by done. destruct (ki_arena s Hs b w Hb) as [H1 H2]. split; [|done].
      intros x Hx. apply Hheld. left. by apply H1.
  - intros b c w w' x Hb Hc Hx Hy.
    assert (Hold : forall b w x, b <> a -> arenas s !! b = Some w -> in_run b (apages w) x -> in_run a (apages v) x -> False).
    { intros b' u y _ Hb' Hy1 Hy2. apply (Hfresh y Hy2). by apply (proj1 (ki_arena s Hs b' u Hb')). }
    destruct (decide (b = a)) as [->|Hba], (decide (c = a)) as [->|Hca]; [done|..].
    + rewrite lookup_insert_eq in Hb. injection Hb as <-. rewrite lookup_insert_ne in Hc by done. exfalso. by eapply (Hold c w' x).
    + rewrite lookup_insert_eq in Hc. injection Hc as <-. rewrite lookup_insert_ne in Hb by done. exfalso. by eapply (Hold b w x).
    + rewrite lookup_insert_ne in Hb by done. rewrite lookup_insert_ne in Hc by done. by apply (ki_disj s Hs b c w w' x).
  - intros d b Hd Hb. destruct (ki_free s Hs d b Hd Hb) as (c & w & i & Hc & Hw & Hi & ->).
    exists c, w, i. rewrite lookup_insert_ne; [done|]. intros <-. by eapply add_new.
Qed.

Lemma add_live q m : live added q m <-> live s q m \/ whole a v q m.
Proof.
  unfold whole. split.
  - intros [b w d i Hb Hw Hi Hq|b w Hb Hw]; cbn [added s_src s_arenas arenas] in Hb;
      (destruct (decide (b = a)) as [->|Hne]; [rewrite lookup_insert_eq in Hb; injection Hb as <-; rewrite Hw|
         rewrite lookup_insert_ne in Hb by done]).
    + right. split; [by exists i|done].
    + left. by apply (live_small s b w d i).
    + by right.
    + left. by apply (live_large s b w).
  - intros [[b w d i Hb Hw Hi Hq|b w Hb Hw]|Hnew].
    + apply (live_small _ b w d i); try done. cbn. rewrite lookup_insert_ne; [done|]. intros <-. by eapply add_new.
    + apply (live_large _ b w); try done. cbn. rewrite lookup_insert_ne; [done|]. intros <-. by eapply add_new.
    + assert (Ha : arenas added !! a = Some v) by apply lookup_insert_eq.
      destruct (a_desc v) as [d|] eqn:Ed.
      * destruct Hnew as [(i & Hi & ->) ->]. apply (live_small _ a v d i); try done. apply add_not_free; [apply Hv|done].
      * destruct Hnew as [-> ->]. by apply live_large.
Qed.
End add.

(** *** An arena that goes, none of its blocks being free *)

Section drop.
Context s (Hs : kheap_inv s) (a : Z) (v : arena) (Ha : arenas s !! a = Some v) (p : P).
Context (Hp : ps_inv p) (Hl : 0 <= ps_locks p).
Context (Hheld : forall x, ps_held p x <-> ps_held (src s) x /\ ~ in_run a (apages v) x).
Context (Hnone : forall d x, a_desc v = Some d -> block_of a d x -> x ∉ flist s d).

Definition dropped : kheap P := s_src p (s_arenas (delete a (arenas s)) s).

Lemma drop_inv : kheap_inv dropped.
Proof.
  split; cbn [dropped s_src s_arenas src arenas descs].
  - done.
  - done.
  - apply Hs.
  - apply Hs.
  - intros b w Hb. apply lookup_delete_Some in Hb as [Hne Hb]. destruct (ki_arena s Hs b w Hb) as [H1 H2]. split; [|done].
    intros x Hx. apply Hheld. split; [by apply H1|]. intros Hy. apply Hne. symmetry. by apply (ki_disj s Hs b a w v x).
  - intros b c w w' x Hb Hc. apply lookup_delete_Some in Hb as [_ Hb]. apply lookup_delete_Some in Hc as [_ Hc].
    by apply (ki_disj s Hs).
  - intros d b Hd Hb. destruct (ki_free s Hs d b Hd Hb) as (c & w & i & Hc & Hw & Hi & ->).
    exists c, w, i. split; [|done]. apply lookup_delete_Some. split; [|done]. intros <-.
    assert (w = v) as -> by congruence. apply (Hnone d (blk a d i) Hw); [by exists i|done].
Qed.

Lemma drop_live q m : live dropped q m <-> live s q m /\ ~ whole a v q m.
Proof.
  split.
  - intros Hlv. assert (Hb : exists b w, b <> a /\ arenas s !! b = Some w /\ live s q m /\ whole b w q m).
    { destruct Hlv as [b w d i Hb Hw Hi Hq|b w Hb Hw]; cbn in Hb; apply lookup_delete_Some in Hb as [Hne Hb]; exists b, w;
        (split; [done|]; split; [done|]; unfold whole; rewrite Hw).
      - split; [by apply (live_small s b w d i)|]. split; [by exists i|done].
      - split; [by apply live_large|done]. }
    destruct Hb as (b & w & Hne & Hb & Hlq & Hwb). split; [done|]. intros Hwa. apply Hne.
    assert (Hrun : forall b w, arenas s !! b = Some w -> whole b w q m -> in_run b (apages w) (q - q mod PG_SIZE)).
    { intros b' w' Hb' Hwh. destruct (arena_page s b' w' Hs Hb') as (? & ? & ? & ?). apply in_arena_page; [done|].
      unfold whole, apages, block_of in *. destruct (ki_arena s Hs b' w' Hb') as [_ Hbw]. destruct (a_desc w') as [d|].
      - destruct Hwh as [(i & Hi & ->) _]. destruct Hbw as (_ & Hd & _). pose proof (blk_inside b' d i Hd Hi).
        pose proof (bsize_bounds d Hd). unfold sizeof_arena in *. lia.
      - destruct Hwh as [-> _]. unfold sizeof_arena, PG_SIZE. lia. }
    exact (ki_disj s Hs b a w v _ Hb Ha (Hrun b w Hb Hwb) (Hrun a v Ha Hwa)).
  - intros [[b w d i Hb Hw Hi Hq|b w Hb Hw] Hnw]; (assert (Hne : b <> a);
      [intros ->; apply Hnw; assert (w = v) as <- by congruence; unfold whole; rewrite Hw|]).
    + split; [by exists i|done].
    + apply (live_small _ b w d i); try done. cbn. by rewrite lookup_delete_ne.
    + done.
    + apply (live_large _ b w); try done. cbn. by rewrite lookup_delete_ne.
Qed.
End drop.

(** ** The routines *)

Lemma wp_on_src {A} (m : M P A) s x p (Q : A -> kheap P -> Prop) :
  m (src s) = Ok (x, p) -> Q x (s_src p s) -> wp (on_src m) Q s.
Proof. intros Hm HQ. unfold wp, on_src, zoom. by rewrite Hm. Qed.

Lemma wp_ld_desc d s (Q : mem_block_desc -> kheap P -> Prop) : kheap_inv s -> 0 <= d < 7 ->
  Q (Desc (bsize d) (bper d) (flist s d)) s -> wp (ld_desc d) Q s.
Proof. intros Hs Hd HQ. unfold ld_desc. wp_load (ki_descs s Hs d Hd). done. Qed.

Lemma wp_ld_arena a v s (Q : arena -> kheap P -> Prop) :
  arenas s !! a = Some v -> Q v s -> wp (ld_arena a) Q s.
Proof. intros Ha HQ. unfold ld_arena. wp_load Ha. done. Qed.

Lemma find_desc_run size s (Q : Z -> kheap P -> Prop) : kheap_inv s -> 0 < size <= 1024 ->
  (forall d, 0 <= d < 7 -> size <= bsize d -> Q d s) -> wp (find_desc size) Q s.
Proof.
  intros Hs Hsize HQ. unfold find_desc.
  apply (wp_loop (fun d s' => s' = s /\ 0 <= d <= 6) (fun d _ => Z.to_nat (7 - d))); [|by split|lia].
  intros d s' (-> & Hd). unfold DESC_CNT. rewrite (proj2 (Z.ltb_lt d 7)) by lia. wp_simp.
  apply wp_ld_desc; [done|lia|]. cbn [block_size]. destruct (Z.leb_spec size (bsize d)) as [Hle|Hgt]; wp_simp.
  - apply HQ; [lia|done].
  - split; [|lia]. split; [done|]. destruct (decide (d = 6)) as [->|]; [|lia].
    unfold bsize in Hgt. lia.
Qed.

(** A list of blocks in place of the class's. *)
Lemma free_append_run d b s l (Q : unit -> kheap P -> Prop) :
  0 <= d -> descs s !! Z.to_nat d = Some (Desc (bsize d) (bper d) l) ->
  Q tt (s_list d (l ++ [b]) s) -> wp (free_append d b) Q s.
Proof.
  intros Hd Hl HQ. unfold free_append, st_free_list, ld_desc. wp_load Hl. wp_load Hl. done.
Qed.

Lemma s_list_twice d l l' s : s_list d l (s_list d l' s) = s_list d l s.
Proof. unfold s_list. cbn. by rewrite list_insert_insert_eq. Qed.

Lemma s_list_same d s : kheap_inv s -> 0 <= d < 7 -> s_list d (flist s d) s = s.
Proof.
  intros Hs Hd. unfold s_list. rewrite list_insert_id by by apply ki_descs. by destruct s.
Qed.

(** take_block: the block at the head of the list. *)
Lemma take_block_run d b l s (Q : Z -> kheap P -> Prop) :
  kheap_inv s -> 0 <= d < 7 -> flist s d = b :: l ->
  (forall a v i, arenas s !! a = Some v -> a_desc v = Some d -> 0 <= i < bper d -> b = blk a d i ->
     a_cnt v = free_count l a d + 1 ->
     Q b (s_bytes (clear (bytes s) b (bsize d)) (relist a d l (free_count l a d) s))) ->
  wp (take_block d (bsize d)) Q s.
Proof.
  intros Hs Hd Hl HQ. pose proof (ki_descs s Hs d Hd) as HD. rewrite Hl in HD.
  pose proof (ki_nodup s Hs d Hd) as Hnd. rewrite Hl in Hnd. apply list.NoDup_cons in Hnd as [Hb Hnd].
  destruct (ki_free s Hs d b Hd) as (a & v & i & Ha & Hv & Hi & ->); [rewrite Hl; by left|].
  destruct (ki_arena s Hs a v Ha) as [_ Hcnt]. rewrite Hv in Hcnt. destruct Hcnt as (Hlg & _ & Hcnt).
  assert (Hadd : free_count (blk a d i :: l) a d = free_count l a d + 1).
  { apply (free_count_add l _ a d i); try done; [by left|]. intros x Hx. rewrite elem_of_cons. by intuition congruence. }
  rewrite Hl, Hadd in Hcnt. pose proof (free_count_bounds l a d Hd). pose proof (bsize_bounds d Hd).
  destruct (arena_page s a v Hs Ha) as (Hm & Hk & He & _). pose proof (blk_inside a d i Hd Hi) as Hin.
  assert (Hba : block2arena (blk a d i) = a).
  { unfold K_HEAP_START, sizeof_arena in *. apply block2arena_in; lia || done. }
  unfold take_block, free_pop, st_free_list, ld_desc. wp_load HD. cbn [free_list]. wp_load HD.
  unfold memset0. wp_simp. rewrite Hba. unfold ld_arena. wp_load Ha. unfold st_arena. wp_simp.
  specialize (HQ a v i Ha Hv Hi eq_refl Hcnt). rewrite Hv, Hlg, Hcnt. replace (free_count l a d + 1 - 1) with (free_count l a d) by lia.
  rewrite u32_small by lia. exact HQ.
Qed.

Definition arena_blocks (a d : Z) : list Z := (fun i => blk a d i) <$> seqZ 0 (bper d).

Lemma arena_blocks_mem a d x : x ∈ arena_blocks a d <-> block_of a d x.
Proof.
  unfold arena_blocks, block_of. rewrite list_elem_of_fmap. split; intros (i & Hx & Hi); exists i.
  - split; [by apply seqZ_mem|done].
  - split; [done|by apply seqZ_mem].
Qed.

Lemma arena_blocks_nodup a d : 0 <= d < 7 -> NoDup (arena_blocks a d).
Proof.
  intros Hd. apply NoDup_fmap_2_strong; [|apply NoDup_seqZ]. intros i j _ _ E. by apply blk_inj in E.
Qed.
Lemma wp_hcpu_disable s (Q : intr_status -> kheap P -> Prop) :
  Q (status_of (hcpu s)) (KHeap (src s) (bytes s) (arenas s) (descs s) (disabled (hcpu s))) -> wp (on_hcpu intr_disable) Q s.
Proof. intros HQ. unfold wp, on_hcpu, zoom. by rewrite intr_disable_eq. Qed.

Lemma wp_hcpu_restore c s (Q : intr_status -> kheap P -> Prop) :
  hcpu s = disabled c -> Q INTR_OFF (KHeap (src s) (bytes s) (arenas s) (descs s) c) ->
  wp (on_hcpu (intr_set_status (status_of c))) Q s.
Proof. intros Hc HQ. unfold wp, on_hcpu, zoom. by rewrite Hc, intr_restore. Qed.

(** The loop that puts the blocks of a new arena on the list. *)
Lemma fill_list_run a d s (Q : unit -> kheap P -> Prop) :
  0 <= d < 7 -> arenas s !! a = Some (Arena (Some d) (bper d) false) ->
  descs s !! Z.to_nat d = Some (Desc (bsize d) (bper d) []) ->
  Q tt (s_list d (arena_blocks a d) s) ->
  wp (for_range 0 (Z.to_nat (bper d)) (fun block_idx =>
      do b <- arena2block a block_idx;
      do d <- desc_of a;
      do D <- ld_desc d;
      ASSERT (negb (bool_decide (b ∈ free_list D))) ;;
      free_append d b)) Q s.
Proof.
  intros Hd Ha HD HQ. pose proof (bsize_bounds d Hd).
  apply (wp_for_range (fun k s' => s' = s_list d ((fun i => blk a d i) <$> seqZ 0 k) s)).
  - intros k s' Hk ->. set (l := (fun i => blk a d i) <$> seqZ 0 k).
    assert (HDl : descs (s_list d l s) !! Z.to_nat d = Some (Desc (bsize d) (bper d) l)).
    { cbn. rewrite list_lookup_insert_eq; [done|]. by eapply lookup_lt_Some. }
    assert (Hdo : forall (Q' : Z -> kheap P -> Prop), Q' d (s_list d l s) -> wp (desc_of a) Q' (s_list d l s)).
    { intros Q' HQ'. unfold desc_of, ld_arena. wp_load Ha. apply wp_of_option. by exists d. }
    assert (Hlk : forall (Q' : mem_block_desc -> kheap P -> Prop), Q' (Desc (bsize d) (bper d) l) (s_list d l s) ->
      wp (ld_desc d) Q' (s_list d l s)).
    { intros Q' HQ'. unfold ld_desc. wp_load HDl. done. }
    unfold arena2block. wp_simp. apply Hdo. wp_simp. apply Hlk. wp_simp. apply Hdo. wp_simp. apply Hlk. wp_simp.
    cbn [block_size]. fold (blk a d k). apply wp_ASSERT. split.
    { apply negb_true_iff, bool_decide_eq_false. cbn [free_list]. unfold l. rewrite list_elem_of_fmap.
      intros (i & E & Hi). apply blk_inj in E; [|done]. rewrite seqZ_mem in Hi. lia. }
    wp_simp. eapply free_append_run; [lia|exact HDl|]. rewrite s_list_twice. f_equal. unfold l.
    rewrite seqZ_app, fmap_app by lia. done.
  - unfold s_list. cbn [fmap list_fmap seqZ Z.to_nat seq]. rewrite list_insert_id by done. by destruct s.
  - intros s' ->. rewrite Z.add_0_l, Z2Nat.id by lia. exact HQ.
Qed.

(** [n] pages have been taken from [p], or fewer. *)
Definition spent (n : Z) (p p' : P) : Prop :=
  ps_locks p' = ps_locks p /\ ps_size p' = ps_size p /\ forall m, 0 < m -> ps_room (n + m) p -> ps_room m p'.

Lemma spent_refl n p : 0 <= n -> spent n p p.
Proof. intros Hn. split; [done|]. split; [done|]. intros m Hm Hr. apply (ps_room_less p m n); [done|done|]. by rewrite Z.add_comm. Qed.

Lemma new_arena_run d s (Q : bool -> kheap P -> Prop) :
  kheap_inv s -> 0 <= d < 7 -> flist s d = [] -> ps_room 1 (src s) ->
  (forall a p, let s1 := added s a (Arena (Some d) 0 false) p in
     (forall x, in_run a 1 x -> ~ ps_held (src s) x) -> spent 1 (src s) p -> kheap_inv s1 ->
     (forall q m, live s1 q m <-> live s q m \/ (block_of a d q /\ m = bsize d)) ->
     Q true (s_bytes (clear (bytes s) a PG_SIZE) (relist a d (arena_blocks a d) (bper d) s1))) ->
  wp (new_arena d) Q s.
Proof.
  intros Hs Hd Hl Hroom HQ. unfold new_arena. wp_simp. apply wp_ld_desc; [done|done|]. wp_simp.
  destruct (ps_malloc_ok (src s) 1 (ki_src s Hs) ltac:(lia) Hroom) as (a & p & Hm & Hp & Ha & Hfr & Hheld & Hsp). pose proof Hsp as [Hlk _].
  eapply wp_on_src; [exact Hm|]. rewrite (proj2 (Z.eqb_neq a NULL)) by done. unfold memset0, st_arena. wp_simp.
  apply wp_hcpu_disable. wp_simp. cbn [blocks_per_arena].
  assert (HD : descs s !! Z.to_nat d = Some (Desc (bsize d) (bper d) [])) by (rewrite <- Hl; by apply ki_descs).
  apply fill_list_run; [done|apply lookup_insert_eq|exact HD|]. wp_simp.
  apply wp_hcpu_restore; [done|]. wp_simp.
  specialize (HQ a p Hfr Hsp). assert (Hi : kheap_inv (added s a (Arena (Some d) 0 false) p)).
  { apply add_inv; try done. rewrite Hlk. apply Hs. }
  assert (Hlv := add_live s Hs a (Arena (Some d) 0 false) p Hp ltac:(cbn; lia) Hheld Hfr ltac:(done)).
  specialize (HQ Hi Hlv). unfold s_bytes, relist, added, s_arenas, s_list, s_src in *. cbn [src bytes arenas descs hcpu] in *.
  by rewrite insert_insert_eq in HQ.
Qed.
(** Memory in use at a block of a small arena is that block. *)
Lemma live_block s a v d q m : kheap_inv s -> arenas s !! a = Some v -> a_desc v = Some d -> block_of a d q ->
  live s q m -> m = bsize d /\ q ∉ flist s d.
Proof.
  intros Hs Ha Hd (i & Hi & ->) Hl.
  destruct (ki_arena s Hs a v Ha) as [_ Hv]. rewrite Hd in Hv. destruct Hv as (_ & Hd7 & _).
  pose proof (blk_inside a d i Hd7 Hi) as Hin. pose proof (bsize_bounds d Hd7).
  assert (Hm : 0 < m) by apply (live_inside s _ _ Hs Hl).
  destruct (decide (blk a d i + m <= a + PG_SIZE)) as [Hle|Hgt].
  - pose proof (live_in_arena s a v _ m Hs Ha Hl) as H1. rewrite Hd in H1. unfold apages, sizeof_arena in *. rewrite Hd in H1.
    destruct H1 as (j & _ & E & -> & Hn); [lia|lia|done].
  - (* it would start in this arena and end in another one *)
    exfalso. destruct (live_inside s _ _ Hs Hl) as (_ & b & w & Hb & Hqb & Hqe).
    destruct (arena_page s a v Hs Ha) as (? & _). destruct (arena_page s b w Hs Hb) as (? & _).
    assert (b = a) as ->.
    { apply (ki_disj s Hs b a w v (blk a d i - blk a d i mod PG_SIZE) Hb Ha); apply in_arena_page; unfold apages, sizeof_arena in *;
        rewrite ?Hd; lia || done. }
    assert (w = v) as -> by congruence. unfold apages in Hqe. rewrite Hd in Hqe. lia.
Qed.

(** Taking the head of a list. *)
Section take.
Context s (Hs : kheap_inv s) (d b : Z) (l : list Z) (Hl : flist s d = b :: l) (a : Z) (v : arena) (i : Z).
Context (Ha : arenas s !! a = Some v) (Hd : a_desc v = Some d) (Hi : 0 <= i < bper d) (Hb : b = blk a d i).
Let s' := relist a d l (free_count l a d) s.

Lemma take_list : 0 <= d < 7 /\ NoDup (b :: l) /\ (forall x, ~ block_of a d x -> x ∈ l <-> x ∈ flist s d).
Proof.
  assert (Hd7 : 0 <= d < 7) by (destruct (ki_arena s Hs a v Ha) as [_ Hv]; rewrite Hd in Hv; apply Hv).
  split; [done|]. split; [rewrite <- Hl; by apply ki_nodup|]. intros x Hx. rewrite Hl, elem_of_cons.
  split; [by right|]. intros [->|]; [|done]. exfalso. apply Hx. by exists i.
Qed.

Lemma take_inv : kheap_inv s'.
Proof.
  destruct take_list as (Hd7 & Hnd & Hx). apply list.NoDup_cons in Hnd as [_ Hnd]. by eapply relist_inv.
Qed.

Lemma take_live q m : live s' q m <-> live s q m \/ (q = b /\ m = bsize d).
Proof.
  destruct take_list as (Hd7 & Hnd & Hx). apply list.NoDup_cons in Hnd as [Hbl Hnd].
  unfold s'. rewrite relist_live by done. split.
  - intros [[? _]|((j & Hj & ->) & -> & Hq)]; [by left|].
    destruct (decide (blk a d j = b)) as [->|Hne]; [by right|left].
    apply (live_small s a v d j); try done. rewrite Hl. by intros [?|?]%elem_of_cons.
  - intros [Hq|[-> ->]].
    + destruct (decide (Exists (fun j => q = blk a d j) (seqZ 0 (bper d)))) as [He|Hne].
      * right. apply list.Exists_exists in He as (j & Hj & ->). apply seqZ_mem in Hj.
        assert (Hbo : block_of a d (blk a d j)) by by exists j.
        destruct (live_block s a v d _ m Hs Ha Hd Hbo Hq) as [-> Hn]. split; [done|]. split; [done|].
        intros Hin. apply Hn. rewrite Hl. by right.
      * left. split; [done|]. intros (j & Hj & ->). apply Hne, list.Exists_exists. exists j. split; [by apply seqZ_mem|done].
    + right. split; [by exists i|done].
Qed.

Lemma take_apart q m : live s q m -> b + bsize d <= q \/ q + m <= b.
Proof.
  intros Hq. assert (H1 : live s' b (bsize d)) by (apply take_live; by right).
  assert (H2 : live s' q m) by (apply take_live; by left).
  destruct (live_disjoint s' b (bsize d) q m take_inv H1 H2) as [[<- <-]|]; [|lia].
  exfalso. destruct (live_block s a v d b (bsize d) Hs Ha Hd) as [_ Hn]; [by exists i|done|].
  apply Hn. rewrite Hl. by left.
Qed.

Lemma take_busy : (forall a' v' d', a' <> a -> arenas s !! a' = Some v' -> a_desc v' = Some d' -> a_cnt v' < bper d') ->
  no_idle_arena s'.
Proof.
  intros Hrest a' v' d' Ha' Hd'. unfold s' in Ha'. cbn [arenas relist s_arenas] in Ha'.
  destruct (decide (a' = a)) as [->|Hne]; [|rewrite lookup_insert_ne in Ha' by done; by eapply Hrest].
  rewrite lookup_insert_eq in Ha'. injection Ha' as <-. cbn in Hd'. injection Hd' as <-. cbn [a_cnt].
  destruct take_list as (Hd7 & Hnd & Hx). apply list.NoDup_cons in Hnd as [Hbl Hnd].
  pose proof (free_count_bounds (b :: l) a d Hd7).
  assert (E : free_count (b :: l) a d = free_count l a d + 1); [|lia].
  apply (free_count_add l _ a d i); try done; [rewrite <- Hb; by left|by rewrite <- Hb|].
  intros x Hx'. rewrite elem_of_cons. rewrite <- Hb in Hx'. intuition congruence.
Qed.
End take.
(** ** sys_malloc *)

(** From [s] to [s'] the memory in use has kept its place and its bytes. *)
Record kept s s' : Prop := {
  kp_live : forall q m, live s' q m <-> live s q m;
  kp_bytes : forall q m x, live s q m -> q <= x < q + m -> bytes s' x = bytes s x;
  kp_hcpu : hcpu s' = hcpu s
}.

(** From [s] to [s'] a piece of memory, [n] bytes from [p], has come into use:
    apart from all others, cleared, and the others kept. *)
Record allocated s s' (p n : Z) : Prop := {
  al_inv : kheap_inv s';
  al_busy : no_idle_arena s';
  al_live : forall q m, live s' q m <-> live s q m \/ (q = p /\ m = n);
  al_apart : forall q m, live s q m -> p + n <= q \/ q + m <= p;
  al_clear : forall x, p <= x < p + n -> bytes s' x = 0;
  al_bytes : forall q m x, live s q m -> q <= x < q + m -> bytes s' x = bytes s x;
  al_hcpu : hcpu s' = hcpu s
}.

Lemma allocated_kept s s1 s' p n : kept s s1 -> allocated s1 s' p n -> allocated s s' p n.
Proof.
  intros [Kl Kb Kc] []. split; try done.
  - intros q m. by rewrite al_live0, Kl.
  - intros q m Hq. apply al_apart0. by apply Kl.
  - intros q m x Hq Hx. rewrite (al_bytes0 q m) by (done || by apply Kl). by eapply Kb.
  - by rewrite al_hcpu0.
Qed.

Lemma kept_src s p : kept s (s_src p s).
Proof. split; [apply live_src|done|done]. Qed.

(** Another state of the page source, with the same pages handed out. *)
Lemma allocated_src s s' q p n : allocated s s' p n -> ps_inv q -> 0 <= ps_locks q ->
  (forall x, ps_held q x <-> ps_held (src s') x) -> allocated s (s_src q s') p n.
Proof.
  intros [] Hq Hl Hh. split; try done.
  - by apply inv_src.
  - intros r m. by rewrite live_src.
Qed.

Lemma clear_in f a n x : a <= x < a + n -> clear f a n x = 0.
Proof. intros Hx. unfold clear. rewrite (proj2 (Z.leb_le _ _)), (proj2 (Z.ltb_lt _ _)) by lia. done. Qed.

Lemma clear_out f a n q m x : a + n <= q \/ q + m <= a -> q <= x < q + m -> clear f a n x = f x.
Proof. intros Hd Hx. unfold clear. destruct (Z.leb_spec a x), (Z.ltb_spec x (a + n)); done || lia. Qed.

(** Pages not handed out hold no memory in use. *)
Lemma fresh_apart s a n q m : kheap_inv s -> a mod PG_SIZE = 0 -> 0 < n ->
  (forall x, in_run a n x -> ~ ps_held (src s) x) -> live s q m -> a + n * PG_SIZE <= q \/ q + m <= a.
Proof.
  intros Hs Hm Hn Hfr Hq. destruct (decide (a + n * PG_SIZE <= q \/ q + m <= a)) as [|Hov]; [done|]. exfalso.
  destruct (live_inside s q m Hs Hq) as (Hm0 & b & w & Hb & Hqb & Hqe). destruct (arena_page s b w Hs Hb) as (Hmb & _).
  unfold sizeof_arena, PG_SIZE in *. set (x := Z.max a q).
  apply (Hfr (x - x mod PG_SIZE)); [apply in_arena_page; [done|unfold PG_SIZE; lia]|].
  apply (proj1 (ki_arena s Hs b w Hb)), in_arena_page; [done|unfold PG_SIZE; lia].
Qed.

(** A block off a list, when no arena but its own is idle. *)
Lemma take_allocated d b l s : kheap_inv s -> 0 <= d < 7 -> flist s d = b :: l ->
  (forall a v d', arenas s !! a = Some v -> ~ block_of a d b -> a_desc v = Some d' -> a_cnt v < bper d') ->
  wp (take_block d (bsize d)) (fun p s' => p = b /\ src s' = src s /\ allocated s s' b (bsize d)) s.
Proof.
  intros Hs Hd Hl Hidle. apply (take_block_run d b l); [done|done|done|]. intros a v i Ha Hv Hi Hb _.
  split; [done|]. split; [done|]. split.
  - apply inv_bytes. by eapply take_inv.
  - intros a' v' d'. apply (take_busy s Hs d b l Hl a v i Ha Hv Hi Hb). intros a1 v1 d1 Hne Ha1. apply (Hidle a1 v1 d1 Ha1).
    intros (j & Hj & E). apply Hne. rewrite Hb in E. symmetry. by apply (blk_arena s a v a1 v1 d i j).
  - intros q m. rewrite live_bytes. by eapply take_live.
  - intros q m. by eapply take_apart.
  - intros x Hx. by apply clear_in.
  - intros q m x Hq. apply clear_out. by eapply take_apart.
  - done.
Qed.
(** A new arena changes nothing in use, and its first block heads the list. *)
Lemma new_arena_kept d s (Q : bool -> kheap P -> Prop) : kheap_ok s -> 0 <= d < 7 -> flist s d = [] -> ps_room 1 (src s) ->
  (forall s1 b l, kheap_inv s1 -> kept s s1 -> spent 1 (src s) (src s1) -> flist s1 d = b :: l ->
     (forall a v d', arenas s1 !! a = Some v -> ~ block_of a d b -> a_desc v = Some d' -> a_cnt v < bper d') -> Q true s1) ->
  wp (new_arena d) Q s.
Proof.
  intros [Hs Hidle] Hd Hl Hroom HQ. apply new_arena_run; [done|done|done|done|]. intros a p s1 Hfr Hlk Hs1 Hal.
  pose proof (bsize_bounds d Hd) as Hbd. pose proof (arena_blocks_nodup a d Hd) as Hnd.
  assert (Ha : arenas s1 !! a = Some (Arena (Some d) 0 false)) by apply lookup_insert_eq.
  assert (Hout : forall x, ~ block_of a d x -> x ∈ arena_blocks a d <-> x ∈ flist s1 d).
  { intros x Hx. rewrite arena_blocks_mem. change (flist s1 d) with (flist s d). rewrite Hl.
    split; [done|by intros ?%not_elem_of_nil]. }
  assert (Hfull : free_count (arena_blocks a d) a d = bper d).
  { apply free_count_full; [|lia]. intros i Hi. apply arena_blocks_mem. by exists i. }
  rewrite <- Hfull at 1.
  apply (HQ _ (blk a d 0) (tail (arena_blocks a d))).
  - apply inv_bytes. by eapply relist_inv.
  - split; [|intros q m x Hq; apply clear_out|done].
    + intros q m. rewrite live_bytes, (relist_live s1 Hs1 a d _ Ha eq_refl _ Hout), Hal. split.
      * intros [[[Hq|[Hq _]] Hnb]|(Hq & _ & Hn)]; [done|done|]. exfalso. apply Hn. by apply arena_blocks_mem.
      * intros Hq. left. split; [by left|]. intros Hb.
        assert (Hq1 : live s1 q m) by (apply Hal; by left).
        destruct (fresh_apart s a 1 q m Hs) as [Hov|Hov]; try done.
        -- apply (arena_page s1 a _ Hs1 Ha).
        -- destruct Hb as (i & Hi & ->). pose proof (blk_inside a d i Hd Hi). unfold sizeof_arena in *. lia.
        -- destruct Hb as (i & Hi & ->). pose proof (blk_inside a d i Hd Hi).
           destruct (live_inside s _ _ Hs Hq) as [Hm _]. unfold sizeof_arena in *. lia.
    + replace PG_SIZE with (1 * PG_SIZE) by lia. apply (fresh_apart s); try done. apply (arena_page s1 a _ Hs1 Ha).
  - done.
  - change (flist _ d) with (flist (relist a d (arena_blocks a d) (free_count (arena_blocks a d) a d) s1) d).
    rewrite (relist_flist s1 Hs1 a d _ Ha eq_refl _ d Hd), Z.eqb_refl. unfold arena_blocks.
    rewrite seqZ_cons by lia. done.
  - intros b w d' Hb Hnb Hw. cbn in Hb. assert (Hne : b <> a) by (intros ->; apply Hnb; exists 0; split; [lia|done]).
    rewrite !lookup_insert_ne in Hb by done. by eapply Hidle.
Qed.
(** The pages a request needs. *)
Definition pages_for (size : Z) : Z := if 1024 <? size then DIV_ROUND_UP (size + sizeof_arena) PG_SIZE else 1.

(** An arena of its own for a large request. *)
Lemma large_allocated a p cnt s : kheap_ok s -> ps_inv p -> 0 <= ps_locks p -> 1 <= cnt ->
  (forall x, in_run a cnt x -> ~ ps_held (src s) x) ->
  (forall x, ps_held p x <-> ps_held (src s) x \/ in_run a cnt x) ->
  allocated s (s_bytes (clear (bytes s) a (cnt * PG_SIZE)) (added s a (Arena None cnt true) p))
    (a + sizeof_arena) (cnt * PG_SIZE - sizeof_arena).
Proof.
  intros [Hs Hidle] Hp Hl Hcnt Hfr Hheld. set (s1 := added s a (Arena None cnt true) p).
  assert (Hs1 : kheap_inv s1) by (apply add_inv; done).
  destruct (arena_page s1 a (Arena None cnt true) Hs1 (lookup_insert_eq _ _ _)) as (Hm & _).
  split.
  - by apply inv_bytes.
  - intros b w d Hb Hw. cbn in Hb. apply lookup_insert_Some in Hb as [[<- <-]|[_ Hb]]; [done|by eapply Hidle].
  - intros q m. rewrite live_bytes. unfold s1. rewrite add_live by done. done.
  - intros q m Hq. destruct (fresh_apart s a cnt q m Hs Hm) as [|]; [lia|done|done|lia|unfold sizeof_arena; lia].
  - intros x Hx. apply clear_in. unfold sizeof_arena in Hx. lia.
  - intros q m x Hq. apply clear_out. apply (fresh_apart s); [done|done|lia|done|done].
  - done.
Qed.

(** sys_malloc takes no more pages than the request needs. *)
Lemma heap_malloc_run s size :
  kheap_ok s -> 0 < size < ps_size (src s) -> size + sizeof_arena + PG_SIZE <= 2 ^ 32 ->
  ps_room (pages_for size) (src s) ->
  wp (sys_malloc size) (fun p s' =>
    spent (pages_for size) (src s) (src s') /\ exists n, size <= n /\ allocated s s' p n) s.
Proof.
  intros [Hs Hidle] Hsize Hfit Hroom. unfold sys_malloc. wp_simp.
  rewrite (proj2 (Z.ltb_lt 0 size)), (proj2 (Z.ltb_lt size _)) by lia. cbn [andb negb]. wp_simp.
  destruct (ps_acquire_ok (src s) (ki_src s Hs)) as (p1 & Hacq & Hp1 & Hh1 & Hz1 & _ & Hr1 & Hl1).
  eapply wp_on_src; [exact Hacq|]. set (s1 := s_src p1 s). pose proof (ki_locks s Hs) as Hlk.
  assert (Hs1 : kheap_inv s1) by (apply inv_src; [done|done|lia|done]).
  assert (Hk1 : kept s s1) by apply kept_src. assert (Hid1 : no_idle_arena s1) by exact Hidle.
  apply Hr1 in Hroom. set (need := pages_for size) in *.
  assert (Hdone : forall p n s' (Hal : allocated s1 s' p n), spent need p1 (src s') -> size <= n ->
    wp (on_src ps_release ;; ret p) (fun p s' => spent need (src s) (src s') /\ exists n, size <= n /\ allocated s s' p n) s').
  { intros p n s' Hal (Hl' & Hz' & Hr') Hn.
    destruct (ps_release_ok (src s') (ki_src s' (al_inv _ _ _ _ Hal))) as (p2 & Hrel & Hp2 & Hh2 & Hl2 & Hz2 & Hr2); [lia|].
    wp_simp. eapply wp_on_src; [exact Hrel|]. wp_simp. split.
    { split; [cbn; lia|]. split; [cbn; congruence|]. intros m Hm0 Hm. cbn. by apply Hr2, Hr', Hr1. } exists n. split; [done|].
    apply (allocated_kept s s1); [done|]. apply allocated_src; [done|done|lia|done]. }
  assert (Hneed : need = if 1024 <? size then DIV_ROUND_UP (size + sizeof_arena) PG_SIZE else 1) by done. clearbody need.
  destruct (Z.ltb_spec 1024 size) as [Hbig|Hsmall]; wp_simp.
  - set (cnt := DIV_ROUND_UP (size + sizeof_arena) PG_SIZE) in *. subst need.
    assert (Hcnt : 1 <= cnt /\ size <= cnt * PG_SIZE - sizeof_arena).
    { unfold cnt, DIV_ROUND_UP, sizeof_arena, PG_SIZE in *. rewrite u32_small by lia. split; dlia. }
    destruct (ps_malloc_ok p1 cnt Hp1 ltac:(lia) Hroom) as (a & p & Hm & Hp & Ha & Hfr & Hheld & Hsp). pose proof Hsp as [Hl _].
    eapply wp_on_src; [exact Hm|]. rewrite (proj2 (Z.eqb_neq a NULL)) by done. cbn [negb]. unfold memset0, st_arena.
    wp_simp. rewrite <- wp_bind.
    apply (Hdone _ (cnt * PG_SIZE - sizeof_arena) (s_bytes (clear (bytes s1) a (cnt * PG_SIZE)) (added s1 a (Arena None cnt true) p)));
      [|done|lia].
    apply large_allocated; try done; lia.
  - subst need. apply find_desc_run; [done|lia|]. intros d Hd Hle. wp_simp. apply wp_ld_desc; [done|done|]. wp_simp. cbn [free_list block_size].
    assert (Htake : forall s2 b l, kheap_inv s2 -> kept s1 s2 -> spent 1 p1 (src s2) -> flist s2 d = b :: l ->
      (forall a v d', arenas s2 !! a = Some v -> ~ block_of a d b -> a_desc v = Some d' -> a_cnt v < bper d') ->
      wp (do b <- take_block d (bsize d); on_src ps_release ;; ret b)
        (fun p s' => spent 1 (src s) (src s') /\ exists n, size <= n /\ allocated s s' p n) s2).
    { intros s2 b l Hs2 Hk2 Hl2 Hfl Hrest. rewrite wp_bind. eapply wp_mono; [by eapply take_allocated|].
      intros p s' (-> & Hsrc & Hal). eapply Hdone; [by eapply allocated_kept|by rewrite Hsrc|done]. }
    destruct (flist s1 d) as [|b l] eqn:Hfl.
    + rewrite bool_decide_true by done. apply new_arena_kept; [by split|done|done|done|].
      intros s2 b l Hs2 Hk2 Hl2 Hfl2 Hrest. cbn [negb]. by eapply Htake.
    + rewrite bool_decide_false by done. wp_simp. apply (Htake s1 b l); [done|done|by apply spent_refl|done|].
      intros a v d' Ha _ Hv. by eapply Hid1.
Qed.

(** [C8] What sys_malloc returns. *)
Theorem sys_malloc_fresh s size :
  kheap_ok s -> 0 < size < ps_size (src s) -> size + sizeof_arena + PG_SIZE <= 2 ^ 32 ->
  ps_room (pages_for size) (src s) ->
  wp (sys_malloc size) (fun p s' =>
    ps_locks (src s') = ps_locks (src s) /\ exists n, size <= n /\ allocated s s' p n) s.
Proof. intros Hs H1 H2 H3. eapply wp_mono; [by apply heap_malloc_run|]. by intros p s' [[Hl _] Hal]. Qed.
(** ** sys_free *)

(** From [s] to [s'] the memory at [p] has gone out of use, and all other
    memory in use has kept its place and its bytes. *)
Record freed s s' (p : Z) : Prop := {
  re_inv : kheap_inv s';
  re_busy : no_idle_arena s';
  re_live : forall q m, live s' q m <-> live s q m /\ q <> p;
  re_bytes : forall q m x, live s' q m -> q <= x < q + m -> bytes s' x = bytes s x;
  re_hcpu : hcpu s' = hcpu s
}.

Lemma free_count_all l a d : 0 <= d < 7 -> free_count l a d = bper d -> forall x, block_of a d x -> x ∈ l.
Proof.
  intros Hd Hc x (i & Hi & ->). destruct (decide (blk a d i ∈ l)) as [|Hn]; [done|]. exfalso.
  assert (E : free_count (blk a d i :: l) a d = free_count l a d + 1).
  { apply (free_count_add l _ a d i); try done; [by left|]. intros x Hx. rewrite elem_of_cons. by intuition congruence. }
  pose proof (free_count_bounds (blk a d i :: l) a d Hd). lia.
Qed.

(** The loop that takes the blocks of an arena off the list. *)
Lemma drain_list_run a d cnt l s (Q : unit -> kheap P -> Prop) :
  0 <= d < 7 -> NoDup l -> (forall x, block_of a d x -> x ∈ l) ->
  arenas s !! a = Some (Arena (Some d) cnt false) ->
  descs s !! Z.to_nat d = Some (Desc (bsize d) (bper d) l) ->
  (forall l', NoDup l' -> (forall x, x ∈ l' <-> x ∈ l /\ ~ block_of a d x) -> Q tt (s_list d l' s)) ->
  wp (for_range 0 (Z.to_nat (bper d)) (fun block_idx =>
      do b <- arena2block a block_idx;
      do D <- ld_desc d;
      ASSERT (bool_decide (b ∈ free_list D)) ;;
      free_remove d b)) Q s.
Proof.
  intros Hd Hnd Hall Ha HD HQ. pose proof (bsize_bounds d Hd).
  apply (wp_for_range (fun k s' => exists l', s' = s_list d l' s /\ NoDup l' /\
    forall x, x ∈ l' <-> x ∈ l /\ ~ exists i, 0 <= i < k /\ x = blk a d i)).
  - intros k s' Hk (l' & -> & Hnd' & Hl').
    assert (HDl : descs (s_list d l' s) !! Z.to_nat d = Some (Desc (bsize d) (bper d) l')).
    { cbn. rewrite list_lookup_insert_eq; [done|]. by eapply lookup_lt_Some. }
    unfold arena2block, desc_of, ld_arena, ld_desc, free_remove, st_free_list. wp_load Ha. apply wp_of_option. exists d. split; [done|].
    wp_load HDl. wp_load HDl. cbn [block_size free_list]. fold (blk a d k).
    apply wp_ASSERT. split.
    { apply bool_decide_eq_true, Hl'. split; [apply Hall; exists k; split; [lia|done]|]. intros (i & Hi & E). apply blk_inj in E; [lia|done]. }
    unfold ld_desc. wp_load HDl. wp_load HDl. cbn [block_size free_list blocks_per_arena].
    exists (filter (fun x => x <> blk a d k) l'). split; [|split].
    + exact (s_list_twice d (filter (fun x => x <> blk a d k) l') l' s).
    + by apply list.NoDup_filter.
    + intros x. rewrite list_elem_of_filter, Hl'. split.
      * intros (Hne & Hx & Hno). split; [done|]. intros (i & Hi & ->). destruct (decide (i = k)) as [->|]; [done|].
        apply Hno. exists i. split; [lia|done].
      * intros (Hx & Hno). split; [intros ->; apply Hno; exists k; split; [lia|done]|]. split; [done|].
        intros (i & Hi & ->). apply Hno. exists i. split; [lia|done].
  - exists l. split; [|split; [done|]].
    + unfold s_list. rewrite list_insert_id by done. by destruct s.
    + intros x. split; [|tauto]. intros Hx. split; [done|]. intros (i & ? & _). lia.
  - intros s' (l' & -> & Hnd' & Hl'). apply HQ; [done|]. intros x. rewrite Hl', Z.add_0_l, Z2Nat.id by lia. done.
Qed.

(** free_arena, on an arena all of whose blocks are on the list. *)
Lemma free_arena_run a d cnt l s (Q : unit -> kheap P -> Prop) :
  0 <= d < 7 -> NoDup l -> (forall x, block_of a d x -> x ∈ l) -> ps_inv (src s) -> ps_held (src s) a ->
  arenas s !! a = Some (Arena (Some d) cnt false) ->
  descs s !! Z.to_nat d = Some (Desc (bsize d) (bper d) l) ->
  (forall l' p, NoDup l' -> (forall x, x ∈ l' <-> x ∈ l /\ ~ block_of a d x) ->
     ps_inv p -> (forall x, ps_held p x <-> ps_held (src s) x /\ ~ in_run a 1 x) -> ps_locks p = ps_locks (src s) ->
     Q tt (s_src p (s_arenas (delete a (arenas s)) (s_list d l' s)))) ->
  wp (free_arena a) Q s.
Proof.
  intros Hd Hnd Hall Hp Hheld Ha HD HQ. unfold free_arena, desc_of, ld_arena, ld_desc at 1. wp_load Ha.
  apply wp_of_option. exists d. split; [done|]. wp_load HD. cbn [blocks_per_arena].
  apply (drain_list_run a d cnt l); try done. intros l' Hnd' Hl'. wp_simp.
  destruct (ps_mfree_ok (src s) a 1 Hp ltac:(lia)) as (p & Hm & Hp' & Hh & Hlk).
  { intros x (k & Hk & ->). assert (k = 0) as -> by lia. by rewrite Z.add_0_r. }
  eapply wp_on_src; [exact Hm|]. unfold drop_arena. wp_simp. by apply HQ.
Qed.
(** The step that puts a block back: its arena counts one free block more. *)
Section give.
Context s (Hs : kheap_inv s) (a d i : Z) (v : arena) (Ha : arenas s !! a = Some v) (Hd : a_desc v = Some d).
Context (Hi : 0 <= i < bper d) (Hp : blk a d i ∉ flist s d).
Let l := flist s d ++ [blk a d i].
Let s1 := relist a d l (free_count l a d) s.

Lemma give_list : 0 <= d < 7 /\ NoDup l /\ (forall x, ~ block_of a d x -> x ∈ l <-> x ∈ flist s d) /\
  free_count l a d = a_cnt v + 1.
Proof.
  assert (Hv : 0 <= d < 7 /\ a_cnt v = free_count (flist s d) a d).
  { destruct (ki_arena s Hs a v Ha) as [_ Hv]. rewrite Hd in Hv. apply Hv. }
  destruct Hv as [Hd7 Hc]. split; [done|]. split; [|split].
  - apply list.NoDup_app. split; [by apply ki_nodup|]. split; [|apply NoDup_singleton].
    intros x Hx ->%list_elem_of_singleton. done.
  - intros x Hx. unfold l. rewrite elem_of_app, list_elem_of_singleton. split; [|by left].
    intros [Hx1| ->]; [exact Hx1|]. exfalso. apply Hx. by exists i.
  - rewrite Hc. apply (free_count_add _ l a d i); try done.
    + apply elem_of_app. right. by apply list_elem_of_singleton.
    + intros x Hx. unfold l. rewrite elem_of_app, list_elem_of_singleton. by intuition congruence.
Qed.

Lemma give_inv : kheap_inv s1.
Proof. destruct give_list as (? & ? & ? & _). by eapply relist_inv. Qed.

Lemma give_live q m : live s1 q m <-> live s q m /\ q <> blk a d i.
Proof.
  destruct give_list as (Hd7 & Hnd & Hout & _). unfold s1. rewrite (relist_live s Hs a d v Ha Hd l Hout).
  split.
  - intros [[Hq Hn]|((j & Hj & ->) & -> & Hq)].
    + split; [done|]. intros ->. apply Hn. by exists i.
    + unfold l in Hq. rewrite elem_of_app, list_elem_of_singleton in Hq. split; [|tauto].
      apply (live_small s a v d j); tauto.
  - intros [Hq Hne]. destruct (decide (Exists (fun j => q = blk a d j) (seqZ 0 (bper d)))) as [He|Hno].
    + right. apply list.Exists_exists in He as (j & Hj & ->). apply seqZ_mem in Hj.
      assert (Hbo : block_of a d (blk a d j)) by by exists j.
      destruct (live_block s a v d _ m Hs Ha Hd Hbo Hq) as [-> Hn]. split; [done|]. split; [done|].
      unfold l. rewrite elem_of_app, list_elem_of_singleton. tauto.
    + left. split; [done|]. intros (j & Hj & ->). apply Hno, list.Exists_exists. exists j. split; [by apply seqZ_mem|done].
Qed.

Lemma give_busy : no_idle_arena s -> a_cnt v + 1 <> bper d -> no_idle_arena s1.
Proof.
  destruct give_list as (Hd7 & _ & _ & Hc). intros Hidle Hlt b w d' Hb Hw. cbn in Hb.
  apply lookup_insert_Some in Hb as [[<- <-]|[_ Hb]]; [|by eapply Hidle].
  cbn in Hw. injection Hw as <-. cbn [a_cnt]. pose proof (free_count_bounds l a d Hd7). lia.
Qed.
End give.
Lemma freed_src s s' q p : freed s s' p -> ps_inv q -> 0 <= ps_locks q ->
  (forall x, ps_held q x <-> ps_held (src s') x) -> freed s (s_src q s') p.
Proof.
  intros [] Hq Hl Hh. split; try done.
  - by apply inv_src.
  - intros r m. by rewrite live_src.
  - intros r m x Hr. apply (re_bytes0 r m x). by apply live_src in Hr.
Qed.

(** A block goes back on its list; the last one takes the arena with it. *)
Lemma give_block_run a d i v s : kheap_ok s -> arenas s !! a = Some v -> a_desc v = Some d ->
  0 <= i < bper d -> blk a d i ∉ flist s d ->
  wp (give_block a (blk a d i)) (fun _ s' => ps_locks (src s') = ps_locks (src s) /\ freed s s' (blk a d i)) s.
Proof.
  intros [Hs Hidle] Ha Hd Hi Hp. destruct (give_list s Hs a d i v Ha Hd Hi Hp) as (Hd7 & Hnd & _ & Hc).
  pose proof (give_inv s Hs a d i v Ha Hd Hi Hp) as Hinv. pose proof (give_live s Hs a d i v Ha Hd Hi Hp) as Hlv.
  pose proof (bsize_bounds d Hd7). pose proof (free_count_bounds (flist s d ++ [blk a d i]) a d Hd7).
  pose proof (give_busy s Hs a d i v Ha Hd Hi Hp Hidle) as Hbusy.
  destruct (ki_arena s Hs a v Ha) as [Hheld Hav]. rewrite Hd in Hav. destruct Hav as (Hlg & _).
  set (l := flist s d ++ [blk a d i]) in *. set (s1 := relist a d l (free_count l a d) s) in *.
  unfold give_block, desc_of, ld_arena at 1. wp_load Ha. apply wp_of_option. exists d. split; [done|]. wp_simp.
  apply (free_append_run d _ s (flist s d)); [lia|by apply ki_descs|]. fold l.
  unfold ld_arena. wp_load Ha. unfold st_arena, ld_desc. wp_simp. rewrite u32_small, Hd, Hlg, <- Hc by lia.
  match goal with |- wp _ _ ?t => change t with s1 end.
  assert (HD : descs s1 !! Z.to_nat d = Some (Desc (bsize d) (bper d) l)).
  { rewrite (ki_descs s1 Hinv d Hd7). do 2 f_equal. unfold s1.
    destruct (give_list s Hs a d i v Ha Hd Hi Hp) as (_ & _ & Hout & _). by rewrite (relist_flist s Hs a d v Ha Hd l d Hd7), Z.eqb_refl. }
  wp_load HD. cbn [blocks_per_arena]. destruct (Z.eqb_spec (free_count l a d) (bper d)) as [Hfull|Hpart]; wp_simp.
  - assert (Hall := free_count_all l a d Hd7 Hfull).
    assert (Ha1 : arenas s1 !! a = Some (Arena (Some d) (free_count l a d) false)) by apply lookup_insert_eq.
    eapply (free_arena_run a d _ l s1); try done; [apply Hinv|apply Hheld; exists 0; unfold apages; rewrite Hd; lia|].
    intros l' p Hnd' Hl' Hpi Hph Hpl. split; [done|].
    assert (Hout' : forall x, ~ block_of a d x -> x ∈ l' <-> x ∈ flist s1 d).
    { intros x Hx. rewrite Hl'. replace (flist s1 d) with l by (unfold flist; by rewrite HD). tauto. }
    assert (Hnone : forall x, block_of a d x -> x ∉ l') by (intros x Hx; rewrite Hl'; tauto).
    set (v1 := Arena (Some d) (free_count l a d) false) in *.
    assert (Hinv2 := relist_inv s1 Hinv a d v1 Ha1 eq_refl l' Hnd' Hout').
    set (s2 := relist a d l' (free_count l' a d) s1) in *.
    assert (Hlv2 : forall q m, live s2 q m <-> (live s1 q m /\ ~ block_of a d q) \/ (block_of a d q /\ m = bsize d /\ q ∉ l')).
    { intros q m. apply (relist_live s1 Hinv a d v1 Ha1 eq_refl l' Hout'). }
    assert (Ha2 : arenas s2 !! a = Some (Arena (Some d) (free_count l' a d) false)) by apply lookup_insert_eq.
    assert (Hnf2 : forall d' x, Some d = Some d' -> block_of a d' x -> x ∉ flist s2 d').
    { intros d' x [= <-] Hx. unfold s2. rewrite (relist_flist s1 Hinv a d v1 Ha1 eq_refl l' d Hd7), Z.eqb_refl. by apply Hnone. }
    assert (E : s_src p (s_arenas (delete a (arenas s1)) (s_list d l' s1)) = dropped s2 a p).
    { unfold dropped, s2, relist, s_src, s_arenas. cbn. by rewrite !delete_insert_eq. }
    rewrite E. assert (Hdl := drop_live s2 Hinv2 a _ Ha2 p Hph Hnf2).
    assert (Hlive : forall q m, live (dropped s2 a p) q m <-> live s q m /\ q <> blk a d i).
    { intros q m. rewrite Hdl, Hlv2, Hlv. unfold whole. cbn [a_desc]. split.
      - intros [[[Hq _]|(Hq & -> & _)] Hn]; [done|]. exfalso. by apply Hn.
      - intros [Hq Hne]. assert (Hnb : ~ block_of a d q).
        { intros Hb. destruct (live_block s a v d q m Hs Ha Hd Hb Hq) as [_ Hn]. specialize (Hall q Hb).
          unfold l in Hall. rewrite elem_of_app, list_elem_of_singleton in Hall. tauto. }
        tauto. }
    split; try done.
    + apply (drop_inv s2 Hinv2 a _ Ha2 p Hpi); [rewrite Hpl; apply Hs|exact Hph|exact Hnf2].
    + intros b w d' Hb Hw. cbn in Hb. rewrite !delete_insert_eq in Hb. apply lookup_delete_Some in Hb as [_ Hb]. by eapply Hidle.
  - split; [done|]. split; [done| |done|done|done]. apply Hbusy. by rewrite <- Hc.
Qed.
(** All that sys_free does. *)
Definition let_go s p s' : Prop :=
  kheap_ok s' /\ ps_locks (src s') = ps_locks (src s) /\ hcpu s' = hcpu s /\
  (forall q m, live s' q m <-> live s q m /\ q <> p) /\
  (forall q m x, live s' q m -> q <= x < q + m -> bytes s' x = bytes s x).

Lemma heap_free_run s p n : kheap_ok s -> live s p n -> wp (sys_free p) (fun _ s' => let_go s p s') s.
Proof.
  intros [Hs Hidle] Hlive. unfold sys_free. destruct (live_inside s p n Hs Hlive) as (Hn & a & v & Ha & Hpa & Hpe).
  destruct (arena_page s a v Hs Ha) as (Hm & Hk & He & _). unfold sizeof_arena, K_HEAP_START, NULL in *.
  wp_simp. apply wp_ASSERT. split; [apply negb_true_iff, Z.eqb_neq; lia|]. wp_simp. apply wp_ASSERT.
  split; [destruct (ps_kernel (src s)); [apply Z.leb_le; lia|done]|]. wp_simp.
  destruct (ps_acquire_ok (src s) (ki_src s Hs)) as (p1 & Hacq & Hp1 & Hh1 & _ & _ & _ & Hl1).
  eapply wp_on_src; [exact Hacq|]. set (s1 := s_src p1 s). pose proof (ki_locks s Hs) as Hlk.
  assert (Hs1 : kheap_inv s1) by (apply inv_src; [done|done|lia|done]). assert (Hid1 : no_idle_arena s1) by exact Hidle.
  assert (Hlive1 : live s1 p n) by by apply live_src.
  assert (Hdone : forall s', freed s1 s' p -> ps_locks (src s') = ps_locks p1 ->
    wp (on_src ps_release) (fun _ s' => let_go s p s') s').
  { intros s' Hre Hl'. destruct (ps_release_ok (src s') (ki_src s' (re_inv _ _ _ Hre))) as (p2 & Hrel & Hp2 & Hh2 & Hl2); [lia|].
    eapply wp_on_src; [exact Hrel|]. destruct (freed_src s1 s' p2 p Hre Hp2 ltac:(lia) Hh2) as [R1 R2 R3 R4 R5].
    split; [by split|]. split; [cbn; lia|]. split; [done|]. split; [|done]. intros q m. rewrite R3. unfold s1. by rewrite live_src. }
  clear a v Ha Hpa Hpe Hm Hk He. wp_simp. destruct Hlive1 as [a v d i Ha Hd Hi Hp|a v Ha Hd].
  - destruct (arena_page s1 a v Hs1 Ha) as (Hm & Hk & He & _).
    assert (Hd7 : 0 <= d < 7) by (destruct (ki_arena s1 Hs1 a v Ha) as [_ Hv]; rewrite Hd in Hv; apply Hv).
    pose proof (blk_inside a d i Hd7 Hi). pose proof (bsize_bounds d Hd7).
    rewrite (block2arena_in a) by (done || unfold K_HEAP_START, sizeof_arena in *; lia). apply (wp_ld_arena a v); [done|].
    rewrite Hd. rewrite wp_bind. eapply wp_mono; [by eapply give_block_run|]. intros [] s' [Hl' Hre]. by apply Hdone.
  - destruct (arena_page s1 a v Hs1 Ha) as (Hm & Hk & He & _).
    destruct (ki_arena s1 Hs1 a v Ha) as [Hheld Hv]. rewrite Hd in Hv. destruct Hv as [Hlg Hc].
    rewrite (block2arena_in a) by (done || unfold K_HEAP_START, sizeof_arena, PG_SIZE in *; lia). apply (wp_ld_arena a v); [done|].
    rewrite Hd, Hlg. assert (Hap : apages v = a_cnt v) by (unfold apages; by rewrite Hd).
    destruct (ps_mfree_ok p1 a (a_cnt v) Hp1 ltac:(lia)) as (p2 & Hm2 & Hp2 & Hh2 & Hl2).
    { rewrite <- Hap. exact Hheld. }
    wp_simp. eapply wp_on_src; [exact Hm2|]. unfold drop_arena. wp_simp.
    rewrite <- Hap in Hh2. apply (Hdone (dropped s1 a p2)); [|done].
    assert (Hnf : forall d x, a_desc v = Some d -> block_of a d x -> x ∉ flist s1 d) by congruence.
    split; try done.
    + apply (drop_inv s1 Hs1 a v Ha p2 Hp2); [lia|exact Hh2|exact Hnf].
    + intros b w d' Hb Hw. cbn in Hb. apply lookup_delete_Some in Hb as [_ Hb]. by eapply Hidle.
    + intros q m. rewrite (drop_live s1 Hs1 a v Ha p2 Hh2 Hnf). unfold whole. rewrite Hd. split.
      * intros [Hq Hne]. split; [done|]. intros ->. apply Hne. split; [done|].
        assert (Hl1' : live s1 (a + sizeof_arena) (a_cnt v * PG_SIZE - sizeof_arena)) by by apply live_large.
        destruct (live_inside s1 _ _ Hs1 Hq) as [? _]. destruct (live_inside s1 _ _ Hs1 Hl1') as [? _].
        destruct (live_disjoint s1 _ _ _ _ Hs1 Hq Hl1') as [[_ ->]|[|]]; [done|lia|lia].
      * intros [Hq Hne]. split; [done|]. tauto.
Qed.

(** [C9] What sys_free does to the memory in use. *)
Theorem sys_free_exact s p n :
  kheap_ok s -> live s p n ->
  wp (sys_free p) (fun _ s' =>
    kheap_ok s' /\ ps_locks (src s') = ps_locks (src s) /\ hcpu s' = hcpu s /\
    (forall q m, live s' q m <-> live s q m /\ q <> p) /\
    (forall q m x, live s' q m -> q <= x < q + m -> bytes s' x = bytes s x)) s.
Proof. apply heap_free_run. Qed.
End heap_ok.

(** ** The kernel's pages as a source *)

(** The pool of the running task: PF_KERNEL for a kernel thread. *)
Definition pf_of (s : pmem) : pool_flags := if cur_pgdir s =? NULL then PF_KERNEL else PF_USER.

#[export] Instance pages_source : PageSource pmem := {
  ps_malloc n := do s <- get; malloc_page (pf_of s) n;
  ps_mfree a n := do s <- get; mfree_page (pf_of s) a n;
  ps_acquire := do s <- get; pool_acquire (pf_of s);
  ps_release := do s <- get; pool_release (pf_of s);
  ps_size s := pool_size (pool_of (pf_of s) s);
  ps_kernel s := cur_pgdir s =? NULL
}.

(** A kernel thread runs, and its pages are in order. *)
Record kernel_pages (s : pmem) : Prop := {
  kg_ok : pages_ok s;
  kg_thread : cur_pgdir s = NULL;
  kg_start : vaddr_start (kernel_vaddr s) = K_HEAP_START
}.

(** A page of the kernel's heap that has been handed out. *)
Definition held_page (s : pmem) (x : Z) : Prop :=
  exists i, 0 <= i < vlen s /\ bit_used (vbits s) i = true /\ x = vpage s i.

Lemma kernel_pf s : kernel_pages s -> pf_of s = PF_KERNEL.
Proof. intros Hs. unfold pf_of. by rewrite (kg_thread s Hs). Qed.

Lemma held_bounds s a : kernel_pages s -> held_page s a ->
  a mod PG_SIZE = 0 /\ K_HEAP_START <= a /\ a + PG_SIZE < 2 ^ 32.
Proof.
  intros Hs (i & Hi & _ & ->). destruct (vpage_range s i (kg_ok s Hs) Hi) as (_ & He & Hm).
  unfold vpage in *. rewrite (kg_start s Hs) in *. unfold K_HEAP_START, PG_SIZE in *. split; [done|]. lia.
Qed.

(** The run of pages from the page [r]. *)
Lemma vpage_run s r n x : in_run (vpage s r) n x <-> exists i, r <= i < r + n /\ x = vpage s i.
Proof.
  unfold in_run, vpage. split.
  - intros (k & Hk & ->). exists (r + k). split; lia.
  - intros (i & Hi & ->). exists (i - r). split; lia.
Qed.

Lemma vpage_inj s i j : vpage s i = vpage s j -> i = j.
Proof. unfold vpage, PG_SIZE. lia. Qed.

(** A state with the same pool, but for how often its lock is held. *)
Lemma kernel_locked n s : kernel_pages s ->
  let p := kernel_pool s in
  let s' := set_kernel_pool (Pool (pool_bitmap p) (bits_at p) (phy_addr_start p) (pool_size p) n) s in
  kernel_pages s' /\ (forall x, held_page s' x <-> held_page s x).
Proof.
  intros [[] Ht Hv] p s'. split; [|done]. by split.
Qed.

(** What is left of a run of free pages, and of free frames, when malloc_page
    has taken some. *)
Lemma can_malloc_left s r n vb fs s' (m : nat) j free : first_run s n r -> reserved s r n vb -> mapping s r n vb fs s' -> length fs = n ->
  (0 < m)%nat -> can_malloc s (n + m) j free -> exists free', can_malloc s' m (j + Z.of_nat n) free'.
Proof.
  intros (Hr0 & Hr1 & _ & Hfirst) Hvb Hmap Hl Hm [Hn (Hj0 & Hj1 & Hrun) (Hnd & Hlen & Hfr)].
  destruct (mapping_fields s r n vb fs s' Hmap) as (Hkl & _ & Hkv & _).
  assert (Hvs : vbits s' = vb) by (unfold vbits; by rewrite Hkv).
  assert (Hvl : vlen s' = vlen s) by (unfold vlen; by rewrite Hvs, (bu_len _ _ _ _ Hvb)).
  assert (Hrj : r <= j).
  { destruct (decide (r <= j)); [done|]. destruct (Hfirst j); [lia|]. intros k Hk. apply Hrun. lia. }
  set (rest := filter (fun f => f ∉ fs) free).
  assert (Hrl : (length free <= length fs + length rest)%nat).
  { rewrite <- length_app. apply submseteq_length, NoDup_submseteq; [done|]. intros f Hf. apply elem_of_app.
    destruct (decide (f ∈ fs)); [by left|right]. by apply list_elem_of_filter. }
  exists (take m rest). split; [lia| |].
  - rewrite Hvl. split; [lia|]. split; [lia|]. intros k Hk. rewrite Hvs, (bu_bits _ _ _ _ Hvb) by lia.
    rewrite (proj2 (Z.ltb_ge k _)), andb_false_r by lia. apply Hrun. lia.
  - split; [|split; [rewrite length_take; lia|]].
    + apply (sublist_NoDup _ rest); [by apply list.NoDup_filter|apply sublist_take].
    + intros f Hf. assert (Hf' : f ∈ rest) by (rewrite <- (take_drop m rest); apply elem_of_app; by left).
      apply list_elem_of_filter in Hf' as [Hn1 Hin]. destruct (Hfr f Hin) as [Hr Hb]. rewrite Hkl. split; [done|].
      rewrite (bu_bits _ _ _ _ (ma_kbits _ _ _ _ _ _ Hmap)), bool_decide_eq_false_2 by (done || lia). done.
Qed.

(** malloc_page, as the heap sees it. *)
Lemma malloc_source s n i0 free : kernel_pages s -> can_malloc s n i0 free ->
  exists a p, ps_malloc (Z.of_nat n) s = Ok (a, p) /\ kernel_pages p /\ a <> NULL /\
    (forall x, in_run a (Z.of_nat n) x -> ~ held_page s x) /\
    (forall x, held_page p x <-> held_page s x \/ in_run a (Z.of_nat n) x) /\
    pool_lock (kernel_pool p) = pool_lock (kernel_pool s) /\ pool_size (kernel_pool p) = pool_size (kernel_pool s) /\
    forall m j free', (0 < m)%nat -> can_malloc s (n + m) j free' -> exists j' free'', can_malloc p m j' free''.
Proof.
  intros Hs Hcm. pose proof (kg_ok s Hs) as Hok.
  assert (Hw : wp (malloc_page PF_KERNEL (Z.of_nat n)) (fun v s' => exists r vb fs,
    v = vpage s r /\ first_run s n r /\ reserved s r n vb /\ mapping s r n vb fs s' /\ length fs = n) s).
  { apply (malloc_kernel_run s n i0 free); [done|done|]. intros r vb fs s' ????. by exists r, vb, fs. }
  apply wp_Ok in Hw as (v & s' & E & r & vb & fs & -> & Hfirst & Hvb & Hm & Hl).
  pose proof Hfirst as (Hr0 & Hr1 & Hrun & _). pose proof Hcm as [Hn _ Hfree]. destruct (mapping_fields s r n vb fs s' Hm) as (_ & _ & Hkv & _).
  pose proof (ma_state _ _ _ _ _ _ Hm) as Hst.
  assert (Hvp : forall i, vpage s' i = vpage s i) by (intros i; unfold vpage; by rewrite Hkv).
  assert (Hvs : vbits s' = vb) by (unfold vbits; by rewrite Hkv).
  assert (Hvl : vlen s' = vlen s) by (unfold vlen; by rewrite Hvs, (bu_len _ _ _ _ Hvb)).
  exists (vpage s r), s'. split; [|split; [|split; [|split; [|split]]]].
  - cbn [ps_malloc pages_source]. rewrite (bind_Ok _ _ s s s eq_refl), kernel_pf by done. exact E.
  - split; [exact (mapping_complete s Hok r n (conj Hr0 Hr1) Hrun vb free Hvb Hfree fs s' Hm Hl)| |].
    + rewrite Hst. apply Hs.
    + rewrite Hkv. apply Hs.
  - destruct (vpage_range s r Hok ltac:(lia)) as (? & _). unfold NULL. lia.
  - intros x Hx (j & Hj & Hu & ->). apply vpage_run in Hx as (i & Hi & Ex). apply vpage_inj in Ex as <-.
    rewrite Hrun in Hu by lia. done.
  - intros x. rewrite vpage_run. unfold held_page. rewrite Hvl, Hvs. split.
    + intros (i & Hi & Hu & ->). rewrite (bu_bits _ _ _ _ Hvb) in Hu by lia. rewrite Hvp.
      destruct (Z.leb_spec r i), (Z.ltb_spec i (r + Z.of_nat n)); cbn [andb] in Hu;
        first [left; by exists i | right; exists i; split; [lia|done]].
    + intros [(i & Hi & Hu & ->)|(i & Hi & ->)]; exists i; rewrite Hvp, (bu_bits _ _ _ _ Hvb) by lia.
      * split; [done|]. split; [|done]. by destruct ((r <=? i) && (i <? r + Z.of_nat n)).
      * split; [lia|]. split; [|done]. by rewrite (proj2 (Z.leb_le _ _)), (proj2 (Z.ltb_lt _ _)) by lia.
  - rewrite Hst. split; [done|]. split; [done|]. rewrite <- Hst. intros m j free' Hm0 Hc.
    destruct (can_malloc_left s r n vb fs s' m j free' Hfirst Hvb Hm Hl Hm0 Hc) as [free2 H2]. by eexists _, _.
Qed.

(** mfree_page, as the heap sees it. *)
Lemma mfree_source s a n : kernel_pages s -> 0 < n -> (forall x, in_run a n x -> held_page s x) ->
  exists p, ps_mfree a n s = Ok (tt, p) /\ kernel_pages p /\
    (forall x, held_page p x <-> held_page s x /\ ~ in_run a n x) /\
    pool_lock (kernel_pool p) = pool_lock (kernel_pool s).
Proof.
  intros Hs Hn Hall. pose proof (kg_ok s Hs) as Hok.
  destruct (Hall a) as (r & Hr & _ & ->); [exists 0; lia|].
  assert (Hin : forall i, r <= i < r + n -> 0 <= i < vlen s /\ bit_used (vbits s) i = true).
  { intros i Hi. destruct (Hall (vpage s i)) as (j & Hj & Hu & E); [apply vpage_run; by exists i|].
    by apply vpage_inj in E as ->. }
  destruct (list_choice (fun k f => maps_to s (r + Z.of_nat k) f) (Z.to_nat n)) as (F & HFl & HF).
  { intros k Hk. destruct (Hin (r + Z.of_nat k)) as [Hi Hu]; [lia|].
    destruct (po_pte s Hok _ Hi) as (e & He & Hb & _ & Hfr). destruct (Hfr Hu) as (f & Hf & Huf & Hef).
    exists f. split; [done|]. split; [done|]. by exists e. }
  assert (Hrl : 0 <= r /\ r + Z.of_nat (length F) <= vlen s).
  { rewrite HFl. destruct (Hin (r + n - 1)) as [? _]; lia. }
  assert (Hw : wp (mfree_page PF_KERNEL (vpage s r) (Z.of_nat (length F))) (fun _ s' => released s r F s') s).
  { apply mfree_kernel_run; [done|lia|done|done| |done]. intros i Hi. apply Hin. lia. }
  apply wp_Ok in Hw as ([] & s' & E & [(s1 & vb & Hun & -> & Hvb) Hok']).
  rewrite HFl, Z2Nat.id in E by lia. rewrite HFl, Z2Nat.id in Hvb by lia. pose proof (un_state _ _ _ _ Hun) as Hst.
  assert (Hkv : kernel_vaddr (with_vaddr PF_KERNEL vb s1) = VAddr vb (vaddr_start (kernel_vaddr s))) by (by rewrite Hst).
  set (s' := with_vaddr PF_KERNEL vb s1) in *.
  assert (Hvp : forall i, vpage s' i = vpage s i) by (intros i; unfold vpage; by rewrite Hkv).
  assert (Hvl : vlen s' = vlen s) by (unfold vlen, vbits; rewrite Hkv; cbn; by rewrite (bu_len _ _ _ _ Hvb)).
  exists s'. split; [|split; [|split]].
  - cbn [ps_mfree pages_source]. rewrite (bind_Ok _ _ s s s eq_refl), kernel_pf by done. exact E.
  - split; [done| |rewrite Hkv; apply Hs]. unfold s'. rewrite Hst. apply Hs.
  - intros x. rewrite vpage_run. unfold held_page. rewrite Hvl. change (vbits s') with vb. split.
    + intros (i & Hi & Hu & ->). rewrite (bu_bits _ _ _ _ Hvb) in Hu by lia. rewrite Hvp.
      destruct (Z.leb_spec r i), (Z.ltb_spec i (r + n)); cbn [andb] in Hu; try done;
        (split; [by exists i|intros (j & Hj & Ej); apply vpage_inj in Ej; lia]).
    + intros [(i & Hi & Hu & ->) Hno]. exists i. rewrite Hvp, (bu_bits _ _ _ _ Hvb) by lia. split; [done|]. split; [|done].
      destruct (Z.leb_spec r i), (Z.ltb_spec i (r + n)); cbn [andb]; try done. exfalso. apply Hno. exists i. done.
  - unfold s'. by rewrite Hst.
Qed.

#[export, refine] Instance pages_source_ok : PageSourceOk pmem := {
  ps_inv := kernel_pages;
  ps_held := held_page;
  ps_room n s := exists i0 free, can_malloc s (Z.to_nat n) i0 free;
  ps_locks s := pool_lock (kernel_pool s)
}.
Proof.
  - exact held_bounds.
  - intros s Hs. cbn [ps_acquire pages_source]. rewrite (bind_Ok _ _ s s s eq_refl), kernel_pf by done.
    destruct (kernel_locked (pool_lock (kernel_pool s) + 1) s Hs) as [Hk Hh].
    eexists. split; [reflexivity|]. split; [exact Hk|]. split; [exact Hh|].
    cbn [ps_size ps_kernel pages_source]. unfold pf_of. cbn. rewrite (kg_thread s Hs). split; [done|]. split; [done|].
    split; [|done]. intros n (i0 & free & []). exists i0, free. by split.
  - intros s Hs Hl. cbn [ps_release pages_source]. rewrite (bind_Ok _ _ s s s eq_refl), kernel_pf by done.
    destruct (kernel_locked (pool_lock (kernel_pool s) - 1) s Hs) as [Hk Hh]. eexists. split.
    + unfold pool_release. rewrite (bind_Ok _ _ s s s eq_refl). cbn [pool_of]. rewrite (proj2 (Z.ltb_lt 0 _)) by done. reflexivity.
    + split; [exact Hk|]. split; [exact Hh|]. split; [done|]. cbn [ps_size pages_source]. unfold pf_of. cbn. rewrite (kg_thread s Hs). split; [done|].
      intros n (i0 & free & []). exists i0, free. by split.
  - intros s n m Hn Hm (i0 & free & [C1 (C2 & C3 & C4) (C5 & C6 & C7)]). exists i0, (take (Z.to_nat n) free).
    split; [lia|split; [lia|]; split; [lia|]; intros k Hk; apply C4; lia|]. split; [apply (sublist_NoDup _ free); [done|apply sublist_take]|].
    split; [rewrite length_take; lia|]. intros f Hf. apply C7. rewrite <- (take_drop (Z.to_nat n) free). apply elem_of_app. by left.
  - intros s n Hs Hn (i0 & free & Hc). destruct (malloc_source s (Z.to_nat n) i0 free Hs Hc) as (a & p & Hm & Hp & Ha & H1 & H2 & H3 & H4 & H5).
    rewrite Z2Nat.id in * by lia. exists a, p. split; [done|]. split; [done|]. split; [done|]. split; [done|]. split; [done|]. split; [done|].
    cbn [ps_size pages_source]. rewrite !kernel_pf by done. split; [exact H4|]. intros m Hm0 (j & free' & Hc'). rewrite Z2Nat.inj_add in Hc' by lia.
    apply (H5 (Z.to_nat m) j free'); [lia|done].
  - intros s a n Hs Hn Hall. by apply mfree_source.
Defined.

(** ** The heap over the demonstration pages of [Pages] *)

Definition demo_heap : kheap pmem := KHeap demo_pmem (fun _ => 7) ∅ block_desc_init (Cpu 0x202 [] []).

Lemma demo_kernel_pages : kernel_pages demo_pmem.
Proof. split; [exact demo_pages_ok|done|done]. Qed.

Lemma demo_heap_ok : kheap_ok demo_heap.
Proof.
  assert (Hl : forall d, 0 <= d < 7 -> flist demo_heap d = []) by (apply desc_cases; reflexivity).
  split; [split|by intros a v d].
  - exact demo_kernel_pages.
  - done.
  - apply desc_cases; reflexivity.
  - apply desc_cases; apply NoDup_nil_2.
  - done.
  - done.
  - intros d b Hd Hb. rewrite Hl in Hb by done. by apply not_elem_of_nil in Hb.
Qed.

Lemma demo_room : ps_room 1 demo_pmem.
Proof.
  exists 1, [3]. split; [done| |].
  - split; [lia|]. split; [vm_compute; done|]. intros k Hk. assert (k = 1) as -> by lia. done.
  - split; [apply NoDup_singleton|]. split; [done|]. intros f ->%list_elem_of_singleton. by vm_compute.
Qed.

Lemma sys_malloc_fresh_witness :
  wp (sys_malloc 100) (fun p s' =>
    ps_locks (src s') = ps_locks (src demo_heap) /\ exists n, 100 <= n /\ allocated demo_heap s' p n) demo_heap.
Proof.
  apply (sys_malloc_fresh demo_heap 100); [exact demo_heap_ok|done|done|exact demo_room].
Defined.

(** One arena of blocks of 1024 bytes, the first block in use. *)
Definition demo_used : kheap pmem :=
  KHeap demo_pmem (fun _ => 7) {[ K_HEAP_START := Arena (Some 6) 2 false ]}
    (<[6%nat := Desc 1024 3 [blk K_HEAP_START 6 1; blk K_HEAP_START 6 2]]> block_desc_init) (Cpu 0x202 [] []).

Lemma demo_used_ok : kheap_ok demo_used.
Proof.
  assert (Hone : forall a v, arenas demo_used !! a = Some v -> a = K_HEAP_START /\ v = Arena (Some 6) 2 false).
  { intros a v Ha. change (({[ K_HEAP_START := Arena (Some 6) 2 false ]} : gmap Z arena) !! a = Some v) in Ha.
    apply lookup_singleton_Some in Ha as [<- <-]. done. }
  split; [split|].
  - exact demo_kernel_pages.
  - done.
  - apply desc_cases; reflexivity.
  - apply desc_cases; try apply NoDup_nil_2. refine (bool_decide_unpack _ _). vm_compute. exact I.
  - intros a v Ha. apply Hone in Ha as [-> ->]. split.
    + intros x (k & Hk & ->). exists 0. cbn in Hk. split; [done|]. split; [done|]. assert (k = 0) as -> by lia. done.
    + by vm_compute.
  - intros a b v w x Ha Hb _ _. apply Hone in Ha as [-> _]. by apply Hone in Hb as [-> _].
  - intros d b Hd Hb. assert (Hl : d <> 6 -> flist demo_used d = []) by (revert d Hd Hb; apply (desc_cases (fun d => b ∈ flist demo_used d -> d <> 6 -> flist demo_used d = [])); done).
    destruct (decide (d = 6)) as [->|Hne]; [|rewrite Hl in Hb by done; by apply not_elem_of_nil in Hb].
    exists K_HEAP_START, (Arena (Some 6) 2 false). assert (Hc : b = blk K_HEAP_START 6 1 \/ b = blk K_HEAP_START 6 2).
    { apply elem_of_cons in Hb as [->|Hb]; [by left|]. apply list_elem_of_singleton in Hb as ->. by right. }
    destruct Hc as [->| ->]; [exists 1|exists 2]; by vm_compute.
  - intros a v d Ha Hd. apply Hone in Ha as [_ ->]. injection Hd as <-. done.
Qed.

Lemma demo_used_live : live demo_used (blk K_HEAP_START 6 0) 1024.
Proof.
  apply (live_small demo_used K_HEAP_START (Arena (Some 6) 2 false) 6 0); [done|done|done|].
  refine (bool_decide_unpack _ _). vm_compute. exact I.
Qed.

Lemma sys_free_exact_witness :
  wp (sys_free (blk K_HEAP_START 6 0)) (fun _ s' =>
    kheap_ok s' /\ ps_locks (src s') = ps_locks (src demo_used) /\ hcpu s' = hcpu demo_used /\
    (forall q m, live s' q m <-> live demo_used q m /\ q <> blk K_HEAP_START 6 0) /\
    (forall q m x, live s' q m -> q <= x < q + m -> bytes s' x = bytes demo_used x)) demo_used.
Proof. apply (sys_free_exact demo_used _ 1024); [exact demo_used_ok|exact demo_used_live]. Defined.
