(* ===== verification/Threads.v ===== *)
(** * The other threads (kernel/main.c: k_thread_a, k_thread_b, u_prog_a, u_prog_b)

    Each of the four takes three blocks of memory, shows their addresses, waits
    and gives the blocks back, up to its endless loop. The kernel threads print
    with the routines of the console, the user programs with printf; the result
    is what they print. The theorem is about the kernel threads: their memory is
    that of the kernel's pages, which the laws of [PageSourceOk] describe. The
    pages of a user process do not obey those laws ([UserPages] shows what its
    malloc_page returns), so the user programs are modelled without a theorem:
    [print_addrs_text] says what their printf writes for given addresses. *)

From Stdlib Require Import ZArith Lia.
From stdpp Require Import base numbers list gmap option.
From S2P Require Import Prelude Bitmap Intr DList CString Stdio Print Console Paging Pages Heap.

Local Open Scope Z_scope.

(** " thread_a malloc addr:0x", the same for thread_b, and the two formats. *)
Definition msg_a : list Z :=
  [32; 116; 104; 114; 101; 97; 100; 95; 97; 32; 109; 97; 108; 108; 111; 99; 32; 97; 100; 100; 114; 58; 48; 120].
Definition msg_b : list Z :=
  [32; 116; 104; 114; 101; 97; 100; 95; 98; 32; 109; 97; 108; 108; 111; 99; 32; 97; 100; 100; 114; 58; 48; 120].
Definition three_addrs : list Z := [32; 109; 97; 108; 108; 111; 99; 32; 97; 100; 100; 114; 58; 48; 120; 37; 120; 44; 48; 120; 37; 120; 44; 48; 120; 37; 120; 10].
Definition format_a : list Z := [32; 112; 114; 111; 103; 95; 97] ++ three_addrs.
Definition format_b : list Z := [32; 112; 114; 111; 103; 95; 98] ++ three_addrs.

Section threads.
Context {P : Type} `{PageSource P}.

(** while (cpu_delay-- > 0); *)
Definition cpu_delay : M (kheap P) unit :=
  loop (Z.to_nat 100001) (fun cpu_delay => if 0 <? cpu_delay then ret (inl (cpu_delay - 1)) else ret (inr tt)) 100000.

(** What the four have in common; [show] prints the addresses. *)
Definition three_blocks {A} (show : Z -> Z -> Z -> M (kheap P) A) : M (kheap P) A :=
  do addr1 <- sys_malloc 256;
  do addr2 <- sys_malloc 255;
  do addr3 <- sys_malloc 254;
  do out <- show addr1 addr2 addr3;
  cpu_delay ;;
  sys_free addr1 ;;
  sys_free addr2 ;;
  sys_free addr3 ;;
  ret out.

Definition show_addrs (msg : list Z) (addr1 addr2 addr3 : Z) : M (kheap P) (list console_call) :=
  ret [console_put_str msg; console_put_int addr1; console_put_char 44; console_put_int addr2; console_put_char 44;
       console_put_int addr3; console_put_char 10].
(** printf(format, addr1, addr2, addr3), up to the call of write *)
Definition print_addrs (format : list Z) (addr1 addr2 addr3 : Z) : M (kheap P) (list Z) :=
  run_on (print_memory format) (print_text [addr1; addr2; addr3]).

Definition k_thread_a : M (kheap P) (list console_call) := three_blocks (show_addrs msg_a).
Definition k_thread_b : M (kheap P) (list console_call) := three_blocks (show_addrs msg_b).
Definition u_prog_a : M (kheap P) (list Z) := three_blocks (print_addrs format_a).
Definition u_prog_b : M (kheap P) (list Z) := three_blocks (print_addrs format_b).
End threads.

Section threads_ok.
Context {P : Type} `{PageSourceOk P}.

Lemma cpu_delay_run (s : kheap P) (Q : unit -> kheap P -> Prop) : Q tt s -> wp cpu_delay Q s.
Proof using.
  intros HQ. unfold cpu_delay. apply (wp_loop (fun d s' => s' = s /\ 0 <= d <= 100000) (fun d _ => Z.to_nat d)); [|split; [done|lia]|lia].
  intros d s' [-> Hd]. destruct (Z.ltb_spec 0 d); wp_simp; [|done]. split; [split; [done|lia]|lia].
Qed.

(** Two blocks that do not overlap. *)
Definition apart (p m q n : Z) : Prop := p + m <= q \/ q + n <= p.

(** The memory in use is that of [s]. *)
Definition as_before (s s' : kheap P) : Prop :=
  kheap_ok s' /\ ps_locks (src s') = ps_locks (src s) /\ (forall q m, live s' q m <-> live s q m) /\
  (forall q m x, live s q m -> q <= x < q + m -> bytes s' x = bytes s x).

(** [s'] has three blocks more in use than [s]. *)
Record three_more (s s' : kheap P) (a1 n1 a2 n2 a3 n3 : Z) : Prop := {
  tm_sizes : 256 <= n1 /\ 255 <= n2 /\ 254 <= n3;
  tm_apart : apart a1 n1 a2 n2 /\ apart a1 n1 a3 n3 /\ apart a2 n2 a3 n3;
  tm_live : forall q m, live s' q m <-> live s q m \/ (q = a1 /\ m = n1) \/ (q = a2 /\ m = n2) \/ (q = a3 /\ m = n3);
  tm_others : forall q m, live s q m -> 0 < m /\ apart a1 n1 q m /\ apart a2 n2 q m /\ apart a3 n3 q m;
  tm_bytes : forall q m x, live s q m -> q <= x < q + m -> bytes s' x = bytes s x;
  tm_ok : kheap_ok s' /\ ps_locks (src s') = ps_locks (src s)
}.

Lemma take_three_run {A} (k : Z -> Z -> Z -> M (kheap P) A) s (Q : A -> kheap P -> Prop) :
  kheap_ok s -> ps_room 3 (src s) -> 256 < ps_size (src s) ->
  (forall a1 n1 a2 n2 a3 n3 s', three_more s s' a1 n1 a2 n2 a3 n3 -> wp (k a1 a2 a3) Q s') ->
  wp (do addr1 <- sys_malloc 256; do addr2 <- sys_malloc 255; do addr3 <- sys_malloc 254; k addr1 addr2 addr3) Q s.
Proof using.
  intros Hs Hr Hz HQ. assert (Hp : forall n, 254 <= n <= 256 -> pages_for n = 1) by (intros n Hn; unfold pages_for; by rewrite (proj2 (Z.ltb_ge _ _)) by lia).
  wp_simp. eapply wp_mono; [apply (heap_malloc_run s 256); [done|lia|unfold sizeof_arena, PG_SIZE; lia|rewrite Hp by lia; by apply (ps_room_less _ 1 2)]|].
  intros a1 s1 ((Hl1 & Hz1 & Hr1) & n1 & Hn1 & [I1 B1 L1 A1 _ X1 _]). rewrite Hp in Hr1 by lia. specialize (Hr1 2 ltac:(lia) Hr). rewrite wp_bind.
  eapply wp_mono; [apply (heap_malloc_run s1 255); [by split|lia|unfold sizeof_arena, PG_SIZE; lia|rewrite Hp by lia; by apply (ps_room_less _ 1 1)]|].
  intros a2 s2 ((Hl2 & Hz2 & Hr2) & n2 & Hn2 & [I2 B2 L2 A2 _ X2 _]). rewrite Hp in Hr2 by lia. specialize (Hr2 1 ltac:(lia) Hr1). rewrite wp_bind.
  eapply wp_mono; [apply (heap_malloc_run s2 254); [by split|lia|unfold sizeof_arena, PG_SIZE; lia|by rewrite Hp by lia]|].
  intros a3 s3 ((Hl3 & Hz3 & _) & n3 & Hn3 & [I3 B3 L3 A3 _ X3 _]). unfold apart in *.
  assert (M1 : live s1 a1 n1) by (apply L1; by right). assert (M2 : live s2 a1 n1) by (apply L2; by left). assert (M3 : live s2 a2 n2) by (apply L2; by right).
  assert (Ms : forall q m, live s q m -> live s1 q m /\ live s2 q m) by (intros q m Hq; assert (live s1 q m) by (apply L1; by left); split; [done|apply L2; by left]).
  apply (HQ a1 n1 a2 n2 a3 n3). split.
  - done.
  - unfold apart. specialize (A2 a1 n1 M1). pose proof (A3 a1 n1 M2). specialize (A3 a2 n2 M3). lia.
  - intros q m. rewrite L3, L2, L1. tauto.
  - intros q m Hq. destruct (Ms q m Hq) as [Hq1 Hq2]. unfold apart. specialize (A1 q m Hq). specialize (A2 q m Hq1). specialize (A3 q m Hq2).
    destruct (live_inside s q m (proj1 Hs) Hq) as [Hm _]. lia.
  - intros q m x Hq Hx. destruct (Ms q m Hq) as [Hq1 Hq2]. by rewrite (X3 q m), (X2 q m), (X1 q m).
  - split; [by split|congruence].
Qed.

Lemma give_three_run {A} (k : M (kheap P) A) s s' a1 n1 a2 n2 a3 n3 (Q : A -> kheap P -> Prop) : three_more s s' a1 n1 a2 n2 a3 n3 ->
  (forall s2, as_before s s2 -> wp k Q s2) -> wp (sys_free a1 ;; sys_free a2 ;; sys_free a3 ;; k) Q s'.
Proof using.
  intros [(N1 & N2 & N3) (A12 & A13 & A23) L O X [Hok Hlk]] HQ. unfold apart in *. wp_simp.
  eapply wp_mono; [apply (heap_free_run s' a1 n1 Hok); apply L; tauto|]. intros [] s1 (O1 & K1 & _ & L1 & X1). rewrite wp_bind.
  eapply wp_mono; [apply (heap_free_run s1 a2 n2 O1); apply L1; split; [apply L; tauto|lia]|]. intros [] s2 (O2 & K2 & _ & L2 & X2).
  rewrite wp_bind. assert (M3 : live s2 a3 n3) by (apply L2; split; [apply L1; split; [apply L; tauto|lia]|lia]).
  eapply wp_mono; [apply (heap_free_run s2 a3 n3 O2 M3)|]. intros [] s3 (O3 & K3 & _ & L3 & X3).
  assert (E : forall q m, live s3 q m <-> live s q m).
  { intros q m. rewrite L3, L2, L1, L. split; [tauto|]. intros Hq. destruct (O q m Hq) as (Hm & Hd).
    split; [split; [split; [by left|lia]|lia]|lia]. }
  apply HQ. split; [done|]. split; [congruence|]. split; [done|]. intros q m x Hq Hx. apply E in Hq.
  assert (H2 : live s2 q m) by (apply L3, Hq). assert (H1 : live s1 q m) by (apply L2, H2).
  rewrite (X3 q m), (X2 q m), (X1 q m) by done. apply (X q m); [by apply E|done].
Qed.

(** [m] takes three blocks, shows their addresses and leaves the memory in use
    as it was. *)
Definition runs_clean {A} (m : M (kheap P) A) (out : Z -> Z -> Z -> A) (s : kheap P) : Prop :=
  exists a1 n1 a2 n2 a3 n3 s1 s', three_more s s1 a1 n1 a2 n2 a3 n3 /\ m s = Ok (out a1 a2 a3, s') /\ as_before s s'.

Lemma three_blocks_restore {A} (show : Z -> Z -> Z -> M (kheap P) A) (out : Z -> Z -> Z -> A) s :
  (forall a b c t, show a b c t = Ok (out a b c, t)) -> kheap_ok s -> ps_room 3 (src s) -> 256 < ps_size (src s) ->
  runs_clean (three_blocks show) out s.
Proof using.
  intros Hsh Hs Hr Hz. assert (Hw : wp (three_blocks show) (fun o s' => exists a1 n1 a2 n2 a3 n3 s1,
    three_more s s1 a1 n1 a2 n2 a3 n3 /\ o = out a1 a2 a3 /\ as_before s s') s).
  { apply take_three_run; [done..|]. intros a1 n1 a2 n2 a3 n3 s1 H3. rewrite wp_bind. unfold wp at 1. rewrite Hsh.
    rewrite wp_bind. apply cpu_delay_run. eapply give_three_run; [exact H3|]. intros s2 Hb. wp_simp. by exists a1, n1, a2, n2, a3, n3, s1. }
  apply wp_Ok in Hw as (o & s' & E & a1 & n1 & a2 & n2 & a3 & n3 & s1 & H3 & -> & Hb). by exists a1, n1, a2, n2, a3, n3, s1, s'.
Qed.

Definition console_text (msg : list Z) (addr1 addr2 addr3 : Z) : list console_call :=
  [console_put_str msg; console_put_int addr1; console_put_char 44; console_put_int addr2; console_put_char 44;
   console_put_int addr3; console_put_char 10].
Definition hex (a : Z) : list Z := [48; 120] ++ digits 16 (u32 a).
Definition prog_text (name : list Z) (addr1 addr2 addr3 : Z) : list Z :=
  name ++ [32; 109; 97; 108; 108; 111; 99; 32; 97; 100; 100; 114; 58] ++ hex addr1 ++ [44] ++ hex addr2 ++ [44] ++ hex addr3 ++ [10].

(** Text and addresses are characters, and fit in the buffer. *)
Lemma hex_chars a : Forall (fun c => 0 < c < 256) (hex a) /\ (length (hex a) <= 34)%nat.
Proof using.
  unfold hex. pose proof (to_digits_length 16 ITOA_FUEL (u32 a)) as Hl. unfold ITOA_FUEL in Hl.
  split; [|rewrite length_app; cbn [length]; unfold digits, ITOA_FUEL; lia].
  apply list.Forall_app. split; [repeat constructor; lia|]. apply to_digits_chars; [lia|]. pose proof (u32_bound a). lia.
Qed.

(** What a user program prints, whatever addresses it has got. *)
Lemma print_addrs_text name a b c (s : kheap P) (Q : list Z -> kheap P -> Prop) :
  37 ∉ name -> Forall (fun c => 0 < c < 256) name -> (length name < 512)%nat ->
  Q (prog_text name a b c) s -> wp (print_addrs (name ++ three_addrs) a b c) Q s.
Proof using.
  intros Hn Hc Hl HQ. unfold print_addrs. destruct (hex_chars a) as [C1 L1], (hex_chars b) as [C2 L2], (hex_chars c) as [C3 L3].
  apply (print_text_run _ _ (prog_text name a b c)).
  - apply list.Forall_app. split; [done|]. unfold three_addrs. repeat constructor; lia.
  - cbn [fmap list_fmap]. clear Hc Hl HQ. induction name as [|x name IH]; [reflexivity|]. apply not_elem_of_cons in Hn as [Hx Hn].
    cbn [app render]. rewrite (proj2 (Z.eqb_neq x 37)) by done. cbn [negb]. by rewrite IH.
  - unfold prog_text. rewrite !list.Forall_app. do 7 (split; [try done; repeat constructor; lia|]). repeat constructor; lia.
  - unfold prog_text, buf_size. rewrite !length_app. cbn [length]. lia.
  - rewrite length_app. unfold three_addrs. cbn [length]. lia.
  - exact HQ.
Qed.

(** [C10] The kernel threads of main.c leave the memory in use as it was. Each
    of k_thread_a and k_thread_b gets three blocks of at least 256, 255 and 254
    bytes that overlap neither each other nor memory in use, shows their
    addresses, comes to the end of its delay, and gives them back; then the
    memory in use, its contents and the lock of the pool are as before. *)
Theorem threads_restore (s : kheap P) : kheap_ok s -> ps_room 3 (src s) -> 256 < ps_size (src s) ->
  runs_clean k_thread_a (console_text msg_a) s /\ runs_clean k_thread_b (console_text msg_b) s.
Proof using. intros Hs Hr Hz. split; by apply three_blocks_restore. Qed.
End threads_ok.

(** *** Witness: the pages of [Pages] *)

Lemma three_room : ps_room 3 demo_pmem.
Proof.
  exists 1, [1; 2; 3]. split; [lia| |].
  - split; [lia|]. split; [vm_compute; congruence|]. intros k Hk. assert (Hc : k = 1 \/ k = 2 \/ k = 3) by (change (Z.of_nat (Z.to_nat 3)) with 3 in Hk; lia).
    by destruct Hc as [->|[->| ->]].
  - split; [apply (bool_decide_unpack _); exact I|]. split; [done|]. intros f Hf. rewrite !elem_of_cons in Hf.
    destruct Hf as [->|[->|[->|[]%not_elem_of_nil]]]; by vm_compute.
Qed.

Lemma threads_restore_witness :
  runs_clean k_thread_a (console_text msg_a) demo_heap /\ runs_clean k_thread_b (console_text msg_b) demo_heap.
Proof. apply (threads_restore demo_heap); [exact demo_heap_ok|exact three_room|reflexivity]. Defined.
