(* ===== verification/Ide.v ===== *)
(** * The disk driver (device/ide.c)

    The routines work on the channels, on memory by address, on what sys_malloc
    will return and on the device behind the ports. The device is a parameter:
    [AtaDev] is what the driver does to it, [AtaDevOk] what the ATA standard
    says of the answers: a command for several sectors goes on sector by sector,
    and after each of them the device is busy and raises an interrupt when it
    is ready for the next. The driver waits for the first interrupt of a command
    only and moves all the words at once, so what it does is right for one
    sector, and for more when the device is ready for the next sector at once
    ([prompt]); [ide_read_slow_junk] says what it does when the device is not.
    A semaphore that the driver waits for is raised by the interrupt handler
    when the device raises its interrupt; the channel's lock is seen from the
    caller, as the locks of [Pages] are. Interrupts are taken when the driver
    waits for one and between the words of a transfer, which rep insw and rep
    outsw allow; between the command and the next of these points the driver
    does not touch what the handler changes. *)

From Stdlib Require Import ZArith Lia.
From stdpp Require Import base numbers list gmap option.
From S2P Require Import Prelude Intr DList Stdio FsTypes Format.

Local Open Scope Z_scope.

(** What the ports of a device answer: outb, inb, and one word, as its two
    bytes, of insw and of outsw; the next interrupt with its vector, when it is
    waited for; the interrupt that has come, if any, when it is not; and
    mtime_sleep. *)
Class AtaDev (D : Type) := {
  at_outb : Z -> Z -> D -> D;
  at_inb : Z -> D -> Z * D;
  at_inw : Z -> D -> (Z * Z) * D;
  at_outw : Z -> Z * Z -> D -> D;
  at_irq : D -> option (Z * D);
  at_pending : D -> option (Z * D);
  at_sleep : Z -> D -> D
}.

(** struct disk; [hd_name] is its string. *)
Record ide_disk := IdeDisk {
  hd_name : list Z;
  my_channel : Z;
  dev_no : Z;
  hd_prim : list part_slot;
  hd_logic : list part_slot
}.

(** struct ide_channel; [ch_locks] is how often the caller holds the lock. *)
Record ide_channel := Channel {
  ch_name : list Z;
  port_base : Z;
  irq_no : Z;
  ch_locks : Z;
  expecting_intr : bool;
  disk_done : Z;
  devices : list ide_disk
}.

(** A partition on the list of partitions: its disk, and its slot in
    logic_parts ([true]) or prim_parts. *)
Record part_ref := PartRef { pr_channel : Z; pr_dev : Z; pr_logic : bool; pr_slot : Z }.

(** A channel with these values of its lock, expecting_intr and disk_done. *)
Definition chan (locks : Z) (expecting : bool) (done : Z) (c : ide_channel) : ide_channel :=
  Channel (ch_name c) (port_base c) (irq_no c) locks expecting done (devices c).

Record ide (D : Type) := Ide {
  channel_cnt : Z;
  channels : list ide_channel;
  ext_lba_base : Z;
  p_no : Z;
  l_no : Z;
  part_list : list part_ref;
  dev : D;
  mem : Z -> Z;
  allocs : list Z;                  (* what the calls of sys_malloc will return *)
  icpu : cpu
}.
Arguments Ide {D}.
Arguments channel_cnt {D}.
Arguments channels {D}.
Arguments ext_lba_base {D}.
Arguments p_no {D}.
Arguments l_no {D}.
Arguments part_list {D}.
Arguments dev {D}.
Arguments mem {D}.
Arguments allocs {D}.
Arguments icpu {D}.

(** A disk is found by its channel and its number there. *)
Record disk_ref := DiskRef { dr_channel : Z; dr_dev : Z }.

(** The ports of a channel (reg_data and so on) and the bits and commands. *)
Definition reg_data (c : ide_channel) : Z := port_base c + 0.
Definition reg_sect_cnt (c : ide_channel) : Z := port_base c + 2.
Definition reg_lba_l (c : ide_channel) : Z := port_base c + 3.
Definition reg_lba_m (c : ide_channel) : Z := port_base c + 4.
Definition reg_lba_h (c : ide_channel) : Z := port_base c + 5.
Definition reg_dev (c : ide_channel) : Z := port_base c + 6.
Definition reg_status (c : ide_channel) : Z := port_base c + 7.
Definition reg_cmd (c : ide_channel) : Z := reg_status c.
Definition BIT_STAT_BSY : Z := 0x80.
Definition BIT_STAT_DRQ : Z := 0x8.
Definition BIT_DEV_MBS : Z := 0xa0.
Definition BIT_DEV_LBA : Z := 0x40.
Definition BIT_DEV_DEV : Z := 0x10.
Definition CMD_IDENTIFY : Z := 0xec.
Definition CMD_READ_SECTOR : Z := 0x20.
Definition CMD_WRITE_SECTOR : Z := 0x30.

(** struct partition_table_entry (the fields that are read) and the table of a
    boot sector. *)
Record partition_table_entry := PTE { fs_type : Z; start_lba : Z; sec_cnt : Z }.

Definition dec_pte (b : list Z) (i : Z) : partition_table_entry :=
  let o := Z.to_nat (446 + 16 * i) in
  PTE (nth (o + 4) b 0) (rd32 b (o + 8)) (rd32 b (o + 12)).

Section ide.
Context {D : Type} `{AtaDev D}.

Definition set_channels (c : list ide_channel) (s : ide D) : ide D :=
  Ide (channel_cnt s) c (ext_lba_base s) (p_no s) (l_no s) (part_list s) (dev s) (mem s) (allocs s) (icpu s).
Definition set_dev (d : D) (s : ide D) : ide D :=
  Ide (channel_cnt s) (channels s) (ext_lba_base s) (p_no s) (l_no s) (part_list s) d (mem s) (allocs s) (icpu s).
Definition set_mem (m : Z -> Z) (s : ide D) : ide D :=
  Ide (channel_cnt s) (channels s) (ext_lba_base s) (p_no s) (l_no s) (part_list s) (dev s) m (allocs s) (icpu s).
Definition set_scan (ext p l : Z) (ps : list part_ref) (s : ide D) : ide D :=
  Ide (channel_cnt s) (channels s) ext p l ps (dev s) (mem s) (allocs s) (icpu s).

Definition outb (port v : Z) : M (ide D) unit := modify (fun s => set_dev (at_outb port (u8 v) (dev s)) s).
Definition inb (port : Z) : M (ide D) Z :=
  do s <- get; let '(v, d) := at_inb port (dev s) in put (set_dev d s) ;; ret v.

(** Bytes of memory from an address on. *)
Definition ld_bytes (m : Z -> Z) (a n : Z) : list Z := (fun i => m (u32 (a + i))) <$> seqZ 0 n.
Definition st_bytes (m : Z -> Z) (a : Z) (l : list Z) : Z -> Z :=
  fun x => if (a <=? x) && (x <? a + Z.of_nat (length l)) then nth (Z.to_nat (x - a)) l 0 else m x.

Definition ld_channel (c : Z) : M (ide D) ide_channel := do s <- get; of_option (channels s !! Z.to_nat c).
Definition st_channel (c : Z) (v : ide_channel) : M (ide D) unit :=
  modify (fun s => set_channels (<[Z.to_nat c := v]> (channels s)) s).
Definition ld_disk (h : disk_ref) : M (ide D) ide_disk :=
  do c <- ld_channel (dr_channel h); of_option (devices c !! Z.to_nat (dr_dev h)).
Definition st_disk (h : disk_ref) (v : ide_disk) : M (ide D) unit :=
  do c <- ld_channel (dr_channel h);
  of_option (devices c !! Z.to_nat (dr_dev h)) ;;
  st_channel (dr_channel h) (Channel (ch_name c) (port_base c) (irq_no c) (ch_locks c) (expecting_intr c) (disk_done c)
    (<[Z.to_nat (dr_dev h) := v]> (devices c))).
(** hd->my_channel *)
Definition channel_of (h : disk_ref) : M (ide D) Z := do hd <- ld_disk h; ret (my_channel hd).

(** ** Commands and interrupts *)

Definition select_disk (h : disk_ref) : M (ide D) unit :=
  do hd <- ld_disk h;
  let reg_device := Z.lor BIT_DEV_MBS BIT_DEV_LBA in
  let reg_device := if dev_no hd =? 1 then Z.lor reg_device BIT_DEV_DEV else reg_device in
  do c <- ld_channel (my_channel hd);
  outb (reg_dev c) reg_device.

(** [sec_cnt] is a uint8_t. *)
Definition select_sector (h : disk_ref) (lba sec_cnt : Z) : M (ide D) unit :=
  ASSERT (lba <=? max_lba) ;;
  do hd <- ld_disk h;
  do c <- ld_channel (my_channel hd);
  outb (reg_sect_cnt c) (u8 sec_cnt) ;;
  outb (reg_lba_l c) lba ;;
  outb (reg_lba_m c) (Z.shiftr lba 8) ;;
  outb (reg_lba_h c) (Z.shiftr lba 16) ;;
  outb (reg_dev c) (Z.lor (Z.lor (Z.lor BIT_DEV_MBS BIT_DEV_LBA) (if dev_no hd =? 1 then BIT_DEV_DEV else 0)) (Z.shiftr lba 24)).

Definition cmd_out (ch cmd : Z) : M (ide D) unit :=
  do c <- ld_channel ch;
  st_channel ch (chan (ch_locks c) true (disk_done c) c) ;;
  outb (reg_cmd c) cmd.

(** The handler is called with a uint8_t vector. *)
Definition intr_hd_handler (irq : Z) : M (ide D) unit :=
  ASSERT ((irq =? 0x2e) || (irq =? 0x2f)) ;;
  let ch_no := irq - 0x2e in
  do c <- ld_channel ch_no;
  ASSERT (irq_no c =? irq) ;;
  if expecting_intr c then
    ASSERT (disk_done c =? 0) ;;
    st_channel ch_no (chan (ch_locks c) false (disk_done c + 1) c) ;;
    inb (reg_status c) ;;
    ret tt
  else ret tt.

(** ** Data *)

(** size_in_byte, of a sector count that is a uint8_t. *)
Definition size_in_byte (sec_cnt : Z) : Z := if u8 sec_cnt =? 0 then 256 * 512 else u8 sec_cnt * 512.

(** An interrupt that has come meanwhile is taken. *)
Definition take_interrupt : M (ide D) unit :=
  do s <- get;
  match at_pending (dev s) with
  | None => ret tt
  | Some (irq, d) => put (set_dev d s) ;; intr_hd_handler irq
  end.

(** rep insw and rep outsw. *)
Definition insw (port addr word_cnt : Z) : M (ide D) unit :=
  for_range 0 (Z.to_nat word_cnt) (fun i =>
    do s <- get;
    let '((x, y), d) := at_inw port (dev s) in
    put (set_mem (st_bytes (mem s) (addr + 2 * i) [x; y]) (set_dev d s)) ;;
    take_interrupt).
Definition outsw (port addr word_cnt : Z) : M (ide D) unit :=
  for_range 0 (Z.to_nat word_cnt) (fun i =>
    modify (fun s => set_dev (at_outw port (mem s (u32 (addr + 2 * i)), mem s (u32 (addr + 2 * i + 1))) (dev s)) s) ;;
    take_interrupt).

Definition read_from_sector (h : disk_ref) (buf sec_cnt : Z) : M (ide D) unit :=
  do hd <- ld_disk h;
  do c <- ld_channel (my_channel hd);
  insw (reg_data c) buf (size_in_byte sec_cnt / 2).
Definition write2sector (h : disk_ref) (buf sec_cnt : Z) : M (ide D) unit :=
  do hd <- ld_disk h;
  do c <- ld_channel (my_channel hd);
  outsw (reg_data c) buf (size_in_byte sec_cnt / 2).

(** [time_limit -= 10 >= 0] takes one from the limit. *)
Definition busy_wait (h : disk_ref) : M (ide D) bool :=
  do hd <- ld_disk h;
  do c <- ld_channel (my_channel hd);
  loop (Z.to_nat 30001) (fun time_limit =>
    let time_limit := u16 (time_limit - (if 0 <=? 10 then 1 else 0)) in
    if truthy time_limit then
      do v <- inb (reg_status c);
      if negb (truthy (Z.land v BIT_STAT_BSY)) then
        do v <- inb (reg_status c);
        ret (inr (truthy (Z.land v BIT_STAT_DRQ)))
      else
        modify (fun s => set_dev (at_sleep 10 (dev s)) s) ;;
        ret (inl time_limit)
    else ret (inr false)) (30 * 1000).

(** ** Waiting *)

(** sema_down(&hd->my_channel->disk_done): while it is zero, the thread waits
    for an interrupt; one that never comes leaves it waiting. *)
Definition sema_down_done (ch : Z) : M (ide D) unit :=
  loop 1000 (fun _ =>
    do c <- ld_channel ch;
    if disk_done c =? 0 then
      do s <- get;
      match at_irq (dev s) with
      | None => nofuel
      | Some (irq, d) => put (set_dev d s) ;; intr_hd_handler irq ;; ret (inl tt)
      end
    else
      ASSERT (disk_done c - 1 =? 0) ;;
      st_channel ch (chan (ch_locks c) (expecting_intr c) (disk_done c - 1) c) ;;
      ret (inr tt)) tt.

Definition channel_acquire (ch : Z) : M (ide D) unit :=
  do c <- ld_channel ch;
  st_channel ch (chan (ch_locks c + 1) (expecting_intr c) (disk_done c) c).
Definition channel_release (ch : Z) : M (ide D) unit :=
  do c <- ld_channel ch;
  ASSERT (0 <? ch_locks c) ;;
  st_channel ch (chan (ch_locks c - 1) (expecting_intr c) (disk_done c) c).

(** ** Reading and writing sectors *)

(** The sectors of one command. *)
Definition secs_of (secs_done sec_cnt : Z) : Z :=
  if u32 (secs_done + 256) <=? sec_cnt then 256 else sec_cnt - secs_done.

Definition read_command (h : disk_ref) (lba buf : Z) (sec_cnt secs_done : Z) : M (ide D) (Z + unit) :=
  if secs_done <? sec_cnt then
    let secs_op := secs_of secs_done sec_cnt in
    select_sector h (u32 (lba + secs_done)) secs_op ;;
    do ch <- channel_of h;
    cmd_out ch CMD_READ_SECTOR ;;
    sema_down_done ch ;;
    do ok <- busy_wait h;
    if negb ok then panic
    else
      read_from_sector h (u32 (buf + secs_done * 512)) secs_op ;;
      ret (inl (u32 (secs_done + secs_op)))
  else ret (inr tt).

Definition ide_read (h : disk_ref) (lba buf sec_cnt : Z) : M (ide D) unit :=
  ASSERT (lba <=? max_lba) ;;
  ASSERT (0 <? sec_cnt) ;;
  do ch <- channel_of h;
  channel_acquire ch ;;
  select_disk h ;;
  loop (S (Z.to_nat sec_cnt)) (read_command h lba buf sec_cnt) 0 ;;
  channel_release ch.

Definition write_command (h : disk_ref) (lba buf : Z) (sec_cnt secs_done : Z) : M (ide D) (Z + unit) :=
  if secs_done <? sec_cnt then
    let secs_op := secs_of secs_done sec_cnt in
    select_sector h (u32 (lba + secs_done)) secs_op ;;
    do ch <- channel_of h;
    cmd_out ch CMD_WRITE_SECTOR ;;
    do ok <- busy_wait h;
    if negb ok then panic
    else
      write2sector h (u32 (buf + secs_done * 512)) secs_op ;;
      sema_down_done ch ;;
      ret (inl (u32 (secs_done + secs_op)))
  else ret (inr tt).

Definition ide_write (h : disk_ref) (lba buf sec_cnt : Z) : M (ide D) unit :=
  ASSERT (lba <=? max_lba) ;;
  ASSERT (0 <? sec_cnt) ;;
  do ch <- channel_of h;
  channel_acquire ch ;;
  select_disk h ;;
  loop (S (Z.to_nat sec_cnt)) (write_command h lba buf sec_cnt) 0 ;;
  channel_release ch.
(** ** What the driver finds out about the disks *)

(** The characters of two neighbours change places; [idx] is a uint8_t. *)
Definition swap_step {S} (len : Z) (x : Z * list Z * list Z) : M S (Z * list Z * list Z + list Z) :=
  let '(idx, dst, buf) := x in
  if idx <? len then
    match dst with
    | a :: b :: dst =>
        of_option (buf !! Z.to_nat (idx + 1)) ;;
        ret (inl (u8 (idx + 2), dst, <[Z.to_nat idx := b]> (<[Z.to_nat (idx + 1) := a]> buf)))
    | _ => fault
    end
  else
    of_option (buf !! Z.to_nat idx) ;;
    ret (inr (<[Z.to_nat idx := 0]> buf)).
Definition swap_pairs_bytes {S} (dst buf : list Z) (len : Z) : M S (list Z) :=
  loop 129 (swap_step len) (0, dst, buf).

(** The serial number, the model and the number of sectors, which are printed;
    id_info is at the address [info] of the stack, and [stack_buf] is what the
    stack holds where buf is. *)
Definition identify_disk (info : Z) (stack_buf : list Z) (h : disk_ref) : M (ide D) (list Z * list Z * Z) :=
  select_disk h ;;
  do ch <- channel_of h;
  cmd_out ch CMD_IDENTIFY ;;
  sema_down_done ch ;;
  do ok <- busy_wait h;
  if negb ok then panic
  else
    read_from_sector h info 1 ;;
    do id_info <- gets (fun s => ld_bytes (mem s) info 512);
    do sn <- swap_pairs_bytes (drop 20 id_info) stack_buf 20;
    do md <- swap_pairs_bytes (drop 54 id_info) (replicate 64 0) 40;
    ret (sn, md, rd32 id_info 120).

(** sys_malloc and sys_free of the buffer of a boot sector. *)
Definition boot_malloc : M (ide D) Z :=
  do s <- get;
  match allocs s with
  | [] => ret NULL
  | a :: l =>
      put (Ide (channel_cnt s) (channels s) (ext_lba_base s) (p_no s) (l_no s) (part_list s) (dev s) (mem s) l (icpu s)) ;;
      ret a
  end.
Definition boot_free (a : Z) : M (ide D) unit := ASSERT (negb (a =? NULL)).

(** A slot of prim_parts or logic_parts is filled in and put on the list. *)
Definition note_partition (h : disk_ref) (logic : bool) (no name_no start cnt : Z) : M (ide D) unit :=
  do hd <- ld_disk h;
  let slot := PartSlot (hd_name hd ++ digits 10 name_no) start cnt in
  let parts := if logic then hd_logic hd else hd_prim hd in
  of_option (parts !! Z.to_nat no) ;;
  let parts := <[Z.to_nat no := slot]> parts in
  st_disk h (IdeDisk (hd_name hd) (my_channel hd) (dev_no hd)
    (if logic then hd_prim hd else parts) (if logic then parts else hd_logic hd)) ;;
  modify (fun s => set_scan (ext_lba_base s) (p_no s) (l_no s)
    (part_list s ++ [PartRef (dr_channel h) (dr_dev h) logic no]) s).

(** An entry that is not an extended partition; [true]: the scan returns. *)
Definition scan_partition (h : disk_ref) (ext_lba : Z) (p : partition_table_entry) : M (ide D) bool :=
  do s <- get;
  if ext_lba =? 0 then
    note_partition h false (p_no s) (p_no s + 1) (u32 (ext_lba + start_lba p)) (sec_cnt p) ;;
    modify (fun s => set_scan (ext_lba_base s) (u8 (p_no s + 1)) (l_no s) (part_list s) s) ;;
    do s <- get;
    ASSERT (p_no s <? 4) ;;
    ret false
  else
    note_partition h true (l_no s) (l_no s + 5) (u32 (ext_lba + start_lba p)) (sec_cnt p) ;;
    modify (fun s => set_scan (ext_lba_base s) (p_no s) (u8 (l_no s + 1)) (part_list s) s) ;;
    do s <- get;
    ret (8 <=? l_no s).

(** One round of the loop over the four entries of the table in [bs]. *)
Definition scan_entry (scan : Z -> M (ide D) unit) (h : disk_ref) (ext_lba bs part_idx : Z) : M (ide D) bool :=
  do s <- get;
  let p := dec_pte (ld_bytes (mem s) bs 512) part_idx in
  if fs_type p =? 0x5 then
    (if negb (ext_lba_base s =? 0) then scan (u32 (start_lba p + ext_lba_base s))
     else
       modify (fun s => set_scan (s32 (start_lba p)) (p_no s) (l_no s) (part_list s) s) ;;
       scan (start_lba p)) ;;
    ret false
  else if negb (fs_type p =? 0) then scan_partition h ext_lba p
  else ret false.

(** [depth] bounds the chain of extended partitions. *)
Fixpoint partition_scan (depth : nat) (h : disk_ref) (ext_lba : Z) : M (ide D) unit :=
  match depth with
  | O => nofuel
  | S depth' =>
      do bs <- boot_malloc;
      ide_read h ext_lba bs 1 ;;
      do stop <- loop 5 (fun part_idx =>
        if part_idx <? 4 then
          do stop <- scan_entry (partition_scan depth' h) h ext_lba bs part_idx;
          if stop then ret (inr true) else ret (inl (part_idx + 1))
        else ret (inr false)) 0;
      if stop then ret tt else boot_free bs
  end.

(** ** ide_init *)

Definition ide0_name (channel_no : Z) : list Z := [105; 100; 101] ++ digits 10 channel_no.   (* "ide%d" *)
Definition sd_name (channel_no dev_no : Z) : list Z := [115; 100; 97 + channel_no * 2 + dev_no]. (* "sd%c" *)

(** The fields of a channel; [handler] is the address of intr_hd_handler. *)
Definition init_channel (handler channel_no : Z) : M (ide D) unit :=
  do c <- ld_channel channel_no;
  let '(base, irq) := if channel_no =? 0 then (0x1f0, 0x20 + 14)
                      else if channel_no =? 1 then (0x170, 0x20 + 15) else (port_base c, irq_no c) in
  st_channel channel_no (Channel (ide0_name channel_no) base irq 0 false 0 (devices c)) ;;
  zoom icpu (fun c s => Ide (channel_cnt s) (channels s) (ext_lba_base s) (p_no s) (l_no s) (part_list s) (dev s) (mem s) (allocs s) c)
    (register_handler irq handler).

Definition init_disk (depth : nat) (info : Z) (stack_buf : list Z) (channel_no dev_no : Z) : M (ide D) unit :=
  let h := DiskRef channel_no dev_no in
  do hd <- ld_disk h;
  st_disk h (IdeDisk (sd_name channel_no dev_no) channel_no dev_no (hd_prim hd) (hd_logic hd)) ;;
  identify_disk info stack_buf h ;;
  (if negb (dev_no =? 0) then partition_scan depth h 0 else ret tt) ;;
  modify (fun s => set_scan (ext_lba_base s) 0 0 (part_list s) s).

(** [hd_cnt] is the byte at 0x475. *)
Definition ide_init (depth : nat) (handler info : Z) (stack_buf : list Z) (hd_cnt : Z) : M (ide D) unit :=
  ASSERT (0 <? hd_cnt) ;;
  let cnt := u8 (DIV_ROUND_UP hd_cnt 2) in
  modify (fun s => Ide cnt (channels s) (ext_lba_base s) (p_no s) (l_no s) (part_list s) (dev s) (mem s) (allocs s) (icpu s)) ;;
  for_range 0 (Z.to_nat cnt) (fun channel_no =>
    init_channel handler channel_no ;;
    for_range 0 2 (init_disk depth info stack_buf channel_no)).
End ide.

(** ** What the ATA standard says of the device *)

(** Where the command is: [lba] is the sector at hand and [n] the number of
    sectors left, with that one. *)
Inductive ata_phase :=
  | Idle
  | ReadBusy (drv lba n : Z)                   (* the sector is being read *)
  | ReadReady (drv lba n w : Z)                (* [w] of its words have been taken *)
  | WriteReady (drv lba n : Z) (l : list Z)    (* its bytes [l] have been given *)
  | WriteBusy (drv lba n : Z) (l : list Z).    (* all of them, and it is being written *)

(** The registers by offset from the port base, the phase of the command, and
    the sectors of each drive. *)
Record ata := Ata { a_regs : Z -> Z; a_phase : ata_phase; a_media : Z -> gmap Z (list Z) }.

Definition set_reg (k v : Z) (a : ata) : ata :=
  Ata (fun j => if j =? k then v else a_regs a j) (a_phase a) (a_media a).
Definition set_phase (p : ata_phase) (a : ata) : ata := Ata (a_regs a) p (a_media a).
Definition set_media (drv : Z) (m : gmap Z (list Z)) (a : ata) : ata :=
  Ata (a_regs a) (a_phase a) (fun j => if j =? drv then m else a_media a j).

(** The drive, the address and the number of sectors that the registers name. *)
Definition reg_drive (a : ata) : Z := if Z.testbit (a_regs a 6) 4 then 1 else 0.
Definition reg_lba (a : ata) : Z :=
  a_regs a 3 + a_regs a 4 * 2 ^ 8 + a_regs a 5 * 2 ^ 16 + a_regs a 6 mod 16 * 2 ^ 24.
Definition reg_count (a : ata) : Z := if a_regs a 2 =? 0 then 256 else a_regs a 2.

(** Between two sectors, and behind the last one of a write, the device raises
    an interrupt when it is no longer busy. *)
Definition busy (p : ata_phase) : bool := match p with ReadBusy _ _ _ | WriteBusy _ _ _ _ => true | _ => false end.

(** A word is taken, the [w]th of the sector, and a word is given. *)
Definition word_taken (drv lba n w : Z) : ata_phase :=
  if w <? 255 then ReadReady drv lba n (w + 1) else if n =? 1 then Idle else ReadBusy drv (lba + 1) (n - 1).
Definition word_given (drv lba n : Z) (l : list Z) : ata_phase :=
  if (length l <? 512)%nat then WriteReady drv lba n l else WriteBusy drv lba n l.

(** The device of one channel, by the protocol of READ SECTOR(S) and WRITE
    SECTOR(S). After a command it is busy; for every sector of a read it clears
    BSY, sets DRQ and raises the interrupt, and the host takes 256 words; of a
    write it asks for the first sector without an interrupt, and raises it when
    a sector has been written, with DRQ set when there is another. The status
    shows busy for [at_busy] waits of ten milliseconds, of which the driver
    allows fewer than 29999. Of the data port while the device is busy nothing
    is said. *)
Class AtaDevOk (D : Type) `{AtaDev D} := {
  at_base : Z;
  at_vector : Z;
  at_view : D -> ata;
  at_busy : D -> Z;
  ao_reg d k v : a_phase (at_view d) = Idle -> 2 <= k <= 6 ->
    at_view (at_outb (at_base + k) v d) = set_reg k v (at_view d);
  ao_read d : a_phase (at_view d) = Idle -> Z.testbit (a_regs (at_view d) 6) 6 = true ->
    at_view (at_outb (at_base + 7) CMD_READ_SECTOR d) =
    set_phase (ReadBusy (reg_drive (at_view d)) (reg_lba (at_view d)) (reg_count (at_view d))) (at_view d);
  ao_write d : a_phase (at_view d) = Idle -> Z.testbit (a_regs (at_view d) 6) 6 = true ->
    at_view (at_outb (at_base + 7) CMD_WRITE_SECTOR d) =
    set_phase (WriteReady (reg_drive (at_view d)) (reg_lba (at_view d)) (reg_count (at_view d)) []) (at_view d);
  ao_irq_read d drv lba n : a_phase (at_view d) = ReadBusy drv lba n -> is_Some (a_media (at_view d) drv !! lba) ->
    exists d', at_irq d = Some (at_vector, d') /\ at_view d' = set_phase (ReadReady drv lba n 0) (at_view d) /\ at_busy d' = 0;
  ao_irq_write d drv lba n l : a_phase (at_view d) = WriteBusy drv lba n l -> is_Some (a_media (at_view d) drv !! lba) ->
    exists d', at_irq d = Some (at_vector, d') /\
      at_view d' = set_phase (if n =? 1 then Idle else WriteReady drv (lba + 1) (n - 1) [])
                     (set_media drv (<[lba := l]> (a_media (at_view d) drv)) (at_view d)) /\ at_busy d' = 0;
  ao_pending d : at_pending d = None \/ busy (a_phase (at_view d)) = true /\ at_pending d = at_irq d;
  ao_status d : exists v d', at_inb (at_base + 7) d = (v, d') /\ at_view d' = at_view d /\ at_busy d' = at_busy d /\
    Z.testbit v 7 = (0 <? at_busy d) /\
    match a_phase (at_view d) with ReadReady _ _ _ _ | WriteReady _ _ _ _ => Z.testbit v 3 = negb (0 <? at_busy d) | _ => True end;
  ao_sleep d : at_view (at_sleep 10 d) = at_view d /\ at_busy (at_sleep 10 d) = Z.max 0 (at_busy d - 1);
  ao_limit d : 0 <= at_busy d < 29999;
  ao_inw d drv lba n w b : a_phase (at_view d) = ReadReady drv lba n w -> at_busy d = 0 -> 0 <= w < 256 ->
    a_media (at_view d) drv !! lba = Some b -> length b = 512%nat ->
    exists d', at_inw (at_base + 0) d = ((nth (Z.to_nat (2 * w)) b 0, nth (Z.to_nat (2 * w + 1)) b 0), d') /\
      at_view d' = set_phase (word_taken drv lba n w) (at_view d) /\ (w < 255 -> at_busy d' = 0);
  ao_outw d drv lba n l x y : a_phase (at_view d) = WriteReady drv lba n l -> at_busy d = 0 -> (length l < 512)%nat ->
    at_view (at_outw (at_base + 0) (x, y) d) = set_phase (word_given drv lba n (l ++ [x; y])) (at_view d) /\
    ((length l < 510)%nat -> at_busy (at_outw (at_base + 0) (x, y) d) = 0)
}.

(** A device that has the next sector ready when the last word of one has been
    moved, as one that works on a file of the host does. It is a condition of
    what follows, not something that the standard says. *)
Definition prompt (D : Type) `{AtaDevOk D} : Prop := forall d : D, busy (a_phase (at_view d)) = true -> at_pending d = at_irq d.

(** ** Register arithmetic *)

Lemma lba_bytes lba : 0 <= lba < 2 ^ 24 ->
  u8 lba + u8 (Z.shiftr lba 8) * 2 ^ 8 + u8 (Z.shiftr lba 16) * 2 ^ 16 = lba.
Proof. intros Hl. unfold u8. rewrite !Z.shiftr_div_pow2 by lia. dlia. Qed.

Definition dev_byte (drv : Z) : Z := if drv =? 1 then 0xf0 else 0xe0.

Lemma dev_byte_bits drv : drv = 0 \/ drv = 1 ->
  Z.testbit (dev_byte drv) 6 = true /\ (if Z.testbit (dev_byte drv) 4 then 1 else 0) = drv /\ dev_byte drv mod 16 = 0.
Proof. by intros [->| ->]. Qed.

Lemma count_byte n : 0 < n <= 256 -> (if u8 n =? 0 then 256 else u8 n) = n.
Proof.
  intros Hn. unfold u8. destruct (decide (n = 256)) as [->|]; [done|].
  rewrite Z.mod_small by lia. by rewrite (proj2 (Z.eqb_neq n 0)) by lia.
Qed.

Lemma size_half n : 0 < n <= 256 -> size_in_byte n / 2 = n * 256.
Proof.
  intros Hn. pose proof (count_byte n Hn) as E. unfold size_in_byte. destruct (u8 n =? 0).
  - subst n. done.
  - rewrite E. dlia.
Qed.

(** ** Bytes of memory *)

Lemma st_bytes_app m a l1 l2 x :
  st_bytes m a (l1 ++ l2) x = st_bytes (st_bytes m a l1) (a + Z.of_nat (length l1)) l2 x.
Proof.
  unfold st_bytes. rewrite length_app.
  destruct (Z.leb_spec a x), (Z.leb_spec (a + Z.of_nat (length l1)) x),
    (Z.ltb_spec x (a + Z.of_nat (length l1 + length l2))), (Z.ltb_spec x (a + Z.of_nat (length l1))),
    (Z.ltb_spec x (a + Z.of_nat (length l1) + Z.of_nat (length l2))); cbn [andb]; try lia; try done.
  - rewrite app_nth2 by lia. f_equal. lia.
  - rewrite app_nth1 by lia. done.
Qed.

Lemma st_bytes_nil m a x : st_bytes m a [] x = m x.
Proof. unfold st_bytes. change (Z.of_nat (length (@nil Z))) with 0. destruct (Z.leb_spec a x), (Z.ltb_spec x (a + 0)); cbn [andb]; done || lia. Qed.

Lemma st_bytes_ext m m' a l x : (forall y, m y = m' y) -> st_bytes m a l x = st_bytes m' a l x.
Proof. intros Hm. unfold st_bytes. by rewrite Hm. Qed.

Lemma ld_bytes_length m a n : length (ld_bytes m a n) = Z.to_nat n.
Proof. unfold ld_bytes. by rewrite length_fmap, length_seqZ. Qed.

Lemma ld_bytes_app m a n k : 0 <= n -> 0 <= k -> 0 <= a -> a + n + k <= 2 ^ 32 ->
  ld_bytes m a (n + k) = ld_bytes m a n ++ ld_bytes m (a + n) k.
Proof.
  intros Hn Hk Ha He. unfold ld_bytes. rewrite seqZ_app, fmap_app by lia. f_equal.
  replace (0 + n) with (n + 0) by lia. rewrite <- (fmap_add_seqZ n 0 k), <- list_fmap_compose.
  apply list_fmap_ext. intros i x Hi. cbn. f_equal. f_equal. lia.
Qed.

(** ** Transfers in pieces *)

Lemma read_sectors_slice d lba n l (k j : nat) : disk_wf d -> read_sectors d lba n = Some l -> (k + j <= n)%nat ->
  read_sectors d (lba + Z.of_nat k) j = Some (take (512 * j) (drop (512 * k) l)).
Proof.
  intros Hd Hr Hkj. replace n with (k + (j + (n - k - j)))%nat in Hr by lia. rewrite !read_sectors_app in Hr.
  destruct (read_sectors d lba k) as [a|] eqn:Ha; [|done].
  destruct (read_sectors d (lba + Z.of_nat k) j) as [b|] eqn:Hb; [|done].
  destruct (read_sectors d _ (n - k - j)) as [r|]; [|done]. injection Hr as <-.
  pose proof (read_sectors_length _ _ _ _ Hd Ha) as La. pose proof (read_sectors_length _ _ _ _ Hd Hb) as Lb.
  rewrite drop_app_length' by lia. by rewrite take_app_length' by lia.
Qed.

Lemma write_sectors_app d lba b1 b2 n m : length b1 = (512 * n)%nat ->
  write_sectors d lba (b1 ++ b2) (n + m) =
  match write_sectors d lba b1 n with Some d' => write_sectors d' (lba + Z.of_nat n) b2 m | None => None end.
Proof.
  revert d lba b1. induction n as [|n IH]; intros d lba b1 Hl; cbn [plus write_sectors].
  { rewrite Z.add_0_r. by destruct b1. }
  destruct (d !! lba); [|done]. rewrite length_app.
  rewrite (proj2 (Nat.leb_le 512 _)), (proj2 (Nat.leb_le 512 (length b1))) by lia.
  rewrite take_app_le, drop_app_le by lia. rewrite IH by (rewrite length_drop; lia).
  by replace (lba + 1 + Z.of_nat n) with (lba + Z.of_nat (S n)) by lia.
Qed.

(** ** The driver on one disk *)

Section driver.
Context {D : Type} `{HD : AtaDevOk D}.
Context (s0 : ide D) (h : disk_ref) (c : ide_channel) (hd : ide_disk).

(** The disk [h] is set up and its channel drives the device. *)
Record attached : Prop := {
  ad_chan : channels s0 !! Z.to_nat (dr_channel h) = Some c;
  ad_disk : devices c !! Z.to_nat (dr_dev h) = Some hd;
  ad_my : my_channel hd = dr_channel h;
  ad_no : dev_no hd = 0 \/ dev_no hd = 1;
  ad_port : port_base c = at_base;
  ad_irq : irq_no c = at_vector;
  ad_two : dr_channel h = 0 \/ dr_channel h = 1;
  ad_vector : at_vector = 0x2e + dr_channel h
}.

Context (Hat : attached).

(** The state in the middle of a call. *)
Definition st (l : Z) (e : bool) (n : Z) (d : D) (m : Z -> Z) : ide D :=
  set_mem m (set_dev d (set_channels (<[Z.to_nat (dr_channel h) := chan l e n c]> (channels s0)) s0)).

Lemma wp_ld_channel l e n d m (Q : ide_channel -> ide D -> Prop) :
  Q (chan l e n c) (st l e n d m) -> wp (ld_channel (dr_channel h)) Q (st l e n d m).
Proof.
  intros HQ. unfold ld_channel. wp_simp. apply wp_of_option. exists (chan l e n c). split; [|done].
  cbn. rewrite list_lookup_insert_eq; [done|]. apply lookup_lt_is_Some. exists c. apply Hat.
Qed.

Lemma wp_st_channel l e n l' e' n' d m (Q : unit -> ide D -> Prop) :
  Q tt (st l' e' n' d m) -> wp (st_channel (dr_channel h) (chan l' e' n' (chan l e n c))) Q (st l e n d m).
Proof.
  intros HQ. unfold st_channel. wp_simp. unfold st in *. cbn in *. by rewrite list_insert_insert_eq.
Qed.

Lemma wp_ld_disk l e n d m (Q : ide_disk -> ide D -> Prop) :
  Q hd (st l e n d m) -> wp (ld_disk h) Q (st l e n d m).
Proof.
  intros HQ. unfold ld_disk. wp_simp. apply wp_ld_channel. apply wp_of_option. exists hd. split; [apply Hat|done].
Qed.

Lemma wp_channel_of l e n d m (Q : Z -> ide D -> Prop) :
  Q (dr_channel h) (st l e n d m) -> wp (channel_of h) Q (st l e n d m).
Proof. intros HQ. unfold channel_of. wp_simp. apply wp_ld_disk. wp_simp. by rewrite (ad_my Hat). Qed.

(** One register is written. *)
Lemma wp_outb k v l e n d m (Q : unit -> ide D -> Prop) : a_phase (at_view d) = Idle -> 2 <= k <= 6 ->
  (forall d', at_view d' = set_reg k (u8 v) (at_view d) -> Q tt (st l e n d' m)) ->
  wp (outb (at_base + k) v) Q (st l e n d m).
Proof. intros Hp Hk HQ. unfold outb. wp_simp. apply (HQ (at_outb (at_base + k) (u8 v) d)). by apply ao_reg. Qed.

Lemma dev_byte_eq : (if dev_no hd =? 1 then Z.lor (Z.lor BIT_DEV_MBS BIT_DEV_LBA) BIT_DEV_DEV else Z.lor BIT_DEV_MBS BIT_DEV_LBA) = dev_byte (dev_no hd).
Proof. unfold dev_byte. by destruct (dev_no hd =? 1). Qed.

Lemma select_disk_run l e n d m (Q : unit -> ide D -> Prop) : a_phase (at_view d) = Idle ->
  (forall d', a_phase (at_view d') = Idle -> a_media (at_view d') = a_media (at_view d) -> Q tt (st l e n d' m)) ->
  wp (select_disk h) Q (st l e n d m).
Proof.
  intros Hp HQ. unfold select_disk. wp_simp. apply wp_ld_disk. wp_simp. rewrite (ad_my Hat). apply wp_ld_channel.
  unfold reg_dev. cbn [chan port_base]. rewrite (ad_port Hat). apply wp_outb; [done|lia|].
  intros d' E. apply HQ; by rewrite E.
Qed.

(** The registers name the disk, the address and the count. *)
Lemma select_sector_run lba cnt l e n d m (Q : unit -> ide D -> Prop) :
  a_phase (at_view d) = Idle -> 0 <= lba <= max_lba -> 0 < cnt <= 256 ->
  (forall d', a_phase (at_view d') = Idle -> a_media (at_view d') = a_media (at_view d) ->
     Z.testbit (a_regs (at_view d') 6) 6 = true -> reg_drive (at_view d') = dev_no hd ->
     reg_lba (at_view d') = lba -> reg_count (at_view d') = cnt -> Q tt (st l e n d' m)) ->
  wp (select_sector h lba cnt) Q (st l e n d m).
Proof.
  intros Hp Hlba Hcnt HQ. unfold max_lba in Hlba. unfold select_sector.
  wp_simp. apply wp_ASSERT. split; [apply Z.leb_le; unfold max_lba; lia|]. wp_simp.
  apply wp_ld_disk. wp_simp. rewrite (ad_my Hat). apply wp_ld_channel. wp_simp.
  unfold reg_sect_cnt, reg_lba_l, reg_lba_m, reg_lba_h, reg_dev. cbn [chan port_base]. rewrite (ad_port Hat).
  apply wp_outb; [done|lia|]. intros d1 E1. wp_simp. apply wp_outb; [by rewrite E1|lia|]. intros d2 E2. wp_simp.
  apply wp_outb; [by rewrite E2, E1|lia|]. intros d3 E3. wp_simp. apply wp_outb; [by rewrite E3, E2, E1|lia|]. intros d4 E4.
  wp_simp. apply wp_outb; [by rewrite E4, E3, E2, E1|lia|]. intros d5 E5.
  assert (Hb : u8 (Z.lor (Z.lor (Z.lor BIT_DEV_MBS BIT_DEV_LBA) (if dev_no hd =? 1 then BIT_DEV_DEV else 0)) (Z.shiftr lba 24)) = dev_byte (dev_no hd)).
  { rewrite Z.shiftr_div_pow2, Z.div_small by lia. unfold dev_byte. by destruct (dev_no hd =? 1). }
  rewrite Hb, E4, E3, E2, E1 in E5. destruct (dev_byte_bits (dev_no hd) (ad_no Hat)) as (B1 & B2 & B3).
  apply HQ; unfold reg_drive, reg_lba, reg_count; rewrite E5; cbn.
  - done.
  - done.
  - exact B1.
  - exact B2.
  - rewrite B3. rewrite Z.mul_0_l, Z.add_0_r. apply lba_bytes. lia.
  - rewrite (u8_small (u8 cnt)) by apply u8_bound. by apply count_byte.
Qed.
Lemma cmd_out_run cmd l e n d m (Q : unit -> ide D -> Prop) :
  Q tt (st l true n (at_outb (at_base + 7) (u8 cmd) d) m) -> wp (cmd_out (dr_channel h) cmd) Q (st l e n d m).
Proof.
  intros HQ. unfold cmd_out. wp_simp. apply wp_ld_channel. wp_simp. cbn [chan ch_locks disk_done].
  apply (wp_st_channel l e n l true n). unfold outb, reg_cmd, reg_status. wp_simp. cbn [chan port_base]. by rewrite (ad_port Hat).
Qed.

(** A read of the status changes nothing that the driver sees. *)
Lemma wp_inb_status l e n d m (Q : Z -> ide D -> Prop) :
  (forall v d', at_view d' = at_view d -> at_busy d' = at_busy d -> Z.testbit v 7 = (0 <? at_busy d) ->
     match a_phase (at_view d) with ReadReady _ _ _ _ | WriteReady _ _ _ _ => Z.testbit v 3 = negb (0 <? at_busy d) | _ => True end ->
     Q v (st l e n d' m)) ->
  wp (inb (at_base + 7)) Q (st l e n d m).
Proof.
  intros HQ. unfold inb. wp_simp. change (dev (st l e n d m)) with d.
  destruct (ao_status d) as (v & d' & E & Hv & Hb & H7 & H3). rewrite E. wp_simp. exact (HQ v d' Hv Hb H7 H3).
Qed.

(** The handler, whether its interrupt is expected or not. *)
Lemma intr_run l (e : bool) n d m (Q : unit -> ide D -> Prop) : (e = true -> n = 0) ->
  (forall d', at_view d' = at_view d -> at_busy d' = at_busy d -> Q tt (st l false (if e then 1 else n) d' m)) ->
  wp (intr_hd_handler at_vector) Q (st l e n d m).
Proof.
  intros Hn HQ. unfold intr_hd_handler. rewrite (ad_vector Hat). wp_simp. apply wp_ASSERT.
  split; [by destruct (ad_two Hat) as [->| ->]|]. wp_simp.
  replace (0x2e + dr_channel h - 0x2e) with (dr_channel h) by lia. apply wp_ld_channel. wp_simp.
  cbn [chan irq_no expecting_intr ch_locks disk_done]. apply wp_ASSERT. rewrite (ad_irq Hat), (ad_vector Hat), Z.eqb_refl.
  split; [done|]. destruct e; wp_simp; [|by apply HQ]. rewrite (Hn eq_refl). apply wp_ASSERT. split; [done|]. wp_simp.
  apply (wp_st_channel l true 0 l false 1). unfold reg_status. cbn [chan port_base]. rewrite (ad_port Hat).
  wp_simp. apply wp_inb_status. intros v d' Hv Hb _ _. wp_simp. by apply HQ.
Qed.

(** No interrupt can have come, or one has. *)
Lemma take_none l e n d m (Q : unit -> ide D -> Prop) :
  at_pending d = None -> Q tt (st l e n d m) -> wp take_interrupt Q (st l e n d m).
Proof. intros Hp HQ. unfold take_interrupt. wp_simp. change (dev (st l e n d m)) with d. rewrite Hp. by wp_simp. Qed.

Lemma not_pending d : busy (a_phase (at_view d)) = false -> at_pending d = None.
Proof. intros Hb. destruct (ao_pending d) as [|[E _]]; congruence. Qed.

Lemma take_some l (e : bool) n d d1 m (Q : unit -> ide D -> Prop) : at_pending d = Some (at_vector, d1) -> (e = true -> n = 0) ->
  (forall d', at_view d' = at_view d1 -> at_busy d' = at_busy d1 -> Q tt (st l false (if e then 1 else n) d' m)) ->
  wp take_interrupt Q (st l e n d m).
Proof.
  intros Hp Hn HQ. unfold take_interrupt. wp_simp. change (dev (st l e n d m)) with d. rewrite Hp. wp_simp.
  change (set_dev d1 (st l e n d m)) with (st l e n d1 m). by apply intr_run.
Qed.

(** The semaphore is up; or the driver waits for the interrupt that the device
    raises next. *)
Lemma sema_down_up l d m (Q : unit -> ide D -> Prop) (fuel : nat) (body := fun _ : unit =>
    do c <- ld_channel (dr_channel h);
    if disk_done c =? 0 then
      do s <- get;
      match at_irq (dev s) with
      | None => nofuel
      | Some (irq, d) => put (set_dev d s) ;; intr_hd_handler irq ;; ret (inl tt)
      end
    else
      ASSERT (disk_done c - 1 =? 0) ;;
      st_channel (dr_channel h) (chan (ch_locks c) (expecting_intr c) (disk_done c - 1) c) ;;
      ret (inr tt)) :
  Q tt (st l false 0 d m) -> wp (loop (S fuel) body tt) Q (st l false 1 d m).
Proof.
  intros HQ. rewrite loop_S. unfold body at 1. wp_simp. apply wp_ld_channel. wp_simp. cbn [chan disk_done ch_locks expecting_intr].
  change (1 =? 0) with false. cbn iota. wp_simp. apply wp_ASSERT. split; [done|]. wp_simp. apply (wp_st_channel l false 1 l false 0). by wp_simp.
Qed.

Lemma sema_down_ready l d m (Q : unit -> ide D -> Prop) :
  Q tt (st l false 0 d m) -> wp (sema_down_done (dr_channel h)) Q (st l false 1 d m).
Proof. exact (sema_down_up l d m Q 999). Qed.

Lemma sema_down_done_run l d d1 m (Q : unit -> ide D -> Prop) :
  at_irq d = Some (at_vector, d1) ->
  (forall d', at_view d' = at_view d1 -> at_busy d' = at_busy d1 -> Q tt (st l false 0 d' m)) ->
  wp (sema_down_done (dr_channel h)) Q (st l true 0 d m).
Proof.
  intros Hirq HQ. unfold sema_down_done. change 1000%nat with (S (S 998)). rewrite loop_S. wp_simp. apply wp_ld_channel. wp_simp.
  cbn [chan disk_done]. rewrite Z.eqb_refl. wp_simp. change (dev (st l true 0 d m)) with d. rewrite Hirq. wp_simp.
  change (set_dev d1 (st l true 0 d m)) with (st l true 0 d1 m). apply intr_run; [done|]. intros d' Hv Hb. wp_simp.
  apply sema_down_up. by apply HQ.
Qed.

Lemma truthy_bit7 v : truthy (Z.land v BIT_STAT_BSY) = Z.testbit v 7.
Proof. by apply (truthy_mask v 7). Qed.
Lemma truthy_bit3 v : truthy (Z.land v BIT_STAT_DRQ) = Z.testbit v 3.
Proof. by apply (truthy_mask v 3). Qed.

(** busy_wait sees the device ready. *)
Lemma busy_wait_run l e n d m (Q : bool -> ide D -> Prop) :
  match a_phase (at_view d) with ReadReady _ _ _ _ | WriteReady _ _ _ _ => True | _ => False end ->
  (forall d', at_view d' = at_view d -> at_busy d' = 0 -> Q true (st l e n d' m)) ->
  wp (busy_wait h) Q (st l e n d m).
Proof.
  intros Hph HQ. unfold busy_wait. wp_simp. apply wp_ld_disk. wp_simp. rewrite (ad_my Hat). apply wp_ld_channel. wp_simp.
  unfold reg_status. cbn [chan port_base]. rewrite (ad_port Hat). pose proof (ao_limit d) as Hb0.
  apply (wp_loop (fun t s => exists d1, s = st l e n d1 m /\ at_view d1 = at_view d /\ 0 <= at_busy d1 <= at_busy d /\
      t = 30000 - (at_busy d - at_busy d1)) (fun t _ => Z.to_nat t)).
  - intros t s (d1 & -> & Hv & Hb & ->). rewrite u16_small by (destruct (0 <=? 10) eqn:E; lia). change (0 <=? 10) with true. cbn iota.
    rewrite (proj2 (truthy_true _)) by lia. wp_simp. apply wp_inb_status. rewrite Hv. intros v d2 Hv2 Hb2 H7 _.
    rewrite truthy_bit7, H7. destruct (Z.ltb_spec 0 (at_busy d1)) as [Hbusy|Hready]; cbn [negb]; wp_simp.
    + change (wp (ret (inl (30000 - (at_busy d - at_busy d1) - 1)))
        (fun r s => match r with inl x' => (exists d1, s = st l e n d1 m /\ at_view d1 = at_view d /\ 0 <= at_busy d1 <= at_busy d /\
            x' = 30000 - (at_busy d - at_busy d1)) /\ (Z.to_nat x' < Z.to_nat (30000 - (at_busy d - at_busy d1)))%nat | inr y => Q y s end)
        (st l e n (at_sleep 10 d2) m)).
      wp_simp. destruct (ao_sleep d2) as [Hs1 Hs2]. split; [|lia]. exists (at_sleep 10 d2). split; [done|].
      split; [congruence|]. rewrite Hs2, Hb2. lia.
    + apply wp_inb_status. rewrite Hv2, Hb2. intros v' d3 Hv3 Hb3 _ H3. wp_simp. rewrite truthy_bit3.
      assert (Hz : (0 <? at_busy d1) = false) by (apply Z.ltb_ge; lia). rewrite Hz in H3.
      assert (E : Z.testbit v' 3 = true) by (destruct (a_phase (at_view d)); done). rewrite E. apply HQ; [congruence|lia].
  - exists d. split; [done|]. split; [done|]. split; [lia|]. lia.
  - lia.
Qed.
(** ** Whole transfers *)

Lemma word_at (data : list Z) (q w : nat) : (512 * q + 2 * w + 2 <= length data)%nat -> (w < 256)%nat ->
  [nth (2 * w) (take 512 (drop (512 * q) data)) 0; nth (2 * w + 1) (take 512 (drop (512 * q) data)) 0] = take 2 (drop (512 * q + 2 * w) data).
Proof.
  intros Hl Hw. rewrite !nth_lookup, !lookup_take_lt, !lookup_drop by lia.
  destruct (lookup_lt_is_Some_2 data (512 * q + 2 * w)) as [x Hx]; [lia|].
  destruct (lookup_lt_is_Some_2 data (512 * q + (2 * w + 1))) as [y Hy]; [lia|]. rewrite Hx, Hy. cbn [default].
  rewrite (drop_S _ x) by done. rewrite (drop_S _ y) by (rewrite <- Hy; f_equal; lia). done.
Qed.

Lemma word_place i cnt : 0 <= i < cnt * 256 -> i = 256 * (i / 256) + i mod 256 /\ 0 <= i / 256 < cnt /\ 0 <= i mod 256 < 256.
Proof using. intros Hi. dlia. Qed.

(** The device when [i] words of a command for [cnt] sectors have been taken. *)
Definition at_word (lba cnt i : Z) : ata_phase :=
  if i <? cnt * 256 then ReadReady (dev_no hd) (lba + i / 256) (cnt - i / 256) (i mod 256) else Idle.

Lemma at_word_next lba cnt i : 0 <= i < cnt * 256 ->
  word_taken (dev_no hd) (lba + i / 256) (cnt - i / 256) (i mod 256) =
    (if (i mod 256 =? 255) && negb (cnt - i / 256 =? 1) then ReadBusy (dev_no hd) (lba + (i + 1) / 256) (cnt - (i + 1) / 256) else at_word lba cnt (i + 1)).
Proof.
  intros Hi. unfold word_taken, at_word. pose proof (Z.mod_pos_bound i 256 ltac:(lia)) as Hm.
  destruct (Z.ltb_spec (i mod 256) 255) as [Hlt|Hge].
  - rewrite (proj2 (Z.eqb_neq _ 255)) by lia. cbn [andb]. rewrite (proj2 (Z.ltb_lt _ _)) by dlia. f_equal; dlia.
  - rewrite (proj2 (Z.eqb_eq _ 255)) by lia. cbn [andb]. destruct (Z.eqb_spec (cnt - i / 256) 1) as [E|E]; cbn [negb].
    + by rewrite (proj2 (Z.ltb_ge _ _)) by dlia.
    + f_equal; dlia.
Qed.

Lemma read_words_run lba cnt data buf l d m (Q : unit -> ide D -> Prop) (media := a_media (at_view d) (dev_no hd)) :
  a_phase (at_view d) = ReadReady (dev_no hd) lba cnt 0 -> at_busy d = 0 -> 0 < cnt <= 256 -> disk_wf media ->
  read_sectors media lba (Z.to_nat cnt) = Some data -> cnt = 1 \/ prompt D ->
  (forall d' m', a_phase (at_view d') = Idle -> a_media (at_view d') = a_media (at_view d) -> (forall x, m' x = st_bytes m buf data x) ->
     Q tt (st l false 0 d' m')) ->
  wp (insw (at_base + 0) buf (cnt * 256)) Q (st l false 0 d m).
Proof.
  intros Hp Hb0 Hc Hwf Hr Hpr HQ. pose proof (read_sectors_length _ _ _ _ Hwf Hr) as Hlen.
  assert (Hsec : forall q, 0 <= q < cnt -> media !! (lba + q) = Some (take 512 (drop (512 * Z.to_nat q) data))).
  { intros q Hq. pose proof (read_sectors_slice media lba _ data (Z.to_nat q) 1 Hwf Hr ltac:(lia)) as E. rewrite Z2Nat.id in E by lia. by apply one_sector. }
  unfold insw. apply (wp_for_range (fun i s => exists d' m', s = st l false 0 d' m' /\ 0 <= i <= cnt * 256 /\ a_phase (at_view d') = at_word lba cnt i /\
    a_media (at_view d') = a_media (at_view d) /\ (i < cnt * 256 -> at_busy d' = 0) /\ forall x, m' x = st_bytes m buf (take (2 * Z.to_nat i) data) x)).
  - intros i s Hi (d1 & m1 & -> & Hi1 & P1 & M1 & B1 & E1). wp_simp. change (dev (st l false 0 d1 m1)) with d1.
    assert (Hi2 : 0 <= i < cnt * 256) by lia. pose proof (word_place i cnt Hi2) as Hqw.
    set (q := i / 256) in *. set (w := i mod 256) in *.
    unfold at_word in P1. rewrite (proj2 (Z.ltb_lt i _)) in P1 by lia. fold q w in P1.
    destruct (ao_inw d1 _ _ _ w (take 512 (drop (512 * Z.to_nat q) data)) P1) as (d2 & E2 & V2 & B2); [apply B1; lia|lia|rewrite M1; apply Hsec; lia| |].
    { rewrite length_take, length_drop. lia. }
    rewrite E2. wp_simp. set (m2 := st_bytes (mem (st l false 0 d1 m1)) _ _).
    assert (Em : forall x, m2 x = st_bytes m buf (take (2 * Z.to_nat (i + 1)) data) x).
    { intros x. replace (2 * Z.to_nat (i + 1))%nat with (2 * Z.to_nat i + 2)%nat by lia. rewrite <- take_take_drop, st_bytes_app, length_take.
      replace (buf + Z.of_nat (Nat.min (2 * Z.to_nat i) (length data))) with (buf + 2 * i) by lia.
      unfold m2. replace (Z.to_nat (2 * w)) with (2 * Z.to_nat w)%nat by lia. replace (Z.to_nat (2 * w + 1)) with (2 * Z.to_nat w + 1)%nat by lia.
      rewrite word_at by lia. replace (512 * Z.to_nat q + 2 * Z.to_nat w)%nat with (2 * Z.to_nat i)%nat by lia. by apply st_bytes_ext. }
    clearbody m2. change (set_mem m2 (set_dev d2 (st l false 0 d1 m1))) with (st l false 0 d2 m2).
    unfold q, w in V2. rewrite at_word_next in V2 by lia. fold q w in V2.
    destruct ((w =? 255) && negb (cnt - q =? 1)) eqn:Elast.
    + apply andb_true_iff in Elast as [Ew Ec]. apply Z.eqb_eq in Ew. apply negb_true_iff, Z.eqb_neq in Ec. destruct Hpr as [|Hpr]; [lia|].
      assert (P2 : a_phase (at_view d2) = ReadBusy (dev_no hd) (lba + (i + 1) / 256) (cnt - (i + 1) / 256)) by by rewrite V2.
      assert (M2 : a_media (at_view d2) = a_media (at_view d)) by by rewrite V2.
      destruct (ao_irq_read d2 _ _ _ P2) as (d3 & I3 & V3 & B3).
      { rewrite M2. fold media. rewrite Hsec by (unfold q, w in *; dlia). by eexists. }
      apply (take_some _ _ _ _ d3); [rewrite Hpr; [done|by rewrite P2]|done|]. intros d4 V4 B4. exists d4, m2. split; [done|]. split; [lia|].
      rewrite V4, V3. cbn. split; [|split; [done|split; [by rewrite B4|done]]].
      unfold at_word. rewrite (proj2 (Z.ltb_lt (i + 1) _)) by lia. f_equal. unfold w in *. dlia.
    + apply take_none.
      { apply not_pending. rewrite V2. unfold at_word. by destruct (i + 1 <? cnt * 256). }
      exists d2, m2. split; [done|]. split; [lia|]. rewrite V2. cbn. split; [done|]. split; [done|]. split; [|done].
      intros Hl. apply B2. apply andb_false_iff in Elast as [Ew|Ec]; [apply Z.eqb_neq in Ew; lia|].
      apply negb_false_iff, Z.eqb_eq in Ec. lia.
  - exists d, m. split; [done|]. split; [lia|]. split; [|split; [done|split; [done|intros x; by rewrite st_bytes_nil]]].
    unfold at_word. rewrite (proj2 (Z.ltb_lt 0 _)) by lia. rewrite Hp. f_equal; dlia.
  - intros s (d' & m' & -> & Hi & P' & M' & _ & E'). unfold at_word in P'. rewrite (proj2 (Z.ltb_ge _ _)) in P' by lia.
    apply HQ; [done|done|]. intros x. rewrite E'. by rewrite take_ge by lia.
Qed.

(** The device has the sectors [mf] on its drive, and is idle; or will be, when
    the driver has waited for the interrupt. *)
Definition idle_with (d0 : D) (mf : gmap Z (list Z)) (d : D) : Prop :=
  a_phase (at_view d) = Idle /\ forall j, a_media (at_view d) j = if j =? dev_no hd then mf else a_media (at_view d0) j.
Definition all_given (d0 : D) (mf : gmap Z (list Z)) (e : bool) (n : Z) (d : D) : Prop :=
  (e = false /\ n = 1 /\ idle_with d0 mf d) \/
  (e = true /\ n = 0 /\ exists d1, at_irq d = Some (at_vector, d1) /\ idle_with d0 mf d1).

(** The state when [i] words of a write have been given. *)
Definition given (lba cnt buf : Z) (m : Z -> Z) (d0 : D) (mf : gmap Z (list Z)) (i : Z) (e : bool) (n : Z) (d : D) : Prop :=
  if i <? cnt * 256 then
    (e = (i / 256 =? 0) /\ n = (if i / 256 =? 0 then 0 else 1)) /\ at_busy d = 0 /\
    a_phase (at_view d) = WriteReady (dev_no hd) (lba + i / 256) (cnt - i / 256) (ld_bytes m (buf + i / 256 * 512) (2 * (i mod 256))) /\
    exists mq, write_sectors (a_media (at_view d0) (dev_no hd)) lba (ld_bytes m buf (i / 256 * 512)) (Z.to_nat (i / 256)) = Some mq /\
      forall j, a_media (at_view d) j = if j =? dev_no hd then mq else a_media (at_view d0) j
  else all_given d0 mf e n d.

(** The first [k] sectors and the next. *)
Lemma write_split (media mf : gmap Z (list Z)) m lba buf cnt k : 0 <= k < cnt -> 0 <= buf -> buf + cnt * 512 <= 2 ^ 32 ->
  write_sectors media lba (ld_bytes m buf (cnt * 512)) (Z.to_nat cnt) = Some mf ->
  exists mk, write_sectors media lba (ld_bytes m buf (k * 512)) (Z.to_nat k) = Some mk /\ is_Some (mk !! (lba + k)) /\
    write_sectors media lba (ld_bytes m buf ((k + 1) * 512)) (Z.to_nat (k + 1)) = Some (<[lba + k := ld_bytes m (buf + k * 512) 512]> mk).
Proof using.
  intros Hk Hbuf Hend Hw.
  replace (cnt * 512) with ((k + 1) * 512 + (cnt - k - 1) * 512) in Hw by lia. rewrite ld_bytes_app in Hw by lia.
  replace (Z.to_nat cnt) with (Z.to_nat (k + 1) + Z.to_nat (cnt - k - 1))%nat in Hw by lia.
  rewrite write_sectors_app in Hw by (rewrite ld_bytes_length; lia).
  replace ((k + 1) * 512) with (k * 512 + 512) in * by lia. rewrite ld_bytes_app in * by lia.
  replace (Z.to_nat (k + 1)) with (Z.to_nat k + 1)%nat in * by lia. rewrite write_sectors_app in * by (rewrite ld_bytes_length; lia).
  destruct (write_sectors media lba (ld_bytes m buf (k * 512)) (Z.to_nat k)) as [mk|]; [|done]. exists mk. split; [done|].
  rewrite Z2Nat.id in * by lia. cbn [write_sectors] in *. destruct (mk !! (lba + k)); [|done]. split; [by eexists|].
  rewrite ld_bytes_length. change (512 <=? Z.to_nat 512)%nat with true. cbn iota. by rewrite take_ge by (rewrite ld_bytes_length; lia).
Qed.

(** The device has taken the last word of the sector [k], and takes the next
    sector when it has written it. *)
Lemma sector_written lba cnt buf m d0 d mf k mk : 0 <= k < cnt -> 0 <= buf -> buf + cnt * 512 <= 2 ^ 32 ->
  write_sectors (a_media (at_view d0) (dev_no hd)) lba (ld_bytes m buf (cnt * 512)) (Z.to_nat cnt) = Some mf ->
  write_sectors (a_media (at_view d0) (dev_no hd)) lba (ld_bytes m buf (k * 512)) (Z.to_nat k) = Some mk ->
  (forall j, a_media (at_view d) j = if j =? dev_no hd then mk else a_media (at_view d0) j) ->
  a_phase (at_view d) = WriteBusy (dev_no hd) (lba + k) (cnt - k) (ld_bytes m (buf + k * 512) 512) ->
  exists d1, at_irq d = Some (at_vector, d1) /\ forall d2 e n, at_view d2 = at_view d1 -> at_busy d2 = at_busy d1 -> e = false -> n = 1 ->
    given lba cnt buf m d0 mf ((k + 1) * 256) e n d2 /\ (cnt = k + 1 -> idle_with d0 mf d2).
Proof using.
  intros Hk Hbuf Hend Hw Hmk Hm Hp. destruct (write_split _ mf m lba buf cnt k Hk Hbuf Hend Hw) as (mk' & Hmk' & Hs & Hnext).
  rewrite Hmk in Hmk'. injection Hmk' as <-.
  destruct (ao_irq_write d _ _ _ _ Hp) as (d1 & I1 & V1 & B1); [by rewrite Hm, Z.eqb_refl|]. exists d1. split; [done|].
  intros d2 e n V2 B2 -> ->. assert (Hmed : forall j, a_media (at_view d2) j = if j =? dev_no hd then <[lba + k := ld_bytes m (buf + k * 512) 512]> mk else a_media (at_view d0) j).
  { intros j. rewrite V2, V1. cbn. rewrite Hm, Z.eqb_refl. destruct (j =? dev_no hd) eqn:E; [done|]. by rewrite Hm, E. }
  assert (Hlast : cnt = k + 1 -> idle_with d0 mf d2).
  { intros ->. rewrite Hnext in Hw. injection Hw as <-. split; [|exact Hmed]. rewrite V2, V1. cbn.
    by replace (k + 1 - k =? 1) with true by (symmetry; apply Z.eqb_eq; lia). }
  split; [|exact Hlast]. unfold given. destruct (Z.ltb_spec ((k + 1) * 256) (cnt * 256)) as [Hlt|Hge]; [|left; split; [done|split; [done|apply Hlast; lia]]].
  rewrite Z.div_mul, Z.mod_mul, (proj2 (Z.eqb_neq (k + 1) 0)) by lia. split; [done|]. split; [congruence|]. split; [|by exists (<[lba + k := ld_bytes m (buf + k * 512) 512]> mk)].
  rewrite V2, V1. cbn. rewrite (proj2 (Z.eqb_neq (cnt - k) 1)) by lia. f_equal; lia.
Qed.

Lemma ld_two m a n : 0 <= n -> 0 <= a -> a + n + 2 <= 2 ^ 32 ->
  ld_bytes m a n ++ [m (u32 (a + n)); m (u32 (a + n + 1))] = ld_bytes m a (n + 2).
Proof using.
  intros Hn Ha He. rewrite (ld_bytes_app m a n 2) by lia. f_equal. unfold ld_bytes. change (seqZ 0 2) with [0; 1].
  cbn [fmap list_fmap]. by rewrite Z.add_0_r.
Qed.

Lemma write_words_run lba cnt mf buf l d m (Q : unit -> ide D -> Prop) :
  a_phase (at_view d) = WriteReady (dev_no hd) lba cnt [] -> at_busy d = 0 -> 0 < cnt <= 256 -> 0 <= buf -> buf + cnt * 512 <= 2 ^ 32 ->
  write_sectors (a_media (at_view d) (dev_no hd)) lba (ld_bytes m buf (cnt * 512)) (Z.to_nat cnt) = Some mf -> cnt = 1 \/ prompt D ->
  (forall e n d', all_given d mf e n d' -> Q tt (st l e n d' m)) ->
  wp (outsw (at_base + 0) buf (cnt * 256)) Q (st l true 0 d m).
Proof.
  intros Hp Hb0 Hc Hbuf Hend Hw Hpr HQ.
  unfold outsw. apply (wp_for_range (fun i s => exists e n d', s = st l e n d' m /\ 0 <= i <= cnt * 256 /\ given lba cnt buf m d mf i e n d')).
  - intros i s Hi (e & n & d1 & -> & Hi1 & G). wp_simp. change (dev (st l e n d1 m)) with d1. change (mem (st l e n d1 m)) with m.
    assert (Hi2 : 0 <= i < cnt * 256) by lia. pose proof (word_place i cnt Hi2) as Hqw. unfold given in G. rewrite (proj2 (Z.ltb_lt i _)) in G by lia.
    destruct G as ([He Hn] & B1 & P1 & mq & Hmq & Hm). set (q := i / 256) in *. set (w := i mod 256) in *.
    set (x := m (u32 (buf + 2 * i))). set (y := m (u32 (buf + 2 * i + 1))).
    destruct (ao_outw d1 _ _ _ _ x y P1 B1) as [V2 B2]; [rewrite ld_bytes_length; lia|].
    assert (El : ld_bytes m (buf + q * 512) (2 * w) ++ [x; y] = ld_bytes m (buf + q * 512) (2 * w + 2)).
    { rewrite <- ld_two by lia. unfold x, y. by replace (buf + q * 512 + 2 * w) with (buf + 2 * i) by lia. }
    rewrite El in V2. clearbody x y. set (d2 := at_outw (at_base + 0) (x, y) d1) in *. clearbody d2.
    change (set_dev d2 (st l e n d1 m)) with (st l e n d2 m). unfold word_given in V2. rewrite ld_bytes_length in V2, B2.
    assert (Hm2 : a_media (at_view d2) = a_media (at_view d1)) by by rewrite V2.
    destruct (Nat.ltb_spec (Z.to_nat (2 * w + 2)) 512) as [Hlt|Hge].
    + apply take_none; [apply not_pending; by rewrite V2|]. exists e, n, d2. split; [done|]. split; [lia|]. unfold given.
      rewrite (proj2 (Z.ltb_lt (i + 1) _)) by lia.
      assert (Eq : (i + 1) / 256 = q /\ (i + 1) mod 256 = w + 1) by (unfold q, w in *; dlia). destruct Eq as [-> ->].
      split; [done|]. split; [apply B2; lia|]. split; [rewrite V2; cbn; do 2 f_equal; lia|]. exists mq. split; [done|]. intros j. by rewrite Hm2.
    + assert (Ew : w = 255) by lia. rewrite Ew in V2. change (2 * 255 + 2) with 512 in V2.
      destruct (sector_written lba cnt buf m d d2 mf q mq) as (d3 & I3 & H3); [lia|done|done|done|done|intros j; by rewrite Hm2|by rewrite V2|].
      assert (Ei : i + 1 = (q + 1) * 256) by lia. destruct (ao_pending d2) as [Hnp|[_ Hpd]].
      * assert (cnt = 1) as ->.
        { destruct Hpr as [|Hpr]; [done|]. rewrite Hpr, I3 in Hnp; [done|]. by rewrite V2. }
        apply take_none; [done|]. exists e, n, d2. split; [done|]. split; [lia|]. unfold given. rewrite (proj2 (Z.ltb_ge (i + 1) _)) by lia.
        assert (q = 0) as E0 by lia. rewrite E0 in He, Hn. right. split; [done|]. split; [done|]. exists d3. split; [done|].
        apply (H3 d3 false 1); [done..|lia].
      * rewrite I3 in Hpd. apply (take_some _ _ _ _ d3); [done|intros ->; destruct (q =? 0); [done|discriminate]|]. intros d4 V4 B4.
        exists false, (if e then 1 else n), d4. split; [done|]. split; [lia|]. rewrite Ei. apply H3; [done|done|done|].
        rewrite He, Hn. by destruct (q =? 0).
  - exists true, 0, d. split; [done|]. split; [lia|]. unfold given. rewrite (proj2 (Z.ltb_lt 0 _)) by lia.
    change (0 / 256) with 0. change (0 mod 256) with 0. split; [done|]. split; [done|]. split; [rewrite Hp; f_equal; lia|].
    exists (a_media (at_view d) (dev_no hd)). split; [done|]. intros j. by destruct (Z.eqb_spec j (dev_no hd)) as [->|].
  - intros s (e & n & d' & -> & Hi & G). unfold given in G. rewrite (proj2 (Z.ltb_ge _ _)) in G by lia. by apply HQ.
Qed.

Lemma secs_of_min k cnt : 0 <= k < cnt -> cnt <= max_lba + 1 -> secs_of k cnt = Z.min 256 (cnt - k).
Proof using. intros Hk Hc. unfold max_lba, secs_of in *. rewrite u32_small by lia. destruct (Z.leb_spec (k + 256) cnt); lia. Qed.

(** One command of a read, up to its data. *)
Lemma read_command_start lba buf cnt k l e d m (Q : Z + unit -> ide D -> Prop) (op := Z.min 256 (cnt - k)) :
  a_phase (at_view d) = Idle -> 0 <= k < cnt -> 0 <= lba -> lba + cnt - 1 <= max_lba -> 0 <= buf -> buf + cnt * 512 <= 2 ^ 32 ->
  is_Some (a_media (at_view d) (dev_no hd) !! (lba + k)) ->
  (forall d', a_phase (at_view d') = ReadReady (dev_no hd) (lba + k) op 0 -> a_media (at_view d') = a_media (at_view d) -> at_busy d' = 0 ->
     wp (insw (at_base + 0) (buf + k * 512) (op * 256)) (fun _ => Q (inl (k + op))) (st l false 0 d' m)) ->
  wp (read_command h lba buf cnt k) Q (st l e 0 d m).
Proof.
  intros Hp Hk Hlba Hmax Hbuf Hend Hs HQ. unfold read_command. rewrite (proj2 (Z.ltb_lt k cnt)), secs_of_min by lia. fold op.
  assert (Hop : 0 < op <= 256 /\ k + op <= cnt) by (unfold op; lia). clearbody op.
  unfold max_lba in Hmax. rewrite !u32_small by lia. wp_simp. apply select_sector_run; [done|unfold max_lba; lia|lia|].
  intros d1 P1 M1 B1 R1 L1 C1. wp_simp. apply wp_channel_of. wp_simp. apply cmd_out_run. wp_simp.
  set (d2 := at_outb _ _ d1). assert (V2 : at_view d2 = set_phase (ReadBusy (dev_no hd) (lba + k) op) (at_view d1)).
  { unfold d2. change (u8 CMD_READ_SECTOR) with CMD_READ_SECTOR. rewrite ao_read by done. by rewrite R1, L1, C1. }
  destruct (ao_irq_read d2 (dev_no hd) (lba + k) op) as (d3 & I3 & V3 & B3); [by rewrite V2|rewrite V2; cbn; by rewrite M1|].
  apply (sema_down_done_run l d2 d3); [done|]. intros d4 V4 B4. wp_simp. rewrite V3, V2 in V4.
  apply busy_wait_run; [by rewrite V4|]. intros d5 V5 B5. cbn [negb]. wp_simp. rewrite V4 in V5.
  unfold read_from_sector. wp_simp. apply wp_ld_disk. wp_simp. rewrite (ad_my Hat). apply wp_ld_channel. wp_simp.
  unfold reg_data. cbn [chan port_base]. rewrite (ad_port Hat), size_half by lia.
  eapply wp_mono; [apply (HQ d5); [by rewrite V5|by rewrite V5|done]|]. intros u s' HQ'. by wp_simp.
Qed.

Lemma read_command_run lba buf cnt k data l e d m (Q : Z + unit -> ide D -> Prop) (op := Z.min 256 (cnt - k)) :
  a_phase (at_view d) = Idle -> disk_wf (a_media (at_view d) (dev_no hd)) -> 0 <= k < cnt -> 0 <= lba -> lba + cnt - 1 <= max_lba ->
  0 <= buf -> buf + cnt * 512 <= 2 ^ 32 -> cnt = 1 \/ prompt D ->
  read_sectors (a_media (at_view d) (dev_no hd)) (lba + k) (Z.to_nat op) = Some data ->
  (forall d' m', a_phase (at_view d') = Idle -> a_media (at_view d') = a_media (at_view d) ->
     (forall x, m' x = st_bytes m (buf + k * 512) data x) -> Q (inl (k + op)) (st l false 0 d' m')) ->
  wp (read_command h lba buf cnt k) Q (st l e 0 d m).
Proof.
  intros Hp Hwf Hk Hlba Hmax Hbuf Hend Hpr Hr HQ.
  assert (Hs : is_Some (a_media (at_view d) (dev_no hd) !! (lba + k))).
  { replace (Z.to_nat op) with (S (Z.to_nat (op - 1))) in Hr by (unfold op; lia). cbn [read_sectors] in Hr.
    destruct (a_media (at_view d) (dev_no hd) !! (lba + k)); [by eexists|done]. }
  apply read_command_start; [done..|]. intros d1 P1 M1 B1. fold op in P1 |- *.
  eapply (read_words_run (lba + k) op data); [done|done|unfold op; lia|by rewrite M1|by rewrite M1|unfold op; destruct Hpr; [left; lia|by right]|].
  intros d2 m2 P2 M2 E2. apply HQ; [done|congruence|done].
Qed.

(** One command of a write. *)
Lemma write_command_run lba buf cnt k mf l e d m (Q : Z + unit -> ide D -> Prop) (op := Z.min 256 (cnt - k)) :
  a_phase (at_view d) = Idle -> 0 <= k < cnt -> 0 <= lba -> lba + cnt - 1 <= max_lba -> 0 <= buf -> buf + cnt * 512 <= 2 ^ 32 ->
  cnt = 1 \/ prompt D ->
  write_sectors (a_media (at_view d) (dev_no hd)) (lba + k) (ld_bytes m (buf + k * 512) (op * 512)) (Z.to_nat op) = Some mf ->
  (forall d', idle_with d mf d' -> Q (inl (k + op)) (st l false 0 d' m)) ->
  wp (write_command h lba buf cnt k) Q (st l e 0 d m).
Proof.
  intros Hp Hk Hlba Hmax Hbuf Hend Hpr Hw HQ. unfold write_command. rewrite (proj2 (Z.ltb_lt k cnt)), secs_of_min by lia. fold op.
  assert (Hop : 0 < op <= 256 /\ k + op <= cnt /\ (cnt = 1 -> op = 1)) by (unfold op; lia). clearbody op.
  unfold max_lba in Hmax. rewrite !u32_small by lia. wp_simp. apply select_sector_run; [done|unfold max_lba; lia|lia|].
  intros d1 P1 M1 B1 R1 L1 C1. wp_simp. apply wp_channel_of. wp_simp. apply cmd_out_run. wp_simp.
  set (d2 := at_outb _ _ d1). assert (V2 : at_view d2 = set_phase (WriteReady (dev_no hd) (lba + k) op []) (at_view d1)).
  { unfold d2. change (u8 CMD_WRITE_SECTOR) with CMD_WRITE_SECTOR. rewrite ao_write by done. by rewrite R1, L1, C1. }
  apply busy_wait_run; [by rewrite V2|]. intros d3 V3 B3. cbn [negb]. wp_simp. rewrite V2 in V3.
  unfold write2sector. wp_simp. apply wp_ld_disk. wp_simp. rewrite (ad_my Hat). apply wp_ld_channel. wp_simp.
  unfold reg_data. cbn [chan port_base]. rewrite (ad_port Hat), size_half by lia.
  assert (M3 : a_media (at_view d3) = a_media (at_view d)) by (rewrite V3; exact M1).
  eapply (write_words_run (lba + k) op mf); [by rewrite V3|done|lia|lia|lia|by rewrite M3|destruct Hpr; [left; tauto|by right]|].
  assert (Hi : forall d', idle_with d3 mf d' -> idle_with d mf d') by (intros d' [? Hj]; split; [done|intros j; by rewrite Hj, M3]).
  intros e' n d4 [(-> & -> & H4)|(-> & -> & d5 & I5 & H5)].
  - rewrite wp_bind. apply sema_down_ready. wp_simp. by apply HQ, Hi.
  - rewrite wp_bind. apply (sema_down_done_run l d4 d5); [done|]. intros d6 V6 B6. wp_simp. apply HQ, Hi. destruct H5 as [H5 H6].
    split; [by rewrite V6|]. intros j. by rewrite V6.
Qed.

(** The start of the first call. *)
Lemma st_start : disk_done c = 0 -> s0 = st (ch_locks c) (expecting_intr c) 0 (dev s0) (mem s0).
Proof.
  intros Hd. unfold st. assert (E : chan (ch_locks c) (expecting_intr c) 0 c = c) by (rewrite <- Hd; by destruct c).
  rewrite E, list_insert_id by apply Hat. by destruct s0.
Qed.

Lemma wp_start {A} (k : M (ide D) A) (Q : A -> ide D -> Prop) : disk_done c = 0 ->
  wp k Q (st (ch_locks c) (expecting_intr c) 0 (dev s0) (mem s0)) -> wp k Q s0.
Proof. intros Hd. by rewrite <- (st_start Hd). Qed.

Lemma acquire_run l e n d m (Q : unit -> ide D -> Prop) :
  Q tt (st (l + 1) e n d m) -> wp (channel_acquire (dr_channel h)) Q (st l e n d m).
Proof. intros HQ. unfold channel_acquire. wp_simp. apply wp_ld_channel. wp_simp. by apply (wp_st_channel l e n). Qed.

Lemma release_run l e n d m (Q : unit -> ide D -> Prop) : 0 < l ->
  Q tt (st (l - 1) e n d m) -> wp (channel_release (dr_channel h)) Q (st l e n d m).
Proof.
  intros Hl HQ. unfold channel_release. wp_simp. apply wp_ld_channel. wp_simp. apply wp_ASSERT.
  split; [by apply Z.ltb_lt|]. wp_simp. by apply (wp_st_channel l e n).
Qed.

(** The loop of ide_read. *)
Lemma read_loop lba buf cnt data l e d m (Q : unit -> ide D -> Prop) :
  a_phase (at_view d) = Idle -> disk_wf (a_media (at_view d) (dev_no hd)) ->
  0 < cnt -> 0 <= lba -> lba + cnt - 1 <= max_lba -> 0 <= buf -> buf + cnt * 512 <= 2 ^ 32 ->
  read_sectors (a_media (at_view d) (dev_no hd)) lba (Z.to_nat cnt) = Some data -> cnt = 1 \/ prompt D ->
  (forall e' d' m', a_phase (at_view d') = Idle -> a_media (at_view d') = a_media (at_view d) ->
     (forall x, m' x = st_bytes m buf data x) -> Q tt (st l e' 0 d' m')) ->
  wp (loop (S (Z.to_nat cnt)) (read_command h lba buf cnt) 0) Q (st l e 0 d m).
Proof.
  intros Hp Hwf Hcnt Hlba Hmax Hbuf Hend Hr Hpr HQ. pose proof (read_sectors_length _ _ _ _ Hwf Hr) as Hlen.
  apply (wp_loop (fun k s => exists e' d' m', s = st l e' 0 d' m' /\ 0 <= k <= cnt /\ a_phase (at_view d') = Idle /\
      a_media (at_view d') = a_media (at_view d) /\ (forall x, m' x = st_bytes m buf (take (Z.to_nat (k * 512)) data) x))
    (fun k _ => Z.to_nat (cnt - k))).
  - intros k s (e' & d' & m' & -> & Hk & Hp' & Hm' & Hx). destruct (decide (k = cnt)) as [->|Hne].
    + unfold read_command. rewrite Z.ltb_irrefl. wp_simp. apply HQ; [done|done|]. intros x. rewrite Hx. by rewrite take_ge by lia.
    + set (op := Z.min 256 (cnt - k)).
      pose proof (read_sectors_slice _ _ _ _ (Z.to_nat k) (Z.to_nat op) Hwf Hr ltac:(unfold op; lia)) as Hs.
      rewrite Z2Nat.id in Hs by lia.
      eapply (read_command_run lba buf cnt k); [done|by rewrite Hm'|lia|done|done|done|done|done|rewrite Hm'; exact Hs|].
      intros d2 m2 P2 M2 E2. fold op. split; [|unfold op; lia]. exists false, d2, m2. split; [done|]. split; [unfold op; lia|].
      split; [done|]. split; [congruence|]. intros x. rewrite E2.
      replace (Z.to_nat ((k + op) * 512)) with (512 * Z.to_nat k + 512 * Z.to_nat op)%nat by (unfold op; lia).
      rewrite <- take_take_drop. rewrite st_bytes_app, length_take.
      replace (Nat.min (512 * Z.to_nat k) (length data)) with (512 * Z.to_nat k)%nat by lia.
      replace (buf + Z.of_nat (512 * Z.to_nat k)) with (buf + k * 512) by lia. apply st_bytes_ext.
      intros y. rewrite Hx. by replace (Z.to_nat (k * 512)) with (512 * Z.to_nat k)%nat by lia.
  - exists e, d, m. split; [done|]. split; [lia|]. split; [done|]. split; [done|]. intros x. by rewrite st_bytes_nil.
  - lia.
Qed.

(** The loop of ide_write. *)
Lemma write_loop lba buf cnt media l e d m (Q : unit -> ide D -> Prop) :
  a_phase (at_view d) = Idle -> 0 < cnt -> 0 <= lba -> lba + cnt - 1 <= max_lba -> 0 <= buf -> buf + cnt * 512 <= 2 ^ 32 ->
  write_sectors (a_media (at_view d) (dev_no hd)) lba (ld_bytes m buf (cnt * 512)) (Z.to_nat cnt) = Some media ->
  cnt = 1 \/ prompt D -> (forall e' d', idle_with d media d' -> Q tt (st l e' 0 d' m)) ->
  wp (loop (S (Z.to_nat cnt)) (write_command h lba buf cnt) 0) Q (st l e 0 d m).
Proof.
  intros Hp Hcnt Hlba Hmax Hbuf Hend Hw Hpr HQ.
  assert (Hcut : forall k, 0 <= k <= cnt -> exists mk,
    write_sectors (a_media (at_view d) (dev_no hd)) lba (ld_bytes m buf (k * 512)) (Z.to_nat k) = Some mk /\
    write_sectors mk (lba + k) (ld_bytes m (buf + k * 512) ((cnt - k) * 512)) (Z.to_nat (cnt - k)) = Some media).
  { intros k Hk. replace (cnt * 512) with (k * 512 + (cnt - k) * 512) in Hw by lia. rewrite ld_bytes_app in Hw by lia.
    replace (Z.to_nat cnt) with (Z.to_nat k + Z.to_nat (cnt - k))%nat in Hw by lia.
    rewrite write_sectors_app in Hw by (rewrite ld_bytes_length; lia). rewrite Z2Nat.id in Hw by lia.
    destruct (write_sectors _ lba _ (Z.to_nat k)) as [mk|]; [by exists mk|done]. }
  apply (wp_loop (fun k s => exists e' d', s = st l e' 0 d' m /\ 0 <= k <= cnt /\ a_phase (at_view d') = Idle /\
      exists mk, write_sectors (a_media (at_view d) (dev_no hd)) lba (ld_bytes m buf (k * 512)) (Z.to_nat k) = Some mk /\
        forall j, a_media (at_view d') j = if j =? dev_no hd then mk else a_media (at_view d) j)
    (fun k _ => Z.to_nat (cnt - k))).
  - intros k s (e' & d' & -> & Hk & Hp' & mk & Hmk & Hj). destruct (decide (k = cnt)) as [->|Hne].
    + unfold write_command. rewrite Z.ltb_irrefl. wp_simp. apply HQ. rewrite Hw in Hmk. injection Hmk as ->. by split.
    + set (op := Z.min 256 (cnt - k)). destruct (Hcut (k + op)) as (mk' & Hmk' & _); [unfold op; lia|].
      assert (Hstep : write_sectors mk (lba + k) (ld_bytes m (buf + k * 512) (op * 512)) (Z.to_nat op) = Some mk').
      { replace ((k + op) * 512) with (k * 512 + op * 512) in Hmk' by lia. rewrite ld_bytes_app in Hmk' by (unfold op; lia).
        replace (Z.to_nat (k + op)) with (Z.to_nat k + Z.to_nat op)%nat in Hmk' by (unfold op; lia).
        rewrite write_sectors_app, Hmk, Z2Nat.id in Hmk' by (rewrite ?ld_bytes_length; lia). exact Hmk'. }
      eapply (write_command_run lba buf cnt k mk'); [done|lia|done|done|done|done|done|rewrite Hj, Z.eqb_refl; exact Hstep|].
      intros d2 [P2 M2]. fold op. split; [|unfold op; lia]. exists false, d2. split; [done|]. split; [unfold op; lia|].
      split; [done|]. exists mk'. split; [done|]. intros j. rewrite M2. destruct (j =? dev_no hd) eqn:E; [done|]. by rewrite Hj, E.
  - exists e, d. split; [done|]. split; [lia|]. split; [done|]. exists (a_media (at_view d) (dev_no hd)). split; [done|].
    intros j. by destruct (Z.eqb_spec j (dev_no hd)) as [->|].
  - lia.
Qed.
(** [C11] ide_read, through the registers, the interrupts and the data port,
    puts the sectors of the disk into memory at the buffer, as the file system
    assumes, and leaves the device idle. This holds of one sector on every
    device that follows the standard, and of any number on one that is [prompt];
    of others see [ide_read_slow_junk]. *)
Theorem ide_read_refines lba buf cnt data :
  disk_done c = 0 -> 0 <= ch_locks c -> a_phase (at_view (dev s0)) = Idle ->
  disk_wf (a_media (at_view (dev s0)) (dev_no hd)) ->
  0 < cnt -> 0 <= lba -> lba + cnt - 1 <= max_lba -> 0 <= buf -> buf + cnt * 512 <= 2 ^ 32 ->
  read_sectors (a_media (at_view (dev s0)) (dev_no hd)) lba (Z.to_nat cnt) = Some data -> cnt = 1 \/ prompt D ->
  wp (ide_read h lba buf cnt) (fun _ s' => exists e d m, s' = st (ch_locks c) e 0 d m /\
    a_phase (at_view d) = Idle /\ a_media (at_view d) = a_media (at_view (dev s0)) /\
    forall x, m x = st_bytes (mem s0) buf data x) s0.
Proof.
  intros Hdone Hlk Hp Hwf Hcnt Hlba Hmax Hbuf Hend Hr Hpr. apply (wp_start _ _ Hdone). unfold ide_read. wp_simp.
  apply wp_ASSERT. split; [apply Z.leb_le; lia|]. wp_simp. apply wp_ASSERT. split; [by apply Z.ltb_lt|]. wp_simp.
  apply wp_channel_of. wp_simp. apply acquire_run. wp_simp. apply select_disk_run; [done|]. intros d1 P1 M1. wp_simp.
  apply (read_loop lba buf cnt data); try done; [by rewrite M1|by rewrite M1|]. intros e d2 m P2 M2 Hm. wp_simp.
  apply release_run; [lia|]. exists e, d2, m. replace (ch_locks c + 1 - 1) with (ch_locks c) by lia.
  split; [done|]. split; [done|]. split; [congruence|done].
Qed.

(** [C12] ide_write leaves on the disk what writing the buffer sector by sector
    would, changes nothing else, and leaves the device idle: of one sector on
    every device that follows the standard, and of any number on one that is
    [prompt]. *)
Theorem ide_write_refines lba buf cnt media :
  disk_done c = 0 -> 0 <= ch_locks c -> a_phase (at_view (dev s0)) = Idle ->
  0 < cnt -> 0 <= lba -> lba + cnt - 1 <= max_lba -> 0 <= buf -> buf + cnt * 512 <= 2 ^ 32 ->
  write_sectors (a_media (at_view (dev s0)) (dev_no hd)) lba (ld_bytes (mem s0) buf (cnt * 512)) (Z.to_nat cnt) = Some media ->
  cnt = 1 \/ prompt D ->
  wp (ide_write h lba buf cnt) (fun _ s' => exists e d, s' = st (ch_locks c) e 0 d (mem s0) /\
    a_phase (at_view d) = Idle /\
    forall j, a_media (at_view d) j = if j =? dev_no hd then media else a_media (at_view (dev s0)) j) s0.
Proof.
  intros Hdone Hlk Hp Hcnt Hlba Hmax Hbuf Hend Hw Hpr. apply (wp_start _ _ Hdone). unfold ide_write. wp_simp.
  apply wp_ASSERT. split; [apply Z.leb_le; lia|]. wp_simp. apply wp_ASSERT. split; [by apply Z.ltb_lt|]. wp_simp.
  apply wp_channel_of. wp_simp. apply acquire_run. wp_simp. apply select_disk_run; [done|]. intros d1 P1 M1. wp_simp.
  apply (write_loop lba buf cnt media); try done; [by rewrite M1|]. intros e d2 [P2 M2]. wp_simp.
  apply release_run; [lia|]. exists e, d2. replace (ch_locks c + 1 - 1) with (ch_locks c) by lia.
  split; [done|]. split; [done|]. intros j. by rewrite M2, M1.
Qed.

(** A device that takes longer for the next sector than the driver for the
    words: while it is busy no interrupt comes, and the data port reads as bytes
    [v]. *)
Definition slow (v : Z) : Prop := forall (d : D) drv lba n, a_phase (at_view d) = ReadBusy drv lba n ->
  at_pending d = None /\ exists d', at_inw (at_base + 0) d = ((v, v), d') /\ at_view d' = at_view d.

Lemma slow_words_run lba cnt sec v buf l d m (Q : unit -> ide D -> Prop) :
  slow v -> a_phase (at_view d) = ReadReady (dev_no hd) lba cnt 0 -> at_busy d = 0 -> 2 <= cnt <= 256 ->
  a_media (at_view d) (dev_no hd) !! lba = Some sec -> length sec = 512%nat ->
  (forall d' m', a_phase (at_view d') = ReadBusy (dev_no hd) (lba + 1) (cnt - 1) ->
     (forall x, m' x = st_bytes m buf (sec ++ replicate (Z.to_nat ((cnt - 1) * 512)) v) x) -> Q tt (st l false 0 d' m')) ->
  wp (insw (at_base + 0) buf (cnt * 256)) Q (st l false 0 d m).
Proof using.
  intros Hslow Hp Hb0 Hc Hsec Hl HQ. set (all := sec ++ replicate (Z.to_nat ((cnt - 1) * 512)) v) in *.
  assert (Hlen : length all = (2 * Z.to_nat (cnt * 256))%nat) by (unfold all; rewrite length_app, length_replicate; lia).
  unfold insw. apply (wp_for_range (fun i s => exists d' m', s = st l false 0 d' m' /\ 0 <= i <= cnt * 256 /\
    a_phase (at_view d') = (if i <? 256 then ReadReady (dev_no hd) lba cnt i else ReadBusy (dev_no hd) (lba + 1) (cnt - 1)) /\
    a_media (at_view d') = a_media (at_view d) /\ (i < 256 -> at_busy d' = 0) /\ forall x, m' x = st_bytes m buf (take (2 * Z.to_nat i) all) x)).
  - intros i s Hi (d1 & m1 & -> & Hi1 & P1 & M1 & B1 & E1). wp_simp. change (dev (st l false 0 d1 m1)) with d1.
    assert (Hstep : exists d2 x y, at_inw (at_base + 0) d1 = ((x, y), d2) /\ [x; y] = take 2 (drop (2 * Z.to_nat i) all) /\
      a_phase (at_view d2) = (if i + 1 <? 256 then ReadReady (dev_no hd) lba cnt (i + 1) else ReadBusy (dev_no hd) (lba + 1) (cnt - 1)) /\
      a_media (at_view d2) = a_media (at_view d1) /\ (i + 1 < 256 -> at_busy d2 = 0)).
    { destruct (Z.ltb_spec i 256) as [Hlt|Hge].
      - destruct (ao_inw d1 _ _ _ i sec P1) as (d2 & E2 & V2 & B2); [by apply B1|lia|by rewrite M1|done|].
        eexists d2, _, _. split; [exact E2|]. split; [|rewrite V2; split; [|split; [done|intros; apply B2; lia]]].
        + pose proof (word_at sec 0 (Z.to_nat i)) as Hw. change (512 * 0)%nat with 0%nat in Hw. rewrite drop_0, take_ge in Hw by lia. cbn [plus] in Hw.
          replace (Z.to_nat (2 * i)) with (2 * Z.to_nat i)%nat by lia. replace (Z.to_nat (2 * i + 1)) with (2 * Z.to_nat i + 1)%nat by lia.
          rewrite Hw by lia. unfold all. rewrite drop_app_le, take_app_le by (rewrite ?length_drop; lia). done.
        + cbn. unfold word_taken. rewrite (proj2 (Z.eqb_neq cnt 1)) by lia. destruct (Z.ltb_spec i 255), (Z.ltb_spec (i + 1) 256); done || lia.
      - destruct (Hslow d1 _ _ _ P1) as (_ & d2 & E2 & V2). exists d2, v, v. split; [exact E2|]. rewrite V2, (proj2 (Z.ltb_ge (i + 1) _)) by lia.
        split; [|split; [done|split; [done|lia]]]. unfold all. rewrite drop_app_ge by lia. rewrite drop_replicate, take_replicate.
        replace (Nat.min 2 _) with 2%nat by lia. done. }
    destruct Hstep as (d2 & x & y & -> & Exy & P2 & M2 & B2). wp_simp. rewrite Exy.
    set (m2 := st_bytes (mem (st l false 0 d1 m1)) _ _).
    assert (Em : forall x, m2 x = st_bytes m buf (take (2 * Z.to_nat (i + 1)) all) x).
    { intros z. replace (2 * Z.to_nat (i + 1))%nat with (2 * Z.to_nat i + 2)%nat by lia. rewrite <- take_take_drop, st_bytes_app, length_take.
      replace (buf + Z.of_nat (Nat.min (2 * Z.to_nat i) (length all))) with (buf + 2 * i) by lia. unfold m2. by apply st_bytes_ext. }
    clearbody m2. change (set_mem m2 (set_dev d2 (st l false 0 d1 m1))) with (st l false 0 d2 m2). apply take_none.
    + destruct (Z.ltb_spec (i + 1) 256); [by apply not_pending; rewrite P2|by eapply Hslow].
    + exists d2, m2. split; [done|]. split; [lia|]. split; [done|]. split; [congruence|done].
  - exists d, m. split; [done|]. split; [lia|]. split; [done|]. split; [done|]. split; [done|]. intros x. by rewrite st_bytes_nil.
  - intros s (d' & m' & -> & Hi & P' & M' & _ & E'). rewrite (proj2 (Z.ltb_ge _ _)) in P' by lia. apply HQ; [done|].
    intros x. rewrite E'. by rewrite take_ge by lia.
Qed.

(** A slow device shows the wait that ide_read does not make: of several
    sectors only the first arrives. In the place of the others is what the data
    port shows while the device is busy, and ide_read returns all the same, with
    the device in the middle of the command. *)
Theorem ide_read_slow_junk lba buf cnt sec v :
  slow v -> disk_done c = 0 -> 0 <= ch_locks c -> a_phase (at_view (dev s0)) = Idle ->
  2 <= cnt <= 256 -> 0 <= lba -> lba + cnt - 1 <= max_lba -> 0 <= buf -> buf + cnt * 512 <= 2 ^ 32 ->
  a_media (at_view (dev s0)) (dev_no hd) !! lba = Some sec -> length sec = 512%nat ->
  wp (ide_read h lba buf cnt) (fun _ s' => exists e d m, s' = st (ch_locks c) e 0 d m /\
    a_phase (at_view d) = ReadBusy (dev_no hd) (lba + 1) (cnt - 1) /\
    forall x, m x = st_bytes (mem s0) buf (sec ++ replicate (Z.to_nat ((cnt - 1) * 512)) v) x) s0.
Proof.
  intros Hslow Hdone Hlk Hp Hcnt Hlba Hmax Hbuf Hend Hsec Hl. apply (wp_start _ _ Hdone). unfold ide_read. wp_simp.
  apply wp_ASSERT. split; [apply Z.leb_le; lia|]. wp_simp. apply wp_ASSERT. split; [apply Z.ltb_lt; lia|]. wp_simp.
  apply wp_channel_of. wp_simp. apply acquire_run. wp_simp. apply select_disk_run; [done|]. intros d1 P1 M1. wp_simp.
  rewrite loop_S, wp_bind. apply read_command_start; [done|lia|lia|lia|lia|lia|rewrite M1, Z.add_0_r, Hsec; by eexists|].
  intros d2 P2 M2 B2. rewrite Z.sub_0_r, Z.min_r in * by lia. rewrite (Z.add_0_r lba) in P2. replace (buf + 0 * 512) with buf by lia.
  eapply (slow_words_run lba cnt sec v); [done|done|done|lia|by rewrite M2, M1|done|]. intros d3 m3 P3 E3. cbn beta iota.
  replace (Z.to_nat cnt) with (S (Z.to_nat (cnt - 1))) by lia. rewrite loop_S, wp_bind. unfold read_command at 1.
  replace (0 + cnt) with cnt by lia. rewrite Z.ltb_irrefl. wp_simp.
  apply release_run; [lia|]. exists false, d3, m3. replace (ch_locks c + 1 - 1) with (ch_locks c) by lia. done.
Qed.
End driver.

(** ** Devices that answer as the standard says *)

(** The state of the registers and media, and for how many waits the status
    will still show busy. One kind of device is [prompt], the other is slow: an
    interrupt of its only comes when it is waited for. *)
Record sim (fast : bool) := Sim { sim_ata : ata; sim_wait : nat }.
Arguments Sim {fast}.
Arguments sim_ata {fast}.
Arguments sim_wait {fast}.

Definition sim_port (port : Z) : Z := port - 0x1f0.

(** The device goes to the phase [p]. *)
Definition sim_to {fast} (p : ata_phase) (a : ata) : sim fast := Sim (set_phase p a) (if busy p then 3 else 0).

Definition sim_outb {fast} (port v : Z) (d : sim fast) : sim fast :=
  let a := sim_ata d in
  match a_phase a with
  | Idle =>
      if sim_port port =? 7 then
        if v =? CMD_READ_SECTOR then Sim (set_phase (ReadBusy (reg_drive a) (reg_lba a) (reg_count a)) a) 3
        else if v =? CMD_WRITE_SECTOR then Sim (set_phase (WriteReady (reg_drive a) (reg_lba a) (reg_count a) []) a) 3
        else d
      else Sim (set_reg (sim_port port) v a) (sim_wait d)
  | _ => d
  end.
Definition sim_inb {fast} (port : Z) (d : sim fast) : Z * sim fast := (if (0 <? sim_wait d)%nat then 0x80 else 0x48, d).
Definition sim_inw {fast} (port : Z) (d : sim fast) : (Z * Z) * sim fast :=
  match a_phase (sim_ata d) with
  | ReadReady drv lba n w =>
      let b := default [] (a_media (sim_ata d) drv !! lba) in
      ((nth (Z.to_nat (2 * w)) b 0, nth (Z.to_nat (2 * w + 1)) b 0), sim_to (word_taken drv lba n w) (sim_ata d))
  | _ => ((0xff, 0xff), d)
  end.
Definition sim_outw {fast} (port : Z) (v : Z * Z) (d : sim fast) : sim fast :=
  match a_phase (sim_ata d) with
  | WriteReady drv lba n l => sim_to (word_given drv lba n (l ++ [v.1; v.2])) (sim_ata d)
  | _ => d
  end.
Definition sim_irq {fast} (d : sim fast) : option (Z * sim fast) :=
  match a_phase (sim_ata d) with
  | ReadBusy drv lba n => Some (0x2e, sim_to (ReadReady drv lba n 0) (sim_ata d))
  | WriteBusy drv lba n l =>
      Some (0x2e, sim_to (if n =? 1 then Idle else WriteReady drv (lba + 1) (n - 1) [])
                    (set_media drv (<[lba := l]> (a_media (sim_ata d) drv)) (sim_ata d)))
  | _ => None
  end.

#[export] Instance sim_dev fast : AtaDev (sim fast) := {
  at_outb := sim_outb;
  at_inb := sim_inb;
  at_inw := sim_inw;
  at_outw := sim_outw;
  at_irq := sim_irq;
  at_pending d := if fast then sim_irq d else None;
  at_sleep ms d := Sim (sim_ata d) (pred (sim_wait d `min` 3))
}.

#[export, refine] Instance sim_dev_ok fast : AtaDevOk (sim fast) := {
  at_base := 0x1f0;
  at_vector := 0x2e;
  at_view := sim_ata;
  at_busy d := Z.of_nat (sim_wait d `min` 3)
}.
Proof.
  - intros d k v Hp Hk. cbn [at_outb sim_dev]. unfold sim_outb, sim_port. rewrite Hp.
    replace (0x1f0 + k - 0x1f0) with k by lia. by rewrite (proj2 (Z.eqb_neq k 7)) by lia.
  - intros d Hp _. cbn [at_outb sim_dev]. unfold sim_outb. by rewrite Hp.
  - intros d Hp _. cbn [at_outb sim_dev]. unfold sim_outb. by rewrite Hp.
  - intros d drv lba n Hp _. cbn [at_irq sim_dev]. unfold sim_irq. rewrite Hp. by eexists.
  - intros d drv lba n l Hp _. cbn [at_irq sim_dev]. unfold sim_irq. rewrite Hp. eexists. split; [done|]. split; [done|]. cbn. by destruct (n =? 1).
  - intros d. cbn [at_irq at_pending sim_dev]. destruct fast; [|by left]. unfold sim_irq. destruct (a_phase (sim_ata d)); (by left) || by right.
  - intros d. cbn [at_inb sim_dev]. eexists _, d. split; [reflexivity|]. split; [done|]. split; [done|].
    destruct (Nat.ltb_spec 0 (sim_wait d)) as [Hw|Hw].
    + rewrite (proj2 (Z.ltb_lt 0 _)) by lia. split; [done|]. by destruct (a_phase (sim_ata d)).
    + rewrite (proj2 (Z.ltb_ge 0 _)) by lia. split; [done|]. by destruct (a_phase (sim_ata d)).
  - intros d. cbn [at_sleep sim_dev sim_ata sim_wait]. split; [done|]. lia.
  - intros d. lia.
  - intros d drv lba n w b Hp _ Hw Hb Hl. cbn [at_inw sim_dev]. unfold sim_inw. rewrite Hp, Hb. eexists. split; [done|]. split; [done|].
    intros Hlt. unfold word_taken. by rewrite (proj2 (Z.ltb_lt w 255)) by lia.
  - intros d drv lba n l x y Hp _ Hl. cbn [at_outw sim_dev]. unfold sim_outw. rewrite Hp. split; [done|].
    intros Hlt. unfold word_given. rewrite (proj2 (Nat.ltb_lt _ 512)) by (rewrite length_app; cbn; lia). done.
Defined.

Lemma sim_prompt : prompt (sim true).
Proof. done. Qed.

Lemma sim_slow : slow (D := sim false) 0xff.
Proof. intros d drv lba n Hp. split; [done|]. exists d. cbn [at_inw sim_dev]. unfold sim_inw. cbn in Hp. by rewrite Hp. Qed.

(** Three sectors of the second drive of the first channel. *)
Definition demo_media : gmap Z (list Z) := <[7 := replicate 512 7]> (<[8 := replicate 512 8]> (<[9 := replicate 512 9]> ∅)).
Definition demo_hd : ide_disk := IdeDisk (sd_name 0 1) 0 1 [] [].
Definition demo_chan : ide_channel := Channel (ide0_name 0) 0x1f0 0x2e 0 false 0 [IdeDisk (sd_name 0 0) 0 0 [] []; demo_hd].
Definition demo_ide (fast : bool) : ide (sim fast) :=
  Ide 1 [demo_chan] 0 0 0 [] (Sim (Ata (fun _ => 0) Idle (fun drv => if drv =? 1 then demo_media else ∅)) 0)
    (fun _ => 5) [] (Cpu 0x202 [] []).

Lemma demo_attached fast : attached (demo_ide fast) (DiskRef 0 1) demo_chan demo_hd.
Proof. split; try done; [by right|by left]. Qed.

Lemma demo_media_wf : disk_wf demo_media.
Proof. repeat apply map_Forall_insert_2; try reflexivity. apply map_Forall_empty. Qed.

(** Two sectors of a prompt device, and one of a slow one. *)
Lemma ide_read_refines_witness :
  wp (ide_read (DiskRef 0 1) 8 0x9000 2) (fun _ s' => exists e d m, s' = st (demo_ide true) (DiskRef 0 1) demo_chan 0 e 0 d m /\
    a_phase (at_view d) = Idle /\ a_media (at_view d) = a_media (at_view (dev (demo_ide true))) /\
    forall x, m x = st_bytes (mem (demo_ide true)) 0x9000 (replicate 512 8 ++ replicate 512 9) x) (demo_ide true) /\
  wp (ide_read (DiskRef 0 1) 8 0x9000 1) (fun _ s' => exists e d m, s' = st (demo_ide false) (DiskRef 0 1) demo_chan 0 e 0 d m /\
    a_phase (at_view d) = Idle /\ a_media (at_view d) = a_media (at_view (dev (demo_ide false))) /\
    forall x, m x = st_bytes (mem (demo_ide false)) 0x9000 (replicate 512 8) x) (demo_ide false).
Proof.
  split.
  - apply (ide_read_refines (demo_ide true) (DiskRef 0 1) demo_chan demo_hd (demo_attached true)); try done; [exact demo_media_wf|right; exact sim_prompt].
  - apply (ide_read_refines (demo_ide false) (DiskRef 0 1) demo_chan demo_hd (demo_attached false)); try done; [exact demo_media_wf|by left].
Defined.

Lemma ide_write_refines_witness :
  wp (ide_write (DiskRef 0 1) 8 0x9000 2) (fun _ s' => exists e d, s' = st (demo_ide true) (DiskRef 0 1) demo_chan 0 e 0 d (mem (demo_ide true)) /\
    a_phase (at_view d) = Idle /\
    forall j, a_media (at_view d) j = if j =? 1 then <[9 := replicate 512 5]> (<[8 := replicate 512 5]> demo_media) else a_media (at_view (dev (demo_ide true))) j) (demo_ide true) /\
  wp (ide_write (DiskRef 0 1) 8 0x9000 1) (fun _ s' => exists e d, s' = st (demo_ide false) (DiskRef 0 1) demo_chan 0 e 0 d (mem (demo_ide false)) /\
    a_phase (at_view d) = Idle /\
    forall j, a_media (at_view d) j = if j =? 1 then <[8 := replicate 512 5]> demo_media else a_media (at_view (dev (demo_ide false))) j) (demo_ide false).
Proof.
  split.
  - apply (ide_write_refines (demo_ide true) (DiskRef 0 1) demo_chan demo_hd (demo_attached true)); try done. right. exact sim_prompt.
  - apply (ide_write_refines (demo_ide false) (DiskRef 0 1) demo_chan demo_hd (demo_attached false)); try done. by left.
Defined.

(** The second sector of two is 512 times 0xff. *)
Lemma ide_read_slow_junk_witness :
  wp (ide_read (DiskRef 0 1) 8 0x9000 2) (fun _ s' => exists e d m, s' = st (demo_ide false) (DiskRef 0 1) demo_chan 0 e 0 d m /\
    a_phase (at_view d) = ReadBusy 1 9 1 /\
    forall x, m x = st_bytes (mem (demo_ide false)) 0x9000 (replicate 512 8 ++ replicate 512 0xff) x) (demo_ide false).
Proof.
  apply (ide_read_slow_junk (demo_ide false) (DiskRef 0 1) demo_chan demo_hd (demo_attached false) 8 0x9000 2 (replicate 512 8) 0xff sim_slow); try done.
Defined.
