(* ===== verification/Tss.v ===== *)
(** * The task state segment and the descriptors of the GDT (userprog/tss.c)

    The state is the TSS, at the address [tss_at], the slots of the GDT from
    0xc0000900 on, and what lgdt and ltr last loaded. [gdt_base], [gdt_limit],
    [gdt_dpl] and so on take a descriptor apart the way the processor does. *)

From Stdlib Require Import ZArith Lia.
From stdpp Require Import base numbers list gmap option.
From S2P Require Import Prelude Intr Paging.

Local Open Scope Z_scope.

(** ** Constants (kernel/global.h) *)

Definition DESC_G_4K : Z := 1.
Definition DESC_D_32K : Z := 1.
Definition DESC_L : Z := 0.
Definition DESC_AVL : Z := 0.
Definition DESC_P : Z := 1.
Definition DESC_DPL_0 : Z := 0.
Definition DESC_DPL_3 : Z := 3.
Definition DESC_S_CODE : Z := 1.
Definition DESC_S_DATA : Z := DESC_S_CODE.
Definition DESC_S_SYS : Z := 0.
Definition DESC_TYPE_CODE : Z := 8.
Definition DESC_TYPE_DATA : Z := 2.
Definition DESC_TYPE_TSS : Z := 9.
Definition TSS_DESC_D : Z := 0.
Definition GDT_ATTR_HIGH : Z :=
  Z.shiftl DESC_G_4K 7 + Z.shiftl DESC_D_32K 6 + Z.shiftl DESC_L 5 + Z.shiftl DESC_AVL 4.
Definition GDT_CODE_ATTR_LOW_DPL3 : Z :=
  Z.shiftl DESC_P 7 + Z.shiftl DESC_DPL_3 5 + Z.shiftl DESC_S_CODE 4 + DESC_TYPE_CODE.
Definition GDT_DATA_ATTR_LOW_DPL3 : Z :=
  Z.shiftl DESC_P 7 + Z.shiftl DESC_DPL_3 5 + Z.shiftl DESC_S_DATA 4 + DESC_TYPE_DATA.
Definition TSS_ATTR_HIGH : Z :=
  Z.shiftl DESC_G_4K 7 + Z.shiftl TSS_DESC_D 6 + Z.shiftl DESC_L 5 + Z.shiftl DESC_AVL 4 + 0.
Definition TSS_ATTR_LOW : Z :=
  Z.shiftl DESC_P 7 + Z.shiftl DESC_DPL_0 5 + Z.shiftl DESC_S_SYS 4 + DESC_TYPE_TSS.
Definition SELECTOR_K_STACK : Z := SELECTOR_K_DATA.
Definition SELECTOR_TSS : Z := Z.shiftl 4 3 + Z.shiftl TI_GDT 2 + RPL0.

(** ** Data *)

(** struct tss, as its 27 words; the fields that are used by their number. *)
Definition tss_words : nat := 27.
Definition tss_esp0 : nat := 1.
Definition tss_ss0 : nat := 2.
Definition tss_io_base : nat := 26.
Definition sizeof_tss : Z := 4 * Z.of_nat tss_words.

(** struct gdt_desc *)
Record gdt_desc := GdtDesc {
  limit_low_word : Z;
  base_low_word : Z;
  base_mid_byte : Z;
  attr_low_byte : Z;
  limit_high_attr_high : Z;
  base_high_byte : Z
}.

Record tss_state := TssState {
  tss : list Z;
  gdt : gmap Z gdt_desc;       (* the slots by address *)
  gdtr : Z;                    (* the operand of lgdt *)
  tr : Z                       (* the selector of ltr *)
}.

(** ** Operations *)

Definition make_gdt_desc (desc_addr limit attr_low attr_high : Z) : gdt_desc :=
  let desc_base := u32 desc_addr in {|
    limit_low_word := u16 (Z.land limit 0x0000ffff);
    base_low_word := u16 (Z.land desc_base 0x0000ffff);
    base_mid_byte := u8 (Z.shiftr (Z.land desc_base 0x00ff0000) 16);
    attr_low_byte := u8 attr_low;
    limit_high_attr_high := u8 (Z.shiftr (Z.land limit 0x000f0000) 16 + u8 attr_high);
    base_high_byte := u8 (Z.shiftr desc_base 24)
  |}.

Definition set_tss_word (k : nat) (v : Z) : M tss_state unit :=
  modify (fun s => TssState (<[k := v]> (tss s)) (gdt s) (gdtr s) (tr s)).
Definition st_gdt (a : Z) (d : gdt_desc) : M tss_state unit :=
  modify (fun s => TssState (tss s) (<[a := d]> (gdt s)) (gdtr s) (tr s)).

Definition update_tss_esp (pthread : Z) : M tss_state unit := set_tss_word tss_esp0 (u32 (pthread + PG_SIZE)).

Definition tss_init (tss_at : Z) : M tss_state unit :=
  let tss_size := sizeof_tss in
  modify (fun s => TssState (replicate tss_words 0) (gdt s) (gdtr s) (tr s)) ;;
  set_tss_word tss_ss0 SELECTOR_K_STACK ;;
  set_tss_word tss_io_base tss_size ;;
  st_gdt 0xc0000920 (make_gdt_desc tss_at (tss_size - 1) TSS_ATTR_LOW TSS_ATTR_HIGH) ;;
  st_gdt 0xc0000928 (make_gdt_desc 0 0xfffff GDT_CODE_ATTR_LOW_DPL3 GDT_ATTR_HIGH) ;;
  st_gdt 0xc0000930 (make_gdt_desc 0 0xfffff GDT_DATA_ATTR_LOW_DPL3 GDT_ATTR_HIGH) ;;
  modify (fun s => TssState (tss s) (gdt s) (Z.lor (8 * 7 - 1) (Z.shiftl 0xc0000900 16)) (tr s)) ;;
  modify (fun s => TssState (tss s) (gdt s) (gdtr s) SELECTOR_TSS).

(** ** What the processor makes of a descriptor *)

Definition gdt_base (d : gdt_desc) : Z := base_low_word d + base_mid_byte d * 2 ^ 16 + base_high_byte d * 2 ^ 24.
Definition gdt_raw_limit (d : gdt_desc) : Z := limit_low_word d + limit_high_attr_high d mod 16 * 2 ^ 16.
(** The offset of the last byte: with the G bit the limit counts pages. *)
Definition gdt_limit (d : gdt_desc) : Z :=
  if Z.testbit (limit_high_attr_high d) 7 then gdt_raw_limit d * 4096 + 4095 else gdt_raw_limit d.
Definition gdt_present (d : gdt_desc) : bool := Z.testbit (attr_low_byte d) 7.
Definition gdt_dpl (d : gdt_desc) : Z := Z.shiftr (attr_low_byte d) 5 mod 4.
Definition gdt_system (d : gdt_desc) : bool := negb (Z.testbit (attr_low_byte d) 4).
Definition gdt_type (d : gdt_desc) : Z := attr_low_byte d mod 16.

(** The slot that a selector names, in the table that lgdt was given. *)
Definition selected (s : tss_state) (selector : Z) : option gdt_desc :=
  if (Z.land selector 0xfff8 + 7 <=? gdtr s mod 2 ^ 16) && negb (Z.testbit selector 2)
  then gdt s !! (Z.shiftr (gdtr s) 16 + Z.land selector 0xfff8) else None.

(** The processor lets user code (IOPL 0) use the port [p] when the byte of the
    permission map that has its bit lies within the segment and the bit, which
    is read from memory behind [tss_at], is zero. *)
Definition io_map_byte (s : tss_state) (p : Z) : Z := default 0 (tss s !! tss_io_base) + p / 8.
Definition io_permitted (mem : Z -> Z) (tss_at : Z) (s : tss_state) (p : Z) : bool :=
  match selected s (tr s) with
  | Some d => (io_map_byte s p <=? gdt_limit d) && negb (Z.testbit (mem (tss_at + io_map_byte s p)) (p mod 8))
  | None => false
  end.

(** ** Descriptors *)

Lemma u16_land a : 0 <= a -> u16 (Z.land a 0x0000ffff) = a mod 2 ^ 16.
Proof. intros Ha. change 0xffff with (Z.ones 16). rewrite Z.land_ones by lia. unfold u16. by rewrite Z.mod_mod. Qed.

Lemma byte_of a k m : 0 <= a -> 0 <= k -> 0 <= m -> Z.shiftr (Z.land a (Z.shiftl (Z.ones m) k)) k = a / 2 ^ k mod 2 ^ m.
Proof.
  intros Ha Hk Hm. rewrite Z.shiftr_land, Z.shiftr_shiftl_l, Z.sub_diag, Z.shiftl_0_r by done.
  by rewrite Z.land_ones, Z.shiftr_div_pow2 by done.
Qed.

(** What make_gdt_desc is given, the processor finds in the descriptor. *)
Lemma gdt_desc_roundtrip base limit attr_low attr_high :
  0 <= base < 2 ^ 32 -> 0 <= limit < 2 ^ 20 -> 0 <= attr_low < 256 -> 0 <= attr_high < 256 -> attr_high mod 16 = 0 ->
  let d := make_gdt_desc base limit attr_low attr_high in
  gdt_base d = base /\ gdt_raw_limit d = limit /\ attr_low_byte d = attr_low /\
  limit_high_attr_high d / 16 * 16 = attr_high.
Proof.
  intros Hb Hl Ha Hh H16 d. unfold d, gdt_base, gdt_raw_limit. cbn [make_gdt_desc limit_low_word base_low_word base_mid_byte attr_low_byte limit_high_attr_high base_high_byte].
  rewrite (u32_small base), !u16_land, (u8_small attr_low), (u8_small attr_high) by lia.
  change 0x00ff0000 with (Z.shiftl (Z.ones 8) 16). change 0x000f0000 with (Z.shiftl (Z.ones 4) 16).
  rewrite !byte_of, Z.shiftr_div_pow2 by lia. unfold u8. repeat split; dlia.
Qed.

Lemma tss_init_run tss_at s (Q : unit -> tss_state -> Prop) :
  (forall g r, g = <[0xc0000930 := make_gdt_desc 0 0xfffff GDT_DATA_ATTR_LOW_DPL3 GDT_ATTR_HIGH]>
     (<[0xc0000928 := make_gdt_desc 0 0xfffff GDT_CODE_ATTR_LOW_DPL3 GDT_ATTR_HIGH]>
     (<[0xc0000920 := make_gdt_desc tss_at (sizeof_tss - 1) TSS_ATTR_LOW TSS_ATTR_HIGH]> (gdt s))) ->
     r = <[tss_io_base := 108]> (<[tss_ss0 := SELECTOR_K_DATA]> (replicate tss_words 0)) ->
     Q tt (TssState r g 0xc00009000037 0x20)) ->
  wp (tss_init tss_at) Q s.
Proof. intros HQ. unfold tss_init, set_tss_word, st_gdt. wp_simp. by apply HQ. Qed.

(** [C27] After tss_init the selectors of user code and data name present flat
    segments of privilege 3 over all of memory, and the task register names the
    TSS, which holds the kernel's stack segment. *)
Theorem tss_init_segments tss_at s :
  0 <= tss_at < 2 ^ 32 ->
  wp (tss_init tss_at) (fun _ s' =>
    (exists d, selected s' SELECTOR_U_CODE = Some d /\ gdt_base d = 0 /\ gdt_limit d = 2 ^ 32 - 1 /\
       gdt_present d = true /\ gdt_system d = false /\ gdt_dpl d = SELECTOR_U_CODE mod 4 /\ gdt_type d = DESC_TYPE_CODE) /\
    (exists d, selected s' SELECTOR_U_DATA = Some d /\ gdt_base d = 0 /\ gdt_limit d = 2 ^ 32 - 1 /\
       gdt_present d = true /\ gdt_system d = false /\ gdt_dpl d = SELECTOR_U_DATA mod 4 /\ gdt_type d = DESC_TYPE_DATA) /\
    (exists d, selected s' (tr s') = Some d /\ gdt_base d = tss_at /\ gdt_present d = true /\ gdt_system d = true /\
       gdt_dpl d = 0 /\ gdt_type d = DESC_TYPE_TSS) /\
    tss s' !! tss_ss0 = Some SELECTOR_K_STACK /\
    forall a, a <> 0xc0000920 -> a <> 0xc0000928 -> a <> 0xc0000930 -> gdt s' !! a = gdt s !! a) s.
Proof.
  intros Hat. apply tss_init_run. intros g r Hg Hr.
  set (s' := TssState r g 0xc00009000037 0x20).
  assert (Hc : selected s' SELECTOR_U_CODE = g !! 0xc0000928) by reflexivity.
  assert (Hd : selected s' SELECTOR_U_DATA = g !! 0xc0000930) by reflexivity.
  assert (Ht : selected s' (tr s') = g !! 0xc0000920) by reflexivity.
  rewrite Hc, Hd, Ht, Hg. split; [|split; [|split; [|split]]].
  - eexists. rewrite lookup_insert_ne, lookup_insert_eq by done. by split.
  - eexists. rewrite lookup_insert_eq. by split.
  - eexists. rewrite !lookup_insert_ne, lookup_insert_eq by done. split; [done|].
    destruct (gdt_desc_roundtrip tss_at (sizeof_tss - 1) TSS_ATTR_LOW TSS_ATTR_HIGH) as (H1 & _ & _); done.
  - change (tss s') with r. by rewrite Hr.
  - intros a H1 H2 H3. change (gdt s') with g. rewrite Hg. by rewrite !lookup_insert_ne by congruence.
Qed.

Definition demo_tss : tss_state := TssState [] ∅ 0 0.

Lemma tss_init_segments_witness :
  wp (tss_init 0xc000a000) (fun _ s' =>
    (exists d, selected s' SELECTOR_U_CODE = Some d /\ gdt_base d = 0 /\ gdt_limit d = 2 ^ 32 - 1 /\
       gdt_present d = true /\ gdt_system d = false /\ gdt_dpl d = SELECTOR_U_CODE mod 4 /\ gdt_type d = DESC_TYPE_CODE) /\
    (exists d, selected s' SELECTOR_U_DATA = Some d /\ gdt_base d = 0 /\ gdt_limit d = 2 ^ 32 - 1 /\
       gdt_present d = true /\ gdt_system d = false /\ gdt_dpl d = SELECTOR_U_DATA mod 4 /\ gdt_type d = DESC_TYPE_DATA) /\
    (exists d, selected s' (tr s') = Some d /\ gdt_base d = 0xc000a000 /\ gdt_present d = true /\ gdt_system d = true /\
       gdt_dpl d = 0 /\ gdt_type d = DESC_TYPE_TSS) /\
    tss s' !! tss_ss0 = Some SELECTOR_K_STACK /\
    forall a, a <> 0xc0000920 -> a <> 0xc0000928 -> a <> 0xc0000930 -> gdt s' !! a = gdt demo_tss !! a) demo_tss.
Proof. apply (tss_init_segments 0xc000a000 demo_tss). split; [done|reflexivity]. Defined.

(** The TSS has no permission map of its own: io_base is its size. But its
    descriptor has the G bit, so that the segment reaches over a hundred pages
    further, and the permission of every port is a bit of the memory that
    happens to lie behind the TSS. *)
Theorem tss_io_map_beyond tss_at s mem p :
  0 <= tss_at < 2 ^ 32 -> 0 <= p < 65536 ->
  wp (tss_init tss_at) (fun _ s' =>
    sizeof_tss <= io_map_byte s' p /\
    io_permitted mem tss_at s' p = negb (Z.testbit (mem (tss_at + sizeof_tss + p / 8)) (p mod 8))) s.
Proof.
  intros Hat Hp. apply tss_init_run. intros g r Hg Hr. set (s' := TssState r g 0xc00009000037 0x20).
  assert (Hb : io_map_byte s' p = sizeof_tss + p / 8) by (unfold io_map_byte; change (tss s') with r; by rewrite Hr).
  rewrite Hb. split; [pose proof (Z.div_pos p 8); lia|].
  assert (Ht : selected s' (tr s') = g !! 0xc0000920) by reflexivity.
  unfold io_permitted. rewrite Hb, Ht, Hg, !lookup_insert_ne, lookup_insert_eq by done.
  change (gdt_limit (make_gdt_desc tss_at (sizeof_tss - 1) TSS_ATTR_LOW TSS_ATTR_HIGH)) with 442367.
  rewrite (proj2 (Z.leb_le _ _)) by (unfold sizeof_tss, tss_words; dlia). cbn [andb]. by rewrite Z.add_assoc.
Qed.

Lemma tss_io_map_beyond_witness :
  wp (tss_init 0xc000a000) (fun _ s' =>
    sizeof_tss <= io_map_byte s' 0x3f8 /\
    io_permitted (fun _ => 0) 0xc000a000 s' 0x3f8 = negb (Z.testbit 0 (0x3f8 mod 8))) demo_tss.
Proof. apply (tss_io_map_beyond 0xc000a000 demo_tss (fun _ => 0) 0x3f8); split; done || reflexivity. Defined.
