(* ===== verification/Shell.v ===== *)
(** * System calls and the shell (userprog/syscall-init.c, lib/user/syscall.c,
    kernel/kernel.S, shell/shell.c)

    The table of system calls maps numbers to routines; the handler of
    interrupt 0x80 (syscall_handler) calls the entry that eax names. The shell
    reads a line key by key: the state is the keys that will be pressed, the
    line and what has been put on the screen. A system call is a parameter of
    the shell's routines. The prompt and the message about a line that is too
    long are not modelled. *)

From Stdlib Require Import ZArith Lia.
From stdpp Require Import base numbers list gmap option.
From S2P Require Import Prelude.

Local Open Scope Z_scope.

(** ** The table of system calls *)

(** enum SYSCALL_NR *)
Inductive SYSCALL_NR :=
  | SYS_GETPID | SYS_WRITE | SYS_MALLOC | SYS_FREE | SYS_FORK | SYS_READ | SYS_PUTCHAR | SYS_CLEAR.

Definition nr_of (c : SYSCALL_NR) : Z :=
  match c with
  | SYS_GETPID => 0 | SYS_WRITE => 1 | SYS_MALLOC => 2 | SYS_FREE => 3
  | SYS_FORK => 4 | SYS_READ => 5 | SYS_PUTCHAR => 6 | SYS_CLEAR => 7
  end.

(** The routines that the table points to. *)
Inductive routine := R_getpid | R_write | R_malloc | R_free | R_fork | R_read | R_cls_screen.

#[export] Instance routine_eq_dec : EqDecision routine.
Proof. solve_decision. Defined.

Definition syscall_nr : nat := 32.

(** A table of pointers, as a global variable null at first. *)
Definition syscall_table0 : list (option routine) := replicate syscall_nr None.

Definition set_entry (c : SYSCALL_NR) (r : routine) (t : list (option routine)) : list (option routine) :=
  <[Z.to_nat (nr_of c) := Some r]> t.

Definition syscall_init (t : list (option routine)) : list (option routine) :=
  let t := set_entry SYS_GETPID R_getpid t in
  let t := set_entry SYS_WRITE R_write t in
  let t := set_entry SYS_MALLOC R_malloc t in
  let t := set_entry SYS_FREE R_free t in
  let t := set_entry SYS_FORK R_fork t in
  let t := set_entry SYS_READ R_read t in
  set_entry SYS_CLEAR R_cls_screen t.

(** [call [syscall_table + eax*4]]: no test of eax, none of the entry. *)
Definition syscall_handler {S A} (t : list (option routine)) (run : routine -> M S A) (eax : Z) : M S A :=
  do e <- of_option (t !! Z.to_nat eax);
  do r <- of_option e;
  run r.

(** ** The shell *)

Definition cmd_len : Z := 128.

Record shell := ShellState { keys : list Z; line : list Z; screen : list Z }.

Section shell.
(** The system call behind putchar. *)
Variable putchar : Z -> M shell unit.

(** read(stdin_no, pos, 1): the key goes to line[pos]; without one the call
    does not return. *)
Definition read_key (pos : Z) : M shell Z :=
  do s <- get;
  match keys s with
  | [] => nofuel
  | k :: ks =>
      valid ((0 <=? pos) && (pos <? Z.of_nat (length (line s)))) ;;
      put (ShellState ks (<[Z.to_nat pos := u8 k]> (line s)) (screen s)) ;;
      ret 1
  end.

Definition ld_line (pos : Z) : M shell Z := do s <- get; of_option (line s !! Z.to_nat pos).
Definition st_line (pos v : Z) : M shell unit :=
  modify (fun s => ShellState (keys s) (<[Z.to_nat pos := v]> (line s)) (screen s)).

(** One round of the loop; [pos] is pos - buf. *)
Definition readline_step (count pos : Z) : M shell (Z + unit) :=
  do r <- read_key pos;
  if negb (r =? -1) && (pos <? count) then
    do c <- ld_line pos;
    if (c =? 10) || (c =? 13) then
      st_line pos 0 ;;
      putchar 10 ;;
      ret (inr tt)
    else if c =? 8 then
      do b0 <- ld_line 0;
      if negb (b0 =? 8) then putchar 8 ;; ret (inl (pos - 1)) else ret (inl pos)
    else putchar c ;; ret (inl (pos + 1))
  else ret (inr tt).

(** A round reads a key, so there are no more rounds than keys. *)
Definition readline (count : Z) : M shell unit :=
  ASSERT (0 <? count) ;;
  do s <- get;
  loop (S (length (keys s))) (readline_step count) 0.

(** One round of my_shell. *)
Definition shell_round : M shell unit :=
  modify (fun s => ShellState (keys s) (replicate (Z.to_nat cmd_len) 0) (screen s)) ;;
  readline cmd_len.
End shell.

(** putchar, when the call reaches a routine that writes the character. *)
Definition putchar_works (c : Z) : M shell unit :=
  modify (fun s => ShellState (keys s) (line s) (screen s ++ [c])).
(** putchar in the system as syscall_init sets it up. *)
Definition putchar_call (c : Z) : M shell unit :=
  syscall_handler (syscall_init syscall_table0) (fun _ => putchar_works c) (nr_of SYS_PUTCHAR).

(** ** What a line editor does *)

(** The line that the keys type up to the first newline, what they echo, and
    the keys left. *)
Fixpoint edit (ks acc : list Z) : option (list Z * list Z * list Z) :=
  match ks with
  | [] => None
  | k :: ks =>
      if (k =? 10) || (k =? 13) then Some (acc, [10], ks)
      else if k =? 8 then
        match acc with
        | [] => edit ks []
        | _ => match edit ks (removelast acc) with Some (l, e, r) => Some (l, 8 :: e, r) | None => None end
        end
      else match edit ks (acc ++ [k]) with Some (l, e, r) => Some (l, k :: e, r) | None => None end
  end.

(** The line stays shorter than [n] while the keys are typed. *)
Fixpoint fits (n : nat) (ks acc : list Z) : bool :=
  (length acc <? n)%nat &&
  match ks with
  | [] => true
  | k :: ks =>
      if (k =? 10) || (k =? 13) then true
      else if k =? 8 then fits n ks (removelast acc)
      else fits n ks (acc ++ [k])
  end.

(** The line in the buffer is [acc]. *)
Definition typed (acc buf : list Z) : Prop := take (length acc) buf = acc /\ (8 ∉ acc).

Lemma typed_insert acc buf v : typed acc buf -> (length acc < length buf)%nat ->
  typed acc (<[length acc := v]> buf) /\ (v <> 8 -> typed (acc ++ [v]) (<[length acc := v]> buf)).
Proof.
  intros [Ht H8] Hl. split.
  - split; [|done]. by rewrite take_insert_ge by lia.
  - intros Hv. split; [|set_solver]. rewrite length_app. cbn [length]. rewrite Nat.add_1_r.
    rewrite (take_S_r _ _ v) by by apply list_lookup_insert_eq. rewrite take_insert_ge by lia. by rewrite Ht.
Qed.

Lemma typed_back acc buf v : typed acc buf -> (length acc < length buf)%nat -> typed (removelast acc) (<[length acc := v]> buf).
Proof.
  intros [Ht H8] Hl. destruct acc as [|x acc] using rev_ind; [by split|]. clear IHacc. rewrite removelast_last.
  rewrite length_app in Ht, Hl. cbn [length] in Ht, Hl. split; [|set_solver].
  rewrite length_app, take_insert_ge by (cbn [length]; lia).
  apply (f_equal (take (length acc))) in Ht. rewrite take_take, take_app_length in Ht.
  by rewrite Nat.min_l in Ht by lia.
Qed.

(** The buffer and the screen when the line is done. *)
Lemma readline_loop n ks acc buf scr l e r (Q : unit -> shell -> Prop) :
  Forall (fun k => 0 <= k < 256) ks -> length buf = n -> typed acc buf -> fits n ks acc = true -> edit ks acc = Some (l, e, r) ->
  (forall buf', take (length l) buf' = l -> buf' !! length l = Some 0 -> length buf' = n ->
     Q tt (ShellState r buf' (scr ++ e))) ->
  wp (loop (S (length ks)) (readline_step putchar_works (Z.of_nat n)) (Z.of_nat (length acc))) Q (ShellState ks buf scr).
Proof.
  revert acc buf scr e Q. induction ks as [|k ks IH]; intros acc buf scr e Q Hk Hn Ht Hf He HQ; [done|].
  apply list.Forall_cons in Hk as [Hk Hks]. cbn [fits edit] in Hf, He. apply andb_true_iff in Hf as [Hlt Hf].
  apply Nat.ltb_lt in Hlt. cbn [length]. rewrite loop_S. unfold readline_step at 1, read_key, ld_line. wp_simp. cbn [keys line]. wp_simp.
  apply wp_valid. split; [rewrite (proj2 (Z.leb_le _ _)), (proj2 (Z.ltb_lt _ _)) by lia; done|]. wp_simp.
  change (1 =? -1) with false. rewrite (proj2 (Z.ltb_lt _ _)) by lia. cbn [negb andb]. wp_simp. cbn [keys line screen].
  rewrite Nat2Z.id, u8_small by done. destruct (typed_insert acc buf k Ht ltac:(lia)) as [Hsame Hmore].
  wp_load (list_lookup_insert_eq buf (length acc) k ltac:(lia)).
  destruct ((k =? 10) || (k =? 13)) eqn:Hnl; [|destruct (Z.eqb_spec k 8) as [->|Hne]].
  - injection He as <- <- <-. wp_simp. unfold st_line, putchar_works. wp_simp. cbn [keys line screen].
    rewrite Nat2Z.id, list_insert_insert_eq. apply HQ.
    + destruct (typed_insert acc buf 0 Ht ltac:(lia)) as [[H _] _]. exact H.
    + apply list_lookup_insert_eq. lia.
    + by rewrite length_insert.
  - wp_simp. change (Z.to_nat 0) with 0%nat. destruct acc as [|x acc].
    + wp_load (list_lookup_insert_eq buf 0 8 ltac:(lia)). apply (IH [] _ scr e); try done. by rewrite length_insert.
    + destruct (edit ks (removelast (x :: acc))) as [[[l' e'] r']|] eqn:E; [|done]. injection He as <- <- <-.
      assert (Hx : <[length (x :: acc) := 8]> buf !! 0%nat = Some x).
      { rewrite list_lookup_insert_ne by done. destruct Ht as [Ht _].
        rewrite <- (lookup_take_lt _ (length (x :: acc))) by (cbn; lia). by rewrite Ht. }
      wp_load Hx. destruct Ht as [Ht H8]. rewrite (proj2 (Z.eqb_neq x 8)) by (intros ->; apply H8; by left).
      cbn [negb]. unfold putchar_works at 1. wp_simp. cbn [keys line screen].
      replace (Z.of_nat (length (x :: acc)) - 1) with (Z.of_nat (length (removelast (x :: acc)))).
      * apply (IH _ _ (scr ++ [8]) e'); try done; [by rewrite length_insert|apply typed_back; [by split|lia]|].
        intros buf' H1 H2 H3. rewrite <- app_assoc. by apply HQ.
      * rewrite (app_removelast_last 0 (l := x :: acc)) at 2 by done. rewrite length_app. cbn [length]. lia.
  - destruct (edit ks (acc ++ [k])) as [[[l' e'] r']|] eqn:E; [|done]. injection He as <- <- <-.
    unfold putchar_works at 1. wp_simp. cbn [keys line screen].
    replace (Z.of_nat (length acc) + 1) with (Z.of_nat (length (acc ++ [k]))) by (rewrite length_app; cbn; lia).
    apply (IH _ _ (scr ++ [k]) e'); try done; [by rewrite length_insert|by apply Hmore|].
    intros buf' H1 H2 H3. rewrite <- app_assoc. by apply HQ.
Qed.

(** [C28] A round of the shell. With a putchar that works and keys that type a
    line, backspaces and all, which never gets longer than the buffer, the
    buffer holds the edited line with its terminating zero, the screen shows the
    echo, and the keys behind the newline are still there. *)
Theorem readline_edits ks l e r buf scr :
  Forall (fun k => 0 <= k < 256) ks -> edit ks [] = Some (l, e, r) -> fits (Z.to_nat cmd_len) ks [] = true ->
  wp (shell_round putchar_works) (fun _ s' =>
    take (length l) (line s') = l /\ line s' !! length l = Some 0 /\ length (line s') = Z.to_nat cmd_len /\
    screen s' = scr ++ e /\ keys s' = r) (ShellState ks buf scr).
Proof.
  intros Hk He Hf. unfold shell_round, readline. wp_simp. apply wp_ASSERT. split; [done|]. wp_simp. cbn [keys line screen].
  change 0 with (Z.of_nat (length (@nil Z))). change cmd_len with (Z.of_nat (Z.to_nat cmd_len)).
  eapply (readline_loop (Z.to_nat cmd_len) ks []); try done. by split; [|apply not_elem_of_nil].
Qed.

(** "ab", backspace, "c", newline, with one key behind it. *)
Lemma readline_edits_witness :
  wp (shell_round putchar_works) (fun _ s' =>
    take 2 (line s') = [97; 99] /\ line s' !! 2%nat = Some 0 /\ length (line s') = Z.to_nat cmd_len /\
    screen s' = [36] ++ [97; 98; 8; 99; 10] /\ keys s' = [120]) (ShellState [97; 98; 8; 99; 13; 120] [] [36]).
Proof.
  apply (readline_edits [97; 98; 8; 99; 13; 120] [97; 99] [97; 98; 8; 99; 10] [120] [] [36]); [|reflexivity|reflexivity].
  repeat constructor; done.
Defined.

(** The test against the size of the buffer comes after the key has been stored. *)
Lemma readline_full n (ks : list Z) k rest (acc buf scr : list Z) :
  length buf = n -> (length acc + length ks)%nat = n -> (0 < n)%nat ->
  Forall (fun k => 32 <= k < 256) ks ->
  loop (S (length (ks ++ k :: rest))) (readline_step putchar_works (Z.of_nat n)) (Z.of_nat (length acc))
    (ShellState (ks ++ k :: rest) buf scr) = Fault.
Proof.
  revert acc buf scr. induction ks as [|c ks IH]; intros acc buf scr Hn Hl H0 Hks.
  - cbn [app length] in *. rewrite loop_S. apply bind_Fault. unfold readline_step, read_key. apply bind_Fault.
    rewrite (bind_Ok _ _ _ _ _ (eq_refl : get _ = Ok (_, _))). cbn [keys line]. apply bind_Fault.
    rewrite (proj2 (Z.ltb_ge _ _)) by lia. by rewrite andb_false_r.
  - apply list.Forall_cons in Hks as [Hc Hks]. cbn [app length] in *. rewrite loop_S.
    set (s1 := ShellState (ks ++ k :: rest) (<[length acc := c]> buf) (scr ++ [c])).
    assert (E : readline_step putchar_works (Z.of_nat n) (Z.of_nat (length acc)) (ShellState (c :: ks ++ k :: rest) buf scr) =
      Ok (inl (Z.of_nat (length (acc ++ [c]))), s1)).
    { apply wp_eq. unfold readline_step, read_key, ld_line, putchar_works. wp_simp. cbn [keys line screen]. wp_simp. apply wp_valid.
      split; [rewrite (proj2 (Z.leb_le _ _)), (proj2 (Z.ltb_lt _ _)) by lia; done|]. wp_simp. change (1 =? -1) with false.
      rewrite (proj2 (Z.ltb_lt _ _)) by lia. cbn [negb andb]. wp_simp. cbn [keys line screen]. rewrite Nat2Z.id, u8_small by lia.
      wp_load (list_lookup_insert_eq buf (length acc) c ltac:(lia)).
      rewrite (proj2 (Z.eqb_neq c 10)), (proj2 (Z.eqb_neq c 13)), (proj2 (Z.eqb_neq c 8)) by lia. cbn [orb]. wp_simp.
      split; [|done]. f_equal. rewrite length_app. cbn. lia. }
    rewrite (bind_Ok _ _ _ _ _ E). apply IH; [by rewrite length_insert|rewrite length_app; cbn; lia|done|done].
Qed.

(** A line of 128 characters that no newline ends: the next key is written
    one byte past the buffer before its length is looked at. *)
Theorem readline_overflows ks k rest buf scr :
  length ks = Z.to_nat cmd_len -> Forall (fun k => 32 <= k < 256) ks ->
  shell_round putchar_works (ShellState (ks ++ k :: rest) buf scr) = Fault.
Proof.
  intros Hl Hks. unfold shell_round. rewrite (bind_Ok _ _ _ _ _ (eq_refl : modify _ _ = Ok (_, _))).
  unfold readline. rewrite (bind_Ok _ _ _ tt (ShellState (ks ++ k :: rest) (replicate (Z.to_nat cmd_len) 0) scr)) by done.
  rewrite (bind_Ok _ _ _ _ _ (eq_refl : get _ = Ok (_, _))). cbn [keys].
  change 0 with (Z.of_nat (length (@nil Z))). rewrite <- (Z2Nat.id cmd_len) at 1 by done.
  apply (readline_full (Z.to_nat cmd_len) ks k rest []); try done. unfold cmd_len. lia.
Qed.

Lemma readline_overflows_witness :
  shell_round putchar_works (ShellState (replicate 128 97 ++ [98]) [] []) = Fault.
Proof. apply (readline_overflows (replicate 128 97) 98 [] [] []); [done|]. by apply Forall_replicate. Defined.

(** [C40] As syscall_init leaves the table, the call behind putchar goes through a
    null pointer: the shell does not survive the first key that is echoed. *)
Theorem shell_first_echo_faults k ks buf scr :
  0 <= k < 256 -> k <> 8 -> shell_round putchar_call (ShellState (k :: ks) buf scr) = Fault.
Proof.
  intros Hk Hne. unfold shell_round. rewrite (bind_Ok _ _ _ _ _ (eq_refl : modify _ _ = Ok (_, _))).
  unfold readline. rewrite (bind_Ok _ _ _ tt (ShellState (k :: ks) (replicate (Z.to_nat cmd_len) 0) scr)) by done.
  rewrite (bind_Ok _ _ _ _ _ (eq_refl : get _ = Ok (_, _))). cbn [keys]. rewrite loop_S. apply bind_Fault.
  unfold readline_step. rewrite (bind_Ok _ _ _ 1 (ShellState ks (<[0%nat := u8 k]> (replicate (Z.to_nat cmd_len) 0)) scr)) by done.
  change (negb (1 =? -1) && (0 <? cmd_len)) with true. cbn iota.
  rewrite (bind_Ok _ _ _ k (ShellState ks (<[0%nat := u8 k]> (replicate (Z.to_nat cmd_len) 0)) scr)) by (by rewrite u8_small).
  destruct ((k =? 10) || (k =? 13)).
  - by rewrite (bind_Ok _ _ _ tt _ (eq_refl : st_line 0 0 _ = Ok (tt, _))).
  - by rewrite (proj2 (Z.eqb_neq k 8)).
Qed.

Lemma shell_first_echo_faults_witness : shell_round putchar_call (ShellState [108; 115] [] []) = Fault.
Proof. apply (shell_first_echo_faults 108 [115] [] []); done. Defined.
