(* ===== verification/Syscall.v ===== *)
(** * The calls of user programs (lib/user/syscall.c, kernel/kernel.S)

    A stub loads the number of the call and its arguments into registers and
    traps; the handler of interrupt 0x80 pushes ebx, ecx and edx as the first
    three arguments of the routine that the table has for eax. Whoever the
    routine is run by is a parameter. *)

From Stdlib Require Import ZArith Lia.
From stdpp Require Import base numbers list option.
From S2P Require Import Prelude Shell.

Local Open Scope Z_scope.

(** The registers that matter to a trap. *)
Record regs := Regs { eax : Z; ebx : Z; ecx : Z; edx : Z }.

Section trap.
Context {S : Type} (table : list (option routine)).
(** The routines, with the three words on top of the stack, and what they leave in eax. *)
Context (call : routine -> Z -> Z -> Z -> M S Z).

(** [int $0x80]: the handler, as far as the stub sees it. *)
Definition int_0x80 (r : regs) : M S Z := syscall_handler table (fun f => call f (ebx r) (ecx r) (edx r)) (eax r).

(** The macros: registers that are not named keep their values. *)
Definition syscall0 (r : regs) (NUMBER : SYSCALL_NR) : M S Z := int_0x80 (Regs (nr_of NUMBER) (ebx r) (ecx r) (edx r)).
Definition syscall1 (r : regs) (NUMBER : SYSCALL_NR) (ARG1 : Z) : M S Z :=
  int_0x80 (Regs (nr_of NUMBER) (u32 ARG1) (ecx r) (edx r)).
Definition syscall2 (r : regs) (NUMBER : SYSCALL_NR) (ARG1 ARG2 : Z) : M S Z :=
  int_0x80 (Regs (nr_of NUMBER) (u32 ARG1) (u32 ARG2) (edx r)).
Definition syscall3 (r : regs) (NUMBER : SYSCALL_NR) (ARG1 ARG2 ARG3 : Z) : M S Z :=
  int_0x80 (Regs (nr_of NUMBER) (u32 ARG1) (u32 ARG2) (u32 ARG3)).

(** The stubs; [r] is what the registers hold when one is called. *)
Definition getpid (r : regs) : M S Z := do v <- syscall0 r SYS_GETPID; ret (u32 v).
Definition malloc (r : regs) (size : Z) : M S Z := do v <- syscall1 r SYS_MALLOC size; ret (u32 v).
Definition free (r : regs) (ptr : Z) : M S unit := syscall1 r SYS_FREE ptr ;; ret tt.
Definition write (r : regs) (fd buf count : Z) : M S Z := do v <- syscall3 r SYS_WRITE fd buf count; ret (u32 v).
Definition fork (r : regs) : M S Z := do v <- syscall0 r SYS_FORK; ret (s16 v).
Definition read (r : regs) (fd buf count : Z) : M S Z := do v <- syscall3 r SYS_READ fd buf count; ret (s32 v).
Definition putchar (r : regs) (char_asci : Z) : M S unit := syscall1 r SYS_PUTCHAR char_asci ;; ret tt.
Definition clear (r : regs) : M S unit := syscall0 r SYS_CLEAR ;; ret tt.
End trap.

(** With the table that syscall_init makes, every stub runs the routine of its
    name on its own arguments, in their order, whatever the other registers
    hold; but for putchar, which goes through a null pointer. *)
Theorem stubs_reach {S} (call : routine -> Z -> Z -> Z -> M S Z) (r : regs) :
  let t := syscall_init syscall_table0 in
  (forall s, exists b c d, getpid t call r s = (do v <- call R_getpid b c d; ret (u32 v)) s) /\
  (forall size s, exists c d, malloc t call r size s = (do v <- call R_malloc (u32 size) c d; ret (u32 v)) s) /\
  (forall ptr s, exists c d, free t call r ptr s = (call R_free (u32 ptr) c d ;; ret tt) s) /\
  (forall fd buf count s, write t call r fd buf count s = (do v <- call R_write (u32 fd) (u32 buf) (u32 count); ret (u32 v)) s) /\
  (forall s, exists b c d, fork t call r s = (do v <- call R_fork b c d; ret (s16 v)) s) /\
  (forall fd buf count s, read t call r fd buf count s = (do v <- call R_read (u32 fd) (u32 buf) (u32 count); ret (s32 v)) s) /\
  (forall char s, putchar t call r char s = Fault) /\
  (forall s, exists b c d, clear t call r s = (call R_cls_screen b c d ;; ret tt) s).
Proof. cbv zeta. repeat split; intros; repeat eexists; reflexivity. Qed.
