(* ===== verification/Process.v ===== *)
(** * User processes (userprog/process.c)

    Memory is the state of [Pages], with the bytes of the physical pages behind
    the page tables; the threads are those of [Thread]. What a process has
    beyond its PCB fields in [Thread], its virtual addresses and its block
    descriptors, is in [procs]. The window of the page tables shows the
    directory that is active; what it will show for another directory is in
    [spaces]. *)

From Stdlib Require Import ZArith Lia.
From stdpp Require Import base numbers list gmap option.
From S2P Require Import Prelude FsTypes Bitmap Intr DList ListHeap Paging Thread Sync Stacks Pages Heap.

Local Open Scope Z_scope.

Definition default_prio : Z := 32.
Definition USER_STACK3_VADDR : Z := 0xc0000000 - 0x1000.
Definition USER_VADDR_START : Z := 0x8048000.
Definition EFLAGS_MBS : Z := Z.shiftl 1 1.
Definition EFLAGS_IF_1 : Z := Z.shiftl 1 9.
Definition EFLAGS_IOPL_0 : Z := Z.shiftl 0 12.

(** ** Bytes behind the page tables *)

(** The frame of a page; a page that is not present faults. *)
Definition frame_at (vaddr : Z) : M pmem Z :=
  do e <- on_tab (ld_pte (pte_ptr vaddr));
  valid (truthy (Z.land e 1)) ;;
  ret (Z.land e 0xfffff000).
Definition ld_page (vaddr : Z) : M pmem (list Z) :=
  do f <- frame_at vaddr; do s <- get; of_option (page_data s !! f).
(** memcpy(vaddr + off, l, length l) within a page. *)
Definition st_page (vaddr : Z) (off : nat) (l : list Z) : M pmem unit :=
  do f <- frame_at vaddr;
  do s <- get;
  do b <- of_option (page_data s !! f);
  put (set_page_data (<[f := splice b off l]> (page_data s)) s).

(** [n] entries of the page directory or of a table, from an address on. *)
Fixpoint ld_entries (p : Z) (n : nat) : M ptab (list Z) :=
  match n with
  | O => ret []
  | S n' => do e <- ld_pte p; do l <- ld_entries (p + 4) n'; ret (e :: l)
  end.

(** The page directory of a process: the kernel's quarter is that of the
    directory in use, and the last entry points to the directory itself. *)
Definition create_page_dir : M pmem Z :=
  do page_dir_vaddr <- get_kernel_pages 1;
  if page_dir_vaddr =? NULL then ret NULL
  else
    do pdes <- on_tab (ld_entries (0xfffff000 + 0x300 * 4) 256);
    st_page page_dir_vaddr (0x300 * 4) (words pdes) ;;
    do new_page_dir_phy_addr <- on_tab (addr_v2p page_dir_vaddr);
    st_page page_dir_vaddr 4092 (le32 (Z.lor (Z.lor (Z.lor new_page_dir_phy_addr PG_US_U) PG_RW_W) PG_P_1)) ;;
    ret page_dir_vaddr.

(** ** Processes *)

(** userprog_vaddr, with the address of its bits, and u_block_desc. *)
Record uproc := UProc { userprog_vaddr : virtual_addr; user_bits_at : Z; u_block_desc : list mem_block_desc }.

(** struct intr_stack *)
Record intr_stack := IntrStack {
  vec_no : Z; edi : Z; esi : Z; ebp : Z; esp_dummy : Z;
  ebx : Z; edx : Z; ecx : Z; eax : Z;
  gs : Z; fs : Z; es : Z; ds : Z;
  err_code : Z; eip : Z; cs : Z; is_eflags : Z; esp : Z; ss : Z
}.

Record pstate := PState {
  pm : pmem;
  pk : kstate;
  procs : gmap Z uproc;
  next_pid : Z;
  stacks : gmap Z intr_stack;       (* interrupt stacks by address *)
  spaces : gmap Z ptab;             (* the window's user part, by page directory *)
  active : Z;                       (* the page directory in use *)
  pid_lock : Z                      (* &pid_lock *)
}.

Definition set_pm (m : pmem) (s : pstate) : pstate := PState m (pk s) (procs s) (next_pid s) (stacks s) (spaces s) (active s) (pid_lock s).
Definition set_pk (k : kstate) (s : pstate) : pstate := PState (pm s) k (procs s) (next_pid s) (stacks s) (spaces s) (active s) (pid_lock s).
Definition set_procs (p : gmap Z uproc) (s : pstate) : pstate := PState (pm s) (pk s) p (next_pid s) (stacks s) (spaces s) (active s) (pid_lock s).
Definition set_next_pid (n : Z) (s : pstate) : pstate := PState (pm s) (pk s) (procs s) n (stacks s) (spaces s) (active s) (pid_lock s).
Definition set_stacks (st : gmap Z intr_stack) (s : pstate) : pstate := PState (pm s) (pk s) (procs s) (next_pid s) st (spaces s) (active s) (pid_lock s).
Definition set_spaces (sp : gmap Z ptab) (a : Z) (s : pstate) : pstate := PState (pm s) (pk s) (procs s) (next_pid s) (stacks s) sp a (pid_lock s).

Definition on_pm {A} (m : M pmem A) : M pstate A := zoom pm set_pm m.
Definition on_pk {A} (m : M kstate A) : M pstate A := zoom pk set_pk m.

Definition allocate_pid : M pstate Z :=
  do l <- gets pid_lock;
  on_pk (k_call (lock_acquire l)) ;;
  modify (fun s => set_next_pid (s16 (next_pid s + 1)) s) ;;
  on_pk (k_call (lock_release l)) ;;
  gets next_pid.

Definition create_user_vaddr_bitmap (user_prog : Z) : M pstate unit :=
  let bitmap_pg_cnt := DIV_ROUND_UP ((0xc0000000 - USER_VADDR_START) / PG_SIZE / 8) PG_SIZE in
  let len := (0xc0000000 - USER_VADDR_START) / PG_SIZE / 8 in
  do bits <- on_pm (get_kernel_pages bitmap_pg_cnt);
  ASSERT (negb (bits =? NULL)) ;;
  do s <- get;
  let d := match procs s !! user_prog with Some p => u_block_desc p | None => [] end in
  put (set_procs (<[user_prog := UProc (VAddr (Bitmap len (replicate (Z.to_nat (bitmap_pg_cnt * PG_SIZE)) 0)) USER_VADDR_START) bits d]> (procs s)) s).

Definition set_pgdir (p : Z) (t : task_struct) : task_struct :=
  Task (self_kstack t) (status t) (pid t) (priority t) (name t) (ticks t) (elapsed_ticks t) p
    (stack_magic t) (fd_table t) (cwd_inode_nr t) (parent_pid t).

(** The registers a process starts with at [function]; [function] is the
    argument filename_. The movl and the jmp to intr_exit that follow pop them. *)
Definition start_process (function : Z) : M pstate Z :=
  do cur <- on_pk running_thread;
  on_pk (upd_task cur (fun t => set_kstack (u32 (self_kstack t + 4 * 32)) t)) ;;
  do t <- on_pk (ld_task cur);
  let proc_stack := self_kstack t in
  do page <- on_pm (get_a_page PF_USER USER_STACK3_VADDR);
  do s <- get;
  let old := default (IntrStack 0 0 0 0 0 0 0 0 0 0 0 0 0 0 0 0 0 0 0) (stacks s !! proc_stack) in
  put (set_stacks (<[proc_stack := IntrStack (vec_no old) 0 0 0 0 0 0 0 0 0 SELECTOR_U_DATA SELECTOR_U_DATA SELECTOR_U_DATA
      (err_code old) function SELECTOR_U_CODE (Z.lor (Z.lor EFLAGS_IOPL_0 EFLAGS_MBS) EFLAGS_IF_1)
      (u32 (page + PG_SIZE)) SELECTOR_U_DATA]> (stacks s)) s) ;;
  ret proc_stack.

(** process_execute; the new thread runs start_process, with the file's
    address, from kernel_thread on. memset in init_thread rejects a null PCB. *)
Definition process_execute (nm : list Z) : M pstate unit :=
  do thread <- on_pm (get_kernel_pages 1);
  ASSERT (negb (thread =? NULL)) ;;
  do pid <- allocate_pid;
  on_pk (init_thread thread nm default_prio pid) ;;
  create_user_vaddr_bitmap thread ;;
  on_pk (thread_create thread) ;;
  do dir <- on_pm create_page_dir;
  on_pk (upd_task thread (set_pgdir dir)) ;;
  do s <- get;
  do p <- of_option (procs s !! thread);
  put (set_procs (<[thread := UProc (userprog_vaddr p) (user_bits_at p) block_desc_init]> (procs s)) s) ;;
  do old_status <- on_pk k_intr_disable;
  do ready <- on_pk (gets k_ready);
  do f <- on_pk (k_list (elem_find ready (general_tag thread)));
  ASSERT (negb f) ;;
  on_pk (k_list (list_append ready (general_tag thread))) ;;
  do all <- on_pk (gets k_all);
  do f <- on_pk (k_list (elem_find all (all_list_tag thread)));
  ASSERT (negb f) ;;
  on_pk (k_list (list_append all (all_list_tag thread))) ;;
  on_pk (k_intr_set_status old_status) ;;
  ret tt.

(** ** Address spaces *)

(** The entries of the window that depend on the process: the tables of the
    pages below 0xc0000000, and their directory entries. *)
Definition user_entry (p : Z) : bool := (p <? 0xfff00000) || ((0xfffff000 <=? p) && (p <? 0xfffffc00)).

(** What the window shows of a directory none of whose user entries is present. *)
Definition dir_entries (b : list Z) : ptab :=
  list_to_map ((fun i => (0xfffff000 + 4 * i, rd32 b (Z.to_nat (4 * i)))) <$> seqZ 0 768).

(** page_dir_activate, as the window sees it. *)
Definition activate (p_thread : Z) : M pstate unit :=
  do t <- on_pk (ld_task p_thread);
  do b <- (if negb (pgdir t =? NULL) then on_pm (ld_page (pgdir t)) else ret []);
  do s <- get;
  let tab := page_tab (pm s) in
  let saved := <[active s := filter (fun '(p, _) => user_entry p = true) tab]> (spaces s) in
  let mine := match saved !! pgdir t with Some u => u | None => dir_entries b end in
  put (set_pm (set_page_tab (mine ∪ filter (fun '(p, _) => user_entry p = false) tab) (pm s))
        (set_spaces saved (pgdir t) s)).

(** ** allocate_pid *)

Lemma wp_k_disable_off k (Q : intr_status -> kstate -> Prop) :
  k_if k = false -> Q INTR_OFF k -> wp k_intr_disable Q k.
Proof.
  intros Hif HQ. rewrite wp_k_intr_disable. unfold k_if in Hif. rewrite disabled_idem by done. unfold status_of. rewrite Hif.
  destruct k as [[] ]. exact HQ.
Qed.

Lemma wp_k_set_off k (Q : intr_status -> kstate -> Prop) :
  k_if k = false -> Q INTR_OFF k -> wp (k_intr_set_status INTR_OFF) Q k.
Proof. exact (wp_k_disable_off k Q). Qed.

Lemma wp_ld_lock l v k (Q : lock_fields -> kstate -> Prop) : k_locks k !! l = Some v -> Q v k -> wp (ld_lock l) Q k.
Proof. intros H HQ. unfold ld_lock. wp_simp. wp_load H. done. Qed.
Lemma wp_ld_sema p v k (Q : Z -> kstate -> Prop) : k_semas k !! p = Some v -> Q v k -> wp (ld_sema p) Q k.
Proof. intros H HQ. unfold ld_sema. wp_simp. wp_load H. done. Qed.

Definition same_frames (F : gmap Z (list frame_t)) (k : kstate) : Prop := forall t, default [] (F !! t) = frames_of k t.

Section locked.
Context (l : Z) (k : kstate) (Hif : k_if k = false) (Hf : frames_of k (cur_of k) = []).

(** The loop of [k_call] when nothing is left. *)
Lemma k_call_end n x k' (Q : unit -> kstate -> Prop) :
  frames_of k' (cur_of k') = [] -> Q tt k' ->
  wp (loop (S n) (fun _ : unit =>
    do cur' <- running_thread;
    do m <- gets (fun s => length (frames_of s cur'));
    if (cur' =? cur_of k) && (0 <? m)%nat then resume ;; ret (inl tt) else ret (inr tt)) x) Q k'.
Proof using. intros Hf' HQ. rewrite loop_S. wp_simp. rewrite wp_running. wp_simp. rewrite Hf'. cbn. rewrite andb_false_r. by wp_simp. Qed.

(** ... and when one frame is left. *)
Lemma k_call_more n f k' (Q : unit -> kstate -> Prop) :
  cur_of k' = cur_of k -> frames_of k' (cur_of k) = [f] ->
  wp (resume_frame f) (fun _ k2 => frames_of k2 (cur_of k2) = [] /\ Q tt k2) (set_frames (<[cur_of k := []]> (k_frames k')) k') ->
  wp (loop (S (S n)) (fun _ : unit =>
    do cur' <- running_thread;
    do m <- gets (fun s => length (frames_of s cur'));
    if (cur' =? cur_of k) && (0 <? m)%nat then resume ;; ret (inl tt) else ret (inr tt)) tt) Q k'.
Proof using.
  intros Hc Hf' HQ. rewrite loop_S. wp_simp. rewrite wp_running. wp_simp. rewrite Hc, Hf', Z.eqb_refl. cbn [length Nat.ltb Nat.leb andb].
  wp_simp. rewrite <- Hc in HQ. eapply wp_mono; [eapply resume_run; [by rewrite Hc|exact HQ]|].
  intros [] k2 [H1 H2]. wp_simp. by apply k_call_end.
Qed.

Lemma k_call_acquire_run (Q : unit -> kstate -> Prop) :
  cur_of k <> NULL -> k_locks k !! l = Some (LockF NULL 0) -> k_semas k !! semaphore_of l = Some 1 ->
  (forall F, same_frames F k ->
     Q tt (set_locks (<[l := LockF (cur_of k) 1]> (k_locks k)) (set_semas (<[semaphore_of l := 0]> (k_semas k)) (set_frames F k)))) ->
  wp (k_call (lock_acquire l)) Q k.
Proof using Hif Hf.
  intros Hn Hl Hs HQ. unfold k_call. wp_simp. rewrite wp_running. wp_simp. rewrite Hf. cbn [length].
  unfold lock_acquire. wp_simp. rewrite wp_running. wp_simp. eapply wp_ld_lock; [done|]. cbn [holder].
  rewrite (proj2 (Z.eqb_neq NULL (cur_of k))) by (by apply not_eq_sym). cbn [negb]. unfold push_frame, sema_down. wp_simp.
  apply wp_k_disable_off; [done|]. unfold sema_down_loop. wp_simp. eapply wp_ld_sema; [exact Hs|]. change (1 =? 0) with false. cbn match.
  unfold st_sema. wp_simp. eapply wp_ld_sema; [apply lookup_insert_eq|]. wp_simp. apply wp_ASSERT. split; [done|]. wp_simp. apply wp_k_set_off; [done|]. wp_simp.
  eapply k_call_more; [done|unfold frames_of; cbn; rewrite lookup_insert_eq; cbn; f_equal; exact Hf|].
  cbn [resume_frame].
  unfold lock_acquired. wp_simp. rewrite wp_running. wp_simp. eapply wp_ld_lock; [exact Hl|]. unfold st_lock. wp_simp. cbn [holder_repeat_nr]. wp_assert.
  set (F := <[cur_of k := []]> (<[cur_of k := F_lock_acquire l :: frames_of k (cur_of k)]> (k_frames k))).
  match goal with |- _ /\ Q tt ?st => change st with
    (set_locks (<[l := LockF (cur_of k) 1]> (<[l := LockF (cur_of k) 0]> (k_locks k))) (set_semas (<[semaphore_of l := 0]> (k_semas k)) (set_frames F k))) end.
  rewrite insert_insert_eq. split.
  - change (default [] (F !! cur_of k) = []). unfold F. by rewrite lookup_insert_eq.
  - apply HQ. intros t. unfold F. rewrite insert_insert_eq. unfold frames_of in *.
    destruct (decide (t = cur_of k)) as [->|]; [by rewrite lookup_insert_eq|by rewrite lookup_insert_ne].
Qed.

Lemma k_call_release_run ls (Q : unit -> kstate -> Prop) :
  k_locks k !! l = Some (LockF (cur_of k) 1) -> k_semas k !! semaphore_of l = Some 0 ->
  dheap (lm_nodes (k_mem k)) ls -> ls !! waiters_of (semaphore_of l) = Some [] ->
  (forall F, same_frames F k ->
     Q tt (set_locks (<[l := LockF NULL 0]> (k_locks k)) (set_semas (<[semaphore_of l := 1]> (k_semas k)) (set_frames F k)))) ->
  wp (k_call (lock_release l)) Q k.
Proof using Hif Hf.
  intros Hl Hs Hh Hw HQ. unfold k_call. wp_simp. rewrite wp_running. wp_simp. rewrite Hf. cbn [length].
  unfold lock_release. wp_simp. rewrite wp_running. wp_simp. eapply wp_ld_lock; [done|]. cbn [holder holder_repeat_nr]. wp_simp.
  apply wp_ASSERT. split; [apply Z.eqb_refl|]. change (1 <? 1) with false. cbn match. wp_assert. unfold st_lock, push_frame. wp_simp.
  eapply k_call_more; [done|unfold frames_of; cbn; rewrite lookup_insert_eq; cbn; f_equal; exact Hf|].
  cbn [resume_frame].
  unfold sema_up. wp_simp. apply wp_k_disable_off; [done|]. wp_simp. eapply wp_ld_sema; [exact Hs|]. wp_assert. rewrite wp_k_list.
  eapply (heap_empty_run _ ls); [exact Hh|exact Hw|]. rewrite bool_decide_true by done. cbn [negb]. wp_simp.
  eapply wp_ld_sema; [exact Hs|]. unfold st_sema. wp_simp. eapply wp_ld_sema; [apply lookup_insert_eq|]. wp_simp. apply wp_ASSERT. split; [done|]. wp_simp.
  apply wp_k_set_off; [done|]. wp_simp. split.
  - unfold frames_of. cbn. by rewrite lookup_insert_eq.
  - match goal with |- Q tt ?st => change st with (set_locks (<[l := LockF NULL 0]> (k_locks k)) (set_semas (<[semaphore_of l := 1]> (k_semas k))
      (set_frames (<[cur_of k := []]> (<[cur_of k := F_sema_up (semaphore_of l) :: frames_of k (cur_of k)]> (k_frames k))) k))) end.
    rewrite insert_insert_eq. apply HQ. intros t. unfold frames_of in *.
    destruct (decide (t = cur_of k)) as [->|]; [by rewrite lookup_insert_eq|by rewrite lookup_insert_ne].
Qed.
End locked.

(** With the lock free, allocate_pid counts up and changes nothing else. *)
Lemma allocate_pid_run s ls (Q : Z -> pstate -> Prop) :
  let k := pk s in
  k_if k = false -> cur_of k <> NULL -> frames_of k (cur_of k) = [] ->
  k_locks k !! pid_lock s = Some (LockF NULL 0) -> k_semas k !! semaphore_of (pid_lock s) = Some 1 ->
  dheap (lm_nodes (k_mem k)) ls -> ls !! waiters_of (semaphore_of (pid_lock s)) = Some [] ->
  (forall F, same_frames F k ->
     Q (s16 (next_pid s + 1)) (set_next_pid (s16 (next_pid s + 1)) (set_pk (set_frames F k) s))) ->
  wp allocate_pid Q s.
Proof.
  intros k Hif Hn Hf Hl Hs Hh Hw HQ. unfold allocate_pid, on_pk. wp_simp. fold k.
  apply k_call_acquire_run; [done|done|done|done|done|]. intros F HF. wp_simp. cbn [pk set_pk set_next_pid].
  match goal with |- wp _ _ ?st => set (k1 := st) end.
  apply (k_call_release_run (pid_lock s) k1) with (ls := ls); try done.
  - change (default [] (F !! cur_of k) = []). by rewrite HF.
  - apply lookup_insert_eq.
  - apply lookup_insert_eq.
  - intros F' HF'. cbn [k1 k_locks k_semas set_locks set_semas set_frames]. rewrite !insert_insert_eq.
    rewrite (insert_id (k_locks k)), (insert_id (k_semas k)) by done.
    assert (HF2 : same_frames F' k) by (intros t; rewrite HF'; exact (HF t)).
    specialize (HQ F' HF2). destruct s as [sm sk sp sn ss sa sc sl], k as [km] eqn:Ek. cbn in *. subst. exact HQ.
Qed.

(** ** The page directory of a process *)

Lemma wp_on_tab_ld p e s (Q : Z -> pmem -> Prop) :
  page_tab s !! p = Some e -> Q e s -> wp (on_tab (ld_pte p)) Q s.
Proof. intros He HQ. rewrite wp_on_tab. eapply wp_ld_pte; [exact He|]. by rewrite set_page_tab_id. Qed.

Lemma frame_at_run v e s (Q : Z -> pmem -> Prop) :
  page_tab s !! pte_ptr v = Some e -> Z.testbit e 0 = true -> Q (Z.land e 0xfffff000) s -> wp (frame_at v) Q s.
Proof.
  intros He Hp HQ. unfold frame_at. rewrite wp_bind. eapply wp_on_tab_ld; [done|]. rewrite wp_bind.
  apply wp_valid. by rewrite present_bit.
Qed.

Lemma ld_page_run v e b s (Q : list Z -> pmem -> Prop) :
  page_tab s !! pte_ptr v = Some e -> Z.testbit e 0 = true -> page_data s !! Z.land e 0xfffff000 = Some b ->
  Q b s -> wp (ld_page v) Q s.
Proof. intros He Hp Hb HQ. unfold ld_page. rewrite wp_bind. eapply frame_at_run; [done|done|]. wp_load Hb. done. Qed.

Lemma st_page_run v e b off l s (Q : unit -> pmem -> Prop) :
  page_tab s !! pte_ptr v = Some e -> Z.testbit e 0 = true -> page_data s !! Z.land e 0xfffff000 = Some b ->
  Q tt (set_page_data (<[Z.land e 0xfffff000 := splice b off l]> (page_data s)) s) -> wp (st_page v off l) Q s.
Proof. intros He Hp Hb HQ. unfold st_page. rewrite wp_bind. eapply frame_at_run; [done|done|]. wp_load Hb. done. Qed.

Lemma ld_entries_run p es (t : ptab) (Q : list Z -> ptab -> Prop) :
  (forall i e, es !! i = Some e -> t !! (p + 4 * Z.of_nat i) = Some e) -> Q es t -> wp (ld_entries p (length es)) Q t.
Proof.
  revert p Q. induction es as [|e es IH]; intros p Q Hes HQ; cbn [ld_entries length]; [done|]. wp_simp.
  eapply wp_ld_pte; [specialize (Hes 0%nat e eq_refl); by rewrite Z.mul_0_r, Z.add_0_r in Hes|].
  wp_simp. apply IH; [|by wp_simp].
  intros i e' Hi. specialize (Hes (S i) e' Hi). rewrite <- Hes. f_equal. lia.
Qed.

(** [s'] differs from [s], in the pools and in the virtual addresses, in one bit
    of two bitmaps: the frame [f] and the page [r] of the kernel are taken. *)
Record page_taken (s s' : pmem) (r f : Z) : Prop := {
  pt_kpool : kernel_pool s' = set_pool_bitmap (kbits s') (kernel_pool s);
  pt_kbits : bits_upd (kbits s) (kbits s') (fun j => j =? f) true;
  pt_kvaddr : kernel_vaddr s' = VAddr (vbits s') (vaddr_start (kernel_vaddr s));
  pt_vbits : bits_upd (vbits s) (vbits s') (fun j => j =? r) true;
  pt_upool : user_pool s' = user_pool s;
  pt_uvaddr : user_vaddr s' = user_vaddr s;
  pt_pgdir : cur_pgdir s' = cur_pgdir s
}.

Lemma bits_upd_ext b b' l l' v : (forall j, 0 <= j -> l j = l' j) -> bits_upd b b' l v -> bits_upd b b' l' v.
Proof. intros E [W L M B]. split; [done..|]. intros j Hj. by rewrite B, E. Qed.

Lemma mapping_taken s r vb fs f s' :
  mapping s r 1 vb fs s' -> reserved s r 1 vb -> fs = [f] -> page_taken s s' r f.
Proof.
  intros Hm Hvb ->. pose proof (ma_state _ _ _ _ _ _ Hm) as Hs.
  assert (Hv : vbits s' = vb) by (unfold vbits; by rewrite Hs).
  split; try (rewrite Hs; done).
  - eapply bits_upd_ext; [|apply (ma_kbits _ _ _ _ _ _ Hm)]. intros j Hj. cbn.
    destruct (Z.eqb_spec j f) as [->|Hne]; [apply bool_decide_true|apply bool_decide_false]; set_solver.
  - rewrite Hv. eapply bits_upd_ext; [|exact Hvb]. intros j Hj. cbn.
    destruct (Z.eqb_spec j r), (Z.leb_spec r j), (Z.ltb_spec j (r + Z.of_nat 1)); done || lia.
Qed.

(** One page of the kernel's heap, cleared. *)
Lemma get_kernel_page_run s i0 free (Q : Z -> pmem -> Prop) :
  pages_ok s -> can_malloc s 1 i0 free ->
  (forall r f e s', 0 <= r < vlen s -> pages_ok s' -> 0 <= f < klen s -> bit_used (kbits s) f = false ->
     page_tab s' !! pte_ptr (vpage s r) = Some e -> 0 <= e < 2 ^ 32 -> Z.testbit e 0 = true -> Z.land e 0xfffff000 = kframe s f ->
     (forall p, p <> pte_ptr (vpage s r) -> page_tab s' !! p = page_tab s !! p) ->
     page_data s' = <[kframe s f := replicate (Z.to_nat PG_SIZE) 0]> (page_data s) ->
     page_taken s s' r f -> bit_used (vbits s) r = false -> maps_to s' r f -> Q (vpage s r) s') ->
  wp (get_kernel_pages 1) Q s.
Proof.
  intros Hok Hcm HQ. unfold get_kernel_pages. rewrite wp_bind. change 1 with (Z.of_nat 1). apply (malloc_kernel_run s 1 i0 free); [done|done|].
  intros r vb fs s' (Hr0 & Hr1 & Hrun & _) Hvb Hm Hl. pose proof Hcm as [_ _ Hfree].
  pose proof (vpage_range s r Hok ltac:(lia)) as (Hv0 & Hv1 & _). unfold PG_SIZE in Hv1.
  rewrite (proj2 (Z.eqb_neq _ NULL)) by (unfold NULL; lia). cbn [negb]. unfold zero_pages. change (Z.to_nat (Z.of_nat 1)) with 1%nat. cbn [for_range].
  destruct (mapping_run_entry s Hok r 1 vb free Hfree fs s' r Hm Hl ltac:(lia)) as (f & e & Hf & He & Hb & Pe & Hfr).
  destruct (ma_free _ _ _ _ _ _ Hm f) as [Hfk Hff]; [by eapply list_elem_of_lookup_2|].
  rewrite Z.mul_0_l, Z.add_0_r, u32_small by lia. unfold zero_page at 1. wp_simp.
  eapply wp_on_tab_ld; [exact He|]. rewrite present_bit, Pe. wp_simp. rewrite Hfr.
  assert (Hok' := mapping_complete s Hok r 1 (conj Hr0 Hr1) Hrun vb free Hvb Hfree fs s' Hm Hl).
  pose proof (ma_state _ _ _ _ _ _ Hm) as Hst. rewrite Z.sub_diag in Hf.
  assert (Hfs : fs = [f]) by (destruct fs as [|f' [|]]; [done|by injection Hf as ->|done]).
  pose proof (mapping_taken _ _ _ _ _ _ Hm Hvb Hfs) as Htk.
  eapply (HQ r f e); try done; try lia.
  - by destruct Hok'.
  - intros p Hp. cbn. apply (ma_old _ _ _ _ _ _ Hm). intros k Hk. assert (k = 0%nat) as -> by lia. by rewrite Z.add_0_r.
  - cbn. by rewrite Hst.
  - by destruct Htk.
  - apply Hrun. lia.
  - pose proof (mapping_maps_to s Hok r 1 vb free Hfree fs s' 0 f Hm Hl Hf) as Hmt. by rewrite Z.add_0_r in Hmt.
Qed.

(** A directory as its 1024 words. *)
Lemma dir_bytes pdes x : length pdes = 256%nat ->
  splice (splice (replicate (Z.to_nat PG_SIZE) 0) (0x300 * 4)%nat (words pdes)) 4092 (le32 x) =
  words (replicate 768 0 ++ take 255 pdes ++ [x]).
Proof.
  intros Hl. assert (Hz : replicate (Z.to_nat PG_SIZE) 0 = replicate 3072 0 ++ replicate 1024 0) by reflexivity.
  assert (Hw : words (replicate 768 0) = replicate 3072 0) by reflexivity.
  rewrite !words_app, Hw, Hz. unfold splice at 2. change (0x300 * 4)%nat with 3072%nat.
  rewrite take_app_length' by done. rewrite words_length, Hl. rewrite drop_ge by (rewrite length_app, !length_replicate; lia).
  rewrite app_nil_r. unfold splice. rewrite le32_length.
  rewrite drop_ge, app_nil_r by (rewrite length_app, length_replicate, words_length; lia).
  rewrite take_app_ge by (rewrite length_replicate; lia). rewrite length_replicate, <- app_assoc. f_equal. cbn [words]. rewrite app_nil_r. f_equal.
  rewrite <- (take_drop 255 pdes) at 1. rewrite words_app. apply take_app_length'. rewrite words_length, length_take. lia.
Qed.

(** [C13] create_page_dir makes the page directory of a process in a kernel page
    [r] and a kernel frame [f] that were free: the entries of the addresses below
    0xc0000000 are zero, those of the kernel are the ones of the directory in
    use, and the last one leads to the frame itself. Apart from the contents of
    [f], the table entry of the page and the two bits of the bitmaps, nothing
    changes: not the user pool, the user addresses, the locks or another entry. *)
Theorem create_page_dir_shares s i0 free pdes :
  pages_ok s -> can_malloc s 1 i0 free -> length pdes = 256%nat -> Forall is_u32 pdes ->
  (forall i e, pdes !! i = Some e -> page_tab s !! (0xfffffc00 + 4 * Z.of_nat i) = Some e) ->
  wp create_page_dir (fun v s' => exists r f b, v = vpage s r /\ pages_ok s' /\
    0 <= r < vlen s /\ bit_used (vbits s) r = false /\
    0 <= f < klen s /\ bit_used (kbits s) f = false /\ maps_to s' r f /\ page_taken s s' r f /\
    page_data s' = <[kframe s f := b]> (page_data s) /\ length b = Z.to_nat PG_SIZE /\
    (forall i, (i < 768)%nat -> rd32 b (4 * i) = 0) /\
    (forall i e, (i < 255)%nat -> pdes !! i = Some e -> rd32 b (4 * (768 + i)) = e) /\
    rd32 b (4 * 1023) = kframe s f + 7 /\
    (forall p, p <> pte_ptr v -> page_tab s' !! p = page_tab s !! p)) s.
Proof.
  intros Hok Hcm Hl Hu Hpd. match goal with |- wp _ ?Q _ => set (Q0 := Q) end. unfold create_page_dir. rewrite wp_bind. eapply get_kernel_page_run; [done|done|].
  intros r f e s1 Hr Hok1 Hf Hff He Hb Pe Hfr Hold Hdata Htk Hrf Hmt. pose proof (vpage_range s r Hok Hr) as (Hv0 & Hv1 & Hvm).
  rewrite (proj2 (Z.eqb_neq _ NULL)) by (unfold NULL; lia). rewrite wp_bind, wp_on_tab.
  pose proof (ld_entries_run (0xfffff000 + 0x300 * 4) pdes) as Hld. rewrite Hl in Hld. apply Hld; clear Hld.
  { intros i d Hi. rewrite Hold; [by apply Hpd|]. unfold PG_SIZE in Hv1. rewrite pte_ptr_linear by lia. dlia. }
  rewrite set_page_tab_id, wp_bind. eapply st_page_run; [done|done|rewrite Hdata, Hfr; apply lookup_insert_eq|].
  rewrite wp_bind, wp_on_tab. cbn [page_tab set_page_data]. eapply wp_addr_v2p; [exact He|].
  destruct (kframe_range s Hok f Hf) as [Hfrng Hfmod].
  rewrite page_offset, Hfr, Z.add_0_r, u32_small by (done || lia). rewrite wp_bind.
  eapply st_page_run; [exact He|done|cbn [page_data set_page_data set_page_tab]; rewrite Hfr; apply lookup_insert_eq|]. wp_simp. cbn [page_data set_page_data set_page_tab page_tab].
  rewrite Hdata, Hfr, !insert_insert_eq. rewrite dir_bytes by done. set (x := Z.lor _ PG_P_1).
  assert (Hx : x = kframe s f + 7) by (apply pte_flags_add; [lia|done]).
  assert (Hxu : is_u32 x) by (rewrite Hx; unfold is_u32, PG_SIZE in *; dlia).
  set (ws := replicate 768 0 ++ take 255 pdes ++ [x]).
  assert (Hws : Forall is_u32 ws).
  { apply list.Forall_app. split; [apply Forall_replicate; split; lia|]. apply list.Forall_app. split; [by apply Forall_take|by constructor]. }
  assert (Hrd : forall k w, ws !! k = Some w -> rd32 (words ws) (4 * k) = w).
  { intros k w Hk. rewrite <- (app_nil_r (words ws)). by apply (rd32_words ws [] k w). }
  exists r, f, (words ws). split; [done|]. split; [by destruct Hok1|]. split; [done|]. split; [done|]. split; [done|].
  split; [done|]. split; [done|]. split; [by destruct Htk|]. split; [done|]. assert (Htake : length (take 255 pdes) = 255%nat) by (rewrite length_take; lia).
  split; [unfold ws; rewrite words_length, !length_app, length_replicate, Htake; done|]. split; [|split; [|split; [|done]]].
  - intros i Hi. apply Hrd. unfold ws. rewrite lookup_app_l by (by rewrite length_replicate). by apply lookup_replicate_2.
  - intros i w Hi Hw. apply Hrd. unfold ws. rewrite lookup_app_r by (rewrite length_replicate; lia). rewrite length_replicate.
    replace (768 + i - 768)%nat with i by lia. rewrite lookup_app_l by lia. by rewrite lookup_take_lt by lia.
  - rewrite <- Hx. apply Hrd. unfold ws. rewrite app_assoc. apply list_lookup_middle. rewrite length_app, length_replicate, Htake. done.
Qed.

(** A window with the directory entries of the kernel in it. *)
Definition demo_pdes : list Z := 0x102007 :: ((fun i => 0x103007 + 0x1000 * i) <$> seqZ 0 255).

Definition demo_window : pmem :=
  set_page_tab (page_tab demo_pmem ∪ list_to_map (zip ((fun i => 0xfffffc00 + 4 * i) <$> seqZ 0 256) demo_pdes)) demo_pmem.

Lemma pages_ok_window s (t : ptab) : pages_ok s -> page_tab s ⊆ t -> pages_ok (set_page_tab t s).
Proof.
  intros Hok Hsub. assert (Hk : forall p e, page_tab s !! p = Some e -> t !! p = Some e) by (intros p e Hp; by apply (lookup_weaken _ _ _ _ Hp Hsub)).
  destruct Hok as [W1 W2 Ph Vi Pd Pt In]. split; try done; cbn.
  - intros i Hi. destruct (Pd i Hi) as (d & ? & ?). eauto.
  - intros i Hi. destruct (Pt i Hi) as (e & ? & ?). eauto.
  - intros i j e1 e2 Hi Hj Ui Uj E1 E2. destruct (Pt i Hi) as (e1' & L1 & _), (Pt j Hj) as (e2' & L2 & _).
    pose proof (Hk _ _ L1) as K1. pose proof (Hk _ _ L2) as K2. change (t !! pte_ptr (vpage s i) = Some e1) in E1.
    change (t !! pte_ptr (vpage s j) = Some e2) in E2. rewrite K1 in E1. rewrite K2 in E2.
    simplify_eq. by apply (In i j e1 e2).
Qed.

Lemma demo_window_ok : pages_ok demo_window.
Proof. apply pages_ok_window; [exact demo_pages_ok|apply map_union_subseteq_l]. Qed.

Lemma create_page_dir_shares_witness :
  wp create_page_dir (fun v s' => exists r f b, v = vpage demo_window r /\ pages_ok s' /\
    0 <= r < vlen demo_window /\ bit_used (vbits demo_window) r = false /\
    0 <= f < klen demo_window /\ bit_used (kbits demo_window) f = false /\ maps_to s' r f /\
    page_taken demo_window s' r f /\
    page_data s' = <[kframe demo_window f := b]> (page_data demo_window) /\ length b = Z.to_nat PG_SIZE /\
    (forall i, (i < 768)%nat -> rd32 b (4 * i) = 0) /\
    (forall i e, (i < 255)%nat -> demo_pdes !! i = Some e -> rd32 b (4 * (768 + i)) = e) /\
    rd32 b (4 * 1023) = kframe demo_window f + 7 /\
    (forall p, p <> pte_ptr v -> page_tab s' !! p = page_tab demo_window !! p)) demo_window.
Proof.
  apply (create_page_dir_shares demo_window 1 [3] demo_pdes demo_window_ok); [| done | | ].
  - split; [lia| |].
    + split; [lia|]. split; [vm_compute; congruence|]. intros i Hi. assert (i = 1) as -> by lia. done.
    + split; [apply NoDup_singleton|]. split; [done|]. intros f ->%list_elem_of_singleton. split; [|done]. vm_compute. split; congruence.
  - apply (bool_decide_unpack _). vm_compute. exact I.
  - assert (Hall : Forall (fun '(i, e) => page_tab demo_window !! (0xfffffc00 + 4 * Z.of_nat i) = Some e) (imap pair demo_pdes))
      by (apply (bool_decide_unpack _); vm_compute; exact I).
    intros i e Hi. rewrite list.Forall_forall in Hall. apply (Hall (i, e)). apply elem_of_lookup_imap. eauto.
Defined.
