(* ===== verification/Boot.v ===== *)
(** * Start-up (kernel/init.c, and the routines it calls)

    init_all up to the point where interrupts are enabled: the descriptor table
    and the interrupt lines, the clock, the memory pools, the first two threads,
    the console's lock, the handlers, the TSS and the table of system calls. The
    state of [Process] is joined by what those routines set up. The two calls
    that remain, ide_init and filesys_init, are in [Ide] and [Format], over the
    states of the driver and the file system. *)

From Stdlib Require Import ZArith Lia.
From stdpp Require Import base numbers list gmap option.
From S2P Require Import Prelude FsTypes Bitmap Intr DList ListHeap Paging Thread Sync Mutex Stacks Screen Console Irq.
From S2P Require Import Pages Heap Tss Shell Process.

Local Open Scope Z_scope.

Record bstate := BState {
  b_proc : pstate;
  b_chips : chips;
  b_tss : tss_state;
  b_idtr : Z;                              (* the operand of lidt *)
  intr_name : list (list Z);
  k_block_descs : list mem_block_desc;
  b_syscalls : list (option routine)       (* syscall_table *)
}.

Definition set_proc (p : pstate) (s : bstate) : bstate :=
  BState p (b_chips s) (b_tss s) (b_idtr s) (intr_name s) (k_block_descs s) (b_syscalls s).
Definition set_chips (c : chips) (s : bstate) : bstate :=
  BState (b_proc s) c (b_tss s) (b_idtr s) (intr_name s) (k_block_descs s) (b_syscalls s).
Definition set_tss (t : tss_state) (s : bstate) : bstate :=
  BState (b_proc s) (b_chips s) t (b_idtr s) (intr_name s) (k_block_descs s) (b_syscalls s).

Definition on_proc {A} (m : M pstate A) : M bstate A := zoom b_proc set_proc m.
Definition on_chips {A} (m : M chips A) : M bstate A := zoom b_chips set_chips m.
Definition on_cpu {A} (m : M cpu A) : M bstate A := on_proc (on_pk (k_list (zoom lm_cpu set_cpu m))).

(** ** Threads *)

Definition main_name : list Z := [109; 97; 105; 110].
Definition idle_name : list Z := [105; 100; 108; 101].

Definition make_main_thread : M pstate unit :=
  do main_thread <- on_pk running_thread;
  on_pk (modify (set_main main_thread)) ;;
  do pid <- allocate_pid;
  on_pk (init_thread main_thread main_name 32 pid) ;;
  do all <- on_pk (gets k_all);
  do f <- on_pk (k_list (elem_find all (all_list_tag main_thread)));
  ASSERT (negb f) ;;
  on_pk (k_list (list_append all (all_list_tag main_thread))).

(** thread_start with its page; memset in init_thread rejects a null PCB. *)
Definition start_thread (nm : list Z) (prio : Z) : M pstate Z :=
  do thread <- on_pm (get_kernel_pages 1);
  ASSERT (negb (thread =? NULL)) ;;
  do pid <- allocate_pid;
  on_pk (thread_start thread nm prio pid) ;;
  ret thread.

Definition thread_init : M pstate unit :=
  do ready <- on_pk (gets k_ready);
  on_pk (k_list (list_init ready)) ;;
  do all <- on_pk (gets k_all);
  on_pk (k_list (list_init all)) ;;
  do l <- gets pid_lock;
  on_pk (lock_init l) ;;
  make_main_thread ;;
  do idle_thread <- start_thread idle_name 10;
  on_pk (modify (set_idle idle_thread)).

(** sys_getpid (userprog/syscall-init.c) *)
Definition sys_getpid : M kstate Z :=
  do cur <- running_thread; do t <- ld_task cur; ret (u32 (pid t)).

Section init.
(** Addresses of routines, and of the idt, the TSS and the console's lock. *)
Context (intr_entry_table behind : list Z) (syscall_handler general_intr_handler intr_timer_handler intr_keyboard_handler : Z).
Context (idt_at tss_at console_lock : Z).
(** The word at 0xb00 and the bytes from MEM_BITMAP_BASE on. *)
Context (mem_bytes_total : Z) (area : list Z).

Definition sizeof_idt : Z := IDT_DESC_CNT * 8.

Definition idt_init : M bstate unit :=
  on_cpu (idt_desc_init intr_entry_table behind syscall_handler) ;;
  on_cpu (exception_init general_intr_handler) ;;
  modify (fun s => BState (b_proc s) (b_chips s) (b_tss s) (b_idtr s) exception_names (k_block_descs s) (b_syscalls s)) ;;
  on_chips pic_init ;;
  modify (fun s => BState (b_proc s) (b_chips s) (b_tss s) (Z.lor (sizeof_idt - 1) (Z.shiftl (u32 idt_at) 16))
    (intr_name s) (k_block_descs s) (b_syscalls s)).

Definition timer_init : M bstate unit :=
  on_chips timer_frequency ;;
  on_cpu (register_handler 0x20 intr_timer_handler).

Definition mem_init : M bstate unit :=
  on_proc (on_pm (mem_pool_init mem_bytes_total area)) ;;
  modify (fun s => BState (b_proc s) (b_chips s) (b_tss s) (b_idtr s) (intr_name s) block_desc_init (b_syscalls s)).

Definition keyboard_init : M bstate unit := on_cpu (register_handler 0x21 intr_keyboard_handler).

(** init_all, as far as interrupts stay disabled, and intr_enable. *)
Definition init_all : M bstate unit :=
  idt_init ;;
  timer_init ;;
  mem_init ;;
  on_proc thread_init ;;
  on_proc (on_pk (console_init console_lock)) ;;
  keyboard_init ;;
  zoom b_tss set_tss (tss_init tss_at) ;;
  modify (fun s => BState (b_proc s) (b_chips s) (b_tss s) (b_idtr s) (intr_name s) (k_block_descs s) (syscall_init (b_syscalls s))) ;;
  on_cpu intr_enable ;;
  ret tt.
End init.

(** ** Before start-up *)

(** The page of the main thread's PCB and stack, which the loader sets esp to. *)
Definition main_page : Z := 0xc009e000.

(** Two lists whose sentinels do not overlap. *)
Definition apart (a b : Z) : Prop := a + 16 <= b \/ b + 16 <= a.

(** A list of the kernel's data, below the bitmaps of the pools. *)
Definition in_kernel (L : Z) : Prop := 0xc0000000 <= L /\ L + 16 <= MEM_BITMAP_BASE.

Record lists_ok (a b c d : Z) : Prop := {
  lo_in : in_kernel a /\ in_kernel b /\ in_kernel c /\ in_kernel d;
  lo_apart : apart a b /\ apart a c /\ apart a d /\ apart b c /\ apart b d /\ apart c d
}.

(** The waiters of the pid lock, and of the console's. *)
Definition pid_waiters (p : pstate) : Z := waiters_of (semaphore_of (pid_lock p)).

(** What the loader and the start of main leave: esp in the page of the main
    thread, interrupts disabled, no thread and no stack of suspended routines. *)
Record loaded (console_lock : Z) (p : pstate) : Prop := {
  ld_esp : 0 <= k_esp (pk p) < 2 ^ 32 /\ cur_of (pk p) = main_page;
  ld_if : k_if (pk p) = false;
  ld_tasks : k_tasks (pk p) = ∅;
  ld_frames : forall t, frames_of (pk p) t = [];
  ld_lists : lists_ok (k_ready (pk p)) (k_all (pk p)) (pid_waiters p) (waiters_of (semaphore_of console_lock));
  ld_pid : next_pid p = 0
}.

(** The pools as mem_init leaves them. *)
Record pools_fresh (m : pmem) : Prop := {
  pf_ok : pages_ok m;
  pf_start : vaddr_start (kernel_vaddr m) = K_HEAP_START;
  pf_len : 8 <= vlen m <= 32768 /\ 8 <= klen m;
  pf_vfree : forall i, 0 <= i < vlen m -> bit_used (vbits m) i = false;
  pf_kfree : forall i, 0 <= i < klen m -> bit_used (kbits m) i = false
}.

Lemma pools_fresh_malloc m : pools_fresh m -> can_malloc m 1 0 [0].
Proof.
  intros [_ _ [Hv Hk] Fv Fk]. split; [lia| |].
  - split; [lia|]. split; [lia|]. intros i Hi. apply Fv. lia.
  - split; [apply NoDup_singleton|]. split; [done|]. intros f ->%list_elem_of_singleton. split; [lia|apply Fk; lia].
Qed.

(** A page of the kernel's heap can be a PCB. *)
Definition heap_page (t : Z) : Prop := K_HEAP_START <= t < 0xc8100000 /\ t mod PG_SIZE = 0.

Lemma heap_page_land t k : heap_page t -> 0 <= k < PG_SIZE -> Z.land (t + k) 0xfffff000 = t.
Proof.
  intros [Hr Hm] Hk. unfold K_HEAP_START in *. rewrite page_mask by (unfold PG_SIZE in *; lia). unfold PG_SIZE in *. dlia.
Qed.

(** ** Lists and PCBs *)

Lemma unlinked_cons ls L xs e : e ∉ cells L xs -> unlinked ls e -> unlinked (<[L := xs]> ls) e.
Proof.
  intros He Hu L2 ys. destruct (decide (L = L2)) as [<-|Hne]; [rewrite lookup_insert_eq; by intros [= <-]|].
  rewrite lookup_insert_ne by done. apply Hu.
Qed.

Lemma unlinked_delete ls L e : unlinked ls e -> unlinked (delete L ls) e.
Proof. intros Hu L2 xs. intros (_ & HL)%lookup_delete_Some. by apply (Hu L2). Qed.

(** Addresses are in none of the cells of some lists. *)
Ltac cells_lia :=
  unfold apart, in_kernel, heap_page, cells, head_of, tail_of, general_tag, all_list_tag, main_page, MEM_BITMAP_BASE, K_HEAP_START, NULL, PG_SIZE in *;
  cbn [app] in *; rewrite ?elem_of_cons, ?elem_of_nil in *; lia.
Ltac unlinked_lia := repeat (apply unlinked_cons; [cells_lia|]); apply unlinked_empty.

(** The task that init_thread makes. *)
Definition new_task (t : Z) (st : task_status) (nm : list Z) (prio the_pid : Z) : task_struct :=
  Task (u32 (t + PG_SIZE)) st (s16 the_pid) (u8 prio) (nm ++ replicate (16 - length nm) 0) (u8 prio) 0 NULL STACK_MAGIC
    ([0; 1; 2] ++ replicate (Z.to_nat MAX_FILES_OPEN_PER_PROC - 3) (-1)) 0 (-1).

Section kernel.
Context (k : kstate) (ls : gmap Z (list Z)).

Lemma k_list_init_run L (Q : unit -> kstate -> Prop) :
  dheap (lm_nodes (k_mem k)) ls -> in_kernel L -> (forall e, e ∈ cells L [] -> unlinked ls e) ->
  (forall h, dheap h (<[L := []]> ls) -> (forall x, x ∉ cells L [] -> h !! x = lm_nodes (k_mem k) !! x) ->
     Q tt (set_mem (set_nodes h (k_mem k)) k)) ->
  wp (k_list (list_init L)) Q k.
Proof using.
  intros Hh HL Hu HQ. rewrite wp_k_list. apply (heap_init_run _ ls); [done|cells_lia|cells_lia| |done].
  intros e He. by apply unlinked_delete, Hu.
Qed.

Lemma lock_init_run l (Q : unit -> kstate -> Prop) :
  dheap (lm_nodes (k_mem k)) ls -> in_kernel (waiters_of (semaphore_of l)) ->
  (forall e, e ∈ cells (waiters_of (semaphore_of l)) [] -> unlinked ls e) ->
  (forall h, dheap h (<[waiters_of (semaphore_of l) := []]> ls) ->
     (forall x, x ∉ cells (waiters_of (semaphore_of l)) [] -> h !! x = lm_nodes (k_mem k) !! x) ->
     Q tt (set_mem (set_nodes h (k_mem k)) (set_semas (<[semaphore_of l := 1]> (k_semas k)) (set_locks (<[l := LockF NULL 0]> (k_locks k)) k)))) ->
  wp (lock_init l) Q k.
Proof using.
  intros Hh HL Hu HQ. unfold lock_init, sema_init, st_lock, st_sema. wp_simp. rewrite wp_k_list.
  apply (heap_init_run _ ls); [done|cells_lia|cells_lia| |done]. intros e He. by apply unlinked_delete, Hu.
Qed.

Lemma init_thread_run t nm prio the_pid (Q : unit -> kstate -> Prop) :
  dheap (lm_nodes (k_mem k)) ls -> unlinked ls (general_tag t) -> unlinked ls (all_list_tag t) -> (length nm < 16)%nat ->
  (forall h, dheap h ls -> is_Some (h !! general_tag t) -> is_Some (h !! all_list_tag t) ->
     (forall x, is_Some (lm_nodes (k_mem k) !! x) -> is_Some (h !! x)) ->
     Q tt (set_tasks (<[t := new_task t (if t =? k_main k then TASK_RUNNING else TASK_READY) nm prio the_pid]> (k_tasks k))
             (set_mem (set_nodes h (k_mem k)) k))) ->
  wp (init_thread t nm prio the_pid) Q k.
Proof using.
  intros Hh Hu1 Hu2 Hl HQ. unfold init_thread, clear_nodes. wp_simp. rewrite wp_k_list. wp_simp.
  rewrite (proj2 (Nat.ltb_lt _ _)) by done. wp_simp. apply HQ; cbn [lm_nodes set_nodes k_mem set_mem].
  - by apply dheap_write, Hu2; apply dheap_write, Hu1.
  - apply lookup_insert_is_Some'. right. rewrite lookup_insert_eq. by eexists.
  - rewrite lookup_insert_eq. by eexists.
  - intros x Hx. rewrite !lookup_insert_is_Some'. by right; right.
Qed.
End kernel.

(** ** The first two threads *)

(** What allocate_pid needs, with the lists [ls]. *)
Record pids_up (p : pstate) (ls : gmap Z (list Z)) : Prop := {
  pu_if : k_if (pk p) = false;
  pu_cur : cur_of (pk p) = main_page;
  pu_frame : frames_of (pk p) main_page = [];
  pu_lock : k_locks (pk p) !! pid_lock p = Some (LockF NULL 0) /\ k_semas (pk p) !! semaphore_of (pid_lock p) = Some 1;
  pu_heap : dheap (lm_nodes (k_mem (pk p))) ls;
  pu_wait : ls !! pid_waiters p = Some []
}.

Lemma boot_pid_run p ls (Q : Z -> pstate -> Prop) :
  pids_up p ls -> 0 <= next_pid p < 2 ^ 14 ->
  (forall F, same_frames F (pk p) -> Q (next_pid p + 1) (set_next_pid (next_pid p + 1) (set_pk (set_frames F (pk p)) p))) ->
  wp allocate_pid Q p.
Proof.
  intros [H1 H2 H3 [H4 H5] H6 H7] Hp HQ. assert (E : s16 (next_pid p + 1) = next_pid p + 1) by (unfold s16; rewrite Z.mod_small; lia).
  apply (allocate_pid_run p ls); rewrite ?E; try done; [by rewrite H2|by rewrite H2].
Qed.

(** Looking for an element that is linked nowhere, and appending it. *)
Lemma k_find_run k ls L xs e (Q : bool -> kstate -> Prop) :
  dheap (lm_nodes (k_mem k)) ls -> ls !! L = Some xs -> unlinked ls e -> Q false k -> wp (k_list (elem_find L e)) Q k.
Proof.
  intros Hh HL Hu HQ. rewrite wp_k_list. eapply (heap_find_run _ ls); [done|done|].
  rewrite bool_decide_false; [by rewrite set_mem_id|]. intros Hin. apply (Hu L xs HL). unfold cells. set_solver.
Qed.

Lemma k_append_run k ls L xs e (Q : unit -> kstate -> Prop) :
  dheap (lm_nodes (k_mem k)) ls -> ls !! L = Some xs -> unlinked ls e -> e <> NULL -> is_Some (lm_nodes (k_mem k) !! e) ->
  (forall h, dheap h (<[L := xs ++ [e]]> ls) -> same_nodes (lm_nodes (k_mem k)) h -> Q tt (set_mem (set_nodes h (k_mem k)) k)) ->
  wp (k_list (list_append L e)) Q k.
Proof.
  intros Hh HL Hu Hn He HQ. rewrite wp_k_list. eapply (heap_append_run _ ls); [done|done|done|done|done|]. intros h Hh' Hs. by apply HQ.
Qed.

Section first_threads.
Context (console_lock : Z) (p : pstate) (Hld : loaded console_lock p).
Local Notation rl := (k_ready (pk p)).
Local Notation al := (k_all (pk p)).
Local Notation pw := (pid_waiters p).

(** The state with these lists, PCBs and frames; the rest is as it was. *)
Definition kernel_with (h : gmap Z list_elem) (T : gmap Z task_struct) (F : gmap Z (list frame_t)) (main idle : Z) : kstate :=
  let k := pk p in
  KState (set_nodes h (k_mem k)) (k_ptab k) (k_esp k) (k_cr3 k) (k_esp0 k) T F (<[semaphore_of (pid_lock p) := 1]> (k_semas k))
    (<[pid_lock p := LockF NULL 0]> (k_locks k)) rl al idle main (k_ticks k).
Definition proc_with (m : pmem) (k : kstate) (n : Z) : pstate :=
  PState m k (procs p) n (stacks p) (spaces p) (active p) (pid_lock p).

Lemma with_pids_up h T F main idle m n ls :
  dheap h ls -> ls !! pw = Some [] -> default [] (F !! main_page) = [] ->
  pids_up (proc_with m (kernel_with h T F main idle) n) ls.
Proof using Hld.
  intros Hh Hw HF. destruct Hld. split; try done; [apply ld_esp0|]. split; apply lookup_insert_eq.
Qed.

(** The lists before there are threads. *)
Definition no_threads : gmap Z (list Z) := <[pw := []]> (<[al := []]> (<[rl := []]> ∅)).

Lemma lists_start_run (Q : unit -> pstate -> Prop) :
  (forall h, dheap h no_threads -> Q tt (proc_with (pm p) (kernel_with h ∅ (k_frames (pk p)) (k_main (pk p)) (k_idle (pk p))) (next_pid p))) ->
  dheap (lm_nodes (k_mem (pk p))) ∅ ->
  wp (on_pk (k_list (list_init rl)) ;; do all <- on_pk (gets k_all); on_pk (k_list (list_init all)) ;;
      do l <- gets pid_lock; on_pk (lock_init l)) Q p.
Proof using Hld.
  intros HQ Hh. destruct Hld as [_ _ Ht _ [(Lr & La & Lp & _) (A1 & A2 & _ & A4 & _ & _)] _]. unfold on_pk. wp_simp.
  apply (k_list_init_run _ ∅); [done|done|intros e _; apply unlinked_empty|]. intros h1 Hh1 _. wp_simp.
  change (k_all (pk (set_pk _ p))) with al. eapply (k_list_init_run _ _ al); [exact Hh1|done| |].
  { intros e He. apply unlinked_cons; [cells_lia|apply unlinked_empty]. }
  intros h2 Hh2 _. wp_simp. eapply lock_init_run; [exact Hh2|exact Lp| |].
  { intros e He. change (e ∈ cells pw []) in He. unfold pid_waiters in *. do 2 (apply unlinked_cons; [cells_lia|]). apply unlinked_empty. }
  intros h3 Hh3 _. specialize (HQ h3 Hh3). rewrite <- Ht in HQ. exact HQ.
Qed.

(** No suspended routine on any stack. *)
Definition no_frames (F : gmap Z (list frame_t)) : Prop := forall t, default [] (F !! t) = [].

Definition with_main : gmap Z (list Z) := <[al := [all_list_tag main_page]]> no_threads.
Definition main_task : task_struct := new_task main_page TASK_RUNNING main_name 32 1.

Lemma lists_bounds : in_kernel rl /\ in_kernel al /\ in_kernel pw.
Proof using Hld. destruct Hld as [_ _ _ _ [(Lr & La & Lp & _) _] _]. done. Qed.
Lemma lists_apart : apart rl al /\ apart rl pw /\ apart al pw.
Proof using Hld. destruct Hld as [_ _ _ _ [_ (A1 & A2 & _ & A4 & _ & _)] _]. done. Qed.

(** Addresses above the bitmaps are in no list but those they were put in. *)
Lemma no_threads_unlinked e : MEM_BITMAP_BASE <= e -> unlinked no_threads e.
Proof using Hld. intros He. destruct lists_bounds as (Lr & La & Lp). unfold no_threads. unlinked_lia. Qed.
Lemma with_main_unlinked e : MEM_BITMAP_BASE <= e -> e <> all_list_tag main_page -> unlinked with_main e.
Proof using Hld.
  intros He Hne. destruct lists_bounds as (Lr & La & Lp). apply unlinked_cons; [cells_lia|]. by apply no_threads_unlinked.
Qed.

Lemma no_threads_all : no_threads !! al = Some [].
Proof using Hld. unfold no_threads. rewrite lookup_insert_ne by (destruct lists_apart as (_ & _ & X); cells_lia). apply lookup_insert_eq. Qed.
Lemma no_threads_ready : no_threads !! rl = Some [].
Proof using Hld.
  unfold no_threads. destruct lists_apart as (X & Y & _). rewrite !lookup_insert_ne by cells_lia. apply lookup_insert_eq.
Qed.

Lemma make_main_run m h F main0 idle0 (Q : unit -> pstate -> Prop) :
  dheap h no_threads -> no_frames F ->
  (forall h' F', dheap h' with_main -> is_Some (h' !! general_tag main_page) -> no_frames F' ->
     Q tt (proc_with m (kernel_with h' {[main_page := main_task]} F' main_page idle0) 1)) ->
  wp make_main_thread Q (proc_with m (kernel_with h ∅ F main0 idle0) 0).
Proof using Hld.
  intros Hh HF HQ. unfold make_main_thread, on_pk. wp_simp. rewrite wp_running. change (cur_of _) with (cur_of (pk p)).
  rewrite (proj2 (ld_esp _ _ Hld)). wp_simp.
  apply (boot_pid_run (proc_with m (kernel_with h ∅ F main_page idle0) 0) no_threads); [|cbn; lia|].
  { apply with_pids_up; [done|apply lookup_insert_eq|apply HF]. }
  intros F1 HF1. wp_simp. eapply (init_thread_run _ no_threads); [exact Hh|by apply no_threads_unlinked|by apply no_threads_unlinked|cbn; lia|].
  intros h1 Hh1 Hg Ha _. wp_simp. eapply (k_find_run _ no_threads al []); [exact Hh1|exact no_threads_all|by apply no_threads_unlinked|].
  wp_assert. eapply (k_append_run _ no_threads al []); [exact Hh1|exact no_threads_all|by apply no_threads_unlinked|done|exact Ha|].
  intros h2 Hh2 Hs. apply (HQ h2 F1); [exact Hh2|by apply Hs|]. intros t. rewrite HF1. apply HF.
Qed.

(** The idle thread, in a page of the heap. *)
Definition idle_task (t : Z) : task_struct :=
  let n := new_task t TASK_READY idle_name 10 2 in
  set_kstack (u32 (u32 (self_kstack n - 4 * 76) - 4 * 32)) n.
Definition idle_frames (t : Z) (F : gmap Z (list frame_t)) : Prop :=
  forall u, default [] (F !! u) = if decide (u = t) then [F_kernel_thread] else [].
Definition with_idle (t : Z) : gmap Z (list Z) :=
  <[al := [all_list_tag main_page; all_list_tag t]]> (<[rl := [general_tag t]]> with_main).

Lemma with_main_ready : with_main !! rl = Some [].
Proof using Hld. unfold with_main. rewrite lookup_insert_ne by (destruct lists_apart as (X & _); cells_lia). apply no_threads_ready. Qed.

Lemma thread_start_run h F idle0 m t (Q : unit -> kstate -> Prop) :
  dheap h with_main -> is_Some (h !! general_tag main_page) -> no_frames F -> heap_page t ->
  (forall h' F', dheap h' (with_idle t) -> is_Some (h' !! general_tag main_page) -> is_Some (h' !! general_tag t) -> idle_frames t F' ->
     Q tt (kernel_with h' (<[t := idle_task t]> {[main_page := main_task]}) F' main_page idle0)) ->
  wp (thread_start t idle_name 10 2) Q (pk (proc_with m (kernel_with h {[main_page := main_task]} F main_page idle0) 2)).
Proof using Hld.
  intros Hh Hm HF Hp HQ. cbn [pk proc_with]. destruct lists_bounds as (Lr & La & Lp). pose proof lists_apart as (A1 & A2 & A3).
  assert (Ht : 0xc0100000 <= t < 0xc8100000) by apply Hp.
  assert (Hu : forall e, MEM_BITMAP_BASE <= e -> e <> all_list_tag main_page -> unlinked with_main e) by apply with_main_unlinked.
  unfold thread_start. rewrite wp_bind. eapply (init_thread_run _ with_main); [exact Hh|apply Hu; cells_lia|apply Hu; cells_lia|cbn; lia|].
  intros h1 Hh1 Hg Ha Hmono. cbn [k_main kernel_with]. rewrite (proj2 (Z.eqb_neq t main_page)) by cells_lia.
  unfold thread_create. wp_simp. eapply wp_upd_task; [apply lookup_insert_eq|]. wp_simp.
  eapply wp_upd_task; [apply lookup_insert_eq|]. wp_simp.
  eapply (k_find_run _ with_main rl []); [exact Hh1|apply with_main_ready|apply Hu; cells_lia|]. wp_assert.
  eapply (k_append_run _ with_main rl []); [exact Hh1|apply with_main_ready|apply Hu; cells_lia|cells_lia|exact Hg|].
  intros h2 Hh2 Hs2. wp_simp. cbn [app] in Hh2.
  assert (Hal : (<[rl:=[general_tag t]]> with_main) !! al = Some [all_list_tag main_page]).
  { rewrite lookup_insert_ne by (clear -A1; cells_lia). apply lookup_insert_eq. }
  assert (Hu2 : unlinked (<[rl:=[general_tag t]]> with_main) (all_list_tag t)).
  { apply unlinked_cons; [clear -Lr Ht; cells_lia|]. apply Hu; cells_lia. }
  eapply (k_find_run _ _ al); [exact Hh2|exact Hal|exact Hu2|]. wp_assert.
  eapply (k_append_run _ _ al); [exact Hh2|exact Hal|exact Hu2|clear -Ht; cells_lia|by apply Hs2|].
  intros h3 Hh3 Hs3. cbn [app] in Hh3. specialize (HQ h3 (<[t := [F_kernel_thread]]> F) Hh3). cbn in HQ |- *.
  rewrite !insert_insert_eq. apply HQ; [by apply Hs3, Hs2, Hmono|by apply Hs3, Hs2|].
  intros u. destruct (decide (u = t)) as [->|]; [by rewrite lookup_insert_eq|rewrite lookup_insert_ne by done; apply HF].
Qed.

Lemma start_idle_run h F idle0 m (Q : Z -> pstate -> Prop) :
  dheap h with_main -> is_Some (h !! general_tag main_page) -> no_frames F -> pools_fresh m ->
  (forall t h' F' m', heap_page t -> pages_ok m' -> dheap h' (with_idle t) -> is_Some (h' !! general_tag main_page) ->
     is_Some (h' !! general_tag t) -> idle_frames t F' ->
     Q t (proc_with m' (kernel_with h' (<[t := idle_task t]> {[main_page := main_task]}) F' main_page idle0) 2)) ->
  wp (start_thread idle_name 10) Q (proc_with m (kernel_with h {[main_page := main_task]} F main_page idle0) 1).
Proof using Hld.
  intros Hh Hm HF Hpf HQ. unfold start_thread, on_pm, on_pk. rewrite wp_bind, wp_zoom. cbn [pm proc_with].
  apply (get_kernel_page_run m 0 [0]); [apply Hpf|by apply pools_fresh_malloc|].
  intros r f e m' Hr Hok' _ _ _ _ _ _ _ _ _ _ _. destruct (pf_len _ Hpf) as [Hvl _].
  assert (Hp : heap_page (vpage m r)).
  { unfold heap_page, vpage. rewrite (pf_start _ Hpf). unfold K_HEAP_START, PG_SIZE. split; [lia|]. rewrite Z_mod_plus_full. done. }
  wp_simp. apply wp_ASSERT. split; [apply negb_true_iff, Z.eqb_neq; cells_lia|]. wp_simp.
  apply (boot_pid_run (proc_with m' (kernel_with h {[main_page := main_task]} F main_page idle0) 1) with_main); [|cbn; lia|].
  { apply with_pids_up; [done| |apply HF]. unfold with_main. rewrite lookup_insert_ne by (destruct lists_apart as (_ & _ & X); cells_lia). apply lookup_insert_eq. }
  intros F1 HF1. wp_simp. change (1 + 1) with 2.
  apply (thread_start_run h F1 idle0 m' (vpage m r)); [done|done| |done|].
  { intros t. rewrite HF1. apply HF. }
  intros h' F' H1 H2 H3 H4. wp_simp. by apply (HQ (vpage m r) h' F' m').
Qed.

(** The state that thread_init leaves. *)
Definition started (t : Z) (h : gmap Z list_elem) (F : gmap Z (list frame_t)) (m : pmem) : pstate :=
  proc_with m (kernel_with h (<[t := idle_task t]> {[main_page := main_task]}) F main_page t) 2.

Lemma thread_init_run (Q : unit -> pstate -> Prop) :
  pools_fresh (pm p) ->
  (forall t h F m, heap_page t -> pages_ok m -> dheap h (with_idle t) -> is_Some (h !! general_tag main_page) ->
     is_Some (h !! general_tag t) -> idle_frames t F -> Q tt (started t h F m)) ->
  wp thread_init Q p.
Proof using Hld.
  intros Hpf HQ. unfold thread_init. rewrite wp_bind. unfold on_pk at 1. rewrite wp_zoom, wp_gets.
  assert (Hid : set_pk (pk p) p = p) by (by destruct p). rewrite Hid.
  assert (Hw : wp (on_pk (k_list (list_init rl)) ;; do all <- on_pk (gets k_all); on_pk (k_list (list_init all)) ;;
      do l <- gets pid_lock; on_pk (lock_init l)) (fun _ p' => exists h, dheap h no_threads /\
        p' = proc_with (pm p) (kernel_with h ∅ (k_frames (pk p)) (k_main (pk p)) (k_idle (pk p))) 0) p).
  { apply lists_start_run; [|by split; intros; rewrite lookup_empty in *]. intros h Hh. exists h. rewrite (ld_pid _ _ Hld). done. }
  rewrite !wp_bind in Hw. rewrite wp_bind. eapply wp_mono; [exact Hw|]. cbv beta. intros _ p1 Hw1. rewrite wp_bind in Hw1 |- *.
  eapply wp_mono; [exact Hw1|]. cbv beta. intros al' p2 Hw2. rewrite wp_bind in Hw2 |- *. eapply wp_mono; [exact Hw2|]. cbv beta.
  intros _ p3 Hw3. rewrite wp_bind in Hw3 |- *. eapply wp_mono; [exact Hw3|]. cbv beta. intros l p4 Hw4. rewrite wp_bind.
  eapply wp_mono; [exact Hw4|]. cbv beta. intros _ p5 (h & Hh & ->). rewrite wp_bind.
  eapply make_main_run; [exact Hh|exact (ld_frames _ _ Hld)|]. intros h1 F1 Hh1 Hm1 HF1. rewrite wp_bind.
  eapply start_idle_run; [exact Hh1|exact Hm1|exact HF1|exact Hpf|]. intros t h2 F2 m2 H1 H2 H3 H4 H5 H6. unfold on_pk. wp_simp.
  by apply (HQ t h2 F2 m2).
Qed.

(** ** The console's lock, and the invariant of the scheduler *)

Local Notation cs := (semaphore_of console_lock).
Local Notation cw := (waiters_of (semaphore_of console_lock)).

Definition with_console (h : gmap Z list_elem) (k : kstate) : kstate :=
  set_mem (set_nodes h (k_mem k)) (set_semas (<[cs := 1]> (k_semas k)) (set_locks (<[console_lock := LockF NULL 0]> (k_locks k)) k)).

Lemma console_init_run t h F m (Q : unit -> kstate -> Prop) :
  heap_page t -> dheap h (with_idle t) -> is_Some (h !! general_tag main_page) -> is_Some (h !! general_tag t) ->
  (forall h', dheap h' (<[cw := []]> (with_idle t)) -> is_Some (h' !! general_tag main_page) -> is_Some (h' !! general_tag t) ->
     Q tt (with_console h' (pk (started t h F m)))) ->
  wp (console_init console_lock) Q (pk (started t h F m)).
Proof using Hld.
  intros Ht Hh Hm Hi HQ. destruct Hld as [_ _ _ _ [(Lr & La & Lp & Lc) (A1 & A2 & A3 & A4 & A5 & A6)] _].
  unfold console_init. eapply (lock_init_run _ (with_idle t)); [exact Hh|exact Lc| |].
  - intros e He. unfold with_idle, with_main, no_threads. repeat (apply unlinked_cons; [cells_lia|]). apply unlinked_empty.
  - intros h' Hh' Hk. apply HQ; [exact Hh'|rewrite Hk; [exact Hm|cells_lia]|rewrite Hk; [exact Hi|cells_lia]].
Qed.

Section ready.
Context (t : Z) (h : gmap Z list_elem) (F : gmap Z (list frame_t)) (m : pmem).
Context (Ht : heap_page t) (Hh : dheap h (<[cw := []]> (with_idle t))) (HF : idle_frames t F).
Context (Hm : is_Some (h !! general_tag main_page)) (Hi : is_Some (h !! general_tag t)).
Local Notation kf := (with_console h (pk (started t h F m))).

(** The two threads, and what they are. *)
Lemma two_tasks (P : Z -> task_struct -> Prop) :
  P t (idle_task t) -> P main_page main_task -> forall u us, k_tasks kf !! u = Some us -> P u us.
Proof using All.
  intros Pi Pm u us Hu. change (k_tasks kf) with (<[t := idle_task t]> ({[main_page := main_task]} : gmap Z task_struct)) in Hu.
  apply lookup_insert_Some in Hu as [[<- <-]|[_ Hu]]; [done|]. by apply lookup_singleton_Some in Hu as [<- <-].
Qed.

Lemma main_not_idle : t <> main_page.
Proof using All. intros ->. destruct Ht as [H _]. unfold K_HEAP_START, main_page in H. lia. Qed.

Lemma idle_lookup : k_tasks kf !! t = Some (idle_task t).
Proof using All. apply lookup_insert_eq. Qed.
Lemma main_lookup : k_tasks kf !! main_page = Some main_task.
Proof using All. change (k_tasks kf) with (<[t := idle_task t]> ({[main_page := main_task]} : gmap Z task_struct)).
  rewrite lookup_insert_ne by apply main_not_idle. apply lookup_singleton_eq. Qed.

(** The lists of the started system. *)
Lemma started_lists L xs : <[cw := []]> (with_idle t) !! L = Some xs ->
  (L = cw /\ xs = []) \/ (L = al /\ xs = [all_list_tag main_page; all_list_tag t]) \/ (L = rl /\ xs = [general_tag t]) \/ (L = pw /\ xs = []).
Proof using All.
  intros HL. unfold with_idle, with_main, no_threads in HL.
  do 7 (apply lookup_insert_Some in HL as [[<- <-]|[? HL]]; [by auto|]). by rewrite lookup_empty in HL.
Qed.

Lemma idle_task_ok c : task_ok h (k_ptab (pk p)) c t (idle_task t).
Proof using All.
  pose proof Ht as [Hr Hmod]. unfold K_HEAP_START in Hr.
  assert (Ek : self_kstack (idle_task t) + 28 = t + 3692).
  { cbn. unfold PG_SIZE. rewrite (u32_small (t + 4096)) by lia. rewrite (u32_small (t + 4096 - 4 * 76)) by lia.
    rewrite u32_small by lia. lia. }
  split.
  - rewrite <- (Z.add_0_r t) at 1. apply heap_page_land; [done|unfold PG_SIZE; lia].
  - lia.
  - done.
  - right. rewrite Ek. split; [lia|]. apply heap_page_land; [done|unfold PG_SIZE; lia].
  - by left.
Qed.

Lemma main_task_ok : task_ok h (k_ptab (pk p)) main_page main_page main_task.
Proof using All. split; [done|unfold main_page; lia|done|by left|by left]. Qed.

Lemma started_cur : cur_of kf = main_page.
Proof using All. exact (proj2 (ld_esp _ _ Hld)). Qed.

Lemma started_sched : sched_inv kf (<[cw := []]> (with_idle t)) [t].
Proof using All.
  destruct Hld as [_ _ _ _ [(Lr & La & Lp & Lc) (A1 & A2 & A3 & A4 & A5 & A6)] _]. split.
  - exact Hh.
  - change (k_ready kf) with rl. rewrite lookup_insert_ne by cells_lia. unfold with_idle. rewrite lookup_insert_ne by cells_lia. apply lookup_insert_eq.
  - apply two_tasks; rewrite started_cur; [exact (idle_task_ok main_page)|exact main_task_ok].
  - intros u. rewrite list_elem_of_singleton. split.
    + intros ->. exists (idle_task t). split; [apply idle_lookup|done].
    + intros (us & Hu & Hs). revert u us Hu Hs. by apply (two_tasks (fun u us => status us = TASK_READY -> u = t)).
Qed.

Lemma started_sys : sys_inv console_lock kf (<[cw := []]> (with_idle t)) [t] [].
Proof using All.
  pose proof started_sched as Hs. pose proof started_cur as Hc. pose proof main_not_idle as Hne.
  pose proof Hld as [[He _] _ _ _ [(Lr & La & Lp & Lc) (A1 & A2 & A3 & A4 & A5 & A6)] _].
  assert (Htag : forall u us, k_tasks kf !! u = Some us -> 0xc009e000 <= u) by (apply two_tasks; cells_lia).
  split.
  - exact Hs.
  - apply lookup_insert_eq.
  - change (k_ready kf) with rl. cells_lia.
  - intros u [us Hu]. apply Htag in Hu. change (k_ready kf) with rl. split; cells_lia.
  - intros u L xs [us Hu] HL H1 H2. change (k_ready kf) with rl in H1.
    apply started_lists in HL as [[-> ->]|[[-> ->]|[[-> ->]|[-> ->]]]]; [done| |done|].
    + revert u us Hu. apply (two_tasks (fun u _ => general_tag u ∉ cells al [all_list_tag main_page; all_list_tag t])).
      * destruct Ht as [Hr Hmod]. unfold PG_SIZE in Hmod. clear Ht. unfold all_list_tag, general_tag, main_page, K_HEAP_START in *. cells_lia.
      * destruct Ht as [Hr Hmod]. unfold PG_SIZE in Hmod. clear Ht. unfold all_list_tag, general_tag, main_page, K_HEAP_START in *. cells_lia.
    + apply Htag in Hu. cells_lia.
  - exact He.
  - apply two_tasks; split; done.
  - by intros u []%not_elem_of_nil.
  - eexists. apply idle_lookup.
  - rewrite Hc. eexists. apply main_lookup.
Qed.

(** The theorems of [Mutex] and [Console] hold of the system as it is started. *)
Lemma started_fresh : fresh console_lock kf /\ (forall u, acquires (frames_of kf u) = 0%nat).
Proof using All.
  assert (Hfr : forall u, frames_of kf u = if decide (u = t) then [F_kernel_thread] else []) by exact HF.
  split.
  - split.
    + eexists _, _, _. exact started_sys.
    + intros us. rewrite started_cur, main_lookup. by intros [= <-].
    + intros u _. rewrite Hfr. destruct (decide (u = t)); [by right|by left].
    + rewrite started_cur, Hfr. rewrite decide_False; [done|]. intros E. by apply main_not_idle.
    + split; apply lookup_insert_eq.
  - intros u. rewrite Hfr. by destruct (decide (u = t)).
Qed.
End ready.
End first_threads.

(** ** init_all *)

Definition proc_cpu (c : cpu) (p : pstate) : pstate := set_pk (set_mem (set_cpu c (k_mem (pk p))) (pk p)) p.
Definition cpu_of (s : bstate) : cpu := lm_cpu (k_mem (pk (b_proc s))).

Lemma on_cpu_run {A} (m : M cpu A) s (Q : A -> bstate -> Prop) :
  wp m (fun a c => Q a (set_proc (proc_cpu c (b_proc s)) s)) (cpu_of s) -> wp (on_cpu m) Q s.
Proof. intros H. unfold on_cpu, on_proc, on_pk. by rewrite !wp_zoom, wp_k_list, wp_zoom. Qed.

Lemma register_handler_run v f c (Q : unit -> cpu -> Prop) :
  0 <= v < 256 -> v < Z.of_nat (length (idt_table c)) ->
  Q tt (Cpu (eflags c) (idt c) (<[Z.to_nat v := f]> (idt_table c))) -> wp (register_handler v f) Q c.
Proof.
  intros Hv Hl HQ. unfold register_handler. rewrite u8_small by lia.
  destruct (lookup_lt_is_Some_2 (idt_table c) (Z.to_nat v)) as [x Hx]; [lia|]. wp_simp. wp_load Hx. done.
Qed.

Lemma loaded_cpu l c p : loaded l p -> if_on c = false -> loaded l (proc_cpu c p).
Proof. intros [] Hc. by split. Qed.
Lemma loaded_pm l m p : loaded l p -> loaded l (set_pm m p).
Proof. intros []. by split. Qed.

(** The first three of a sequence of calls. *)
Lemma wp_then3 {S A} (a b c : M S unit) (k : M S A) (Q : A -> S -> Prop) s :
  wp (a ;; b ;; c ;; k) Q s = wp (a ;; b ;; c) (fun _ s' => wp k Q s') s.
Proof.
  unfold wp, bind. destruct (a s) as [[[] s1]| | |]; [|done..]. destruct (b s1) as [[[] s2]| | |]; [|done..].
  by destruct (c s2) as [[[] s3]| | |].
Qed.

(** The flag and the tables of the processor are not part of [fresh]. *)
Lemma fresh_cpu l c k : fresh l k -> fresh l (set_mem (set_cpu c (k_mem k)) k).
Proof.
  intros [(ls & rd & ws & Hs) Hr Hc Hcur Hl]. split; try done. exists ls, rd, ws. by apply (same_sys_inv l k).
Qed.

(** The handler of each vector once the drivers of the first two lines are up. *)
Definition handler_table (general timer keyboard : Z) : list Z :=
  <[33%nat := keyboard]> (<[32%nat := timer]> (replicate (Z.to_nat IDT_DESC_CNT) general)).

Section init_all.
Context (entry behind : list Z) (syscall general timer keyboard idt_at tss_at console_lock all_mem : Z) (area : list Z).

(** What init_all starts from: the loader's state, the 0x30 entry points with
    readable memory behind them, and at least 16 pages above 2 MB. *)
Record can_boot (s : bstate) : Prop := {
  cb_loaded : loaded console_lock (b_proc s);
  cb_idt : length (idt (cpu_of s)) = Z.to_nat IDT_DESC_CNT /\ length (idt_table (cpu_of s)) = Z.to_nat IDT_DESC_CNT;
  cb_entries : words_behind entry behind;
  cb_window : heap_window (page_tab (pm (b_proc s)));
  cb_mem : 0x200000 + 16 * PG_SIZE <= all_mem <= 0x200000 + 65535 * PG_SIZE;
  cb_area : 16384 <= Z.of_nat (length area) /\ Forall (fun v => 0 <= v < 256) area
}.

(** The part up to thread_init. *)
Lemma init_tables_run s (Q : unit -> bstate -> Prop) :
  can_boot s ->
  (forall p l, loaded console_lock p -> pools_fresh (pm p) -> gates_made entry behind syscall l ->
     lm_cpu (k_mem (pk p)) = Cpu (eflags (cpu_of s)) l (<[32%nat := timer]> (replicate (Z.to_nat IDT_DESC_CNT) general)) ->
     Q tt (BState p (Chips (Pic 0x20 0xf8 0) (Pic 0x28 0xbf 0) (Pit 2 None 11931)) (b_tss s)
       (Z.lor (sizeof_idt - 1) (Z.shiftl (u32 idt_at) 16)) exception_names block_desc_init (b_syscalls s))) ->
  wp (idt_init entry behind syscall general idt_at ;; timer_init timer ;; mem_init all_mem area) Q s.
Proof using.
  intros [Hl [Hi Ht] Hent Hw Hm [Ha Hb]] HQ. pose proof (ld_if _ _ Hl) as Hif. unfold idt_init. rewrite !wp_bind.
  apply on_cpu_run, idt_desc_init_run; [done|done|]. intros l Hg. rewrite wp_bind. apply on_cpu_run, exception_init_run; [done|].
  rewrite wp_bind, wp_modify, wp_bind. unfold on_chips at 1. rewrite wp_zoom. apply pic_init_run. rewrite wp_modify.
  rewrite wp_bind. unfold timer_init at 1. rewrite wp_bind. unfold on_chips at 1. rewrite wp_zoom. apply timer_frequency_run.
  apply on_cpu_run, register_handler_run; [lia|cbn; rewrite length_replicate; unfold IDT_DESC_CNT; lia|].
  unfold mem_init at 1. rewrite wp_bind. unfold on_proc at 1, on_pm at 1. rewrite !wp_zoom.
  apply mem_pool_init_pages_ok; [done|done|done|exact Hw|]. intros m H1 H2 H3 H4 H5 H6 _ _ _. rewrite wp_modify.
  apply (HQ _ l); [|by split|done|done].
  apply loaded_pm, loaded_cpu, Hif. apply loaded_cpu, Hif. by apply loaded_cpu.
Qed.

(** What runs when init_all has enabled interrupts. *)
Record booted (s : bstate) : Prop := {
  bd_fresh : fresh console_lock (pk (b_proc s));
  bd_stacks : forall u, acquires (frames_of (pk (b_proc s)) u) = 0%nat;
  bd_pages : pages_ok (pm (b_proc s));
  bd_if : k_if (pk (b_proc s)) = true;
  bd_main : cur_of (pk (b_proc s)) = main_page /\ k_tasks (pk (b_proc s)) !! main_page = Some main_task;
  bd_idle : k_tasks (pk (b_proc s)) !! k_idle (pk (b_proc s)) = Some (idle_task (k_idle (pk (b_proc s))));
  bd_gates : gates_made entry behind syscall (idt (cpu_of s));
  bd_lines : forall irq v, 0 <= irq < 16 -> vector_of (b_chips s) irq = Some v ->
    idt_table (cpu_of s) !! Z.to_nat v = Some (if irq =? 0 then timer else if irq =? 1 then keyboard else general)
}.

(** The vector of an open line is the one that its driver registers. *)
Lemma handlers_of_lines pt irq v : 0 <= irq < 16 ->
  vector_of (Chips (Pic 0x20 0xf8 0) (Pic 0x28 0xbf 0) pt) irq = Some v ->
  handler_table general timer keyboard !! Z.to_nat v = Some (if irq =? 0 then timer else if irq =? 1 then keyboard else general).
Proof using.
  intros Hi. rewrite lines_open by done. destruct (decide (irq ∈ [0; 1; 2; 14])) as [Hin|]; [|done]. intros [= <-].
  rewrite !elem_of_cons, elem_of_nil in Hin. by destruct Hin as [->|[->|[->|[->|[]]]]].
Qed.

Lemma intr_enable_run c (Q : intr_status -> cpu -> Prop) :
  (forall r c', if_on c' = true -> idt c' = idt c -> idt_table c' = idt_table c -> Q r c') -> wp intr_enable Q c.
Proof using.
  intros HQ. unfold intr_enable. rewrite wp_bind. apply intr_get_status_run. destruct (if_on c) eqn:E; unfold sti; wp_simp.
  - by apply HQ.
  - apply HQ; [apply if_on_sti|done|done].
Qed.

Lemma tss_init_total a t (Q : unit -> tss_state -> Prop) : (forall t', Q tt t') -> wp (tss_init a) Q t.
Proof using. intros HQ. apply HQ. Qed.

(** The part behind console_init. *)
Lemma init_rest_run s (Q : unit -> bstate -> Prop) :
  33 < Z.of_nat (length (idt_table (cpu_of s))) ->
  (forall c t, if_on c = true -> idt c = idt (cpu_of s) -> idt_table c = <[33%nat := keyboard]> (idt_table (cpu_of s)) ->
     Q tt (BState (proc_cpu c (b_proc s)) (b_chips s) t (b_idtr s) (intr_name s) (k_block_descs s) (syscall_init (b_syscalls s)))) ->
  wp (keyboard_init keyboard ;; zoom b_tss set_tss (tss_init tss_at) ;;
      modify (fun s => BState (b_proc s) (b_chips s) (b_tss s) (b_idtr s) (intr_name s) (k_block_descs s) (syscall_init (b_syscalls s))) ;;
      on_cpu intr_enable ;; ret tt) Q s.
Proof using.
  intros Hl HQ. rewrite wp_bind. unfold keyboard_init. apply on_cpu_run, register_handler_run; [lia|done|].
  rewrite wp_bind, wp_zoom. apply tss_init_total. intros t. rewrite wp_bind, wp_modify, wp_bind. apply on_cpu_run, intr_enable_run.
  intros r c He Ei Et. rewrite wp_ret. by apply HQ.
Qed.

(** [C5] Start-up works. From what the loader leaves, init_all gets to the point
    where it enables interrupts without a panic or a fault, and then: the pools
    of pages are in order; two threads exist, main, which runs, with pid 1, and
    idle, which is ready, with pid 2; the lists and the PCBs satisfy the
    invariant of the scheduler and the console's lock is free, so that the
    theorems about locks and messages hold of the system from here on; the
    gates of the interrupt table are made; and each interrupt line that is open
    leads to the handler of its driver. *)
Theorem init_all_starts s :
  can_boot s ->
  exists s', init_all entry behind syscall general timer keyboard idt_at tss_at console_lock all_mem area s = Ok (tt, s') /\ booted s'.
Proof using.
  intros Hb. assert (H : wp (init_all entry behind syscall general timer keyboard idt_at tss_at console_lock all_mem area) (fun _ s' => booted s') s).
  { unfold init_all. rewrite wp_then3. apply init_tables_run; [done|]. intros p l Hld Hpf Hg Hc.
    rewrite wp_bind. unfold on_proc at 1. rewrite wp_zoom. cbn [b_proc].
    apply (thread_init_run console_lock p Hld); [done|]. intros t h F m H1 H2 H3 H4 H5 H6. rewrite wp_bind. unfold on_proc, on_pk.
    rewrite !wp_zoom. cbn [b_proc set_proc]. apply (console_init_run console_lock p Hld t h F m); [done..|]. intros h' H7 H8 H9.
    destruct (started_fresh console_lock p Hld t h' F m H1 H7 H6 H8 H9) as [Hfresh Hacq].
    apply init_rest_run; [unfold cpu_of; cbn; rewrite Hc; cbn; rewrite length_insert, length_replicate; unfold IDT_DESC_CNT; lia|].
    intros c tss' He Ei Et. unfold cpu_of in Ei, Et. cbn in Ei, Et. rewrite Hc in Ei, Et. cbn in Ei, Et.
    assert (Hf2 : forall c', fresh console_lock (set_mem (set_cpu c' (k_mem (with_console console_lock h' (pk (started p t h F m)))))
      (with_console console_lock h' (pk (started p t h F m))))) by (intros c'; by apply fresh_cpu).
    split.
    - exact (Hf2 c).
    - exact Hacq.
    - exact H2.
    - exact He.
    - split; [exact (proj2 (ld_esp _ _ Hld))|]. exact (main_lookup console_lock p Hld t h' F m H1 H7 H6 H8 H9).
    - exact (idle_lookup console_lock p Hld t h' F m H1 H7 H6 H8 H9).
    - unfold cpu_of. cbn. rewrite Ei. exact Hg.
    - intros irq v Hirq Hv. unfold cpu_of. cbn. rewrite Et. by apply (handlers_of_lines (Pit 2 None 11931)). }
  apply wp_Ok in H as ([] & s' & E & H). by exists s'.
Qed.
End init_all.

(** *** Witness: 32 MB of memory *)

(** The window with every table there and only the directory mapped. *)
Definition boot_entry (i : Z) : Z * Z := (0xffc00000 + 4 * i, if i <? 0xffc00 then 0 else 0x101007).
Definition boot_window : ptab := list_to_map (boot_entry <$> seqZ 0 (2 ^ 20)).

Lemma boot_window_lookup i : 0 <= i < 2 ^ 20 ->
  boot_window !! (0xffc00000 + 4 * i) = Some (if i <? 0xffc00 then 0 else 0x101007).
Proof.
  intros Hi. apply elem_of_list_to_map_1.
  - rewrite <- list_fmap_compose. apply NoDup_fmap_2_strong; [|apply NoDup_seqZ]. intros x y _ _ E. cbn in E. lia.
  - apply list_elem_of_fmap. exists i. split; [done|]. apply elem_of_seqZ. lia.
Qed.

Lemma boot_window_ok : heap_window boot_window.
Proof.
  intros v Hv _. unfold K_HEAP_START, PG_SIZE in Hv. split.
  - exists 0x101007. split; [|done]. unfold pde_ptr. rewrite PDE_IDX_div by lia. rewrite u32_small by dlia.
    replace (0xfffff000 + v / 2 ^ 22 * 4) with (0xffc00000 + 4 * (0xffc00 + v / 2 ^ 22)) by lia.
    rewrite boot_window_lookup by dlia. rewrite (proj2 (Z.ltb_ge _ _)) by dlia. done.
  - exists 0. split; [|done]. rewrite pte_ptr_linear by lia. rewrite boot_window_lookup by dlia.
    rewrite (proj2 (Z.ltb_lt _ _)) by dlia. done.
Qed.

Definition boot_kernel : kstate :=
  KState (LMem (Cpu 2 (replicate (Z.to_nat IDT_DESC_CNT) (GateDesc 0 0 0 0 0)) (replicate (Z.to_nat IDT_DESC_CNT) 0)) ∅) ∅
    0xc009eff0 0x100000 0 ∅ ∅ ∅ ∅ 0xc0008000 0xc0008010 0 0 0.
Definition boot_pages : pmem :=
  PMem (Pool (Bitmap 0 []) 0 0 0 0) (Pool (Bitmap 0 []) 0 0 0 0) (VAddr (Bitmap 0 []) 0) (VAddr (Bitmap 0 []) 0) NULL boot_window ∅.
Definition boot_state : bstate :=
  BState (PState boot_pages boot_kernel ∅ 0 ∅ ∅ 0x100000 0xc0009000)
    (Chips (Pic 8 0xff 0) (Pic 0x70 0xff 0) (Pit 3 None 0)) (TssState [] ∅ 0 0) 0 [] [] syscall_table0.

Lemma boot_can_boot : can_boot demo_entries demo_behind 0xc0009100 0x2000000 (replicate (Z.to_nat 16384) 255) boot_state.
Proof.
  split.
  - split; [split; [cbn; lia|done]|done|done|intros t; done| |done].
    unfold pid_waiters, waiters_of, semaphore_of. split; [unfold in_kernel, MEM_BITMAP_BASE; cbn; lia|unfold apart; cbn; lia].
  - split; reflexivity.
  - split; [reflexivity|vm_compute; congruence].
  - exact boot_window_ok.
  - unfold PG_SIZE. lia.
  - split; [rewrite length_replicate; lia|apply Forall_replicate; lia].
Qed.

Lemma init_all_starts_witness :
  exists s', init_all demo_entries demo_behind 0xc0002000 0xc0003000 0xc0003100 0xc0003200 0xc0007000 0xc0007800 0xc0009100
      0x2000000 (replicate (Z.to_nat 16384) 255) boot_state = Ok (tt, s') /\
    booted demo_entries demo_behind 0xc0002000 0xc0003000 0xc0003100 0xc0003200 0xc0009100 s'.
Proof. exact (init_all_starts _ _ _ _ _ _ _ _ _ _ _ _ boot_can_boot). Defined.
