(* ===== verification/Fork.v ===== *)
(** * fork (userprog/fork.c)

    The state is that of [Process] with the file system's. A page directory is
    switched by [activate]; the copy goes page by page through a buffer in the
    kernel's part of the address space, which every directory shares. *)

From Stdlib Require Import ZArith Lia.
From stdpp Require Import base numbers list gmap option.
From S2P Require Import Prelude FsTypes FileOps Bitmap Intr DList ListHeap Paging Thread Pages UserPages Heap Process.

Local Open Scope Z_scope.

Record fstate := FState { fp : pstate; ffs : fsys }.

Definition on_fp {A} (m : M pstate A) : M fstate A := zoom fp (fun p s => FState p (ffs s)) m.
Definition on_ffs {A} (m : M fsys A) : M fstate A := zoom ffs (fun f s => FState (fp s) f) m.

Definition sizeof_intr_stack : Z := 76.

(** fork_pid *)
Definition fork_pid : M pstate Z := allocate_pid.

(** The PCB of the child: a copy of the parent's, but for these fields. *)
Definition child_task (pid' : Z) (t : task_struct) : task_struct :=
  Task (self_kstack t) TASK_READY pid' (priority t) (name t) (priority t) 0 (pgdir t)
    (stack_magic t) (fd_table t) (cwd_inode_nr t) (pid t).

(** strcat(name, "_fork") on the 16 bytes of a name. *)
Definition fork_suffix : list Z := [95; 102; 111; 114; 107; 0].
Fixpoint name_len (l : list Z) : nat := match l with [] => 0 | c :: l' => if c =? 0 then 0 else S (name_len l') end.
Definition set_name (n : list Z) (t : task_struct) : task_struct :=
  Task (self_kstack t) (status t) (pid t) (priority t) n (ticks t) (elapsed_ticks t) (pgdir t)
    (stack_magic t) (fd_table t) (cwd_inode_nr t) (parent_pid t).

Definition copy_pcb_vaddrbitmap_stack0 (child parent : Z) : M pstate Z :=
  do t <- on_pk (ld_task parent);
  do s <- get;
  do p <- of_option (procs s !! parent);
  do st0 <- of_option (stacks s !! (parent + PG_SIZE - sizeof_intr_stack));
  do pid' <- fork_pid;
  on_pk (modify (fun k => set_tasks (<[child := child_task pid' t]> (k_tasks k)) k)) ;;
  on_pk (clear_nodes child) ;;
  modify (fun s => set_stacks (<[child + PG_SIZE - sizeof_intr_stack := st0]> (stacks s)) s) ;;
  modify (fun s => set_procs (<[child := UProc (userprog_vaddr p) (user_bits_at p) block_desc_init]> (procs s)) s) ;;
  let bitmap_pg_cnt := DIV_ROUND_UP ((0xc0000000 - USER_VADDR_START) / PG_SIZE / 8) PG_SIZE in
  do vaddr_btmp <- on_pm (get_kernel_pages bitmap_pg_cnt);
  if vaddr_btmp =? NULL then ret (-1)
  else
    modify (fun s => set_procs (<[child := UProc (userprog_vaddr p) vaddr_btmp block_desc_init]> (procs s)) s) ;;
    do c <- on_pk (ld_task child);
    ASSERT (name_len (name c) <? 11)%nat ;;
    on_pk (upd_task child (set_name (splice (name c) (name_len (name c)) fork_suffix))) ;;
    ret 0.

(** One page goes from the parent to the child. *)
Definition copy_page (child parent buf_page prog_vaddr : Z) : M pstate unit :=
  do b <- on_pm (ld_page prog_vaddr);
  on_pm (st_page buf_page 0 b) ;;
  activate child ;;
  on_pm (get_a_page_without_opvaddrbitmap PF_USER prog_vaddr) ;;
  do b <- on_pm (ld_page buf_page);
  on_pm (st_page prog_vaddr 0 b) ;;
  activate parent.

Definition copy_body_stack3 (child parent buf_page : Z) : M pstate unit :=
  do s <- get;
  do p <- of_option (procs s !! parent);
  let vaddr_btmp := vaddr_bitmap (userprog_vaddr p) in
  for_range 0 (Z.to_nat (btmp_bytes_len vaddr_btmp)) (fun idx_byte =>
    do byte <- of_option (bits vaddr_btmp !! Z.to_nat idx_byte);
    if truthy byte then
      for_range 0 8 (fun idx_bit =>
        if truthy (Z.land (Z.shiftl BITMAP_MASK idx_bit) byte) then
          copy_page child parent buf_page (u32 ((idx_byte * 8 + idx_bit) * PG_SIZE + vaddr_start (userprog_vaddr p)))
        else ret tt)
    else ret tt).

(** The child returns from the system call with zero, through intr_exit, which
    restores the EFLAGS of its interrupt stack. *)
Definition set_eax (v : Z) (i : intr_stack) : intr_stack :=
  IntrStack (vec_no i) (edi i) (esi i) (ebp i) (esp_dummy i) (ebx i) (edx i) (ecx i) v
    (gs i) (fs i) (es i) (ds i) (err_code i) (eip i) (cs i) (is_eflags i) (esp i) (ss i).
Definition build_child_stack (child : Z) : M pstate Z :=
  let intr_0_stack := child + PG_SIZE - sizeof_intr_stack in
  do s <- get;
  do i <- of_option (stacks s !! intr_0_stack);
  put (set_stacks (<[intr_0_stack := set_eax 0 i]> (stacks s)) s) ;;
  on_pk (modify (fun k => set_frames (<[child := [F_iret (is_eflags i)]]> (k_frames k)) k)) ;;
  on_pk (upd_task child (set_kstack (u32 (intr_0_stack - 4 * 5)))) ;;
  ret 0.

Definition update_inode_open_cnts (thread : Z) : M fstate unit :=
  do t <- on_fp (on_pk (ld_task thread));
  for_range 3 5 (fun local_fd =>
    do global_fd <- of_option (Thread.fd_table t !! Z.to_nat local_fd);
    ASSERT (global_fd <? MAX_FILE_OPEN) ;;
    if negb (global_fd =? -1) then
      on_ffs (do f <- ld_file global_fd;
              do i <- ld_inode (fd_inode f);
              st_inode (fd_inode f) (set_i_open_cnts (u32 (i_open_cnts i + 1)) i))
    else ret tt).

Definition copy_process (child parent : Z) : M fstate Z :=
  do buf_page <- on_fp (on_pm (get_kernel_pages 1));
  if buf_page =? NULL then ret (-1)
  else
    do r <- on_fp (copy_pcb_vaddrbitmap_stack0 child parent);
    if r =? -1 then ret (-1)
    else
      do dir <- on_fp (on_pm create_page_dir);
      on_fp (on_pk (upd_task child (set_pgdir dir))) ;;
      if dir =? NULL then ret (-1)
      else
        on_fp (copy_body_stack3 child parent buf_page) ;;
        on_fp (build_child_stack child) ;;
        update_inode_open_cnts child ;;
        on_fp (on_pm (mfree_page PF_KERNEL buf_page 1)) ;;
        ret 0.

Definition sys_fork : M fstate Z :=
  do parent <- on_fp (on_pk running_thread);
  do child <- on_fp (on_pm (get_kernel_pages 1));
  if child =? NULL then ret (-1)
  else
    do st <- on_fp (on_pk k_intr_get_status);
    do t <- on_fp (on_pk (ld_task parent));
    ASSERT (bool_decide (st = INTR_OFF) && negb (pgdir t =? NULL)) ;;
    do r <- copy_process child parent;
    if r =? -1 then ret (-1)
    else
      do ready <- on_fp (on_pk (gets k_ready));
      do f <- on_fp (on_pk (k_list (elem_find ready (general_tag child))));
      ASSERT (negb f) ;;
      on_fp (on_pk (k_list (list_append ready (general_tag child)))) ;;
      do all <- on_fp (on_pk (gets k_all));
      do f <- on_fp (on_pk (k_list (elem_find all (all_list_tag child))));
      ASSERT (negb f) ;;
      on_fp (on_pk (k_list (list_append all (all_list_tag child)))) ;;
      do c <- on_fp (on_pk (ld_task child));
      ret (pid c).

(** ** Exchanging the address space *)

Definition user_part (t : ptab) : ptab := filter (fun '(p, _) => user_entry p = true) t.
Definition kernel_part (t : ptab) : ptab := filter (fun '(p, _) => user_entry p = false) t.
Definition user_only (t : ptab) : Prop := forall p, is_Some (t !! p) -> user_entry p = true.

Lemma user_part_lookup t p : user_part t !! p = if user_entry p then t !! p else None.
Proof.
  unfold user_part. apply option_eq. intros x. rewrite map_lookup_filter_Some. destruct (user_entry p); naive_solver.
Qed.
Lemma kernel_part_lookup t p : kernel_part t !! p = if user_entry p then None else t !! p.
Proof.
  unfold kernel_part. apply option_eq. intros x. rewrite map_lookup_filter_Some. destruct (user_entry p); naive_solver.
Qed.

(** A window put together from the entries of a process and the kernel's. *)
Lemma joined_lookup u t p : user_only u -> (u ∪ kernel_part t) !! p = if user_entry p then u !! p else t !! p.
Proof.
  intros Hu. rewrite lookup_union, kernel_part_lookup. destruct (user_entry p) eqn:E; [by destruct (u !! p)|].
  destruct (u !! p) eqn:Eu; [|by destruct (t !! p)]. rewrite (Hu p) in E; [done|by eexists].
Qed.

Lemma user_part_only t : user_only (user_part t).
Proof. intros p [x Hx]. rewrite user_part_lookup in Hx. by destruct (user_entry p). Qed.

Lemma rejoined t t' : (forall p, user_entry p = false -> t' !! p = t !! p) -> user_part t ∪ kernel_part t' = t.
Proof.
  intros Hk. apply map_eq. intros p. rewrite joined_lookup by apply user_part_only. rewrite user_part_lookup.
  destruct (user_entry p) eqn:E; [done|by apply Hk].
Qed.

(** The page [v] is in the frame [x], which holds the bytes [b]. *)
Definition page_holds (t : ptab) (data : gmap Z (list Z)) (v x : Z) (b : list Z) : Prop :=
  exists e, t !! pte_ptr v = Some e /\ Z.testbit e 0 = true /\ Z.land e 0xfffff000 = x /\ data !! x = Some b.

Definition activated (s : pstate) (d : Z) (b : list Z) : pstate :=
  set_pm (set_page_tab (default (dir_entries b) (spaces s !! d) ∪ kernel_part (page_tab (pm s))) (pm s))
    (set_spaces (<[active s := user_part (page_tab (pm s))]> (spaces s)) d s).

Lemma activate_run s t tt x b (Q : unit -> pstate -> Prop) :
  k_tasks (pk s) !! t = Some tt -> pgdir tt <> NULL -> pgdir tt <> active s ->
  page_holds (page_tab (pm s)) (page_data (pm s)) (pgdir tt) x b ->
  Q () (activated s (pgdir tt) b) -> wp (activate t) Q s.
Proof.
  intros Ht Hn Ha (e & He & Pe & Hx & Hb) HQ. unfold activate. rewrite wp_bind. unfold on_pk. rewrite wp_zoom.
  eapply wp_ld_task; [exact Ht|]. rewrite (proj2 (Z.eqb_neq (pgdir tt) NULL)) by done. cbn [negb].
  rewrite wp_bind. unfold on_pm. rewrite wp_zoom. cbn [pm set_pk]. eapply ld_page_run; [exact He|done|by rewrite Hx|].
  wp_simp. cbn [pm set_pm set_pk active spaces]. rewrite lookup_insert_ne by (by apply not_eq_sym).
  unfold activated in HQ. destruct (spaces s !! pgdir tt); exact HQ.
Qed.

Lemma wp_on_pm {A} (m : M pmem A) (Q : A -> pstate -> Prop) s : wp (on_pm m) Q s = wp m (fun a p => Q a (set_pm p s)) (pm s).
Proof. unfold on_pm. by rewrite wp_zoom. Qed.

Lemma ld_page_holds t v x b m (Q : list Z -> pmem -> Prop) :
  page_holds t (page_data m) v x b -> page_tab m !! pte_ptr v = t !! pte_ptr v -> Q b m -> wp (ld_page v) Q m.
Proof. intros (e & He & Pe & Hx & Hb) Ht HQ. eapply ld_page_run; [by rewrite Ht|done|by rewrite Hx|done]. Qed.

Lemma st_page_holds t v x b l m (Q : unit -> pmem -> Prop) :
  page_holds t (page_data m) v x b -> page_tab m !! pte_ptr v = t !! pte_ptr v -> length l = length b ->
  Q () (set_page_data (<[x := l]> (page_data m)) m) -> wp (st_page v 0 l) Q m.
Proof.
  intros (e & He & Pe & Hx & Hb) Ht Hl HQ. eapply st_page_run; [by rewrite Ht|done|by rewrite Hx|].
  unfold splice. cbn [take app]. rewrite drop_ge, app_nil_r by (cbn; lia). by rewrite Hx.
Qed.

(** Which entries are the user's. *)
Lemma user_pte v : 0 <= v < 0xc0000000 -> user_entry (pte_ptr v) = true /\ pte_ptr v < 0xfff00000.
Proof.
  intros Hv. rewrite pte_ptr_linear by lia. unfold user_entry. split; [|dlia]. apply orb_true_iff. left. apply Z.ltb_lt. dlia.
Qed.
Lemma user_pde d : 0 <= d < 768 -> user_entry (0xfffff000 + 4 * d) = true.
Proof.
  intros Hd. unfold user_entry. apply orb_true_iff. right. apply andb_true_iff. rewrite Z.leb_le, Z.ltb_lt. lia.
Qed.
Lemma kernel_pte v : 0xc0000000 <= v < 0xffc00000 -> user_entry (pte_ptr v) = false.
Proof.
  intros Hv. rewrite pte_ptr_linear by lia. unfold user_entry. apply orb_false_iff.
  rewrite Z.ltb_ge, andb_false_iff, Z.leb_gt. dlia.
Qed.
Lemma table_user d q : 0 <= d < 768 -> in_table d q = true -> user_entry q = true.
Proof.
  intros Hd. unfold in_table, user_entry. rewrite !andb_true_iff, Z.leb_le, !Z.ltb_lt. intros [[? ?] _].
  apply orb_true_iff. left. apply Z.ltb_lt. lia.
Qed.

(** ** The copy of a page *)

(** The pages that a process has in use, by its bitmap. *)
Definition page_of (va : virtual_addr) (i : Z) : Z := vaddr_start va + i * PG_SIZE.
Definition used_pages (va : virtual_addr) (n : Z) : list Z :=
  page_of va <$> filter (fun i => bit_used (vaddr_bitmap va) i = true) (seqZ 0 n).

Definition user_page (v : Z) : Prop := v mod PG_SIZE = 0 /\ 0 <= v < 0xc0000000.

(** A task that is ready to be copied: both directories and the buffer are
    pages of the kernel, the directory of the child has no user entries, and
    the pools have a frame for every page and for every table. *)
Record can_copy (s : pstate) (child parent buf : Z) (tc tp : task_struct) (vs uf kf : list Z) (fb fc fp : Z) (bb bc bp : list Z) : Prop := {
  cc_child : k_tasks (pk s) !! child = Some tc;
  cc_parent : k_tasks (pk s) !! parent = Some tp;
  cc_dirs : pgdir tc <> NULL /\ pgdir tp <> NULL /\ pgdir tc <> pgdir tp /\ active s = pgdir tp /\ spaces s !! pgdir tc = None;
  cc_kernel : 0xc0000000 <= buf < 0xffc00000 /\ 0xc0000000 <= pgdir tc < 0xffc00000 /\ 0xc0000000 <= pgdir tp < 0xffc00000;
  cc_buf : page_holds (page_tab (pm s)) (page_data (pm s)) buf fb bb /\ length bb = Z.to_nat PG_SIZE;
  cc_cdir : page_holds (page_tab (pm s)) (page_data (pm s)) (pgdir tc) fc bc /\ forall i, (i < 768)%nat -> rd32 bc (4 * i) = 0;
  cc_pdir : page_holds (page_tab (pm s)) (page_data (pm s)) (pgdir tp) fp bp;
  cc_pages : forall v, v ∈ vs -> user_page v /\ exists x b, page_holds (page_tab (pm s)) (page_data (pm s)) v x b /\
    length b = Z.to_nat PG_SIZE /\ x <> fb /\ forall k, k ∈ seqZ 0 (ulen (pm s)) -> bit_used (ubits (pm s)) k = false -> x <> uframe (pm s) k;
  cc_nodup : NoDup vs;
  cc_apart : fc <> fb /\ fp <> fb /\ forall k, 0 <= k < ulen (pm s) -> bit_used (ubits (pm s)) k = false ->
    uframe (pm s) k <> fb /\ uframe (pm s) k <> fc /\ uframe (pm s) k <> fp;
  cc_upool : pool_ok (ubits (pm s)) (phy_addr_start (user_pool (pm s))) /\ 0 <= pool_lock (user_pool (pm s));
  cc_kpool : pool_ok (kbits (pm s)) (phy_addr_start (kernel_pool (pm s)));
  cc_uf : NoDup uf /\ (length vs <= length uf)%nat /\ forall k, k ∈ uf -> 0 <= k < ulen (pm s) /\ bit_used (ubits (pm s)) k = false;
  cc_kf : NoDup kf /\ (size (list_to_set (dir_of <$> vs) : gset Z) <= length kf)%nat /\
    forall g, g ∈ kf -> 0 <= g < klen (pm s) /\ bit_used (kbits (pm s)) g = false;
  cc_ram : forall k, 0 <= k < ulen (pm s) -> exists b, page_data (pm s) !! uframe (pm s) k = Some b /\ length b = Z.to_nat PG_SIZE
}.

(** The entries of the child after the pages [done]: page [i] of them is in the
    user frame [us !! i], there are tables for [ds], and nothing else is mapped. *)
Record tab_ok (m0 : pmem) (done us ds : list Z) (u : ptab) : Prop := {
  to_user : user_only u;
  to_pde : forall d, 0 <= d < 768 -> exists e, u !! (0xfffff000 + 4 * d) = Some e /\ Z.testbit e 0 = bool_decide (d ∈ ds);
  to_table : forall v, user_page v -> dir_of v ∈ ds -> is_Some (u !! pte_ptr v);
  to_mapped : forall i v k, done !! i = Some v -> us !! i = Some k -> u !! pte_ptr v = Some (uframe m0 k + 7);
  to_unmapped : forall v e, user_page v -> v ∉ done -> u !! pte_ptr v = Some e -> Z.testbit e 0 = false
}.

Lemma user_page_bound v : user_page v -> 0 <= v < 2 ^ 32.
Proof. intros [_ Hv]. lia. Qed.

Lemma user_page_dir v : user_page v -> 0 <= dir_of v < 768.
Proof. intros [_ Hv]. unfold dir_of. dlia. Qed.

Lemma user_page_inj v w : user_page v -> user_page w -> pte_ptr v = pte_ptr w -> v = w.
Proof.
  intros Hv Hw E. pose proof (user_page_bound v Hv). pose proof (user_page_bound w Hw). destruct Hv as [Hv _], Hw as [Hw _].
  apply pte_ptr_inj in E; [|done|done]. unfold PG_SIZE in *. dlia.
Qed.

(** A page-table entry is not an entry of the directory. *)
Lemma user_pte_pde v w : user_page v -> user_page w -> pte_ptr v <> pde_ptr w.
Proof.
  intros Hv Hw. pose proof (user_page_bound w Hw). pose proof (user_page_dir w Hw). destruct Hv as [_ Hv].
  destruct (user_pte v Hv) as [_ Hlt]. rewrite pde_ptr_linear by done. lia.
Qed.

Lemma tab_added_kernel t t' v f g p : user_page v -> tab_added t t' v f g -> user_entry p = false -> t' !! p = t !! p.
Proof.
  intros Hv Ht Hp. rewrite Ht. pose proof (user_page_bound v Hv). pose proof (user_page_dir v Hv).
  destruct (Z.eqb_spec p (pte_ptr v)) as [->|_]; [by rewrite (proj1 (user_pte v (proj2 Hv))) in Hp|].
  destruct g as [g|]; [|done]. destruct (in_table (dir_of v) p) eqn:E; [by rewrite (table_user (dir_of v)) in Hp by done|].
  destruct (Z.eqb_spec p (pde_ptr v)) as [->|_]; [|done]. by rewrite pde_ptr_linear, user_pde in Hp by done.
Qed.

(** The entries of the child with one more page. *)
Lemma tab_ok_add m0 done us ds u t v k og :
  tab_ok m0 done us ds u -> user_page v -> v ∉ done -> length us = length done -> (forall w, w ∈ done -> user_page w) ->
  match og with None => dir_of v ∈ ds | Some _ => dir_of v ∉ ds end ->
  (match og with Some g => Z.testbit (g + 7) 0 = true | None => True end) ->
  (forall w, w ∈ done -> dir_of w ∈ ds) ->
  tab_added (u ∪ kernel_part (page_tab m0)) t v (uframe m0 k) og ->
  tab_ok m0 (done ++ [v]) (us ++ [k]) (match og with None => ds | Some _ => ds ++ [dir_of v] end) (user_part t).
Proof.
  intros [Uu Up Ut Um Un] Hv Hnd Hlen Hup Hog Hgb Hds Ht. pose proof (user_page_bound v Hv) as Hvb. pose proof (user_page_dir v Hv) as Hvd.
  assert (Hpte : forall w, user_page w -> w <> v -> user_part t !! pte_ptr w =
    match og with Some _ => if dir_of w =? dir_of v then Some 0 else u !! pte_ptr w | None => u !! pte_ptr w end).
  { intros w Hw Hne. pose proof (user_page_bound w Hw) as Hwb. destruct (user_pte w (proj2 Hw)) as [Hue _].
    rewrite user_part_lookup, Hue, Ht, (joined_lookup _ _ _ Uu), Hue.
    rewrite (proj2 (Z.eqb_neq (pte_ptr w) (pte_ptr v))) by (intros E; apply Hne; by apply user_page_inj).
    destruct og as [g|]; [|done]. rewrite in_table_pte by done. destruct (dir_of w =? dir_of v); [done|].
    by rewrite (proj2 (Z.eqb_neq _ _)) by by apply user_pte_pde. }
  assert (Hptv : user_part t !! pte_ptr v = Some (uframe m0 k + 7)).
  { rewrite user_part_lookup, (proj1 (user_pte v (proj2 Hv))), Ht. by rewrite Z.eqb_refl. }
  split.
  - apply user_part_only.
  - intros d Hd. assert (Hq : 0xfffff000 + 4 * d <> pte_ptr v) by (destruct (user_pte v (proj2 Hv)); lia).
    rewrite user_part_lookup, user_pde, Ht, (joined_lookup _ _ _ Uu), user_pde by done. rewrite (proj2 (Z.eqb_neq _ _)) by done.
    destruct og as [g|]; [|by apply Up].
    assert (Hit : in_table (dir_of v) (0xfffff000 + 4 * d) = false).
    { unfold in_table. rewrite !andb_false_iff, Z.leb_gt, Z.ltb_ge. lia. }
    rewrite Hit, pde_ptr_linear by done. destruct (Z.eqb_spec (0xfffff000 + 4 * d) (0xfffff000 + 4 * dir_of v)) as [E|E].
    + exists (g + 7). split; [done|]. rewrite Hgb. symmetry. apply bool_decide_true. assert (d = dir_of v) as -> by lia.
      apply elem_of_app. right. by apply list_elem_of_singleton.
    + destruct (Up d Hd) as (e & He & Eb). exists e. split; [done|]. rewrite Eb. apply bool_decide_ext. assert (d <> dir_of v) by lia.
      rewrite elem_of_app, list_elem_of_singleton. tauto.
  - intros w Hw Hwd. destruct (decide (w = v)) as [->|Hne]; [by eexists|]. rewrite (Hpte w Hw Hne).
    destruct og as [g|]; [|by apply Ut]. destruct (Z.eqb_spec (dir_of w) (dir_of v)); [by eexists|]. apply Ut; [done|].
    apply elem_of_app in Hwd as [|Hwd]; [done|]. by apply list_elem_of_singleton in Hwd.
  - intros i w k' Hi Hk. destruct (decide (i < length done)%nat) as [Hlt|Hge].
    + rewrite lookup_app_l in Hi by done. rewrite lookup_app_l in Hk by lia. pose proof (list_elem_of_lookup_2 _ _ _ Hi) as Hin.
      rewrite (Hpte w) by (auto || (intros ->; done)). rewrite <- (Um i w k' Hi Hk).
      destruct og as [g|]; [|done]. destruct (Z.eqb_spec (dir_of w) (dir_of v)) as [E|]; [|done]. exfalso. apply Hog. rewrite <- E. auto.
    + rewrite lookup_app_r in Hi by lia. rewrite lookup_app_r in Hk by lia.
      apply list_lookup_singleton_Some in Hi as [_ <-]. apply list_lookup_singleton_Some in Hk as [_ <-]. done.
  - intros w e Hw Hnin He. assert (Hne : w <> v) by (intros ->; apply Hnin, elem_of_app; right; by apply list_elem_of_singleton). rewrite (Hpte w Hw Hne) in He.
    assert (Hnd' : w ∉ done) by (intros Hin; apply Hnin, elem_of_app; by left). destruct og as [g|]; [|by apply (Un w)].
    destruct (dir_of w =? dir_of v); [by injection He as <-|by apply (Un w)].
Qed.
Section copy.
Context (s0 : pstate) (child parent buf : Z) (tc tp : task_struct) (vs uf kf : list Z) (fb fc fp : Z) (bb bc bp : list Z).
Context (Hcc : can_copy s0 child parent buf tc tp vs uf kf fb fc fp bb bc bp).

Local Notation T := (page_tab (pm s0)).

(** What the window will show of the child. *)
Definition child_tab (s : pstate) : ptab := default (dir_entries bc) (spaces s !! pgdir tc).

(** The whole state then; the tables are in the kernel frames [ks]. *)
Record copied (done us ds ks : list Z) (s : pstate) : Prop := {
  cp_rest : pk s = pk s0 /\ procs s = procs s0 /\ next_pid s = next_pid s0 /\ stacks s = stacks s0 /\ active s = pgdir tp;
  cp_tab : page_tab (pm s) = T;
  cp_starts : phy_addr_start (user_pool (pm s)) = phy_addr_start (user_pool (pm s0)) /\
    phy_addr_start (kernel_pool (pm s)) = phy_addr_start (kernel_pool (pm s0)) /\ pool_lock (user_pool (pm s)) = pool_lock (user_pool (pm s0));
  cp_ubits : bits_upd (ubits (pm s0)) (ubits (pm s)) (fun k => bool_decide (k ∈ us)) true;
  cp_kbits : bits_upd (kbits (pm s0)) (kbits (pm s)) (fun g => bool_decide (g ∈ ks)) true;
  cp_us : NoDup us /\ length us = length done /\ forall k, k ∈ us -> 0 <= k < ulen (pm s0) /\ bit_used (ubits (pm s0)) k = false;
  cp_ks : NoDup ks /\ forall g, g ∈ ks -> 0 <= g < klen (pm s0) /\ bit_used (kbits (pm s0)) g = false;
  cp_ds : NoDup ds /\ length ds = length ks /\ forall d, d ∈ ds <-> exists v, v ∈ done /\ dir_of v = d;
  cp_child : tab_ok (pm s0) done us ds (child_tab s);
  cp_bytes : forall i v k x b, done !! i = Some v -> us !! i = Some k -> page_holds T (page_data (pm s0)) v x b ->
    page_data (pm s) !! uframe (pm s0) k = Some b;
  cp_data : forall x, x <> fb -> (forall k, k ∈ us -> x <> uframe (pm s0) k) -> page_data (pm s) !! x = page_data (pm s0) !! x;
  cp_buf : exists b, page_data (pm s) !! fb = Some b /\ length b = Z.to_nat PG_SIZE
}.

Lemma dir_entries_lookup q e : dir_entries bc !! q = Some e -> e = 0 /\ exists i, 0 <= i < 768 /\ q = 0xfffff000 + 4 * i.
Proof using Hcc.
  intros Hq. apply elem_of_list_to_map_2, list_elem_of_fmap in Hq as (i & [= -> ->] & Hi). apply elem_of_seqZ in Hi.
  split; [|exists i; split; [lia|done]]. destruct (cc_cdir _ _ _ _ _ _ _ _ _ _ _ _ _ _ _ Hcc) as [_ Hz].
  replace (Z.to_nat (4 * i)) with (4 * Z.to_nat i)%nat by lia. apply Hz. lia.
Qed.

Lemma dir_entries_at i : 0 <= i < 768 -> dir_entries bc !! (0xfffff000 + 4 * i) = Some 0.
Proof using Hcc.
  intros Hi. destruct (dir_entries bc !! (0xfffff000 + 4 * i)) as [e|] eqn:E.
  - by apply dir_entries_lookup in E as [-> _].
  - exfalso. apply not_elem_of_list_to_map_2 in E. apply E. rewrite <- list_fmap_compose. apply list_elem_of_fmap. exists i.
    split; [done|]. apply elem_of_seqZ. lia.
Qed.

Lemma copied_start : copied [] [] [] [] s0.
Proof using Hcc.
  destruct (cc_dirs _ _ _ _ _ _ _ _ _ _ _ _ _ _ _ Hcc) as (_ & _ & _ & Ha & Hsp).
  assert (Hu : child_tab s0 = dir_entries bc) by (unfold child_tab; by rewrite Hsp).
  assert (Hnil : forall b : bitmap, bitmap_wf b -> bits_upd b b (fun k => bool_decide (k ∈ [])) true).
  { intros b Hb. split; [done|done|done|]. intros j _. by rewrite bool_decide_false by apply not_elem_of_nil. }
  split; rewrite ?Hu.
  - by repeat split.
  - reflexivity.
  - by repeat split.
  - apply Hnil, (cc_upool _ _ _ _ _ _ _ _ _ _ _ _ _ _ _ Hcc).
  - apply Hnil, (cc_kpool _ _ _ _ _ _ _ _ _ _ _ _ _ _ _ Hcc).
  - split; [apply NoDup_nil_2|]. split; [reflexivity|]. intros k []%not_elem_of_nil.
  - split; [apply NoDup_nil_2|]. intros k []%not_elem_of_nil.
  - split; [apply NoDup_nil_2|]. split; [reflexivity|].
    intros d. split; [intros []%not_elem_of_nil|intros (v & []%not_elem_of_nil & _)].
  - split.
    + intros q [e He]. apply dir_entries_lookup in He as (_ & i & Hi & ->). by apply user_pde.
    + intros d Hd. exists 0. split; [by apply dir_entries_at|]. by rewrite bool_decide_false by apply not_elem_of_nil.
    + intros v _ []%not_elem_of_nil.
    + intros i v k Hi. discriminate Hi.
    + intros v e [_ Hv] _ He. by apply dir_entries_lookup in He as [-> _].
  - intros i v k x b Hi. discriminate Hi.
  - intros x _ _. reflexivity.
  - destruct (cc_buf _ _ _ _ _ _ _ _ _ _ _ _ _ _ _ Hcc) as [(e & _ & _ & _ & Hb) Hl]. by exists bb.
Qed.

(** What the bitmaps say after some frames have been taken. *)
Lemma bits_upd_add b b' b'' (us : list Z) k :
  bits_upd b b' (fun i => bool_decide (i ∈ us)) true -> bits_upd b' b'' (fun i => i =? k) true ->
  bits_upd b b'' (fun i => bool_decide (i ∈ us ++ [k])) true.
Proof using.
  intros [W1 L1 M1 B1] [W2 L2 M2 B2]. split; [done|congruence|congruence|]. intros j Hj. rewrite B2, B1 by done.
  destruct (Z.eqb_spec j k) as [->|Hne].
  - rewrite bool_decide_true; [done|]. apply elem_of_app. right. by apply list_elem_of_singleton.
  - rewrite (bool_decide_ext (j ∈ us ++ [k]) (j ∈ us)); [done|]. rewrite elem_of_app, list_elem_of_singleton. tauto.
Qed.

Lemma bits_upd_free b b' (us : list Z) k : bits_upd b b' (fun i => bool_decide (i ∈ us)) true -> 0 <= k -> bit_used b' k = false ->
  bit_used b k = false /\ k ∉ us.
Proof using. intros [_ _ _ B] Hk Hf. rewrite B in Hf by done. by destruct (bool_decide_reflect (k ∈ us)). Qed.

Lemma nodup_snoc (l : list Z) (x : Z) : NoDup l -> x ∉ l -> NoDup (l ++ [x]).
Proof using.
  intros Hl Hx. apply list.NoDup_app. split; [done|]. split; [|apply NoDup_singleton]. intros y Hy ->%list_elem_of_singleton. done.
Qed.

Lemma uframe_inj m k k' : uframe m k = uframe m k' -> k = k'.
Proof using. unfold uframe, PG_SIZE. lia. Qed.

(** A frame of the parent is not the buffer, nor a frame given to the child. *)
Lemma copied_kept done us ds ks s v x b :
  copied done us ds ks s -> v ∈ vs -> page_holds T (page_data (pm s0)) v x b ->
  page_holds T (page_data (pm s)) v x b /\ length b = Z.to_nat PG_SIZE.
Proof using Hcc.
  intros Hc Hv (e & He & Pe & Hx & Hb). destruct (cc_pages _ _ _ _ _ _ _ _ _ _ _ _ _ _ _ Hcc v Hv) as (_ & x' & b' & (e' & He' & _ & Hx' & Hb') & Hl & Hfb & Hfr).
  assert (x' = x) as -> by congruence. assert (b' = b) as -> by congruence. split; [|done].
  exists e. split; [done|]. split; [done|]. split; [done|]. rewrite (cp_data _ _ _ _ _ Hc); [done|done|]. intros k Hk.
  destruct (cp_us _ _ _ _ _ Hc) as (_ & _ & Hus). destruct (Hus k Hk) as [Hr Hf]. apply Hfr; [|done]. apply elem_of_seqZ. lia.
Qed.

Lemma copied_add done us ds ks s s5 m2 m' v k og b x :
  copied done us ds ks s -> v ∈ vs -> v ∉ done -> (forall w, w ∈ done -> w ∈ vs) ->
  page_holds T (page_data (pm s0)) v x b -> page_got m2 m' v k (bool_decide (dir_of v ∈ ds)) og ->
  ubits m2 = ubits (pm s) -> kbits m2 = kbits (pm s) -> user_pool m2 = user_pool (pm s) -> kernel_pool m2 = kernel_pool (pm s) ->
  page_tab m2 = child_tab s ∪ kernel_part T ->
  pk s5 = pk s -> procs s5 = procs s -> next_pid s5 = next_pid s -> stacks s5 = stacks s -> active s5 = active s ->
  page_tab (pm s5) = T -> user_pool (pm s5) = user_pool m' -> kernel_pool (pm s5) = kernel_pool m' ->
  pool_lock (user_pool m') = pool_lock (user_pool m2) ->
  page_data (pm s5) = <[uframe (pm s0) k := b]> (<[fb := b]> (page_data (pm s))) -> child_tab s5 = user_part (page_tab m') ->
  copied (done ++ [v]) (us ++ [k]) (match og with None => ds | Some _ => ds ++ [dir_of v] end)
    (match og with None => ks | Some g => ks ++ [g] end) s5.
Proof using Hcc.
  intros Hc Hv Hnd Hsub Hxb Hg Eu Ek Eup Ekp Et E1 E2 E3 E4 E5 ET EU EK EL ED EC.
  destruct (copied_kept _ _ _ _ _ _ _ _ Hc Hv Hxb) as [_ Hlen].
  destruct (cc_pages _ _ _ _ _ _ _ _ _ _ _ _ _ _ _ Hcc v Hv) as (Hup & _).
  destruct Hg as [[Hk Hkf] Gub Gus Gks Gkb Gtab Gdata]. rewrite Eu in *. rewrite Ek in *.
  destruct Hc as [(R1 & R2 & R3 & R4 & R5) Htab (S1 & S2 & S3) Hub Hkb (N1 & N2 & N3) (N4 & N5) (N6 & N7 & N8) Hchild Hby Hda Hbu].
  assert (Huf : uframe m2 k = uframe (pm s0) k) by (unfold uframe; by rewrite Eup, S1).
  assert (Hkr : 0 <= k < ulen (pm s0)) by (unfold ulen in *; rewrite Eu, (bu_len _ _ _ _ Hub) in Hk; done).
  destruct (bits_upd_free _ _ _ _ Hub (proj1 Hk) Hkf) as [Hk0 Hknew].
  destruct (cc_apart _ _ _ _ _ _ _ _ _ _ _ _ _ _ _ Hcc) as (_ & _ & Hap). destruct (Hap k Hkr Hk0) as [Hkb1 _].
  split.
  - by rewrite E1, E2, E3, E4, E5.
  - done.
  - rewrite EU, EK, Gus, Gks, EL, Eup, Ekp. done.
  - unfold ubits at 2. rewrite EU. by eapply bits_upd_add.
  - unfold kbits at 2. rewrite EK. fold (kbits m'). destruct og as [g|].
    + destruct Gkb as (_ & _ & _ & Gkb). by eapply bits_upd_add.
    + destruct Gkb as (_ & ->). done.
  - split; [by apply nodup_snoc|]. split; [rewrite !length_app; cbn; lia|]. intros k' [Hin| ->%list_elem_of_singleton]%elem_of_app; auto.
  - destruct og as [g|]; [|by split]. destruct Gkb as (_ & Hgr & Hgf & _).
    destruct (bits_upd_free _ _ _ _ Hkb (proj1 Hgr) Hgf) as [Hg0 Hgnew]. split; [by apply nodup_snoc|].
    intros g' [Hin| ->%list_elem_of_singleton]%elem_of_app; [auto|]. split; [|done].
    unfold klen in *. rewrite Ek, (bu_len _ _ _ _ Hkb) in Hgr. done.
  - assert (Hds : forall d, (exists w, w ∈ done ++ [v] /\ dir_of w = d) <-> d ∈ ds \/ d = dir_of v).
    { intros d. rewrite N8. split.
      - intros (w & [Hw| ->%list_elem_of_singleton]%elem_of_app & <-); [left; by exists w|by right].
      - intros [(w & Hw & <-)| ->]; [exists w|exists v]; rewrite elem_of_app, list_elem_of_singleton; auto. }
    destruct og as [g|].
    + destruct Gkb as (Htb & _). case_bool_decide as Hdn; [done|]. split; [by apply nodup_snoc|].
      split; [rewrite !length_app; cbn; lia|]. intros d. rewrite Hds, elem_of_app, list_elem_of_singleton. done.
    + destruct Gkb as (Htb & _). case_bool_decide as Hdn; [|done]. split; [done|]. split; [done|].
      intros d. rewrite Hds. split; [by left|]. intros [Hd|Hd]; [done|by rewrite Hd].
  - rewrite EC. rewrite Et, Huf in Gtab.
    pose proof (tab_ok_add (pm s0) done us ds (child_tab s) (page_tab m') v k (kframe m2 <$> og)) as Hadd.
    destruct og as [g|]; apply Hadd; try done; try (intros w Hw; apply (cc_pages _ _ _ _ _ _ _ _ _ _ _ _ _ _ _ Hcc); auto).
    + destruct Gkb as (Htb & _). by case_bool_decide.
    + destruct Gkb as (_ & Hgr & _). destruct (cc_kpool _ _ _ _ _ _ _ _ _ _ _ _ _ _ _ Hcc) as [_ Ha Hs He].
      assert (Hkm : kframe m2 g mod PG_SIZE = 0) by (unfold kframe; rewrite Ekp, S2, Z.mod_add; done).
      change (Z.testbit (kframe m2 g + 7) 0 = true). rewrite Z.bit0_odd. apply Z.odd_spec. exists ((kframe m2 g + 6) / 2). unfold PG_SIZE in Hkm. dlia.
    + intros w Hw. apply N8. by exists w.
    + destruct Gkb as (Htb & _). by case_bool_decide.
    + intros w Hw. apply N8. by exists w.
  - intros i w k' x' b' Hi Hk' Hxb'. rewrite ED. destruct (decide (i < length done)%nat) as [Hlt|Hge].
    + rewrite lookup_app_l in Hi by done. rewrite lookup_app_l in Hk' by lia.
      pose proof (list_elem_of_lookup_2 _ _ _ Hk') as Hin. destruct (N3 k' Hin) as [Hr' Hf'].
      rewrite lookup_insert_ne by (intros E%uframe_inj; congruence). rewrite lookup_insert_ne by (apply not_eq_sym; by apply Hap).
      by apply (Hby i w k' x').
    + rewrite lookup_app_r in Hi by lia. rewrite lookup_app_r in Hk' by lia.
      apply list_lookup_singleton_Some in Hi as [_ <-]. apply list_lookup_singleton_Some in Hk' as [_ <-].
      rewrite lookup_insert_eq. destruct Hxb as (? & ? & ? & ? & ?), Hxb' as (? & ? & ? & ? & ?). congruence.
  - intros y Hy Hyk. rewrite ED, lookup_insert_ne, lookup_insert_ne; [|done|].
    + apply Hda; [done|]. intros k' Hk'. apply Hyk, elem_of_app. by left.
    + apply not_eq_sym, Hyk, elem_of_app. right. by apply list_elem_of_singleton.
  - exists b. rewrite ED, lookup_insert_ne by done. by rewrite lookup_insert_eq.
Qed.
Lemma length_distinct (l : list Z) (us : list Z) (w : Z) :
  NoDup us -> w ∉ us -> (forall d, d ∈ w :: us -> d ∈ dir_of <$> l) -> (length us < size (list_to_set (dir_of <$> l) : gset Z))%nat.
Proof using.
  intros Hn Hw Hd. assert (Hs : size (list_to_set (w :: us) : gset Z) = length (w :: us)) by (apply size_list_to_set; by constructor).
  assert (Hsub : (list_to_set (w :: us) : gset Z) ⊆ list_to_set (dir_of <$> l)).
  { intros d. rewrite !elem_of_list_to_set. apply Hd. }
  apply subseteq_size in Hsub. rewrite Hs in Hsub. cbn [length] in Hsub. lia.
Qed.

(** The frames that the next page needs are there. *)
Lemma frames_left done us ds ks s v :
  copied done us ds ks s -> v ∈ vs -> v ∉ done -> NoDup done -> (forall w, w ∈ done -> w ∈ vs) ->
  (exists i, 0 <= i < ulen (pm s) /\ bit_used (ubits (pm s)) i = false) /\
  (dir_of v ∉ ds -> exists j, 0 <= j < klen (pm s) /\ bit_used (kbits (pm s)) j = false).
Proof using Hcc.
  intros Hc Hv Hnd Hdn Hsub.
  destruct (cc_uf _ _ _ _ _ _ _ _ _ _ _ _ _ _ _ Hcc) as (U1 & U2 & U3). destruct (cc_kf _ _ _ _ _ _ _ _ _ _ _ _ _ _ _ Hcc) as (K1 & K2 & K3).
  destruct (cp_us _ _ _ _ _ Hc) as (N1 & N2 & N3). destruct (cp_ks _ _ _ _ _ Hc) as (N4 & N5). destruct (cp_ds _ _ _ _ _ Hc) as (N6 & N7 & N8).
  assert (Hlt : (length done < length vs)%nat).
  { assert (Hs : v :: done ⊆+ vs) by (apply NoDup_submseteq; [by constructor|]; intros w [->|Hw]%elem_of_cons; auto).
    apply submseteq_length in Hs. cbn in Hs. lia. }
  split.
  - destruct (fresh_elem uf us U1) as (i & Hi & Hiu); [lia|]. destruct (U3 i Hi) as [Hir Hif]. exists i.
    pose proof (cp_ubits _ _ _ _ _ Hc) as [_ L _ B]. unfold ulen in *. rewrite L. split; [done|]. rewrite B by lia.
    by rewrite bool_decide_false.
  - intros Hd. assert (Hlk : (length ds < size (list_to_set (dir_of <$> vs) : gset Z))%nat).
    { apply (length_distinct vs ds (dir_of v)); [done|done|]. intros d [->|Hd']%elem_of_cons; apply list_elem_of_fmap; [by exists v|].
      apply N8 in Hd' as (w & Hw & <-). exists w. auto. }
    destruct (fresh_elem kf ks K1) as (j & Hj & Hjk); [lia|]. destruct (K3 j Hj) as [Hjr Hjf]. exists j.
    pose proof (cp_kbits _ _ _ _ _ Hc) as [_ L _ B]. unfold klen in *. rewrite L. split; [done|]. rewrite B by lia.
    by rewrite bool_decide_false.
Qed.

Lemma pool_ok_upd b b' start start' us : pool_ok b start -> bits_upd b b' us true -> start' = start -> pool_ok b' start'.
Proof using. intros [W A S E] [W' L _ _] ->. split; try done. by rewrite L. Qed.

Lemma child_window done us ds ks s v : copied done us ds ks s -> user_page v ->
  exists d, (child_tab s ∪ kernel_part T) !! pde_ptr v = Some d /\ Z.testbit d 0 = bool_decide (dir_of v ∈ ds) /\
    (v ∉ done -> dir_of v ∈ ds -> exists e, (child_tab s ∪ kernel_part T) !! pte_ptr v = Some e /\ Z.testbit e 0 = false).
Proof using.
  intros Hc Hv. destruct (cp_child _ _ _ _ _ Hc) as [Uu Up Ut _ Un]. pose proof (user_page_bound v Hv). pose proof (user_page_dir v Hv) as Hd.
  destruct (Up _ Hd) as (d & Hd1 & Hd2). exists d. rewrite pde_ptr_linear, (joined_lookup _ _ _ Uu), user_pde by done. split; [done|]. split; [done|].
  intros Hnd Hin. destruct (Ut v Hv Hin) as [e He]. exists e.
  rewrite (joined_lookup _ _ _ Uu), (proj1 (user_pte v (proj2 Hv))). split; [done|]. by apply (Un v).
Qed.

(** A page of the kernel seen through another window. *)
Lemma kernel_page_holds t t' data data' w x b :
  0xc0000000 <= w < 0xffc00000 -> (forall p, user_entry p = false -> t' !! p = t !! p) -> data' !! x = Some b ->
  (exists b0, page_holds t data w x b0) -> page_holds t' data' w x b.
Proof using.
  intros Hw Ht Hb (b0 & e & He & Pe & Hx & _). exists e. split; [|done]. rewrite Ht; [done|]. by apply kernel_pte.
Qed.

Lemma joined_kernel u p : user_only u -> user_entry p = false -> (u ∪ kernel_part T) !! p = T !! p.
Proof using. intros Hu Hp. by rewrite joined_lookup, Hp. Qed.

Lemma free_frame done us ds ks s k : copied done us ds ks s -> 0 <= k < ulen (pm s) -> bit_used (ubits (pm s)) k = false ->
  0 <= k < ulen (pm s0) /\ bit_used (ubits (pm s0)) k = false /\ k ∉ us.
Proof using.
  intros Hc Hk Hf. destruct (bits_upd_free _ _ _ _ (cp_ubits _ _ _ _ _ Hc) (proj1 Hk) Hf) as [Hf0 Hn].
  unfold ulen in *. rewrite (bu_len _ _ _ _ (cp_ubits _ _ _ _ _ Hc)) in Hk. done.
Qed.

(** The frame of a free page of the pool has kept its bytes. *)
Lemma free_data done us ds ks s k : copied done us ds ks s -> 0 <= k < ulen (pm s0) -> bit_used (ubits (pm s0)) k = false -> k ∉ us ->
  exists b, page_data (pm s) !! uframe (pm s0) k = Some b /\ length b = Z.to_nat PG_SIZE.
Proof using Hcc.
  intros Hc Hk Hf Hn. destruct (cc_ram _ _ _ _ _ _ _ _ _ _ _ _ _ _ _ Hcc k Hk) as (b & Hb & Hl). exists b. split; [|done].
  destruct (cc_apart _ _ _ _ _ _ _ _ _ _ _ _ _ _ _ Hcc) as (_ & _ & Hap).
  rewrite (cp_data _ _ _ _ _ Hc); [done|by apply Hap|]. intros k' Hk' ->%uframe_inj. done.
Qed.

(** A page that the kernel keeps for itself has kept its bytes. *)
Lemma kernel_data done us ds ks s x b : copied done us ds ks s -> x <> fb ->
  (forall k, 0 <= k < ulen (pm s0) -> bit_used (ubits (pm s0)) k = false -> uframe (pm s0) k <> x) ->
  page_data (pm s0) !! x = Some b -> page_data (pm s) !! x = Some b.
Proof using.
  intros Hc Hx Hap Hb. rewrite (cp_data _ _ _ _ _ Hc); [done|done|]. intros k Hk ->.
  destruct (cp_us _ _ _ _ _ Hc) as (_ & _ & Hus). destruct (Hus k Hk) as [Hr Hf]. by apply (Hap k).
Qed.

(** The entry of a page that has just been added. *)
Lemma added_holds t t' v f g data b : 0 <= f < 2 ^ 32 -> f mod PG_SIZE = 0 -> tab_added t t' v f g -> data !! f = Some b ->
  page_holds t' data v f b.
Proof using.
  intros Hf Hm Ht Hb. destruct (pte_flags_frame f Hf Hm) as (_ & Hp & Hfr). cbv zeta in *. rewrite pte_flags_add in * by (done || lia).
  rewrite u32_small in * by (unfold PG_SIZE in Hm; dlia). exists (f + 7). rewrite Ht, Z.eqb_refl. done.
Qed.

(** The steps that are taken in the directory of the child. *)
Lemma child_copy_run {A} done us ds ks s s2 v b (rest : M pstate A) Q :
  copied done us ds ks s -> v ∈ vs -> v ∉ done -> NoDup done -> (forall w, w ∈ done -> w ∈ vs) -> length b = Z.to_nat PG_SIZE ->
  user_pool (pm s2) = user_pool (pm s) -> kernel_pool (pm s2) = kernel_pool (pm s) ->
  page_tab (pm s2) = child_tab s ∪ kernel_part T -> page_data (pm s2) = <[fb := b]> (page_data (pm s)) ->
  (forall k og m', page_got (pm s2) m' v k (bool_decide (dir_of v ∈ ds)) og ->
     pool_lock (user_pool m') = pool_lock (user_pool (pm s2)) ->
     wp rest Q (set_pm (set_page_data (<[uframe (pm s0) k := b]> (page_data (pm s2))) m') s2)) ->
  wp (on_pm (get_a_page_without_opvaddrbitmap PF_USER v) ;; do b <- on_pm (ld_page buf); on_pm (st_page v 0 b) ;; rest) Q s2.
Proof using Hcc.
  intros Hc Hv Hnd Hdn Hsub Hlen Eu Ek Et Ed HQ.
  destruct (cc_pages _ _ _ _ _ _ _ _ _ _ _ _ _ _ _ Hcc v Hv) as (Hup & _). pose proof (user_page_bound v Hup) as Hvb.
  destruct (frames_left _ _ _ _ _ _ Hc Hv Hnd Hdn Hsub) as [(i & Hi & Hif) Hj].
  destruct (cp_starts _ _ _ _ _ Hc) as (S1 & S2 & S3). destruct (cc_upool _ _ _ _ _ _ _ _ _ _ _ _ _ _ _ Hcc) as [Hpu Hlk].
  pose proof (pool_ok_upd _ _ _ _ _ Hpu (cp_ubits _ _ _ _ _ Hc) S1) as Hpu'.
  pose proof (pool_ok_upd _ _ _ _ _ (cc_kpool _ _ _ _ _ _ _ _ _ _ _ _ _ _ _ Hcc) (cp_kbits _ _ _ _ _ Hc) S2) as Hpk'.
  destruct (cc_kernel _ _ _ _ _ _ _ _ _ _ _ _ _ _ _ Hcc) as (Kb & _ & _). destruct (cc_buf _ _ _ _ _ _ _ _ _ _ _ _ _ _ _ Hcc) as [Hbuf _].
  pose proof (to_user _ _ _ _ _ (cp_child _ _ _ _ _ Hc)) as Huo.
  destruct (child_window _ _ _ _ _ v Hc Hup) as (d & Hd1 & Hd2 & Hd3).
  assert (Eub : ubits (pm s2) = ubits (pm s)) by (unfold ubits; by rewrite Eu). assert (Ekb : kbits (pm s2) = kbits (pm s)) by (unfold kbits; by rewrite Ek).
  assert (Hj' : exists j, Z.testbit d 0 = false -> 0 <= j < klen (pm s) /\ bit_used (kbits (pm s)) j = false).
  { rewrite Hd2. case_bool_decide as Hin; [by exists 0|]. destruct (Hj Hin) as [j Hj']. by exists j. }
  destruct Hj' as [j Hj']. rewrite wp_bind, wp_on_pm.
  apply (get_a_page_run (pm s2) v d i j); [done|by rewrite Eub, Eu|rewrite Eu; lia|unfold ulen; by rewrite Eub|by rewrite Eub|by rewrite Et| | |].
  - rewrite Hd2, Et. intros Hin%bool_decide_eq_true. by apply Hd3.
  - intros Hin. unfold klen. rewrite Ekb, Ek. split; [done|by apply Hj'].
  - intros k og m' Hg Hl. rewrite Hd2 in Hg. pose proof Hg as [[Hk Hkf] _ _ _ _ Gtab Gdata].
    unfold ulen in Hk. rewrite Eub in Hk, Hkf. destruct (free_frame _ _ _ _ _ _ Hc Hk Hkf) as (Hk0 & Hf0 & Hnew).
    assert (Euf : uframe (pm s2) k = uframe (pm s0) k) by (unfold uframe; by rewrite Eu, S1). rewrite Euf in Gtab.
    destruct (pool_frame _ _ _ Hpu Hk0) as (Hfr & Hfm & _). fold (uframe (pm s0) k) in Hfr, Hfm.
    assert (Hbh : page_holds (page_tab m') (page_data m') buf fb b).
    { eapply (kernel_page_holds T); [done| |by rewrite Gdata, Ed, lookup_insert_eq|by exists bb].
      intros p Hp. rewrite (tab_added_kernel _ _ _ _ _ _ Hup Gtab Hp), Et. by apply joined_kernel. }
    rewrite wp_bind, wp_on_pm. eapply ld_page_holds; [exact Hbh|done|]. rewrite wp_bind, wp_on_pm.
    destruct (free_data _ _ _ _ _ _ Hc Hk0 Hf0 Hnew) as (bk & Hbk & Hbkl).
    destruct (cc_apart _ _ _ _ _ _ _ _ _ _ _ _ _ _ _ Hcc) as (_ & _ & Hap).
    eapply st_page_holds; [|done| |].
    + eapply (added_holds _ _ _ (uframe (pm s0) k) _ _ bk); [lia|done|exact Gtab|]. cbn. rewrite Gdata, Ed, lookup_insert_ne; [done|]. apply not_eq_sym. by apply Hap.
    + congruence.
    + cbn. rewrite Gdata. by apply (HQ k og m').
Qed.

Lemma copy_page_run done us ds ks s v :
  copied done us ds ks s -> v ∈ vs -> v ∉ done -> NoDup done -> (forall w, w ∈ done -> w ∈ vs) ->
  wp (copy_page child parent buf v) (fun _ s' => exists us' ds' ks', copied (done ++ [v]) us' ds' ks' s') s.
Proof using Hcc.
  intros Hc Hv Hnd Hdn Hsub. destruct (cc_pages _ _ _ _ _ _ _ _ _ _ _ _ _ _ _ Hcc v Hv) as (Hup & x & b & Hxb & _ & Hxfb & _).
  destruct (copied_kept _ _ _ _ _ _ _ _ Hc Hv Hxb) as [Hxb' Hlen].
  destruct (cp_rest _ _ _ _ _ Hc) as (R1 & R2 & R3 & R4 & R5). pose proof (cp_tab _ _ _ _ _ Hc) as Htab.
  destruct (cc_dirs _ _ _ _ _ _ _ _ _ _ _ _ _ _ _ Hcc) as (D1 & D2 & D3 & _). destruct (cc_kernel _ _ _ _ _ _ _ _ _ _ _ _ _ _ _ Hcc) as (K1 & K2 & K3).
  destruct (cc_apart _ _ _ _ _ _ _ _ _ _ _ _ _ _ _ Hcc) as (Hfc & Hfp & Hap). destruct (cp_buf _ _ _ _ _ Hc) as (b0 & Hb0 & Hl0).
  destruct (cc_buf _ _ _ _ _ _ _ _ _ _ _ _ _ _ _ Hcc) as [Hbuf Hbl]. destruct (cc_cdir _ _ _ _ _ _ _ _ _ _ _ _ _ _ _ Hcc) as [Hcd _].
  pose proof (cc_pdir _ _ _ _ _ _ _ _ _ _ _ _ _ _ _ Hcc) as Hpd. pose proof (to_user _ _ _ _ _ (cp_child _ _ _ _ _ Hc)) as Huo.
  unfold copy_page. rewrite wp_bind, wp_on_pm. eapply (ld_page_holds T); [exact Hxb'|by rewrite Htab|]. rewrite wp_bind, wp_on_pm.
  assert (Hkb : page_holds T (page_data (pm s)) buf fb b0) by (eapply (kernel_page_holds T); [done|done|done|by exists bb]).
  eapply (st_page_holds T); [exact Hkb|by cbn; rewrite Htab|congruence|].
  set (s1 := set_pm _ _). rewrite wp_bind.
  assert (Hcd1 : page_holds (page_tab (pm s1)) (page_data (pm s1)) (pgdir tc) fc bc).
  { eapply (kernel_page_holds T); [done| | |by exists bc]; [intros p _; cbn; by rewrite Htab|]. cbn. rewrite lookup_insert_ne by done.
    destruct Hcd as (? & _ & _ & _ & Hbc). eapply kernel_data; [exact Hc|done|intros k Hk Hf; by apply Hap|done]. }
  eapply (activate_run s1 child tc fc bc); [cbn; rewrite R1; apply (cc_child _ _ _ _ _ _ _ _ _ _ _ _ _ _ _ Hcc)|done|cbn; congruence|exact Hcd1|].
  eapply (child_copy_run done us ds ks s _ v b); try done; [by cbn; rewrite Htab|]. intros k og m' Hg Hl. pose proof Hg as [[Hk Hkf] _ _ _ _ Gtab Gdata].
  destruct (free_frame _ _ _ _ _ _ Hc Hk Hkf) as (Hk0 & Hf0 & _).
  assert (Hker : forall p, user_entry p = false -> page_tab m' !! p = T !! p).
  { intros p Hp. rewrite (tab_added_kernel _ _ _ _ _ _ Hup Gtab Hp). cbn. rewrite Htab. by apply joined_kernel. }
  eapply (activate_run _ parent tp fp bp); [cbn; rewrite R1; apply (cc_parent _ _ _ _ _ _ _ _ _ _ _ _ _ _ _ Hcc)|done|cbn; congruence| |].
  { eapply (kernel_page_holds T); [done|exact Hker| |by exists bp]. cbn. rewrite !lookup_insert_ne; [|done|by apply Hap].
    destruct Hpd as (? & _ & _ & _ & Hbp). eapply kernel_data; [exact Hc|done|intros k' Hk' Hf'; by apply Hap|done]. }
  eexists _, _, _. eapply (copied_add _ _ _ _ s _ _ m'); try done.
  - cbn. by rewrite Htab.
  - cbn. rewrite R5, lookup_insert_eq. cbn. rewrite Htab. by apply rejoined.
  - unfold child_tab. cbn. by rewrite lookup_insert_eq.
Qed.

End copy.

(** ** The walk over the bitmap of the parent *)

Lemma used_pages_S va n : 0 <= n ->
  used_pages va (n + 1) = used_pages va n ++ (if bit_used (vaddr_bitmap va) n then [page_of va n] else []).
Proof.
  intros Hn. unfold used_pages. replace (n + 1) with (Z.of_nat (S (Z.to_nat n))) by lia. rewrite seqZ_S.
  replace (Z.of_nat (Z.to_nat n)) with n by lia. rewrite list.filter_app, fmap_app, Z.add_0_l. f_equal. rewrite list.filter_cons, list.filter_nil.
  destruct (decide (bit_used (vaddr_bitmap va) n = true)) as [->|Hb]; [done|]. by destruct (bit_used (vaddr_bitmap va) n).
Qed.

Lemma used_pages_skip va n (k : nat) : 0 <= n -> (forall j, n <= j < n + Z.of_nat k -> bit_used (vaddr_bitmap va) j = false) ->
  used_pages va (n + Z.of_nat k) = used_pages va n.
Proof.
  intros Hn. induction k as [|k IH]; intros Hu; [by rewrite Z.add_0_r|].
  replace (n + Z.of_nat (S k)) with (n + Z.of_nat k + 1) by lia. rewrite used_pages_S, Hu, app_nil_r by lia. apply IH. intros j Hj. apply Hu. lia.
Qed.

Lemma elem_of_used_pages va n v : v ∈ used_pages va n <-> exists i, 0 <= i < n /\ bit_used (vaddr_bitmap va) i = true /\ v = page_of va i.
Proof.
  unfold used_pages. rewrite list_elem_of_fmap. split.
  - intros (i & -> & [Hb Hi]%list_elem_of_filter). apply elem_of_seqZ in Hi. exists i. split; [lia|done].
  - intros (i & Hi & Hb & ->). exists i. split; [done|]. apply list_elem_of_filter. rewrite elem_of_seqZ. split; [done|lia].
Qed.

Lemma NoDup_used_pages va n : NoDup (used_pages va n).
Proof.
  unfold used_pages. apply NoDup_fmap_2; [intros i j; unfold page_of, PG_SIZE; lia|]. apply list.NoDup_filter, NoDup_seqZ.
Qed.

Lemma page_of_fresh va n : page_of va n ∉ used_pages va n.
Proof. intros (i & Hi & _ & E)%elem_of_used_pages. unfold page_of, PG_SIZE in E. lia. Qed.

Section walk.
Context (s0 : pstate) (child parent buf : Z) (tc tp : task_struct) (uf kf : list Z) (fb fc fp : Z) (bb bc bp : list Z) (p : uproc).
Local Notation va := (userprog_vaddr p).
Local Notation len := (btmp_bytes_len (vaddr_bitmap va)).
Context (Hcc : can_copy s0 child parent buf tc tp (used_pages va (8 * len)) uf kf fb fc fp bb bc bp).
Context (Hp : procs s0 !! parent = Some p) (Hwf : bitmap_wf (vaddr_bitmap va)).

(** The pages before the [n]-th are copied. *)
Definition walked (n : Z) (s : pstate) : Prop := exists us ds ks, copied s0 tc tp fb bc (used_pages va n) us ds ks s.

Lemma walk_bit v n s : 0 <= n < 8 * len -> bits (vaddr_bitmap va) !! Z.to_nat (n / 8) = Some v -> walked n s ->
  wp (if truthy (Z.land (Z.shiftl BITMAP_MASK (n mod 8)) v) then copy_page child parent buf (u32 (n * PG_SIZE + vaddr_start va)) else ret tt)
    (fun _ => walked (n + 1)) s.
Proof using Hcc.
  intros Hn Hv (us & ds & ks & Hc). rewrite Z.land_comm. unfold BITMAP_MASK. rewrite truthy_mask by (apply Z.mod_pos_bound; lia).
  rewrite <- (bit_used_byte (vaddr_bitmap va) n v) by (done || lia). pose proof (used_pages_S va n (proj1 Hn)) as Es. unfold walked. rewrite Es.
  destruct (bit_used (vaddr_bitmap va) n) eqn:Eb; [|by rewrite app_nil_r; exists us, ds, ks].
  assert (Hin : page_of va n ∈ used_pages va (8 * len)) by (apply elem_of_used_pages; by exists n).
  destruct (cc_pages _ _ _ _ _ _ _ _ _ _ _ _ _ _ _ Hcc _ Hin) as ((_ & Hr) & _).
  replace (u32 (n * PG_SIZE + vaddr_start va)) with (page_of va n) by (rewrite u32_small; unfold page_of in *; lia).
  eapply (copy_page_run s0 child parent buf tc tp); [exact Hcc|exact Hc|done|apply page_of_fresh|apply NoDup_used_pages|].
  intros w (i & Hi & Hb & ->)%elem_of_used_pages. apply elem_of_used_pages. exists i. split; [lia|done].
Qed.

Lemma walk_byte i s : 0 <= i < len -> walked (8 * i) s ->
  wp (do byte <- of_option (bits (vaddr_bitmap va) !! Z.to_nat i);
      if truthy byte then
        for_range 0 8 (fun idx_bit =>
          if truthy (Z.land (Z.shiftl BITMAP_MASK idx_bit) byte) then
            copy_page child parent buf (u32 ((i * 8 + idx_bit) * PG_SIZE + vaddr_start va))
          else ret tt)
      else ret tt) (fun _ => walked (8 * (i + 1))) s.
Proof using Hcc Hwf.
  intros Hi Hw. pose proof (wf_mem _ Hwf). destruct (bits_byte _ i Hwf) as (v & Hv & Hvr); [lia|]. wp_load Hv. destruct (truthy v) eqn:Et.
  - apply (wp_for_range (fun j => walked (8 * i + j))); [|by rewrite Z.add_0_r|intros s' Hs'; by replace (8 * (i + 1)) with (8 * i + 8) by lia].
    intros j s' Hj Hs'. pose proof (walk_bit v (8 * i + j) s') as Hb.
    replace ((8 * i + j) mod 8) with j in Hb by dlia. replace ((8 * i + j) / 8) with i in Hb by dlia.
    replace (i * 8 + j) with (8 * i + j) by lia. replace (8 * i + (j + 1)) with (8 * i + j + 1) by lia. apply Hb; [lia|done|done].
  - wp_simp. destruct Hw as (us & ds & ks & Hc). exists us, ds, ks. replace (8 * (i + 1)) with (8 * i + Z.of_nat 8) by lia.
    rewrite used_pages_skip; [done|lia|]. intros j Hj. rewrite (bit_used_byte _ j v); [|lia|by replace (j / 8) with i by dlia].
    assert (v = 0) as -> by (unfold truthy in Et; apply negb_false_iff in Et; lia). apply Z.bits_0.
Qed.

(** [C14] fork copies the address space: when copy_body_stack3 is done, each page
    that the parent has in use is mapped for the child to a user frame of its
    own, which was free and holds the bytes that the parent's page has; no
    other page of the child is mapped; the parent's directory is active again
    and its window, with every other frame but the buffer's, is as before. *)
Theorem copy_body_stack3_copies :
  wp (copy_body_stack3 child parent buf) (fun _ s => exists us ds ks, copied s0 tc tp fb bc (used_pages va (8 * len)) us ds ks s) s0.
Proof using Hcc Hp Hwf.
  unfold copy_body_stack3. wp_simp. rewrite Hp. wp_simp. pose proof (wf_len _ Hwf) as Hl.
  apply (wp_for_range (fun i => walked (8 * i))).
  - intros i s Hi Hw. apply walk_byte; [lia|done].
  - exists [], [], []. unfold used_pages. cbn. eapply copied_start, Hcc.
  - intros s Hw. replace (0 + Z.of_nat (Z.to_nat len)) with len in Hw by lia. exact Hw.
Qed.
End walk.

(** A parent with two pages, in one table, and a child whose directory is empty. *)
Definition demo_pcb3 (dir : Z) : task_struct := Task 0 TASK_READY 1 31 [] 31 0 dir STACK_MAGIC [] 0 (-1).
Definition demo_zero : list Z := replicate 4096 0.
Definition demo_uproc : uproc := UProc (VAddr (Bitmap 1 [3; 0]) 0x8048000) 0xc0106000 [].
Definition demo_fork : pstate :=
  PState
    (PMem (Pool (Bitmap 1 [7; 0]) MEM_BITMAP_BASE 0x100000 0x8000 0) (Pool (Bitmap 1 [3; 0]) MEM_BITMAP_BASE 0x400000 0x8000 0)
      (VAddr (Bitmap 1 [7; 0]) K_HEAP_START) (userprog_vaddr demo_uproc) 0xc0102000
      (list_to_map [(pte_ptr 0xc0100000, 0x100007); (pte_ptr 0xc0101000, 0x101007); (pte_ptr 0xc0102000, 0x102007);
                    (pte_ptr 0x8048000, 0x400007); (pte_ptr 0x8049000, 0x401007)])
      (list_to_map ([(0x100000, demo_zero); (0x101000, demo_zero); (0x102000, demo_zero);
                    (0x400000, replicate 4096 1); (0x401000, replicate 4096 2)] ++ ((fun k => (0x402000 + 4096 * k, demo_zero)) <$> seqZ 0 6))))
    (set_tasks {[0xc0103000 := demo_pcb3 0xc0101000; 0xc0104000 := demo_pcb3 0xc0102000]} demo_kstate)
    {[0xc0104000 := demo_uproc]} 2 ∅ ∅ 0xc0102000 0xc0009100.

Lemma demo_fork_data k : 0 <= k < 8 -> exists b, page_data (pm demo_fork) !! (0x400000 + k * 4096) = Some b /\ length b = Z.to_nat PG_SIZE.
Proof.
  intros Hk. assert (Hall : Forall (fun k => from_option length 0%nat (page_data (pm demo_fork) !! (0x400000 + k * 4096)) = Z.to_nat PG_SIZE) (seqZ 0 8))
    by (apply (bool_decide_unpack _); vm_compute; exact I).
  rewrite list.Forall_forall in Hall. specialize (Hall k). rewrite elem_of_seqZ in Hall. specialize (Hall ltac:(lia)).
  destruct (page_data (pm demo_fork) !! (0x400000 + k * 4096)) as [b|]; [|discriminate]. by exists b.
Qed.

Lemma demo_can_copy :
  can_copy demo_fork 0xc0103000 0xc0104000 0xc0100000 (demo_pcb3 0xc0101000) (demo_pcb3 0xc0102000)
    (used_pages (userprog_vaddr demo_uproc) 8) [2; 3] [3] 0x100000 0x101000 0x102000 demo_zero demo_zero demo_zero.
Proof.
  assert (Hpool : forall u st, (u = 7 \/ u = 3) -> 0 < st < 2 ^ 30 -> st mod PG_SIZE = 0 -> pool_ok (Bitmap 1 [u; 0]) st).
  { intros u st Hu Hs Hm. split; [split; cbn; [lia|lia|repeat constructor; lia]|done|lia|cbn; unfold PG_SIZE; lia]. }
  assert (Hfree : forall k, 0 <= k < 8 -> bit_used (Bitmap 1 [3; 0]) k = false -> 2 <= k < 8).
  { intros k Hk Hf. destruct (decide (k = 0)) as [->|]; [done|]. destruct (decide (k = 1)) as [->|]; [done|]. lia. }
  assert (Hholds : forall v x b e, page_tab (pm demo_fork) !! pte_ptr v = Some e -> Z.testbit e 0 = true -> Z.land e 0xfffff000 = x ->
    page_data (pm demo_fork) !! x = Some b -> page_holds (page_tab (pm demo_fork)) (page_data (pm demo_fork)) v x b) by (intros; by eexists).
  assert (Hz : length demo_zero = Z.to_nat PG_SIZE) by (apply (bool_decide_unpack _); vm_compute; exact I).
  split.
  - vm_compute. reflexivity.
  - vm_compute. reflexivity.
  - repeat split; done.
  - repeat split; done.
  - split; [|exact Hz]. by apply (Hholds _ _ _ 0x100007).
  - split; [by apply (Hholds _ _ _ 0x101007)|]. intros i Hi.
    assert (Hall : Forall (fun i => rd32 demo_zero (4 * i) = 0) (seq 0 768)) by (apply (bool_decide_unpack _); vm_compute; exact I).
    rewrite list.Forall_forall in Hall. apply Hall, elem_of_seq. lia.
  - by apply (Hholds _ _ _ 0x102007).
  - intros v Hv. change (used_pages (userprog_vaddr demo_uproc) 8) with [0x8048000; 0x8049000] in Hv.
    assert (Hkk : forall k x, k ∈ seqZ 0 8 -> bit_used (Bitmap 1 [3; 0]) k = false -> x < 0x402000 -> x <> uframe (pm demo_fork) k).
    { intros k x Hk Hf Hx. apply elem_of_seqZ in Hk. apply Hfree in Hf; [|lia]. unfold uframe, PG_SIZE. cbn. lia. }
    assert (Hl : forall x, length (replicate 4096 x : list Z) = Z.to_nat PG_SIZE) by (intros x; by rewrite length_replicate).
    rewrite !elem_of_cons in Hv. destruct Hv as [->|[->|[]%not_elem_of_nil]]; (split; [done|]).
    + exists 0x400000, (replicate 4096 1). split; [by apply (Hholds _ _ _ 0x400007)|]. split; [by apply Hl|]. split; [done|].
      intros k Hk Hf. by apply Hkk.
    + exists 0x401000, (replicate 4096 2). split; [by apply (Hholds _ _ _ 0x401007)|]. split; [by apply Hl|]. split; [done|].
      intros k Hk Hf. by apply Hkk.
  - apply NoDup_used_pages.
  - split; [done|]. split; [done|]. intros k Hk Hf. apply Hfree in Hf; [|done]. unfold uframe, PG_SIZE. cbn. lia.
  - split; [|done]. apply Hpool; [by right|done|done].
  - apply Hpool; [by left|done|done].
  - split; [apply (bool_decide_unpack _); vm_compute; exact I|]. split; [vm_compute; lia|].
    intros k [->|[->|[]%not_elem_of_nil]%elem_of_cons]%elem_of_cons; done.
  - split; [apply (bool_decide_unpack _); vm_compute; exact I|]. split; [vm_compute; lia|].
    intros k [->|[]%not_elem_of_nil]%elem_of_cons; done.
  - exact demo_fork_data.
Qed.

Lemma copy_body_stack3_copies_witness :
  wp (copy_body_stack3 0xc0103000 0xc0104000 0xc0100000)
    (fun _ s => exists us ds ks,
       copied demo_fork (demo_pcb3 0xc0101000) (demo_pcb3 0xc0102000) 0x100000 demo_zero (used_pages (userprog_vaddr demo_uproc) 8) us ds ks s) demo_fork.
Proof.
  apply (copy_body_stack3_copies demo_fork 0xc0103000 0xc0104000 0xc0100000 (demo_pcb3 0xc0101000) (demo_pcb3 0xc0102000)
    [2; 3] [3] 0x100000 0x101000 0x102000 demo_zero demo_zero demo_zero demo_uproc).
  - exact demo_can_copy.
  - reflexivity.
  - split; cbn; [lia|lia|repeat constructor; lia].
Defined.
